(* ===== verification/_CoqProject ===== *)
-Q . S2P
Prelude.v
DateTime.v
Timer.v
Queue.v
Chain.v
Sched.v
Lock.v
Semaphore.v
CoreAlloc.v
MemList.v
Kmalloc.v
KernelHeap.v
Paging.v
Regions.v
Pthread.v
Process.v
Frame.v
Packet.v
Socket.v
Strings.v
BufCache.v
Floppy.v
FatTable.v
FatFile.v
FatDir.v
Fd.v
Path.v
DirStream.v
Monitor.v
Vdisplay.v
Printf.v
Strtol.v
Kbd.v
