(* ===== verification/Prelude.v ===== *)
(** ATOM OS: a verification development of the kernel and of parts of its user
    library.

    ATOM OS is a small kernel for one i386 processor, written in C (src/base)
    with a user library (src/lib).  The clock interrupt and the keyboard
    interrupt enter the kernel; threads share the processor by the scheduler of
    timer.c and process.c; they wait for each other with the locks and events of
    lock.c and the semaphores of semaphore.c; a queue of timers wakes them up;
    vmmap.c hands out physical pages, kmalloc cuts them into the pieces the rest
    of the kernel asks for, and the address spaces of the processes map them
    through page tables; kbd.c and vdisplay.c make up the console.
    fat12.c keeps files and directories on floppy disks, fs.c calls it through a
    table of vnode operations and keeps the open files and their handles.
    socket.c keeps the sockets and sends packets to other hosts in windows of
    frames.  The
    same string functions serve the kernel and the user programs.

    ** How the code is modelled

    A C integer is a [Z] kept in the range of its type by [u8] .. [s32]; a
    pointer to a shared object is a [loc] and memory a finite map, so that an
    alias is seen as one; an array is a list read and written by [zget] and
    [zset].  What C leaves undefined (a bad pointer, an index out of range, a
    division by zero) is [None], and every theorem that says what a call does
    says that it returns.  A function that can sleep is cut where the scheduler
    runs: [lock_1] is [_lock] from its label to the return or to the [goto], the
    result [Blocked] says which.  CLI, STI and the spin locks make these pieces
    atomic on one processor; what runs between two pieces is any sequence of
    pieces of other threads, see [Lock.step].  Loops that are not structural
    carry fuel; the fuel is the number of objects or bytes the loop can visit
    and the theorems prove that it is never what ends the loop.  Three loops on
    the disk have constants instead: a FAT of 12 bit entries has less than 4096
    clusters, so no chain of a directory or file is longer ([DIR_FUEL] and
    [free_cluster_chain]), and a directory of 4096 blocks of 16 entries has less
    than 65537 entries ([LOOKUP_FUEL]).  The loop over 4 MB slots of a region has
    1025 turns, one more than a directory has slots; it needs more only for a
    region in the last slot, where the code does not end either
    ([expand_top_never_ends]).

    ** The files

    - Prelude.v: machine integers, arrays, the tactics used everywhere.
    - DateTime.v (timer.c): seconds to dates and back.  The round trip holds for
      every 32-bit time but three days in four years, on which the code reads
      past an array.
    - Timer.v (timer.c): the delta list of timers with its links.  Each operation
      is described by the times at which the timers are due: start adds one,
      stop removes one, a tick brings all nearer, expiry calls the handlers that
      are due, in order.
    - Queue.v (lock.h, process.c): the macros on doubly linked thread queues as
      operations on lists; later files use lists.
    - Chain.v: singly linked lists in a finite map and the loops that walk along
      them, for the lists of threads and processes.
    - Sched.v (timer.c, process.c): threads, the 32 ready queues, clock
      interrupt, scheduler, priority ageing.  Invariant: a thread is on the
      queue of its priority exactly when it is ready, and one thread runs.
    - Lock.v (lock.c): locks with priority inheritance, recursive locks, events,
      timed waits; a transition system of threads that call them, and mutual
      exclusion in every reachable state.
    - Semaphore.v (semaphore.c): the semaphore table and its calls.
    - CoreAlloc.v (vmmap.c): the list of free physical pages, kept in those
      pages; allocation takes free bytes, freeing gives back the same bytes, and
      the list stays sorted, disjoint and joined.
    - MemList.v, Kmalloc.v (vmmap.c): the lists of free and used pieces of the
      kernel heap, on any source of pages; [kmalloc] returns bytes no one has,
      [kfree] gives the same bytes back and joins the neighbours.
    - KernelHeap.v: what the address spaces ask of the kernel's memory, records
      and frames, as a type class; Kmalloc.v over CoreAlloc.v is the instance.
    - Paging.v (vmmap.c, process.c): directories and tables as bytes of physical
      memory and the translation the processor makes of them; the kernel's own
      tables map every address to itself; copies between address spaces; segment
      descriptors.
    - Regions.v (vmmap.c): regions, segments and page-table lists of an address
      space for any [KernelHeap].  A new region is mapped to frames that nobody
      had and changes no other address; deleting it, and destroying a space,
      give back each frame and each record once; a new space has the kernel in
      it and nothing else; brk and private pages.  Six defects.
    - Pthread.v (pthread.c, process.c): mutexes and conditions on the locks and
      events of Lock.v; barriers, at which nobody passes before the last of a
      round; joining, detaching and the list of threads of a process; where the
      stack of a new thread goes.
    - Process.v (process.c): tables and pools of processes and threads, creation,
      termination, the handler that takes the dead apart, wait and kill.  Threads
      in use never share a task state, orphans go to the parent of their parent
      and the blocks of the dead back to the pool or the heap, and section headers are sorted; how the list of processes breaks, and why
      there are never more than 32 processes, are defects stated as theorems.
    - Frame.v (socket.c, packet.h): the bytes of a network frame and its checksum.
    - Packet.v (socket.c): the transmitter cuts a packet into windows of frames,
      the assembler of the other host puts it together and acknowledges.  Under
      any loss, order and repetition of frames, with timers that interrupt the
      assembler between any two steps, what is delivered is what was
      sent; over a network that loses nothing every packet is delivered, if the
      memory of the packet is not used again between its release and the test of
      the loop that reads it ([settled]); the ways in which the protocol fails
      are theorems.
    - Socket.v (socket.c): the table of sockets, ports, streams and datagrams.
      Two connected sockets of a host are a pipe of bytes, and so are two sockets
      of different hosts through Packet.v; ports stay different; calls that wait
      for a lock they hold and bytes that a close loses are theorems.
    - Strings.v (string.c of both directories): on one byte memory, with
      overlapping copies.
    - BufCache.v (fs.c): the cache of disk blocks with its hash lists, free list
      and delayed writes, described by the block a reader sees; four defects of
      its lists.  The drive below it is a type class.
    - Floppy.v (fdc.c): the driver above the controller's commands: sector
      addresses, transfers over tracks, retries, the queue of requests sorted by
      block; it is a drive for the cache, and a block written through both reaches
      the disk.
    - FatTable.v (fat12.c): the table of 12 bit entries as a map from clusters,
      chains, allocation and freeing of clusters, [statvfs].
    - FatFile.v (fat12.c): reading, writing and truncating a file; the calls are
      those of a list of bytes.  The disk is a type class of blocks.
    - FatDir.v (fat12.c): names, directory entries, and the calls that create,
      find, rename and remove files and directories, described on the list of
      entries of a directory.
    - Fd.v (fs.c): the table of open files and the handles of processes over an
      abstract vnode (a type class), the FAT12 file as an instance of it.
    - Path.v (fs.c, fat12.c): vnodes with their counts, locks and hash lists, and
      path names.  A lookup arrives at the vnode that a walk by the names finds on
      disk, for any directories (a type class); what it leaves counted, and how a
      stat takes a count too many from a directory, are theorems.
    - DirStream.v (fs.c): opening a directory and reading it entry by entry; the
      calls return the entries of the directory in order, each once.
    - Monitor.v: what a driver needs of locks and events as a type class, and
      the instance from Lock.v.
    - Vdisplay.v (vdisplay.c): the loops on screen bytes implement a terminal of
      cells; changing the process on display loses nothing.
    - Printf.v (vdisplay.c): [number], [vsprintf], [printk].
    - Strtol.v (strtol.c): numbers from text; what [number] prints is read back.
    - Kbd.v (kbd.c): the decoder of scan codes against a history of key events,
      the input buffer as a queue, proved for any [Monitor].

    Each file has its definitions first, then an invariant or an abstract view of
    the state, the lemmas, the theorems, the defects found in the code stated as
    theorems, and concrete states at which the theorems are applied.

    ** What is not modelled

    Registers, the FPU, the boot code and the interrupt entry in assembly; the
    lookaside buffer of the processor, which the code empties whenever it turns
    paging off; the port input and output of the floppy driver
    and the network driver; the broadcasts of threads; loading an executable, and the start-up of
    the system process; the shell and the rest of the user library.  Of the file system: the calls
    that only combine a lookup of Path.v with an operation of FatDir.v (mkdir, rmdir,
    unlink), and rename and chmod, which do not work; the FAT12 files use a class of
    blocks without the cache's failures, because the cache keeps its promise
    only while no defect of BufCache.v is met.  Processes call the files, the
    sockets and the memory of others only through a list of calls, because those
    models have states of their own.  Left for later: those calls of the
    file system and the user heap.  The loop of windows in
    [Packet.exchange] has as much fuel as the packet has bytes, since a window
    takes at least one. *)
From Stdlib Require Export ZArith Lia.
From stdpp Require Export base list gmap strings.

Global Open Scope Z_scope.

(** * Machine integers of the i386 target

    [int] and [long] are 32 bits wide, [short] 16 and [char] 8 (signed).  A
    value of a C integer type is a [Z]; the function of the type's name brings
    the exact result of an operation back into the type's range, which is what
    a conversion or a store into an object of that type does. *)

Definition u8 (x : Z) : Z := x mod 2 ^ 8.
Definition u16 (x : Z) : Z := x mod 2 ^ 16.
Definition u32 (x : Z) : Z := x mod 2 ^ 32.
Definition s8 (x : Z) : Z := (x + 2 ^ 7) mod 2 ^ 8 - 2 ^ 7.
Definition s16 (x : Z) : Z := (x + 2 ^ 15) mod 2 ^ 16 - 2 ^ 15.
Definition s32 (x : Z) : Z := (x + 2 ^ 31) mod 2 ^ 32 - 2 ^ 31.

(** C's [/] and [%] truncate towards zero. *)
Definition cdiv (a b : Z) : Z := Z.quot a b.
Definition cmod (a b : Z) : Z := Z.rem a b.

(** A C condition as an integer test: any bit of the mask set. *)
Definition has_bits (x m : Z) : bool := negb (Z.land x m =? 0).

Create HintDb width.
Create Rewrite HintDb width_rw.

Lemma u8_id x : 0 <= x < 2 ^ 8 -> u8 x = x.
Proof. intros; unfold u8; rewrite Z.mod_small; lia. Qed.
Lemma u16_id x : 0 <= x < 2 ^ 16 -> u16 x = x.
Proof. intros; unfold u16; rewrite Z.mod_small; lia. Qed.
Lemma u32_id x : 0 <= x < 2 ^ 32 -> u32 x = x.
Proof. intros; unfold u32; rewrite Z.mod_small; lia. Qed.
Lemma s8_id x : - 2 ^ 7 <= x < 2 ^ 7 -> s8 x = x.
Proof. intros; unfold s8; rewrite Z.mod_small; lia. Qed.
Lemma s16_id x : - 2 ^ 15 <= x < 2 ^ 15 -> s16 x = x.
Proof. intros; unfold s16; rewrite Z.mod_small; lia. Qed.
Lemma s32_id x : - 2 ^ 31 <= x < 2 ^ 31 -> s32 x = x.
Proof. intros; unfold s32; rewrite Z.mod_small; lia. Qed.
Lemma u8_range x : 0 <= u8 x < 2 ^ 8.
Proof. unfold u8; apply Z.mod_pos_bound; lia. Qed.
Lemma u16_range x : 0 <= u16 x < 2 ^ 16.
Proof. unfold u16; apply Z.mod_pos_bound; lia. Qed.
Lemma u32_range x : 0 <= u32 x < 2 ^ 32.
Proof. unfold u32; apply Z.mod_pos_bound; lia. Qed.

Lemma s8_range x : - 2 ^ 7 <= s8 x < 2 ^ 7.
Proof. unfold s8; pose proof (Z.mod_pos_bound (x + 2 ^ 7) (2 ^ 8)); lia. Qed.
Lemma s16_range x : - 2 ^ 15 <= s16 x < 2 ^ 15.
Proof. unfold s16; pose proof (Z.mod_pos_bound (x + 2 ^ 15) (2 ^ 16)); lia. Qed.
Lemma s32_range x : - 2 ^ 31 <= s32 x < 2 ^ 31.
Proof. unfold s32; pose proof (Z.mod_pos_bound (x + 2 ^ 31) (2 ^ 32)); lia. Qed.

(** Unsigned arithmetic only sees residues, whatever the width functions in
    between. *)
Lemma s32_u32 x : s32 (u32 x) = s32 x.
Proof. unfold s32, u32. by rewrite Zplus_mod_idemp_l. Qed.
Lemma u32_s32 x : u32 (s32 x) = u32 x.
Proof.
  unfold u32, s32. rewrite Zminus_mod_idemp_l. f_equal. lia.
Qed.
Lemma u32_add_l x y : u32 (u32 x + y) = u32 (x + y).
Proof. unfold u32. apply Zplus_mod_idemp_l. Qed.
Lemma u32_add_r x y : u32 (x + u32 y) = u32 (x + y).
Proof. unfold u32. apply Zplus_mod_idemp_r. Qed.
Lemma u32_add_s32_r x y : u32 (x + s32 y) = u32 (x + y).
Proof. rewrite <- (u32_add_r x (s32 y)), u32_s32. apply u32_add_r. Qed.
Lemma u32_add_ll x y z : u32 (u32 x + y + z) = u32 (x + y + z).
Proof. rewrite <- !Z.add_assoc. apply u32_add_l. Qed.
Lemma u32_add_s32_l x y : u32 (s32 x + y) = u32 (x + y).
Proof. rewrite Z.add_comm, u32_add_s32_r. f_equal. lia. Qed.
Lemma s32_add_l x y : s32 (s32 x + y) = s32 (x + y).
Proof. unfold s32. f_equal. replace ((x + 2 ^ 31) mod 2 ^ 32 - 2 ^ 31 + y + 2 ^ 31) with ((x + 2 ^ 31) mod 2 ^ 32 + y) by lia.
  rewrite Zplus_mod_idemp_l. f_equal. lia. Qed.
Lemma u32_add_s32_ll x y z : u32 (s32 x + y + z) = u32 (x + y + z).
Proof. rewrite <- !Z.add_assoc. apply u32_add_s32_l. Qed.

#[export] Hint Rewrite u32_s32 u32_add_s32_ll u32_add_s32_l u32_add_ll u32_add_l u32_add_r u32_add_s32_r : width_rw.
#[export] Hint Resolve s8_range s16_range s32_range : width.
#[export] Hint Resolve u8_range u16_range u32_range : width.

(** Equalities modulo 2^32, through any nesting of [u32] and [s32]. *)
Ltac u32_lia := unfold u32, s32 in *; Z.div_mod_to_equations; lia.

(** Drop the width functions whose argument is in range by [lia]. *)
Ltac unwrap :=
  repeat match goal with
  | |- context [u8 ?x] => rewrite (u8_id x) by lia
  | |- context [u16 ?x] => rewrite (u16_id x) by lia
  | |- context [u32 ?x] => rewrite (u32_id x) by lia
  | |- context [s8 ?x] => rewrite (s8_id x) by lia
  | |- context [s16 ?x] => rewrite (s16_id x) by lia
  | |- context [s32 ?x] => rewrite (s32_id x) by lia
  end.
Ltac unwrap_in H :=
  repeat match type of H with
  | context [u8 ?x] => rewrite (u8_id x) in H by lia
  | context [u16 ?x] => rewrite (u16_id x) in H by lia
  | context [u32 ?x] => rewrite (u32_id x) in H by lia
  | context [s8 ?x] => rewrite (s8_id x) in H by lia
  | context [s16 ?x] => rewrite (s16_id x) in H by lia
  | context [s32 ?x] => rewrite (s32_id x) in H by lia
  end.

(** * Pointers

    An address of an object in memory is a [loc]; a pointer is an address or
    [NULL].  Memory holding objects of one type is a finite map from [loc];
    dereferencing a pointer with no object there is undefined: [None]. *)

Abbreviation loc := positive.
Abbreviation ptr := (option loc).
Abbreviation NULL := (@None loc).

(** * Arrays indexed by C integers

    Reading or writing outside the array is undefined behaviour: [None]. *)

Definition zget {A} (l : list A) (i : Z) : option A :=
  if i <? 0 then None else l !! Z.to_nat i.

Definition zset {A} (l : list A) (i : Z) (x : A) : option (list A) :=
  if (i <? 0) || (Z.of_nat (length l) <=? i) then None else Some (<[Z.to_nat i := x]> l).

Definition zlen {A} (l : list A) : Z := Z.of_nat (length l).

Arguments zget : simpl never.
Arguments zset : simpl never.

Section Arrays.
Context {A : Type}.
Implicit Types (l : list A) (i j : Z) (x : A).

Lemma zget_Some_range l i x : zget l i = Some x -> 0 <= i < zlen l.
Proof.
  unfold zget, zlen; destruct (i <? 0) eqn:E; [done|].
  intros H%lookup_lt_Some; apply Z.ltb_ge in E; lia.
Qed.

Lemma zget_is_Some l i : 0 <= i < zlen l -> is_Some (zget l i).
Proof.
  unfold zget, zlen; intros. destruct (Z.ltb_spec i 0); [lia|].
  apply lookup_lt_is_Some; lia.
Qed.

Lemma zset_Some l i x : 0 <= i < zlen l -> zset l i x = Some (<[Z.to_nat i := x]> l).
Proof.
  unfold zset, zlen; intros.
  destruct (Z.ltb_spec i 0); [lia|]; destruct (Z.leb_spec (Z.of_nat (length l)) i); [lia|done].
Qed.

Lemma zset_inv l l' i x :
  zset l i x = Some l' -> 0 <= i < zlen l /\ l' = <[Z.to_nat i := x]> l.
Proof.
  unfold zset, zlen. destruct (Z.ltb_spec i 0); [done|].
  destruct (Z.leb_spec (Z.of_nat (length l)) i); [done|]. intros [= <-]; split; [lia|done].
Qed.

Lemma zlen_zset l l' i x : zset l i x = Some l' -> zlen l' = zlen l.
Proof. intros [_ ->]%zset_inv. unfold zlen. by rewrite length_insert. Qed.

Lemma zget_zset_eq l l' i x : zset l i x = Some l' -> zget l' i = Some x.
Proof.
  intros [Hi ->]%zset_inv. unfold zget, zlen in *. destruct (Z.ltb_spec i 0); [lia|].
  apply list_lookup_insert_eq; lia.
Qed.

Lemma zget_zset_ne l l' i j x : zset l i x = Some l' -> i <> j -> zget l' j = zget l j.
Proof.
  intros [Hi ->]%zset_inv Hne. unfold zget. destruct (Z.ltb_spec j 0); [done|].
  apply list_lookup_insert_ne; lia.
Qed.

End Arrays.

#[export] Hint Resolve zget_zset_eq zlen_zset : width.

(** * Lists *)

Lemma filter_all {A} (P : A -> Prop) `{!forall x, Decision (P x)} (l : list A) :
  Forall P l -> filter P l = l.
Proof.
  induction 1 as [|x l Hx Hl IH]; [done|]. by rewrite filter_cons, decide_True, IH.
Qed.

Lemma Forall_filter {A} (P Q : A -> Prop) `{!forall x, Decision (Q x)} (l : list A) :
  Forall P l -> Forall P (filter Q l).
Proof.
  rewrite !Forall_forall. intros HP x [_ Hx]%list_elem_of_filter. auto.
Qed.

Lemma last_cons_default {A} (x d : A) l : List.last (x :: l) d = List.last l x.
Proof. revert x d. induction l as [|y l IH]; intros x d; [done|]. change (List.last (y :: l) d = List.last (y :: l) x). by rewrite !IH. Qed.

(** One step of a computation that returned, without unfolding what follows. *)
Lemma bind_Some {A B} (f : A -> option B) (x : A) : mbind f (Some x) = f x.
Proof. done. Qed.

(** * Case analysis tactics shared by the components *)

(** Destruct the condition of the first [if] on a boolean comparison, with its
    specification as hypothesis. *)
Ltac case_ztest :=
  match goal with
  | |- context [if ?a <? ?b then _ else _] => destruct (Z.ltb_spec a b)
  | |- context [if ?a <=? ?b then _ else _] => destruct (Z.leb_spec a b)
  | |- context [if ?a =? ?b then _ else _] => destruct (Z.eqb_spec a b)
  | H : context [if ?a <? ?b then _ else _] |- _ => destruct (Z.ltb_spec a b)
  | H : context [if ?a <=? ?b then _ else _] |- _ => destruct (Z.leb_spec a b)
  | H : context [if ?a =? ?b then _ else _] |- _ => destruct (Z.eqb_spec a b)
  end.

(** Split a monadic computation that returned into its steps. *)
Ltac bind_inv H :=
  match type of H with
  | (_ ← ?m; _) = Some _ =>
      let E := fresh "E" in destruct m eqn:E; cbn [mbind option_bind] in H; [|discriminate H]
  end.

(** The same for one step, naming the value it gives and its equation. *)
Tactic Notation "step" hyp(H) "as" simple_intropattern(x) "from" ident(E) :=
  match type of H with
  | mbind _ ?m = Some _ => destruct m as [x|] eqn:E; cbn [mbind option_bind] in H; [|discriminate H]
  end.

(** Propositional steps over linear facts. *)
Ltac lia_or := split; intros; repeat match goal with H : _ \/ _ |- _ => destruct H end; try (by auto); try tauto; try (left; lia); try (right; left; lia); try (right; lia); try lia; try (left; tauto); try (right; tauto).
