(* ===== verification/DateTime.v ===== *)
(** Calendar conversion of the kernel clock ([src/base/timer.c]): seconds since
    1970 to a [struct date_time] and back. *)
From S2P Require Import Prelude.

Module DateTime.

(** [struct date_time] of src/include/timer.h; every field is a [short]. *)
Record date_time := mk_dt {
  seconds : Z; minutes : Z; hours : Z; date : Z; month : Z; year : Z }.

(** [int month_days[] = {0,31,28,...}] with entry 2 set from the year. *)
Definition month_days (yr : Z) : list Z :=
  [0; 31; if cmod yr 4 =? 0 then 29 else 28; 31; 30; 31; 30; 31; 31; 30; 31; 30; 31].

(** [while (mdays + month_days[dt.month] <= days) mdays += month_days[dt.month++];]
    The array has 13 entries, so reading entry 13 is undefined ([None]); the
    fuel is the number of entries still in the array. *)
Fixpoint find_month (fuel : nat) (md : list Z) (days mdays mon : Z) : option (Z * Z) :=
  match fuel with
  | O => None
  | S fuel' =>
      len ← zget md mon;
      if mdays + len <=? days then find_month fuel' md days (mdays + len) (s16 (mon + 1))
      else Some (mdays, mon)
  end.

(** The year and the day within it, from the day number. *)
Definition split_year (days0 : Z) : Z * Z :=
  let yr := s16 (1970 + 4 * cdiv days0 1461) in
  let days := cmod days0 1461 in
  if 1096 <? days then (s16 (yr + 3), days - 1096)
  else if 730 <? days then (s16 (yr + 2), days - 730)
  else if 365 <? days then (s16 (yr + 1), days - 365)
  else (yr, days).

Definition secs_to_date (secs : Z) : option date_time :=
  let days := secs / (24 * 3600) in
  let secs := secs mod (24 * 3600) in
  let '(yr, days) := split_year days in
  r ← find_month 14 (month_days yr) days 0 1;
  let '(mdays, mon) := r in
  let secs' := secs mod 3600 in
  Some (mk_dt (s16 (secs' mod 60)) (s16 (secs' / 60)) (s16 (secs / 3600))
              (s16 (days - mdays + 1)) mon yr).

(** [for (i=1; i<dt.month; i++) days += month_days[i];] *)
Fixpoint add_months (n : nat) (i mon : Z) (md : list Z) (days : Z) : option Z :=
  if i <? mon then
    match n with
    | O => None
    | S n' => len ← zget md i; add_months n' (i + 1) mon md (days + len)
    end
  else Some days.

Definition date_to_secs (dt : date_time) : option Z :=
  let md := month_days (year dt) in
  let secs := u32 (s32 (cdiv (year dt - 1970) 4 * (1461 * 24 * 3600))) in
  let yr := s16 (cmod (year dt - 1970) 4) in
  let secs := u32 (secs + s32 (yr * (365 * 24 * 3600))) in
  let days := if 2 <? yr then 1 else 0 in
  days ← add_months 13 1 (month dt) md days;
  let days := days + (date dt - 1) in
  Some (u32 (secs + s32 (days * 24 * 3600 + hours dt * 3600 + minutes dt * 60 + seconds dt))).

(** The day numbers of 1 January of the second, third and fourth year of the
    four-year cycle that starts in 1970. *)
Definition new_year_day (d : Z) : Prop := d mod 1461 = 365 \/ d mod 1461 = 730 \/ d mod 1461 = 1096.

(** * The finite part

    Days enter only through their number [r] in the four-year cycle: the year
    within the cycle, the day within that year and the month found for it. *)

Definition cycle_year (r : Z) : Z :=
  if 1096 <? r then 3 else if 730 <? r then 2 else if 365 <? r then 1 else 0.
Definition cycle_day (r : Z) : Z :=
  if 1096 <? r then r - 1096 else if 730 <? r then r - 730 else if 365 <? r then r - 365 else r.
Definition cycle_month (r : Z) : option (Z * Z) :=
  find_month 14 (month_days (1970 + cycle_year r)) (cycle_day r) 0 1.

(** The calendar's own successor of a day, the reference for [secs_to_date]. *)
Definition is_leap (y : Z) : bool := y mod 4 =? 0.
Definition month_length (y m : Z) : Z :=
  if m =? 2 then (if is_leap y then 29 else 28)
  else if (m =? 4) || (m =? 6) || (m =? 9) || (m =? 11) then 30 else 31.
Definition next_day (d m y : Z) : Z * Z * Z :=
  if d <? month_length y m then (d + 1, m, y)
  else if m <? 12 then (1, m + 1, y) else (1, 1, y + 1).

Definition is_new_year (r : Z) : bool := (r =? 365) || (r =? 730) || (r =? 1096).

(** What is checked for each of the 1461 days of the cycle. *)
Definition day_ok (r : Z) : bool :=
  match cycle_month r with
  | Some (mdays, mon) =>
      negb (is_new_year r)
      && (1 <=? mon) && (mon <=? 12) && (0 <=? mdays) && (mdays <=? cycle_day r)
      && (cycle_day r - mdays + 1 <=? month_length (1970 + cycle_year r) mon)
      && match add_months 13 1 mon (month_days (1970 + cycle_year r))
                 (if 2 <? cycle_year r then 1 else 0) with
         | Some n => n + cycle_day r - mdays + 365 * cycle_year r =? r
         | None => false
         end
  | None => is_new_year r
  end.

Definition date_of (r : Z) : option (Z * Z * Z) :=
  '(mdays, mon) ← cycle_month r; Some (cycle_day r - mdays + 1, mon, cycle_year r).

(** The days [r] and [r + 1] of a cycle carry successive dates. *)
Definition succ_ok (r : Z) : bool :=
  match date_of r, date_of (r + 1) with
  | Some (d, m, k), Some (d', m', k') =>
      let '(d'', m'', y'') := next_day d m (1970 + k) in
      (d' =? d'') && (m' =? m'') && (1970 + k' =? y'')
  | _, _ => is_new_year r || is_new_year (r + 1)
  end.

Definition cycle_days : list Z := seqZ 0 1461.

Lemma all_days_ok : forallb day_ok cycle_days = true.
Proof. vm_compute. reflexivity. Qed.

Lemma all_succ_ok : forallb succ_ok (seqZ 0 1460) = true.
Proof. vm_compute. reflexivity. Qed.

Lemma day_ok_cycle r : 0 <= r < 1461 -> day_ok r = true.
Proof.
  intros. apply (proj1 (forallb_forall _ _) all_days_ok), list_elem_of_In, elem_of_seqZ. lia.
Qed.

Lemma succ_ok_cycle r : 0 <= r < 1460 -> succ_ok r = true.
Proof.
  intros. apply (proj1 (forallb_forall _ _) all_succ_ok), list_elem_of_In, elem_of_seqZ. lia.
Qed.

(** * From a day number to its cycle *)

Lemma month_days_cycle q k : 0 <= q -> 0 <= k -> month_days (1970 + 4 * q + k) = month_days (1970 + k).
Proof.
  intros. unfold month_days, cmod. rewrite !Z.rem_mod_nonneg by lia.
  replace (1970 + 4 * q + k) with (1970 + k + q * 4) by lia. by rewrite Z.mod_add by lia.
Qed.

Lemma split_year_cycle q r :
  0 <= q <= 34 -> 0 <= r < 1461 ->
  split_year (1461 * q + r) = (1970 + 4 * q + cycle_year r, cycle_day r).
Proof.
  intros Hq Hr. unfold split_year, cdiv, cmod, cycle_year, cycle_day.
  rewrite Z.quot_div_nonneg, Z.rem_mod_nonneg by lia.
  replace (1461 * q + r) with (r + q * 1461) by lia.
  rewrite Z.div_add, Z.mod_add, Z.div_small, Z.mod_small by lia.
  repeat case_ztest; f_equal; unwrap; lia.
Qed.

Lemma cycle_year_range r : 0 <= cycle_year r <= 3.
Proof. unfold cycle_year. repeat case_ztest; lia. Qed.

Lemma secs_to_date_cycle q r t :
  0 <= q <= 34 -> 0 <= r < 1461 -> 0 <= t < 86400 ->
  secs_to_date ((1461 * q + r) * 86400 + t) =
  '(mdays, mon) ← cycle_month r;
  Some (mk_dt (t mod 3600 mod 60) (t mod 3600 / 60) (t / 3600)
         (s16 (cycle_day r - mdays + 1)) mon (1970 + 4 * q + cycle_year r)).
Proof.
  intros Hq Hr Ht. unfold secs_to_date. change (24 * 3600) with 86400.
  rewrite Z.div_add_l, (Z.div_small t), Z.add_0_r by lia.
  rewrite (Z.add_comm _ t), Z.mod_add, (Z.mod_small t 86400) by lia.
  rewrite split_year_cycle by lia.
  rewrite month_days_cycle by (pose proof (cycle_year_range r); lia).
  fold (cycle_month r). destruct (cycle_month r) as [[mdays mon]|]; [|done]. simpl.
  pose proof (Z.mod_pos_bound t 3600). pose proof (Z.mod_pos_bound (t mod 3600) 60).
  assert (0 <= t / 3600 < 24) by (split; [apply Z.div_pos|apply Z.div_lt_upper_bound]; lia).
  assert (0 <= t mod 3600 / 60 < 60) by (split; [apply Z.div_pos|apply Z.div_lt_upper_bound]; lia).
  by rewrite (s16_id (_ mod 60)), (s16_id (_ / 60)), (s16_id (t / 3600)) by lia.
Qed.

Lemma split_secs s :
  0 <= s < 2 ^ 32 ->
  exists q r t, 0 <= q <= 34 /\ 0 <= r < 1461 /\ 0 <= t < 86400 /\
    s = (1461 * q + r) * 86400 + t /\ s / 86400 mod 1461 = r.
Proof.
  intros. exists (s / 86400 / 1461), (s / 86400 mod 1461), (s mod 86400).
  pose proof (Z.div_mod s 86400). pose proof (Z.div_mod (s / 86400) 1461).
  pose proof (Z.mod_pos_bound s 86400). pose proof (Z.mod_pos_bound (s / 86400) 1461).
  repeat split; lia.
Qed.

(** * Properties *)

Lemma day_facts r mdays mon :
  0 <= r < 1461 -> cycle_month r = Some (mdays, mon) ->
  1 <= mon <= 12 /\ 0 <= mdays <= cycle_day r /\
  cycle_day r - mdays + 1 <= month_length (1970 + cycle_year r) mon /\
  exists n, add_months 13 1 mon (month_days (1970 + cycle_year r))
              (if 2 <? cycle_year r then 1 else 0) = Some n /\
            n + (cycle_day r - mdays) + 365 * cycle_year r = r.
Proof.
  intros Hr Em. pose proof (day_ok_cycle r Hr) as Hok. unfold day_ok in Hok. rewrite Em in Hok.
  destruct (add_months _ _ _ _ _) as [n|] eqn:En; [|rewrite andb_false_r in Hok; done].
  rewrite !andb_true_iff, !Z.leb_le, Z.eqb_eq in Hok. destruct_and!.
  split_and!; try lia. exists n. split; [done|lia].
Qed.

Lemma month_length_le y m : month_length y m <= 31.
Proof. unfold month_length. repeat case_ztest; repeat case_match; lia. Qed.

Lemma not_new_year_month r :
  0 <= r < 1461 -> is_new_year r = false -> exists p, cycle_month r = Some p.
Proof.
  intros Hr Hn. pose proof (day_ok_cycle r Hr) as Hok. unfold day_ok in Hok.
  destruct (cycle_month r); [eauto|congruence].
Qed.

Lemma is_new_year_spec d r : d mod 1461 = r -> is_new_year r = true <-> new_year_day d.
Proof. intros <-. unfold is_new_year, new_year_day. rewrite !orb_true_iff, !Z.eqb_eq. tauto. Qed.

(** The inverse conversion on a date of the cycle. *)
Lemma date_to_secs_cycle q k d m h mi s n :
  0 <= q <= 34 -> 0 <= k <= 3 ->
  add_months 13 1 m (month_days (1970 + k)) (if 2 <? k then 1 else 0) = Some n ->
  date_to_secs (mk_dt s mi h d m (1970 + 4 * q + k)) =
  Some (u32 ((1461 * q + 365 * k + n + (d - 1)) * 86400 + h * 3600 + mi * 60 + s)).
Proof.
  intros Hq Hk En. unfold date_to_secs, cdiv, cmod. cbn [year month date hours minutes seconds].
  rewrite month_days_cycle by lia.
  replace (1970 + 4 * q + k - 1970) with (k + q * 4) by lia.
  rewrite Z.quot_div_nonneg, Z.rem_mod_nonneg by lia.
  rewrite Z.div_add, Z.mod_add, Z.div_small, (Z.mod_small k) by lia.
  rewrite (s16_id k) by lia. rewrite En. simpl. f_equal.
  autorewrite with width_rw. f_equal. lia.
Qed.

(** C40: converting a time to a date and back gives the time again, for every
    32-bit second count outside the first day of the second, third and fourth
    year of the four-year cycle. *)
Theorem date_round_trip s :
  0 <= s < 2 ^ 32 -> ~ new_year_day (s / 86400) ->
  exists dt, secs_to_date s = Some dt /\ date_to_secs dt = Some s.
Proof.
  intros Hs Hny. destruct (split_secs s Hs) as (q & r & t & Hq & Hr & Ht & Es & Er).
  pose proof (secs_to_date_cycle q r t ltac:(lia) ltac:(lia) ltac:(lia)) as E. rewrite <- Es in E.
  rewrite <- (is_new_year_spec _ _ Er), not_true_iff_false in Hny.
  destruct (not_new_year_month r Hr Hny) as [[mdays mon] Em]. rewrite Em in E.
  destruct (day_facts r mdays mon Hr Em) as (Hmon & Hmd & Hlen & n & En & Hn).
  eexists; split; [exact E|].
  pose proof (month_length_le (1970 + cycle_year r) mon).
  erewrite date_to_secs_cycle; [|lia|apply cycle_year_range|exact En].
  f_equal. unwrap. rewrite <- (u32_id s Hs). f_equal.
  pose proof (Z.div_mod t 3600). pose proof (Z.div_mod (t mod 3600) 60).
  lia.
Qed.

Lemma date_round_trip_witness :
  (0 <= 951782400 < 2 ^ 32 /\ ~ new_year_day (951782400 / 86400)) /\
  exists dt, secs_to_date 951782400 = Some dt /\ date_to_secs dt = Some 951782400.
Proof.
  split; [split; [lia|unfold new_year_day; vm_compute; intuition discriminate]|].
  apply (date_round_trip 951782400); [lia|unfold new_year_day; vm_compute; intuition discriminate].
Defined.

Lemma next_day_shift d m y q :
  next_day d m (y + 4 * q) = let '(d', m', y') := next_day d m y in (d', m', y' + 4 * q).
Proof.
  unfold next_day, month_length, is_leap.
  replace (y + 4 * q) with (y + q * 4) by lia. rewrite Z.mod_add by lia.
  repeat case_match; simplify_eq; f_equal; lia.
Qed.

(** The date part of a conversion, and the seconds of the day. *)
Lemma secs_to_date_fields q r t dt :
  0 <= q <= 34 -> 0 <= r < 1461 -> 0 <= t < 86400 ->
  secs_to_date ((1461 * q + r) * 86400 + t) = Some dt ->
  exists k, date_of r = Some (date dt, month dt, k) /\ year dt = 1970 + k + 4 * q /\
    hours dt * 3600 + minutes dt * 60 + seconds dt = t.
Proof.
  intros Hq Hr Ht. rewrite secs_to_date_cycle by lia. unfold date_of.
  destruct (cycle_month r) as [[mdays mon]|] eqn:Em; [|done]. intros [= <-].
  destruct (day_facts r mdays mon Hr Em) as (Hmon & Hmd & Hlen & _).
  pose proof (month_length_le (1970 + cycle_year r) mon).
  exists (cycle_year r). cbn. rewrite s16_id by lia.
  pose proof (Z.div_mod t 3600). pose proof (Z.div_mod (t mod 3600) 60).
  split_and!; [done|lia|lia].
Qed.

Lemma date_of_succ r d m k d' m' k' :
  0 <= r < 1460 -> date_of r = Some (d, m, k) -> date_of (r + 1) = Some (d', m', k') ->
  next_day d m (1970 + k) = (d', m', 1970 + k').
Proof.
  intros Hr E E'. pose proof (succ_ok_cycle r Hr) as H. unfold succ_ok in H. rewrite E, E' in H.
  destruct (next_day d m (1970 + k)) as [[d'' m''] y''].
  rewrite !andb_true_iff, !Z.eqb_eq in H. destruct_and!. by subst.
Qed.

(** successive days carry successive calendar dates: with 1 January 1970 as
    day 0, the date of day [d + 1] is the calendar successor of the date of day
    [d], and the time of day is the remainder. *)
Theorem secs_to_date_next_day d t dt dt' :
  0 <= d < 49709 -> 0 <= t < 86400 ->
  secs_to_date (d * 86400 + t) = Some dt -> secs_to_date ((d + 1) * 86400 + t) = Some dt' ->
  (date dt', month dt', year dt') = next_day (date dt) (month dt) (year dt) /\
  hours dt' * 3600 + minutes dt' * 60 + seconds dt' = t.
Proof.
  intros Hd Ht. pose proof (Z.div_mod d 1461). pose proof (Z.mod_pos_bound d 1461).
  
  remember (d / 1461) as q. remember (d mod 1461) as r. assert (d = 1461 * q + r) as Ed by lia.
  clear Heqq Heqr. subst d.
  intros E E'. apply secs_to_date_fields in E as (k & Ed & Ey & _); [|lia..].
  destruct (decide (r = 1460)) as [Er|Er].
  - replace (1461 * q + r + 1) with (1461 * (q + 1) + 0) in E' by lia.
    apply secs_to_date_fields in E' as (k' & Ed' & Ey' & Et); [|lia..]. split; [|done].
    assert (date_of 1460 = Some (31, 12, 3) /\ date_of 0 = Some (1, 1, 0)) as [E1 E0]
      by (vm_compute; done).
    rewrite Er, E1 in Ed. rewrite E0 in Ed'.
    injection Ed as <- <- <-. injection Ed' as <- <- <-.
    rewrite Ey, Ey', next_day_shift. unfold next_day; simpl. f_equal. lia.
  - rewrite <- Z.add_assoc in E'.
    apply secs_to_date_fields in E' as (k' & Ed' & Ey' & Et); [|lia..]. split; [|done].
    by rewrite Ey, Ey', next_day_shift, (date_of_succ r _ _ _ _ _ _ ltac:(lia) Ed Ed').
Qed.

Lemma secs_to_date_next_day_witness :
  secs_to_date (789 * 86400 + 60) = Some (mk_dt 0 1 0 29 2 1972) /\
  (1, 3, 1972) = next_day 29 2 1972 /\ 0 * 3600 + 1 * 60 + 0 = 60.
Proof.
  split; [reflexivity|].
  apply (secs_to_date_next_day 789 60 (mk_dt 0 1 0 29 2 1972) (mk_dt 0 1 0 1 3 1972));
    [lia|lia|reflexivity|reflexivity].
Defined.

(** on the first day of the second, third and fourth year of the cycle the
    month search reads past the end of [month_days]: the conversion has no
    defined result. *)
Theorem secs_to_date_new_year s :
  0 <= s < 2 ^ 32 -> new_year_day (s / 86400) -> secs_to_date s = None.
Proof.
  intros Hs Hny. destruct (split_secs s Hs) as (q & r & t & Hq & Hr & Ht & Es & Er).
  rewrite <- (is_new_year_spec _ _ Er) in Hny.
  rewrite Es, secs_to_date_cycle by lia.
  pose proof (day_ok_cycle r Hr) as Hok. unfold day_ok in Hok.
  destruct (cycle_month r) as [[mdays mon]|]; [|done]. rewrite Hny in Hok. done.
Qed.

Lemma secs_to_date_new_year_witness :
  new_year_day (31536000 / 86400) /\ secs_to_date 31536000 = None.
Proof.
  split; [left; reflexivity|]. apply (secs_to_date_new_year 31536000); [lia|left; reflexivity].
Defined.

End DateTime.
