(* ===== verification/Timer.v ===== *)
(** The timer queue of [src/base/timer.c]: a doubly linked list of timer
    objects, each holding the delay after its predecessor, driven by the clock
    interrupt and emptied by the timer thread.  The operations are on the
    pointers; [tlist] relates them to a list of delays and [expiry] to the
    absolute time of each object. *)
From S2P Require Import Prelude.

Module Timer.

(** * Data *)

(** [struct event_t] of src/include/lock.h, a sleep queue and a counter. *)
Record event_t := mk_event {
  sl_type : Z; sl_bitval : Z; sl_head : ptr; sl_tail : ptr; sl_next : ptr; sl_prev : ptr;
  e_val : Z }.

Definition SYNCH_TYPE_EVENT : Z := 2.

(** [eventobj_init]: [bzero] and the type. *)
Definition eventobj_init : event_t := mk_event SYNCH_TYPE_EVENT 0 NULL NULL NULL NULL 0.

(** The handlers the timer thread tells apart: none, [wakeup], or a function
    (by its address) called with the parameter. *)
Inductive handler := HNull | HWakeup | HFun (f : loc).

#[export] Instance handler_eq_dec : EqDecision handler.
Proof. solve_decision. Defined.

(** [struct timerobject] of src/include/timer.h. *)
Record timerobject := mk_tobj {
  timer_count : Z; timer_handler : handler; timer_handlerparam : ptr;
  timer_ownerthread : ptr; timer_next : ptr; timer_prev : ptr; timer_event : event_t }.

Definition set_count (c : Z) (o : timerobject) : timerobject :=
  mk_tobj c (timer_handler o) (timer_handlerparam o) (timer_ownerthread o)
    (timer_next o) (timer_prev o) (timer_event o).
Definition set_next (p : ptr) (o : timerobject) : timerobject :=
  mk_tobj (timer_count o) (timer_handler o) (timer_handlerparam o) (timer_ownerthread o)
    p (timer_prev o) (timer_event o).
Definition set_prev (p : ptr) (o : timerobject) : timerobject :=
  mk_tobj (timer_count o) (timer_handler o) (timer_handlerparam o) (timer_ownerthread o)
    (timer_next o) p (timer_event o).

Abbreviation theap := (gmap loc timerobject).

(** The queue: the global [timers] and the objects in memory. *)
Record tstate := mk_ts { timers : ptr; tobjs : theap }.

(** A store through a pointer: undefined on an address with no object. *)
Definition store (p : loc) (f : timerobject -> timerobject) (m : theap) : option theap :=
  o ← m !! p; Some (<[p := f o]> m).

(** * Operations *)

Definition timerobj_init (tobj : ptr) (m : theap) : option theap :=
  match tobj with
  | None => Some m
  | Some t => store t (fun _ => mk_tobj 0 HNull NULL NULL NULL NULL eventobj_init) m
  end.

(** The [while] of [insert_timerobj]: walk over the objects due no later,
    taking their delays off [tobj]'s. *)
Fixpoint insert_scan (fuel : nat) (t1 t2 : ptr) (tobj : loc) (m : theap)
  : option (ptr * ptr * theap) :=
  match t1 with
  | None => Some (t1, t2, m)
  | Some x =>
      o1 ← m !! x; o ← m !! tobj;
      if timer_count o1 <=? timer_count o then
        match fuel with
        | O => None
        | S fuel' =>
            m ← store tobj (set_count (s32 (timer_count o - timer_count o1))) m;
            o1 ← m !! x;
            insert_scan fuel' (timer_next o1) t1 tobj m
        end
      else Some (t1, t2, m)
  end.

(** The pointer stores after the walk. *)
Definition insert_link (t1 t2 : ptr) (tobj : loc) (m : theap) : option theap :=
  m ← store tobj (set_next t1) m;
  m ← store tobj (set_prev t2) m;
  x2 ← t2;
  m ← store x2 (set_next (Some tobj)) m;
  match t1 with
  | None => Some m
  | Some x1 =>
      m ← store x1 (set_prev (Some tobj)) m;
      o1 ← m !! x1; o ← m !! tobj;
      store x1 (set_count (s32 (timer_count o1 - timer_count o))) m
  end.

Definition insert_timerobj (tobj : loc) (σ : tstate) : option tstate :=
  match timers σ with
  | None => Some (mk_ts (Some tobj) (tobjs σ))
  | Some hd =>
      let m := tobjs σ in
      h ← m !! hd; o ← m !! tobj;
      if timer_count o <? timer_count h then
        m ← store tobj (set_next (Some hd)) m;
        m ← store hd (set_prev (Some tobj)) m;
        h ← m !! hd; o ← m !! tobj;
        m ← store hd (set_count (s32 (timer_count h - timer_count o))) m;
        Some (mk_ts (Some tobj) m)
      else
        '(t1, t2, m) ← insert_scan (size m) (Some hd) NULL tobj m;
        m ← insert_link t1 t2 tobj m;
        Some (mk_ts (timers σ) m)
  end.

Definition remove_timerobj (tobj : loc) (σ : tstate) : option tstate :=
  let m := tobjs σ in
  o ← m !! tobj;
  σ ← match timer_prev o with
      | Some p => m ← store p (set_next (timer_next o)) m; Some (mk_ts (timers σ) m)
      | None => Some (mk_ts (timer_next o) m)
      end;
  let m := tobjs σ in
  o ← m !! tobj;
  m ← match timer_next o with
      | Some n =>
          m ← store n (set_prev (timer_prev o)) m;
          on ← m !! n; o ← m !! tobj;
          store n (set_count (s32 (timer_count on + timer_count o))) m
      | None => Some m
      end;
  m ← store tobj (fun o => set_prev NULL (set_next NULL o)) m;
  Some (mk_ts (timers σ) m).

(** [while (t1 != NULL && t1 != tobj) t1 = t1->timer_next;] *)
Fixpoint search (fuel : nat) (stop : loc -> timerobject -> bool) (t1 : ptr) (m : theap)
  : option ptr :=
  match t1 with
  | None => Some None
  | Some x =>
      o ← m !! x;
      if stop x o then Some t1
      else match fuel with O => None | S fuel' => search fuel' stop (timer_next o) m end
  end.

Definition is_obj (tobj : loc) (x : loc) (_ : timerobject) : bool := bool_decide (x = tobj).
Definition is_owner (thr : ptr) (_ : loc) (o : timerobject) : bool :=
  bool_decide (timer_ownerthread o = thr).

(** The body of [starttimer], run between [_lock] and [unlock] of
    [timerq_lock].  The kernel is built with [DEBUG] (src/include/mconst.h), so
    the test for an object already queued is part of it. *)
Definition starttimer (tobj : loc) (msec : Z) (h : handler) (param cur : ptr) (σ : tstate)
  : option (Z * tstate) :=
  m ← store tobj (fun o => mk_tobj (s32 msec) h param cur NULL NULL (timer_event o)) (tobjs σ);
  t1 ← search (size m) (is_obj tobj) (timers σ) m;
  match t1 with
  | Some _ => Some (-1, mk_ts (timers σ) m)
  | None => σ ← insert_timerobj tobj (mk_ts (timers σ) m); Some (0, σ)
  end.

Definition stoptimer (tobj : loc) (σ : tstate) : option (Z * tstate) :=
  t1 ← search (size (tobjs σ)) (is_obj tobj) (timers σ) (tobjs σ);
  '(ret, σ) ← match t1 with
             | None => Some (-1, σ)
             | Some _ => σ ← remove_timerobj tobj σ; Some (0, σ)
             end;
  m ← store tobj (fun o => set_count (-1) (set_prev NULL (set_next NULL o))) (tobjs σ);
  Some (ret, mk_ts (timers σ) m).

(** [syscall_twakeup]: also the thread given to [add_readyq], if any. *)
Definition syscall_twakeup (thr : loc) (σ : tstate) : option (Z * ptr * tstate) :=
  t1 ← search (size (tobjs σ)) (is_owner (Some thr)) (timers σ) (tobjs σ);
  match t1 with
  | None => Some (-1, NULL, σ)
  | Some x =>
      σ ← remove_timerobj x σ;
      m ← store x (set_count (-1)) (tobjs σ);
      o ← m !! x;
      Some (0, timer_ownerthread o, mk_ts (timers σ) m)
  end.

(** The part of [timer_handler] on the timer queue: only the first object is
    touched; the flag [timeoutflag] is returned. *)
Definition timer_tick (timeoutflag : Z) (σ : tstate) : option (Z * tstate) :=
  match timers σ with
  | None => Some (timeoutflag, σ)
  | Some hd =>
      h ← tobjs σ !! hd;
      let c := s32 (timer_count h - 20) in
      m ← store hd (set_count c) (tobjs σ);
      Some (if c <=? 0 then 1 else timeoutflag, mk_ts (timers σ) m)
  end.

(** What the timer thread calls for an expired object. *)
Inductive fired := FWakeup (thr : ptr) | FCall (f : loc) (param : ptr).

(** [sleeping t]: the state of thread [t] is [THREAD_STATE_SLEEP] when the loop comes to its
    timer.  [HWakeup] timers are those of [syscall_tsleep]: a thread that sleeps there has this
    one timer, so the wakeup of one does not change the test of another; the handlers
    themselves are the calls in the result. *)
Definition fire (sleeping : ptr -> bool) (o : timerobject) : list fired :=
  match timer_handler o with
  | HWakeup => if sleeping (timer_ownerthread o) then [FWakeup (timer_ownerthread o)] else []
  | HFun f => [FCall f (timer_handlerparam o)]
  | HNull => []
  end.

Fixpoint expire_loop (fuel : nat) (sleeping : ptr -> bool) (t1 : ptr) (m : theap)
  : option (list fired * ptr * theap) :=
  match t1 with
  | None => Some ([], None, m)
  | Some x =>
      o ← m !! x;
      if timer_count o <=? 0 then
        match fuel with
        | O => None
        | S fuel' =>
            let t2 := timer_next o in
            m ← match t2 with
                | Some n =>
                    on ← m !! n;
                    m ← store n (set_count (s32 (timer_count on + timer_count o))) m;
                    store n (set_prev NULL) m
                | None => Some m
                end;
            m ← store x (fun o => set_count (-1) (set_next NULL (set_prev NULL o))) m;
            o ← m !! x;
            '(fs, p, m) ← expire_loop fuel' sleeping t2 m;
            Some (fire sleeping o ++ fs, p, m)
        end
      else Some ([], t1, m)
  end.

(** The timed-event part of [timerthread], under [timerq_lock]. *)
Definition timer_expire (sleeping : ptr -> bool) (timeoutflag : Z) (σ : tstate)
  : option (list fired * Z * tstate) :=
  if timeoutflag =? 1 then
    match timers σ with
    | None => Some ([], 0, σ)
    | Some _ =>
        '(fs, p, m) ← expire_loop (size (tobjs σ)) sleeping (timers σ) (tobjs σ);
        Some (fs, 0, mk_ts p m)
    end
  else Some ([], timeoutflag, σ).

(** * Abstraction *)

(** The objects reachable from [p] are those of [l], in order, with their
    delays; [prev] precedes the first. *)
Fixpoint tlist (m : theap) (prev p : ptr) (l : list (loc * Z)) : Prop :=
  match l with
  | [] => p = None
  | (x, c) :: l' =>
      p = Some x /\
      exists o, m !! x = Some o /\ timer_count o = c /\ timer_prev o = prev /\
        tlist m (Some x) (timer_next o) l'
  end.

(** The queue holds exactly the objects of [l]. *)
Definition tqueue (σ : tstate) (l : list (loc * Z)) : Prop :=
  tlist (tobjs σ) NULL (timers σ) l /\ NoDup l.*1.

(** Absolute times, from a base: delays summed along the list. *)
Fixpoint expiry (b : Z) (l : list (loc * Z)) : list (loc * Z) :=
  match l with
  | [] => []
  | (x, d) :: l' => (x, b + d) :: expiry (b + d) l'
  end.

(** Every delay after the first is non-negative: times are sorted. *)
Definition delays_ok (l : list (loc * Z)) : Prop := Forall (fun p => 0 <= p.2) (tail l).

(** All times (and the first delay) are far enough from the ends of [long]. *)
Definition times_ok (b : Z) (l : list (loc * Z)) : Prop :=
  Forall (fun p => - 2 ^ 30 <= p.2 < 2 ^ 30) (expiry b l).

(** The effect of the operations on delays. *)
Fixpoint delta_insert (x : loc) (c : Z) (l : list (loc * Z)) : list (loc * Z) :=
  match l with
  | [] => [(x, c)]
  | (y, d) :: l' => if d <=? c then (y, d) :: delta_insert x (c - d) l' else (x, c) :: (y, d - c) :: l'
  end.

Fixpoint delta_remove (x : loc) (l : list (loc * Z)) : list (loc * Z) :=
  match l with
  | [] => []
  | (y, d) :: l' =>
      if decide (y = x) then
        match l' with [] => [] | (z, e) :: l'' => (z, e + d) :: l'' end
      else (y, d) :: delta_remove x l'
  end.

(** Insertion into a list of absolute times: after the entries due no later. *)
Fixpoint time_insert (x : loc) (t : Z) (l : list (loc * Z)) : list (loc * Z) :=
  match l with
  | [] => [(x, t)]
  | (y, e) :: l' => if e <=? t then (y, e) :: time_insert x t l' else (x, t) :: (y, e) :: l'
  end.

(** * The delays against the absolute times *)

Lemma expiry_insert b x c l : expiry b (delta_insert x c l) = time_insert x (b + c) (expiry b l).
Proof.
  revert b c; induction l as [|[y d] l IH]; intros b c; simpl; [done|].
  destruct (Z.leb_spec d c), (Z.leb_spec (b + d) (b + c)); try lia; simpl.
  - rewrite IH. by replace (b + d + (c - d)) with (b + c) by lia.
  - by replace (b + c + (d - c)) with (b + d) by lia.
Qed.

Lemma expiry_fst b l : (expiry b l).*1 = l.*1.
Proof. revert b; induction l as [|[y d] l IH]; intros; simpl; f_equal; auto. Qed.

Lemma expiry_remove b x l :
  NoDup l.*1 -> expiry b (delta_remove x l) = filter (fun p => p.1 <> x) (expiry b l).
Proof.
  revert b; induction l as [|[y d] l IH]; intros b Hnd; simpl; [done|].
  inversion Hnd as [|?? Hy Hnd']; subst. rewrite filter_cons.
  destruct (decide (y = x)) as [->|Hne].
  - rewrite decide_False by (simpl; tauto). rewrite filter_all.
    + destruct l as [|[z e] l]; simpl; [done|].
      by replace (b + (e + d)) with (b + d + e) by lia.
    + rewrite Forall_forall. intros [w t] Hw Heq. simpl in Heq; subst.
      apply Hy. rewrite <- (expiry_fst (b + d)). apply list_elem_of_fmap. by exists (x, t).
  - rewrite decide_True by done. simpl. by rewrite IH.
Qed.

Lemma delays_insert x c l : delays_ok l -> delays_ok (delta_insert x c l).
Proof.
  unfold delays_ok. destruct l as [|[y d] l]; simpl; [constructor|]. intros H.
  destruct (Z.leb_spec d c); simpl; [|constructor; [simpl; lia|done]].
  assert (0 <= c - d) as Hc by lia. revert Hc. generalize (c - d) as c'. clear -H.
  induction H as [|[z e] l He Hl IH]; intros c' Hc; simpl; [by repeat constructor|].
  destruct (Z.leb_spec e c'); simpl in *; constructor; simpl; auto; [apply IH; lia|].
  constructor; simpl; [lia|done].
Qed.

Lemma delta_insert_perm x c l : (delta_insert x c l).*1 ≡ₚ x :: l.*1.
Proof.
  revert c; induction l as [|[y d] l IH]; intros c; simpl; [done|].
  destruct (d <=? c); simpl; [|done]. rewrite IH. constructor.
Qed.

(** * The pointer operations against the delays *)

(** Only the listed objects matter. *)
Lemma tlist_frame m m' prev p l :
  (forall x, x ∈ l.*1 -> m' !! x = m !! x) -> tlist m prev p l -> tlist m' prev p l.
Proof.
  revert prev p; induction l as [|[x c] l IH]; intros prev p Hm; simpl; [done|].
  intros (-> & o & Ho & Hc & Hp & Hl). split; [done|]. exists o.
  rewrite Hm by (simpl; by left). split_and!; auto. apply IH; [|done].
  intros y Hy. apply Hm. simpl. by right.
Qed.

Lemma tlist_in_heap m prev p l : tlist m prev p l -> l.*1 ⊆ elements (dom m).
Proof.
  revert prev p; induction l as [|[x c] l IH]; intros prev p; simpl; [set_solver|].
  intros (-> & o & Ho & _ & _ & Hl) y. rewrite elem_of_cons. intros [->|Hy].
  - apply elem_of_elements, elem_of_dom. eauto.
  - by apply (IH _ _ Hl).
Qed.

Lemma tlist_length m prev p l : tlist m prev p l -> NoDup l.*1 -> (length l <= size m)%nat.
Proof.
  intros Hl Hnd. rewrite <- (length_fmap fst), <- size_dom.
  unfold size, set_size. simpl.
  apply submseteq_length, NoDup_submseteq; [done|]. exact (tlist_in_heap m prev p l Hl).
Qed.

Lemma store_Some p f m o : m !! p = Some o -> store p f m = Some (<[p := f o]> m).
Proof. intros H. unfold store. by rewrite H. Qed.

Ltac store_tac :=
  repeat (erewrite store_Some by (simplify_map_eq; reflexivity); simpl).

(** The walk and the stores after it, from a place [z] in the list. *)
Lemma insert_walk fuel x z oz o l m c :
  tlist m (Some z) (timer_next oz) l -> m !! z = Some oz -> m !! x = Some o ->
  timer_count o = c -> NoDup (x :: z :: l.*1) -> (length l <= fuel)%nat ->
  0 <= c < 2 ^ 31 -> Forall (fun p => 0 <= p.2 < 2 ^ 31) l ->
  exists t1 t2 m1 m2 p,
    insert_scan fuel (timer_next oz) (Some z) x m = Some (t1, t2, m1) /\
    insert_link t1 t2 x m1 = Some m2 /\
    m2 !! z = Some (set_next p oz) /\
    tlist m2 (Some z) p (delta_insert x c l) /\
    forall y, y <> x -> y <> z -> y ∉ l.*1 -> m2 !! y = m !! y.
Proof.
  revert z oz o m c fuel. induction l as [|[y d] l IH]; intros z oz o m c fuel Hl Hz Hx Hc Hnd Hf Hcr Hdr.
  - simpl in Hl. rewrite Hl.
    exists None, (Some z), m, (<[z := set_next (Some x) oz]> (<[x := set_prev (Some z) (set_next None o)]> m)), (Some x).
    assert (x <> z) by (intros ->; rewrite !NoDup_cons, !elem_of_cons in Hnd; tauto).
    split_and!; [by destruct fuel|..].
    + unfold insert_link. store_tac. by rewrite insert_insert_eq.
    + by simplify_map_eq.
    + simpl. split; [done|]. eexists; split; [by simplify_map_eq|]. done.
    + intros w ???. by simplify_map_eq.
  - simpl in Hl. destruct Hl as (Hn & oy & Hoy & Hd & Hpy & Hl). rewrite Hn.
    inversion Hdr as [|?? Hdy Hdr']; subst. simpl in Hdy.
    assert (x <> z /\ x <> y /\ z <> y /\ (x ∉ l.*1) /\ (z ∉ l.*1) /\ (y ∉ l.*1) /\ NoDup l.*1) as Hne.
    { simpl in Hnd. rewrite !NoDup_cons, !elem_of_cons in Hnd. tauto. }
    destruct Hne as (Hxz & Hxy & Hzy & Hxl & Hzl & Hyl & Hndl).
    simpl in Hf. destruct fuel as [|fuel]; [lia|]. simpl. rewrite Hoy, Hx. simpl.
    destruct (Z.leb_spec (timer_count oy) (timer_count o)) as [Hle|Hgt].
    + rewrite (store_Some x _ m o) by done. simpl. rewrite lookup_insert_ne, Hoy by done. simpl.
      rewrite s32_id by lia.
      destruct (IH y oy (set_count (timer_count o - timer_count oy) o)
                 (<[x := set_count (timer_count o - timer_count oy) o]> m)
                 (timer_count o - timer_count oy) fuel)
        as (t1 & t2 & m1 & m2 & p & Hs & Hlk & Hy2 & Hl2 & Hfr); try done; try lia.
      * apply (tlist_frame m); [|done]. intros w Hw. apply lookup_insert_ne. by intros ->.
      * by simplify_map_eq.
      * by simplify_map_eq.
      * rewrite !NoDup_cons, !elem_of_cons. tauto.
      * exists t1, t2, m1, m2, (Some y). split_and!; auto.
        -- rewrite Hfr by done. simplify_map_eq. by destruct oz; simpl in *; subst.
        -- exists (set_next p oy). split_and!; auto.
        -- intros w Hw1 Hw2 Hw3. simpl in Hw3. apply not_elem_of_cons in Hw3 as [Hw3 Hw4].
           rewrite Hfr by done. by simplify_map_eq.
    + eexists (Some y), (Some z), m, _, (Some x). split_and!; [done|..].
      * unfold insert_link. store_tac.
        simplify_map_eq. store_tac. reflexivity.
      * by simplify_map_eq.
      * simpl. split; [done|]. eexists; split; [by simplify_map_eq|]. simpl. split_and!; auto.
        eexists; split; [by simplify_map_eq|]. simpl. rewrite s32_id by lia. split_and!; auto.
        apply (tlist_frame m); [|done]. intros w Hw.
        rewrite !lookup_insert_ne; [done|..]; by intros ->.
      * intros w Hw1 Hw2 Hw3. apply not_elem_of_cons in Hw3 as [Hw3 Hw4]. by simplify_map_eq.
Qed.

(** Delays after the first lie between 0 and the span of the times. *)
Lemma tail_delays_range b d x l :
  times_ok b ((x, d) :: l) -> delays_ok ((x, d) :: l) -> Forall (fun p => 0 <= p.2 < 2 ^ 31) l.
Proof.
  unfold times_ok, delays_ok. simpl. intros Ht Hd. inversion Ht as [|?? H1 H2]; subst. simpl in H1.
  clear Ht. revert H1 H2 Hd. generalize (b + d) as e. clear b d.
  induction l as [|[y d] l IH]; intros e He Ht Hd; simpl in *; [constructor|].
  inversion Ht as [|?? H1 H2]; inversion Hd as [|?? H3 H4]; subst; simpl in *.
  constructor; [simpl; lia|]. apply (IH (e + d)); auto.
Qed.

Lemma delta_insert_nodup x c l : x ∉ l.*1 -> NoDup l.*1 -> NoDup (delta_insert x c l).*1.
Proof. intros. rewrite delta_insert_perm. by constructor. Qed.

(** [insert_timerobj] implements [delta_insert]. *)
Lemma insert_refines σ l x o :
  tqueue σ l -> tobjs σ !! x = Some o -> timer_next o = NULL -> timer_prev o = NULL ->
  x ∉ l.*1 -> delays_ok l -> times_ok 0 l -> 0 <= timer_count o < 2 ^ 30 ->
  exists σ', insert_timerobj x σ = Some σ' /\ tqueue σ' (delta_insert x (timer_count o) l) /\
    forall y, y <> x -> y ∉ l.*1 -> tobjs σ' !! y = tobjs σ !! y.
Proof.
  destruct σ as [hd m]. intros [Hl Hnd] Hx Hn Hp Hxl Hd Ht Hc. simpl in *.
  unfold insert_timerobj. cbn [timers tobjs].
  destruct l as [|[y d] l]; simpl in Hl.
  - subst hd. eexists; split; [done|]. split; [|done]. split; simpl; [|by repeat constructor].
    split; [done|]. exists o. by rewrite Hn.
  - destruct Hl as (-> & oy & Hoy & Hcy & Hpy & Hl). rewrite Hoy, Hx. simpl. simpl in Hxl.
    apply not_elem_of_cons in Hxl as [Hxy Hxl].
    pose proof (tail_delays_range _ _ _ _ Ht Hd) as Htr.
    inversion Hnd as [|?? Hyl Hndl]; subst. inversion Ht as [|?? Hdr _]; subst. simpl in Hdr.
    destruct (Z.ltb_spec (timer_count o) (timer_count oy)), (Z.leb_spec (timer_count oy) (timer_count o)); try lia.
    + store_tac. simplify_map_eq. store_tac. eexists; split; [reflexivity|]. split.
      * split; simpl; [|constructor; [by rewrite elem_of_cons; intros [?|?]|done]].
        split; [done|]. eexists; split; [by simplify_map_eq|]. simpl. split_and!; auto.
        eexists; split; [by simplify_map_eq|]. simpl. rewrite s32_id by lia. split_and!; auto.
        apply (tlist_frame m); [|done]. intros w Hw. rewrite !lookup_insert_ne; [done|..]; by intros ->.
      * intros w Hw1 Hw2. apply not_elem_of_cons in Hw2 as [Hw2 Hw3]. simpl. by simplify_map_eq.
    + assert (length ((y, timer_count oy) :: l) <= size m)%nat as Hsz.
      { apply (tlist_length m NULL (Some y)); [|done]. simpl. eauto 8. }
      simpl in Hsz. destruct (size m) as [|n] eqn:En; [lia|]. simpl. rewrite Hoy, Hx. simpl.
      rewrite (proj2 (Z.leb_le _ _)) by lia. store_tac. simplify_map_eq. rewrite s32_id by lia.
      destruct (insert_walk n x y oy (set_count (timer_count o - timer_count oy) o) l
                  (<[x := set_count (timer_count o - timer_count oy) o]> m)
                  (timer_count o - timer_count oy))
        as (t1 & t2 & m1 & m2 & p & Hs & Hlk & Hy2 & Hl2 & Hfr); try done; try lia.
      * apply (tlist_frame m); [|done]. intros w Hw. apply lookup_insert_ne. by intros ->.
      * by simplify_map_eq.
      * by simplify_map_eq.
      * rewrite !NoDup_cons, !elem_of_cons. tauto.
      * rewrite Hs. simpl. rewrite Hlk. simpl. eexists; split; [reflexivity|]. split.
        -- split; simpl; [eauto 8|]. constructor; [|by apply delta_insert_nodup].
           rewrite delta_insert_perm, elem_of_cons. naive_solver.
        -- intros w Hw1 Hw2. apply not_elem_of_cons in Hw2 as [Hw2 Hw3]. simpl.
           rewrite Hfr by done. by simplify_map_eq.
Qed.

(** * Removal *)

Lemma delta_remove_sublist x l : (delta_remove x l).*1 `sublist_of` l.*1.
Proof.
  induction l as [|[y d] l IH]; simpl; [done|].
  destruct (decide (y = x)) as [_|_]; simpl; [|by constructor].
  destruct l as [|[z e] l]; simpl; by repeat constructor.
Qed.

Lemma delta_remove_incl x l y : y ∈ (delta_remove x l).*1 -> y ∈ l.*1.
Proof. intros H. exact (elem_of_sublist _ _ _ H (delta_remove_sublist x l)). Qed.

Lemma delta_remove_nodup x l : NoDup l.*1 -> NoDup (delta_remove x l).*1.
Proof. intros H. exact (sublist_NoDup _ _ H (delta_remove_sublist x l)). Qed.

(** Neighbouring delays can be merged without leaving [long]. *)
Fixpoint pairs_ok (l : list (loc * Z)) : Prop :=
  match l with
  | (x, d) :: l' =>
      match l' with (y, e) :: _ => - 2 ^ 31 <= e + d < 2 ^ 31 | [] => True end /\ pairs_ok l'
  | [] => True
  end.

Lemma pairs_ok_tail b l :
  - 2 ^ 30 <= b < 2 ^ 30 -> Forall (fun p => 0 <= p.2) l -> times_ok b l -> pairs_ok l.
Proof.
  unfold times_ok. revert b; induction l as [|[x d] l IH]; intros b Hb Hd Ht; simpl in *; [done|].
  inversion Ht as [|?? H1 H2]; inversion Hd as [|?? H3 H4]; subst; simpl in *.
  split; [|by apply (IH (b + d))]. destruct l as [|[y e] l]; [done|]. simpl in *.
  inversion H2; inversion H4; subst; simpl in *. lia.
Qed.

Lemma times_pairs_ok l : delays_ok l -> times_ok 0 l -> pairs_ok l.
Proof.
  destruct l as [|[x d] l]; [done|]. intros Hd Ht. inversion Ht as [|?? H1 H2]; subst. simpl in *.
  split; [|by apply (pairs_ok_tail (0 + d))]. destruct l as [|[y e] l]; [done|]. simpl in *.
  inversion H2; subst; simpl in *. lia.
Qed.

Lemma remove_walk z oz l x m tm :
  tlist m (Some z) (timer_next oz) l -> m !! z = Some oz -> NoDup (z :: l.*1) -> x ∈ l.*1 ->
  pairs_ok l ->
  exists m' p, remove_timerobj x (mk_ts tm m) = Some (mk_ts tm m') /\
    m' !! z = Some (set_next p oz) /\ tlist m' (Some z) p (delta_remove x l) /\
    forall y, y <> z -> y ∉ l.*1 -> m' !! y = m !! y.
Proof.
  revert z oz m. induction l as [|[y d] l IH]; intros z oz m Hl Hz Hnd Hx Hpr; [by apply not_elem_of_nil in Hx|].
  simpl in Hl. destruct Hl as (Hn & oy & Hoy & Hd & Hpy & Hl).
  rewrite !NoDup_cons in Hnd. simpl in Hnd. rewrite NoDup_cons, elem_of_cons in Hnd.
  destruct Hnd as (Hzy & Hyl & Hnd). simpl in Hpr. destruct Hpr as [Hp1 Hpr]. simpl.
  destruct (decide (y = x)) as [->|Hne].
  - assert (x <> z) by (intros ->; tauto).
    unfold remove_timerobj. simpl. rewrite Hoy. simpl. rewrite Hpy. store_tac. simplify_map_eq.
    destruct l as [|[w e] l]; simpl in *.
    + rewrite Hl. simpl. store_tac. eexists _, None; split; [reflexivity|].
      split; [by simplify_map_eq|]. split; [done|].
      intros v Hv1 Hv2. apply not_elem_of_cons in Hv2 as [Hv2 _]. by simplify_map_eq.
    + destruct Hl as (Hnx & ow & How & He & Hpw & Hl). rewrite Hnx. simpl.
      assert (w <> x /\ w <> z) as [Hwx Hwz] by (split; intros ->; rewrite ?elem_of_cons in *; tauto).
      rewrite elem_of_cons in *. store_tac. simplify_map_eq. store_tac.
      eexists _, (Some w); split; [reflexivity|]. split; [by simplify_map_eq|]. split.
      * simpl. split; [done|]. eexists; split; [by simplify_map_eq|]. simpl. rewrite s32_id by lia.
        split_and!; auto. apply (tlist_frame m); [|done]. intros v Hv.
        apply NoDup_cons in Hnd as [Hwl _].
        rewrite !lookup_insert_ne; [done|intros ->..]; tauto.
      * intros v Hv1 Hv2. rewrite !not_elem_of_cons in Hv2. destruct_and!. by simplify_map_eq.
  - apply elem_of_cons in Hx as [Hx|Hx]; [by subst|].
    destruct (IH y oy m) as (m' & p & Hr & Hy2 & Hl2 & Hfr); auto.
    { by constructor. }
    exists m', (Some y). split; [done|]. split; [|split].
    + rewrite Hfr, Hz by tauto. by destruct oz; simpl in *; subst.
    + simpl. split; [done|]. exists (set_next p oy). by split_and!.
    + intros v Hv1 Hv2. apply not_elem_of_cons in Hv2 as [Hv2 Hv3]. by apply Hfr.
Qed.

(** [remove_timerobj] implements [delta_remove]. *)
Lemma remove_refines σ l x :
  tqueue σ l -> x ∈ l.*1 -> delays_ok l -> times_ok 0 l ->
  exists σ', remove_timerobj x σ = Some σ' /\ tqueue σ' (delta_remove x l) /\
    forall y, y ∉ l.*1 -> tobjs σ' !! y = tobjs σ !! y.
Proof.
  destruct σ as [hd m]. intros [Hl Hnd] Hx Hd Ht. simpl in *.
  pose proof (times_pairs_ok l Hd Ht) as Hpr.
  destruct l as [|[y d] l]; [by apply not_elem_of_nil in Hx|].
  simpl in Hl. destruct Hl as (-> & oy & Hoy & Hcy & Hpy & Hl). simpl in Hnd, Hx, Hpr.
  pose proof Hnd as Hnd'. apply NoDup_cons in Hnd' as [Hyl Hndl]. destruct Hpr as [Hp1 Hpr]. simpl.
  destruct (decide (y = x)) as [->|Hne].
  - unfold remove_timerobj. simpl. rewrite Hoy. simpl. rewrite Hpy. simpl. rewrite Hoy. simpl.
    destruct l as [|[w e] l]; simpl in *.
    + rewrite Hl. simpl. store_tac. eexists; split; [reflexivity|]. split; [by split; [|constructor]|].
      intros v Hv. apply not_elem_of_cons in Hv as [Hv _]. simpl. by simplify_map_eq.
    + destruct Hl as (Hnx & ow & How & He & Hpw & Hl). rewrite Hnx. simpl.
      rewrite elem_of_cons in Hyl. assert (w <> x) by (intros ->; tauto).
      store_tac. simplify_map_eq. store_tac. eexists; split; [reflexivity|]. split.
      * split; [|done]. simpl. split; [done|]. eexists; split; [by simplify_map_eq|]. simpl.
        rewrite s32_id by lia. split_and!; auto. apply (tlist_frame m); [|done]. intros v Hv.
        apply NoDup_cons in Hndl as [Hwl _].
        rewrite !lookup_insert_ne; [done|intros ->..]; tauto.
      * intros v Hv. rewrite !not_elem_of_cons in Hv. destruct_and!. simpl. by simplify_map_eq.
  - apply elem_of_cons in Hx as [Hx|Hx]; [by subst|].
    destruct (remove_walk y oy l x m (Some y)) as (m' & p & Hr & Hy2 & Hl2 & Hfr); auto.
    exists (mk_ts (Some y) m'). split; [done|]. split; [split|].
    + simpl. split; [done|]. exists (set_next p oy). by split_and!.
    + simpl. constructor.
      * intros Hin. apply Hyl. revert Hin. apply delta_remove_incl.
      * by apply delta_remove_nodup.
    + intros v Hv. apply not_elem_of_cons in Hv as [Hv1 Hv2]. by apply Hfr.
Qed.

(** * Expiry *)

(** The objects taken off the queue and the delays left, from a base time. *)
Fixpoint delta_expire (b : Z) (l : list (loc * Z)) : list loc * list (loc * Z) :=
  match l with
  | [] => ([], [])
  | (x, d) :: l' =>
      if b + d <=? 0 then let '(f, r) := delta_expire (b + d) l' in (x :: f, r)
      else ([], (x, b + d) :: l')
  end.

(** The calls made for the objects [xs]. *)
Definition calls (sleeping : ptr -> bool) (m : theap) (xs : list loc) : list fired :=
  xs ≫= (fun x => match m !! x with Some o => fire sleeping o | None => [] end).

Arguments calls : simpl never.

Lemma calls_cons sl m x o xs :
  m !! x = Some o -> calls sl m (x :: xs) = fire sl o ++ calls sl m xs.
Proof. intros H. unfold calls. by rewrite bind_cons, H. Qed.

Lemma calls_cong sl m m' xs :
  (forall x, x ∈ xs -> fire sl <$> m' !! x = fire sl <$> m !! x) -> calls sl m' xs = calls sl m xs.
Proof.
  unfold calls. induction xs as [|x xs IH]; intros H; [done|]. rewrite !bind_cons, IH by (intros; apply H; by right).
  f_equal. specialize (H x ltac:(by left)). destruct (m' !! x), (m !! x); simpl in H; congruence.
Qed.

Lemma delta_expire_incl b l x : x ∈ (delta_expire b l).1 -> x ∈ l.*1.
Proof.
  revert b; induction l as [|[y d] l IH]; intros b; simpl; [done|].
  destruct (b + d <=? 0); simpl; [|intros H; by apply not_elem_of_nil in H].
  specialize (IH (b + d)). destruct (delta_expire (b + d) l); simpl in *.
  rewrite !elem_of_cons. tauto.
Qed.

Lemma delta_expire_nodup b l : NoDup l.*1 -> NoDup (delta_expire b l).2.*1.
Proof.
  revert b; induction l as [|[y d] l IH]; intros b Hnd; simpl; [done|].
  destruct (b + d <=? 0); simpl; [|done]. inversion Hnd; subst.
  specialize (IH (b + d)). destruct (delta_expire (b + d) l); simpl in *. auto.
Qed.

(** The loop of the timer thread implements [delta_expire]. *)
Lemma expire_loop_refines n sl fuel p l m :
  (length l <= n)%nat -> (length l <= fuel)%nat ->
  tlist m NULL p l -> NoDup l.*1 -> times_ok 0 l ->
  exists p' m', expire_loop fuel sl p m = Some (calls sl m (delta_expire 0 l).1, p', m') /\
    tlist m' NULL p' (delta_expire 0 l).2 /\ forall y, y ∉ l.*1 -> m' !! y = m !! y.
Proof.
  revert fuel p l m. induction n as [|n IH]; intros fuel p [|[x d] l] m Hn Hf Hl Hnd Ht; simpl in Hn; try lia.
  1, 2: simpl in Hl; subst p; exists None, m; by destruct fuel.
  simpl in Hl. destruct Hl as (-> & o & Ho & Hd & Hp & Hl). simpl in Hf, Hnd. destruct fuel as [|fuel]; [lia|].
  inversion Hnd as [|?? Hxl Hndl]; subst. inversion Ht as [|?? Hdr _]; simpl in Hdr.
  simpl. rewrite Ho, Z.add_0_l. simpl. destruct (Z.leb_spec (timer_count o) 0) as [Hle|Hgt].
  2: { exists (Some x), m. simpl. split; [done|]. split; [|done]. eauto 8. }
  destruct l as [|[y e] l].
  - simpl in Hl. rewrite Hl. simpl. store_tac. simplify_map_eq. simpl. rewrite (calls_cons sl m x o) by done.
    eexists None, _. split; [by destruct fuel|]. split; [done|].
    intros v Hv. apply not_elem_of_cons in Hv as [Hv _]. by simplify_map_eq.
  - simpl in Hl. destruct Hl as (Hnx & oy & Hoy & He & Hpy & Hl). simpl in Hxl.
    apply not_elem_of_cons in Hxl as [Hxy Hxl]. inversion Hndl as [|?? Hyl _]; subst.
    inversion Ht as [|?? _ Ht2]; subst. simpl in Ht2. inversion Ht2 as [|?? Her Ht3]; subst. simpl in Her.
    rewrite Hnx. simpl. rewrite Hoy. simpl. store_tac. rewrite insert_insert_eq. simplify_map_eq.
    set (c := timer_count oy + timer_count o) in *. rewrite s32_id by (unfold c; lia).
    set (m2 := <[x := _]> (<[y := _]> m)).
    replace (timer_count oy) with (c - timer_count o) in * by (unfold c; lia).
    destruct (IH fuel (Some y) ((y, c) :: l) m2) as (p' & m' & Hrun & Hl' & Hfr).
    + simpl; lia.
    + simpl in *; lia.
    + simpl. split; [done|]. eexists; split; [unfold m2; by simplify_map_eq|]. simpl. split_and!; auto.
      apply (tlist_frame m); [|done]. intros w Hw. unfold m2. rewrite !lookup_insert_ne; [done|..]; by intros ->.
    + done.
    + unfold times_ok. simpl. replace (0 + timer_count o + (c - timer_count o)) with c in * by lia.
      by constructor.
    + assert (calls sl m2 (delta_expire 0 ((y, c) :: l)).1 = calls sl m (delta_expire 0 ((y, c) :: l)).1) as Hcalls.
      { apply calls_cong. intros w _. unfold m2. destruct (decide (w = x)) as [->|]; [by simplify_map_eq|].
        destruct (decide (w = y)) as [->|]; by simplify_map_eq. }
      rewrite Hrun, Hcalls. exists p', m'. simpl in *.
      replace (timer_count o + (c - timer_count o)) with (0 + c) by lia.
      destruct (if 0 + c <=? 0 then _ else _) as [f r]; simpl in *. split_and!; auto.
      * by rewrite (calls_cons sl m x o).
      * intros v Hv. rewrite !not_elem_of_cons in Hv. destruct_and!.
        rewrite Hfr by (by rewrite not_elem_of_cons). unfold m2. by simplify_map_eq.
Qed.

(** * Searching *)

Lemma search_refines fuel m prev p l x :
  tlist m prev p l -> (length l <= fuel)%nat ->
  search fuel (is_obj x) p m = Some (if decide (x ∈ l.*1) then Some x else None).
Proof.
  revert fuel prev p; induction l as [|[y d] l IH]; intros fuel prev p Hl Hf; simpl in Hl.
  - subst p. rewrite decide_False by (apply not_elem_of_nil). by destruct fuel.
  - destruct Hl as (-> & o & Ho & _ & _ & Hl). simpl in Hf. destruct fuel as [|fuel]; [lia|].
    simpl. rewrite Ho. simpl. unfold is_obj at 1. case_bool_decide as Hyx.
    + subst y. by rewrite decide_True by (by left).
    + rewrite (IH fuel _ _ Hl) by lia. clear IH. destruct (decide (x ∈ l.*1)).
      * by rewrite decide_True by (by right).
      * rewrite decide_False; [done|]. rewrite elem_of_cons. intros [|]; by subst.
Qed.

(** * Properties *)

(** The times of a well-formed queue. *)
Definition queue_times (σ : tstate) (ts : list (loc * Z)) : Prop :=
  exists l, tqueue σ l /\ delays_ok l /\ times_ok 0 l /\ expiry 0 l = ts.

Lemma timer_tick_returns σ ts fl : queue_times σ ts -> exists fl' σ', timer_tick fl σ = Some (fl', σ').
Proof.
  intros (l & [Hl _] & _). unfold timer_tick. destruct l as [|[x d] l]; simpl in Hl; [rewrite Hl; eauto|].
  destruct Hl as (-> & o & Ho & _). rewrite Ho. simpl. rewrite (store_Some x _ _ o) by done. simpl. eauto.
Qed.

Lemma Forall_time_insert (P : loc * Z -> Prop) x t l :
  P (x, t) -> Forall P l -> Forall P (time_insert x t l).
Proof.
  intros Hx. induction 1 as [|[y e] l Hy Hl IH]; simpl; [by constructor|].
  destruct (e <=? t); by repeat constructor.
Qed.

Lemma insert_timerobj_times σ ts x o :
  queue_times σ ts -> tobjs σ !! x = Some o -> timer_next o = NULL -> timer_prev o = NULL ->
  x ∉ ts.*1 -> 0 <= timer_count o < 2 ^ 30 ->
  exists σ', insert_timerobj x σ = Some σ' /\ queue_times σ' (time_insert x (timer_count o) ts).
Proof.
  intros (l & Hq & Hd & Ht & <-) Hx Hn Hp Hnx Hc. rewrite expiry_fst in Hnx.
  destruct (insert_refines σ l x o) as (σ' & Hrun & Hq' & _); auto.
  exists σ'. split; [done|]. exists (delta_insert x (timer_count o) l).
  rewrite expiry_insert, Z.add_0_l. split_and!; auto using delays_insert.
  unfold times_ok. rewrite expiry_insert, Z.add_0_l. apply Forall_time_insert; [simpl; lia|done].
Qed.

Lemma delays_remove x l : delays_ok l -> delays_ok (delta_remove x l).
Proof.
  unfold delays_ok. destruct l as [|[y d] l]; simpl; [done|]. intros H.
  destruct (decide (y = x)) as [_|_].
  - destruct l as [|[z e] l]; simpl; [constructor|]. by inversion H.
  - simpl. induction H as [|[z e] l He Hl IH]; simpl; [constructor|].
    destruct (decide (z = x)) as [_|_]; [|by constructor].
    destruct l as [|[w f] l]; [constructor|]. inversion Hl; subst; simpl in *.
    constructor; [simpl; lia|done].
Qed.

Lemma remove_times σ ts x :
  queue_times σ ts -> x ∈ ts.*1 ->
  exists σ', remove_timerobj x σ = Some σ' /\ queue_times σ' (filter (fun p => p.1 <> x) ts).
Proof.
  intros (l & Hq & Hd & Ht & <-) Hx. rewrite expiry_fst in Hx.
  destruct (remove_refines σ l x) as (σ' & Hrun & Hq' & _); auto.
  exists σ'. split; [done|]. exists (delta_remove x l). destruct Hq as [_ Hnd].
  unfold times_ok. rewrite expiry_remove by done.
  split_and!; auto using delays_remove. by apply Forall_filter.
Qed.

(** Removal leaves the object itself unlinked. *)
Lemma remove_timerobj_obj σ σ' x :
  remove_timerobj x σ = Some σ' -> exists o, tobjs σ' !! x = Some o /\ timer_next o = NULL /\ timer_prev o = NULL.
Proof.
  unfold remove_timerobj, store. intros H.
  repeat (case_match || (destruct (_ !! _); [|by simplify_option_eq]); simplify_option_eq);
    simplify_map_eq; eauto.
Qed.

(** A store to an object outside the queue is invisible in the times. *)
Lemma queue_times_insert σ ts x o :
  queue_times σ ts -> x ∉ ts.*1 -> queue_times (mk_ts (timers σ) (<[x := o]> (tobjs σ))) ts.
Proof.
  intros (l & [Hl Hnd] & Hd & Ht & <-) Hx. rewrite expiry_fst in Hx.
  exists l. split_and!; auto. split; [|done]. simpl. apply (tlist_frame (tobjs σ)); [|done].
  intros y Hy. apply lookup_insert_ne. by intros ->.
Qed.

(** stopping a queued timer takes exactly that timer off the queue and
    leaves every other timer's time as it was; stopping one that is not queued
    changes no time and reports [-1]. *)
Theorem stoptimer_times σ ts x :
  queue_times σ ts -> is_Some (tobjs σ !! x) ->
  exists ret σ', stoptimer x σ = Some (ret, σ') /\
    ret = (if decide (x ∈ ts.*1) then 0 else -1) /\
    queue_times σ' (filter (fun p => p.1 <> x) ts).
Proof.
  intros Hq [o Ho]. pose proof Hq as (l & [Hl Hnd] & Hd & Ht & <-).
  unfold stoptimer. rewrite (search_refines _ _ _ _ l x Hl) by (by apply (tlist_length _ NULL (timers σ))).
  rewrite expiry_fst. cbn [mbind option_bind].
  destruct (decide (x ∈ l.*1)) as [Hin|Hin].
  - destruct (remove_times σ _ x Hq ltac:(by rewrite expiry_fst)) as (σ1 & Hrun & Hq1). rewrite Hrun. cbn.
    destruct (remove_timerobj_obj _ _ _ Hrun) as (o1 & Ho1 & _).
    rewrite (store_Some x _ _ o1) by done. cbn. do 2 eexists; split; [reflexivity|]. split; [done|].
    apply queue_times_insert; [done|].
    rewrite list_elem_of_fmap. intros ([y t] & -> & Hy). apply list_elem_of_filter in Hy as [Hy _]. done.
  - cbn. rewrite (store_Some x _ _ o) by done. cbn. do 2 eexists; split; [reflexivity|]. split; [done|].
    rewrite filter_all.
    + apply queue_times_insert; [done|]. by rewrite expiry_fst.
    + apply Forall_forall. intros [y t] Hy Heq. simpl in Heq. subst y. apply Hin.
      rewrite <- (expiry_fst 0 l). apply list_elem_of_fmap. by exists (x, t).
Qed.

(** starting a timer that is not queued queues it at the requested time. *)
Theorem starttimer_times σ ts x o msec h param cur :
  queue_times σ ts -> tobjs σ !! x = Some o -> x ∉ ts.*1 -> 0 <= msec < 2 ^ 30 ->
  exists σ', starttimer x msec h param cur σ = Some (0, σ') /\ queue_times σ' (time_insert x msec ts).
Proof.
  intros Hq Ho Hx Hm. unfold starttimer. rewrite (store_Some x _ _ o) by done. cbn [mbind option_bind].
  set (o1 := mk_tobj _ _ _ _ _ _ _). pose proof (queue_times_insert σ ts x o1 Hq Hx) as Hq1.
  pose proof Hq1 as (l & [Hl Hnd] & _ & _ & He). cbn [timers tobjs] in Hl.
  rewrite (search_refines _ _ _ _ l x Hl) by (by apply (tlist_length _ NULL (timers σ))).
  rewrite decide_False by (by rewrite <- (expiry_fst 0 l), He). cbn [mbind option_bind].
  destruct (insert_timerobj_times _ ts x o1 Hq1) as (σ' & Hrun & Hq'); cbn; auto; try (by simplify_map_eq).
  - rewrite s32_id; lia.
  - rewrite Hrun. cbn. exists σ'. split; [done|]. cbn in Hq'. by rewrite s32_id in Hq' by lia.
Qed.

(** one clock tick brings every queued timer 20 ms nearer and raises the
    flag exactly when the first one is due. *)
Theorem timer_tick_times σ ts fl :
  queue_times σ ts -> Forall (fun p => - 2 ^ 30 + 20 <= p.2) ts ->
  exists σ', timer_tick fl σ =
      Some (match ts with (_, t) :: _ => if t - 20 <=? 0 then 1 else fl | [] => fl end, σ') /\
    queue_times σ' ((fun p => (p.1, p.2 - 20)) <$> ts).
Proof.
  intros (l & [Hl Hnd] & Hd & Ht & <-) Hlow. unfold timer_tick. destruct σ as [hd m]. cbn [timers tobjs] in *.
  destruct l as [|[x d] l]; simpl in Hl.
  - subst hd. exists (mk_ts None m). split; [done|]. by exists [].
  - destruct Hl as (-> & o & Ho & Hc & Hp & Hl). rewrite Ho. cbn. rewrite (store_Some x _ m o) by done. cbn.
    inversion Ht as [|?? Hdr Ht']; subst. inversion Hlow as [|?? H1 H2]; subst. simpl in *. rewrite !Z.add_0_l in *.
    rewrite s32_id by lia. eexists; split; [reflexivity|].
    exists ((x, timer_count o - 20) :: l).
    assert (expiry 0 ((x, timer_count o - 20) :: l) =
            (x, timer_count o - 20) :: ((fun p => (p.1, p.2 - 20)) <$> expiry (timer_count o) l)) as He.
    { simpl. rewrite Z.add_0_l. f_equal. clear. generalize (timer_count o) as b.
      induction l as [|[y d] l IH]; intros b; simpl; [done|].
      replace (b - 20 + d) with (b + d - 20) by lia. f_equal. apply IH. }
    split_and!; [|done| |done].
    + split; [|done]. simpl. split; [done|]. eexists; split; [by simplify_map_eq|]. simpl. split_and!; auto.
      apply (tlist_frame m); [|done]. intros w Hw. apply lookup_insert_ne. intros ->.
      inversion Hnd; subst. done.
    + unfold times_ok. rewrite He. constructor; [simpl; lia|]. apply Forall_fmap.
      eapply Forall_impl; [apply Forall_and; exact (conj Ht' H2)|]. intros [y t] [H3 H4]. simpl in *. lia.
Qed.

Lemma delta_expire_times b l :
  Forall (fun p => 0 <= p.2) (tail l) ->
  exists due, expiry b l = due ++ expiry 0 (delta_expire b l).2 /\
    due.*1 = (delta_expire b l).1 /\ Forall (fun p => p.2 <= 0) due /\
    Forall (fun p => 0 < p.2) (expiry 0 (delta_expire b l).2) /\ delays_ok (delta_expire b l).2.
Proof.
  revert b; induction l as [|[x d] l IH]; intros b Hd; simpl; [by exists []|].
  destruct (Z.leb_spec (b + d) 0) as [Hle|Hgt].
  - destruct (IH (b + d)) as (due & H1 & H2 & H3 & H4 & H5).
    { simpl in Hd. destruct l; [constructor|]. by inversion Hd. }
    destruct (delta_expire (b + d) l) as [f r]; simpl in *.
    exists ((x, b + d) :: due). simpl. rewrite H1. split_and!; auto. by f_equal.
  - exists []. simpl. rewrite Z.add_0_l. split_and!; auto. constructor; [done|].
    simpl in Hd. revert Hgt Hd. generalize (b + d) as c. clear.
    induction l as [|[y e] l IH]; intros c Hc Hd; simpl; [constructor|].
    inversion Hd; subst; simpl in *. constructor; [simpl; lia|]. apply IH; [lia|done].
Qed.

(** C34: when the timeout flag is set, the timer thread takes off exactly the
    timers that are due, calls their handlers in order of time, clears the
    flag, and leaves the other timers with their times. *)
Theorem timer_expire_times σ ts sl :
  queue_times σ ts ->
  exists due rest σ', ts = due ++ rest /\
    timer_expire sl 1 σ = Some (calls sl (tobjs σ) due.*1, 0, σ') /\ queue_times σ' rest /\
    Forall (fun p => p.2 <= 0) due /\ Forall (fun p => 0 < p.2) rest.
Proof.
  intros (l & [Hl Hnd] & Hd & Ht & <-). unfold timer_expire. destruct σ as [hd m]. cbn [timers tobjs] in *.
  destruct (expire_loop_refines (length l) sl (size m) hd l m) as (p' & m' & Hrun & Hl' & _); auto.
  { by apply (tlist_length _ NULL hd). }
  destruct (delta_expire_times 0 l Hd) as (due & H1 & H2 & H3 & H4 & H5).
  rewrite Hrun, <- H2. exists due, (expiry 0 (delta_expire 0 l).2).
  assert (queue_times (mk_ts p' m') (expiry 0 (delta_expire 0 l).2)) as Hq'.
  { exists (delta_expire 0 l).2. split_and!; auto; [split; [done|by apply delta_expire_nodup]|].
    unfold times_ok in *. rewrite H1 in Ht. by apply Forall_app in Ht as [_ ?]. }
  destruct hd as [hd|].
  - eexists. split_and!; eauto; reflexivity.
  - destruct l as [|[x d] l]; [|destruct Hl; discriminate]. simpl in *.
    exists (mk_ts None m). rewrite app_nil_r in H1. subst due. split_and!; auto. by exists [].
Qed.

(** [starttimer] on a timer that is still queued reports [-1], but by then
    it has cleared the timer's links: the timers behind it are lost. *)
Theorem starttimer_requeue_drops m x y ox oy msec h param cur :
  x <> y -> m !! x = Some ox -> m !! y = Some oy -> timer_prev ox = NULL ->
  timer_next ox = Some y -> timer_prev oy = Some x -> timer_next oy = NULL ->
  tqueue (mk_ts (Some x) m) [(x, timer_count ox); (y, timer_count oy)] /\
  exists σ', starttimer x msec h param cur (mk_ts (Some x) m) = Some (-1, σ') /\
    tqueue σ' [(x, s32 msec)].
Proof.
  intros Hxy Hx Hy Hpx Hnx Hpy Hny. split.
  - split; simpl; [|constructor; [by rewrite list_elem_of_singleton|apply NoDup_singleton]].
    split; [done|]. exists ox. do 3 (split; [done|]). rewrite Hnx.
    split; [done|]. exists oy. by split_and!.
  - unfold starttimer. cbn [timers tobjs]. rewrite (store_Some x _ m ox) by done. cbn [mbind option_bind].
    set (m' := <[x := _]> m).
    assert (search (size m') (is_obj x) (Some x) m' = Some (Some x)) as ->.
    { assert (m' !! x = Some (mk_tobj (s32 msec) h param cur NULL NULL (timer_event ox))) as Hm
        by (unfold m'; by simplify_map_eq).
      destruct (size m'); simpl; rewrite Hm; simpl; unfold is_obj; by rewrite bool_decide_true. }
    cbn [mbind option_bind]. eexists; split; [reflexivity|]. split; simpl; [|apply NoDup_singleton].
    split; [done|]. eexists. split; [unfold m'; by simplify_map_eq|]. done.
Qed.

(** * Witnesses *)

(** A queue with timer 1 due in 10 ms and timer 2 in 35. *)
Definition ex_obj (c : Z) (h : handler) (nx pv : ptr) : timerobject :=
  mk_tobj c h NULL (Some 9%positive) nx pv eventobj_init.
Definition ex_queue : tstate :=
  mk_ts (Some 1%positive)
    (<[1%positive := ex_obj 10 HWakeup (Some 2%positive) NULL]>
    (<[2%positive := ex_obj 25 (HFun 7) NULL (Some 1%positive)]>
    (<[3%positive := ex_obj 0 HNull NULL NULL]> ∅))).

Lemma ex_queue_times : queue_times ex_queue [(1%positive, 10); (2%positive, 35)].
Proof.
  exists [(1%positive, 10); (2%positive, 25)]. split; [split|split; [|split; [|done]]].
  - simpl. split; [done|]. eexists; split; [reflexivity|]. do 2 (split; [done|]). simpl.
    split; [done|]. eexists; split; [reflexivity|]. done.
  - apply (bool_decide_unpack _). vm_compute. done.
  - unfold delays_ok. apply (bool_decide_unpack _). vm_compute. done.
  - unfold times_ok. apply (bool_decide_unpack _). vm_compute. done.
Qed.

Lemma stoptimer_times_witness :
  queue_times ex_queue [(1%positive, 10); (2%positive, 35)] /\
  exists ret σ', stoptimer 2 ex_queue = Some (ret, σ') /\ ret = 0 /\
    queue_times σ' [(1%positive, 10)].
Proof.
  split; [exact ex_queue_times|].
  exact (stoptimer_times ex_queue _ 2%positive ex_queue_times ltac:(by eexists)).
Defined.

Lemma starttimer_times_witness :
  exists σ', starttimer 3 20 HWakeup NULL NULL ex_queue = Some (0, σ') /\
    queue_times σ' [(1%positive, 10); (3%positive, 20); (2%positive, 35)].
Proof.
  apply (starttimer_times ex_queue _ 3%positive (ex_obj 0 HNull NULL NULL) 20 HWakeup NULL NULL ex_queue_times);
    [reflexivity| |lia]. apply (bool_decide_unpack _); vm_compute; done.
Defined.

Lemma timer_tick_times_witness :
  exists σ', timer_tick 0 ex_queue = Some (1, σ') /\
    queue_times σ' [(1%positive, -10); (2%positive, 15)].
Proof.
  apply (timer_tick_times ex_queue _ 0 ex_queue_times).
  apply (bool_decide_unpack _); vm_compute; done.
Defined.

Lemma timer_expire_times_witness :
  queue_times ex_queue [(1%positive, 10); (2%positive, 35)] /\
  exists due rest σ', [(1%positive, 10); (2%positive, 35)] = due ++ rest /\
    timer_expire (fun _ => true) 1 ex_queue = Some (calls (fun _ => true) (tobjs ex_queue) due.*1, 0, σ') /\
    queue_times σ' rest /\ Forall (fun p => p.2 <= 0) due /\ Forall (fun p => 0 < p.2) rest.
Proof.
  split; [exact ex_queue_times|]. exact (timer_expire_times ex_queue _ (fun _ => true) ex_queue_times).
Defined.

Lemma starttimer_requeue_drops_witness :
  tqueue ex_queue [(1%positive, 10); (2%positive, 25)] /\
  exists σ', starttimer 1 5 HWakeup NULL NULL ex_queue = Some (-1, σ') /\ tqueue σ' [(1%positive, 5)].
Proof.
  apply (starttimer_requeue_drops (tobjs ex_queue) 1 2 (ex_obj 10 HWakeup (Some 2%positive) NULL)
           (ex_obj 25 (HFun 7) NULL (Some 1%positive)) 5 HWakeup NULL NULL); done.
Defined.

End Timer.
