(* ===== verification/Queue.v ===== *)
(** Intrusive doubly linked queues: the macros of [src/include/lock.h] and the
    open-coded copies of them in process.c, timer.c and lock.c, at the level of
    the link fields.  The theorems relate them to operations on lists, which is
    how [Sched], [Lock] and [Semaphore] describe ready and sleep queues. *)
From S2P Require Import Prelude.

Module Queue.

(** * Link fields *)

(** The link fields [kt_qnext] and [kt_qprev] of a thread, and the two ends of
    a queue ([sl_head]/[sl_tail] or [ready_qhead[i]]/[ready_qtail[i]]). *)
Record node := mk_node { kt_qnext : ptr; kt_qprev : ptr }.
Record ends := mk_ends { sl_head : ptr; sl_tail : ptr }.
Record qmem := mk_q { q_ends : ends; q_nodes : gmap loc node }.

Definition set_head (p : ptr) (q : qmem) : qmem := mk_q (mk_ends p (sl_tail (q_ends q))) (q_nodes q).
Definition set_tail (p : ptr) (q : qmem) : qmem := mk_q (mk_ends (sl_head (q_ends q)) p) (q_nodes q).
Definition set_qnext (t : loc) (p : ptr) (q : qmem) : option qmem :=
  n ← q_nodes q !! t; Some (mk_q (q_ends q) (<[t := mk_node p (kt_qprev n)]> (q_nodes q))).
Definition set_qprev (t : loc) (p : ptr) (q : qmem) : option qmem :=
  n ← q_nodes q !! t; Some (mk_q (q_ends q) (<[t := mk_node (kt_qnext n) p]> (q_nodes q))).

(** [ADD_SLQ]: the thread becomes the last one. *)
Definition ADD_SLQ (t : loc) (q : qmem) : option qmem :=
  q ← set_qnext t NULL q;
  q ← set_qprev t (sl_tail (q_ends q)) q;
  match sl_tail (q_ends q) with
  | Some l => q ← set_qnext l (Some t) q; Some (set_tail (Some t) q)
  | None => Some (set_head (Some t) (set_tail (Some t) q))
  end.

(** [DEL_SLQ]: the first thread is taken off. *)
Definition DEL_SLQ (q : qmem) : option (ptr * qmem) :=
  match sl_head (q_ends q) with
  | None => Some (NULL, q)
  | Some t =>
      n ← q_nodes q !! t;
      let q := set_head (kt_qnext n) q in
      q ← (match sl_head (q_ends q) with
           | None => Some (set_tail NULL q)
           | Some h => set_qprev h NULL q
           end);
      q ← set_qprev t NULL q;
      q ← set_qnext t NULL q;
      Some (Some t, q)
  end.

(** The unlinking of [del_readyq] and of [scheduler]. *)
Definition UNLINK (t : loc) (q : qmem) : option qmem :=
  n ← q_nodes q !! t;
  q ← (match kt_qnext n with
       | Some nx => set_qprev nx (kt_qprev n) q
       | None => Some (set_tail (kt_qprev n) q)
       end);
  n ← q_nodes q !! t;
  q ← (match kt_qprev n with
       | Some pv => set_qnext pv (kt_qnext n) q
       | None => Some (set_head (kt_qnext n) q)
       end);
  q ← set_qnext t NULL q;
  set_qprev t NULL q.

(** * Doubly linked lists *)

(** [lk o] are the next and previous fields of the node at [o]: every node
    points to its neighbours in the list. *)
Definition dlist (lk : loc -> option (ptr * ptr)) (os : list loc) : Prop :=
  NoDup os /\ forall a o b, os = a ++ o :: b -> lk o = Some (head b, last a).

Lemma dlist_nil lk : dlist lk [].
Proof. split; [constructor|]. intros [|] ? ?; done. Qed.

Lemma dlist_elem lk os o : dlist lk os -> o ∈ os -> exists nx pv, lk o = Some (nx, pv).
Proof. intros [_ H] (a & b & ->)%list_elem_of_split. rewrite (H a o b eq_refl). eauto. Qed.

Lemma dlist_frame lk lk' os : dlist lk os -> (forall o, o ∈ os -> lk' o = lk o) -> dlist lk' os.
Proof.
  intros [Hn H] Hf. split; [done|]. intros a o b ->. rewrite Hf; [by apply H|].
  apply elem_of_app. right. by left.
Qed.

(** A new first node. *)
Lemma dlist_push lk lk' o os :
  dlist lk os -> o ∉ os -> lk' o = Some (head os, None) ->
  (forall h nx pv, head os = Some h -> lk h = Some (nx, pv) -> lk' h = Some (nx, Some o)) ->
  (forall x, x <> o -> head os <> Some x -> lk' x = lk x) ->
  dlist lk' (o :: os).
Proof.
  intros [Hn H] Hno Ho Hh Hf. split; [by constructor|]. intros [|a1 a] x b E; simplify_eq/=; [done|].
  destruct a as [|a2 a]; simpl in *.
  - apply (Hh x _ None); [done|]. by apply (H []).
  - rewrite Hf; [by apply (H (a2 :: a))| |].
    + intros ->. apply Hno. right. apply elem_of_app. right. by left.
    + intros [= ->]. apply NoDup_cons in Hn as [Hn _]. apply Hn. apply elem_of_app. right. by left.
Qed.

(** A new last node. *)
Lemma dlist_snoc lk lk' o os :
  dlist lk os -> o ∉ os -> lk' o = Some (None, last os) ->
  (forall h nx pv, last os = Some h -> lk h = Some (nx, pv) -> lk' h = Some (Some o, pv)) ->
  (forall x, x <> o -> last os <> Some x -> lk' x = lk x) ->
  dlist lk' (os ++ [o]).
Proof.
  intros [Hn H] Hno Ho Hh Hf. split.
  { apply NoDup_app. split_and!; [done| |apply NoDup_singleton]. intros x Hx ->%list_elem_of_singleton. done. }
  intros a x b E. destruct (decide (b = [])) as [->|Hb].
  - apply app_inj_2 in E as [<- [= <-]]; [|done]. by rewrite Ho.
  - destruct (exists_last Hb) as (b' & z & ->). rewrite app_comm_cons, app_assoc in E.
    apply app_inj_2 in E as [-> [= <-]]; [|done].
    assert (x <> o) as Hxo by (intros ->; apply Hno; apply elem_of_app; right; by left).
    destruct (decide (b' = [])) as [->|Hb'].
    + rewrite (Hh x None (last a)); [done|by rewrite last_snoc|by apply (H a x [])].
    + rewrite Hf; [|done|].
      * rewrite (H a x b' eq_refl). by destruct b'.
      * destruct (exists_last Hb') as (b2 & y & ->). rewrite app_comm_cons, app_assoc, last_snoc. intros [= ->].
        rewrite app_comm_cons, app_assoc in Hn. apply NoDup_app in Hn as (_ & Hd & _).
        apply (Hd x); [apply elem_of_app; right; by left|by left].
Qed.

(** A node taken out: its neighbours point to each other. *)
Lemma dlist_remove lk lk' a o b :
  dlist lk (a ++ o :: b) ->
  (forall h nx pv, head b = Some h -> lk h = Some (nx, pv) -> lk' h = Some (nx, last a)) ->
  (forall h nx pv, last a = Some h -> lk h = Some (nx, pv) -> lk' h = Some (head b, pv)) ->
  (forall x, x <> o -> head b <> Some x -> last a <> Some x -> lk' x = lk x) ->
  dlist lk' (a ++ b).
Proof.
  intros [Hn H] Hh Ht Hf.
  assert (NoDup (a ++ b) /\ o ∉ a ++ b) as [Hn' Ho].
  { rewrite <- Permutation_middle in Hn. by apply NoDup_cons in Hn as [? ?]. }
  split; [done|]. intros a' x b' E.
  assert (x <> o) as Hxo by (intros ->; apply Ho; rewrite E; apply elem_of_app; right; by left).
  apply app_eq_inv in E as [(c & -> & E)|(c & -> & ->)].
  - destruct c as [|y c]; simpl in E.
    + subst b. rewrite app_nil_r in *. rewrite (Hh x (head b') (Some o)); [done..|].
      rewrite (H (a' ++ [o]) x b'); [by rewrite last_snoc|by rewrite <- app_assoc].
    + injection E as <- ->. rewrite <- !app_assoc in *. simpl in *.
      assert (lk x = Some (head (c ++ o :: b), last a')) as Hx by by apply H.
      destruct (decide (c = [])) as [->|Hc].
      * simpl in *. rewrite (Ht x (Some o) (last a')); [done|by rewrite last_snoc|done].
      * rewrite Hf; [| done | |].
        -- rewrite Hx. by destruct c.
        -- intros Hb. destruct b as [|y b]; simplify_eq/=. apply NoDup_app in Hn' as (_ & _ & Hn').
           apply NoDup_cons in Hn' as [Hn' _]. apply Hn'. apply elem_of_app. right. by left.
        -- rewrite last_app_cons. destruct (exists_last Hc) as (c2 & y & ->). rewrite app_comm_cons, last_snoc.
           intros [= ->]. apply NoDup_app in Hn' as (_ & _ & Hn'). apply NoDup_cons in Hn' as [Hn' _].
           apply Hn'. rewrite <- app_assoc. apply elem_of_app. right. by left.
  - assert (lk x = Some (head b', last (a ++ o :: c))) as Hx by (apply H; by rewrite <- app_assoc).
    destruct (decide (c = [])) as [->|Hc].
    + rewrite app_nil_r. rewrite (Hh x (head b') (Some o)); [done..|]. rewrite Hx. by rewrite last_snoc.
    + rewrite Hf; [|done| |].
      * rewrite Hx, !last_app_cons. destruct (exists_last Hc) as (c2 & y & ->).
        by rewrite app_comm_cons, !app_assoc, !last_snoc.
      * destruct c as [|y c]; [done|]. intros [= ->]. apply NoDup_app in Hn' as (_ & _ & Hn').
        apply NoDup_cons in Hn' as [Hn' _]. apply Hn'. apply elem_of_app. right. by left.
      * intros Hl. apply NoDup_app in Hn' as (_ & Hd & _). apply (Hd x).
        -- by apply last_Some_elem_of.
        -- apply elem_of_app. right. by left.
Qed.

(** * The macros implement list operations *)

Definition lks (m : gmap loc node) (t : loc) : option (ptr * ptr) :=
  (fun n => (kt_qnext n, kt_qprev n)) <$> m !! t.

Definition queue_ok (q : qmem) (os : list loc) : Prop :=
  sl_head (q_ends q) = head os /\ sl_tail (q_ends q) = last os /\ dlist (lks (q_nodes q)) os.

Lemma lks_node m t nx pv : lks m t = Some (nx, pv) -> m !! t = Some (mk_node nx pv).
Proof. unfold lks. destruct (m !! t) as [[]|]; simpl; [|done]. by intros [= <- <-]. Qed.

Lemma lks_eq m t n : lks (<[t := n]> m) t = Some (kt_qnext n, kt_qprev n).
Proof. unfold lks. by rewrite lookup_insert_eq. Qed.
Lemma lks_ne m t t' n : t <> t' -> lks (<[t := n]> m) t' = lks m t'.
Proof. unfold lks. intros. by rewrite lookup_insert_ne. Qed.

Lemma set_qnext_Some t p q n :
  q_nodes q !! t = Some n -> set_qnext t p q = Some (mk_q (q_ends q) (<[t := mk_node p (kt_qprev n)]> (q_nodes q))).
Proof. intros H. unfold set_qnext. by rewrite H. Qed.
Lemma set_qprev_Some t p q n :
  q_nodes q !! t = Some n -> set_qprev t p q = Some (mk_q (q_ends q) (<[t := mk_node (kt_qnext n) p]> (q_nodes q))).
Proof. intros H. unfold set_qprev. by rewrite H. Qed.

Ltac qstep := first [rewrite lookup_insert_eq | rewrite lookup_insert_ne by done].

Lemma dlist_head lk os h : dlist lk os -> head os = Some h -> exists nx, lk h = Some (nx, None).
Proof. intros [_ H] Hh. destruct os as [|x os]; simplify_eq/=. exists (head os). by apply (H []). Qed.
Lemma dlist_last lk os h : dlist lk os -> last os = Some h -> exists pv, lk h = Some (None, pv).
Proof.
  intros [_ H] Hh. destruct (decide (os = [])) as [->|Hne]; [done|]. destruct (exists_last Hne) as (a & x & ->).
  rewrite last_snoc in Hh. simplify_eq. exists (last a). by apply (H a h []).
Qed.

(** The neighbours of a node. *)
Lemma dlist_next lk a t b h :
  dlist lk (a ++ t :: b) -> head b = Some h -> h <> t /\ exists nx, lk h = Some (nx, Some t).
Proof.
  intros [Hn H] Hb. destruct b as [|y b]; simplify_eq/=. split.
  - intros ->. apply NoDup_app in Hn as (_ & _ & Hn). apply NoDup_cons in Hn as [Hn _]. apply Hn. by left.
  - exists (head b). rewrite (H (a ++ [t]) h b) by (by rewrite <- app_assoc). by rewrite last_snoc.
Qed.
Lemma dlist_prev lk a t b h :
  dlist lk (a ++ t :: b) -> last a = Some h -> h <> t /\ head b <> Some h /\ exists pv, lk h = Some (Some t, pv).
Proof.
  intros [Hn H] Hl. destruct (decide (a = [])) as [->|Hne]; [done|]. destruct (exists_last Hne) as (a' & y & ->).
  rewrite last_snoc in Hl. simplify_eq. pose proof Hn as (_ & Hdj & _)%NoDup_app.
  assert (forall z, z ∈ t :: b -> h <> z) as Hdj'.
  { intros z Hz ->. apply (Hdj z); [apply elem_of_app; right; by left|done]. }
  split; [apply Hdj'; by left|]. split.
  - intros Hb'. destruct b as [|y b]; simplify_eq/=. apply (Hdj' h); [right; by left|done].
  - exists (last a'). apply (H a' h (t :: b)). by rewrite <- app_assoc.
Qed.

(** [ADD_SLQ] appends.  On a well-linked queue holding the threads [os],
    adding a thread that is in no position of it gives the well-linked queue
    [os ++ [t]], whatever the thread's link fields held. *)
Theorem ADD_SLQ_appends q os t :
  queue_ok q os -> t ∉ os -> is_Some (q_nodes q !! t) ->
  exists q', ADD_SLQ t q = Some q' /\ queue_ok q' (os ++ [t]).
Proof.
  intros (Hh & Ht & Hd) Hto [n Hn]. destruct q as [[hd tl] m]. simpl in *. subst hd tl. unfold ADD_SLQ.
  rewrite (set_qnext_Some _ _ _ n) by done. cbn. rewrite (set_qprev_Some _ _ _ (mk_node NULL (kt_qprev n))) by (simpl; by qstep).
  cbn. rewrite insert_insert_eq. destruct (last os) as [l|] eqn:El.
  - destruct (dlist_last _ _ _ Hd El) as [pv Hl]. assert (t <> l) as Hne.
    { intros <-. apply Hto. by apply last_Some_elem_of. }
    erewrite set_qnext_Some; [|simpl; rewrite lookup_insert_ne by done; by apply lks_node]. cbn.
    eexists; split; [reflexivity|]. split; [|split]; simpl.
    + by destruct os.
    + by rewrite last_snoc.
    + apply (dlist_snoc (lks m)); auto.
      * rewrite lks_ne by done. rewrite lks_eq. simpl. by rewrite El.
      * intros h nx pv' [= <-]%(eq_trans (eq_sym El)) Hl'. rewrite Hl in Hl'. simplify_eq. by rewrite lks_eq.
      * intros x Hx Hxl. rewrite !lks_ne; [done|congruence|]. intros <-. apply Hxl. done.
  - apply last_None in El as ->. eexists; split; [reflexivity|]. split; [done|]. split; [done|]. simpl.
    apply (dlist_snoc (lks m) _ _ []); auto; try done.
    + by rewrite lks_eq.
    + intros x Hx _. by rewrite lks_ne.
Qed.

(** [DEL_SLQ] takes the first.  It returns the head of the queue, [NULL]
    when there is none, leaves the rest well linked and clears the link fields
    of the thread it returns. *)
Theorem DEL_SLQ_pops q os :
  queue_ok q os ->
  exists q', DEL_SLQ q = Some (head os, q') /\ queue_ok q' (tail os) /\
    forall t, head os = Some t -> q_nodes q' !! t = Some (mk_node NULL NULL).
Proof.
  intros (Hh & Ht & Hd). destruct q as [[hd tl] m]. simpl in *. subst hd tl. unfold DEL_SLQ. simpl.
  destruct os as [|t os]; [by eexists; split|]. simpl.
  pose proof (proj2 Hd [] t os eq_refl) as Htn. apply lks_node in Htn as Htm. simpl in Htm.
  pose proof (proj1 Hd) as Hnd. apply NoDup_cons in Hnd as [Hto _]. rewrite Htm. cbn.
  destruct os as [|h os]; cbn.
  - erewrite set_qprev_Some; [|exact Htm]. cbn.
    erewrite set_qnext_Some; [|simpl; by qstep]. cbn. eexists; split; [reflexivity|]. split.
    + split; [done|]. split; [done|]. apply dlist_nil.
    + intros ? [= <-]. simpl. by rewrite lookup_insert_eq.
  - assert (t <> h) as Hne by (intros <-; apply Hto; by left).
    assert (m !! h = Some (mk_node (head os) (Some t))) as Hhm by (apply lks_node; by apply (proj2 Hd [t] h os)).
    erewrite set_qprev_Some; [|exact Hhm]. cbn. erewrite set_qprev_Some; [|simpl; by rewrite lookup_insert_ne].
    cbn. erewrite set_qnext_Some; [|simpl; by qstep]. cbn. rewrite insert_insert_eq.
    eexists; split; [reflexivity|]. split.
    + split; [done|]. split; [simpl; by destruct os|]. cbn [q_nodes]. apply (dlist_remove (lks m) _ [] t (h :: os)); auto.
      * intros h' nx pv [= <-] Hl. rewrite lks_ne, lks_eq by done. unfold lks in Hl. rewrite Hhm in Hl. by simplify_eq/=.
      * done.
      * intros x Hx Hxh _. simpl in Hxh. rewrite !lks_ne by congruence. done.
    + intros ? [= <-]. simpl. by rewrite lookup_insert_eq.
Qed.

(** Unlinking removes exactly one thread, wherever it is: at the head, at
    the tail, in between or alone.  The queue that is left is well linked and in
    the same order, and the thread's link fields are cleared. *)
Theorem UNLINK_removes q os t :
  queue_ok q os -> t ∈ os ->
  exists q', UNLINK t q = Some q' /\ queue_ok q' (filter (fun x => x <> t) os) /\
    q_nodes q' !! t = Some (mk_node NULL NULL).
Proof.
  intros (Hh & Ht & Hd) (a & b & ->)%list_elem_of_split. destruct q as [[hd tl] m]. simpl in *. subst hd tl.
  pose proof (proj2 Hd a t b eq_refl) as Htn. apply lks_node in Htn.
  assert (t ∉ a ++ b) as Hto.
  { destruct Hd as [Hn _]. rewrite <- Permutation_middle in Hn. by apply NoDup_cons in Hn as [? _]. }
  assert (filter (fun x => x <> t) (a ++ t :: b) = a ++ b) as ->.
  { rewrite filter_app, filter_cons_False, <- filter_app by (intros Hn; by apply Hn).
    apply filter_all. apply Forall_forall. intros x Hx ->. done. }
  unfold UNLINK. simpl. rewrite Htn. cbn.
  assert (forall h, head b = Some h -> h <> t /\ exists nx, m !! h = Some (mk_node nx (Some t))) as Hb.
  { intros h Hb. destruct (dlist_next _ _ _ _ _ Hd Hb) as (Hne & nx & Hl). split; [done|]. exists nx. by apply lks_node. }
  assert (forall h, last a = Some h -> h <> t /\ head b <> Some h /\ exists pv, m !! h = Some (mk_node (Some t) pv)) as Ha.
  { intros h Ha. destruct (dlist_prev _ _ _ _ _ Hd Ha) as (Hne & Hnb & pv & Hl). split; [done|]. split; [done|].
    exists pv. by apply lks_node. }
  assert (exists q1, match head b with Some nx => set_qprev nx (last a) (mk_q (mk_ends (head (a ++ t :: b)) (last (a ++ t :: b))) m)
      | None => Some (set_tail (last a) (mk_q (mk_ends (head (a ++ t :: b)) (last (a ++ t :: b))) m)) end = Some q1 /\
      sl_head (q_ends q1) = head (a ++ t :: b) /\ sl_tail (q_ends q1) = last (a ++ b) /\
      q_nodes q1 !! t = Some (mk_node (head b) (last a)) /\
      (forall h nx pv, head b = Some h -> lks m h = Some (nx, pv) -> lks (q_nodes q1) h = Some (nx, last a)) /\
      (forall x, head b <> Some x -> lks (q_nodes q1) x = lks m x)) as (q1 & -> & E1 & E2 & E3 & E4 & E5).
  { destruct (head b) as [h|] eqn:Eb.
    - destruct (Hb h eq_refl) as (Hne & nx & Hm). erewrite set_qprev_Some; [|exact Hm]. eexists; split; [reflexivity|]. simpl.
      split; [done|]. split; [|split; [|split]].
      + destruct b as [|y b]; simplify_eq/=. by rewrite !last_app_cons.
      + by rewrite lookup_insert_ne.
      + intros h' nx' pv [= <-] Hl. rewrite lks_eq. unfold lks in Hl. rewrite Hm in Hl. by simplify_eq/=.
      + intros x Hx. rewrite lks_ne; [done|congruence].
    - destruct b; [|done]. eexists; split; [reflexivity|]. simpl. rewrite app_nil_r. split_and!; auto. done. }
  cbn. rewrite E3. cbn.
  assert (exists q2, match last a with Some pv => set_qnext pv (head b) q1 | None => Some (set_head (head b) q1) end = Some q2 /\
      sl_head (q_ends q2) = head (a ++ b) /\ sl_tail (q_ends q2) = last (a ++ b) /\
      q_nodes q2 !! t = Some (mk_node (head b) (last a)) /\
      (forall h nx pv, last a = Some h -> lks (q_nodes q1) h = Some (nx, pv) -> lks (q_nodes q2) h = Some (head b, pv)) /\
      (forall x, last a <> Some x -> lks (q_nodes q2) x = lks (q_nodes q1) x)) as (q2 & -> & F1 & F2 & F3 & F4 & F5).
  { destruct (last a) as [h|] eqn:Ea.
    - destruct (Ha h eq_refl) as (Hne & Hnb & pv & Hm).
      assert (q_nodes q1 !! h = Some (mk_node (Some t) pv)) as Hm1.
      { apply lks_node. rewrite E5 by done. unfold lks. by rewrite Hm. }
      erewrite set_qnext_Some; [|exact Hm1]. eexists; split; [reflexivity|]. simpl. rewrite E1, E2.
      split; [by destruct a|]. split; [done|]. split; [by rewrite lookup_insert_ne|]. split.
      + intros h' nx' pv' [= <-] Hl. rewrite lks_eq. unfold lks in Hl. rewrite Hm1 in Hl. by simplify_eq/=.
      + intros x Hx. rewrite lks_ne; [done|congruence].
    - apply last_None in Ea as ->. eexists; split; [reflexivity|]. simpl. by split_and!. }
  cbn. erewrite set_qnext_Some; [|exact F3]. cbn. erewrite set_qprev_Some; [|simpl; by qstep]. cbn. rewrite insert_insert_eq.
  eexists; split; [reflexivity|]. split; [|simpl; by qstep]. split; [done|]. split; [done|]. cbn [q_nodes].
  apply (dlist_remove (lks m) _ a t b Hd).
  - intros h nx pv Hhb Hl. destruct (Hb h Hhb) as (Hne & _). rewrite lks_ne by done.
    rewrite F5; [by eapply E4|]. intros Hla. by destruct (Ha h Hla) as (_ & ? & _).
  - intros h nx pv Hla Hl. destruct (Ha h Hla) as (Hne & Hnb & _). rewrite lks_ne by done. eapply F4; [done|]. by rewrite E5.
  - intros x Hx Hxb Hxa. rewrite lks_ne by done. by rewrite F5, E5.
Qed.

(** * A concrete queue of three threads, and a fourth outside it *)

Definition ex_q : qmem :=
  mk_q (mk_ends (Some 1%positive) (Some 3%positive))
    (list_to_map [(1%positive, mk_node (Some 2%positive) NULL);
                  (2%positive, mk_node (Some 3%positive) (Some 1%positive));
                  (3%positive, mk_node NULL (Some 2%positive));
                  (4%positive, mk_node (Some 9%positive) NULL)]).

Lemma ex_q_ok : queue_ok ex_q [1%positive; 2%positive; 3%positive].
Proof.
  split; [done|]. split; [done|]. split; [by apply (bool_decide_unpack _); vm_compute|].
  intros [|a1 [|a2 [|a3 a]]] o b E; simplify_eq/=; try done. by destruct a.
Qed.

Lemma ADD_SLQ_appends_witness :
  exists q', ADD_SLQ 4 ex_q = Some q' /\ queue_ok q' [1%positive; 2%positive; 3%positive; 4%positive].
Proof.
  apply (ADD_SLQ_appends ex_q _ 4 ex_q_ok); [by apply (bool_decide_unpack _); vm_compute|by eexists].
Defined.

Lemma DEL_SLQ_pops_witness :
  exists q', DEL_SLQ ex_q = Some (Some 1%positive, q') /\ queue_ok q' [2%positive; 3%positive] /\
    forall t, Some 1%positive = Some t -> q_nodes q' !! t = Some (mk_node NULL NULL).
Proof. apply (DEL_SLQ_pops ex_q _ ex_q_ok). Defined.

Lemma UNLINK_removes_witness :
  exists q', UNLINK 2 ex_q = Some q' /\ queue_ok q' [1%positive; 3%positive] /\
    q_nodes q' !! 2%positive = Some (mk_node NULL NULL).
Proof. apply (UNLINK_removes ex_q _ 2 ex_q_ok). by apply (bool_decide_unpack _); vm_compute. Defined.

End Queue.
