(* ===== verification/Chain.v ===== *)
(** Singly linked lists in a finite map, and the loops that walk along them: the threads
    of a process ([kt_sib]), the lists of threads ([kt_uselist], [kt_qnext]), the children
    of a process ([proc_sib]) and the lists of processes ([proc_next]) are such lists. *)
From S2P Require Import Prelude.

Section chain.
Context {A : Type} (nx : A -> ptr).

(** * Loops *)

(** [while (p != NULL && !stop(p)) p = p->nx]; without fuel the loop has not ended. *)
Fixpoint walk (fuel : nat) (stop : loc -> A -> bool) (m : gmap loc A) (p : ptr) : option ptr :=
  match p with
  | None => Some None
  | Some t =>
      match fuel with
      | O => None
      | S fuel => x ← m !! t; if stop t x then Some (Some t) else walk fuel stop m (nx x)
      end
  end.

(** [while (p->nx != t) p = p->nx], which follows a null pointer at the end of the list. *)
Fixpoint walk_before (fuel : nat) (t : ptr) (m : gmap loc A) (p : ptr) : option loc :=
  match fuel with
  | O => None
  | S fuel => a ← p; x ← m !! a; if bool_decide (nx x = t) then Some a else walk_before fuel t m (nx x)
  end.

(** [while (p2 != t) { p1 = p2; p2 = p2->nx; }]: the last [p1]. *)
Fixpoint walk_prev (fuel : nat) (t : loc) (m : gmap loc A) (p1 p2 : ptr) : option ptr :=
  if bool_decide (p2 = Some t) then Some p1 else
  match fuel with
  | O => None
  | S fuel => a ← p2; x ← m !! a; walk_prev fuel t m (Some a) (nx x)
  end.

(** * Chains *)

(** [l] is the list from [p] on. *)
Fixpoint chain (m : gmap loc A) (p : ptr) (l : list loc) : Prop :=
  match l with
  | [] => p = NULL
  | t :: l => p = Some t /\ exists x, m !! t = Some x /\ chain m (nx x) l
  end.

Lemma chain_head m p l : chain m p l -> p = head l.
Proof. destruct l; [done|by intros (-> & _)]. Qed.

Lemma chain_in m p l t : chain m p l -> t ∈ l -> exists x, m !! t = Some x.
Proof. revert p. induction l as [|a l IH]; intros p; [by intros _ ?%elem_of_nil|]. intros (_ & x & Hx & Hl) [->|Ht]%elem_of_cons; eauto. Qed.

Lemma chain_unique m p l l' : chain m p l -> chain m p l' -> l = l'.
Proof.
  revert p l'. induction l as [|a l IH]; intros p [|b l'] H H'; [done| | |]; cbn [chain] in *.
  - subst p. by destruct H'.
  - subst p. by destruct H.
  - destruct H as (-> & x & Hx & Hl), H' as ([= <-] & x' & Hx' & Hl'). assert (x' = x) as -> by congruence. f_equal. by apply (IH (nx x)).
Qed.

(** Only the links of its nodes matter to a chain. *)
Lemma chain_keep m m' p l : chain m p l -> (forall t x, t ∈ l -> m !! t = Some x -> exists y, m' !! t = Some y /\ nx y = nx x) -> chain m' p l.
Proof.
  revert p. induction l as [|a l IH]; intros p; [done|]. intros (-> & x & Hx & Hl) H. split; [done|]. destruct (H a x) as (y & Hy & E); [by left|done|].
  exists y. rewrite E. split; [done|]. apply IH; [done|]. intros t z Ht. apply H. by right.
Qed.

Lemma chain_out m p l t z : chain m p l -> t ∉ l -> chain (<[t := z]> m) p l.
Proof. intros Hl Ht. apply (chain_keep m); [done|]. intros a x Ha Hx. exists x. rewrite lookup_insert_ne by (by intros ->). done. Qed.

Lemma chain_same m p l t x z : chain m p l -> m !! t = Some x -> nx z = nx x -> chain (<[t := z]> m) p l.
Proof.
  intros Hl Hx E. apply (chain_keep m); [done|]. intros a y Ha Hy. destruct (decide (a = t)) as [->|]; [exists z; rewrite lookup_insert_eq; split; [done|congruence]|].
  exists y. by rewrite lookup_insert_ne.
Qed.

Lemma chain_size m p l : chain m p l -> NoDup l -> (length l <= size m)%nat.
Proof.
  intros Hl Hnd. rewrite <- size_dom, <- (size_list_to_set (C := gset loc) l Hnd). apply subseteq_size. intros t Ht%elem_of_list_to_set.
  destruct (chain_in m p l t Hl Ht). by apply elem_of_dom; eauto.
Qed.

(** A chain leads on from each of its nodes. *)
Lemma chain_from m p l1 t l2 : chain m p (l1 ++ t :: l2) -> exists x, m !! t = Some x /\ chain m (nx x) l2.
Proof. revert p. induction l1 as [|a l1 IH]; intros p; cbn [app chain]; [by intros (_ & ?)|]. intros (_ & x & _ & Hl). eauto. Qed.

(** A new list after a node. *)
Lemma chain_retail m m' p l1 b l l2 y :
  chain m p (l1 ++ b :: l) -> (forall t, t ∈ l1 -> m' !! t = m !! t) -> m' !! b = Some y -> chain m' (nx y) l2 -> chain m' p (l1 ++ b :: l2).
Proof.
  revert p. induction l1 as [|a l1 IH]; intros p Hl H Hb Hy; cbn [app chain] in *; destruct Hl as (-> & x & Hx & Hl); split; try done.
  - by exists y.
  - exists x. split; [rewrite H by (by left); done|]. apply IH; try done. intros t Ht. apply H. by right.
Qed.

Lemma chain_cut m p l1 b t l2 x z :
  chain m p (l1 ++ b :: t :: l2) -> NoDup (l1 ++ b :: t :: l2) -> m !! t = Some x -> nx z = nx x -> chain (<[b := z]> m) p (l1 ++ b :: l2).
Proof.
  intros Hl Hnd Hx E. apply NoDup_app in Hnd as (_ & Hd & Hnd). apply (chain_retail m _ p l1 b (t :: l2) l2 z); [done| |apply lookup_insert_eq|].
  - intros a Ha. rewrite lookup_insert_ne; [done|]. intros ->. apply (Hd a Ha). by left.
  - rewrite E. rewrite (cons_middle b l1) in Hl. assert (Hl' : chain m p ((l1 ++ [b]) ++ t :: l2)) by (by rewrite <- app_assoc). apply chain_from in Hl' as (x' & Hx' & Hl').
    assert (x' = x) as -> by congruence. apply chain_out; [done|]. apply NoDup_cons in Hnd as [Hb _]. set_solver.
Qed.

(** * What the loops find *)

Definition holds (stop : loc -> A -> bool) (m : gmap loc A) (t : loc) : bool := match m !! t with Some x => stop t x | None => false end.

Lemma walk_spec m p l stop fuel : chain m p l -> (length l <= fuel)%nat -> walk fuel stop m p = Some (List.find (holds stop m) l).
Proof.
  revert p fuel. induction l as [|t l IH]; intros p fuel; cbn [chain List.find].
  - intros -> ?. by destruct fuel.
  - intros (-> & x & Hx & Hl) Hf. destruct fuel as [|fuel]; [cbn in Hf; lia|]. cbn [walk]. unfold holds at 1. rewrite Hx. cbn [mbind option_bind].
    destruct (stop t x); [done|]. apply IH; [done|cbn in Hf; lia].
Qed.

Lemma walk_before_in m p l1 b t l2 fuel : chain m p (l1 ++ b :: t :: l2) -> t ∉ l1 ++ [b] -> (length l1 < fuel)%nat -> walk_before fuel (Some t) m p = Some b.
Proof.
  revert p fuel. induction l1 as [|a l1 IH]; intros p [|fuel] Hl Ht Hf; try (cbn in Hf; lia); cbn [app chain walk_before] in *; destruct Hl as (-> & x & Hx & Hl); cbn [mbind option_bind]; rewrite Hx; cbn [mbind option_bind].
  - destruct Hl as (-> & _). by rewrite bool_decide_eq_true_2.
  - rewrite bool_decide_eq_false_2; [apply IH; [done|set_solver|cbn in Hf; lia]|]. apply chain_head in Hl. rewrite Hl. destruct l1; cbn; set_solver.
Qed.

Lemma walk_before_out m p l t fuel : chain m p l -> t ∉ l -> walk_before fuel (Some t) m p = None.
Proof.
  revert p fuel. induction l as [|a l IH]; intros p [|fuel] Hl Ht; try done; cbn [chain walk_before] in *.
  - by rewrite Hl.
  - destruct Hl as (-> & x & Hx & Hl). cbn [mbind option_bind]. rewrite Hx. cbn [mbind option_bind]. apply not_elem_of_cons in Ht as [_ Ht].
    rewrite bool_decide_eq_false_2; [by apply IH|]. apply chain_head in Hl. rewrite Hl. destruct l; cbn; set_solver.
Qed.

Lemma walk_prev_in m p l1 t l2 fuel q : chain m p (l1 ++ t :: l2) -> t ∉ l1 -> (length l1 <= fuel)%nat -> walk_prev fuel t m q p = Some (match last l1 with Some b => Some b | None => q end).
Proof.
  revert p fuel q. induction l1 as [|a l1 IH]; intros p fuel q Hl Ht Hf; cbn [app chain] in Hl; destruct Hl as (-> & x & Hx & Hl).
  - destruct fuel; cbn [walk_prev]; by rewrite bool_decide_eq_true_2.
  - destruct fuel as [|fuel]; [cbn in Hf; lia|]. cbn [walk_prev]. rewrite bool_decide_eq_false_2 by set_solver. cbn [mbind option_bind]. rewrite Hx. cbn [mbind option_bind].
    rewrite (IH (nx x) fuel (Some a)); [|done|set_solver|cbn in Hf; lia]. destruct l1 as [|b l1]; [done|]. rewrite last_cons_cons. destruct (last (b :: l1)) eqn:E; [done|by apply last_None in E].
Qed.

Lemma walk_prev_out m p l t fuel q : chain m p l -> t ∉ l -> walk_prev fuel t m q p = None.
Proof.
  revert p fuel q. induction l as [|a l IH]; intros p fuel q Hl Ht; cbn [chain] in Hl.
  - subst p. by destruct fuel.
  - destruct Hl as (-> & x & Hx & Hl). apply not_elem_of_cons in Ht as [Hne Ht]. destruct fuel; cbn [walk_prev]; (rewrite bool_decide_eq_false_2 by congruence); [done|].
    cbn [mbind option_bind]. rewrite Hx. by apply IH.
Qed.

(** * Rings *)

(** The last node of the list leads back to the first: a search for what is not there
    does not end. *)
Lemma walk_ring m a l b fuel stop p :
  (forall l1 t l2 x, a :: l = l1 ++ t :: l2 -> m !! t = Some x -> nx x = head (l2 ++ [a])) -> (forall t, t ∈ a :: l -> exists x, m !! t = Some x /\ stop t x = false) ->
  p = Some b -> b ∈ a :: l -> walk fuel stop m p = None.
Proof.
  intros Hn Hs. revert p b. induction fuel as [|fuel IH]; intros p b -> Hb; cbn [walk]; [done|]. destruct (Hs b Hb) as (x & Hx & E). rewrite Hx. cbn [mbind option_bind]. rewrite E.
  destruct (list_elem_of_split _ _ Hb) as (l1 & l2 & El). rewrite (Hn l1 b l2 x El Hx). destruct l2 as [|c l2]; cbn.
  - apply (IH _ a); [done|by left].
  - apply (IH _ c); [done|]. rewrite El. set_solver.
Qed.
End chain.
