(* ===== verification/Sched.v ===== *)
(** Threads, ready queues and the scheduler ([src/base/process.c],
    [src/base/timer.c]).  The kernel is built for one processor ([SMP] is not
    defined in src/include/mconst.h): a section between [CLI] and the next
    [scheduler()] or [STI] runs without interruption, and a spin lock is a store
    nobody else observes, so it leaves no trace here. *)
From S2P Require Import Prelude Timer.

Module Sched.

(** * Data *)

(** Thread states, process states and classes of src/include/process.h. *)
Definition THREAD_STATE_SLEEP : Z := 1.
Definition THREAD_STATE_READY : Z := 2.
Definition THREAD_STATE_RUNNING : Z := 6.
Definition PROC_STATE_SUSPENDED : Z := 1.
Definition PROC_STATE_READY : Z := 2.
Definition SCHED_CLASS_IDLE : Z := 4.
Definition TIME_QUANTUM : Z := 100.
Definition MAXREADYQ : nat := 32.

(** [basepri] and [maxpri], indexed by [sc_cid - 1]. *)
Definition basepri : list Z := [130; 100; 10; 0].
Definition maxpri : list Z := [159; 129; 99; 0].

(** The scheduling fields of [struct kthread]; [sc_state] to [sc_usrpri] are
    its [kt_schedinf].  [kt_synchobjlist] and [kt_slpchannel] point to
    synchronisation objects. *)
Record kthread := mk_thr {
  sc_cid : Z; sc_usrpri : Z; sc_cpupri : Z; sc_inhpri : Z; sc_reccpuusage : Z;
  sc_state : Z; sc_tqleft : Z; sc_totcpuusage : Z; sc_slpstart : Z; sc_thrreadystart : Z;
  kt_synchobjlist : ptr; kt_slpchannel : ptr; kt_process : loc }.

Definition with_cpupri (x : Z) (t : kthread) : kthread :=
  mk_thr (sc_cid t) (sc_usrpri t) x (sc_inhpri t) (sc_reccpuusage t) (sc_state t) (sc_tqleft t)
    (sc_totcpuusage t) (sc_slpstart t) (sc_thrreadystart t) (kt_synchobjlist t) (kt_slpchannel t) (kt_process t).
Definition with_inhpri (x : Z) (t : kthread) : kthread :=
  mk_thr (sc_cid t) (sc_usrpri t) (sc_cpupri t) x (sc_reccpuusage t) (sc_state t) (sc_tqleft t)
    (sc_totcpuusage t) (sc_slpstart t) (sc_thrreadystart t) (kt_synchobjlist t) (kt_slpchannel t) (kt_process t).
Definition with_state (x : Z) (t : kthread) : kthread :=
  mk_thr (sc_cid t) (sc_usrpri t) (sc_cpupri t) (sc_inhpri t) (sc_reccpuusage t) x (sc_tqleft t)
    (sc_totcpuusage t) (sc_slpstart t) (sc_thrreadystart t) (kt_synchobjlist t) (kt_slpchannel t) (kt_process t).
Definition with_slpchannel (p : ptr) (t : kthread) : kthread :=
  mk_thr (sc_cid t) (sc_usrpri t) (sc_cpupri t) (sc_inhpri t) (sc_reccpuusage t) (sc_state t) (sc_tqleft t)
    (sc_totcpuusage t) (sc_slpstart t) (sc_thrreadystart t) (kt_synchobjlist t) p (kt_process t).
Definition with_synchobjlist (p : ptr) (t : kthread) : kthread :=
  mk_thr (sc_cid t) (sc_usrpri t) (sc_cpupri t) (sc_inhpri t) (sc_reccpuusage t) (sc_state t) (sc_tqleft t)
    (sc_totcpuusage t) (sc_slpstart t) (sc_thrreadystart t) p (kt_slpchannel t) (kt_process t).
Definition with_slpstart (x : Z) (t : kthread) : kthread :=
  mk_thr (sc_cid t) (sc_usrpri t) (sc_cpupri t) (sc_inhpri t) (sc_reccpuusage t) (sc_state t) (sc_tqleft t)
    (sc_totcpuusage t) x (sc_thrreadystart t) (kt_synchobjlist t) (kt_slpchannel t) (kt_process t).
Definition with_quantum (tq start : Z) (t : kthread) : kthread :=
  mk_thr (sc_cid t) (sc_usrpri t) (sc_cpupri t) (sc_inhpri t) (sc_reccpuusage t) (sc_state t) tq
    (sc_totcpuusage t) (sc_slpstart t) start (kt_synchobjlist t) (kt_slpchannel t) (kt_process t).
Definition with_usage (rec tq tot : Z) (t : kthread) : kthread :=
  mk_thr (sc_cid t) (sc_usrpri t) (sc_cpupri t) (sc_inhpri t) rec (sc_state t) tq
    tot (sc_slpstart t) (sc_thrreadystart t) (kt_synchobjlist t) (kt_slpchannel t) (kt_process t).

(** A synchronisation object: the [struct sleep_q] header every kind starts
    with (the chain [sl_head .. sl_tail] is the list [sl_waiters]) and the
    fields of [struct lock_t], [struct rlock_t] and [struct event_t] after it:
    the owner, the value and the recursion level. *)
Record synchobj := mk_obj {
  sl_type : Z; sl_waiters : list loc; sl_next : ptr; sl_prev : ptr;
  o_owner : ptr; o_val : Z; o_level : Z }.

(** The scheduler's part of the kernel: threads, processes (by their
    [proc_state]), synchronisation objects, the ready queues from [ready_qhead]
    and [ready_qtail], the clock and the flags of timer.c. *)
Record kstate := mk_k {
  threads : gmap loc kthread; proc_state : gmap loc Z; objs : gmap loc synchobj;
  current_thread : loc; readyq : list (list loc);
  runrun : Z; kprunrun : Z; priocompute : Z; timeoutflag : Z;
  secs : Z; millesecs : Z; tq : Timer.tstate }.

Definition set_threads (x : gmap loc kthread) (k : kstate) : kstate :=
  mk_k x (proc_state k) (objs k) (current_thread k) (readyq k) (runrun k) (kprunrun k)
    (priocompute k) (timeoutflag k) (secs k) (millesecs k) (tq k).
Definition set_objs (x : gmap loc synchobj) (k : kstate) : kstate :=
  mk_k (threads k) (proc_state k) x (current_thread k) (readyq k) (runrun k) (kprunrun k)
    (priocompute k) (timeoutflag k) (secs k) (millesecs k) (tq k).
Definition set_current (x : loc) (k : kstate) : kstate :=
  mk_k (threads k) (proc_state k) (objs k) x (readyq k) (runrun k) (kprunrun k)
    (priocompute k) (timeoutflag k) (secs k) (millesecs k) (tq k).
Definition set_readyq (x : list (list loc)) (k : kstate) : kstate :=
  mk_k (threads k) (proc_state k) (objs k) (current_thread k) x (runrun k) (kprunrun k)
    (priocompute k) (timeoutflag k) (secs k) (millesecs k) (tq k).
Definition set_runrun (x y : Z) (k : kstate) : kstate :=
  mk_k (threads k) (proc_state k) (objs k) (current_thread k) (readyq k) x y
    (priocompute k) (timeoutflag k) (secs k) (millesecs k) (tq k).
Definition set_priocompute (x : Z) (k : kstate) : kstate :=
  mk_k (threads k) (proc_state k) (objs k) (current_thread k) (readyq k) (runrun k) (kprunrun k)
    x (timeoutflag k) (secs k) (millesecs k) (tq k).
Definition set_clock (s ms : Z) (k : kstate) : kstate :=
  mk_k (threads k) (proc_state k) (objs k) (current_thread k) (readyq k) (runrun k) (kprunrun k)
    (priocompute k) (timeoutflag k) s ms (tq k).
Definition set_tq (fl : Z) (x : Timer.tstate) (k : kstate) : kstate :=
  mk_k (threads k) (proc_state k) (objs k) (current_thread k) (readyq k) (runrun k) (kprunrun k)
    (priocompute k) fl (secs k) (millesecs k) x.
Definition set_proc_state (x : gmap loc Z) (k : kstate) : kstate :=
  mk_k (threads k) x (objs k) (current_thread k) (readyq k) (runrun k) (kprunrun k)
    (priocompute k) (timeoutflag k) (secs k) (millesecs k) (tq k).

(** Stores through a thread pointer and an object pointer. *)
Definition upd_thr (t : loc) (f : kthread -> kthread) (k : kstate) : option kstate :=
  x ← threads k !! t; Some (set_threads (<[t := f x]> (threads k)) k).
Definition upd_obj (o : loc) (f : synchobj -> synchobj) (k : kstate) : option kstate :=
  x ← objs k !! o; Some (set_objs (<[o := f x]> (objs k)) k).

(** * Ready queues *)

(** [(cpupri > inhpri) ? (159 - cpupri) / 5 : (159 - inhpri) / 5] *)
Definition prio_index (t : kthread) : Z :=
  if sc_inhpri t <? sc_cpupri t then cdiv (159 - sc_cpupri t) 5 else cdiv (159 - sc_inhpri t) 5.

(** Append at [ready_qtail[i]]; the index is undefined outside the array. *)
Definition rq_append (i : Z) (t : loc) (k : kstate) : option kstate :=
  q ← zget (readyq k) i;
  rq ← zset (readyq k) i (q ++ [t]);
  Some (set_readyq rq k).

(** Unlink a thread from the queue of index [i]. *)
Definition rq_unlink (i : Z) (t : loc) (k : kstate) : option kstate :=
  q ← zget (readyq k) i;
  rq ← zset (readyq k) i (filter (fun x => x <> t) q);
  Some (set_readyq rq k).

Definition add_readyq (t : loc) (k : kstate) : option kstate :=
  k ← upd_thr t (with_slpchannel NULL) k;
  thr ← threads k !! t;
  let i := prio_index thr in
  k ← upd_thr t (with_state THREAD_STATE_READY) k;
  k ← rq_append i t k;
  thr ← threads k !! t;
  cur ← threads k !! current_thread k;
  if ((sc_cpupri cur <? sc_cpupri thr) && (sc_inhpri cur <? sc_cpupri thr))
     || ((sc_cpupri cur <? sc_inhpri thr) && (sc_inhpri cur <? sc_inhpri thr))
  then Some (set_runrun 1 (kprunrun k) k) else Some k.

Definition del_readyq (t : loc) (k : kstate) : option (Z * kstate) :=
  thr ← threads k !! t;
  let i := prio_index thr in
  if sc_state thr =? THREAD_STATE_READY then k ← rq_unlink i t k; Some (1, k)
  else Some (0, k).

(** * The scheduling class *)

Definition rr_cl_tick (t : loc) (k : kstate) : option kstate :=
  k ← upd_thr t (fun x => with_usage (s16 (sc_reccpuusage x + 20)) (s16 (sc_tqleft x - 20))
                            (u32 (sc_totcpuusage x + 20)) x) k;
  thr ← threads k !! t;
  if sc_tqleft thr <=? 0 then
    k ← upd_thr t (fun x => with_cpupri (s16 (sc_cpupri x - 10)) x) k;
    thr ← threads k !! t;
    b ← zget basepri (sc_cid thr - 1);
    if sc_cpupri thr <? b then upd_thr t (with_cpupri b) k else Some k
  else Some k.

(** [(secs & 0x000FFFFF) * 1000 + millesecs] *)
Definition time_ms (k : kstate) : Z := u32 (Z.land (secs k) 0xFFFFF * 1000 + millesecs k).

Definition rr_cl_sleep (t : loc) (k : kstate) : option kstate := upd_thr t (with_slpstart (time_ms k)) k.

Definition rr_cl_wakeup (t : loc) (k : kstate) : option kstate :=
  k ← upd_thr t (fun x => with_cpupri (s16 (sc_cpupri x + 5)) x) k;
  thr ← threads k !! t;
  m ← zget maxpri (sc_cid thr - 1);
  if m <? sc_cpupri thr then upd_thr t (with_cpupri m) k else Some k.

(** [wakeup]; every thread's [CL_WAKEUP] is [rr_cl_wakeup]. *)
Definition wakeup (t : loc) (k : kstate) : option kstate :=
  k ← rr_cl_wakeup t k;
  thr ← threads k !! t;
  ps ← proc_state k !! kt_process thr;
  if ps =? PROC_STATE_READY then
    k ← upd_thr t (with_state THREAD_STATE_READY) k; add_readyq t k
  else Some k.

(** * The scheduler *)

Definition prio (x : kthread) : Z :=
  sc_usrpri x + (if sc_inhpri x <? sc_cpupri x then sc_cpupri x else sc_inhpri x).

(** The inner [while]: the first thread of least [prio]. *)
Fixpoint pick_min (ts : gmap loc kthread) (best : loc) (bestp : Z) (q : list loc) : option loc :=
  match q with
  | [] => Some best
  | t :: q' =>
      x ← ts !! t;
      if prio x <? bestp then pick_min ts t (prio x) q' else pick_min ts best bestp q'
  end.

(** The outer [for]: the first queue that is not empty. *)
Fixpoint pick (ts : gmap loc kthread) (rq : list (list loc)) : option ptr :=
  match rq with
  | [] => Some None
  | [] :: rq' => pick ts rq'
  | (t :: q) :: _ => x ← ts !! t; b ← pick_min ts t (prio x) q; Some (Some b)
  end.

(** [context_switch]: of the machine state only the current thread is kept. *)
Definition context_switch (t : loc) (k : kstate) : option kstate :=
  k ← upd_thr t (with_state THREAD_STATE_RUNNING) k; Some (set_current t k).

Definition scheduler (k : kstate) : option kstate :=
  let k := set_runrun 0 0 k in
  new ← pick (threads k) (readyq k);
  cur ← threads k !! current_thread k;
  let running := sc_state cur =? THREAD_STATE_RUNNING in
  let stay := upd_thr (current_thread k) (with_quantum TIME_QUANTUM (time_ms k)) k in
  match new with
  | None => stay
  | Some n =>
      thr ← threads k !! n;
      if (sc_cid thr =? SCHED_CLASS_IDLE) && running then stay else
      k ← (if running then
             k ← upd_thr (current_thread k) (with_state THREAD_STATE_READY) k;
             rq_append (prio_index cur) (current_thread k) k
           else Some k);
      thr ← threads k !! n;
      k ← rq_unlink (prio_index thr) n k;
      k ← upd_thr n (with_quantum TIME_QUANTUM (time_ms k)) k;
      context_switch n k
  end.

(** * The clock interrupt *)

Definition timer_handler (k : kstate) : option kstate :=
  let ms := u32 (millesecs k + 20) in
  let k := if 1000 <=? ms then set_priocompute 1 (set_clock (u32 (secs k + 1)) (u32 (ms - 1000)) k)
           else set_clock (secs k) ms k in
  '(fl, q) ← Timer.timer_tick (timeoutflag k) (tq k);
  let k := set_tq fl q k in
  k ← rr_cl_tick (current_thread k) k;
  cur ← threads k !! current_thread k;
  if (sc_tqleft cur <=? 0) || (runrun k =? 1) || (kprunrun k =? 1) then scheduler k else Some k.

(** The part of [timerthread] that raises the priorities of waiting threads:
    one thread taken off queue [i], then all of the queue, then queues 0 to 30. *)
Definition reprio_one (tmsec : Z) (k : kstate) (t : loc) : option kstate :=
  x ← threads k !! t;
  let inc := if 3000 <? u32 (tmsec - sc_thrreadystart x) then 4 else 2 in
  k ← upd_thr t (fun x => with_cpupri (s16 (sc_cpupri x + inc)) x) k;
  x ← threads k !! t;
  m ← zget maxpri (sc_cid x - 1);
  k ← (if m <? sc_cpupri x then upd_thr t (with_cpupri m) k else Some k);
  x ← threads k !! t;
  rq_append (prio_index x) t k.

Fixpoint foldM {A} (f : kstate -> A -> option kstate) (k : kstate) (l : list A) : option kstate :=
  match l with
  | [] => Some k
  | a :: l' => k ← f k a; foldM f k l'
  end.

Definition reprio_queue (tmsec : Z) (k : kstate) (i : Z) : option kstate :=
  q ← zget (readyq k) i;
  rq ← zset (readyq k) i [];
  foldM (reprio_one tmsec) (set_readyq rq k) q.

Definition reprioritise (k : kstate) : option kstate :=
  if priocompute k =? 1 then
    let k := set_priocompute 0 k in foldM (reprio_queue (time_ms k)) k (seqZ 0 31)
  else Some k.

(** * Invariant of the ready queues *)

(** Priorities stay within the bounds of the thread's class. *)
Definition wf_thread (x : kthread) : Prop :=
  1 <= sc_cid x <= 4 /\
  (exists b m, zget basepri (sc_cid x - 1) = Some b /\ zget maxpri (sc_cid x - 1) = Some m /\
     b <= sc_cpupri x <= m) /\
  0 <= sc_inhpri x <= 159.

Lemma class_bounds c b m :
  zget basepri c = Some b -> zget maxpri c = Some m -> 0 <= b /\ b <= m /\ m <= 159.
Proof.
  intros Hb Hm. pose proof (zget_Some_range _ _ _ Hb) as Hr. change (zlen basepri) with 4 in Hr.
  assert (c = 0 \/ c = 1 \/ c = 2 \/ c = 3) as [-> | [-> | [-> | ->]]] by lia;
    vm_compute in Hb, Hm; simplify_eq; lia.
Qed.

Lemma prio_index_range x : wf_thread x -> 0 <= prio_index x < 32.
Proof.
  intros (_ & (b & m & Hb & Hm & Hc) & Hi). pose proof (class_bounds _ _ _ Hb Hm).
  unfold prio_index, cdiv. case_ztest; rewrite Z.quot_div_nonneg by lia;
    (split; [apply Z.div_pos; lia|apply Z.div_lt_upper_bound; lia]).
Qed.

(** A thread is ready exactly when it is in the queue of its priority, in one
    place; the threads of [E] are in no queue, whatever their state. *)
Record rq_inv (E : gset loc) (k : kstate) : Prop := {
  rq_len : length (readyq k) = MAXREADYQ;
  rq_nodup i q : readyq k !! i = Some q -> NoDup q;
  rq_sound i q t : readyq k !! i = Some q -> t ∈ q ->
    (t ∉ E) /\ exists x, threads k !! t = Some x /\ sc_state x = THREAD_STATE_READY /\ prio_index x = Z.of_nat i;
  rq_complete t x : threads k !! t = Some x -> sc_state x = THREAD_STATE_READY -> t ∉ E ->
    exists q, readyq k !! Z.to_nat (prio_index x) = Some q /\ t ∈ q;
  rq_wf t x : threads k !! t = Some x -> wf_thread x }.

Lemma upd_thr_Some t f k x :
  threads k !! t = Some x -> upd_thr t f k = Some (set_threads (<[t := f x]> (threads k)) k).
Proof. intros H. unfold upd_thr. by rewrite H. Qed.

Lemma upd_obj_Some o f k x :
  objs k !! o = Some x -> upd_obj o f k = Some (set_objs (<[o := f x]> (objs k)) k).
Proof. intros H. unfold upd_obj. by rewrite H. Qed.

(** Changing a thread that is outside the queues, or whose place does not
    change. *)
Lemma rq_inv_thread E k t x y :
  rq_inv E k -> threads k !! t = Some x -> wf_thread y ->
  (t ∈ E) \/ (sc_state x <> THREAD_STATE_READY /\ sc_state y <> THREAD_STATE_READY) \/
    (sc_state y = sc_state x /\ prio_index y = prio_index x) ->
  rq_inv E (set_threads (<[t := y]> (threads k)) k).
Proof.
  intros [H1 H2 H3 H4 H5] Hx Hy Hc. split; simpl; auto.
  - intros i q t' Hi Ht'. destruct (H3 _ _ _ Hi Ht') as (HE & x' & Hx' & Hs & Hp). split; [done|].
    destruct (decide (t' = t)) as [->|]; [|exists x'; by simplify_map_eq].
    simplify_eq. exists y. rewrite lookup_insert_eq.
    destruct Hc as [?|[[? ?]|[Hs' Hp']]]; [done|done|]. split_and!; congruence.
  - intros t' x'. destruct (decide (t' = t)) as [->|]; [|simplify_map_eq; eauto].
    rewrite lookup_insert_eq. intros [= <-] Hs HE.
    destruct Hc as [?|[[? ?]|[Hs' Hp]]]; [done|done|]. rewrite Hp. apply (H4 t x); congruence.
  - intros t' x'. destruct (decide (t' = t)) as [->|]; [|simplify_map_eq; eauto].
    rewrite lookup_insert_eq. by intros [= <-].
Qed.

Lemma rq_inv_not_ready E k t x :
  threads k !! t = Some x -> sc_state x <> THREAD_STATE_READY -> rq_inv E k -> rq_inv ({[t]} ∪ E) k.
Proof.
  intros Hx Hs [H1 H2 H3 H4 H5]. split; auto.
  - intros i q t' Hi Ht'. destruct (H3 _ _ _ Hi Ht') as (HE & x' & Hx' & Hs' & Hp).
    split; [|eauto]. rewrite not_elem_of_union, not_elem_of_singleton. split; [|done]. intros ->. congruence.
  - intros t' x' Hx' Hs' HE. apply not_elem_of_union in HE as [_ HE]. eauto.
Qed.

Lemma rq_inv_drop E k t x :
  threads k !! t = Some x -> sc_state x <> THREAD_STATE_READY -> rq_inv ({[t]} ∪ E) k -> rq_inv E k.
Proof.
  intros Hx Hs [H1 H2 H3 H4 H5]. split; auto.
  - intros i q t' Hi Ht'. destruct (H3 _ _ _ Hi Ht') as (HE & ?). apply not_elem_of_union in HE as [_ HE]. auto.
  - intros t' x' Hx' Hs' HE. apply (H4 t' x' Hx' Hs').
    rewrite not_elem_of_union, not_elem_of_singleton. split; [|done]. intros ->. congruence.
Qed.

(** Appending a ready thread to its queue. *)
Lemma rq_append_inv E k t x :
  rq_inv ({[t]} ∪ E) k -> t ∉ E -> threads k !! t = Some x -> sc_state x = THREAD_STATE_READY ->
  exists rq, rq_append (prio_index x) t k = Some (set_readyq rq k) /\ rq_inv E (set_readyq rq k).
Proof.
  intros [H1 H2 H3 H4 H5] HtE Hx Hs. pose proof (prio_index_range x (H5 _ _ Hx)) as Hr.
  unfold rq_append. assert (0 <= prio_index x < zlen (readyq k)) as Hz by (unfold zlen; rewrite H1; unfold MAXREADYQ; lia).
  destruct (zget_is_Some _ _ Hz) as [q Hq]. rewrite Hq. simpl. rewrite zset_Some by done. simpl.
  eexists; split; [reflexivity|].
  assert (readyq k !! Z.to_nat (prio_index x) = Some q) as Hq'.
  { unfold zget in Hq. by destruct (Z.ltb_spec (prio_index x) 0); [lia|]. }
  assert (t ∉ q) as Htq.
  { intros Hin. destruct (H3 _ _ _ Hq' Hin) as [HE _]. set_solver. }
  split; simpl; auto.
  - by rewrite length_insert.
  - intros i q'. rewrite list_lookup_insert. case_decide as Hd; [|eauto].
    intros [= <-]. apply NoDup_app. split_and!; [eauto| |apply NoDup_singleton].
    intros w Hw. rewrite list_elem_of_singleton. by intros ->.
  - intros i q' t'. rewrite list_lookup_insert. case_decide as Hd.
    + intros [= <-] [Hin|Hin%list_elem_of_singleton]%elem_of_app; [|subst t'].
      * destruct Hd as [<- _]. destruct (H3 _ _ _ Hq' Hin) as [HE ?]. split; [set_solver|done].
      * split; [done|]. exists x. destruct Hd as [<- _]. split_and!; auto. lia.
    + intros Hi Hin. destruct (H3 _ _ _ Hi Hin) as [HE ?]. split; [set_solver|done].
  - intros t' x' Hx' Hs' HE. rewrite list_lookup_insert. destruct (decide (t' = t)) as [->|Hne].
    + simplify_eq. rewrite decide_True by (split; [done|rewrite H1; unfold MAXREADYQ; lia]).
      eexists; split; [done|]. apply elem_of_app. right. by apply list_elem_of_singleton.
    + destruct (H4 t' x' Hx' Hs') as (q' & Hq'' & Hin); [set_solver|].
      case_decide as Hd; [|eauto]. destruct Hd as [Hd _]. rewrite <- Hd in Hq''. simplify_eq.
      eexists; split; [done|]. apply elem_of_app. by left.
Qed.

(** Unlinking a ready thread from its queue. *)
Lemma rq_unlink_inv E k t x :
  rq_inv E k -> threads k !! t = Some x -> sc_state x = THREAD_STATE_READY -> t ∉ E ->
  exists rq, rq_unlink (prio_index x) t k = Some (set_readyq rq k) /\ rq_inv ({[t]} ∪ E) (set_readyq rq k).
Proof.
  intros [H1 H2 H3 H4 H5] Hx Hs HtE. pose proof (prio_index_range x (H5 _ _ Hx)) as Hr.
  unfold rq_unlink. assert (0 <= prio_index x < zlen (readyq k)) as Hz by (unfold zlen; rewrite H1; unfold MAXREADYQ; lia).
  destruct (zget_is_Some _ _ Hz) as [q Hq]. rewrite Hq. simpl. rewrite zset_Some by done. simpl.
  eexists; split; [reflexivity|].
  assert (readyq k !! Z.to_nat (prio_index x) = Some q) as Hq'.
  { unfold zget in Hq. by destruct (Z.ltb_spec (prio_index x) 0); [lia|]. }
  split; simpl; auto.
  - by rewrite length_insert.
  - intros i q'. rewrite list_lookup_insert. case_decide as Hd; [|eauto].
    intros [= <-]. apply NoDup_filter. eauto.
  - intros i q' t'. rewrite list_lookup_insert. case_decide as Hd.
    + intros [= <-] [Hne Hin]%list_elem_of_filter. destruct Hd as [<- _].
      destruct (H3 _ _ _ Hq' Hin) as [HE ?]. split; [set_solver|done].
    + intros Hi Hin. destruct (H3 _ _ _ Hi Hin) as [HE (x' & Hx' & Hs' & Hp')]. split; [|eauto].
      rewrite not_elem_of_union, not_elem_of_singleton. split; [|done]. intros ->. simplify_eq.
      apply Hd. split; [lia|]. rewrite H1; unfold MAXREADYQ; lia.
  - intros t' x' Hx' Hs' HE. rewrite list_lookup_insert.
    apply not_elem_of_union in HE as [Hne%not_elem_of_singleton HE].
    destruct (H4 t' x' Hx' Hs' HE) as (q' & Hq'' & Hin).
    case_decide as Hd; [|eauto]. destruct Hd as [Hd _]. rewrite <- Hd in Hq''. simplify_eq.
    eexists; split; [done|]. by apply list_elem_of_filter.
Qed.

(** * Operations against the invariant *)

(** What the queue operations leave alone. *)
Definition same_rest (k k' : kstate) : Prop :=
  proc_state k' = proc_state k /\ objs k' = objs k /\ current_thread k' = current_thread k /\
  tq k' = tq k /\ secs k' = secs k /\ millesecs k' = millesecs k.

#[export] Instance same_rest_refl : Reflexive same_rest.
Proof. intros k. by split_and!. Qed.
#[export] Instance same_rest_trans : Transitive same_rest.
Proof. intros k1 k2 k3 H1 H2. unfold same_rest in *. destruct_and!. split_and!; congruence. Qed.

(** The thread put on a ready queue. *)
Definition readied (x : kthread) : kthread := with_state THREAD_STATE_READY (with_slpchannel NULL x).

Lemma rq_inv_runrun E a b k : rq_inv E k -> rq_inv E (set_runrun a b k).
Proof. intros [H1 H2 H3 H4 H5]. by split. Qed.

Lemma wf_same_prio x y :
  wf_thread x -> sc_cid y = sc_cid x -> sc_cpupri y = sc_cpupri x -> sc_inhpri y = sc_inhpri x -> wf_thread y.
Proof. unfold wf_thread. intros H -> -> ->. exact H. Qed.

Lemma readied_wf x : wf_thread x -> wf_thread (readied x).
Proof. intros. by apply (wf_same_prio x). Qed.
#[export] Hint Resolve readied_wf : core.

Lemma add_readyq_spec E k t x :
  rq_inv ({[t]} ∪ E) k -> t ∉ E -> threads k !! t = Some x -> is_Some (threads k !! current_thread k) ->
  exists k', add_readyq t k = Some k' /\ rq_inv E k' /\
    threads k' = <[t := readied x]> (threads k) /\ same_rest k k'.
Proof.
  intros Hinv HtE Hx [c Hc]. unfold add_readyq. rewrite (upd_thr_Some t _ k x) by done. simpl.
  simplify_map_eq. rewrite (upd_thr_Some t _ _ (with_slpchannel NULL x)) by (simpl; by simplify_map_eq). simpl.
  rewrite insert_insert_eq.
  change (with_state THREAD_STATE_READY (with_slpchannel NULL x)) with (readied x).
  set (k1 := set_threads _ (set_threads _ k)).
  assert (k1 = set_threads (<[t := readied x]> (threads k)) k) as Ek1 by done.
  assert (rq_inv ({[t]} ∪ E) k1) as Hinv1.
  { rewrite Ek1. eapply rq_inv_thread; [done|done| |left; set_solver].
    apply readied_wf. by apply (rq_wf _ _ Hinv t). }
  destruct (rq_append_inv E k1 t (readied x) Hinv1 HtE) as (rq & Hap & Hinv2);
    [rewrite Ek1; simpl; by simplify_map_eq|done|].
  change (prio_index (with_slpchannel NULL x)) with (prio_index (readied x)). rewrite Hap. simpl.
  rewrite lookup_insert_eq. simpl. clearbody k1. subst k1. simpl in *.
  assert (exists c', <[t := readied x]> (threads k) !! current_thread k = Some c') as [c' Hc'].
  { destruct (decide (t = current_thread k)) as [->|]; simplify_map_eq; eauto. }
  rewrite Hc'. simpl. case_match.
  - eexists; split; [reflexivity|]. split; [by apply rq_inv_runrun|]. done.
  - eexists; split; [reflexivity|]. split; [done|]. done.
Qed.

Lemma del_readyq_spec k t x :
  rq_inv ∅ k -> threads k !! t = Some x ->
  exists k' r, del_readyq t k = Some (r, k') /\ threads k' = threads k /\ same_rest k k' /\
    rq_inv {[t]} k' /\ r = (if sc_state x =? THREAD_STATE_READY then 1 else 0).
Proof.
  intros Hinv Hx. unfold del_readyq. rewrite Hx. simpl. destruct (Z.eqb_spec (sc_state x) THREAD_STATE_READY) as [Hs|Hs].
  - destruct (rq_unlink_inv ∅ k t x Hinv Hx Hs) as (rq & Hr & Hinv'); [set_solver|]. rewrite Hr. simpl.
    do 2 eexists; split; [reflexivity|]. split_and!; try done. by rewrite union_empty_r_L in Hinv'.
  - do 2 eexists; split; [reflexivity|]. split_and!; try done.
    rewrite <- (union_empty_r_L {[t]}). by apply (rq_inv_not_ready ∅ k t x).
Qed.

(** The bound of [rr_cl_wakeup] and of [reprio_one] keep a priority in class. *)
Lemma raise_wf x inc m :
  wf_thread x -> 0 <= inc <= 5 -> zget maxpri (sc_cid x - 1) = Some m ->
  wf_thread (with_cpupri (if m <? s16 (sc_cpupri x + inc) then m else s16 (sc_cpupri x + inc)) x) /\
  sc_cpupri x <= (if m <? s16 (sc_cpupri x + inc) then m else s16 (sc_cpupri x + inc)).
Proof.
  intros (Hc & (b & m' & Hb & Hm' & Hr) & Hi) Hinc Hm.
  assert (m' = m) as -> by congruence.
  pose proof (class_bounds _ _ _ Hb Hm). rewrite s16_id by lia.
  split; [|case_ztest; lia]. split; [done|]. split; [|done].
  exists b, m. split_and!; auto; simpl; case_ztest; lia.
Qed.

Lemma wf_max x : wf_thread x -> exists m, zget maxpri (sc_cid x - 1) = Some m.
Proof. intros (_ & (b & m & _ & Hm & _) & _). eauto. Qed.

Definition raised (inc : Z) (x y : kthread) : Prop :=
  exists p, y = with_cpupri p x /\ sc_cpupri x <= p <= sc_cpupri x + inc /\ wf_thread y.

Lemma raise_spec t inc k x :
  threads k !! t = Some x -> wf_thread x -> 0 <= inc <= 5 ->
  exists y, raised inc x y /\
    (k ← upd_thr t (fun x => with_cpupri (s16 (sc_cpupri x + inc)) x) k;
     x ← threads k !! t; m ← zget maxpri (sc_cid x - 1);
     if m <? sc_cpupri x then upd_thr t (with_cpupri m) k else Some k)
    = Some (set_threads (<[t := y]> (threads k)) k).
Proof.
  intros Hx Hwf Hinc. destruct (wf_max x Hwf) as [m Hm].
  destruct (raise_wf x inc m Hwf Hinc Hm) as [Hwf' Hle].
  exists (with_cpupri (if m <? s16 (sc_cpupri x + inc) then m else s16 (sc_cpupri x + inc)) x).
  assert (s16 (sc_cpupri x + inc) = sc_cpupri x + inc) as Es.
  { destruct Hwf as (_ & (b & m' & Hb & Hm' & Hr) & _). pose proof (class_bounds _ _ _ Hb Hm').
    apply s16_id. lia. }
  split.
  - eexists; split; [reflexivity|]. split; [|done]. split; [done|]. case_ztest; lia.
  - rewrite (upd_thr_Some t _ k x) by done. simpl. rewrite lookup_insert_eq. simpl. rewrite Hm. simpl.
    case_ztest; [|done]. rewrite (upd_thr_Some t _ _ (with_cpupri (s16 (sc_cpupri x + inc)) x))
      by (simpl; by simplify_map_eq). simpl. by rewrite insert_insert_eq.
Qed.


Lemma rr_cl_wakeup_spec t k x :
  threads k !! t = Some x -> wf_thread x ->
  exists y, raised 5 x y /\ rr_cl_wakeup t k = Some (set_threads (<[t := y]> (threads k)) k).
Proof. intros. by apply raise_spec. Qed.

Lemma wakeup_spec k t x ps :
  rq_inv ∅ k -> threads k !! t = Some x -> sc_state x <> THREAD_STATE_READY ->
  proc_state k !! kt_process x = Some ps -> is_Some (threads k !! current_thread k) ->
  exists k' y, wakeup t k = Some k' /\ raised 5 x y /\ rq_inv ∅ k' /\ same_rest k k' /\
    threads k' = <[t := if ps =? PROC_STATE_READY then readied y else y]> (threads k).
Proof.
  intros Hinv Hx Hs Hps [c Hc]. pose proof (rq_wf _ _ Hinv _ _ Hx) as Hwf.
  destruct (rr_cl_wakeup_spec t k x Hx Hwf) as (y & Hy & Hw).
  assert (kt_process y = kt_process x /\ sc_state y = sc_state x) as [Ep Es] by (destruct Hy as (? & -> & _); done).
  assert (wf_thread y) as Hwy by (by destruct Hy as (? & _ & _ & ?)).
  unfold wakeup. rewrite Hw. simpl. rewrite lookup_insert_eq. simpl. rewrite Ep, Hps. simpl.
  destruct (Z.eqb_spec ps PROC_STATE_READY) as [->|].
  - rewrite (upd_thr_Some t _ _ y) by (simpl; by simplify_map_eq). simpl. rewrite insert_insert_eq.
    set (k1 := set_threads _ _).
    assert (rq_inv ({[t]} ∪ ∅) k1) as Hinv1.
    { change k1 with (set_threads (<[t := with_state THREAD_STATE_READY y]> (threads k)) k).
      apply (rq_inv_thread _ k t x); [by eapply rq_inv_not_ready|done| |left; set_solver].
      by apply (wf_same_prio y). }
    destruct (add_readyq_spec ∅ k1 t (with_state THREAD_STATE_READY y)) as (k' & -> & Hi & Ht & Hr);
      [done|set_solver|by simpl; simplify_map_eq| |].
    { simpl. destruct (decide (t = current_thread k)) as [->|]; simplify_map_eq; eauto. }
    exists k', y. split; [done|]. split; [done|]. split; [done|]. split; [by etrans; [|exact Hr]|].
    rewrite Ht. simpl. by rewrite insert_insert_eq.
  - do 2 eexists; split; [reflexivity|]. split; [done|]. split; [|done].
    apply (rq_inv_thread _ k t x); auto. right; left. by rewrite Es.
Qed.

(** * The choice of the scheduler *)

Lemma pick_min_spec ts q best xb :
  ts !! best = Some xb -> (forall t, t ∈ q -> is_Some (ts !! t)) ->
  exists b x, pick_min ts best (prio xb) q = Some b /\ ts !! b = Some x /\ (b ∈ best :: q) /\
    forall t y, t ∈ best :: q -> ts !! t = Some y -> prio x <= prio y.
Proof.
  revert best xb. induction q as [|t q IH]; intros best xb Hb Hq; simpl.
  - exists best, xb. split_and!; auto; [by apply list_elem_of_singleton|].
    intros t y ->%list_elem_of_singleton Hy. simplify_eq. lia.
  - destruct (Hq t) as [x Hx]; [by left|]. rewrite Hx. simpl.
    assert (forall t, t ∈ q -> is_Some (ts !! t)) as Hq' by (intros; apply Hq; by right).
    case_ztest.
    + destruct (IH t x Hx Hq') as (b & y & -> & Hy & Hin & Hmin). exists b, y.
      split_and!; auto; [by right|].
      intros t' z [->|Hin']%elem_of_cons Hz; [|by apply (Hmin t')].
      simplify_eq. specialize (Hmin t x ltac:(by left) Hx). lia.
    + destruct (IH best xb Hb Hq') as (b & y & -> & Hy & Hin & Hmin). exists b, y.
      split_and!; auto; [apply elem_of_cons in Hin as [->|?]; [by left|right; by right]|].
      intros t' z [->|[->|Hin']%elem_of_cons]%elem_of_cons Hz.
      * apply (Hmin best); [by left|done].
      * simplify_eq. specialize (Hmin best xb ltac:(by left) Hb). lia.
      * apply (Hmin t'); [by right|done].
Qed.

(** What [pick] returns: nothing exactly when every queue is empty, otherwise
    a thread of the first queue with a member, of least [prio] in it. *)
Definition pick_ok (ts : gmap loc kthread) (rq : list (list loc)) (r : ptr) : Prop :=
  match r with
  | None => forall i q, rq !! i = Some q -> q = []
  | Some b => exists i q x, rq !! i = Some q /\ (b ∈ q) /\ ts !! b = Some x /\
      (forall j q', rq !! j = Some q' -> (j < i)%nat -> q' = []) /\
      (forall t y, t ∈ q -> ts !! t = Some y -> prio x <= prio y)
  end.

Lemma pick_spec ts rq :
  (forall i q t, rq !! i = Some q -> t ∈ q -> is_Some (ts !! t)) ->
  exists r, pick ts rq = Some r /\ pick_ok ts rq r.
Proof.
  induction rq as [|q rq IH]; intros Hall; simpl; [by exists None|].
  destruct q as [|t q].
  - destruct IH as (r & -> & Hr). { intros i q t Hi. apply (Hall (S i) q). done. }
    exists r. split; [done|]. destruct r as [b|]; simpl in *.
    + destruct Hr as (i & q & x & Hi & Hb & Hx & Hfst & Hmin). exists (S i), q, x. split_and!; auto.
      intros [|j] q' Hj Hlt; simpl in Hj; [by simplify_eq|]. apply (Hfst j); [done|lia].
    + intros [|i] q; simpl; [congruence|apply Hr].
  - destruct (Hall 0%nat (t :: q) t) as [x Hx]; [done|by left|]. rewrite Hx. simpl.
    destruct (pick_min_spec ts q t x Hx) as (b & y & -> & Hy & Hin & Hmin).
    { intros t' Ht'. apply (Hall 0%nat (t :: q)); [done|by right]. }
    exists (Some b). split; [done|]. exists 0%nat, (t :: q), y. split_and!; auto. intros; lia.
Qed.

(** * The scheduler against the invariant *)

(** No thread runs but the current one. *)
Record sched_inv (k : kstate) : Prop := {
  si_rq : rq_inv ∅ k;
  si_run t x : threads k !! t = Some x -> sc_state x = THREAD_STATE_RUNNING -> t = current_thread k }.

Definition runnable (k : kstate) (t : loc) : Prop :=
  exists x, threads k !! t = Some x /\ (sc_state x = THREAD_STATE_READY \/ sc_state x = THREAD_STATE_RUNNING).

(** The current thread runs with a full quantum and nobody asks for a switch. *)
Definition dispatched (k : kstate) : Prop :=
  runrun k = 0 /\ kprunrun k = 0 /\
  exists x, threads k !! current_thread k = Some x /\ sc_state x = THREAD_STATE_RUNNING /\
    sc_tqleft x = TIME_QUANTUM /\ sc_thrreadystart x = time_ms k.

Definition is_idle (k : kstate) (t : loc) : Prop :=
  exists x, threads k !! t = Some x /\ sc_cid x = SCHED_CLASS_IDLE.

(** The thread that runs next: the picked one, or the current one when there is
    none or only the idle thread would replace a running one. *)
Definition choice_ok (k : kstate) (new : ptr) (t : loc) : Prop :=
  match new with
  | None => t = current_thread k
  | Some n => (t = n /\ (is_idle k n -> exists c, threads k !! current_thread k = Some c /\ sc_state c <> THREAD_STATE_RUNNING))
              \/ (t = current_thread k /\ is_idle k n)
  end.

Lemma readyq_threads E k i q t :
  rq_inv E k -> readyq k !! i = Some q -> t ∈ q -> is_Some (threads k !! t).
Proof. intros Hinv Hi Ht. destruct (rq_sound _ _ Hinv _ _ _ Hi Ht) as (_ & x & Hx & _). eauto. Qed.

Lemma with_quantum_inv k t x :
  sched_inv k -> threads k !! t = Some x ->
  sched_inv (set_threads (<[t := with_quantum TIME_QUANTUM (time_ms k) x]> (threads k)) k).
Proof.
  intros [H1 H2] Hx. split.
  - apply (rq_inv_thread _ _ t x); auto. apply (wf_same_prio x); auto. by apply (rq_wf _ _ H1 t).
  - simpl. intros t' x'. destruct (decide (t' = t)) as [->|]; simplify_map_eq; eauto.
    intros [= <-]. eauto.
Qed.

(** Both ways out of [scheduler]. *)
Lemma scheduler_stay k x :
  sched_inv k -> threads k !! current_thread k = Some x -> sc_state x = THREAD_STATE_RUNNING ->
  runrun k = 0 -> kprunrun k = 0 ->
  let k' := set_threads (<[current_thread k := with_quantum TIME_QUANTUM (time_ms k) x]> (threads k)) k in
  sched_inv k' /\ dispatched k' /\ forall t, runnable k' t <-> runnable k t.
Proof.
  intros Hinv Hx Hs Hr Hk k'. split; [by apply with_quantum_inv|]. split.
  - split; [done|]. split; [done|]. eexists. simpl. by rewrite lookup_insert_eq.
  - intros t. unfold runnable; simpl. destruct (decide (t = current_thread k)) as [->|].
    + rewrite lookup_insert_eq. split; intros (y & Hy & Hs'); simplify_eq; eauto.
    + by rewrite lookup_insert_ne.
Qed.

(** The switch: the current thread queued if it runs. *)
Definition requeue_current (cur : kthread) (k : kstate) : option kstate :=
  if sc_state cur =? THREAD_STATE_RUNNING then
    k ← upd_thr (current_thread k) (with_state THREAD_STATE_READY) k;
    rq_append (prio_index cur) (current_thread k) k
  else Some k.

Lemma requeue_spec k cur :
  sched_inv k -> threads k !! current_thread k = Some cur -> sc_state cur <> THREAD_STATE_READY ->
  exists k1, requeue_current cur k = Some k1 /\ rq_inv ∅ k1 /\ same_rest k k1 /\
    runrun k1 = runrun k /\ kprunrun k1 = kprunrun k /\
    (forall t, runnable k1 t <-> runnable k t) /\
    (forall t x, threads k1 !! t = Some x -> sc_state x <> THREAD_STATE_RUNNING) /\
    (forall t x, t <> current_thread k -> threads k !! t = Some x -> threads k1 !! t = Some x).
Proof.
  intros [Hinv Hrun] Hc Hnr. unfold requeue_current.
  destruct (Z.eqb_spec (sc_state cur) THREAD_STATE_RUNNING) as [Hs|Hs].
  - rewrite (upd_thr_Some _ _ _ cur) by done. simpl. set (y := with_state THREAD_STATE_READY cur).
    set (k0 := set_threads _ _).
    assert (rq_inv ({[current_thread k]} ∪ ∅) k0) as Hi0.
    { apply (rq_inv_thread _ k _ cur); [by eapply rq_inv_not_ready|done| |left; set_solver].
      apply (wf_same_prio cur); auto. by apply (rq_wf _ _ Hinv (current_thread k)). }
    destruct (rq_append_inv ∅ k0 (current_thread k) y Hi0) as (rq & Ha & Hi1);
      [set_solver|by simpl; rewrite lookup_insert_eq|done|].
    change (prio_index cur) with (prio_index y). rewrite Ha.
    eexists; split; [reflexivity|]. split; [done|]. split; [done|]. split; [done|]. split; [done|]. simpl. split; [|split].
    + intros t. unfold runnable; simpl. destruct (decide (t = current_thread k)) as [->|].
      * rewrite lookup_insert_eq. split; intros (z & Hz & Hsz); simplify_eq; eauto.
      * by rewrite lookup_insert_ne.
    + intros t x. destruct (decide (t = current_thread k)) as [->|]; simplify_map_eq; eauto.
      by intros [= <-].
    + intros t x Hne Hx. by rewrite lookup_insert_ne.
  - eexists; split; [reflexivity|]. split_and!; auto; try done. intros t x Hx Hsx.
    assert (t = current_thread k) as -> by eauto. congruence.
Qed.

Lemma dispatch_spec k n x :
  rq_inv ∅ k -> (forall t x, threads k !! t = Some x -> sc_state x <> THREAD_STATE_RUNNING) ->
  threads k !! n = Some x -> sc_state x = THREAD_STATE_READY -> runrun k = 0 -> kprunrun k = 0 ->
  exists k', (k1 ← rq_unlink (prio_index x) n k;
              k2 ← upd_thr n (with_quantum TIME_QUANTUM (time_ms k1)) k1;
              context_switch n k2) = Some k' /\
    sched_inv k' /\ dispatched k' /\ current_thread k' = n /\ (forall t, runnable k' t <-> runnable k t).
Proof.
  intros Hinv Hnr Hx Hs Hr Hk. destruct (rq_unlink_inv ∅ k n x) as (rq & -> & Hi); [done..|set_solver|]. simpl.
  unfold context_switch. rewrite (upd_thr_Some n _ _ x) by done. simpl.
  rewrite (upd_thr_Some n _ _ (with_quantum TIME_QUANTUM (time_ms (set_readyq rq k)) x)) by (simpl; by simplify_map_eq).
  simpl. rewrite insert_insert_eq. eexists; split; [reflexivity|].
  set (y := with_state THREAD_STATE_RUNNING _). split; [|split; [|split]].
  - split; simpl.
    + eassert (rq_inv ({[n]} ∪ ∅) (set_threads (<[n := y]> (threads k)) (set_readyq rq k))) as Hi1.
      { apply (rq_inv_thread _ (set_readyq rq k) n x); [done|done| |left; set_solver].
        apply (wf_same_prio x); auto. by apply (rq_wf _ _ Hinv n). }
      apply (rq_inv_drop ∅ _ n y) in Hi1; [|by simpl; rewrite lookup_insert_eq|done]. by destruct Hi1.
    + intros t z. destruct (decide (t = n)) as [->|]; simplify_map_eq; [done|]. intros Hz Hsz. naive_solver.
  - split; [done|]. split; [done|]. exists y. simpl. by rewrite lookup_insert_eq.
  - done.
  - intros t. unfold runnable; simpl. destruct (decide (t = n)) as [->|]; [|by rewrite lookup_insert_ne].
    rewrite lookup_insert_eq. split; intros (z & Hz & Hsz); simplify_eq; eauto.
Qed.

Lemma sched_inv_runrun a b k : sched_inv k -> sched_inv (set_runrun a b k).
Proof. intros [H1 H2]. split; [by apply rq_inv_runrun|done]. Qed.

(** [scheduler] leaves a dispatched thread and the invariant. *)
Lemma scheduler_ok k cur :
  sched_inv k -> threads k !! current_thread k = Some cur -> sc_state cur <> THREAD_STATE_READY ->
  (sc_state cur <> THREAD_STATE_RUNNING -> exists i q, readyq k !! i = Some q /\ q <> []) ->
  exists k' new, scheduler k = Some k' /\ sched_inv k' /\ dispatched k' /\
    (forall t, runnable k' t <-> runnable k t) /\
    pick_ok (threads k) (readyq k) new /\ choice_ok k new (current_thread k').
Proof.
  intros Hinv Hc Hnr Hidle. unfold scheduler.
  change (threads (set_runrun 0 0 k)) with (threads k). change (readyq (set_runrun 0 0 k)) with (readyq k).
  change (current_thread (set_runrun 0 0 k)) with (current_thread k).
  destruct (pick_spec (threads k) (readyq k)) as (new & -> & Hnew).
  { intros i q t. apply (readyq_threads ∅), Hinv. }
  cbn [mbind option_bind]. rewrite Hc. cbn [mbind option_bind].
  apply (sched_inv_runrun 0 0) in Hinv. set (k0 := set_runrun 0 0 k) in *.
  destruct new as [n|]; cycle 1.
  - assert (sc_state cur = THREAD_STATE_RUNNING) as Hs.
    { destruct (decide (sc_state cur = THREAD_STATE_RUNNING)) as [|Hs]; [done|].
      destruct (Hidle Hs) as (i & q & Hi & Hq). destruct Hq. exact (Hnew i q Hi). }
    rewrite (upd_thr_Some _ _ _ cur) by done.
    destruct (scheduler_stay k0 cur Hinv Hc Hs) as (? & ? & ?); [done..|].
    do 2 eexists; split; [reflexivity|]. by split_and!.
  - destruct Hnew as (i & q & x & Hi & Hq & Hx & Hfst & Hmin) eqn:Eok. clear Eok. rewrite Hx. cbn [mbind option_bind].
    destruct (rq_sound _ _ (si_rq _ Hinv) i q n) as (_ & x' & Hx' & Hsx & _); [done..|].
    assert (x' = x) as -> by (simpl in Hx'; congruence). clear Hx'.
    destruct (decide (sc_cid x = SCHED_CLASS_IDLE /\ sc_state cur = THREAD_STATE_RUNNING)) as [[Hid Hs]|Hsw].
    + destruct (Z.eqb_spec (sc_cid x) SCHED_CLASS_IDLE); [|done].
      destruct (Z.eqb_spec (sc_state cur) THREAD_STATE_RUNNING); [|done]. simpl (_ && _).
      rewrite (upd_thr_Some _ _ _ cur) by done.
      destruct (scheduler_stay k0 cur Hinv Hc Hs) as (? & ? & ?); [done..|].
      eexists; exists (Some n); split; [reflexivity|].
      split; [done|]. split; [done|]. split; [done|]. split.
      * by exists i, q, x.
      * right. split; [done|]. by exists x.
    + assert ((sc_cid x =? SCHED_CLASS_IDLE) && (sc_state cur =? THREAD_STATE_RUNNING) = false) as ->.
      { apply not_true_iff_false. rewrite andb_true_iff, !Z.eqb_eq. exact Hsw. }
      destruct (requeue_spec k0 cur Hinv Hc Hnr) as (k1 & Hq1 & Hi1 & Hr1 & Hrr & Hkp & Hrun & Hno & Hot).
      unfold requeue_current in Hq1. simpl (current_thread k0) in Hq1. rewrite Hq1. cbn [mbind option_bind].
      assert (n <> current_thread k) as Hne by (intros ->; congruence).
      assert (threads k1 !! n = Some x) as Hx1 by (by apply Hot). rewrite Hx1. cbn [mbind option_bind].
      destruct (dispatch_spec k1 n x Hi1 Hno Hx1 Hsx Hrr Hkp) as (k' & -> & Hi' & Hd & Hcur & Hrun').
      exists k', (Some n). split; [done|]. split; [done|]. split; [done|]. split; [|split].
      * intros t. rewrite Hrun'. apply Hrun.
      * by exists i, q, x.
      * left. split; [done|]. intros (z & Hz & Hid). exists cur. split; [done|]. intros ?. naive_solver.
Qed.

(** * The clock interrupt *)

Lemma prio_index_mono x y :
  wf_thread x -> sc_inhpri y = sc_inhpri x -> sc_cpupri x <= sc_cpupri y -> wf_thread y ->
  prio_index y <= prio_index x.
Proof.
  intros (_ & (b & m & Hb & Hm & Hc) & Hi) Ei Hle (_ & (b' & m' & Hb' & Hm' & Hc') & _).
  pose proof (class_bounds _ _ _ Hb Hm). pose proof (class_bounds _ _ _ Hb' Hm').
  unfold prio_index, cdiv. rewrite Ei. repeat case_ztest; rewrite !Z.quot_div_nonneg by lia;
    apply Z.div_le_mono; lia.
Qed.

(** The thread charged for a tick: 20 ms of its quantum, and 10 priority points
    once the quantum is used up, but never below the base of its class. *)
Definition ticked (x y : kthread) : Prop :=
  sc_tqleft y = sc_tqleft x - 20 /\ sc_state y = sc_state x /\ sc_cid y = sc_cid x /\
  sc_inhpri y = sc_inhpri x /\ kt_slpchannel y = kt_slpchannel x /\ kt_synchobjlist y = kt_synchobjlist x /\
  exists b, zget basepri (sc_cid x - 1) = Some b /\
    sc_cpupri y = (if sc_tqleft y <=? 0 then Z.max b (sc_cpupri x - 10) else sc_cpupri x).

Lemma ticked_wf x y : wf_thread x -> ticked x y -> wf_thread y.
Proof.
  intros (Hc & (b & m & Hb & Hm & Hr) & Hi) (_ & _ & Ec & Ei & _ & _ & b' & Hb' & Ep).
  assert (b' = b) as -> by congruence. pose proof (class_bounds _ _ _ Hb Hm).
  unfold wf_thread. rewrite Ec, Ei. split; [done|]. split; [|done]. exists b, m. split_and!; auto;
    rewrite Ep; case_ztest; lia.
Qed.

Lemma rr_cl_tick_spec t k x :
  threads k !! t = Some x -> wf_thread x -> 0 < sc_tqleft x <= TIME_QUANTUM ->
  exists y, rr_cl_tick t k = Some (set_threads (<[t := y]> (threads k)) k) /\ ticked x y.
Proof.
  intros Hx (Hc & (b & m & Hb & Hm & Hr) & Hi) Hq. pose proof (class_bounds _ _ _ Hb Hm).
  unfold TIME_QUANTUM in Hq. unfold rr_cl_tick.
  rewrite (upd_thr_Some t _ k x) by done. simpl. rewrite lookup_insert_eq. simpl.
  rewrite (s16_id (sc_tqleft x - 20)) by lia. case_ztest.
  - rewrite (upd_thr_Some t _ _ _ (lookup_insert_eq _ _ _)). simpl. rewrite insert_insert_eq, lookup_insert_eq. simpl.
    rewrite Hb. simpl. rewrite (s16_id (sc_cpupri x - 10)) by lia. case_ztest.
    + rewrite (upd_thr_Some t _ _ _ (lookup_insert_eq _ _ _)). simpl. rewrite insert_insert_eq.
      eexists; split; [reflexivity|]. split_and!; try done. exists b. split; [done|]. simpl. case_ztest; lia.
    + eexists; split; [reflexivity|]. split_and!; try done. exists b. split; [done|]. simpl. case_ztest; lia.
  - eexists; split; [reflexivity|]. split_and!; try done. exists b. split; [done|]. simpl. case_ztest; lia.
Qed.

(** The current thread runs within its quantum. *)
Definition running_ok (k : kstate) : Prop :=
  exists x, threads k !! current_thread k = Some x /\ sc_state x = THREAD_STATE_RUNNING /\
    0 < sc_tqleft x <= TIME_QUANTUM.

Definition clock (k : kstate) : Z := 1000 * secs k + millesecs k.

Lemma scheduler_clock k k' : scheduler k = Some k' -> clock k' = clock k /\ millesecs k' = millesecs k.
Proof.
  unfold scheduler, context_switch, rq_unlink, rq_append, upd_thr. intros H.
  repeat (first [bind_inv H | case_match]; simplify_option_eq); done.
Qed.

(** The clock part of the handler, and the rest on the state it leaves. *)
Definition clock_tick (k : kstate) : kstate :=
  let ms := u32 (millesecs k + 20) in
  if 1000 <=? ms then set_priocompute 1 (set_clock (u32 (secs k + 1)) (u32 (ms - 1000)) k)
  else set_clock (secs k) ms k.

Lemma clock_tick_spec k :
  0 <= millesecs k < 1000 -> 0 <= secs k < 2 ^ 32 - 1 ->
  clock (clock_tick k) = clock k + 20 /\ 0 <= millesecs (clock_tick k) < 1000 /\
  (secs k < secs (clock_tick k) -> priocompute (clock_tick k) = 1).
Proof.
  intros Hm Hs. unfold clock_tick, clock. rewrite (u32_id (millesecs k + 20)) by lia.
  case_ztest; simpl; [|split_and!; lia].
  rewrite !u32_id by lia. split_and!; lia.
Qed.

Lemma rq_inv_ext E k k' :
  threads k' = threads k -> readyq k' = readyq k -> rq_inv E k -> rq_inv E k'.
Proof. intros Ht Hr [H1 H2 H3 H4 H5]. by split; rewrite ?Ht, ?Hr. Qed.

Lemma sched_inv_ext k k' :
  threads k' = threads k -> readyq k' = readyq k -> current_thread k' = current_thread k ->
  sched_inv k -> sched_inv k'.
Proof. intros Ht Hr Hc [H1 H2]. split; [by eapply rq_inv_ext|]. by rewrite Ht, Hc. Qed.

Lemma runnable_insert k t x y :
  threads k !! t = Some x -> sc_state y = sc_state x ->
  forall t', runnable (set_threads (<[t := y]> (threads k)) k) t' <-> runnable k t'.
Proof.
  intros Hx Hs t'. unfold runnable; simpl. destruct (decide (t' = t)) as [->|]; [|by rewrite lookup_insert_ne].
  rewrite lookup_insert_eq. split; intros (z & Hz & Hsz); simplify_eq; eexists; (split; [done|]); congruence.
Qed.

Lemma sched_inv_current k x y :
  sched_inv k -> threads k !! current_thread k = Some x -> sc_state x = THREAD_STATE_RUNNING ->
  sc_state y = sc_state x -> wf_thread y ->
  sched_inv (set_threads (<[current_thread k := y]> (threads k)) k).
Proof.
  intros [H1 H2] Hx Hs Es Hwf. split.
  - apply (rq_inv_thread _ _ _ x); auto. right; left. rewrite Es, Hs. done.
  - simpl. intros t z. destruct (decide (t = current_thread k)) as [->|]; simplify_map_eq; eauto.
Qed.

Lemma dispatched_running k : dispatched k -> running_ok k.
Proof. intros (_ & _ & x & Hx & Hs & Hq & _). exists x. split_and!; auto; rewrite Hq; done. Qed.

(** C29: The clock interrupt keeps the scheduler's state consistent.  From any
    state where the queues, the states and the one running thread agree, the
    handler returns; the system clock advances by exactly 20 ms and stays
    normalised, no thread becomes runnable or stops being so, and some thread
    runs with time left in its quantum. *)
Theorem timer_handler_inv k ts :
  sched_inv k -> running_ok k -> Timer.queue_times (tq k) ts ->
  0 <= millesecs k < 1000 -> 0 <= secs k < 2 ^ 32 - 1 ->
  exists k', timer_handler k = Some k' /\ sched_inv k' /\ running_ok k' /\
    clock k' = clock k + 20 /\ 0 <= millesecs k' < 1000 /\
    forall t, runnable k' t <-> runnable k t.
Proof.
  intros Hinv (x & Hx & Hs & Hq) Htq Hm Hsec.
  destruct (clock_tick_spec k Hm Hsec) as (Hc1 & Hm1 & _).
  unfold timer_handler. fold (clock_tick k). set (k1 := clock_tick k) in *.
  assert (threads k1 = threads k /\ readyq k1 = readyq k /\ current_thread k1 = current_thread k /\ tq k1 = tq k)
    as (Et & Er & Ec & Eq).
  { unfold k1, clock_tick. by case_ztest. }
  destruct (Timer.timer_tick_returns (tq k1) ts (timeoutflag k1)) as (fl & σ & ->); [by rewrite Eq|].
  cbn [mbind option_bind]. set (k2 := set_tq fl σ k1).
  assert (sched_inv k2) as Hi2 by by apply (sched_inv_ext k).
  assert (threads k2 !! current_thread k2 = Some x) as Hx2 by (simpl; by rewrite Et, Ec).
  pose proof (rq_wf _ _ (si_rq _ Hi2) _ _ Hx2) as Hwf.
  destruct (rr_cl_tick_spec _ k2 x Hx2 Hwf Hq) as (y & -> & Hy). cbn [mbind option_bind].
  pose proof (ticked_wf x y Hwf Hy) as Hwy. destruct Hy as (Hty & Hsy & _).
  simpl (threads (set_threads _ _)). change (current_thread (set_threads _ _)) with (current_thread k2).
  rewrite lookup_insert_eq. cbn [mbind option_bind]. set (k3 := set_threads _ k2).
  assert (sched_inv k3) as Hi3 by by apply (sched_inv_current k2 x).
  assert (forall t, runnable k3 t <-> runnable k t) as Hrun.
  { intros t. unfold k3. rewrite (runnable_insert k2 _ x) by done. unfold runnable. simpl. by rewrite Et. }
  assert (threads k3 !! current_thread k3 = Some y) as Hy3 by (simpl; by rewrite lookup_insert_eq).
  case_match eqn:Htest.
  - destruct (scheduler_ok k3 y Hi3 Hy3) as (k' & new & Hk' & Hi' & Hd & Hr' & _); [rewrite Hsy, Hs; done|by rewrite Hsy|].
    destruct (scheduler_clock _ _ Hk') as [Hcl Hml]. exists k'. split; [done|]. split; [done|].
    split; [by apply dispatched_running|]. split; [rewrite Hcl; exact Hc1|]. split; [rewrite Hml; exact Hm1|].
    intros t. by rewrite Hr'.
  - exists k3. split; [done|]. split; [done|]. split; [|done].
    exists y. split; [done|]. split; [congruence|].
    apply orb_false_iff in Htest as [Htest _]. apply orb_false_iff in Htest as [Htest _].
    apply Z.leb_gt in Htest. rewrite Hty in *. unfold TIME_QUANTUM in *. lia.
Qed.

(** C30: The scheduler's choice.  Called with the current thread running, or
    asleep while some thread (the idle thread at least) is ready, [scheduler]
    returns with exactly one thread running, on a fresh quantum, and all others
    where they belong; that thread comes from the first ready queue (the
    highest priority band) that has a member, except that the idle thread never
    replaces a running one. *)
Theorem scheduler_dispatches k cur :
  sched_inv k -> threads k !! current_thread k = Some cur -> sc_state cur <> THREAD_STATE_READY ->
  (sc_state cur <> THREAD_STATE_RUNNING -> exists i q, readyq k !! i = Some q /\ q <> []) ->
  exists k' new, scheduler k = Some k' /\ sched_inv k' /\ dispatched k' /\
    (forall t, runnable k' t <-> runnable k t) /\
    pick_ok (threads k) (readyq k) new /\ choice_ok k new (current_thread k').
Proof. apply scheduler_ok. Qed.

(** * Priority recomputation *)

(** The thread whose priority is recomputed: 2 points more, or 4 when it has
    been ready for over three seconds, up to the maximum of its class. *)
Definition aged (tmsec : Z) (x : kthread) : kthread :=
  let p := sc_cpupri x + (if 3000 <? u32 (tmsec - sc_thrreadystart x) then 4 else 2) in
  with_cpupri (match zget maxpri (sc_cid x - 1) with Some m => Z.min m p | None => p end) x.

Lemma aged_wf tm x :
  wf_thread x -> wf_thread (aged tm x) /\ sc_cpupri x <= sc_cpupri (aged tm x) /\
    prio_index (aged tm x) <= prio_index x.
Proof.
  intros Hwf. pose proof Hwf as (Hc & (b & m & Hb & Hm & Hr) & Hi).
  assert (wf_thread (aged tm x) /\ sc_cpupri x <= sc_cpupri (aged tm x)) as [Hw Hle].
  { unfold aged. rewrite Hm. split; [|simpl; case_ztest; lia].
    split; [done|]. split; [|done]. exists b, m. split_and!; auto; simpl; case_ztest; lia. }
  split; [done|]. split; [done|]. by apply prio_index_mono.
Qed.

Lemma reprio_one_spec tm E k t x :
  rq_inv ({[t]} ∪ E) k -> t ∉ E -> threads k !! t = Some x -> sc_state x = THREAD_STATE_READY ->
  exists k', reprio_one tm k t = Some k' /\ rq_inv E k' /\ same_rest k k' /\
    threads k' = <[t := aged tm x]> (threads k).
Proof.
  intros Hinv HtE Hx Hs. pose proof (rq_wf _ _ Hinv _ _ Hx) as Hwf.
  destruct (aged_wf tm x Hwf) as (Hwa & _). destruct Hwf as (Hc & (b & m & Hb & Hm & Hr) & Hi).
  pose proof (class_bounds _ _ _ Hb Hm). unfold reprio_one. rewrite Hx. cbn [mbind option_bind].
  rewrite (upd_thr_Some t _ k x) by done. cbn [mbind option_bind]. simpl (threads _). rewrite lookup_insert_eq.
  cbn [mbind option_bind]. simpl (sc_cid _). rewrite Hm. cbn [mbind option_bind].
  set (inc := if 3000 <? _ then 4 else 2). assert (2 <= inc <= 4) by (unfold inc; case_ztest; lia).
  rewrite s16_id by lia. simpl (sc_cpupri (with_cpupri _ _)).
  assert (aged tm x = with_cpupri (Z.min m (sc_cpupri x + inc)) x) as Ea by (unfold aged; by rewrite Hm).
  set (k1 := set_threads (<[t := aged tm x]> (threads k)) k).
  match goal with |- context [mbind _ ?a] => assert (a = Some k1) as -> end.
  { case_ztest.
    - rewrite (upd_thr_Some t _ _ _ (lookup_insert_eq _ _ _)). simpl. rewrite insert_insert_eq. unfold k1.
      rewrite Ea, Z.min_l by lia. done.
    - unfold k1. by rewrite Ea, Z.min_r by lia. }
  cbn [mbind option_bind]. assert (threads k1 !! t = Some (aged tm x)) as Hx1 by (simpl; by rewrite lookup_insert_eq).
  rewrite Hx1. cbn [mbind option_bind].
  destruct (rq_append_inv E k1 t (aged tm x)) as (rq & -> & Hi'); auto.
  - apply (rq_inv_thread _ k t x); auto. left. set_solver.
  - by eexists.
Qed.

(** The effect of ageing the threads of [q]. *)
Definition aged_in (tm : Z) (q : list loc) (m m' : gmap loc kthread) : Prop :=
  forall t, m' !! t = if bool_decide (t ∈ q) then aged tm <$> m !! t else m !! t.

Lemma reprio_fold_spec tm q k :
  rq_inv (list_to_set q) k -> NoDup q ->
  (forall t, t ∈ q -> exists x, threads k !! t = Some x /\ sc_state x = THREAD_STATE_READY) ->
  exists k', foldM (reprio_one tm) k q = Some k' /\ rq_inv ∅ k' /\ same_rest k k' /\
    aged_in tm q (threads k) (threads k').
Proof.
  revert k. induction q as [|t q IH]; intros k Hinv Hnd Hq; simpl.
  - exists k. split; [done|]. split; [done|]. split; [done|]. intros t.
    rewrite bool_decide_eq_false_2; [done|]. apply not_elem_of_nil.
  - apply NoDup_cons in Hnd as [Htq Hnd]. destruct (Hq t) as (x & Hx & Hs); [by left|].
    destruct (reprio_one_spec tm (list_to_set q) k t x) as (k1 & -> & Hi1 & Hr1 & Ht1); auto.
    { by rewrite elem_of_list_to_set. }
    cbn [mbind option_bind]. destruct (IH k1) as (k' & -> & Hi' & Hr' & Ht'); auto.
    { intros t' Hin. rewrite Ht1, lookup_insert_ne by (intros ->; done). apply Hq. by right. }
    exists k'. split; [done|]. split; [done|]. split; [by etrans|]. intros t'. rewrite Ht', Ht1.
    destruct (decide (t' = t)) as [->|Hne].
    + rewrite lookup_insert_eq, Hx, bool_decide_eq_false_2, bool_decide_eq_true_2; [done|by left|done].
    + rewrite lookup_insert_ne by done. do 2 case_bool_decide; try done; set_solver.
Qed.

Lemma reprio_queue_spec tm k i :
  rq_inv ∅ k -> 0 <= i < 32 ->
  exists k' q, readyq k !! Z.to_nat i = Some q /\ reprio_queue tm k i = Some k' /\ rq_inv ∅ k' /\
    same_rest k k' /\ aged_in tm q (threads k) (threads k').
Proof.
  intros Hinv Hi. unfold reprio_queue.
  assert (0 <= i < zlen (readyq k)) as Hz by (unfold zlen; rewrite (rq_len _ _ Hinv); unfold MAXREADYQ; lia).
  destruct (zget_is_Some _ _ Hz) as [q Hq]. rewrite Hq, zset_Some by done. cbn [mbind option_bind].
  assert (readyq k !! Z.to_nat i = Some q) as Hq'.
  { unfold zget in Hq. by destruct (Z.ltb_spec i 0); [lia|]. }
  destruct Hinv as [H1 H2 H3 H4 H5].
  destruct (reprio_fold_spec tm q (set_readyq (<[Z.to_nat i := []]> (readyq k)) k)) as (k' & -> & Hk).
  - split; simpl; auto.
    + by rewrite length_insert.
    + intros j q'. rewrite list_lookup_insert. case_decide; [intros [= <-]; constructor|eauto].
    + intros j q' t. rewrite list_lookup_insert. case_decide as Hd; [by intros [= <-] ?%elem_of_nil|].
      intros Hj Ht. destruct (H3 _ _ _ Hj Ht) as (_ & x & Hx & Hs & Hp). split; [|eauto].
      rewrite elem_of_list_to_set. intros Htq. destruct (H3 _ _ _ Hq' Htq) as (_ & x' & Hx' & _ & Hp').
      simplify_eq. apply Hd. rewrite H1. unfold MAXREADYQ. lia.
    + intros t x Hx Hs Ht. rewrite elem_of_list_to_set in Ht.
      destruct (H4 t x Hx Hs) as (q' & Hj & Hin); [set_solver|]. rewrite list_lookup_insert.
      case_decide as Hd; [|eauto]. destruct Hd as [Hd _]. rewrite <- Hd in Hj. by simplify_eq.
  - eauto.
  - intros t Ht. destruct (H3 _ _ _ Hq' Ht) as (_ & x & Hx & Hs & _). eauto.
  - by exists k', q.
Qed.

(** The threads of the queues below index [i] have been aged, once. *)
Definition aged_below (tm i : Z) (m m' : gmap loc kthread) : Prop :=
  forall t, m' !! t = (fun x => if (sc_state x =? THREAD_STATE_READY) && (prio_index x <? i)
                                then aged tm x else x) <$> m !! t.

Lemma reprio_step tm i k0 k :
  rq_inv ∅ k0 -> rq_inv ∅ k -> same_rest k0 k -> 0 <= i < 32 -> aged_below tm i (threads k0) (threads k) ->
  exists k', reprio_queue tm k i = Some k' /\ rq_inv ∅ k' /\ same_rest k0 k' /\
    aged_below tm (i + 1) (threads k0) (threads k').
Proof.
  intros Hinv0 Hinv Hr Hi Ha. destruct (reprio_queue_spec tm k i Hinv Hi) as (k' & q & Hq & -> & Hi' & Hr' & Ha').
  exists k'. split; [done|]. split; [done|]. split; [by etrans|]. intros t. rewrite Ha'.
  specialize (Ha t). rewrite Ha. destruct (threads k0 !! t) as [x|] eqn:Hx; simpl in *; [|by case_bool_decide].
  pose proof (rq_wf _ _ Hinv0 _ _ Hx) as Hwf. destruct (aged_wf tm x Hwf) as (_ & _ & Hp).
  case_bool_decide as Hin.
  - destruct (rq_sound _ _ Hinv _ _ _ Hq Hin) as (_ & y & Hy & Hs & Hpy). rewrite Ha in Hy. simplify_eq.
    destruct (Z.eqb_spec (sc_state x) THREAD_STATE_READY) as [Hsx|Hsx]; simpl in *; [|done].
    repeat case_ztest; try done; lia.
  - destruct (Z.eqb_spec (sc_state x) THREAD_STATE_READY) as [Hsx|Hsx]; simpl in *; [|done].
    repeat case_ztest; try done; try lia. destruct Hin.
    destruct (rq_complete _ _ Hinv t x) as (q' & Hq' & Hin); auto; [set_solver|].
    assert (prio_index x = i) as Ep by lia. rewrite Ep in Hq'. by simplify_eq.
Qed.

Lemma reprio_all tm k0 (n : nat) i k :
  rq_inv ∅ k0 -> rq_inv ∅ k -> same_rest k0 k -> 0 <= i -> i + Z.of_nat n <= 32 ->
  aged_below tm i (threads k0) (threads k) ->
  exists k', foldM (reprio_queue tm) k (seqZ i (Z.of_nat n)) = Some k' /\ rq_inv ∅ k' /\ same_rest k0 k' /\
    aged_below tm (i + Z.of_nat n) (threads k0) (threads k').
Proof.
  intros Hinv0. revert i k. induction n as [|n IH]; intros i k Hinv Hr Hi Hn Ha.
  - exists k. split_and!; auto. by rewrite Z.add_0_r.
  - rewrite seqZ_cons by lia. simpl.
    destruct (reprio_step tm i k0 k) as (k1 & -> & Hi1 & Hr1 & Ha1); auto; [lia|]. cbn [mbind option_bind].
    replace (Z.pred (Z.of_nat (S n))) with (Z.of_nat n) by lia.
    destruct (IH (Z.succ i) k1) as (k' & Hk' & Hi' & Hr' & Ha'); auto; [lia..|].
    exists k'. split; [done|]. split; [done|]. split; [done|].
    replace (i + Z.of_nat (S n)) with (Z.succ i + Z.of_nat n) by lia. done.
Qed.

Lemma reprioritise_ok k :
  sched_inv k -> priocompute k = 1 ->
  exists k', reprioritise k = Some k' /\ sched_inv k' /\ same_rest k k' /\
    aged_below (time_ms k) 31 (threads k) (threads k').
Proof.
  intros [Hinv Hrun] Hp. unfold reprioritise. rewrite Hp. simpl (1 =? 1). cbv iota zeta.
  set (k0 := set_priocompute 0 k). assert (rq_inv ∅ k0) as Hi0 by by apply (rq_inv_ext _ k).
  destruct (reprio_all (time_ms k0) k0 31 0 k0) as (k' & Hk' & Hi' & Hr' & Ha'); try done.
  { intros t. destruct (threads k0 !! t) as [x|] eqn:Hx; simpl; [|done]. f_equal.
    pose proof (prio_index_range x (rq_wf _ _ Hi0 _ _ Hx)). destruct (Z.ltb_spec (prio_index x) 0); [lia|].
    by rewrite andb_false_r. }
  change (Z.of_nat 31) with 31 in *. rewrite Z.add_0_l in Ha'. exists k'. split; [exact Hk'|]. split; [|by split].
  split; [done|]. intros t x Hx Hs. rewrite (Ha' t) in Hx. destruct Hr' as (_ & _ & -> & _). simpl in *.
  destruct (threads k !! t) as [y|] eqn:Hy; [|done]. simpl in Hx. simplify_eq. apply (Hrun t y); [done|].
  revert Hs. by destruct (_ && _).
Qed.

(** Priority recomputation is fair and safe.  When the clock has asked for
    it, the timer thread's pass over the ready queues ages every ready thread of
    queues 0 to 30 exactly once, although the threads it moves are put back
    into queues of the same array; nothing else changes about any thread, the
    queues still hold exactly the ready threads, each in the queue of its new
    priority, and the request is cleared. *)
Theorem reprioritise_ages_once k :
  sched_inv k -> priocompute k = 1 ->
  exists k', reprioritise k = Some k' /\ sched_inv k' /\ same_rest k k' /\
    aged_below (time_ms k) 31 (threads k) (threads k').
Proof. apply reprioritise_ok. Qed.

(** * A concrete kernel state

    Thread 1 runs, thread 2 (interactive class) and the idle thread 3 are put on
    the ready queues of the boot state [ex_boot] by [add_readyq]. *)

Definition ex_thread (cid pri st : Z) : kthread := mk_thr cid 0 pri 0 0 st 20 0 0 0 NULL NULL 1.
Definition ex_boot : kstate :=
  mk_k (list_to_map [(1%positive, ex_thread 2 100 THREAD_STATE_RUNNING);
                     (2%positive, ex_thread 2 105 THREAD_STATE_SLEEP);
                     (3%positive, ex_thread 4 0 THREAD_STATE_SLEEP)])
    {[1%positive := PROC_STATE_READY]} ∅ 1 (replicate MAXREADYQ []) 0 0 1 0 5 980 (Timer.mk_ts NULL ∅).
Definition ex_k : kstate := default ex_boot (k ← add_readyq 3 ex_boot; add_readyq 2 k).

Lemma ex_boot_inv : sched_inv ex_boot.
Proof.
  assert (forall t x, threads ex_boot !! t = Some x ->
    wf_thread x /\ sc_state x <> THREAD_STATE_READY /\ (sc_state x = THREAD_STATE_RUNNING -> t = 1%positive)) as Hall.
  { change (map_Forall (fun t x => wf_thread x /\ sc_state x <> THREAD_STATE_READY /\
      (sc_state x = THREAD_STATE_RUNNING -> t = 1%positive)) (threads ex_boot)).
    apply map_Forall_to_list.
    repeat constructor; try done; try (vm_compute; intros; congruence);
    (match goal with |- exists b m, _ => do 2 eexists; split_and!; [reflexivity|reflexivity|vm_compute; congruence..] end). }
  split; [split|].
  - done.
  - intros i q [-> _]%lookup_replicate. constructor.
  - by intros i q t [-> _]%lookup_replicate ?%elem_of_nil.
  - intros t x Hx Hs. by destruct (Hall t x Hx) as (_ & ? & _).
  - intros t x Hx. by destruct (Hall t x Hx).
  - intros t x Hx Hs. by apply (Hall t x Hx).
Qed.

Lemma ex_k_inv : sched_inv ex_k.
Proof.
  pose proof ex_boot_inv as [H0 _].
  destruct (add_readyq_spec ∅ ex_boot 3 (ex_thread 4 0 THREAD_STATE_SLEEP)) as (k1 & E1 & H1 & T1 & R1);
    [by eapply rq_inv_not_ready|set_solver|done|by eexists|].
  assert (threads k1 !! 2%positive = Some (ex_thread 2 105 THREAD_STATE_SLEEP)) as L2 by by rewrite T1.
  destruct (add_readyq_spec ∅ k1 2 (ex_thread 2 105 THREAD_STATE_SLEEP)) as (k2 & E2 & H2 & T2 & R2);
    [by eapply rq_inv_not_ready|set_solver|done| |].
  { destruct R1 as (_ & _ & -> & _). rewrite T1. by eexists. }
  assert (ex_k = k2) as -> by (unfold ex_k; rewrite E1; simpl; by rewrite E2).
  split; [done|]. destruct R2 as (_ & _ & -> & _), R1 as (_ & _ & -> & _).
  intros t x Hx Hs. apply (si_run _ ex_boot_inv t x); [|done]. rewrite T2, T1 in Hx.
  apply lookup_insert_Some in Hx as [[_ <-]|[_ Hx]]; [done|].
  by apply lookup_insert_Some in Hx as [[_ <-]|[_ Hx]].
Qed.

Lemma timer_handler_inv_witness :
  exists k', timer_handler ex_k = Some k' /\ sched_inv k' /\ running_ok k' /\
    clock k' = clock ex_k + 20 /\ 0 <= millesecs k' < 1000 /\ forall t, runnable k' t <-> runnable ex_k t.
Proof.
  apply (timer_handler_inv ex_k []); [exact ex_k_inv| | |vm_compute; done|vm_compute; done].
  - eexists. split; [vm_compute; reflexivity|]. split; [vm_compute; done|vm_compute; done].
  - exists []. by repeat split; try constructor.
Defined.

Lemma scheduler_dispatches_witness :
  exists k' new, scheduler ex_k = Some k' /\ sched_inv k' /\ dispatched k' /\
    (forall t, runnable k' t <-> runnable ex_k t) /\
    pick_ok (threads ex_k) (readyq ex_k) new /\ choice_ok ex_k new (current_thread k').
Proof.
  apply (scheduler_dispatches ex_k (ex_thread 2 100 THREAD_STATE_RUNNING) ex_k_inv);
    [vm_compute; reflexivity|done|done].
Defined.

Lemma reprioritise_ages_once_witness :
  exists k', reprioritise ex_k = Some k' /\ sched_inv k' /\ same_rest ex_k k' /\
    aged_below (time_ms ex_k) 31 (threads ex_k) (threads k').
Proof. apply (reprioritise_ages_once ex_k ex_k_inv). reflexivity. Defined.

(** The switch really happens: thread 2 replaces thread 1. *)
Example ex_switch : (current_thread <$> scheduler ex_k) = Some 2%positive.
Proof. reflexivity. Qed.

End Sched.
