(* ===== verification/Lock.v ===== *)
(** Locks, recursive locks and events ([src/base/lock.c], [src/include/lock.h])
    on the kernel state of [Sched].  A call that may block is given by its
    uninterrupted pieces: a piece ends when the call returns or when it has put
    the current thread to sleep and called [scheduler()]; the next piece runs
    when the thread is current again. *)
From S2P Require Import Prelude Timer Queue Sched.

Module Lock.
Import Sched.

Definition SYNCH_TYPE_LOCK : Z := 0.
Definition SYNCH_TYPE_RLOCK : Z := 1.
Definition SYNCH_TYPE_EVENT : Z := 2.
Definition SYNCH_TYPE_SEM : Z := 3.
Definition ELOCK_SUCCESS : Z := 0.
Definition ELOCK_FAILURE : Z := -62.
Definition ELOCK_NOTOWNED : Z := -63.
Definition ETIMEDOUT : Z := -95.

(** * Stores into an object *)

Definition with_waiters (q : list loc) (o : synchobj) : synchobj :=
  mk_obj (sl_type o) q (sl_next o) (sl_prev o) (o_owner o) (o_val o) (o_level o).
Definition with_next (p : ptr) (o : synchobj) : synchobj :=
  mk_obj (sl_type o) (sl_waiters o) p (sl_prev o) (o_owner o) (o_val o) (o_level o).
Definition with_prev (p : ptr) (o : synchobj) : synchobj :=
  mk_obj (sl_type o) (sl_waiters o) (sl_next o) p (o_owner o) (o_val o) (o_level o).
Definition with_owner (p : ptr) (o : synchobj) : synchobj :=
  mk_obj (sl_type o) (sl_waiters o) (sl_next o) (sl_prev o) p (o_val o) (o_level o).
Definition with_val (v : Z) (o : synchobj) : synchobj :=
  mk_obj (sl_type o) (sl_waiters o) (sl_next o) (sl_prev o) (o_owner o) v (o_level o).
Definition with_level (v : Z) (o : synchobj) : synchobj :=
  mk_obj (sl_type o) (sl_waiters o) (sl_next o) (sl_prev o) (o_owner o) (o_val o) v.

Definition lockobj_init : synchobj := mk_obj SYNCH_TYPE_LOCK [] NULL NULL NULL 0 0.
Definition rlockobj_init : synchobj := mk_obj SYNCH_TYPE_RLOCK [] NULL NULL NULL 0 0.

(** [test_and_set] (klib.asm): set bit 0 of the value, return its old value. *)
Definition test_and_set (o : loc) (k : kstate) : option (Z * kstate) :=
  ob ← objs k !! o;
  k ← upd_obj o (fun ob => with_val (Z.lor (o_val ob) 1) ob) k;
  Some (Z.land (o_val ob) 1, k).

(** * The queue macros of lock.h *)

Definition ADD_SLQ (o t : loc) (k : kstate) : option kstate :=
  upd_obj o (fun ob => with_waiters (sl_waiters ob ++ [t]) ob) k.

(** The loop [while (sl_head != NULL) { DEL_SLQ(slq, t); add_readyq(t); ... }]:
    [DEL_SLQ] takes the head off, [q] is the queue that is left to do; the
    number of threads is returned. *)
Fixpoint wake_all (o : loc) (q : list loc) (k : kstate) : option (Z * kstate) :=
  match q with
  | [] => Some (0, k)
  | t :: q' =>
      k ← upd_obj o (with_waiters q') k;
      k ← add_readyq t k;
      '(n, k) ← wake_all o q' k;
      Some (n + 1, k)
  end.

Definition wake_waiters (o : loc) (k : kstate) : option (Z * kstate) :=
  ob ← objs k !! o; wake_all o (sl_waiters ob) k.

Definition ADD_SYNCHOBJ (o t : loc) (k : kstate) : option kstate :=
  thr ← threads k !! t;
  k ← upd_obj o (fun ob => with_prev NULL (with_next (kt_synchobjlist thr) ob)) k;
  k ← (match kt_synchobjlist thr with
       | Some h => upd_obj h (with_prev (Some o)) k
       | None => Some k
       end);
  upd_thr t (with_synchobjlist (Some o)) k.

Definition DEL_SYNCHOBJ (o t : loc) (k : kstate) : option kstate :=
  ob ← objs k !! o;
  k ← (match sl_next ob with
       | Some n => upd_obj n (with_prev (sl_prev ob)) k
       | None => Some k
       end);
  ob ← objs k !! o;
  k ← (match sl_prev ob with
       | Some p => upd_obj p (with_next (sl_next ob)) k
       | None => upd_thr t (with_synchobjlist (sl_next ob)) k
       end);
  upd_obj o (fun ob => with_prev NULL (with_next NULL ob)) k.

(** * Priority inheritance *)

(** One turn per iteration of the [do .. while]; the chain of owners visited is
    never longer than the number of threads, which is the fuel the callers
    give ([lend_priority_ok] shows that it suffices). *)
Fixpoint lend_loop (fuel : nat) (gl : loc) (k : kstate) : option kstate :=
  match fuel with
  | O => None
  | S fuel =>
      g ← objs k !! gl;
      if negb (sl_type g =? SYNCH_TYPE_LOCK) && negb (sl_type g =? SYNCH_TYPE_RLOCK) then Some k else
      t ← o_owner g;
      cur ← threads k !! current_thread k;
      let pri := if sc_inhpri cur <? sc_cpupri cur then sc_cpupri cur else sc_inhpri cur in
      thr ← threads k !! t;
      if (sc_cpupri thr <? pri) && (sc_inhpri thr <? pri) then
        '(ret, k) ← del_readyq t k;
        k ← upd_thr t (with_inhpri pri) k;
        k ← (if ret =? 1 then add_readyq t k else Some k);
        thr ← threads k !! t;
        if sc_state thr =? THREAD_STATE_SLEEP then
          match kt_slpchannel thr with Some gl' => lend_loop fuel gl' k | None => Some k end
        else Some k
      else Some k
  end.

Definition lend_priority (gl : loc) (k : kstate) : option kstate := lend_loop (S (size (threads k))) gl k.

(** * Locks *)

(** Results of a piece of a call. *)
Inductive outcome := Returned (r : Z) | Blocked.

(** The acquisition branch of [_lock], [trylock]. *)
Definition take_lock (l : loc) (k : kstate) : option kstate :=
  k ← upd_obj l (with_owner (Some (current_thread k))) k;
  k ← ADD_SYNCHOBJ l (current_thread k) k;
  upd_thr (current_thread k) (with_slpchannel NULL) k.

(** [_lock] from the label [_lock_1] to its return or to the [goto]. *)
Definition lock_1 (l : loc) (k : kstate) : option (outcome * kstate) :=
  '(v, k) ← test_and_set l k;
  if v =? 1 then
    k ← ADD_SLQ l (current_thread k) k;
    k ← upd_thr (current_thread k) (with_state THREAD_STATE_SLEEP) k;
    k ← upd_thr (current_thread k) (with_slpchannel (Some l)) k;
    k ← lend_priority l k;
    k ← scheduler k;
    Some (Blocked, k)
  else
    k ← take_lock l k;
    Some (Returned ELOCK_SUCCESS, k).

Definition trylock (l : loc) (k : kstate) : option (Z * kstate) :=
  '(v, k) ← test_and_set l k;
  if v =? 1 then Some (ELOCK_FAILURE, k)
  else k ← take_lock l k; Some (ELOCK_SUCCESS, k).

(** The release shared by [sys_unlock], [unlock] and the event calls: wake every
    waiter, give up the object. *)
Definition let_go (l : loc) (k : kstate) : option (Z * kstate) :=
  '(n, k) ← wake_waiters l k;
  k ← DEL_SYNCHOBJ l (current_thread k) k;
  k ← upd_obj l (with_owner NULL) k;
  k ← upd_obj l (with_val 0) k;
  Some (n, k).

(** [if (current_thread->kt_synchobjlist == NULL) sc_inhpri = 0] *)
Definition drop_inherited (k : kstate) : option kstate :=
  cur ← threads k !! current_thread k;
  match kt_synchobjlist cur with
  | None => upd_thr (current_thread k) (with_inhpri 0) k
  | Some _ => Some k
  end.

Definition sys_unlock (l : loc) (k : kstate) : option (Z * kstate) :=
  '(n, k) ← let_go l k; k ← drop_inherited k; Some (n, k).

Definition unlock (l : loc) (k : kstate) : option (Z * kstate) :=
  ob ← objs k !! l;
  if bool_decide (o_owner ob = Some (current_thread k)) then
    '(_, k) ← let_go l k; k ← drop_inherited k; Some (ELOCK_SUCCESS, k)
  else k ← drop_inherited k; Some (ELOCK_NOTOWNED, k).

(** * Recursive locks *)

Definition rlock_1 (l : loc) (k : kstate) : option (outcome * kstate) :=
  '(v, k) ← test_and_set l k;
  ob ← objs k !! l;
  if v =? 1 then
    if bool_decide (o_owner ob = Some (current_thread k)) then
      k ← upd_obj l (fun ob => with_level (u16 (o_level ob + 1)) ob) k;
      Some (Returned ELOCK_SUCCESS, k)
    else
    k ← ADD_SLQ l (current_thread k) k;
    k ← upd_thr (current_thread k) (with_slpchannel (Some l)) k;
    k ← upd_thr (current_thread k) (with_state THREAD_STATE_SLEEP) k;
    k ← lend_priority l k;
    k ← scheduler k;
    Some (Blocked, k)
  else
    k ← upd_obj l (with_owner (Some (current_thread k))) k;
    k ← upd_obj l (fun ob => with_level (u16 (o_level ob + 1)) ob) k;
    k ← ADD_SYNCHOBJ l (current_thread k) k;
    k ← upd_thr (current_thread k) (with_slpchannel NULL) k;
    Some (Returned ELOCK_SUCCESS, k).

Definition runlock (l : loc) (k : kstate) : option (Z * kstate) :=
  ob ← objs k !! l;
  if bool_decide (o_owner ob = Some (current_thread k)) then
    k ← upd_obj l (fun ob => with_level (u16 (o_level ob - 1)) ob) k;
    ob ← objs k !! l;
    '(_, k) ← (if o_level ob <=? 0 then let_go l k else Some (0, k));
    k ← drop_inherited k; Some (ELOCK_SUCCESS, k)
  else k ← drop_inherited k; Some (ELOCK_NOTOWNED, k).

(** * Events *)

(** [sys_event_wakeup], and [event_wakeup], which adds the spin locks.  The
    store [t->kt_slpchannel = NULL] after [add_readyq] repeats what
    [add_readyq] did. *)
Definition sys_event_wakeup (e : loc) (k : kstate) : option (Z * kstate) :=
  '(n, k) ← wake_waiters e k; k ← upd_obj e (with_val 0) k; Some (n, k).
Definition event_wakeup (e : loc) (k : kstate) : option (Z * kstate) := sys_event_wakeup e k.

(** Put the current thread on the queue of [e]. *)
Definition event_enqueue (e : loc) (k : kstate) : option kstate :=
  k ← ADD_SLQ e (current_thread k) k;
  k ← upd_obj e (fun ob => with_val (u16 (o_val ob + 1)) ob) k;
  k ← upd_thr (current_thread k) (with_state THREAD_STATE_SLEEP) k;
  upd_thr (current_thread k) (with_slpchannel (Some e)) k.

(** [event_sleep] up to [scheduler()]; a thread that wakes up continues with
    [_lock(lck)], if there is a lock. *)
Definition event_sleep_1 (e : loc) (lck : ptr) (k : kstate) : option (outcome * kstate) :=
  '(ok, k) ← (match lck with
              | Some l =>
                  ob ← objs k !! l;
                  if bool_decide (o_owner ob = Some (current_thread k)) then
                    '(_, k) ← let_go l k; Some (true, k)
                  else Some (false, k)
              | None => Some (true, k)
              end);
  if negb ok then Some (Returned ELOCK_NOTOWNED, k) else
  k ← event_enqueue e k;
  k ← scheduler k;
  Some (Blocked, k).

(** [event_wait_remove_thread], run by the timer thread: its result and
    whether [efailed] was set. *)
Definition event_wait_remove_thread (e t : loc) (k : kstate) : option (bool * kstate) :=
  ob ← objs k !! e;
  if bool_decide (t ∈ sl_waiters ob) then
    k ← upd_obj e (fun ob => with_waiters (filter (fun x => x <> t) (sl_waiters ob)) ob) k;
    k ← upd_obj e (fun ob => with_val (u16 (o_val ob - 1)) ob) k;
    k ← upd_thr t (with_slpchannel NULL) k;
    k ← add_readyq t k;
    Some (true, k)
  else Some (false, k).

Definition set_timers (x : Timer.tstate) (k : kstate) : kstate := set_tq (timeoutflag k) x k.

(** [event_timed_sleep] from the acquisition of [timerq_lock] (held by the
    current thread) to [scheduler()]: [tob] is the timer object [t3] of the
    caller's frame, initialised as lines 486 to 493 do. *)
Definition event_timed_sleep_1 (timerq_lock e : loc) (lck : ptr) (tob : loc) (k : kstate)
  : option (outcome * kstate) :=
  ok ← (match lck with
        | Some l => ob ← objs k !! l; Some (bool_decide (o_owner ob = Some (current_thread k)))
        | None => Some true
        end);
  if negb ok then
    '(_, k) ← unlock timerq_lock k; Some (Returned ELOCK_NOTOWNED, k)
  else
  q ← Timer.insert_timerobj tob (tq k);
  let k := set_timers q k in
  '(_, k) ← (match lck with Some l => let_go l k | None => Some (0, k) end);
  k ← event_enqueue e k;
  '(_, k) ← let_go timerq_lock k;
  k ← scheduler k;
  Some (Blocked, k).

(** The end of [event_timed_sleep], with [timerq_lock] taken again: stop the
    timer if it is still running; [efailed] as the handler left it. *)
Definition event_timed_sleep_2 (timerq_lock tob : loc) (efailed : bool) (k : kstate)
  : option (Z * kstate) :=
  t3 ← Timer.tobjs (tq k) !! tob;
  '(efailed, k) ← (if 0 <=? Timer.timer_count t3 then
                     q ← Timer.remove_timerobj tob (tq k); Some (false, set_timers q k)
                   else Some (efailed, k));
  '(_, k) ← unlock timerq_lock k;
  Some (if (efailed : bool) then ETIMEDOUT else 0, k).

(** [releasesynch_object]: of the four kinds only a lock is released. *)
Definition releasesynch_object (synchobj : loc) (k : kstate) : option kstate :=
  ob ← objs k !! synchobj;
  if sl_type ob =? SYNCH_TYPE_LOCK then '(_, k) ← sys_unlock synchobj k; Some k else Some k.

(** * The sleep-queue invariant *)

(** A thread sleeps on an object exactly when it is on the queue of that object. *)
Record wait_inv (k : kstate) : Prop := {
  wi_sched : sched_inv k;
  wi_nodup o ob : objs k !! o = Some ob -> NoDup (sl_waiters ob);
  wi_sound o ob t : objs k !! o = Some ob -> t ∈ sl_waiters ob ->
    exists x, threads k !! t = Some x /\ sc_state x = THREAD_STATE_SLEEP /\ kt_slpchannel x = Some o;
  wi_complete t x o : threads k !! t = Some x -> kt_slpchannel x = Some o ->
    exists ob, objs k !! o = Some ob /\ t ∈ sl_waiters ob }.

(** A thread that is not asleep has no sleep channel. *)
Lemma wi_channel k t x :
  wait_inv k -> threads k !! t = Some x -> sc_state x <> THREAD_STATE_SLEEP -> kt_slpchannel x = NULL.
Proof.
  intros Hw Hx Hs. destruct (kt_slpchannel x) as [o|] eqn:Hc; [|done].
  destruct (wi_complete _ Hw _ _ _ Hx Hc) as (ob & Ho & Ht).
  destruct (wi_sound _ Hw _ _ _ Ho Ht) as (x' & Hx' & Hs' & _). congruence.
Qed.

(** Replacing a thread that keeps its channel, without waking it. *)
Lemma wait_inv_threads k k' :
  wait_inv k -> sched_inv k' -> (forall o, sl_waiters <$> objs k' !! o = sl_waiters <$> objs k !! o) ->
  (forall t x, threads k !! t = Some x -> sc_state x = THREAD_STATE_SLEEP ->
     exists y, threads k' !! t = Some y /\ sc_state y = THREAD_STATE_SLEEP /\ kt_slpchannel y = kt_slpchannel x) ->
  (forall t y, threads k' !! t = Some y ->
     exists x, threads k !! t = Some x /\ kt_slpchannel y = kt_slpchannel x) ->
  wait_inv k'.
Proof.
  intros [H1 H2 H3 H4] Hs Ho Hf Hb.
  assert (forall o ob, objs k' !! o = Some ob -> exists ob0, objs k !! o = Some ob0 /\ sl_waiters ob0 = sl_waiters ob) as Ho'.
  { intros o ob Hob. specialize (Ho o). rewrite Hob in Ho. destruct (objs k !! o) as [ob0|]; simplify_eq/=. eauto. }
  split; auto.
  - intros o ob Hob. destruct (Ho' o ob Hob) as (ob0 & Hob0 & <-). eauto.
  - intros o ob t Hob Ht. destruct (Ho' o ob Hob) as (ob0 & Hob0 & E). rewrite <- E in Ht.
    destruct (H3 _ _ _ Hob0 Ht) as (x & Hx & Hsx & Hc).
    destruct (Hf t x Hx Hsx) as (y & Hy & Hsy & Hcy). exists y. split_and!; congruence.
  - intros t y o Hy Hc. destruct (Hb t y Hy) as (x & Hx & Hcx). destruct (H4 t x o) as (ob0 & Hob0 & Hin); [congruence..|].
    specialize (Ho o). rewrite Hob0 in Ho. destruct (objs k' !! o) as [ob|]; simplify_eq/=. exists ob. split; congruence.
Qed.

Lemma wait_inv_rq k : wait_inv k -> rq_inv ∅ k.
Proof. intros [[? ?] _ _ _]. done. Qed.
#[local] Hint Resolve wait_inv_rq wi_sched : core.

Lemma wait_inv_kept k k' :
  wait_inv k -> sched_inv k' -> (forall o, sl_waiters <$> objs k' !! o = sl_waiters <$> objs k !! o) ->
  (forall t x, threads k !! t = Some x -> exists y, threads k' !! t = Some y /\
     sc_state y = sc_state x /\ kt_slpchannel y = kt_slpchannel x) ->
  (forall t, threads k !! t = None -> threads k' !! t = None) ->
  wait_inv k'.
Proof.
  intros Hw Hs Ho Hf Hn. apply (wait_inv_threads k); auto.
  - intros t x Hx Hsx. destruct (Hf t x Hx) as (y & ? & ? & ?). exists y. split_and!; congruence.
  - intros t y Hy. destruct (threads k !! t) as [x|] eqn:Hx; [|rewrite Hn in Hy; done].
    destruct (Hf t x Hx) as (y' & ? & ? & ?). exists x. split; congruence.
Qed.

(** * Waking the threads of a queue *)

(** The threads of [q] made ready, the others as they were. *)
Definition readied_in (q : list loc) (m m' : gmap loc kthread) : Prop :=
  forall t, m' !! t = if bool_decide (t ∈ q) then readied <$> m !! t else m !! t.

(** What waking threads leaves alone. *)
Definition same_env (k k' : kstate) : Prop :=
  proc_state k' = proc_state k /\ current_thread k' = current_thread k /\
  tq k' = tq k /\ secs k' = secs k /\ millesecs k' = millesecs k.

#[export] Instance same_env_refl : Reflexive same_env.
Proof. intros k. by split_and!. Qed.
#[export] Instance same_env_trans : Transitive same_env.
Proof. intros k1 k2 k3 H1 H2. unfold same_env in *. destruct_and!. split_and!; congruence. Qed.

Lemma same_rest_env k k' : same_rest k k' -> same_env k k'.
Proof. unfold same_rest, same_env. tauto. Qed.

Lemma current_not_waiting k o ob :
  wait_inv k -> running_ok k -> objs k !! o = Some ob -> current_thread k ∉ sl_waiters ob.
Proof.
  intros Hw (x & Hx & Hs & _) Ho Hin. destruct (wi_sound _ Hw _ _ _ Ho Hin) as (x' & Hx' & Hs' & _). simplify_eq. by rewrite Hs in Hs'.
Qed.

(** A thread taken off the queue of an object, wherever it is, and made ready. *)
Lemma wake_inv k k' o ob ob' t y :
  wait_inv k -> objs k !! o = Some ob -> t ∈ sl_waiters ob ->
  sl_waiters ob' = filter (fun x => x <> t) (sl_waiters ob) ->
  rq_inv ∅ k' -> current_thread k' = current_thread k -> objs k' = <[o := ob']> (objs k) ->
  threads k' = <[t := y]> (threads k) -> sc_state y = THREAD_STATE_READY -> kt_slpchannel y = NULL ->
  wait_inv k'.
Proof.
  intros [H1 H2 H3 H4] Ho Hto Hq Hi' Hcur Hob Ht' Hsy Hcy.
  destruct (H3 o ob t Ho Hto) as (x & Hx & Hs & Hch). split.
  - split; [done|]. rewrite Ht', Hcur. intros t' x'. destruct (decide (t' = t)) as [->|].
    + rewrite lookup_insert_eq. intros [= <-]. by rewrite Hsy.
    + rewrite lookup_insert_ne by done. apply (si_run _ H1).
  - rewrite Hob. intros o' ob0. destruct (decide (o' = o)) as [->|].
    + rewrite lookup_insert_eq. intros [= <-]. rewrite Hq. apply NoDup_filter. eauto.
    + rewrite lookup_insert_ne by done. apply H2.
  - rewrite Hob, Ht'. intros o' ob0 t' Ho' Ht.
    assert (exists ob1, objs k !! o' = Some ob1 /\ (t' ∈ sl_waiters ob1) /\ t' <> t) as (ob1 & Ho0 & Hin & Hne).
    { destruct (decide (o' = o)) as [->|].
      - rewrite lookup_insert_eq in Ho'. simplify_eq. exists ob. rewrite Hq in Ht.
        apply list_elem_of_filter in Ht as [? ?]. by split_and!.
      - rewrite lookup_insert_ne in Ho' by done. exists ob0. split; [done|]. split; [done|].
        intros ->. destruct (H3 _ _ _ Ho' Ht) as (x' & ? & ? & ?). congruence. }
    rewrite lookup_insert_ne by done. eauto.
  - rewrite Hob, Ht'. intros t' x' o'. destruct (decide (t' = t)) as [->|].
    + rewrite lookup_insert_eq. intros [= <-]. congruence.
    + rewrite lookup_insert_ne by done. intros Hx' Hc'. destruct (H4 _ _ _ Hx' Hc') as (ob0 & Ho' & Hin).
      destruct (decide (o' = o)) as [->|].
      * rewrite lookup_insert_eq. eexists; split; [done|]. rewrite Hq. simplify_eq. by apply list_elem_of_filter.
      * rewrite lookup_insert_ne by done. eauto.
Qed.

Lemma wake_from k o ob ob' t :
  wait_inv k -> is_Some (threads k !! current_thread k) -> objs k !! o = Some ob -> t ∈ sl_waiters ob ->
  sl_waiters ob' = filter (fun x => x <> t) (sl_waiters ob) ->
  exists x k', threads k !! t = Some x /\ sc_state x = THREAD_STATE_SLEEP /\
    add_readyq t (set_objs (<[o := ob']> (objs k)) k) = Some k' /\
    wait_inv k' /\ same_env k k' /\ objs k' = <[o := ob']> (objs k) /\ threads k' = <[t := readied x]> (threads k).
Proof.
  intros Hw [c Hc] Ho Hto Hq. destruct (wi_sound _ Hw o ob t Ho Hto) as (x & Hx & Hs & Hch). set (k1 := set_objs _ k).
  assert (rq_inv ∅ k1) as Hi by (by apply (rq_inv_ext _ k); [..|apply wait_inv_rq]).
  destruct (add_readyq_spec ∅ k1 t x) as (k' & Hk' & Hi' & Ht' & Hr');
    [eapply rq_inv_not_ready; [done| |done]; rewrite Hs; done|set_solver|done|by exists c|].
  destruct Hr' as (Hp & Hob & Hcur & Htq & Hse & Hms). simpl in *.
  exists x, k'. split; [done|]. split; [done|]. split; [done|]. split; [|by split_and!].
  by apply (wake_inv k k' o ob ob' t (readied x)).
Qed.

(** One turn of the loop. *)
Lemma wake_one k o ob t q :
  wait_inv k -> is_Some (threads k !! current_thread k) -> objs k !! o = Some ob -> sl_waiters ob = t :: q ->
  exists x k', threads k !! t = Some x /\ sc_state x = THREAD_STATE_SLEEP /\
    (k1 ← upd_obj o (with_waiters q) k; add_readyq t k1) = Some k' /\
    wait_inv k' /\ same_env k k' /\
    objs k' = <[o := with_waiters q ob]> (objs k) /\ threads k' = <[t := readied x]> (threads k).
Proof.
  intros Hw Hc Ho Hq. rewrite (upd_obj_Some o _ k ob) by done. cbn [mbind option_bind]. apply (wake_from k o ob); auto.
  - rewrite Hq. by left.
  - pose proof (wi_nodup _ Hw _ _ Ho) as Hnd. rewrite Hq in *. apply NoDup_cons in Hnd as [Htq _]. simpl.
    rewrite filter_cons_False by (intros Hn; by apply Hn). symmetry. apply filter_all. apply Forall_forall.
    by intros y Hy ->.
Qed.

Lemma wake_all_spec o q k ob :
  wait_inv k -> is_Some (threads k !! current_thread k) -> objs k !! o = Some ob -> sl_waiters ob = q ->
  exists k', wake_all o q k = Some (zlen q, k') /\ wait_inv k' /\ same_env k k' /\
    objs k' = <[o := with_waiters [] ob]> (objs k) /\ readied_in q (threads k) (threads k').
Proof.
  revert k ob. induction q as [|t q IH]; intros k ob Hw Hc Ho Hq; simpl.
  - exists k. split; [done|]. split; [done|]. split; [done|]. split.
    + rewrite insert_id; [done|]. rewrite Ho. f_equal. rewrite <- Hq. by destruct ob.
    + intros t. rewrite bool_decide_eq_false_2; [done|apply not_elem_of_nil].
  - destruct (wake_one k o ob t q Hw Hc Ho Hq) as (x & k1 & Hx & Hs & Hk1 & Hw1 & He1 & Ho1 & Ht1).
    assert (t ∉ q) as Htq.
    { pose proof (wi_nodup _ Hw _ _ Ho) as Hnd. rewrite Hq in Hnd. by apply NoDup_cons in Hnd as [? _]. }
    destruct (upd_obj o (with_waiters q) k) as [k0|] eqn:E0; [|done]. cbn [mbind option_bind] in *. rewrite Hk1.
    cbn [mbind option_bind].
    destruct (IH k1 (with_waiters q ob)) as (k' & -> & Hw' & He' & Ho' & Ht'); auto.
    { pose proof He1 as (_ & -> & _). rewrite Ht1.
      destruct (decide (t = current_thread k)) as [<-|]; [rewrite lookup_insert_eq; eauto|by rewrite lookup_insert_ne]. }
    { rewrite Ho1. by rewrite lookup_insert_eq. }
    exists k'. cbn [mbind option_bind]. split; [unfold zlen; simpl length; do 2 f_equal; lia|].
    split; [done|]. split; [by etrans|]. split.
    + rewrite Ho', Ho1. by rewrite insert_insert_eq.
    + intros t'. rewrite Ht', Ht1. destruct (decide (t' = t)) as [->|].
      * rewrite lookup_insert_eq, Hx, bool_decide_eq_false_2, bool_decide_eq_true_2; [done|by left|done].
      * rewrite lookup_insert_ne by done. do 2 case_bool_decide; try done; set_solver.
Qed.

Lemma wake_waiters_spec o k ob :
  wait_inv k -> is_Some (threads k !! current_thread k) -> objs k !! o = Some ob ->
  exists k', wake_waiters o k = Some (zlen (sl_waiters ob), k') /\ wait_inv k' /\ same_env k k' /\
    objs k' = <[o := with_waiters [] ob]> (objs k) /\ readied_in (sl_waiters ob) (threads k) (threads k').
Proof. intros Hw Hc Ho. unfold wake_waiters. rewrite Ho. by apply wake_all_spec. Qed.

(** * Going to sleep *)

(** The current thread on the queue of [o]. *)
Definition asleep_on (o : loc) (x : kthread) : kthread := with_slpchannel (Some o) (with_state THREAD_STATE_SLEEP x).

Lemma sleep_inv k o ob x ob' :
  wait_inv k -> threads k !! current_thread k = Some x -> sc_state x = THREAD_STATE_RUNNING ->
  objs k !! o = Some ob -> sl_waiters ob' = sl_waiters ob ++ [current_thread k] ->
  wait_inv (set_threads (<[current_thread k := asleep_on o x]> (threads k)) (set_objs (<[o := ob']> (objs k)) k)).
Proof.
  intros Hw Hx Hs Ho Hq. pose proof Hw as [H1 H2 H3 H4].
  assert (forall o' ob0, objs k !! o' = Some ob0 -> current_thread k ∉ sl_waiters ob0) as Hnot.
  { intros o' ob0 Ho' Hin. destruct (H3 _ _ _ Ho' Hin) as (x' & Hx' & Hs' & _). simplify_eq. by rewrite Hs in Hs'. }
  split; simpl.
  - destruct H1 as [Hr Hrun]. split.
    + apply (rq_inv_thread _ (set_objs (<[o := ob']> (objs k)) k) _ x); [by apply (rq_inv_ext _ k)|done| |].
      * apply (wf_same_prio x); auto. by apply (rq_wf _ _ Hr (current_thread k)).
      * right; left. rewrite Hs. done.
    + simpl. intros t y. destruct (decide (t = current_thread k)) as [->|]; [done|].
      rewrite lookup_insert_ne by done. eauto.
  - intros o' ob0. destruct (decide (o' = o)) as [->|]; [|rewrite lookup_insert_ne by done; eauto].
    rewrite lookup_insert_eq. intros [= <-]. rewrite Hq. apply NoDup_app. split_and!; eauto using NoDup_singleton.
    intros t Ht. rewrite list_elem_of_singleton. intros ->. by apply (Hnot o ob).
  - intros o' ob0 t Ho' Ht.
    destruct (decide (t = current_thread k)) as [->|Hne].
    + rewrite lookup_insert_eq. eexists; split; [done|]. split; [done|].
      destruct (decide (o' = o)) as [->|]; [done|]. rewrite lookup_insert_ne in Ho' by done. by destruct (Hnot o' ob0).
    + rewrite lookup_insert_ne by done. destruct (decide (o' = o)) as [->|].
      * rewrite lookup_insert_eq in Ho'. simplify_eq. rewrite Hq in Ht.
        apply elem_of_app in Ht as [Ht|Ht%list_elem_of_singleton]; [eauto|done].
      * rewrite lookup_insert_ne in Ho' by done. eauto.
  - intros t y o' Hy Hc. destruct (decide (t = current_thread k)) as [->|Hne].
    + rewrite lookup_insert_eq in Hy. simplify_eq. simpl in Hc. simplify_eq. rewrite lookup_insert_eq.
      eexists; split; [done|]. rewrite Hq. apply elem_of_app. right. by apply list_elem_of_singleton.
    + rewrite lookup_insert_ne in Hy by done. destruct (H4 _ _ _ Hy Hc) as (ob0 & Ho' & Ht).
      destruct (decide (o' = o)) as [->|]; [|rewrite lookup_insert_ne by done; eauto].
      rewrite lookup_insert_eq. eexists; split; [done|]. rewrite Hq. apply elem_of_app. left. congruence.
Qed.

(** * What the scheduler does to a thread *)

(** Priorities, class and the two object pointers are kept; a state changes
    only between ready and running. *)
Definition kept (x y : kthread) : Prop :=
  sc_cid y = sc_cid x /\ sc_cpupri y = sc_cpupri x /\ sc_inhpri y = sc_inhpri x /\
  kt_synchobjlist y = kt_synchobjlist x /\ kt_slpchannel y = kt_slpchannel x /\
  kt_process y = kt_process x /\
  (sc_state y = sc_state x \/ sc_state y = THREAD_STATE_READY \/ sc_state y = THREAD_STATE_RUNNING).

#[export] Instance kept_refl : Reflexive kept.
Proof. intros x. split_and!; auto. Qed.
#[export] Instance kept_trans : Transitive kept.
Proof.
  intros x y z (A1&A2&A3&A4&A5&A6&A7) (B1&B2&B3&B4&B5&B6&B7). split_and!; try congruence.
  destruct B7 as [->|]; auto.
Qed.

Definition kept_all (m m' : gmap loc kthread) : Prop :=
  forall t, option_relation kept (fun _ => False) (fun _ => False) (m !! t) (m' !! t).

#[export] Instance kept_all_refl : Reflexive kept_all.
Proof. intros m t. by destruct (m !! t); simpl. Qed.
#[export] Instance kept_all_trans : Transitive kept_all.
Proof.
  intros m1 m2 m3 H12 H23 t. specialize (H12 t). specialize (H23 t).
  destruct (m1 !! t), (m2 !! t), (m3 !! t); simpl in *; try done. by etrans.
Qed.

Lemma kept_insert m t x y : m !! t = Some x -> kept x y -> kept_all m (<[t := y]> m).
Proof.
  intros Hx Hk t'. destruct (decide (t' = t)) as [->|].
  - by rewrite Hx, lookup_insert_eq.
  - rewrite lookup_insert_ne by done. by destruct (m !! t'); simpl.
Qed.

Lemma kept_fwd m m' t x : kept_all m m' -> m !! t = Some x -> exists y, m' !! t = Some y /\ kept x y.
Proof. intros H Hx. specialize (H t). rewrite Hx in H. destruct (m' !! t); [eauto|done]. Qed.
Lemma kept_bwd m m' t y : kept_all m m' -> m' !! t = Some y -> exists x, m !! t = Some x /\ kept x y.
Proof. intros H Hy. specialize (H t). rewrite Hy in H. destruct (m !! t); [eauto|done]. Qed.

Lemma upd_thr_inv t f k k' :
  upd_thr t f k = Some k' -> exists x, threads k !! t = Some x /\ k' = set_threads (<[t := f x]> (threads k)) k.
Proof. unfold upd_thr. destruct (threads k !! t) as [x|]; [|done]. intros [= <-]. eauto. Qed.

Definition sched_frame (k k' : kstate) : Prop :=
  kept_all (threads k) (threads k') /\ objs k' = objs k /\ proc_state k' = proc_state k /\ tq k' = tq k.

Lemma upd_thr_frame t f k k' : upd_thr t f k = Some k' -> (forall x, kept x (f x)) -> sched_frame k k'.
Proof. intros (x & Hx & ->)%upd_thr_inv Hf. split; [by eapply kept_insert|done]. Qed.

Lemma rq_op_frame k k' rq : k' = set_readyq rq k -> sched_frame k k'.
Proof. intros ->. by split. Qed.

#[export] Instance sched_frame_trans : Transitive sched_frame.
Proof.
  intros k1 k2 k3 (?&?&?&?) (?&?&?&?). split; [by etrans|]. split_and!; congruence.
Qed.

Lemma rq_append_frame i t k k' : rq_append i t k = Some k' -> sched_frame k k' /\ current_thread k' = current_thread k.
Proof. unfold rq_append. intros H. do 2 bind_inv H. injection H as <-. done. Qed.
Lemma rq_unlink_frame i t k k' : rq_unlink i t k = Some k' -> sched_frame k k' /\ current_thread k' = current_thread k.
Proof. unfold rq_unlink. intros H. do 2 bind_inv H. injection H as <-. done. Qed.

Lemma scheduler_frame k k' : scheduler k = Some k' -> sched_frame k k'.
Proof.
  unfold scheduler. change (threads (set_runrun 0 0 k)) with (threads k).
  assert (forall k2, sched_frame (set_runrun 0 0 k) k2 -> sched_frame k k2) as Hrr by done.
  generalize dependent (set_runrun 0 0 k). intros k0 Hrr H. apply Hrr. clear Hrr.
  step H as new from E. step H as c from Ec.
  assert (forall a b x, kept x (with_quantum a b x)) as Hq by (intros; split_and!; auto).
  destruct new as [n|]; [|by eapply upd_thr_frame]. step H as x from Ex. case_match; [by eapply upd_thr_frame|].
  step H as k1 from E1. step H as y from Ey. step H as k2 from E2. step H as k3 from E3.
  unfold context_switch in H. step H as k4 from E4. injection H as <-.
  assert (sched_frame k0 k1) as F1.
  { case_match; [|by injection E1 as ->]. step E1 as k5 from E5.
    apply upd_thr_frame in E5; [|intros; split_and!; auto]. apply rq_append_frame in E1 as [E1 _]. by etrans. }
  apply rq_unlink_frame in E2 as [F2 _]. apply upd_thr_frame in E3; [|done].
  apply upd_thr_frame in E4; [|intros; split_and!; auto].
  etrans; [exact F1|]. etrans; [exact F2|]. etrans; [exact E3|]. exact E4.
Qed.

(** Some thread of the idle class can always run. *)
Definition idle_ok (k : kstate) : Prop := exists t, is_idle k t /\ runnable k t.

Lemma scheduler_wait k x :
  wait_inv k -> threads k !! current_thread k = Some x -> sc_state x <> THREAD_STATE_READY -> idle_ok k ->
  exists k', scheduler k = Some k' /\ wait_inv k' /\ dispatched k' /\ sched_frame k k' /\
    (forall t, runnable k' t <-> runnable k t).
Proof.
  intros Hw Hx Hnr (ti & _ & y & Hy & Hsy).
  destruct (scheduler_ok k x) as (k' & new & Hk' & Hs' & Hd & Hr & _); auto.
  { intros Hn. assert (sc_state y = THREAD_STATE_READY) as Hsr.
    { destruct Hsy as [|Hsy]; [done|]. assert (ti = current_thread k) by by eapply si_run; [apply Hw|..]. congruence. }
    destruct (rq_complete _ _ (wait_inv_rq _ Hw) ti y Hy Hsr) as (q & Hq & Hin); [set_solver|].
    exists (Z.to_nat (prio_index y)), q. split; [done|]. intros ->. by apply elem_of_nil in Hin. }
  pose proof (scheduler_frame _ _ Hk') as (Hkept & Hobjs & Hps & Htq).
  exists k'. split; [done|]. split; [|done]. apply (wait_inv_threads k); [done|done|by rewrite Hobjs|..].
  - intros t z Hz Hsz. destruct (kept_fwd _ _ _ _ Hkept Hz) as (w & Hw' & (_&_&_&_&Hc&_&Hst)).
    exists w. split; [done|]. split; [|done]. destruct Hst as [->|Hst]; [done|].
    assert (runnable k t) as (z' & Hz' & Hsz') by (apply Hr; by exists w).
    simplify_eq. rewrite Hsz in Hsz'. by destruct Hsz'.
  - intros t w Hw'. destruct (kept_bwd _ _ _ _ Hkept Hw') as (z & Hz & (_&_&_&_&Hc&_)). eauto.
Qed.

(** * Priority inheritance *)

Definition eff (x : kthread) : Z := if sc_inhpri x <? sc_cpupri x then sc_cpupri x else sc_inhpri x.
Definition low (pri : Z) (x : kthread) : bool := (sc_cpupri x <? pri) && (sc_inhpri x <? pri).

Lemma low_eff pri x : low pri x = false <-> pri <= eff x.
Proof. unfold low, eff. rewrite andb_false_iff, !Z.ltb_ge. case_ztest; lia. Qed.

Lemma eff_lent pri x : pri <= eff (with_inhpri pri x).
Proof. unfold eff. simpl. case_ztest; lia. Qed.

Lemma eff_range x : wf_thread x -> 0 <= eff x <= 159.
Proof.
  intros (_ & (b & m & Hb & Hm & Hc) & Hi). pose proof (class_bounds _ _ _ Hb Hm).
  unfold eff. case_ztest; lia.
Qed.

Lemma with_inhpri_wf pri x : wf_thread x -> 0 <= pri <= 159 -> wf_thread (with_inhpri pri x).
Proof. intros (H1 & H2 & H3) Hp. split; [done|]. split; [exact H2|exact Hp]. Qed.

(** The step of the loop that raises one thread. *)
Lemma lend_one k t x pri :
  wait_inv k -> threads k !! t = Some x -> 0 <= pri <= 159 -> is_Some (threads k !! current_thread k) ->
  exists k', ('(ret, k) ← del_readyq t k; k ← upd_thr t (with_inhpri pri) k;
              if ret =? 1 then add_readyq t k else Some k) = Some k' /\
    wait_inv k' /\ same_rest k k' /\ threads k' = <[t := with_inhpri pri x]> (threads k).
Proof.
  intros Hw Hx Hp [c Hc]. pose proof (wait_inv_rq _ Hw) as Hinv.
  pose proof (with_inhpri_wf pri x (rq_wf _ _ Hinv _ _ Hx) Hp) as Hwf.
  assert (forall k', rq_inv ∅ k' -> same_rest k k' -> threads k' = <[t := with_inhpri pri x]> (threads k) -> wait_inv k')
    as Hfin.
  { intros k' Hi (_ & Ho & Hcur & _) Ht. apply (wait_inv_kept k); [done| |by rewrite Ho|..].
    - split; [done|]. rewrite Ht, Hcur. intros t' y. destruct (decide (t' = t)) as [->|].
      + rewrite lookup_insert_eq. intros [= <-]. apply (si_run _ (wi_sched _ Hw) t x Hx).
      + rewrite lookup_insert_ne by done. apply (si_run _ (wi_sched _ Hw)).
    - intros t' y Hy. rewrite Ht. destruct (decide (t' = t)) as [->|].
      + rewrite lookup_insert_eq. simplify_eq. eauto.
      + rewrite lookup_insert_ne by done. eauto.
    - intros t' Hn. rewrite Ht, lookup_insert_ne; congruence. }
  destruct (del_readyq_spec k t x Hinv Hx) as (k1 & r & -> & Ht1 & Hr1 & Hi1 & ->).
  cbn [mbind option_bind]. rewrite (upd_thr_Some t _ k1 x) by by rewrite Ht1. cbn [mbind option_bind]. rewrite Ht1.
  set (k2 := set_threads _ k1).
  assert (rq_inv {[t]} k2) as Hi2.
  { unfold k2. rewrite <- Ht1. apply (rq_inv_thread _ k1 t x); [done|by rewrite Ht1|done|left; set_solver]. }
  destruct (Z.eqb_spec (sc_state x) THREAD_STATE_READY) as [Hs|Hs]; simpl (_ =? 1); cbv iota.
  - destruct (add_readyq_spec ∅ k2 t (with_inhpri pri x)) as (k' & -> & Hi' & Ht' & Hr').
    + by rewrite union_empty_r_L.
    + set_solver.
    + simpl. by rewrite lookup_insert_eq.
    + destruct Hr1 as (_ & _ & Hcur & _). simpl. rewrite Hcur.
      destruct (decide (t = current_thread k)) as [<-|]; [rewrite lookup_insert_eq|rewrite lookup_insert_ne by done]; eauto.
    + assert (threads k' = <[t := with_inhpri pri x]> (threads k)) as Ht.
      { rewrite Ht'. simpl. rewrite insert_insert_eq. f_equal. unfold readied.
        assert (kt_slpchannel x = NULL) as Hn by (apply (wi_channel k t); auto; by rewrite Hs).
        destruct x. simpl in *. subst. done. }
      assert (same_rest k k') as Hr by (etrans; [|exact Hr']; exact Hr1). eauto 6.
  - exists k2. split; [done|]. assert (same_rest k k2) by exact Hr1. split; [|done]. apply Hfin; auto.
    apply (rq_inv_drop ∅ _ t (with_inhpri pri x)); [simpl; by rewrite lookup_insert_eq|done|by rewrite union_empty_r_L].
Qed.

(** A lent thread has its inherited priority raised to [pri], and was below. *)
Definition lent (pri : Z) (x y : kthread) : Prop := y = x \/ (low pri x = true /\ y = with_inhpri pri x).
Definition lent_all (pri : Z) (m m' : gmap loc kthread) : Prop :=
  forall t, option_relation (lent pri) (fun _ => False) (fun _ => False) (m !! t) (m' !! t).

Lemma lent_not_low pri x y : lent pri x y -> low pri x = false -> y = x.
Proof. intros [?|[? ?]]; congruence. Qed.

Lemma lent_step pri m m' t x :
  m !! t = Some x -> low pri x = true -> lent_all pri (<[t := with_inhpri pri x]> m) m' -> lent_all pri m m'.
Proof.
  intros Hx Hl H t'. specialize (H t'). destruct (decide (t' = t)) as [->|].
  - rewrite lookup_insert_eq in H. rewrite Hx. destruct (m' !! t) as [y|]; [|done]. simpl in *.
    apply lent_not_low in H as ->; [right; auto|]. apply low_eff, eff_lent.
  - by rewrite lookup_insert_ne in H by done.
Qed.

(** Locks of both kinds. *)
Definition is_lock (ob : synchobj) : Prop := sl_type ob = SYNCH_TYPE_LOCK \/ sl_type ob = SYNCH_TYPE_RLOCK.

Definition owners_ok (k : kstate) : Prop :=
  forall o ob, objs k !! o = Some ob -> is_lock ob -> sl_waiters ob <> [] ->
    exists t x, o_owner ob = Some t /\ threads k !! t = Some x.

Lemma low_count pri (m : gmap loc kthread) t x :
  m !! t = Some x -> low pri x = true ->
  (size (filter (fun p : loc * kthread => low pri p.2 = true) (<[t := with_inhpri pri x]> m)) <
   size (filter (fun p : loc * kthread => low pri p.2 = true) m))%nat.
Proof.
  intros Hx Hl. rewrite map_filter_insert_False.
  - rewrite map_filter_delete. rewrite map_size_delete_Some.
    + assert (filter (fun p : loc * kthread => low pri p.2 = true) m !! t = Some x) as Hin
        by by apply map_lookup_filter_Some.
      assert (size (filter (fun p : loc * kthread => low pri p.2 = true) m) <> 0%nat); [|lia].
      apply map_size_ne_0_lookup. eauto.
    + exists x. by apply map_lookup_filter_Some.
  - simpl. intros Hn. apply not_false_iff_true in Hn. apply Hn. apply low_eff, eff_lent.
Qed.

Lemma is_lock_test g :
  negb (sl_type g =? SYNCH_TYPE_LOCK) && negb (sl_type g =? SYNCH_TYPE_RLOCK) = false <-> is_lock g.
Proof.
  unfold is_lock. destruct (Z.eqb_spec (sl_type g) SYNCH_TYPE_LOCK), (Z.eqb_spec (sl_type g) SYNCH_TYPE_RLOCK); simpl;
    split; intros; auto; try done. by destruct H.
Qed.

(** The owner of a lock is at least as urgent as [pri]. *)
Definition owner_urgent (pri : Z) (k : kstate) (gl : loc) : Prop :=
  forall g t, objs k !! gl = Some g -> is_lock g -> o_owner g = Some t ->
    exists y, threads k !! t = Some y /\ pri <= eff y.

(** The loop returns within its fuel: every turn but the last raises a thread
    that was below the priority of the current one. *)
Lemma lend_loop_ok fuel gl k cur :
  wait_inv k -> owners_ok k -> threads k !! current_thread k = Some cur ->
  (exists g, objs k !! gl = Some g /\ sl_waiters g <> []) ->
  (size (filter (fun p : loc * kthread => low (eff cur) p.2 = true) (threads k)) < fuel)%nat ->
  exists k', lend_loop fuel gl k = Some k' /\ wait_inv k' /\ same_rest k k' /\
    lent_all (eff cur) (threads k) (threads k') /\ owner_urgent (eff cur) k' gl.
Proof.
  revert gl k. induction fuel as [|fuel IH]; intros gl k Hw Hown Hcur (g & Hg & Hgw) Hfuel; [lia|].
  assert (forall m, lent_all (eff cur) m m) as Hrefl by (intros m t; destruct (m !! t); simpl; auto; by left).
  simpl. rewrite Hg. cbn [mbind option_bind]. case_match eqn:Htype.
  { exists k. split_and!; auto; [done|]. intros g' t Hg' Hl _. simplify_eq. apply is_lock_test in Hl. congruence. }
  apply is_lock_test in Htype. destruct (Hown gl g Hg Htype Hgw) as (t & x & Ht & Hx). rewrite Ht, Hcur. cbn [mbind option_bind].
  rewrite Hx. cbn [mbind option_bind]. fold (eff cur). fold (low (eff cur) x).
  pose proof (eff_range cur (rq_wf _ _ (wait_inv_rq _ Hw) _ _ Hcur)) as Hp.
  destruct (low (eff cur) x) eqn:Hlow; cycle 1.
  { exists k. split_and!; auto; [done|]. intros g' t' Hg' _ Ht'. simplify_eq. exists x. split; [done|]. by apply low_eff. }
  destruct (lend_one k t x (eff cur) Hw Hx Hp) as (k1 & Hk1 & Hw1 & Hr1 & Ht1); [eauto|].
  destruct (del_readyq t k) as [[r kd]|]; [|done]. cbn [mbind option_bind] in *.
  destruct (upd_thr t (with_inhpri (eff cur)) kd) as [ku|]; [|done]. cbn [mbind option_bind] in *. rewrite Hk1. cbn [mbind option_bind].
  assert (t <> current_thread k) as Hne.
  { intros ->. simplify_eq. pose proof (proj2 (low_eff (eff cur) cur) ltac:(lia)). congruence. }
  assert (forall k2, lent_all (eff cur) (threads k1) (threads k2) -> lent_all (eff cur) (threads k) (threads k2)) as Hl2.
  { intros k2 H2. rewrite Ht1 in H2. by apply (lent_step _ _ _ t x). }
  assert (forall k2, lent_all (eff cur) (threads k1) (threads k2) -> objs k2 = objs k -> owner_urgent (eff cur) k2 gl) as Hu2.
  { intros k2 H2 Ho2 g' t' Hg' _ Ht'. rewrite Ho2 in Hg'. simplify_eq. specialize (H2 t). rewrite Ht1, lookup_insert_eq in H2.
    destruct (threads k2 !! t) as [y|]; [|done]. exists y. split; [done|]. simpl in H2.
    apply lent_not_low in H2 as ->; [|apply low_eff]; apply eff_lent. }
  rewrite Ht1, lookup_insert_eq. cbn [mbind option_bind]. simpl (sc_state _). simpl (kt_slpchannel _).
  pose proof Hr1 as (_ & Hobj & Hc1 & _).
  assert (exists k', k' = k1 /\ wait_inv k' /\ same_rest k k' /\ lent_all (eff cur) (threads k) (threads k') /\
    owner_urgent (eff cur) k' gl) as (k' & -> & Hstop) by (exists k1; split_and!; auto).
  destruct (Z.eqb_spec (sc_state x) THREAD_STATE_SLEEP) as [Hs|Hs]; [|by exists k1].
  destruct (kt_slpchannel x) as [gl'|] eqn:Hch; [|by exists k1].
  destruct (wi_complete _ Hw _ _ _ Hx Hch) as (g' & Hg' & Hin).
  destruct (IH gl' k1) as (k' & -> & Hw' & Hr' & Hl' & _); auto.
  - intros o ob Ho Hlk Hne'. rewrite Hobj in Ho. destruct (Hown o ob Ho Hlk Hne') as (t' & x' & ? & Hx'). exists t'.
    rewrite Ht1. destruct (decide (t' = t)) as [->|]; [rewrite lookup_insert_eq|rewrite lookup_insert_ne by done]; eauto.
  - by rewrite Hc1, Ht1, lookup_insert_ne.
  - rewrite Hobj. exists g'. split; [done|]. intros E. rewrite E in Hin. by apply elem_of_nil in Hin.
  - rewrite Ht1. pose proof (low_count (eff cur) (threads k) t x Hx Hlow). lia.
  - exists k'. split; [done|]. split; [done|]. split; [by etrans|]. split; [auto|].
    apply Hu2; auto. destruct Hr' as (_ & -> & _). done.
Qed.

Lemma lend_priority_ok gl k cur :
  wait_inv k -> owners_ok k -> threads k !! current_thread k = Some cur ->
  (exists g, objs k !! gl = Some g /\ sl_waiters g <> []) ->
  exists k', lend_priority gl k = Some k' /\ wait_inv k' /\ same_rest k k' /\
    lent_all (eff cur) (threads k) (threads k') /\ owner_urgent (eff cur) k' gl.
Proof.
  intros Hw Ho Hc Hg. apply lend_loop_ok; auto. apply Nat.lt_succ_r. apply map_subseteq_size. apply map_filter_subseteq.
Qed.

(** * The list of objects a thread owns *)

Definition olk (m : gmap loc synchobj) (o : loc) : option (ptr * ptr) :=
  (fun ob => (sl_next ob, sl_prev ob)) <$> m !! o.

(** Object maps that differ in link fields only. *)
Definition unlinked (ob : synchobj) : synchobj := with_prev NULL (with_next NULL ob).
Definition same_core (m m' : gmap loc synchobj) : Prop := forall o, unlinked <$> m' !! o = unlinked <$> m !! o.

#[export] Instance same_core_refl : Reflexive same_core.
Proof. intros m o. done. Qed.
#[export] Instance same_core_trans : Transitive same_core.
Proof. intros m1 m2 m3 H1 H2 o. by rewrite H2, H1. Qed.

Lemma same_core_insert m o ob ob' : m !! o = Some ob -> unlinked ob' = unlinked ob -> same_core m (<[o := ob']> m).
Proof.
  intros Ho Hu o'. destruct (decide (o' = o)) as [->|]; [|by rewrite lookup_insert_ne].
  rewrite lookup_insert_eq, Ho. simpl. by f_equal.
Qed.

Lemma same_core_lookup m m' o ob :
  same_core m m' -> m' !! o = Some ob -> exists ob0, m !! o = Some ob0 /\ unlinked ob = unlinked ob0.
Proof.
  intros Hc Ho. specialize (Hc o). rewrite Ho in Hc. destruct (m !! o) as [ob0|]; [|done].
  apply (inj Some) in Hc. eauto.
Qed.

Lemma olk_obj m o nx pv : olk m o = Some (nx, pv) -> exists ob, m !! o = Some ob /\ sl_next ob = nx /\ sl_prev ob = pv.
Proof. unfold olk. destruct (m !! o) as [ob|]; simpl; [|done]. intros [= <- <-]. eauto. Qed.
Lemma olk_eq m o ob : olk (<[o := ob]> m) o = Some (sl_next ob, sl_prev ob).
Proof. unfold olk. by rewrite lookup_insert_eq. Qed.
Lemma olk_ne m o o' ob : o <> o' -> olk (<[o := ob]> m) o' = olk m o'.
Proof. unfold olk. intros. by rewrite lookup_insert_ne. Qed.

(** A state with the objects and one thread replaced. *)
Definition relink (t : loc) (y : kthread) (m : gmap loc synchobj) (k : kstate) : kstate :=
  set_threads (<[t := y]> (threads k)) (set_objs m k).

Lemma ADD_SYNCHOBJ_spec k l t x ob os :
  threads k !! t = Some x -> objs k !! l = Some ob -> kt_synchobjlist x = head os ->
  Queue.dlist (olk (objs k)) os -> l ∉ os ->
  exists m', ADD_SYNCHOBJ l t k = Some (relink t (with_synchobjlist (Some l) x) m' k) /\
    same_core (objs k) m' /\ Queue.dlist (olk m') (l :: os) /\
    forall o, o ∉ l :: os -> m' !! o = objs k !! o.
Proof.
  intros Hx Ho Hh Hd Hl. unfold ADD_SYNCHOBJ. rewrite Hx. cbn [mbind option_bind].
  rewrite (upd_obj_Some l _ k ob) by done. cbn [mbind option_bind]. rewrite Hh.
  set (m1 := <[l := _]> (objs k)).
  assert (same_core (objs k) m1) as Hc1 by (by apply same_core_insert with ob).
  destruct (head os) as [h|] eqn:Eh.
  - destruct (Queue.dlist_head _ _ _ Hd Eh) as (nx & (hb & Hhb & <- & Hpv)%olk_obj).
    assert (h <> l) as Hne by (intros ->; apply Hl; by apply head_Some_elem_of).
    assert (m1 !! h = Some hb) as Hh1 by (unfold m1; by rewrite lookup_insert_ne).
    rewrite (upd_obj_Some h _ _ hb) by done. cbn [mbind option_bind].
    rewrite (upd_thr_Some t _ _ x) by done. eexists; split; [reflexivity|]. cbn [objs set_objs set_threads].
    split; [|split].
    + etrans; [exact Hc1|]. by apply same_core_insert with hb.
    + apply (Queue.dlist_push (olk (objs k))); auto.
      * unfold m1. rewrite olk_ne, olk_eq by done. simpl. by rewrite Eh.
      * intros h' nx pv E2 Hl'. rewrite Eh in E2. injection E2 as <-. rewrite olk_eq. simpl.
        unfold olk in Hl'. rewrite Hhb in Hl'. by simplify_eq/=.
      * intros o Hol Hoh. unfold m1. rewrite !olk_ne; [done|congruence|congruence].
    + intros o [Hol Hoo]%not_elem_of_cons. unfold m1. rewrite !lookup_insert_ne; [done|congruence|].
      intros ->. apply Hoo. by apply head_Some_elem_of.
  - destruct os; [|done]. cbn [mbind option_bind]. rewrite (upd_thr_Some t _ _ x) by done.
    eexists; split; [reflexivity|]. cbn [objs set_objs set_threads]. split; [done|]. split.
    + apply (Queue.dlist_push (olk (objs k))); auto; try done.
      * unfold m1. rewrite olk_eq. simpl. done.
      * intros o Hol _. unfold m1. by rewrite olk_ne.
    + intros o [Hol _]%not_elem_of_cons. unfold m1. by rewrite lookup_insert_ne.
Qed.

Lemma relink_id k t x m :
  threads k !! t = Some x -> m = objs k -> relink t x m k = k.
Proof. intros Hx ->. unfold relink. rewrite insert_id by done. by destruct k. Qed.

(** [DEL_SYNCHOBJ] in two halves: the neighbours, then the object itself. *)
Lemma DEL_SYNCHOBJ_spec k l t x os :
  threads k !! t = Some x -> kt_synchobjlist x = head os ->
  Queue.dlist (olk (objs k)) os -> l ∈ os ->
  exists m', DEL_SYNCHOBJ l t k =
      Some (relink t (with_synchobjlist (head (filter (fun o => o <> l) os)) x) m' k) /\
    same_core (objs k) m' /\ Queue.dlist (olk m') (filter (fun o => o <> l) os) /\
    forall o, o ∉ os -> m' !! o = objs k !! o.
Proof.
  intros Hx Hh Hd (a & b & ->)%list_elem_of_split.
  assert (l ∉ a ++ b) as Hlo.
  { destruct Hd as [Hn _]. rewrite <- Permutation_middle in Hn. by apply NoDup_cons in Hn as [? _]. }
  assert (filter (fun o => o <> l) (a ++ l :: b) = a ++ b) as ->.
  { rewrite filter_app, filter_cons_False, <- filter_app by (intros Hn; by apply Hn).
    apply filter_all. apply Forall_forall. intros o Ho ->. done. }
  destruct (olk_obj _ _ _ _ (proj2 Hd a l b eq_refl)) as (ob & Hob & Hnx & Hpv).
  unfold DEL_SYNCHOBJ. rewrite Hob. cbn [mbind option_bind]. rewrite Hnx, Hpv.
  (* the next object *)
  assert (exists m1, match head b with Some n => upd_obj n (with_prev (last a)) k | None => Some k end = Some (set_objs m1 k) /\
    m1 !! l = Some ob /\ same_core (objs k) m1 /\
    (forall h nx pv, head b = Some h -> olk (objs k) h = Some (nx, pv) -> olk m1 h = Some (nx, last a)) /\
    (forall o, head b <> Some o -> m1 !! o = objs k !! o)) as (m1 & -> & Hl1 & Hc1 & Hn1 & Hf1).
  { destruct (head b) as [h|] eqn:Eb.
    - destruct (Queue.dlist_next _ _ _ _ _ Hd Eb) as (Hne & nx & (hb & Hhb & <- & Hpvh)%olk_obj).
      rewrite (upd_obj_Some _ _ _ _ Hhb). eexists; split; [reflexivity|]. split; [by rewrite lookup_insert_ne|].
      split; [by apply same_core_insert with hb|]. split.
      + intros h' nx pv [= <-] Hl'. rewrite olk_eq. simpl. unfold olk in Hl'. rewrite Hhb in Hl'. by simplify_eq/=.
      + intros o Hno. rewrite lookup_insert_ne; [done|congruence].
    - exists (objs k). split; [by destruct k|]. by split_and!. }
  cbn [mbind option_bind]. cbn [objs set_objs]. rewrite Hl1. cbn [mbind option_bind]. rewrite Hpv, Hnx.
  (* the previous object, or the thread *)
  assert (exists m2, match last a with Some p => upd_obj p (with_next (head b)) (set_objs m1 k)
      | None => upd_thr t (with_synchobjlist (head b)) (set_objs m1 k) end
      = Some (relink t (with_synchobjlist (head (a ++ b)) x) m2 k) /\
    m2 !! l = Some ob /\ same_core m1 m2 /\
    (forall h nx pv, last a = Some h -> olk m1 h = Some (nx, pv) -> olk m2 h = Some (head b, pv)) /\
    (forall o, last a <> Some o -> m2 !! o = m1 !! o)) as (m2 & -> & Hl2 & Hc2 & Hn2 & Hf2).
  { destruct (last a) as [h|] eqn:Ea.
    - destruct (Queue.dlist_prev _ _ _ _ _ Hd Ea) as (Hne & Hnb & pv & (hb & Hhb & Hnxh & <-)%olk_obj).
      assert (m1 !! h = Some hb) as Hhb1 by by rewrite Hf1.
      rewrite (upd_obj_Some _ _ (set_objs m1 k) _ Hhb1). exists (<[h := with_next (head b) hb]> m1). split.
      { unfold relink. cbn [objs set_objs]. do 2 f_equal. replace (head (a ++ b)) with (kt_synchobjlist x).
        - replace (with_synchobjlist (kt_synchobjlist x) x) with x by by destruct x. rewrite (insert_id (threads k)) by done. by destruct k.
        - rewrite Hh. by destruct a. }
      split; [by rewrite lookup_insert_ne|]. split; [by apply same_core_insert with hb|]. split.
      + intros h' nx pv [= <-] Hl'. rewrite olk_eq. simpl. unfold olk in Hl'. rewrite Hhb1 in Hl'. by simplify_eq/=.
      + intros o Hno. rewrite lookup_insert_ne; [done|congruence].
    - apply last_None in Ea as ->. rewrite (upd_thr_Some t _ _ x) by done. exists m1. by split_and!. }
  cbn [mbind option_bind]. rewrite (upd_obj_Some l _ _ ob) by done.
  exists (<[l := unlinked ob]> m2). split; [reflexivity|]. split; [|split].
  - etrans; [exact Hc1|]. etrans; [exact Hc2|]. by apply same_core_insert with ob.
  - apply (Queue.dlist_remove (olk (objs k)) _ a l b Hd).
    + intros h nx pv Hb Hl'. destruct (Queue.dlist_next _ _ _ _ _ Hd Hb) as (Hne & _). rewrite olk_ne by done.
      assert (last a <> Some h) as Hna.
      { intros Ha. by destruct (Queue.dlist_prev _ _ _ _ _ Hd Ha) as (_ & ? & _). }
      unfold olk. rewrite Hf2 by done. by eapply Hn1.
    + intros h nx pv Ha Hl'. destruct (Queue.dlist_prev _ _ _ _ _ Hd Ha) as (Hne & Hnb & _). rewrite olk_ne by done.
      eapply Hn2; [done|]. unfold olk. by rewrite Hf1.
    + intros o Hol Hob' Hoa. rewrite olk_ne by done. unfold olk. by rewrite Hf2, Hf1.
  - intros o Hoo. rewrite lookup_insert_ne.
    + rewrite Hf2, Hf1; [done| |].
      * intros Hb%head_Some_elem_of. apply Hoo. apply elem_of_app. right. by right.
      * intros Ha%last_Some_elem_of. apply Hoo. apply elem_of_app. by left.
    + intros ->. apply Hoo. apply elem_of_app. right. by left.
Qed.

(** * The lock invariant *)

Definition owned (m : gmap loc synchobj) (t o : loc) : Prop :=
  exists ob, m !! o = Some ob /\ is_lock ob /\ o_owner ob = Some t.

(** A lock is free, with nobody waiting, or held by some thread. *)
Definition free_lock (ob : synchobj) : Prop :=
  o_val ob = 0 /\ o_owner ob = NULL /\ sl_waiters ob = [] /\ (sl_type ob = SYNCH_TYPE_RLOCK -> o_level ob = 0).
Definition held_lock (ts : gmap loc kthread) (ob : synchobj) : Prop :=
  o_val ob = 1 /\ exists t, o_owner ob = Some t /\ is_Some (ts !! t).

(** [kt_synchobjlist] is the well-linked list of the locks a thread owns. *)
Definition owns (m : gmap loc synchobj) (t : loc) (x : kthread) : Prop :=
  exists os, kt_synchobjlist x = head os /\ Queue.dlist (olk m) os /\ forall o, o ∈ os <-> owned m t o.

Record lock_core (k : kstate) : Prop := {
  lc_wait : wait_inv k;
  lc_lock o ob : objs k !! o = Some ob -> is_lock ob -> free_lock ob \/ held_lock (threads k) ob;
  lc_own t x : threads k !! t = Some x -> owns (objs k) t x;
  lc_idle : idle_ok k }.

Record lock_inv (k : kstate) : Prop := { li_core : lock_core k; li_run : running_ok k }.

Lemma lock_core_owners k : lock_core k -> owners_ok k.
Proof.
  intros H o ob Ho Hl Hne. destruct (lc_lock _ H o ob Ho Hl) as [(_ & _ & ? & _)|(_ & t & ? & [x ?])]; [done|eauto].
Qed.

(** Threads of the idle class stay runnable. *)
Definition runs_on (m m' : gmap loc kthread) : Prop :=
  forall t x, m !! t = Some x -> exists y, m' !! t = Some y /\ sc_cid y = sc_cid x /\
    (sc_state x = THREAD_STATE_READY \/ sc_state x = THREAD_STATE_RUNNING ->
     sc_state y = THREAD_STATE_READY \/ sc_state y = THREAD_STATE_RUNNING).

Lemma runs_on_idle k k' : runs_on (threads k) (threads k') -> idle_ok k -> idle_ok k'.
Proof.
  intros H (t & (x & Hx & Hi) & (x' & Hx' & Hr)). simplify_eq.
  destruct (H t x Hx) as (y & Hy & Hc & Hs). exists t. split; exists y; split; auto. congruence.
Qed.

Lemma runs_on_is_Some m m' t : runs_on m m' -> is_Some (m !! t) -> is_Some (m' !! t).
Proof. intros H [x Hx]. destruct (H t x Hx) as (y & Hy & _). eauto. Qed.

Lemma runs_on_insert m t x y :
  m !! t = Some x -> sc_cid y = sc_cid x ->
  (sc_state y = sc_state x \/ sc_state y = THREAD_STATE_READY) -> runs_on m (<[t := y]> m).
Proof.
  intros Hx Hc Hs t' z Hz. destruct (decide (t' = t)) as [->|].
  - rewrite lookup_insert_eq. exists y. simplify_eq. split; [done|]. split; [done|].
    destruct Hs as [->| ->]; [done|by left].
  - rewrite lookup_insert_ne by done. eauto.
Qed.

Lemma runs_on_kept m m' : kept_all m m' -> runs_on m m'.
Proof.
  intros H t x Hx. destruct (kept_fwd _ _ _ _ H Hx) as (y & Hy & (Hc & _ & _ & _ & _ & _ & Hs)).
  exists y. split; [done|]. split; [done|]. destruct Hs as [->|Hs]; auto.
Qed.

Lemma runs_on_readied q m m' : readied_in q m m' -> runs_on m m'.
Proof.
  intros H t x Hx. specialize (H t). rewrite Hx in H. rewrite H. case_bool_decide; simpl; eauto 6.
Qed.

(** Replacing one thread, the objects as they are. *)
Lemma lock_core_thread k t x y :
  lock_core k -> threads k !! t = Some x -> wf_thread y -> sc_state y = sc_state x -> sc_cid y = sc_cid x ->
  kt_slpchannel y = kt_slpchannel x -> kt_synchobjlist y = kt_synchobjlist x ->
  sc_state x <> THREAD_STATE_READY \/ prio_index y = prio_index x ->
  lock_core (set_threads (<[t := y]> (threads k)) k).
Proof.
  intros [Hw Hl Ho Hi] Hx Hwf Hs Hc Hch Hso Hp.
  assert (runs_on (threads k) (<[t := y]> (threads k))) as Hr by (apply runs_on_insert with x; auto).
  split.
  - apply (wait_inv_kept k); [done| |done|..].
    + split.
      * apply (rq_inv_thread _ _ t x); auto. right. destruct Hp as [Hp|Hp]; [left; by rewrite Hs|by right].
      * simpl. intros t' z. destruct (decide (t' = t)) as [->|]; [|rewrite lookup_insert_ne by done; apply (si_run _ (wi_sched _ Hw))].
        rewrite lookup_insert_eq. intros [= <-]. rewrite Hs. by apply (si_run _ (wi_sched _ Hw)).
    + simpl. intros t' z Hz. destruct (decide (t' = t)) as [->|]; [|rewrite lookup_insert_ne by done; eauto].
      rewrite lookup_insert_eq. simplify_eq. eauto.
    + simpl. intros t' Hn. rewrite lookup_insert_ne; [done|congruence].
  - simpl. intros o ob Hob Hlk. destruct (Hl o ob Hob Hlk) as [?|(? & t' & ? & Hs')]; [by left|right].
    split; [done|]. exists t'. split; [done|]. by eapply runs_on_is_Some.
  - simpl. intros t' z. destruct (decide (t' = t)) as [->|]; [|rewrite lookup_insert_ne by done; apply Ho].
    rewrite lookup_insert_eq. intros [= <-]. destruct (Ho t x Hx) as (os & Hh & Hd & Hin). exists os. by rewrite Hso.
  - by apply (runs_on_idle k).
Qed.

Lemma lock_core_sched_thread k t x y :
  lock_core k -> threads k !! t = Some x -> sc_cid y = sc_cid x -> sc_cpupri y = sc_cpupri x ->
  sc_inhpri y = sc_inhpri x -> sc_state y = sc_state x ->
  sched_inv (set_threads (<[t := y]> (threads k)) k).
Proof.
  intros Hk Hx Hc Hp Hi Hs. destruct (wi_sched _ (lc_wait _ Hk)) as [Hr Hrun]. split.
  - apply (rq_inv_thread _ _ t x); auto.
    + apply (wf_same_prio x); auto. by apply (rq_wf _ _ Hr t).
    + right; right. split; [done|]. unfold prio_index. by rewrite Hp, Hi.
  - simpl. intros t' z. destruct (decide (t' = t)) as [->|]; [|rewrite lookup_insert_ne by done; apply Hrun].
    rewrite lookup_insert_eq. intros [= <-]. rewrite Hs. by apply Hrun.
Qed.

(** Objects equal up to their links have the same owner, kind and waiters. *)
Lemma unlinked_fields ob ob' :
  unlinked ob' = unlinked ob ->
  sl_type ob' = sl_type ob /\ sl_waiters ob' = sl_waiters ob /\ o_owner ob' = o_owner ob /\
  o_val ob' = o_val ob /\ o_level ob' = o_level ob.
Proof. destruct ob, ob'. unfold unlinked. simpl. by intros [= -> -> -> -> ->]. Qed.

Lemma is_lock_unlinked ob ob' : unlinked ob' = unlinked ob -> is_lock ob' <-> is_lock ob.
Proof. intros (Ht & _)%unlinked_fields. unfold is_lock. by rewrite Ht. Qed.

Lemma same_core_owned m m' t o : same_core m m' -> owned m' t o <-> owned m t o.
Proof.
  intros Hc. specialize (Hc o). unfold owned. split; intros (ob & Ho & Hl & Hw); rewrite Ho in Hc.
  - destruct (m !! o) as [ob0|]; [|done]. apply (inj Some) in Hc. exists ob0.
    pose proof (unlinked_fields _ _ Hc) as (_ & _ & E & _). split; [done|]. split; [by eapply is_lock_unlinked|congruence].
  - destruct (m' !! o) as [ob0|]; [|done]. apply (inj Some) in Hc. exists ob0.
    pose proof (unlinked_fields _ _ Hc) as (_ & _ & E & _). split; [done|]. split; [by eapply is_lock_unlinked|congruence].
Qed.

Lemma same_core_waiters m m' o : same_core m m' -> sl_waiters <$> m' !! o = sl_waiters <$> m !! o.
Proof.
  intros Hc. specialize (Hc o). destruct (m' !! o), (m !! o); simpl in *; try done.
  apply (inj Some) in Hc. apply unlinked_fields in Hc as (_ & -> & _). done.
Qed.

(** Lists of different threads share nothing. *)
Lemma owned_disjoint m t t' o : owned m t o -> owned m t' o -> t' = t.
Proof. intros (ob & Ho & _ & H1) (ob' & Ho' & _ & H2). simplify_eq. congruence. Qed.

(** * Acquiring and releasing *)

(** The list of a thread is untouched by changes to objects it does not own. *)
Lemma owns_frame m m' t x :
  owns m t x -> (forall o, owned m' t o <-> owned m t o) -> (forall o, owned m t o -> olk m' o = olk m o) ->
  owns m' t x.
Proof.
  intros (os & Hh & Hd & Hin) Ho Hf. exists os. split; [done|]. split.
  - apply (Queue.dlist_frame (olk m)); [done|]. intros o Hoo. apply Hf. by apply Hin.
  - intros o. by rewrite Ho, Hin.
Qed.

Lemma owned_insert m l ob t o :
  owned (<[l := ob]> m) t o <-> (o = l /\ is_lock ob /\ o_owner ob = Some t) \/ (o <> l /\ owned m t o).
Proof.
  unfold owned. destruct (decide (o = l)) as [->|].
  - rewrite lookup_insert_eq. split; [intros (ob' & [= <-] & ? & ?); by left|].
    intros [(_ & ? & ?)|[? _]]; [eauto|done].
  - rewrite lookup_insert_ne by done. split; [by right|]. intros [(? & _)|[_ ?]]; done.
Qed.

Lemma same_core_insert_lookup m m' l ob o ob' :
  same_core (<[l := ob]> m) m' -> m' !! o = Some ob' ->
  (o = l /\ unlinked ob' = unlinked ob) \/ (o <> l /\ exists ob0, m !! o = Some ob0 /\ unlinked ob' = unlinked ob0).
Proof.
  intros Hc Ho. destruct (same_core_lookup _ _ _ _ Hc Ho) as (ob0 & Ho0 & Hu). destruct (decide (o = l)) as [->|].
  - rewrite lookup_insert_eq in Ho0. injection Ho0 as <-. by left.
  - rewrite lookup_insert_ne in Ho0 by done. right. eauto.
Qed.

Lemma free_unlinked ob ob' : unlinked ob' = unlinked ob -> free_lock ob -> free_lock ob'.
Proof. intros (E1 & E2 & E3 & E4 & E5)%unlinked_fields. unfold free_lock. by rewrite E1, E2, E3, E4, E5. Qed.
Lemma held_unlinked ts ts' ob ob' :
  unlinked ob' = unlinked ob -> (forall t, is_Some (ts !! t) -> is_Some (ts' !! t)) -> held_lock ts ob -> held_lock ts' ob'.
Proof.
  intros (E1 & E2 & E3 & E4 & E5)%unlinked_fields Hs (Hv & t & Ho & Ht). unfold held_lock. rewrite E3, E4. eauto.
Qed.

(** One object changed, and the links of others: the lock part of the invariant. *)
Lemma lock_core_obj k k' l ob1 :
  lock_core k -> wait_inv k' -> runs_on (threads k) (threads k') ->
  same_core (<[l := ob1]> (objs k)) (objs k') ->
  (is_lock ob1 -> free_lock ob1 \/ held_lock (threads k) ob1) ->
  (forall t x, threads k' !! t = Some x -> owns (objs k') t x) ->
  lock_core k'.
Proof.
  intros [Hw Hl Ho Hi] Hw' Hr Hc Hl1 Ho'. split; [done| |done|by apply (runs_on_idle k)].
  assert (forall t, is_Some (threads k !! t) -> is_Some (threads k' !! t)) as Hs by (intros t; by apply runs_on_is_Some).
  intros o ob Hob Hlk. destruct (same_core_insert_lookup _ _ _ _ _ _ Hc Hob) as [[-> Hu]|(Hne & ob0 & Hob0 & Hu)];
    apply (is_lock_unlinked _ _ Hu) in Hlk as Hlk0.
  - destruct (Hl1 Hlk0); [left; by eapply free_unlinked|right; by eapply held_unlinked].
  - destruct (Hl o ob0 Hob0 Hlk0); [left; by eapply free_unlinked|right; by eapply held_unlinked].
Qed.

Lemma acquire_spec k l ob ob1 x :
  lock_core k -> threads k !! current_thread k = Some x -> sc_state x = THREAD_STATE_RUNNING ->
  objs k !! l = Some ob -> is_lock ob -> free_lock ob ->
  sl_type ob1 = sl_type ob -> sl_waiters ob1 = [] -> o_owner ob1 = Some (current_thread k) -> o_val ob1 = 1 ->
  exists k', (k1 ← ADD_SYNCHOBJ l (current_thread k) (set_objs (<[l := ob1]> (objs k)) k);
              upd_thr (current_thread k1) (with_slpchannel NULL) k1) = Some k' /\
    lock_core k' /\ same_env k k' /\ same_core (<[l := ob1]> (objs k)) (objs k') /\
    threads k' = <[current_thread k := with_synchobjlist (Some l) x]> (threads k).
Proof.
  intros Hk Hx Hs Ho Hlk (Hv & Hown & Hwt & Hlv) Ht1 Hw1 Ho1 Hv1. set (cur := current_thread k) in *.
  destruct (lc_own _ Hk cur x Hx) as (os & Hh & Hd & Hin).
  assert (forall t, ~ owned (objs k) t l) as Hnot.
  { intros t (ob' & Hob' & _ & Hw'). congruence. }
  assert (l ∉ os) as Hl by (rewrite Hin; apply Hnot).
  assert (Queue.dlist (olk (<[l := ob1]> (objs k))) os) as Hd1.
  { apply (Queue.dlist_frame (olk (objs k))); [done|]. intros o Hoo. apply olk_ne. by intros ->. }
  destruct (ADD_SYNCHOBJ_spec (set_objs (<[l := ob1]> (objs k)) k) l cur x ob1 os) as (m' & -> & Hc & Hd' & Hf);
    [done|apply lookup_insert_eq|done..|]. cbn [mbind option_bind].
  cbn [objs set_objs] in Hc, Hf.
  rewrite (upd_thr_Some _ _ _ (with_synchobjlist (Some l) x)) by (simpl; by rewrite lookup_insert_eq).
  assert (kt_slpchannel x = NULL) as Hch by (apply (wi_channel k cur); [apply Hk|done|by rewrite Hs]).
  eexists; split; [reflexivity|]. simpl. rewrite insert_insert_eq.
  replace (with_slpchannel NULL (with_synchobjlist (Some l) x)) with (with_synchobjlist (Some l) x)
    by (destruct x; simpl in *; by subst).
  set (y := with_synchobjlist (Some l) x). split; [|done].
  assert (runs_on (threads k) (<[cur := y]> (threads k))) as Hr by (apply runs_on_insert with x; auto).
  apply (lock_core_obj k _ l ob1); auto.
  - apply (wait_inv_kept k); [apply Hk| | |..].
    + assert (sched_inv (set_threads (<[cur := y]> (threads k)) k)) as Hsi.
      { apply (sched_inv_current k x); auto; [apply Hk|]. apply (wf_same_prio x); auto.
        by apply (rq_wf _ _ (wait_inv_rq _ (lc_wait _ Hk)) cur). }
      by apply (sched_inv_ext (set_threads (<[cur := y]> (threads k)) k)).
    + intros o. simpl. rewrite (same_core_waiters _ _ o Hc). destruct (decide (o = l)) as [->|].
      * rewrite lookup_insert_eq, Ho. simpl. congruence.
      * by rewrite lookup_insert_ne.
    + simpl. intros t z Hz. destruct (decide (t = cur)) as [->|]; [|rewrite lookup_insert_ne by done; eauto].
      rewrite lookup_insert_eq. simplify_eq. eauto.
    + simpl. intros t Hn. rewrite lookup_insert_ne; [done|congruence].
  - intros _. right. split; [done|]. exists cur. eauto.
  - simpl. intros t z. destruct (decide (t = cur)) as [->|Hne].
    + rewrite lookup_insert_eq. intros [= <-]. exists (l :: os). split; [done|]. split; [done|]. intros o.
      rewrite (same_core_owned _ _ _ _ Hc), owned_insert, elem_of_cons, Hin. unfold is_lock in *. rewrite Ht1.
      destruct (decide (o = l)) as [->|]; naive_solver.
    + rewrite lookup_insert_ne by done. intros Hz.
      assert (forall o, owned (objs k) t o -> o <> l /\ o ∉ l :: os) as Hdis.
      { intros o Hoo. split; [intros ->; by apply (Hnot t)|]. rewrite elem_of_cons. intros [->|Hos]; [by apply (Hnot t)|].
        apply Hin in Hos. apply Hne. by apply (owned_disjoint (objs k) _ _ o). }
      apply (owns_frame (objs k)); [by apply Hk| |].
      * intros o. rewrite (same_core_owned _ _ _ _ Hc), owned_insert, Ho1. split; [|right; by split; [apply Hdis|]].
        intros [(_ & _ & [= ->])|[_ ?]]; done.
      * intros o Hoo. destruct (Hdis o Hoo) as [Hol Hos]. unfold olk. rewrite Hf by done. by rewrite lookup_insert_ne.
Qed.

Definition released (ob : synchobj) : synchobj := with_val 0 (with_owner NULL (with_waiters [] ob)).

(** Waking the waiters of a lock that stays held. *)
Lemma wake_lock_core k l ob :
  lock_core k -> is_Some (threads k !! current_thread k) -> objs k !! l = Some ob -> is_lock ob ->
  held_lock (threads k) ob ->
  exists k1, wake_waiters l k = Some (zlen (sl_waiters ob), k1) /\ lock_core k1 /\ same_env k k1 /\
    objs k1 = <[l := with_waiters [] ob]> (objs k) /\ readied_in (sl_waiters ob) (threads k) (threads k1).
Proof.
  intros Hk Hc Ho Hlk Hh. destruct (wake_waiters_spec l k ob (lc_wait _ Hk) Hc Ho) as (k1 & -> & Hw1 & He1 & Ho1 & Ht1).
  exists k1. split; [done|]. split; [|done]. apply (lock_core_obj k k1 l (with_waiters [] ob)); auto.
  - by eapply runs_on_readied.
  - by rewrite Ho1.
  - intros t y Hy. rewrite Ht1 in Hy.
    assert (exists z, threads k !! t = Some z /\ kt_synchobjlist y = kt_synchobjlist z) as (z & Hz & Hl).
    { case_bool_decide; [|eauto]. apply fmap_Some in Hy as (z & Hz & ->). eauto. }
    destruct (owns_frame (objs k) (objs k1) t z) as (os & Hh' & Hd & Hin); [by apply Hk|..].
    + intros o. rewrite Ho1, owned_insert. unfold is_lock in *. simpl. destruct (decide (o = l)) as [->|]; [|naive_solver].
      unfold owned. rewrite Ho. split; [intros [(_ & ? & ?)|[? _]]; [by exists ob|done]|].
      intros (ob' & [= <-] & ? & ?). by left.
    + intros o _. rewrite Ho1. destruct (decide (o = l)) as [->|]; [|by apply olk_ne]. rewrite olk_eq. unfold olk. by rewrite Ho.
    + exists os. by rewrite Hl.
Qed.

(** The end of the release: out of the owner's list, and free. *)
Lemma give_back k l ob x :
  lock_core k -> threads k !! current_thread k = Some x -> objs k !! l = Some ob -> is_lock ob ->
  sl_waiters ob = [] -> o_owner ob = Some (current_thread k) -> (sl_type ob = SYNCH_TYPE_RLOCK -> o_level ob = 0) ->
  exists k' p, (k1 ← DEL_SYNCHOBJ l (current_thread k) k; k2 ← upd_obj l (with_owner NULL) k1; upd_obj l (with_val 0) k2) = Some k' /\
    lock_core k' /\ same_env k k' /\ same_core (<[l := released ob]> (objs k)) (objs k') /\
    threads k' = <[current_thread k := with_synchobjlist p x]> (threads k).
Proof.
  intros Hk Hx Ho Hlk Hq Hown Hlv. set (cur := current_thread k) in *.
  destruct (lc_own _ Hk cur x Hx) as (os & Hh & Hd & Hin).
  assert (l ∈ os) as Hl by (apply Hin; by exists ob).
  destruct (DEL_SYNCHOBJ_spec k l cur x os Hx Hh Hd Hl) as (m' & -> & Hc & Hd' & Hf). cbn [mbind option_bind].
  set (p := head _). pose proof (Hc l) as Hcl. rewrite Ho in Hcl. destruct (m' !! l) as [obl|] eqn:Hol; [|done].
  apply (inj Some) in Hcl. rewrite (upd_obj_Some l _ _ obl) by done. cbn [mbind option_bind].
  rewrite (upd_obj_Some l _ _ (with_owner NULL obl)) by (simpl; apply lookup_insert_eq).
  do 2 eexists; split; [reflexivity|]. simpl. rewrite insert_insert_eq.
  set (y := with_synchobjlist p x). set (ob' := with_val 0 (with_owner NULL obl)).
  assert (same_core (<[l := released ob]> (objs k)) (<[l := ob']> m')) as Hc'.
  { intros o. destruct (decide (o = l)) as [->|]; [|rewrite !lookup_insert_ne by done; apply Hc].
    rewrite !lookup_insert_eq. simpl. f_equal.
    apply unlinked_fields in Hcl as (E1 & E2 & E3 & E4 & E5). 
    unfold unlinked, ob', released, with_prev, with_next, with_val, with_owner, with_waiters. simpl.
    by rewrite E1, E2, E5, Hq. }
  split; [|done].
  assert (runs_on (threads k) (<[cur := y]> (threads k))) as Hr by (apply runs_on_insert with x; auto).
  assert (free_lock (released ob)) as Hfree by (split_and!; auto).
  apply (lock_core_obj k _ l (released ob)); auto.
  - apply (wait_inv_kept k); [apply Hk| | |..].
    + apply (sched_inv_ext (set_threads (<[cur := y]> (threads k)) k)); [done..|].
      apply lock_core_sched_thread with x; auto.
    + intros o. simpl. rewrite (same_core_waiters _ _ o Hc'). destruct (decide (o = l)) as [->|].
      * rewrite lookup_insert_eq, Ho. simpl. congruence.
      * by rewrite lookup_insert_ne.
    + simpl. intros t z Hz. destruct (decide (t = cur)) as [->|]; [|rewrite lookup_insert_ne by done; eauto].
      rewrite lookup_insert_eq. simplify_eq. eauto.
    + simpl. intros t Hn. rewrite lookup_insert_ne; [done|congruence].
  - simpl. intros t z. destruct (decide (t = cur)) as [->|Hne].
    + rewrite lookup_insert_eq. intros [= <-]. exists (filter (fun o => o <> l) os). split; [done|]. split.
      * apply (Queue.dlist_frame (olk m')); [done|]. intros o [Hol' _]%list_elem_of_filter. by apply olk_ne.
      * intros o. rewrite (same_core_owned _ _ _ _ Hc'), owned_insert, list_elem_of_filter, Hin. naive_solver.
    + rewrite lookup_insert_ne by done. intros Hz.
      assert (forall o, owned (objs k) t o -> o ∉ os) as Hdis.
      { intros o Hoo Hos. apply Hin in Hos. apply Hne. by apply (owned_disjoint (objs k) _ _ o). }
      apply (owns_frame (objs k)); [by apply Hk| |].
      * intros o. rewrite (same_core_owned _ _ _ _ Hc'), owned_insert. split; [naive_solver|].
        intros Hoo. right. split; [|done]. intros ->. by apply (Hdis l).
      * intros o Hoo. assert (o <> l) by (intros ->; by apply (Hdis l)). rewrite olk_ne by done. unfold olk. by rewrite Hf by auto.
Qed.

Lemma let_go_spec k l ob x :
  lock_core k -> threads k !! current_thread k = Some x -> objs k !! l = Some ob -> is_lock ob ->
  o_owner ob = Some (current_thread k) -> (sl_type ob = SYNCH_TYPE_RLOCK -> o_level ob = 0) ->
  current_thread k ∉ sl_waiters ob ->
  exists k' p, let_go l k = Some (zlen (sl_waiters ob), k') /\ lock_core k' /\ same_env k k' /\
    same_core (<[l := released ob]> (objs k)) (objs k') /\
    threads k' !! current_thread k = Some (with_synchobjlist p x) /\
    forall t, t <> current_thread k ->
      threads k' !! t = if bool_decide (t ∈ sl_waiters ob) then readied <$> threads k !! t else threads k !! t.
Proof.
  intros Hk Hx Ho Hlk Hown Hlv Hnw. unfold let_go.
  assert (held_lock (threads k) ob) as Hheld.
  { destruct (lc_lock _ Hk l ob Ho Hlk) as [(_ & E & _)|]; [congruence|done]. }
  destruct (wake_lock_core k l ob Hk) as (k1 & -> & Hk1 & He1 & Ho1 & Ht1); [eauto..|]. cbn [mbind option_bind].
  pose proof He1 as (_ & Ec & _).
  assert (threads k1 !! current_thread k1 = Some x) as Hx1 by (by rewrite Ec, Ht1, bool_decide_eq_false_2).
  destruct (give_back k1 l (with_waiters [] ob) x) as (k' & p & Hk' & Hcore & He' & Hc' & Ht'); auto.
  { rewrite Ho1. apply lookup_insert_eq. }
  { simpl. congruence. }
  destruct (DEL_SYNCHOBJ l (current_thread k1) k1) as [k2|]; [|done]. cbn [mbind option_bind] in *.
  destruct (upd_obj l (with_owner NULL) k2) as [k3|]; [|done]. cbn [mbind option_bind] in *. rewrite Hk'. cbn [mbind option_bind].
  exists k', p. split; [done|]. split; [done|]. split; [by etrans|]. split; [|split].
  - rewrite Ho1, insert_insert_eq in Hc'. exact Hc'.
  - rewrite Ht', Ec. apply lookup_insert_eq.
  - intros t Hne. rewrite Ht', Ec, lookup_insert_ne by done. apply Ht1.
Qed.

(** Threads changed, objects as they are. *)
Lemma lock_core_threads k k' :
  lock_core k -> wait_inv k' -> objs k' = objs k -> runs_on (threads k) (threads k') ->
  (forall t y, threads k' !! t = Some y -> exists x, threads k !! t = Some x /\ kt_synchobjlist y = kt_synchobjlist x) ->
  lock_core k'.
Proof.
  intros [Hw Hl Ho Hi] Hw' Eo Hr Hb. split; [done| | |by apply (runs_on_idle k)]; rewrite Eo.
  - intros o ob Hob Hlk. destruct (Hl o ob Hob Hlk) as [?|(? & t & ? & Hs)]; [by left|right].
    split; [done|]. exists t. split; [done|]. by eapply runs_on_is_Some.
  - intros t y Hy. destruct (Hb t y Hy) as (x & Hx & E). destruct (Ho t x Hx) as (os & ? & ? & ?). exists os. by rewrite E.
Qed.

Lemma drop_inherited_spec k x :
  lock_core k -> threads k !! current_thread k = Some x -> sc_state x <> THREAD_STATE_READY ->
  exists k' y, drop_inherited k = Some k' /\ lock_core k' /\ same_env k k' /\ objs k' = objs k /\
    threads k' = <[current_thread k := y]> (threads k) /\
    y = match kt_synchobjlist x with None => with_inhpri 0 x | Some _ => x end.
Proof.
  intros Hk Hx Hs. unfold drop_inherited. rewrite Hx. cbn [mbind option_bind].
  destruct (kt_synchobjlist x) eqn:E.
  - exists k, x. rewrite insert_id by done. done.
  - rewrite (upd_thr_Some _ _ _ x) by done. do 2 eexists; split; [reflexivity|]. split; [|done].
    apply (lock_core_thread k _ x); auto. apply with_inhpri_wf; [|done].
    by apply (rq_wf _ _ (wait_inv_rq _ (lc_wait _ Hk)) (current_thread k)).
Qed.

(** ** Sleeping on an object *)

Lemma sleep_core k o ob ob' x :
  lock_inv k -> ~ is_idle k (current_thread k) -> threads k !! current_thread k = Some x ->
  objs k !! o = Some ob -> sl_waiters ob' = sl_waiters ob ++ [current_thread k] ->
  sl_next ob' = sl_next ob -> sl_prev ob' = sl_prev ob -> sl_type ob' = sl_type ob -> o_owner ob' = o_owner ob ->
  (is_lock ob' -> held_lock (threads k) ob') ->
  lock_core (set_threads (<[current_thread k := asleep_on o x]> (threads k)) (set_objs (<[o := ob']> (objs k)) k)).
Proof.
  intros [[Hw Hl Ho Hi] (x' & Hx' & Hs & _)] Hid Hx Hob Hq Hnx Hpv Hty Hown Hheld.
  assert (x' = x) as -> by congruence. clear Hx'.
  assert (forall t, is_Some (threads k !! t) -> is_Some (<[current_thread k := asleep_on o x]> (threads k) !! t)) as Hsm.
  { intros t Ht. destruct (decide (t = current_thread k)) as [->|]; [rewrite lookup_insert_eq|rewrite lookup_insert_ne by done]; eauto. }
  split; simpl.
  - by apply (sleep_inv k o ob).
  - intros o' ob0 Ho' Hlk. assert (free_lock ob0 \/ held_lock (threads k) ob0) as [?|(? & t & ? & ?)].
    { destruct (decide (o' = o)) as [->|]; [rewrite lookup_insert_eq in Ho'; simplify_eq; auto|].
      rewrite lookup_insert_ne in Ho' by done. eauto. }
    + by left.
    + right. split; [done|]. eauto.
  - intros t y Hy.
    assert (exists z, threads k !! t = Some z /\ kt_synchobjlist y = kt_synchobjlist z) as (z & Hz & E).
    { destruct (decide (t = current_thread k)) as [->|]; [rewrite lookup_insert_eq in Hy; simplify_eq; eauto|].
      rewrite lookup_insert_ne in Hy by done. eauto. }
    destruct (owns_frame (objs k) (<[o := ob']> (objs k)) t z) as (os & H1 & H2 & H3); [by apply Ho|..].
    + intros o'. rewrite owned_insert. unfold is_lock. rewrite Hty, Hown. destruct (decide (o' = o)) as [->|]; [|naive_solver].
      unfold owned. rewrite Hob. split; [intros [(_ & ? & ?)|[? _]]; [by exists ob|done]|].
      intros (? & [= <-] & ? & ?). by left.
    + intros o' _. destruct (decide (o' = o)) as [->|]; [|by apply olk_ne]. rewrite olk_eq. unfold olk. rewrite Hob. simpl. congruence.
    + exists os. by rewrite E.
  - destruct Hi as (ti & (xi & Hxi & Hci) & (xr & Hxr & Hsr)). simplify_eq.
    assert (ti <> current_thread k) as Hne by (intros ->; apply Hid; by exists xi).
    exists ti. split; exists xi; simpl; rewrite lookup_insert_ne by done; done.
Qed.

(** The switch away from a sleeping thread. *)
Lemma schedule_away k x :
  lock_core k -> threads k !! current_thread k = Some x -> sc_state x <> THREAD_STATE_READY ->
  exists k', scheduler k = Some k' /\ lock_inv k' /\ sched_frame k k' /\
    (forall t, runnable k' t <-> runnable k t).
Proof.
  intros Hk Hx Hs. destruct (scheduler_wait k x (lc_wait _ Hk) Hx Hs (lc_idle _ Hk)) as (k' & -> & Hw' & Hd & Hf & Hr).
  exists k'. split; [done|]. split; [|done]. split; [|by apply dispatched_running].
  destruct Hf as (Hkept & Eo & _). apply (lock_core_threads k); auto.
  - by apply runs_on_kept.
  - intros t y Hy. destruct (kept_bwd _ _ _ _ Hkept Hy) as (z & Hz & (_ & _ & _ & Hl & _)). eauto.
Qed.

Lemma lend_core gl k cur :
  lock_core k -> threads k !! current_thread k = Some cur ->
  (exists g, objs k !! gl = Some g /\ sl_waiters g <> []) ->
  exists k', lend_priority gl k = Some k' /\ lock_core k' /\ same_rest k k' /\
    lent_all (eff cur) (threads k) (threads k') /\ owner_urgent (eff cur) k' gl.
Proof.
  intros Hk Hc Hg. destruct (lend_priority_ok gl k cur (lc_wait _ Hk) (lock_core_owners _ Hk) Hc Hg)
    as (k' & -> & Hw' & Hr & Hl & Hu).
  exists k'. split; [done|]. split; [|done]. pose proof Hr as (_ & Eo & _). apply (lock_core_threads k); auto.
  - intros t x Hx. specialize (Hl t). rewrite Hx in Hl. destruct (threads k' !! t) as [y|]; [|done].
    exists y. split; [done|]. destruct Hl as [->|[_ ->]]; auto.
  - intros t y Hy. specialize (Hl t). rewrite Hy in Hl. destruct (threads k !! t) as [x|]; [|done].
    exists x. split; [done|]. destruct Hl as [->|[_ ->]]; auto.
Qed.

(** The blocking branch shared by [_lock] and [rlock], after the queue has been
    extended: lend and schedule. *)
Lemma block_spec k l ob ob' x :
  lock_inv k -> ~ is_idle k (current_thread k) -> threads k !! current_thread k = Some x ->
  objs k !! l = Some ob -> is_lock ob -> held_lock (threads k) ob -> unlinked ob' = unlinked (with_waiters (sl_waiters ob ++ [current_thread k]) ob) ->
  sl_next ob' = sl_next ob -> sl_prev ob' = sl_prev ob ->
  exists k', (k1 ← lend_priority l (set_threads (<[current_thread k := asleep_on l x]> (threads k)) (set_objs (<[l := ob']> (objs k)) k));
              scheduler k1) = Some k' /\ lock_inv k' /\
    objs k' = <[l := ob']> (objs k) /\ owner_urgent (eff x) k' l /\
    (exists y, threads k' !! current_thread k = Some y /\ sc_state y = THREAD_STATE_SLEEP).
Proof.
  intros Hk Hid Hx Ho Hlk Hheld Hu Hnx Hpv. apply unlinked_fields in Hu as (U1 & U2 & U3 & U4 & U5). simpl in *.
  set (k1 := set_threads _ _).
  assert (lock_core k1) as Hk1.
  { apply (sleep_core k l ob); auto. intros _. destruct Hheld as (Hv & t & Ht & Hs). split; [congruence|]. exists t. split; [congruence|done]. }
  assert (threads k1 !! current_thread k1 = Some (asleep_on l x)) as Hx1 by (simpl; apply lookup_insert_eq).
  destruct (lend_core l k1 (asleep_on l x) Hk1 Hx1) as (k2 & -> & Hk2 & Hr2 & Hl2 & Hu2).
  { exists ob'. simpl. rewrite lookup_insert_eq. split; [done|]. rewrite U2. by destruct (sl_waiters ob). }
  change (eff (asleep_on l x)) with (eff x) in *. cbn [mbind option_bind].
  pose proof Hr2 as (_ & Eo2 & Ec2 & _). simpl in Eo2, Ec2.
  assert (threads k2 !! current_thread k2 = Some (asleep_on l x)) as Hx2.
  { specialize (Hl2 (current_thread k)). simpl in Hl2. rewrite lookup_insert_eq in Hl2. rewrite Ec2.
    destruct (threads k2 !! current_thread k) as [y|]; [|done]. simpl in Hl2.
    f_equal. apply (lent_not_low (eff x)); [done|]. apply low_eff. change (eff (asleep_on l x)) with (eff x). lia. }
  destruct (schedule_away k2 _ Hk2 Hx2) as (k' & -> & Hk' & (Hkept & Eo & _) & Hrun); [done|].
  exists k'. split; [done|]. split; [done|]. split; [congruence|]. split.
  - intros g t Hg Hlg Ht. rewrite Eo in Hg. destruct (Hu2 g t Hg Hlg Ht) as (y & Hy & Hle).
    destruct (kept_fwd _ _ _ _ Hkept Hy) as (z & Hz & (_ & E1 & E2 & _)). exists z. split; [done|].
    unfold eff in *. by rewrite E1, E2.
  - rewrite Ec2 in Hx2. destruct (kept_fwd _ _ _ _ Hkept Hx2) as (y & Hy & (_ & _ & _ & _ & _ & _ & Hst)).
    exists y. split; [done|]. destruct Hst as [->|Hst]; [done|].
    assert (runnable k2 (current_thread k)) as (z & Hz & Hsz) by (apply Hrun; by exists y).
    rewrite Hx2 in Hz. simplify_eq. by destruct Hsz.
Qed.

(** * The calls *)

Lemma test_and_set_spec o k ob :
  objs k !! o = Some ob -> o_val ob = 0 \/ o_val ob = 1 ->
  test_and_set o k = Some (o_val ob, set_objs (<[o := with_val 1 ob]> (objs k)) k).
Proof.
  intros Ho Hv. unfold test_and_set. rewrite Ho. cbn [mbind option_bind]. rewrite (upd_obj_Some o _ k ob) by done.
  cbn [mbind option_bind]. by destruct Hv as [->| ->].
Qed.

Ltac obj_step := rewrite (upd_obj_Some _ _ _ _ (lookup_insert_eq _ _ _)); cbn [mbind option_bind].

Lemma lock_state k l ob : lock_core k -> objs k !! l = Some ob -> is_lock ob -> o_val ob = 0 \/ o_val ob = 1.
Proof. intros Hk Ho Hlk. destruct (lc_lock _ Hk l ob Ho Hlk) as [(? & _)|(? & _)]; auto. Qed.

Lemma lock_free k l ob : lock_core k -> objs k !! l = Some ob -> is_lock ob -> o_val ob = 0 -> free_lock ob.
Proof. intros Hk Ho Hlk Hv. destruct (lc_lock _ Hk l ob Ho Hlk) as [?|(? & _)]; [done|lia]. Qed.
Lemma lock_held k l ob : lock_core k -> objs k !! l = Some ob -> is_lock ob -> o_val ob = 1 -> held_lock (threads k) ob.
Proof. intros Hk Ho Hlk Hv. destruct (lc_lock _ Hk l ob Ho Hlk) as [(? & _)|?]; [lia|done]. Qed.

Lemma take_lock_spec k l ob :
  lock_inv k -> objs k !! l = Some ob -> is_lock ob -> o_val ob = 0 ->
  exists k', take_lock l (set_objs (<[l := with_val 1 ob]> (objs k)) k) = Some k' /\ lock_inv k' /\ same_env k k' /\
    same_core (<[l := with_owner (Some (current_thread k)) (with_val 1 ob)]> (objs k)) (objs k') /\
    exists x, threads k !! current_thread k = Some x /\
      threads k' = <[current_thread k := with_synchobjlist (Some l) x]> (threads k).
Proof.
  intros [Hk (x & Hx & Hs & Hq)] Ho Hlk Hv. pose proof (lock_free _ _ _ Hk Ho Hlk Hv) as Hf. unfold take_lock.
  cbn [current_thread set_objs]. obj_step. cbn [current_thread set_objs objs]. rewrite insert_insert_eq.
  destruct (acquire_spec k l ob (with_owner (Some (current_thread k)) (with_val 1 ob)) x) as (k' & Hk' & Hc & He & Hsc & Ht);
    try done; [apply Hf|]. exists k'. split; [exact Hk'|]. split; [|split; [done|split; [done|by exists x]]].
  split; [done|]. destruct He as (_ & Ec & _). exists (with_synchobjlist (Some l) x). rewrite Ec, Ht. by rewrite lookup_insert_eq.
Qed.

Lemma lock_1_free k l ob :
  lock_inv k -> objs k !! l = Some ob -> sl_type ob = SYNCH_TYPE_LOCK -> o_val ob = 0 ->
  exists k', lock_1 l k = Some (Returned ELOCK_SUCCESS, k') /\ lock_inv k' /\
    owned (objs k') (current_thread k) l /\ current_thread k' = current_thread k /\
    forall t o, o <> l -> owned (objs k') t o <-> owned (objs k) t o.
Proof.
  intros Hk Ho Ht Hv. assert (is_lock ob) as Hlk by by left.
  unfold lock_1. rewrite (test_and_set_spec l k ob) by auto. cbn [mbind option_bind]. rewrite Hv. simpl (0 =? 1). cbv iota.
  destruct (take_lock_spec k l ob) as (k' & -> & Hk' & (_ & Ec & _) & Hsc & _); auto. cbn [mbind option_bind].
  exists k'. split; [done|]. split; [done|]. split; [|split; [done|]].
  - rewrite (same_core_owned _ _ _ _ Hsc), owned_insert. left. done.
  - intros t o Hne. rewrite (same_core_owned _ _ _ _ Hsc), owned_insert. naive_solver.
Qed.

(** Acquiring a free lock.  [_lock] on a lock nobody holds returns
    [ELOCK_SUCCESS] with the calling thread as the owner; the lock joins the
    list of objects of that thread and no other lock changes hands. *)
Theorem lock_acquires k l ob :
  lock_inv k -> objs k !! l = Some ob -> sl_type ob = SYNCH_TYPE_LOCK -> o_val ob = 0 ->
  exists k', lock_1 l k = Some (Returned ELOCK_SUCCESS, k') /\ lock_inv k' /\
    owned (objs k') (current_thread k) l /\ current_thread k' = current_thread k /\
    forall t o, o <> l -> owned (objs k') t o <-> owned (objs k) t o.
Proof. apply lock_1_free. Qed.

Lemma lock_1_blocks k l ob x :
  lock_inv k -> ~ is_idle k (current_thread k) -> objs k !! l = Some ob -> is_lock ob -> o_val ob = 1 ->
  threads k !! current_thread k = Some x ->
  exists k', lock_1 l k = Some (Blocked, k') /\ lock_inv k' /\
    objs k' = <[l := with_waiters (sl_waiters ob ++ [current_thread k]) ob]> (objs k) /\ owner_urgent (eff x) k' l /\
    (exists y, threads k' !! current_thread k = Some y /\ sc_state y = THREAD_STATE_SLEEP).
Proof.
  intros Hk Hid Ho Hlk Hv Hx. unfold lock_1. rewrite (test_and_set_spec l k ob) by auto. cbn [mbind option_bind].
  rewrite Hv. simpl (1 =? 1). cbv iota. unfold ADD_SLQ. obj_step.
  cbn [current_thread set_objs objs]. rewrite insert_insert_eq.
  rewrite (upd_thr_Some _ _ _ x) by done. cbn [mbind option_bind].
  cbn [current_thread set_objs set_threads].
  rewrite (upd_thr_Some _ _ _ (with_state THREAD_STATE_SLEEP x)) by (simpl; apply lookup_insert_eq). cbn [mbind option_bind].
  simpl (threads _). rewrite insert_insert_eq. simpl (sl_waiters (with_val 1 ob)).
  replace (with_val 1 ob) with ob by (destruct ob; simpl in *; by subst).
  destruct (block_spec k l ob (with_waiters (sl_waiters ob ++ [current_thread k]) ob) x) as (k' & Hk' & Hrest); auto.
  { by apply (lock_held k l); [apply Hk|..]. }
  set (k1 := set_threads _ _). change k1 with (set_threads (<[current_thread k := asleep_on l x]> (threads k))
    (set_objs (<[l := with_waiters (sl_waiters ob ++ [current_thread k]) ob]> (objs k)) k)).
  destruct (lend_priority _ _) as [k2|]; [|done]. cbn [mbind option_bind] in *. rewrite Hk'. exists k'. done.
Qed.

(** Waiting for a held lock.  [_lock] on a held lock puts the caller at the
    end of the lock's queue, asleep on it, and another thread runs; the holder
    is left in possession, with a priority at least that of the caller
    (priority inheritance), and every invariant of the kernel state still
    holds. *)
Theorem lock_blocks k l ob x :
  lock_inv k -> ~ is_idle k (current_thread k) -> objs k !! l = Some ob -> sl_type ob = SYNCH_TYPE_LOCK -> o_val ob = 1 ->
  threads k !! current_thread k = Some x ->
  exists k' ob', lock_1 l k = Some (Blocked, k') /\ lock_inv k' /\
    objs k' !! l = Some ob' /\ sl_waiters ob' = sl_waiters ob ++ [current_thread k] /\ o_owner ob' = o_owner ob /\
    current_thread k' <> current_thread k /\
    exists t y, o_owner ob = Some t /\ threads k' !! t = Some y /\ eff x <= eff y.
Proof.
  intros Hk Hid Ho Ht Hv Hx. assert (is_lock ob) as Hlk by by left.
  destruct (lock_1_blocks k l ob x Hk Hid Ho Hlk Hv Hx) as (k' & -> & Hk' & Eo & Hu & y & Hy & Hsy).
  eexists k', _. split; [done|]. split; [done|]. rewrite Eo, lookup_insert_eq. split; [done|]. split; [done|]. split; [done|].
  split.
  - intros E. destruct Hk' as [_ (z & Hz & Hsz & _)]. rewrite E in Hz. simplify_eq. by rewrite Hsy in Hsz.
  - destruct (lock_held k l ob) as (_ & t & Hown & _); auto; [apply Hk|]. exists t.
    destruct (Hu (with_waiters (sl_waiters ob ++ [current_thread k]) ob) t) as (z & Hz & Hle); auto.
    + by rewrite Eo, lookup_insert_eq.
    + eauto.
Qed.

(** ** Releasing *)

(** What releasing [l] does to the threads: the waiters become ready, the
    current thread's list shrinks and its inherited priority may be dropped. *)
Definition freed (k k' : kstate) (l : loc) (ob : synchobj) : Prop :=
  same_env k k' /\ same_core (<[l := released ob]> (objs k)) (objs k') /\
  (exists x y, threads k !! current_thread k = Some x /\ threads k' !! current_thread k = Some y /\
     sc_state y = sc_state x /\ sc_tqleft y = sc_tqleft x /\
     (kt_synchobjlist y = NULL -> sc_inhpri y = 0)) /\
  forall t, t <> current_thread k ->
    threads k' !! t = if bool_decide (t ∈ sl_waiters ob) then readied <$> threads k !! t else threads k !! t.

Lemma sys_unlock_spec k l ob :
  lock_inv k -> objs k !! l = Some ob -> is_lock ob -> o_owner ob = Some (current_thread k) ->
  (sl_type ob = SYNCH_TYPE_RLOCK -> o_level ob = 0) ->
  exists k', sys_unlock l k = Some (zlen (sl_waiters ob), k') /\ lock_inv k' /\ freed k k' l ob.
Proof.
  intros [Hk Hrun] Ho Hlk Hown Hlv. pose proof Hrun as (x & Hx & Hs & Hq). unfold sys_unlock.
  pose proof (current_not_waiting k l ob (lc_wait _ Hk) Hrun Ho) as Hnw.
  destruct (let_go_spec k l ob x) as (k1 & p & -> & Hk1 & He1 & Hc1 & Hx1 & Ht1); auto. cbn [mbind option_bind].
  pose proof He1 as (_ & Ec & _).
  destruct (drop_inherited_spec k1 (with_synchobjlist p x)) as (k' & y & -> & Hk' & He' & Ho' & Ht' & Hy); auto.
  { by rewrite Ec. } { simpl. by rewrite Hs. }
  cbn [mbind option_bind]. exists k'. rewrite Ec in Ht'. simpl in Hy.
  assert (threads k' !! current_thread k = Some y) as Hyk by (rewrite Ht'; apply lookup_insert_eq).
  assert (sc_state y = sc_state x /\ sc_tqleft y = sc_tqleft x /\ (kt_synchobjlist y = NULL -> sc_inhpri y = 0)) as (Y1 & Y2 & Y3)
    by (destruct p; subst y; simpl; auto; done).
  split; [done|]. split; [split; [done|]|].
  - destruct He' as (_ & Ec' & _). exists y. rewrite Ec', Ec. split; [done|]. rewrite Y1, Y2. done.
  - split; [by etrans|]. split; [by rewrite Ho'|]. split; [by exists x, y|].
    intros t Hne. rewrite Ht', lookup_insert_ne by done. by apply Ht1.
Qed.

Lemma unlock_sys_unlock k l ob n k' :
  objs k !! l = Some ob -> o_owner ob = Some (current_thread k) -> sys_unlock l k = Some (n, k') ->
  unlock l k = Some (ELOCK_SUCCESS, k').
Proof.
  intros Ho Hown. unfold unlock, sys_unlock. rewrite Ho. cbn [mbind option_bind]. rewrite bool_decide_eq_true_2 by done.
  destruct (let_go l k) as [[m k1]|]; [|done]. cbn [mbind option_bind]. destruct (drop_inherited k1) as [k2|]; [|done].
  cbn [mbind option_bind]. congruence.
Qed.

(** Unlocking.  The owner's [unlock] succeeds, the lock becomes free, every
    thread that waited for it is ready to retry (no wakeup is lost), a thread
    left without any lock loses its inherited priority, and every invariant is
    kept. *)
Theorem unlock_frees k l ob :
  lock_inv k -> objs k !! l = Some ob -> sl_type ob = SYNCH_TYPE_LOCK -> o_owner ob = Some (current_thread k) ->
  exists k' ob', unlock l k = Some (ELOCK_SUCCESS, k') /\ lock_inv k' /\
    objs k' !! l = Some ob' /\ free_lock ob' /\
    (forall t, t ∈ sl_waiters ob -> exists y, threads k' !! t = Some y /\ sc_state y = THREAD_STATE_READY) /\
    (exists y, threads k' !! current_thread k = Some y /\ (kt_synchobjlist y = NULL -> sc_inhpri y = 0)).
Proof.
  intros Hk Ho Ht Hown. assert (is_lock ob) as Hlk by by left.
  destruct (sys_unlock_spec k l ob) as (k' & Hu & Hk' & He & Hc & (x & y & Hx & Hy & _ & _ & Hi) & Hts); auto.
  { by rewrite Ht. }
  rewrite (unlock_sys_unlock _ _ _ _ _ Ho Hown Hu).
  pose proof (Hc l) as Hcl. rewrite lookup_insert_eq in Hcl. destruct (objs k' !! l) as [ob'|] eqn:Ho'; [|done].
  apply (inj Some) in Hcl. exists k', ob'. split; [done|]. split; [done|]. split; [done|]. split; [|split; [|eauto]].
  - eapply free_unlinked; [done|]. split_and!; auto. simpl. by rewrite Ht.
  - intros t Hin. assert (t <> current_thread k) as Hne.
    { intros ->. destruct Hk as [Hk Hrun]. by apply (current_not_waiting k l ob (lc_wait _ Hk) Hrun Ho). }
    rewrite Hts, bool_decide_eq_true_2 by done.
    destruct (wi_sound _ (lc_wait _ (li_core _ Hk)) l ob t Ho Hin) as (z & -> & _). simpl. eauto.
Qed.

(** A call by a thread that does not own the lock changes no lock. *)
Lemma drop_only k :
  lock_inv k -> exists k', drop_inherited k = Some k' /\ lock_inv k' /\ objs k' = objs k /\ same_env k k' /\
    (forall t, t <> current_thread k -> threads k' !! t = threads k !! t).
Proof.
  intros [Hk (x & Hx & Hs & Hq)].
  destruct (drop_inherited_spec k x Hk Hx) as (k' & y & -> & Hk' & He & Ho & Ht & Hy); [by rewrite Hs|].
  exists k'. split; [done|]. split; [|split; [done|split; [done|]]].
  - split; [done|]. exists y. pose proof He as (_ & Ec & _). rewrite Ec, Ht, lookup_insert_eq. split; [done|].
    subst y. case_match; simpl; auto.
  - intros t Hne. by rewrite Ht, lookup_insert_ne.
Qed.

(** ** Recursive locks *)

(** A change to the level of a lock one owns. *)
Lemma relevel_core k l ob v :
  lock_inv k -> objs k !! l = Some ob -> is_lock ob -> o_val ob = 1 ->
  lock_inv (set_objs (<[l := with_level v ob]> (objs k)) k).
Proof.
  intros [Hk Hrun] Ho Hlk Hv. pose proof (lock_held k l ob Hk Ho Hlk Hv) as Hh. split; [|exact Hrun].
  apply (lock_core_obj k _ l (with_level v ob)); auto; simpl; try done.
  - apply (wait_inv_kept k); try apply Hk; simpl; auto.
    + by apply (sched_inv_ext k); [..|apply Hk].
    + intros o. destruct (decide (o = l)) as [->|]; [|by rewrite lookup_insert_ne]. by rewrite lookup_insert_eq, Ho.
    + eauto.
  - intros t x Hx. eauto.
  - intros t x Hx. apply (owns_frame (objs k)); [by apply Hk|..].
    + intros o. rewrite owned_insert. unfold is_lock. simpl. destruct (decide (o = l)) as [->|]; [|naive_solver].
      unfold owned. rewrite Ho. split; [intros [(_ & ? & ?)|[? _]]; [by exists ob|done]|].
      intros (? & [= <-] & ? & ?). by left.
    + intros o _. destruct (decide (o = l)) as [->|]; [|by apply olk_ne]. rewrite olk_eq. unfold olk. by rewrite Ho.
Qed.

(** [rlock] by a thread that can go on: the lock is free or already its own. *)
Lemma rlock_enters k l ob :
  lock_inv k -> objs k !! l = Some ob -> sl_type ob = SYNCH_TYPE_RLOCK ->
  o_val ob = 0 \/ o_owner ob = Some (current_thread k) ->
  exists k' ob', rlock_1 l k = Some (Returned ELOCK_SUCCESS, k') /\ lock_inv k' /\ current_thread k' = current_thread k /\
    objs k' !! l = Some ob' /\ sl_type ob' = SYNCH_TYPE_RLOCK /\ o_owner ob' = Some (current_thread k) /\
    o_level ob' = u16 (o_level ob + 1) /\
    same_core (<[l := with_val 1 (with_owner (Some (current_thread k)) (with_level (u16 (o_level ob + 1)) ob))]> (objs k)) (objs k').
Proof.
  intros Hk Ho Ht Hor. assert (is_lock ob) as Hlk by by right. pose proof Hk as [Hcore (x & Hx & Hs & Hq)].
  pose proof (lock_state _ _ _ Hcore Ho Hlk) as Hv01. unfold rlock_1. rewrite (test_and_set_spec l k ob) by auto.
  cbn [mbind option_bind]. simpl (objs _). rewrite lookup_insert_eq. cbn [mbind option_bind].
  destruct Hv01 as [Hv|Hv]; rewrite Hv; simpl (_ =? _); cbv iota.
  - obj_step. cbn [current_thread set_objs objs]. rewrite insert_insert_eq. obj_step. cbn [set_objs current_thread objs].
    rewrite insert_insert_eq. set (ob1 := with_level _ _).
    destruct (acquire_spec k l ob ob1 x) as (k' & Hk' & Hc & He & Hsc & Ht'); try done.
    { by apply (lock_free k l). } { by destruct (lock_free k l ob Hcore Ho Hlk Hv) as (_ & _ & ? & _). }
    change (set_objs _ _) with (set_objs (<[l := ob1]> (objs k)) k).
    destruct (ADD_SYNCHOBJ _ _ _) as [k1|]; [|done]. cbn [mbind option_bind] in *. rewrite Hk'. cbn [mbind option_bind].
    pose proof (Hsc l) as Hl. rewrite lookup_insert_eq in Hl. destruct (objs k' !! l) as [ob'|] eqn:Ho'; [|done].
    apply (inj Some) in Hl. apply unlinked_fields in Hl as (U1 & U2 & U3 & U4 & U5). destruct He as (_ & Ec & _).
    exists k', ob'. split; [done|]. split; [split; [done|]|].
    + exists (with_synchobjlist (Some l) x). rewrite Ec, Ht'. by rewrite lookup_insert_eq.
    + split; [done|]. split; [done|]. split; [by rewrite U1|]. split; [by rewrite U3|]. split; [by rewrite U5|].
      exact Hsc.
  - destruct Hor as [?|Hown]; [lia|]. simpl (o_owner _). cbn [current_thread set_objs].
    rewrite bool_decide_eq_true_2 by done. obj_step. cbn [current_thread set_objs objs]. rewrite insert_insert_eq.
    replace (with_val 1 ob) with ob by (destruct ob; simpl in *; by subst).
    do 2 eexists. split; [done|]. split; [by apply (relevel_core k l ob)|]. split; [done|]. simpl. rewrite lookup_insert_eq.
    split; [done|]. split; [done|]. split; [done|]. split; [done|].
    intros o. destruct (decide (o = l)) as [->|]; [|by rewrite !lookup_insert_ne]. rewrite !lookup_insert_eq.
    simpl. f_equal. destruct ob; simpl in *; by subst.
Qed.

Lemma rlock_1_blocks k l ob x :
  lock_inv k -> ~ is_idle k (current_thread k) -> objs k !! l = Some ob -> is_lock ob -> o_val ob = 1 ->
  o_owner ob <> Some (current_thread k) -> threads k !! current_thread k = Some x ->
  exists k', rlock_1 l k = Some (Blocked, k') /\ lock_inv k' /\
    objs k' = <[l := with_waiters (sl_waiters ob ++ [current_thread k]) ob]> (objs k).
Proof.
  intros Hk Hid Ho Hlk Hv Hno Hx. unfold rlock_1. rewrite (test_and_set_spec l k ob) by auto. cbn [mbind option_bind].
  simpl (objs (set_objs _ _)). rewrite lookup_insert_eq. cbn [mbind option_bind].
  rewrite Hv. simpl (1 =? 1). cbv iota. simpl (o_owner _). cbn [current_thread set_objs]. rewrite bool_decide_eq_false_2 by done.
  unfold ADD_SLQ. obj_step. cbn [current_thread set_objs objs]. rewrite insert_insert_eq.
  rewrite (upd_thr_Some _ _ _ x) by done. cbn [mbind option_bind]. cbn [current_thread set_objs set_threads].
  rewrite (upd_thr_Some _ _ _ (with_slpchannel (Some l) x)) by (simpl; apply lookup_insert_eq). cbn [mbind option_bind].
  simpl (threads _). rewrite insert_insert_eq. simpl (sl_waiters (with_val 1 ob)).
  replace (with_val 1 ob) with ob by (destruct ob; simpl in *; by subst).
  destruct (block_spec k l ob (with_waiters (sl_waiters ob ++ [current_thread k]) ob) x) as (k' & Hk' & Hinv & Eo & _); auto.
  { by apply (lock_held k l); [apply Hk|..]. }
  set (k1 := set_threads _ _). change k1 with (set_threads (<[current_thread k := asleep_on l x]> (threads k))
    (set_objs (<[l := with_waiters (sl_waiters ob ++ [current_thread k]) ob]> (objs k)) k)).
  destruct (lend_priority _ _) as [k2|]; [|done]. cbn [mbind option_bind] in *. rewrite Hk'. by exists k'.
Qed.

(** [runlock] by the owner: one level less, the lock given up at level 0. *)
Lemma runlock_spec k l ob :
  lock_inv k -> objs k !! l = Some ob -> sl_type ob = SYNCH_TYPE_RLOCK -> o_owner ob = Some (current_thread k) ->
  exists k' ob', runlock l k = Some (ELOCK_SUCCESS, k') /\ lock_inv k' /\ current_thread k' = current_thread k /\
    objs k' !! l = Some ob' /\ sl_type ob' = SYNCH_TYPE_RLOCK /\ o_level ob' = u16 (o_level ob - 1) /\
    (if o_level ob' =? 0 then free_lock ob' else o_owner ob' = Some (current_thread k)) /\
    exists ob1, sl_type ob1 = SYNCH_TYPE_RLOCK /\ same_core (<[l := ob1]> (objs k)) (objs k').
Proof.
  intros Hk Ho Ht Hown. assert (is_lock ob) as Hlk by by right.
  assert (o_val ob = 1) as Hv.
  { destruct (lc_lock _ (li_core _ Hk) l ob Ho Hlk) as [(_ & ? & _)|(? & _)]; [congruence|done]. }
  unfold runlock. rewrite Ho. cbn [mbind option_bind]. rewrite bool_decide_eq_true_2 by done.
  rewrite (upd_obj_Some l _ k ob) by done. cbn [mbind option_bind]. set (ob1 := with_level _ ob). set (k1 := set_objs _ k).
  assert (lock_inv k1) as Hk1 by by apply relevel_core.
  assert (objs k1 !! l = Some ob1) as Ho1 by apply lookup_insert_eq. rewrite Ho1. cbn [mbind option_bind].
  pose proof (u16_range (o_level ob - 1)) as Hr. change (o_level ob1) with (u16 (o_level ob - 1)).
  destruct (Z.leb_spec (u16 (o_level ob - 1)) 0) as [Hle|Hgt].
  - assert (u16 (o_level ob - 1) = 0) as E0 by lia.
    destruct (sys_unlock_spec k1 l ob1) as (k' & Hu & Hk' & (_ & Ec & _) & Hc & _); auto.
    unfold sys_unlock in Hu. destruct (let_go l k1) as [[n k2]|]; [|done]. cbn [mbind option_bind] in *.
    destruct (drop_inherited k2) as [k3|]; [|done]. cbn [mbind option_bind] in *. injection Hu as _ ->.
    pose proof (Hc l) as Hcl. rewrite lookup_insert_eq in Hcl. destruct (objs k' !! l) as [ob'|] eqn:Ho'; [|done].
    apply (inj Some) in Hcl. pose proof (unlinked_fields _ _ Hcl) as (U1 & U2 & U3 & U4 & U5).
    exists k', ob'. split; [done|]. split; [done|]. split; [done|]. split; [done|]. split; [by rewrite U1|].
    split; [by rewrite U5|]. split.
    + rewrite U5. simpl (o_level _). rewrite E0. simpl. eapply free_unlinked; [done|]. by split_and!.
    + exists (released ob1). split; [done|]. cbn [k1 objs set_objs] in Hc. by rewrite insert_insert_eq in Hc.
  - cbn [mbind option_bind]. destruct (drop_only k1 Hk1) as (k' & -> & Hk' & Eo & (_ & Ec & _) & _). cbn [mbind option_bind].
    exists k', ob1. rewrite Eo. split; [done|]. split; [done|]. split; [done|]. split; [done|]. split; [done|]. split; [done|].
    split.
    + destruct (Z.eqb_spec (o_level ob1) 0); [simpl in *; lia|done].
    + exists ob1. done.
Qed.

(** [n] calls of [rlock] that return, [n] calls of [runlock]. *)
Fixpoint rlocks (n : nat) (l : loc) (k : kstate) : option kstate :=
  match n with
  | O => Some k
  | S n => '(r, k) ← rlock_1 l k; match r with Returned _ => rlocks n l k | Blocked => None end
  end.
Fixpoint runlocks (n : nat) (l : loc) (k : kstate) : option kstate :=
  match n with
  | O => Some k
  | S n => '(r, k) ← runlock l k; if r =? ELOCK_SUCCESS then runlocks n l k else None
  end.

Lemma rlocks_spec n k l ob :
  lock_inv k -> objs k !! l = Some ob -> sl_type ob = SYNCH_TYPE_RLOCK ->
  o_val ob = 0 \/ o_owner ob = Some (current_thread k) -> (n <> 0)%nat ->
  0 <= o_level ob -> o_level ob + Z.of_nat n < 2 ^ 16 ->
  exists k' ob', rlocks n l k = Some k' /\ lock_inv k' /\ current_thread k' = current_thread k /\
    objs k' !! l = Some ob' /\ sl_type ob' = SYNCH_TYPE_RLOCK /\ o_owner ob' = Some (current_thread k) /\
    o_level ob' = o_level ob + Z.of_nat n.
Proof.
  revert k ob. induction n as [|n IH]; intros k ob Hk Ho Ht Hor Hn H0 Hb; [done|]. simpl.
  destruct (rlock_enters k l ob Hk Ho Ht Hor) as (k1 & ob1 & -> & Hk1 & Ec1 & Ho1 & Ht1 & Hown1 & Hl1 & _).
  cbn [mbind option_bind]. rewrite u16_id in Hl1 by lia. destruct (decide (n = 0%nat)) as [->|Hn'].
  - exists k1, ob1. by split_and!.
  - destruct (IH k1 ob1) as (k' & ob' & Hr & Hk' & Ec & Ho' & Ht' & Hown & Hl); auto; [right; congruence|lia|lia|].
    exists k', ob'. split_and!; auto; try congruence. lia.
Qed.

Lemma runlocks_spec n k l ob :
  lock_inv k -> objs k !! l = Some ob -> sl_type ob = SYNCH_TYPE_RLOCK -> o_owner ob = Some (current_thread k) ->
  1 <= o_level ob < 2 ^ 16 -> Z.of_nat n <= o_level ob ->
  exists k' ob', runlocks n l k = Some k' /\ lock_inv k' /\ current_thread k' = current_thread k /\
    objs k' !! l = Some ob' /\ sl_type ob' = SYNCH_TYPE_RLOCK /\
    (if Z.of_nat n =? o_level ob then free_lock ob'
     else o_owner ob' = Some (current_thread k) /\ o_level ob' = o_level ob - Z.of_nat n).
Proof.
  revert k ob. induction n as [|n IH]; intros k ob Hk Ho Ht Hown Hl Hn.
  - exists k, ob. split_and!; auto. destruct (Z.eqb_spec (Z.of_nat 0) (o_level ob)); [lia|]. split; [done|lia].
  - simpl runlocks. destruct (runlock_spec k l ob Hk Ho Ht Hown) as (k1 & ob1 & -> & Hk1 & Ec1 & Ho1 & Ht1 & Hl1 & Hif & _).
    cbn [mbind option_bind]. change (ELOCK_SUCCESS =? ELOCK_SUCCESS) with true. cbv iota.
    rewrite u16_id in Hl1 by lia. rewrite Hl1 in Hif.
    destruct (Z.eqb_spec (o_level ob - 1) 0) as [E|E].
    + assert (n = 0%nat) as -> by lia. exists k1, ob1. split_and!; auto. assert (o_level ob = 1) as -> by lia. done.
    + destruct (IH k1 ob1) as (k' & ob' & Hr & Hk' & Ec & Ho' & Ht' & Hf); auto; [congruence|lia|lia|].
      assert ((Z.of_nat (S n) =? o_level ob) = (Z.of_nat n =? o_level ob - 1)) as ->
        by (apply eq_true_iff_eq; rewrite !Z.eqb_eq; lia).
      exists k', ob'. split_and!; auto; [congruence|]. rewrite Hl1, Ec1 in Hf.
      case_match; [done|]. destruct Hf. split; [done|lia].
Qed.

(** Recursive locks nest.  On a free recursive lock, [n] calls of [rlock]
    (up to the 65535 the 16-bit level can count) all succeed, and it takes
    exactly [n] calls of [runlock] to free the lock: after fewer it still
    belongs to the caller. *)
Theorem rlock_nests k l ob (n m : nat) :
  lock_inv k -> objs k !! l = Some ob -> sl_type ob = SYNCH_TYPE_RLOCK -> o_val ob = 0 ->
  (1 <= m <= n)%nat -> Z.of_nat n < 2 ^ 16 ->
  exists k1 k2 ob2, rlocks n l k = Some k1 /\ runlocks m l k1 = Some k2 /\ lock_inv k2 /\
    objs k2 !! l = Some ob2 /\
    (if bool_decide (m = n) then free_lock ob2 else o_owner ob2 = Some (current_thread k)).
Proof.
  intros Hk Ho Ht Hv Hm Hn. assert (is_lock ob) as Hlk by by right.
  destruct (lock_free k l ob (li_core _ Hk) Ho Hlk Hv) as (_ & _ & _ & Hl0). specialize (Hl0 Ht).
  destruct (rlocks_spec n k l ob) as (k1 & ob1 & -> & Hk1 & Ec1 & Ho1 & Ht1 & Hown1 & Hl1); auto; [lia|lia|lia|].
  destruct (runlocks_spec m k1 l ob1) as (k2 & ob2 & Hr & Hk2 & Ec2 & Ho2 & Ht2 & Hif); auto; [congruence|lia|lia|].
  exists k1, k2, ob2. split_and!; auto. rewrite Hl1, Hl0 in Hif.
  destruct (Z.eqb_spec (Z.of_nat m) (0 + Z.of_nat n)).
  - rewrite bool_decide_eq_true_2 by lia. done.
  - rewrite bool_decide_eq_false_2 by lia. rewrite <- Ec1. apply Hif.
Qed.

(** ** Events *)

Lemma event_not_lock ob : sl_type ob = SYNCH_TYPE_EVENT -> ~ is_lock ob.
Proof. intros E [H|H]; rewrite E in H; done. Qed.

(** Changes to an object that is no lock, its links kept. *)
Lemma lock_core_event k k' e ob ob' :
  lock_core k -> objs k !! e = Some ob -> sl_type ob = SYNCH_TYPE_EVENT -> wait_inv k' ->
  runs_on (threads k) (threads k') -> objs k' = <[e := ob']> (objs k) ->
  sl_type ob' = sl_type ob -> sl_next ob' = sl_next ob -> sl_prev ob' = sl_prev ob ->
  (forall t y, threads k' !! t = Some y -> exists x, threads k !! t = Some x /\ kt_synchobjlist y = kt_synchobjlist x) ->
  lock_core k'.
Proof.
  intros Hk Ho Ht Hw' Hr Eo Et En Ep Hb. pose proof (event_not_lock ob Ht) as Hnl.
  assert (~ is_lock ob') as Hnl' by (unfold is_lock in *; by rewrite Et).
  apply (lock_core_obj k k' e ob'); auto; [by rewrite Eo|done|].
  intros t y Hy. destruct (Hb t y Hy) as (x & Hx & E).
  destruct (owns_frame (objs k) (objs k') t x) as (os & ? & ? & ?); [by apply Hk|..].
  - intros o. rewrite Eo, owned_insert. destruct (decide (o = e)) as [->|]; [|naive_solver].
    split; [naive_solver|]. intros (ob0 & Ho0 & Hl0 & _). rewrite Ho in Ho0. injection Ho0 as <-. done.
  - intros o _. rewrite Eo. destruct (decide (o = e)) as [->|]; [|by apply olk_ne]. rewrite olk_eq. unfold olk.
    rewrite Ho. simpl. congruence.
  - exists os. by rewrite E.
Qed.

Lemma readied_in_lists q m m' :
  readied_in q m m' -> forall t y, m' !! t = Some y -> exists x, m !! t = Some x /\ kt_synchobjlist y = kt_synchobjlist x.
Proof.
  intros H t y Hy. rewrite H in Hy. case_bool_decide; [|eauto]. apply fmap_Some in Hy as (x & Hx & ->). eauto.
Qed.

(** A change of the value of an event. *)
Lemma event_reval k e ob v :
  lock_core k -> objs k !! e = Some ob -> sl_type ob = SYNCH_TYPE_EVENT ->
  lock_core (set_objs (<[e := with_val v ob]> (objs k)) k).
Proof.
  intros Hk Ho Ht. apply (lock_core_event k _ e ob (with_val v ob)); auto; simpl.
  - apply (wait_inv_kept k); try apply Hk; simpl; eauto.
    + by apply (sched_inv_ext k); [..|apply Hk].
    + intros o. destruct (decide (o = e)) as [->|]; [|by rewrite lookup_insert_ne]. by rewrite lookup_insert_eq, Ho.
  - intros t x Hx. eauto.
  - eauto.
Qed.

Lemma event_wakeup_ok k e ob :
  lock_inv k -> objs k !! e = Some ob -> sl_type ob = SYNCH_TYPE_EVENT ->
  exists k' ob', event_wakeup e k = Some (zlen (sl_waiters ob), k') /\ lock_inv k' /\ same_env k k' /\
    objs k' = <[e := ob']> (objs k) /\ sl_waiters ob' = [] /\ o_val ob' = 0 /\ sl_type ob' = sl_type ob /\
    forall t, threads k' !! t = if bool_decide (t ∈ sl_waiters ob) then readied <$> threads k !! t else threads k !! t.
Proof.
  intros [Hk Hrun] Ho Ht. pose proof (current_not_waiting k e ob (lc_wait _ Hk) Hrun Ho) as Hnw.
  destruct Hrun as (x & Hx & Hs). unfold event_wakeup, sys_event_wakeup.
  destruct (wake_waiters_spec e k ob (lc_wait _ Hk)) as (k1 & -> & Hw1 & He1 & Ho1 & Ht1); [eauto|done|]. cbn [mbind option_bind].
  assert (lock_core k1) as Hk1.
  { apply (lock_core_event k k1 e ob (with_waiters [] ob)); auto; [by eapply runs_on_readied|exact (readied_in_lists _ _ _ Ht1)]. }
  assert (objs k1 !! e = Some (with_waiters [] ob)) as Hoe by (rewrite Ho1; apply lookup_insert_eq).
  rewrite (upd_obj_Some e _ k1 _ Hoe). cbn [mbind option_bind]. do 2 eexists; split; [reflexivity|].
  pose proof He1 as (_ & Ec & _). split.
  - split; [by apply event_reval|]. exists x. simpl. rewrite Ec, Ht1, bool_decide_eq_false_2 by done. done.
  - split; [done|]. simpl. rewrite Ho1, insert_insert_eq. by split_and!.
Qed.

(** Signalling an event.  [event_wakeup] makes every thread that sleeps on
    the event ready and returns how many there were; the queue is empty and the
    count of sleepers is zero afterwards, and nothing else in the state is
    disturbed. *)
Theorem event_wakeup_all k e ob :
  lock_inv k -> objs k !! e = Some ob -> sl_type ob = SYNCH_TYPE_EVENT ->
  exists k' ob', event_wakeup e k = Some (zlen (sl_waiters ob), k') /\ lock_inv k' /\ same_env k k' /\
    objs k' = <[e := ob']> (objs k) /\ sl_waiters ob' = [] /\ o_val ob' = 0 /\
    forall t, threads k' !! t = if bool_decide (t ∈ sl_waiters ob) then readied <$> threads k !! t else threads k !! t.
Proof.
  intros Hk Ho Ht. destruct (event_wakeup_ok k e ob Hk Ho Ht) as (k' & ob' & ? & ? & ? & ? & ? & ? & _ & ?).
  exists k', ob'. done.
Qed.

Lemma event_enqueue_spec k e ob x :
  lock_inv k -> ~ is_idle k (current_thread k) -> objs k !! e = Some ob -> sl_type ob = SYNCH_TYPE_EVENT ->
  threads k !! current_thread k = Some x ->
  exists k' ob', event_enqueue e k = Some k' /\ lock_core k' /\ same_env k k' /\
    objs k' = <[e := ob']> (objs k) /\ sl_waiters ob' = sl_waiters ob ++ [current_thread k] /\
    threads k' = <[current_thread k := asleep_on e x]> (threads k).
Proof.
  intros Hk Hid Ho Ht Hx. unfold event_enqueue, ADD_SLQ. rewrite (upd_obj_Some e _ k ob) by done. cbn [mbind option_bind].
  obj_step. cbn [current_thread set_objs objs]. rewrite insert_insert_eq.
  rewrite (upd_thr_Some _ _ _ x) by done. cbn [mbind option_bind]. cbn [current_thread set_objs set_threads].
  rewrite (upd_thr_Some _ _ _ (with_state THREAD_STATE_SLEEP x)) by (simpl; apply lookup_insert_eq).
  simpl (threads _). rewrite insert_insert_eq. set (ob' := with_val _ _).
  do 2 eexists; split; [reflexivity|]. split.
  - apply (sleep_core k e ob ob' x); auto. intros Hl. by apply (event_not_lock ob') in Hl.
  - by split_and!.
Qed.

(** Giving up a lock and going to sleep, without a switch in between. *)
Lemma let_go_running k l ob :
  lock_inv k -> objs k !! l = Some ob -> sl_type ob = SYNCH_TYPE_LOCK -> o_owner ob = Some (current_thread k) ->
  exists k', let_go l k = Some (zlen (sl_waiters ob), k') /\ lock_inv k' /\ same_env k k' /\
    same_core (<[l := released ob]> (objs k)) (objs k') /\
    (forall t, is_idle k' t <-> is_idle k t) /\
    forall t, t ∈ sl_waiters ob -> exists y, threads k' !! t = Some y /\ sc_state y = THREAD_STATE_READY.
Proof.
  intros [Hk Hrun] Ho Ht Hown. assert (is_lock ob) as Hlk by by left.
  pose proof (current_not_waiting k l ob (lc_wait _ Hk) Hrun Ho) as Hnw. destruct Hrun as (x & Hx & Hs & Hq).
  destruct (let_go_spec k l ob x) as (k' & p & -> & Hk' & He & Hc & Hx' & Ht'); auto; [by rewrite Ht|].
  pose proof He as (_ & Ec & _). exists k'. split; [done|]. split; [|split; [done|split; [done|split]]].
  - split; [done|]. exists (with_synchobjlist p x). by rewrite Ec.
  - intros t. unfold is_idle. destruct (decide (t = current_thread k)) as [->|Hne].
    + rewrite Hx, Hx'. split; intros (z & [= <-] & Hz); eauto.
    + rewrite Ht' by done. case_bool_decide; [|done]. destruct (threads k !! t) as [z|]; simpl; [|done].
      split; intros (w & [= <-] & Hw); eauto.
  - intros t Hin. assert (t <> current_thread k) by congruence. rewrite Ht', bool_decide_eq_true_2 by done.
    destruct (wi_sound _ (lc_wait _ Hk) l ob t Ho Hin) as (z & -> & _). simpl. eauto.
Qed.

Lemma same_core_event m m' l ob1 e ob :
  same_core (<[l := ob1]> m) m' -> e <> l -> m !! e = Some ob ->
  exists ob', m' !! e = Some ob' /\ unlinked ob' = unlinked ob.
Proof.
  intros Hc Hne He. specialize (Hc e). rewrite lookup_insert_ne, He in Hc by done.
  destruct (m' !! e) as [ob'|]; [|done]. apply (inj Some) in Hc. eauto.
Qed.

Lemma event_enqueue_type e k k' ob ob' :
  event_enqueue e k = Some k' -> objs k !! e = Some ob -> objs k' = <[e := ob']> (objs k) -> sl_type ob' = sl_type ob.
Proof.
  unfold event_enqueue, ADD_SLQ. intros H Ho Eo. rewrite (upd_obj_Some e _ k ob) in H by done. cbn [mbind option_bind] in H.
  rewrite (upd_obj_Some _ _ _ _ (lookup_insert_eq _ _ _)) in H. cbn [mbind option_bind] in H.
  step H as k2 from E2. apply upd_thr_inv in E2 as (x & _ & ->). apply upd_thr_inv in H as (y & _ & ->).
  simpl in Eo. apply (f_equal (fun m => m !! e)) in Eo. rewrite !lookup_insert_eq in Eo. by injection Eo as <-.
Qed.

Lemma event_sleep_ok k e ob l obl :
  lock_inv k -> ~ is_idle k (current_thread k) -> objs k !! e = Some ob -> sl_type ob = SYNCH_TYPE_EVENT ->
  objs k !! l = Some obl -> sl_type obl = SYNCH_TYPE_LOCK -> o_owner obl = Some (current_thread k) ->
  exists k' m1 ob' obl', event_sleep_1 e (Some l) k = Some (Blocked, k') /\ lock_inv k' /\
    same_core (<[l := released obl]> (objs k)) m1 /\ objs k' = <[e := ob']> m1 /\ sl_type ob' = SYNCH_TYPE_EVENT /\
    sl_waiters ob' = sl_waiters ob ++ [current_thread k] /\
    objs k' !! l = Some obl' /\ free_lock obl' /\
    (forall t, t ∈ sl_waiters obl -> runnable k' t).
Proof.
  intros Hk Hid Ho Ht Hol Htl Hown. unfold event_sleep_1. rewrite Hol. cbn [mbind option_bind].
  rewrite bool_decide_eq_true_2 by done. cbn [mbind option_bind].
  assert (e <> l) as Hne by (intros ->; simplify_eq; rewrite Ht in Htl; done).
  destruct (let_go_running k l obl Hk Hol Htl Hown) as (k1 & -> & Hk1 & He1 & Hc1 & Hid1 & Hw1). cbn [mbind option_bind negb].
  pose proof He1 as (_ & Ec1 & _). destruct (same_core_event _ _ _ _ _ _ Hc1 Hne Ho) as (ob1 & Ho1 & (U1 & U2 & _)%unlinked_fields).
  pose proof Hk1 as [_ (x & Hx & Hs & _)].
  destruct (event_enqueue_spec k1 e ob1 x) as (k2 & ob2 & Henq & Hk2 & He2 & Ho2 & Hq2 & Ht2);
    [done|by rewrite Ec1, Hid1|done|congruence|done|].
  pose proof (event_enqueue_type _ _ _ _ _ Henq Ho1 Ho2) as Hty. rewrite Henq.
  cbn [mbind option_bind]. pose proof He2 as (_ & Ec2 & _).
  assert (threads k2 !! current_thread k2 = Some (asleep_on e x)) as Hx2 by (rewrite Ec2, Ht2; apply lookup_insert_eq).
  destruct (schedule_away k2 _ Hk2 Hx2) as (k' & -> & Hk' & (Hkept & Eo & _) & Hrun); [done|]. cbn [mbind option_bind].
  pose proof (Hc1 l) as Hcl. rewrite lookup_insert_eq in Hcl. destruct (objs k1 !! l) as [obl'|] eqn:Hol1; [|done].
  apply (inj Some) in Hcl. exists k', (objs k1), ob2, obl'. split; [done|]. split; [done|]. rewrite Eo, Ho2.
  rewrite lookup_insert_ne by done. split; [done|]. split; [done|]. split; [congruence|]. split; [congruence|]. split; [done|]. split.
  - eapply free_unlinked; [done|]. split_and!; auto. simpl. by rewrite Htl.
  - intros t Hin. apply Hrun. destruct (Hw1 t Hin) as (y & Hy & Hsy). exists y. split; [|by left].
    rewrite Ht2, lookup_insert_ne; [done|]. intros <-. rewrite Hx in Hy. injection Hy as <-. by rewrite Hs in Hsy.
Qed.

(** Waiting for an event with a lock.  [event_sleep], called with the lock
    held, gives the lock up, wakes everyone who waits for it and queues the
    caller on the event, all before the scheduler runs another thread: a
    signal sent after the lock was free cannot be missed.  Without ownership the
    call is refused and the state is unchanged. *)
Theorem event_sleep_atomic k e ob l obl :
  lock_inv k -> ~ is_idle k (current_thread k) -> objs k !! e = Some ob -> sl_type ob = SYNCH_TYPE_EVENT ->
  objs k !! l = Some obl -> sl_type obl = SYNCH_TYPE_LOCK ->
  if bool_decide (o_owner obl = Some (current_thread k)) then
    exists k' ob' obl', event_sleep_1 e (Some l) k = Some (Blocked, k') /\ lock_inv k' /\
      objs k' !! e = Some ob' /\ sl_waiters ob' = sl_waiters ob ++ [current_thread k] /\
      objs k' !! l = Some obl' /\ free_lock obl' /\
      (forall t, t ∈ sl_waiters obl -> runnable k' t)
  else event_sleep_1 e (Some l) k = Some (Returned ELOCK_NOTOWNED, k).
Proof.
  intros Hk Hid Ho Ht Hol Htl. case_bool_decide as Hown.
  - destruct (event_sleep_ok k e ob l obl) as (k' & m1 & ob' & obl' & Hr & Hk' & _ & Eo & _ & Hq & Hl & Hf & Hrun); auto.
    exists k', ob', obl'. rewrite Eo at 1. rewrite lookup_insert_eq. by split_and!.
  - unfold event_sleep_1. rewrite Hol. cbn [mbind option_bind]. by rewrite bool_decide_eq_false_2.
Qed.

(** The timeout of a timed wait.  When the timer fires while the thread is
    still queued on the event, the handler takes exactly that thread off the
    queue, makes it ready and reports the failure; when the thread has already
    been woken, the handler does nothing. *)
Theorem event_timeout_removes k e ob t :
  lock_inv k -> objs k !! e = Some ob -> sl_type ob = SYNCH_TYPE_EVENT ->
  if bool_decide (t ∈ sl_waiters ob) then
    exists k' ob' y, event_wait_remove_thread e t k = Some (true, k') /\ lock_inv k' /\
      objs k' = <[e := ob']> (objs k) /\ sl_waiters ob' = filter (fun x => x <> t) (sl_waiters ob) /\
      threads k' = <[t := y]> (threads k) /\ sc_state y = THREAD_STATE_READY
  else event_wait_remove_thread e t k = Some (false, k).
Proof.
  intros [Hk Hrun] Ho Ht. pose proof (current_not_waiting k e ob (lc_wait _ Hk) Hrun Ho) as Hnw.
  destruct Hrun as (xc & Hxc & Hsc). unfold event_wait_remove_thread. rewrite Ho. cbn [mbind option_bind].
  case_bool_decide as Hin; [|done].
  rewrite (upd_obj_Some e _ k ob) by done. cbn [mbind option_bind]. obj_step. cbn [set_objs objs]. rewrite insert_insert_eq. set (ob' := with_val _ _).
  destruct (wi_sound _ (lc_wait _ Hk) e ob t Ho Hin) as (x & Hx & Hs & Hch).
  rewrite (upd_thr_Some t _ _ x) by done. cbn [mbind option_bind].
  (* clearing the channel first is what add_readyq does again *)
  destruct (wake_from k e ob ob' t (lc_wait _ Hk)) as (x' & k' & Hx' & _ & Hk' & Hw' & He' & Ho' & Ht'); [eauto|done..|].
  assert (x' = x) as -> by congruence.
  assert (add_readyq t (set_threads (<[t := with_slpchannel NULL x]> (threads k)) (set_objs (<[e := ob']> (objs k)) k)) = Some k') as Hk2.
  { rewrite <- Hk'. unfold add_readyq. rewrite (upd_thr_Some t _ (set_objs _ _) x) by done.
    rewrite (upd_thr_Some t _ (set_threads _ _) (with_slpchannel NULL x)) by (simpl; apply lookup_insert_eq).
    cbn [mbind option_bind set_threads threads]. by rewrite !insert_insert_eq. }
  simpl (threads (set_objs _ _)). simpl (objs (set_objs _ _)).
  change (set_threads _ _) with (set_threads (<[t := with_slpchannel NULL x]> (threads k)) (set_objs (<[e := ob']> (objs k)) k)).
  rewrite Hk2. cbn [mbind option_bind]. exists k', ob', (readied x). split; [done|].
  pose proof He' as (_ & Ec & _). split; [split|by split_and!].
  - apply (lock_core_event k k' e ob ob'); auto.
    + rewrite Ht'. apply runs_on_insert with x; auto.
    + rewrite Ht'. intros t' y. destruct (decide (t' = t)) as [->|]; [|rewrite lookup_insert_ne by done; eauto].
      rewrite lookup_insert_eq. intros [= <-]. eauto.
  - exists xc. rewrite Ec, Ht'. rewrite lookup_insert_ne by congruence. done.
Qed.

(** * The system: threads that lock, wait and signal, and the clock *)

(** What a thread that was put to sleep inside a call does when it runs again. *)
Inductive pending := PLock (l : loc) | PRlock (l : loc).

(** [held] records who has come back from an acquisition of a lock and has not
    released it since: it is bookkeeping of the model, no code reads it. *)
Record sys := mk_sys { ks : kstate; pend : gmap loc pending; held : gset (loc * loc) }.

Inductive op :=
  | OLock (l : loc) | OTrylock (l : loc) | OUnlock (l : loc)
  | ORlock (l : loc) | ORunlock (l : loc)
  | OSleep (e : loc) (lck : ptr) | OWakeup (e : loc)
  | OResume | OTick | OAge.

Definition lock_op (l : loc) (s : sys) : option sys :=
  let cur := current_thread (ks s) in
  '(r, k) ← lock_1 l (ks s);
  Some (match r with
        | Returned _ => mk_sys k (delete cur (pend s)) ({[(cur, l)]} ∪ held s)
        | Blocked => mk_sys k (<[cur := PLock l]> (pend s)) (held s)
        end).

Definition rlock_op (l : loc) (s : sys) : option sys :=
  let cur := current_thread (ks s) in
  '(r, k) ← rlock_1 l (ks s);
  Some (match r with
        | Returned _ => mk_sys k (delete cur (pend s)) (held s)
        | Blocked => mk_sys k (<[cur := PRlock l]> (pend s)) (held s)
        end).

(** One step: a call of the current thread, the continuation of its interrupted
    call, the clock interrupt, or the recomputation of the timer thread. *)
Definition run (o : op) (s : sys) : option sys :=
  let cur := current_thread (ks s) in
  match o with
  | OLock l => lock_op l s
  | ORlock l => rlock_op l s
  | OResume =>
      match pend s !! cur with
      | Some (PLock l) => lock_op l s
      | Some (PRlock l) => rlock_op l s
      | None => Some s
      end
  | OTrylock l =>
      '(r, k) ← trylock l (ks s);
      Some (mk_sys k (pend s) (if r =? ELOCK_SUCCESS then {[(cur, l)]} ∪ held s else held s))
  | OUnlock l => '(_, k) ← unlock l (ks s); Some (mk_sys k (pend s) (held s ∖ {[(cur, l)]}))
  | ORunlock l => '(_, k) ← runlock l (ks s); Some (mk_sys k (pend s) (held s))
  | OSleep e lck =>
      '(r, k) ← event_sleep_1 e lck (ks s);
      Some (match r, lck with
            | Blocked, Some l => mk_sys k (<[cur := PLock l]> (pend s)) (held s ∖ {[(cur, l)]})
            | _, _ => mk_sys k (pend s) (held s)
            end)
  | OWakeup e => '(_, k) ← event_wakeup e (ks s); Some (mk_sys k (pend s) (held s))
  | OTick => k ← timer_handler (ks s); Some (mk_sys k (pend s) (held s))
  | OAge => k ← reprioritise (ks s); Some (mk_sys k (pend s) (held s))
  end.

Definition has_type (k : kstate) (o : loc) (ty : Z) : Prop := exists ob, objs k !! o = Some ob /\ sl_type ob = ty.

(** Calls are made on objects of their kind, by a thread with no call pending;
    the idle thread makes none that can block. *)
Definition enabled (o : op) (s : sys) : Prop :=
  let k := ks s in
  match o with
  | OLock l => has_type k l SYNCH_TYPE_LOCK /\ pend s !! current_thread k = None /\ ~ is_idle k (current_thread k)
  | ORlock l => has_type k l SYNCH_TYPE_RLOCK /\ pend s !! current_thread k = None /\ ~ is_idle k (current_thread k)
  | OTrylock l | OUnlock l => has_type k l SYNCH_TYPE_LOCK /\ pend s !! current_thread k = None
  | ORunlock l => has_type k l SYNCH_TYPE_RLOCK /\ pend s !! current_thread k = None
  | OSleep e lck =>
      has_type k e SYNCH_TYPE_EVENT /\ match lck with Some l => has_type k l SYNCH_TYPE_LOCK | None => True end /\
      pend s !! current_thread k = None /\ ~ is_idle k (current_thread k)
  | OWakeup e => has_type k e SYNCH_TYPE_EVENT /\ pend s !! current_thread k = None
  | OResume => True
  | OTick => exists ts, Timer.queue_times (tq k) ts
  | OAge => pend s !! current_thread k = None
  end.

(** Who owns a plain lock. *)
Definition lowned (m : gmap loc synchobj) (t o : loc) : Prop :=
  exists ob, m !! o = Some ob /\ sl_type ob = SYNCH_TYPE_LOCK /\ o_owner ob = Some t.

Definition pend_ok (s : sys) (t : loc) (p : pending) : Prop :=
  ~ is_idle (ks s) t /\
  match p with PLock l => has_type (ks s) l SYNCH_TYPE_LOCK | PRlock l => has_type (ks s) l SYNCH_TYPE_RLOCK end.

Record sys_inv (s : sys) : Prop := {
  sv_lock : lock_inv (ks s);
  sv_held t l : (t, l) ∈ held s <-> lowned (objs (ks s)) t l;
  sv_pend t p : pend s !! t = Some p -> pend_ok s t p }.

(** ** Kinds of objects and classes of threads never change *)

Definition stable (k k' : kstate) : Prop :=
  (forall o, sl_type <$> objs k' !! o = sl_type <$> objs k !! o) /\
  (forall t, sc_cid <$> threads k' !! t = sc_cid <$> threads k !! t).

#[export] Instance stable_refl : Reflexive stable.
Proof. by intros k. Qed.
#[export] Instance stable_trans : Transitive stable.
Proof. intros k1 k2 k3 [A1 A2] [B1 B2]. split; intros; by rewrite ?B1, ?B2. Qed.

Lemma upd_thr_stable t f k k' : upd_thr t f k = Some k' -> (forall x, sc_cid (f x) = sc_cid x) -> stable k k'.
Proof.
  intros (x & Hx & ->)%upd_thr_inv Hf. split; [done|]. intros t'. simpl. destruct (decide (t' = t)) as [->|].
  - rewrite lookup_insert_eq, Hx. simpl. by rewrite Hf.
  - by rewrite lookup_insert_ne.
Qed.
Lemma upd_obj_stable o f k k' : upd_obj o f k = Some k' -> (forall x, sl_type (f x) = sl_type x) -> stable k k'.
Proof.
  unfold upd_obj. destruct (objs k !! o) as [ob|] eqn:Ho; [|done]. intros [= <-] Hf. split; [|done]. intros o'. simpl.
  destruct (decide (o' = o)) as [->|]; [rewrite lookup_insert_eq, Ho; simpl; by rewrite Hf|by rewrite lookup_insert_ne].
Qed.
Lemma sched_frame_stable k k' : sched_frame k k' -> stable k k'.
Proof.
  intros (Hk & Ho & _). split; [by rewrite Ho|]. intros t. specialize (Hk t).
  destruct (threads k !! t), (threads k' !! t); simpl in *; try done. f_equal. apply Hk.
Qed.

(** Split a call that returned into its stores, and chain them. *)
Ltac split_run :=
  repeat match goal with
  | H : Some _ = Some _ |- _ => injection H as H; subst
  | H : mbind _ ?m = Some _ |- _ =>
      let E := fresh "E" in destruct m eqn:E; cbn [mbind option_bind] in H; [|discriminate H]
  | H : (if ?b then _ else _) = Some _ |- _ => destruct b
  | H : match ?x with _ => _ end = Some _ |- _ => destruct x; try discriminate H
  end.
Ltac stable_chain tac :=
  repeat match goal with
  | H : upd_thr _ _ ?a = Some ?b |- _ => apply upd_thr_stable in H; [|done]
  | H : upd_obj _ _ ?a = Some ?b |- _ => apply upd_obj_stable in H; [|done]
  | H : scheduler _ = Some _ |- _ => apply scheduler_frame, sched_frame_stable in H
  | H : rq_append _ _ _ = Some _ |- _ => apply rq_append_frame in H as [H _]; apply sched_frame_stable in H
  | H : rq_unlink _ _ _ = Some _ |- _ => apply rq_unlink_frame in H as [H _]; apply sched_frame_stable in H
  | H : _ |- _ => tac H
  end;
  repeat match goal with
  | H : stable ?a ?b |- stable ?c ?d => first [exact H | etrans; [exact H|]]; clear H
  end; try done.

Lemma add_readyq_stable t k k' : add_readyq t k = Some k' -> stable k k'.
Proof. unfold add_readyq. intros H. split_run; stable_chain ltac:(fun H => fail). Qed.
Lemma del_readyq_stable t k r k' : del_readyq t k = Some (r, k') -> stable k k'.
Proof. unfold del_readyq. intros H. split_run; stable_chain ltac:(fun H => fail). Qed.

Ltac stable_rq H := first [apply add_readyq_stable in H | apply del_readyq_stable in H].

Lemma wake_all_stable o q k n k' : wake_all o q k = Some (n, k') -> stable k k'.
Proof.
  revert k n. induction q as [|t q IH]; intros k n H; simpl in H; [by split_run|].
  split_run. apply IH in E1. stable_chain stable_rq.
Qed.
Lemma lend_loop_stable fuel gl k k' : lend_loop fuel gl k = Some k' -> stable k k'.
Proof.
  revert gl k. induction fuel as [|fuel IH]; intros gl k H; simpl in H; [done|].
  split_run; try match goal with H : lend_loop _ _ _ = _ |- _ => apply IH in H end; stable_chain stable_rq.
Qed.
Lemma wake_waiters_stable o k n k' : wake_waiters o k = Some (n, k') -> stable k k'.
Proof. unfold wake_waiters. intros H. split_run. by apply wake_all_stable in H. Qed.

Ltac stable_wake H := first [stable_rq H | apply wake_waiters_stable in H | apply lend_loop_stable in H].

Lemma ADD_SYNCHOBJ_stable o t k k' : ADD_SYNCHOBJ o t k = Some k' -> stable k k'.
Proof. unfold ADD_SYNCHOBJ. intros H. split_run; stable_chain stable_wake. Qed.
Lemma DEL_SYNCHOBJ_stable o t k k' : DEL_SYNCHOBJ o t k = Some k' -> stable k k'.
Proof. unfold DEL_SYNCHOBJ. intros H. split_run; stable_chain stable_wake. Qed.
Lemma test_and_set_stable o k v k' : test_and_set o k = Some (v, k') -> stable k k'.
Proof. unfold test_and_set. intros H. split_run. stable_chain stable_wake. Qed.
Lemma drop_inherited_stable k k' : drop_inherited k = Some k' -> stable k k'.
Proof. unfold drop_inherited. intros H. split_run; stable_chain stable_wake. Qed.

Ltac stable_list H :=
  first [stable_wake H | apply ADD_SYNCHOBJ_stable in H | apply DEL_SYNCHOBJ_stable in H
        | apply test_and_set_stable in H | apply drop_inherited_stable in H].

Lemma let_go_stable l k n k' : let_go l k = Some (n, k') -> stable k k'.
Proof. unfold let_go. intros H. split_run. stable_chain stable_list. Qed.
Lemma take_lock_stable l k k' : take_lock l k = Some k' -> stable k k'.
Proof. unfold take_lock. intros H. split_run. stable_chain stable_list. Qed.
Lemma event_enqueue_stable e k k' : event_enqueue e k = Some k' -> stable k k'.
Proof. unfold event_enqueue, ADD_SLQ. intros H. split_run. stable_chain stable_list. Qed.

Ltac stable_call H :=
  first [stable_list H | apply let_go_stable in H | apply take_lock_stable in H | apply event_enqueue_stable in H].

Lemma lock_1_stable l k r k' : lock_1 l k = Some (r, k') -> stable k k'.
Proof. unfold lock_1, ADD_SLQ, lend_priority. intros H. split_run; stable_chain stable_call. Qed.
Lemma rlock_1_stable l k r k' : rlock_1 l k = Some (r, k') -> stable k k'.
Proof. unfold rlock_1, ADD_SLQ, lend_priority. intros H. split_run; stable_chain stable_call. Qed.
Lemma trylock_stable l k r k' : trylock l k = Some (r, k') -> stable k k'.
Proof. unfold trylock. intros H. split_run; stable_chain stable_call. Qed.
Lemma unlock_stable l k r k' : unlock l k = Some (r, k') -> stable k k'.
Proof. unfold unlock. intros H. split_run; stable_chain stable_call. Qed.
Lemma runlock_stable l k r k' : runlock l k = Some (r, k') -> stable k k'.
Proof. unfold runlock. intros H. split_run; stable_chain stable_call. Qed.
Lemma event_wakeup_stable e k r k' : event_wakeup e k = Some (r, k') -> stable k k'.
Proof. unfold event_wakeup, sys_event_wakeup. intros H. split_run; stable_chain stable_call. Qed.
Lemma event_sleep_stable e lck k r k' : event_sleep_1 e lck k = Some (r, k') -> stable k k'.
Proof. unfold event_sleep_1. intros H. split_run; stable_chain stable_call. Qed.
Lemma timer_handler_stable k k' : timer_handler k = Some k' -> stable k k'.
Proof.
  unfold timer_handler, rr_cl_tick. fold (clock_tick k). intros H. assert (stable k (clock_tick k)) as H0.
  { unfold clock_tick. by case_ztest. }
  generalize dependent (clock_tick k). intros k0 H H0. split_run; stable_chain stable_call.
Qed.

Lemma stable_has_type k k' o ty : stable k k' -> has_type k o ty -> has_type k' o ty.
Proof.
  intros [H _] (ob & Ho & Ht). specialize (H o). rewrite Ho in H. destruct (objs k' !! o) as [ob'|] eqn:E; [|done].
  exists ob'. split; [done|]. simpl in H. congruence.
Qed.
Lemma stable_idle k k' t : stable k k' -> is_idle k' t -> is_idle k t.
Proof.
  intros [_ H] (x & Hx & Hc). specialize (H t). rewrite Hx in H. destruct (threads k !! t) as [y|] eqn:E; [|done].
  exists y. split; [done|]. simpl in H. congruence.
Qed.
Lemma stable_pend s k' P' H' t p :
  stable (ks s) k' -> pend_ok s t p -> pend_ok (mk_sys k' P' H') t p.
Proof.
  intros Hst [Hid Hp]. split; simpl.
  - intros Hi. apply Hid. by eapply stable_idle.
  - destruct p; by eapply stable_has_type.
Qed.

(** ** Every step keeps the invariant *)

Lemma lowned_core m m' l ob1 t o :
  same_core (<[l := ob1]> m) m' ->
  lowned m' t o <-> (o = l /\ sl_type ob1 = SYNCH_TYPE_LOCK /\ o_owner ob1 = Some t) \/ (o <> l /\ lowned m t o).
Proof.
  intros Hc. specialize (Hc o). unfold lowned. destruct (decide (o = l)) as [->|Hne].
  - rewrite lookup_insert_eq in Hc. destruct (m' !! l) as [ob|]; [|done]. apply (inj Some) in Hc.
    apply unlinked_fields in Hc as (U1 & _ & U3 & _). rewrite <- U1, <- U3. naive_solver.
  - rewrite lookup_insert_ne in Hc by done.
    destruct (m' !! o) as [ob|], (m !! o) as [ob0|]; simpl in Hc; try done; [|naive_solver].
    apply (inj Some) in Hc. apply unlinked_fields in Hc as (U1 & _ & U3 & _).
    split.
    + intros (ob' & [= <-] & ? & ?). right. split; [done|]. exists ob0. split_and!; congruence.
    + intros [[? _]|(_ & ob' & [= <-] & ? & ?)]; [done|]. exists ob. split_and!; congruence.
Qed.

(** An object that keeps its kind and owner. *)
Lemma lowned_same m m' l ob ob1 t o :
  same_core (<[l := ob1]> m) m' -> m !! l = Some ob -> sl_type ob1 = sl_type ob ->
  (sl_type ob = SYNCH_TYPE_LOCK -> o_owner ob1 = o_owner ob) -> lowned m' t o <-> lowned m t o.
Proof.
  intros Hc Ho Ht Hw. rewrite (lowned_core _ _ _ _ _ _ Hc). rewrite Ht. destruct (decide (o = l)) as [->|]; [|naive_solver].
  unfold lowned. rewrite Ho. split.
  - intros [(_ & ? & E)|[? _]]; [|done]. exists ob. rewrite <- Hw by done. done.
  - intros (ob' & [= <-] & ? & E). left. by rewrite Hw.
Qed.

Lemma sys_step_inv s k' P' H' :
  sys_inv s -> lock_inv k' -> stable (ks s) k' ->
  (forall t l, (t, l) ∈ H' <-> lowned (objs k') t l) ->
  (forall t p, P' !! t = Some p -> pend_ok s t p) ->
  sys_inv (mk_sys k' P' H').
Proof. intros Hs Hk Hst Hh Hp. split; simpl; auto. intros t p E. eapply stable_pend; eauto. Qed.

Lemma pend_delete s t0 : sys_inv s -> forall t p, delete t0 (pend s) !! t = Some p -> pend_ok s t p.
Proof. intros Hs t p [_ E]%lookup_delete_Some. by apply Hs. Qed.
Lemma pend_insert s t0 q : sys_inv s -> pend_ok s t0 q -> forall t p, <[t0 := q]> (pend s) !! t = Some p -> pend_ok s t p.
Proof. intros Hs Hq t p [[-> ->]|[_ E]]%lookup_insert_Some; [done|]. by apply Hs. Qed.

Lemma trylock_lock_1 k l ob :
  lock_inv k -> objs k !! l = Some ob -> sl_type ob = SYNCH_TYPE_LOCK -> o_val ob = 0 ->
  exists k', lock_1 l k = Some (Returned ELOCK_SUCCESS, k') /\ trylock l k = Some (ELOCK_SUCCESS, k') /\ lock_inv k' /\
    same_core (<[l := with_owner (Some (current_thread k)) (with_val 1 ob)]> (objs k)) (objs k').
Proof.
  intros Hk Ho Ht Hv. assert (is_lock ob) as Hlk by by left. unfold lock_1, trylock.
  rewrite (test_and_set_spec l k ob) by auto. cbn [mbind option_bind]. rewrite Hv. simpl (0 =? 1). cbv iota.
  destruct (take_lock_spec k l ob) as (k' & -> & Hk' & _ & Hsc & _); auto. cbn [mbind option_bind]. eauto.
Qed.

Lemma lock_op_inv l s :
  sys_inv s -> has_type (ks s) l SYNCH_TYPE_LOCK -> ~ is_idle (ks s) (current_thread (ks s)) ->
  exists s', lock_op l s = Some s' /\ sys_inv s'.
Proof.
  intros Hs (ob & Ho & Ht) Hid. pose proof (sv_lock _ Hs) as Hk. assert (is_lock ob) as Hlk by by left. unfold lock_op.
  destruct (lock_state _ _ _ (li_core _ Hk) Ho Hlk) as [Hv|Hv].
  - destruct (trylock_lock_1 _ l ob Hk Ho Ht Hv) as (k' & Hr & _ & Hk' & Hsc). pose proof (lock_1_stable _ _ _ _ Hr) as Hst.
    rewrite Hr. cbn [mbind option_bind]. eexists; split; [done|]. apply sys_step_inv with s; [done|done|done| |by apply pend_delete].
    intros t o. rewrite (lowned_core _ _ _ _ _ _ Hsc), elem_of_union, elem_of_singleton, (sv_held _ Hs). simpl.
    destruct (decide (o = l)) as [->|]; [|naive_solver]. split; [|naive_solver].
    intros [[= ->]|(ob' & Ho' & _ & Hw)]; [by left|]. exfalso. simplify_eq.
    destruct (lock_free _ _ _ (li_core _ Hk) Ho Hlk Hv) as (_ & ? & _). congruence.
  - destruct (li_run _ Hk) as (x & Hx & _).
    destruct (lock_1_blocks _ l ob x Hk Hid Ho Hlk Hv Hx) as (k' & Hr & Hk' & Eo & _).
    pose proof (lock_1_stable _ _ _ _ Hr) as Hst. rewrite Hr. cbn [mbind option_bind]. eexists; split; [done|].
    apply sys_step_inv with s; [done|done|done| |].
    + intros t o. rewrite (sv_held _ Hs). symmetry. eapply lowned_same; [by rewrite Eo|done..].
    + apply pend_insert; [done|]. split; [done|]. by exists ob.
Qed.

Lemma rlock_op_inv l s :
  sys_inv s -> has_type (ks s) l SYNCH_TYPE_RLOCK -> ~ is_idle (ks s) (current_thread (ks s)) ->
  exists s', rlock_op l s = Some s' /\ sys_inv s'.
Proof.
  intros Hs (ob & Ho & Ht) Hid. pose proof (sv_lock _ Hs) as Hk. assert (is_lock ob) as Hlk by by right. unfold rlock_op.
  destruct (decide (o_val ob = 0 \/ o_owner ob = Some (current_thread (ks s)))) as [Hor|Hor].
  - destruct (rlock_enters _ l ob Hk Ho Ht Hor) as (k' & ob' & Hr & Hk' & _ & _ & _ & _ & _ & Hsc).
    pose proof (rlock_1_stable _ _ _ _ Hr) as Hst. rewrite Hr. cbn [mbind option_bind]. eexists; split; [done|].
    apply sys_step_inv with s; [done|done|done| |by apply pend_delete]. intros t o. rewrite (sv_held _ Hs). symmetry.
    eapply lowned_same; [done|done|done|]. by rewrite Ht.
  - destruct (lock_state _ _ _ (li_core _ Hk) Ho Hlk) as [Hv|Hv]; [destruct Hor; by left|].
    destruct (li_run _ Hk) as (x & Hx & _).
    destruct (rlock_1_blocks _ l ob x Hk Hid Ho Hlk Hv) as (k' & Hr & Hk' & Eo); [intros E; apply Hor; by right|done|].
    pose proof (rlock_1_stable _ _ _ _ Hr) as Hst. rewrite Hr. cbn [mbind option_bind]. eexists; split; [done|].
    apply sys_step_inv with s; [done|done|done| |].
    + intros t o. rewrite (sv_held _ Hs). symmetry. eapply lowned_same; [by rewrite Eo|done..].
    + apply pend_insert; [done|]. split; [done|]. by exists ob.
Qed.

Lemma unlock_not_owner k l ob :
  lock_inv k -> objs k !! l = Some ob -> o_owner ob <> Some (current_thread k) ->
  exists k', unlock l k = Some (ELOCK_NOTOWNED, k') /\ lock_inv k' /\ objs k' = objs k.
Proof.
  intros Hk Ho Hown. unfold unlock. rewrite Ho. cbn [mbind option_bind]. rewrite bool_decide_eq_false_2 by done.
  destruct (drop_only k Hk) as (k' & -> & Hk' & Eo & _). cbn [mbind option_bind]. eauto.
Qed.
Lemma runlock_not_owner k l ob :
  lock_inv k -> objs k !! l = Some ob -> o_owner ob <> Some (current_thread k) ->
  exists k', runlock l k = Some (ELOCK_NOTOWNED, k') /\ lock_inv k' /\ objs k' = objs k.
Proof.
  intros Hk Ho Hown. unfold runlock. rewrite Ho. cbn [mbind option_bind]. rewrite bool_decide_eq_false_2 by done.
  destruct (drop_only k Hk) as (k' & -> & Hk' & Eo & _). cbn [mbind option_bind]. eauto.
Qed.

Lemma unlock_op_inv l s :
  sys_inv s -> has_type (ks s) l SYNCH_TYPE_LOCK -> exists s', run (OUnlock l) s = Some s' /\ sys_inv s'.
Proof.
  intros Hs (ob & Ho & Ht). pose proof (sv_lock _ Hs) as Hk. simpl.
  destruct (decide (o_owner ob = Some (current_thread (ks s)))) as [Hown|Hown].
  - destruct (sys_unlock_spec _ l ob Hk Ho) as (k' & Hu & Hk' & _ & Hc & _); [by left|done|by rewrite Ht|].
    apply (unlock_sys_unlock _ _ _ _ _ Ho Hown) in Hu. pose proof (unlock_stable _ _ _ _ Hu) as Hst. rewrite Hu.
    cbn [mbind option_bind]. eexists; split; [done|]. apply sys_step_inv with s; [done|done|done| |apply Hs].
    intros t o. rewrite (lowned_core _ _ _ _ _ _ Hc), elem_of_difference, elem_of_singleton, (sv_held _ Hs). simpl.
    destruct (decide (o = l)) as [->|]; [|naive_solver]. split; [|naive_solver].
    intros [(ob' & Ho' & _ & Hw) Hne]. destruct Hne. rewrite Ho in Ho'. injection Ho' as <-. congruence.
  - destruct (unlock_not_owner _ l ob Hk Ho Hown) as (k' & Hu & Hk' & Eo).
    pose proof (unlock_stable _ _ _ _ Hu) as Hst. rewrite Hu. cbn [mbind option_bind]. eexists; split; [done|].
    apply sys_step_inv with s; [done|done|done| |apply Hs].
    intros t o. rewrite Eo, elem_of_difference, elem_of_singleton, (sv_held _ Hs). split; [naive_solver|].
    intros Hlw. split; [done|]. intros [= -> ->]. destruct Hlw as (ob' & Ho' & _ & Hw). simplify_eq.
Qed.

Lemma runlock_op_inv l s :
  sys_inv s -> has_type (ks s) l SYNCH_TYPE_RLOCK -> exists s', run (ORunlock l) s = Some s' /\ sys_inv s'.
Proof.
  intros Hs (ob & Ho & Ht). pose proof (sv_lock _ Hs) as Hk. simpl.
  assert (exists r k' ob1, runlock l (ks s) = Some (r, k') /\ lock_inv k' /\ sl_type ob1 = sl_type ob /\
    same_core (<[l := ob1]> (objs (ks s))) (objs k')) as (r & k' & ob1 & Hu & Hk' & Ht1 & Hsc).
  { destruct (decide (o_owner ob = Some (current_thread (ks s)))) as [Hown|Hown].
    - destruct (runlock_spec _ l ob Hk Ho Ht Hown) as (k' & ob' & Hu & Hk' & _ & _ & _ & _ & _ & ob1 & Ht1 & Hsc).
      do 3 eexists; split; [done|]. split; [done|]. split; [|done]. congruence.
    - destruct (runlock_not_owner _ l ob Hk Ho Hown) as (k' & Hu & Hk' & Eo). do 2 eexists; exists ob. split; [done|].
      split; [done|]. split; [done|]. rewrite Eo. by rewrite insert_id. }
  pose proof (runlock_stable _ _ _ _ Hu) as Hst. rewrite Hu. cbn [mbind option_bind]. eexists; split; [done|].
  apply sys_step_inv with s; [done|done|done| |apply Hs]. intros t o. rewrite (sv_held _ Hs). symmetry.
  eapply lowned_same; [done|done|done|]. by rewrite Ht.
Qed.

Lemma trylock_op_inv l s :
  sys_inv s -> has_type (ks s) l SYNCH_TYPE_LOCK -> exists s', run (OTrylock l) s = Some s' /\ sys_inv s'.
Proof.
  intros Hs (ob & Ho & Ht). pose proof (sv_lock _ Hs) as Hk. assert (is_lock ob) as Hlk by by left. simpl.
  destruct (lock_state _ _ _ (li_core _ Hk) Ho Hlk) as [Hv|Hv].
  - destruct (trylock_lock_1 _ l ob Hk Ho Ht Hv) as (k' & _ & Hr & Hk' & Hsc). pose proof (trylock_stable _ _ _ _ Hr) as Hst.
    rewrite Hr. cbn [mbind option_bind]. eexists; split; [done|]. apply sys_step_inv with s; [done|done|done| |apply Hs].
    simpl. intros t o. rewrite (lowned_core _ _ _ _ _ _ Hsc), elem_of_union, elem_of_singleton, (sv_held _ Hs). simpl.
    destruct (decide (o = l)) as [->|]; [|naive_solver]. split; [|naive_solver].
    intros [[= ->]|(ob' & Ho' & _ & Hw)]; [by left|]. exfalso. simplify_eq.
    destruct (lock_free _ _ _ (li_core _ Hk) Ho Hlk Hv) as (_ & ? & _). congruence.
  - assert (trylock l (ks s) = Some (ELOCK_FAILURE, ks s)) as Hr.
    { unfold trylock. rewrite (test_and_set_spec l _ ob) by auto. cbn [mbind option_bind]. rewrite Hv. simpl. do 2 f_equal.
      rewrite insert_id; [by destruct (ks s)|]. rewrite Ho. f_equal. destruct ob; simpl in *; by subst. }
    rewrite Hr. cbn [mbind option_bind]. eexists; split; [done|]. by destruct s.
Qed.

Lemma sleep_op_inv e lck s :
  sys_inv s -> enabled (OSleep e lck) s -> exists s', run (OSleep e lck) s = Some s' /\ sys_inv s'.
Proof.
  intros Hs ((ob & Ho & Ht) & Hl & _ & Hid). pose proof (sv_lock _ Hs) as Hk. cbn [run]. destruct lck as [l|].
  - destruct Hl as (obl & Hol & Htl). destruct (decide (o_owner obl = Some (current_thread (ks s)))) as [Hown|Hown].
    + destruct (event_sleep_ok _ e ob l obl Hk Hid Ho Ht Hol Htl Hown)
        as (k' & m1 & ob' & obl' & Hr & Hk' & Hsc & Eo & Hte & Hq & Hl' & Hf & _).
      pose proof (event_sleep_stable _ _ _ _ _ Hr) as Hst. rewrite Hr. cbn [mbind option_bind]. eexists; split; [done|].
      apply sys_step_inv with s; [done|done|done| |].
      * assert (e <> l) as Hne by (intros ->; simplify_eq; rewrite Ht in Htl; done).
        destruct (same_core_event _ _ _ _ _ _ Hsc Hne Ho) as (ob1 & Ho1 & (U1 & _)%unlinked_fields).
        intros t o. rewrite Eo, elem_of_difference, elem_of_singleton, (sv_held _ Hs).
        assert (lowned (<[e := ob']> m1) t o <-> lowned m1 t o) as ->.
        { eapply lowned_same; [done|exact Ho1|congruence|]. rewrite U1, Ht. done. }
        rewrite (lowned_core _ _ _ _ _ _ Hsc). simpl.
        destruct (decide (o = l)) as [->|]; [|naive_solver]. split; [|naive_solver].
        intros [(ob2 & Ho2 & _ & Hw) Hnp]. destruct Hnp. rewrite Hol in Ho2. injection Ho2 as <-. congruence.
      * apply pend_insert; [done|]. split; [done|]. by exists obl.
    + assert (event_sleep_1 e (Some l) (ks s) = Some (Returned ELOCK_NOTOWNED, ks s)) as ->.
      { unfold event_sleep_1. rewrite Hol. cbn [mbind option_bind]. by rewrite bool_decide_eq_false_2. }
      cbn [mbind option_bind]. eexists; split; [done|]. by destruct s.
  - destruct (li_run _ Hk) as (x & Hx & Hsx & _).
    destruct (event_enqueue_spec _ e ob x Hk Hid Ho Ht Hx) as (k2 & ob2 & Henq & Hk2 & He2 & Ho2 & Hq2 & Ht2).
    pose proof (event_enqueue_type _ _ _ _ _ Henq Ho Ho2) as Hty. pose proof He2 as (_ & Ec2 & _).
    assert (threads k2 !! current_thread k2 = Some (asleep_on e x)) as Hx2 by (rewrite Ec2, Ht2; apply lookup_insert_eq).
    destruct (schedule_away k2 _ Hk2 Hx2) as (k' & Hsch & Hk' & (_ & Eo & _) & _); [done|].
    assert (event_sleep_1 e None (ks s) = Some (Blocked, k')) as Hr.
    { unfold event_sleep_1. cbn [mbind option_bind negb]. rewrite Henq. cbn [mbind option_bind]. by rewrite Hsch. }
    pose proof (event_sleep_stable _ _ _ _ _ Hr) as Hst. rewrite Hr. cbn [mbind option_bind]. eexists; split; [done|].
    apply sys_step_inv with s; [done|done|done| |apply Hs]. intros t o. rewrite (sv_held _ Hs), Eo, Ho2. symmetry.
    eapply lowned_same; [done|done|done|]. by rewrite Ht.
Qed.

Lemma tick_op_inv s :
  sys_inv s -> enabled OTick s -> exists s', run OTick s = Some s' /\ sys_inv s'.
Proof.
  intros Hs (ts & Htq). pose proof (sv_lock _ Hs) as Hk. cbn [run].
  assert (exists k', timer_handler (ks s) = Some k' /\ lock_inv k' /\ objs k' = objs (ks s)) as (k' & Hr & Hk' & Eo).
  { generalize dependent (ks s). clear s Hs. intros k Htq [Hk (x & Hx & Hsx & Hq)].
    unfold timer_handler. fold (clock_tick k). set (k1 := clock_tick k).
    assert (threads k1 = threads k /\ readyq k1 = readyq k /\ current_thread k1 = current_thread k /\ tq k1 = tq k /\ objs k1 = objs k)
      as (Et & Er & Ec & Eq & Eob) by (unfold k1, clock_tick; by case_ztest).
    destruct (Timer.timer_tick_returns (tq k1) ts (timeoutflag k1)) as (fl & σ & ->); [by rewrite Eq|].
    cbn [mbind option_bind]. set (k2 := set_tq fl σ k1).
    assert (lock_core k2) as Hk2.
    { apply (lock_core_threads k); [done| |done|..].
      - apply (wait_inv_kept k); [apply Hk| | |..]; simpl; rewrite ?Et, ?Eob; eauto.
        apply (sched_inv_ext k); [done..|apply Hk].
      - simpl. rewrite Et. intros t y Hy. eauto.
      - simpl. rewrite Et. eauto. }
    assert (threads k2 !! current_thread k2 = Some x) as Hx2 by (simpl; by rewrite Et, Ec).
    pose proof (rq_wf _ _ (wait_inv_rq _ (lc_wait _ Hk2)) _ _ Hx2) as Hwf.
    destruct (rr_cl_tick_spec _ k2 x Hx2 Hwf Hq) as (y & -> & Hy). cbn [mbind option_bind].
    pose proof (ticked_wf x y Hwf Hy) as Hwy. destruct Hy as (Hty & Hsy & Hcy & _ & Hch & Hso & _).
    simpl (threads (set_threads _ _)). change (current_thread (set_threads _ _)) with (current_thread k2).
    rewrite lookup_insert_eq. cbn [mbind option_bind]. set (k3 := set_threads _ k2).
    assert (lock_core k3) as Hk3.
    { apply (lock_core_thread k2 _ x); auto. left. rewrite Hsx. done. }
    assert (threads k3 !! current_thread k3 = Some y) as Hy3 by (simpl; by rewrite lookup_insert_eq).
    case_match eqn:Htest.
    - destruct (schedule_away k3 y Hk3 Hy3) as (k' & -> & Hk' & (_ & Eo & _) & _); [rewrite Hsy, Hsx; done|].
      exists k'. split; [done|]. split; [done|]. rewrite Eo. exact Eob.
    - exists k3. split; [done|]. split; [|exact Eob]. split; [done|]. exists y. split; [done|]. split; [congruence|].
      apply orb_false_iff in Htest as [Htest _]. apply orb_false_iff in Htest as [Htest _].
      apply Z.leb_gt in Htest. rewrite Hty in *. unfold TIME_QUANTUM in *. lia. }
  pose proof (timer_handler_stable _ _ Hr) as Hst. rewrite Hr. cbn [mbind option_bind]. eexists; split; [done|].
  apply sys_step_inv with s; [done|done|done| |apply Hs]. intros t o. by rewrite (sv_held _ Hs), Eo.
Qed.

Lemma age_op_inv s : sys_inv s -> exists s', run OAge s = Some s' /\ sys_inv s'.
Proof.
  intros Hs. pose proof (sv_lock _ Hs) as Hk. cbn [run].
  destruct (decide (priocompute (ks s) = 1)) as [Hp|Hp]; cycle 1.
  { unfold reprioritise. destruct (Z.eqb_spec (priocompute (ks s)) 1); [done|]. cbn [mbind option_bind].
    eexists; split; [done|]. by destruct s. }
  destruct (reprioritise_ok _ (wi_sched _ (lc_wait _ (li_core _ Hk))) Hp) as (k' & -> & Hs' & (_ & Eo & Ec & _) & Ha).
  cbn [mbind option_bind]. eexists; split; [done|].
  assert (forall t x, threads (ks s) !! t = Some x -> exists y, threads k' !! t = Some y /\ sc_state y = sc_state x /\
    sc_cid y = sc_cid x /\ sc_tqleft y = sc_tqleft x /\ kt_slpchannel y = kt_slpchannel x /\
    kt_synchobjlist y = kt_synchobjlist x) as Hf.
  { intros t x Hx. rewrite Ha, Hx. simpl. eexists; split; [done|]. by destruct (_ && _). }
  assert (forall t, threads (ks s) !! t = None -> threads k' !! t = None) as Hn by (intros t E; by rewrite Ha, E).
  assert (lock_inv k') as Hk'.
  { split.
    - apply (lock_core_threads (ks s)); [apply Hk| |done|..].
      + apply (wait_inv_kept (ks s)); [apply Hk|done|by rewrite Eo| |done].
        intros t x Hx. destruct (Hf t x Hx) as (y & ? & ? & ? & ? & ? & ?). eauto.
      + intros t x Hx. destruct (Hf t x Hx) as (y & Hy & E & ? & ? & ? & ?). exists y. rewrite E. auto.
      + intros t y Hy. destruct (threads (ks s) !! t) as [x|] eqn:Hx; [|rewrite Hn in Hy; done].
        destruct (Hf t x Hx) as (y' & ? & ? & ? & ? & ? & ?). exists x. split; [done|]. congruence.
    - destruct (li_run _ Hk) as (x & Hx & Hsx & Hq). destruct (Hf _ x Hx) as (y & Hy & E & ? & E2 & ? & ?).
      exists y. rewrite Ec. split; [done|]. rewrite E, E2. done. }
  apply sys_step_inv with s; [done|done| | |apply Hs].
  - split; [by rewrite Eo|]. intros t. destruct (threads (ks s) !! t) as [x|] eqn:Hx; [|by rewrite Hn].
    destruct (Hf t x Hx) as (y & -> & ? & ? & ?). simpl. congruence.
  - intros t o. by rewrite (sv_held _ Hs), Eo.
Qed.

Lemma run_inv o s : sys_inv s -> enabled o s -> exists s', run o s = Some s' /\ sys_inv s'.
Proof.
  intros Hs He. destruct o; simpl in He.
  - destruct He as (? & _ & ?). by apply lock_op_inv.
  - destruct He. by apply trylock_op_inv.
  - destruct He. by apply unlock_op_inv.
  - destruct He as (? & _ & ?). by apply rlock_op_inv.
  - destruct He. by apply runlock_op_inv.
  - by apply sleep_op_inv.
  - destruct He as ((ob & Ho & Ht) & _). cbn [run].
    destruct (event_wakeup_ok (ks s) e ob (sv_lock _ Hs) Ho Ht) as (k' & ob' & Hr & Hk' & _ & Eo & _ & _ & Hty & _).
    pose proof (event_wakeup_stable _ _ _ _ Hr) as Hst. rewrite Hr. cbn [mbind option_bind]. eexists; split; [done|].
    apply sys_step_inv with s; [done|done|done| |apply Hs]. intros t o. rewrite (sv_held _ Hs), Eo. symmetry.
    eapply lowned_same; [done|done|done|]. by rewrite Ht.
  - cbn [run]. destruct (pend s !! current_thread (ks s)) as [[l|l]|] eqn:Hp; [..|by exists s];
      destruct (sv_pend _ Hs _ _ Hp) as [Hid Hty]; [by apply lock_op_inv|by apply rlock_op_inv].
  - by apply tick_op_inv.
  - by apply age_op_inv.
Qed.

(** Executions. *)
Inductive step (s s' : sys) : Prop :=
  Step o : enabled o s -> run o s = Some s' -> step s s'.

(** C1: Mutual exclusion.  In every state reachable, by any interleaving of
    lock, recursive-lock, event and clock steps of the threads, from a state
    where the invariant holds, at most one thread is between a successful
    acquisition of a lock and its release; the queues, the thread states and the
    owner fields agree, and the thread the model says holds a lock is the one
    recorded in the lock. *)
Theorem lock_mutual_exclusion s0 s :
  sys_inv s0 -> rtc step s0 s ->
  sys_inv s /\ forall t1 t2 l, (t1, l) ∈ held s -> (t2, l) ∈ held s -> t1 = t2.
Proof.
  intros H0 Hr. assert (sys_inv s) as Hs.
  { revert H0. induction Hr as [|s1 s2 s3 [o He Hrun] _ IH]; [done|]. intros H1. apply IH.
    destruct (run_inv o s1 H1 He) as (s' & E & Hs'). congruence. }
  split; [done|]. intros t1 t2 l H1%(sv_held _ Hs) H2%(sv_held _ Hs).
  destruct H1 as (ob & Ho & _ & E1), H2 as (ob' & Ho' & _ & E2). congruence.
Qed.

(** C2: No call goes wrong.  In a state where the invariant holds, every call a
    thread may make returns or blocks: none dereferences a bad pointer, indexes
    outside the ready queues, runs out of threads to schedule, or loops in the
    chain of lock owners, and the invariant holds afterwards. *)
Theorem lock_calls_safe o s :
  sys_inv s -> enabled o s -> exists s', run o s = Some s' /\ sys_inv s'.
Proof. apply run_inv. Qed.

(** * Concrete states

    [ex_l] adds a lock (10), an event (11) and a recursive lock (12) to
    [Sched.ex_k]; in [ex_h] thread 1 has locked 10 and thread 2 runs; in [ex_w]
    thread 2 has been waiting for 10 too, and thread 1 runs again. *)

Definition eventobj_init : synchobj := mk_obj SYNCH_TYPE_EVENT [] NULL NULL NULL 0 0.
Definition ex_l : kstate :=
  set_objs (list_to_map [(10%positive, lockobj_init); (11%positive, eventobj_init); (12%positive, rlockobj_init)]) ex_k.

Definition result (d : kstate) (r : option (outcome * kstate)) : kstate :=
  match r with Some (_, k) => k | None => d end.

Definition ex_h1 : kstate := result ex_l (lock_1 10 ex_l).
Definition ex_h : kstate := default ex_l (scheduler ex_h1).
Definition ex_w : kstate := result ex_l (lock_1 10 ex_h).

Lemma ex_l_inv : lock_inv ex_l.
Proof.
  assert (forall t x, threads ex_l !! t = Some x ->
    kt_slpchannel x = NULL /\ kt_synchobjlist x = NULL) as Hall.
  { change (map_Forall (fun t x => kt_slpchannel x = NULL /\ kt_synchobjlist x = NULL) (threads ex_l)).
    by apply (bool_decide_unpack _); vm_compute. }
  assert (forall o ob, objs ex_l !! o = Some ob -> sl_waiters ob = [] /\ o_owner ob = NULL /\ o_val ob = 0 /\ o_level ob = 0) as Hobj.
  { change (map_Forall (fun o ob => sl_waiters ob = [] /\ o_owner ob = NULL /\ o_val ob = 0 /\ o_level ob = 0) (objs ex_l)).
    by apply (bool_decide_unpack _); vm_compute. }
  split; [split|].
  - split; [by apply (sched_inv_ext ex_k); [..|apply ex_k_inv]|..].
    + intros o ob Ho. destruct (Hobj o ob Ho) as (-> & _). constructor.
    + intros o ob t Ho. destruct (Hobj o ob Ho) as (-> & _). by intros ?%elem_of_nil.
    + intros t x o Hx Hc. destruct (Hall t x Hx) as [E _]. congruence.
  - intros o ob Ho _. left. destruct (Hobj o ob Ho) as (? & ? & ? & ?). by split_and!.
  - intros t x Hx. exists []. destruct (Hall t x Hx) as [_ ->]. split; [done|]. split; [apply Queue.dlist_nil|].
    intros o. split; [by intros ?%elem_of_nil|]. intros (ob & Ho & _ & E). destruct (Hobj o ob Ho) as (_ & ? & _). congruence.
  - exists 3%positive. split; eexists; (split; [vm_compute; reflexivity|vm_compute; auto]).
  - eexists. split; [vm_compute; reflexivity|]. split; [reflexivity|]. vm_compute. by split.
Qed.

Lemma ex_h1_inv : lock_inv ex_h1.
Proof.
  destruct (trylock_lock_1 ex_l 10 lockobj_init ex_l_inv) as (k' & Hr & _ & Hk' & _); [done..|].
  unfold ex_h1. by rewrite Hr.
Qed.

Lemma ex_h_inv : lock_inv ex_h.
Proof.
  destruct (li_run _ ex_h1_inv) as (x & Hx & Hs & _).
  destruct (schedule_away ex_h1 x (li_core _ ex_h1_inv) Hx) as (k' & Hr & Hk' & _); [rewrite Hs; done|].
  unfold ex_h. by rewrite Hr.
Qed.

Lemma ex_not_idle k t x : threads k !! t = Some x -> (sc_cid x =? SCHED_CLASS_IDLE) = false -> ~ is_idle k t.
Proof. intros Hx Hc (y & Hy & E). simplify_eq. apply Z.eqb_neq in Hc. done. Qed.

Lemma ex_w_inv : lock_inv ex_w.
Proof.
  destruct (objs ex_h !! 10%positive) as [ob|] eqn:Ho; [|vm_compute in Ho; discriminate].
  destruct (threads ex_h !! current_thread ex_h) as [x|] eqn:Hx; [|vm_compute in Hx; discriminate].
  destruct (lock_1_blocks ex_h 10 ob x ex_h_inv) as (k' & Hr & Hk' & _).
  - eapply ex_not_idle; [exact Hx|]. vm_compute in Hx. by injection Hx as <-.
  - exact Ho.
  - vm_compute in Ho. injection Ho as <-. by left.
  - vm_compute in Ho. by injection Ho as <-.
  - exact Hx.
  - unfold ex_w. by rewrite Hr.
Qed.

Lemma lock_acquires_witness :
  exists k', lock_1 10 ex_l = Some (Returned ELOCK_SUCCESS, k') /\ lock_inv k' /\
    owned (objs k') (current_thread ex_l) 10 /\ current_thread k' = current_thread ex_l /\
    forall t o, o <> 10%positive -> owned (objs k') t o <-> owned (objs ex_l) t o.
Proof. apply (lock_acquires ex_l 10 lockobj_init ex_l_inv); reflexivity. Defined.

Lemma lock_blocks_witness :
  exists k' ob', lock_1 10 ex_h = Some (Blocked, k') /\ lock_inv k' /\
    objs k' !! 10%positive = Some ob' /\ sl_waiters ob' = [2%positive] /\ o_owner ob' = Some 1%positive /\
    current_thread k' <> 2%positive /\
    exists t y, Some 1%positive = Some t /\ threads k' !! t = Some y /\ 105 <= eff y.
Proof.
  refine (lock_blocks ex_h 10 (mk_obj 0 [] NULL NULL (Some 1%positive) 1 0)
            (mk_thr 2 0 105 0 0 THREAD_STATE_RUNNING 100 0 0 5980 NULL NULL 1) ex_h_inv _ _ _ _ _);
    try (vm_compute; reflexivity).
  eapply ex_not_idle; [vm_compute; reflexivity|reflexivity].
Defined.

Lemma unlock_frees_witness :
  exists k' ob', unlock 10 ex_w = Some (ELOCK_SUCCESS, k') /\ lock_inv k' /\
    objs k' !! 10%positive = Some ob' /\ free_lock ob' /\
    (forall t, t ∈ [2%positive] -> exists y, threads k' !! t = Some y /\ sc_state y = THREAD_STATE_READY) /\
    (exists y, threads k' !! 1%positive = Some y /\ (kt_synchobjlist y = NULL -> sc_inhpri y = 0)).
Proof.
  apply (unlock_frees ex_w 10 (mk_obj 0 [2%positive] NULL NULL (Some 1%positive) 1 0) ex_w_inv); vm_compute; reflexivity.
Defined.

Lemma rlock_nests_witness :
  exists k1 k2 ob2, rlocks 3 12 ex_l = Some k1 /\ runlocks 2 12 k1 = Some k2 /\ lock_inv k2 /\
    objs k2 !! 12%positive = Some ob2 /\ o_owner ob2 = Some 1%positive.
Proof. apply (rlock_nests ex_l 12 rlockobj_init 3 2 ex_l_inv); [reflexivity..|lia|lia]. Defined.

Lemma event_sleep_atomic_witness :
  exists k' ob' obl', event_sleep_1 11 (Some 10%positive) ex_w = Some (Blocked, k') /\ lock_inv k' /\
    objs k' !! 11%positive = Some ob' /\ sl_waiters ob' = [1%positive] /\
    objs k' !! 10%positive = Some obl' /\ free_lock obl' /\ (forall t, t ∈ [2%positive] -> runnable k' t).
Proof.
  apply (event_sleep_atomic ex_w 11 eventobj_init 10 (mk_obj 0 [2%positive] NULL NULL (Some 1%positive) 1 0) ex_w_inv);
    try (vm_compute; reflexivity).
  eapply ex_not_idle; [vm_compute; reflexivity|reflexivity].
Defined.

Lemma event_wakeup_all_witness :
  exists k' ob', event_wakeup 11 ex_l = Some (0, k') /\ lock_inv k' /\ same_env ex_l k' /\
    objs k' = <[11%positive := ob']> (objs ex_l) /\ sl_waiters ob' = [] /\ o_val ob' = 0 /\
    forall t, threads k' !! t = threads ex_l !! t.
Proof.
  destruct (event_wakeup_all ex_l 11 eventobj_init ex_l_inv) as (k' & ob' & H); [reflexivity..|].
  exists k', ob'. exact H.
Defined.

Lemma event_timeout_removes_witness : event_wait_remove_thread 11 2 ex_l = Some (false, ex_l).
Proof. apply (event_timeout_removes ex_l 11 eventobj_init 2 ex_l_inv); reflexivity. Defined.

Definition ex_sys : sys := mk_sys ex_l ∅ ∅.

Lemma ex_sys_inv : sys_inv ex_sys.
Proof.
  split; [exact ex_l_inv|..].
  - intros t l. split; [by intros ?%elem_of_empty|]. intros (ob & Ho & _ & E).
    assert (map_Forall (fun _ ob => o_owner ob = NULL) (objs ex_l)) as Hn by (by apply (bool_decide_unpack _); vm_compute).
    specialize (Hn l ob Ho). simpl in Hn. congruence.
  - intros t p E. change (pend ex_sys) with (∅ : gmap loc pending) in E. by rewrite lookup_empty in E.
Qed.

Lemma lock_calls_safe_witness : exists s', run (OLock 10) ex_sys = Some s' /\ sys_inv s'.
Proof.
  apply (lock_calls_safe (OLock 10) ex_sys ex_sys_inv). split; [by exists lockobj_init|]. split; [reflexivity|].
  eapply ex_not_idle; [vm_compute; reflexivity|reflexivity].
Defined.

Lemma lock_mutual_exclusion_witness :
  exists s, rtc step ex_sys s /\ sys_inv s /\ forall t1 t2 l, (t1, l) ∈ held s -> (t2, l) ∈ held s -> t1 = t2.
Proof.
  destruct (run (OLock 10) ex_sys) as [s|] eqn:E; [|vm_compute in E; discriminate].
  assert (rtc step ex_sys s) as Hr.
  { apply rtc_once. apply (Step _ _ (OLock 10)); [|exact E]. split; [by exists lockobj_init|]. split; [reflexivity|].
    eapply ex_not_idle; [vm_compute; reflexivity|reflexivity]. }
  exists s. split; [exact Hr|]. apply (lock_mutual_exclusion ex_sys s ex_sys_inv Hr).
Defined.

End Lock.
