(* ===== verification/Semaphore.v ===== *)
(** Semaphores ([src/base/semaphore.c]) over the threads and queues of [Sched]
    and the locks of [Lock].  The calls that can block are given in pieces, as
    in [Lock]. *)
From S2P Require Import Prelude Timer Queue Sched Lock.

Module Semaphore.
Import Sched Lock.

Definition MAXSEM : Z := 50.
Definition EINVALID_ARGUMENT : Z := -52.
Definition ESEMNOTFOUND : Z := -96.
Definition O_CREAT : Z := 0x20.
Definition O_EXCL : Z := 0x40.

(** * Data *)

(** [struct semtable_entry]; its [sement_slq] header is the object at that
    address in [objs], as the queue macros see it. *)
Record sement := mk_sem {
  sement_slq : loc; sement_type : Z; sement_no : Z; sement_refcount : Z; sement_destroyflag : Z;
  sement_ownerproc : ptr; sement_val : Z; sement_name : string }.

Definition with_no (n : Z) (e : sement) : sement :=
  mk_sem (sement_slq e) (sement_type e) n (sement_refcount e) (sement_destroyflag e) (sement_ownerproc e) (sement_val e) (sement_name e).
Definition with_refcount (n : Z) (e : sement) : sement :=
  mk_sem (sement_slq e) (sement_type e) (sement_no e) n (sement_destroyflag e) (sement_ownerproc e) (sement_val e) (sement_name e).
Definition with_semval (v : Z) (e : sement) : sement :=
  mk_sem (sement_slq e) (sement_type e) (sement_no e) (sement_refcount e) (sement_destroyflag e) (sement_ownerproc e) v (sement_name e).
Definition with_name (s : string) (e : sement) : sement :=
  mk_sem (sement_slq e) (sement_type e) (sement_no e) (sement_refcount e) (sement_destroyflag e) (sement_ownerproc e) (sement_val e) s.
Definition with_destroyflag (n : Z) (e : sement) : sement :=
  mk_sem (sement_slq e) (sement_type e) (sement_no e) (sement_refcount e) n (sement_ownerproc e) (sement_val e) (sement_name e).
(** The stores that free an entry: type, number, owner, value, count and name. *)
Definition cleared (e : sement) : sement := mk_sem (sement_slq e) 0 0 0 0 NULL 0 "".

(** The kernel with its semaphore table. *)
Record sstate := mk_ss { sk : kstate; semtable : list sement; next_semno : Z }.
Definition set_k (k : kstate) (s : sstate) : sstate := mk_ss k (semtable s) (next_semno s).
Definition set_table (t : list sement) (s : sstate) : sstate := mk_ss (sk s) t (next_semno s).

(** The user's handle, [struct seminternal_t]. *)
Record sem_t := mk_handle { sem_ind : Z; sem_no : Z }.

Definition current_process (k : kstate) : option loc := x ← threads k !! current_thread k; Some (kt_process x).

(** Stores into entry [i] and into its header. *)
Definition upd_ent (i : Z) (f : sement -> sement) (s : sstate) : option sstate :=
  e ← zget (semtable s) i; t ← zset (semtable s) i (f e); Some (set_table t s).

(** The checks shared by the calls that take a handle: the index range and the
    number.  [None] is undefined behaviour, a read outside the table. *)
Definition bad_index (h : sem_t) : bool := (sem_ind h <? 0) || (MAXSEM <? sem_ind h).
Definition lookup_sem (h : sem_t) (s : sstate) : option (option sement) :=
  if bad_index h then Some None else
  e ← zget (semtable s) (sem_ind h);
  if sem_no h =? sement_no e then Some (Some e) else Some None.

(** * Creation and destruction *)

(** [semobj_init]: the header fields, then the entry's. *)
Definition semobj_init (i pshared val : Z) (s : sstate) : option sstate :=
  e ← zget (semtable s) i;
  k ← upd_obj (sement_slq e) (fun ob => mk_obj SYNCH_TYPE_SEM [] NULL NULL (o_owner ob) (o_val ob) (o_level ob)) (sk s);
  p ← current_process (sk s);
  upd_ent i (fun e => mk_sem (sement_slq e) (if pshared =? 0 then 0 else 1) (sement_no e) 1 0 (Some p) val "") (set_k k s).

(** The loop that looks for a free entry. *)
Fixpoint find_free (t : list sement) (i : Z) : option Z :=
  match t with
  | [] => None
  | e :: t' => if sement_no e =? 0 then Some i else find_free t' (i + 1)
  end.

(** [syscall_sem_init] with [semtable_lock] taken by the first line and released
    after the search; blocked, it starts again from there. *)
Definition syscall_sem_init (semtable_lock : loc) (pshared val : Z) (s : sstate) : option (outcome * option sem_t * sstate) :=
  '(r, k) ← lock_1 semtable_lock (sk s);
  let s := set_k k s in
  match r with
  | Blocked => Some (Blocked, None, s)
  | Returned _ =>
      match find_free (semtable s) 0 with
      | None => '(_, k) ← unlock semtable_lock (sk s); Some (Returned (-1), None, set_k k s)
      | Some i =>
          s ← upd_ent i (with_no (next_semno s)) (mk_ss (sk s) (semtable s) (s32 (next_semno s + 1)));
          '(_, k) ← unlock semtable_lock (sk s);
          let s := set_k k s in
          e ← zget (semtable s) i;
          s ← semobj_init i pshared (s32 val) s;
          Some (Returned 0, Some (mk_handle i (sement_no e)), s)
      end
  end.

(** The loop of [syscall_sem_destroy]: the waiters are woken with [wakeup]. *)
Fixpoint wakeup_all (o : loc) (q : list loc) (k : kstate) : option kstate :=
  match q with
  | [] => Some k
  | t :: q' => k ← upd_obj o (with_waiters q') k; k ← wakeup t k; wakeup_all o q' k
  end.

Definition syscall_sem_destroy (h : sem_t) (s : sstate) : option (Z * sstate) :=
  p ← current_process (sk s);
  if bad_index h then Some (EINVALID_ARGUMENT, s) else
  e ← zget (semtable s) (sem_ind h);
  if negb (sem_no h =? sement_no e) || ((sement_type e =? 0) && negb (bool_decide (sement_ownerproc e = Some p)))
  then Some (EINVALID_ARGUMENT, s) else
  ob ← objs (sk s) !! sement_slq e;
  k ← wakeup_all (sement_slq e) (sl_waiters ob) (sk s);
  k ← upd_obj (sement_slq e) (fun ob => mk_obj SYNCH_TYPE_SEM [] NULL NULL (o_owner ob) (o_val ob) (o_level ob)) k;
  s ← upd_ent (sem_ind h) cleared (set_k k s);
  Some (0, s).

(** The search by name: [strcmp(semtable[i].sement_name, name) == 0]. *)
Fixpoint find_name (t : list sement) (name : string) (i : Z) : option Z :=
  match t with
  | [] => None
  | e :: t' => if bool_decide (sement_name e = name) then Some i else find_name t' name (i + 1)
  end.

(** How [syscall_sem_open] ends: with a handle, with [NULL], or with [NULL] and
    [semtable_lock] still held and interrupts off (the [O_EXCL] return). *)
Inductive opened := Opened (h : sem_t) | OpenFailed | OpenFailedLocked | OpenBlocked.

Definition syscall_sem_open (semtable_lock : loc) (name : string) (oflag value : Z) (s : sstate) : option (opened * sstate) :=
  '(r, k) ← lock_1 semtable_lock (sk s);
  let s := set_k k s in
  match r with
  | Blocked => Some (OpenBlocked, s)
  | Returned _ =>
      match find_name (semtable s) name 0 with
      | None =>
          if Z.land oflag O_CREAT =? 0 then '(_, k) ← unlock semtable_lock (sk s); Some (OpenFailed, set_k k s) else
          match find_free (semtable s) 0 with
          | None => '(_, k) ← unlock semtable_lock (sk s); Some (OpenFailed, set_k k s)
          | Some i =>
              s ← upd_ent i (with_no (next_semno s)) (mk_ss (sk s) (semtable s) (s32 (next_semno s + 1)));
              e ← zget (semtable s) i;
              s ← semobj_init i 1 (s32 value) s;
              s ← upd_ent i (with_name (String.substring 0 98 name)) s;
              '(_, k) ← unlock semtable_lock (sk s);
              Some (Opened (mk_handle i (sement_no e)), set_k k s)
          end
      | Some i =>
          if negb (Z.land oflag O_EXCL =? 0) then Some (OpenFailedLocked, s) else
          e ← zget (semtable s) i;
          s ← upd_ent i (fun e => with_refcount (s32 (sement_refcount e + 1)) e) s;
          '(_, k) ← unlock semtable_lock (sk s);
          Some (Opened (mk_handle i (sement_no e)), set_k k s)
      end
  end.

Definition syscall_sem_close (semtable_lock : loc) (h : sem_t) (s : sstate) : option (outcome * sstate) :=
  if bad_index h then Some (Returned EINVALID_ARGUMENT, s) else
  '(r, k) ← lock_1 semtable_lock (sk s);
  let s := set_k k s in
  match r with
  | Blocked => Some (Blocked, s)
  | Returned _ =>
      e ← zget (semtable s) (sem_ind h);
      if negb (sem_no h =? sement_no e) || negb (sement_type e =? 1) then
        '(_, k) ← unlock semtable_lock (sk s); Some (Returned EINVALID_ARGUMENT, set_k k s)
      else
      s ← upd_ent (sem_ind h) (fun e => with_refcount (s32 (sement_refcount e - 1)) e) s;
      e ← zget (semtable s) (sem_ind h);
      s ← (if (sement_refcount e <=? 0) && (sement_destroyflag e =? 1) then upd_ent (sem_ind h) cleared s else Some s);
      '(_, k) ← unlock semtable_lock (sk s);
      Some (Returned 0, set_k k s)
  end.

Definition syscall_sem_unlink (semtable_lock : loc) (name : string) (s : sstate) : option (outcome * sstate) :=
  '(r, k) ← lock_1 semtable_lock (sk s);
  let s := set_k k s in
  match r with
  | Blocked => Some (Blocked, s)
  | Returned _ =>
      match find_name (semtable s) name 0 with
      | Some i =>
          s ← upd_ent i (fun e => with_name "" (with_destroyflag 1 e)) s;
          e ← zget (semtable s) i;
          s ← (if sement_refcount e <=? 0 then upd_ent i cleared s else Some s);
          '(_, k) ← unlock semtable_lock (sk s);
          Some (Returned 0, set_k k s)
      | None => '(_, k) ← unlock semtable_lock (sk s); Some (Returned ESEMNOTFOUND, set_k k s)
      end
  end.

(** * Waiting and posting *)

(** Queue the current thread on the header and let another one run. *)
Definition sem_sleep (o : loc) (k : kstate) : option kstate :=
  k ← ADD_SLQ o (current_thread k) k;
  k ← upd_thr (current_thread k) (with_state THREAD_STATE_SLEEP) k;
  upd_thr (current_thread k) (with_slpchannel (Some o)) k.

(** [syscall_sem_wait] up to its return or to [scheduler()]. *)
Definition syscall_sem_wait (h : sem_t) (s : sstate) : option (outcome * sstate) :=
  oe ← lookup_sem h s;
  match oe with
  | None => Some (Returned EINVALID_ARGUMENT, s)
  | Some e =>
      let v := s32 (sement_val e - 1) in
      s ← upd_ent (sem_ind h) (with_semval v) s;
      if v <? 0 then
        k ← sem_sleep (sement_slq e) (sk s);
        k ← scheduler k;
        Some (Blocked, set_k k s)
      else
        k ← ADD_SYNCHOBJ (sement_slq e) (current_thread (sk s)) (sk s);
        Some (Returned 0, set_k k s)
  end.

(** The rest of [syscall_sem_wait], when the thread runs again. *)
Definition sem_wait_resume (h : sem_t) (s : sstate) : option (Z * sstate) :=
  e ← zget (semtable s) (sem_ind h);
  if negb (sem_no h =? sement_no e) then Some (-1, s) else
  k ← ADD_SYNCHOBJ (sement_slq e) (current_thread (sk s)) (sk s);
  Some (0, set_k k s).

Definition syscall_sem_trywait (h : sem_t) (s : sstate) : option (Z * sstate) :=
  oe ← lookup_sem h s;
  match oe with
  | None => Some (EINVALID_ARGUMENT, s)
  | Some e =>
      let v := s32 (sement_val e - 1) in
      s ← upd_ent (sem_ind h) (with_semval v) s;
      if v <? 0 then s ← upd_ent (sem_ind h) (with_semval (s32 (v + 1))) s; Some (-1, s)
      else
        k ← ADD_SYNCHOBJ (sement_slq e) (current_thread (sk s)) (sk s);
        Some (0, set_k k s)
  end.

(** [removethread_fromsemwait], run by the timer thread: whether [lock_failed]
    was set. *)
Definition removethread_fromsemwait (o th1 : loc) (k : kstate) : option (bool * kstate) :=
  ob ← objs k !! o;
  if bool_decide (th1 ∈ sl_waiters ob) then
    k ← upd_obj o (fun ob => with_waiters (filter (fun x => x <> th1) (sl_waiters ob)) ob) k;
    k ← wakeup th1 k;
    Some (true, k)
  else Some (false, k).

(** [syscall_sem_timedwait] from [CLI], with [timerq_lock] held by the caller,
    to its return or to [scheduler()].  [delay] is [timedelaymsec], an unsigned
    long, so that the test [timedelaymsec < 0] is never true; [tob] is the timer
    object of the caller's frame with its handler already set. *)
Definition sem_timedwait_1 (timerq_lock tob : loc) (h : sem_t) (e : sement) (delay : Z) (s : sstate)
  : option (outcome * sstate) :=
  let v := s32 (sement_val e - 1) in
  s ← upd_ent (sem_ind h) (with_semval v) s;
  if v <? 0 then
    if u32 delay <? 0 then
      s ← upd_ent (sem_ind h) (with_semval (s32 (v + 1))) s;
      '(_, k) ← unlock timerq_lock (sk s); Some (Returned ETIMEDOUT, set_k k s)
    else
    m ← Timer.store tob (Timer.set_count (s32 delay)) (Timer.tobjs (tq (sk s)));
    q ← Timer.insert_timerobj tob (Timer.mk_ts (Timer.timers (tq (sk s))) m);
    k ← sem_sleep (sement_slq e) (set_timers q (sk s));
    k ← DEL_SYNCHOBJ timerq_lock (current_thread k) k;
    k ← upd_obj timerq_lock (with_owner NULL) k;
    '(_, k) ← wake_waiters timerq_lock k;
    k ← upd_obj timerq_lock (with_val 0) k;
    k ← scheduler k;
    Some (Blocked, set_k k s)
  else
    k ← ADD_SYNCHOBJ (sement_slq e) (current_thread (sk s)) (sk s);
    '(_, k) ← unlock timerq_lock k;
    Some (Returned 0, set_k k s).

(** Its end, with [timerq_lock] taken again; [failed] as the handler left it. *)
Definition sem_timedwait_2 (timerq_lock tob : loc) (h : sem_t) (failed : bool) (s : sstate) : option (Z * sstate) :=
  t3 ← Timer.tobjs (tq (sk s)) !! tob;
  '(failed, k) ← (if 0 <=? Timer.timer_count t3 then
                    q ← Timer.remove_timerobj tob (tq (sk s)); Some (false, set_timers q (sk s))
                  else Some (failed, sk s));
  '(_, k) ← unlock timerq_lock k;
  let s := set_k k s in
  e ← zget (semtable s) (sem_ind h);
  if negb (sem_no h =? sement_no e) then Some (-1, s)
  else if (failed : bool) then Some (ETIMEDOUT, s)
  else k ← ADD_SYNCHOBJ (sement_slq e) (current_thread (sk s)) (sk s); Some (0, set_k k s).

Definition syscall_sem_post (h : sem_t) (s : sstate) : option (Z * sstate) :=
  oe ← lookup_sem h s;
  match oe with
  | None => Some (EINVALID_ARGUMENT, s)
  | Some e =>
      k ← DEL_SYNCHOBJ (sement_slq e) (current_thread (sk s)) (sk s);
      let v := s32 (sement_val e + 1) in
      s ← upd_ent (sem_ind h) (with_semval v) (set_k k s);
      if v <=? 0 then
        ob ← objs (sk s) !! sement_slq e;
        (* DEL_SLQ gives NULL on an empty queue, which wakeup dereferences *)
        match sl_waiters ob with
        | [] => None
        | t :: q =>
            k ← upd_obj (sement_slq e) (with_waiters q) (sk s);
            k ← wakeup t k;
            Some (0, set_k k s)
        end
      else Some (0, s)
  end.

Definition syscall_sem_getvalue (h : sem_t) (s : sstate) : option (Z * option Z) :=
  oe ← lookup_sem h s;
  match oe with
  | None => Some (EINVALID_ARGUMENT, None)
  | Some e => Some (0, Some (sement_val e))
  end.

(** * Invariant *)

(** Every link points to an object. *)
Definition links_ok (k : kstate) : Prop :=
  (forall t x p, threads k !! t = Some x -> kt_synchobjlist x = Some p -> is_Some (objs k !! p)) /\
  (forall o ob p, objs k !! o = Some ob -> sl_next ob = Some p \/ sl_prev ob = Some p -> is_Some (objs k !! p)).

Record sem_inv (s : sstate) : Prop := {
  sv_wait : wait_inv (sk s);
  sv_run : running_ok (sk s);
  sv_idle : idle_ok (sk s);
  sv_proc t x : threads (sk s) !! t = Some x -> proc_state (sk s) !! kt_process x = Some PROC_STATE_READY;
  sv_links : links_ok (sk s);
  sv_ent i e : semtable s !! i = Some e ->
    exists ob, objs (sk s) !! sement_slq e = Some ob /\ zlen (sl_waiters ob) = Z.max 0 (- sement_val e);
  sv_inj i j e e' : semtable s !! i = Some e -> semtable s !! j = Some e' -> sement_slq e = sement_slq e' -> i = j }.

(** ** The list macros where links are only known to be valid *)

Lemma is_Some_insert {A} (m : gmap loc A) i x j : is_Some (m !! j) -> is_Some (<[i := x]> m !! j).
Proof. intros H. destruct (decide (j = i)) as [->|]; [rewrite lookup_insert_eq; eauto|by rewrite lookup_insert_ne]. Qed.

Lemma links_insert_obj k o ob ob' :
  links_ok k -> objs k !! o = Some ob ->
  (forall p, sl_next ob' = Some p \/ sl_prev ob' = Some p -> is_Some (objs k !! p)) ->
  links_ok (set_objs (<[o := ob']> (objs k)) k).
Proof.
  intros [H1 H2] Ho Hp. split; simpl; intros; apply is_Some_insert; [eauto|].
  destruct (decide (o0 = o)) as [->|]; [rewrite lookup_insert_eq in H; simplify_eq; eauto|].
  rewrite lookup_insert_ne in H by done. eauto.
Qed.

Lemma links_insert_thr k t y :
  links_ok k -> (forall p, kt_synchobjlist y = Some p -> is_Some (objs k !! p)) ->
  links_ok (set_threads (<[t := y]> (threads k)) k).
Proof.
  intros [H1 H2] Hp. split; simpl; [|eauto]. intros t' x p Hx.
  destruct (decide (t' = t)) as [->|]; [rewrite lookup_insert_eq in Hx; simplify_eq; eauto|].
  rewrite lookup_insert_ne in Hx by done. eauto.
Qed.

(** Both macros change links and one list head only. *)
Definition relinked (k k' : kstate) (t : loc) : Prop :=
  links_ok k' /\ same_core (objs k) (objs k') /\
  (exists x p, threads k !! t = Some x /\ k' = relink t (with_synchobjlist p x) (objs k') k).

Lemma ADD_SYNCHOBJ_valid o t k x :
  links_ok k -> threads k !! t = Some x -> is_Some (objs k !! o) ->
  exists k', ADD_SYNCHOBJ o t k = Some k' /\ relinked k k' t.
Proof.
  intros Hl Hx [ob Ho]. unfold ADD_SYNCHOBJ. rewrite Hx. cbn [mbind option_bind].
  rewrite (upd_obj_Some o _ k ob) by done. cbn [mbind option_bind].
  set (ob1 := with_prev NULL _). set (k1 := set_objs _ k).
  assert (links_ok k1) as Hl1.
  { apply (links_insert_obj k o ob); auto. simpl. intros p [E|E]; [|done]. by apply (proj1 Hl t x). }
  assert (same_core (objs k) (objs k1)) as Hc1 by by apply same_core_insert with ob.
  destruct (kt_synchobjlist x) as [h|] eqn:Eh.
  - destruct (proj1 Hl1 t x h Hx Eh) as [hb Hh]. rewrite (upd_obj_Some h _ k1 hb) by done. cbn [mbind option_bind].
    rewrite (upd_thr_Some t _ _ x) by done. eexists; split; [done|]. split; [|split].
    + apply links_insert_thr; [|simpl; intros p [= <-]; apply is_Some_insert, is_Some_insert; eauto].
      apply (links_insert_obj k1 h hb); auto. simpl. intros p [E|E]; [by apply (proj2 Hl1 h hb); auto|].
      injection E as <-. apply is_Some_insert. eauto.
    + etrans; [exact Hc1|]. by apply same_core_insert with hb.
    + by exists x, (Some o).
  - cbn [mbind option_bind]. rewrite (upd_thr_Some t _ _ x) by done. eexists; split; [done|]. split; [|split; [done|by exists x, (Some o)]].
    apply links_insert_thr; [done|]. simpl. intros p [= <-]. apply is_Some_insert. eauto.
Qed.

Lemma DEL_SYNCHOBJ_valid o t k x :
  links_ok k -> threads k !! t = Some x -> is_Some (objs k !! o) ->
  exists k', DEL_SYNCHOBJ o t k = Some k' /\ relinked k k' t.
Proof.
  intros Hl Hx [ob Ho]. unfold DEL_SYNCHOBJ. rewrite Ho. cbn [mbind option_bind].
  assert (exists m1, match sl_next ob with Some n => upd_obj n (with_prev (sl_prev ob)) k | None => Some k end = Some (set_objs m1 k) /\
    links_ok (set_objs m1 k) /\ same_core (objs k) m1) as (m1 & -> & Hl1 & Hc1).
  { destruct (sl_next ob) as [n|] eqn:En; [|exists (objs k); split; [by destruct k|done]].
    destruct (proj2 Hl o ob n Ho) as [nb Hn]; [by left|]. rewrite (upd_obj_Some n _ k nb) by done. eexists; split; [done|].
    split; [|by apply same_core_insert with nb].
    apply (links_insert_obj k n nb); auto. simpl. intros p [E|E]; [by apply (proj2 Hl n nb); auto|].
    apply (proj2 Hl o ob); auto. }
  cbn [mbind option_bind]. simpl (objs _).
  pose proof (Hc1 o) as Hco. rewrite Ho in Hco. destruct (m1 !! o) as [ob1|] eqn:Ho1; [|done]. cbn [mbind option_bind].
  assert (exists k2, match sl_prev ob1 with Some p => upd_obj p (with_next (sl_next ob1)) (set_objs m1 k)
      | None => upd_thr t (with_synchobjlist (sl_next ob1)) (set_objs m1 k) end = Some k2 /\
    links_ok k2 /\ same_core m1 (objs k2) /\
    exists p, k2 = relink t (with_synchobjlist p x) (objs k2) k) as (k2 & -> & Hl2 & Hc2 & p & Ek2).
  { assert (with_synchobjlist (kt_synchobjlist x) x = x) as Ex by by destruct x.
    destruct (sl_prev ob1) as [p|] eqn:Ep.
    - destruct (proj2 Hl1 o ob1 p Ho1) as [pb Hp]; [by right|]. rewrite (upd_obj_Some p _ (set_objs m1 k) pb) by done.
      eexists; split; [done|]. split; [|split; [by apply same_core_insert with pb|]].
      + apply (links_insert_obj (set_objs m1 k) p pb); auto. simpl. intros q [E|E].
        * apply (proj2 Hl1 o ob1); auto.
        * apply (proj2 Hl1 p pb); auto.
      + exists (kt_synchobjlist x). unfold relink. rewrite Ex. rewrite (insert_id (threads k)) by done. by destruct k.
    - rewrite (upd_thr_Some t _ _ x) by done. eexists; split; [done|]. split; [|split; [done|by exists (sl_next ob1)]].
      apply links_insert_thr; [done|]. simpl. intros q E. apply (proj2 Hl1 o ob1); auto. }
  cbn [mbind option_bind]. pose proof (Hc2 o) as Hco2. rewrite Ho1 in Hco2.
  destruct (objs k2 !! o) as [ob2|] eqn:Ho2; [|done].
  rewrite (upd_obj_Some o _ k2 ob2) by done. eexists; split; [done|]. split; [|split].
  - apply (links_insert_obj k2 o ob2); auto. simpl. by intros q [E|E].
  - etrans; [exact Hc1|]. etrans; [exact Hc2|]. by apply same_core_insert with ob2.
  - exists x, p. split; [done|]. rewrite Ek2. done.
Qed.

(** The kernel part of the invariant. *)
Record base_inv (k : kstate) : Prop := {
  bi_wait : wait_inv k;
  bi_run : running_ok k;
  bi_idle : idle_ok k;
  bi_proc t x : threads k !! t = Some x -> proc_state k !! kt_process x = Some PROC_STATE_READY;
  bi_links : links_ok k }.

Lemma sem_base s : sem_inv s -> base_inv (sk s).
Proof. intros []. by split. Qed.

Lemma relinked_base k k' t : base_inv k -> relinked k k' t -> base_inv k' /\ current_thread k' = current_thread k.
Proof.
  intros [Hw Hr Hi Hp Hl] (Hl' & Hc & x & p & Hx & Ek). set (y := with_synchobjlist p x) in *.
  assert (threads k' = <[t := y]> (threads k)) as Et by by rewrite Ek.
  assert (current_thread k' = current_thread k) as Ec by by rewrite Ek.
  split; [|done]. split; [| | | |done].
  - apply (wait_inv_kept k); [done| |intros o; by apply same_core_waiters|..]; rewrite ?Et.
    + destruct (wi_sched _ Hw) as [Hrq Hrun]. apply (sched_inv_ext (set_threads (<[t := y]> (threads k)) k)); [by rewrite Ek..|].
      split.
      * apply (rq_inv_thread _ _ t x); auto. apply (wf_same_prio x); auto. by apply (rq_wf _ _ Hrq t).
      * simpl. intros t' z. destruct (decide (t' = t)) as [->|]; [|rewrite lookup_insert_ne by done; apply Hrun].
        rewrite lookup_insert_eq. intros [= <-]. exact (Hrun t x Hx).
    + intros t' z Hz. destruct (decide (t' = t)) as [->|]; [|rewrite lookup_insert_ne by done; eauto].
      rewrite lookup_insert_eq. simplify_eq. eauto.
    + intros t' Hn. rewrite lookup_insert_ne; [done|congruence].
  - destruct Hr as (z & Hz & Hs & Hq). destruct (decide (current_thread k = t)) as [E|].
    + exists y. rewrite Ec, Et, E, lookup_insert_eq. split; [done|]. simplify_eq. done.
    + exists z. by rewrite Ec, Et, lookup_insert_ne.
  - apply (runs_on_idle k); [|done]. rewrite Et. apply runs_on_insert with x; auto.
  - rewrite Et, Ek. simpl. intros t' z. destruct (decide (t' = t)) as [->|]; [|rewrite lookup_insert_ne by done; apply Hp].
    rewrite lookup_insert_eq. intros [= <-]. by apply (Hp t x).
Qed.

(** A state reached by changing entry [i] and the queue of its header. *)
Lemma sem_inv_step s k' i e e' n :
  sem_inv s -> semtable s !! i = Some e -> base_inv k' -> sement_slq e' = sement_slq e ->
  (forall o, o <> sement_slq e -> sl_waiters <$> objs k' !! o = sl_waiters <$> objs (sk s) !! o) ->
  (exists ob, objs k' !! sement_slq e = Some ob /\ zlen (sl_waiters ob) = Z.max 0 (- sement_val e')) ->
  sem_inv (mk_ss k' (<[i := e']> (semtable s)) n).
Proof.
  intros Hs Hi [B1 B2 B3 B4 B5] Hq Ho Hob. pose proof (lookup_lt_Some _ _ _ Hi) as Hlt. split; simpl; auto.
  - intros j f. rewrite list_lookup_insert. case_decide as Hd; [intros [= <-]; by rewrite Hq|]. intros Hj.
    destruct (sv_ent _ Hs j f Hj) as (ob & Hob' & Hz). assert (sement_slq f <> sement_slq e) as Hne.
    { intros E. apply Hd. split; [|done]. symmetry. by apply (sv_inj _ Hs j i f e). }
    specialize (Ho _ Hne). rewrite Hob' in Ho. destruct (objs k' !! sement_slq f) as [ob'|]; simplify_eq/=.
    exists ob'. split; [done|]. congruence.
  - assert (forall j f, <[i := e']> (semtable s) !! j = Some f ->
      exists f0, semtable s !! j = Some f0 /\ sement_slq f = sement_slq f0) as Hback.
    { intros j f. rewrite list_lookup_insert. case_decide as Hd; [|eauto].
      intros [= <-]. destruct Hd as [<- _]. eauto. }
    intros j j' f f' (f0 & Hf0 & E0)%Hback (f1 & Hf1 & E1)%Hback E. apply (sv_inj _ Hs j j' f0 f1); congruence.
Qed.

Lemma upd_ent_Some i f s e :
  zget (semtable s) i = Some e -> upd_ent i f s = Some (set_table (<[Z.to_nat i := f e]> (semtable s)) s).
Proof.
  intros H. unfold upd_ent. rewrite H. cbn [mbind option_bind]. rewrite zset_Some by by eapply zget_Some_range. done.
Qed.

Lemma zget_nat {A} (l : list A) i x : zget l i = Some x -> l !! Z.to_nat i = Some x.
Proof. unfold zget. by destruct (i <? 0). Qed.

(** A handle that names a live entry. *)
Definition valid (h : sem_t) (s : sstate) (e : sement) : Prop :=
  zget (semtable s) (sem_ind h) = Some e /\ sem_no h = sement_no e /\ zlen (semtable s) = MAXSEM.

Lemma lookup_sem_valid h s e : valid h s e -> lookup_sem h s = Some (Some e).
Proof.
  intros (He & Hn & Hl). pose proof (zget_Some_range _ _ _ He) as Hr. unfold lookup_sem, bad_index.
  destruct (Z.ltb_spec (sem_ind h) 0); [lia|]. destruct (Z.ltb_spec MAXSEM (sem_ind h)); [lia|]. simpl.
  rewrite He. cbn [mbind option_bind]. by rewrite Hn, Z.eqb_refl.
Qed.

Lemma sem_header s h e : sem_inv s -> valid h s e ->
  exists ob, objs (sk s) !! sement_slq e = Some ob /\ zlen (sl_waiters ob) = Z.max 0 (- sement_val e).
Proof. intros Hs (He & _). apply (sv_ent _ Hs (Z.to_nat (sem_ind h))). by apply zget_nat. Qed.

(** Taking a unit: the value goes down, the semaphore joins the caller's list. *)
Lemma sem_take s h e :
  sem_inv s -> valid h s e -> 1 <= sement_val e < 2 ^ 31 ->
  exists k', ADD_SYNCHOBJ (sement_slq e) (current_thread (sk s)) (sk s) = Some k' /\
    sem_inv (mk_ss k' (<[Z.to_nat (sem_ind h) := with_semval (sement_val e - 1) e]> (semtable s)) (next_semno s)) /\
    current_thread k' = current_thread (sk s).
Proof.
  intros Hs Hv Hr. destruct (sem_header _ _ _ Hs Hv) as (ob & Ho & Hz). destruct (sv_run _ Hs) as (x & Hx & _).
  destruct (ADD_SYNCHOBJ_valid (sement_slq e) _ (sk s) x (sv_links _ Hs) Hx) as (k' & Hk' & Hrl); [eauto|].
  destruct (relinked_base _ _ _ (sem_base _ Hs) Hrl) as [Hb Ec]. destruct Hrl as (_ & Hc & _).
  exists k'. split; [done|]. split; [|done]. apply (sem_inv_step s k' _ e); auto.
  - apply zget_nat, Hv.
  - intros o _. by apply same_core_waiters.
  - pose proof (same_core_waiters _ _ (sement_slq e) Hc) as Hw. rewrite Ho in Hw.
    destruct (objs k' !! sement_slq e) as [ob'|]; simplify_eq/=. exists ob'. split; [done|]. rewrite Hw, Hz. lia.
Qed.

(** Going to sleep on a header and switching away. *)
Lemma sem_sleep_spec k o ob :
  base_inv k -> ~ is_idle k (current_thread k) -> objs k !! o = Some ob ->
  exists k', (k1 ← sem_sleep o k; scheduler k1) = Some k' /\ base_inv k' /\
    objs k' = <[o := with_waiters (sl_waiters ob ++ [current_thread k]) ob]> (objs k).
Proof.
  intros [Hw (x & Hx & Hs & Hq) Hi Hp Hl] Hid Ho. unfold sem_sleep, ADD_SLQ.
  rewrite (upd_obj_Some o _ k ob) by done. cbn [mbind option_bind current_thread set_objs].
  rewrite (upd_thr_Some _ _ _ x) by done. cbn [mbind option_bind current_thread set_threads set_objs].
  rewrite (upd_thr_Some _ _ _ (with_state THREAD_STATE_SLEEP x)) by (simpl; apply lookup_insert_eq).
  cbn [mbind option_bind]. simpl (threads _). rewrite insert_insert_eq. set (ob' := with_waiters _ ob).
  set (k1 := set_threads _ _).
  assert (wait_inv k1) as Hw1 by (apply (sleep_inv k o ob x ob'); auto).
  assert (threads k1 !! current_thread k1 = Some (asleep_on o x)) as Hx1 by (simpl; apply lookup_insert_eq).
  assert (idle_ok k1) as Hi1.
  { destruct Hi as (ti & (xi & Hxi & Hci) & (xr & Hxr & Hsr)). simplify_eq.
    assert (ti <> current_thread k) as Hne by (intros ->; apply Hid; by exists xi).
    exists ti. split; exists xi; simpl; rewrite lookup_insert_ne by done; done. }
  destruct (scheduler_wait k1 _ Hw1 Hx1) as (k' & -> & Hw' & Hd & (Hkept & Eo & Eps & _) & _); [done|done|].
  exists k'. split; [done|]. split; [|exact Eo].
  assert (forall t y, threads k' !! t = Some y -> exists z, threads k !! t = Some z /\
    kt_process y = kt_process z /\ kt_synchobjlist y = kt_synchobjlist z) as Hb.
  { intros t y Hy. destruct (kept_bwd _ _ _ _ Hkept Hy) as (z & Hz & (_ & _ & _ & E1 & _ & E2 & _)). simpl in Hz.
    destruct (decide (t = current_thread k)) as [->|]; [rewrite lookup_insert_eq in Hz; simplify_eq; eauto|].
    rewrite lookup_insert_ne in Hz by done. eauto. }
  split; [done|by apply dispatched_running| | |].
  - apply (runs_on_idle k1); [|done]. by apply runs_on_kept.
  - intros t y Hy. destruct (Hb t y Hy) as (z & Hz & -> & _). rewrite Eps. by apply (Hp t z).
  - assert (links_ok (set_objs (<[o := ob']> (objs k)) k)) as [L1 L2].
    { apply (links_insert_obj k o ob); auto. simpl. intros p E. by apply (proj2 Hl o ob). }
    split; rewrite Eo; [|exact L2]. intros t y p Hy E. destruct (Hb t y Hy) as (z & Hz & _ & E2). apply (L1 t z); auto. congruence.
Qed.

(** [wakeup] of the first thread of the queue. *)
Lemma sem_wake_spec k o ob t q :
  base_inv k -> objs k !! o = Some ob -> sl_waiters ob = t :: q ->
  exists k' y, wakeup t (set_objs (<[o := with_waiters q ob]> (objs k)) k) = Some k' /\ base_inv k' /\
    objs k' = <[o := with_waiters q ob]> (objs k) /\ threads k' = <[t := y]> (threads k) /\ sc_state y = THREAD_STATE_READY.
Proof.
  intros [Hw Hrun Hi Hp Hl] Ho Hq. pose proof Hrun as (xc & Hxc & Hsc & Hqc).
  destruct (wi_sound _ Hw o ob t Ho) as (x & Hx & Hs & Hch); [rewrite Hq; by left|]. set (k1 := set_objs _ k).
  destruct (wakeup_spec k1 t x PROC_STATE_READY) as (k' & y & -> & Hy & Hi' & Hr' & Ht').
  { by apply (rq_inv_ext _ k); [..|apply wait_inv_rq]. } { done. } { rewrite Hs. done. } { by apply (Hp t x). } { eauto. }
  simpl (_ =? _) in Ht'. cbv iota in Ht'. destruct Hr' as (Eps & Eo & Ec & _). simpl in Eps, Eo, Ec.
  pose proof Hy as (p & -> & _). exists k', (readied (with_cpupri p x)). split; [done|].
  assert (filter (fun z => z <> t) (sl_waiters ob) = q) as Ef.
  { pose proof (wi_nodup _ Hw _ _ Ho) as Hnd. rewrite Hq in *. apply NoDup_cons in Hnd as [Htq _].
    rewrite filter_cons_False by (intros Hn; by apply Hn). apply filter_all. apply Forall_forall. by intros z Hz ->. }
  assert (t <> current_thread k) as Hne by (intros ->; simplify_eq; rewrite Hs in Hsc; done).
  split; [split|by split_and!].
  - eapply (wake_inv k k' o ob (with_waiters q ob) t); eauto. rewrite Hq. by left.
  - exists xc. rewrite Ec, Ht', lookup_insert_ne by done. done.
  - apply (runs_on_idle k); [|done]. rewrite Ht'. apply runs_on_insert with x; auto.
  - rewrite Eps, Ht'. intros t' z. destruct (decide (t' = t)) as [->|]; [|rewrite lookup_insert_ne by done; apply Hp].
    rewrite lookup_insert_eq. intros [= <-]. by apply (Hp t x).
  - assert (links_ok k1) as [L1 L2] by (apply (links_insert_obj k o ob); auto; simpl; intros p' E; by apply (proj2 Hl o ob)).
    split; rewrite Eo, ?Ht'; [|exact L2]. intros t' z p'. destruct (decide (t' = t)) as [->|]; [|rewrite lookup_insert_ne by done; apply L1].
    rewrite lookup_insert_eq. intros [= <-]. by apply (L1 t x).
Qed.

Lemma sem_wait_ok s h e :
  sem_inv s -> valid h s e -> ~ is_idle (sk s) (current_thread (sk s)) -> - 2 ^ 31 < sement_val e < 2 ^ 31 ->
  exists r s' e', syscall_sem_wait h s = Some (r, s') /\ sem_inv s' /\
    zget (semtable s') (sem_ind h) = Some e' /\ sement_val e' = sement_val e - 1 /\
    if 1 <=? sement_val e then r = Returned 0 /\ current_thread (sk s') = current_thread (sk s)
    else r = Blocked /\ exists ob ob', objs (sk s) !! sement_slq e = Some ob /\ objs (sk s') !! sement_slq e = Some ob' /\
           sl_waiters ob' = sl_waiters ob ++ [current_thread (sk s)].
Proof.
  intros Hs Hv Hid Hr. unfold syscall_sem_wait. rewrite (lookup_sem_valid _ _ _ Hv). cbn [mbind option_bind].
  rewrite s32_id by lia. rewrite (upd_ent_Some _ _ _ e) by apply Hv. cbn [mbind option_bind].
  assert (forall k t n, zget (semtable (mk_ss k (<[Z.to_nat (sem_ind h) := t]> (semtable s)) n)) (sem_ind h) = Some t) as Hget.
  { intros k t n. simpl. eapply zget_zset_eq. apply zset_Some. eapply zget_Some_range. apply Hv. }
  destruct (Z.ltb_spec (sement_val e - 1) 0), (Z.leb_spec 1 (sement_val e)); try lia.
  - destruct (sem_header _ _ _ Hs Hv) as (ob & Ho & Hz). cbn [sk set_table].
    destruct (sem_sleep_spec (sk s) (sement_slq e) ob (sem_base _ Hs) Hid Ho) as (k' & Hk' & Hb & Eo).
    destruct (sem_sleep _ _) as [k1|]; [|done]. cbn [mbind option_bind] in *. rewrite Hk'. cbn [mbind option_bind].
    do 3 eexists; split; [done|]. split; [|split; [apply Hget|split; [done|split; [done|]]]].
    + apply (sem_inv_step s k' _ e); auto; [apply zget_nat, Hv|..]; rewrite Eo.
      * intros o Hne. by rewrite lookup_insert_ne.
      * rewrite lookup_insert_eq. eexists; split; [done|]. unfold zlen in *. simpl. rewrite length_app. simpl. lia.
    + exists ob. eexists. split; [done|]. split; [simpl; rewrite Eo; apply lookup_insert_eq|done].
  - destruct (sem_take s h e Hs Hv) as (k' & Hk' & Hs' & Ec); [lia|]. cbn [sk set_table]. rewrite Hk'. cbn [mbind option_bind].
    do 3 eexists; split; [done|]. split; [done|]. split; [apply Hget|]. done.
Qed.

(** [sem_wait].  On a live semaphore with a positive value the call takes
    one unit and returns 0 at once; otherwise the caller joins the end of the
    queue and another thread runs.  In both cases the value goes down by one, so
    that a negative value is always minus the number of threads waiting. *)
Theorem sem_wait_spec s h e :
  sem_inv s -> valid h s e -> ~ is_idle (sk s) (current_thread (sk s)) -> - 2 ^ 31 < sement_val e < 2 ^ 31 ->
  exists r s' e', syscall_sem_wait h s = Some (r, s') /\ sem_inv s' /\
    zget (semtable s') (sem_ind h) = Some e' /\ sement_val e' = sement_val e - 1 /\
    if 1 <=? sement_val e then r = Returned 0 /\ current_thread (sk s') = current_thread (sk s)
    else r = Blocked /\ exists ob ob', objs (sk s) !! sement_slq e = Some ob /\ objs (sk s') !! sement_slq e = Some ob' /\
           sl_waiters ob' = sl_waiters ob ++ [current_thread (sk s)].
Proof. apply sem_wait_ok. Qed.

(** [sem_trywait] never blocks and never lies: it takes a unit exactly when
    there is one, and otherwise leaves the semaphore as it was. *)
Theorem sem_trywait_spec s h e :
  sem_inv s -> valid h s e -> - 2 ^ 31 < sement_val e < 2 ^ 31 ->
  exists s', sem_inv s' /\ current_thread (sk s') = current_thread (sk s) /\
    if 1 <=? sement_val e then
      syscall_sem_trywait h s = Some (0, s') /\
      zget (semtable s') (sem_ind h) = Some (with_semval (sement_val e - 1) e)
    else syscall_sem_trywait h s = Some (-1, s') /\ s' = s.
Proof.
  intros Hs Hv Hr. unfold syscall_sem_trywait. rewrite (lookup_sem_valid _ _ _ Hv). cbn [mbind option_bind].
  rewrite s32_id by lia. rewrite (upd_ent_Some _ _ _ e) by apply Hv. cbn [mbind option_bind].
  pose proof (zget_Some_range _ _ _ (proj1 Hv)) as Hrange.
  destruct (Z.ltb_spec (sement_val e - 1) 0), (Z.leb_spec 1 (sement_val e)); try lia.
  - exists s. split; [done|]. split; [done|]. split; [|done].
    rewrite (upd_ent_Some _ _ _ (with_semval (sement_val e - 1) e)).
    + cbn [mbind option_bind]. rewrite s32_id by lia. do 2 f_equal. unfold set_table. cbn [semtable sk next_semno].
      rewrite list_insert_insert_eq, list_insert_id; [by destruct s|]. destruct Hv as [Hv _]. rewrite (zget_nat _ _ _ Hv). f_equal.
      destruct e. unfold with_semval. simpl. f_equal. lia.
    + simpl. eapply zget_zset_eq, zset_Some. done.
  - destruct (sem_take s h e Hs Hv) as (k' & Hk' & Hs' & Ec); [lia|]. cbn [sk set_table]. rewrite Hk'. cbn [mbind option_bind].
    eexists; split; [exact Hs'|]. split; [done|]. split; [done|]. simpl. eapply zget_zset_eq, zset_Some. done.
Qed.

(** [sem_post].  The value goes up by one; if threads were waiting, exactly
    the one that has waited longest is made ready and leaves the queue, and if
    none was, nobody is disturbed. *)
Theorem sem_post_spec s h e ob :
  sem_inv s -> valid h s e -> - 2 ^ 31 < sement_val e < 2 ^ 31 - 1 -> objs (sk s) !! sement_slq e = Some ob ->
  exists s' ob', syscall_sem_post h s = Some (0, s') /\ sem_inv s' /\
    zget (semtable s') (sem_ind h) = Some (with_semval (sement_val e + 1) e) /\
    objs (sk s') !! sement_slq e = Some ob' /\ sl_waiters ob' = tail (sl_waiters ob) /\
    forall t, head (sl_waiters ob) = Some t ->
      exists y, threads (sk s') !! t = Some y /\ sc_state y = THREAD_STATE_READY.
Proof.
  intros Hs Hv Hr Ho. unfold syscall_sem_post. rewrite (lookup_sem_valid _ _ _ Hv). cbn [mbind option_bind].
  destruct (sem_header _ _ _ Hs Hv) as (ob0 & Ho0 & Hz). assert (ob0 = ob) as -> by congruence. clear Ho0.
  pose proof (zget_Some_range _ _ _ (proj1 Hv)) as Hrange. destruct (sv_run _ Hs) as (x & Hx & Hsx).
  destruct (DEL_SYNCHOBJ_valid (sement_slq e) _ (sk s) x (sv_links _ Hs) Hx) as (k1 & -> & Hrl); [eauto|]. cbn [mbind option_bind].
  destruct (relinked_base _ _ _ (sem_base _ Hs) Hrl) as [Hb1 Ec]. pose proof Hrl as (_ & Hc & _).
  rewrite s32_id by lia. rewrite (upd_ent_Some _ _ _ e) by apply Hv. cbn [mbind option_bind sk set_table set_k].
  pose proof (Hc (sement_slq e)) as Hch. rewrite Ho in Hch. destruct (objs k1 !! sement_slq e) as [ob1|] eqn:Ho1; [|done].
  apply (inj Some) in Hch. apply unlinked_fields in Hch as (_ & Ew & _).
  destruct (Z.leb_spec (sement_val e + 1) 0) as [Hneg|Hpos].
  - cbn [mbind option_bind]. destruct (sl_waiters ob1) as [|t q] eqn:Eq1; [rewrite <- Ew in Hz; unfold zlen in Hz; simpl in Hz; lia|].
    rewrite (upd_obj_Some _ _ _ _ Ho1). cbn [mbind option_bind].
    destruct (sem_wake_spec k1 (sement_slq e) ob1 t q Hb1 Ho1 Eq1) as (k' & y & -> & Hb' & Eo & Ht & Hy). cbn [mbind option_bind].
    do 2 eexists; split; [done|]. split; [|split; [|split; [|split]]].
    + apply (sem_inv_step s k' _ e); auto; [apply zget_nat, Hv|..]; rewrite Eo.
      * intros o Hne. rewrite lookup_insert_ne by done. by apply same_core_waiters.
      * rewrite lookup_insert_eq. eexists; split; [done|]. unfold zlen in *. simpl. rewrite <- Ew in Hz. simpl in Hz. lia.
    + simpl. eapply zget_zset_eq, zset_Some. done.
    + simpl. rewrite Eo. apply lookup_insert_eq.
    + simpl. by rewrite <- Ew.
    + rewrite <- Ew. intros ? [= <-]. simpl. rewrite Ht, lookup_insert_eq. eauto.
  - assert (sl_waiters ob = []) as Enil by (destruct (sl_waiters ob); [done|unfold zlen in Hz; simpl in Hz; lia]).
    do 2 eexists; split; [done|]. split; [|split; [|split; [exact Ho1|split]]].
    + apply (sem_inv_step s k1 _ e); auto; [apply zget_nat, Hv|..].
      * intros o Hne. by apply same_core_waiters.
      * exists ob1. split; [done|]. rewrite Ew, Enil. unfold zlen. simpl. lia.
    + simpl. eapply zget_zset_eq, zset_Some. done.
    + by rewrite Ew, Enil.
    + rewrite Enil. done.
Qed.

(** * Defects *)

(** A timeout unbalances the semaphore.  When the only waiter of a semaphore
    times out, the handler takes it off the queue but does not give back the
    unit the waiter had subtracted: the value stays at -1 with nobody waiting,
    and the next [sem_post] takes a [NULL] thread off the empty queue and passes
    it to [wakeup], which dereferences it. *)
Theorem sem_timeout_then_post s h e ob t :
  sem_inv s -> valid h s e -> sement_val e = -1 -> objs (sk s) !! sement_slq e = Some ob -> sl_waiters ob = [t] ->
  exists k', removethread_fromsemwait (sement_slq e) t (sk s) = Some (true, k') /\
    zget (semtable (set_k k' s)) (sem_ind h) = Some e /\ syscall_sem_post h (set_k k' s) = None.
Proof.
  intros Hs Hv Hval Ho Hq. unfold removethread_fromsemwait. rewrite Ho. cbn [mbind option_bind].
  rewrite bool_decide_eq_true_2 by (rewrite Hq; by left). rewrite (upd_obj_Some _ _ _ _ Ho). cbn [mbind option_bind].
  assert (filter (fun x => x <> t) (sl_waiters ob) = []) as ->.
  { rewrite Hq, filter_cons_False by (intros Hn; by apply Hn). done. }
  destruct (sem_wake_spec (sk s) (sement_slq e) ob t [] (sem_base _ Hs) Ho Hq) as (k' & y & -> & Hb' & Eo & _).
  cbn [mbind option_bind]. exists k'. split; [done|]. split; [apply Hv|]. unfold syscall_sem_post.
  rewrite (lookup_sem_valid _ _ e) by exact Hv. cbn [mbind option_bind sk set_k].
  destruct (bi_run _ Hb') as (x & Hx & _).
  assert (objs k' !! sement_slq e = Some (with_waiters [] ob)) as Ho' by (rewrite Eo; apply lookup_insert_eq).
  destruct (DEL_SYNCHOBJ_valid (sement_slq e) _ k' x (bi_links _ Hb') Hx) as (k1 & -> & (_ & Hc & _)); [eauto|]. cbn [mbind option_bind].
  rewrite Hval. rewrite (upd_ent_Some _ _ _ e) by apply Hv. cbn [mbind option_bind sk set_table set_k].
  pose proof (same_core_waiters _ _ (sement_slq e) Hc) as Hw. rewrite Ho' in Hw.
  destruct (objs k1 !! sement_slq e) as [ob1|]; [|done]. simpl in Hw. apply (inj Some) in Hw. cbn [mbind option_bind].
  change (s32 (-1 + 1) <=? 0) with true. cbv iota. by rewrite Hw.
Qed.

(** The index check is off by one.  A handle whose index is [MAXSEM] passes
    the range check of every call, and the table is then read one entry past its
    end. *)
Theorem sem_index_past_end s h :
  zlen (semtable s) = MAXSEM -> sem_ind h = MAXSEM ->
  bad_index h = false /\ syscall_sem_wait h s = None /\ syscall_sem_trywait h s = None /\
  syscall_sem_post h s = None /\ syscall_sem_getvalue h s = None.
Proof.
  intros Hl Hi. assert (lookup_sem h s = None) as E.
  { unfold lookup_sem, bad_index. rewrite Hi. change ((MAXSEM <? 0) || (MAXSEM <? MAXSEM)) with false. cbv iota.
    destruct (zget (semtable s) MAXSEM) as [e|] eqn:Eg; [|done]. apply zget_Some_range in Eg. lia. }
  split; [unfold bad_index; by rewrite Hi|].
  unfold syscall_sem_wait, syscall_sem_trywait, syscall_sem_post, syscall_sem_getvalue. by rewrite E.
Qed.

(** A refused exclusive open keeps the table locked.  When a semaphore of
    the name exists and [O_EXCL] is given, [sem_open] returns [NULL] on a path
    that does not release [semtable_lock]: the caller owns it afterwards, and
    every later call that needs it blocks. *)
Theorem sem_open_excl_keeps_lock L s name i oflag value ob :
  lock_inv (sk s) -> objs (sk s) !! L = Some ob -> sl_type ob = SYNCH_TYPE_LOCK -> o_val ob = 0 ->
  find_name (semtable s) name 0 = Some i -> Z.land oflag O_EXCL <> 0 ->
  exists s', syscall_sem_open L name oflag value s = Some (OpenFailedLocked, s') /\
    owned (objs (sk s')) (current_thread (sk s)) L.
Proof.
  intros Hk Ho Ht Hv Hn Hf. destruct (trylock_lock_1 (sk s) L ob Hk Ho Ht Hv) as (k' & Hr & _ & _ & Hsc).
  unfold syscall_sem_open. rewrite Hr. cbn [mbind option_bind semtable set_k]. rewrite Hn.
  destruct (Z.eqb_spec (Z.land oflag O_EXCL) 0); [done|]. simpl (negb false). cbv iota.
  eexists; split; [done|]. simpl. rewrite (same_core_owned _ _ _ _ Hsc), owned_insert. left. split; [done|]. split; [by left|done].
Qed.

(** * A concrete table

    Headers at 100 to 149; semaphore 1 is live with value 1 in entry 0, and the
    lock at 10 stands for [semtable_lock]. *)

Definition ex_header : synchobj := mk_obj SYNCH_TYPE_SEM [] NULL NULL NULL 0 0.
Definition ex_table : list sement :=
  mk_sem 100 1 1 1 0 (Some 1%positive) 1 "gate" ::
  ((fun i => mk_sem (Pos.of_nat (100 + i)) 0 0 0 0 NULL 0 "") <$> seq 1 49).
Definition ex_sk : kstate :=
  set_objs (list_to_map ((10%positive, lockobj_init) :: ((fun i => (Pos.of_nat (100 + i), ex_header)) <$> seq 0 50))) ex_k.
Definition ex_s : sstate := mk_ss ex_sk ex_table 2.
Definition ex_handle : sem_t := mk_handle 0 1.

Lemma ex_sk_lock : lock_inv ex_sk.
Proof.
  assert (forall o ob, objs ex_sk !! o = Some ob -> sl_waiters ob = [] /\ o_owner ob = NULL /\ o_val ob = 0 /\ o_level ob = 0) as Hobj.
  { change (map_Forall (fun o ob => sl_waiters ob = [] /\ o_owner ob = NULL /\ o_val ob = 0 /\ o_level ob = 0) (objs ex_sk)).
    by apply (bool_decide_unpack _); vm_compute. }
  pose proof ex_l_inv as [[[W1 _ _ W4] _ _ [ti Hi]] Hrun].
  assert (forall t x, threads ex_sk !! t = Some x -> kt_slpchannel x = NULL /\ kt_synchobjlist x = NULL) as Hall.
  { change (map_Forall (fun t x => kt_slpchannel x = NULL /\ kt_synchobjlist x = NULL) (threads ex_sk)).
    by apply (bool_decide_unpack _); vm_compute. }
  split; [split|exact Hrun].
  - split; [by apply (sched_inv_ext ex_l)|..].
    + intros o ob Ho. destruct (Hobj o ob Ho) as (-> & _). constructor.
    + intros o ob t Ho. destruct (Hobj o ob Ho) as (-> & _). by intros ?%elem_of_nil.
    + intros t x o Hx Hc. destruct (Hall t x Hx) as [E _]. congruence.
  - intros o ob Ho _. left. destruct (Hobj o ob Ho) as (? & ? & ? & ?). by split_and!.
  - intros t x Hx. exists []. destruct (Hall t x Hx) as [_ ->]. split; [done|]. split; [apply Queue.dlist_nil|].
    intros o. split; [by intros ?%elem_of_nil|]. intros (ob & Ho & _ & E). destruct (Hobj o ob Ho) as (_ & ? & _). congruence.
  - exists ti. exact Hi.
Qed.

Lemma ex_s_inv : sem_inv ex_s.
Proof.
  pose proof ex_sk_lock as [[Hw _ _ Hi] Hr].
  split; change (sk ex_s) with ex_sk; change (semtable ex_s) with ex_table; [exact Hw|exact Hr|exact Hi|..].
  - change (map_Forall (fun _ x => proc_state ex_sk !! kt_process x = Some PROC_STATE_READY) (threads ex_sk)).
    by apply (bool_decide_unpack _); vm_compute.
  - split.
    + assert (map_Forall (fun t x => kt_synchobjlist x = NULL) (threads ex_sk)) as H by (by apply (bool_decide_unpack _); vm_compute).
      intros t x p Hx E. specialize (H t x Hx). simpl in H. congruence.
    + assert (map_Forall (fun o ob => sl_next ob = NULL /\ sl_prev ob = NULL) (objs ex_sk)) as H by (by apply (bool_decide_unpack _); vm_compute).
      intros o ob p Ho E. specialize (H o ob Ho) as [E1 E2]. destruct E; congruence.
  - intros i e He.
    assert (forallb (fun e => match objs ex_sk !! sement_slq e with
                             | Some ob => zlen (sl_waiters ob) =? Z.max 0 (- sement_val e) | None => false end) ex_table = true) as H
      by (vm_compute; reflexivity).
    rewrite forallb_forall in H. specialize (H e (proj1 (list_elem_of_In _ _) (list_elem_of_lookup_2 _ _ _ He))).
    destruct (objs ex_sk !! sement_slq e) as [ob|]; [|done]. exists ob. split; [done|]. by apply Z.eqb_eq.
  - intros i j e e' Hi' Hj E. assert (NoDup (sement_slq <$> ex_table)) as Hnd by (by apply (bool_decide_unpack _); vm_compute).
    eapply (NoDup_lookup _ i j (sement_slq e) Hnd); rewrite list_lookup_fmap; [by rewrite Hi'|rewrite Hj; simpl; by rewrite E].
Qed.

Lemma ex_valid : valid ex_handle ex_s (mk_sem 100 1 1 1 0 (Some 1%positive) 1 "gate").
Proof. by split_and!. Qed.

Lemma ex_runner_not_idle : ~ is_idle ex_sk (current_thread ex_sk).
Proof. eapply ex_not_idle; [vm_compute; reflexivity|reflexivity]. Qed.

Lemma sem_wait_spec_witness :
  exists r s' e', syscall_sem_wait ex_handle ex_s = Some (r, s') /\ sem_inv s' /\
    zget (semtable s') 0 = Some e' /\ sement_val e' = 0 /\ r = Returned 0 /\ current_thread (sk s') = current_thread ex_sk.
Proof. apply (sem_wait_spec ex_s ex_handle _ ex_s_inv ex_valid ex_runner_not_idle). by vm_compute. Defined.

Lemma sem_trywait_spec_witness :
  exists s', sem_inv s' /\ current_thread (sk s') = current_thread ex_sk /\
    syscall_sem_trywait ex_handle ex_s = Some (0, s') /\
    zget (semtable s') 0 = Some (mk_sem 100 1 1 1 0 (Some 1%positive) 0 "gate").
Proof. apply (sem_trywait_spec ex_s ex_handle _ ex_s_inv ex_valid). by vm_compute. Defined.

Lemma sem_post_spec_witness :
  exists s' ob', syscall_sem_post ex_handle ex_s = Some (0, s') /\ sem_inv s' /\
    zget (semtable s') 0 = Some (mk_sem 100 1 1 1 0 (Some 1%positive) 2 "gate") /\
    objs (sk s') !! 100%positive = Some ob' /\ sl_waiters ob' = [] /\
    forall t, None = Some t -> exists y, threads (sk s') !! t = Some y /\ sc_state y = THREAD_STATE_READY.
Proof. apply (sem_post_spec ex_s ex_handle _ ex_header ex_s_inv ex_valid); vm_compute; done. Defined.

Lemma sem_index_past_end_witness :
  bad_index (mk_handle 50 1) = false /\ syscall_sem_wait (mk_handle 50 1) ex_s = None /\
  syscall_sem_trywait (mk_handle 50 1) ex_s = None /\
  syscall_sem_post (mk_handle 50 1) ex_s = None /\ syscall_sem_getvalue (mk_handle 50 1) ex_s = None.
Proof. apply (sem_index_past_end ex_s (mk_handle 50 1)); reflexivity. Defined.

Lemma sem_open_excl_keeps_lock_witness :
  exists s', syscall_sem_open 10 "gate" 0x60 1 ex_s = Some (OpenFailedLocked, s') /\
    owned (objs (sk s')) (current_thread ex_sk) 10.
Proof.
  apply (sem_open_excl_keeps_lock 10 ex_s "gate" 0 0x60 1 lockobj_init ex_sk_lock); try reflexivity. vm_compute. discriminate.
Defined.

(** Two waits in a row: the second blocks thread 1 with the value at -1. *)
Definition wait_state (d : sstate) (r : option (outcome * sstate)) : sstate :=
  match r with Some (_, s) => s | None => d end.
Definition ex_s1 : sstate := wait_state ex_s (syscall_sem_wait ex_handle ex_s).
Definition ex_s2 : sstate := wait_state ex_s (syscall_sem_wait ex_handle ex_s1).

Lemma ex_s1_inv : sem_inv ex_s1.
Proof.
  destruct (sem_wait_ok ex_s ex_handle _ ex_s_inv ex_valid ex_runner_not_idle) as (r & s' & e' & Hr & Hs' & _); [by vm_compute|].
  unfold ex_s1. by rewrite Hr.
Qed.
Lemma ex_s2_inv : sem_inv ex_s2.
Proof.
  destruct (sem_wait_ok ex_s1 ex_handle (mk_sem 100 1 1 1 0 (Some 1%positive) 0 "gate") ex_s1_inv) as (r & s' & e' & Hr & Hs' & _).
  - by split_and!.
  - eapply ex_not_idle; [vm_compute; reflexivity|reflexivity].
  - by vm_compute.
  - unfold ex_s2. by rewrite Hr.
Qed.

Lemma sem_timeout_then_post_witness :
  exists k', removethread_fromsemwait 100 1 (sk ex_s2) = Some (true, k') /\
    zget (semtable (set_k k' ex_s2)) 0 = Some (mk_sem 100 1 1 1 0 (Some 1%positive) (-1) "gate") /\
    syscall_sem_post ex_handle (set_k k' ex_s2) = None.
Proof.
  apply (sem_timeout_then_post ex_s2 ex_handle (mk_sem 100 1 1 1 0 (Some 1%positive) (-1) "gate")
           (mk_obj SYNCH_TYPE_SEM [1%positive] NULL NULL NULL 0 0) 1 ex_s2_inv); try (vm_compute; reflexivity).
  by split_and!.
Defined.

End Semaphore.
