(* ===== verification/CoreAlloc.v ===== *)
(** The physical page allocator ([src/base/vmmap.c], core management).  The
    free list runs through the free memory itself: the header of a block of
    free pages is stored in its first page.  Every operation holds [core_lock]
    from start to end and turns paging off around it, so that the addresses are
    physical; neither appears here. *)
From S2P Require Import Prelude.

Module CoreAlloc.

(** * Data *)

(** [struct free_mem_block] at each address that holds one; 0 is [NULL]. *)
Record free_mem_block := mk_fb { no_pages : Z; next_block : Z }.
Record core := mk_core { first_block : Z; fmem : gmap Z free_mem_block }.

(** [struct core_header]: an allocated run of pages. *)
Record core_header := mk_ch { phys_addr : Z; no_blocks : Z }.

(** [struct memory_map_descriptor]. *)
Record ram_segment := mk_seg { base_addr : Z; seg_length : Z; seg_type : Z }.

Definition ENOMEM : Z := -2.
Definition MAX_RAM_SEGMENTS : nat := 10.

Definition set_first (p : Z) (c : core) : core := mk_core p (fmem c).
Definition set_pages (p n : Z) (c : core) : option core :=
  b ← fmem c !! p; Some (mk_core (first_block c) (<[p := mk_fb n (next_block b)]> (fmem c))).
Definition set_next (p q : Z) (c : core) : option core :=
  b ← fmem c !! p; Some (mk_core (first_block c) (<[p := mk_fb (no_pages b) q]> (fmem c))).
(** A header written at an address of free memory that held none. *)
Definition put_block (p n q : Z) (c : core) : core := mk_core (first_block c) (<[p := mk_fb n q]> (fmem c)).

(** * Allocation *)

(** The [while] of [core_alloc] after the first block: [t] is the block looked
    at, [t2] the one before it; [baddr], [hole] and [t1] are the choice so far. *)
Fixpoint scan (fuel : nat) (m : gmap Z free_mem_block) (npages t t2 baddr hole t1 : Z) : option (Z * Z * Z) :=
  match fuel with
  | O => None
  | S fuel =>
      if t =? 0 then Some (baddr, hole, t1) else
      b ← m !! t;
      let d := s32 (no_pages b - npages) in
      let '(baddr, hole, t1) :=
        if hole <? 0 then if hole <? d then (t, d, t2) else (baddr, hole, t1)
        else if (u32 npages <? no_pages b) && (u32 (no_pages b - npages) <? u32 hole) then (t, d, t2)
        else (baddr, hole, t1) in
      scan fuel m npages (next_block b) t baddr hole t1
  end.

Definition core_alloc (npages : Z) (c : core) : option (core_header * core) :=
  if first_block c =? 0 then Some (mk_ch 0 0, c) else
  f ← fmem c !! first_block c;
  '(baddr, hole, t1) ← scan (S (size (fmem c))) (fmem c) npages (next_block f) (first_block c)
                         (first_block c) (s32 (no_pages f - npages)) 0;
  let ch := mk_ch baddr (if 0 <=? hole then u32 npages else u32 (npages + hole)) in
  b ← fmem c !! baddr;
  if hole <=? 0 then
    c ← (if baddr =? first_block c then Some (set_first (next_block b) c) else set_next t1 (next_block b) c);
    Some (ch, c)
  else
    let t2 := u32 (baddr + npages * 4096) in
    let c := put_block t2 (u32 hole) (next_block b) c in
    c ← (if baddr =? first_block c then Some (set_first t2 c) else set_next t1 t2 c);
    Some (ch, c).

(** * Release *)

(** The loop of [is_valid_block] over the known segments. *)
Definition is_valid_block (segs : list ram_segment) (ch : core_header) : bool :=
  negb (no_blocks ch <=? 0) &&
  existsb (fun sg => (seg_type sg =? 1) && (base_addr sg <=? phys_addr ch)
                     && (phys_addr ch <=? u32 (base_addr sg + seg_length sg))) segs.

(** [find_mem_block_before]: the last block below the address, or [NULL]. *)
Fixpoint find_before (fuel : nat) (m : gmap Z free_mem_block) (a t1 t2 : Z) : option Z :=
  match fuel with
  | O => None
  | S fuel =>
      if (t2 =? 0) || negb (t2 <? a) then Some t1
      else b ← m !! t2; find_before fuel m a t2 (next_block b)
  end.
Definition find_mem_block_before (ch : core_header) (c : core) : option Z :=
  find_before (S (size (fmem c))) (fmem c) (phys_addr ch) 0 (first_block c).

(** [core_free]. *)
Definition core_free (segs : list ram_segment) (ch : core_header) (c : core) : option core :=
  if negb (is_valid_block segs ch) then Some c else
  t1 ← find_mem_block_before ch c;
  let baddr := phys_addr ch in
  let bend := u32 (baddr + no_blocks ch * 4096) in
  if t1 =? 0 then
    let t2 := first_block c in
    if negb (t2 =? 0) && (bend =? t2) then
      b2 ← fmem c !! t2;
      Some (set_first baddr (put_block baddr (u32 (no_blocks ch + no_pages b2)) (next_block b2) c))
    else Some (set_first baddr (put_block baddr (no_blocks ch) t2 c))
  else
    b1 ← fmem c !! t1;
    let t2 := next_block b1 in
    if u32 (t1 + no_pages b1 * 4096) =? baddr then
      let n1 := u32 (no_pages b1 + no_blocks ch) in
      c ← set_pages t1 n1 c;
      if negb (t2 =? 0) && (u32 (t1 + n1 * 4096) =? t2) then
        b2 ← fmem c !! t2;
        c ← set_pages t1 (u32 (n1 + no_pages b2)) c;
        set_next t1 (next_block b2) c
      else Some c
    else if negb (t2 =? 0) && (bend =? t2) then
      b2 ← fmem c !! t2;
      c ← set_next t1 baddr c;
      Some (put_block baddr (u32 (no_blocks ch + no_pages b2)) (next_block b2) c)
    else
      c ← set_next t1 baddr c;
      Some (put_block baddr (no_blocks ch) t2 c).

(** * Several fragments *)

(** Give back the fragments gathered so far, last first. *)
Fixpoint free_all (segs : list ram_segment) (chs : list core_header) (c : core) : option core :=
  match chs with
  | [] => Some c
  | ch :: chs' => c ← core_free segs ch c; free_all segs chs' c
  end.

(** The loop of [core_alloc_n]: [acc] is [ch[i-1] .. ch[0]]; it runs at most
    [chmax] times. *)
Fixpoint alloc_n_loop (segs : list ram_segment) (room : nat) (pages : Z) (acc : list core_header) (c : core)
  : option (Z * list core_header * core) :=
  if pages <=? 0 then Some (zlen acc, acc, c) else
  match room with
  | O => c ← free_all segs acc c; Some (ENOMEM, [], c)
  | S room =>
      '(ch, c) ← core_alloc pages c;
      if no_blocks ch =? 0 then c ← free_all segs acc c; Some (ENOMEM, [], c)
      else alloc_n_loop segs room (s32 (pages - no_blocks ch)) (ch :: acc) c
  end.

Definition core_alloc_n (segs : list ram_segment) (npages chmax : Z) (c : core) : option (Z * list core_header * core) :=
  alloc_n_loop segs (Z.to_nat chmax) npages [] c.

(** * Start-up *)

(** The first segment whose end is not below the address. *)
Fixpoint skip_segments (segs : list ram_segment) (loc : Z) (i : nat) : nat :=
  match segs with
  | [] => i
  | sg :: segs' => if u32 (base_addr sg + seg_length sg) <? loc then skip_segments segs' loc (S i) else i
  end.

(** The [for]: link the usable segments behind [t], stop at the first entry with
    type 0; the count of segments seen is returned. *)
Fixpoint link_segments (segs : list ram_segment) (t : Z) (i : nat) (c : core) : option (Z * nat * core) :=
  match segs with
  | [] => Some (t, i, c)
  | sg :: segs' =>
      if seg_type sg =? 1 then
        c ← set_next t (base_addr sg) c;
        link_segments segs' (base_addr sg) (S i) (put_block (base_addr sg) (seg_length sg / 4096) 0 c)
      else if seg_type sg <? 1 then Some (t, i, c)
      else link_segments segs' t (S i) c
  end.

Definition initialize_core_info (segs : list ram_segment) (first_free_loc : Z) : option (nat * core) :=
  let i := skip_segments segs first_free_loc 0 in
  sg ← segs !! i;
  let c := mk_core first_free_loc
             {[first_free_loc := mk_fb (u32 (base_addr sg + seg_length sg - first_free_loc) / 4096) 0]} in
  '(t, n, c) ← link_segments (drop i segs) first_free_loc i c;
  c ← set_next t 0 c;
  Some (n, c).

(** * The free list *)

(** A run of the list: blocks (address, pages) from [p] up to [q]. *)
Fixpoint fseg (m : gmap Z free_mem_block) (p : Z) (l : list (Z * Z)) (q : Z) : Prop :=
  match l with
  | [] => p = q
  | (a, n) :: l' => p = a /\ exists nx, m !! a = Some (mk_fb n nx) /\ fseg m nx l' q
  end.

(** Blocks in address order, not empty, below 4 GB and separated: adjacent
    blocks have been merged. *)
Fixpoint wf_free (lo : Z) (l : list (Z * Z)) : Prop :=
  match l with
  | [] => True
  | (a, n) :: l' => lo < a /\ 0 < n /\ a + 4096 * n < 2 ^ 32 /\ wf_free (a + 4096 * n) l'
  end.

Definition core_ok (c : core) (l : list (Z * Z)) : Prop := fseg (fmem c) (first_block c) l 0 /\ wf_free 0 l.

(** The bytes that are free. *)
Definition in_free (l : list (Z * Z)) (x : Z) : Prop := exists a n, (a, n) ∈ l /\ a <= x < a + 4096 * n.

Lemma fseg_app m p l1 l2 q : fseg m p (l1 ++ l2) q <-> exists r, fseg m p l1 r /\ fseg m r l2 q.
Proof.
  revert p. induction l1 as [|[a n] l1 IH]; intros p; simpl; [naive_solver|].
  split.
  - intros (-> & nx & Hm & (r & H1 & H2)%IH). eauto 6.
  - intros (r & (-> & nx & Hm & H1) & H2). split; [done|]. exists nx. split; [done|]. apply IH. eauto.
Qed.

Lemma fseg_frame m m' p l q : fseg m p l q -> (forall a, a ∈ l.*1 -> m' !! a = m !! a) -> fseg m' p l q.
Proof.
  revert p. induction l as [|[a n] l IH]; intros p; simpl; [done|]. intros (-> & nx & Hm & H) Hf. split; [done|].
  exists nx. split; [rewrite Hf; [done|by left]|]. apply IH; [done|]. intros b Hb. apply Hf. by right.
Qed.

Lemma wf_free_weaken lo lo' l : lo' <= lo -> wf_free lo l -> wf_free lo' l.
Proof. destruct l as [|[a n] l]; simpl; [done|]. intros Hle (? & ? & ? & ?). split_and!; auto; lia. Qed.

Lemma wf_free_elem lo l a n : wf_free lo l -> (a, n) ∈ l -> lo < a /\ 0 < n /\ a + 4096 * n < 2 ^ 32.
Proof.
  revert lo. induction l as [|[b k] l IH]; intros lo Hw Hin; simpl in *; [by apply elem_of_nil in Hin|].
  destruct Hw as (? & ? & ? & Hw). apply elem_of_cons in Hin as [[= -> ->]|Hin]; [done|].
  destruct (IH _ Hw Hin) as (? & ? & ?). lia.
Qed.

Lemma wf_free_app lo l1 a n l2 :
  wf_free lo (l1 ++ (a, n) :: l2) <->
  wf_free lo l1 /\ (forall b k, (b, k) ∈ l1 -> b + 4096 * k < a) /\ lo < a /\ 0 < n /\ a + 4096 * n < 2 ^ 32 /\ wf_free (a + 4096 * n) l2.
Proof.
  revert lo. induction l1 as [|[b k] l1 IH]; intros lo; simpl.
  - split; [|intros (_ & _ & H); exact H]. intros H. split; [done|]. split; [|done]. intros b k Hb. by apply elem_of_nil in Hb.
  - rewrite IH. split.
    + intros (? & ? & ? & ? & Hlt & ? & ? & ? & ?). split_and!; auto; [|lia].
      intros b' k' [[= -> ->]|Hin]%elem_of_cons; [done|]. eauto.
    + intros ((? & ? & ? & ?) & Hlt & ? & ? & ? & ?). split_and!; auto.
      * intros b' k' Hin. apply Hlt. by right.
      * apply Hlt. by left.
Qed.

Lemma wf_free_nodup lo l : wf_free lo l -> NoDup l.*1.
Proof.
  revert lo. induction l as [|[a n] l IH]; intros lo; simpl; [constructor|]. intros (? & ? & ? & Hw).
  constructor; [|by eapply IH]. rewrite list_elem_of_fmap. intros ([b k] & E & Hin). simpl in E. subst b.
  destruct (wf_free_elem _ _ _ _ Hw Hin). lia.
Qed.

Lemma fseg_in_mem m p l q : fseg m p l q -> l.*1 ⊆ elements (dom m).
Proof.
  revert p. induction l as [|[a n] l IH]; intros p; simpl; [set_solver|]. intros (-> & nx & Hm & H) b [->|Hb]%elem_of_cons.
  - apply elem_of_elements. by apply elem_of_dom_2 in Hm.
  - by eapply IH.
Qed.

Lemma fseg_length m p lo l q : fseg m p l q -> wf_free lo l -> (length l <= size m)%nat.
Proof.
  intros Hs Hw. rewrite <- (length_fmap fst l), <- size_dom.
  unfold size, set_size. simpl.
  apply submseteq_length, NoDup_submseteq; [by eapply wf_free_nodup|]. exact (fseg_in_mem m p l q Hs).
Qed.

(** * [core_alloc] *)

Definition lastaddr (l : list (Z * Z)) : Z := match last l with Some (a, _) => a | None => 0 end.

(** The choice made among the blocks [l]: which one, the hole it leaves, and the
    block before it. *)
Definition chosen (npages : Z) (l : list (Z * Z)) (baddr hole t1 : Z) : Prop :=
  exists l1 n l2, l = l1 ++ (baddr, n) :: l2 /\ hole = n - npages /\ t1 = lastaddr l1 /\
    (hole < 0 -> forall b k, (b, k) ∈ l -> k <= n).

Lemma chosen_snoc npages l baddr hole t1 a n :
  chosen npages l baddr hole t1 -> (hole < 0 -> n <= npages + hole) -> chosen npages (l ++ [(a, n)]) baddr hole t1.
Proof.
  intros (l1 & k & l2 & -> & -> & -> & Hmax) Hn. exists l1, k, (l2 ++ [(a, n)]). split; [by rewrite <- app_assoc|].
  split; [done|]. split; [done|]. intros Hneg b k' [Hin|Hin]%elem_of_app.
  - by apply (Hmax Hneg b).
  - apply list_elem_of_singleton in Hin as [= -> ->]. specialize (Hn Hneg). lia.
Qed.

Lemma chosen_new npages l baddr hole t1 a n :
  chosen npages l baddr hole t1 -> hole < n - npages ->  hole < 0 ->
  chosen npages (l ++ [(a, n)]) a (n - npages) (lastaddr l).
Proof.
  intros (l1 & k & l2 & El & Eh & _ & Hmax) Hlt Hneg. exists l, n, []. split_and!; auto. intros Hneg' b k' [Hin|Hin]%elem_of_app.
  - specialize (Hmax Hneg b k' Hin). lia.
  - apply list_elem_of_singleton in Hin. simplify_eq. lia.
Qed.

Lemma chosen_fit npages l a n : npages <= n -> chosen npages (l ++ [(a, n)]) a (n - npages) (lastaddr l).
Proof. intros H. exists l, n, []. split_and!; auto. lia. Qed.

Lemma lastaddr_snoc l a n : lastaddr (l ++ [(a, n)]) = a.
Proof. unfold lastaddr. by rewrite last_snoc. Qed.

Lemma scan_spec fuel m npages pre rest t baddr hole t1 :
  fseg m t rest 0 -> (forall a n, (a, n) ∈ rest -> 0 < a /\ 0 < n < 2 ^ 20) ->
  1 <= npages < 2 ^ 31 - 2 ^ 20 -> - 2 ^ 31 < hole < 2 ^ 20 ->
  chosen npages pre baddr hole t1 -> (length rest < fuel)%nat ->
  exists baddr' hole' t1', scan fuel m npages t (lastaddr pre) baddr hole t1 = Some (baddr', hole', t1') /\
    chosen npages (pre ++ rest) baddr' hole' t1'.
Proof.
  revert fuel pre t baddr hole t1. induction rest as [|[a n] rest IH];
    intros fuel pre t baddr hole t1 Hs Hb Hnp Hh Hc Hf; (destruct fuel as [|fuel]; [simpl in Hf; lia|]); simpl.
  - simpl in Hs. subst t. simpl. do 3 eexists; split; [done|]. by rewrite app_nil_r.
  - destruct Hs as (-> & nx & Hm & Hs). destruct (Hb a n) as [Ha Hn]; [by left|].
    destruct (Z.eqb_spec a 0); [lia|]. rewrite Hm. cbn [mbind option_bind no_pages next_block].
    rewrite s32_id by lia. rewrite (u32_id npages) by lia.
    assert (forall b' h' t', chosen npages (pre ++ [(a, n)]) b' h' t' -> - 2 ^ 31 < h' < 2 ^ 20 ->
      exists baddr' hole' t1', scan fuel m npages nx a b' h' t' = Some (baddr', hole', t1') /\
        chosen npages (pre ++ (a, n) :: rest) baddr' hole' t1') as Hgo.
    { intros b' h' t' Hc' Hh'.
      destruct (IH fuel (pre ++ [(a, n)]) nx b' h' t') as (x & y & z & E & Hxyz);
        [done|intros b k Hin; apply Hb; by right|done|done|done|simpl in Hf; lia|].
      rewrite lastaddr_snoc in E. rewrite <- app_assoc in Hxyz. eauto 6. }
    destruct (Z.ltb_spec hole 0).
    + destruct (Z.ltb_spec hole (n - npages)); apply Hgo; try lia.
      * by apply (chosen_new npages pre baddr hole t1).
      * apply chosen_snoc; [done|]. intros. lia.
    + destruct (Z.ltb_spec npages n); simpl.
      * rewrite !u32_id by lia. destruct (Z.ltb_spec (n - npages) hole); apply Hgo; try lia.
        -- apply chosen_fit. lia.
        -- apply chosen_snoc; [done|]. lia.
      * apply Hgo; [|lia]. apply chosen_snoc; [done|]. lia.
Qed.

(** What is left of a block of [n] pages after [npages] were taken from its
    start. *)
Definition remainder (a n npages : Z) : list (Z * Z) := if npages <? n then [(a + 4096 * npages, n - npages)] else [].

Lemma set_next_Some p q c b :
  fmem c !! p = Some b -> set_next p q c = Some (mk_core (first_block c) (<[p := mk_fb (no_pages b) q]> (fmem c))).
Proof. intros H. unfold set_next. by rewrite H. Qed.
Lemma set_pages_Some p n c b :
  fmem c !! p = Some b -> set_pages p n c = Some (mk_core (first_block c) (<[p := mk_fb n (next_block b)]> (fmem c))).
Proof. intros H. unfold set_pages. by rewrite H. Qed.

(** Redirecting the link that led to the rest of the list. *)
Lemma fseg_relink m p l1 q q' :
  fseg m p l1 q -> l1 <> [] -> NoDup l1.*1 ->
  exists b, m !! lastaddr l1 = Some b /\ next_block b = q /\
    fseg (<[lastaddr l1 := mk_fb (no_pages b) q']> m) p l1 q'.
Proof.
  intros Hs Hne Hnd. destruct (exists_last Hne) as (l0 & [a n] & ->). rewrite lastaddr_snoc.
  apply fseg_app in Hs as (r & H0 & (-> & nx & Hm & Hx)). simpl in Hx. subst nx.
  exists (mk_fb n q). split; [done|]. split; [done|]. apply fseg_app. exists a. split.
  - apply (fseg_frame m); [done|]. intros b Hb. apply lookup_insert_ne. intros <-.
    rewrite fmap_app in Hnd. apply NoDup_app in Hnd as (_ & Hd & _). apply (Hd a); [done|by left].
  - simpl. split; [done|]. exists q'. by rewrite lookup_insert_eq.
Qed.

Lemma lastaddr_in l : l <> [] -> lastaddr l ∈ l.*1.
Proof.
  intros Hne. destruct (exists_last Hne) as (l0 & [a n] & ->). rewrite lastaddr_snoc, fmap_app. apply elem_of_app. right. by left.
Qed.

Lemma fseg_first m p l q : fseg m p l q -> l <> [] -> exists a n l', l = (a, n) :: l' /\ p = a.
Proof. destruct l as [|[a n] l]; [done|]. intros (-> & _) _. eauto. Qed.

Lemma wf_free_remainder lo a n np l2 :
  wf_free (a + 4096 * n) l2 -> 0 < a -> lo < a -> 1 <= np -> a + 4096 * n < 2 ^ 32 -> 0 < n ->
  wf_free lo (remainder a n np ++ l2).
Proof.
  intros Hw Ha Hlo Hnp Hb Hn. unfold remainder. case_ztest; simpl.
  - split_and!; try lia. eapply wf_free_weaken; [|done]. lia.
  - eapply wf_free_weaken; [|done]. lia.
Qed.

(** The list with one block cut down, and where the surgery leaves it. *)
Lemma cut_wf l1 a n l2 np :
  wf_free 0 (l1 ++ (a, n) :: l2) -> 1 <= np -> wf_free 0 (l1 ++ remainder a n np ++ l2).
Proof.
  intros Hw Hnp. apply wf_free_app in Hw as (H1 & Hlt & Ha & Hn & Hb & H2). unfold remainder. case_ztest; simpl.
  - apply wf_free_app. split; [done|]. split; [intros b k Hin; specialize (Hlt b k Hin); lia|]. split_and!; try lia.
    eapply wf_free_weaken; [|done]. lia.
  - assert (forall lo, wf_free lo l1 -> lo < a -> wf_free lo (l1 ++ l2)) as Hgo; [|by apply (Hgo 0)].
    clear H1 Ha. induction l1 as [|[b k] l1 IH]; intros lo Hl1 Hlo; simpl in *.
    + eapply wf_free_weaken; [|done]. lia.
    + destruct Hl1 as (? & ? & ? & Hl1). split_and!; auto. apply IH; auto.
      * intros b' k' Hin. apply Hlt. by right.
      * apply Hlt. by left.
Qed.

Lemma core_alloc_cuts c l npages :
  core_ok c l -> 1 <= npages < 2 ^ 30 -> l <> [] ->
  exists l1 a n l2 c', l = l1 ++ (a, n) :: l2 /\ core_alloc npages c = Some (mk_ch a (Z.min npages n), c') /\
    core_ok c' (l1 ++ remainder a n npages ++ l2) /\ (n < npages -> forall b k, (b, k) ∈ l -> k <= n).
Proof.
  intros [Hs Hw] Hnp Hne. destruct (fseg_first _ _ _ _ Hs Hne) as (f & nf & l' & El & Ef).
  assert (forall a n, (a, n) ∈ l -> 0 < a /\ 0 < n < 2 ^ 20 /\ a + 4096 * n < 2 ^ 32) as Hb.
  { intros a n Hin. destruct (wf_free_elem _ _ _ _ Hw Hin). lia. }
  assert (NoDup l.*1) as Hnd by by eapply wf_free_nodup.
  unfold core_alloc. pose proof Hs as Hs0. rewrite El in Hs. simpl in Hs. destruct Hs as (_ & nx & Hm & Hs).
  assert (0 < f /\ 0 < nf < 2 ^ 20 /\ f + 4096 * nf < 2 ^ 32) as (Hf0 & Hnf & _) by (apply Hb; rewrite El; by left).
  rewrite Ef. destruct (Z.eqb_spec f 0) as [?|_]; [lia|]. rewrite Hm. cbn [mbind option_bind no_pages next_block].
  rewrite (s32_id (nf - npages)) by lia.
  destruct (scan_spec (S (size (fmem c))) (fmem c) npages [(f, nf)] l' nx f (nf - npages) 0) as (baddr & hole & t1 & Hscan & Hch).
  { done. } { intros a n Hin. destruct (Hb a n) as (? & ? & ?); [rewrite El; by right|]. done. } { lia. } { lia. }
  { exists [], nf, []. split_and!; auto. intros _ b k Hin. apply list_elem_of_singleton in Hin. simplify_eq. lia. }
  { pose proof (fseg_length _ _ _ _ _ Hs0 Hw) as Hlen. rewrite El in Hlen. simpl in Hlen. lia. }
  change (lastaddr [(f, nf)]) with f in Hscan. rewrite Hscan. cbn [mbind option_bind]. simpl app in Hch. rewrite <- El in Hch.
  destruct Hch as (l1 & n & l2 & El1 & -> & -> & Hmax). destruct (Hb baddr n) as (Ha & Hn & Han).
  { rewrite El1. apply elem_of_app. right. by left. }
  assert (exists nb, fmem c !! baddr = Some (mk_fb n nb) /\ fseg (fmem c) (first_block c) l1 baddr /\ fseg (fmem c) nb l2 0)
    as (nb & Hmb & Hs1 & Hs2).
  { rewrite El1 in Hs0. apply fseg_app in Hs0 as (r & H1 & (-> & nb & Hmb & H2)). eauto. }
  rewrite Hmb. cbn [mbind option_bind next_block].
  assert (mk_ch baddr (if 0 <=? n - npages then u32 npages else u32 (npages + (n - npages))) = mk_ch baddr (Z.min npages n)) as ->.
  { f_equal. case_ztest; rewrite u32_id by lia; lia. }
  pose proof (cut_wf l1 baddr n l2 npages) as Hwf. rewrite <- El1 in Hwf. specialize (Hwf Hw ltac:(lia)).
  assert (forall b, b ∈ l1.*1 -> b <> baddr) as Hnot1.
  { intros b Hin ->. rewrite El1, fmap_app in Hnd. apply NoDup_app in Hnd as (_ & Hd & _). apply (Hd baddr); [done|by left]. }
  assert (l1 = [] <-> baddr = f) as Hfirst.
  { rewrite <- Ef. split; [intros ->; by simpl in Hs1|]. intros ->. destruct l1 as [|[b k] l1]; [done|].
    destruct Hs1 as (E & _). exfalso. apply (Hnot1 b); [by left|congruence]. }
  assert (NoDup l1.*1) as Hnd1 by (rewrite El1, fmap_app in Hnd; by apply NoDup_app in Hnd as (? & _)).
  exists l1, baddr, n, l2.
  assert (n - npages < 0 -> n < npages) by lia.
  assert (forall x, x ∈ l1.*1 -> x < baddr) as Hlt1.
  { intros x ([b k] & -> & Hin)%list_elem_of_fmap. simpl. rewrite El1 in Hw. apply wf_free_app in Hw as (_ & Hlt & _).
    specialize (Hlt b k Hin). destruct (Hb b k); [rewrite El1; apply elem_of_app; by left|]. lia. }
  assert (forall x, x ∈ l2.*1 -> baddr + 4096 * n < x) as Hlt2.
  { intros x ([b k] & -> & Hin)%list_elem_of_fmap. simpl. rewrite El1 in Hw. apply wf_free_app in Hw as (_ & _ & _ & _ & _ & H2).
    by destruct (wf_free_elem _ _ _ _ H2 Hin). }
  assert (n < npages -> forall b k, (b, k) ∈ l -> k <= n) as Hmax' by (intros; apply Hmax with b; auto; lia).
  clear Hscan Hmax.
  destruct (Z.leb_spec (n - npages) 0) as [Hhole|Hhole].
  - assert (remainder baddr n npages = []) as Er by (unfold remainder; case_ztest; [lia|done]). rewrite Er in *. simpl app in *.
    destruct (decide (l1 = [])) as [E1|E1].
    + destruct (Z.eqb_spec baddr f) as [_|Hn']; [|by destruct Hn'; apply Hfirst]. cbn [mbind option_bind]. eexists; split; [done|]. split; [done|].
      split; [split; [|done]|done]. subst l1. exact Hs2.
    + destruct (Z.eqb_spec baddr f) as [E|_]; [by apply Hfirst in E|].
      destruct (fseg_relink _ _ _ _ nb Hs1 E1 Hnd1) as (b & Hb1 & _ & Hs1').
      rewrite (set_next_Some _ _ _ _ Hb1). cbn [mbind option_bind]. eexists; split; [done|]. split; [done|].
      split; [split; [|done]|done]. apply fseg_app. exists nb. split; [done|].
      apply (fseg_frame (fmem c)); [done|]. intros x Hx. apply lookup_insert_ne. specialize (Hlt2 x Hx).
      specialize (Hlt1 _ (lastaddr_in _ E1)). lia.
  - assert (remainder baddr n npages = [(baddr + 4096 * npages, n - npages)]) as Er by (unfold remainder; case_ztest; [done|lia]).
    rewrite Er in *. rewrite !u32_id by lia. replace (baddr + npages * 4096) with (baddr + 4096 * npages) by lia.
    set (t2 := baddr + 4096 * npages) in *. set (m1 := <[t2 := mk_fb (n - npages) nb]> (fmem c)).
    assert (fseg m1 t2 ((t2, n - npages) :: l2) 0) as Hs2'.
    { simpl. split; [done|]. exists nb. split; [apply lookup_insert_eq|]. apply (fseg_frame (fmem c)); [done|].
      intros x Hx. apply lookup_insert_ne. specialize (Hlt2 x Hx). lia. }
    assert (fseg m1 (first_block c) l1 baddr) as Hs1m.
    { apply (fseg_frame (fmem c)); [done|]. intros x Hx. apply lookup_insert_ne. specialize (Hlt1 x Hx). lia. }
    unfold put_block. cbn [first_block]. rewrite Ef. destruct (decide (l1 = [])) as [E1|E1].
    + destruct (Z.eqb_spec baddr f) as [_|Hn']; [|by destruct Hn'; apply Hfirst]. cbn [mbind option_bind]. eexists; split; [done|]. split; [done|].
      split; [split; [|done]|done]. subst l1. exact Hs2'.
    + destruct (Z.eqb_spec baddr f) as [E|_]; [by apply Hfirst in E|].
      destruct (fseg_relink _ _ _ _ t2 Hs1m E1 Hnd1) as (b & Hb1 & _ & Hs1'). rewrite (set_next_Some _ _ (mk_core _ m1) _ Hb1).
      cbn [mbind option_bind]. eexists; split; [done|]. split; [done|].
      split; [split; [|done]|done]. cbn [fmem first_block]. rewrite <- Ef. apply fseg_app. exists t2. split; [done|].
      apply (fseg_frame m1); [done|]. specialize (Hlt1 _ (lastaddr_in _ E1)). intros x [->|Hx]%elem_of_cons; apply lookup_insert_ne.
      * simpl. lia.
      * specialize (Hlt2 x Hx). lia.
Qed.

(** The bytes of an allocated run. *)
Definition in_run (ch : core_header) (x : Z) : Prop := phys_addr ch <= x < phys_addr ch + 4096 * no_blocks ch.

Lemma in_free_app l1 l2 x : in_free (l1 ++ l2) x <-> in_free l1 x \/ in_free l2 x.
Proof.
  unfold in_free. split.
  - intros (a & n & [Hin|Hin]%elem_of_app & Hx); eauto 6.
  - intros [(a & n & Hin & Hx)|(a & n & Hin & Hx)]; exists a, n; (split; [apply elem_of_app; auto|done]).
Qed.
Lemma in_free_cons a n l x : in_free ((a, n) :: l) x <-> a <= x < a + 4096 * n \/ in_free l x.
Proof.
  unfold in_free. split.
  - intros (b & k & [[= -> ->]|Hin]%elem_of_cons & Hx); eauto 6.
  - intros [Hx|(b & k & Hin & Hx)]; [exists a, n; split; [by left|done]|exists b, k; split; [by right|done]].
Qed.
Lemma in_free_nil x : ~ in_free [] x.
Proof. intros (a & n & Hin & _). by apply elem_of_nil in Hin. Qed.

(** A free run of pages lies in one block: blocks that touch have been merged. *)
Lemma free_run_in_block lo l a n :
  wf_free lo l -> 0 < n -> (forall x, a <= x < a + 4096 * n -> in_free l x) -> exists b k, (b, k) ∈ l /\ n <= k.
Proof.
  revert lo. induction l as [|[b k] l IH]; intros lo Hw Hn Hf.
  - destruct (in_free_nil a). apply Hf. lia.
  - simpl in Hw. destruct Hw as (? & ? & ? & Hw).
    assert (forall x, in_free l x -> b + 4096 * k < x) as Hl by (intros x (b' & k' & Hin & Hx); destruct (wf_free_elem _ _ _ _ Hw Hin); lia).
    destruct (Z.le_gt_cases n k) as [?|Hgt]; [exists b, k; split; [by left|done]|].
    destruct (IH _ Hw Hn) as (b' & k' & Hin & ?); [|exists b', k'; split; [by right|done]].
    intros x Hx. pose proof (Hf x Hx) as [Hbx|?]%in_free_cons; [|done]. exfalso.
    destruct (Z.le_gt_cases a (b + 4096 * k)) as [Hle|?]; [|lia].
    destruct (Z.lt_ge_cases (b + 4096 * k) (a + 4096 * n)).
    + pose proof (Hf (b + 4096 * k) ltac:(lia)) as [?|Hx']%in_free_cons; [lia|]. specialize (Hl _ Hx'). lia.
    + pose proof (Hf a ltac:(lia)) as [?|Hx']%in_free_cons; [lia|]. specialize (Hl _ Hx'). lia.
Qed.

(** Page allocation takes free memory and nothing else.  When there is free
    memory, [core_alloc] returns a non-empty run of at most the pages asked for;
    the run was free, is no longer free, and every other byte is as free as
    before.  The run is shorter than asked only when no free block had the
    size. *)
Theorem core_alloc_takes c l npages :
  core_ok c l -> 1 <= npages < 2 ^ 30 -> l <> [] ->
  exists ch c' l', core_alloc npages c = Some (ch, c') /\ core_ok c' l' /\ 1 <= no_blocks ch <= npages /\
    (forall x, in_free l x <-> in_free l' x \/ in_run ch x) /\ (forall x, in_run ch x -> ~ in_free l' x) /\
    (no_blocks ch < npages -> forall a n, (a, n) ∈ l -> n < npages).
Proof.
  intros Hok Hnp Hne. destruct (core_alloc_cuts c l npages Hok Hnp Hne) as (l1 & a & n & l2 & c' & -> & Hr & Hok' & Hmax).
  do 3 eexists. split; [done|]. split; [done|]. destruct Hok as [_ Hw]. apply wf_free_app in Hw as (_ & Hlt & Ha & Hn & Hb & H2).
  unfold in_run. simpl. split; [lia|]. split; [|split].
  - intros x. rewrite !in_free_app, in_free_cons. unfold remainder. case_ztest.
    + rewrite in_free_cons. pose proof (in_free_nil x). lia_or.
    + pose proof (in_free_nil x). lia_or.
  - intros x Hx. rewrite !in_free_app. intros [(b & k & Hin & Hx')|[Hin|(b & k & Hin & Hx')]].
    + specialize (Hlt b k Hin). lia.
    + revert Hin. unfold remainder. case_ztest; [rewrite in_free_cons|]; intros Hin; pose proof (in_free_nil x); [destruct Hin; [lia|done]|done].
    + destruct (wf_free_elem _ _ _ _ H2 Hin). lia.
  - intros Hlt' b k Hin. assert (n < npages) as Hlt2 by lia. specialize (Hmax Hlt2 b k Hin). lia.
Qed.

(** * [core_free] *)

Lemma split_at lo l a :
  wf_free lo l -> exists l1 l2, l = l1 ++ l2 /\ (forall b k, (b, k) ∈ l1 -> b < a) /\ (forall b k, (b, k) ∈ l2 -> a <= b).
Proof.
  revert lo. induction l as [|[b k] l IH]; intros lo Hw.
  - exists [], []. split; [done|]. split; intros ? ? Hin; by apply elem_of_nil in Hin.
  - simpl in Hw. destruct Hw as (H1 & H2 & H3 & Hw). destruct (Z.lt_ge_cases b a) as [Hlt|Hge].
    + destruct (IH _ Hw) as (l1 & l2 & -> & Hl1 & Hl2). exists ((b, k) :: l1), l2. split; [done|]. split; [|done].
      intros b' k' [[= -> ->]|Hin]%elem_of_cons; eauto.
    + exists [], ((b, k) :: l). split; [done|]. split; [intros ? ? Hin; by apply elem_of_nil in Hin|].
      intros b' k' [[= -> ->]|Hin]%elem_of_cons; [done|]. destruct (wf_free_elem _ _ _ _ Hw Hin). lia.
Qed.

Lemma find_before_spec fuel m a pre l1 l2 p :
  fseg m p (l1 ++ l2) 0 -> wf_free 0 (l1 ++ l2) ->
  (forall b k, (b, k) ∈ l1 -> b < a) -> (forall b k, (b, k) ∈ l2 -> a <= b) -> (length l1 < fuel)%nat ->
  find_before fuel m a (lastaddr pre) p = Some (lastaddr (pre ++ l1)).
Proof.
  revert fuel pre p. induction l1 as [|[b k] l1 IH]; intros fuel pre p Hs Hw H1 H2 Hf; (destruct fuel as [|fuel]; [simpl in Hf; lia|]); simpl.
  - rewrite app_nil_r. simpl in *. destruct l2 as [|[b k] l2]; simpl in Hs; [by subst p|].
    destruct Hs as (-> & _). specialize (H2 b k ltac:(by left)). destruct (Z.ltb_spec b a); [lia|]. by rewrite orb_true_r.
  - simpl in Hs, Hw. destruct Hs as (-> & nx & Hm & Hs), Hw as (W1 & W2 & W3 & Hw). specialize (H1 b k ltac:(by left)) as Hba.
    destruct (Z.eqb_spec b 0); [lia|]. destruct (Z.ltb_spec b a); [|lia]. simpl. rewrite Hm. cbn [mbind option_bind next_block].
    replace b with (lastaddr (pre ++ [(b, k)])) at 1 by apply lastaddr_snoc.
    rewrite (IH fuel (pre ++ [(b, k)]) nx); auto.
    + by rewrite <- app_assoc.
    + eapply wf_free_weaken; [|done]. lia.
    + intros b' k' Hin. apply (H1 b' k'). by right.
    + simpl in Hf. lia.
Qed.

(** The list after a run joins it between [l1] and [l2]. *)
Definition join_right (a n : Z) (l2 : list (Z * Z)) : list (Z * Z) :=
  match l2 with
  | (b, k) :: l2' => if a + 4096 * n =? b then (a, n + k) :: l2' else (a, n) :: l2
  | [] => [(a, n)]
  end.
Definition join (l1 : list (Z * Z)) (a n : Z) (l2 : list (Z * Z)) : list (Z * Z) :=
  match last l1 with
  | Some (b, k) => if b + 4096 * k =? a then removelast l1 ++ join_right b (k + n) l2 else l1 ++ join_right a n l2
  | None => join_right a n l2
  end.

Lemma join_right_free a n l2 x : 0 < n -> (forall b k, (b, k) ∈ l2 -> 0 < k) ->
  in_free (join_right a n l2) x <-> a <= x < a + 4096 * n \/ in_free l2 x.
Proof.
  intros Hn Hk. destruct l2 as [|[b k] l2]; simpl; [by rewrite in_free_cons|].
  specialize (Hk b k ltac:(by left)). case_ztest; rewrite !in_free_cons; [|done]. lia_or.
Qed.

Lemma join_right_wf lo a n l2 :
  lo < a -> 0 < n -> a + 4096 * n < 2 ^ 32 -> wf_free (a + 4096 * n - 1) l2 -> wf_free lo (join_right a n l2).
Proof.
  intros Hlo Hn Hb Hw. destruct l2 as [|[b k] l2]; simpl in *; [done|]. destruct Hw as (? & ? & ? & Hw). case_ztest; simpl.
  - split_and!; try lia. eapply wf_free_weaken; [|done]. lia.
  - split_and!; auto; lia.
Qed.

Lemma wf_free_app_any lo l1 l2 a :
  wf_free lo l1 -> (forall b k, (b, k) ∈ l1 -> b + 4096 * k < a) -> lo < a ->
  (forall lo', lo' < a -> wf_free lo' l2) -> wf_free lo (l1 ++ l2).
Proof.
  revert lo. induction l1 as [|[b k] l1 IH]; intros lo Hw Hlt Hlo H2; simpl in *; [auto|].
  destruct Hw as (? & ? & ? & Hw). split_and!; auto. apply IH; auto.
  - intros b' k' Hin. apply Hlt. by right.
  - apply Hlt. by left.
Qed.

Lemma join_facts l1 a n l2 :
  wf_free 0 (l1 ++ l2) -> 0 < a -> 0 < n -> a + 4096 * n < 2 ^ 32 ->
  (forall b k, (b, k) ∈ l1 -> b + 4096 * k <= a) -> (forall b k, (b, k) ∈ l2 -> a + 4096 * n <= b) ->
  wf_free 0 (join l1 a n l2) /\ forall x, in_free (join l1 a n l2) x <-> in_free (l1 ++ l2) x \/ a <= x < a + 4096 * n.
Proof.
  intros Hw Ha Hn Hb H1 H2.
  assert (forall b k, (b, k) ∈ l1 ++ l2 -> 0 < b /\ 0 < k) as Hpos by (intros b k Hin; destruct (wf_free_elem _ _ _ _ Hw Hin); lia).
  assert (forall b k, (b, k) ∈ l2 -> 0 < k) as Hpos2 by (intros b k Hin; eapply Hpos; apply elem_of_app; by right).
  assert (wf_free (a + 4096 * n - 1) l2) as Hw2.
  { destruct l2 as [|[b k] l2]; [done|]. apply wf_free_app in Hw as (_ & _ & _ & ? & ? & Hw). specialize (H2 b k ltac:(by left)).
    simpl. split_and!; auto. lia. }
  unfold join. destruct (decide (l1 = [])) as [->|Hne].
  - simpl. split; [by apply join_right_wf|]. intros x. rewrite join_right_free by auto. lia_or.
  - destruct (exists_last Hne) as (l0 & [b k] & ->). rewrite last_snoc, removelast_last.
    assert (wf_free 0 (l0 ++ (b, k) :: l2)) as Hw' by (by rewrite <- app_assoc in Hw).
    apply wf_free_app in Hw' as (W0 & Hlt0 & ? & ? & ? & _). specialize (H1 b k) as Hbk.
    assert (b + 4096 * k <= a) as Hle by (apply Hbk; apply elem_of_app; right; by left). case_ztest.
    + split.
      * apply (wf_free_app_any 0 l0 _ b); auto. intros lo Hlo. apply join_right_wf; try lia.
        replace (b + 4096 * (k + n) - 1) with (a + 4096 * n - 1) by lia. done.
      * intros x. rewrite !in_free_app, in_free_cons, join_right_free by (auto; lia). pose proof (in_free_nil x). lia_or.
    + split.
      * apply (wf_free_app_any 0 _ _ a).
        -- apply wf_free_app. by split_and!.
        -- intros b' k' [Hin|[= -> ->]%list_elem_of_singleton]%elem_of_app; [|lia]. specialize (Hlt0 b' k' Hin). lia.
        -- lia.
        -- intros lo Hlo. by apply join_right_wf.
      * intros x. rewrite !in_free_app, join_right_free by auto. lia_or.
Qed.

Lemma core_free_joins segs c l1 l2 ch :
  let a := phys_addr ch in let n := no_blocks ch in
  core_ok c (l1 ++ l2) -> is_valid_block segs ch = true -> 0 < a -> 0 < n -> a + 4096 * n < 2 ^ 32 ->
  (forall b k, (b, k) ∈ l1 -> b + 4096 * k <= a) -> (forall b k, (b, k) ∈ l2 -> a + 4096 * n <= b) ->
  exists c', core_free segs ch c = Some c' /\ fseg (fmem c') (first_block c') (join l1 a n l2) 0.
Proof.
  intros a n [Hs Hw] Hv Ha Hn Hb H1 H2.
  assert (forall b k, (b, k) ∈ l1 ++ l2 -> 0 < b /\ 0 < k /\ b + 4096 * k < 2 ^ 32) as Hpos.
  { intros b k Hin. destruct (wf_free_elem _ _ _ _ Hw Hin). lia. }
  pose proof (wf_free_nodup _ _ Hw) as Hnd. rewrite fmap_app in Hnd. apply NoDup_app in Hnd as (Hnd1 & Hdis & Hnd2).
  assert (forall x, x ∈ l1.*1 -> x < a) as Hx1.
  { intros x ([b k] & -> & Hin)%list_elem_of_fmap. simpl. specialize (H1 b k Hin). destruct (Hpos b k) as (? & ? & ?); [apply elem_of_app; by left|lia]. }
  assert (forall x, x ∈ l2.*1 -> a < x) as Hx2.
  { intros x ([b k] & -> & Hin)%list_elem_of_fmap. simpl. specialize (H2 b k Hin). lia. }
  unfold core_free. rewrite Hv. simpl (negb true). cbv iota. unfold find_mem_block_before. fold a.
  rewrite (find_before_spec (S (size (fmem c))) (fmem c) a [] l1 l2); auto; cycle 1.
  { intros b k Hin. apply Hx1. apply list_elem_of_fmap. exists (b, k). done. }
  { intros b k Hin. specialize (H2 b k Hin). lia. }
  { pose proof (fseg_length _ _ _ _ _ Hs Hw) as Hl. rewrite length_app in Hl. lia. }
  cbn [mbind option_bind]. simpl app. fold n. rewrite (u32_id (a + n * 4096)) by lia.
  apply fseg_app in Hs as (r & Hs1 & Hs2).
  assert (forall n' nx l', fseg (fmem c) nx l' 0 -> (forall x, x ∈ l'.*1 -> a < x) -> fseg (<[a := mk_fb n' nx]> (fmem c)) a ((a, n') :: l') 0) as Hput.
  { intros n' nx l' Hs' Hx'. simpl. split; [done|]. exists nx. rewrite lookup_insert_eq. split; [done|].
    apply (fseg_frame (fmem c)); [done|]. intros x Hx. apply lookup_insert_ne. specialize (Hx' x Hx). lia. }
  assert (forall b k l', l2 = (b, k) :: l' -> r = b /\ b <> 0 /\ exists nx, fmem c !! b = Some (mk_fb k nx) /\ fseg (fmem c) nx l' 0 /\ forall x, x ∈ l'.*1 -> a < x) as Hl2.
  { intros b k l' ->. destruct Hs2 as (-> & nx & Hm & Hs'). destruct (Hpos b k) as (? & ? & ?); [apply elem_of_app; right; by left|].
    split; [done|]. split; [lia|]. exists nx. split; [done|]. split; [done|]. intros x Hx. apply Hx2. by right. }
  destruct (decide (l1 = [])) as [->|Hne1].
  - (* in front of the list *)
    change (lastaddr []) with 0. simpl in Hs1. subst r. simpl (0 =? 0). cbv iota. unfold join. simpl. unfold put_block, set_first. simpl.
    destruct l2 as [|[b k] l2]; simpl.
    + simpl in Hs2. rewrite Hs2. simpl. eexists; split; [done|]. simpl. split; [done|]. exists 0. by rewrite lookup_insert_eq.
    + destruct (Hl2 b k l2 eq_refl) as (Eb & Hb0 & nx & Hm & Hs' & Hx'). rewrite Eb. destruct (Z.eqb_spec b 0); [done|]. simpl.
      replace (a + n * 4096) with (a + 4096 * n) by lia. destruct (Z.eqb_spec (a + 4096 * n) b) as [E|E].
      * rewrite Hm. cbn [mbind option_bind no_pages next_block]. destruct (Hpos b k) as (? & ? & ?); [by left|]. rewrite u32_id by lia.
        eexists; split; [done|]. simpl. by apply Hput.
      * eexists; split; [done|]. simpl fmem. simpl first_block. apply (Hput n b ((b, k) :: l2)); [|exact Hx2].
        rewrite Eb in Hs2. exact Hs2.
  - (* after the last block below it *)
    destruct (exists_last Hne1) as (l0 & [b1 k1] & ->). rewrite lastaddr_snoc. unfold join. rewrite last_snoc, removelast_last.
    apply fseg_app in Hs1 as (r0 & Hs0 & (-> & nx1 & Hm1 & Hr)). simpl in Hr. subst nx1.
    destruct (Hpos b1 k1) as (B1 & B2 & B3); [apply elem_of_app; left; apply elem_of_app; right; by left|].
    assert (b1 < a /\ b1 + 4096 * k1 <= a) as [Hb1 Hb1'].
    { split; [apply Hx1; rewrite fmap_app; apply elem_of_app; right; by left|]. apply H1. apply elem_of_app. right. by left. }
    rewrite fmap_app in Hnd1. apply NoDup_app in Hnd1 as (_ & Hd0 & _).
    assert (forall x, x ∈ l0.*1 -> x <> b1 /\ x < a) as Hx0.
    { intros x Hx. split; [intros ->; apply (Hd0 b1); [done|by left]|]. apply Hx1. rewrite fmap_app. apply elem_of_app. by left. }
    assert (first_block c = match l0 with [] => b1 | (z, _) :: _ => z end) as Ef.
    { destruct l0 as [|[z k] l0]; simpl in Hs0; [done|]. by destruct Hs0. }
    destruct (Z.eqb_spec b1 0); [lia|]. rewrite Hm1. cbn [mbind option_bind no_pages next_block].
    rewrite (u32_id (b1 + k1 * 4096)) by lia. replace (b1 + k1 * 4096) with (b1 + 4096 * k1) by lia.
    assert (forall k' nx l', fseg (fmem c) nx l' 0 -> (forall x, x ∈ l'.*1 -> a < x) ->
      fseg (<[b1 := mk_fb k' nx]> (fmem c)) (first_block c) (l0 ++ (b1, k') :: l') 0) as Hset.
    { intros k' nx l' Hs' Hx'. apply fseg_app. exists b1. split.
      - apply (fseg_frame (fmem c)); [done|]. intros x Hx. apply lookup_insert_ne. destruct (Hx0 x Hx). congruence.
      - simpl. split; [done|]. exists nx. rewrite lookup_insert_eq. split; [done|]. apply (fseg_frame (fmem c)); [done|].
        intros x Hx. apply lookup_insert_ne. specialize (Hx' x Hx). lia. }
    assert (forall n' nx l', fseg (fmem c) nx l' 0 -> (forall x, x ∈ l'.*1 -> a < x) ->
      fseg (<[a := mk_fb n' nx]> (<[b1 := mk_fb k1 a]> (fmem c))) (first_block c) ((l0 ++ [(b1, k1)]) ++ (a, n') :: l') 0) as Hnew.
    { intros n' nx l' Hs' Hx'. rewrite <- app_assoc. apply fseg_app. exists b1. split.
      - apply (fseg_frame (fmem c)); [done|]. intros x Hx. destruct (Hx0 x Hx). rewrite !lookup_insert_ne by lia. done.
      - simpl. split; [done|]. exists a. rewrite lookup_insert_ne by lia. rewrite lookup_insert_eq. split; [done|]. split; [done|].
        exists nx. rewrite lookup_insert_eq. split; [done|]. apply (fseg_frame (fmem c)); [done|].
        intros x Hx. specialize (Hx' x Hx). rewrite !lookup_insert_ne by lia. done. }
    destruct (Z.eqb_spec (b1 + 4096 * k1) a) as [Eadj|Eadj].
    + rewrite (set_pages_Some _ _ _ _ Hm1). cbn [mbind option_bind next_block].
      rewrite (u32_id (k1 + n)) by lia. rewrite (u32_id (b1 + (k1 + n) * 4096)) by lia.
      replace (b1 + (k1 + n) * 4096) with (a + 4096 * n) by lia. unfold join_right.
      destruct l2 as [|[b k] l2].
      * simpl in Hs2. rewrite Hs2. simpl. eexists; split; [done|]. cbn [fmem first_block].
        apply (Hset (k1 + n) 0 []); [done|]. intros x Hx. by apply elem_of_nil in Hx.
      * destruct (Hl2 b k l2 eq_refl) as (-> & Hb0 & nx & Hm & Hs' & Hx'). destruct (Z.eqb_spec b 0); [done|]. simpl (negb false).
        replace (b1 + 4096 * (k1 + n)) with (a + 4096 * n) by lia. destruct (Z.eqb_spec (a + 4096 * n) b) as [E|E]; simpl (true && _); cbv iota.
        -- specialize (Hx2 b ltac:(by left)). cbn [fmem]. rewrite lookup_insert_ne by lia. rewrite Hm. cbn [mbind option_bind no_pages next_block].
           destruct (Hpos b k) as (? & ? & ?); [apply elem_of_app; right; by left|]. rewrite (u32_id (k1 + n + k)) by lia.
           erewrite set_pages_Some; [|apply lookup_insert_eq]. cbn [mbind option_bind next_block fmem first_block]. rewrite insert_insert_eq.
           erewrite set_next_Some; [|apply lookup_insert_eq]. cbn [no_pages next_block fmem first_block]. rewrite insert_insert_eq.
           eexists; split; [done|]. cbn [fmem first_block]. by apply Hset.
        -- eexists; split; [done|]. cbn [fmem first_block]. apply (Hset (k1 + n) b ((b, k) :: l2)); [|exact Hx2].
           simpl. split; [done|]. eauto.
    + unfold join_right. destruct l2 as [|[b k] l2].
      * simpl in Hs2. rewrite Hs2. simpl (negb _ && _). cbv iota. rewrite (set_next_Some _ _ _ _ Hm1). cbn [mbind option_bind no_pages].
        eexists; split; [done|]. unfold put_block. cbn [fmem first_block].
        apply (Hnew n 0 []); [done|]. intros x Hx. by apply elem_of_nil in Hx.
      * destruct (Hl2 b k l2 eq_refl) as (-> & Hb0 & nx & Hm & Hs' & Hx'). destruct (Z.eqb_spec b 0); [done|]. simpl (negb false).
        replace (a + n * 4096) with (a + 4096 * n) by lia. destruct (Z.eqb_spec (a + 4096 * n) b) as [E|E]; simpl (true && _); cbv iota.
        -- rewrite Hm. cbn [mbind option_bind no_pages next_block]. rewrite (set_next_Some _ _ _ _ Hm1). cbn [mbind option_bind no_pages].
           destruct (Hpos b k) as (? & ? & ?); [apply elem_of_app; right; by left|]. rewrite (u32_id (n + k)) by lia.
           eexists; split; [done|]. unfold put_block. cbn [fmem first_block]. by apply Hnew.
        -- rewrite (set_next_Some _ _ _ _ Hm1). cbn [mbind option_bind no_pages].
           eexists; split; [done|]. unfold put_block. cbn [fmem first_block]. apply (Hnew n b ((b, k) :: l2)); [|exact Hx2].
           simpl. split; [done|]. eauto.
Qed.

Definition run_ok (segs : list ram_segment) (ch : core_header) : Prop :=
  is_valid_block segs ch = true /\ 0 < phys_addr ch /\ 0 < no_blocks ch /\ phys_addr ch + 4096 * no_blocks ch < 2 ^ 32.

Lemma core_free_ok segs c l ch :
  core_ok c l -> run_ok segs ch -> (forall x, in_run ch x -> ~ in_free l x) ->
  exists c' l', core_free segs ch c = Some c' /\ core_ok c' l' /\ forall x, in_free l' x <-> in_free l x \/ in_run ch x.
Proof.
  intros [Hs Hw] (Hv & Ha & Hn & Hb) Hd. unfold in_run in *.
  destruct (split_at 0 l (phys_addr ch) Hw) as (l1 & l2 & -> & H1 & H2).
  assert (forall b k, (b, k) ∈ l1 ++ l2 -> 0 < k) as Hk by (intros b k Hin; by destruct (wf_free_elem _ _ _ _ Hw Hin) as (_ & ? & _)).
  assert (forall b k, (b, k) ∈ l1 -> b + 4096 * k <= phys_addr ch) as H1'.
  { intros b k Hin. specialize (H1 b k Hin). destruct (Z.le_gt_cases (b + 4096 * k) (phys_addr ch)) as [?|Hgt]; [done|].
    exfalso. apply (Hd (phys_addr ch)); [lia|]. exists b, k. split; [apply elem_of_app; by left|lia]. }
  assert (forall b k, (b, k) ∈ l2 -> phys_addr ch + 4096 * no_blocks ch <= b) as H2'.
  { intros b k Hin. specialize (H2 b k Hin). destruct (Z.le_gt_cases (phys_addr ch + 4096 * no_blocks ch) b) as [?|Hgt]; [done|].
    exfalso. apply (Hd b); [lia|]. exists b, k. split; [apply elem_of_app; by right|].
    specialize (Hk b k). assert (0 < k) by (apply Hk; apply elem_of_app; by right). lia. }
  destruct (core_free_joins segs c l1 l2 ch) as (c' & Hc' & Hs'); auto; [by split|].
  destruct (join_facts l1 (phys_addr ch) (no_blocks ch) l2) as [Hw' Hf]; auto.
  exists c', (join l1 (phys_addr ch) (no_blocks ch) l2). by split_and!.
Qed.

(** C28: Freeing gives back exactly what was taken.  [core_free] of a valid run
    that is not free makes its bytes free and no others, and leaves the list
    sorted with neighbouring blocks merged. *)
Theorem core_free_gives_back segs c l ch :
  core_ok c l -> run_ok segs ch -> (forall x, in_run ch x -> ~ in_free l x) ->
  exists c' l', core_free segs ch c = Some c' /\ core_ok c' l' /\ forall x, in_free l' x <-> in_free l x \/ in_run ch x.
Proof. apply core_free_ok. Qed.

(** ** Fragments *)

Definition in_runs (chs : list core_header) (x : Z) : Prop := exists ch, ch ∈ chs /\ in_run ch x.

(** Runs that may be freed in this order: each is neither free nor part of a
    later one. *)
Fixpoint runs_ok (segs : list ram_segment) (chs : list core_header) (l : list (Z * Z)) : Prop :=
  match chs with
  | [] => True
  | ch :: chs' => run_ok segs ch /\ (forall x, in_run ch x -> ~ in_free l x /\ ~ in_runs chs' x) /\ runs_ok segs chs' l
  end.

Lemma in_runs_cons ch chs x : in_runs (ch :: chs) x <-> in_run ch x \/ in_runs chs x.
Proof.
  unfold in_runs. split.
  - intros (ch' & [->|Hin]%elem_of_cons & Hx); eauto.
  - intros [Hx|(ch' & Hin & Hx)]; [exists ch; split; [by left|done]|exists ch'; split; [by right|done]].
Qed.

Lemma runs_ok_grow segs chs l l' :
  runs_ok segs chs l -> (forall x, in_free l' x -> in_free l x \/ ~ in_runs chs x) -> runs_ok segs chs l'.
Proof.
  induction chs as [|ch chs IH]; simpl; [done|]. intros (H1 & H2 & H3) Hl. split; [done|]. split.
  - intros x Hx. destruct (H2 x Hx) as [Hf Hr]. split; [|done]. intros Hf'. destruct (Hl x Hf') as [?|Hn]; [done|].
    apply Hn. apply in_runs_cons. by left.
  - apply IH; [done|]. intros x Hx. destruct (Hl x Hx) as [?|Hn]; [by left|]. right. intros Hr. apply Hn. apply in_runs_cons. by right.
Qed.

Lemma free_all_spec segs chs c l :
  core_ok c l -> runs_ok segs chs l ->
  exists c' l', free_all segs chs c = Some c' /\ core_ok c' l' /\ forall x, in_free l' x <-> in_free l x \/ in_runs chs x.
Proof.
  revert c l. induction chs as [|ch chs IH]; intros c l Hok Hr; simpl.
  - exists c, l. split; [done|]. split; [done|]. intros x. split; [by left|]. intros [?|(ch & Hin & _)]; [done|]. by apply elem_of_nil in Hin.
  - destruct Hr as (H1 & H2 & H3). destruct (core_free_ok segs c l ch Hok H1) as (c1 & l1 & -> & Hok1 & Hf1).
    { intros x Hx. by apply H2. }
    cbn [mbind option_bind]. destruct (IH c1 l1 Hok1) as (c' & l' & -> & Hok' & Hf').
    { apply (runs_ok_grow segs chs l); [done|]. intros x [?|Hx]%Hf1; [by left|]. right. by apply H2. }
    exists c', l'. split; [done|]. split; [done|]. intros x. rewrite Hf', Hf1, in_runs_cons. tauto.
Qed.

(** All free memory lies in usable segments. *)
Definition in_segments (segs : list ram_segment) (l : list (Z * Z)) : Prop :=
  forall x, in_free l x -> exists sg, sg ∈ segs /\ seg_type sg = 1 /\ base_addr sg <= x <= u32 (base_addr sg + seg_length sg).

Lemma segments_valid segs l ch :
  in_segments segs l -> 0 < no_blocks ch -> in_free l (phys_addr ch) -> is_valid_block segs ch = true.
Proof.
  intros Hs Hn Hf. destruct (Hs _ Hf) as (sg & Hin & Ht & Hx). unfold is_valid_block.
  destruct (Z.leb_spec (no_blocks ch) 0); [lia|]. simpl. apply existsb_exists. exists sg. split; [by apply list_elem_of_In|].
  rewrite Ht, Z.eqb_refl. simpl. rewrite andb_true_iff, !Z.leb_le. done.
Qed.

Definition total (chs : list core_header) : Z := foldr (fun ch s => no_blocks ch + s) 0 chs.

Lemma core_alloc_ok segs c l npages acc :
  core_ok c l -> in_segments segs l -> 1 <= npages < 2 ^ 30 -> l <> [] -> runs_ok segs acc l ->
  exists ch c' l', core_alloc npages c = Some (ch, c') /\ core_ok c' l' /\ 1 <= no_blocks ch <= npages /\
    (forall x, in_free l x <-> in_free l' x \/ in_run ch x) /\ in_segments segs l' /\ runs_ok segs (ch :: acc) l' /\
    (no_blocks ch < npages -> forall b k, (b, k) ∈ l -> k < npages).
Proof.
  intros Hok Hsg Hnp Hne Hr. destruct (core_alloc_cuts c l npages Hok Hnp Hne) as (l1 & a & n & l2 & c' & -> & Hc & Hok' & Hmax).
  destruct Hok as [_ Hw]. apply wf_free_app in Hw as (_ & Hlt & Ha & Hn & Hb & H2).
  set (ch := mk_ch a (Z.min npages n)) in *.
  assert (forall x, in_free (l1 ++ (a, n) :: l2) x <-> in_free (l1 ++ remainder a n npages ++ l2) x \/ in_run ch x) as Hf.
  { intros x. unfold in_run. simpl. rewrite !in_free_app, in_free_cons. unfold remainder. pose proof (in_free_nil x).
    case_ztest; [rewrite in_free_cons|]; lia_or. }
  assert (forall x, in_run ch x -> ~ in_free (l1 ++ remainder a n npages ++ l2) x) as Hd.
  { intros x Hx. unfold in_run in Hx. simpl in Hx. rewrite !in_free_app. intros [(b & k & Hin & Hx')|[Hin|(b & k & Hin & Hx')]].
    - specialize (Hlt b k Hin). lia.
    - revert Hin. unfold remainder. case_ztest; [rewrite in_free_cons|]; intros Hin; pose proof (in_free_nil x); [destruct Hin; [lia|done]|done].
    - destruct (wf_free_elem _ _ _ _ H2 Hin). lia. }
  exists ch, c', (l1 ++ remainder a n npages ++ l2). split; [done|]. split; [done|]. split; [simpl; lia|]. split; [done|].
  split; [intros x Hx; apply Hsg; apply Hf; by left|].
  split; [|intros Hlt' b k Hin; assert (n < npages) as Hlt2 by (simpl in Hlt'; lia); specialize (Hmax Hlt2 b k Hin); lia]. split; [|split].
  - split; [|simpl; lia]. apply (segments_valid segs (l1 ++ (a, n) :: l2)); [done|simpl; lia|]. apply Hf. right. unfold in_run. simpl. lia.
  - intros x Hx. split; [by apply Hd|]. intros Hacc. assert (in_free (l1 ++ (a, n) :: l2) x) as Hin by (apply Hf; by right).
    clear -Hr Hacc Hin. induction acc as [|c0 acc IH]; [destruct Hacc as (? & E & _); by apply elem_of_nil in E|].
    destruct Hr as (_ & H2 & H3). apply in_runs_cons in Hacc as [Hx|Hx]; [by destruct (H2 x Hx)|by apply IH].
  - apply (runs_ok_grow segs acc (l1 ++ (a, n) :: l2)); [done|]. intros x Hx. left. apply Hf. by left.
Qed.

Lemma alloc_n_loop_spec segs room pages acc c l l0 :
  core_ok c l -> in_segments segs l -> pages < 2 ^ 30 -> runs_ok segs acc l ->
  (forall x, in_free l0 x <-> in_free l x \/ in_runs acc x) -> 0 <= pages ->
  exists r chs c' l', alloc_n_loop segs room pages acc c = Some (r, chs, c') /\ core_ok c' l' /\
    (forall x, in_free l0 x <-> in_free l' x \/ in_runs chs x) /\ runs_ok segs chs l' /\
    ((r = ENOMEM /\ chs = []) \/ (r = zlen chs /\ total chs = total acc + pages)).
Proof.
  revert pages acc c l. induction room as [|room IH]; intros pages acc c l Hok Hsg Hp Hr Hf Hp0; simpl.
  all: destruct (Z.leb_spec pages 0).
  1, 3: exists (zlen acc), acc, c, l; split; [done|]; split; [done|]; split; [done|]; split; [done|]; right; split; [done|lia].
  - destruct (free_all_spec segs acc c l Hok Hr) as (c' & l' & -> & Hok' & Hf'). cbn [mbind option_bind].
    exists ENOMEM, [], c', l'. split; [done|]. split; [done|]. split; [|split; [done|by left]].
    intros x. rewrite Hf, Hf'. split; [by left|]. intros [?|(? & E & _)]; [done|by apply elem_of_nil in E].
  - destruct (decide (l = [])) as [->|Hne].
    + assert (core_alloc pages c = Some (mk_ch 0 0, c)) as -> by (unfold core_alloc; destruct Hok as [Hs _]; simpl in Hs; by rewrite Hs).
      cbn [mbind option_bind]. simpl (_ =? 0). cbv iota.
      destruct (free_all_spec segs acc c [] Hok Hr) as (c' & l' & -> & Hok' & Hf'). cbn [mbind option_bind].
      exists ENOMEM, [], c', l'. split; [done|]. split; [done|]. split; [|split; [done|by left]].
      intros x. rewrite Hf, Hf'. split; [by left|]. intros [?|(? & E & _)]; [done|by apply elem_of_nil in E].
    + destruct (core_alloc_ok segs c l pages acc Hok Hsg) as (ch & c1 & l1 & -> & Hok1 & Hnb & Hf1 & Hsg1 & Hr1 & _); [lia|done|done|].
      cbn [mbind option_bind]. destruct (Z.eqb_spec (no_blocks ch) 0); [lia|]. rewrite s32_id by lia.
      destruct (IH (pages - no_blocks ch) (ch :: acc) c1 l1) as (r & chs & c' & l' & Hrun & Hok' & Hf' & Hr' & Hres); auto; [lia| |lia|].
      { intros x. rewrite Hf, Hf1, in_runs_cons. tauto. }
      exists r, chs, c', l'. split; [done|]. split; [done|]. split; [done|]. split; [done|].
      destruct Hres as [?|[-> Ht]]; [by left|right]. split; [done|]. simpl in Ht. lia.
Qed.

(** Fragmented allocation is all or nothing.  [core_alloc_n] either returns
    the number of fragments, which add up to exactly the pages asked for, were
    free and do not overlap, or returns [ENOMEM] with the same bytes free as
    before: the fragments gathered so far are given back. *)
Theorem core_alloc_n_all_or_nothing segs c l npages chmax :
  core_ok c l -> in_segments segs l -> 0 <= npages < 2 ^ 30 ->
  exists r chs c' l', core_alloc_n segs npages chmax c = Some (r, chs, c') /\ core_ok c' l' /\ runs_ok segs chs l' /\
    (forall x, in_free l x <-> in_free l' x \/ in_runs chs x) /\
    ((r = ENOMEM /\ chs = []) \/ (r = zlen chs /\ total chs = npages)).
Proof.
  intros Hok Hsg Hnp. destruct (alloc_n_loop_spec segs (Z.to_nat chmax) npages [] c l l) as (r & chs & c' & l' & H1 & H2 & H3 & H4 & H5);
    auto; try lia; try done.
  - intros x. split; [by left|]. intros [?|(? & E & _)]; [done|by apply elem_of_nil in E].
  - exists r, chs, c', l'. by split_and!.
Qed.

(** * Defects *)

(** The start-up list hands out the kernel.  For the memory map that
    [get_sys_data] builds without E820 (640 KB at 0, the rest from 1 MB), with
    the first free address inside the second segment, the initial free list is
    the memory from that address on, followed by the whole segment again: the
    loop starts at the segment already counted.  Every byte between 1 MB and the
    first free address, where the kernel is, is on the free list. *)
Theorem initialize_core_overlaps L loc :
  0x100000 < loc < 0x100000 + 4096 * L -> 0x100000 + 4096 * L < 2 ^ 32 ->
  exists c, initialize_core_info [mk_seg 0 0xa0000 1; mk_seg 0x100000 (4096 * L) 1] loc = Some (2%nat, c) /\
    fseg (fmem c) (first_block c) [(loc, (0x100000 + 4096 * L - loc) / 4096); (0x100000, L)] 0 /\
    forall x, 0x100000 <= x < loc -> in_free [(loc, (0x100000 + 4096 * L - loc) / 4096); (0x100000, L)] x.
Proof.
  intros Hl Hb. unfold initialize_core_info. simpl skip_segments. cbn [base_addr seg_length].
  rewrite (u32_id (0 + 0xa0000)) by lia. rewrite (u32_id (0x100000 + 4096 * L)) by lia.
  destruct (Z.ltb_spec (0 + 0xa0000) loc); [|lia]. destruct (Z.ltb_spec (0x100000 + 4096 * L) loc); [lia|]. cbn [lookup list_lookup].
  simpl (_ !! _). cbn [mbind option_bind base_addr seg_length]. simpl (drop _ _). simpl link_segments. rewrite u32_id by lia.
  erewrite set_next_Some by apply lookup_insert_eq. cbn [mbind option_bind no_pages first_block fmem put_block].
  unfold put_block. cbn [first_block fmem].
  erewrite set_next_Some by apply lookup_insert_eq. cbn [mbind option_bind no_pages first_block fmem].
  replace (4096 * L / 4096) with L by (rewrite Z.mul_comm, Z.div_mul; lia).
  eexists; split; [reflexivity|]. cbn [fmem first_block]. rewrite !insert_insert_eq. split.
  - simpl. split; [done|]. exists 0x100000. rewrite lookup_insert_ne by lia. rewrite lookup_insert_eq. split; [done|].
    split; [done|]. exists 0. by rewrite lookup_insert_eq.
  - intros x Hx. rewrite !in_free_cons. right. left. lia.
Qed.

(** The choice is not a best fit.  The comment of [core_alloc] promises the
    best-fitting block, but once a block that is large enough has been seen, one
    of exactly the size asked for is passed over: with a larger block in front,
    the larger one is cut. *)
Theorem core_alloc_skips_exact_fit c a n b npages :
  core_ok c [(a, n); (b, npages)] -> 1 <= npages -> npages < n ->
  exists c', core_alloc npages c = Some (mk_ch a npages, c') /\
    core_ok c' [(a + 4096 * npages, n - npages); (b, npages)].
Proof.
  intros Hok Hnp Hlt. assert (n < 2 ^ 20) as Hn.
  { destruct Hok as [_ Hw]. simpl in Hw. lia. }
  destruct (core_alloc_cuts c _ npages Hok) as (l1 & a' & n' & l2 & c' & El & Hr & Hok' & _); [lia|done|].
  (* the run starts at the first block: the scan keeps it *)
  assert (exists c1, core_alloc npages c = Some (mk_ch a npages, c1)) as [c1 Hc1].
  { destruct Hok as [(Ef & nx & Hm & (-> & nx2 & Hm2 & E0)) Hw]. simpl in Hw, E0. subst nx2. unfold core_alloc. rewrite Ef.
    destruct (Z.eqb_spec a 0); [lia|]. rewrite Hm. cbn [mbind option_bind no_pages next_block].
    assert (exists f, size (fmem c) = S f) as [f ->].
    { destruct (size (fmem c)) eqn:E; [|eauto]. apply map_size_empty_inv in E. rewrite E in Hm. by rewrite lookup_empty in Hm. }
    cbn [scan]. destruct (Z.eqb_spec b 0); [lia|]. rewrite Hm2. cbn [mbind option_bind no_pages next_block].
    rewrite !s32_id, (u32_id npages) by lia. destruct (Z.ltb_spec (n - npages) 0); [lia|]. rewrite Z.ltb_irrefl. simpl (false && _). cbv iota.
    rewrite Z.eqb_refl. cbn [mbind option_bind]. rewrite Hm. cbn [mbind option_bind next_block].
    destruct (Z.leb_spec 0 (n - npages)); [|lia]. destruct (Z.leb_spec (n - npages) 0); [lia|].
    unfold put_block. cbn [first_block]. rewrite Ef, Z.eqb_refl. cbn [mbind option_bind]. eauto. }
  rewrite Hc1 in Hr. injection Hr as Ea Emin Ec. subst a' c1. exists c'. split; [done|].
  destruct Hok as [_ Hw]. simpl in Hw.
  destruct l1 as [|[x y] [|p l1]].
  - injection El as En El. subst n' l2. unfold remainder in Hok'. destruct (Z.ltb_spec npages n); [done|lia].
  - injection El as _ _ Eb _. lia.
  - injection El as _ _ _ El. by destruct l1.
Qed.

(** * A concrete free list: 10 pages at 2 MB and 4 pages at 3 MB *)

Definition ex_segs : list ram_segment := [mk_seg 0 0xa0000 1; mk_seg 0x100000 0x700000 1].
Definition ex_free : list (Z * Z) := [(0x200000, 10); (0x300000, 4)].
Definition ex_core : core := mk_core 0x200000 (list_to_map [(0x200000, mk_fb 10 0x300000); (0x300000, mk_fb 4 0)]).

Lemma ex_core_ok : core_ok ex_core ex_free.
Proof. split; [|by vm_compute]. simpl. split; [done|]. eexists. split; [reflexivity|]. split; [done|]. eexists. by split. Qed.

Lemma ex_in_segments : in_segments ex_segs ex_free.
Proof.
  intros x (a & n & Hin & Hx). exists (mk_seg 0x100000 0x700000 1). split; [right; by left|]. split; [done|].
  change (u32 _) with 0x800000. simpl.
  apply elem_of_cons in Hin as [[= -> ->]|Hin]; [lia|]. apply list_elem_of_singleton in Hin as [= -> ->]. lia.
Qed.

Lemma core_alloc_takes_witness :
  exists ch c' l', core_alloc 6 ex_core = Some (ch, c') /\ core_ok c' l' /\ 1 <= no_blocks ch <= 6 /\
    (forall x, in_free ex_free x <-> in_free l' x \/ in_run ch x) /\ (forall x, in_run ch x -> ~ in_free l' x) /\
    (no_blocks ch < 6 -> forall a n, (a, n) ∈ ex_free -> n < 6).
Proof. apply (core_alloc_takes ex_core ex_free 6 ex_core_ok); [lia|discriminate]. Defined.

Lemma core_free_gives_back_witness :
  exists c' l', core_free ex_segs (mk_ch 0x20a000 3) ex_core = Some c' /\ core_ok c' l' /\
    forall x, in_free l' x <-> in_free ex_free x \/ in_run (mk_ch 0x20a000 3) x.
Proof.
  apply (core_free_gives_back ex_segs ex_core ex_free _ ex_core_ok); [by split_and!|].
  unfold in_run. simpl. intros x Hx (a & n & Hin & Hx').
  apply elem_of_cons in Hin as [[= -> ->]|Hin]; [lia|]. apply list_elem_of_singleton in Hin as [= -> ->]. lia.
Defined.

Lemma core_alloc_n_all_or_nothing_witness :
  exists r chs c' l', core_alloc_n ex_segs 13 5 ex_core = Some (r, chs, c') /\ core_ok c' l' /\ runs_ok ex_segs chs l' /\
    (forall x, in_free ex_free x <-> in_free l' x \/ in_runs chs x) /\
    ((r = ENOMEM /\ chs = []) \/ (r = zlen chs /\ total chs = 13)).
Proof. apply (core_alloc_n_all_or_nothing ex_segs ex_core ex_free 13 5 ex_core_ok ex_in_segments). lia. Defined.

Lemma initialize_core_overlaps_witness :
  exists c, initialize_core_info [mk_seg 0 0xa0000 1; mk_seg 0x100000 (4096 * 1792) 1] 0x200000 = Some (2%nat, c) /\
    fseg (fmem c) (first_block c) [(0x200000, (0x100000 + 4096 * 1792 - 0x200000) / 4096); (0x100000, 1792)] 0 /\
    forall x, 0x100000 <= x < 0x200000 -> in_free [(0x200000, (0x100000 + 4096 * 1792 - 0x200000) / 4096); (0x100000, 1792)] x.
Proof. apply (initialize_core_overlaps 1792 0x200000); lia. Defined.

Lemma core_alloc_skips_exact_fit_witness :
  exists c', core_alloc 4 ex_core = Some (mk_ch 0x200000 4, c') /\
    core_ok c' [(0x200000 + 4096 * 4, 10 - 4); (0x300000, 4)].
Proof. apply (core_alloc_skips_exact_fit ex_core 0x200000 10 0x300000 4 ex_core_ok); lia. Defined.

End CoreAlloc.
