(* ===== verification/MemList.v ===== *)
(** The parts of the kernel heap (base/vmmap.c): the page allocator as the heap
    sees it ([Pages.PageAlloc], implemented by CoreAlloc.v), and the lists of
    memory nodes with their insertion, removal and search ([MemList]).  The
    operations on links are proved to do what functions on lists of pieces do. *)
From S2P Require Import Prelude CoreAlloc.

(** * The page allocator as the heap sees it *)

Module Pages.
Import CoreAlloc.

(** The heap relies on all memory being below this address: it is the first hole
    that the search of [kmalloc] no longer takes for the smallest. *)
Definition HOLE_MAX : Z := 0xefffffff.

Class PageAlloc (K : Type) := {
  page_alloc : Z -> K -> option (core_header * K);
  page_free : core_header -> K -> option K;
  pages_ok : K -> Prop;
  is_free : K -> Z -> Prop;       (* the byte is in a free page *)
  is_run : core_header -> Prop;   (* a run that can be given back *)
  run_range ch : is_run ch -> 0 < phys_addr ch /\ 0 < no_blocks ch /\ phys_addr ch + 4096 * no_blocks ch <= HOLE_MAX;
  run_aligned ch : is_run ch -> phys_addr ch mod 4096 = 0;
  page_alloc_ok k n : pages_ok k -> 1 <= n < 2 ^ 30 ->
    exists ch k', page_alloc n k = Some (ch, k') /\ pages_ok k' /\ 0 <= no_blocks ch <= n /\ (0 < no_blocks ch -> is_run ch) /\
      (forall x, is_free k x <-> is_free k' x \/ in_run ch x) /\ (forall x, in_run ch x -> ~ is_free k' x) /\
      (no_blocks ch < n -> forall a, ~ forall x, a <= x < a + 4096 * n -> is_free k x);
  page_free_ok k ch : pages_ok k -> is_run ch -> (forall x, in_run ch x -> ~ is_free k x) ->
    exists k', page_free ch k = Some k' /\ pages_ok k' /\ forall x, is_free k' x <-> is_free k x \/ in_run ch x }.

(** [core_alloc] and [core_free], for a memory map [segs] with all memory below
    [HOLE_MAX]. *)
Section Core.
Context (segs : list ram_segment).
Hypothesis low_ram : Forall (fun sg => seg_type sg = 1 -> u32 (base_addr sg + seg_length sg) < HOLE_MAX) segs.

Definition in_ram (x : Z) : Prop :=
  exists sg, sg ∈ segs /\ seg_type sg = 1 /\ base_addr sg <= x <= u32 (base_addr sg + seg_length sg).
(** Free memory comes in whole pages. *)
Definition whole_pages (l : list (Z * Z)) : Prop := forall x y, x / 4096 = y / 4096 -> in_free l x -> in_free l y.
Definition core_pages_ok (c : core) : Prop := exists l, core_ok c l /\ in_segments segs l /\ whole_pages l.
Definition core_is_free (c : core) (x : Z) : Prop := exists l, core_ok c l /\ in_free l x.
Definition core_is_run (ch : core_header) : Prop := run_ok segs ch /\ phys_addr ch mod 4096 = 0 /\ forall x, in_run ch x -> in_ram x.

Lemma fseg_unique m p lo1 lo2 l1 l2 :
  0 <= lo1 -> 0 <= lo2 -> fseg m p l1 0 -> fseg m p l2 0 -> wf_free lo1 l1 -> wf_free lo2 l2 -> l1 = l2.
Proof.
  revert p lo1 lo2 l2. induction l1 as [|[a n] l1 IH]; intros p lo1 lo2 [|[b k] l2] Hl1 Hl2 H1 H2 W1 W2; simpl in *; [done|..].
  - destruct H2 as [E _], W2 as [? _]. lia.
  - destruct H1 as [E _], W1 as [? _]. lia.
  - destruct H1 as [-> (nx & E1 & H1)], H2 as [<- (nx' & E2 & H2)]. rewrite E1 in E2. injection E2 as <- <-.
    f_equal. destruct W1 as (? & ? & ? & W1), W2 as (? & ? & ? & W2). eapply (IH nx); [| |exact H1|exact H2|exact W1|exact W2]; lia.
Qed.

Lemma core_free_bytes c l x : core_ok c l -> core_is_free c x <-> in_free l x.
Proof.
  intros [Hs Hw]. split; [|by exists l]. intros (l' & [Hs' Hw'] & Hx). by rewrite <- (fseg_unique (fmem c) (first_block c) 0 0 l' l).
Qed.

Lemma core_run_range ch :
  core_is_run ch -> 0 < phys_addr ch /\ 0 < no_blocks ch /\ phys_addr ch + 4096 * no_blocks ch <= HOLE_MAX.
Proof.
  intros [(_ & ? & ? & ?) [_ Hr]]. split; [done|]. split; [done|].
  destruct (Hr (phys_addr ch + 4096 * no_blocks ch - 1)) as (sg & Hin & Ht & Hx); [unfold in_run; lia|].
  rewrite Forall_forall in low_ram. specialize (low_ram sg Hin Ht). lia.
Qed.

Lemma core_run_aligned ch : core_is_run ch -> phys_addr ch mod 4096 = 0.
Proof. by intros (_ & ? & _). Qed.

(** A run of whole pages. *)
Lemma run_pages ch x y : phys_addr ch mod 4096 = 0 -> x / 4096 = y / 4096 -> in_run ch x -> in_run ch y.
Proof. unfold in_run. intros. Z.div_mod_to_equations; lia. Qed.

(** The byte before a block is not free, so that blocks start at pages. *)
Lemma block_aligned l a n : wf_free 0 l -> whole_pages l -> (a, n) ∈ l -> a mod 4096 = 0.
Proof.
  intros Hw Hp Hin. apply list_elem_of_split in Hin as (l1 & l2 & ->). pose proof (proj1 (wf_free_app _ _ _ _ _) Hw) as (_ & Hlt & Ha & Hn & _ & H2).
  destruct (decide (a mod 4096 = 0)) as [|Hne]; [done|]. exfalso.
  assert (in_free (l1 ++ (a, n) :: l2) (a - 1)) as Hf.
  { apply (Hp a); [Z.div_mod_to_equations; lia|]. apply in_free_app. right. apply in_free_cons. left. lia. }
  apply in_free_app in Hf as [(b & k & Hb & Hx)|[Hx|(b & k & Hb & Hx)]%in_free_cons]; [|lia|].
  - specialize (Hlt b k Hb). lia.
  - destruct (wf_free_elem _ _ _ _ H2 Hb). lia.
Qed.

Lemma alloc_aligned c l n ch c' : core_ok c l -> whole_pages l -> 1 <= n < 2 ^ 30 -> l <> [] -> core_alloc n c = Some (ch, c') -> phys_addr ch mod 4096 = 0.
Proof.
  intros Hok Hp Hn Hne E. destruct (core_alloc_cuts c l n Hok Hn Hne) as (l1 & a & k & l2 & c2 & -> & E2 & _). rewrite E in E2. injection E2 as -> _.
  eapply block_aligned; [apply Hok|done|]. apply elem_of_app. right. by left.
Qed.

Lemma core_pages_alloc c n :
  core_pages_ok c -> 1 <= n < 2 ^ 30 ->
  exists ch c', core_alloc n c = Some (ch, c') /\ core_pages_ok c' /\ 0 <= no_blocks ch <= n /\ (0 < no_blocks ch -> core_is_run ch) /\
    (forall x, core_is_free c x <-> core_is_free c' x \/ in_run ch x) /\ (forall x, in_run ch x -> ~ core_is_free c' x) /\
    (no_blocks ch < n -> forall a, ~ forall x, a <= x < a + 4096 * n -> core_is_free c x).
Proof.
  intros (l & Hok & Hsg & Hwp) Hn. destruct (decide (l = [])) as [->|Hne].
  - exists (mk_ch 0 0), c. pose proof Hok as [Hs _]. simpl in Hs. unfold core_alloc. rewrite Hs. split; [done|].
    split; [by exists []|]. unfold in_run. simpl. split; [lia|]. split; [lia|]. split; [|split; [lia|]].
    + intros x. split; [by left|]. intros [?|?]; [done|lia].
    + intros _ a Ha. specialize (Ha a ltac:(lia)). apply (core_free_bytes c [] a Hok) in Ha. by apply in_free_nil in Ha.
  - destruct (core_alloc_ok segs c l n [] Hok Hsg Hn Hne I) as (ch & c' & l' & E & Hok' & Hb & Hf & Hsg' & (Hr & Hd & _) & Hmax).
    pose proof (alloc_aligned c l n ch c' Hok Hwp Hn Hne E) as Hal.
    exists ch, c'. split; [done|]. split.
    { exists l'. split; [done|]. split; [done|]. intros x y Hxy Hx. assert (in_free l x) as Hl by (apply Hf; by left).
      apply (Hwp x y Hxy) in Hl. apply Hf in Hl as [?|Hy]; [done|]. destruct (Hd x); [|done]. by apply (run_pages ch y x). }
    split; [lia|]. split; [|split; [|split]].
    + intros _. split; [done|]. split; [done|]. intros x Hx. apply Hsg. apply Hf. by right.
    + intros x. by rewrite (core_free_bytes c l), (core_free_bytes c' l').
    + intros x Hx. rewrite (core_free_bytes c' l') by done. by apply Hd.
    + intros Hlt a Ha. destruct (free_run_in_block 0 l a n) as (b & k & Hin & Hk); [by destruct Hok|lia| |].
      * intros x Hx. rewrite <- (core_free_bytes c l) by done. by apply Ha.
      * specialize (Hmax Hlt b k Hin). lia.
Qed.

Lemma core_pages_free c ch :
  core_pages_ok c -> core_is_run ch -> (forall x, in_run ch x -> ~ core_is_free c x) ->
  exists c', core_free segs ch c = Some c' /\ core_pages_ok c' /\ forall x, core_is_free c' x <-> core_is_free c x \/ in_run ch x.
Proof.
  intros (l & Hok & Hsg & Hwp) (Hr & Hal & Hram) Hd.
  destruct (core_free_ok segs c l ch Hok Hr) as (c' & l' & E & Hok' & Hf).
  { intros x Hx. rewrite <- (core_free_bytes c l) by done. by apply Hd. }
  exists c'. split; [done|]. split.
  - exists l'. split; [done|]. split; [intros x [Hx|Hx]%Hf; [by apply Hsg|by apply Hram]|].
    intros x y Hxy Hx. apply Hf in Hx as [Hx|Hx]; apply Hf; [left; by eapply Hwp|right; by eapply run_pages].
  - intros x. by rewrite (core_free_bytes c l), (core_free_bytes c' l').
Qed.

#[export] Instance core_pages : PageAlloc core :=
  {| page_alloc := core_alloc; page_free := core_free segs; pages_ok := core_pages_ok; is_free := core_is_free; is_run := core_is_run;
     run_range := core_run_range; run_aligned := core_run_aligned; page_alloc_ok := core_pages_alloc; page_free_ok := core_pages_free |}.

End Core.
End Pages.

(** * The lists of memory nodes *)

Module MemList.

(** [struct mem_list]; a null pointer is 0. *)
Record mem_list := mk_node { addr : Z; msize : Z; next : Z }.

(** The nodes by their addresses, the list of free pieces, the count of nodes. *)
Record mlists := mk_lists { nodes : gmap Z mem_list; kmavail_list : Z; kmcount : Z }.

Definition set_nodes (m : gmap Z mem_list) (s : mlists) : mlists := mk_lists m (kmavail_list s) (kmcount s).
Definition set_avail (p : Z) (s : mlists) : mlists := mk_lists (nodes s) p (kmcount s).
Definition count (d : Z) (s : mlists) : mlists := mk_lists (nodes s) (kmavail_list s) (s32 (kmcount s + d)).

(** [p->addr = a] and the like. *)
Definition set_addr (p a : Z) (s : mlists) : option mlists :=
  d ← nodes s !! p; Some (set_nodes (<[p := mk_node a (msize d) (next d)]> (nodes s)) s).
Definition set_size (p n : Z) (s : mlists) : option mlists :=
  d ← nodes s !! p; Some (set_nodes (<[p := mk_node (addr d) n (next d)]> (nodes s)) s).
Definition set_next (p q : Z) (s : mlists) : option mlists :=
  d ← nodes s !! p; Some (set_nodes (<[p := mk_node (addr d) (msize d) q]> (nodes s)) s).

Definition end_of (d : mem_list) : Z := u32 (addr d + msize d).

(** The [while] of [insert_avail_node]: the first node that does not end below
    [a], and the one before it. *)
Fixpoint find_place (fuel : nat) (m : gmap Z mem_list) (a q1 q2 : Z) : option (Z * Z) :=
  match fuel with
  | O => None
  | S fuel =>
      if q1 =? 0 then Some (q1, q2) else
      d ← m !! q1;
      if end_of d <? a then find_place fuel m a (next d) q1 else Some (q1, q2)
  end.

(** [q != NULL && e == q->addr]. *)
Definition starts_at (m : gmap Z mem_list) (q e : Z) : option bool :=
  if q =? 0 then Some false else d ← m !! q; Some (e =? addr d).

(** The rest of [insert_avail_node], with what the [while] found. *)
Definition insert_at (p : Z) (d : mem_list) (q1 q2 : Z) (s : mlists) : option mlists :=
  if q1 =? 0 then set_next q2 p s else
  d1 ← nodes s !! q1;
  if end_of d1 =? addr d then
    s ← set_size q1 (u32 (msize d1 + msize d)) s;
    s ← set_size p 0 s;
    let s := count (-1) s in
    d1 ← nodes s !! q1;
    let q2 := next d1 in
    j ← starts_at (nodes s) q2 (end_of d1);
    if (j : bool) then
      d2 ← nodes s !! q2;
      s ← set_size q1 (u32 (msize d1 + msize d2)) s;
      s ← set_size q2 0 s;
      set_next q1 (next d2) (count (-1) s)
    else Some s
  else if end_of d =? addr d1 then
    s ← set_addr q1 (addr d) s;
    s ← set_size q1 (u32 (msize d1 + msize d)) s;
    s ← set_size p 0 s;
    Some (count (-1) s)
  else
    s ← set_next p q1 s;
    set_next q2 p s.

Definition insert_avail_node (p : Z) (s : mlists) : option mlists :=
  s ← set_next p 0 s;
  d ← nodes s !! p;
  let first := kmavail_list s in
  if first =? 0 then Some (set_avail p s) else
  f ← nodes s !! first;
  if addr d <? addr f then
    if end_of d =? addr f then
      s ← set_addr first (addr d) s;
      s ← set_size first (u32 (msize f + msize d)) s;
      s ← set_size p 0 s;
      Some (count (-1) s)
    else
      s ← set_next p first s;
      Some (set_avail p s)
  else
    '(q1, q2) ← find_place (S (size (nodes s))) (nodes s) (addr d) first 0;
    insert_at p d q1 q2 s.

(** The [while] of [delete_avail_node]. *)
Fixpoint find_prev (fuel : nat) (m : gmap Z mem_list) (p q2 : Z) : option Z :=
  match fuel with
  | O => None
  | S fuel =>
      if q2 =? 0 then Some 0 else
      d ← m !! q2;
      if next d =? p then Some q2 else find_prev fuel m p (next d)
  end.

(** A node that is not on the list only prints a message. *)
Definition delete_avail_node (p : Z) (s : mlists) : option mlists :=
  s ← set_size p 0 s;
  if kmavail_list s =? p then
    d ← nodes s !! p;
    set_next p 0 (set_avail (next d) s)
  else
    q2 ← find_prev (S (size (nodes s))) (nodes s) p (kmavail_list s);
    s ← (if q2 =? 0 then Some s else d ← nodes s !! p; set_next q2 (next d) s);
    set_next p 0 s.

(** The search of [kmalloc] for the smallest piece that is large enough:
    [(avl, p3, hole)] so far. *)
Fixpoint best_fit (fuel : nat) (m : gmap Z mem_list) (n p1 : Z) (avl : bool) (p3 hole : Z) : option (bool * Z * Z) :=
  match fuel with
  | O => None
  | S fuel =>
      if p1 =? 0 then Some (avl, p3, hole) else
      d ← m !! p1;
      if n <=? msize d then
        if u32 (msize d - n) <? u32 hole then best_fit fuel m n (next d) true p1 (s32 (msize d - n))
        else best_fit fuel m n (next d) true p3 hole
      else best_fit fuel m n (next d) avl p3 hole
  end.

(** ** Lists of pieces *)

(** A piece as a node describes it: the node, the address, the size. *)
Abbreviation piece := (Z * (Z * Z))%type.
Definition ids (l : list piece) : list Z := l.*1.

Fixpoint mseg (m : gmap Z mem_list) (p : Z) (l : list piece) (q : Z) : Prop :=
  match l with
  | [] => p = q
  | (n, (a, s)) :: l' => p = n /\ exists nx, m !! n = Some (mk_node a s nx) /\ mseg m nx l' q
  end.

(** Pieces in address order, not empty and separated: neighbours are joined. *)
Fixpoint sorted (lo : Z) (l : list piece) : Prop :=
  match l with
  | [] => True
  | (n, (a, s)) :: l' => lo < a /\ 0 < s /\ a + s <= Pages.HOLE_MAX /\ sorted (a + s) l'
  end.

Definition bytes (l : list piece) (x : Z) : Prop := exists n a s, (n, (a, s)) ∈ l /\ a <= x < a + s.

(** The insertion on lists of pieces. *)
Fixpoint ins (n a s : Z) (l : list piece) : list piece :=
  match l with
  | [] => [(n, (a, s))]
  | (k, (b, t)) :: l' =>
      if a <? b then if a + s =? b then (k, (a, t + s)) :: l' else (n, (a, s)) :: l
      else if b + t =? a then
        match l' with
        | (k', (b', t')) :: l'' => if a + s =? b' then (k, (b, t + s + t')) :: l'' else (k, (b, t + s)) :: l'
        | [] => [(k, (b, t + s))]
        end
      else (k, (b, t)) :: ins n a s l'
  end.

Lemma mseg_app m p l1 l2 q : mseg m p (l1 ++ l2) q <-> exists r, mseg m p l1 r /\ mseg m r l2 q.
Proof.
  revert p. induction l1 as [|[n [a s]] l1 IH]; intros p; simpl; [naive_solver|].
  split.
  - intros (-> & nx & Hm & (r & H1 & H2)%IH). eauto 6.
  - intros (r & (-> & nx & Hm & H1) & H2). split; [done|]. exists nx. split; [done|]. apply IH. eauto.
Qed.

Lemma mseg_frame m m' p l q : mseg m p l q -> (forall n, n ∈ ids l -> m' !! n = m !! n) -> mseg m' p l q.
Proof.
  revert p. induction l as [|[n [a s]] l IH]; intros p; simpl; [done|]. intros (-> & nx & Hm & H) Hf. split; [done|].
  exists nx. split; [rewrite Hf; [done|by left]|]. apply IH; [done|]. intros b Hb. apply Hf. by right.
Qed.

Lemma mseg_elem m p l q n : mseg m p l q -> n ∈ ids l -> exists a s nx, (n, (a, s)) ∈ l /\ m !! n = Some (mk_node a s nx).
Proof.
  revert p. induction l as [|[k [a s]] l IH]; intros p; simpl; [by intros _ ?%elem_of_nil|].
  intros (-> & nx & Hm & H) [->|Hn]%elem_of_cons; [exists a, s, nx; split; [by left|done]|].
  destruct (IH _ H Hn) as (a' & s' & nx' & Hin & ?). exists a', s', nx'. split; [by right|done].
Qed.

Lemma mseg_dom m p l q n : mseg m p l q -> n ∈ ids l -> is_Some (m !! n).
Proof. intros Hs Hn. destruct (mseg_elem _ _ _ _ _ Hs Hn) as (? & ? & ? & _ & ?). eauto. Qed.

Lemma mseg_length m p l q : mseg m p l q -> NoDup (ids l) -> (length l <= size m)%nat.
Proof.
  intros Hs Hn. rewrite <- (length_fmap fst l), <- size_dom. unfold size, set_size. simpl.
  apply submseteq_length, NoDup_submseteq; [done|]. intros n Hin. apply elem_of_elements, elem_of_dom. by eapply mseg_dom.
Qed.

Lemma bytes_nil x : bytes [] x <-> False.
Proof. split; [|done]. intros (? & ? & ? & H%elem_of_nil & _). done. Qed.
Lemma bytes_cons n a s l x : bytes ((n, (a, s)) :: l) x <-> a <= x < a + s \/ bytes l x.
Proof.
  split.
  - intros (? & ? & ? & [[= -> -> ->]|H]%elem_of_cons & Hx); [by left|]. right. eexists _, _, _. eauto.
  - intros [Hx|(k & b & t & H & Hx)]; [exists n, a, s; split; [by left|done]|]. exists k, b, t. split; [by right|done].
Qed.
Lemma bytes_app l1 l2 x : bytes (l1 ++ l2) x <-> bytes l1 x \/ bytes l2 x.
Proof.
  induction l1 as [|[n [a s]] l1 IH]; simpl; [rewrite bytes_nil; tauto|]. rewrite !bytes_cons, IH. tauto.
Qed.

Lemma sorted_weaken lo lo' l : lo' <= lo -> sorted lo l -> sorted lo' l.
Proof. destruct l as [|[n [a s]] l]; simpl; [done|]. intros Hle (? & ? & ? & ?). split_and!; auto; lia. Qed.

Lemma sorted_elem lo l n a s : sorted lo l -> (n, (a, s)) ∈ l -> lo < a /\ 0 < s /\ a + s <= Pages.HOLE_MAX.
Proof.
  revert lo. induction l as [|[k [b t]] l IH]; intros lo Hw Hin; simpl in *; [by apply elem_of_nil in Hin|].
  destruct Hw as (? & ? & ? & Hw). apply elem_of_cons in Hin as [[= -> -> ->]|Hin]; [done|].
  destruct (IH _ Hw Hin) as (? & ? & ?). lia.
Qed.

Lemma sorted_below lo l x : sorted lo l -> bytes l x -> lo < x.
Proof. intros Hw (n & a & s & Hin & Hx). destruct (sorted_elem _ _ _ _ _ Hw Hin). lia. Qed.

(** Insertion adds the piece's bytes and keeps the list in order. *)
Lemma ins_bytes n a s lo l x :
  0 < s -> sorted lo l -> (forall y, a <= y < a + s -> ~ bytes l y) -> bytes (ins n a s l) x <-> bytes l x \/ a <= x < a + s.
Proof.
  intros Hs. revert lo. induction l as [|[k [b t]] l IH]; intros lo Hw Hd; simpl.
  - rewrite bytes_cons. tauto.
  - simpl in Hw. destruct Hw as (? & ? & ? & Hw).
    assert (forall y, a <= y < a + s -> ~ bytes l y) as Hd' by (intros y Hy Hb; apply (Hd y Hy); rewrite bytes_cons; by right).
    repeat case_ztest; subst; rewrite ?bytes_cons.
    + lia_or.
    + lia_or.
    + destruct l as [|[k' [b' t']] l].
      * rewrite !bytes_cons, bytes_nil. lia_or.
      * simpl in Hw. destruct Hw as (? & ? & ? & Hw). case_ztest; rewrite !bytes_cons; lia_or.
    + rewrite (IH _ Hw Hd'). tauto.
Qed.

Lemma ins_sorted n a s lo l :
  lo < a -> 0 < s -> a + s <= Pages.HOLE_MAX -> sorted lo l -> (forall y, a <= y < a + s -> ~ bytes l y) -> sorted lo (ins n a s l).
Proof.
  intros Hlo Hs Hb. revert lo Hlo. induction l as [|[k [b t]] l IH]; intros lo Hlo Hw Hd; simpl; [done|].
  simpl in Hw. destruct Hw as (? & ? & ? & Hw).
  assert (forall y, a <= y < a + s -> ~ bytes l y) as Hd' by (intros y Hy Hy'; apply (Hd y Hy); rewrite bytes_cons; by right).
  pose proof (Hd a ltac:(lia)) as Ha. rewrite bytes_cons in Ha.
  repeat case_ztest; subst.
  - simpl. split_and!; try lia. eapply sorted_weaken; [|done]. lia.
  - pose proof (Hd b) as Hb'. rewrite bytes_cons in Hb'. simpl. split_and!; auto; lia.
  - destruct l as [|[k' [b' t']] l]; [simpl; split_and!; auto; lia|].
    simpl in Hw. destruct Hw as (? & ? & ? & Hw). pose proof (Hd' b') as Hb'. rewrite bytes_cons in Hb'. case_ztest; simpl; split_and!; auto; try lia.
    eapply sorted_weaken; [|done]. lia.
  - simpl. split_and!; auto. apply IH; auto. assert (~ a < b + t) by tauto || lia. lia.
Qed.

(** ** Surgery on the links *)

Lemma ids_app l1 l2 : ids (l1 ++ l2) = ids l1 ++ ids l2.
Proof. apply fmap_app. Qed.

Lemma mseg_other m p l q n d : mseg m p l q -> n ∉ ids l -> mseg (<[n := d]> m) p l q.
Proof. intros Hs Hn. apply (mseg_frame m); [done|]. intros k Hk. apply lookup_insert_ne. by intros ->. Qed.

(** One node rewritten, and what follows it replaced. *)
Lemma mseg_upd m p l1 k v l2 b t nx l2' :
  mseg m p (l1 ++ (k, v) :: l2) 0 -> k ∉ ids l1 -> mseg m nx l2' 0 -> k ∉ ids l2' ->
  mseg (<[k := mk_node b t nx]> m) p (l1 ++ (k, (b, t)) :: l2') 0.
Proof.
  intros Hs H1 Hs' H2. apply mseg_app in Hs as (r & Hs1 & Hs2). apply mseg_app. exists r. split; [by apply mseg_other|].
  destruct v as [b0 t0]. simpl in *. destruct Hs2 as [-> _]. split; [done|]. exists nx. rewrite lookup_insert_eq. split; [done|]. by apply mseg_other.
Qed.

Lemma set_addr_Some p a s d :
  nodes s !! p = Some d -> set_addr p a s = Some (set_nodes (<[p := mk_node a (msize d) (next d)]> (nodes s)) s).
Proof. intros H. unfold set_addr. by rewrite H. Qed.
Lemma set_size_Some p n s d :
  nodes s !! p = Some d -> set_size p n s = Some (set_nodes (<[p := mk_node (addr d) n (next d)]> (nodes s)) s).
Proof. intros H. unfold set_size. by rewrite H. Qed.
Lemma set_link_Some p q s d :
  nodes s !! p = Some d -> set_next p q s = Some (set_nodes (<[p := mk_node (addr d) (msize d) q]> (nodes s)) s).
Proof. intros H. unfold set_next. by rewrite H. Qed.

(** Run the next setter; its node is found in the context. *)
Ltac run_set :=
  first [erewrite set_addr_Some by (cbn [nodes set_nodes count set_avail]; simplify_map_eq; done)
        |erewrite set_size_Some by (cbn [nodes set_nodes count set_avail]; simplify_map_eq; done)
        |erewrite set_link_Some by (cbn [nodes set_nodes count set_avail]; simplify_map_eq; done)];
  cbn [mbind option_bind nodes set_nodes count set_avail addr msize next kmavail_list kmcount]; rewrite ?insert_insert_eq.

(** ** Finding the place *)

Definition lastid (l : list piece) : Z := match last l with Some (n, _) => n | None => 0 end.
Lemma lastid_snoc l n v : lastid (l ++ [(n, v)]) = n.
Proof. unfold lastid. by rewrite last_snoc. Qed.

Definition below (a : Z) (l : list piece) : Prop := forall n b t, (n, (b, t)) ∈ l -> b + t < a.
Definition reaches (a : Z) (l : list piece) : Prop := match l with [] => True | (_, (b, t)) :: _ => a <= b + t end.

Lemma place_split lo a l : sorted lo l -> exists l1 l2, l = l1 ++ l2 /\ below a l1 /\ reaches a l2.
Proof.
  revert lo. induction l as [|[n [b t]] l IH]; intros lo Hw; simpl in Hw.
  - exists [], []. split; [done|]. split; [|done]. by intros ? ? ? ?%elem_of_nil.
  - destruct Hw as (_ & _ & _ & Hw). destruct (Z.lt_ge_cases (b + t) a) as [Hlt|Hge].
    + destruct (IH _ Hw) as (l1 & l2 & -> & H1 & H2). exists ((n, (b, t)) :: l1), l2. split; [done|]. split; [|done].
      intros ? ? ? [[= -> -> ->]|H]%elem_of_cons; [done|]. by eapply H1.
    + exists [], ((n, (b, t)) :: l). split; [done|]. split; [|done]. by intros ? ? ? ?%elem_of_nil.
Qed.

Lemma find_place_spec fuel m a pre l1 l2 p lo :
  mseg m p (l1 ++ l2) 0 -> 0 <= lo -> sorted lo (l1 ++ l2) -> 0 ∉ ids (l1 ++ l2) -> below a l1 -> reaches a l2 -> (length l1 < fuel)%nat ->
  find_place fuel m a p (lastid pre) = Some (match l2 with [] => 0 | (k, _) :: _ => k end, lastid (pre ++ l1)).
Proof.
  revert fuel pre p lo. induction l1 as [|[n [b t]] l1 IH]; intros fuel pre p lo Hs Hlo Hw H0 H1 H2 Hf; (destruct fuel as [|fuel]; [simpl in Hf; lia|]); simpl.
  - rewrite app_nil_r. simpl in *. destruct l2 as [|[k [b t]] l2]; simpl in Hs; [by subst p|]. destruct Hs as (-> & nx & Hm & _).
    destruct (Z.eqb_spec k 0) as [->|_]; [destruct H0; by left|]. rewrite Hm. cbn [mbind option_bind]. destruct Hw as (? & ? & ? & _). simpl in H2.
    unfold end_of. cbn [addr msize]. unfold Pages.HOLE_MAX in *. rewrite u32_id by lia. destruct (Z.ltb_spec (b + t) a); [lia|done].
  - simpl in Hs, Hw. destruct Hs as (-> & nx & Hm & Hs), Hw as (W1 & W2 & W3 & Hw).
    destruct (Z.eqb_spec n 0) as [->|_]; [destruct H0; by left|]. rewrite Hm. cbn [mbind option_bind].
    unfold end_of. cbn [addr msize next]. unfold Pages.HOLE_MAX in *. rewrite u32_id by lia.
    specialize (H1 n b t ltac:(by left)) as Hb. destruct (Z.ltb_spec (b + t) a); [|lia].
    replace n with (lastid (pre ++ [(n, (b, t))])) at 1 by apply lastid_snoc.
    rewrite (IH fuel (pre ++ [(n, (b, t))]) nx (b + t)); auto; try lia.
    + by rewrite <- app_assoc.
    + intros Hin. apply H0. by right.
    + intros ? ? ? Hin. eapply H1. by right.
    + simpl in Hf. lia.
Qed.

Lemma ins_app n a s l1 l2 lo : sorted lo (l1 ++ l2) -> below a l1 -> ins n a s (l1 ++ l2) = l1 ++ ins n a s l2.
Proof.
  revert lo. induction l1 as [|[k [b t]] l1 IH]; intros lo Hw H1; [done|]. simpl in *. destruct Hw as (? & ? & ? & Hw).
  specialize (H1 k b t ltac:(by left)) as Hb. destruct (Z.ltb_spec a b); [lia|]. destruct (Z.eqb_spec (b + t) a); [lia|].
  f_equal. eapply IH; [done|]. intros ? ? ? Hin. eapply H1. by right.
Qed.

(** ** Insertion refines [ins] *)

(** What an operation on the free list of nodes [l], with [p] a node of its own,
    leaves: the list [l'], other nodes as they were, nodes that dropped out empty. *)
Definition relisted (s s' : mlists) (p : Z) (l l' : list piece) : Prop :=
  mseg (nodes s') (kmavail_list s') l' 0 /\
  (forall n, n ∉ ids l -> n <> p -> nodes s' !! n = nodes s !! n) /\
  (forall n, n = p \/ n ∈ ids l -> n ∉ ids l' -> exists d, nodes s' !! n = Some d /\ msize d = 0) /\
  u32 (kmcount s') = u32 (kmcount s + zlen l' - zlen l - 1).

Ltac split4 := unfold relisted; cbn [nodes set_nodes count set_avail kmavail_list kmcount]; split; [|split; [|split]].

Section Insert.
Context (m : gmap Z mem_list) (av cnt p a sz nx0 : Z) (l : list piece).
Let s : mlists := mk_lists m av cnt.
Hypothesis Hp : m !! p = Some (mk_node a sz nx0).
Hypothesis Hs : mseg m av l 0.
Hypothesis Hw : sorted 0 l.
Hypothesis Hid : NoDup (0 :: p :: ids l).
Hypothesis Hr : 0 < a /\ 0 < sz /\ a + sz <= Pages.HOLE_MAX.
Hypothesis Hd : forall y, a <= y < a + sz -> ~ bytes l y.

Lemma ids_facts : p <> 0 /\ p ∉ ids l /\ 0 ∉ ids l /\ NoDup (ids l).
Proof using Hid.
  apply NoDup_cons in Hid as [H0 H]. apply NoDup_cons in H as [H1 H]. split_and!; auto.
  - intros E. apply H0. rewrite E. by left.
  - intros ?. apply H0. by right.
Qed.

Lemma insert_front :
  match l with [] => True | (_, (b, _)) :: _ => a < b end ->
  exists s', insert_avail_node p s = Some s' /\ relisted s s' p l (ins p a sz l).
Proof.
  intros Hf. destruct ids_facts as (Hp0 & Hpl & H0 & Hnd). unfold insert_avail_node, relisted, s. run_set.
  rewrite lookup_insert_eq. cbn [mbind option_bind addr msize]. destruct l as [|[k [b t]] l'].
  - simpl in Hs. rewrite Hs. eexists. split; [done|]. split4.
    + split; [done|]. exists 0. by rewrite lookup_insert_eq.
    + intros n _ Hn. by rewrite lookup_insert_ne.
    + intros n [->|Hn] Hn'; [destruct Hn'; by left|by apply elem_of_nil in Hn].
    + f_equal. unfold zlen. simpl. lia.
  - simpl in Hs. destruct Hs as (-> & nx & Hm & Hs'). change (ids ((k, (b, t)) :: l')) with (k :: ids l') in *.
    apply not_elem_of_cons in Hpl as [Hpk Hpl], H0 as [H0k H0]. apply NoDup_cons in Hnd as [Hkl Hnd]. simpl in Hw. destruct Hw as (? & ? & ? & Hw').
    destruct (Z.eqb_spec k 0) as [?|_]; [done|]. rewrite lookup_insert_ne by done. rewrite Hm. cbn [mbind option_bind addr msize].
    destruct (Z.ltb_spec a b); [|lia]. unfold end_of. cbn [addr msize]. unfold Pages.HOLE_MAX in *. rewrite (u32_id (a + sz)) by lia.
    simpl ins. destruct (Z.ltb_spec a b) as [_|?]; [|lia]. destruct (Z.eqb_spec (a + sz) b) as [E|E].
    + run_set. run_set. run_set. rewrite u32_id by lia. eexists. split; [done|]. split4.
      * apply mseg_other; [|simpl; by apply not_elem_of_cons]. apply (mseg_upd _ k [] k (b, t) l'); auto; [..|apply not_elem_of_nil|].
        -- simpl. split; [done|]. exists nx. rewrite lookup_insert_ne by done. split; [done|]. by apply mseg_other.
        -- by apply mseg_other.
      * intros n Hn Hn'. apply not_elem_of_cons in Hn as [? ?]. by rewrite !lookup_insert_ne.
      * intros n Hn Hn'. apply not_elem_of_cons in Hn' as [? ?]. destruct Hn as [->|[->|Hn]%elem_of_cons]; [|done|done].
        eexists. by rewrite lookup_insert_eq.
      * rewrite u32_s32. f_equal. unfold zlen. simpl. lia.
    + run_set. eexists. split; [done|]. split4.
      * simpl. split; [done|]. exists k. rewrite lookup_insert_eq. split; [done|]. split; [done|]. exists nx. rewrite lookup_insert_ne by done. split; [done|].
        by apply mseg_other.
      * intros n _ Hn'. by rewrite lookup_insert_ne.
      * intros n Hn Hn'. destruct Hn' as []. destruct Hn as [->|Hn]; [by left|by right].
      * f_equal. unfold zlen. simpl. lia.
Qed.

(** The same map with [p] off every list, split where the piece belongs. *)
Context (l1 l2 : list piece).
Hypothesis Hl : l = l1 ++ l2.
Hypothesis H1 : below a l1.
Let m1 : gmap Z mem_list := <[p := mk_node a sz 0]> m.

Lemma m1_seg : mseg m1 av (l1 ++ l2) 0.
Proof. rewrite <- Hl. apply mseg_other; [done|]. by destruct ids_facts as (_ & ? & _). Qed.

Lemma split_ids : p ∉ ids l1 /\ p ∉ ids l2 /\ NoDup (ids l1) /\ NoDup (ids l2) /\ forall n, n ∈ ids l1 -> n ∉ ids l2.
Proof.
  destruct ids_facts as (_ & Hpl & _ & Hnd). rewrite Hl, ids_app in Hpl, Hnd. apply not_elem_of_app in Hpl as [? ?].
  apply NoDup_app in Hnd as (? & ? & ?). by split_and!.
Qed.

(** Behind the last node of [l1]. *)
Lemma insert_at_link q1 :
  l1 <> [] -> mseg m1 q1 l2 0 -> (forall k b t l', l2 = (k, (b, t)) :: l' -> a + sz < b) ->
  exists s', (s ← set_next p q1 (mk_lists m1 av cnt); set_next (lastid l1) p s) = Some s' /\ relisted s s' p l (ins p a sz l).
Proof.
  intros Hne Hs2 Hb. destruct split_ids as (Hp1 & Hp2 & Hnd1 & Hnd2 & Hdis). pose proof m1_seg as Hs1.
  destruct (exists_last Hne) as (l0 & [k1 [b1 t1]] & E1). rewrite E1 in *. rewrite lastid_snoc. rewrite ids_app in *. simpl in *.
  apply not_elem_of_app in Hp1 as [Hp0 Hpk]. apply not_elem_of_cons in Hpk as [Hpk _]. apply NoDup_app in Hnd1 as (_ & Hk0 & _).
  assert (k1 ∉ ids l0) as Hk by (intros ?; apply (Hk0 k1); [done|by left]).
  assert (exists nx, m1 !! k1 = Some (mk_node b1 t1 nx)) as (nx & Hm).
  { rewrite <- app_assoc in Hs1. apply mseg_app in Hs1 as (r & _ & Hs1). simpl in Hs1. destruct Hs1 as (-> & nx & Hm & _). eauto. }
  assert (ins p a sz l = (l0 ++ [(k1, (b1, t1))]) ++ (p, (a, sz)) :: l2) as ->.
  { rewrite Hl in *. rewrite (ins_app p a sz _ l2 0 Hw) by done. f_equal. destruct l2 as [|[k [b t]] l2']; [done|]. specialize (Hb _ _ _ _ eq_refl). simpl.
    destruct (Z.ltb_spec a b); [|lia]. destruct (Z.eqb_spec (a + sz) b); [lia|done]. }
  unfold m1, s in *. run_set. rewrite lookup_insert_ne in Hm by done. run_set. eexists. split; [done|]. split4.
  - rewrite <- app_assoc. simpl. rewrite <- app_assoc in Hs1. apply (mseg_upd _ _ l0 k1 (b1, t1) l2).
    + rewrite <- (insert_insert_eq m p (mk_node a sz q1) (mk_node a sz 0)). apply mseg_other; [done|].
      rewrite ids_app. apply not_elem_of_app. split; [done|]. by apply not_elem_of_cons.
    + done.
    + simpl. split; [done|]. exists q1. rewrite lookup_insert_eq. split; [done|].
      rewrite <- (insert_insert_eq m p (mk_node a sz q1) (mk_node a sz 0)). by apply mseg_other.
    + apply not_elem_of_cons. split; [done|]. apply Hdis. apply elem_of_app. right. by left.
  - rewrite Hl. intros n Hn Hn'. rewrite !ids_app in Hn. apply not_elem_of_app in Hn as [[_ Hn]%not_elem_of_app _].
    apply not_elem_of_cons in Hn as [? _]. by rewrite !lookup_insert_ne.
  - intros n Hn []. rewrite Hl in Hn. rewrite !ids_app in *. destruct Hn as [->|[Hn|Hn]%elem_of_app]; apply elem_of_app; [right; by left|by left|right; by right].
  - f_equal. rewrite Hl. unfold zlen. rewrite !length_app. simpl. lia.
Qed.

(** The node [k] of the list takes another piece and [p] becomes empty. *)
Lemma insert_at_absorb k b t l3 b' t' nx l3' m2 :
  l2 = (k, (b, t)) :: l3 -> ins p a sz l = l1 ++ (k, (b', t')) :: l3' -> mseg m1 nx l3' 0 -> (exists l0, l3 = l0 ++ l3') ->
  m2 !! k = Some (mk_node b' t' nx) -> (forall n, n <> k -> n <> p -> n ∈ ids l1 ++ ids l3' \/ n ∉ ids l -> m2 !! n = m !! n) ->
  (forall n, n = p \/ n ∈ ids l3 /\ n ∉ ids l3' -> exists d, m2 !! n = Some d /\ msize d = 0) ->
  relisted s (mk_lists m2 av (s32 (cnt + zlen l3' - zlen l3 - 1))) p l (ins p a sz l).
Proof.
  intros E2 Ei Hs3 [l0 E3] Hk Hsame Hgone. destruct split_ids as (Hp1 & Hp2 & Hnd1 & Hnd2 & Hdis). pose proof m1_seg as Hs1. rewrite E2, E3 in *.
  change (ids ((k, (b, t)) :: l0 ++ l3')) with (k :: ids (l0 ++ l3')) in *. rewrite ids_app in *. apply not_elem_of_cons in Hp2 as [Hpk Hp3].
  apply not_elem_of_app in Hp3 as [_ Hp3]. apply NoDup_cons in Hnd2 as [Hk3 Hnd2]. apply not_elem_of_app in Hk3 as [_ Hk3].
  assert (k ∉ ids l1) as Hk1 by (intros Hin; apply (Hdis k Hin); by left).
  rewrite Ei. unfold s. split4.
  - apply mseg_app in Hs1 as (r & Hs1 & Hs2). simpl in Hs2. destruct Hs2 as (-> & _). apply mseg_app. exists k. split.
    + apply (mseg_frame m1); [done|]. intros n Hn. unfold m1. rewrite lookup_insert_ne by (intros ->; done). apply Hsame; try (intros ->; done).
      left. apply elem_of_app. by left.
    + split; [done|]. exists nx. split; [done|]. apply (mseg_frame m1); [done|]. intros n Hn. unfold m1. rewrite lookup_insert_ne by (intros ->; done).
      apply Hsame; try (intros ->; done). left. apply elem_of_app. by right.
  - intros n Hn Hnp. apply Hsame; [|done|by right]. intros ->. apply Hn. rewrite Hl, ids_app. apply elem_of_app. right. by left.
  - intros n Hn Hn'. apply Hgone. rewrite Hl, ids_app in Hn. rewrite ids_app in Hn'. apply not_elem_of_app in Hn' as [Hn1 Hn'].
    apply not_elem_of_cons in Hn' as [Hnk Hn3]. destruct Hn as [->|[?|[?|Hn]%elem_of_cons]%elem_of_app]; [by left|done|done|]. right.
    split; [|done]. change (n ∈ ids (l0 ++ l3')) in Hn. by rewrite ids_app in Hn.
  - rewrite u32_s32. f_equal. rewrite Hl. unfold zlen. rewrite !length_app. simpl. rewrite length_app. lia.
Qed.

Lemma insert_to_place :
  reaches a l2 -> match l with [] => False | (_, (b, _)) :: _ => b <= a end ->
  insert_avail_node p s = insert_at p (mk_node a sz 0) (match l2 with [] => 0 | (k, _) :: _ => k end) (lastid l1) (mk_lists m1 av cnt).
Proof.
  intros H2 Hf. destruct ids_facts as (Hp0 & Hpl & H0 & Hnd). pose proof m1_seg as Hs1. unfold insert_avail_node, s. run_set. fold m1.
  assert (m1 !! p = Some (mk_node a sz 0)) as -> by apply lookup_insert_eq. cbn [mbind option_bind addr msize].
  destruct l as [|[k [b t]] l'] eqn:El; [done|]. rewrite <- El in *. pose proof Hs as Hs0. rewrite El in Hs0. simpl in Hs0. destruct Hs0 as (Ek & nx & Hm & _).
  assert (k ∈ ids l) as Hk by (rewrite El; by left).
  destruct (Z.eqb_spec av 0) as [?|_]; [subst; congruence|]. assert (m1 !! av = Some (mk_node b t nx)) as -> by (unfold m1; rewrite Ek, lookup_insert_ne by congruence; done). cbn [mbind option_bind addr].
  destruct (Z.ltb_spec a b); [lia|]. rewrite (find_place_spec _ m1 a [] l1 l2 av 0).
  - done.
  - done.
  - done.
  - by rewrite <- Hl.
  - by rewrite <- Hl.
  - done.
  - done.
  - pose proof (mseg_length _ _ _ _ Hs1) as Hlen. rewrite <- Hl in Hlen. specialize (Hlen Hnd). rewrite Hl, length_app in Hlen. lia.
Qed.

(** The piece ends where the node [k] starts. *)
Lemma insert_at_before k b t l3 q2 :
  l2 = (k, (b, t)) :: l3 -> a + sz = b ->
  exists s', insert_at p (mk_node a sz 0) k q2 (mk_lists m1 av cnt) = Some s' /\ relisted s s' p l (ins p a sz l).
Proof.
  intros E2 Eb. destruct split_ids as (_ & Hp2 & _ & Hnd2 & _). pose proof m1_seg as Hs1. destruct ids_facts as (_ & _ & H0 & _).
  rewrite Hl, E2, ids_app in H0. apply not_elem_of_app in H0 as [_ H0]. apply not_elem_of_cons in H0 as [H0 _]. simpl in H0.
  apply mseg_app in Hs1 as (r & _ & Hs2). rewrite E2 in Hs2, Hp2, Hnd2. simpl in Hs2. destruct Hs2 as (-> & nx & Hm & Hs3).
  change (ids ((k, (b, t)) :: l3)) with (k :: ids l3) in *. apply not_elem_of_cons in Hp2 as [Hpk Hp3]. apply NoDup_cons in Hnd2 as [Hk3 _].
  pose proof Hw as Hw'. rewrite Hl in Hw'. assert (0 < b /\ 0 < t /\ b + t <= Pages.HOLE_MAX) as (? & ? & ?).
  { apply (sorted_elem _ _ k b t Hw'). rewrite E2. apply elem_of_app. right. by left. }
  unfold insert_at. cbn [nodes]. rewrite Hm. unfold m1 in Hm. rewrite lookup_insert_ne in Hm by done. unfold end_of, Pages.HOLE_MAX in *. cbn [mbind option_bind addr msize].
  destruct (Z.eqb_spec k 0); [congruence|]. unwrap. destruct (Z.eqb_spec (b + t) a); [lia|]. destruct (Z.eqb_spec (a + sz) b); [|lia].
  unfold m1. run_set. run_set. run_set. eexists. split; [done|].
  unfold count, set_nodes. cbn [nodes kmavail_list kmcount]. replace (s32 (cnt + -1)) with (s32 (cnt + zlen l3 - zlen l3 - 1)) by (f_equal; lia). apply (insert_at_absorb k b t l3 a (t + sz) nx l3); auto.
  - rewrite Hl, (ins_app p a sz l1 l2 0) by (done || by rewrite <- Hl). f_equal. rewrite E2. simpl. destruct (Z.ltb_spec a b); [|lia]. by destruct (Z.eqb_spec (a + sz) b).
  - by exists [].
  - by rewrite lookup_insert_ne, lookup_insert_eq.
  - intros x Hn Hn' _. by rewrite !lookup_insert_ne.
  - intros x [->|[? ?]]; [|done]. eexists. by rewrite lookup_insert_eq.
Qed.

(** The piece starts where the node [k] ends. *)
Lemma insert_at_after k b t l3 q2 :
  l2 = (k, (b, t)) :: l3 -> b + t = a ->
  exists s', insert_at p (mk_node a sz 0) k q2 (mk_lists m1 av cnt) = Some s' /\ relisted s s' p l (ins p a sz l).
Proof.
  intros E2 Eb. destruct split_ids as (_ & Hp2 & _ & Hnd2 & _). pose proof m1_seg as Hs1. destruct ids_facts as (_ & _ & H0 & _).
  rewrite Hl, E2, ids_app in H0. apply not_elem_of_app in H0 as [_ H0]. apply not_elem_of_cons in H0 as [H0 H03]. simpl in H0.
  apply mseg_app in Hs1 as (r & _ & Hs2). rewrite E2 in Hs2, Hp2, Hnd2. simpl in Hs2. destruct Hs2 as (-> & nx & Hm & Hs3).
  change (ids ((k, (b, t)) :: l3)) with (k :: ids l3) in *. apply not_elem_of_cons in Hp2 as [Hpk Hp3]. apply NoDup_cons in Hnd2 as [Hk3 Hnd3].
  pose proof Hw as Hw'. rewrite Hl in Hw'.
  assert (forall n c u, (n, (c, u)) ∈ l2 -> 0 < c /\ 0 < u /\ c + u <= Pages.HOLE_MAX) as Hel.
  { intros n c u Hin. apply (sorted_elem _ _ n c u Hw'). apply elem_of_app. by right. }
  destruct (Hel k b t) as (? & ? & ?); [rewrite E2; by left|].
  unfold insert_at. cbn [nodes]. rewrite Hm. unfold m1 in Hm. rewrite lookup_insert_ne in Hm by done. unfold end_of, Pages.HOLE_MAX in *. cbn [mbind option_bind addr msize].
  destruct (Z.eqb_spec k 0); [congruence|]. unwrap. destruct (Z.eqb_spec (b + t) a); [|lia].
  assert (ins p a sz l = l1 ++ match l3 with (k', (b', t')) :: l4 => if a + sz =? b' then (k, (b, t + sz + t')) :: l4 else (k, (b, t + sz)) :: l3
                                        | [] => [(k, (b, t + sz))] end) as Ei.
  { rewrite Hl, (ins_app p a sz l1 l2 0) by (done || by rewrite <- Hl). f_equal. rewrite E2. simpl. destruct (Z.ltb_spec a b); [lia|]. by destruct (Z.eqb_spec (b + t) a). }
  unfold m1. run_set. run_set. unfold count, set_nodes. cbn [nodes kmavail_list kmcount]. rewrite lookup_insert_ne, lookup_insert_eq by done. cbn [mbind option_bind addr msize next].
  assert (forall q d d1 d2 d3, q <> k -> q <> p -> m !! q = Some d -> <[p := d1]> (<[k := d2]> (<[p := d3]> m)) !! q = Some d) as Hlook.
  { intros q d d1 d2 d3 ? ? ?. by rewrite !lookup_insert_ne. }
  destruct l3 as [|[k' [b' t']] l4].
  - simpl in Hs3. subst nx. cbn [starts_at Z.eqb mbind option_bind]. eexists. split; [done|].
    replace (s32 (cnt + -1)) with (s32 (cnt + zlen ([] : list piece) - zlen ([] : list piece) - 1)) by (f_equal; unfold zlen; simpl; lia).
    apply (insert_at_absorb k b t [] b (t + sz) 0 []); auto; [done|by exists []|by rewrite lookup_insert_ne, lookup_insert_eq| |].
    + intros x Hn Hn' _. by rewrite !lookup_insert_ne.
    + intros x [->|[? ?]]; [|done]. eexists. by rewrite lookup_insert_eq.
  - destruct Hs3 as (-> & nx' & Hm' & Hs4). change (ids ((k', (b', t')) :: l4)) with (k' :: ids l4) in *.
    apply not_elem_of_cons in Hp3 as [Hpk' Hp4], Hk3 as [Hkk' Hk4], H03 as [H0k' _]. simpl in H0k'. apply NoDup_cons in Hnd3 as [Hk'4 _].
    unfold m1 in Hm'. rewrite lookup_insert_ne in Hm' by done. destruct (Hel k' b' t') as (? & ? & ?); [rewrite E2; right; by left|].
    unfold starts_at. destruct (Z.eqb_spec k' 0); [congruence|]. rewrite (Hlook k' (mk_node b' t' nx')) by done. cbn [mbind option_bind addr msize next].
    unwrap. replace (b + (t + sz)) with (a + sz) by lia. destruct (Z.eqb_spec (a + sz) b').
    + run_set. run_set. run_set. eexists. split; [done|].
      unfold count, set_nodes. cbn [nodes kmavail_list kmcount]. unwrap. rewrite s32_add_l.
      replace (s32 (cnt + -1 + -1)) with (s32 (cnt + zlen l4 - zlen ((k', (b', t')) :: l4) - 1)) by (f_equal; unfold zlen; simpl; lia).
      apply (insert_at_absorb k b t ((k', (b', t')) :: l4) b (t + sz + t') nx' l4); auto; [by exists [(k', (b', t'))]|by rewrite lookup_insert_eq| |].
      * intros x Hn Hn' Hx. assert (x <> k').
        { intros ->. rewrite Hl, E2 in Hx. rewrite ids_app in Hx. destruct Hx as [[Hx|Hx]%elem_of_app|Hx]; [|done|].
          - destruct split_ids as (_ & _ & _ & _ & Hdis). apply (Hdis k' Hx). rewrite E2. right. by left.
          - apply Hx. apply elem_of_app. right. right. by left. }
        by rewrite !lookup_insert_ne.
      * intros x [->|[[->|Hx]%elem_of_cons Hx']]; [..|done].
        -- eexists. rewrite !(lookup_insert_ne _ _ p) by done. by rewrite lookup_insert_eq.
        -- eexists. rewrite lookup_insert_ne by done. by rewrite lookup_insert_eq.
    + eexists. split; [done|].
      replace (s32 (cnt + -1)) with (s32 (cnt + zlen ((k', (b', t')) :: l4) - zlen ((k', (b', t')) :: l4) - 1)) by (f_equal; lia).
      apply (insert_at_absorb k b t ((k', (b', t')) :: l4) b (t + sz) k' ((k', (b', t')) :: l4)); auto; [|by exists []|by rewrite lookup_insert_ne, lookup_insert_eq| |].
      * simpl. split; [done|]. exists nx'. split; [unfold m1; by rewrite lookup_insert_ne|done].
      * intros x Hn Hn' _. by rewrite !lookup_insert_ne.
      * intros x [->|[? ?]]; [|done]. eexists. by rewrite lookup_insert_eq.
Qed.

End Insert.

Lemma insert_avail_node_spec s p a sz nx0 l :
  nodes s !! p = Some (mk_node a sz nx0) -> mseg (nodes s) (kmavail_list s) l 0 -> sorted 0 l -> NoDup (0 :: p :: ids l) ->
  0 < a /\ 0 < sz /\ a + sz <= Pages.HOLE_MAX -> (forall y, a <= y < a + sz -> ~ bytes l y) ->
  exists s', insert_avail_node p s = Some s' /\ relisted s s' p l (ins p a sz l).
Proof.
  destruct s as [m av cnt]. cbn [nodes kmavail_list]. intros Hp Hs Hw Hid Hr Hd.
  assert (Decision (match l with [] => True | (_, (b, _)) :: _ => a < b end)) as Hdec by (destruct l as [|[? [? ?]] ?]; apply _).
  destruct Hdec as [Hf|Hf].
  { by apply (insert_front m av cnt p a sz nx0 l). }
  destruct (place_split 0 a l Hw) as (l1 & l2 & El & H1 & H2).
  assert (match l with [] => False | (_, (b, _)) :: _ => b <= a end) as Hf' by (destruct l as [|[? [? ?]] ?]; [by destruct Hf|lia]).
  erewrite (insert_to_place m av cnt p a sz nx0 l) by eauto.
  destruct (ids_facts p l Hid) as (_ & _ & H0 & _).
  assert (l1 = [] -> match l2 with [] => False | (_, (b, _)) :: _ => b <= a end) as Hf1 by (intros ->; by simpl in El; subst l).
  destruct l2 as [|[k [b t]] l3].
  - unfold insert_at. simpl (0 =? 0). cbv iota.
    destruct (insert_at_link m av cnt p a sz l) with (l1 := l1) (l2 := @nil piece) (q1 := 0) as (s' & E & Hrel); auto; [done|done|].
    exists s'. split; [|done]. rewrite <- E. erewrite (set_link_Some p) by apply lookup_insert_eq. cbn [mbind option_bind nodes addr msize]. unfold set_nodes.
    cbn [nodes kmavail_list kmcount]. by rewrite insert_insert_eq.
  - simpl in H2. pose proof (Hd a ltac:(lia)) as Ha. assert (~ b <= a < b + t) as Hab.
    { intros ?. apply Ha. rewrite El, bytes_app, bytes_cons. right. by left. }
    destruct (Z.eq_dec (b + t) a) as [E|E]; [by apply (insert_at_after m av cnt p a sz nx0 l Hp Hs Hw Hid Hr Hd l1 ((k, (b, t)) :: l3) El H1 k b t l3)|].
    destruct (Z.eq_dec (a + sz) b) as [E'|E'].
    { by apply (insert_at_before m av cnt p a sz nx0 l Hp Hs Hw Hid Hr Hd l1 ((k, (b, t)) :: l3) El H1 k b t l3). }
    assert (0 < b /\ 0 < t /\ b + t <= Pages.HOLE_MAX) as (? & ? & ?).
    { apply (sorted_elem 0 l k); [done|]. rewrite El. apply elem_of_app. right. by left. }
    assert (~ a <= b < a + sz) by (intros Hb; apply (Hd b Hb); rewrite El, bytes_app, bytes_cons; right; left; lia).
    destruct (insert_at_link m av cnt p a sz l) with (l1 := l1) (l2 := (k, (b, t)) :: l3) (q1 := k) as (s' & E2 & Hrel); [done..|idtac|idtac|idtac|].
    { intros ->. specialize (Hf1 eq_refl). simpl in Hf1. lia. }
    { pose proof (m1_seg m av p a sz l Hs Hid l1 ((k, (b, t)) :: l3) El) as Hs1. apply mseg_app in Hs1 as (r & _ & Hs2).
      pose proof Hs2 as [-> _]. done. }
    { intros ? ? ? ? [= <- <- <- <-]. lia. }
    exists s'. split; [|done]. rewrite <- E2. unfold insert_at.
    assert (k <> 0) as Hk0 by (intros ->; apply H0; rewrite El, ids_app; apply elem_of_app; right; by left).
    destruct (Z.eqb_spec k 0) as [?|_]; [done|]. cbn [nodes].
    pose proof (m1_seg m av p a sz l Hs Hid l1 ((k, (b, t)) :: l3) El) as Hs1. apply mseg_app in Hs1 as (r & _ & (-> & nx & -> & _)).
    cbn [mbind option_bind addr msize]. unfold end_of, Pages.HOLE_MAX in *. cbn [addr msize]. unwrap.
    destruct (Z.eqb_spec (b + t) a); [done|]. destruct (Z.eqb_spec (a + sz) b); [done|]. done.
Qed.

(** ** Removal and search *)

Lemma find_prev_spec fuel m p l1 k a sz l2 q :
  mseg m p (l1 ++ (k, (a, sz)) :: l2) 0 -> 0 ∉ ids l1 -> k ∉ ids l1 -> l1 <> [] -> (length l1 <= fuel)%nat -> q = p ->
  find_prev fuel m k q = Some (lastid l1).
Proof.
  revert fuel p q. induction l1 as [|[n [b t]] l1 IH]; intros fuel p q Hs H0 Hk Hne Hf ->; [done|].
  destruct fuel as [|fuel]; [simpl in Hf; lia|]. simpl in Hs. destruct Hs as (-> & nx & Hm & Hs).
  apply not_elem_of_cons in H0 as [H0 H0']. apply not_elem_of_cons in Hk as [Hk Hk']. simpl in H0, Hk. simpl find_prev.
  destruct (Z.eqb_spec n 0); [congruence|]. rewrite Hm. cbn [mbind option_bind next]. destruct l1 as [|[n' [b' t']] l1].
  - simpl in Hs. destruct Hs as (-> & _). by rewrite Z.eqb_refl.
  - assert (nx = n') as -> by (simpl in Hs; by destruct Hs). apply not_elem_of_cons in Hk' as Hk2. simpl in Hk2. destruct Hk2 as [Hk2 _].
    destruct (Z.eqb_spec n' k); [congruence|]. rewrite (IH fuel n' n'); [|done|done|done|done|simpl in *; lia|done].
    f_equal.
Qed.

Lemma delete_avail_node_spec s l1 k a sz l2 :
  mseg (nodes s) (kmavail_list s) (l1 ++ (k, (a, sz)) :: l2) 0 -> NoDup (0 :: ids (l1 ++ (k, (a, sz)) :: l2)) ->
  exists s', delete_avail_node k s = Some s' /\ mseg (nodes s') (kmavail_list s') (l1 ++ l2) 0 /\ nodes s' !! k = Some (mk_node a 0 0) /\
    (forall n, n ∉ ids (l1 ++ (k, (a, sz)) :: l2) -> nodes s' !! n = nodes s !! n) /\ kmcount s' = kmcount s.
Proof.
  destruct s as [m av cnt]. cbn [nodes kmavail_list kmcount]. intros Hs Hnd. apply NoDup_cons in Hnd as [H0 Hnd].
  rewrite ids_app in *. change (ids ((k, (a, sz)) :: l2)) with (k :: ids l2) in *. pose proof Hnd as Hnd'. apply NoDup_app in Hnd as (_ & Hd & Hnd2).
  apply NoDup_cons in Hnd2 as [Hk2 _]. assert (k ∉ ids l1) as Hk1 by (intros Hin; apply (Hd k Hin); by left).
  assert (forall n, n ∈ ids l1 -> n ∉ ids l2) as Hd' by (intros n Hn Hn2; apply (Hd n Hn); by right).
  apply not_elem_of_app in H0 as [H01 H02]. apply not_elem_of_cons in H02 as [H0k _].
  assert (mseg m av l1 k /\ exists nx, m !! k = Some (mk_node a sz nx) /\ mseg m nx l2 0) as (Hs1 & nx & Hm & Hs2).
  { apply mseg_app in Hs as (r & Hs1 & Hs2). simpl in Hs2. destruct Hs2 as (-> & Hs2). done. }
  unfold delete_avail_node. run_set.
  destruct (decide (l1 = [])) as [->|Hne].
  - simpl in Hs1. subst av. rewrite Z.eqb_refl, lookup_insert_eq. cbn [mbind option_bind next]. run_set. eexists. split; [done|].
    cbn [nodes set_nodes set_avail kmavail_list kmcount]. split; [by apply mseg_other|]. split; [by rewrite lookup_insert_eq|]. split; [|done].
    intros n Hn. apply not_elem_of_cons in Hn as [Hn _]. by rewrite lookup_insert_ne.
  - destruct (Z.eqb_spec av k) as [->|_].
    { destruct l1 as [|[n [b t]] l1]; [done|]. simpl in Hs1. destruct Hs1 as (-> & _). destruct Hk1. by left. }
    assert (mseg (<[k := mk_node a 0 nx]> m) av (l1 ++ (k, (a, 0)) :: l2) 0) as Hs' by by apply (mseg_upd _ _ l1 k (a, sz) l2).
    rewrite (find_prev_spec _ _ av l1 k a 0 l2 av); auto.
    2: { pose proof (mseg_length _ _ _ _ Hs') as Hl. rewrite ids_app in Hl. specialize (Hl Hnd'). rewrite length_app in Hl. lia. }
    cbn [mbind option_bind]. destruct (exists_last Hne) as (l0 & [n [b t]] & ->). rewrite lastid_snoc. rewrite ids_app in *.
    apply not_elem_of_app in H01 as [_ H0n], Hk1 as [Hk0 Hkn]. apply not_elem_of_cons in H0n as [H0n _], Hkn as [Hkn _]. simpl in H0n, Hkn.
    apply NoDup_app in Hnd' as (Hnd0 & _). apply NoDup_app in Hnd0 as (_ & Hn0 & _).
    destruct (Z.eqb_spec n 0); [congruence|]. rewrite lookup_insert_eq. cbn [mbind option_bind next].
    rewrite <- app_assoc in Hs. simpl in Hs. pose proof Hs as Hsn. apply mseg_app in Hsn as (r & _ & (-> & nxn & Hmn & _)).
    run_set. run_set. eexists. split; [done|]. cbn [nodes set_nodes set_avail kmavail_list kmcount].
    split; [|split; [by rewrite lookup_insert_eq|split; [|done]]].
    + rewrite <- app_assoc. simpl. apply mseg_other.
      * apply (mseg_upd _ _ l0 n (b, t) ((k, (a, 0)) :: l2)).
        -- rewrite <- app_assoc in Hs'. exact Hs'.
        -- intros Hin. apply (Hn0 n Hin). by left.
        -- by apply mseg_other.
        -- apply Hd'. apply elem_of_app. right. by left.
      * rewrite ids_app. apply not_elem_of_app. split; [done|]. by apply not_elem_of_cons.
    + intros x Hx. apply not_elem_of_app in Hx as [[_ Hx]%not_elem_of_app Hx']. apply not_elem_of_cons in Hx as [Hx _], Hx' as [Hx' _]. simpl in Hx.
      by rewrite !lookup_insert_ne.
Qed.

(** What the search has found among the pieces [l]. *)
Definition best (n : Z) (l : list piece) (avl : bool) (p3 hole : Z) : Prop :=
  if avl then exists a s, (p3, (a, s)) ∈ l /\ n <= s /\ hole = s32 (s - n) /\ (forall k b t, (k, (b, t)) ∈ l -> n <= t -> s <= t)
  else hole = s32 Pages.HOLE_MAX /\ forall k b t, (k, (b, t)) ∈ l -> t < n.

Lemma best_fit_spec fuel m n pre rest p avl p3 hole lo :
  mseg m p rest 0 -> 0 ∉ ids rest -> sorted lo rest -> 0 <= lo -> 0 < n -> (length rest < fuel)%nat ->
  best n pre avl p3 hole -> (forall k b t, (k, (b, t)) ∈ pre -> 0 < t < Pages.HOLE_MAX) ->
  exists avl' p3' hole', best_fit fuel m n p avl p3 hole = Some (avl', p3', hole') /\ best n (pre ++ rest) avl' p3' hole'.
Proof.
  revert fuel pre p avl p3 hole lo. induction rest as [|[k [b t]] rest IH];
    intros fuel pre p avl p3 hole lo Hs H0 Hw Hlo Hn Hf Hb Hpre; (destruct fuel as [|fuel]; [simpl in Hf; lia|]).
  - simpl in Hs. subst p. simpl. do 3 eexists. split; [done|]. by rewrite app_nil_r.
  - simpl in Hs, Hw. destruct Hs as (-> & nx & Hm & Hs), Hw as (? & ? & ? & Hw). apply not_elem_of_cons in H0 as [H0 H0']. simpl in H0.
    simpl best_fit. destruct (Z.eqb_spec k 0); [congruence|]. rewrite Hm. cbn [mbind option_bind msize next].
    assert (forall avl' p3' hole', best n (pre ++ [(k, (b, t))]) avl' p3' hole' ->
      exists avl'' p3'' hole'', best_fit fuel m n nx avl' p3' hole' = Some (avl'', p3'', hole'') /\ best n (pre ++ (k, (b, t)) :: rest) avl'' p3'' hole'') as Hgo.
    { intros avl' p3' hole' Hb'. rewrite (app_assoc pre [_] rest : pre ++ (k, (b, t)) :: rest = _). apply (IH fuel _ nx avl' p3' hole' (b + t)); auto; [lia|simpl in Hf; lia|].
      intros k' b' t' [Hin|[= -> -> ->]%list_elem_of_singleton]%elem_of_app; [by eapply Hpre|lia]. }
    unfold best, Pages.HOLE_MAX in *. destruct (Z.leb_spec n t) as [Hle|Hlt].
    + rewrite (u32_id (t - n)) by lia. destruct avl.
      * destruct Hb as (a & s & Hin & Hns & -> & Hmin). specialize (Hpre _ _ _ Hin) as Hs'. rewrite u32_s32, u32_id by lia. destruct (Z.ltb_spec (t - n) (s - n)).
        -- apply Hgo. exists b, t. split; [apply elem_of_app; right; by left|]. split; [done|]. split; [done|].
           intros k' b' t' [Hin'|[= -> -> ->]%list_elem_of_singleton]%elem_of_app ?; [|lia]. specialize (Hmin _ _ _ Hin' ltac:(lia)). lia.
        -- apply Hgo. exists a, s. split; [apply elem_of_app; by left|]. split; [done|]. split; [done|].
           intros k' b' t' [Hin'|[= -> -> ->]%list_elem_of_singleton]%elem_of_app ?; [|lia]. by eapply Hmin.
      * destruct Hb as (-> & Hsmall). rewrite u32_s32, u32_id by lia. destruct (Z.ltb_spec (t - n) 0xefffffff); [|lia].
        apply Hgo. exists b, t. split; [apply elem_of_app; right; by left|]. split; [done|]. split; [done|].
        intros k' b' t' [Hin'|[= -> -> ->]%list_elem_of_singleton]%elem_of_app ?; [|lia]. specialize (Hsmall _ _ _ Hin'). lia.
    + apply Hgo. destruct avl.
      * destruct Hb as (a & s & Hin & Hns & -> & Hmin). exists a, s. split; [apply elem_of_app; by left|]. split; [done|]. split; [done|].
        intros k' b' t' [Hin'|[= -> -> ->]%list_elem_of_singleton]%elem_of_app ?; [|lia]. by eapply Hmin.
      * destruct Hb as (-> & Hsmall). split; [done|]. intros k' b' t' [Hin'|[= -> -> ->]%list_elem_of_singleton]%elem_of_app; [by eapply Hsmall|done].
Qed.

(** ** Pieces that change *)

Lemma sorted_app lo l1 n a s l2 :
  sorted lo (l1 ++ (n, (a, s)) :: l2) <->
  sorted lo l1 /\ below a l1 /\ lo < a /\ 0 < s /\ a + s <= Pages.HOLE_MAX /\ sorted (a + s) l2.
Proof.
  revert lo. induction l1 as [|[k [b t]] l1 IH]; intros lo; simpl.
  - split; [|intros (_ & _ & H); exact H]. intros H. split; [done|]. split; [|done]. by intros ? ? ? ?%elem_of_nil.
  - rewrite IH. split.
    + intros (? & ? & ? & ? & Hlt & ? & ? & ? & ?). split; [done|]. split; [|split_and!; auto; lia].
      intros k' b' t' [[= -> -> ->]|Hin]%elem_of_cons; [done|]. by eapply Hlt.
    + intros ((? & ? & ? & ?) & Hlt & ? & ? & ? & ?). split_and!; auto.
      * intros k' b' t' Hin. eapply Hlt. by right.
      * eapply Hlt. by left.
Qed.

(** The front of a piece cut off, or the whole piece. *)
Lemma sorted_cut lo l1 k a s l2 n :
  sorted lo (l1 ++ (k, (a, s)) :: l2) -> 0 < n < s -> sorted lo (l1 ++ (k, (a + n, s - n)) :: l2).
Proof.
  rewrite !sorted_app. intros (H1 & Hb & ? & ? & ? & H2) Hn. split_and!; auto; try lia.
  - intros k' b t Hin. specialize (Hb _ _ _ Hin). lia.
  - by replace (a + n + (s - n)) with (a + s) by lia.
Qed.
Lemma sorted_drop lo l1 k a s l2 : sorted lo (l1 ++ (k, (a, s)) :: l2) -> sorted lo (l1 ++ l2).
Proof.
  rewrite sorted_app. intros (H1 & Hb & ? & ? & ? & H2). revert lo H1 H. induction l1 as [|[k' [b t]] l1 IH]; intros lo H1 Hlo; simpl in *.
  - eapply sorted_weaken; [|done]. lia.
  - destruct H1 as (? & ? & ? & H1). split_and!; auto. apply IH; auto.
    + intros k2 b2 t2 Hin. eapply Hb. by right.
    + eapply Hb. by left.
Qed.
Lemma sorted_sep lo l1 k a s l2 x : sorted lo (l1 ++ (k, (a, s)) :: l2) -> a <= x < a + s -> ~ bytes (l1 ++ l2) x.
Proof.
  rewrite sorted_app, bytes_app. intros (H1 & Hb & ? & ? & ? & H2) Hx [(k' & b & t & Hin & Hx')|Hx'].
  - specialize (Hb _ _ _ Hin). lia.
  - apply (sorted_below (a + s)) in Hx'; [lia|done].
Qed.

Lemma ins_ids n a s l : NoDup (n :: ids l) -> NoDup (ids (ins n a s l)) /\ forall k, k ∈ ids (ins n a s l) -> k = n \/ k ∈ ids l.
Proof.
  induction l as [|[k [b t]] l IH]; intros Hnd; [split; [done|]; by intros k [->|?]%elem_of_cons; [left|apply elem_of_nil in H]|].
  change (ids ((k, (b, t)) :: l)) with (k :: ids l) in *. apply NoDup_cons in Hnd as [Hn Hnd]. apply not_elem_of_cons in Hn as [Hnk Hn].
  pose proof Hnd as Hnd'. apply NoDup_cons in Hnd' as [Hk Hl].
  simpl. repeat case_ztest.
  - split; [done|]. intros k'. by right.
  - split; [constructor; [|done]; by apply not_elem_of_cons|]. intros k' Hk'. by apply elem_of_cons in Hk'.
  - destruct l as [|[k' [b' t']] l]; [split; [done|]; intros ?; by right|]. case_ztest; (split; [|intros ? Hin; right]).
    + apply NoDup_cons in Hl as [_ Hl]. constructor; [|done]. intros ?. apply Hk. by right.
    + apply elem_of_cons in Hin as [->|Hin]; [by left|]. right. by right.
    + done.
    + done.
  - destruct IH as [IH1 IH2]; [by constructor|]. split.
    + constructor; [|done]. intros [E|?]%IH2; [|done]. simpl in E. congruence.
    + intros k' [->|[->|Hin]%IH2]%elem_of_cons; [right; by left|by left|right; by right].
Qed.

Lemma ins_fits n a s l lo : 0 < s -> sorted lo l -> exists k b t, (k, (b, t)) ∈ ins n a s l /\ s <= t.
Proof.
  intros Hs. revert lo. induction l as [|[k [b t]] l IH]; intros lo Hw; simpl in *; [exists n, a, s; split; [by left|lia]|].
  destruct Hw as (? & ? & ? & Hw). repeat case_ztest.
  - exists k, a, (t + s). split; [by left|lia].
  - exists n, a, s. split; [by left|lia].
  - destruct l as [|[k' [b' t']] l]; [exists k, b, (t + s); split; [by left|lia]|]. simpl in Hw. case_ztest.
    + exists k, b, (t + s + t'). split; [by left|lia].
    + exists k, b, (t + s). split; [by left|lia].
  - destruct (IH _ Hw) as (k' & b' & t' & Hin & ?). exists k', b', t'. split; [by right|done].
Qed.

End MemList.
