(* ===== verification/Kmalloc.v ===== *)
(** The kernel heap: [kmalloc] and [kfree] of base/vmmap.c, on pages from any
    [PageAlloc].  Every call holds [kmalloc_lock] from start to end, so that calls
    do not interleave; the lock does not appear here. *)
From S2P Require Import Prelude CoreAlloc MemList.

Module Kmalloc.
Import CoreAlloc Pages MemList.

Definition MALLOC_MAX : Z := 0x01000000.
(** [(4096 - 4) / sizeof (struct mem_list)]: the last word links the pages. *)
Definition SLOTS : Z := 341.
Definition slot (p i : Z) : Z := p + 12 * i.

(** [kmmalloc_info], the last word of each page of nodes, the nodes with the list
    of free pieces, the list of pieces in use, the pages. *)
Record heap (K : Type) := mk_heap { kmmalloc_info : Z; info_next : gmap Z Z; lists : mlists; kmused_list : Z; pages : K }.
Arguments mk_heap {K}. Arguments kmmalloc_info {K}. Arguments info_next {K}.
Arguments lists {K}. Arguments kmused_list {K}. Arguments pages {K}.

Definition set_lists {K} (s : mlists) (h : heap K) : heap K := mk_heap (kmmalloc_info h) (info_next h) s (kmused_list h) (pages h).
Definition set_used {K} (p : Z) (h : heap K) : heap K := mk_heap (kmmalloc_info h) (info_next h) (lists h) p (pages h).
Definition set_core {K} (k : K) (h : heap K) : heap K := mk_heap (kmmalloc_info h) (info_next h) (lists h) (kmused_list h) k.

Section Heap.
Context {K : Type} `{!PageAlloc K}.

(** [bzero] of a page of nodes; its link becomes [NULL]. *)
Definition zero_page (p : Z) (m : gmap Z mem_list) : gmap Z mem_list :=
  foldr (fun i m => <[slot p i := mk_node 0 0 0]> m) m (seqZ 0 SLOTS).

(** The [for] over the nodes of one page. *)
Fixpoint free_slot (m : gmap Z mem_list) (p : Z) (js : list Z) : option (option Z) :=
  match js with
  | [] => Some None
  | i :: js => d ← m !! slot p i; if msize d =? 0 then Some (Some (slot p i)) else free_slot m p js
  end.

(** The [while] over the pages: the free node or [NULL], and the last page. *)
Fixpoint search_pages (fuel : nat) (info : gmap Z Z) (m : gmap Z mem_list) (ptr1 ptr2 : Z) : option (Z * Z) :=
  match fuel with
  | O => None
  | S fuel =>
      if ptr1 =? 0 then Some (0, ptr2) else
      r ← free_slot m ptr1 (seqZ 0 SLOTS);
      match r with
      | Some q => Some (q, ptr2)
      | None => nx ← info !! ptr1; search_pages fuel info m nx ptr1
      end
  end.

(** [create_mem_list_node] from the search on. *)
Definition search_node (h : heap K) : option (Z * heap K) :=
  '(p1, ptr2) ← search_pages (S (size (info_next h))) (info_next h) (nodes (lists h)) (kmmalloc_info h) 0;
  if negb (p1 =? 0) then Some (p1, h) else
  '(chead, k) ← page_alloc 1 (pages h);
  if no_blocks chead <? 1 then Some (0, set_core k h) else
  let ptr1 := phys_addr chead in
  Some (ptr1, mk_heap (kmmalloc_info h) (<[ptr1 := 0]> (<[ptr2 := ptr1]> (info_next h)))
                (set_nodes (zero_page ptr1 (nodes (lists h))) (lists h)) (kmused_list h) k).

Definition create_mem_list_node (h : heap K) : option (Z * heap K) :=
  if kmmalloc_info h =? 0 then
    '(chead, k) ← page_alloc 1 (pages h);
    if no_blocks chead <? 1 then Some (0, set_core k h) else
    let p := phys_addr chead in
    search_node (mk_heap p (<[p := 0]> (info_next h)) (set_nodes (zero_page p (nodes (lists h))) (lists h)) (kmused_list h) k)
  else search_node h.

(** [kmalloc] when no piece is large enough: add pages to the free list, or fail
    ([false]). *)
Definition get_core (n : Z) (h : heap K) : option (bool * heap K) :=
  '(chead, k) ← page_alloc (u32 (n + 4095) / 4096) (pages h);
  if u32 (no_blocks chead * 4096) <? n then
    k ← (if 0 <? no_blocks chead then page_free chead k else Some k);
    Some (false, set_core k h)
  else
    '(p1, h) ← create_mem_list_node (set_core k h);
    let h := set_lists (count 1 (lists h)) h in
    if p1 =? 0 then
      k ← page_free chead (pages h);
      Some (false, set_core k h)
    else
      s ← set_addr p1 (phys_addr chead) (lists h);
      s ← set_size p1 (u32 (no_blocks chead * 4096)) s;
      s ← set_next p1 0 s;
      s ← insert_avail_node p1 s;
      Some (true, set_lists s h).

(** [kmalloc] once a piece is found: split it or take it whole, and enter it in the
    list of pieces in use. *)
Definition take_from (p1 n : Z) (h : heap K) : option (Z * heap K) :=
  d ← nodes (lists h) !! p1;
  '(p3, h) ←
    (if negb (p1 =? 0) && (n <? msize d) then
       '(p3, h) ← create_mem_list_node h;
       let h := set_lists (count 1 (lists h)) h in
       if p3 =? 0 then Some (p3, h) else
       s ← set_addr p3 (addr d) (lists h);
       s ← set_size p3 n s;
       s ← set_next p3 0 s;
       s ← set_size p1 (u32 (msize d - n)) s;
       s ← set_addr p1 (u32 (addr d + n)) s;
       Some (p3, set_lists s h)
     else
       s ← delete_avail_node p1 (lists h);
       s ← set_size p1 n s;
       Some (p1, set_lists s h));
  if p3 =? 0 then Some (0, h) else
  s ← set_next p3 (kmused_list h) (lists h);
  d3 ← nodes s !! p3;
  Some (addr d3, set_used p3 (set_lists s h)).

(** From the label [kmalloc_1]; the jump back is taken with the local variables
    as they were at the start. *)
Fixpoint kmalloc_1 (fuel : nat) (n : Z) (h : heap K) : option (Z * heap K) :=
  match fuel with
  | O => None
  | S fuel =>
      '(avl, p3, _) ← best_fit (S (size (nodes (lists h)))) (nodes (lists h)) n (kmavail_list (lists h)) false 0 (s32 HOLE_MAX);
      if (avl : bool) then take_from p3 n h else
      '(ok, h) ← get_core n h;
      if (ok : bool) then kmalloc_1 fuel n h else Some (0, h)
  end.

Definition kmalloc (n : Z) (h : heap K) : option (Z * heap K) :=
  if n <=? 0 then Some (0, h) else
  if MALLOC_MAX <? n then Some (0, h) else kmalloc_1 2 n h.

(** The [while] of [kfree]: the node for the address and the one before it. *)
Fixpoint find_used (fuel : nat) (m : gmap Z mem_list) (a p1 p2 : Z) : option (Z * Z) :=
  match fuel with
  | O => None
  | S fuel =>
      if p1 =? 0 then Some (0, p2) else
      d ← m !! p1;
      if addr d =? a then Some (p1, p2) else find_used fuel m a (next d) p1
  end.

Definition kfree (a : Z) (h : heap K) : option (heap K) :=
  if a =? 0 then Some h else
  '(p1, p2) ← find_used (S (size (nodes (lists h)))) (nodes (lists h)) a (kmused_list h) 0;
  if p1 =? 0 then Some h else
  d ← nodes (lists h) !! p1;
  h ← (if p1 =? kmused_list h then Some (set_used (next d) h)
       else s ← set_next p2 (next d) (lists h); Some (set_lists s h));
  s ← set_next p1 0 (lists h);
  s ← insert_avail_node p1 s;
  Some (set_lists s h).

(** * Invariant *)

(** Pieces in any order that do not overlap. *)
Fixpoint apart (l : list piece) : Prop :=
  match l with
  | [] => True
  | (n, (a, s)) :: l' => (0 < a /\ 0 < s /\ a + s <= HOLE_MAX) /\ (forall x, a <= x < a + s -> ~ bytes l' x) /\ apart l'
  end.

(** The pages of nodes as pieces, and their chain. *)
Definition page_pieces (ps : list Z) : list piece := (fun p => (p, (p, 4096))) <$> ps.
Fixpoint pseg (m : gmap Z Z) (p : Z) (l : list Z) : Prop :=
  match l with
  | [] => p = 0
  | q :: l' => p = q /\ exists nx, m !! q = Some nx /\ pseg m nx l'
  end.

(** At most one of four. *)
Definition exclusive (a u i f : Prop) : Prop := ~ (a /\ u) /\ ~ (a /\ i) /\ ~ (a /\ f) /\ ~ (u /\ i) /\ ~ (u /\ f) /\ ~ (i /\ f).

(** The heap [h] with free pieces [A], pieces in use [U] and node pages [P]: the
    lists are linked, the nodes are in the pages and those on no list are empty,
    no byte has two owners. *)
Record heap_ok (h : heap K) (A U : list piece) (P : list Z) : Prop := {
  ok_avail : mseg (nodes (lists h)) (kmavail_list (lists h)) A 0;
  ok_used : mseg (nodes (lists h)) (kmused_list h) U 0;
  ok_ids : NoDup (0 :: ids (A ++ U));
  ok_sorted : sorted 0 A;
  ok_apart : apart U;
  ok_info : pseg (info_next h) (kmmalloc_info h) P;
  ok_pages : apart (page_pieces P);
  ok_slots n : is_Some (nodes (lists h) !! n) <-> exists p i, p ∈ P /\ 0 <= i < SLOTS /\ n = slot p i;
  ok_empty n d : nodes (lists h) !! n = Some d -> n ∉ ids (A ++ U) -> msize d = 0;
  ok_core : pages_ok (pages h);
  ok_owner x : exclusive (bytes A x) (bytes U x) (bytes (page_pieces P) x) (is_free (pages h) x) }.

(** The bytes the heap and its page allocator have. *)
Definition held (h : heap K) (A U : list piece) (P : list Z) (x : Z) : Prop :=
  bytes A x \/ bytes U x \/ bytes (page_pieces P) x \/ is_free (pages h) x.

(** How far [kmcount] is from the number of nodes in use. *)
Definition drift (h : heap K) (A U : list piece) : Z := u32 (kmcount (lists h) - zlen A - zlen U).

(** * Node pages *)

Lemma fold_slots p (m : gmap Z mem_list) js n :
  foldr (fun i m => <[slot p i := mk_node 0 0 0]> m) m js !! n = if decide (n ∈ slot p <$> js) then Some (mk_node 0 0 0) else m !! n.
Proof.
  induction js as [|j js IH]; simpl; [done|]. destruct (decide (n = slot p j)) as [->|Hn].
  - rewrite lookup_insert_eq, decide_True by by left. done.
  - rewrite lookup_insert_ne, IH by done. destruct (decide (n ∈ slot p <$> js)) as [Hin|Hin].
    + by rewrite decide_True by by right.
    + rewrite decide_False; [done|]. by intros [?|?]%elem_of_cons.
Qed.

Definition in_page (p n : Z) : Prop := exists i, 0 <= i < SLOTS /\ n = slot p i.

Lemma in_page_elem p n : n ∈ slot p <$> seqZ 0 SLOTS <-> in_page p n.
Proof.
  rewrite list_elem_of_fmap. split.
  - intros (i & -> & Hi%elem_of_seqZ). exists i. split; [lia|done].
  - intros (i & Hi & ->). exists i. split; [done|]. apply elem_of_seqZ. lia.
Qed.
#[local] Instance in_page_dec p n : Decision (in_page p n).
Proof. refine (cast_if (decide (n ∈ slot p <$> seqZ 0 SLOTS))); by rewrite <- in_page_elem. Defined.

Lemma zero_page_in p m n : in_page p n -> zero_page p m !! n = Some (mk_node 0 0 0).
Proof.
  intros Hn. unfold zero_page. rewrite fold_slots, decide_True; [done|]. by apply in_page_elem.
Qed.
Lemma zero_page_out p m n : ~ in_page p n -> zero_page p m !! n = m !! n.
Proof.
  intros Hn. unfold zero_page. rewrite fold_slots, decide_False; [done|]. by rewrite in_page_elem.
Qed.

Lemma in_page_bytes p n : in_page p n -> p <= n < p + 4096.
Proof. intros (i & Hi & ->). unfold slot, SLOTS in *. lia. Qed.

Lemma free_slot_spec m p js :
  (forall i, i ∈ js -> is_Some (m !! slot p i)) ->
  exists r, free_slot m p js = Some r /\
    match r with
    | Some q => exists i d, i ∈ js /\ q = slot p i /\ m !! q = Some d /\ msize d = 0
    | None => forall i d, i ∈ js -> m !! slot p i = Some d -> msize d <> 0
    end.
Proof.
  induction js as [|j js IH]; intros Hp; simpl.
  - exists None. split; [done|]. by intros i d ?%elem_of_nil.
  - destruct (Hp j) as [d Hd]; [by left|]. rewrite Hd. cbn [mbind option_bind]. destruct (Z.eqb_spec (msize d) 0) as [E|E].
    + eexists. split; [done|]. exists j, d. split; [by left|]. done.
    + destruct IH as (r & -> & Hr); [intros i Hi; apply Hp; by right|]. exists r. split; [done|]. destruct r as [q|].
      * destruct Hr as (i & d' & Hi & Hq). exists i, d'. split; [by right|done].
      * intros i d' [->|Hi]%elem_of_cons Hd'; [congruence|by eapply Hr].
Qed.

Definition full (m : gmap Z mem_list) (P : list Z) : Prop :=
  forall p n d, p ∈ P -> in_page p n -> m !! n = Some d -> msize d <> 0.

Lemma search_pages_spec fuel info m P ptr1 ptr2 :
  pseg info ptr1 P -> (forall p, p ∈ P -> 0 < p /\ forall n, in_page p n -> is_Some (m !! n)) -> (length P < fuel)%nat ->
  exists q l, search_pages fuel info m ptr1 ptr2 = Some (q, l) /\
    ((q <> 0 /\ exists p d, p ∈ P /\ in_page p q /\ m !! q = Some d /\ msize d = 0) \/ (q = 0 /\ l = List.last P ptr2 /\ full m P)).
Proof.
  revert fuel ptr1 ptr2. induction P as [|p P IH]; intros fuel ptr1 ptr2 Hs Hp Hf; (destruct fuel as [|fuel]; [simpl in Hf; lia|]).
  - simpl in *. subst ptr1. do 2 eexists. split; [done|]. right. split; [done|]. split; [done|]. by intros p n d ?%elem_of_nil.
  - destruct Hs as (-> & nx & Hm & Hs). destruct (Hp p) as [Hp0 Hps]; [by left|]. cbn [search_pages]. destruct (Z.eqb_spec p 0) as [?|_]; [lia|].
    destruct (free_slot_spec m p (seqZ 0 SLOTS)) as (r & Er & Hr).
    { intros i Hi%elem_of_seqZ. apply Hps. exists i. split; [lia|done]. }
    rewrite Er. cbn [mbind option_bind]. destruct r as [q|].
    + do 2 eexists. split; [done|]. left. destruct Hr as (i & d & Hi%elem_of_seqZ & -> & Hd & Hz). split; [unfold slot; lia|].
      exists p, d. split; [by left|]. split; [exists i; split; [lia|done]|done].
    + rewrite Hm. cbn [mbind option_bind]. destruct (IH fuel nx p Hs) as (q & l & -> & Hres).
      { intros p' Hp'. apply Hp. by right. } { simpl in Hf. lia. }
      exists q, l. split; [done|]. destruct Hres as [(Hq & p' & d & Hp' & ?)|(-> & -> & Hfull)].
      * left. split; [done|]. exists p', d. split; [by right|done].
      * right. split; [done|]. split; [symmetry; apply last_cons_default|]. intros p' n d [->|Hp']%elem_of_cons Hn Hd; [|by eapply Hfull].
        destruct Hn as (i & Hi & ->). eapply Hr; [|exact Hd]. apply elem_of_seqZ. lia.
Qed.

Lemma apart_app l1 l2 : apart (l1 ++ l2) <-> apart l1 /\ apart l2 /\ forall x, bytes l1 x -> ~ bytes l2 x.
Proof.
  induction l1 as [|[n [a s]] l1 IH]; simpl.
  - split; [intros ?; split_and!; auto|tauto]. by intros x ?%bytes_nil.
  - rewrite IH. split.
    + intros (Hr & Hd & H1 & H2 & H12). split_and!; auto; try tauto.
      * intros x Hx Hb. apply (Hd x Hx). rewrite bytes_app. by left.
      * intros x [Hx|Hx]%bytes_cons Hb; [apply (Hd x Hx); rewrite bytes_app; by right|by apply (H12 x)].
    + intros ((Hr & Hd & H1) & H2 & H12). split; [done|]. split; [|split; [done|split; [done|]]].
      * intros x Hx [Hb|Hb]%bytes_app; [by apply (Hd x)|]. apply (H12 x); [|done]. rewrite bytes_cons. by left.
      * intros x Hx. apply H12. rewrite bytes_cons. by right.
Qed.

Lemma apart_elem l n a s : apart l -> (n, (a, s)) ∈ l -> 0 < a /\ 0 < s /\ a + s <= HOLE_MAX.
Proof.
  induction l as [|[k [b t]] l IH]; [by intros _ ?%elem_of_nil|]. intros (Hr & _ & Hl) [[= -> -> ->]|Hin]%elem_of_cons; auto.
Qed.

Lemma page_bytes P x : bytes (page_pieces P) x <-> exists p, p ∈ P /\ p <= x < p + 4096.
Proof.
  unfold bytes, page_pieces. split.
  - intros (n & a & s & (p & [= -> -> ->] & Hp)%list_elem_of_fmap & Hx). eauto.
  - intros (p & Hp & Hx). exists p, p, 4096. split; [|done]. apply list_elem_of_fmap. eauto.
Qed.

Lemma pages_range P p : apart (page_pieces P) -> p ∈ P -> 0 < p /\ p + 4096 <= HOLE_MAX.
Proof.
  intros Ha Hp. destruct (apart_elem _ p p 4096 Ha) as (? & ? & ?); [|done]. apply list_elem_of_fmap. eauto.
Qed.

Lemma pages_nodup P : apart (page_pieces P) -> NoDup P.
Proof.
  induction P as [|p P IH]; [constructor|]. intros (_ & Hd & Ha). constructor; [|by apply IH]. intros Hp.
  apply (Hd p); [lia|]. apply page_bytes. exists p. split; [done|lia].
Qed.

Lemma pseg_length info p P : pseg info p P -> NoDup P -> (length P <= size info)%nat.
Proof.
  intros Hs Hn. rewrite <- size_dom. unfold size, set_size. simpl. apply submseteq_length, NoDup_submseteq; [done|].
  intros q Hq. apply elem_of_elements, elem_of_dom. clear Hn. revert p Hs. induction P as [|p' P IH]; intros p Hs; [by apply elem_of_nil in Hq|].
  destruct Hs as (-> & nx & Hm & Hs). apply elem_of_cons in Hq as [->|Hq]; eauto.
Qed.

Lemma pseg_snoc info p P q :
  pseg info p P -> NoDup P -> q ∉ P -> P <> [] -> pseg (<[q := 0]> (<[List.last P 0 := q]> info)) p (P ++ [q]).
Proof.
  revert p. induction P as [|r P IH]; intros p Hs Hn Hq Hne; [done|]. destruct Hs as (-> & nx & Hm & Hs).
  apply NoDup_cons in Hn as [Hr Hn]. apply not_elem_of_cons in Hq as [Hqr Hq]. destruct P as [|r' P].
  - simpl. split; [done|]. exists q. rewrite lookup_insert_ne, lookup_insert_eq by done. split; [done|]. split; [done|].
    exists 0. by rewrite lookup_insert_eq.
  - change (List.last (r :: r' :: P) 0) with (List.last (r' :: P) 0). rewrite <- app_comm_cons. split; [done|]. exists nx. split.
    + rewrite !lookup_insert_ne; [done| |done]. intros E. apply Hr. rewrite <- E. apply list_elem_of_In.
      destruct (exists_last (l := r' :: P)) as (l' & x & E2); [done|]. rewrite E2, List.last_last. apply in_app_iff. right. by left.
    + by apply IH.
Qed.

(** * Getting a node *)

(** The owners of a byte after pages changed hands. *)
Ltac owners := unfold exclusive, held in *; tauto.

Lemma ok_nodes h A U P n : heap_ok h A U P -> n ∈ ids (A ++ U) -> exists d, nodes (lists h) !! n = Some d.
Proof.
  intros Hh. rewrite ids_app. intros [Hn|Hn]%elem_of_app; [eapply mseg_dom; [apply Hh|done]|eapply mseg_dom; [apply (ok_used _ _ _ _ Hh)|done]].
Qed.

Lemma ok_page_slot h A U P n : heap_ok h A U P -> is_Some (nodes (lists h) !! n) <-> exists p, p ∈ P /\ in_page p n.
Proof.
  intros Hh. rewrite (ok_slots _ _ _ _ Hh). split.
  - intros (p & i & Hp & Hi & ->). exists p. split; [done|]. by exists i.
  - intros (p & Hp & i & Hi & ->). by exists p, i.
Qed.

(** A node on a list is not empty. *)
Lemma listed_size h A U P n d : heap_ok h A U P -> n ∈ ids (A ++ U) -> nodes (lists h) !! n = Some d -> msize d <> 0.
Proof.
  intros Hh. rewrite ids_app. intros [Hn|Hn]%elem_of_app Hd.
  - destruct (mseg_elem _ _ _ _ _ (ok_avail _ _ _ _ Hh) Hn) as (a & s & nx & Hin & E). rewrite E in Hd. injection Hd as <-.
    destruct (sorted_elem _ _ _ _ _ (ok_sorted _ _ _ _ Hh) Hin) as (_ & ? & _). simpl. lia.
  - destruct (mseg_elem _ _ _ _ _ (ok_used _ _ _ _ Hh) Hn) as (a & s & nx & Hin & E). rewrite E in Hd. injection Hd as <-.
    destruct (apart_elem _ _ _ _ (ok_apart _ _ _ _ Hh) Hin) as (_ & ? & _). simpl. lia.
Qed.

Lemma core_change h A U P k :
  heap_ok h A U P -> pages_ok k -> (forall x, is_free k x -> is_free (pages h) x) -> heap_ok (set_core k h) A U P.
Proof. intros Hh Hk Hf. split; try apply Hh; [done|]. intros x. pose proof (ok_owner _ _ _ _ Hh x) as Hex. specialize (Hf x). simpl. owners. Qed.

Lemma new_page h A U P ch k info0 info' :
  heap_ok h A U P -> pages_ok k -> is_run ch -> no_blocks ch = 1 ->
  (forall x, is_free (pages h) x <-> is_free k x \/ in_run ch x) -> (forall x, in_run ch x -> ~ is_free k x) ->
  (phys_addr ch ∉ P -> pseg info' info0 (P ++ [phys_addr ch])) ->
  let h' := mk_heap info0 info' (set_nodes (zero_page (phys_addr ch) (nodes (lists h))) (lists h)) (kmused_list h) k in
  heap_ok h' A U (P ++ [phys_addr ch]) /\ forall x, held h' A U (P ++ [phys_addr ch]) x <-> held h A U P x.
Proof.
  intros Hh Hk Hrun Hnb Hf Hnf Hps h'. set (np := phys_addr ch) in *. pose proof (ok_owner _ _ _ _ Hh) as Hex.
  destruct (run_range ch Hrun) as (Hr1 & _ & Hr2). rewrite Hnb in Hr2. fold np in Hr1, Hr2.
  assert (forall x, in_run ch x <-> np <= x < np + 4096) as Erun by (intros x; unfold in_run; rewrite Hnb; fold np; lia).
  assert (forall x, bytes (page_pieces (P ++ [np])) x <-> bytes (page_pieces P) x \/ in_run ch x) as Epg.
  { intros x. unfold page_pieces. rewrite fmap_app. simpl. rewrite bytes_app, bytes_cons, bytes_nil, Erun. tauto. }
  assert (forall x, in_run ch x -> ~ bytes A x /\ ~ bytes U x /\ ~ bytes (page_pieces P) x) as Hnew.
  { intros x Hx. specialize (Hex x). specialize (Hf x). owners. }
  assert (forall n, is_Some (nodes (lists h) !! n) -> ~ in_page np n) as Hold.
  { intros n (p & Hp & Hn)%(ok_page_slot _ _ _ _ _ Hh) Hn'. apply in_page_bytes in Hn, Hn'.
    destruct (Hnew n) as (_ & _ & Hx); [by apply Erun|]. apply Hx. apply page_bytes. eauto. }
  assert (forall n, n ∈ ids (A ++ U) -> nodes (lists h') !! n = nodes (lists h) !! n) as Hsame.
  { intros n Hn. apply zero_page_out, Hold. by apply (ok_nodes _ _ _ _ n Hh). }
  split.
  - split; try apply Hh.
    + apply (mseg_frame (nodes (lists h))); [apply Hh|]. intros n Hn. apply Hsame. rewrite ids_app. apply elem_of_app. by left.
    + apply (mseg_frame (nodes (lists h))); [apply (ok_used _ _ _ _ Hh)|]. intros n Hn. apply Hsame. rewrite ids_app. apply elem_of_app. by right.
    + apply Hps. intros Hp. destruct (Hnew np) as (_ & _ & Hx); [apply Erun; lia|]. apply Hx. apply page_bytes. exists np. split; [done|lia].
    + unfold page_pieces. rewrite fmap_app. apply apart_app. split; [apply (ok_pages _ _ _ _ Hh)|]. simpl. split.
      * split; [lia|]. split; [|done]. intros x _ Hx. by apply bytes_nil in Hx.
      * intros x Hx [Hx'|Hx']%bytes_cons; [|by apply bytes_nil in Hx']. by apply (Hnew x); [apply Erun|].
    + intros n. simpl. destruct (decide (in_page np n)) as [Hn|Hn].
      * rewrite zero_page_in by done. split; [intros _|eauto]. destruct Hn as (i & Hi & ->). exists np, i. split; [apply elem_of_app; right; by left|done].
      * rewrite zero_page_out by done. rewrite (ok_slots _ _ _ _ Hh). split.
        -- intros (p & i & Hp & ?). exists p, i. split; [apply elem_of_app; by left|done].
        -- intros (p & i & [Hp|Hp]%elem_of_app & Hi & ->); [by exists p, i|]. apply list_elem_of_singleton in Hp as ->. destruct Hn. by exists i.
    + intros n d Hd Hn. simpl in Hd. destruct (decide (in_page np n)) as [Hp|Hp].
      * rewrite zero_page_in in Hd by done. by injection Hd as <-.
      * rewrite zero_page_out in Hd by done. by apply (ok_empty _ _ _ _ Hh n).
    + done.
    + intros x. specialize (Epg x). specialize (Hex x). specialize (Hf x). specialize (Hnf x). specialize (Hnew x). simpl. owners.
  - intros x. unfold held. rewrite Epg. specialize (Hf x). simpl. tauto.
Qed.

(** What [create_mem_list_node] leaves: an unused node, or nothing because every node
    is in use. *)
Definition node_got (h : heap K) (A U : list piece) (P : list Z) (q : Z) (h' : heap K) (P' : list Z) : Prop :=
  heap_ok h' A U P' /\ (forall x, held h' A U P' x <-> held h A U P x) /\ kmcount (lists h') = kmcount (lists h) /\
  ((q <> 0 /\ q ∉ ids (A ++ U) /\ is_Some (nodes (lists h') !! q)) \/ (q = 0 /\ full (nodes (lists h')) P')).

Lemma search_node_spec h A U P :
  heap_ok h A U P -> P <> [] -> exists q h' P', search_node h = Some (q, h') /\ node_got h A U P q h' P'.
Proof.
  intros Hh Hne. unfold search_node, node_got. pose proof (pages_nodup _ (ok_pages _ _ _ _ Hh)) as Hnd.
  destruct (search_pages_spec (S (size (info_next h))) (info_next h) (nodes (lists h)) P (kmmalloc_info h) 0) as (q & l & -> & Hres).
  { apply Hh. }
  { intros p Hp. split; [by destruct (pages_range P p (ok_pages _ _ _ _ Hh) Hp)|]. intros n Hn. apply (ok_page_slot _ _ _ _ _ Hh). eauto. }
  { pose proof (pseg_length _ _ _ (ok_info _ _ _ _ Hh) Hnd). lia. }
  cbn [mbind option_bind]. destruct Hres as [(Hq & p & d & Hp & Hin & Hd & Hz)|(-> & -> & Hfull)].
  - destruct (Z.eqb_spec q 0); [done|]. simpl. exists q, h, P. split; [done|]. split; [done|]. split; [done|]. split; [done|]. left. split; [done|]. split; [|eauto].
    intros Hin'. by destruct (listed_size _ _ _ _ _ _ Hh Hin' Hd).
  - simpl. destruct (page_alloc_ok (pages h) 1) as (ch & k & -> & Hk & Hnb & Hrun & Hf & Hnf & _); [apply Hh|lia|]. cbn [mbind option_bind].
    destruct (Z.ltb_spec (no_blocks ch) 1).
    + exists 0, (set_core k h), P. split; [done|].
      assert (forall x, is_free (pages h) x <-> is_free k x) as Hf' by (intros x; rewrite Hf; unfold in_run; lia_or).
      split; [apply core_change; auto; intros x; apply Hf'|]. split; [intros x; unfold held; simpl; by rewrite Hf'|]. split; [done|]. by right.
    + assert (no_blocks ch = 1) as Hnb1 by lia.
      destruct (new_page h A U P ch k (kmmalloc_info h) (<[phys_addr ch := 0]> (<[List.last P 0 := phys_addr ch]> (info_next h)))) as [Hh' Hheld]; auto.
      { apply Hrun. lia. }
      { intros Hp. apply pseg_snoc; auto. apply Hh. }
      do 3 eexists. split; [done|]. split; [exact Hh'|]. split; [done|]. split; [done|]. left. destruct (run_range ch) as (? & _); [apply Hrun; lia|].
      assert (in_page (phys_addr ch) (phys_addr ch)) as Hin by (exists 0; unfold SLOTS, slot; lia).
      split; [lia|]. simpl. rewrite zero_page_in by done. split; [|eauto]. intros Hid.
      destruct (listed_size _ _ _ _ _ (mk_node 0 0 0) Hh' Hid); [|done]. simpl. by rewrite zero_page_in.
Qed.

Lemma create_mem_list_node_spec h A U P :
  heap_ok h A U P -> exists q h' P', create_mem_list_node h = Some (q, h') /\ node_got h A U P q h' P'.
Proof.
  intros Hh. unfold create_mem_list_node. pose proof (ok_info _ _ _ _ Hh) as Hinfo. destruct (Z.eqb_spec (kmmalloc_info h) 0) as [E|E].
  - assert (P = []) as ->.
    { destruct P as [|p P]; [done|]. destruct Hinfo as [Ep _]. destruct (pages_range _ p (ok_pages _ _ _ _ Hh)); [by left|]. lia. }
    destruct (page_alloc_ok (pages h) 1) as (ch & k & -> & Hk & Hnb & Hrun & Hf & Hnf & _); [apply Hh|lia|]. cbn [mbind option_bind].
    destruct (Z.ltb_spec (no_blocks ch) 1).
    + exists 0, (set_core k h), []. split; [done|].
      assert (forall x, is_free (pages h) x <-> is_free k x) as Hf' by (intros x; rewrite Hf; unfold in_run; lia_or).
      split; [apply core_change; auto; intros x; apply Hf'|]. split; [intros x; unfold held; simpl; by rewrite Hf'|]. split; [done|]. right. split; [done|].
      by intros p n d ?%elem_of_nil.
    + destruct (new_page h A U [] ch k (phys_addr ch) (<[phys_addr ch := 0]> (info_next h))) as [Hh' Hheld]; auto; [apply Hrun; lia|lia| |].
      { intros _. simpl. split; [done|]. exists 0. by rewrite lookup_insert_eq. }
      destruct (search_node_spec _ _ _ _ Hh') as (q & h2 & P2 & -> & H1 & H2 & H3 & H4); [done|]. exists q, h2, P2. split; [done|]. split; [done|].
      split; [intros x; by rewrite H2, Hheld|]. by split.
  - apply search_node_spec; [done|]. intros ->. by simpl in Hinfo.
Qed.

(** * Moving pieces *)

(** A new piece on the free list: the node [q] of the heap, or the one just taken
    off the list of pieces in use. *)
Lemma put_piece h A U P s q a sz nx :
  heap_ok h A U P -> nodes s = <[q := mk_node a sz nx]> (nodes (lists h)) -> kmavail_list s = kmavail_list (lists h) ->
  q <> 0 -> q ∉ ids (A ++ U) -> is_Some (nodes (lists h) !! q) -> 0 < a /\ 0 < sz /\ a + sz <= HOLE_MAX ->
  (forall x, a <= x < a + sz -> ~ held h A U P x) ->
  exists s', insert_avail_node q s = Some s' /\ heap_ok (set_lists s' h) (ins q a sz A) U P /\
    (forall x, held (set_lists s' h) (ins q a sz A) U P x <-> held h A U P x \/ a <= x < a + sz) /\
    u32 (kmcount s') = u32 (kmcount s + zlen (ins q a sz A) - zlen A - 1).
Proof.
  intros Hh Es Eav Hq0 Hq Hqs Hr Hout. pose proof (ok_ids _ _ _ _ Hh) as Hids. apply NoDup_cons in Hids as [H0 Hnd]. rewrite ids_app in Hq, H0, Hnd.
  apply not_elem_of_app in Hq as [HqA HqU], H0 as [H0A H0U]. apply NoDup_app in Hnd as (HndA & HAU & HndU).
  assert (forall x, a <= x < a + sz -> ~ bytes A x) as HA by (intros x Hx Hb; apply (Hout x Hx); by left).
  destruct (insert_avail_node_spec s q a sz nx A) as (s' & E & (Hs & Hsame & Hgone & Hcnt)); auto.
  - rewrite Es. apply lookup_insert_eq.
  - rewrite Es, Eav. apply mseg_other; [apply Hh|done].
  - apply Hh.
  - constructor; [by apply not_elem_of_cons|]. by constructor.
  - assert (forall x, bytes (ins q a sz A) x <-> bytes A x \/ a <= x < a + sz) as Eb by (intros x; apply (ins_bytes q a sz 0); auto; [lia|apply Hh]).
    destruct (ins_ids q a sz A) as [Hnd' Hsub]; [by constructor|].
    assert (forall n, n ∈ ids U -> nodes s' !! n = nodes (lists h) !! n) as HU.
    { intros n Hn. assert (n <> q) by (intros ->; done). rewrite Hsame by (auto; intros Hn'; by apply (HAU n)). rewrite Es. by apply lookup_insert_ne. }
    assert (forall n, n ∈ ids (ins q a sz A) \/ n ∉ ids A /\ n <> q \/ (exists d, nodes s' !! n = Some d /\ msize d = 0)) as Hcase.
    { intros n. destruct (decide (n ∈ ids (ins q a sz A))) as [?|Hn]; [by left|]. destruct (decide (n = q \/ n ∈ ids A)) as [Hn'|Hn'];
        [right; right; by apply Hgone|right; left; tauto]. }
    exists s'. split; [done|]. split; [split; try apply Hh|split; [|done]].
    + done.
    + apply (mseg_frame (nodes (lists h))); [apply (ok_used _ _ _ _ Hh)|done].
    + rewrite ids_app. constructor.
      * intros [Hn|?]%elem_of_app; [|done]. apply Hsub in Hn as [?|?]; [congruence|done].
      * apply NoDup_app. split; [done|]. split; [|done]. intros n [->|Hn]%Hsub; [done|by apply HAU].
    + apply ins_sorted; auto; try lia. apply Hh.
    + intros n. rewrite <- (ok_slots _ _ _ _ Hh). simpl. destruct (Hcase n) as [Hn|[[Hn Hnq]|(d & Hd & _)]].
      * split; intros _; [|by eapply mseg_dom]. destruct (Hsub n Hn) as [->|Hn']; [done|]. eapply mseg_dom; [apply Hh|done].
      * rewrite Hsame by done. rewrite Es. by rewrite lookup_insert_ne.
      * split; [intros _|eauto]. destruct (decide (n ∈ ids A)) as [Hn'|Hn']; [eapply mseg_dom; [apply Hh|done]|].
        destruct (decide (n = q)) as [->|Hnq]; [done|]. rewrite Hsame, Es, lookup_insert_ne in Hd by done. eauto.
    + intros n d Hd Hn. simpl in Hd. rewrite ids_app in Hn. apply not_elem_of_app in Hn as [Hn HnU]. destruct (Hcase n) as [?|[[HnA Hnq]|(d' & Hd' & Hz)]]; [done| |congruence].
      rewrite Hsame, Es, lookup_insert_ne in Hd by done. apply (ok_empty _ _ _ _ Hh n d Hd). rewrite ids_app. by apply not_elem_of_app.
    + intros x. specialize (Eb x). specialize (Hout x). pose proof (ok_owner _ _ _ _ Hh x). simpl. owners.
    + intros x. specialize (Eb x). unfold held. simpl. tauto.
Qed.

Lemma count_ok h A U P d : heap_ok h A U P -> heap_ok (set_lists (count d (lists h)) h) A U P.
Proof. intros Hh. split; apply Hh. Qed.

(** Pages given back. *)
Lemma core_returned h A U P ch :
  heap_ok h A U P -> is_run ch -> (forall x, in_run ch x -> ~ held h A U P x) ->
  exists k, page_free ch (pages h) = Some k /\ heap_ok (set_core k h) A U P /\
    forall x, held (set_core k h) A U P x <-> held h A U P x \/ in_run ch x.
Proof.
  intros Hh Hrun Hout. destruct (page_free_ok (pages h) ch) as (k & E & Hk & Hf); [apply Hh|done| |].
  { intros x Hx Hfr. apply (Hout x Hx). unfold held. tauto. }
  exists k. split; [done|]. split.
  - split; try apply Hh; [done|]. intros x. pose proof (ok_owner _ _ _ _ Hh x). specialize (Hf x). specialize (Hout x). simpl. owners.
  - intros x. unfold held. simpl. rewrite Hf. tauto.
Qed.

(** No run of pages with room for [n] bytes is free. *)
Definition no_room (n : Z) (k : K) : Prop := forall a, ~ forall x, a <= x < a + 4096 * ((n + 4095) / 4096) -> is_free k x.

Lemma get_core_spec h A U P n :
  heap_ok h A U P -> 0 < n <= MALLOC_MAX ->
  exists ok h' A' P', get_core n h = Some (ok, h') /\ heap_ok h' A' U P' /\ (forall x, held h' A' U P' x <-> held h A U P x) /\
    if (ok : bool) then (exists k a s, (k, (a, s)) ∈ A' /\ n <= s) /\ drift h' A' U = drift h A U
    else A' = A /\ (no_room n (pages h) /\ drift h' A' U = drift h A U \/ full (nodes (lists h')) P' /\ drift h' A' U = u32 (drift h A U + 1)).
Proof.
  intros Hh Hn. unfold MALLOC_MAX in Hn. unfold get_core. rewrite (u32_id (n + 4095)) by lia. set (np := (n + 4095) / 4096).
  assert (1 <= np <= 4096 /\ 4096 * (np - 1) < n <= 4096 * np) as [Hnp Hnp'] by (unfold np; Z.div_mod_to_equations; lia).
  destruct (page_alloc_ok (pages h) np) as (ch & k & -> & Hk & Hnb & Hrun & Hf & Hnf & Hroom); [apply Hh|lia|]. cbn [mbind option_bind].
  rewrite (u32_id (no_blocks ch * 4096)) by lia.
  assert (heap_ok (set_core k h) A U P) as Hh1 by (apply core_change; auto; intros x Hx; apply Hf; by left).
  assert (forall x, held h A U P x <-> held (set_core k h) A U P x \/ in_run ch x) as Hheld1 by (intros x; unfold held; simpl; rewrite Hf; tauto).
  assert (forall x, in_run ch x -> ~ held (set_core k h) A U P x) as Hout.
  { intros x Hx. pose proof (ok_owner _ _ _ _ Hh x). specialize (Hf x). specialize (Hnf x). unfold held. simpl. owners. }
  destruct (Z.ltb_spec (no_blocks ch * 4096) n).
  - destruct (Z.ltb_spec 0 (no_blocks ch)) as [Hpos|Hzero].
    + destruct (core_returned _ _ _ _ ch Hh1 (Hrun Hpos) Hout) as (k2 & E & Hh2 & Hheld2). simpl in E. rewrite E. cbn [mbind option_bind].
      do 4 eexists. split; [done|]. split; [exact Hh2|]. split; [intros x; by rewrite (Hheld1 x), <- (Hheld2 x)|]. split; [done|]. left.
      split; [|done]. intros a. apply Hroom. lia.
    + cbn [mbind option_bind]. do 4 eexists. split; [done|]. split; [exact Hh1|]. split.
      { intros x. rewrite Hheld1. split; [by left|]. intros [?|Hx]; [done|]. unfold in_run in Hx. lia. }
      split; [done|]. left. split; [|done]. intros a. apply Hroom. lia.
  - destruct (create_mem_list_node_spec _ _ _ _ Hh1) as (q & h2 & P2 & -> & Hh2 & Hheld2 & Hcnt2 & Hq). cbn [mbind option_bind].
    apply (count_ok _ _ _ _ 1) in Hh2 as Hh3. set (h3 := set_lists (count 1 (lists h2)) h2) in *.
    assert (is_run ch) as Hrun' by (apply Hrun; lia). destruct (run_range ch Hrun') as (Hr1 & Hr2 & Hr3).
    assert (forall x, held h3 A U P2 x <-> held (set_core k h) A U P x) as Hheld3 by (intros x; by rewrite <- Hheld2).
    assert (forall x, in_run ch x -> ~ held h3 A U P2 x) as Hout3 by (intros x Hx; rewrite Hheld3; by apply Hout).
    destruct Hq as [(Hq0 & Hq & Hqs)|(-> & Hfull)].
    + destruct (Z.eqb_spec q 0); [done|]. destruct Hqs as [d Hd]. assert (nodes (lists h3) !! q = Some d) as Hd3 by done.
      run_set. run_set. run_set.
      destruct (put_piece h3 A U P2 (mk_lists (<[q := mk_node (phys_addr ch) (no_blocks ch * 4096) 0]> (nodes (lists h3))) (kmavail_list (lists h3)) (kmcount (lists h3)))
                  q (phys_addr ch) (no_blocks ch * 4096) 0) as (s' & E & Hh4 & Hheld4 & Hcnt4); auto; [unfold HOLE_MAX in *; lia| |].
      { intros x Hx. apply Hout3. unfold in_run. lia. }
      unfold set_nodes. cbn [nodes kmavail_list kmcount].
      match goal with |- context [insert_avail_node q ?s] => replace (insert_avail_node q s) with (Some s') end. cbn [mbind option_bind].
      do 4 eexists. split; [done|]. split; [exact Hh4|]. split.
      { intros x. rewrite (Hheld4 x), (Hheld3 x), (Hheld1 x). unfold in_run. split; (intros [?|?]; [by left|right; lia]). }
      split.
      * destruct (ins_fits q (phys_addr ch) (no_blocks ch * 4096) A 0) as (k' & b & t & Hin & Hle); [lia|apply Hh|]. exists k', b, t. split; [done|lia].
      * unfold drift. cbn [lists set_lists]. simpl in Hcnt4. rewrite Hcnt2 in Hcnt4. simpl in Hcnt4.
        clear -Hcnt4. u32_lia.
    + simpl (0 =? 0). cbv iota. destruct (core_returned h3 A U P2 ch Hh3 Hrun' Hout3) as (k2 & E & Hh4 & Hheld4). rewrite E. cbn [mbind option_bind].
      do 4 eexists. split; [done|]. split; [exact Hh4|]. split; [intros x; by rewrite (Hheld4 x), (Hheld3 x), (Hheld1 x)|].
      split; [done|]. right. split; [done|]. unfold drift. simpl. rewrite Hcnt2. simpl. clear. u32_lia.
Qed.

(** The lists changed, the pages not: what is left to show.  A byte may leave the
    lists, none may enter. *)
Lemma relist h A U P s' used' A' U' :
  heap_ok h A U P -> mseg (nodes s') (kmavail_list s') A' 0 -> mseg (nodes s') used' U' 0 -> sorted 0 A' -> apart U' ->
  NoDup (0 :: ids (A' ++ U')) -> (forall n, n ∈ ids (A' ++ U') -> is_Some (nodes (lists h) !! n)) ->
  (forall n, n ∉ ids (A' ++ U') -> nodes s' !! n = nodes (lists h) !! n /\ n ∉ ids (A ++ U) \/
                                   is_Some (nodes (lists h) !! n) /\ exists d, nodes s' !! n = Some d /\ msize d = 0) ->
  (forall x, bytes A' x \/ bytes U' x -> bytes A x \/ bytes U x) -> (forall x, ~ (bytes A' x /\ bytes U' x)) ->
  heap_ok (set_used used' (set_lists s' h)) A' U' P.
Proof.
  intros Hh HA HU Hw Hap Hnd Hin Hout Hb Hx. split; try apply Hh; auto.
  - intros n. rewrite <- (ok_slots _ _ _ _ Hh). simpl. destruct (decide (n ∈ ids (A' ++ U'))) as [Hn|Hn].
    + split; intros _; [by apply Hin|]. rewrite ids_app in Hn. apply elem_of_app in Hn as [Hn|Hn]; [exact (mseg_dom _ _ _ _ _ HA Hn)|exact (mseg_dom _ _ _ _ _ HU Hn)].
    + destruct (Hout n Hn) as [[-> _]|(? & d & Hd & _)]; [done|]. split; [done|eauto].
  - intros n d Hd Hn. simpl in Hd. destruct (Hout n Hn) as [[E HnA]|(? & d' & Hd' & Hz)].
    + rewrite E in Hd. by apply (ok_empty _ _ _ _ Hh n).
    + rewrite Hd in Hd'. by injection Hd' as <-.
  - intros x. pose proof (ok_owner _ _ _ _ Hh x). specialize (Hb x). specialize (Hx x). simpl. owners.
Qed.

Lemma ok_split_ids h A U P : heap_ok h A U P -> 0 ∉ ids A /\ 0 ∉ ids U /\ NoDup (ids A) /\ NoDup (ids U) /\ forall n, n ∈ ids A -> n ∉ ids U.
Proof.
  intros Hh. pose proof (ok_ids _ _ _ _ Hh) as Hids. rewrite ids_app in Hids. apply NoDup_cons in Hids as [H0 Hnd].
  apply not_elem_of_app in H0 as [? ?]. apply NoDup_app in Hnd as (? & ? & ?). done.
Qed.

(** A node that is on no list takes a piece and goes on the list of pieces in use. *)
Lemma push_used h A U P q a n :
  heap_ok h A U P -> q <> 0 -> q ∉ ids (A ++ U) -> is_Some (nodes (lists h) !! q) -> 0 < a /\ 0 < n /\ a + n <= HOLE_MAX ->
  (forall x, a <= x < a + n -> ~ held h A U P x) ->
  let h' := set_used q (set_lists (set_nodes (<[q := mk_node a n (kmused_list h)]> (nodes (lists h))) (lists h)) h) in
  heap_ok h' A ((q, (a, n)) :: U) P /\ forall x, held h' A ((q, (a, n)) :: U) P x <-> held h A U P x \/ a <= x < a + n.
Proof.
  intros Hh Hq0 Hq Hqs Hr Hout h'. destruct (ok_split_ids _ _ _ _ Hh) as (H0A & H0U & HndA & HndU & HAU). rewrite ids_app in Hq. apply not_elem_of_app in Hq as [HqA HqU].
  split.
  - split; try apply Hh.
    + apply mseg_other; [apply Hh|done].
    + simpl. split; [done|]. exists (kmused_list h). rewrite lookup_insert_eq. split; [done|]. apply mseg_other; [apply (ok_used _ _ _ _ Hh)|done].
    + rewrite ids_app. change (ids ((q, (a, n)) :: U)) with (q :: ids U). constructor.
      * intros [?|[?|?]%elem_of_cons]%elem_of_app; done.
      * apply NoDup_app. split; [done|]. split; [|by constructor]. intros k Hk [->|?]%elem_of_cons; [done|by apply (HAU k)].
    + simpl. split; [done|]. split; [|apply (ok_apart _ _ _ _ Hh)]. intros x Hx Hb. apply (Hout x Hx). unfold held. tauto.
    + intros k. simpl. rewrite <- (ok_slots _ _ _ _ Hh). destruct (decide (k = q)) as [->|?]; [rewrite lookup_insert_eq; split; eauto|by rewrite lookup_insert_ne].
    + intros k d Hd Hk. simpl in Hd. rewrite ids_app in Hk. apply not_elem_of_app in Hk as [Hk1 Hk2]. apply not_elem_of_cons in Hk2 as [Hk2 Hk3]. simpl in Hk2.
      rewrite lookup_insert_ne in Hd by congruence. apply (ok_empty _ _ _ _ Hh k d Hd). rewrite ids_app. by apply not_elem_of_app.
    + intros x. pose proof (ok_owner _ _ _ _ Hh x). specialize (Hout x). pose proof (bytes_cons q a n U x). simpl. owners.
  - intros x. unfold held. rewrite bytes_cons. simpl. tauto.
Qed.

(** A free piece leaves the list, its node empty. *)
Lemma drop_avail h l1 p1 a n l2 U P :
  heap_ok h (l1 ++ (p1, (a, n)) :: l2) U P ->
  exists s', delete_avail_node p1 (lists h) = Some s' /\ heap_ok (set_lists s' h) (l1 ++ l2) U P /\ nodes s' !! p1 = Some (mk_node a 0 0) /\
    p1 <> 0 /\ p1 ∉ ids ((l1 ++ l2) ++ U) /\ (0 < a /\ 0 < n /\ a + n <= HOLE_MAX) /\ kmcount s' = kmcount (lists h) /\
    (forall x, a <= x < a + n -> ~ held (set_lists s' h) (l1 ++ l2) U P x) /\
    (forall x, held h (l1 ++ (p1, (a, n)) :: l2) U P x <-> held (set_lists s' h) (l1 ++ l2) U P x \/ a <= x < a + n).
Proof.
  intros Hh. pose proof (ok_sorted _ _ _ _ Hh) as Hw. destruct (ok_split_ids _ _ _ _ Hh) as (H0A & H0U & HndA & HndU & HAU).
  assert (0 < a /\ 0 < n /\ a + n <= HOLE_MAX) as Hr by (apply (sorted_elem _ _ p1 _ _ Hw); apply elem_of_app; right; by left).
  destruct (delete_avail_node_spec (lists h) l1 p1 a n l2) as (s' & E & Hs & Hp & Hsame & Hcnt); [apply Hh|by constructor|].
  assert (ids (l1 ++ (p1, (a, n)) :: l2) ≡ₚ p1 :: ids (l1 ++ l2)) as Hperm.
  { rewrite !ids_app. change (ids ((p1, (a, n)) :: l2)) with (p1 :: ids l2). by rewrite <- Permutation_middle. }
  assert (forall k, k ∈ ids (l1 ++ (p1, (a, n)) :: l2) <-> k = p1 \/ k ∈ ids (l1 ++ l2)) as Hel by (intros k; rewrite Hperm; apply elem_of_cons).
  rewrite Hperm in HndA. apply NoDup_cons in HndA as [Hp1 HndA]. assert (p1 ∉ ids U) as HpU by (apply HAU; apply Hel; by left).
  assert (forall x, bytes (l1 ++ (p1, (a, n)) :: l2) x <-> bytes (l1 ++ l2) x \/ a <= x < a + n) as Hb by (intros x; rewrite !bytes_app, bytes_cons; tauto).
  assert (forall k, k ∈ ids U -> nodes s' !! k = nodes (lists h) !! k) as HU by (intros k Hk; apply Hsame; intros Hin; by apply (HAU k)).
  exists s'. split; [done|]. split; [|split; [done|split; [|split; [|split; [done|split; [done|split]]]]]].
  - apply (relist h (l1 ++ (p1, (a, n)) :: l2) U P s' (kmused_list h)); auto.
    + apply (mseg_frame (nodes (lists h))); [apply (ok_used _ _ _ _ Hh)|done].
    + by eapply sorted_drop.
    + apply Hh.
    + rewrite ids_app. constructor; [intros [?|?]%elem_of_app; [apply H0A; apply Hel; by right|done]|]. apply NoDup_app. split; [done|]. split; [|done].
      intros k Hk. apply HAU. apply Hel. by right.
    + intros k Hk. apply (ok_nodes _ _ _ _ k Hh). rewrite ids_app in Hk |- *. apply elem_of_app in Hk as [Hk|Hk]; apply elem_of_app; [left; apply Hel; by right|by right].
    + intros k Hk. rewrite ids_app in Hk. apply not_elem_of_app in Hk as [Hk1 Hk2]. destruct (decide (k = p1)) as [->|Hk3].
      * right. split; [|eexists; by rewrite Hp]. apply (ok_nodes _ _ _ _ p1 Hh). rewrite ids_app. apply elem_of_app. left. apply Hel. by left.
      * left. assert (k ∉ ids (l1 ++ (p1, (a, n)) :: l2)) as Hk4 by (rewrite Hel; tauto). rewrite Hsame by done. split; [done|]. rewrite ids_app. by apply not_elem_of_app.
    + intros x. rewrite Hb. tauto.
    + intros x [Hx1 Hx2]. pose proof (ok_owner _ _ _ _ Hh x). specialize (Hb x). owners.
  - intros ->. apply H0A. apply Hel. by left.
  - rewrite ids_app. by apply not_elem_of_app.
  - intros x Hx Hheld. pose proof (sorted_sep _ _ _ _ _ _ x Hw Hx). pose proof (ok_owner _ _ _ _ Hh x). specialize (Hb x). unfold held in Hheld. simpl in Hheld. owners.
  - intros x. specialize (Hb x). unfold held. simpl. tauto.
Qed.

(** The front of a free piece is cut off. *)
Lemma shrink_avail h l1 p1 a sz l2 U P n nx :
  heap_ok h (l1 ++ (p1, (a, sz)) :: l2) U P -> 0 < n < sz -> nodes (lists h) !! p1 = Some (mk_node a sz nx) ->
  let h' := set_lists (set_nodes (<[p1 := mk_node (a + n) (sz - n) nx]> (nodes (lists h))) (lists h)) h in
  let A' := l1 ++ (p1, (a + n, sz - n)) :: l2 in
  heap_ok h' A' U P /\ (0 < a /\ a + sz <= HOLE_MAX) /\ (forall x, a <= x < a + n -> ~ held h' A' U P x) /\
  (forall x, held h (l1 ++ (p1, (a, sz)) :: l2) U P x <-> held h' A' U P x \/ a <= x < a + n).
Proof.
  intros Hh Hn Hp h' A'. pose proof (ok_sorted _ _ _ _ Hh) as Hw. destruct (ok_split_ids _ _ _ _ Hh) as (H0A & H0U & HndA & HndU & HAU).
  destruct (sorted_elem _ _ p1 a sz Hw) as (? & ? & ?); [apply elem_of_app; right; by left|].
  assert (ids A' = ids (l1 ++ (p1, (a, sz)) :: l2)) as Eid by (unfold A'; by rewrite !ids_app).
  assert (ids (A' ++ U) = ids ((l1 ++ (p1, (a, sz)) :: l2) ++ U)) as Eid2 by (rewrite (ids_app A'), Eid; by rewrite <- ids_app).
  assert (forall x, bytes (l1 ++ (p1, (a, sz)) :: l2) x <-> bytes A' x \/ a <= x < a + n) as Hb.
  { intros x. unfold A'. rewrite !bytes_app, !bytes_cons. lia_or. }
  assert (p1 ∈ ids A') as HpA by (rewrite Eid, ids_app; apply elem_of_app; right; by left).
  assert (forall x, a <= x < a + n -> ~ bytes A' x) as Hsep.
  { intros x Hx. pose proof (sorted_sep _ _ _ _ _ _ x Hw ltac:(lia)) as Hno. unfold A'. rewrite !bytes_app, bytes_cons in *. intros [?|[?|?]]; [tauto|lia|tauto]. }
  split; [|split; [done|split]].
  - apply (relist h (l1 ++ (p1, (a, sz)) :: l2) U P _ (kmused_list h)); auto.
    + pose proof (ok_avail _ _ _ _ Hh) as HA. simpl. apply (mseg_upd _ _ l1 p1 (a, sz) l2); [done| | |].
      * rewrite ids_app in HndA. apply NoDup_app in HndA as (_ & Hd & _). intros Hin. apply (Hd p1 Hin). by left.
      * apply mseg_app in HA as (r & _ & (-> & nx' & E & H2)). by rewrite Hp in E; injection E as <-.
      * rewrite ids_app in HndA. apply NoDup_app in HndA as (_ & _ & HndA). by apply NoDup_cons in HndA as [? _].
    + simpl. apply mseg_other; [apply (ok_used _ _ _ _ Hh)|]. apply HAU. by rewrite <- Eid.
    + by apply sorted_cut.
    + apply Hh.
    + rewrite Eid2. apply Hh.
    + intros k Hk. apply (ok_nodes _ _ _ _ k Hh). by rewrite <- Eid2.
    + intros k Hk. left. rewrite Eid2 in Hk. split; [|done]. simpl. apply lookup_insert_ne. intros ->. apply Hk. rewrite <- Eid2, ids_app.
      apply elem_of_app. by left.
    + intros x. specialize (Hb x). tauto.
    + intros x. pose proof (ok_owner _ _ _ _ Hh x). specialize (Hb x). owners.
  - intros x Hx Hheld. specialize (Hsep x Hx). pose proof (ok_owner _ _ _ _ Hh x). specialize (Hb x). unfold held in Hheld. simpl in Hheld. owners.
  - intros x. specialize (Hb x). unfold held. simpl. tauto.
Qed.

(** The outcome of taking [n] bytes from the free piece at [a]. *)
Definition taken (h : heap K) (A U : list piece) (P : list Z) (n a r : Z) (h' : heap K) (A' U' : list piece) (P' : list Z) : Prop :=
  heap_ok h' A' U' P' /\ (forall x, held h' A' U' P' x <-> held h A U P x) /\
  ((r = a /\ a <> 0 /\ (exists k, U' = (k, (a, n)) :: U) /\ drift h' A' U' = drift h A U) \/
   (r = 0 /\ U' = U /\ full (nodes (lists h')) P' /\ drift h' A' U' = u32 (drift h A U + 1))).

Lemma take_whole h l1 p1 a n l2 U P :
  heap_ok h (l1 ++ (p1, (a, n)) :: l2) U P ->
  exists h' A' U', take_from p1 n h = Some (a, h') /\ taken h (l1 ++ (p1, (a, n)) :: l2) U P n a a h' A' U' P.
Proof.
  intros Hh. destruct (drop_avail _ _ _ _ _ _ _ _ Hh) as (s1 & E & Hh1 & Hp & Hp0 & Hpl & Hr & Hcnt & Hout & Hheld).
  assert (exists nx, nodes (lists h) !! p1 = Some (mk_node a n nx)) as (nx & Hp1).
  { pose proof (ok_avail _ _ _ _ Hh) as HA. apply mseg_app in HA as (r & _ & (-> & nx & E' & _)). eauto. }
  unfold take_from. rewrite Hp1. cbn [mbind option_bind msize addr]. rewrite Z.ltb_irrefl, andb_false_r, E. cbn [mbind option_bind].
  run_set. destruct (Z.eqb_spec p1 0) as [?|_]; [done|]. cbn [lists set_lists kmused_list set_nodes nodes]. run_set. rewrite lookup_insert_eq. cbn [mbind option_bind addr].
  destruct (push_used (set_lists s1 h) (l1 ++ l2) U P p1 a n Hh1 Hp0 Hpl ltac:(simpl; by rewrite Hp) Hr Hout) as [Hh2 Hheld2].
  do 3 eexists. split; [done|]. split; [exact Hh2|]. split; [intros x; by rewrite (Hheld2 x), (Hheld x)|]. left. split; [done|]. split; [lia|]. split; [eauto|].
  unfold drift. simpl. rewrite Hcnt. f_equal. unfold zlen. rewrite !length_app. simpl. lia.
Qed.

Lemma take_part h l1 p1 a sz l2 U P n :
  heap_ok h (l1 ++ (p1, (a, sz)) :: l2) U P -> 0 < n < sz ->
  exists r h' A' U' P', take_from p1 n h = Some (r, h') /\ taken h (l1 ++ (p1, (a, sz)) :: l2) U P n a r h' A' U' P'.
Proof.
  intros Hh Hn. set (A := l1 ++ (p1, (a, sz)) :: l2) in *.
  assert (forall h P, heap_ok h A U P -> exists nx, nodes (lists h) !! p1 = Some (mk_node a sz nx)) as Hnode.
  { intros h' P' Hh'. pose proof (ok_avail _ _ _ _ Hh') as HA. apply mseg_app in HA as (r & _ & (-> & nx & E' & _)). eauto. }
  destruct (Hnode h P Hh) as (nx0 & Hp). destruct (ok_split_ids _ _ _ _ Hh) as (H0A & _).
  assert (p1 ∈ ids A) as HpA by (unfold A; rewrite ids_app; apply elem_of_app; right; by left).
  assert (p1 <> 0) as Hp0 by (intros ->; done).
  unfold take_from. rewrite Hp. cbn [mbind option_bind msize addr]. destruct (Z.eqb_spec p1 0) as [?|_]; [done|]. destruct (Z.ltb_spec n sz); [|lia]. cbn [negb andb].
  destruct (create_mem_list_node_spec _ _ _ _ Hh) as (q & h2 & P2 & -> & Hh2 & Hheld2 & Hcnt2 & Hq). cbn [mbind option_bind].
  apply (count_ok _ _ _ _ 1) in Hh2 as Hh3. set (h3 := set_lists (count 1 (lists h2)) h2) in *.
  destruct Hq as [(Hq0 & Hq & Hqs)|(-> & Hfull)].
  - destruct (Z.eqb_spec q 0) as [?|_]; [done|]. destruct Hqs as [d Hd]. assert (nodes (lists h3) !! q = Some d) as Hd3 by done.
    destruct (Hnode h3 P2 Hh3) as (nx & Hp3). assert (q <> p1) as Hqp by (intros ->; apply Hq; rewrite ids_app; apply elem_of_app; by left).
    run_set. run_set. run_set. run_set. run_set. destruct (Z.eqb_spec q 0) as [?|_]; [done|]. cbn [lists set_lists kmused_list set_nodes nodes].
    run_set. rewrite lookup_insert_eq. cbn [mbind option_bind addr].
    destruct (shrink_avail h3 l1 p1 a sz l2 U P2 n nx Hh3 Hn Hp3) as (Hh4 & Hr & Hout & Hheld4).
    unfold HOLE_MAX in Hr. rewrite (u32_id (sz - n)), (u32_id (a + n)) by lia.
    destruct (push_used _ _ U P2 q a n Hh4 Hq0) as [Hh5 Hheld5].
    { rewrite ids_app in *. unfold A in Hq. rewrite ids_app in *. exact Hq. }
    { simpl. rewrite lookup_insert_ne by done. eauto. } { unfold HOLE_MAX. lia. } { exact Hout. }
    simpl in Hh5. unfold set_lists, set_used, set_nodes in *. cbn [lists nodes kmavail_list kmcount kmused_list kmmalloc_info info_next pages count] in *.
    rewrite (insert_insert_ne _ p1 q) by done. rewrite insert_insert_eq. rewrite (insert_insert_ne _ q p1) by done.
    do 5 eexists. split; [done|]. split; [rewrite (insert_insert_ne _ p1 q) by done; exact Hh5|]. split; [|left; split; [done|]; split; [lia|]; split; [eauto|]].
    + intros x. rewrite <- (Hheld2 x). specialize (Hheld4 x). specialize (Hheld5 x). etransitivity; [exact Hheld5|]. symmetry. exact Hheld4.
    + unfold drift. simpl. rewrite Hcnt2. unfold A, zlen. rewrite !length_app. simpl. u32_lia.
  - simpl (0 =? 0). cbv iota. cbn [mbind option_bind]. simpl (0 =? 0). cbv iota. do 5 eexists. split; [done|]. split; [exact Hh3|]. split; [done|]. right. split; [done|]. split; [done|].
    split; [done|]. unfold drift. simpl. rewrite Hcnt2. clear. u32_lia.
Qed.

(** * [kmalloc] *)

(** The smallest free piece with room for [n] bytes is at [a]. *)
Definition best_at (n : Z) (A : list piece) (a : Z) : Prop :=
  exists k s, (k, (a, s)) ∈ A /\ n <= s /\ forall k' b t, (k', (b, t)) ∈ A -> n <= t -> s <= t.
Definition fits (n : Z) (A : list piece) : Prop := exists k a s, (k, (a, s)) ∈ A /\ n <= s.

Lemma take_from_spec h A U P n p1 a s :
  heap_ok h A U P -> (p1, (a, s)) ∈ A -> 0 < n <= s ->
  exists r h' A' U' P', take_from p1 n h = Some (r, h') /\ taken h A U P n a r h' A' U' P'.
Proof.
  intros Hh (l1 & l2 & ->)%list_elem_of_split Hn. destruct (Z.eq_dec n s) as [->|?].
  - destruct (take_whole _ _ _ _ _ _ _ _ Hh) as (h' & A' & U' & E & Ht). eauto 10.
  - apply take_part; [done|lia].
Qed.

Lemma kmalloc_find h A U P n :
  heap_ok h A U P -> 0 < n ->
  exists avl p3 hole, best_fit (S (size (nodes (lists h)))) (nodes (lists h)) n (kmavail_list (lists h)) false 0 (s32 HOLE_MAX) = Some (avl, p3, hole) /\
    best n A avl p3 hole.
Proof.
  intros Hh Hn. destruct (ok_split_ids _ _ _ _ Hh) as (H0A & _ & HndA & _). pose proof (mseg_length _ _ _ _ (ok_avail _ _ _ _ Hh) HndA).
  apply (best_fit_spec _ _ n [] A _ false 0 _ 0); auto; try apply Hh; try lia.
  - split; [done|]. by intros ? ? ? ?%elem_of_nil.
  - by intros ? ? ? ?%elem_of_nil.
Qed.

Lemma kmalloc_1_fits fuel h A U P n :
  heap_ok h A U P -> 0 < n -> fits n A ->
  exists a r h' A' U' P', kmalloc_1 (S fuel) n h = Some (r, h') /\ best_at n A a /\ taken h A U P n a r h' A' U' P'.
Proof.
  intros Hh Hn (k0 & a0 & s0 & Hin0 & Hfit). destruct (kmalloc_find _ _ _ _ n Hh Hn) as (avl & p3 & hole & E & Hb). cbn [kmalloc_1]. rewrite E. cbn [mbind option_bind].
  destruct avl; simpl in Hb; [|destruct Hb as [_ Hb]; specialize (Hb _ _ _ Hin0); lia]. destruct Hb as (a & s & Hin & Hns & _ & Hmin).
  destruct (take_from_spec h A U P n p3 a s) as (r & h' & A' & U' & P' & E' & Ht); [done|done|lia|].
  exists a, r, h', A', U', P'. split; [done|]. split; [by exists p3, s|done].
Qed.

(** The contract of [kmalloc], used by its clients below. *)
Lemma kmalloc_spec h A U P n :
  heap_ok h A U P -> 0 < n <= MALLOC_MAX ->
  exists r h' A' U' P', kmalloc n h = Some (r, h') /\ heap_ok h' A' U' P' /\ (forall x, held h' A' U' P' x <-> held h A U P x) /\
    ((r <> 0 /\ (exists k, U' = (k, (r, n)) :: U) /\ (fits n A -> best_at n A r) /\ drift h' A' U' = drift h A U) \/
     (r = 0 /\ U' = U /\ (~ fits n A /\ no_room n (pages h) \/ full (nodes (lists h')) P'))).
Proof.
  intros Hh Hn. unfold kmalloc. destruct (Z.leb_spec n 0); [lia|]. destruct (Z.ltb_spec MALLOC_MAX n); [lia|].
  destruct (kmalloc_find _ _ _ _ n Hh) as (avl & p3 & hole & E & Hb); [lia|]. destruct avl eqn:Eavl.
  - destruct Hb as (a0 & s0 & Hin & Hns & _). assert (fits n A) as Hfit by (by exists p3, a0, s0).
    destruct (kmalloc_1_fits 1 h A U P n Hh) as (a & r & h' & A' & U' & P' & E' & Hbest & Hh' & Hheld & Hres); [lia|done|].
    exists r, h', A', U', P'. split; [done|]. split; [done|]. split; [done|]. destruct Hres as [(-> & Ha & HU & Hd)|(-> & -> & Hfull & _)]; [left|right]; auto.
  - destruct Hb as [_ Hb]. assert (~ fits n A) as Hnofit by (intros (k & a & s & Hin & ?); specialize (Hb _ _ _ Hin); lia).
    change (kmalloc_1 2 n h) with ('(avl, p3, _) ← best_fit (S (size (nodes (lists h)))) (nodes (lists h)) n (kmavail_list (lists h)) false 0 (s32 HOLE_MAX);
      if (avl : bool) then take_from p3 n h else '(ok, h) ← get_core n h; if (ok : bool) then kmalloc_1 1 n h else Some (0, h)).
    rewrite E. cbn [mbind option_bind]. destruct (get_core_spec h A U P n Hh Hn) as (ok & h1 & A1 & P1 & -> & Hh1 & Hheld1 & Hok). cbn [mbind option_bind].
    destruct ok.
    + destruct Hok as [Hfit Hd1]. destruct (kmalloc_1_fits 0 h1 A1 U P1 n Hh1) as (a & r & h' & A' & U' & P' & E' & Hbest & Hh' & Hheld & Hres); [lia|done|].
      exists r, h', A', U', P'. split; [done|]. split; [done|]. split; [intros x; by rewrite Hheld|].
      destruct Hres as [(-> & Ha & HU & Hd)|(-> & -> & Hfull & _)]; [left|right]; [|auto]. split; [done|]. split; [done|]. split; [done|]. congruence.
    + destruct Hok as [-> Hok]. exists 0, h1, A, U, P1. split; [done|]. split; [done|]. split; [done|]. right. split; [done|]. split; [done|].
      destruct Hok as [[Hroom _]|[Hfull _]]; auto.
Qed.

(** C9: [kmalloc] returns memory that nobody has.  On a heap whose lists are
    linked, sorted and disjoint, [kmalloc] of 1 to 16 M bytes returns (one jump back
    to the search is enough), the heap stays so, and no byte is lost or gained by the
    heap and its pages together.  Either a block of the size is now in use, which by
    the invariant overlaps no other block in use, no free piece and no page of nodes,
    and which is at the smallest free piece with room if there was one; or [NULL] is
    returned, the blocks in use are the same, and either there was neither a free
    piece nor a free run of pages for the size, or all nodes are in use. *)
Theorem kmalloc_returns_fresh h A U P n :
  heap_ok h A U P -> 0 < n <= MALLOC_MAX ->
  exists r h' A' U' P', kmalloc n h = Some (r, h') /\ heap_ok h' A' U' P' /\ (forall x, held h' A' U' P' x <-> held h A U P x) /\
    ((r <> 0 /\ (exists k, U' = (k, (r, n)) :: U) /\ (fits n A -> best_at n A r) /\ drift h' A' U' = drift h A U) \/
     (r = 0 /\ U' = U /\ (~ fits n A /\ no_room n (pages h) \/ full (nodes (lists h')) P'))).
Proof. apply kmalloc_spec. Qed.

(** * [kfree] *)

Lemma find_used_spec fuel m a pre l1 q sz l2 p :
  mseg m p (l1 ++ (q, (a, sz)) :: l2) 0 -> 0 ∉ ids (l1 ++ (q, (a, sz)) :: l2) -> (forall k b t, (k, (b, t)) ∈ l1 -> b <> a) -> (length l1 < fuel)%nat ->
  find_used fuel m a p (lastid pre) = Some (q, lastid (pre ++ l1)).
Proof.
  revert fuel pre p. induction l1 as [|[k [b t]] l1 IH]; intros fuel pre p Hs H0 Hne Hf; (destruct fuel as [|fuel]; [simpl in Hf; lia|]); simpl in Hs.
  - destruct Hs as (-> & nx & Hm & _). apply not_elem_of_cons in H0 as [H0 _]. simpl in H0. simpl. destruct (Z.eqb_spec q 0); [congruence|]. rewrite Hm. cbn [mbind option_bind addr].
    by rewrite Z.eqb_refl, app_nil_r.
  - destruct Hs as (-> & nx & Hm & Hs). apply not_elem_of_cons in H0 as [H0 H0']. simpl in H0. simpl find_used. destruct (Z.eqb_spec k 0); [congruence|]. rewrite Hm.
    cbn [mbind option_bind addr next]. specialize (Hne k b t ltac:(by left)) as Hb. destruct (Z.eqb_spec b a); [done|].
    replace k with (lastid (pre ++ [(k, (b, t))])) at 1 by apply lastid_snoc. rewrite (IH fuel (pre ++ [(k, (b, t))]) nx); auto.
    + by rewrite <- app_assoc.
    + intros k' b' t' Hin. eapply Hne. by right.
    + simpl in Hf. lia.
Qed.

Lemma find_used_none fuel m a l p p2 :
  mseg m p l 0 -> 0 ∉ ids l -> (forall k b t, (k, (b, t)) ∈ l -> b <> a) -> (length l < fuel)%nat ->
  exists p2', find_used fuel m a p p2 = Some (0, p2').
Proof.
  revert fuel p p2. induction l as [|[k [b t]] l IH]; intros fuel p p2 Hs H0 Hne Hf; (destruct fuel as [|fuel]; [simpl in Hf; lia|]); simpl in Hs.
  - subst p. eauto.
  - destruct Hs as (-> & nx & Hm & Hs). apply not_elem_of_cons in H0 as [H0 H0']. simpl in H0. simpl find_used. destruct (Z.eqb_spec k 0); [congruence|]. rewrite Hm.
    cbn [mbind option_bind addr next]. specialize (Hne k b t ltac:(by left)) as Hb. destruct (Z.eqb_spec b a); [done|]. apply IH; auto; [|simpl in Hf; lia].
    intros k' b' t' Hin. eapply Hne. by right.
Qed.

(** The heap with a block off the list of blocks in use, its node taken for empty. *)
Lemma drop_used h A U1 q a sz U2 P s' used' :
  heap_ok h A (U1 ++ (q, (a, sz)) :: U2) P -> mseg (nodes s') used' (U1 ++ U2) 0 -> kmavail_list s' = kmavail_list (lists h) ->
  (forall n, n ∉ ids (U1 ++ U2) -> nodes s' !! n = nodes (lists h) !! n) ->
  let h0 := set_used used' (set_lists (set_nodes (<[q := mk_node a 0 0]> (nodes s')) s') h) in
  heap_ok h0 A (U1 ++ U2) P /\ q <> 0 /\ q ∉ ids (A ++ U1 ++ U2) /\ (0 < a /\ 0 < sz /\ a + sz <= HOLE_MAX) /\
  (forall x, a <= x < a + sz -> ~ held h0 A (U1 ++ U2) P x) /\
  (forall x, held h A (U1 ++ (q, (a, sz)) :: U2) P x <-> held h0 A (U1 ++ U2) P x \/ a <= x < a + sz).
Proof.
  intros Hh Hs Eav Hsame h0. destruct (ok_split_ids _ _ _ _ Hh) as (H0A & H0U & HndA & HndU & HAU). pose proof (ok_apart _ _ _ _ Hh) as Hap.
  assert (ids (U1 ++ (q, (a, sz)) :: U2) ≡ₚ q :: ids (U1 ++ U2)) as Hperm.
  { rewrite !ids_app. change (ids ((q, (a, sz)) :: U2)) with (q :: ids U2). by rewrite <- Permutation_middle. }
  assert (forall k, k ∈ ids (U1 ++ (q, (a, sz)) :: U2) <-> k = q \/ k ∈ ids (U1 ++ U2)) as Hel by (intros k; rewrite Hperm; apply elem_of_cons).
  rewrite Hperm in HndU. apply NoDup_cons in HndU as [Hq HndU].
  assert (forall x, bytes (U1 ++ (q, (a, sz)) :: U2) x <-> bytes (U1 ++ U2) x \/ a <= x < a + sz) as Hb by (intros x; rewrite !bytes_app, bytes_cons; tauto).
  apply apart_app in Hap as (Hap1 & (Hr & Hap2 & Hap3) & Hap12).
  assert (forall x, a <= x < a + sz -> ~ bytes (U1 ++ U2) x) as Hsep.
  { intros x Hx. rewrite bytes_app. intros [Hx1|Hx2]; [|by apply (Hap2 x)]. apply (Hap12 x Hx1). rewrite bytes_cons. by left. }
  assert (q ∉ ids A) as HqA by (intros Hin; apply (HAU q Hin), Hel; by left).
  assert (is_Some (nodes (lists h) !! q)) as Hqs.
  { apply (ok_nodes _ _ _ _ q Hh). rewrite ids_app. apply elem_of_app. right. apply Hel. by left. }
  split; [|split; [|split; [|split; [done|split]]]].
  - apply (relist h A (U1 ++ (q, (a, sz)) :: U2) P _ used'); auto.
    + simpl. rewrite Eav. apply mseg_other; [|done]. apply (mseg_frame (nodes (lists h))); [apply Hh|]. intros k Hk. apply Hsame. intros Hin. apply (HAU k Hk), Hel. by right.
    + simpl. by apply mseg_other.
    + apply Hh.
    + apply apart_app. split; [done|]. split; [done|]. intros x Hx Hx2. apply (Hap12 x Hx). rewrite bytes_cons. by right.
    + rewrite ids_app. constructor; [intros [?|?]%elem_of_app; [done|apply H0U, Hel; by right]|]. apply NoDup_app. split; [done|]. split; [|done].
      intros k Hk Hin. apply (HAU k Hk), Hel. by right.
    + intros k Hk. apply (ok_nodes _ _ _ _ k Hh). rewrite ids_app in Hk |- *. apply elem_of_app in Hk as [Hk|Hk]; apply elem_of_app; [by left|right; apply Hel; by right].
    + intros k Hk. rewrite ids_app in Hk. apply not_elem_of_app in Hk as [Hk1 Hk2]. simpl. destruct (decide (k = q)) as [->|Hk3].
      * right. split; [done|]. rewrite lookup_insert_eq. eauto.
      * left. rewrite lookup_insert_ne by done. rewrite Hsame by done. split; [done|]. rewrite ids_app. apply not_elem_of_app. split; [done|]. rewrite Hel. tauto.
    + intros x. specialize (Hb x). tauto.
    + intros x. pose proof (ok_owner _ _ _ _ Hh x). specialize (Hb x). owners.
  - intros ->. apply H0U, Hel. by left.
  - rewrite ids_app. by apply not_elem_of_app.
  - intros x Hx Hheld. specialize (Hsep x Hx). pose proof (ok_owner _ _ _ _ Hh x). specialize (Hb x). unfold held in Hheld. simpl in Hheld. owners.
  - intros x. specialize (Hb x). unfold held. simpl. tauto.
Qed.

Lemma kfree_spec h A U1 q a sz U2 P :
  heap_ok h A (U1 ++ (q, (a, sz)) :: U2) P ->
  exists h', kfree a h = Some h' /\ heap_ok h' (ins q a sz A) (U1 ++ U2) P /\ pages h' = pages h /\
    (forall x, bytes (ins q a sz A) x <-> bytes A x \/ a <= x < a + sz) /\ drift h' (ins q a sz A) (U1 ++ U2) = drift h A (U1 ++ (q, (a, sz)) :: U2).
Proof.
  intros Hh. destruct (ok_split_ids _ _ _ _ Hh) as (H0A & H0U & HndA & HndU & HAU). pose proof (ok_used _ _ _ _ Hh) as HU. pose proof (ok_apart _ _ _ _ Hh) as Hap.
  assert (0 < a /\ 0 < sz /\ a + sz <= HOLE_MAX) as Hr by (apply (apart_elem _ q _ _ Hap); apply elem_of_app; right; by left).
  unfold kfree. destruct (Z.eqb_spec a 0); [lia|]. rewrite (find_used_spec _ _ a [] U1 q sz U2); auto.
  2: { intros k b t Hin ->. apply apart_app in Hap as (Hap1 & _ & Hd). apply (Hd a).
       - exists k, a, t. split; [done|]. destruct (apart_elem _ _ _ _ Hap1 Hin). lia.
       - rewrite bytes_cons. left. lia. }
  2: { pose proof (mseg_length _ _ _ _ HU HndU) as Hl. rewrite length_app in Hl. lia. }
  cbn [mbind option_bind]. simpl app. assert (q <> 0) as Hq0 by (intros ->; apply H0U; rewrite ids_app; apply elem_of_app; right; by left).
  destruct (Z.eqb_spec q 0) as [?|_]; [done|]. pose proof HU as HU'. apply mseg_app in HU' as (r & HU1 & (-> & nx & Hq & HU2)). rewrite Hq. cbn [mbind option_bind next].
  rewrite ids_app in HndU. apply NoDup_app in HndU as (Hnd1 & H12 & Hnd2). change (ids ((q, (a, sz)) :: U2)) with (q :: ids U2) in *. apply NoDup_cons in Hnd2 as [Hq2 _].
  assert (q ∉ ids U1) as Hq1 by (intros Hin; apply (H12 q Hin); by left).
  (* the list of blocks in use without the node *)
  assert (exists s' used', (if q =? kmused_list h then Some (set_used nx h) else s ← set_next (lastid U1) nx (lists h); Some (set_lists s h)) =
            Some (set_used used' (set_lists s' h)) /\ mseg (nodes s') used' (U1 ++ U2) 0 /\ kmavail_list s' = kmavail_list (lists h) /\
            kmcount s' = kmcount (lists h) /\ nodes s' !! q = Some (mk_node a sz nx) /\ (forall n, n ∉ ids (U1 ++ U2) -> nodes s' !! n = nodes (lists h) !! n))
    as (s' & used' & -> & Hs' & Eav & Ecnt & Hq' & Hsame).
  { destruct (decide (U1 = [])) as [->|Hne].
    - simpl in HU1. subst q. rewrite Z.eqb_refl. exists (lists h), nx. split; [by destruct h|]. done.
    - destruct (Z.eqb_spec q (kmused_list h)) as [E|_].
      { destruct U1 as [|[k [b t]] U1]; [done|]. destruct HU1 as (E' & _). destruct Hq1. rewrite E, E'. by left. }
      destruct (exists_last Hne) as (l0 & [k [b t]] & ->). rewrite lastid_snoc. rewrite ids_app in Hnd1, Hq1, H12. apply NoDup_app in Hnd1 as (_ & Hk0 & _).
      rewrite <- app_assoc in HU. simpl in HU. pose proof HU as HUk. apply mseg_app in HUk as (r & _ & (-> & nxk & Hk & _)).
      apply not_elem_of_app in Hq1 as [_ Hqk]. apply not_elem_of_cons in Hqk as [Hqk _]. simpl in Hqk.
      run_set. exists (set_nodes (<[k := mk_node b t nx]> (nodes (lists h))) (lists h)), (kmused_list h). split; [done|]. cbn [nodes kmavail_list kmcount set_nodes]. split; [|split; [done|split; [done|split]]].
      + rewrite <- app_assoc. simpl. apply (mseg_upd _ _ l0 k (b, t) ((q, (a, sz)) :: U2)); auto.
        * intros Hin. apply (Hk0 k Hin). by left.
        * intros Hin. apply (H12 k); [apply elem_of_app; right; by left|by right].
      + by rewrite lookup_insert_ne.
      + intros n' Hn'. apply lookup_insert_ne. intros ->. apply Hn'. rewrite !ids_app. apply elem_of_app. left. apply elem_of_app. right. by left. }
  cbn [mbind option_bind lists set_used set_lists]. run_set.
  destruct (drop_used h A U1 q a sz U2 P s' used' Hh Hs' Eav Hsame) as (Hh0 & _ & Hql & _ & Hout & Hheld0).
  edestruct (put_piece _ A (U1 ++ U2) P (set_nodes (<[q := mk_node a sz 0]> (nodes s')) s') q a sz 0 Hh0) as (s2 & E2 & Hh2 & _ & Hcnt2); auto.
  { cbn [nodes set_nodes lists set_lists set_used]. by rewrite insert_insert_eq. } { simpl. by rewrite lookup_insert_eq. }
  rewrite E2. cbn [mbind option_bind]. eexists. split; [done|]. split; [exact Hh2|]. split; [done|]. split.
  - intros x. apply (ins_bytes q a sz 0); [lia|apply Hh|]. intros y Hy Hb. apply (Hout y Hy). by left.
  - unfold drift. simpl in Hcnt2 |- *. rewrite Ecnt in Hcnt2. unfold zlen in *. rewrite !length_app in *. simpl in *. clear -Hcnt2. u32_lia.
Qed.

(** C10: [kfree] gives back exactly one block.  [kfree] of the address of a block in
    use takes that block, and no other, off the list; its bytes, and no others, become
    free, joined with the free pieces next to them; the heap stays well formed and the
    pages are not touched. *)
Theorem kfree_gives_back h A U1 q a sz U2 P :
  heap_ok h A (U1 ++ (q, (a, sz)) :: U2) P ->
  exists h' A', kfree a h = Some h' /\ heap_ok h' A' (U1 ++ U2) P /\ pages h' = pages h /\
    (forall x, bytes A' x <-> bytes A x \/ a <= x < a + sz) /\ drift h' A' (U1 ++ U2) = drift h A (U1 ++ (q, (a, sz)) :: U2).
Proof. intros Hh. destruct (kfree_spec _ _ _ _ _ _ _ _ Hh) as (h' & H). eauto. Qed.

(** [kfree] of anything else does nothing: of [NULL], of an address inside a
    block, of a block freed before. *)
Theorem kfree_unknown h A U P a :
  heap_ok h A U P -> (forall k b t, (k, (b, t)) ∈ U -> b <> a) -> kfree a h = Some h.
Proof.
  intros Hh Hne. unfold kfree. destruct (Z.eqb_spec a 0); [done|]. destruct (ok_split_ids _ _ _ _ Hh) as (_ & H0U & _ & HndU & _).
  destruct (find_used_none (S (size (nodes (lists h)))) (nodes (lists h)) a U (kmused_list h) 0) as (p2 & ->); auto; [apply Hh|].
  pose proof (mseg_length _ _ _ _ (ok_used _ _ _ _ Hh) HndU). lia.
Qed.

(** [kmalloc] and [kfree] undo each other.  Freeing the block just allocated
    leaves the blocks that were in use before, the same count of nodes, and all memory
    with the heap or its pages as before. *)
Theorem kmalloc_kfree h A U P n r h1 :
  heap_ok h A U P -> 0 < n <= MALLOC_MAX -> kmalloc n h = Some (r, h1) -> r <> 0 ->
  exists h2 A2 P2, kfree r h1 = Some h2 /\ heap_ok h2 A2 U P2 /\ (forall x, held h2 A2 U P2 x <-> held h A U P x) /\ drift h2 A2 U = drift h A U.
Proof.
  intros Hh Hn Hm Hr. destruct (kmalloc_spec h A U P n Hh Hn) as (r' & h1' & A1 & U1 & P1 & E & Hh1 & Hheld & Hres). rewrite E in Hm. injection Hm as -> ->.
  destruct Hres as [(_ & (k & ->) & _ & Hd)|(? & _)]; [|done]. destruct (kfree_spec h1 A1 [] k r n U P1 Hh1) as (h2 & E2 & Hh2 & Epg & Hb & Hd2).
  exists h2, (ins k r n A1), P1. split; [done|]. split; [done|]. split; [|simpl in Hd2; congruence].
  intros x. rewrite <- Hheld. unfold held. rewrite Epg, Hb, bytes_cons. tauto.
Qed.

End Heap.

(** * A machine with sixteen free pages *)

Definition ex_segs : list ram_segment := [mk_seg 0x100000 0x10000 1].
Lemma ex_low_ram : Forall (fun sg => seg_type sg = 1 -> u32 (base_addr sg + seg_length sg) < HOLE_MAX) ex_segs.
Proof. repeat constructor. Qed.
#[local] Instance ex_pages : PageAlloc core := core_pages ex_segs ex_low_ram.
Definition ex_core (n : Z) : core := mk_core 0x100000 {[0x100000 := mk_fb n 0]}.
Definition ex_heap : heap core := mk_heap 0 ∅ (mk_lists ∅ 0 0) 0 (ex_core 16).

Lemma ex_free_range : core_ok (ex_core 16) [(0x100000, 16)] /\ in_segments ex_segs [(0x100000, 16)] /\ whole_pages [(0x100000, 16)].
Proof.
  split; [|split].
  - split; [|done]. split; [done|]. by exists 0.
  - intros x [Hx|Hx]%in_free_cons; [|by apply in_free_nil in Hx]. exists (mk_seg 0x100000 0x10000 1).
    split; [by left|]. split; [done|]. cbn [base_addr seg_length]. rewrite u32_id by lia. lia.
  - intros x y Hxy [Hx|Hx]%in_free_cons; [|by apply in_free_nil in Hx]. apply in_free_cons. left. Z.div_mod_to_equations; lia.
Qed.

Lemma ex_heap_ok : heap_ok ex_heap [] [] [].
Proof.
  split; try done.
  - apply NoDup_singleton.
  - intros n. split; [by intros [? ?]|]. by intros (p & i & ?%elem_of_nil & _).
  - exists [(0x100000, 16)]. apply ex_free_range.
  - intros x. unfold exclusive, page_pieces. simpl. rewrite !bytes_nil. tauto.
Qed.

(** One block of 100 bytes in use. *)
Lemma ex_used : exists r h A k P, kmalloc 100 ex_heap = Some (r, h) /\ r <> 0 /\ heap_ok h A [(k, (r, 100))] P.
Proof.
  destruct (kmalloc_spec ex_heap [] [] [] 100 ex_heap_ok) as (r & h & A & U & P & E & Hh & _ & Hres); [done|].
  assert (match kmalloc 100 ex_heap with Some (r, _) => r <> 0 | None => False end) as Hr by (vm_compute; discriminate). rewrite E in Hr.
  destruct Hres as [(_ & (k & ->) & _)|(Hr0 & _)]; [|contradiction]. exists r, h, A, k, P. exact (conj E (conj Hr Hh)).
Qed.

Lemma kmalloc_returns_fresh_witness :
  exists r h' A' U' P', kmalloc 100 ex_heap = Some (r, h') /\ heap_ok h' A' U' P' /\ (forall x, held h' A' U' P' x <-> held ex_heap [] [] [] x) /\
    ((r <> 0 /\ (exists k, U' = [(k, (r, 100))]) /\ (fits 100 [] -> best_at 100 [] r) /\ drift h' A' U' = drift ex_heap [] []) \/
     (r = 0 /\ U' = [] /\ (~ fits 100 [] /\ no_room 100 (pages ex_heap) \/ full (nodes (lists h')) P'))).
Proof. apply (kmalloc_returns_fresh ex_heap [] [] [] 100); [apply ex_heap_ok|done]. Defined.

Lemma kfree_gives_back_witness :
  exists r h A k P, kmalloc 100 ex_heap = Some (r, h) /\ r <> 0 /\
    exists h' A', kfree r h = Some h' /\ heap_ok h' A' [] P /\ pages h' = pages h /\
      (forall x, bytes A' x <-> bytes A x \/ r <= x < r + 100) /\ drift h' A' [] = drift h A [(k, (r, 100))].
Proof.
  destruct ex_used as (r & h & A & k & P & E & Hr & Hh). exists r, h, A, k, P. split; [exact E|]. split; [exact Hr|].
  apply (kfree_gives_back h A [] k r 100 [] P Hh).
Defined.

Lemma kfree_unknown_witness : kfree 0x100001 ex_heap = Some ex_heap.
Proof. apply (kfree_unknown ex_heap [] [] []); [apply ex_heap_ok|]. by intros k b t ?%elem_of_nil. Defined.

Lemma kmalloc_kfree_witness :
  exists r h1 h2 A2 P2, kmalloc 100 ex_heap = Some (r, h1) /\ kfree r h1 = Some h2 /\ heap_ok h2 A2 [] P2 /\
    (forall x, held h2 A2 [] P2 x <-> held ex_heap [] [] [] x) /\ drift h2 A2 [] = drift ex_heap [] [].
Proof.
  destruct ex_used as (r & h & _ & _ & _ & E & Hr & _). exists r, h.
  destruct (kmalloc_kfree ex_heap [] [] [] 100 r h) as (h2 & A2 & P2 & H); [apply ex_heap_ok|unfold MALLOC_MAX; lia|exact E|exact Hr|]. exists h2, A2, P2. exact (conj E H).
Defined.

(** With one free page the page goes to the block, none is left for the node: [NULL],
    and [kmcount] counts a node that was not made. *)
Example kmcount_counts_no_node :
  match kmalloc 100 (mk_heap 0 ∅ (mk_lists ∅ 0 0) 0 (ex_core 1)) with
  | Some (r, h) => r = 0 /\ nodes (lists h) = ∅ /\ kmcount (lists h) = 1
  | None => False
  end.
Proof. vm_compute. done. Qed.

End Kmalloc.
