(* ===== verification/KernelHeap.v ===== *)
(** What the address spaces see of the kernel's memory: [kmalloc] and [kfree] for
    their records, [core_alloc], [core_alloc_n] and [core_free] for tables and
    pages ([src/base/vmmap.c]).  The class states the contract; the instance is the
    kernel heap of Kmalloc.v over the page allocator of CoreAlloc.v. *)
From S2P Require Import Prelude CoreAlloc MemList Kmalloc.

Module KernelHeap.
Import CoreAlloc Pages MemList.

(** The frames of a run, and of several runs in order. *)
Definition run_frames (ch : core_header) : list Z := (fun i => phys_addr ch + 4096 * i) <$> seqZ 0 (no_blocks ch).
Definition frames (chs : list core_header) : list Z := concat (run_frames <$> chs).

(** [heap_inv h U R]: the heap is well formed, [U] are the blocks in use with their
    sizes, and the frames of [R] were taken and belong to nobody else. *)
Class KernelHeap (H : Type) := {
  kmalloc : Z -> H -> option (Z * H);
  kfree : Z -> H -> option H;
  core_alloc : Z -> H -> option (core_header * H);
  core_alloc_n : Z -> Z -> H -> option (Z * list core_header * H);
  core_free : core_header -> H -> option H;
  heap_inv : H -> gmap Z Z -> gset Z -> Prop;
  frame_range h U R p : heap_inv h U R -> p ∈ R -> p mod 4096 = 0 /\ 0 < p /\ p + 4096 <= HOLE_MAX;
  kmalloc_law h U R n : heap_inv h U R -> 0 < n <= Kmalloc.MALLOC_MAX ->
    exists r h', kmalloc n h = Some (r, h') /\ (r = 0 /\ heap_inv h' U R \/ (0 < r /\ U !! r = None /\ heap_inv h' (<[r := n]> U) R));
  kfree_law h U R a : heap_inv h U R -> is_Some (U !! a) -> exists h', kfree a h = Some h' /\ heap_inv h' (delete a U) R;
  core_alloc_law h U R n : heap_inv h U R -> 1 <= n < 2 ^ 30 ->
    exists ch h', core_alloc n h = Some (ch, h') /\ 0 <= no_blocks ch <= n /\ (forall p, p ∈ run_frames ch -> p ∉ R) /\ heap_inv h' U (R ∪ list_to_set (run_frames ch));
  core_alloc_n_law h U R n m : heap_inv h U R -> 0 <= n < 2 ^ 30 ->
    exists r chs h', core_alloc_n n m h = Some (r, chs, h') /\ heap_inv h' U (R ∪ list_to_set (frames chs)) /\
      ((r = ENOMEM /\ chs = []) \/
       (r = zlen chs /\ total chs = n /\ (forall ch, ch ∈ chs -> 0 < no_blocks ch) /\ NoDup (frames chs) /\ (forall p, p ∈ frames chs -> p ∉ R)));
  core_free_law h U R ch : heap_inv h U R -> 0 < no_blocks ch -> (forall p, p ∈ run_frames ch -> p ∈ R) ->
    exists h', core_free ch h = Some h' /\ heap_inv h' U (R ∖ list_to_set (run_frames ch)) }.

Lemma run_frames_elem ch p : p ∈ run_frames ch <-> exists i, 0 <= i < no_blocks ch /\ p = phys_addr ch + 4096 * i.
Proof.
  unfold run_frames. rewrite list_elem_of_fmap. split.
  - intros (i & -> & Hi%elem_of_seqZ). exists i. split; [lia|done].
  - intros (i & Hi & ->). exists i. split; [done|]. apply elem_of_seqZ. lia.
Qed.
Lemma run_frames_nodup ch : NoDup (run_frames ch).
Proof. apply NoDup_fmap_2; [intros ? ? ?; lia|apply NoDup_seqZ]. Qed.
Lemma frames_cons ch chs : frames (ch :: chs) = run_frames ch ++ frames chs.
Proof. done. Qed.
Lemma frames_elem chs p : p ∈ frames chs <-> exists ch, ch ∈ chs /\ p ∈ run_frames ch.
Proof.
  induction chs as [|ch chs IH]; [split; [by intros ?%elem_of_nil|by intros (? & ?%elem_of_nil & _)]|].
  rewrite frames_cons, elem_of_app, IH. split.
  - intros [?|(c & ? & ?)]; [exists ch; split; [by left|done]|exists c; split; [by right|done]].
  - intros (c & [->|?]%elem_of_cons & ?); [by left|right; eauto].
Qed.

(** * The kernel's own heap *)

Section Instance_.
Context (segs : list ram_segment).
Hypothesis low_ram : Forall (fun sg => seg_type sg = 1 -> u32 (base_addr sg + seg_length sg) < HOLE_MAX) segs.
#[local] Instance seg_pages : PageAlloc core := core_pages segs low_ram.
Implicit Types (h : Kmalloc.heap core) (R : gset Z).

Definition blocks_are (U : gmap Z Z) (Up : list piece) : Prop := forall a n, U !! a = Some n <-> exists k, (k, (a, n)) ∈ Up.
Definition frame_ok (x : Z -> Prop) (p : Z) : Prop := p mod 4096 = 0 /\ 0 < p /\ forall y, p <= y < p + 4096 -> in_ram segs y /\ ~ x y.
Definition real_inv (h : Kmalloc.heap core) (U : gmap Z Z) (R : gset Z) : Prop :=
  exists A Up P, Kmalloc.heap_ok h A Up P /\ blocks_are U Up /\ forall p, p ∈ R -> frame_ok (Kmalloc.held h A Up P) p.

Lemma frame_ok_sub (x y : Z -> Prop) p : (forall z, y z -> x z) -> frame_ok x p -> frame_ok y p.
Proof. intros Hs (? & ? & Hp). split; [done|]. split; [done|]. intros z Hz. destruct (Hp z Hz). auto. Qed.

Lemma ram_limit x : in_ram segs x -> x < HOLE_MAX.
Proof. intros (sg & Hin & Ht & Hx). rewrite Forall_forall in low_ram. specialize (low_ram sg Hin Ht). lia. Qed.

Lemma real_frame_range h U R p : real_inv h U R -> p ∈ R -> p mod 4096 = 0 /\ 0 < p /\ p + 4096 <= HOLE_MAX.
Proof.
  intros (A & Up & P & _ & _ & HR) Hp. destruct (HR p Hp) as (Ha & H0 & Hx). split; [done|]. split; [done|].
  destruct (Hx (p + 4095)) as [Hr _]; [lia|]. apply ram_limit in Hr. lia.
Qed.

Lemma apart_unique l k a n k' n' : Kmalloc.apart ((k, (a, n)) :: l) -> (k', (a, n')) ∈ l -> False.
Proof.
  cbn [Kmalloc.apart]. intros ((? & ? & ?) & Hd & Hap) Hin. destruct (Kmalloc.apart_elem _ _ _ _ Hap Hin).
  apply (Hd a); [lia|]. exists k', a, n'. split; [done|lia].
Qed.

Lemma blocks_insert U Up k r n : Kmalloc.apart ((k, (r, n)) :: Up) -> blocks_are U Up -> U !! r = None /\ blocks_are (<[r := n]> U) ((k, (r, n)) :: Up).
Proof.
  intros Hap Hb. split.
  - destruct (U !! r) as [n'|] eqn:E; [|done]. apply Hb in E as (k' & Hin). destruct (apart_unique _ _ _ _ _ _ Hap Hin).
  - intros a m. destruct (decide (a = r)) as [->|Hne].
    + rewrite lookup_insert_eq. split.
      * intros [= <-]. exists k. by left.
      * intros (k' & [[= -> ->]|Hin]%elem_of_cons); [done|]. destruct (apart_unique _ _ _ _ _ _ Hap Hin).
    + rewrite lookup_insert_ne by done. rewrite (Hb a m). split; intros (k' & Hin); exists k'; [by right|].
      apply elem_of_cons in Hin as [[= -> -> ->]|?]; done.
Qed.

Lemma apart_perm_unique U1 U2 k a n k' n' : Kmalloc.apart (U1 ++ (k, (a, n)) :: U2) -> (k', (a, n')) ∈ U1 ++ U2 -> False.
Proof.
  intros Hap [Hin|Hin]%elem_of_app.
  - apply Kmalloc.apart_app in Hap as (H1 & H2 & Hd). destruct (Kmalloc.apart_elem _ _ _ _ H1 Hin) as (? & ? & ?).
    destruct H2 as ((? & ? & ?) & _). apply (Hd a); [exists k', a, n'; split; [done|lia]|]. rewrite bytes_cons. left. lia.
  - apply Kmalloc.apart_app in Hap as (_ & H2 & _). by eapply apart_unique.
Qed.

Lemma blocks_delete U U1 U2 k a n :
  Kmalloc.apart (U1 ++ (k, (a, n)) :: U2) -> blocks_are U (U1 ++ (k, (a, n)) :: U2) -> blocks_are (delete a U) (U1 ++ U2).
Proof.
  intros Hap Hb b m. destruct (decide (b = a)) as [->|Hne].
  - rewrite lookup_delete_eq. split; [done|]. intros (k' & Hin). by destruct (apart_perm_unique _ _ _ _ _ _ _ Hap Hin).
  - rewrite lookup_delete_ne by done. rewrite (Hb b m). split; intros (k' & Hin); exists k'.
    + apply elem_of_app in Hin as [?|[[= -> -> ->]|?]%elem_of_cons]; [apply elem_of_app; by left|done|apply elem_of_app; by right].
    + apply elem_of_app in Hin as [?|?]; apply elem_of_app; [by left|right; by right].
Qed.

Lemma real_kmalloc h U R n : real_inv h U R -> 0 < n <= Kmalloc.MALLOC_MAX ->
  exists r h', Kmalloc.kmalloc n h = Some (r, h') /\ (r = 0 /\ real_inv h' U R \/ (0 < r /\ U !! r = None /\ real_inv h' (<[r := n]> U) R)).
Proof.
  intros (A & Up & P & Hh & Hb & HR) Hn. destruct (Kmalloc.kmalloc_spec h A Up P n Hh Hn) as (r & h' & A' & U' & P' & E & Hh' & Hheld & Hres).
  exists r, h'. split; [done|]. assert (forall p, p ∈ R -> frame_ok (Kmalloc.held h' A' U' P') p) as HR' by (intros p Hp; eapply frame_ok_sub; [|by apply HR]; intros z; apply Hheld).
  destruct Hres as [(Hr & (k & ->) & _)|(-> & -> & _)]; [right|left; split; [done|]; by exists A', Up, P'].
  pose proof (Kmalloc.ok_apart _ _ _ _ Hh') as Hap. destruct (blocks_insert U Up k r n Hap Hb) as [H1 H2].
  split; [destruct Hap as ((? & _) & _); done|]. split; [done|]. by exists A', ((k, (r, n)) :: Up), P'.
Qed.

Lemma real_kfree h U R a : real_inv h U R -> is_Some (U !! a) -> exists h', Kmalloc.kfree a h = Some h' /\ real_inv h' (delete a U) R.
Proof.
  intros (A & Up & P & Hh & Hb & HR) [n (k & Hin)%Hb]. apply list_elem_of_split in Hin as (U1 & U2 & ->).
  destruct (Kmalloc.kfree_spec h A U1 k a n U2 P Hh) as (h' & E & Hh' & Epg & Hby & _). exists h'. split; [done|].
  exists (ins k a n A), (U1 ++ U2), P. split; [done|]. split; [by apply (blocks_delete U U1 U2 k a n); [apply Hh|]|].
  intros p Hp. eapply frame_ok_sub; [|by apply HR]. intros z. unfold Kmalloc.held. rewrite Epg, Hby, !bytes_app, bytes_cons. tauto.
Qed.

(** The part of a heap that pages can be taken from, by its bytes. *)
Lemma heap_core h A Up P : Kmalloc.heap_ok h A Up P -> core_pages_ok segs (Kmalloc.pages h).
Proof. intros Hh. apply (Kmalloc.ok_core _ _ _ _ Hh). Qed.

(** Taking [taken] bytes out of the free pages keeps the heap. *)
Lemma take_pages h A Up P U R c (taken : Z -> Prop) (F : list Z) :
  Kmalloc.heap_ok h A Up P -> blocks_are U Up -> (forall p, p ∈ R -> frame_ok (Kmalloc.held h A Up P) p) -> core_pages_ok segs c ->
  (forall x, core_is_free (Kmalloc.pages h) x <-> core_is_free c x \/ taken x) -> (forall x, taken x -> ~ core_is_free c x) ->
  (forall p, p ∈ F -> p mod 4096 = 0 /\ 0 < p /\ forall y, p <= y < p + 4096 -> in_ram segs y /\ taken y) ->
  real_inv (Kmalloc.set_core c h) U (R ∪ list_to_set F) /\ forall p, p ∈ F -> p ∉ R.
Proof.
  intros Hh Hb HR Hc Hf Hnf HF. split.
  - exists A, Up, P. split; [apply Kmalloc.core_change; [done|done|]; intros x Hx; apply (Hf x); by left|]. split; [done|].
    intros p [Hp|Hp]%elem_of_union.
    + eapply frame_ok_sub; [|by apply HR]. intros z. unfold Kmalloc.held. simpl. rewrite (Hf z). tauto.
    + apply elem_of_list_to_set in Hp. destruct (HF p Hp) as (? & ? & Hy). split; [done|]. split; [done|]. intros y Hyr. destruct (Hy y Hyr) as [? Ht]. split; [done|].
      pose proof (Kmalloc.ok_owner _ _ _ _ Hh y) as Hex. pose proof (Hnf y Ht) as Hn. assert (core_is_free (Kmalloc.pages h) y) as Hfr by (apply Hf; by right).
      unfold Kmalloc.held, Kmalloc.exclusive in *. simpl in *. tauto.
  - intros p Hp HpR. destruct (HF p Hp) as (_ & _ & Hy). destruct (Hy p) as [_ Ht]; [lia|]. destruct (HR p HpR) as (_ & _ & Hx). destruct (Hx p) as [_ Hn]; [lia|].
    apply Hn. unfold Kmalloc.held. do 3 right. apply Hf. by right.
Qed.

Lemma run_frames_bytes ch p y : p ∈ run_frames ch -> p <= y < p + 4096 -> in_run ch y.
Proof. intros (i & Hi & ->)%run_frames_elem Hy. unfold in_run. lia. Qed.

(** The frames of a run of the allocator. *)
Lemma run_frames_ok ch p : core_is_run segs ch -> p ∈ run_frames ch ->
  p mod 4096 = 0 /\ 0 < p /\ forall y, p <= y < p + 4096 -> in_ram segs y /\ in_run ch y.
Proof.
  intros ((_ & H0 & _) & Ha & Hr) Hp. pose proof (run_frames_bytes ch p) as Hb. split; [|split].
  - apply run_frames_elem in Hp as (i & Hi & ->). Z.div_mod_to_equations; lia.
  - apply run_frames_elem in Hp as (i & Hi & ->). lia.
  - intros y Hy. specialize (Hb y Hp Hy). auto.
Qed.

Lemma real_core_alloc h U R n : real_inv h U R -> 1 <= n < 2 ^ 30 ->
  exists ch h', ('(ch, c) ← CoreAlloc.core_alloc n (Kmalloc.pages h); Some (ch, Kmalloc.set_core c h)) = Some (ch, h') /\ 0 <= no_blocks ch <= n /\
    (forall p, p ∈ run_frames ch -> p ∉ R) /\ real_inv h' U (R ∪ list_to_set (run_frames ch)).
Proof.
  intros (A & Up & P & Hh & Hb & HR) Hn. destruct (core_pages_alloc segs (Kmalloc.pages h) n) as (ch & c & E & Hc & Hnb & Hrun & Hf & Hnf & _); [by eapply heap_core|done|].
  rewrite E. cbn [mbind option_bind]. exists ch, (Kmalloc.set_core c h). split; [done|]. split; [done|].
  destruct (take_pages h A Up P U R c (in_run ch) (run_frames ch)) as [H1 H2]; auto.
  intros p Hp. apply run_frames_ok; [|done]. apply Hrun. apply run_frames_elem in Hp as (i & Hi & _). lia.
Qed.

(** * Several runs *)

(** Runs apart from each other and from the free pages. *)
Fixpoint taken_runs (chs : list core_header) (c : core) : Prop :=
  match chs with
  | [] => True
  | ch :: chs' => core_is_run segs ch /\ (forall x, in_run ch x -> ~ core_is_free c x /\ ~ in_runs chs' x) /\ taken_runs chs' c
  end.

Lemma taken_mono chs c c' : taken_runs chs c -> (forall x, core_is_free c' x -> core_is_free c x \/ ~ in_runs chs x) -> taken_runs chs c'.
Proof.
  induction chs as [|ch chs IH]; simpl; [done|]. intros (H1 & H2 & H3) Hf. split; [done|]. split.
  - intros x Hx. destruct (H2 x Hx) as [Hn Hr]. split; [|done]. intros Hx'. destruct (Hf x Hx') as [?|Hn']; [done|]. apply Hn'. apply in_runs_cons. by left.
  - apply IH; [done|]. intros x Hx. destruct (Hf x Hx) as [?|Hn]; [by left|right]. rewrite in_runs_cons in Hn. tauto.
Qed.

Lemma free_all_pages chs c :
  core_pages_ok segs c -> taken_runs chs c ->
  exists c', free_all segs chs c = Some c' /\ core_pages_ok segs c' /\ forall x, core_is_free c' x <-> core_is_free c x \/ in_runs chs x.
Proof.
  revert c. induction chs as [|ch chs IH]; intros c Hc Ht; cbn [free_all].
  - exists c. split; [done|]. split; [done|]. intros x. split; [by left|]. intros [?|(? & E & _)]; [done|by apply elem_of_nil in E].
  - destruct Ht as (H1 & H2 & H3). destruct (core_pages_free segs c ch Hc H1) as (c1 & -> & Hc1 & Hf1); [intros x Hx; by apply H2|].
    cbn [mbind option_bind]. destruct (IH c1 Hc1) as (c' & -> & Hc' & Hf').
    { eapply taken_mono; [exact H3|]. intros x Hx. apply Hf1 in Hx as [?|Hx]; [by left|right; by apply H2]. }
    exists c'. split; [done|]. split; [done|]. intros x. rewrite Hf', Hf1, in_runs_cons. tauto.
Qed.

(** A failed request gives everything back. *)
Lemma give_back_runs acc c c0 :
  core_pages_ok segs c -> taken_runs acc c -> (forall x, core_is_free c0 x <-> core_is_free c x \/ in_runs acc x) ->
  exists c', free_all segs acc c = Some c' /\ core_pages_ok segs c' /\ forall x, core_is_free c0 x <-> core_is_free c' x \/ in_runs [] x.
Proof.
  intros Hc Ht Hf. destruct (free_all_pages acc c Hc Ht) as (c' & E & Hc' & Hf'). exists c'. split; [done|]. split; [done|]. intros x. rewrite Hf, Hf'.
  split; [by left|]. intros [?|(? & En%elem_of_nil & _)]; done.
Qed.

Lemma alloc_n_pages room n acc c c0 :
  core_pages_ok segs c -> n < 2 ^ 30 -> taken_runs acc c -> 0 <= n -> (forall x, core_is_free c0 x <-> core_is_free c x \/ in_runs acc x) ->
  exists r chs c', alloc_n_loop segs room n acc c = Some (r, chs, c') /\ core_pages_ok segs c' /\ taken_runs chs c' /\
    (forall x, core_is_free c0 x <-> core_is_free c' x \/ in_runs chs x) /\ ((r = ENOMEM /\ chs = []) \/ (r = zlen chs /\ total chs = total acc + n)).
Proof.
  revert n acc c. induction room as [|room IH]; intros n acc c Hc Hn Ht H0 Hf; cbn [alloc_n_loop];
    (destruct (Z.leb_spec n 0); [exists (zlen acc), acc, c; split; [done|]; split; [done|]; split; [done|]; split; [done|]; right; split; [done|lia]|]).
  - destruct (give_back_runs acc c c0) as (cb & -> & Hcb & Hfb); auto. cbn [mbind option_bind]. exists ENOMEM, [], cb. by split_and!; [..|left].
  - destruct (core_pages_alloc segs c n Hc) as (ch & c1 & -> & Hc1 & Hnb & Hrun & Hf1 & Hnf & _); [lia|]. cbn [mbind option_bind].
    destruct (Z.eqb_spec (no_blocks ch) 0) as [Ez|Hnz].
    { assert (forall x, core_is_free c x <-> core_is_free c1 x) as Hsame by (intros x; rewrite Hf1; unfold in_run; rewrite Ez; split; [intros [?|?]; [done|lia]|by left]).
      destruct (give_back_runs acc c1 c0) as (cb & -> & Hcb & Hfb); auto; [eapply taken_mono; [exact Ht|]; intros x Hx; left; by apply Hsame|intros x; by rewrite Hf, Hsame|].
      cbn [mbind option_bind]. exists ENOMEM, [], cb. by split_and!; [..|left]. }
    rewrite s32_id by lia.
    destruct (IH (n - no_blocks ch) (ch :: acc) c1) as (r & chs & c' & E & Hc' & Ht' & Hf' & Hres); auto; try lia.
    + split; [apply Hrun; lia|]. split; [|eapply taken_mono; [exact Ht|]; intros x Hx; left; apply Hf1; by left].
      intros x Hx. split; [by apply Hnf|]. assert (core_is_free c x) as Hfx by (apply Hf1; by right). clear -Ht Hfx. induction acc as [|c0 acc IH]; [by intros (? & En%elem_of_nil & _)|].
      destruct Ht as (_ & H2 & H3). rewrite in_runs_cons. intros [Hx|Hx]; [by destruct (H2 x Hx)|by apply IH].
    + intros x. rewrite Hf, Hf1, in_runs_cons. tauto.
    + exists r, chs, c'. split_and!; auto. destruct Hres as [?|[-> Hr]]; [by left|right]. split; [done|]. simpl in Hr. lia.
Qed.

Lemma taken_frames chs c : taken_runs chs c -> NoDup (frames chs) /\ (forall ch, ch ∈ chs -> core_is_run segs ch).
Proof.
  induction chs as [|ch chs IH]; [split; [constructor|by intros ? ?%elem_of_nil]|]. intros (H1 & H2 & H3). destruct (IH H3) as [Hnd Hr]. split.
  - rewrite frames_cons. apply NoDup_app. split; [apply run_frames_nodup|]. split; [|done]. intros p Hp (ch' & Hch & Hp')%frames_elem.
    destruct (H2 p) as [_ Hn]; [apply (run_frames_bytes ch p); [done|lia]|]. apply Hn. exists ch'. split; [done|]. apply (run_frames_bytes ch' p); [done|lia].
  - intros c' [->|?]%elem_of_cons; auto.
Qed.

Lemma real_core_alloc_n h U R n m : real_inv h U R -> 0 <= n < 2 ^ 30 ->
  exists r chs h', ('(r, chs, c) ← CoreAlloc.core_alloc_n segs n m (Kmalloc.pages h); Some (r, chs, Kmalloc.set_core c h)) = Some (r, chs, h') /\
    real_inv h' U (R ∪ list_to_set (frames chs)) /\
    ((r = ENOMEM /\ chs = []) \/
     (r = zlen chs /\ total chs = n /\ (forall ch, ch ∈ chs -> 0 < no_blocks ch) /\ NoDup (frames chs) /\ (forall p, p ∈ frames chs -> p ∉ R))).
Proof.
  intros (A & Up & P & Hh & Hb & HR) Hn. unfold CoreAlloc.core_alloc_n.
  destruct (alloc_n_pages (Z.to_nat m) n [] (Kmalloc.pages h) (Kmalloc.pages h)) as (r & chs & c & E & Hc & Ht & Hf & Hres); [by eapply heap_core|lia|done|lia| |].
  { intros x. split; [by left|]. intros [?|(? & En%elem_of_nil & _)]; done. }
  destruct (taken_frames chs c Ht) as [Hnd Hrun].
  destruct (take_pages h A Up P U R c (in_runs chs) (frames chs)) as [H1 H2]; auto.
  { intros x (ch & Hin & Hx). clear -Ht Hin Hx. induction chs as [|c0 chs IH]; [by apply elem_of_nil in Hin|]. destruct Ht as (_ & H2 & H3).
    apply elem_of_cons in Hin as [->|Hin]; [by apply H2|by apply IH]. }
  { intros p (ch & Hin & Hp)%frames_elem. destruct (run_frames_ok ch p (Hrun ch Hin) Hp) as (? & ? & Hy). split; [done|]. split; [done|].
    intros y Hyr. destruct (Hy y Hyr). split; [done|]. by exists ch. }
  rewrite E. cbn [mbind option_bind]. exists r, chs, (Kmalloc.set_core c h). split; [done|]. split; [done|].
  destruct Hres as [?|[-> Hto]]; [by left|right]. simpl in Hto. split_and!; auto. intros ch Hin. destruct (Hrun ch Hin) as ((_ & _ & ? & _) & _). done.
Qed.

Lemma real_core_free h U R ch : real_inv h U R -> 0 < no_blocks ch -> (forall p, p ∈ run_frames ch -> p ∈ R) ->
  exists h', (c ← CoreAlloc.core_free segs ch (Kmalloc.pages h); Some (Kmalloc.set_core c h)) = Some h' /\ real_inv h' U (R ∖ list_to_set (run_frames ch)).
Proof.
  intros (A & Up & P & Hh & Hb & HR) Hnb HF.
  assert (forall x, in_run ch x -> in_ram segs x /\ ~ Kmalloc.held h A Up P x) as Hx.
  { intros x Hx. unfold in_run in Hx. destruct (HR (phys_addr ch + 4096 * ((x - phys_addr ch) / 4096))) as (_ & _ & Hy).
    - apply HF. apply run_frames_elem. exists ((x - phys_addr ch) / 4096). split; [Z.div_mod_to_equations; lia|done].
    - apply Hy. Z.div_mod_to_equations; lia. }
  destruct (HR (phys_addr ch)) as (Ha & H0 & _); [apply HF, run_frames_elem; exists 0; split; [lia|lia]|].
  assert (core_is_run segs ch) as Hrun.
  { split; [|split; [done|intros x Hi; by apply Hx]]. split; [|split; [done|split; [done|]]].
    - destruct (Hx (phys_addr ch)) as [(sg & Hin & Hty & Hlo) _]; [unfold in_run; lia|]. unfold is_valid_block. destruct (Z.leb_spec (no_blocks ch) 0); [lia|]. simpl.
      apply existsb_exists. exists sg. split; [by apply list_elem_of_In|]. rewrite Hty, Z.eqb_refl. simpl. rewrite andb_true_iff, !Z.leb_le. done.
    - destruct (Hx (phys_addr ch + 4096 * no_blocks ch - 1)) as [Hr%ram_limit _]; [unfold in_run; lia|]. unfold HOLE_MAX in Hr. lia. }
  destruct (Kmalloc.core_returned h A Up P ch Hh Hrun) as (c & E & Hh' & Hheld); [intros x Hi; by apply Hx|]. simpl in E. rewrite E. cbn [mbind option_bind].
  exists (Kmalloc.set_core c h). split; [done|]. exists A, Up, P. split; [done|]. split; [done|]. intros p [Hp Hn]%elem_of_difference.
  destruct (HR p Hp) as (Hpa & Hp0 & Hpy). split; [done|]. split; [done|]. intros y Hy. destruct (Hpy y Hy) as [? Hnh]. split; [done|]. intros Hy'. apply Hheld in Hy' as [?|Hin]; [done|].
  apply Hn. apply elem_of_list_to_set, run_frames_elem. unfold in_run in Hin. exists ((p - phys_addr ch) / 4096). Z.div_mod_to_equations; lia.
Qed.

#[export] Instance real_heap : KernelHeap (Kmalloc.heap core) :=
  {| kmalloc := Kmalloc.kmalloc; kfree := Kmalloc.kfree;
     core_alloc n h := '(ch, c) ← CoreAlloc.core_alloc n (Kmalloc.pages h); Some (ch, Kmalloc.set_core c h);
     core_alloc_n n m h := '(r, chs, c) ← CoreAlloc.core_alloc_n segs n m (Kmalloc.pages h); Some (r, chs, Kmalloc.set_core c h);
     core_free ch h := c ← CoreAlloc.core_free segs ch (Kmalloc.pages h); Some (Kmalloc.set_core c h);
     heap_inv := real_inv; frame_range := real_frame_range; kmalloc_law := real_kmalloc; kfree_law := real_kfree; core_alloc_law := real_core_alloc;
     core_alloc_n_law := real_core_alloc_n; core_free_law := real_core_free |}.

End Instance_.
End KernelHeap.
