(* ===== verification/Paging.v ===== *)
(** Page tables, address translation and copying between address spaces
    ([src/base/vmmap.c], the functions on page directories).  Physical memory is
    bytes; a directory or a table is 1024 words in it, so that a copy that hits
    a page table changes the translation.  What the processor does with the
    tables is [walk]; [clear_paging] and [restore_paging] around an operation
    mean that its pointers are physical addresses. *)
From S2P Require Import Prelude CoreAlloc.

Module Paging.
Import CoreAlloc.

(** * Physical memory *)

Abbreviation mem := (gmap Z Z).
Definition ld8 (m : mem) (a : Z) : Z := u8 (default 0 (m !! a)).
Definition st8 (m : mem) (a v : Z) : mem := <[a := u8 v]> m.
Definition ld32 (m : mem) (a : Z) : Z := ld8 m a + 2 ^ 8 * ld8 m (a + 1) + 2 ^ 16 * ld8 m (a + 2) + 2 ^ 24 * ld8 m (a + 3).
Definition st32 (m : mem) (a v : Z) : mem :=
  st8 (st8 (st8 (st8 m a v) (a + 1) (Z.shiftr v 8)) (a + 2) (Z.shiftr v 16)) (a + 3) (Z.shiftr v 24).

(** [bzero] of [klib.asm] with paging off. *)
Fixpoint fill_zero (n : nat) (a : Z) (m : mem) : mem :=
  match n with O => m | S n => fill_zero n (a + 1) (st8 m a 0) end.
Definition bzero (a n : Z) (m : mem) : mem := fill_zero (Z.to_nat (u32 n)) a m.

(** * Entries *)

Definition KERNEL_MEMMAP : Z := 0x20000000.
Definition PDE_SHIFT : Z := 22.

(** A bit field of [n] bits from bit [lo] up. *)
Definition field (w lo n : Z) : Z := Z.land (Z.shiftr w lo) (Z.ones n).

(** The structures [PDE] and [PTE]; the two differ in the bits 6 and 7. *)
Record PDE := mk_PDE { pd_present : Z; pd_read_write : Z; pd_user : Z; pd_write_through : Z; pd_cache_disable : Z; pd_accessed : Z;
  pd_reserved : Z; page_4MB : Z; pd_global : Z; pd_available : Z; page_table_base_addr : Z }.
Record PTE := mk_PTE { present : Z; read_write : Z; user : Z; write_through : Z; cache_disable : Z; accessed : Z;
  dirty : Z; reserved : Z; global : Z; available : Z; page_base_addr : Z }.

Definition pde_of_word (w : Z) : PDE :=
  mk_PDE (field w 0 1) (field w 1 1) (field w 2 1) (field w 3 1) (field w 4 1) (field w 5 1) (field w 6 1) (field w 7 1) (field w 8 1)
    (field w 9 3) (field w 12 20).
Definition pte_of_word (w : Z) : PTE :=
  mk_PTE (field w 0 1) (field w 1 1) (field w 2 1) (field w 3 1) (field w 4 1) (field w 5 1) (field w 6 1) (field w 7 1) (field w 8 1)
    (field w 9 3) (field w 12 20).

(** A store into a bit field keeps the low bits of the value. *)
Definition word_of_fields (b0 b1 b2 b3 b4 b5 b6 b7 b8 avl base : Z) : Z :=
  b0 mod 2 + 2 * (b1 mod 2) + 4 * (b2 mod 2) + 8 * (b3 mod 2) + 16 * (b4 mod 2) + 32 * (b5 mod 2) + 64 * (b6 mod 2) + 128 * (b7 mod 2) +
  256 * (b8 mod 2) + 512 * (avl mod 8) + 4096 * (base mod 2 ^ 20).
Definition word_of_pde (e : PDE) : Z :=
  word_of_fields (pd_present e) (pd_read_write e) (pd_user e) (pd_write_through e) (pd_cache_disable e) (pd_accessed e) (pd_reserved e)
    (page_4MB e) (pd_global e) (pd_available e) (page_table_base_addr e).
Definition word_of_pte (e : PTE) : Z :=
  word_of_fields (present e) (read_write e) (user e) (write_through e) (cache_disable e) (accessed e) (dirty e) (reserved e) (global e)
    (available e) (page_base_addr e).

(** [entry[i]] of the directory or table at an address. *)
Definition entry_at (t i : Z) : Z := u32 (t + 4 * i).
Definition get_pde (m : mem) (pd i : Z) : PDE := pde_of_word (ld32 m (entry_at pd i)).
Definition get_pte (m : mem) (pt i : Z) : PTE := pte_of_word (ld32 m (entry_at pt i)).
Definition put_pde (m : mem) (pd i : Z) (e : PDE) : mem := st32 m (entry_at pd i) (word_of_pde e).
Definition put_pte (m : mem) (pt i : Z) (e : PTE) : mem := st32 m (entry_at pt i) (word_of_pte e).

Definition make_PDE (pd i addr avail rw present global : Z) (m : mem) : mem :=
  put_pde m pd i (mk_PDE present rw (if global =? 1 then 0 else 1) 1 1 0 0 0 global avail addr).
Definition make_PTE (pt i addr avail rw present global : Z) (m : mem) : mem :=
  put_pte m pt i (mk_PTE present rw (if global =? 1 then 0 else 1) 1 1 0 0 0 global avail addr).

Fixpoint make_entries (n : nat) (pt i addr attr rw present global : Z) (m : mem) : mem :=
  match n with
  | O => m
  | S n => make_entries n pt (i + 1) (u32 (addr + 1)) attr rw present global (make_PTE pt i addr attr rw present global m)
  end.
Definition make_page_table (pt start_index nentries shifted_phys_address attr rw present global : Z) (m : mem) : mem :=
  make_entries (Z.to_nat nentries) pt start_index shifted_phys_address attr rw present global m.

(** * Translation *)

(** What the processor does with the directory in [cr3]; [None] is a fault. *)
Definition walk (m : mem) (cr3 a : Z) : option Z :=
  let d := get_pde m cr3 (field a 22 10) in
  if pd_present d =? 0 then None else
  let e := get_pte m (Z.shiftl (page_table_base_addr d) 12) (field a 12 10) in
  if present e =? 0 then None else
  Some (Z.lor (Z.shiftl (page_base_addr e) 12) (Z.land a 0xfff)).

(** The table for an address, 0 if the directory has none: the functions below
    read the table at 0 then. *)
Definition table_of (m : mem) (pd a : Z) : Z := Z.shiftl (page_table_base_addr (get_pde m pd (Z.land (Z.shiftr a PDE_SHIFT) 0x3ff))) 12.
Definition entry_of (m : mem) (pd a : Z) : PTE := get_pte m (table_of m pd a) (Z.land (Z.shiftr a 12) 0x3ff).

(** [page_in] only prints a message. *)
Definition page_in (pd pgno : Z) : Z := -1.
Definition lock_page (m : mem) (pd logaddr : Z) : Z :=
  if negb (present (entry_of m pd logaddr) =? 1) then
    if negb (page_in pd (Z.land (Z.shiftr logaddr 12) 0x000fffff) =? 0) then -1 else 0
  else 0.
(** [unlock_page] only computes the address of the entry. *)
Definition unlock_page (m : mem) (pd logaddr : Z) : Z := 0.

Definition logical2physical (m : mem) (pd logicaladdr : Z) : Z :=
  let e := entry_of m pd logicaladdr in
  if present e =? 1 then Z.lor (Z.shiftl (page_base_addr e) 12) (Z.land logicaladdr 0xfff) else 0.

(** [vm_getptentry]: the address of the entry, 0 without a table. *)
Definition vm_getptentry (m : mem) (pd lpage : Z) : Z :=
  let pt := Z.shiftl (page_table_base_addr (get_pde m pd (Z.land (Z.shiftr lpage 10) 0x3ff))) 12 in
  if negb (pt =? 0) then entry_at pt (Z.land lpage 0x3ff) else 0.
Definition vm_getpdentry (pd lpage : Z) : Z := entry_at pd (Z.land (Z.shiftr lpage 10) 0x3ff).

(** [vm_setattr]; an argument that is [None] is a null pointer. *)
Definition vm_setattr (m : mem) (pd lpage : Z) (avail rw pres glob acc dirt : option Z) : Z * mem :=
  let p := vm_getptentry m pd lpage in
  if negb (p =? 0) then
    let e := pte_of_word (ld32 m p) in
    let e' := mk_PTE (default (present e) pres) (default (read_write e) rw) (user e) (write_through e) (cache_disable e)
                (default (accessed e) acc) (default (dirty e) dirt) (reserved e) (default (global e) glob) (default (available e) avail)
                (page_base_addr e) in
    (0, st32 m p (word_of_pte e'))
  else (-1, m).

(** * Copying with paging on *)

(** [rep movsb] of [bcopy]: both addresses of every byte are translated. *)
Fixpoint movsb (cr3 : Z) (n : nat) (src dst : Z) (m : mem) : option mem :=
  match n with
  | O => Some m
  | S n =>
      a ← walk m cr3 src; b ← walk m cr3 dst;
      movsb cr3 n (u32 (src + 1)) (u32 (dst + 1)) (st8 m b (ld8 m a))
  end.
Definition bcopy (cr3 src dst n : Z) (m : mem) : option mem := movsb cr3 (Z.to_nat (u32 n)) src dst m.

Definition EMEMCOPY : Z := -78.

(** The bytes to the end of the page. *)
Definition page_rest (p : Z) : Z := s32 (4096 - cmod (s32 p) 4096).

(** The [while] of [phys2vmcopy]; one turn copies at least a byte, so that the
    number of bytes is fuel enough. *)
Fixpoint phys2vm_loop (fuel : nat) (cr3 src dpd dest nbytes : Z) (m : mem) : option (Z * mem) :=
  if nbytes <=? 0 then Some (nbytes, m) else
  match fuel with
  | O => None
  | S fuel =>
      if negb (lock_page m dpd dest =? 0) then Some (nbytes, m) else
      let physdest := logical2physical m dpd dest in
      let prem := page_rest physdest in
      let ncopy := if prem <? nbytes then prem else nbytes in
      m ← bcopy cr3 src physdest ncopy m;
      phys2vm_loop fuel cr3 (u32 (src + ncopy)) dpd (u32 (dest + ncopy)) (s32 (nbytes - ncopy)) m
  end.
Definition phys2vmcopy (cr3 src dpd dest nbytes : Z) (m : mem) : option (Z * mem) :=
  '(togo, m) ← phys2vm_loop (Z.to_nat nbytes) cr3 src dpd dest nbytes m;
  Some (if togo =? 0 then 0 else EMEMCOPY, m).

Fixpoint vm2phys_loop (fuel : nat) (cr3 spd src dest nbytes : Z) (m : mem) : option (Z * mem) :=
  if nbytes <=? 0 then Some (nbytes, m) else
  match fuel with
  | O => None
  | S fuel =>
      if negb (lock_page m spd src =? 0) then Some (nbytes, m) else
      let physsrc := logical2physical m spd src in
      let prem := page_rest physsrc in
      let ncopy := if prem <? nbytes then prem else nbytes in
      m ← bcopy cr3 physsrc dest ncopy m;
      vm2phys_loop fuel cr3 spd (u32 (src + ncopy)) (u32 (dest + ncopy)) (s32 (nbytes - ncopy)) m
  end.
Definition vm2physcopy (cr3 spd src dest nbytes : Z) (m : mem) : option (Z * mem) :=
  '(togo, m) ← vm2phys_loop (Z.to_nat nbytes) cr3 spd src dest nbytes m;
  Some (if togo =? 0 then 0 else EMEMCOPY, m).

(** [vm2vmcopy] copies from the address [src] itself, not from [physsrc]. *)
Fixpoint vm2vm_loop (fuel : nat) (cr3 spd src dpd dest nbytes : Z) (m : mem) : option (Z * mem) :=
  if nbytes <=? 0 then Some (nbytes, m) else
  match fuel with
  | O => None
  | S fuel =>
      if negb (lock_page m dpd dest =? 0) then Some (nbytes, m) else
      if negb (lock_page m spd src =? 0) then Some (nbytes, m) else
      let physdest := logical2physical m dpd dest in
      let physsrc := logical2physical m spd src in
      let prem1 := page_rest physdest in
      let prem2 := page_rest physsrc in
      let prem := if prem1 <? prem2 then prem1 else prem2 in
      let ncopy := if prem <? nbytes then prem else nbytes in
      m ← bcopy cr3 src physdest ncopy m;
      vm2vm_loop fuel cr3 spd (u32 (src + ncopy)) dpd (u32 (dest + ncopy)) (s32 (nbytes - ncopy)) m
  end.
Definition vm2vmcopy (cr3 spd src dpd dest nbytes : Z) (m : mem) : option (Z * mem) :=
  '(togo, m) ← vm2vm_loop (Z.to_nat nbytes) cr3 spd src dpd dest nbytes m;
  Some (if togo =? 0 then 0 else EMEMCOPY, m).

(** * Kernel tables and new address spaces *)

(** The loop of [initialize_kernel_pagetables] over the tables at [kpt]. *)
Fixpoint kernel_tables (n : nat) (kpd kpt i : Z) (m : mem) : mem :=
  match n with
  | O => m
  | S n =>
      let pt := u32 (kpt + 4096 * i) in
      let m := make_PDE kpd i (Z.shiftr pt 12) 0 1 1 1 m in
      let m := make_page_table pt 0 1024 (u32 (Z.shiftr (s32 (i * 0x00400000)) 12)) 0 1 1 1 m in
      kernel_tables n kpd kpt (i + 1) m
  end.

(** [sizeof(n*4096)] is the size of an [int]. *)
Definition initialize_kernel_pagetables (kpd : Z) (c : core) (m : mem) : option (Z * core * mem) :=
  let n := Z.land (Z.shiftr (KERNEL_MEMMAP + 0x3fffff) 22) 0x3ff in
  '(ch, c) ← core_alloc n c;
  let kpt := phys_addr ch in
  let m := bzero kpd 4096 m in
  let m := bzero kpt 4 m in
  Some (kpt, c, kernel_tables (Z.to_nat n) kpd kpt 0 m).

(** [alloc_frame_memory]. *)
Definition alloc_frame_memory (segs : list ram_segment) (pd pageno : Z) (c : core) (m : mem) : option (Z * core * mem) :=
  '(ch, c) ← core_alloc 1 c;
  if no_blocks ch <? 1 then Some (ENOMEM, c, m) else
  let pt := Z.shiftl (page_table_base_addr (get_pde m pd (Z.land (Z.shiftr pageno 10) 0x3ff))) 12 in
  if pt =? 0 then c ← core_free segs ch c; Some (ENOMEM, c, m) else
  Some (0, c, make_PTE pt (Z.land pageno 0x3ff) (Z.land (Z.shiftr (phys_addr ch) 12) 0x000fffff) 0 0 0 0 m).

(** * Segment descriptors *)

Record segdesc := mk_segdesc { limit_low : Z; base_low : Z; base_middle : Z; access : Z; granularity : Z; base_high : Z }.
Definition PRESENT : Z := 0x80.
Definition SEGMENT : Z := 0x10.
Definition EXECUTABLE : Z := 0x08.
Definition READABLE : Z := 0x02.
Definition WRITEABLE : Z := 0x02.
Definition DPL_SHIFT : Z := 5.
Definition GRANULAR : Z := 0x80.
Definition DEFAULT : Z := 0x40.
Definition BYTE_GRAN_MAX : Z := 0xfffff.

Definition sdesc (d : segdesc) (base size : Z) : segdesc :=
  let size := u32 (size - 1) in
  let '(ll, g) := if BYTE_GRAN_MAX <? size then (u16 (Z.shiftr size 12), u8 (Z.lor GRANULAR (Z.shiftr size (12 + 16))))
                  else (u16 size, u8 (Z.shiftr size 16)) in
  mk_segdesc ll (u16 base) (u8 (Z.shiftr base 16)) (access d) (u8 (Z.lor g DEFAULT)) (u8 (Z.shiftr base 24)).
Definition initialize_codeseg (d : segdesc) (base size privilege : Z) : segdesc :=
  let d := sdesc d base size in
  mk_segdesc (limit_low d) (base_low d) (base_middle d)
    (u8 (Z.lor (Z.shiftl privilege DPL_SHIFT) (Z.lor PRESENT (Z.lor SEGMENT (Z.lor EXECUTABLE READABLE))))) (granularity d) (base_high d).
Definition initialize_dataseg (d : segdesc) (base size privilege : Z) : segdesc :=
  let d := sdesc d base size in
  mk_segdesc (limit_low d) (base_low d) (base_middle d)
    (u8 (Z.lor (Z.shiftl privilege DPL_SHIFT) (Z.lor PRESENT (Z.lor SEGMENT WRITEABLE)))) (granularity d) (base_high d).

(** [initialize_gdt]: a descriptor for the table of each process.  [a] runs over
    [ldt_table], [i] over the descriptors. *)
Definition MAXPROCESSES : Z := 32.
Definition LDTDESC_START : Z := 276.
Definition GDT_SIZE : Z := 308.
Definition LDT_TYPE : Z := 2.
Definition SIZEOF_LDT : Z := 24.
Fixpoint gdt_loop (n : nat) (a i : Z) (gdt : list segdesc) : option (list segdesc) :=
  match n with
  | O => Some gdt
  | S n =>
      d ← zget gdt i;
      let d := initialize_dataseg d a SIZEOF_LDT 0 in
      gdt ← zset gdt i (mk_segdesc (limit_low d) (base_low d) (base_middle d) (Z.lor PRESENT LDT_TYPE) (granularity d) (base_high d));
      gdt_loop n (u32 (a + SIZEOF_LDT)) (i + 1) gdt
  end.
Record table_desc := mk_table_desc { td_limit : Z; td_base : Z; td_unused : Z }.
Definition initialize_gdt (gdt_table ldt_table : Z) (gdt : list segdesc) : option (table_desc * list segdesc) :=
  gdt ← gdt_loop (Z.to_nat MAXPROCESSES) ldt_table LDTDESC_START gdt;
  Some (mk_table_desc (u16 (GDT_SIZE * 8 - 1)) gdt_table 0, gdt).

(** [initialize_ldt] of [process.c]. *)
Record LDT := mk_LDT { code : segdesc; data : segdesc; stack_user : segdesc }.
Definition PROC_TYPE_SYSTEM : Z := 0x4.
Definition USERSTACK_SEGMENT_END : Z := 0xFDC00000.
Definition PRIMALLOC_MAX : Z := 0x02000000.
Definition initialize_ldt (ldt : LDT) (cs_start cs_size type : Z) : LDT :=
  let priv := if type =? PROC_TYPE_SYSTEM then 0 else 3 in
  mk_LDT (initialize_codeseg (code ldt) 0 (u32 (cs_start + cs_size)) priv)
    (initialize_dataseg (data ldt) 0 (u32 (USERSTACK_SEGMENT_END + PRIMALLOC_MAX)) priv)
    (initialize_dataseg (stack_user ldt) 0 (u32 (USERSTACK_SEGMENT_END + PRIMALLOC_MAX)) priv).

(** * Memory lemmas *)

Lemma ld8_range m a : 0 <= ld8 m a < 2 ^ 8.
Proof. apply u8_range. Qed.
Lemma ld8_st8_eq m a v : ld8 (st8 m a v) a = u8 v.
Proof. unfold ld8, st8. rewrite lookup_insert_eq. simpl. unfold u8. by rewrite Zmod_mod. Qed.
Lemma ld8_st8_ne m a v x : x <> a -> ld8 (st8 m a v) x = ld8 m x.
Proof. intros. unfold ld8, st8. by rewrite lookup_insert_ne. Qed.
Lemma ld8_st8 m a v x : ld8 (st8 m a v) x = if x =? a then u8 v else ld8 m x.
Proof. destruct (Z.eqb_spec x a) as [->|]; [apply ld8_st8_eq|by apply ld8_st8_ne]. Qed.

Lemma ld32_ext m m' a : (forall x, a <= x < a + 4 -> ld8 m' x = ld8 m x) -> ld32 m' a = ld32 m a.
Proof. intros H. unfold ld32. by rewrite !H by lia. Qed.
Lemma ld8_st32_out m a v x : x < a \/ a + 4 <= x -> ld8 (st32 m a v) x = ld8 m x.
Proof. intros. unfold st32. by rewrite !ld8_st8_ne by lia. Qed.
Lemma ld32_st32_eq m a v : 0 <= v < 2 ^ 32 -> ld32 (st32 m a v) a = v.
Proof.
  intros Hv. unfold ld32, st32. rewrite !ld8_st8, !Z.eqb_refl.
  repeat match goal with |- context [?x =? ?y] => destruct (Z.eqb_spec x y); [lia|] end.
  rewrite !Z.shiftr_div_pow2 by lia. unfold u8. change (2 ^ 8) with 256. change (2 ^ 16) with 65536. change (2 ^ 24) with 16777216.
  Z.div_mod_to_equations. lia.
Qed.

Lemma field_div w lo n : 0 <= lo -> 0 <= n -> field w lo n = (w / 2 ^ lo) mod 2 ^ n.
Proof. intros. unfold field. by rewrite Z.land_ones, Z.shiftr_div_pow2. Qed.
Lemma field_range w lo n : 0 <= lo -> 0 <= n -> 0 <= field w lo n < 2 ^ n.
Proof. intros. rewrite field_div by done. apply Z.mod_pos_bound. lia. Qed.

Lemma word_range b0 b1 b2 b3 b4 b5 b6 b7 b8 avl base : 0 <= word_of_fields b0 b1 b2 b3 b4 b5 b6 b7 b8 avl base < 2 ^ 32.
Proof.
  unfold word_of_fields. pose proof (Z.mod_pos_bound base (2 ^ 20) eq_refl). pose proof (Z.mod_pos_bound avl 8 eq_refl).
  repeat match goal with |- context [?x mod 2] => let H := fresh in pose proof (Z.mod_pos_bound x 2 eq_refl); generalize dependent (x mod 2); intros end.
  lia.
Qed.

(** The fields of a word are what was stored, cut to their widths. *)
Lemma word_fields b0 b1 b2 b3 b4 b5 b6 b7 b8 avl base :
  let w := word_of_fields b0 b1 b2 b3 b4 b5 b6 b7 b8 avl base in
  field w 0 1 = b0 mod 2 /\ field w 1 1 = b1 mod 2 /\ field w 2 1 = b2 mod 2 /\ field w 3 1 = b3 mod 2 /\ field w 4 1 = b4 mod 2 /\
  field w 5 1 = b5 mod 2 /\ field w 6 1 = b6 mod 2 /\ field w 7 1 = b7 mod 2 /\ field w 8 1 = b8 mod 2 /\ field w 9 3 = avl mod 8 /\
  field w 12 20 = base mod 2 ^ 20.
Proof.
  cbv zeta. unfold word_of_fields. rewrite !field_div by lia.
  pose proof (Z.mod_pos_bound base (2 ^ 20) eq_refl) as Hb. pose proof (Z.mod_pos_bound avl 8 eq_refl) as Ha.
  generalize dependent (base mod 2 ^ 20). generalize dependent (avl mod 8).
  repeat match goal with |- context [?x mod 2] => is_var x; let H := fresh in pose proof (Z.mod_pos_bound x 2 eq_refl) as H; revert H; generalize (x mod 2); intros ? ? end.
  intros. change (2 ^ 20) with 1048576 in *.
  change (2 ^ 0) with 1; change (2 ^ 1) with 2; change (2 ^ 2) with 4; change (2 ^ 3) with 8; change (2 ^ 4) with 16; change (2 ^ 5) with 32;
  change (2 ^ 6) with 64; change (2 ^ 7) with 128; change (2 ^ 8) with 256; change (2 ^ 9) with 512; change (2 ^ 12) with 4096.
  split_and!; Z.div_mod_to_equations; lia.
Qed.

(** * Entries and translation *)

Lemma get_pde_make pd i addr avail rw pr gl m :
  0 <= addr < 2 ^ 20 -> 0 <= avail < 8 -> 0 <= rw < 2 -> 0 <= pr < 2 -> 0 <= gl < 2 ->
  get_pde (make_PDE pd i addr avail rw pr gl m) pd i = mk_PDE pr rw (if gl =? 1 then 0 else 1) 1 1 0 0 0 gl avail addr.
Proof.
  intros. unfold get_pde, make_PDE, put_pde. rewrite ld32_st32_eq by apply word_range. unfold pde_of_word, word_of_pde.
  cbn [pd_present pd_read_write pd_user pd_write_through pd_cache_disable pd_accessed pd_reserved page_4MB pd_global pd_available
       page_table_base_addr].
  destruct (word_fields pr rw (if gl =? 1 then 0 else 1) 1 1 0 0 0 gl avail addr)
    as (-> & -> & -> & -> & -> & -> & -> & -> & -> & -> & ->).
  f_equal; try (by rewrite Z.mod_small by lia). by destruct (gl =? 1).
Qed.

Lemma get_pte_make pt i addr avail rw pr gl m :
  0 <= addr < 2 ^ 20 -> 0 <= avail < 8 -> 0 <= rw < 2 -> 0 <= pr < 2 -> 0 <= gl < 2 ->
  get_pte (make_PTE pt i addr avail rw pr gl m) pt i = mk_PTE pr rw (if gl =? 1 then 0 else 1) 1 1 0 0 0 gl avail addr.
Proof.
  intros. unfold get_pte, make_PTE, put_pte. rewrite ld32_st32_eq by apply word_range. unfold pte_of_word, word_of_pte.
  cbn [present read_write user write_through cache_disable accessed dirty reserved global available page_base_addr].
  destruct (word_fields pr rw (if gl =? 1 then 0 else 1) 1 1 0 0 0 gl avail addr)
    as (-> & -> & -> & -> & -> & -> & -> & -> & -> & -> & ->).
  f_equal; try (by rewrite Z.mod_small by lia). by destruct (gl =? 1).
Qed.

(** The bytes of a directory or table; those of all the tables of a directory. *)
Definition in_table (t x : Z) : Prop := t <= x < t + 4096.
Definition base_of (m : mem) (pd j : Z) : Z := Z.shiftl (page_table_base_addr (get_pde m pd j)) 12.
Definition table_byte (m : mem) (pd x : Z) : Prop := in_table pd x \/ exists j, 0 <= j < 1024 /\ in_table (base_of m pd j) x.
Definition dir_ok (pd : Z) : Prop := 0 <= pd <= 2 ^ 32 - 4096.

(** Two memories with the same bytes where [P] holds. *)
Definition same_on (P : Z -> Prop) (m m' : mem) : Prop := forall x, P x -> ld8 m' x = ld8 m x.

Lemma entry_at_in t i : dir_ok t -> 0 <= i < 1024 -> entry_at t i = t + 4 * i.
Proof. unfold dir_ok, entry_at. intros. apply u32_id. lia. Qed.
Lemma page_base_range w : 0 <= page_base_addr (pte_of_word w) < 2 ^ 20.
Proof. cbn. by apply field_range. Qed.
Lemma frame_no_range m pt i : 0 <= page_base_addr (get_pte m pt i) < 2 ^ 20.
Proof. unfold get_pte. apply page_base_range. Qed.
Lemma base_range m pd j : 0 <= page_table_base_addr (get_pde m pd j) < 2 ^ 20.
Proof. unfold get_pde, pde_of_word. cbn. by apply field_range. Qed.
Lemma base_of_eq m pd j : base_of m pd j = 4096 * page_table_base_addr (get_pde m pd j).
Proof. unfold base_of. rewrite Z.shiftl_mul_pow2 by lia. lia. Qed.
Lemma base_of_ok m pd j : dir_ok (base_of m pd j).
Proof. rewrite base_of_eq. pose proof (base_range m pd j). unfold dir_ok. lia. Qed.

Lemma get_pde_same m m' pd i : dir_ok pd -> 0 <= i < 1024 -> same_on (in_table pd) m m' -> get_pde m' pd i = get_pde m pd i.
Proof.
  intros Hd Hi H. unfold get_pde. rewrite entry_at_in by done. f_equal. apply ld32_ext. intros x Hx. apply H. unfold in_table. lia.
Qed.
Lemma get_pte_same m m' pt i : dir_ok pt -> 0 <= i < 1024 -> same_on (in_table pt) m m' -> get_pte m' pt i = get_pte m pt i.
Proof.
  intros Hd Hi H. unfold get_pte. rewrite entry_at_in by done. f_equal. apply ld32_ext. intros x Hx. apply H. unfold in_table. lia.
Qed.

Lemma get_pde_moved m m' pd pd' i :
  dir_ok pd -> dir_ok pd' -> 0 <= i < 1024 -> (forall x, 4 * i <= x < 4 * i + 4 -> ld8 m' (pd' + x) = ld8 m (pd + x)) -> get_pde m' pd' i = get_pde m pd i.
Proof.
  intros Hd Hd' Hi H. unfold get_pde. rewrite !entry_at_in by done. f_equal. unfold ld32. rewrite <- !Z.add_assoc, !H by lia. done.
Qed.

(** The indices of an address. *)
Definition pdi (a : Z) : Z := field a 22 10.
Definition pti (a : Z) : Z := field a 12 10.
Lemma pdi_range a : 0 <= pdi a < 1024.
Proof. by apply (field_range a 22 10). Qed.
Lemma pti_range a : 0 <= pti a < 1024.
Proof. by apply (field_range a 12 10). Qed.
#[local] Hint Resolve pdi_range pti_range base_of_ok : core.

Lemma table_of_base m pd a : table_of m pd a = base_of m pd (pdi a).
Proof. done. Qed.
Lemma entry_of_eq m pd a : entry_of m pd a = get_pte m (base_of m pd (pdi a)) (pti a).
Proof. done. Qed.

Lemma base_of_same m m' pd j : dir_ok pd -> 0 <= j < 1024 -> same_on (table_byte m pd) m m' -> base_of m' pd j = base_of m pd j.
Proof. intros Hd Hj H. unfold base_of. rewrite (get_pde_same m m'); auto. intros x Hx. apply H. by left. Qed.
Lemma entry_of_same m m' pd a : dir_ok pd -> same_on (table_byte m pd) m m' -> entry_of m' pd a = entry_of m pd a.
Proof.
  intros Hd H. rewrite !entry_of_eq, (base_of_same m m') by auto. apply get_pte_same; auto. intros x Hx. apply H. right. exists (pdi a). split; [apply pdi_range|exact Hx].
Qed.
Lemma table_byte_same m m' pd x : dir_ok pd -> same_on (table_byte m pd) m m' -> table_byte m' pd x <-> table_byte m pd x.
Proof.
  intros Hd H. unfold table_byte. split; (intros [?|(j & Hj & Hx)]; [by left|right; exists j; split; [done|]]).
  - by rewrite (base_of_same m m') in Hx.
  - by rewrite (base_of_same m m').
Qed.

(** The processor and [logical2physical] agree where the directory entry is
    present. *)
Definition frame_addr (e : PTE) (a : Z) : Z := Z.lor (Z.shiftl (page_base_addr e) 12) (Z.land a 0xfff).
Lemma walk_eq m pd a :
  walk m pd a = if pd_present (get_pde m pd (pdi a)) =? 0 then None else
                if present (entry_of m pd a) =? 0 then None else Some (frame_addr (entry_of m pd a) a).
Proof. unfold walk, entry_of, table_of, pdi, frame_addr, field, PDE_SHIFT. change (Z.ones 10) with 0x3ff. reflexivity. Qed.
Lemma walk_same m m' pd a : dir_ok pd -> same_on (table_byte m pd) m m' -> walk m' pd a = walk m pd a.
Proof.
  intros Hd H. rewrite !walk_eq, (entry_of_same m m'), (get_pde_same m m'); auto. intros x Hx. apply H. by left.
Qed.

Definition resident (m : mem) (pd a : Z) : Prop := present (entry_of m pd a) = 1.
Lemma bit_cases m pd a : present (entry_of m pd a) = 0 \/ present (entry_of m pd a) = 1.
Proof.
  unfold entry_of, get_pte, pte_of_word. cbn [present]. pose proof (field_range (ld32 m (entry_at (table_of m pd a) (Z.land (Z.shiftr a 12) 0x3ff))) 0 1). lia.
Qed.
Lemma lock_page_eq m pd a : lock_page m pd a = if present (entry_of m pd a) =? 1 then 0 else -1.
Proof. unfold lock_page. by destruct (_ =? 1). Qed.
Lemma l2p_resident m pd a : resident m pd a -> logical2physical m pd a = frame_addr (entry_of m pd a) a.
Proof. unfold resident, logical2physical. by intros ->. Qed.
Lemma l2p_same m m' pd a : dir_ok pd -> same_on (table_byte m pd) m m' -> logical2physical m' pd a = logical2physical m pd a.
Proof. intros. unfold logical2physical. by rewrite (entry_of_same m m'). Qed.
Lemma walk_l2p m pd a p : walk m pd a = Some p -> resident m pd a /\ logical2physical m pd a = p.
Proof.
  rewrite walk_eq. destruct (_ =? 0); [done|]. destruct (Z.eqb_spec (present (entry_of m pd a)) 0); [done|]. intros [= <-].
  destruct (bit_cases m pd a); [done|]. split; [done|]. by apply l2p_resident.
Qed.

Lemma frame_addr_eq e a : 0 <= page_base_addr e -> frame_addr e a = 4096 * page_base_addr e + a mod 4096.
Proof.
  intros. unfold frame_addr. change 0xfff with (Z.ones 12). rewrite Z.land_ones by lia. change (2 ^ 12) with 4096.
  rewrite Z.shiftl_mul_pow2 by lia. change (2 ^ 12) with 4096.
  rewrite (Z.mul_comm 4096). assert (HL : Z.land (page_base_addr e * 4096) (a mod 4096) = 0).
  { apply Z.bits_inj'; intros i Hi; rewrite Z.land_spec, Z.bits_0; change 4096 with (2 ^ 12).
    destruct (Z.lt_ge_cases i 12); [by rewrite Z.mul_pow2_bits_low|]. rewrite Z.mod_pow2_bits_high by lia. apply andb_false_r. }
  by rewrite Z.add_nocarry_lxor, Z.lxor_lor by done.
Qed.
Lemma l2p_eq m pd a : resident m pd a -> logical2physical m pd a = 4096 * page_base_addr (entry_of m pd a) + a mod 4096.
Proof. intros H. rewrite l2p_resident by done. apply frame_addr_eq. unfold entry_of, get_pte. apply page_base_range. Qed.

Lemma field_page a b lo n : 12 <= lo -> 0 <= n -> a / 4096 = b / 4096 -> field a lo n = field b lo n.
Proof.
  intros Hlo Hn H. rewrite !field_div by lia. replace (2 ^ lo) with (4096 * 2 ^ (lo - 12)) by (change 4096 with (2 ^ 12); rewrite <- Z.pow_add_r by lia; f_equal; lia).
  rewrite <- !Z.div_div by lia. by rewrite H.
Qed.
Lemma entry_of_page m pd a b : a / 4096 = b / 4096 -> entry_of m pd a = entry_of m pd b.
Proof. intros H. rewrite !entry_of_eq. unfold pdi, pti. by rewrite !(field_page a b) by (done || lia). Qed.
Lemma resident_page m pd a b : a / 4096 = b / 4096 -> resident m pd a -> resident m pd b.
Proof. intros H. unfold resident. by rewrite (entry_of_page m pd a b). Qed.
Lemma l2p_page m pd a k : resident m pd a -> 0 <= k -> a mod 4096 + k < 4096 -> logical2physical m pd (a + k) = logical2physical m pd a + k.
Proof.
  intros Hr Hk Hp. assert (Hd : a / 4096 = (a + k) / 4096) by (Z.div_mod_to_equations; lia).
  rewrite !l2p_eq by eauto using resident_page. rewrite <- (entry_of_page m pd a (a + k)) by done.
  assert ((a + k) mod 4096 = a mod 4096 + k) by (Z.div_mod_to_equations; lia). lia.
Qed.
Lemma l2p_mod m pd a : resident m pd a -> logical2physical m pd a mod 4096 = a mod 4096.
Proof. intros. rewrite l2p_eq by done. Z.div_mod_to_equations; lia. Qed.
Lemma l2p_range m pd a : 0 <= logical2physical m pd a < 2 ^ 32.
Proof.
  destruct (bit_cases m pd a) as [E|E].
  - unfold logical2physical. by rewrite E.
  - rewrite l2p_eq by done. assert (0 <= page_base_addr (entry_of m pd a) < 2 ^ 20) by apply page_base_range.
    pose proof (Z.mod_pos_bound a 4096). lia.
Qed.

(** * Copying *)

(** Memory [m'] is [m] with the bytes at [S i] copied to [D i] for the indices
    from [lo] to [hi]. *)
Definition copies (m : mem) (S D : Z -> Z) (lo hi : Z) (m' : mem) : Prop :=
  (forall i, lo <= i < hi -> ld8 m' (D i) = ld8 m (S i)) /\ (forall x, (forall i, lo <= i < hi -> x <> D i) -> ld8 m' x = ld8 m x).

(** The places written are distinct and none of them is read. *)
Definition separate (S D : Z -> Z) (lo hi : Z) : Prop :=
  (forall i j, lo <= i < hi -> lo <= j < hi -> D i = D j -> i = j) /\ (forall i j, lo <= i < hi -> lo <= j < hi -> D i <> S j).

Lemma separate_sub S D lo hi lo' hi' : lo <= lo' -> hi' <= hi -> separate S D lo hi -> separate S D lo' hi'.
Proof. intros ? ? [H1 H2]. split; intros i j ? ?; [apply H1|apply H2]; lia. Qed.
Lemma copies_nil m S D lo hi : hi <= lo -> copies m S D lo hi m.
Proof. intros. split; [intros; lia|done]. Qed.
Lemma copies_app m m1 m' S D lo mid hi :
  lo <= mid <= hi -> separate S D lo hi -> copies m S D lo mid m1 -> copies m1 S D mid hi m' -> copies m S D lo hi m'.
Proof.
  intros Hm [Hinj Hsep] [A1 B1] [A2 B2]. split.
  - intros i Hi. destruct (Z.lt_ge_cases i mid).
    + rewrite B2, A1 by first [lia|intros j Hj E; apply Hinj in E; lia]. done.
    + rewrite A2 by lia. apply B1. intros j Hj E. symmetry in E. apply Hsep in E; lia.
  - intros x Hx. rewrite B2, B1; [done|..]; intros i Hi; apply Hx; lia.
Qed.
Lemma copies_same (P : Z -> Prop) m S D lo hi m' : copies m S D lo hi m' -> (forall i, lo <= i < hi -> ~ P (D i)) -> same_on P m m'.
Proof. intros [_ B] HP x Hx. apply B. intros i Hi ->. by apply (HP i). Qed.
Lemma copies_one m S D lo : D lo <> S lo -> copies m S D lo (lo + 1) (st8 m (D lo) (ld8 m (S lo))).
Proof.
  intros Hne. split.
  - intros i Hi. replace i with lo by lia. rewrite ld8_st8_eq. apply u8_id, ld8_range.
  - intros x Hx. apply ld8_st8_ne, Hx. lia.
Qed.

(** [rep movsb] over addresses that translate to [S i] and [D i]. *)
Lemma movsb_copies cr3 n lo src dst S D m :
  dir_ok cr3 -> 0 <= src -> src + Z.of_nat n <= 2 ^ 32 -> 0 <= dst -> dst + Z.of_nat n <= 2 ^ 32 ->
  (forall i, lo <= i < lo + Z.of_nat n -> walk m cr3 (src + (i - lo)) = Some (S i) /\ walk m cr3 (dst + (i - lo)) = Some (D i) /\ ~ table_byte m cr3 (D i)) ->
  separate S D lo (lo + Z.of_nat n) ->
  exists m', movsb cr3 n (u32 src) (u32 dst) m = Some m' /\ copies m S D lo (lo + Z.of_nat n) m'.
Proof.
  intros Hc. revert lo src dst m. induction n as [|n IH]; intros lo src dst m Hs Hs' Hd Hd' Hw Hsep; cbn [movsb].
  - exists m. split; [done|]. apply copies_nil. lia.
  - rewrite Nat2Z.inj_succ in *. rewrite (u32_id src), (u32_id dst) by lia.
    destruct (Hw lo) as (W1 & W2 & T); [lia|]. rewrite Z.sub_diag, !Z.add_0_r in W1, W2. rewrite W1, W2. cbn [mbind option_bind].
    assert (Hone : copies m S D lo (lo + 1) (st8 m (D lo) (ld8 m (S lo)))) by (apply copies_one, Hsep; lia).
    assert (Hsame : same_on (table_byte m cr3) m (st8 m (D lo) (ld8 m (S lo)))).
    { eapply copies_same; [done|]. intros i Hi. by replace i with lo by lia. }
    destruct (IH (lo + 1) (src + 1) (dst + 1) (st8 m (D lo) (ld8 m (S lo)))) as (m' & -> & Hm'); try lia.
    + intros i Hi. destruct (Hw i) as (V1 & V2 & V3); [lia|]. rewrite !(walk_same m (st8 _ _ _)) by done.
      rewrite (table_byte_same m) by done. replace (src + 1 + (i - (lo + 1))) with (src + (i - lo)) by lia.
      replace (dst + 1 + (i - (lo + 1))) with (dst + (i - lo)) by lia. split_and!; assumption.
    + eapply separate_sub; [| |done]; lia.
    + exists m'. split; [done|]. eapply copies_app; [|done|done|]; [lia|]. by replace (lo + Z.succ (Z.of_nat n)) with (lo + 1 + Z.of_nat n) by lia.
Qed.

(** The directory maps the kernel's half of the addresses to themselves. *)
Definition kernel_mapped (m : mem) (pd : Z) : Prop := forall a, 0 <= a < KERNEL_MEMMAP -> walk m pd a = Some a.

Lemma page_rest_eq p : 0 <= p < 2 ^ 31 -> page_rest p = 4096 - p mod 4096.
Proof.
  intros. unfold page_rest, cmod. rewrite (s32_id p) by lia. rewrite Z.rem_mod_nonneg by lia.
  pose proof (Z.mod_pos_bound p 4096). apply s32_id. lia.
Qed.

(** Byte [i] of the buffer at the logical address [a] is at the physical address
    [F i], in the kernel's half. *)
Definition located (m : mem) (pd a : Z) (F : Z -> Z) (i : Z) : Prop :=
  resident m pd (a + i) /\ logical2physical m pd (a + i) = F i /\ F i < KERNEL_MEMMAP.
(** No entry of the tables in use is at the address. *)
Definition unused (m : mem) (cr3 pd x : Z) : Prop := ~ table_byte m cr3 x /\ ~ table_byte m pd x.
(** Both directories are untouched. *)
Definition same_tables (m : mem) (cr3 pd : Z) (m' : mem) : Prop := same_on (table_byte m cr3) m m' /\ same_on (table_byte m pd) m m'.

Lemma resident_same m m' pd a : dir_ok pd -> same_on (table_byte m pd) m m' -> resident m' pd a <-> resident m pd a.
Proof. intros. unfold resident. by rewrite (entry_of_same m m'). Qed.
Lemma kernel_mapped_same m m' pd : dir_ok pd -> same_on (table_byte m pd) m m' -> kernel_mapped m pd -> kernel_mapped m' pd.
Proof. intros Hd Hs Hk a Ha. by rewrite (walk_same m m'), Hk. Qed.
Lemma located_same m m' pd a F i : dir_ok pd -> same_on (table_byte m pd) m m' -> located m pd a F i -> located m' pd a F i.
Proof. intros. unfold located. by rewrite (resident_same m m'), (l2p_same m m'). Qed.
Lemma unused_same m m' cr3 pd x : dir_ok cr3 -> dir_ok pd -> same_tables m cr3 pd m' -> unused m cr3 pd x -> unused m' cr3 pd x.
Proof. intros Hc Hp [H1 H2] [? ?]. split; [by rewrite (table_byte_same m m')|by rewrite (table_byte_same m m')]. Qed.
Lemma copies_tables m S D lo hi m' cr3 pd : copies m S D lo hi m' -> (forall i, lo <= i < hi -> unused m cr3 pd (D i)) -> same_tables m cr3 pd m'.
Proof. intros Hm Hu. split; (eapply copies_same; [exact Hm|]); intros i Hi; by apply Hu. Qed.

Lemma located_range m pd a F i : located m pd a F i -> 0 <= F i < KERNEL_MEMMAP.
Proof. intros (_ & <- & ?). pose proof (l2p_range m pd (a + i)). lia. Qed.

(** Inside the page of [a + lo] the bytes are consecutive. *)
Lemma located_page m pd a F lo i :
  located m pd a F lo -> located m pd a F i -> lo <= i -> (a + lo) mod 4096 + (i - lo) < 4096 -> F i = F lo + (i - lo).
Proof.
  intros (R & <- & _) (_ & <- & _) ? ?. rewrite <- (l2p_page m pd (a + lo) (i - lo)) by (done || lia). f_equal. lia.
Qed.

Lemma located_rest m pd a F lo : located m pd a F lo -> page_rest (F lo) = 4096 - (a + lo) mod 4096.
Proof.
  intros L. pose proof (located_range _ _ _ _ _ L) as H. unfold KERNEL_MEMMAP in H. destruct L as (R & E & Hk).
  rewrite page_rest_eq by lia. by rewrite <- E, l2p_mod.
Qed.

Lemma same_page a k : 0 <= k -> a mod 4096 + k < 4096 -> a / 4096 = (a + k) / 4096.
Proof. intros. Z.div_mod_to_equations; lia. Qed.

(** Where a copy of [n] bytes stops: at the end, or at the first byte whose page is
    not resident. *)
Definition stops_at (m : mem) (pd a n k : Z) : Prop := k = n \/ (k < n /\ ~ resident m pd (a + k)).

Lemma stops_same m m' pd a n k : dir_ok pd -> same_on (table_byte m pd) m m' -> stops_at m pd a n k -> stops_at m' pd a n k.
Proof. intros Hp Hs. unfold stops_at. by rewrite (resident_same m m'). Qed.

(** A turn that stays in a resident page does not pass the stop. *)
Lemma turn_in_page m pd a F lo n k c :
  located m pd a F lo -> stops_at m pd a n k -> lo < k -> 0 < c <= n - lo -> (a + lo) mod 4096 + c <= 4096 -> lo + c <= k.
Proof.
  intros (R & _) [->|[Hk Hn]] ? ? ?; [lia|]. destruct (Z.le_gt_cases (lo + c) k); [done|]. destruct Hn.
  eapply resident_page; [|exact R]. replace (a + k) with (a + lo + (k - lo)) by lia. apply same_page; lia.
Qed.

(** One [bcopy] to a run of the kernel's half. *)
Lemma bcopy_turn cr3 m lo c s S D :
  dir_ok cr3 -> kernel_mapped m cr3 -> 0 < c < 2 ^ 31 -> 0 <= s -> s + c <= 2 ^ 32 ->
  (forall i, lo <= i < lo + c -> walk m cr3 (s + (i - lo)) = Some (S i)) ->
  (forall i, lo <= i < lo + c -> 0 <= D i < KERNEL_MEMMAP /\ D i = D lo + (i - lo) /\ ~ table_byte m cr3 (D i)) -> separate S D lo (lo + c) ->
  exists m1, bcopy cr3 s (D lo) c m = Some m1 /\ copies m S D lo (lo + c) m1.
Proof.
  intros Hc Hk Hr Hs Hs' HS HD Hsep. unfold bcopy. rewrite (u32_id c) by lia.
  destruct (HD lo) as (B1 & _); [lia|]. destruct (HD (lo + c - 1)) as (B2 & E2 & _); [lia|]. rewrite E2 in B2. unfold KERNEL_MEMMAP in B1, B2.
  rewrite <- (u32_id s), <- (u32_id (D lo)) by lia. replace (lo + c) with (lo + Z.of_nat (Z.to_nat c)) in * by lia.
  apply movsb_copies; auto; try lia. intros i Hi. destruct (HD i Hi) as (B & E & T). split; [by apply HS|]. split; [|done]. rewrite <- E. by apply Hk.
Qed.

(** The kernel's side of a copy. *)
Lemma kernel_walk m cr3 a lo c i : kernel_mapped m cr3 -> 0 <= a -> 0 <= lo -> a + (lo + c) <= KERNEL_MEMMAP -> lo <= i < lo + c ->
  walk m cr3 (a + lo + (i - lo)) = Some (a + i).
Proof. intros Hk ? ? ? ?. replace (a + lo + (i - lo)) with (a + i) by lia. apply Hk. lia. Qed.

(** [x] bytes of [togo] in a turn. *)
Definition turn (x togo : Z) : Z := if x <? togo then x else togo.
Lemma turn_bounds x togo : 0 < x -> 0 < togo -> 0 < turn x togo <= togo /\ turn x togo <= x.
Proof. unfold turn. case_ztest; lia. Qed.

Lemma phys2vm_loop_copies fuel cr3 pd src dest n k lo D m :
  dir_ok cr3 -> dir_ok pd -> kernel_mapped m cr3 ->
  0 <= lo <= k -> k <= n < 2 ^ 31 -> n - lo <= Z.of_nat fuel -> 0 <= src -> src + n <= KERNEL_MEMMAP -> 0 <= dest -> dest + n <= 2 ^ 32 ->
  (forall i, lo <= i < k -> located m pd dest D i /\ unused m cr3 pd (D i)) -> stops_at m pd dest n k -> separate (fun i => src + i) D lo k ->
  exists m', phys2vm_loop fuel cr3 (u32 (src + lo)) pd (u32 (dest + lo)) (n - lo) m = Some (n - k, m') /\ copies m (fun i => src + i) D lo k m'.
Proof.
  intros Hc Hp. revert lo m. induction fuel as [|fuel IH]; intros lo m Hk Hlo Hkn Hf Hs Hs' Hd Hd' Ht Hst Hsep; cbn [phys2vm_loop];
    (destruct (Z.leb_spec (n - lo) 0); [assert (lo = n /\ k = n) as [-> ->] by lia; exists m; split; [by rewrite Z.sub_diag|by apply copies_nil]|]); [lia|].
  unfold KERNEL_MEMMAP in Hs'. rewrite (u32_id (dest + lo)), (u32_id (src + lo)), lock_page_eq by lia. destruct (Z.lt_ge_cases lo k) as [Hlk|]; cycle 1.
  { assert (lo = k) as -> by lia. destruct Hst as [->|[_ Hnr]]; [lia|]. rewrite (proj2 (Z.eqb_neq _ _) Hnr). exists m. split; [done|]. by apply copies_nil. }
  destruct (Ht lo ltac:(lia)) as [L _]. pose proof (located_rest _ _ _ _ _ L) as HR. pose proof L as (R & E & _). unfold resident in R. rewrite R, E. cbn [negb Z.eqb Pos.eqb].
  fold (turn (page_rest (D lo)) (n - lo)). rewrite HR. pose proof (Z.mod_pos_bound (dest + lo) 4096 eq_refl).
  destruct (turn_bounds (4096 - (dest + lo) mod 4096) (n - lo)) as [C1 C2]; [lia..|]. set (c := turn _ _) in *.
  assert (Hck : lo + c <= k) by (eapply turn_in_page; [exact L|exact Hst|lia..]).
  destruct (bcopy_turn cr3 m lo c (src + lo) (fun i => src + i) D) as (m1 & -> & Hm1); auto; try (unfold KERNEL_MEMMAP; lia).
  { intros i Hi. eapply (kernel_walk m cr3 src lo c); auto; unfold KERNEL_MEMMAP; lia. }
  { intros i Hi. destruct (Ht i) as [Li [? ?]]; [lia|]. split_and!; [by eapply located_range..| |done]. eapply located_page; [exact L|exact Li|lia..]. }
  { eapply separate_sub; [| |exact Hsep]; lia. }
  cbn [mbind option_bind]. rewrite (s32_id (n - lo - c)) by lia. rewrite <- !Z.add_assoc, <- Z.sub_add_distr.
  destruct (copies_tables _ _ _ _ _ _ cr3 pd Hm1) as [S1 S2]; [intros i Hi; apply Ht; lia|].
  destruct (IH (lo + c) m1) as (m' & -> & Hm'); auto; try lia.
  - by eapply kernel_mapped_same.
  - intros i Hi. destruct (Ht i) as [Li Ui]; [lia|]. split; [by eapply located_same|by eapply unused_same].
  - by eapply stops_same.
  - eapply separate_sub; [| |exact Hsep]; lia.
  - exists m'. split; [done|]. eapply copies_app; [|exact Hsep|exact Hm1|exact Hm']. lia.
Qed.

Lemma vm2phys_loop_copies fuel cr3 pd src dest n k lo S m :
  dir_ok cr3 -> dir_ok pd -> kernel_mapped m cr3 ->
  0 <= lo <= k -> k <= n < 2 ^ 31 -> n - lo <= Z.of_nat fuel -> 0 <= src -> src + n <= 2 ^ 32 -> 0 <= dest -> dest + n <= KERNEL_MEMMAP ->
  (forall i, lo <= i < k -> located m pd src S i /\ unused m cr3 pd (dest + i)) -> stops_at m pd src n k -> separate S (fun i => dest + i) lo k ->
  exists m', vm2phys_loop fuel cr3 pd (u32 (src + lo)) (u32 (dest + lo)) (n - lo) m = Some (n - k, m') /\ copies m S (fun i => dest + i) lo k m'.
Proof.
  intros Hc Hp. revert lo m. induction fuel as [|fuel IH]; intros lo m Hk Hlo Hkn Hf Hs Hs' Hd Hd' Ht Hst Hsep; cbn [vm2phys_loop];
    (destruct (Z.leb_spec (n - lo) 0); [assert (lo = n /\ k = n) as [-> ->] by lia; exists m; split; [by rewrite Z.sub_diag|by apply copies_nil]|]); [lia|].
  unfold KERNEL_MEMMAP in Hd'. rewrite (u32_id (dest + lo)), (u32_id (src + lo)), lock_page_eq by lia. destruct (Z.lt_ge_cases lo k) as [Hlk|]; cycle 1.
  { assert (lo = k) as -> by lia. destruct Hst as [->|[_ Hnr]]; [lia|]. rewrite (proj2 (Z.eqb_neq _ _) Hnr). exists m. split; [done|]. by apply copies_nil. }
  destruct (Ht lo ltac:(lia)) as [L _]. pose proof (located_rest _ _ _ _ _ L) as HR. pose proof L as (R & E & _). unfold resident in R. rewrite R, E. cbn [negb Z.eqb Pos.eqb].
  fold (turn (page_rest (S lo)) (n - lo)). rewrite HR. pose proof (Z.mod_pos_bound (src + lo) 4096 eq_refl).
  destruct (turn_bounds (4096 - (src + lo) mod 4096) (n - lo)) as [C1 C2]; [lia..|]. set (c := turn _ _) in *.
  assert (Hck : lo + c <= k) by (eapply turn_in_page; [exact L|exact Hst|lia..]).
  pose proof (located_range _ _ _ _ _ L) as HS. unfold KERNEL_MEMMAP in HS.
  destruct (bcopy_turn cr3 m lo c (S lo) S (fun i => dest + i)) as (m1 & -> & Hm1); auto; try lia.
  { intros i Hi. destruct (Ht i) as [Li _]; [lia|]. rewrite <- (located_page m pd src S lo i) by (done || lia). apply Hk. by eapply located_range. }
  { intros i Hi. destruct (Ht i) as [_ [? _]]; [lia|]. unfold KERNEL_MEMMAP. split_and!; [lia..|done]. }
  { eapply separate_sub; [| |exact Hsep]; lia. }
  cbn [mbind option_bind]. rewrite (s32_id (n - lo - c)) by lia. rewrite <- !Z.add_assoc, <- Z.sub_add_distr.
  destruct (copies_tables _ _ _ _ _ _ cr3 pd Hm1) as [S1 S2]; [intros i Hi; apply Ht; lia|].
  destruct (IH (lo + c) m1) as (m' & -> & Hm'); auto; try lia.
  - by eapply kernel_mapped_same.
  - intros i Hi. destruct (Ht i) as [Li Ui]; [lia|]. split; [by eapply located_same|by eapply unused_same].
  - by eapply stops_same.
  - eapply separate_sub; [| |exact Hsep]; lia.
  - exists m'. split; [done|]. eapply copies_app; [|exact Hsep|exact Hm1|exact Hm']. lia.
Qed.

(** For [vm2vmcopy] the source bytes [S i] are what the current directory has at
    [src + i], wherever [F i] the source directory [spd] has them. *)
Lemma vm2vm_loop_copies fuel cr3 spd dpd src dest n lo S F D m :
  dir_ok cr3 -> dir_ok spd -> dir_ok dpd -> kernel_mapped m cr3 ->
  0 <= lo <= n -> n < 2 ^ 31 -> n - lo <= Z.of_nat fuel -> 0 <= src -> src + n <= 2 ^ 32 -> 0 <= dest -> dest + n <= 2 ^ 32 ->
  (forall i, lo <= i < n -> walk m cr3 (src + i) = Some (S i) /\ located m spd src F i /\ located m dpd dest D i /\
    unused m cr3 dpd (D i) /\ unused m cr3 spd (D i)) -> separate S D lo n ->
  exists m', vm2vm_loop fuel cr3 spd (u32 (src + lo)) dpd (u32 (dest + lo)) (n - lo) m = Some (0, m') /\ copies m S D lo n m'.
Proof.
  intros Hc Hsp Hdp. revert lo m. induction fuel as [|fuel IH]; intros lo m Hk Hlo Hn Hf Hs Hs' Hd Hd' Ht Hsep; cbn [vm2vm_loop];
    (destruct (Z.leb_spec (n - lo) 0); [assert (lo = n) as -> by lia; exists m; split; [by rewrite Z.sub_diag|by apply copies_nil]|]); [lia|].
  rewrite (u32_id (dest + lo)), (u32_id (src + lo)), !lock_page_eq by lia.
  destruct (Ht lo ltac:(lia)) as (_ & LF & LD & _). pose proof (located_rest _ _ _ _ _ LF) as HRF. pose proof (located_rest _ _ _ _ _ LD) as HRD.
  pose proof LF as (RF & EF & _). pose proof LD as (RD & ED & _). unfold resident in RF, RD. rewrite RF, RD, EF, ED. cbn [negb Z.eqb Pos.eqb].
  rewrite HRF, HRD. fold (turn (4096 - (dest + lo) mod 4096) (4096 - (src + lo) mod 4096)).
  pose proof (Z.mod_pos_bound (dest + lo) 4096 eq_refl). pose proof (Z.mod_pos_bound (src + lo) 4096 eq_refl).
  destruct (turn_bounds (4096 - (dest + lo) mod 4096) (4096 - (src + lo) mod 4096)) as [B1 B2]; [lia..|]. set (x := turn _ _) in *.
  fold (turn x (n - lo)). destruct (turn_bounds x (n - lo)) as [C1 C2]; [lia..|]. set (c := turn x _) in *.
  destruct (bcopy_turn cr3 m lo c (src + lo) S D) as (m1 & -> & Hm1); auto; try lia.
  { intros i Hi. replace (src + lo + (i - lo)) with (src + i) by lia. apply Ht. lia. }
  { intros i Hi. destruct (Ht i) as (_ & _ & LDi & [? _] & _); [lia|]. split_and!; [by eapply located_range..| |done]. eapply located_page; [exact LD|exact LDi|lia..]. }
  { eapply separate_sub; [| |exact Hsep]; lia. }
  cbn [mbind option_bind]. rewrite (s32_id (n - lo - c)) by lia. rewrite <- !Z.add_assoc, <- Z.sub_add_distr.
  destruct (copies_tables _ _ _ _ _ _ cr3 dpd Hm1) as [S1 S2]; [intros i Hi; apply Ht; lia|].
  destruct (copies_tables _ _ _ _ _ _ cr3 spd Hm1) as [_ S3]; [intros i Hi; apply Ht; lia|].
  destruct (IH (lo + c) m1) as (m' & -> & Hm'); auto; try lia.
  - by eapply kernel_mapped_same.
  - intros i Hi. destruct (Ht i) as (W & L1 & L2 & U1 & U2); [lia|].
    split_and!; [by rewrite (walk_same m m1)|by eapply located_same|by eapply located_same|by eapply unused_same|by eapply unused_same].
  - eapply separate_sub; [| |exact Hsep]; lia.
  - exists m'. split; [done|]. eapply copies_app; [|exact Hsep|exact Hm1|exact Hm']. lia.
Qed.

(** The copy operations, from the loops. *)
Lemma phys2vmcopy_stops cr3 pd src dest n k D m :
  dir_ok cr3 -> dir_ok pd -> kernel_mapped m cr3 ->
  0 <= k <= n -> n < 2 ^ 31 -> 0 <= src -> src + n <= KERNEL_MEMMAP -> 0 <= dest -> dest + n <= 2 ^ 32 ->
  (forall i, 0 <= i < k -> located m pd dest D i /\ unused m cr3 pd (D i)) -> stops_at m pd dest n k -> separate (fun i => src + i) D 0 k ->
  exists m', phys2vmcopy cr3 src pd dest n m = Some (if n - k =? 0 then 0 else EMEMCOPY, m') /\ copies m (fun i => src + i) D 0 k m'.
Proof.
  intros. destruct (phys2vm_loop_copies (Z.to_nat n) cr3 pd src dest n k 0 D m) as (m' & E & Hm); auto; try lia.
  destruct (Z.le_gt_cases n 0).
  - exists m'. assert (n = 0 /\ k = 0) as [-> ->] by lia. split; [|done]. destruct (Z.to_nat 0) eqn:?; [|lia]. cbn in E. by injection E as <-.
  - rewrite !Z.add_0_r, Z.sub_0_r, !u32_id in E by (unfold KERNEL_MEMMAP in *; lia). exists m'. unfold phys2vmcopy. by rewrite E.
Qed.

Lemma vm2physcopy_stops cr3 pd src dest n k S m :
  dir_ok cr3 -> dir_ok pd -> kernel_mapped m cr3 ->
  0 <= k <= n -> n < 2 ^ 31 -> 0 <= src -> src + n <= 2 ^ 32 -> 0 <= dest -> dest + n <= KERNEL_MEMMAP ->
  (forall i, 0 <= i < k -> located m pd src S i /\ unused m cr3 pd (dest + i)) -> stops_at m pd src n k -> separate S (fun i => dest + i) 0 k ->
  exists m', vm2physcopy cr3 pd src dest n m = Some (if n - k =? 0 then 0 else EMEMCOPY, m') /\ copies m S (fun i => dest + i) 0 k m'.
Proof.
  intros. destruct (vm2phys_loop_copies (Z.to_nat n) cr3 pd src dest n k 0 S m) as (m' & E & Hm); auto; try lia.
  destruct (Z.le_gt_cases n 0).
  - exists m'. assert (n = 0 /\ k = 0) as [-> ->] by lia. split; [|done]. destruct (Z.to_nat 0) eqn:?; [|lia]. cbn in E. by injection E as <-.
  - rewrite !Z.add_0_r, Z.sub_0_r, !u32_id in E by (unfold KERNEL_MEMMAP in *; lia). exists m'. unfold vm2physcopy. by rewrite E.
Qed.

(** * Kernel tables *)

(** The entry that [make_PTE] builds. *)
Definition pte_for (addr avail rw pr gl : Z) : PTE := mk_PTE pr rw (if gl =? 1 then 0 else 1) 1 1 0 0 0 gl avail addr.

Lemma make_PTE_out pt i addr avail rw pr gl m x :
  dir_ok pt -> 0 <= i < 1024 -> x < pt + 4 * i \/ pt + 4 * i + 4 <= x -> ld8 (make_PTE pt i addr avail rw pr gl m) x = ld8 m x.
Proof. intros. unfold make_PTE, put_pte. rewrite entry_at_in by done. apply ld8_st32_out. lia. Qed.
Lemma make_PDE_out pd i addr avail rw pr gl m x :
  dir_ok pd -> 0 <= i < 1024 -> x < pd + 4 * i \/ pd + 4 * i + 4 <= x -> ld8 (make_PDE pd i addr avail rw pr gl m) x = ld8 m x.
Proof. intros. unfold make_PDE, put_pde. rewrite entry_at_in by done. apply ld8_st32_out. lia. Qed.

Lemma get_pte_ext m m' pt i : dir_ok pt -> 0 <= i < 1024 -> (forall x, pt + 4 * i <= x < pt + 4 * i + 4 -> ld8 m' x = ld8 m x) -> get_pte m' pt i = get_pte m pt i.
Proof. intros ? ? H. unfold get_pte. rewrite entry_at_in by done. f_equal. by apply ld32_ext. Qed.
Lemma get_pde_ext m m' pd i : dir_ok pd -> 0 <= i < 1024 -> (forall x, pd + 4 * i <= x < pd + 4 * i + 4 -> ld8 m' x = ld8 m x) -> get_pde m' pd i = get_pde m pd i.
Proof. intros ? ? H. unfold get_pde. rewrite entry_at_in by done. f_equal. by apply ld32_ext. Qed.

Lemma make_entries_spec n pt i addr attr rw pr gl m :
  dir_ok pt -> 0 <= i -> i + Z.of_nat n <= 1024 -> 0 <= addr -> addr + Z.of_nat n <= 2 ^ 20 -> 0 <= attr < 8 -> 0 <= rw < 2 -> 0 <= pr < 2 -> 0 <= gl < 2 ->
  (forall j, i <= j < i + Z.of_nat n -> get_pte (make_entries n pt i addr attr rw pr gl m) pt j = pte_for (addr + (j - i)) attr rw pr gl) /\
  (forall x, x < pt + 4 * i \/ pt + 4 * (i + Z.of_nat n) <= x -> ld8 (make_entries n pt i addr attr rw pr gl m) x = ld8 m x).
Proof.
  intros Hp. revert i addr m. induction n as [|n IH]; intros i addr m Hi Hn Ha Han Hav Hrw Hpr Hgl; cbn [make_entries]; [split; [lia|done]|].
  rewrite Nat2Z.inj_succ in *. rewrite (u32_id (addr + 1)) by lia.
  destruct (IH (i + 1) (addr + 1) (make_PTE pt i addr attr rw pr gl m)) as [A B]; try lia. split.
  - intros j Hj. destruct (decide (j = i)) as [->|].
    + rewrite (get_pte_ext (make_PTE pt i addr attr rw pr gl m)) by (done || lia || (intros; apply B; lia)).
      rewrite get_pte_make by lia. unfold pte_for. f_equal. lia.
    + rewrite A by lia. f_equal. lia.
  - intros x Hx. rewrite B by lia. apply make_PTE_out; lia || done.
Qed.

Lemma make_page_table_spec pt addr attr rw pr gl m :
  dir_ok pt -> 0 <= addr -> addr + 1024 <= 2 ^ 20 -> 0 <= attr < 8 -> 0 <= rw < 2 -> 0 <= pr < 2 -> 0 <= gl < 2 ->
  (forall j, 0 <= j < 1024 -> get_pte (make_page_table pt 0 1024 addr attr rw pr gl m) pt j = pte_for (addr + j) attr rw pr gl) /\
  (forall x, ~ in_table pt x -> ld8 (make_page_table pt 0 1024 addr attr rw pr gl m) x = ld8 m x).
Proof.
  intros. assert (HN : Z.of_nat (Z.to_nat 1024) = 1024) by lia. unfold make_page_table. generalize dependent (Z.to_nat 1024). intros N HN.
  destruct (make_entries_spec N pt 0 addr attr rw pr gl m) as [A B]; [done|lia..|]. split.
  - intros j Hj. rewrite A by lia. f_equal. lia.
  - unfold in_table. intros x Hx. apply B. lia.
Qed.

Lemma kernel_tables_S n kpd kpt i m :
  kernel_tables (S n) kpd kpt i m =
  kernel_tables n kpd kpt (i + 1) (make_page_table (u32 (kpt + 4096 * i)) 0 1024 (u32 (Z.shiftr (s32 (i * 0x00400000)) 12)) 0 1 1 1
    (make_PDE kpd i (Z.shiftr (u32 (kpt + 4096 * i)) 12) 0 1 1 1 m)).
Proof. reflexivity. Qed.

(** The tables from [i] on are at [kpt], one page each, and map page [1024 j + t]
    to itself. *)
Lemma kernel_tables_spec n kpd kpt i m :
  dir_ok kpd -> 0 <= kpt -> kpt mod 4096 = 0 -> 0 <= i -> i + Z.of_nat n <= 128 -> kpt + 4096 * 128 <= 2 ^ 32 ->
  (kpd + 4096 <= kpt \/ kpt + 4096 * 128 <= kpd) ->
  let m' := kernel_tables n kpd kpt i m in
  (forall j, i <= j < i + Z.of_nat n -> pd_present (get_pde m' kpd j) = 1 /\ base_of m' kpd j = kpt + 4096 * j /\
    forall t, 0 <= t < 1024 -> get_pte m' (kpt + 4096 * j) t = pte_for (1024 * j + t) 0 1 1 1) /\
  (forall x, ~ (kpd + 4 * i <= x < kpd + 4 * (i + Z.of_nat n)) -> ~ (kpt + 4096 * i <= x < kpt + 4096 * (i + Z.of_nat n)) -> ld8 m' x = ld8 m x).
Proof.
  intros Hd Hk Ha. revert i m. induction n as [|n IH]; intros i m Hi Hn Hr Hdis; cbv zeta; [split; [lia|done]|].
  rewrite kernel_tables_S. rewrite Nat2Z.inj_succ in *. rewrite (u32_id (kpt + 4096 * i)), (s32_id (i * 0x400000)) by lia.
  rewrite (Z.shiftr_div_pow2 (i * 0x400000)) by lia. replace (i * 0x400000 / 2 ^ 12) with (1024 * i) by (change (2 ^ 12) with 4096; Z.div_mod_to_equations; lia).
  rewrite (u32_id (1024 * i)) by lia. 
  set (m1 := make_PDE kpd i _ 0 1 1 1 m). set (m2 := make_page_table _ _ _ _ _ _ _ _ m1).
  destruct (make_page_table_spec (kpt + 4096 * i) (1024 * i) 0 1 1 1 m1) as [A2 B2]; [unfold dir_ok; lia|lia..|]. fold m2 in A2, B2. unfold in_table in B2.
  destruct (IH (i + 1) m2) as [A B]; [lia..|]. split.
  - intros j Hj. destruct (decide (j = i)) as [->|]; [|apply A; lia].
    assert (E : get_pde (kernel_tables n kpd kpt (i + 1) m2) kpd i = get_pde m1 kpd i).
    { apply get_pde_ext; [done|lia|]. intros x Hx. rewrite B, B2 by lia. done. }
    unfold base_of. rewrite E. unfold m1. rewrite get_pde_make; [|rewrite Z.shiftr_div_pow2 by lia; change (2 ^ 12) with 4096; Z.div_mod_to_equations; lia|lia..].
    cbn [pd_present page_table_base_addr]. split; [done|]. split.
    + rewrite Z.shiftr_div_pow2, Z.shiftl_mul_pow2 by lia. change (2 ^ 12) with 4096. Z.div_mod_to_equations; lia.
    + intros t Ht. rewrite (get_pte_ext m2); [|unfold dir_ok; lia|lia|intros x Hx; apply B; lia]. by rewrite A2 by lia.
  - intros x Hx1 Hx2. rewrite B, B2 by lia. apply make_PDE_out; lia || done.
Qed.

(** Tables like these are the identity below [KERNEL_MEMMAP]. *)
Lemma tables_identity m pd kpt :
  (forall j, 0 <= j < 128 -> pd_present (get_pde m pd j) = 1 /\ base_of m pd j = kpt + 4096 * j /\
    forall t, 0 <= t < 1024 -> get_pte m (kpt + 4096 * j) t = pte_for (1024 * j + t) 0 1 1 1) ->
  kernel_mapped m pd.
Proof.
  intros H a Ha. unfold KERNEL_MEMMAP in Ha. rewrite walk_eq.
  assert (Hj : pdi a = a / 2 ^ 22) by (unfold pdi; rewrite field_div by lia; apply Z.mod_small; change (2 ^ 22) with 4194304; Z.div_mod_to_equations; lia).
  destruct (H (pdi a)) as (E1 & E2 & E3); [rewrite Hj; change (2 ^ 22) with 4194304; Z.div_mod_to_equations; lia|].
  rewrite E1, entry_of_eq, E2, E3 by apply pti_range. cbn [pte_for present Z.eqb]. f_equal. rewrite frame_addr_eq; cbn [pte_for page_base_addr].
  - rewrite Hj. unfold pti. rewrite field_div by lia. change (2 ^ 22) with 4194304. change (2 ^ 12) with 4096. change (2 ^ 10) with 1024. Z.div_mod_to_equations; lia.
  - pose proof (pdi_range a). pose proof (pti_range a). lia.
Qed.

Lemma fill_zero_spec n a m :
  (forall x, a <= x < a + Z.of_nat n -> ld8 (fill_zero n a m) x = 0) /\ (forall x, x < a \/ a + Z.of_nat n <= x -> ld8 (fill_zero n a m) x = ld8 m x).
Proof.
  revert a m. induction n as [|n IH]; intros a m; cbn [fill_zero]; [split; [lia|done]|]. rewrite Nat2Z.inj_succ.
  destruct (IH (a + 1) (st8 m a 0)) as [A B]. split.
  - intros x Hx. destruct (decide (x = a)) as [->|]; [rewrite B, ld8_st8_eq by lia; done|apply A; lia].
  - intros x Hx. rewrite B by lia. apply ld8_st8_ne. lia.
Qed.
Lemma bzero_in a n m x : 0 <= n < 2 ^ 32 -> a <= x < a + n -> ld8 (bzero a n m) x = 0.
Proof. intros. unfold bzero. apply fill_zero_spec. rewrite u32_id; lia. Qed.
Lemma bzero_out a n m x : 0 <= n < 2 ^ 32 -> x < a \/ a + n <= x -> ld8 (bzero a n m) x = ld8 m x.
Proof. intros. unfold bzero. apply fill_zero_spec. rewrite u32_id; lia. Qed.
Lemma get_pde_zero m pd i : dir_ok pd -> 0 <= i < 1024 -> (forall x, pd + 4 * i <= x < pd + 4 * i + 4 -> ld8 m x = 0) -> get_pde m pd i = pde_of_word 0.
Proof. intros ? ? H. unfold get_pde, ld32. rewrite entry_at_in, !H by (done || lia). done. Qed.
Lemma get_pte_zero m pt i : dir_ok pt -> 0 <= i < 1024 -> (forall x, pt + 4 * i <= x < pt + 4 * i + 4 -> ld8 m x = 0) -> get_pte m pt i = pte_of_word 0.
Proof. intros ? ? H. unfold get_pte, ld32. rewrite entry_at_in, !H by (done || lia). done. Qed.

(** C35: The kernel's address space.  When the page allocator gives the 128 pages for
    the tables, page aligned and apart from the page directory, then after
    [initialize_kernel_pagetables] the processor translates every address below
    [KERNEL_MEMMAP] to itself and faults on every address above it, whatever the
    memory held before; no byte outside the directory and the tables changes. *)
Theorem kernel_identity kpd c ch c' m :
  dir_ok kpd -> core_alloc 128 c = Some (ch, c') -> phys_addr ch mod 4096 = 0 -> 0 < phys_addr ch -> phys_addr ch + 4096 * 128 <= 2 ^ 32 ->
  kpd + 4096 <= phys_addr ch \/ phys_addr ch + 4096 * 128 <= kpd ->
  exists m', initialize_kernel_pagetables kpd c m = Some (phys_addr ch, c', m') /\ kernel_mapped m' kpd /\
    (forall a, KERNEL_MEMMAP <= a < 2 ^ 32 -> walk m' kpd a = None) /\
    (forall x, ~ in_table kpd x -> ~ (phys_addr ch <= x < phys_addr ch + 4096 * 128) -> ld8 m' x = ld8 m x).
Proof.
  intros Hd Hc Ha Hp Hr Hdis. unfold initialize_kernel_pagetables.
  change (Z.land (Z.shiftr (KERNEL_MEMMAP + 0x3fffff) 22) 0x3ff) with 128. rewrite Hc. cbn [mbind option_bind].
  set (m0 := bzero (phys_addr ch) 4 _). assert (HN : Z.of_nat (Z.to_nat 128) = 128) by lia. generalize dependent (Z.to_nat 128). intros N HN.
  eexists. split; [reflexivity|]. destruct (kernel_tables_spec N kpd (phys_addr ch) 0 m0) as [A B]; [done|lia..|]. split; [apply (tables_identity _ _ (phys_addr ch)); intros j Hj; apply A; lia|]. split.
  - intros a Hlim. unfold KERNEL_MEMMAP in Hlim. rewrite walk_eq.
    assert (Hj : 128 <= pdi a < 1024).
    { split; [|apply pdi_range]. unfold pdi. rewrite field_div by lia. change (2 ^ 10) with 1024. change (2 ^ 22) with 4194304. Z.div_mod_to_equations; lia. }
    rewrite get_pde_zero; [done|done|lia|]. intros x Hx. rewrite B by lia. unfold m0. rewrite bzero_out, bzero_in by lia. done.
  - unfold in_table. intros x Hx1 Hx2. rewrite B by lia. unfold m0. by rewrite !bzero_out by lia.
Qed.

(** Copying into an address space.  [phys2vmcopy] of [n] bytes from the kernel's
    memory to the logical address [dest] of the space with directory [pd]: if the
    bytes before [k] are resident, at distinct places that hold neither the source
    nor a page table in use, and [k] is [n] or the first byte that is not resident,
    then exactly those [k] bytes arrive where the processor would find them, no
    other byte of memory changes, and the result is 0 or [EMEMCOPY] accordingly. *)
Theorem phys2vmcopy_copies cr3 pd src dest n k D m :
  dir_ok cr3 -> dir_ok pd -> kernel_mapped m cr3 ->
  0 <= k <= n -> n < 2 ^ 31 -> 0 <= src -> src + n <= KERNEL_MEMMAP -> 0 <= dest -> dest + n <= 2 ^ 32 ->
  (forall i, 0 <= i < k -> located m pd dest D i /\ unused m cr3 pd (D i)) -> stops_at m pd dest n k -> separate (fun i => src + i) D 0 k ->
  exists m', phys2vmcopy cr3 src pd dest n m = Some (if n - k =? 0 then 0 else EMEMCOPY, m') /\
    (forall i, 0 <= i < k -> ld8 m' (D i) = ld8 m (src + i)) /\ (forall x, (forall i, 0 <= i < k -> x <> D i) -> ld8 m' x = ld8 m x).
Proof. apply phys2vmcopy_stops. Qed.

(** Copying in and out again.  What [phys2vmcopy] put at a logical address,
    [vm2physcopy] from that address brings back, byte for byte, to any kernel
    buffer apart from the tables and from the pages of the first copy. *)
Theorem copy_round_trip cr3 pd src dest back n D m :
  dir_ok cr3 -> dir_ok pd -> kernel_mapped m cr3 -> 0 <= n < 2 ^ 31 ->
  0 <= src -> src + n <= KERNEL_MEMMAP -> 0 <= dest -> dest + n <= 2 ^ 32 -> 0 <= back -> back + n <= KERNEL_MEMMAP ->
  (forall i, 0 <= i < n -> located m pd dest D i /\ unused m cr3 pd (D i) /\ unused m cr3 pd (back + i)) ->
  separate (fun i => src + i) D 0 n -> (forall i j, 0 <= i < n -> 0 <= j < n -> D i <> back + j) ->
  exists m1 m2, phys2vmcopy cr3 src pd dest n m = Some (0, m1) /\ vm2physcopy cr3 pd dest back n m1 = Some (0, m2) /\
    forall i, 0 <= i < n -> ld8 m2 (back + i) = ld8 m (src + i).
Proof.
  intros Hc Hp Hk Hn ? ? ? ? ? ? HL Hsep Hb.
  destruct (phys2vmcopy_stops cr3 pd src dest n n D m) as (m1 & E1 & M1); auto; try lia; [|by left|].
  { intros i Hi. destruct (HL i Hi) as (? & ? & ?). auto. }
  destruct (copies_tables _ _ _ _ _ _ cr3 pd M1) as [S1 S2]; [intros i Hi; apply HL; lia|].
  destruct (vm2physcopy_stops cr3 pd dest back n n D m1) as (m2 & E2 & M2); auto; try lia; [by eapply kernel_mapped_same| |by left| |].
  - intros i Hi. destruct (HL i Hi) as (? & ? & ?). split; [by eapply located_same|by eapply unused_same].
  - split; [intros; lia|]. intros i j Hi Hj E. by apply (Hb j i).
  - rewrite Z.sub_diag in E1, E2. exists m1, m2. split_and!; [done..|]. intros i Hi. destruct M1 as [A _], M2 as [A' _]. by rewrite A', A.
Qed.

(** [vm2vmcopy] reads from the current address space.  It translates [src] with the
    source's directory [spd] and then copies from [src] as it is: what arrives is
    what the directory in [cr3] has at [src], so that the copy is right exactly
    when the source is the running process. *)
Theorem vm2vmcopy_reads_current cr3 spd dpd src dest n S F D m :
  dir_ok cr3 -> dir_ok spd -> dir_ok dpd -> kernel_mapped m cr3 ->
  0 <= n < 2 ^ 31 -> 0 <= src -> src + n < 2 ^ 32 -> 0 <= dest -> dest + n < 2 ^ 32 ->
  (forall i, 0 <= i < n -> walk m cr3 (src + i) = Some (S i) /\ located m spd src F i /\ located m dpd dest D i /\
    unused m cr3 dpd (D i) /\ unused m cr3 spd (D i)) -> separate S D 0 n ->
  exists m', vm2vmcopy cr3 spd src dpd dest n m = Some (0, m') /\ (forall i, 0 <= i < n -> ld8 m' (D i) = ld8 m (S i)) /\ (cr3 = spd -> forall i, 0 <= i < n -> F i = S i).
Proof.
  intros Hc Hs Hd Hk Hn ? ? ? ? HL Hsep.
  destruct (vm2vm_loop_copies (Z.to_nat n) cr3 spd dpd src dest n 0 S F D m) as (m' & E & [A _]); auto; try lia.
  rewrite !Z.add_0_r, Z.sub_0_r, !u32_id in E by lia. exists m'. unfold vm2vmcopy. rewrite E. split; [done|]. split; [done|].
  intros -> i Hi. destruct (HL i Hi) as (W & (_ & <- & _) & _). by apply walk_l2p in W as [_ W].
Qed.

(** * Attributes, frames and missing tables *)

Lemma ld32_range m a : 0 <= ld32 m a < 2 ^ 32.
Proof.
  unfold ld32. pose proof (ld8_range m a). pose proof (ld8_range m (a + 1)). pose proof (ld8_range m (a + 2)). pose proof (ld8_range m (a + 3)).
  change (2 ^ 8) with 256 in *. change (2 ^ 16) with 65536. change (2 ^ 24) with 16777216. lia.
Qed.

Definition pte_wf (e : PTE) : Prop :=
  0 <= present e < 2 /\ 0 <= read_write e < 2 /\ 0 <= user e < 2 /\ 0 <= write_through e < 2 /\ 0 <= cache_disable e < 2 /\ 0 <= accessed e < 2 /\
  0 <= dirty e < 2 /\ 0 <= reserved e < 2 /\ 0 <= global e < 2 /\ 0 <= available e < 8 /\ 0 <= page_base_addr e < 2 ^ 20.

Lemma pte_of_word_wf w : pte_wf (pte_of_word w).
Proof. unfold pte_wf, pte_of_word; cbn [present read_write user write_through cache_disable accessed dirty reserved global available page_base_addr].
  repeat match goal with |- _ /\ _ => split end; apply field_range; lia. Qed.
Lemma pte_word_round e : pte_wf e -> pte_of_word (word_of_pte e) = e.
Proof.
  intros (? & ? & ? & ? & ? & ? & ? & ? & ? & ? & ?). unfold pte_of_word, word_of_pte.
  destruct (word_fields (present e) (read_write e) (user e) (write_through e) (cache_disable e) (accessed e) (dirty e) (reserved e) (global e) (available e) (page_base_addr e))
    as (-> & -> & -> & -> & -> & -> & -> & -> & -> & -> & ->). rewrite !Z.mod_small by lia. by destruct e.
Qed.

(** The entry after [vm_setattr]. *)
Definition set_attrs (e : PTE) (avail rw pres glob acc dirt : option Z) : PTE :=
  mk_PTE (default (present e) pres) (default (read_write e) rw) (user e) (write_through e) (cache_disable e) (default (accessed e) acc)
    (default (dirty e) dirt) (reserved e) (default (global e) glob) (default (available e) avail) (page_base_addr e).

Definition bit_arg (v : option Z) : Prop := forall x, v = Some x -> 0 <= x < 2.

(** Attributes.  Where the directory has a table for the page, [vm_setattr] with
    attributes that fit their fields changes these fields of the page's entry, keeps
    the others and the frame, and no byte outside the entry; without a table the
    result is -1 and memory is unchanged. *)
Theorem vm_setattr_sets m pd lpage avail rw pres glob acc dirt :
  dir_ok pd -> bit_arg rw -> bit_arg pres -> bit_arg glob -> bit_arg acc -> bit_arg dirt -> (forall x, avail = Some x -> 0 <= x < 8) ->
  let t := base_of m pd (field lpage 10 10) in let j := field lpage 0 10 in
  let '(r, m') := vm_setattr m pd lpage avail rw pres glob acc dirt in
  (t = 0 -> r = -1 /\ m' = m) /\
  (t <> 0 -> r = 0 /\ get_pte m' t j = set_attrs (get_pte m t j) avail rw pres glob acc dirt /\
    forall x, x < t + 4 * j \/ t + 4 * j + 4 <= x -> ld8 m' x = ld8 m x).
Proof.
  intros Hd Hrw Hpr Hgl Hac Hdi Hav. cbv zeta. unfold vm_setattr, vm_getptentry. change (Z.land (Z.shiftr lpage 10) 0x3ff) with (field lpage 10 10).
  fold (base_of m pd (field lpage 10 10)). pose proof (base_of_ok m pd (field lpage 10 10)) as Ht. set (t := base_of _ _ _) in *.
  replace (Z.land lpage 0x3ff) with (field lpage 0 10) by (unfold field; by rewrite Z.shiftr_0_r). assert (Hj : 0 <= field lpage 0 10 < 1024) by by apply field_range.
  set (j := field lpage 0 10) in *. destruct (Z.eqb_spec t 0) as [->|Hne]; cbn [negb]; [by split|].
  rewrite entry_at_in by done. assert (t + 4 * j <> 0) by (unfold dir_ok in *; lia). rewrite (proj2 (Z.eqb_neq _ _)) by done. cbn [negb]. split; [done|]. intros _.
  split; [done|]. split; [|intros x Hx; by apply ld8_st32_out]. unfold get_pte. rewrite entry_at_in, ld32_st32_eq by first [done|apply word_range].
  rewrite pte_word_round; [done|]. destruct (pte_of_word_wf (ld32 m (t + 4 * j))) as (? & ? & ? & ? & ? & ? & ? & ? & ? & ? & ?).
  unfold pte_wf; cbn [present read_write user write_through cache_disable accessed dirty reserved global available page_base_addr].
  repeat match goal with |- (_ /\ _) /\ _ => split | |- _ /\ (_ /\ _) => split end; auto;
    match goal with |- context [default _ ?o] => destruct o as [v|] eqn:Eo; cbn [default]; [by eauto|done] end.
Qed.

(** A page that [alloc_frame_memory] reports as mapped is still not present: it
    makes the entry with the present bit clear, and the next access faults again. *)
Theorem frame_memory_not_present segs pd pageno c m c' m' :
  alloc_frame_memory segs pd pageno c m = Some (0, c', m') -> get_pte m' (base_of m pd (field pageno 10 10)) (field pageno 0 10) =
    pte_for (page_base_addr (get_pte m' (base_of m pd (field pageno 10 10)) (field pageno 0 10))) 0 0 0 0.
Proof.
  unfold alloc_frame_memory. intros H. step H as [ch c1] from E. destruct (_ <? 1); [done|]. change (Z.land (Z.shiftr pageno 10) 0x3ff) with (field pageno 10 10) in H.
  fold (base_of m pd (field pageno 10 10)) in H. destruct (_ =? 0); [by step H as c2 from E2|]. injection H as <- <-.
  replace (Z.land pageno 0x3ff) with (field pageno 0 10) by (unfold field; by rewrite Z.shiftr_0_r).
  rewrite get_pte_make by first [lia|change 0x000fffff with (Z.ones 20); rewrite Z.land_ones by lia; by apply Z.mod_pos_bound]. done.
Qed.

(** Without a table for an address, [lock_page] and [logical2physical] take the
    words at the bottom of memory for one: if the word there has its low bit set,
    the page counts as resident, in the frame that the word's high bits name. *)
Theorem null_table_reads_low_memory m pd a :
  base_of m pd (pdi a) = 0 -> field (ld32 m (4 * pti a)) 0 1 = 1 ->
  lock_page m pd a = 0 /\ logical2physical m pd a = 4096 * field (ld32 m (4 * pti a)) 12 20 + a mod 4096.
Proof.
  intros Hb Hw. assert (E : entry_of m pd a = pte_of_word (ld32 m (4 * pti a))).
  { rewrite entry_of_eq, Hb. unfold get_pte. rewrite entry_at_in; [done|unfold dir_ok; lia|apply pti_range]. }
  assert (R : resident m pd a) by (unfold resident; by rewrite E). rewrite l2p_eq, lock_page_eq by done. unfold resident in R. by rewrite R, E.
Qed.

(** * Segment descriptors *)

(** The segment a descriptor describes to the processor: the base, and the last
    offset inside it. *)
Definition desc_base (d : segdesc) : Z := base_low d + 2 ^ 16 * base_middle d + 2 ^ 24 * base_high d.
Definition desc_limit (d : segdesc) : Z :=
  let l := limit_low d + 2 ^ 16 * field (granularity d) 0 4 in
  if field (granularity d) 7 1 =? 1 then 4096 * l + 4095 else l.

Lemma gran_fields h b : 0 <= h < 16 -> b = 0 \/ b = GRANULAR ->
  let g := u8 (Z.lor (u8 (Z.lor b h)) DEFAULT) in field g 0 4 = h /\ field g 7 1 = (if b =? 0 then 0 else 1).
Proof.
  intros Hh Hb. assert (H : h ∈ seqZ 0 16) by (apply elem_of_seqZ; lia). clear Hh. revert h H. apply Forall_forall.
  destruct Hb as [-> | ->]; repeat (constructor; [by vm_compute|]); constructor.
Qed.

Lemma sdesc_spec d base size :
  0 <= base < 2 ^ 32 -> 0 <= size < 2 ^ 32 ->
  desc_base (sdesc d base size) = base /\ access (sdesc d base size) = access d /\
  desc_limit (sdesc d base size) = (let last := if size =? 0 then 2 ^ 32 - 1 else size - 1 in
    if last <=? BYTE_GRAN_MAX then last else 4096 * (last / 4096) + 4095).
Proof.
  intros Hb Hs. assert (E : u32 (size - 1) = if size =? 0 then 2 ^ 32 - 1 else size - 1) by (case_ztest; u32_lia).
  unfold sdesc, desc_base, desc_limit. cbv zeta. rewrite <- E. pose proof (u32_range (size - 1)) as Hr. set (l := u32 (size - 1)) in *. unfold BYTE_GRAN_MAX.
  split; [|split]; [destruct (_ <? l); cbn [base_low base_middle base_high]; rewrite !Z.shiftr_div_pow2 by lia; unfold u16, u8;
     change (2 ^ 16) with 65536; change (2 ^ 8) with 256; change (2 ^ 24) with 16777216; Z.div_mod_to_equations; lia|by destruct (_ <? l)|].
  destruct (Z.ltb_spec 0xfffff l), (Z.leb_spec l 0xfffff); try lia; cbn [limit_low granularity].
  - rewrite !Z.shiftr_div_pow2 by lia. change (12 + 16) with 28. change (2 ^ 28) with 268435456. change (2 ^ 12) with 4096.
    destruct (gran_fields (l / 268435456) GRANULAR) as [-> ->]; [Z.div_mod_to_equations; lia|by right|]. cbn [Z.eqb GRANULAR Pos.eqb].
    unfold u16. change (2 ^ 16) with 65536. Z.div_mod_to_equations; lia.
  - rewrite !Z.shiftr_div_pow2 by lia. change (2 ^ 16) with 65536.
    destruct (gran_fields (l / 65536) 0) as [E1 E2]; [Z.div_mod_to_equations; lia|by left|]. rewrite Z.lor_0_l in E1, E2. rewrite E1, E2. cbn [Z.eqb].
    unfold u16. change (2 ^ 16) with 65536. Z.div_mod_to_equations; lia.
Qed.

(** Segment descriptors.  [sdesc] describes the segment it is asked for: the base
    as given, and a limit of exactly [size - 1] for a segment of at most 1 MB, or
    [size - 1] rounded up to the last byte of its page for a larger one; a size of 0
    is 4 GB.  The access byte is kept. *)
Theorem sdesc_describes d base size :
  0 <= base < 2 ^ 32 -> 0 <= size < 2 ^ 32 ->
  desc_base (sdesc d base size) = base /\ access (sdesc d base size) = access d /\
  desc_limit (sdesc d base size) = (let last := if size =? 0 then 2 ^ 32 - 1 else size - 1 in
    if last <=? BYTE_GRAN_MAX then last else 4096 * (last / 4096) + 4095).
Proof. apply sdesc_spec. Qed.

(** The descriptor of a process's table. *)
Definition ldt_desc (d : segdesc) (a : Z) : Prop := desc_base d = a /\ desc_limit d = SIZEOF_LDT - 1 /\ access d = 0x82.

Lemma gdt_loop_spec n a i gdt :
  0 <= i -> i + Z.of_nat n <= zlen gdt -> 0 <= a -> a + 24 * Z.of_nat n <= 2 ^ 32 ->
  exists gdt', gdt_loop n a i gdt = Some gdt' /\
    (forall k, 0 <= k < Z.of_nat n -> exists d, zget gdt' (i + k) = Some d /\ ldt_desc d (a + 24 * k)) /\
    (forall j, j < i \/ i + Z.of_nat n <= j -> zget gdt' j = zget gdt j).
Proof.
  revert a i gdt. induction n as [|n IH]; intros a i gdt Hi Hl Ha Hr; cbn [gdt_loop]; [exists gdt; split; [done|split; [lia|done]]|].
  rewrite Nat2Z.inj_succ in *. destruct (zget_is_Some gdt i ltac:(lia)) as [d ->]. cbn [mbind option_bind]. set (d' := mk_segdesc _ _ _ _ _ _).
  rewrite (zset_Some gdt i d') by lia. cbn [mbind option_bind]. assert (Es : zset gdt i d' = Some (<[Z.to_nat i := d']> gdt)) by (apply zset_Some; lia).
  assert (Hd : ldt_desc d' a).
  { unfold initialize_dataseg in d'. destruct (sdesc_spec d a SIZEOF_LDT) as (B & _ & L); [unfold SIZEOF_LDT; lia..|]. split_and!; [exact B|exact L|done]. }
  destruct n as [|n].
  { exists (<[Z.to_nat i := d']> gdt). split; [done|]. split.
    - intros k Hk. replace k with 0 by lia. rewrite Z.add_0_r, Z.mul_0_r, Z.add_0_r. exists d'. split; [by eapply zget_zset_eq|done].
    - intros j Hj. eapply zget_zset_ne; [exact Es|lia]. }
  unfold SIZEOF_LDT at 1. rewrite (u32_id (a + 24)) by lia. destruct (IH (a + 24) (i + 1) (<[Z.to_nat i := d']> gdt)) as (g & -> & A & B); try lia.
  { rewrite (zlen_zset _ _ _ _ Es). lia. }
  exists g. split; [done|]. split.
  - intros k Hk. destruct (decide (k = 0)) as [->|].
    + rewrite Z.add_0_r, Z.mul_0_r, Z.add_0_r. exists d'. rewrite B by lia. split; [by eapply zget_zset_eq|done].
    + destruct (A (k - 1)) as (e & E1 & E2); [lia|]. exists e. replace (i + k) with (i + 1 + (k - 1)) by lia. by replace (a + 24 * k) with (a + 24 + 24 * (k - 1)) by lia.
  - intros j Hj. rewrite B by lia. eapply zget_zset_ne; [exact Es|lia].
Qed.

Lemma gdt_loop_length n a i gdt g : gdt_loop n a i gdt = Some g -> zlen g = zlen gdt.
Proof.
  revert a i gdt. induction n as [|n IH]; intros a i gdt; cbn [gdt_loop]; [by intros [= ->]|]. destruct (zget gdt i) as [d|]; [|done]. cbn [mbind option_bind].
  destruct (zset gdt i _) as [gdt1|] eqn:E; [|done]. cbn [mbind option_bind]. intros ->%IH. apply zset_inv in E as [_ ->]. unfold zlen. by rewrite length_insert.
Qed.

(** After [initialize_gdt] the descriptor of the global table covers all its entries, entry [LDTDESC_START + k] of the global table describes
    exactly the local table of process slot [k], and the entries below are as before. *)
Theorem gdt_describes_ldts gdt_table ldt_table gdt :
  zlen gdt = GDT_SIZE -> 0 <= ldt_table -> ldt_table + SIZEOF_LDT * MAXPROCESSES <= 2 ^ 32 ->
  exists gdt', initialize_gdt gdt_table ldt_table gdt = Some (mk_table_desc (8 * zlen gdt' - 1) gdt_table 0, gdt') /\
    (forall k, 0 <= k < MAXPROCESSES -> exists d, zget gdt' (LDTDESC_START + k) = Some d /\ ldt_desc d (ldt_table + SIZEOF_LDT * k)) /\
    (forall j, j < LDTDESC_START -> zget gdt' j = zget gdt j).
Proof.
  unfold GDT_SIZE, SIZEOF_LDT, MAXPROCESSES, LDTDESC_START. intros Hl H0 Hr.
  destruct (gdt_loop_spec (Z.to_nat 32) ldt_table 276 gdt) as (g & E & A & B); [lia..|]. exists g. unfold initialize_gdt, MAXPROCESSES, LDTDESC_START. rewrite E. cbn [mbind option_bind].
  split; [|split; [apply A|intros j Hj; apply B; lia]]. rewrite (gdt_loop_length _ _ _ _ _ E), Hl. reflexivity.
Qed.

(** * Witnesses *)

(** The kernel's directory at 0x5000 with its tables at 1 MB, one more table at
    2 MB, and two pages of it at 3 MB. *)
Definition ex_kernel_aux : seal (kernel_tables (Z.to_nat 128) 0x5000 0x100000 0 ∅).
Proof. by eexists. Qed.
Definition ex_kernel : mem := ex_kernel_aux.(unseal).
Definition ex_mem : mem :=
  make_PTE 0x200000 1 0x301 0 1 1 0 (make_PTE 0x200000 0 0x300 0 1 1 0 (make_PDE 0x5000 128 0x200 0 1 1 0 ex_kernel)).

Lemma ex_dir : dir_ok 0x5000.
Proof. unfold dir_ok. lia. Qed.
Lemma ex_table : dir_ok 0x200000.
Proof. unfold dir_ok. lia. Qed.

Lemma ex_kernel_spec :
  (forall j, 0 <= j < 128 -> pd_present (get_pde ex_kernel 0x5000 j) = 1 /\ base_of ex_kernel 0x5000 j = 0x100000 + 4096 * j /\
    forall t, 0 <= t < 1024 -> get_pte ex_kernel (0x100000 + 4096 * j) t = pte_for (1024 * j + t) 0 1 1 1) /\
  (forall x, ~ (0x5000 <= x < 0x5200) -> ~ (0x100000 <= x < 0x180000) -> ld8 ex_kernel x = 0).
Proof.
  unfold ex_kernel. rewrite (seal_eq ex_kernel_aux). assert (HN : Z.of_nat (Z.to_nat 128) = 128) by lia.
  generalize dependent (Z.to_nat 128). intros N HN.
  destruct (kernel_tables_spec N 0x5000 0x100000 0 ∅) as [A B]; [apply ex_dir|lia|reflexivity|lia|lia|lia|lia|]. split.
  - intros j Hj. apply A. lia.
  - intros x H1 H2. rewrite B by lia. reflexivity.
Qed.

Lemma ex_pde j : 0 <= j < 1024 -> j <> 128 -> get_pde ex_mem 0x5000 j = get_pde ex_kernel 0x5000 j.
Proof.
  intros Hj Hne. unfold ex_mem. apply get_pde_ext; [apply ex_dir|done|]. intros x Hx.
  
  rewrite make_PTE_out, make_PTE_out, make_PDE_out by (apply ex_table || apply ex_dir || lia). reflexivity.
Qed.
Lemma ex_pde_user : pd_present (get_pde ex_mem 0x5000 128) = 1 /\ base_of ex_mem 0x5000 128 = 0x200000.
Proof.
  unfold base_of, ex_mem. rewrite (get_pde_ext (make_PDE 0x5000 128 0x200 0 1 1 0 ex_kernel)); [by rewrite get_pde_make by lia|apply ex_dir|lia|].
  intros x Hx. rewrite make_PTE_out, make_PTE_out by (apply ex_table || lia). reflexivity.
Qed.
Lemma ex_kernel_tables j : 0 <= j < 128 ->
  pd_present (get_pde ex_mem 0x5000 j) = 1 /\ base_of ex_mem 0x5000 j = 0x100000 + 4096 * j /\
  forall t, 0 <= t < 1024 -> get_pte ex_mem (0x100000 + 4096 * j) t = pte_for (1024 * j + t) 0 1 1 1.
Proof.
  intros Hj. destruct (proj1 ex_kernel_spec j) as (P & B & T); [lia|]. unfold base_of in *. rewrite ex_pde by lia. split; [done|]. split; [done|].
  intros t Ht. rewrite <- T by done. apply get_pte_ext; [unfold dir_ok; lia|done|]. intros x Hx. unfold ex_mem.
  
  rewrite make_PTE_out, make_PTE_out, make_PDE_out by (apply ex_table || apply ex_dir || lia). reflexivity.
Qed.
Lemma ex_rest j : 128 < j < 1024 -> base_of ex_mem 0x5000 j = 0.
Proof.
  intros Hj. unfold base_of. rewrite ex_pde by lia. 
  by rewrite get_pde_zero; [|apply ex_dir|lia|intros x Hx; apply ex_kernel_spec; lia].
Qed.
Lemma ex_kernel_mapped : kernel_mapped ex_mem 0x5000.
Proof. apply (tables_identity _ _ 0x100000), ex_kernel_tables. Qed.
Lemma ex_unused x : 0x300000 <= x < 0x400000 -> unused ex_mem 0x5000 0x5000 x.
Proof.
  intros Hx. assert (~ table_byte ex_mem 0x5000 x); [|done]. intros [H|(j & Hj & H)]; unfold in_table in *; [lia|].
  destruct (Z.lt_ge_cases j 128); [destruct (ex_kernel_tables j) as (_ & E & _); lia|]. destruct (decide (j = 128)) as [->|].
  - destruct ex_pde_user as [_ E]. lia.
  - rewrite ex_rest in H by lia. lia.
Qed.

Definition ex_frame (i : Z) : Z := 0x300000 + i.
Lemma ex_walk i : 0 <= i < 8192 -> walk ex_mem 0x5000 (0x20000000 + i) = Some (ex_frame i).
Proof.
  intros Hi. rewrite walk_eq, entry_of_eq. assert (E : pdi (0x20000000 + i) = 128) by (unfold pdi; rewrite field_div by lia; change (2 ^ 22) with 4194304; change (2 ^ 10) with 1024; Z.div_mod_to_equations; lia).
  rewrite E. destruct ex_pde_user as [-> ->]. cbn [Z.eqb].
  assert (T : get_pte ex_mem 0x200000 (pti (0x20000000 + i)) = pte_for (0x300 + i / 4096) 0 1 1 0).
  { assert (Ei : pti (0x20000000 + i) = i / 4096) by (unfold pti; rewrite field_div by lia; change (2 ^ 12) with 4096; change (2 ^ 10) with 1024; Z.div_mod_to_equations; lia).
    rewrite Ei. assert (i / 4096 = 0 \/ i / 4096 = 1) as [-> | ->] by (Z.div_mod_to_equations; lia); unfold ex_mem.
    - rewrite (get_pte_ext (make_PTE 0x200000 0 0x300 0 1 1 0 (make_PDE 0x5000 128 0x200 0 1 1 0 ex_kernel))); [by rewrite get_pte_make by lia|apply ex_table|lia|].
      intros x Hx. by rewrite make_PTE_out by (apply ex_table || lia).
    - by rewrite get_pte_make by lia. }
  rewrite T. cbn [pte_for present Z.eqb]. f_equal. rewrite frame_addr_eq; cbn [pte_for page_base_addr]; unfold ex_frame; Z.div_mod_to_equations; lia.
Qed.
Lemma ex_located a i : 0 <= a -> 0 <= a + i < 8192 -> located ex_mem 0x5000 (0x20000000 + a) (fun i => ex_frame (a + i)) i.
Proof.
  intros Ha Hi. pose proof (ex_walk (a + i) Hi) as W. rewrite Z.add_assoc in W. apply walk_l2p in W as [R E]. split; [done|]. split; [done|]. unfold ex_frame, KERNEL_MEMMAP. lia.
Qed.

Lemma kernel_identity_witness :
  exists m', initialize_kernel_pagetables 0x5000 (mk_core 0x100000 {[0x100000 := mk_fb 200 0]}) ∅ = Some (0x100000, mk_core 0x180000 {[0x100000 := mk_fb 200 0; 0x180000 := mk_fb 72 0]}, m') /\
    kernel_mapped m' 0x5000.
Proof.
  destruct (kernel_identity 0x5000 (mk_core 0x100000 {[0x100000 := mk_fb 200 0]}) (mk_ch 0x100000 128)
    (mk_core 0x180000 {[0x100000 := mk_fb 200 0; 0x180000 := mk_fb 72 0]}) ∅) as (m' & E & K & _);
    [apply ex_dir|vm_compute; reflexivity|reflexivity|cbn; lia|cbn; lia|left; cbn; lia|]. exists m'. split; [exact E|exact K].
Defined.

(** 5000 bytes at 4 MB are copied over a page boundary. *)
Lemma phys2vmcopy_copies_witness :
  exists m', phys2vmcopy 0x5000 0x400000 0x5000 0x20000000 5000 ex_mem = Some (0, m') /\ ld8 m' 0x301000 = ld8 ex_mem 0x401000.
Proof.
  destruct (phys2vmcopy_copies 0x5000 0x5000 0x400000 (0x20000000 + 0) 5000 5000 (fun i => ex_frame (0 + i)) ex_mem) as (m' & E & A & _);
    [apply ex_dir|apply ex_dir|apply ex_kernel_mapped|lia|lia|lia|unfold KERNEL_MEMMAP; lia|lia|lia| |by left| |].
  - intros i Hi. split; [apply ex_located; lia|]. apply ex_unused. unfold ex_frame. lia.
  - unfold ex_frame. split; lia.
  - exists m'. split; [exact E|]. exact (A 4096 ltac:(lia)).
Defined.

Lemma copy_round_trip_witness :
  exists m1 m2, phys2vmcopy 0x5000 0x400000 0x5000 0x20000000 5000 ex_mem = Some (0, m1) /\ vm2physcopy 0x5000 0x5000 0x20000000 0x310000 5000 m1 = Some (0, m2) /\
    ld8 m2 0x311000 = ld8 ex_mem 0x401000.
Proof.
  destruct (copy_round_trip 0x5000 0x5000 0x400000 (0x20000000 + 0) 0x310000 5000 (fun i => ex_frame (0 + i)) ex_mem) as (m1 & m2 & E1 & E2 & A);
    [apply ex_dir|apply ex_dir|apply ex_kernel_mapped|lia|lia|unfold KERNEL_MEMMAP; lia|lia|lia|lia|unfold KERNEL_MEMMAP; lia| | | |].
  - intros i Hi. split; [apply ex_located; lia|]. split; apply ex_unused; unfold ex_frame; lia.
  - unfold ex_frame. split; lia.
  - unfold ex_frame. lia.
  - exists m1, m2. split; [exact E1|]. split; [exact E2|]. exact (A 4096 ltac:(lia)).
Defined.

Lemma vm2vmcopy_reads_current_witness :
  exists m', vm2vmcopy 0x5000 0x5000 0x20000000 0x5000 0x20001000 100 ex_mem = Some (0, m') /\ ld8 m' 0x301007 = ld8 ex_mem 0x300007.
Proof.
  destruct (vm2vmcopy_reads_current 0x5000 0x5000 0x5000 (0x20000000 + 0) (0x20000000 + 0x1000) 100 (fun i => ex_frame (0 + i)) (fun i => ex_frame (0 + i))
    (fun i => ex_frame (0x1000 + i)) ex_mem) as (m' & E & A & _); [apply ex_dir|apply ex_dir|apply ex_dir|apply ex_kernel_mapped|lia|lia|lia|lia|lia| | |].
  - intros i Hi. split; [rewrite <- Z.add_assoc; apply ex_walk; lia|]. split; [apply ex_located; lia|]. split; [apply ex_located; lia|]. split; apply ex_unused; unfold ex_frame; lia.
  - unfold ex_frame. split; lia.
  - exists m'. split; [exact E|]. exact (A 7 ltac:(lia)).
Defined.

Lemma vm_setattr_sets_witness : exists m', vm_setattr ex_mem 0x5000 0x20000 None None None None (Some 1) (Some 0) = (0, m') /\ accessed (get_pte m' 0x200000 0) = 1.
Proof.
  pose proof (vm_setattr_sets ex_mem 0x5000 0x20000 None None None None (Some 1) (Some 0) ex_dir) as H.
  destruct (vm_setattr ex_mem 0x5000 0x20000 None None None None (Some 1) (Some 0)) as [r m'].
  destruct H as [_ H]; [by intros x [=]; lia..|]. change (field 0x20000 10 10) with 128 in H. rewrite (proj2 ex_pde_user) in H.
  destruct H as (-> & E & _); [lia|]. exists m'. split; [reflexivity|]. change (field 0x20000 0 10) with 0 in E. rewrite E. reflexivity.
Defined.

Lemma frame_memory_not_present_witness :
  exists c' m', alloc_frame_memory [] 0x5000 0x20002 (mk_core 0x400000 {[0x400000 := mk_fb 2 0]}) ex_mem = Some (0, c', m') /\ present (get_pte m' 0x200000 2) = 0.
Proof.
  destruct (alloc_frame_memory [] 0x5000 0x20002 (mk_core 0x400000 {[0x400000 := mk_fb 2 0]}) ex_mem) as [[[r c'] m']|] eqn:E.
  - assert (r = 0) as ->.
    { unfold alloc_frame_memory in E. change (core_alloc 1 (mk_core 0x400000 {[0x400000 := mk_fb 2 0]})) with
        (Some (mk_ch 0x400000 1, mk_core 0x401000 {[0x400000 := mk_fb 2 0; 0x401000 := mk_fb 1 0]})) in E. cbn [mbind option_bind no_blocks Z.ltb Z.compare Pos.compare Pos.compare_cont] in E.
      change (Z.land (Z.shiftr 0x20002 10) 0x3ff) with 128 in E. fold (base_of ex_mem 0x5000 128) in E. rewrite (proj2 ex_pde_user) in E. cbn [Z.eqb] in E. congruence. }
    exists c', m'. split; [reflexivity|]. pose proof (frame_memory_not_present _ _ _ _ _ _ _ E) as H. change (field 0x20002 10 10) with 128 in H.
    rewrite (proj2 ex_pde_user) in H. change (field 0x20002 0 10) with 2 in H. rewrite H. reflexivity.
  - exfalso. unfold alloc_frame_memory in E. change (core_alloc 1 (mk_core 0x400000 {[0x400000 := mk_fb 2 0]})) with
        (Some (mk_ch 0x400000 1, mk_core 0x401000 {[0x400000 := mk_fb 2 0; 0x401000 := mk_fb 1 0]})) in E. cbn [mbind option_bind no_blocks Z.ltb Z.compare Pos.compare Pos.compare_cont] in E.
      change (Z.land (Z.shiftr 0x20002 10) 0x3ff) with 128 in E. fold (base_of ex_mem 0x5000 128) in E. rewrite (proj2 ex_pde_user) in E. cbn [Z.eqb] in E. discriminate E.
Defined.

Lemma null_table_reads_low_memory_witness : lock_page (st32 ∅ 0 0x7001) 0x5000 0 = 0 /\ logical2physical (st32 ∅ 0 0x7001) 0x5000 0 = 0x7000.
Proof.
  destruct (null_table_reads_low_memory (st32 ∅ 0 0x7001) 0x5000 0) as [A B]; [vm_compute; reflexivity..|]. split; [exact A|]. rewrite B. vm_compute. reflexivity.
Defined.

Lemma sdesc_describes_witness : desc_base (sdesc (mk_segdesc 0 0 0 0 0 0) 0x12345678 0x200001) = 0x12345678 /\ desc_limit (sdesc (mk_segdesc 0 0 0 0 0 0) 0x12345678 0x200001) = 0x200fff.
Proof. destruct (sdesc_describes (mk_segdesc 0 0 0 0 0 0) 0x12345678 0x200001) as (B & _ & L); [lia..|]. split; [exact B|exact L]. Defined.

Lemma gdt_describes_ldts_witness : exists t g d, initialize_gdt 0x30000 0x40000 (replicate 308 (mk_segdesc 0 0 0 0 0 0)) = Some (t, g) /\ zget g 307 = Some d /\ ldt_desc d 0x402e8.
Proof.
  destruct (gdt_describes_ldts 0x30000 0x40000 (replicate 308 (mk_segdesc 0 0 0 0 0 0))) as (g & E & A & _); [reflexivity|lia|vm_compute; discriminate|].
  destruct (A 31) as (d & E1 & E2); [vm_compute; split; [discriminate|reflexivity]|]. eexists _, g, d. split; [exact E|]. split; [exact E1|exact E2].
Defined.

End Paging.
