(* ===== verification/Regions.v ===== *)
(** Address spaces: regions, segments and page-table lists ([src/base/vmmap.c],
    the functions [vm_*], [syscall_brk], [syscall_primalloc], [syscall_prifree]).
    Records are objects at the addresses that [kmalloc] gave; an object leaves the
    model when it is freed, so that using it afterwards is undefined ([None]).  The
    memory comes from [KernelHeap]; tables and pages are the physical memory of
    Paging.v.  The callers hold [vm_lock] and [mseg_lock] as the code does, without
    contention; [mreg_reglock] is kept, because a call can meet it held by its own
    caller, which blocks for ever ([None]). *)
From S2P Require Import Prelude CoreAlloc MemList Kmalloc KernelHeap Paging.

Module Regions.
Import CoreAlloc(core_header, mk_ch, phys_addr, no_blocks, ENOMEM, total) KernelHeap Paging.

(** * Data *)

Record vm := mk_vm { vm_pgdir : Z; vm_mregion : Z }.
Record memregion := mk_mreg { mreg_startaddr : Z; mreg_endaddr : Z; mreg_type : Z; mreg_reglock : bool; mreg_segment : Z; mreg_next : Z }.
Record memsegment := mk_mseg { mseg_sourcefile : Z; mseg_sourcedev : Z; mseg_sharecount : Z; mseg_npages : Z; mseg_pgtable : Z }.
Record PageTableList := mk_ptl { pgtable : Z; ptl_next : Z }.

Definition SIZEOF_VM : Z := 36.
Definition SIZEOF_REGION : Z := 48.
Definition SIZEOF_SEGMENT : Z := 44.
Definition SIZEOF_PTL : Z := 8.
Definition SEGMENTTYPE_CODE : Z := 1.
Definition SEGMENTTYPE_DATA : Z := 2.
Definition SEGMENTTYPE_STACK : Z := 4.
Definition SEGMENTTYPE_PRIVATE : Z := 8.
Definition EINVALIDADDRESS : Z := -97.

Record vmst (K : Type) := mk_st { heap : K; phys : mem; vms : gmap Z vm; regions : gmap Z memregion;
  segments : gmap Z memsegment; ptls : gmap Z PageTableList }.
Arguments mk_st {K}.
Arguments heap {K}.
Arguments phys {K}.
Arguments vms {K}.
Arguments regions {K}.
Arguments segments {K}.
Arguments ptls {K}.

Section Regions.
Context {K : Type} `{!KernelHeap K}.
Implicit Types (s : vmst K).

(** * Stores *)

Definition set_heap (h : K) s : vmst K := mk_st h (phys s) (vms s) (regions s) (segments s) (ptls s).
Definition set_phys (m : mem) s : vmst K := mk_st (heap s) m (vms s) (regions s) (segments s) (ptls s).
Definition set_vms (x : gmap Z vm) s : vmst K := mk_st (heap s) (phys s) x (regions s) (segments s) (ptls s).
Definition set_regions (x : gmap Z memregion) s : vmst K := mk_st (heap s) (phys s) (vms s) x (segments s) (ptls s).
Definition set_segments (x : gmap Z memsegment) s : vmst K := mk_st (heap s) (phys s) (vms s) (regions s) x (ptls s).
Definition set_ptls (x : gmap Z PageTableList) s : vmst K := mk_st (heap s) (phys s) (vms s) (regions s) (segments s) x.

Definition put_region (p : Z) (r : memregion) s : vmst K := set_regions (<[p := r]> (regions s)) s.
Definition put_segment (p : Z) (g : memsegment) s : vmst K := set_segments (<[p := g]> (segments s)) s.
Definition put_ptl (p : Z) (l : PageTableList) s : vmst K := set_ptls (<[p := l]> (ptls s)) s.
Definition put_vm (p : Z) (v : vm) s : vmst K := set_vms (<[p := v]> (vms s)) s.

Definition with_end (e : Z) (r : memregion) : memregion :=
  mk_mreg (mreg_startaddr r) e (mreg_type r) (mreg_reglock r) (mreg_segment r) (mreg_next r).
Definition with_start (a : Z) (r : memregion) : memregion :=
  mk_mreg a (mreg_endaddr r) (mreg_type r) (mreg_reglock r) (mreg_segment r) (mreg_next r).
Definition with_lock (b : bool) (r : memregion) : memregion :=
  mk_mreg (mreg_startaddr r) (mreg_endaddr r) (mreg_type r) b (mreg_segment r) (mreg_next r).
Definition with_segment (g : Z) (r : memregion) : memregion :=
  mk_mreg (mreg_startaddr r) (mreg_endaddr r) (mreg_type r) (mreg_reglock r) g (mreg_next r).
Definition with_next (n : Z) (r : memregion) : memregion :=
  mk_mreg (mreg_startaddr r) (mreg_endaddr r) (mreg_type r) (mreg_reglock r) (mreg_segment r) n.
Definition with_count (c : Z) (g : memsegment) : memsegment :=
  mk_mseg (mseg_sourcefile g) (mseg_sourcedev g) c (mseg_npages g) (mseg_pgtable g).
Definition with_npages (n : Z) (g : memsegment) : memsegment :=
  mk_mseg (mseg_sourcefile g) (mseg_sourcedev g) (mseg_sharecount g) n (mseg_pgtable g).
Definition with_pgtable (p : Z) (g : memsegment) : memsegment :=
  mk_mseg (mseg_sourcefile g) (mseg_sourcedev g) (mseg_sharecount g) (mseg_npages g) p.

Definition upd_region (p : Z) (f : memregion -> memregion) s : option (vmst K) := r ← regions s !! p; Some (put_region p (f r) s).
Definition upd_segment (p : Z) (f : memsegment -> memsegment) s : option (vmst K) := g ← segments s !! p; Some (put_segment p (f g) s).

(** [_lock] and [unlock] of [mreg_reglock]. *)
Definition lock_region (p : Z) s : option (vmst K) := r ← regions s !! p; if mreg_reglock r then None else Some (put_region p (with_lock true r) s).
Definition unlock_region (p : Z) s : option (vmst K) := upd_region p (with_lock false) s.

(** [kfree] of a record. *)
Definition free_region (p : Z) s : option (vmst K) := h ← kfree p (heap s); Some (set_regions (delete p (regions s)) (set_heap h s)).
Definition free_segment (p : Z) s : option (vmst K) := h ← kfree p (heap s); Some (set_segments (delete p (segments s)) (set_heap h s)).
Definition free_ptl (p : Z) s : option (vmst K) := h ← kfree p (heap s); Some (set_ptls (delete p (ptls s)) (set_heap h s)).
Definition free_vm (p : Z) s : option (vmst K) := h ← kfree p (heap s); Some (set_vms (delete p (vms s)) (set_heap h s)).

(** * Page tables of a segment *)

(** [ptl->next]; with paging off a null pointer reads the word at 4. *)
Definition next_ptl (p : Z) s : option Z := if p =? 0 then Some (ld32 (phys s) 4) else l ← ptls s !! p; Some (ptl_next l).

(** The body of the [if (ptbaddr == NULL)] of [vm_expandpagetables]: the new list
    node, 0 without memory. *)
Definition new_table (pd mseg pdind ptl1 ptl2 avail rw global : Z) s : option (Z * vmst K) :=
  '(ch, h) ← core_alloc 1 (heap s);
  if no_blocks ch <? 1 then Some (0, set_heap h s) else
  '(p, h) ← kmalloc SIZEOF_PTL h;
  if p =? 0 then h ← core_free ch h; Some (0, set_heap h s) else
  let m := bzero (phys_addr ch) 4096 (phys s) in
  let m := make_PDE pd pdind (Z.shiftr (phys_addr ch) 12) avail rw 1 global m in
  let s := put_ptl p (mk_ptl (phys_addr ch) ptl1) (set_phys m (set_heap h s)) in
  s ← (if ptl2 =? 0 then upd_segment mseg (with_pgtable p) s
       else l ← ptls s !! ptl2; Some (put_ptl ptl2 (mk_ptl (pgtable l) p) s));
  Some (p, s).

(** The [while] of [vm_expandpagetables]; without wrap-around it runs at most 1024
    times. *)
Fixpoint expand_loop (fuel : nat) (pd mseg lstart lend ptl1 ptl2 avail rw global : Z) s : option (Z * vmst K) :=
  if negb (lstart <=? lend) then Some (0, s) else
  match fuel with
  | O => None
  | S fuel =>
      let pdind := Z.land (Z.shiftr lstart 22) 0x3ff in
      if base_of (phys s) pd pdind =? 0 then
        '(ptl, s) ← new_table pd mseg pdind ptl1 ptl2 avail rw global s;
        if ptl =? 0 then Some (ENOMEM, s) else
        nx ← next_ptl ptl s;
        expand_loop fuel pd mseg (u32 (lstart + 0x00400000)) lend nx ptl avail rw global s
      else
        nx ← next_ptl ptl1 s;
        expand_loop fuel pd mseg (u32 (lstart + 0x00400000)) lend nx ptl1 avail rw global s
  end.
Definition vm_expandpagetables (pd mseg logical_start logical_end avail rw global : Z) s : option (Z * vmst K) :=
  g ← segments s !! mseg;
  expand_loop 1025 pd mseg (Z.land logical_start 0xffc00000) logical_end (mseg_pgtable g) 0 avail rw global s.

(** The nested loops that enter the pages of the runs into the tables. *)
Fixpoint map_run (n : nat) (pd cur pa rw : Z) (m : mem) : Z * mem :=
  match n with
  | O => (cur, m)
  | S n =>
      let pdind := Z.land (Z.shiftr (u32 (cur + 4095)) 22) 0x3ff in
      let ptind := Z.land (Z.shiftr (u32 (cur + 4095)) 12) 0x3ff in
      let pt := base_of m pd pdind in
      map_run n pd (u32 (cur + 4096)) (u32 (pa + 4096)) rw (make_PTE pt ptind (Z.land (Z.shiftr pa 12) 0x000fffff) 0 rw 1 0 m)
  end.
Fixpoint map_runs (chs : list core_header) (pd cur rw : Z) (m : mem) : mem :=
  match chs with
  | [] => m
  | ch :: chs => let '(cur, m) := map_run (Z.to_nat (s32 (no_blocks ch))) pd cur (phys_addr ch) rw m in map_runs chs pd cur rw m
  end.

(** * Release of pages *)

(** One entry of the loops that give pages back: [start_addr], [prev_addr] and [n]
    are the run gathered so far. *)
Definition free_run (start n : Z) (h : K) : option K := core_free (mk_ch (Z.shiftl start 12) n) h.
Definition run_step (st : Z * Z * Z * K) (fa : Z) : option (Z * Z * Z * K) :=
  let '(start, prev, n, h) := st in
  if fa =? 0 then
    if negb (start =? 0) then h ← free_run start n h; Some (0, 0, 0, h) else Some (start, prev, n, h)
  else if prev =? 0 then Some (fa, fa, 1, h)
  else if prev + 1 =? fa then Some (start, prev, n + 1, h)
  else h ← free_run start n h; Some (fa, fa, 1, h).
Fixpoint run_steps (st : Z * Z * Z * K) (fas : list Z) : option (Z * Z * Z * K) :=
  match fas with
  | [] => Some st
  | fa :: fas => st ← run_step st fa; run_steps st fas
  end.
(** All the entries, and the run that is left. *)
Definition free_frames (fas : list Z) (h : K) : option K :=
  '(start, prev, n, h) ← run_steps (0, 0, 0, h) fas;
  if 0 <? n then free_run start n h else Some h.

Definition table_frames (m : mem) (pt : Z) : list Z := (fun j => page_base_addr (get_pte m pt j)) <$> seqZ 0 1024.

Fixpoint destroy_tables (fuel : nat) (ptl1 : Z) s : option (vmst K) :=
  if ptl1 =? 0 then Some s else
  match fuel with
  | O => None
  | S fuel =>
      l ← ptls s !! ptl1;
      h ← free_frames (table_frames (phys s) (pgtable l)) (heap s);
      h ← core_free (mk_ch (pgtable l) 1) h;
      s ← free_ptl ptl1 (set_heap h s);
      destroy_tables fuel (ptl_next l) s
  end.
Definition vm_destroysegment (mseg : Z) s : option (vmst K) :=
  g ← segments s !! mseg;
  s ← destroy_tables (S (size (ptls s))) (mseg_pgtable g) s;
  free_segment mseg s.

(** * Segments *)

Definition vm_getmemsegment (mreg : Z) s : option (Z * vmst K) :=
  s ← lock_region mreg s;
  r ← regions s !! mreg;
  s ← (if negb (mreg_segment r =? 0) then upd_segment (mreg_segment r) (fun g => with_count (u16 (mseg_sharecount g + 1)) g) s else Some s);
  s ← unlock_region mreg s;
  Some (mreg_segment r, s).

Definition vm_releasesegment (mseg : Z) s : option (vmst K) :=
  g ← segments s !! mseg;
  let c := u16 (mseg_sharecount g - 1) in
  let s := put_segment mseg (with_count c g) s in
  if c <=? 0 then vm_destroysegment mseg s else Some s.

Definition vm_attachmemsegment (mreg mseg : Z) s : option (vmst K) :=
  s ← lock_region mreg s;
  s ← upd_region mreg (with_segment mseg) s;
  s ← upd_segment mseg (fun g => with_count (u16 (mseg_sharecount g + 1)) g) s;
  unlock_region mreg s.

Definition vm_detachmemsegment (mreg : Z) s : option (vmst K) :=
  s ← lock_region mreg s;
  r ← regions s !! mreg;
  s ← vm_releasesegment (mreg_segment r) s;
  s ← upd_region mreg (with_segment 0) s;
  unlock_region mreg s.

Definition page_no (a : Z) : Z := Z.land (Z.shiftr a 12) 0x000fffff.
Definition rw_of (r : memregion) : Z := if mreg_type r =? SEGMENTTYPE_CODE then 0 else 1.

(** [vm_creatememsegment]; without memory for the segment the code stores through
    a null pointer. *)
Definition vm_creatememsegment (pd mreg memflag : Z) s : option (Z * vmst K) :=
  '(mseg, h) ← kmalloc SIZEOF_SEGMENT (heap s);
  if mseg =? 0 then None else
  let s := set_heap h s in
  r ← regions s !! mreg;
  let np := u32 (page_no (u32 (mreg_endaddr r + 4095)) - page_no (mreg_startaddr r)) in
  let s := put_segment mseg (mk_mseg 0 0 1 np 0) s in
  let rw := rw_of r in
  '(ret, s) ← vm_expandpagetables pd mseg (mreg_startaddr r) (mreg_endaddr r) 0 rw 0 s;
  if ret <? 0 then s ← vm_destroysegment mseg s; Some (0, s) else
  s ← lock_region mreg s;
  if negb (memflag =? 0) then
    '(n, chs, h) ← core_alloc_n (s32 np) 32 (heap s);
    let s := set_heap h s in
    if n <? 0 then s ← unlock_region mreg s; s ← vm_destroysegment mseg s; Some (0, s) else
    let s := set_phys (map_runs (rev chs) pd (mreg_startaddr r) rw (phys s)) s in
    s ← upd_region mreg (with_segment mseg) s;
    s ← unlock_region mreg s;
    Some (mseg, s)
  else
    s ← upd_region mreg (with_segment mseg) s;
    s ← unlock_region mreg s;
    Some (mseg, s).

(** * Regions *)

(** The [while] that finds the place of a new region: the first region that does
    not start below [a], and the one before it. *)
Fixpoint find_place (fuel : nat) (a p prev : Z) s : option (Z * Z) :=
  if p =? 0 then Some (0, prev) else
  match fuel with
  | O => None
  | S fuel => r ← regions s !! p; if mreg_startaddr r <? a then find_place fuel a (mreg_next r) p s else Some (p, prev)
  end.
(** The region for which [f] holds, and the one before it. *)
Fixpoint find_region (fuel : nat) (f : memregion -> bool) (p prev : Z) s : option (Z * Z) :=
  if p =? 0 then Some (0, prev) else
  match fuel with
  | O => None
  | S fuel => r ← regions s !! p; if f r then Some (p, prev) else find_region fuel f (mreg_next r) p s
  end.
Definition region_fuel s : nat := S (size (regions s)).

Definition vm_addregion (vmem type lstart lend ptflag memflag : Z) s : option (Z * vmst K) :=
  '(mreg, h) ← kmalloc SIZEOF_REGION (heap s);
  if mreg =? 0 then Some (ENOMEM, set_heap h s) else
  v ← vms s !! vmem;
  let s := put_region mreg (mk_mreg lstart lend type false 0 0) (set_heap h s) in
  '(ok, s) ← (if ptflag =? 0 then Some (true, s)
              else '(mseg, s) ← vm_creatememsegment (vm_pgdir v) mreg memflag s; Some (negb (mseg =? 0), s));
  if negb ok then s ← free_region mreg s; Some (ENOMEM, s) else
  v ← vms s !! vmem;
  '(mreg1, mreg2) ← find_place (region_fuel s) lstart (vm_mregion v) 0 s;
  s ← upd_region mreg (with_next mreg1) s;
  s ← (if negb (mreg2 =? 0) then upd_region mreg2 (with_next mreg) s else Some (put_vm vmem (mk_vm (vm_pgdir v) mreg) s));
  Some (0, s).

(** What [vm_delregion] and [vm_destroy] do with a region off the list. *)
Definition drop_region (mreg : Z) s : option (vmst K) :=
  s ← lock_region mreg s;
  r ← regions s !! mreg;
  s ← (if negb (mreg_segment r =? 0) then vm_releasesegment (mreg_segment r) s else Some s);
  s ← unlock_region mreg s;
  free_region mreg s.

Definition vm_delregion (vmem lstart : Z) s : option (Z * vmst K) :=
  v ← vms s !! vmem;
  '(mreg1, mreg2) ← find_region (region_fuel s) (fun r => mreg_startaddr r =? lstart) (vm_mregion v) 0 s;
  if negb (mreg1 =? 0) then
    r ← regions s !! mreg1;
    s ← (if mreg2 =? 0 then Some (put_vm vmem (mk_vm (vm_pgdir v) (mreg_next r)) s) else upd_region mreg2 (with_next (mreg_next r)) s);
    s ← drop_region mreg1 s;
    Some (0, s)
  else Some (-1, s).

Definition vm_delregionend (vmem lend : Z) s : option (Z * vmst K) :=
  v ← vms s !! vmem;
  '(mreg1, _) ← find_region (region_fuel s) (fun r => mreg_endaddr r =? lend) (vm_mregion v) 0 s;
  if negb (mreg1 =? 0) then r ← regions s !! mreg1; vm_delregion vmem (mreg_startaddr r) s
  else Some (-1, s).

(** * Address spaces *)

(** [bcopy] with paging off. *)
Fixpoint copy_phys (n : nat) (src dst : Z) (m : mem) : mem :=
  match n with O => m | S n => copy_phys n (src + 1) (dst + 1) (st8 m dst (ld8 m src)) end.

(** The new directory: zeros, then the kernel's first entries. *)
Definition created (m : mem) (kernel_pagedir pd : Z) : mem :=
  copy_phys (Z.to_nat (Z.land (Z.shiftr KERNEL_MEMMAP 22) 0x3ff * 4)) kernel_pagedir pd (bzero pd 4096 m).

Definition vm_createvm (kernel_pagedir : Z) s : option (Z * vmst K) :=
  '(vmem, h) ← kmalloc SIZEOF_VM (heap s);
  if vmem =? 0 then Some (0, set_heap h s) else
  '(ch, h) ← core_alloc 1 h;
  if negb (no_blocks ch =? 1) then h ← kfree vmem h; Some (0, set_heap h s) else
  let pd := phys_addr ch in
  Some (vmem, put_vm vmem (mk_vm pd 0) (set_phys (created (phys s) kernel_pagedir pd) (set_heap h s))).

Fixpoint destroy_regions (fuel : nat) (mreg1 : Z) s : option (vmst K) :=
  if mreg1 =? 0 then Some s else
  match fuel with
  | O => None
  | S fuel => r ← regions s !! mreg1; s ← drop_region mreg1 s; destroy_regions fuel (mreg_next r) s
  end.
Definition vm_destroy (vmem : Z) s : option (vmst K) :=
  v ← vms s !! vmem;
  let s := put_vm vmem (mk_vm (vm_pgdir v) 0) s in
  s ← destroy_regions (region_fuel s) (vm_mregion v) s;
  h ← core_free (mk_ch (vm_pgdir v) 1) (heap s);
  free_vm vmem (set_heap h s).

(** * Growing and shrinking *)

(** The region that starts at [lstart], if the list has it in its place. *)
Definition region_at (v : vm) (lstart : Z) s : option (option (Z * memregion)) :=
  '(mreg, _) ← find_place (region_fuel s) lstart (vm_mregion v) 0 s;
  if mreg =? 0 then Some None else
  r ← regions s !! mreg;
  if negb (mreg_startaddr r =? lstart) then Some None else Some (Some (mreg, r)).

(** The second half of [vm_expandregion] and [vm_expanddownregion]: more tables if
    [more] says so, then [np] pages from [cur] on. *)
Definition grow_segment (pd mreg mseg : Z) (more : bool) (memflag np cur : Z) s : option (Z * vmst K) :=
  r ← regions s !! mreg;
  let rw := rw_of r in
  '(ret, s) ← (if more then vm_expandpagetables pd mseg (mreg_startaddr r) (mreg_endaddr r) 0 rw 0 s else Some (0, s));
  if ret <? 0 then s ← vm_releasesegment mseg s; s ← unlock_region mreg s; Some (ENOMEM, s) else
  if negb (memflag =? 0) then
    if np <=? 0 then s ← vm_releasesegment mseg s; s ← unlock_region mreg s; Some (0, s) else
    '(n, chs, h) ← core_alloc_n np 32 (heap s);
    let s := set_heap h s in
    if n <? 0 then s ← vm_releasesegment mseg s; s ← unlock_region mreg s; Some (n, s) else
    let s := set_phys (map_runs (rev chs) pd cur rw (phys s)) s in
    s ← vm_releasesegment mseg s; s ← unlock_region mreg s; Some (0, s)
  else s ← vm_releasesegment mseg s; s ← unlock_region mreg s; Some (0, s).

Definition vm_expandregion (vmem lstart size pgflag memflag : Z) s : option (Z * vmst K) :=
  v ← vms s !! vmem;
  found ← region_at v lstart s;
  match found with
  | None => Some (-1, s)
  | Some (mreg, r) =>
      over ← (if negb (mreg_next r =? 0) then nx ← regions s !! mreg_next r; Some (mreg_startaddr nx <=? u32 (mreg_endaddr r + size)) else Some false);
      if (over : bool) then Some (-1, s) else
      let oend := mreg_endaddr r in
      let nend := u32 (oend + size) in
      let s := put_region mreg (with_end nend r) s in
      if negb (pgflag =? 0) || negb (memflag =? 0) then
        '(mseg, s) ← vm_getmemsegment mreg s;
        s ← lock_region mreg s;
        if mseg =? 0 then
          '(mseg, s) ← vm_creatememsegment (vm_pgdir v) mreg memflag s;
          s ← unlock_region mreg s;
          Some (if mseg =? 0 then -1 else 0, s)
        else
          grow_segment (vm_pgdir v) mreg mseg (negb (Z.land oend 0xffc00000 =? Z.land nend 0xffc00000)) memflag
            (Z.land (Z.shiftr (u32 (Z.land nend 0xfffff000 - Z.land oend 0xfffff000)) 12) 0x000fffff) oend s
      else Some (0, s)
  end.

Definition vm_expanddownregion (vmem lstart lend pgflag memflag : Z) s : option (Z * vmst K) :=
  v ← vms s !! vmem;
  '(mreg, mreg1) ← find_region (region_fuel s) (fun r => mreg_endaddr r =? lend) (vm_mregion v) 0 s;
  if mreg =? 0 then Some (-1, s) else
  over ← (if negb (mreg1 =? 0) then r1 ← regions s !! mreg1; Some (lstart <=? mreg_endaddr r1) else Some false);
  if (over : bool) then Some (-1, s) else
  r ← regions s !! mreg;
  let ostart := mreg_startaddr r in
  let s := put_region mreg (with_start lstart r) s in
  if negb (pgflag =? 0) || negb (memflag =? 0) then
    '(mseg, s) ← vm_getmemsegment mreg s;
    s ← lock_region mreg s;
    if mseg =? 0 then
      '(mseg, s) ← vm_creatememsegment (vm_pgdir v) mreg memflag s;
      s ← unlock_region mreg s;
      Some (if mseg =? 0 then -1 else 0, s)
    else
      grow_segment (vm_pgdir v) mreg mseg (negb (Z.land ostart 0xffc00000 =? Z.land (mreg_endaddr r) 0xffc00000)) memflag
        (Z.land (Z.shiftr (u32 (Z.land (mreg_endaddr r) 0xfffff000 - Z.land ostart 0xfffff000)) 12) 0x000fffff) lstart s
  else Some (0, s).

(** The entries that the loop of [vm_shrinkregion] looks at; those without a table
    are passed over. *)
Fixpoint shrink_frames (n : nat) (m : mem) (pd cur : Z) : list Z :=
  match n with
  | O => []
  | S n =>
      let pt := base_of m pd (Z.land (Z.shiftr cur 22) 0x3ff) in
      (if pt =? 0 then [] else [page_base_addr (get_pte m pt (Z.land (Z.shiftr cur 12) 0x3ff))]) ++ shrink_frames n m pd (u32 (cur + 4096))
  end.

Definition vm_shrinkregion (vmem lstart size : Z) s : option (Z * vmst K) :=
  v ← vms s !! vmem;
  found ← region_at v lstart s;
  match found with
  | None => Some (-1, s)
  | Some (mreg, r) =>
      let oend := mreg_endaddr r in
      let nend := u32 (oend - size) in
      let s := put_region mreg (with_end nend r) s in
      let np := Z.land (Z.shiftr (u32 (Z.land oend 0xfffff000 - Z.land nend 0xfffff000)) 12) 0x000fffff in
      '(mseg, s) ← vm_getmemsegment mreg s;
      s ← (if (0 <? np) && negb (mseg =? 0) then
             s ← lock_region mreg s;
             h ← free_frames (shrink_frames (Z.to_nat np) (phys s) (vm_pgdir v) (u32 (Z.shiftl (Z.shiftr (u32 (oend + 4095)) 12) 12))) (heap s);
             s ← upd_segment (mreg_segment r) (fun g => with_npages (u32 (mseg_npages g - np)) g) (set_heap h s);
             unlock_region mreg s
           else Some s);
      s ← vm_releasesegment mseg s;
      Some (0, s)
  end.

(** * Pages with an attribute *)

(** The two [if]s of the inner loop of [vm_getattrlistpages], with the entry [j] of the
    table [pt]: memory, pages noted so far and place of the next one in the buffer. *)
Definition put_note (pd buf pgno j i physbuf : Z) (m : mem) : Z * mem :=
  let physbuf := if physbuf mod 0x1000 =? 0 then logical2physical m pd (u32 (buf + 4 * i)) else physbuf in
  (u32 (physbuf + 4), st32 m physbuf (u32 (pgno + j))).
Definition clear_dirty (e : PTE) : PTE :=
  mk_PTE (present e) (read_write e) (user e) (write_through e) (cache_disable e) (accessed e) 0 (reserved e) (global e) (available e) (page_base_addr e).
Definition clear_accessed (e : PTE) : PTE :=
  mk_PTE (present e) (read_write e) (user e) (write_through e) (cache_disable e) 0 (dirty e) (reserved e) (global e) (available e) (page_base_addr e).
Definition scan_entry (pd buf attr pt pgno j : Z) (st : mem * Z * Z) : mem * Z * Z :=
  let '(m, i, physbuf) := st in
  let '(m, i, physbuf) :=
    if (attr =? 2) && (dirty (get_pte m pt j) =? 1) then
      let '(physbuf, m) := put_note pd buf pgno j i physbuf m in (put_pte m pt j (clear_dirty (get_pte m pt j)), i + 1, physbuf)
    else (m, i, physbuf) in
  if (attr =? 1) && (accessed (get_pte m pt j) =? 1) then
    let '(physbuf, m) := put_note pd buf pgno j i physbuf m in (put_pte m pt j (clear_accessed (get_pte m pt j)), i + 1, physbuf)
  else (m, i, physbuf).
Fixpoint scan_table (n : nat) (pd buf size attr pt pgno j : Z) (st : mem * Z * Z) : mem * Z * Z :=
  match n with
  | O => st
  | S n => let '(_, i, _) := st in if negb (i <? size) then st else scan_table n pd buf size attr pt pgno (j + 1) (scan_entry pd buf attr pt pgno j st)
  end.
Fixpoint scan_tables (fuel : nat) (T : gmap Z PageTableList) (pd buf size attr ptl1 pgno : Z) (st : mem * Z * Z) : option (mem * Z * Z) :=
  let '(_, i, _) := st in
  if (ptl1 =? 0) || negb (i <? size) then Some st else
  match fuel with
  | O => None
  | S fuel => l ← T !! ptl1; scan_tables fuel T pd buf size attr (ptl_next l) (u32 (pgno + 1024)) (scan_table 1024 pd buf size attr (pgtable l) pgno 0 st)
  end.
Fixpoint scan_regions (fuel : nat) (pd buf size type attr mreg i physbuf : Z) s : option (Z * vmst K) :=
  if (mreg =? 0) || negb (i <? size) then Some (i, s) else
  match fuel with
  | O => None
  | S fuel =>
      r ← regions s !! mreg;
      '(i, physbuf, s) ←
        (if (mreg_type r =? type) || (type =? 0) then
           '(mseg, s) ← vm_getmemsegment mreg s;
           s ← lock_region mreg s;
           '(i, physbuf, s) ←
             (if negb (mseg =? 0) then
                g ← segments s !! mseg;
                '(m, i, physbuf) ← scan_tables (S (base.size (ptls s))) (ptls s) pd buf size attr (mseg_pgtable g) (page_no (mreg_startaddr r)) (phys s, i, physbuf);
                s ← vm_releasesegment mseg (set_phys m s);
                Some (i, physbuf, s)
              else Some (i, physbuf, s));
           s ← unlock_region mreg s;
           Some (i, physbuf, s)
         else Some (i, physbuf, s));
      r ← regions s !! mreg;
      scan_regions fuel pd buf size type attr (mreg_next r) i physbuf s
  end.
Definition vm_getattrlistpages (vmem buf size type attr : Z) s : option (Z * vmst K) :=
  v ← vms s !! vmem;
  scan_regions (region_fuel s) (vm_pgdir v) buf size type attr (vm_mregion v) 0 (logical2physical (phys s) (vm_pgdir v) buf) s.
Definition vm_getdirtylist (vmem buf size type : Z) s : option (Z * vmst K) := vm_getattrlistpages vmem buf size type 2 s.
Definition vm_getaccesslist (vmem buf size type : Z) s : option (Z * vmst K) := vm_getattrlistpages vmem buf size type 1 s.
Definition vm_getattr (vmem lpage : Z) s : Z := 0.

(** * System calls *)

(** [syscall_brk]; the addresses are those of the current process's space. *)
Definition syscall_brk (vmem end_data_addr : Z) s : option (Z * vmst K) :=
  v ← vms s !! vmem;
  '(p, _) ← find_region (region_fuel s) (fun r => mreg_type r =? SEGMENTTYPE_DATA) (vm_mregion v) 0 s;
  r ← regions s !! p;
  if end_data_addr =? 0 then Some (s32 (mreg_endaddr r), s) else
  if end_data_addr <? mreg_startaddr r then Some (EINVALIDADDRESS, s) else
  let diffsize := s32 (mreg_endaddr r - end_data_addr) in
  '(ret, s) ← (if diffsize <? 0 then vm_expandregion vmem (mreg_startaddr r) (u32 (- diffsize)) 1 1 s
               else vm_shrinkregion vmem (mreg_startaddr r) (u32 diffsize) s);
  Some (if ret =? 0 then 0 else ENOMEM, s).

(** The bitmap of private pages, one byte per page; what lies behind the array is
    [after]. *)
Definition PRIVATE_PAGES : Z := 8192.
Definition bit_at (bitmap : list Z) (after : Z -> Z) (i : Z) : Z := default (after i) (zget bitmap i).

(** The inner [while] of [syscall_primalloc]. *)
Fixpoint count_free (fuel : nat) (bitmap : list Z) (after : Z -> Z) (npages j count : Z) : option (Z * Z) :=
  if (count <? npages) && (bit_at bitmap after j =? 0) && (j <? PRIVATE_PAGES) then
    match fuel with O => None | S fuel => count_free fuel bitmap after npages (j + 1) (count + 1) end
  else Some (j, count).
Fixpoint find_pages (fuel : nat) (bitmap : list Z) (after : Z -> Z) (npages i : Z) : option (option Z) :=
  if negb (i <? PRIVATE_PAGES) then Some None else
  match fuel with
  | O => None
  | S fuel =>
      if bit_at bitmap after i =? 0 then
        '(j, count) ← count_free (Z.to_nat PRIVATE_PAGES) bitmap after npages (i + 1) 1;
        if count =? npages then Some (Some i) else find_pages fuel bitmap after npages (j + 1)
      else find_pages fuel bitmap after npages (i + 1)
  end.
Fixpoint set_bits (n : nat) (i v : Z) (bitmap : list Z) : option (list Z) :=
  match n with O => Some bitmap | S n => b ← zset bitmap i v; set_bits n (i + 1) v b end.

Definition syscall_primalloc (vmem size : Z) (bitmap : list Z) (after : Z -> Z) s : option (Z * list Z * vmst K) :=
  if PRIMALLOC_MAX <? size then Some (0, bitmap, s) else
  let npages := Z.shiftr (u32 (size + 4095)) 12 in
  found ← find_pages (Z.to_nat PRIVATE_PAGES) bitmap after npages 0;
  match found with
  | None => Some (0, bitmap, s)
  | Some i =>
      let logical_addr := u32 (0xFDC00000 + i * 0x1000) in
      '(ret, s) ← vm_addregion vmem SEGMENTTYPE_PRIVATE logical_addr (u32 (logical_addr + npages * 0x1000)) 1 1 s;
      if ret =? 0 then b ← set_bits (Z.to_nat npages) i 1 bitmap; Some (s32 logical_addr, b, s) else Some (0, bitmap, s)
  end.

Definition syscall_prifree (vmem addr size : Z) (bitmap : list Z) s : option (Z * list Z * vmst K) :=
  let npages := Z.shiftr (u32 (size + 4095)) 12 in
  let start_page := u32 (Z.shiftr addr 12 - 0xFDC00) in
  '(ret, s) ← vm_delregion vmem addr s;
  if ret =? 0 then b ← set_bits (Z.to_nat npages) start_page 0 bitmap; Some (0, b, s) else Some (0, bitmap, s).

#[local] Opaque get_pde get_pte ld8 bzero make_PDE make_PTE.

(** * Giving pages back *)

(** The frames of entries, as addresses; 0 is no frame. *)
Definition frame_addrs (fas : list Z) : list Z := (fun f => 4096 * f) <$> filter (fun f => f <> 0) fas.

(** The run gathered so far. *)
Definition pending (start n : Z) : list Z := run_frames (mk_ch (Z.shiftl start 12) n).

Lemma pending_elem start n p : p ∈ pending start n <-> exists i, 0 <= i < n /\ p = 4096 * (start + i).
Proof.
  unfold pending. rewrite run_frames_elem. cbn [phys_addr no_blocks]. rewrite Z.shiftl_mul_pow2 by lia. change (2 ^ 12) with 4096.
  split; intros (i & Hi & ->); exists i; (split; [done|lia]).
Qed.

Definition gathered (start prev n : Z) : Prop := (start = 0 /\ prev = 0 /\ n = 0) \/ (0 < start /\ prev = start /\ 1 <= n).

Lemma free_run_law h U R start n :
  heap_inv h U R -> 1 <= n -> (forall p, p ∈ pending start n -> p ∈ R) ->
  exists h', free_run start n h = Some h' /\ heap_inv h' U (R ∖ list_to_set (pending start n)).
Proof. intros Hh Hn HR. apply core_free_law; [done|cbn; lia|done]. Qed.

Lemma heap_inv_ext (h : K) U (R R' : gset Z) : heap_inv h U R -> (forall p, p ∈ R <-> p ∈ R') -> heap_inv h U R'.
Proof. intros Hh HR. by replace R' with R by (apply set_eq; exact HR). Qed.

(** The loop frees each frame once: [R] are the frames taken, [Q] those that will
    stay; the pending run and the entries to come are the rest. *)
Lemma run_steps_free fas start prev n h U Q :
  gathered start prev n -> heap_inv h U (Q ∪ list_to_set (pending start n) ∪ list_to_set (frame_addrs fas)) ->
  Forall (fun f => 0 <= f) fas -> NoDup (frame_addrs fas) -> (forall p, p ∈ frame_addrs fas -> p ∉ pending start n) ->
  (forall p, p ∈ pending start n \/ p ∈ frame_addrs fas -> p ∉ Q) ->
  exists start' prev' n' h', run_steps (start, prev, n, h) fas = Some (start', prev', n', h') /\ gathered start' prev' n' /\
    heap_inv h' U (Q ∪ list_to_set (pending start' n')) /\ (forall p, p ∈ pending start' n' -> p ∉ Q).
Proof.
  revert start prev n h. induction fas as [|fa fas IH]; intros start prev n h Hg Hh Hpos Hnd Hpe HQ; cbn [run_steps].
  { exists start, prev, n, h. split; [done|]. split; [done|]. split; [|intros p Hp; apply HQ; by left].
    unfold frame_addrs in Hh. rewrite filter_nil in Hh. cbn in Hh. by rewrite (right_id_L ∅ (∪)) in Hh. }
  apply Forall_cons in Hpos as [Hfa Hpos]. unfold run_step. destruct (Z.eqb_spec fa 0) as [->|Hnz].
  - change (frame_addrs (0 :: fas)) with (frame_addrs fas) in *. destruct (Z.eqb_spec start 0) as [->|Hs]; cbn [negb mbind option_bind].
    + destruct Hg as [(_ & -> & ->)|(? & _)]; [|lia]. apply IH; auto. by left.
    + destruct Hg as [(? & _)|(Hs0 & -> & Hn)]; [lia|].
      destruct (free_run_law h U (Q ∪ list_to_set (pending start n) ∪ list_to_set (frame_addrs fas)) start n) as (h' & -> & Hh'); auto; [set_solver|].
      cbn [mbind option_bind]. apply IH; auto; [by left| |by intros p _ ?%elem_of_nil|intros p [?%elem_of_nil|?]; [done|auto]].
      apply (heap_inv_ext _ _ _ _ Hh'). change (pending 0 0) with (@nil Z). intros p.
      rewrite elem_of_difference, !elem_of_union, !elem_of_list_to_set. specialize (Hpe p). specialize (HQ p). split; [tauto|]. intros [[?|?%elem_of_nil]|?]; [|done|]; tauto.
  - assert (Ef : frame_addrs (fa :: fas) = 4096 * fa :: frame_addrs fas) by (unfold frame_addrs; by rewrite filter_cons_True).
    rewrite Ef in *. apply NoDup_cons in Hnd as [Hnew Hnd].
    assert (Hone : forall q, q ∈ pending fa 1 <-> q = 4096 * fa).
    { intros q. rewrite pending_elem. split; [intros (i & ? & ->)|intros ->; exists 0]; lia. }
    destruct (Z.eqb_spec prev 0) as [->|Hp]; [|destruct (Z.eqb_spec (prev + 1) fa) as [E|Hne]].
    + destruct Hg as [(-> & _ & ->)|(? & ? & _)]; [|lia]. cbn [mbind option_bind]. apply IH; auto; [right; lia| | |].
      * apply (heap_inv_ext _ _ _ _ Hh). change (pending 0 0) with (@nil Z). intros p.
        rewrite !elem_of_union, !elem_of_list_to_set, Hone, elem_of_cons. split; [intros [[?|?%elem_of_nil]|?]; [|done|]|]; tauto.
      * intros p Hp'. rewrite Hone. intros ->. done.
      * intros p. rewrite Hone. intros [->|?]; apply HQ; right; [by left|by right].
    + destruct Hg as [(_ & ? & _)|(Hs0 & -> & Hn)]; [lia|]. cbn [mbind option_bind].
      assert (n = 1) as ->.
      { destruct (decide (n = 1)); [done|]. exfalso. apply (Hpe (4096 * fa)); [by left|]. apply pending_elem. exists 1. split; [lia|]. lia. }
      assert (Htwo : forall q, q ∈ pending start (1 + 1) <-> q ∈ pending start 1 \/ q = 4096 * fa).
      { intros q. rewrite !pending_elem. split; [intros (i & ? & ->)|intros [(i & ? & ->)| ->]; [exists i|exists 1]; split; lia].
        destruct (decide (i = 0)); [left; exists 0; split; lia|right; lia]. }
      apply IH; auto; [right; lia| | |].
      * apply (heap_inv_ext _ _ _ _ Hh). intros p. rewrite !elem_of_union, !elem_of_list_to_set, Htwo, elem_of_cons. tauto.
      * intros p Hp'. rewrite Htwo. intros [?| ->]; [|done]. by apply (Hpe p); [right|].
      * intros p. rewrite Htwo. intros [[?| ->]|?]; apply HQ; [by left|right; by left|right; by right].
    + destruct Hg as [(_ & ? & _)|(Hs0 & -> & Hn)]; [lia|].
      destruct (free_run_law h U (Q ∪ list_to_set (pending start n) ∪ list_to_set (4096 * fa :: frame_addrs fas)) start n) as (h' & -> & Hh'); auto; [set_solver|].
      cbn [mbind option_bind]. apply IH; auto; [right; lia| | |].
      * apply (heap_inv_ext _ _ _ _ Hh'). intros p.
        rewrite elem_of_difference, !elem_of_union, !elem_of_list_to_set, Hone, elem_of_cons. specialize (Hpe p). specialize (HQ p). rewrite elem_of_cons in Hpe, HQ.
        split; [tauto|]. intros [[?| ->]|?]; [| |]; tauto.
      * intros p Hp'. rewrite Hone. intros ->. done.
      * intros p. rewrite Hone. intros [->|?]; apply HQ; right; [by left|by right].
Qed.

Lemma free_frames_spec fas h U R :
  heap_inv h U R -> Forall (fun f => 0 <= f) fas -> NoDup (frame_addrs fas) -> (forall p, p ∈ frame_addrs fas -> p ∈ R) ->
  exists h', free_frames fas h = Some h' /\ heap_inv h' U (R ∖ list_to_set (frame_addrs fas)).
Proof.
  intros Hh Hpos Hnd HR. set (Q := R ∖ list_to_set (frame_addrs fas)).
  destruct (run_steps_free fas 0 0 0 h U Q) as (start & prev & n & h1 & E & Hg & Hh1 & HQ); auto.
  - by left.
  - apply (heap_inv_ext _ _ _ _ Hh). change (pending 0 0) with (@nil Z). unfold Q. intros p.
    rewrite !elem_of_union, elem_of_difference, !elem_of_list_to_set. specialize (HR p).
    split; [|intros [[?|?%elem_of_nil]|?]; [tauto|done|tauto]]. intros ?. destruct (decide (p ∈ frame_addrs fas)); tauto.
  - by intros p _ ?%elem_of_nil.
  - intros p [?%elem_of_nil|Hp]; [done|]. unfold Q. rewrite elem_of_difference, elem_of_list_to_set. tauto.
  - unfold free_frames. rewrite E. cbn [mbind option_bind]. destruct (Z.ltb_spec 0 n) as [Hn|Hn].
    + destruct (free_run_law h1 U (Q ∪ list_to_set (pending start n)) start n) as (h' & -> & Hh'); [done|lia|set_solver|]. exists h'. split; [done|].
      apply (heap_inv_ext _ _ _ _ Hh'). intros p. rewrite elem_of_difference, elem_of_union, elem_of_list_to_set. specialize (HQ p). tauto.
    + destruct Hg as [(-> & _ & ->)|(_ & _ & ?)]; [|lia]. exists h1. split; [done|]. change (pending 0 0) with (@nil Z) in Hh1. cbn in Hh1. by rewrite (right_id_L ∅ (∪)) in Hh1.
Qed.

(** * The tables of a segment *)

(** The list of table nodes from [p] on: each node with its table. *)
Fixpoint ptchain (m : gmap Z PageTableList) (p : Z) (T : list (Z * Z)) : Prop :=
  match T with
  | [] => p = 0
  | (n, t) :: T' => p = n /\ n <> 0 /\ exists nx, m !! n = Some (mk_ptl t nx) /\ ptchain m nx T'
  end.
(** All pages of a segment: those in its tables, and the tables. *)
Definition seg_pages (m : mem) (T : list (Z * Z)) : list Z := concat ((fun nt => frame_addrs (table_frames m nt.2) ++ [nt.2]) <$> T).
Fixpoint del_all {A} (ns : list Z) (m : gmap Z A) : gmap Z A :=
  match ns with [] => m | n :: ns => del_all ns (delete n m) end.

Lemma ptchain_frame m m' p T : ptchain m p T -> (forall n, n ∈ T.*1 -> m' !! n = m !! n) -> ptchain m' p T.
Proof.
  revert p. induction T as [|[n t] T IH]; intros p; cbn [ptchain]; [done|]. intros (-> & Hn & nx & E & Hc) Hm. split; [done|]. split; [done|]. exists nx.
  rewrite Hm; [|by left]. split; [done|]. apply IH; [done|]. intros k Hk. apply Hm. by right.
Qed.
Lemma seg_pages_cons m n t T : seg_pages m ((n, t) :: T) = frame_addrs (table_frames m t) ++ t :: seg_pages m T.
Proof. unfold seg_pages. cbn. by rewrite <- app_assoc. Qed.
Lemma del_all_lookup {A} ns (m : gmap Z A) p : p ∉ ns -> del_all ns m !! p = m !! p.
Proof.
  revert m. induction ns as [|n ns IH]; intros m Hp; cbn [del_all]; [done|]. apply not_elem_of_cons in Hp as [Hn Hp]. rewrite IH by done. by apply lookup_delete_ne.
Qed.

Lemma table_frames_pos m pt : Forall (fun f => 0 <= f) (table_frames m pt).
Proof. apply Forall_forall. intros f (j & -> & _)%list_elem_of_fmap. apply frame_no_range. Qed.

Lemma run_frames_one t : run_frames (mk_ch t 1) = [t].
Proof. unfold run_frames. cbn [phys_addr no_blocks]. change (seqZ 0 1) with [0]. cbn [fmap list_fmap]. by rewrite Z.mul_0_r, Z.add_0_r. Qed.

(** [vm_destroysegment] gives back each page of the tables, the tables and the nodes,
    once each. *)
Lemma destroy_tables_spec fuel p T s U R :
  ptchain (ptls s) p T -> NoDup T.*1 -> (length T <= fuel)%nat -> heap_inv (heap s) U R -> (forall n, n ∈ T.*1 -> is_Some (U !! n)) ->
  NoDup (seg_pages (phys s) T) -> (forall q, q ∈ seg_pages (phys s) T -> q ∈ R) ->
  exists h, destroy_tables fuel p s = Some (mk_st h (phys s) (vms s) (regions s) (segments s) (del_all T.*1 (ptls s))) /\
    heap_inv h (del_all T.*1 U) (R ∖ list_to_set (seg_pages (phys s) T)).
Proof.
  revert fuel p s U R. induction T as [|[n t] T IH]; intros fuel p s U R Hc Hnd Hf Hh HU Hpg HR.
  { cbn in Hc. subst p. exists (heap s). split; [by destruct fuel, s|]. cbn. by rewrite difference_empty_L. }
  destruct Hc as (-> & Hn0 & nx & E & Hc). destruct fuel as [|fuel]; [cbn in Hf; lia|]. cbn [destroy_tables]. rewrite (proj2 (Z.eqb_neq n 0)), E by done.
  cbn [mbind option_bind pgtable ptl_next]. rewrite seg_pages_cons in Hpg, HR. apply NoDup_app in Hpg as (Hf1 & Hf2 & Hf3). apply NoDup_cons in Hf3 as [Ht Hpg].
  rewrite fmap_cons in *. cbn [fst] in *. apply NoDup_cons in Hnd as [Hn Hnd].
  destruct (free_frames_spec (table_frames (phys s) t) (heap s) U R) as (h1 & -> & Hh1); [done|apply table_frames_pos|done|intros q Hq; apply HR, elem_of_app; by left|].
  cbn [mbind option_bind]. pose proof (run_frames_one t) as Eone.
  destruct (core_free_law h1 U _ (mk_ch t 1) Hh1) as (h2 & -> & Hh2); [cbn; lia| |].
  { rewrite Eone. intros q ->%list_elem_of_singleton. apply elem_of_difference. split; [apply HR, elem_of_app; right; by left|].
    rewrite elem_of_list_to_set. intros Hq. apply (Hf2 t Hq). by left. }
  cbn [mbind option_bind]. unfold free_ptl. cbn [heap set_heap]. destruct (kfree_law h2 U _ n Hh2) as (h3 & -> & Hh3); [apply HU; by left|]. cbn [mbind option_bind].
  set (s1 := set_ptls _ _). assert (Hc1 : ptchain (ptls s1) nx T).
  { eapply ptchain_frame; [exact Hc|]. intros k Hk. cbn. apply lookup_delete_ne. intros ->. done. }
  destruct (IH fuel nx s1 (delete n U) (R ∖ list_to_set (frame_addrs (table_frames (phys s) t)) ∖ list_to_set (run_frames (mk_ch t 1)))) as (h & -> & Hh'); auto.
  - cbn in Hf. lia.
  - intros k Hk. rewrite lookup_delete_ne by (intros ->; done). apply HU. by right.
  - cbn [s1 phys set_ptls set_heap]. intros q Hq. rewrite Eone, !elem_of_difference, !elem_of_list_to_set, list_elem_of_singleton. split; [split|].
    + apply HR, elem_of_app. right. by right.
    + intros Hq'. apply (Hf2 q Hq'). by right.
    + intros ->. done.
  - exists h. split; [done|]. cbn [del_all]. apply (heap_inv_ext _ _ _ _ Hh'). cbn [s1 phys set_ptls set_heap]. intros q.
    rewrite Eone, seg_pages_cons, !elem_of_difference, !elem_of_list_to_set, list_elem_of_singleton, elem_of_app, elem_of_cons. tauto.
Qed.

Lemma ptchain_size m p T : ptchain m p T -> NoDup T.*1 -> (length T <= size m)%nat.
Proof.
  intros Hc Hnd. rewrite <- (length_fmap fst T). assert (Hs : (list_to_set T.*1 : gset Z) ⊆ dom m).
  { intros n Hn%elem_of_list_to_set. clear Hnd. revert p Hc. induction T as [|[k t] T IH]; [by apply elem_of_nil in Hn|]. intros p (-> & _ & nx & E & Hc).
    rewrite fmap_cons in Hn. apply elem_of_cons in Hn as [->|Hn]; [by apply elem_of_dom_2 in E|]. by eapply IH. }
  apply subseteq_size in Hs. rewrite size_list_to_set, size_dom in Hs by done. done.
Qed.

Lemma vm_destroysegment_spec g sg T s U R :
  segments s !! g = Some sg -> ptchain (ptls s) (mseg_pgtable sg) T -> NoDup T.*1 -> heap_inv (heap s) U R -> (forall n, n ∈ T.*1 -> is_Some (U !! n)) ->
  is_Some (U !! g) -> g ∉ T.*1 -> NoDup (seg_pages (phys s) T) -> (forall q, q ∈ seg_pages (phys s) T -> q ∈ R) ->
  exists h, vm_destroysegment g s = Some (mk_st h (phys s) (vms s) (regions s) (delete g (segments s)) (del_all T.*1 (ptls s))) /\
    heap_inv h (delete g (del_all T.*1 U)) (R ∖ list_to_set (seg_pages (phys s) T)).
Proof.
  intros Eg Hc Hnd Hh HU HUg Hg Hpg HR. unfold vm_destroysegment. rewrite Eg. cbn [mbind option_bind].
  destruct (destroy_tables_spec (S (size (ptls s))) (mseg_pgtable sg) T s U R) as (h1 & -> & Hh1); auto; [pose proof (ptchain_size _ _ _ Hc Hnd); lia|].
  cbn [mbind option_bind]. unfold free_segment. cbn [heap]. destruct (kfree_law h1 (del_all T.*1 U) _ g Hh1) as (h & -> & Hh2); [by rewrite del_all_lookup|].
  cbn [mbind option_bind]. exists h. done.
Qed.

(** * New tables *)

Definition ins_all (ns : list Z) (U : gmap Z Z) : gmap Z Z := foldl (fun U n => <[n := SIZEOF_PTL]> U) U ns.
Definition first_node (T : list (Z * Z)) : Z := match T with [] => 0 | (n, _) :: _ => n end.
Definition last_node (T : list (Z * Z)) : Z := default 0 (fst <$> last T).

(** The state [s] in which a segment [g], without tables in [s0], has got the tables
    [T] for the directory entries from [j0] on: nothing else has changed, and the
    tables are empty. *)
Record tables_made (s0 : vmst K) (U0 : gmap Z Z) (R0 : gset Z) (pd g : Z) (sg : memsegment) (j0 : Z) (T : list (Z * Z)) (s : vmst K) : Prop := {
  tm_heap : heap_inv (heap s) (ins_all T.*1 U0) (R0 ∪ list_to_set T.*2);
  tm_seg : segments s = <[g := with_pgtable (first_node T) sg]> (segments s0);
  tm_chain : ptchain (ptls s) (first_node T) T;
  tm_ptls p : p ∉ T.*1 -> ptls s !! p = ptls s0 !! p;
  tm_nodes : NoDup T.*1;
  tm_fresh n : n ∈ T.*1 -> U0 !! n = None;
  tm_tabs : NoDup T.*2;
  tm_new t : t ∈ T.*2 -> t ∉ R0;
  tm_regions : regions s = regions s0;
  tm_vms : vms s = vms s0;
  tm_base k t : T.*2 !! k = Some t -> pd_present (get_pde (phys s) pd (j0 + Z.of_nat k)) = 1 /\ base_of (phys s) pd (j0 + Z.of_nat k) = t;
  tm_zero t x : t ∈ T.*2 -> in_table t x -> ld8 (phys s) x = 0;
  tm_phys x : ~ (pd + 4 * j0 <= x < pd + 4 * (j0 + zlen T)) -> (forall t, t ∈ T.*2 -> ~ in_table t x) -> ld8 (phys s) x = ld8 (phys s0) x }.

Lemma ins_all_snoc ns n U : ins_all (ns ++ [n]) U = <[n := SIZEOF_PTL]> (ins_all ns U).
Proof. unfold ins_all. by rewrite foldl_app. Qed.
Lemma ins_all_None ns U p : ins_all ns U !! p = None -> p ∉ ns /\ U !! p = None.
Proof.
  revert U. induction ns as [|n ns IH]; intros U; cbn; [intros ?; split; [by apply not_elem_of_nil|done]|]. intros [Hp E]%IH.
  apply lookup_insert_None in E as [E Hne]. split; [apply not_elem_of_cons; by split|done].
Qed.

Lemma ptchain_snoc m q T n t p t' :
  ptchain m q (T ++ [(n, t)]) -> n ∉ T.*1 -> p ∉ T.*1 -> p <> n -> p <> 0 -> ptchain (<[n := mk_ptl t p]> (<[p := mk_ptl t' 0]> m)) q (T ++ [(n, t); (p, t')]).
Proof.
  revert q. induction T as [|[k u] T IH]; intros q Hc Hn Hp Hpn Hp0; cbn [app ptchain] in *.
  - destruct Hc as (-> & Hn0 & nx & E & _). split; [done|]. split; [done|]. exists p. rewrite lookup_insert_eq. split; [done|]. split; [done|]. split; [done|].
    exists 0. by rewrite lookup_insert_ne, lookup_insert_eq.
  - destruct Hc as (-> & Hk & nx & E & Hc). rewrite fmap_cons in Hn, Hp. cbn [fst] in Hn, Hp. apply not_elem_of_cons in Hn as [? ?], Hp as [? ?]. split; [done|]. split; [done|].
    exists nx. rewrite !lookup_insert_ne by done. split; [done|]. by apply IH.
Qed.

Lemma aligned_apart a b x : a mod 4096 = 0 -> b mod 4096 = 0 -> a <> b -> in_table a x -> ~ in_table b x.
Proof. unfold in_table. intros. Z.div_mod_to_equations; lia. Qed.

Lemma frame_dir h U (R : gset Z) p : heap_inv h U R -> p ∈ R -> dir_ok p /\ p mod 4096 = 0 /\ 0 < p.
Proof. intros Hh Hp. destruct (frame_range h U R p Hh Hp) as (? & ? & Hm). unfold Pages.HOLE_MAX in Hm. unfold dir_ok. split; [lia|done]. Qed.

Lemma last_node_snoc T n t : last_node (T ++ [(n, t)]) = n.
Proof. unfold last_node. by rewrite last_snoc. Qed.
Lemma first_snoc T n t : first_node (T ++ [(n, t)]) = if bool_decide (T = []) then n else first_node T.
Proof. by destruct T as [|[]]. Qed.

(** The bytes after a new table [t] for entry [j]. *)
Lemma table_bytes pd j t rw m x :
  dir_ok pd -> 0 <= j < 1024 ->
  let m' := make_PDE pd j (Z.shiftr t 12) 0 rw 1 0 (bzero t 4096 m) in
  (~ in_table t x -> ~ (pd + 4 * j <= x < pd + 4 * j + 4) -> ld8 m' x = ld8 m x) /\ (in_table t x -> ~ in_table pd x -> ld8 m' x = 0).
Proof.
  intros Hd Hj. cbv zeta. unfold in_table. split.
  - intros H1 H2. rewrite make_PDE_out by (done || lia). apply bzero_out; lia.
  - intros H1 H2. rewrite make_PDE_out by (done || lia). apply bzero_in; lia.
Qed.

Lemma new_entry pd j t rw m : dir_ok pd -> 0 <= j < 1024 -> dir_ok t -> t mod 4096 = 0 -> 0 <= rw < 2 ->
  let m' := make_PDE pd j (Z.shiftr t 12) 0 rw 1 0 (bzero t 4096 m) in pd_present (get_pde m' pd j) = 1 /\ base_of m' pd j = t.
Proof.
  intros Hd Hj [Ht1 Ht2] Ha Hrw. cbv zeta. unfold base_of. rewrite get_pde_make by (lia || (rewrite Z.shiftr_div_pow2 by lia; change (2 ^ 12) with 4096; Z.div_mod_to_equations; lia)).
  cbn [pd_present page_table_base_addr]. split; [done|]. rewrite Z.shiftr_div_pow2, Z.shiftl_mul_pow2 by lia. change (2 ^ 12) with 4096. Z.div_mod_to_equations; lia.
Qed.

(** Only the heap changed, to an equal one. *)
Lemma made_heap s0 U0 R0 pd g sg j0 T s h : tables_made s0 U0 R0 pd g sg j0 T s -> heap_inv h (ins_all T.*1 U0) (R0 ∪ list_to_set T.*2) ->
  tables_made s0 U0 R0 pd g sg j0 T (set_heap h s).
Proof. intros [] Hh. by split. Qed.

(** The frames of the tables so far, and a new one. *)
Lemma made_frame s0 U0 R0 pd g sg j0 T s u : tables_made s0 U0 R0 pd g sg j0 T s -> u ∈ T.*2 -> dir_ok u /\ u mod 4096 = 0 /\ 0 < u.
Proof. intros M Hu. eapply frame_dir; [apply M|]. apply elem_of_union. right. by apply elem_of_list_to_set. Qed.
Lemma made_dir s0 U0 R0 pd g sg j0 T s : tables_made s0 U0 R0 pd g sg j0 T s -> pd ∈ R0 -> dir_ok pd /\ pd mod 4096 = 0 /\ 0 < pd.
Proof. intros M Hu. eapply frame_dir; [apply M|]. apply elem_of_union. by left. Qed.

(** The state after a table [t] with node [p] has been entered. *)
Lemma made_snoc s0 U0 R0 pd g sg j0 T s rw p t s' h :
  tables_made s0 U0 R0 pd g sg j0 T s -> pd ∈ R0 -> 0 <= j0 -> j0 + zlen T < 1024 -> 0 <= rw < 2 ->
  p ∉ T.*1 -> U0 !! p = None -> t ∉ R0 -> t ∉ T.*2 ->
  heap_inv h (<[p := SIZEOF_PTL]> (ins_all T.*1 U0)) (R0 ∪ list_to_set T.*2 ∪ list_to_set [t]) -> dir_ok t -> t mod 4096 = 0 ->
  segments s' = <[g := with_pgtable (first_node (T ++ [(p, t)])) sg]> (segments s0) -> ptchain (ptls s') (first_node (T ++ [(p, t)])) (T ++ [(p, t)]) ->
  (forall q, q ∉ (T ++ [(p, t)]).*1 -> ptls s' !! q = ptls s0 !! q) -> heap s' = h ->
  phys s' = make_PDE pd (j0 + zlen T) (Z.shiftr t 12) 0 rw 1 0 (bzero t 4096 (phys s)) -> regions s' = regions s -> vms s' = vms s ->
  tables_made s0 U0 R0 pd g sg j0 (T ++ [(p, t)]) s'.
Proof.
  intros M Hpd Hj0 Hj Hrw HpT HpU HtR HtT Hh Htd Hta E1 E2 E3 E4 E5 E6 E7. destruct (made_dir _ _ _ _ _ _ _ _ _ M Hpd) as (Hdir & Hpa & _).
  assert (Htp : t <> pd) by (intros E; rewrite E in HtR; exact (HtR Hpd)). assert (Hlen : zlen (T ++ [(p, t)]) = zlen T + 1) by (unfold zlen; rewrite length_app; cbn; lia).
  assert (HT0 : 0 <= zlen T) by (unfold zlen; lia).
  pose proof (fun x => table_bytes pd (j0 + zlen T) t rw (phys s) x Hdir ltac:(lia)) as HB. cbv zeta in HB. rewrite <- E5 in HB.
  assert (Hcase : forall u, u ∈ (T ++ [(p, t)]).*2 -> u ∈ T.*2 \/ u = t) by (intros u; rewrite fmap_app, elem_of_app; cbn [fmap list_fmap snd]; by rewrite list_elem_of_singleton).
  assert (Hold : forall u, u ∈ T.*2 -> u mod 4096 = 0 /\ u <> t /\ u <> pd).
  { intros u Hu. destruct (made_frame _ _ _ _ _ _ _ _ _ u M Hu) as (_ & ? & _). split; [assumption|]. split; intros E; rewrite E in Hu; [exact (HtT Hu)|exact (tm_new _ _ _ _ _ _ _ _ _ M pd Hu Hpd)]. }
  split; [|exact E1|exact E2|exact E3|..|rewrite E6; apply M|rewrite E7; apply M| | |].
  - rewrite E4, !fmap_app. cbn [fmap list_fmap fst snd]. rewrite ins_all_snoc. apply (heap_inv_ext _ _ _ _ Hh). intros q. rewrite list_to_set_app, !elem_of_union. tauto.
  - rewrite fmap_app. apply NoDup_app. split; [apply M|]. split; [|apply NoDup_singleton]. intros q Hq E%list_elem_of_singleton. cbn in E. subst q. auto.
  - intros n Hn. rewrite fmap_app in Hn. apply elem_of_app in Hn as [Hn|Hn%list_elem_of_singleton]; [apply (tm_fresh _ _ _ _ _ _ _ _ _ M); assumption|cbn in Hn; subst n; exact HpU].
  - rewrite fmap_app. apply NoDup_app. split; [apply M|]. split; [|apply NoDup_singleton]. intros q Hq E%list_elem_of_singleton. cbn in E. subst q. auto.
  - intros u [Hu| ->]%Hcase; [apply (tm_new _ _ _ _ _ _ _ _ _ M); assumption|exact HtR].
  - intros k u. rewrite fmap_app. cbn [fmap list_fmap snd]. intros [Hk|[Hk Hu]]%lookup_app_Some.
    + assert (HkT : 0 <= Z.of_nat k < zlen T) by (apply lookup_lt_Some in Hk; rewrite length_fmap in Hk; unfold zlen; lia).
      destruct (tm_base _ _ _ _ _ _ _ _ _ M k u Hk) as [B1 B2]. unfold base_of in *. rewrite (get_pde_ext (phys s) (phys s') pd (j0 + Z.of_nat k)); [split; assumption|assumption|lia|].
      intros x Hx. apply (HB x); [|lia]. apply (aligned_apart pd t x); [assumption|assumption|congruence|unfold in_table; lia].
    + rewrite length_fmap in Hk, Hu. apply list_lookup_singleton_Some in Hu as [Hk0 <-]. rewrite E5.
      replace (j0 + Z.of_nat k) with (j0 + zlen T) by (unfold zlen; lia). apply new_entry; (assumption || lia).
  - intros u x Hu Hx. destruct (Hcase u Hu) as [Ho| ->].
    + destruct (Hold u Ho) as (Hua & Hut & Hup). rewrite (proj1 (HB x)); [apply (tm_zero _ _ _ _ _ _ _ _ _ M u); assumption|apply (aligned_apart u t x); assumption|].
      intros Hxp. apply (aligned_apart u pd x Hua Hpa Hup Hx). unfold in_table. lia.
    + apply (HB x); [assumption|]. apply (aligned_apart t pd x); assumption.
  - intros x Hx1 Hx2. rewrite Hlen in Hx1. rewrite (proj1 (HB x)).
    + apply (tm_phys _ _ _ _ _ _ _ _ _ M); [lia|]. intros u Hu. apply Hx2. rewrite fmap_app. apply elem_of_app. by left.
    + apply Hx2. rewrite fmap_app. apply elem_of_app. right. by left.
    + lia.
Qed.

Lemma ptchain_last m q T n u : ptchain m q (T ++ [(n, u)]) -> exists nx, m !! n = Some (mk_ptl u nx) /\ n <> 0.
Proof.
  revert q. induction T as [|[k w] T IH]; cbn [app ptchain]; intros q; [intros (_ & ? & nx & E & _); eauto|]. intros (_ & _ & nx & _ & Hc). by eapply IH.
Qed.

(** Entering the node [p]: at the head of the segment's list or behind its last node. *)
Definition enter_node (mseg ptl2 p : Z) s : option (vmst K) :=
  if ptl2 =? 0 then upd_segment mseg (with_pgtable p) s else l ← ptls s !! ptl2; Some (put_ptl ptl2 (mk_ptl (pgtable l) p) s).

Lemma enter_node_spec s0 U0 R0 pd g sg j0 T s rw p t h :
  tables_made s0 U0 R0 pd g sg j0 T s -> pd ∈ R0 -> 0 <= j0 -> j0 + zlen T < 1024 -> 0 <= rw < 2 ->
  p ∉ T.*1 -> p <> 0 -> U0 !! p = None -> t ∉ R0 -> t ∉ T.*2 ->
  heap_inv h (<[p := SIZEOF_PTL]> (ins_all T.*1 U0)) (R0 ∪ list_to_set T.*2 ∪ list_to_set [t]) -> dir_ok t -> t mod 4096 = 0 ->
  let s1 := put_ptl p (mk_ptl t 0) (set_phys (make_PDE pd (j0 + zlen T) (Z.shiftr t 12) 0 rw 1 0 (bzero t 4096 (phys s))) (set_heap h s)) in
  exists s', enter_node g (last_node T) p s1 = Some s' /\ tables_made s0 U0 R0 pd g sg j0 (T ++ [(p, t)]) s' /\ next_ptl p s' = Some 0.
Proof.
  intros M Hpd Hj0 Hj Hrw HpT Hp0 HpU HtR HtT Hh Htd Hta s1. unfold enter_node. pose proof (tm_seg _ _ _ _ _ _ _ _ _ M) as Eseg.
  destruct (decide (T = [])) as [->|Hne].
  - change (last_node []) with 0. cbn [Z.eqb]. unfold upd_segment, s1. cbn [segments put_ptl set_ptls set_phys set_heap]. rewrite Eseg, lookup_insert_eq. cbn [mbind option_bind].
    eexists. split; [reflexivity|]. split.
    + eapply made_snoc; try eassumption; try reflexivity.
      * cbn [segments put_segment set_segments put_ptl set_ptls set_phys set_heap]. by rewrite Eseg, insert_insert_eq.
      * cbn [app ptchain first_node]. split; [done|]. split; [lia|]. exists 0. split; [apply lookup_insert_eq|done].
      * intros q Hq. cbn [ptls put_segment set_segments put_ptl set_ptls set_phys set_heap]. rewrite lookup_insert_ne by (intros ->; apply Hq; by left). apply (tm_ptls _ _ _ _ _ _ _ _ _ M). apply not_elem_of_nil.
    + unfold next_ptl. destruct (Z.eqb_spec p 0); [lia|]. cbn [ptls put_segment set_segments put_ptl set_ptls]. by rewrite lookup_insert_eq.
  - destruct (exists_last Hne) as (T0 & [n u] & ->). rewrite last_node_snoc. pose proof (tm_chain _ _ _ _ _ _ _ _ _ M) as Hc. pose proof (tm_nodes _ _ _ _ _ _ _ _ _ M) as Hnd.
    pose proof HpT as HpT'. rewrite fmap_app in HpT', Hnd. cbn [fmap list_fmap fst] in HpT', Hnd. apply not_elem_of_app in HpT' as [HpT0 Hpn%not_elem_of_cons]. destruct Hpn as [Hpn _].
    apply NoDup_app in Hnd as (_ & Hnn & _). assert (HnT : n ∉ T0.*1) by (intros Hin; apply (Hnn n Hin); by left).
    destruct (ptchain_last _ _ _ _ _ Hc) as (nx & El & Hn0). destruct (Z.eqb_spec n 0); [done|]. unfold s1. cbn [ptls put_ptl set_ptls set_phys set_heap].
    rewrite lookup_insert_ne, El by done. cbn [mbind option_bind pgtable]. eexists. split; [reflexivity|]. split.
    + eapply made_snoc; try eassumption; try reflexivity.
      * cbn [segments put_ptl set_ptls set_phys set_heap]. by rewrite Eseg, (first_snoc (T0 ++ [(n, u)])), bool_decide_false.
      * rewrite (first_snoc (T0 ++ [(n, u)])), bool_decide_false by done. rewrite <- app_assoc. cbn [app ptls put_ptl set_ptls set_phys set_heap]. apply ptchain_snoc; (done || lia).
      * intros q Hq. cbn [ptls put_ptl set_ptls set_phys set_heap]. rewrite fmap_app in Hq. apply not_elem_of_app in Hq as [Hq Hqp%not_elem_of_cons]. destruct Hqp as [Hqp _].
        assert (q <> n) by (intros ->; apply Hq; rewrite fmap_app; apply elem_of_app; right; by left). cbn in Hqp. rewrite !lookup_insert_ne by congruence. by apply (tm_ptls _ _ _ _ _ _ _ _ _ M).
    + unfold next_ptl. destruct (Z.eqb_spec p 0); [lia|]. cbn [ptls put_ptl set_ptls]. by rewrite lookup_insert_ne, lookup_insert_eq by congruence.
Qed.

Lemma new_table_spec s0 U0 R0 pd g sg j0 T s rw :
  tables_made s0 U0 R0 pd g sg j0 T s -> pd ∈ R0 -> 0 <= j0 -> j0 + zlen T < 1024 -> 0 <= rw < 2 ->
  exists p s', new_table pd g (j0 + zlen T) 0 (last_node T) 0 rw 0 s = Some (p, s') /\
    ((p = 0 /\ tables_made s0 U0 R0 pd g sg j0 T s') \/
     (p <> 0 /\ (exists t, tables_made s0 U0 R0 pd g sg j0 (T ++ [(p, t)]) s') /\ next_ptl p s' = Some 0)).
Proof.
  intros M Hpd Hj0 Hj Hrw. pose proof (tm_heap _ _ _ _ _ _ _ _ _ M) as Hh. unfold new_table.
  destruct (core_alloc_law (heap s) _ _ 1 Hh) as (ch & h1 & -> & Hnb & Hfr & Hh1); [lia|]. cbn [mbind option_bind]. destruct (Z.ltb_spec (no_blocks ch) 1) as [Hz|Hone].
  { exists 0, (set_heap h1 s). split; [done|]. left. split; [done|]. apply made_heap; [done|]. apply (heap_inv_ext _ _ _ _ Hh1). intros q.
    rewrite elem_of_union, elem_of_list_to_set. split; [|tauto]. intros [?|(i & Hi & _)%run_frames_elem]; [done|lia]. }
  destruct ch as [t nb]. cbn [no_blocks phys_addr] in *. assert (nb = 1) as -> by lia. rewrite run_frames_one in *. specialize (Hfr t ltac:(by left)).
  destruct (kmalloc_law h1 _ _ SIZEOF_PTL Hh1) as (p & h2 & -> & Hp); [vm_compute; split; congruence|]. cbn [mbind option_bind].
  assert (Ht1 : t ∈ R0 ∪ list_to_set T.*2 ∪ list_to_set [t]) by (apply elem_of_union; right; apply elem_of_list_to_set; by left).
  destruct Hp as [[-> Hh2]|(Hp0 & Hfresh & Hh2)].
  { cbn [Z.eqb]. destruct (core_free_law h2 _ _ (mk_ch t 1) Hh2) as (h3 & -> & Hh3); [cbn; lia|rewrite run_frames_one; by intros q ->%list_elem_of_singleton|].
    cbn [mbind option_bind]. exists 0, (set_heap h3 s). split; [done|]. left. split; [done|]. apply made_heap; [done|]. apply (heap_inv_ext _ _ _ _ Hh3). intros q.
    rewrite run_frames_one. rewrite elem_of_difference, elem_of_union, elem_of_list_to_set, list_elem_of_singleton. split; [tauto|]. intros Hq. split; [tauto|]. intros ->. done. }
  destruct (Z.eqb_spec p 0); [lia|]. apply ins_all_None in Hfresh as [HpT HpU]. apply not_elem_of_union in Hfr as [HtR HtT]. rewrite elem_of_list_to_set in HtT.
  destruct (frame_dir _ _ _ t Hh1 Ht1) as (Htd & Hta & _).
  destruct (enter_node_spec s0 U0 R0 pd g sg j0 T s rw p t h2) as (s' & E & M' & En); auto. unfold enter_node in E. rewrite E. cbn [mbind option_bind].
  exists p, s'. split; [done|]. right. split; [lia|]. eauto.
Qed.

(** The entry of a slot without a table is as before. *)
Lemma made_base_later s0 U0 R0 pd g sg j0 T s k :
  tables_made s0 U0 R0 pd g sg j0 T s -> pd ∈ R0 -> 0 <= j0 -> zlen T <= k -> j0 + k < 1024 -> base_of (phys s) pd (j0 + k) = base_of (phys s0) pd (j0 + k).
Proof.
  intros M Hpd Hj0 Hk Hlim. destruct (made_dir _ _ _ _ _ _ _ _ _ M Hpd) as (Hdir & Hpa & _). assert (0 <= zlen T) by (unfold zlen; lia).
  unfold base_of. rewrite (get_pde_ext (phys s0) (phys s)); [reflexivity|assumption|lia|]. intros x Hx. apply (tm_phys _ _ _ _ _ _ _ _ _ M); [lia|]. intros t Ht.
  destruct (made_frame _ _ _ _ _ _ _ _ _ t M Ht) as (_ & Hta & _). apply (aligned_apart pd t x Hpa Hta); [|unfold in_table; lia].
  intros E. rewrite <- E in Ht. exact (tm_new _ _ _ _ _ _ _ _ _ M pd Ht Hpd).
Qed.

Lemma pdi_slot j : 0 <= j < 1024 -> Z.land (Z.shiftr (2 ^ 22 * j) 22) 0x3ff = j.
Proof.
  intros. change 0x3ff with (Z.ones 10). rewrite Z.land_ones, Z.shiftr_div_pow2 by lia. change (2 ^ 22) with 4194304. change (2 ^ 10) with 1024. Z.div_mod_to_equations; lia.
Qed.

(** [vm_expandpagetables] on slots without tables: it runs out of memory at some slot,
    or makes the tables up to the slot [j1] of the end. *)
Lemma expand_loop_spec fuel s0 U0 R0 pd g sg j0 j1 lend T s rw :
  tables_made s0 U0 R0 pd g sg j0 T s -> pd ∈ R0 -> 0 <= j0 -> 0 <= rw < 2 -> j1 < 1023 -> 2 ^ 22 * j1 <= lend < 2 ^ 22 * (j1 + 1) ->
  zlen T <= j1 - j0 + 1 -> j1 - j0 + 1 - zlen T <= Z.of_nat fuel -> (forall j, j0 <= j <= j1 -> base_of (phys s0) pd j = 0) ->
  exists r T' s', expand_loop fuel pd g (2 ^ 22 * (j0 + zlen T)) lend 0 (last_node T) 0 rw 0 s = Some (r, s') /\ tables_made s0 U0 R0 pd g sg j0 T' s' /\
    (r = ENOMEM \/ (r = 0 /\ zlen T' = j1 - j0 + 1)).
Proof.
  revert T s. induction fuel as [|fuel IH]; intros T s M Hpd Hj0 Hrw Hj1 Hlend HT Hf Hz; cbn [expand_loop]; assert (0 <= zlen T) by (unfold zlen; lia);
    (destruct (Z.leb_spec (2 ^ 22 * (j0 + zlen T)) lend); cbn [negb]; [|exists 0, T, s; split; [reflexivity|]; split; [assumption|]; right; split; [reflexivity|lia]]).
  { lia. }
  rewrite pdi_slot by lia. rewrite (made_base_later s0 U0 R0 pd g sg j0 T s (zlen T) M Hpd) by lia. rewrite Hz by lia. cbn [Z.eqb].
  destruct (new_table_spec s0 U0 R0 pd g sg j0 T s rw M Hpd) as (p & s1 & -> & Hp); [lia..|]. cbn [mbind option_bind]. destruct Hp as [[-> M1]|(Hp0 & (t & M1) & En)].
  { exists ENOMEM, T, s1. split; [reflexivity|]. split; [assumption|by left]. }
  destruct (Z.eqb_spec p 0); [lia|]. rewrite En. cbn [mbind option_bind].
  assert (Hlen : zlen (T ++ [(p, t)]) = zlen T + 1) by (unfold zlen; rewrite length_app; cbn; lia).
  change 0x00400000 with (2 ^ 22). rewrite u32_id by lia. destruct (IH (T ++ [(p, t)]) s1) as (r & T' & s' & E & M' & Hr); auto; try lia.
  rewrite last_node_snoc, Hlen in E. exists r, T', s'. split; [|by split]. rewrite <- E. f_equal. lia.
Qed.

(** The start of a segment: no tables. *)
Lemma made_nil s U R pd g sg j0 : heap_inv (heap s) U R -> segments s !! g = Some sg -> mseg_pgtable sg = 0 -> tables_made s U R pd g sg j0 [] s.
Proof.
  intros Hh Eg E0. split; try reflexivity; try (intros ? ?%elem_of_nil; contradiction); try constructor; try done.
  - apply (heap_inv_ext _ _ _ _ Hh). intros q. cbn. by rewrite (right_id_L ∅ (∪)).
  - cbn. rewrite insert_id; [reflexivity|]. rewrite Eg. destruct sg. cbn in *. by rewrite E0.
  - by intros t x ?%elem_of_nil.
Qed.

(** Rounding down to a power of two, to 4 MB and to a page. *)
Lemma land_high n a : 0 <= n <= 32 -> 0 <= a < 2 ^ 32 -> Z.land a (Z.shiftl (Z.ones (32 - n)) n) = 2 ^ n * (a / 2 ^ n).
Proof.
  intros Hn Ha. rewrite Z.mul_comm, <- Z.shiftl_mul_pow2, <- Z.shiftr_div_pow2 by lia.
  apply Z.bits_inj'. intros i Hi. rewrite Z.land_spec. destruct (Z.lt_ge_cases i n) as [Hlt|Hge]; [rewrite !Z.shiftl_spec_low by lia; apply andb_false_r|].
  rewrite !Z.shiftl_spec, Z.shiftr_spec by lia. replace (i - n + n) with i by lia. destruct (Z.lt_ge_cases i 32) as [H32|H32].
  - rewrite Z.ones_spec_low by lia. apply andb_true_r.
  - rewrite Z.ones_spec_high by lia. rewrite andb_false_r. symmetry. rewrite <- (Z.mod_small a (2 ^ 32)) by lia. by apply Z.mod_pow2_bits_high.
Qed.
Lemma land_slot a : 0 <= a < 2 ^ 32 -> Z.land a 0xffc00000 = 2 ^ 22 * (a / 2 ^ 22).
Proof. apply (land_high 22 a). lia. Qed.
Lemma land_page a : 0 <= a < 2 ^ 32 -> Z.land a 0xfffff000 = 4096 * (a / 4096).
Proof. apply (land_high 12 a). lia. Qed.

Lemma vm_expandpagetables_spec s U R pd g sg lstart lend rw :
  heap_inv (heap s) U R -> segments s !! g = Some sg -> mseg_pgtable sg = 0 -> pd ∈ R -> 0 <= lstart <= lend -> lend < 0xffc00000 -> 0 <= rw < 2 ->
  (forall j, lstart / 2 ^ 22 <= j <= lend / 2 ^ 22 -> base_of (phys s) pd j = 0) ->
  exists r T s', vm_expandpagetables pd g lstart lend 0 rw 0 s = Some (r, s') /\ tables_made s U R pd g sg (lstart / 2 ^ 22) T s' /\
    (r = ENOMEM \/ (r = 0 /\ zlen T = lend / 2 ^ 22 - lstart / 2 ^ 22 + 1)).
Proof.
  intros Hh Eg E0 Hpd Hl He Hrw Hz. unfold vm_expandpagetables. rewrite Eg. cbn [mbind option_bind]. rewrite E0.
  rewrite land_slot by lia. assert (Hn : zlen (@nil (Z * Z)) = 0) by reflexivity.
  destruct (expand_loop_spec 1025 s U R pd g sg (lstart / 2 ^ 22) (lend / 2 ^ 22) lend [] s rw) as (r & T & s' & E & M & Hr);
    rewrite ?Hn; change (2 ^ 22) with 4194304 in *; auto; try (Z.div_mod_to_equations; lia); [by apply made_nil|].
  rewrite Hn, Z.add_0_r in E. exists r, T, s'. split; [exact E|]. by split.
Qed.

(** * Entering pages *)

(** The mapping loops as one loop over the frames. *)
Definition enter_page (pd cur f rw : Z) (m : mem) : mem :=
  make_PTE (base_of m pd (pdi (u32 (cur + 4095)))) (pti (u32 (cur + 4095))) (Z.land (Z.shiftr f 12) 0x000fffff) 0 rw 1 0 m.
Fixpoint map_frames (fs : list Z) (pd cur rw : Z) (m : mem) : mem :=
  match fs with [] => m | f :: fs => map_frames fs pd (u32 (cur + 4096)) rw (enter_page pd cur f rw m) end.

Lemma map_run_S n pd cur pa rw m : map_run (S n) pd cur pa rw m = map_run n pd (u32 (cur + 4096)) (u32 (pa + 4096)) rw (enter_page pd cur pa rw m).
Proof. reflexivity. Qed.

Lemma run_frames_S a n : 0 < n -> run_frames (mk_ch a n) = a :: run_frames (mk_ch (a + 4096) (n - 1)).
Proof.
  intros Hn. unfold run_frames. cbn [phys_addr no_blocks]. rewrite (seqZ_cons 0 n) by lia. rewrite fmap_cons. f_equal; [lia|]. rewrite Z.sub_1_r, <- (fmap_add_seqZ 1 0).
  rewrite <- list_fmap_compose. apply list_fmap_ext. intros i x _. cbn. lia.
Qed.

Lemma map_run_frames n pd cur pa rw m :
  0 <= cur -> cur + 4096 * Z.of_nat n < 2 ^ 32 -> 0 <= pa -> pa + 4096 * Z.of_nat n < 2 ^ 32 ->
  map_run n pd cur pa rw m = (cur + 4096 * Z.of_nat n, map_frames (run_frames (mk_ch pa (Z.of_nat n))) pd cur rw m).
Proof.
  revert cur pa m. induction n as [|n IH]; intros cur pa m Hc Hc' Hp Hp'; [cbn; f_equal; lia|].
  rewrite map_run_S, (u32_id (cur + 4096)), (u32_id (pa + 4096)), IH by lia. rewrite (run_frames_S pa) by lia. cbn [map_frames]. rewrite (u32_id (cur + 4096)) by lia.
  replace (Z.of_nat (S n) - 1) with (Z.of_nat n) by lia. f_equal. lia.
Qed.

Lemma map_frames_app l1 l2 pd cur rw m :
  0 <= cur -> cur + 4096 * zlen l1 < 2 ^ 32 -> map_frames (l1 ++ l2) pd cur rw m = map_frames l2 pd (cur + 4096 * zlen l1) rw (map_frames l1 pd cur rw m).
Proof.
  revert cur m. induction l1 as [|f l1 IH]; intros cur m Hc Hc'; [change (zlen []) with 0; by rewrite Z.mul_0_r, Z.add_0_r|]. cbn [app map_frames]. unfold zlen in *. cbn [length] in *. rewrite u32_id, IH by lia. f_equal. lia.
Qed.

Lemma zlen_run_frames ch : 0 <= no_blocks ch -> zlen (run_frames ch) = no_blocks ch.
Proof. intros. unfold zlen, run_frames. rewrite length_fmap, length_seqZ. lia. Qed.
Lemma zlen_frames chs : Forall (fun ch => 0 <= no_blocks ch) chs -> zlen (frames chs) = total chs.
Proof.
  induction 1 as [|ch chs Hc _ IH]; [done|]. rewrite frames_cons. unfold zlen in *. rewrite length_app, Nat2Z.inj_add, IH. fold (zlen (run_frames ch)). by rewrite zlen_run_frames.
Qed.

Lemma map_runs_frames chs pd cur rw m :
  0 <= cur -> cur + 4096 * zlen (frames chs) < 2 ^ 32 -> Forall (fun ch => 0 <= phys_addr ch /\ 0 <= no_blocks ch < 2 ^ 31 /\ phys_addr ch + 4096 * no_blocks ch < 2 ^ 32) chs ->
  map_runs chs pd cur rw m = map_frames (frames chs) pd cur rw m.
Proof.
  revert cur m. induction chs as [|[a n] chs IH]; intros cur m Hc Hc' Hall; [done|]. apply Forall_cons in Hall as [(Ha & Hn & Hb) Hall]. cbn [phys_addr no_blocks] in *.
  rewrite frames_cons in *. unfold zlen in Hc'. rewrite length_app, Nat2Z.inj_add in Hc'. fold (zlen (run_frames (mk_ch a n))) in Hc'. fold (zlen (frames chs)) in Hc'.
  rewrite zlen_run_frames in Hc' by (cbn; lia). cbn [no_blocks] in Hc'. assert (0 <= zlen (frames chs)) by (unfold zlen; lia).
  cbn [map_runs phys_addr no_blocks]. rewrite (s32_id n) by lia. rewrite map_run_frames by lia. rewrite Z2Nat.id by lia. rewrite IH by (done || lia).
  rewrite map_frames_app; rewrite ?zlen_run_frames by (cbn; lia); cbn [no_blocks]; (done || lia).
Qed.

(** The tables [ts] of the directory entries from [j0] on. *)
Record tables_at (m : mem) (pd j0 : Z) (ts : list Z) : Prop := {
  ta_dir : dir_ok pd;
  ta_pd : pd mod 4096 = 0;
  ta_low : 0 <= j0;
  ta_high : j0 + zlen ts <= 1024;
  ta_ok t : t ∈ ts -> dir_ok t /\ t mod 4096 = 0 /\ t <> pd;
  ta_nodup : NoDup ts;
  ta_base k t : ts !! k = Some t -> base_of m pd (j0 + Z.of_nat k) = t }.

(** The frame that the mapping from page [c] on puts at page [pn]. *)
Definition frame_at (fs : list Z) (c pn : Z) : option Z := if c <=? pn then fs !! Z.to_nat (pn - c) else None.

Lemma frame_at_cons f fs c pn : frame_at (f :: fs) c pn = if pn =? c then Some f else frame_at fs (c + 1) pn.
Proof.
  unfold frame_at. destruct (Z.eqb_spec pn c) as [->|]; [rewrite Z.leb_refl, Z.sub_diag; done|].
  destruct (Z.leb_spec c pn), (Z.leb_spec (c + 1) pn); try lia; [|done]. replace (Z.to_nat (pn - c)) with (S (Z.to_nat (pn - (c + 1)))) by lia. done.
Qed.

Lemma same_bytes_tables m m' pd j0 ts : tables_at m pd j0 ts -> same_on (in_table pd) m m' -> tables_at m' pd j0 ts.
Proof.
  intros [] Hs. split; try done. intros k t Hk. assert (Hlt : Z.of_nat k < zlen ts) by (apply lookup_lt_Some in Hk; unfold zlen; lia).
  rewrite <- (ta_base0 k t Hk). unfold base_of. rewrite (get_pde_same m m'); [reflexivity|assumption|lia|assumption].
Qed.

Lemma cur_index cur : 0 <= cur -> cur mod 4096 = 0 -> cur + 4096 < 2 ^ 32 ->
  pdi (u32 (cur + 4095)) = cur / 4096 / 1024 /\ pti (u32 (cur + 4095)) = (cur / 4096) mod 1024.
Proof.
  intros. rewrite u32_id by lia. unfold pdi, pti. rewrite !field_div by lia. change (2 ^ 22) with (4096 * 1024). change (2 ^ 12) with 4096. change (2 ^ 10) with 1024.
  rewrite <- Z.div_div by lia. replace ((cur + 4095) / 4096) with (cur / 4096) by (Z.div_mod_to_equations; lia). split; [|done]. apply Z.mod_small. Z.div_mod_to_equations; lia.
Qed.

(** One page: its entry, and no other entry or byte. *)
Lemma enter_page_spec m pd j0 ts cur f rw :
  tables_at m pd j0 ts -> 0 <= cur -> cur mod 4096 = 0 -> cur + 4096 < 2 ^ 32 -> 0 <= rw < 2 -> 0 <= f < 2 ^ 32 -> f mod 4096 = 0 ->
  j0 <= cur / 4096 / 1024 < j0 + zlen ts ->
  (forall k t i, ts !! k = Some t -> 0 <= i < 1024 ->
    get_pte (enter_page pd cur f rw m) t i = if 1024 * (j0 + Z.of_nat k) + i =? cur / 4096 then pte_for (f / 4096) 0 rw 1 0 else get_pte m t i) /\
  (forall x, (forall t, t ∈ ts -> ~ in_table t x) -> ld8 (enter_page pd cur f rw m) x = ld8 m x).
Proof.
  intros Ht Hc Ha Hl Hrw Hf Hfa Hj. destruct (cur_index cur Hc Ha Hl) as [E1 E2]. unfold enter_page. rewrite E1, E2. set (c := cur / 4096) in *.
  destruct (lookup_lt_is_Some_2 ts (Z.to_nat (c / 1024 - j0))) as [tc Etc]; [unfold zlen in *; lia|].
  pose proof (ta_base _ _ _ _ Ht _ _ Etc) as Eb. replace (j0 + Z.of_nat (Z.to_nat (c / 1024 - j0))) with (c / 1024) in Eb by lia. rewrite Eb.
  assert (Hin : tc ∈ ts) by by eapply list_elem_of_lookup_2. destruct (ta_ok _ _ _ _ Ht tc Hin) as (Hd & Hta & _). pose proof (Z.mod_pos_bound c 1024 eq_refl).
  assert (Ef : Z.land (Z.shiftr f 12) 0x000fffff = f / 4096).
  { change 0x000fffff with (Z.ones 20). rewrite Z.land_ones, Z.shiftr_div_pow2 by lia. change (2 ^ 12) with 4096. apply Z.mod_small. change (2 ^ 20) with 1048576. Z.div_mod_to_equations; lia. }
  rewrite Ef. split.
  - intros k t i Hk Hi. destruct (Z.eqb_spec (1024 * (j0 + Z.of_nat k) + i) c) as [Epn|Hne].
    + assert (Hk' : k = Z.to_nat (c / 1024 - j0) /\ i = c mod 1024) by (split; Z.div_mod_to_equations; lia). destruct Hk' as [-> ->]. rewrite Hk in Etc. injection Etc as ->.
      unfold pte_for. apply get_pte_make; try lia. change (2 ^ 20) with 1048576. Z.div_mod_to_equations; lia.
    + destruct (ta_ok _ _ _ _ Ht t) as (Htd & Htm & _); [by eapply list_elem_of_lookup_2|]. apply get_pte_ext; [assumption|lia|]. intros x Hx. apply make_PTE_out; [assumption|lia|].
      destruct (decide (t = tc)) as [->|Htne].
      * assert (k = Z.to_nat (c / 1024 - j0)) by (eapply NoDup_lookup; [apply Ht|exact Hk|exact Etc]). assert (i <> c mod 1024) by (intros ->; apply Hne; Z.div_mod_to_equations; lia). lia.
      * pose proof (aligned_apart t tc x Htm Hta Htne) as Hap. unfold in_table in Hap. lia.
  - intros x Hx. apply make_PTE_out; [assumption|lia|]. specialize (Hx tc Hin). unfold in_table in Hx. lia.
Qed.

Lemma map_frames_spec fs m pd j0 ts cur rw :
  tables_at m pd j0 ts -> 0 <= cur -> cur mod 4096 = 0 -> 0 <= rw < 2 -> Forall (fun f => 0 <= f < 2 ^ 32 /\ f mod 4096 = 0) fs ->
  j0 <= cur / 4096 / 1024 -> cur + 4096 * zlen fs <= 4194304 * (j0 + zlen ts) -> cur + 4096 * zlen fs < 2 ^ 32 ->
  let m' := map_frames fs pd cur rw m in
  (forall k t i, ts !! k = Some t -> 0 <= i < 1024 ->
    get_pte m' t i = match frame_at fs (cur / 4096) (1024 * (j0 + Z.of_nat k) + i) with Some f => pte_for (f / 4096) 0 rw 1 0 | None => get_pte m t i end) /\
  (forall x, (forall t, t ∈ ts -> ~ in_table t x) -> ld8 m' x = ld8 m x).
Proof.
  revert m cur. induction fs as [|f fs IH]; intros m cur Ht Hc Ha Hrw Hall Hj Hend Hlim; cbn [map_frames]; cbv zeta.
  { split; [|done]. intros k t i Hk Hi. unfold frame_at. by destruct (_ <=? _). }
  apply Forall_cons in Hall as [[Hf Hfa] Hall]. assert (Hz : zlen (f :: fs) = zlen fs + 1) by (unfold zlen; cbn; lia). assert (0 <= zlen fs) by (unfold zlen; lia). rewrite Hz in Hend, Hlim.
  rewrite (u32_id (cur + 4096)) by lia. destruct (enter_page_spec m pd j0 ts cur f rw) as [A1 B1]; auto; try lia; [Z.div_mod_to_equations; lia|].
  assert (Hs : same_on (in_table pd) m (enter_page pd cur f rw m)).
  { intros x Hx. apply B1. intros t Hin. destruct (ta_ok _ _ _ _ Ht t Hin) as (_ & Hta & Htp). apply (aligned_apart pd t x); [apply Ht|assumption|congruence|assumption]. }
  destruct (IH (enter_page pd cur f rw m) (cur + 4096)) as [A2 B2]; auto; try lia; [by eapply same_bytes_tables|Z.div_mod_to_equations; lia|Z.div_mod_to_equations; lia|].
  replace ((cur + 4096) / 4096) with (cur / 4096 + 1) in A2 by (Z.div_mod_to_equations; lia). split.
  - intros k t i Hk Hi. rewrite (A2 k t i Hk Hi), frame_at_cons, (A1 k t i Hk Hi). destruct (Z.eqb_spec (1024 * (j0 + Z.of_nat k) + i) (cur / 4096)) as [->|]; [|done].
    unfold frame_at. destruct (Z.leb_spec (cur / 4096 + 1) (cur / 4096)); [lia|]. done.
  - intros x Hx. rewrite B2 by done. by apply B1.
Qed.

(** * A new segment *)

(** Every record is a block in use of its size. *)
Record objects_ok (s : vmst K) (U : gmap Z Z) : Prop := {
  ob_vm p v : vms s !! p = Some v -> U !! p = Some SIZEOF_VM;
  ob_region p r : regions s !! p = Some r -> U !! p = Some SIZEOF_REGION;
  ob_segment p g : segments s !! p = Some g -> U !! p = Some SIZEOF_SEGMENT;
  ob_ptl p l : ptls s !! p = Some l -> U !! p = Some SIZEOF_PTL }.

Lemma ins_all_lookup ns U p : ins_all ns U !! p = if bool_decide (p ∈ ns) then Some SIZEOF_PTL else U !! p.
Proof.
  induction ns as [|n ns IH] using rev_ind; [done|]. rewrite ins_all_snoc. destruct (decide (p = n)) as [->|Hne].
  - rewrite lookup_insert_eq, bool_decide_true; [done|]. apply elem_of_app. right. by left.
  - rewrite lookup_insert_ne, IH by done. destruct (decide (p ∈ ns)) as [Hin|Hin].
    + rewrite !bool_decide_true; [done|apply elem_of_app; by left|done].
    + rewrite !bool_decide_false; [done| |done]. rewrite elem_of_app, list_elem_of_singleton. tauto.
Qed.
Lemma del_all_in {A} ns (m : gmap Z A) p : p ∈ ns -> del_all ns m !! p = None.
Proof.
  revert m. induction ns as [|n ns IH]; intros m Hp; [by apply elem_of_nil in Hp|]. cbn [del_all]. destruct (decide (p ∈ ns)); [auto|].
  apply elem_of_cons in Hp as [->|?]; [|done]. rewrite del_all_lookup by done. apply lookup_delete_eq.
Qed.
Lemma del_ins ns U : (forall n, n ∈ ns -> U !! n = None) -> del_all ns (ins_all ns U) = U.
Proof.
  intros Hn. apply map_eq. intros p. destruct (decide (p ∈ ns)) as [Hp|Hp]; [by rewrite del_all_in, Hn|].
  by rewrite del_all_lookup, ins_all_lookup, bool_decide_false.
Qed.

Lemma zero_table_frames m t : dir_ok t -> (forall x, in_table t x -> ld8 m x = 0) -> frame_addrs (table_frames m t) = [].
Proof.
  intros Hd Hz. unfold frame_addrs. destruct (filter (fun f : Z => f <> 0) (table_frames m t)) as [|f l] eqn:E; [done|]. exfalso.
  assert (Hf : f ∈ filter (fun f : Z => f <> 0) (table_frames m t)) by (rewrite E; by left). apply list_elem_of_filter in Hf as [Hne (j & -> & Hj%elem_of_seqZ)%list_elem_of_fmap].
  apply Hne. rewrite get_pte_zero; [done|assumption|lia|]. intros x Hx. apply Hz. unfold in_table. lia.
Qed.

Lemma zero_seg_pages m T : (forall t, t ∈ T.*2 -> dir_ok t /\ forall x, in_table t x -> ld8 m x = 0) -> seg_pages m T = T.*2.
Proof.
  induction T as [|[n t] T IH]; intros Hz; [done|]. rewrite seg_pages_cons. rewrite fmap_cons in *. cbn [snd] in *. destruct (Hz t) as [Hd Hzt]; [by left|].
  rewrite (zero_table_frames m t Hd Hzt). cbn [app]. f_equal. apply IH. intros u Hu. apply Hz. by right.
Qed.

(** Undoing a segment whose tables are still empty: memory and records are as before. *)
Lemma undo_tables s0 U0 R0 pd g sg j0 T s :
  tables_made s0 U0 R0 pd g sg j0 T s -> mseg_pgtable sg = 0 -> segments s0 !! g = Some sg -> is_Some (U0 !! g) -> (forall p l, ptls s0 !! p = Some l -> is_Some (U0 !! p)) ->
  exists h, vm_destroysegment g s = Some (mk_st h (phys s) (vms s0) (regions s0) (delete g (segments s0)) (ptls s0)) /\ heap_inv h (delete g U0) R0.
Proof.
  intros M E0 Eg HUg Hob. assert (HgT : g ∉ T.*1) by (intros Hin; rewrite (tm_fresh _ _ _ _ _ _ _ _ _ M g Hin) in HUg; by destruct HUg).
  assert (Hpg : seg_pages (phys s) T = T.*2).
  { apply zero_seg_pages. intros t Ht. split; [by apply (made_frame _ _ _ _ _ _ _ _ _ t M)|]. intros x Hx. by apply (tm_zero _ _ _ _ _ _ _ _ _ M t). }
  destruct (vm_destroysegment_spec g (with_pgtable (first_node T) sg) T s (ins_all T.*1 U0) (R0 ∪ list_to_set T.*2)) as (h & -> & Hh).
  - rewrite (tm_seg _ _ _ _ _ _ _ _ _ M). apply lookup_insert_eq.
  - apply (tm_chain _ _ _ _ _ _ _ _ _ M).
  - apply M.
  - apply M.
  - intros n Hn. rewrite ins_all_lookup, bool_decide_true by done. eauto.
  - by rewrite ins_all_lookup, bool_decide_false.
  - done.
  - rewrite Hpg. apply M.
  - rewrite Hpg. intros q Hq. apply elem_of_union. right. by apply elem_of_list_to_set.
  - rewrite (tm_vms _ _ _ _ _ _ _ _ _ M), (tm_regions _ _ _ _ _ _ _ _ _ M), (tm_seg _ _ _ _ _ _ _ _ _ M), delete_insert_eq.
    assert (del_all T.*1 (ptls s) = ptls s0) as ->.
    { apply map_eq. intros p. destruct (decide (p ∈ T.*1)) as [Hp|Hp].
      - rewrite del_all_in by done. destruct (ptls s0 !! p) as [l|] eqn:E; [|done]. apply Hob in E. rewrite (tm_fresh _ _ _ _ _ _ _ _ _ M p Hp) in E. by destruct E.
      - rewrite del_all_lookup by done. by apply (tm_ptls _ _ _ _ _ _ _ _ _ M). }
    exists h. split; [done|]. rewrite (del_ins T.*1 U0) in Hh by apply M. apply (heap_inv_ext _ _ _ _ Hh). intros q. rewrite Hpg, elem_of_difference, elem_of_union, elem_of_list_to_set.
    pose proof (tm_new _ _ _ _ _ _ _ _ _ M q). tauto.
Qed.

(** A region at [p] has got the segment [g] with the tables [T], and the frames [F] in
    order from its first page on; nothing else has changed. *)
Record segment_made (s0 : vmst K) (U0 : gmap Z Z) (R0 : gset Z) (pd p g np j0 rw c : Z) (r : memregion) (T : list (Z * Z)) (F : list Z) (s : vmst K) : Prop := {
  sm_heap : heap_inv (heap s) (ins_all T.*1 (<[g := SIZEOF_SEGMENT]> U0)) (R0 ∪ list_to_set T.*2 ∪ list_to_set F);
  sm_new : U0 !! g = None;
  sm_nz : 0 < g;
  sm_seg : segments s = <[g := mk_mseg 0 0 1 np (first_node T)]> (segments s0);
  sm_chain : ptchain (ptls s) (first_node T) T;
  sm_ptls q : q ∉ T.*1 -> ptls s !! q = ptls s0 !! q;
  sm_nodes : NoDup T.*1;
  sm_fresh n : n ∈ T.*1 -> n <> g /\ U0 !! n = None;
  sm_regions : regions s = <[p := with_segment g r]> (regions s0);
  sm_vms : vms s = vms s0;
  sm_tables : tables_at (phys s) pd j0 T.*2;
  sm_present k : 0 <= k < zlen T -> pd_present (get_pde (phys s) pd (j0 + k)) = 1;
  sm_frames : NoDup F /\ (forall f, f ∈ F -> f ∉ R0 /\ f ∉ T.*2 /\ f mod 4096 = 0 /\ 0 < f < 2 ^ 32) /\ (forall t, t ∈ T.*2 -> t ∉ R0);
  sm_entries k t i : T.*2 !! k = Some t -> 0 <= i < 1024 ->
    get_pte (phys s) t i = match frame_at F c (1024 * (j0 + Z.of_nat k) + i) with Some f => pte_for (f / 4096) 0 rw 1 0 | None => pte_of_word 0 end;
  sm_phys x : ~ (pd + 4 * j0 <= x < pd + 4 * (j0 + zlen T)) -> (forall t, t ∈ T.*2 -> ~ in_table t x) -> ld8 (phys s) x = ld8 (phys s0) x }.

Lemma made_tables_at s0 U0 R0 pd g sg j0 T s : tables_made s0 U0 R0 pd g sg j0 T s -> pd ∈ R0 -> 0 <= j0 -> j0 + zlen T <= 1024 -> tables_at (phys s) pd j0 T.*2.
Proof.
  intros M Hpd Hj Hj'. destruct (made_dir _ _ _ _ _ _ _ _ _ M Hpd) as (Hdir & Hpa & _). assert (Hz : zlen T.*2 = zlen T) by (unfold zlen; by rewrite length_fmap).
  split; [assumption|assumption|assumption|lia| |apply M|intros k t Hk; by apply (tm_base _ _ _ _ _ _ _ _ _ M)].
  intros t Ht. destruct (made_frame _ _ _ _ _ _ _ _ _ t M Ht) as (? & ? & _). split; [assumption|]. split; [assumption|]. intros ->. exact (tm_new _ _ _ _ _ _ _ _ _ M pd Ht Hpd).
Qed.

Lemma frames_perm chs : Permutation (frames (rev chs)) (frames chs).
Proof.
  induction chs as [|ch chs IH]; [done|]. cbn [rev]. unfold frames in *. rewrite fmap_app, concat_app. cbn. by rewrite app_nil_r, IH, Permutation_app_comm.
Qed.

(** Runs whose frames belong to the heap are in range. *)
Lemma runs_range h U (R : gset Z) chs : heap_inv h U R -> (forall ch, ch ∈ chs -> 0 < no_blocks ch) -> (forall f, f ∈ frames chs -> f ∈ R) ->
  Forall (fun ch => 0 <= phys_addr ch /\ 0 <= no_blocks ch < 2 ^ 31 /\ phys_addr ch + 4096 * no_blocks ch < 2 ^ 32) chs.
Proof.
  intros Hh Hn HR. apply Forall_forall. intros ch Hin. specialize (Hn ch Hin).
  assert (Hf : forall i, 0 <= i < no_blocks ch -> phys_addr ch + 4096 * i ∈ R) by (intros i Hi; apply HR, frames_elem; exists ch; split; [done|]; apply run_frames_elem; eauto).
  destruct (frame_range h U R _ Hh (Hf 0 ltac:(lia))) as (_ & ? & _). destruct (frame_range h U R _ Hh (Hf (no_blocks ch - 1) ltac:(lia))) as (_ & _ & Hm).
  unfold Pages.HOLE_MAX in Hm. lia.
Qed.

(** A region whose bounds the code can handle: it starts at a page and ends below
    the last 4 MB. *)
Definition region_fits (r : memregion) : Prop := mreg_startaddr r mod 4096 = 0 /\ 0 <= mreg_startaddr r <= mreg_endaddr r /\ mreg_endaddr r < 0xffc00000.
(** Its pages, the first of its directory entries and the last. *)
Definition region_pages (r : memregion) : Z := (mreg_endaddr r + 4095) / 4096 - mreg_startaddr r / 4096.
Definition first_slot (r : memregion) : Z := mreg_startaddr r / 2 ^ 22.
Definition last_slot (r : memregion) : Z := mreg_endaddr r / 2 ^ 22.
Definition slots_empty (m : mem) (pd : Z) (r : memregion) : Prop := forall j, first_slot r <= j <= last_slot r -> base_of m pd j = 0.

Lemma page_no_eq a : 0 <= a < 2 ^ 32 -> page_no a = a / 4096.
Proof.
  intros. unfold page_no. change 0x000fffff with (Z.ones 20). rewrite Z.land_ones, Z.shiftr_div_pow2 by lia. change (2 ^ 12) with 4096. apply Z.mod_small.
  change (2 ^ 20) with 1048576. Z.div_mod_to_equations; lia.
Qed.
Lemma region_np r : region_fits r -> u32 (page_no (u32 (mreg_endaddr r + 4095)) - page_no (mreg_startaddr r)) = region_pages r /\ 0 <= region_pages r < 2 ^ 20.
Proof.
  intros (Ha & Hs & He). unfold region_pages. rewrite (u32_id (_ + 4095)), !page_no_eq by lia. change (2 ^ 20) with 1048576. assert (0 <= (mreg_endaddr r + 4095) / 4096 - mreg_startaddr r / 4096 < 1048576) by (Z.div_mod_to_equations; lia).
  split; [|lia]. apply u32_id. lia.
Qed.
Lemma rw_of_range r : 0 <= rw_of r < 2.
Proof. unfold rw_of. case_ztest; lia. Qed.

Lemma relock r : mreg_reglock r = false -> with_lock false (with_lock true r) = r /\ forall g, with_lock false (with_segment g (with_lock true r)) = with_segment g r.
Proof. destruct r. cbn. by intros ->. Qed.

(** The frames that [core_alloc_n] gave are entered. *)
Lemma frames_entered s0 s2 U0 R0 pd p r g np T h chs :
  tables_made (put_segment g (mk_mseg 0 0 1 np 0) s0) (<[g := SIZEOF_SEGMENT]> U0) R0 pd g (mk_mseg 0 0 1 np 0) (first_slot r) T s2 ->
  U0 !! g = None -> 0 < g -> pd ∈ R0 -> region_fits r -> regions s0 !! p = Some r -> mreg_reglock r = false -> zlen T = last_slot r - first_slot r + 1 ->
  heap_inv h (ins_all T.*1 (<[g := SIZEOF_SEGMENT]> U0)) (R0 ∪ list_to_set T.*2 ∪ list_to_set (frames chs)) -> total chs = region_pages r ->
  (forall ch, ch ∈ chs -> 0 < no_blocks ch) -> NoDup (frames chs) -> (forall f, f ∈ frames chs -> f ∉ R0 ∪ list_to_set T.*2) ->
  segment_made s0 U0 R0 pd p g np (first_slot r) (rw_of r) (mreg_startaddr r / 4096) r T (frames (rev chs))
    (mk_st h (map_runs (rev chs) pd (mreg_startaddr r) (rw_of r) (phys s2)) (vms s2) (<[p := with_segment g r]> (regions s2)) (segments s2) (ptls s2)) /\
  zlen (frames (rev chs)) = region_pages r.
Proof.
  intros M Hg Hg0 Hpd Hr Er Hl HT Hh Htot Hnb Hnd Hnew. pose proof Hr as (Ha & Hs & He). destruct (region_np r Hr) as [_ Hnp].
  assert (Hel : forall f, f ∈ frames (rev chs) <-> f ∈ frames chs) by (intros f; by rewrite (frames_perm chs)).
  assert (Hlen : zlen (frames (rev chs)) = region_pages r).
  { unfold zlen. rewrite (Permutation_length (frames_perm chs)). fold (zlen (frames chs)). rewrite zlen_frames; [done|]. apply Forall_forall. intros ch Hin. specialize (Hnb ch Hin). lia. }
  split; [|done]. assert (Hslots : 0 <= first_slot r /\ last_slot r < 1023 /\ 4194304 * last_slot r <= mreg_endaddr r < 4194304 * (last_slot r + 1) /\ first_slot r = mreg_startaddr r / 4096 / 1024).
  { unfold first_slot, last_slot. change (2 ^ 22) with 4194304. split_and!; Z.div_mod_to_equations; lia. }
  destruct Hslots as (Hj0 & Hj1 & Hend & Ej). unfold region_pages in *. pose proof (made_tables_at _ _ _ _ _ _ _ _ _ M Hpd Hj0 ltac:(lia)) as Hta.
  assert (Hz : zlen T.*2 = zlen T) by (unfold zlen; by rewrite length_fmap).
  assert (Hrange : forall f, f ∈ frames (rev chs) -> f mod 4096 = 0 /\ 0 < f < 2 ^ 32).
  { intros f Hf%Hel. destruct (frame_range h _ _ f Hh) as (? & ? & Hm); [apply elem_of_union; right; by apply elem_of_list_to_set|]. unfold Pages.HOLE_MAX in Hm. split; [done|lia]. }
  assert (Erun : map_runs (rev chs) pd (mreg_startaddr r) (rw_of r) (phys s2) = map_frames (frames (rev chs)) pd (mreg_startaddr r) (rw_of r) (phys s2)).
  { apply map_runs_frames; [lia|rewrite Hlen; Z.div_mod_to_equations; lia|]. eapply runs_range; [exact Hh|intros ch Hin; apply Hnb; apply list_elem_of_In, in_rev, list_elem_of_In; done|].
    intros f Hf%Hel. apply elem_of_union. right. by apply elem_of_list_to_set. }
  rewrite Erun. destruct (map_frames_spec (frames (rev chs)) (phys s2) pd (first_slot r) T.*2 (mreg_startaddr r) (rw_of r)) as [A B]; auto.
  { lia. } { apply rw_of_range. } { apply Forall_forall. intros f Hf. destruct (Hrange f Hf). split; [lia|done]. } { lia. }
  { rewrite Hlen, Hz, HT. Z.div_mod_to_equations; lia. } { rewrite Hlen. Z.div_mod_to_equations; lia. }
  assert (Hpdsame : same_on (in_table pd) (phys s2) (map_frames (frames (rev chs)) pd (mreg_startaddr r) (rw_of r) (phys s2))).
  { intros x Hx. apply B. intros t Ht. destruct (ta_ok _ _ _ _ Hta t Ht) as (_ & Htm & Htp). apply (aligned_apart pd t x); [apply Hta|assumption|congruence|assumption]. }
  split; cbn [heap phys vms regions segments ptls].
  - apply (heap_inv_ext _ _ _ _ Hh). intros f. rewrite !elem_of_union, !elem_of_list_to_set, Hel. tauto.
  - done.
  - done.
  - rewrite (tm_seg _ _ _ _ _ _ _ _ _ M). cbn [segments put_segment set_segments]. by rewrite insert_insert_eq.
  - apply M.
  - intros q Hq. by rewrite (tm_ptls _ _ _ _ _ _ _ _ _ M q Hq).
  - apply M.
  - intros n Hn. pose proof (tm_fresh _ _ _ _ _ _ _ _ _ M n Hn) as Hf. apply lookup_insert_None in Hf as [? ?]. by split; [congruence|].
  - by rewrite (tm_regions _ _ _ _ _ _ _ _ _ M).
  - apply (tm_vms _ _ _ _ _ _ _ _ _ M).
  - by eapply same_bytes_tables.
  - intros k Hk. destruct (lookup_lt_is_Some_2 T.*2 (Z.to_nat k)) as [t Et]; [rewrite length_fmap; unfold zlen in Hk; lia|].
    destruct (tm_base _ _ _ _ _ _ _ _ _ M _ _ Et) as [Hp _]. rewrite Z2Nat.id in Hp by lia. rewrite <- Hp. f_equal. apply get_pde_same; [apply Hta|lia|assumption].
  - split; [by rewrite (frames_perm chs)|]. split; [|apply M]. intros f Hf. destruct (Hrange f Hf). apply Hel, Hnew in Hf. apply not_elem_of_union in Hf as [? Hf]. rewrite elem_of_list_to_set in Hf. split_and!; (assumption || lia).
  - intros k t i Hk Hi. rewrite (A k t i Hk Hi). destruct (frame_at _ _ _); [done|]. apply list_elem_of_lookup_2 in Hk as Hin. destruct (ta_ok _ _ _ _ Hta t Hin) as (Hd & _).
    apply get_pte_zero; [assumption|assumption|]. intros x Hx. apply (tm_zero _ _ _ _ _ _ _ _ _ M t); [assumption|]. unfold in_table. lia.
  - intros x Hx1 Hx2. rewrite B by assumption. rewrite (tm_phys _ _ _ _ _ _ _ _ _ M x Hx1 Hx2). done.
Qed.

(** What [vm_creatememsegment] leaves of everything but the page directory when it
    fails. *)
Record untouched (s : vmst K) (U : gmap Z Z) (R : gset Z) (s' : vmst K) : Prop := {
  un_heap : heap_inv (heap s') U R;
  un_vms : vms s' = vms s;
  un_regions : regions s' = regions s;
  un_segments : segments s' = segments s;
  un_ptls : ptls s' = ptls s }.

(** Failure after the tables: give everything back. *)
Lemma undo_segment s U R pd g np j0 T s2 h :
  tables_made (put_segment g (mk_mseg 0 0 1 np 0) s) (<[g := SIZEOF_SEGMENT]> U) R pd g (mk_mseg 0 0 1 np 0) j0 T s2 -> objects_ok s U -> U !! g = None ->
  heap_inv h (ins_all T.*1 (<[g := SIZEOF_SEGMENT]> U)) (R ∪ list_to_set T.*2) ->
  exists s', vm_destroysegment g (set_heap h s2) = Some s' /\ untouched s U R s'.
Proof.
  intros M Hob Hg Hh. pose proof (made_heap _ _ _ _ _ _ _ _ _ h M Hh) as M'.
  assert (Hs : segments s !! g = None) by (destruct (segments s !! g) eqn:E; [|done]; apply (ob_segment _ _ Hob) in E; congruence).
  destruct (undo_tables _ _ _ _ _ _ _ _ _ M') as (h' & -> & Hh'); [done|apply lookup_insert_eq|rewrite lookup_insert_eq; eauto| |].
  - intros q l Hq. apply (ob_ptl _ _ Hob) in Hq. rewrite lookup_insert_ne by congruence. eauto.
  - eexists. split; [reflexivity|]. cbn [segments put_segment set_segments]. rewrite delete_insert_id in Hh' by done. split; cbn [heap vms regions segments ptls put_segment set_segments]; try done.
    by rewrite delete_insert_id.
Qed.

Lemma put_twice (s : vmst K) p r r' : regions s !! p = Some r -> put_region p r (put_region p r' s) = s.
Proof. intros E. destruct s. unfold put_region, set_regions. cbn in *. by rewrite insert_insert_eq, insert_id. Qed.

Lemma vm_creatememsegment_spec s U R pd p r memflag :
  heap_inv (heap s) U R -> objects_ok s U -> regions s !! p = Some r -> mreg_reglock r = false -> region_fits r -> pd ∈ R -> slots_empty (phys s) pd r -> memflag <> 0 ->
  (vm_creatememsegment pd p memflag s = None /\ exists h, kmalloc SIZEOF_SEGMENT (heap s) = Some (0, h)) \/
  (exists s', vm_creatememsegment pd p memflag s = Some (0, s') /\ untouched s U R s') \/
  (exists g T F s', vm_creatememsegment pd p memflag s = Some (g, s') /\ zlen T = last_slot r - first_slot r + 1 /\ zlen F = region_pages r /\
    segment_made s U R pd p g (region_pages r) (first_slot r) (rw_of r) (mreg_startaddr r / 4096) r T F s').
Proof.
  intros Hh Hob Er Hl Hr Hpd Hempty Hmf. pattern (vm_creatememsegment pd p memflag s). match goal with |- ?Q _ => set (goal := Q) end. unfold vm_creatememsegment.
  destruct (kmalloc_law (heap s) U R SIZEOF_SEGMENT Hh) as (g & h1 & E & Hg); [vm_compute; split; congruence|]. rewrite E. cbn [mbind option_bind].
  destruct Hg as [[-> _]|(Hg0 & Hgn & Hh1)]; [left; split; [done|eauto]|]. destruct (Z.eqb_spec g 0) as [?|_]; [lia|]. cbn [regions set_heap]. rewrite Er. cbn [mbind option_bind].
  destruct (region_np r Hr) as [-> Hnp]. set (np := region_pages r) in *. set (s1 := put_segment g (mk_mseg 0 0 1 np 0) (set_heap h1 s)).
  destruct (vm_expandpagetables_spec s1 (<[g := SIZEOF_SEGMENT]> U) R pd g (mk_mseg 0 0 1 np 0) (mreg_startaddr r) (mreg_endaddr r) (rw_of r)) as (ret & T & s2 & -> & M & Hret); auto.
  { apply lookup_insert_eq. } { apply Hr. } { apply Hr. } { apply rw_of_range. }
  cbn [mbind option_bind]. assert (M0 : tables_made (put_segment g (mk_mseg 0 0 1 np 0) s) (<[g := SIZEOF_SEGMENT]> U) R pd g (mk_mseg 0 0 1 np 0) (first_slot r) T s2).
  { destruct M. split; assumption. }
  destruct Hret as [-> |[-> HT]]; cbn [Z.ltb Z.compare ENOMEM].
  { destruct (undo_segment s U R pd g np (first_slot r) T s2 (heap s2) M0 Hob Hgn) as (s' & E' & Hun); [apply M0|].
    replace (set_heap (heap s2) s2) with s2 in E' by by destruct s2. rewrite E'. cbn [mbind option_bind]. right. left. eauto. }
  fold (first_slot r) in *. fold (last_slot r) in HT. pose proof (tm_regions _ _ _ _ _ _ _ _ _ M0) as E2. cbn [regions put_segment set_segments] in E2.
  unfold lock_region at 1. rewrite E2, Er. cbn [mbind option_bind]. rewrite Hl. cbn [mbind option_bind]. rewrite (proj2 (Z.eqb_neq memflag 0)) by done. cbn [negb heap put_region set_regions].
  rewrite (s32_id np) by lia. destruct (core_alloc_n_law (heap s2) _ _ np 32 (tm_heap _ _ _ _ _ _ _ _ _ M0)) as (n & chs & h2 & -> & Hh2 & Hn); [lia|]. cbn [mbind option_bind].
  destruct (relock r Hl) as [Rl1 Rl2]. destruct Hn as [[-> ->]|(-> & Htot & Hnb & Hnd & Hnew)].
  - cbn [Z.ltb Z.compare ENOMEM]. unfold unlock_region, upd_region. cbn [regions set_heap put_region set_regions]. rewrite lookup_insert_eq. cbn [mbind option_bind]. rewrite Rl1.
    change (put_region p r (set_heap h2 (put_region p (with_lock true r) s2))) with (set_heap h2 (put_region p r (put_region p (with_lock true r) s2))).
    rewrite put_twice by by rewrite E2. destruct (undo_segment s U R pd g np (first_slot r) T s2 h2 M0 Hob Hgn) as (s' & -> & Hun).
    { apply (heap_inv_ext _ _ _ _ Hh2). intros q. change (frames []) with (@nil Z). cbn [list_to_set]. by rewrite (right_id_L ∅ (∪)). }
    cbn [mbind option_bind]. right. left. eauto.
  - destruct (Z.ltb_spec (zlen chs) 0); [unfold zlen in *; lia|]. unfold upd_region. cbn [regions set_phys set_heap put_region set_regions]. rewrite lookup_insert_eq. cbn [mbind option_bind].
    unfold unlock_region, upd_region. cbn [regions set_phys set_heap put_region set_regions phys]. rewrite lookup_insert_eq. cbn [mbind option_bind]. rewrite Rl2.
    destruct (frames_entered s s2 U R pd p r g np T h2 chs M0) as [Hm Hlen]; auto. right. right. exists g, T, (frames (rev chs)). eexists. split; [reflexivity|]. split; [exact HT|]. split; [exact Hlen|].
    unfold put_region, set_regions, set_phys, set_heap. cbn [heap phys vms regions segments ptls]. rewrite !insert_insert_eq. exact Hm.
Qed.

(** * The pages of a segment *)

Lemma frame_addrs_omap (g : Z -> Z) (fa : Z -> option Z) l :
  (forall i, i ∈ l -> match fa i with Some f => g i <> 0 /\ 4096 * g i = f | None => g i = 0 end) -> frame_addrs (g <$> l) = omap fa l.
Proof.
  induction l as [|i l IH]; intros Hg; [done|]. unfold frame_addrs in *. rewrite fmap_cons. pose proof (Hg i ltac:(by left)) as Hi. cbn [omap list_omap]. destruct (fa i) as [f|].
  - destruct Hi as [Hne E]. rewrite filter_cons_True by done. rewrite fmap_cons, E. f_equal. apply IH. intros k Hk. apply Hg. by right.
  - rewrite filter_cons_False by (rewrite Hi; tauto). apply IH. intros k Hk. apply Hg. by right.
Qed.

Lemma NoDup_omap_inj {A B} (f : A -> option B) l : NoDup l -> (forall x y z, x ∈ l -> y ∈ l -> f x = Some z -> f y = Some z -> x = y) -> NoDup (omap f l).
Proof.
  induction 1 as [|x l Hx Hl IH]; intros Hf; [constructor|]. cbn [omap list_omap].
  assert (NoDup (omap f l)) by (apply IH; intros a b z Ha Hb; apply Hf; by right). destruct (f x) as [z|] eqn:E; [|done]. constructor; [|done].
  intros (y & Hy & Ey)%list_elem_of_omap. apply Hx. rewrite (Hf x y z); [done|by left|by right|done|done].
Qed.

Lemma frame_at_inj fs c p1 p2 f : NoDup fs -> frame_at fs c p1 = Some f -> frame_at fs c p2 = Some f -> p1 = p2.
Proof.
  intros Hnd. unfold frame_at. destruct (Z.leb_spec c p1), (Z.leb_spec c p2); try done. intros E1 E2. pose proof (NoDup_lookup _ _ _ _ Hnd E1 E2). lia.
Qed.
Lemma frame_at_in fs c pn f : frame_at fs c pn = Some f -> f ∈ fs.
Proof. unfold frame_at. destruct (_ <=? _); [|done]. apply list_elem_of_lookup_2. Qed.

Lemma pages_of m T j0 c rw F :
  (forall k t i, T.*2 !! k = Some t -> 0 <= i < 1024 ->
    get_pte m t i = match frame_at F c (1024 * (j0 + Z.of_nat k) + i) with Some f => pte_for (f / 4096) 0 rw 1 0 | None => pte_of_word 0 end) ->
  NoDup T.*2 -> NoDup F -> (forall f, f ∈ F -> f ∉ T.*2 /\ f mod 4096 = 0 /\ 0 < f < 2 ^ 32) ->
  (forall q, q ∈ seg_pages m T <-> q ∈ T.*2 \/ exists pn, 1024 * j0 <= pn < 1024 * (j0 + zlen T) /\ frame_at F c pn = Some q) /\ NoDup (seg_pages m T).
Proof.
  revert j0. induction T as [|[n t] T IH]; intros j0 Hent HndT HndF HF.
  { split; [|constructor]. intros q. split; [by intros ?%elem_of_nil|]. intros [?%elem_of_nil|(pn & Hpn & _)]; [done|]. unfold zlen in Hpn. cbn in Hpn. lia. }
  rewrite fmap_cons in *. cbn [snd] in *. apply NoDup_cons in HndT as [Ht HndT]. assert (Hz : zlen ((n, t) :: T) = zlen T + 1) by (unfold zlen; cbn; lia). assert (0 <= zlen T) by (unfold zlen; lia).
  assert (Etab : frame_addrs (table_frames m t) = omap (fun i => frame_at F c (1024 * j0 + i)) (seqZ 0 1024)).
  { apply frame_addrs_omap. intros i Hi%elem_of_seqZ. rewrite (Hent 0%nat t i) by (done || lia). change (Z.of_nat 0) with 0. rewrite Z.add_0_r.
    destruct (frame_at F c (1024 * j0 + i)) as [f|] eqn:E; [|done]. apply frame_at_in in E. destruct (HF f E) as (_ & Hfa & Hf). cbn [pte_for page_base_addr]. Z.div_mod_to_equations; lia. }
  assert (Hel : forall q, q ∈ frame_addrs (table_frames m t) <-> exists pn, 1024 * j0 <= pn < 1024 * (j0 + 1) /\ frame_at F c pn = Some q).
  { intros q. rewrite Etab, list_elem_of_omap. split.
    - intros (i & Hi%elem_of_seqZ & E). exists (1024 * j0 + i). split; [lia|done].
    - intros (pn & Hpn & E). exists (pn - 1024 * j0). split; [apply elem_of_seqZ; lia|]. by replace (1024 * j0 + (pn - 1024 * j0)) with pn by lia. }
  destruct (IH (j0 + 1)) as [A B]; auto.
  { intros k u i Hk Hi. rewrite (Hent (S k) u i) by done. replace (j0 + Z.of_nat (S k)) with (j0 + 1 + Z.of_nat k) by lia. done. }
  { intros f Hf. destruct (HF f Hf) as (Hn & ?). apply not_elem_of_cons in Hn as [_ ?]. done. }
  rewrite seg_pages_cons. split.
  - intros q. rewrite elem_of_app, !elem_of_cons, Hel, A, Hz. split.
    + intros [(pn & ? & ?)|[->|[?|(pn & ? & ?)]]]; [right; exists pn; split; [lia|done]|left; by left|left; by right|right; exists pn; split; [lia|done]].
    + intros [[->|?]|(pn & Hpn & E)]; [right; by left|right; right; by left|]. destruct (Z.lt_ge_cases pn (1024 * (j0 + 1))); [left; exists pn; split; [lia|done]|].
      right. right. right. exists pn. split; [lia|done].
  - apply NoDup_app. split; [rewrite Etab; apply NoDup_omap_inj; [apply NoDup_seqZ|]; intros x y z _ _ E1 E2; pose proof (frame_at_inj _ _ _ _ _ HndF E1 E2); lia|]. split.
    + intros q (pn & Hpn & E)%Hel. destruct (HF q (frame_at_in _ _ _ _ E)) as (Hn & _). apply not_elem_of_cons in Hn as [Hqt HqT]. intros [->|[?|(pn' & Hpn' & E')]%A]%elem_of_cons; [done|done|].
      pose proof (frame_at_inj _ _ _ _ _ HndF E E'). lia.
    + constructor; [|done]. intros [?|(pn & _ & E)]%A; [done|]. destruct (HF t (frame_at_in _ _ _ _ E)) as (Hn & _). apply Hn. by left.
Qed.

(** The pages of a new segment are its tables and its frames. *)
Lemma segment_pages s0 U0 R0 pd p g np r T F s rw :
  segment_made s0 U0 R0 pd p g np (first_slot r) rw (mreg_startaddr r / 4096) r T F s -> region_fits r -> zlen T = last_slot r - first_slot r + 1 -> zlen F = region_pages r ->
  (forall q, q ∈ seg_pages (phys s) T <-> q ∈ T.*2 \/ q ∈ F) /\ NoDup (seg_pages (phys s) T).
Proof.
  intros M (Ha & Hs & He) HT HF. destruct (sm_frames _ _ _ _ _ _ _ _ _ _ _ _ _ _ M) as (HndF & HfF & _).
  destruct (pages_of (phys s) T (first_slot r) (mreg_startaddr r / 4096) rw F) as [A B]; [apply M|apply (sm_tables _ _ _ _ _ _ _ _ _ _ _ _ _ _ M)|done|intros f Hf; destruct (HfF f Hf) as (_ & ? & ? & ?); done|].
  split; [|done]. intros q. rewrite A. split; (intros [?|Hq]; [by left|right]); [destruct Hq as (pn & _ & E); by eapply frame_at_in|].
  apply list_elem_of_lookup in Hq as [i Hi]. pose proof (lookup_lt_Some _ _ _ Hi) as Hlt. exists (mreg_startaddr r / 4096 + Z.of_nat i). split.
  - unfold zlen in *. unfold region_pages in HF. unfold first_slot, last_slot in *. change (2 ^ 22) with 4194304 in *. Z.div_mod_to_equations; lia.
  - unfold frame_at. destruct (Z.leb_spec (mreg_startaddr r / 4096) (mreg_startaddr r / 4096 + Z.of_nat i)); [|lia]. by replace (Z.to_nat (mreg_startaddr r / 4096 + Z.of_nat i - mreg_startaddr r / 4096)) with i by lia.
Qed.

(** * Translation after a new segment *)

Lemma addr_index a : 0 <= a < 2 ^ 32 -> pdi a = a / 4096 / 1024 /\ pti a = (a / 4096) mod 1024.
Proof.
  intros. unfold pdi, pti. rewrite !field_div by lia. change (2 ^ 22) with (4096 * 1024). change (2 ^ 12) with 4096. change (2 ^ 10) with 1024. rewrite <- Z.div_div by lia.
  split; [|done]. apply Z.mod_small. Z.div_mod_to_equations; lia.
Qed.

(** The tables [ts] from slot [j0] on map the frames [F] from page [c] on and nothing else. *)
Record frames_mapped (m : mem) (pd j0 rw c : Z) (ts F : list Z) : Prop := {
  fm_tables : tables_at m pd j0 ts;
  fm_present k : 0 <= k < zlen ts -> pd_present (get_pde m pd (j0 + k)) = 1;
  fm_entries k t i : ts !! k = Some t -> 0 <= i < 1024 ->
    get_pte m t i = match frame_at F c (1024 * (j0 + Z.of_nat k) + i) with Some f => pte_for (f / 4096) 0 rw 1 0 | None => pte_of_word 0 end;
  fm_frames f : f ∈ F -> f mod 4096 = 0 /\ 0 < f < 2 ^ 32 }.

Lemma mapped_walk m pd j0 rw c ts F a :
  frames_mapped m pd j0 rw c ts F -> 0 <= a < 2 ^ 32 -> j0 <= a / 2 ^ 22 < j0 + zlen ts -> walk m pd a = (f ← frame_at F c (a / 4096); Some (f + a mod 4096)).
Proof.
  intros [Hta Hp He Hf] Har Hslot. destruct (addr_index a Har) as [E1 E2]. rewrite walk_eq, entry_of_eq, E1, E2. change (2 ^ 22) with (4096 * 1024) in Hslot. rewrite <- Z.div_div in Hslot by lia.
  set (k := Z.to_nat (a / 4096 / 1024 - j0)). assert (Ek : a / 4096 / 1024 = j0 + Z.of_nat k) by lia.
  destruct (lookup_lt_is_Some_2 ts k) as [t Et]; [unfold zlen in Hslot; lia|].
  rewrite Ek, Hp by lia. cbn [Z.eqb]. rewrite (ta_base _ _ _ _ Hta k t Et).
  pose proof (Z.mod_pos_bound (a / 4096) 1024 eq_refl). rewrite (He k t _ Et) by lia.
  replace (1024 * (j0 + Z.of_nat k) + (a / 4096) mod 1024) with (a / 4096) by (rewrite <- Ek; Z.div_mod_to_equations; lia).
  destruct (frame_at F c (a / 4096)) as [f|] eqn:E; [|done]. cbn [mbind option_bind pte_for present Z.eqb].
  destruct (Hf f (frame_at_in _ _ _ _ E)) as (Hfa & Hfr). f_equal. rewrite frame_addr_eq; cbn [pte_for page_base_addr]; Z.div_mod_to_equations; lia.
Qed.

Lemma segment_mapped s0 U0 R0 pd p g np j0 rw c r T F s : segment_made s0 U0 R0 pd p g np j0 rw c r T F s -> frames_mapped (phys s) pd j0 rw c T.*2 F.
Proof.
  intros M. destruct (sm_frames _ _ _ _ _ _ _ _ _ _ _ _ _ _ M) as (_ & HF & _). split; [apply M| |apply (sm_entries _ _ _ _ _ _ _ _ _ _ _ _ _ _ M)|].
  - intros k Hk. apply (sm_present _ _ _ _ _ _ _ _ _ _ _ _ _ _ M). unfold zlen in *. by rewrite length_fmap in Hk.
  - intros f Hf. destruct (HF f Hf) as (_ & _ & ? & ?). done.
Qed.

(** In the slots of the segment the processor finds the frames, and nothing else. *)
Lemma segment_walk s0 U0 R0 pd p g np r T F s rw a :
  segment_made s0 U0 R0 pd p g np (first_slot r) rw (mreg_startaddr r / 4096) r T F s -> region_fits r -> zlen T = last_slot r - first_slot r + 1 ->
  0 <= a < 2 ^ 32 -> first_slot r <= a / 2 ^ 22 <= last_slot r ->
  walk (phys s) pd a = (f ← frame_at F (mreg_startaddr r / 4096) (a / 4096); Some (f + a mod 4096)).
Proof.
  intros M Hr HT Har Hslot. apply (mapped_walk _ _ _ _ _ _ _ a (segment_mapped _ _ _ _ _ _ _ _ _ _ _ _ _ _ M) Har). unfold zlen in *. rewrite length_fmap. lia.
Qed.

Lemma frame_at_app F F' c pn : frame_at (F ++ F') c pn = match frame_at F' (c + zlen F) pn with Some f => Some f | None => frame_at F c pn end.
Proof.
  unfold frame_at, zlen. destruct (Z.leb_spec c pn) as [Hc|Hc]; cycle 1; [destruct (Z.leb_spec (c + Z.of_nat (length F)) pn); [lia|done]|].
  destruct (Z.leb_spec (c + Z.of_nat (length F)) pn) as [Hp|Hp].
  - rewrite lookup_app_r by lia. replace (Z.to_nat (pn - c) - length F)%nat with (Z.to_nat (pn - (c + Z.of_nat (length F)))) by lia.
    destruct (F' !! _); [done|]. by rewrite lookup_ge_None_2 by lia.
  - by rewrite lookup_app_l by lia.
Qed.

(** Entering more frames behind those mapped. *)
Lemma grow_mapped m pd j0 rw c ts F F' :
  frames_mapped m pd j0 rw c ts F -> 0 <= rw < 2 -> 0 <= c -> (forall f, f ∈ F' -> f mod 4096 = 0 /\ 0 < f < 2 ^ 32) -> j0 <= (c + zlen F) / 1024 ->
  c + zlen F + zlen F' <= 1024 * (j0 + zlen ts) -> c + zlen F + zlen F' < 2 ^ 20 ->
  frames_mapped (map_frames F' pd (4096 * (c + zlen F)) rw m) pd j0 rw c ts (F ++ F') /\
  (forall x, (forall t, t ∈ ts -> ~ in_table t x) -> ld8 (map_frames F' pd (4096 * (c + zlen F)) rw m) x = ld8 m x).
Proof.
  intros [Hta Hp He Hf] Hrw Hc HF' Hj Hend Hlim. assert (0 <= zlen F) by (unfold zlen; lia). change (2 ^ 20) with 1048576 in Hlim.
  assert (Ed : 4096 * (c + zlen F) / 4096 = c + zlen F) by (rewrite Z.mul_comm; by apply Z.div_mul).
  destruct (map_frames_spec F' m pd j0 ts (4096 * (c + zlen F)) rw) as [A B]; auto; [lia|rewrite Z.mul_comm; by apply Z_mod_mult| |rewrite Ed; lia|lia|lia|].
  { apply Forall_forall. intros f Hin. destruct (HF' f Hin). split; [lia|done]. }
  assert (Hs : same_on (in_table pd) m (map_frames F' pd (4096 * (c + zlen F)) rw m)).
  { intros x Hx. apply B. intros t Ht. destruct (ta_ok _ _ _ _ Hta t Ht) as (_ & Htm & Htp). apply (aligned_apart pd t x); [apply Hta|assumption|congruence|assumption]. }
  rewrite Ed in A. split; [|exact B]. split.
  - by eapply same_bytes_tables.
  - intros k Hk. rewrite <- (Hp k Hk). f_equal. pose proof (ta_high _ _ _ _ Hta). pose proof (ta_low _ _ _ _ Hta). apply get_pde_same; [apply Hta|lia|assumption].
  - intros k t i Hk Hi. rewrite (A k t i Hk Hi), frame_at_app. destruct (frame_at F' _ _); [done|]. by apply He.
  - intros f [?|?]%elem_of_app; auto.
Qed.

(** The tables of a directory belong to it. *)
Definition dir_owned (m : mem) (pd : Z) (R : gset Z) : Prop := pd ∈ R /\ forall j, 0 <= j < 1024 -> base_of m pd j = 0 \/ (base_of m pd j ∈ R /\ base_of m pd j <> pd).


(** * The list of regions *)

(** The regions from [p] on until [q], without their links. *)
Fixpoint rseg (m : gmap Z memregion) (p : Z) (L : list (Z * memregion)) (q : Z) : Prop :=
  match L with
  | [] => p = q
  | (n, r) :: L' => p = n /\ n <> 0 /\ exists nx, m !! n = Some (with_next nx r) /\ rseg m nx L' q
  end.
(** In order of their addresses and apart. *)
Fixpoint spaced (lo : Z) (L : list (Z * memregion)) : Prop :=
  match L with
  | [] => True
  | (_, r) :: L' => lo < mreg_startaddr r /\ mreg_startaddr r <= mreg_endaddr r /\ spaced (mreg_endaddr r) L'
  end.
Definition head_ptr (L : list (Z * memregion)) : Z := match L with [] => 0 | (n, _) :: _ => n end.
Definition last_ptr (L : list (Z * memregion)) : Z := default 0 (fst <$> last L).

(** The address space at [v]: directory [pd], regions [L]. *)
Definition space_ok (s : vmst K) (v pd : Z) (L : list (Z * memregion)) : Prop :=
  vms s !! v = Some (mk_vm pd (head_ptr L)) /\ rseg (regions s) (head_ptr L) L 0 /\ NoDup L.*1 /\ spaced (-1) L.

(** A region in its place. *)
Fixpoint insert_region (x : Z * memregion) (L : list (Z * memregion)) : list (Z * memregion) :=
  match L with
  | [] => [x]
  | y :: L' => if mreg_startaddr y.2 <? mreg_startaddr x.2 then y :: insert_region x L' else x :: L
  end.

Lemma insert_split x L : exists L1 L2, L = L1 ++ L2 /\ insert_region x L = L1 ++ x :: L2 /\ (forall y, y ∈ L1 -> mreg_startaddr y.2 < mreg_startaddr x.2) /\
  (forall y L', L2 = y :: L' -> mreg_startaddr x.2 <= mreg_startaddr y.2).
Proof.
  induction L as [|y L IH]; [exists [], []; split; [done|]; split; [done|]; split; [by intros ? ?%elem_of_nil|done]|]. cbn [insert_region]. destruct (Z.ltb_spec (mreg_startaddr y.2) (mreg_startaddr x.2)).
  - destruct IH as (L1 & L2 & -> & -> & H1 & H2). exists (y :: L1), L2. split; [done|]. split; [done|]. split; [|done]. intros z [->|?]%elem_of_cons; auto.
  - exists [], (y :: L). split; [done|]. split; [done|]. split; [by intros ? ?%elem_of_nil|]. intros z L' [= <- _]. done.
Qed.

Lemma spaced_weaken lo lo' L : lo' <= lo -> spaced lo L -> spaced lo' L.
Proof. destruct L as [|[n r] L]; [done|]. cbn. intros ? (? & ? & ?). split; [lia|done]. Qed.

Lemma spaced_insert x L lo :
  spaced lo L -> lo < mreg_startaddr x.2 <= mreg_endaddr x.2 -> (forall y, y ∈ L -> mreg_endaddr x.2 < mreg_startaddr y.2 \/ mreg_endaddr y.2 < mreg_startaddr x.2) ->
  spaced lo (insert_region x L).
Proof.
  revert lo. destruct x as [q r]. cbn [snd]. induction L as [|[n r'] L IH]; intros lo HL Hx Hd; cbn [insert_region spaced snd]; [lia|]. destruct HL as (H1 & H2 & H3).
  assert (Hn : mreg_endaddr r < mreg_startaddr r' \/ mreg_endaddr r' < mreg_startaddr r) by (apply (Hd (n, r')); by left).
  case_ztest; cbn [spaced].
  - split; [done|]. split; [done|]. apply IH; [done|lia|]. intros y Hy. apply Hd. by right.
  - split; [lia|]. split; [lia|]. split; [lia|]. done.
Qed.

Lemma spaced_delete L1 x L2 lo : spaced lo (L1 ++ x :: L2) -> spaced lo (L1 ++ L2).
Proof.
  revert lo. induction L1 as [|[n r] L1 IH]; intros lo; cbn [app spaced]; [|intros (? & ? & ?); split; [done|]; split; [done|]; auto].
  destruct x as [n r]. intros (? & ? & ?). eapply spaced_weaken; [|done]. lia.
Qed.

Lemma rseg_app m p L1 L2 q : rseg m p (L1 ++ L2) q <-> exists x, rseg m p L1 x /\ rseg m x L2 q.
Proof.
  revert p. induction L1 as [|[n r] L1 IH]; intros p; cbn [app rseg].
  - split; [eauto|]. by intros (x & -> & ?).
  - split.
    + intros (-> & Hn & nx & E & (x & H1 & H2)%IH). exists x. split; [|done]. split; [done|]. split; [done|]. eauto.
    + intros (x & (-> & Hn & nx & E & H1) & H2). split; [done|]. split; [done|]. exists nx. split; [done|]. apply IH. eauto.
Qed.
Lemma rseg_frame m m' p L q : rseg m p L q -> (forall n, n ∈ L.*1 -> m' !! n = m !! n) -> rseg m' p L q.
Proof.
  revert p. induction L as [|[n r] L IH]; intros p; cbn [rseg]; [done|]. intros (-> & Hn & nx & E & Hc) Hm. split; [done|]. split; [done|]. exists nx.
  rewrite Hm; [|by left]. split; [done|]. apply IH; [done|]. intros k Hk. apply Hm. by right.
Qed.
Lemma rseg_size m p L q : rseg m p L q -> NoDup L.*1 -> (length L <= size m)%nat.
Proof.
  intros Hc Hnd. rewrite <- (length_fmap fst L). assert (Hs : (list_to_set L.*1 : gset Z) ⊆ dom m).
  { intros n Hn%elem_of_list_to_set. clear Hnd. revert p Hc. induction L as [|[k r] L IH]; [by apply elem_of_nil in Hn|]. intros p (-> & _ & nx & E & Hc).
    rewrite fmap_cons in Hn. apply elem_of_cons in Hn as [->|Hn]; [by apply elem_of_dom_2 in E|]. by eapply IH. }
  apply subseteq_size in Hs. rewrite size_list_to_set, size_dom in Hs by done. done.
Qed.
Lemma rseg_head m p L : rseg m p L 0 -> p = head_ptr L.
Proof. destruct L as [|[n r] L]; [done|]. by intros (-> & _). Qed.
Lemma last_ptr_snoc L n r : last_ptr (L ++ [(n, r)]) = n.
Proof. unfold last_ptr. by rewrite last_snoc. Qed.

(** The search for the place of address [a], and for a region with [f]. *)
Lemma find_slot_spec fuel s a p L0 L1 L2 :
  rseg (regions s) p (L1 ++ L2) 0 -> (forall y, y ∈ L1 -> mreg_startaddr y.2 < a) -> (forall y L', L2 = y :: L' -> a <= mreg_startaddr y.2) -> (length L1 < fuel)%nat ->
  find_place fuel a p (last_ptr L0) s = Some (head_ptr L2, last_ptr (L0 ++ L1)).
Proof.
  revert fuel p L0. induction L1 as [|[n r] L1 IH]; intros fuel p L0 Hc H1 H2 Hf; (destruct fuel as [|fuel]; [lia|]); cbn [app length] in *.
  - rewrite app_nil_r. destruct L2 as [|[n r] L2]; [cbn in Hc; by subst p|]. destruct Hc as (-> & Hn & nx & E & _). cbn [find_place]. destruct (Z.eqb_spec n 0); [done|]. rewrite E.
    cbn [mbind option_bind with_next mreg_startaddr]. specialize (H2 (n, r) L2 eq_refl). cbn in H2. destruct (Z.ltb_spec (mreg_startaddr r) a); [lia|]. done.
  - destruct Hc as (-> & Hn & nx & E & Hc). cbn [find_place]. destruct (Z.eqb_spec n 0); [done|]. rewrite E. cbn [mbind option_bind with_next mreg_startaddr mreg_next].
    pose proof (H1 (n, r) ltac:(by left)) as Hr. cbn in Hr. destruct (Z.ltb_spec (mreg_startaddr r) a); [|lia]. replace n with (last_ptr (L0 ++ [(n, r)])) at 1 by apply last_ptr_snoc.
    rewrite (IH fuel nx (L0 ++ [(n, r)])); [by rewrite <- app_assoc|done| |done|lia]. intros y Hy. apply H1. by right.
Qed.

Lemma find_region_spec fuel f s p L0 L1 L2 :
  (forall nx r, f (with_next nx r) = f r) ->
  rseg (regions s) p (L1 ++ L2) 0 -> (forall y, y ∈ L1 -> f y.2 = false) -> (forall y L', L2 = y :: L' -> f y.2 = true) -> (length L1 < fuel)%nat ->
  find_region fuel f p (last_ptr L0) s = Some (head_ptr L2, last_ptr (L0 ++ L1)).
Proof.
  intros Hnx. revert fuel p L0. induction L1 as [|[n r] L1 IH]; intros fuel p L0 Hc H1 H2 Hf; (destruct fuel as [|fuel]; [lia|]); cbn [app length] in *.
  - rewrite app_nil_r. destruct L2 as [|[n r] L2]; [cbn in Hc; by subst p|]. destruct Hc as (-> & Hn & nx & E & _). cbn [find_region]. destruct (Z.eqb_spec n 0); [done|]. rewrite E.
    cbn [mbind option_bind]. pose proof (H2 (n, r) L2 eq_refl) as Hr. cbn in Hr. by rewrite Hnx, Hr.
  - destruct Hc as (-> & Hn & nx & E & Hc). cbn [find_region]. destruct (Z.eqb_spec n 0); [done|]. rewrite E. cbn [mbind option_bind]. pose proof (H1 (n, r) ltac:(by left)) as Hr. cbn in Hr. rewrite Hnx, Hr.
    cbn [with_next mreg_next]. replace n with (last_ptr (L0 ++ [(n, r)])) at 1 by apply last_ptr_snoc.
    rewrite (IH fuel nx (L0 ++ [(n, r)])); [by rewrite <- app_assoc|done| |done|lia]. intros y Hy. apply H1. by right.
Qed.

(** The last node of a list before [q] is linked to [q]. *)
Lemma rseg_snoc m p L n r q : rseg m p (L ++ [(n, r)]) q -> m !! n = Some (with_next q r) /\ n <> 0.
Proof. intros (x & _ & (-> & Hn & nx & E & <-))%rseg_app. done. Qed.
Lemma rseg_relink m p L n r q q' : rseg m p (L ++ [(n, r)]) q -> n ∉ L.*1 -> rseg (<[n := with_next q' r]> m) p (L ++ [(n, r)]) q'.
Proof.
  intros (x & H1 & (-> & Hn & nx & E & _))%rseg_app Hn'. apply rseg_app. exists n. split.
  - eapply rseg_frame; [exact H1|]. intros k Hk. apply lookup_insert_ne. intros ->. done.
  - cbn [rseg]. split; [done|]. split; [done|]. exists q'. by rewrite lookup_insert_eq.
Qed.

(** * [vm_addregion] *)

(** The last steps: the new region at [q] goes into its place. *)
Definition link_region (vmem mreg lstart : Z) s : option (Z * vmst K) :=
  v ← vms s !! vmem;
  '(mreg1, mreg2) ← find_place (region_fuel s) lstart (vm_mregion v) 0 s;
  s ← upd_region mreg (with_next mreg1) s;
  s ← (if negb (mreg2 =? 0) then upd_region mreg2 (with_next mreg) s else Some (put_vm vmem (mk_vm (vm_pgdir v) mreg) s));
  Some (0, s).

Lemma with_next_twice a b r : with_next a (with_next b r) = with_next a r.
Proof. done. Qed.

(** Nothing but the list of regions differs. *)
Record relinked (s s' : vmst K) : Prop := {
  rl_heap : heap s' = heap s;
  rl_phys : phys s' = phys s;
  rl_segments : segments s' = segments s;
  rl_ptls : ptls s' = ptls s;
  rl_vms p : is_Some (vms s' !! p) <-> is_Some (vms s !! p);
  rl_regions p : is_Some (regions s' !! p) <-> is_Some (regions s !! p) }.

Lemma insert_is_Some {A} (m : gmap Z A) k x p : is_Some (m !! k) -> is_Some (<[k := x]> m !! p) <-> is_Some (m !! p).
Proof.
  intros Hk. destruct (decide (p = k)) as [->|]; [|by rewrite lookup_insert_ne]. rewrite lookup_insert_eq. split; [done|eauto].
Qed.

Lemma link_region_spec s v pd L q rq :
  vms s !! v = Some (mk_vm pd (head_ptr L)) -> rseg (regions s) (head_ptr L) L 0 -> NoDup L.*1 -> spaced (-1) L -> q ∉ L.*1 -> q <> 0 -> regions s !! q = Some rq ->
  0 <= mreg_startaddr rq <= mreg_endaddr rq -> (forall y, y ∈ L -> mreg_endaddr rq < mreg_startaddr y.2 \/ mreg_endaddr y.2 < mreg_startaddr rq) ->
  exists s', link_region v q (mreg_startaddr rq) s = Some (0, s') /\ space_ok s' v pd (insert_region (q, rq) L) /\ relinked s s'.
Proof.
  intros Ev Hc Hnd Hsp Hq Hq0 Erq Hr Hd. unfold link_region. rewrite Ev. cbn [mbind option_bind vm_mregion vm_pgdir].
  pose proof (spaced_insert (q, rq) L (-1) Hsp ltac:(cbn; lia) Hd) as Hsp'. destruct (insert_split (q, rq) L) as (L1 & L2 & EL & Ei & H1 & H2). cbn [snd] in H1, H2. rewrite Ei in *.
  pose proof (rseg_size _ _ _ _ Hc Hnd) as Hsz. rewrite EL, length_app in Hsz. rewrite EL in Hnd, Hq. rewrite EL in Hc at 2.
  pose proof (find_slot_spec (region_fuel s) s (mreg_startaddr rq) (head_ptr L) [] L1 L2 Hc H1 H2 ltac:(unfold region_fuel; lia)) as Ef. change (last_ptr []) with 0 in Ef.
  rewrite Ef. cbn [mbind option_bind app].
  unfold upd_region. rewrite Erq. cbn [mbind option_bind]. rewrite fmap_app in Hnd, Hq. apply not_elem_of_app in Hq as [Hq1 Hq2]. apply NoDup_app in Hnd as (Hnd1 & Hnd12 & Hnd2).
  assert (Hnd' : NoDup (L1 ++ (q, rq) :: L2).*1).
  { rewrite fmap_app, fmap_cons. cbn [fst]. apply NoDup_app. split; [done|]. split; [|by constructor]. intros k Hk [->|Hk']%elem_of_cons; [done|by apply (Hnd12 k)]. }
  pose proof Hc as (x & Hc1 & Hc2)%rseg_app. pose proof (rseg_head _ _ _ Hc2) as Ex.
  destruct (decide (L1 = [])) as [->|Hne].
  - cbn [app last_ptr last fst fmap option_fmap option_map default Z.eqb negb]. change (last_ptr [] =? 0) with true. cbn [negb]. eexists. split; [reflexivity|]. split.
    + split; [|split; [|by split]]; cbn [vms regions put_vm set_vms put_region set_regions app head_ptr].
      * apply lookup_insert_eq.
      * cbn [rseg]. split; [done|]. split; [done|]. exists (head_ptr L2). rewrite lookup_insert_eq. split; [done|]. rewrite Ex in Hc2. eapply rseg_frame; [exact Hc2|].
        intros n Hn. apply lookup_insert_ne. intros ->. done.
    + split; cbn [heap phys vms regions segments ptls put_vm set_vms put_region set_regions]; try done; intros p; apply insert_is_Some; rewrite ?Ev, ?Erq; eauto.
  - destruct (exists_last Hne) as (L0 & [n r] & ->). rewrite last_ptr_snoc. destruct (rseg_snoc _ _ _ _ _ _ Hc1) as [En Hn0]. destruct (Z.eqb_spec n 0); [done|]. cbn [negb].
    rewrite fmap_app in Hnd1, Hq1. cbn [fmap list_fmap fst] in Hnd1, Hq1. apply not_elem_of_app in Hq1 as [Hq0' Hqn%not_elem_of_cons]. destruct Hqn as [Hqn _].
    apply NoDup_app in Hnd1 as (_ & Hnn & _). assert (HnL : n ∉ L0.*1) by (intros Hin; apply (Hnn n Hin); by left).
    cbn [regions put_region set_regions]. rewrite lookup_insert_ne, En by done. cbn [mbind option_bind]. rewrite with_next_twice. eexists. split; [reflexivity|]. split.
    + split; [|split; [|by split]]; cbn [vms regions put_region set_regions].
      * rewrite Ev, EL. by destruct L0 as [|[]].
      * replace (head_ptr ((L0 ++ [(n, r)]) ++ (q, rq) :: L2)) with (head_ptr L) by (rewrite EL; by destruct L0 as [|[]]). apply rseg_app. exists q. split.
        -- apply (rseg_relink _ _ _ _ _ x); [|done]. eapply rseg_frame; [exact Hc1|]. intros k Hk. apply lookup_insert_ne. intros ->. rewrite fmap_app in Hk. apply elem_of_app in Hk as [?|Hk%list_elem_of_singleton]; [done|]. by cbn in Hk.
        -- cbn [rseg]. split; [done|]. split; [done|]. exists (head_ptr L2). rewrite lookup_insert_ne, lookup_insert_eq by done. split; [done|]. rewrite Ex in Hc2. eapply rseg_frame; [exact Hc2|].
           intros k Hk. assert (k <> n) by (intros ->; apply (Hnd12 n); [rewrite fmap_app; apply elem_of_app; right; by left|done]). rewrite !lookup_insert_ne by (intros ->; done). done.
    + split; cbn [heap phys vms regions segments ptls put_region set_regions]; try done. intros p. rewrite insert_is_Some; [|rewrite lookup_insert_ne by done; eauto]. apply insert_is_Some. eauto.
Qed.

(** A region for [vm_addregion]. *)
Definition new_region (type lstart lend : Z) : memregion := mk_mreg lstart lend type false 0 0.

(** The state after a region with its segment has been added at [q]. *)
Record region_added (s : vmst K) (U : gmap Z Z) (R : gset Z) (v pd : Z) (L : list (Z * memregion)) (q g : Z) (r : memregion) (T : list (Z * Z)) (F : list Z) (s' : vmst K) : Prop := {
  ra_fresh : U !! q = None;
  ra_space : space_ok s' v pd (insert_region (q, with_segment g r) L);
  ra_tables : zlen T = last_slot r - first_slot r + 1;
  ra_frames : zlen F = region_pages r;
  ra_made : exists s1, segment_made (put_region q r s) (<[q := SIZEOF_REGION]> U) R pd q g (region_pages r) (first_slot r) (rw_of r) (mreg_startaddr r / 4096) r T F s1 /\ relinked s1 s' }.

Lemma vm_addregion_outcome s U R v pd L type lstart lend ptflag memflag :
  heap_inv (heap s) U R -> objects_ok s U -> space_ok s v pd L -> pd ∈ R -> ptflag <> 0 -> memflag <> 0 -> region_fits (new_region type lstart lend) ->
  (forall y, y ∈ L -> lend < mreg_startaddr y.2 \/ mreg_endaddr y.2 < lstart) -> slots_empty (phys s) pd (new_region type lstart lend) ->
  (vm_addregion v type lstart lend ptflag memflag s = None /\ exists q h1 h2, kmalloc SIZEOF_REGION (heap s) = Some (q, h1) /\ kmalloc SIZEOF_SEGMENT h1 = Some (0, h2)) \/
  (exists s', vm_addregion v type lstart lend ptflag memflag s = Some (ENOMEM, s') /\ untouched s U R s') \/
  (exists q g T F s', vm_addregion v type lstart lend ptflag memflag s = Some (0, s') /\ region_added s U R v pd L q g (new_region type lstart lend) T F s').
Proof.
  intros Hh Hob (Ev & Hc & Hnd & Hsp) Hpd Hpf Hmf Hr Hd Hempty. pattern (vm_addregion v type lstart lend ptflag memflag s). match goal with |- ?Q _ => set (goal := Q) end. unfold vm_addregion.
  destruct (kmalloc_law (heap s) U R SIZEOF_REGION Hh) as (q & h1 & E & Hq); [vm_compute; split; congruence|]. rewrite E. cbn [mbind option_bind].
  destruct Hq as [[-> Hh1]|(Hq0 & Hqn & Hh1)].
  { cbn [Z.eqb]. right. left. eexists. split; [reflexivity|]. by split. }
  destruct (Z.eqb_spec q 0) as [?|_]; [lia|]. rewrite Ev. cbn [mbind option_bind vm_pgdir]. rewrite (proj2 (Z.eqb_neq ptflag 0)) by done.
  fold (new_region type lstart lend). set (r := new_region type lstart lend) in *. set (s1 := put_region q r (set_heap h1 s)).
  assert (Hrn : regions s !! q = None) by (destruct (regions s !! q) eqn:E'; [|done]; apply (ob_region _ _ Hob) in E'; congruence).
  assert (Hob1 : objects_ok s1 (<[q := SIZEOF_REGION]> U)).
  { assert (Hne : forall p n, U !! p = Some n -> <[q := SIZEOF_REGION]> U !! p = Some n) by (intros p n Hp; rewrite lookup_insert_ne by congruence; done).
    split; intros p x Hp; [by apply Hne, (ob_vm _ _ Hob p x)| |by apply Hne, (ob_segment _ _ Hob p x)|by apply Hne, (ob_ptl _ _ Hob p x)].
    cbn [s1 regions put_region set_regions set_heap] in Hp. destruct (decide (p = q)) as [->|]; [by rewrite lookup_insert_eq|]. rewrite lookup_insert_ne in Hp by done. by apply Hne, (ob_region _ _ Hob p x). }
  destruct (vm_creatememsegment_spec s1 (<[q := SIZEOF_REGION]> U) R pd q r memflag) as [[-> (h2 & E2)]|[(s2 & -> & Hun)|(g & T & F & s2 & -> & HT & HF & M)]]; auto.
  { apply lookup_insert_eq. }
  { left. split; [done|]. exists q, h1, h2. by split. }
  - cbn [mbind option_bind Z.eqb negb]. unfold free_region. destruct Hun as [U1 U2 U3 U4 U5].
    destruct (kfree_law (heap s2) (<[q := SIZEOF_REGION]> U) R q U1) as (h3 & -> & Hh3); [rewrite lookup_insert_eq; eauto|]. cbn [mbind option_bind]. rewrite delete_insert_id in Hh3 by done.
    right. left. eexists. split; [reflexivity|]. split; cbn [heap vms regions segments ptls set_regions set_heap]; [done|by rewrite U2| |by rewrite U4|by rewrite U5].
    rewrite U3. cbn [s1 regions put_region set_regions set_heap]. by rewrite delete_insert_id.
  - cbn [mbind option_bind]. assert (Hg0 : 0 < g) by apply M. destruct (Z.eqb_spec g 0) as [?|_]; [lia|]. cbn [negb]. fold (link_region v q lstart s2).
    assert (HqL : q ∉ L.*1).
    { intros ([n r'] & -> & Hin)%list_elem_of_fmap. cbn in *. clear -Hc Hin Hrn. revert Hc. generalize (head_ptr L). induction L as [|[k u] L IH]; [by apply elem_of_nil in Hin|].
      intros p (-> & _ & nx & E & Hc). apply elem_of_cons in Hin as [[= -> ->]|Hin]; [congruence|]. by eapply IH. }
    pose proof (sm_regions _ _ _ _ _ _ _ _ _ _ _ _ _ _ M) as Er. cbn [s1 regions put_region set_regions set_heap] in Er. rewrite insert_insert_eq in Er.
    destruct (link_region_spec s2 v pd L q (with_segment g r)) as (s' & El & Hsp' & Hrl); auto.
    + rewrite (sm_vms _ _ _ _ _ _ _ _ _ _ _ _ _ _ M). done.
    + rewrite Er. eapply rseg_frame; [exact Hc|]. intros n Hn. apply lookup_insert_ne. intros ->. done.
    + lia.
    + rewrite Er. apply lookup_insert_eq.
    + apply Hr.
    + cbn [with_segment mreg_startaddr r new_region] in El. rewrite El. right. right. exists q, g, T, F, s'. split; [reflexivity|]. split; [done|done|done|done|].
      exists s2. split; [|done]. destruct M. split; assumption.
Qed.

(** * [vm_delregion] *)

(** A segment that only its region uses: its tables [T] and pages are in use. *)
Record segment_held (s : vmst K) (U : gmap Z Z) (R : gset Z) (g : Z) (sg : memsegment) (T : list (Z * Z)) : Prop := {
  sh_seg : segments s !! g = Some sg;
  sh_count : mseg_sharecount sg = 1;
  sh_chain : ptchain (ptls s) (mseg_pgtable sg) T;
  sh_nodes : NoDup T.*1;
  sh_used n : n = g \/ n ∈ T.*1 -> is_Some (U !! n);
  sh_apart : g ∉ T.*1;
  sh_pages : NoDup (seg_pages (phys s) T);
  sh_own q : q ∈ seg_pages (phys s) T -> q ∈ R }.

Lemma drop_region_spec s U R q r g sg T :
  regions s !! q = Some r -> mreg_reglock r = false -> mreg_segment r = g -> g <> 0 -> heap_inv (heap s) U R -> segment_held s U R g sg T -> is_Some (U !! q) -> q <> g -> q ∉ T.*1 ->
  exists h, drop_region q s = Some (mk_st h (phys s) (vms s) (delete q (regions s)) (delete g (segments s)) (del_all T.*1 (ptls s))) /\
    heap_inv h (delete q (delete g (del_all T.*1 U))) (R ∖ list_to_set (seg_pages (phys s) T)).
Proof.
  intros Er Hl Eg Hg Hh Hs Hq Hqg HqT. unfold drop_region, lock_region. rewrite Er. cbn [mbind option_bind]. rewrite Hl. cbn [mbind option_bind regions put_region set_regions].
  rewrite lookup_insert_eq. cbn [mbind option_bind with_lock mreg_segment]. rewrite Eg, (proj2 (Z.eqb_neq g 0)) by done. cbn [negb]. unfold vm_releasesegment.
  cbn [segments put_region set_regions]. rewrite (sh_seg _ _ _ _ _ _ Hs). cbn [mbind option_bind]. rewrite (sh_count _ _ _ _ _ _ Hs). change (u16 (1 - 1)) with 0. cbn [Z.leb Z.compare].
  set (s1 := put_segment g _ _). destruct (vm_destroysegment_spec g (with_count 0 sg) T s1 U R) as (h1 & -> & Hh1).
  { apply lookup_insert_eq. } { apply (sh_chain _ _ _ _ _ _ Hs). } { apply Hs. } { exact Hh. } { intros n Hn. apply (sh_used _ _ _ _ _ _ Hs). by right. }
  { apply (sh_used _ _ _ _ _ _ Hs). by left. } { apply Hs. } { apply (sh_pages _ _ _ _ _ _ Hs). } { apply (sh_own _ _ _ _ _ _ Hs). }
  cbn [mbind option_bind]. unfold unlock_region, upd_region, free_region. cbn [s1 regions put_segment set_segments put_region set_regions]. rewrite lookup_insert_eq. cbn [mbind option_bind heap put_region set_regions].
  destruct (kfree_law h1 (delete g (del_all T.*1 U)) _ q Hh1) as (h2 & -> & Hh2); [by rewrite lookup_delete_ne, del_all_lookup by congruence|]. cbn [mbind option_bind].
  exists h2. split; [|done]. unfold set_regions, set_heap. cbn [heap phys vms regions segments ptls s1 put_segment set_segments put_region set_regions].
  by rewrite !delete_insert_eq.
Qed.

Lemma spaced_starts L1 q r L2 lo y : spaced lo (L1 ++ (q, r) :: L2) -> y ∈ L1 -> mreg_startaddr y.2 < mreg_startaddr r.
Proof.
  revert lo. induction L1 as [|[n u] L1 IH]; intros lo Hsp Hy; [by apply elem_of_nil in Hy|]. cbn [app spaced] in Hsp. destruct Hsp as (Ha & Hb & Hsp). apply elem_of_cons in Hy as [->|Hy]; [|by eapply IH].
  cbn [snd]. clear IH. assert (Hgen : forall lo, spaced lo (L1 ++ (q, r) :: L2) -> lo < mreg_startaddr r).
  { clear. induction L1 as [|[n u] L1 IH]; intros lo; cbn [app spaced]; [by intros [? _]|]. intros (? & ? & Hsp%IH). lia. }
  apply Hgen in Hsp. lia.
Qed.

Lemma vm_delregion_spec s U R v pd L1 q r L2 g sg T :
  space_ok s v pd (L1 ++ (q, r) :: L2) -> mreg_reglock r = false -> mreg_segment r = g -> g <> 0 -> heap_inv (heap s) U R -> segment_held s U R g sg T ->
  is_Some (U !! q) -> q <> g -> q ∉ T.*1 ->
  exists s', vm_delregion v (mreg_startaddr r) s = Some (0, s') /\ space_ok s' v pd (L1 ++ L2) /\
    heap_inv (heap s') (delete q (delete g (del_all T.*1 U))) (R ∖ list_to_set (seg_pages (phys s) T)) /\
    phys s' = phys s /\ segments s' = delete g (segments s) /\ ptls s' = del_all T.*1 (ptls s) /\ (forall p, p <> q -> is_Some (regions s' !! p) <-> is_Some (regions s !! p)) /\
    (forall p, is_Some (vms s' !! p) <-> is_Some (vms s !! p)).
Proof.
  intros (Ev & Hc & Hnd & Hsp) Hl Eg Hg Hh Hs Hq Hqg HqT. unfold vm_delregion. rewrite Ev. cbn [mbind option_bind vm_mregion vm_pgdir].
  pose proof (rseg_size _ _ _ _ Hc Hnd) as Hsz. rewrite length_app in Hsz.
  pose proof (find_region_spec (region_fuel s) (fun u => mreg_startaddr u =? mreg_startaddr r) s _ [] L1 ((q, r) :: L2) ltac:(done) Hc) as Ef. change (last_ptr []) with 0 in Ef.
  rewrite Ef; clear Ef; [|intros y Hy; apply Z.eqb_neq; pose proof (spaced_starts _ _ _ _ _ _ Hsp Hy); lia|intros y L' [= <- <-]; apply Z.eqb_refl|unfold region_fuel; lia].
  cbn [mbind option_bind head_ptr app]. pose proof (spaced_delete _ _ _ _ Hsp) as Hsp'. pose proof Hc as (x & Hc1 & (-> & Hq0 & nx & Erq & Hc2))%rseg_app. pose proof (rseg_head _ _ _ Hc2) as Enx.
  rewrite (proj2 (Z.eqb_neq q 0)) by done. cbn [negb]. rewrite Erq. cbn [mbind option_bind with_next mreg_next].
  rewrite fmap_app, fmap_cons in Hnd. cbn [fst] in Hnd. apply NoDup_app in Hnd as (Hnd1 & Hnd12 & Hnd2). apply NoDup_cons in Hnd2 as [Hq2 Hnd2].
  assert (Hq1 : q ∉ L1.*1) by (intros Hin; apply (Hnd12 q Hin); by left).
  assert (Hnd' : NoDup (L1 ++ L2).*1) by (rewrite fmap_app; apply NoDup_app; split; [done|]; split; [|done]; intros k Hk Hk'; apply (Hnd12 k Hk); by right).
  assert (Hdrop : forall s1, regions s1 !! q = Some (with_next nx r) -> heap s1 = heap s -> phys s1 = phys s -> segments s1 = segments s -> ptls s1 = ptls s ->
    exists h, drop_region q s1 = Some (mk_st h (phys s) (vms s1) (delete q (regions s1)) (delete g (segments s)) (del_all T.*1 (ptls s))) /\
      heap_inv h (delete q (delete g (del_all T.*1 U))) (R ∖ list_to_set (seg_pages (phys s) T))).
  { intros s1 E1 E2 E3 E4 E5. destruct (drop_region_spec s1 U R q (with_next nx r) g sg T) as (h & E & Hh'); auto; [by rewrite E2|destruct Hs; split; rewrite ?E3, ?E4, ?E5; assumption|].
    exists h. rewrite E3, E4, E5 in *. done. }
  destruct (decide (L1 = [])) as [->|Hne].
  - change (last_ptr [] =? 0) with true. cbn [mbind option_bind]. edestruct Hdrop as (h & -> & Hh'); [exact Erq|done..|]. cbn [mbind option_bind]. eexists. split; [reflexivity|].
    split; [split; [|split; [|by split]]|]; cbn [vms regions put_vm set_vms app head_ptr heap phys segments ptls].
    + rewrite lookup_insert_eq. by rewrite Enx.
    + rewrite Enx in Hc2. eapply rseg_frame; [exact Hc2|]. intros k Hk. apply lookup_delete_ne. intros ->. done.
    + split; [done|]. do 3 (split; [done|]). split; [intros p Hp; by rewrite lookup_delete_ne|]. intros p. apply insert_is_Some. rewrite Ev. eauto.
  - destruct (exists_last Hne) as (L0 & [n u] & ->). rewrite last_ptr_snoc. destruct (rseg_snoc _ _ _ _ _ _ Hc1) as [En Hn0]. destruct (Z.eqb_spec n 0); [done|].
    rewrite fmap_app in Hnd1, Hq1. cbn [fmap list_fmap fst] in Hnd1, Hq1. apply not_elem_of_app in Hq1 as [Hqn0 Hqn%not_elem_of_cons]. destruct Hqn as [Hqn _].
    apply NoDup_app in Hnd1 as (_ & Hnn & _). assert (HnL : n ∉ L0.*1) by (intros Hin; apply (Hnn n Hin); by left).
    unfold upd_region. rewrite En. cbn [mbind option_bind]. edestruct Hdrop as (h & -> & Hh'); [cbn [regions put_region set_regions]; rewrite lookup_insert_ne by done; exact Erq|done..|].
    cbn [mbind option_bind]. rewrite with_next_twice. eexists. split; [reflexivity|]. split; [split; [|split; [|by split]]|]; cbn [vms regions put_region set_regions heap phys segments ptls].
    + rewrite Ev. by destruct L0 as [|[]].
    + replace (head_ptr ((L0 ++ [(n, u)]) ++ L2)) with (head_ptr ((L0 ++ [(n, u)]) ++ (q, r) :: L2)) by by destruct L0 as [|[]]. apply rseg_app. exists nx. split.
      * eapply rseg_frame; [eapply rseg_relink; [exact Hc1|done]|]. intros k Hk. apply lookup_delete_ne. intros ->. rewrite fmap_app in Hk. apply elem_of_app in Hk as [?|Hk%list_elem_of_singleton]; [done|]. by cbn in Hk.
      * eapply rseg_frame; [exact Hc2|]. intros k Hk. assert (k <> n) by (intros ->; apply (Hnd12 n); [rewrite fmap_app; apply elem_of_app; right; by left|by right]).
        rewrite lookup_delete_ne by (intros ->; done). apply lookup_insert_ne. done.
    + split; [done|]. do 3 (split; [done|]). split; [|done]. intros p Hp. rewrite lookup_delete_ne by done. apply insert_is_Some. eauto.
Qed.

(** * Adding and deleting a region *)

(** What [vm_addregion] may assume: a well-formed space whose directory owns its
    tables, and a range apart from its regions, in 4 MB slots of its own. *)
Record addable (s : vmst K) (U : gmap Z Z) (R : gset Z) (v pd : Z) (L : list (Z * memregion)) (r : memregion) : Prop := {
  ad_heap : heap_inv (heap s) U R;
  ad_objects : objects_ok s U;
  ad_space : space_ok s v pd L;
  ad_dir : dir_owned (phys s) pd R;
  ad_fits : region_fits r;
  ad_apart y : y ∈ L -> mreg_endaddr r < mreg_startaddr y.2 \/ mreg_endaddr y.2 < mreg_startaddr r;
  ad_slots : slots_empty (phys s) pd r }.

Lemma addregion_cases s U R v pd L type lstart lend :
  addable s U R v pd L (new_region type lstart lend) ->
  (vm_addregion v type lstart lend 1 1 s = None /\ exists q h1 h2, kmalloc SIZEOF_REGION (heap s) = Some (q, h1) /\ kmalloc SIZEOF_SEGMENT h1 = Some (0, h2)) \/
  (exists s', vm_addregion v type lstart lend 1 1 s = Some (ENOMEM, s') /\ untouched s U R s') \/
  (exists q g T F s', vm_addregion v type lstart lend 1 1 s = Some (0, s') /\ region_added s U R v pd L q g (new_region type lstart lend) T F s').
Proof. intros []. apply (vm_addregion_outcome s U R v pd L); auto. apply ad_dir0. Qed.

Lemma added_walk s U R v pd L q g r T F s' i f o :
  region_added s U R v pd L q g r T F s' -> region_fits r -> F !! i = Some f -> 0 <= o < 4096 -> walk (phys s') pd (mreg_startaddr r + 4096 * Z.of_nat i + o) = Some (f + o).
Proof.
  intros [_ _ HT HF (s1 & M & Hrl)] Hr Hi Ho. pose proof Hr as (Ha & Hs & He). rewrite (rl_phys _ _ Hrl). pose proof (lookup_lt_Some _ _ _ Hi) as Hlt.
  unfold region_pages, zlen in HF. set (a := mreg_startaddr r + 4096 * Z.of_nat i + o). assert (Ea : a / 4096 = mreg_startaddr r / 4096 + Z.of_nat i /\ a mod 4096 = o) by (unfold a; Z.div_mod_to_equations; lia).
  destruct Ea as [Ea Eo]. assert (Har : 0 <= a < 2 ^ 32) by (unfold a; Z.div_mod_to_equations; lia).
  rewrite (segment_walk _ _ _ _ _ _ _ _ _ _ _ _ a M Hr HT Har).
  - rewrite Ea, Eo. unfold frame_at. destruct (Z.leb_spec (mreg_startaddr r / 4096) (mreg_startaddr r / 4096 + Z.of_nat i)); [|lia].
    replace (Z.to_nat (mreg_startaddr r / 4096 + Z.of_nat i - mreg_startaddr r / 4096)) with i by lia. by rewrite Hi.
  - unfold first_slot, last_slot, a in *. change (2 ^ 22) with 4194304. Z.div_mod_to_equations; lia.
Qed.


(** The segment of a region just added can be given back. *)
Lemma added_held s U R v pd L q g r T F s' :
  region_added s U R v pd L q g r T F s' -> region_fits r ->
  segment_held s' (ins_all T.*1 (<[g := SIZEOF_SEGMENT]> (<[q := SIZEOF_REGION]> U))) (R ∪ list_to_set T.*2 ∪ list_to_set F) g (mk_mseg 0 0 1 (region_pages r) (first_node T)) T /\
  (forall x, x ∈ seg_pages (phys s') T <-> x ∈ T.*2 \/ x ∈ F) /\ q <> g /\ q ∉ T.*1.
Proof.
  intros [Hq _ HT HF (s1 & M & Hrl)] Hr. destruct (segment_pages _ _ _ _ _ _ _ _ _ _ _ _ M Hr HT HF) as [Hel Hnd]. rewrite <- (rl_phys _ _ Hrl) in Hel, Hnd.
  assert (HgT : g ∉ T.*1) by (intros Hin; by apply (sm_fresh _ _ _ _ _ _ _ _ _ _ _ _ _ _ M) in Hin as [? _]).
  split; [split|split; [exact Hel|split]].
  - rewrite (rl_segments _ _ Hrl), (sm_seg _ _ _ _ _ _ _ _ _ _ _ _ _ _ M). apply lookup_insert_eq.
  - done.
  - rewrite (rl_ptls _ _ Hrl). apply (sm_chain _ _ _ _ _ _ _ _ _ _ _ _ _ _ M).
  - apply M.
  - intros n [->|Hn]; rewrite ins_all_lookup; [rewrite bool_decide_false, lookup_insert_eq by done; eauto|rewrite bool_decide_true by done; eauto].
  - exact HgT.
  - exact Hnd.
  - intros x [?|?]%Hel; rewrite !elem_of_union, !elem_of_list_to_set; tauto.
  - intros ->. pose proof (sm_new _ _ _ _ _ _ _ _ _ _ _ _ _ _ M) as E. by rewrite lookup_insert_eq in E.
  - intros Hin. apply (sm_fresh _ _ _ _ _ _ _ _ _ _ _ _ _ _ M) in Hin as [_ E]. by rewrite lookup_insert_eq in E.
Qed.

Lemma add_then_delete s U R v pd L q g r T F s1 :
  objects_ok s U -> region_added s U R v pd L q g r T F s1 -> region_fits r -> mreg_reglock r = false ->
  exists s2, vm_delregion v (mreg_startaddr r) s1 = Some (0, s2) /\ space_ok s2 v pd L /\ heap_inv (heap s2) U R /\ segments s2 = segments s /\ ptls s2 = ptls s /\ phys s2 = phys s1.
Proof.
  intros Hob Hadd Hr Hl. destruct (added_held _ _ _ _ _ _ _ _ _ _ _ _ Hadd Hr) as (Hheld & Hel & Hqg & HqT). pose proof Hadd as [Hq Hsp HT HF (s0 & M & Hrl)].
  destruct (insert_split (q, with_segment g r) L) as (L1 & L2 & EL & Ei & _ & _). rewrite Ei in Hsp. assert (Hg0 : 0 < g) by apply M.
  destruct (vm_delregion_spec s1 (ins_all T.*1 (<[g := SIZEOF_SEGMENT]> (<[q := SIZEOF_REGION]> U))) (R ∪ list_to_set T.*2 ∪ list_to_set F) v pd L1 q (with_segment g r) L2 g
    (mk_mseg 0 0 1 (region_pages r) (first_node T)) T Hsp) as (s2 & E & Hsp2 & Hh2 & Ep & Es & El & _); [exact Hl|reflexivity|lia| |exact Hheld| |exact Hqg|exact HqT|].
  - rewrite (rl_heap _ _ Hrl). apply (sm_heap _ _ _ _ _ _ _ _ _ _ _ _ _ _ M).
  - rewrite ins_all_lookup, bool_decide_false, lookup_insert_ne, lookup_insert_eq by congruence. eauto.
  - exists s2. split; [exact E|]. rewrite <- EL in Hsp2. split; [exact Hsp2|]. split; [|split; [|split; [|exact Ep]]].
    + pose proof (sm_new _ _ _ _ _ _ _ _ _ _ _ _ _ _ M) as Hgn. rewrite del_ins in Hh2.
      * rewrite (delete_insert_id (<[q := SIZEOF_REGION]> U) g) in Hh2 by exact Hgn. rewrite delete_insert_id in Hh2 by exact Hq. apply (heap_inv_ext _ _ _ _ Hh2). intros x.
        destruct (sm_frames _ _ _ _ _ _ _ _ _ _ _ _ _ _ M) as (_ & HfF & HtR). rewrite elem_of_difference, !elem_of_union, !elem_of_list_to_set, Hel. pose proof (HtR x). pose proof (HfF x). tauto.
      * intros n Hn. apply (sm_fresh _ _ _ _ _ _ _ _ _ _ _ _ _ _ M) in Hn as [? ?]. by rewrite lookup_insert_ne by congruence.
    + rewrite Es, (rl_segments _ _ Hrl), (sm_seg _ _ _ _ _ _ _ _ _ _ _ _ _ _ M), delete_insert_id; [done|].
      cbn [segments put_region set_regions]. destruct (segments s !! g) eqn:Eg; [|done]. apply (ob_segment _ _ Hob) in Eg. pose proof (sm_new _ _ _ _ _ _ _ _ _ _ _ _ _ _ M) as Hgn.
      rewrite lookup_insert_ne in Hgn by congruence. congruence.
    + rewrite El, (rl_ptls _ _ Hrl). apply map_eq. intros p. destruct (decide (p ∈ T.*1)) as [Hp|Hp].
      * rewrite del_all_in by done. destruct (ptls s !! p) eqn:Epl; [|done]. apply (ob_ptl _ _ Hob) in Epl. apply (sm_fresh _ _ _ _ _ _ _ _ _ _ _ _ _ _ M) in Hp as [_ E']. rewrite lookup_insert_ne in E' by congruence. congruence.
      * rewrite del_all_lookup by done. by rewrite (sm_ptls _ _ _ _ _ _ _ _ _ _ _ _ _ _ M).
Qed.

(** C12: Deleting a region undoes adding it, for a region at a page boundary below the last
    4 MB, apart from the other regions of the address space and in 4 MB slots of its own:
    the entries of the page directory that it uses are empty, so they serve no other
    region and none that was deleted.  Tables and pages are asked for (both flags are 1).
    After a [vm_addregion] that returned 0, [vm_delregion] at its start returns 0; the list
    of regions, the blocks in use, the frames taken, the segments and the table lists are
    those of before: each page, each table and each record has been given back exactly
    once.  For a region in a slot that another one uses or has used this does not hold:
    its pages are not given back (vmmap.c:295). *)
Theorem region_round_trip s U R v pd L type lstart lend s1 :
  addable s U R v pd L (new_region type lstart lend) -> vm_addregion v type lstart lend 1 1 s = Some (0, s1) ->
  exists s2, vm_delregion v lstart s1 = Some (0, s2) /\ space_ok s2 v pd L /\ heap_inv (heap s2) U R /\ segments s2 = segments s /\ ptls s2 = ptls s.
Proof.
  intros Had E. destruct (addregion_cases _ _ _ _ _ _ _ _ _ Had) as [[E' _]|[(s' & E' & _)|(q & g & T & F & s' & E' & Hadd)]]; rewrite E in E'; [done|done|]. injection E' as <-.
  destruct (add_then_delete _ _ _ _ _ _ _ _ _ _ _ _ (ad_objects _ _ _ _ _ _ _ Had) Hadd (ad_fits _ _ _ _ _ _ _ Had) eq_refl) as (s2 & E2 & H1 & H2 & H3 & H4 & _). by exists s2.
Qed.

(** A deleted region is still mapped.  [vm_destroysegment] gives the pages and the tables
    back but leaves the directory entries: the processor still finds a frame at the start
    of the region, through a table, and neither the frame nor the table is taken any more. *)
Theorem deleted_region_still_mapped s U R v pd L type lstart lend s1 s2 :
  addable s U R v pd L (new_region type lstart lend) -> lstart < lend -> vm_addregion v type lstart lend 1 1 s = Some (0, s1) -> vm_delregion v lstart s1 = Some (0, s2) ->
  heap_inv (heap s2) U R /\ exists f, walk (phys s2) pd lstart = Some f /\ f ∉ R /\ base_of (phys s2) pd (lstart / 2 ^ 22) ∉ R /\ base_of (phys s2) pd (lstart / 2 ^ 22) <> 0.
Proof.
  intros Had Hlt E ED. destruct (addregion_cases _ _ _ _ _ _ _ _ _ Had) as [[E' _]|[(s' & E' & _)|(q & g & T & F & s' & E' & Hadd)]]; rewrite E in E'; [done|done|]. injection E' as <-.
  pose proof (ad_fits _ _ _ _ _ _ _ Had) as Hr. destruct (add_then_delete _ _ _ _ _ _ _ _ _ _ _ _ (ad_objects _ _ _ _ _ _ _ Had) Hadd Hr eq_refl) as (s3 & E2 & _ & H2 & _ & _ & Ep).
  cbn [new_region mreg_startaddr] in E2. rewrite ED in E2. injection E2 as <-. split; [exact H2|]. rewrite Ep. pose proof Hadd as [_ _ HT HF (s0 & M & Hrl)].
  destruct Hr as (Ha & Hs & He). cbn [new_region mreg_startaddr mreg_endaddr] in Ha, Hs, He. destruct (sm_frames _ _ _ _ _ _ _ _ _ _ _ _ _ _ M) as (_ & HfF & HtR).
  destruct (lookup_lt_is_Some_2 F 0) as [f Ef]; [unfold zlen, region_pages in HF; cbn [new_region mreg_startaddr mreg_endaddr] in HF; Z.div_mod_to_equations; lia|].
  destruct (lookup_lt_is_Some_2 T.*2 0) as [t Et]; [rewrite length_fmap; unfold zlen, first_slot, last_slot in HT; cbn [new_region mreg_startaddr mreg_endaddr] in HT; change (2 ^ 22) with 4194304 in HT; Z.div_mod_to_equations; lia|].
  exists f. split.
  - pose proof (added_walk _ _ _ _ _ _ _ _ _ _ _ _ 0%nat f 0 Hadd (ad_fits _ _ _ _ _ _ _ Had) Ef ltac:(lia)) as W. rewrite Z.mul_0_r, !Z.add_0_r in W. exact W.
  - split; [apply (HfF f); by eapply list_elem_of_lookup_2|]. rewrite (rl_phys _ _ Hrl). pose proof (ta_base _ _ _ _ (sm_tables _ _ _ _ _ _ _ _ _ _ _ _ _ _ M) 0%nat t Et) as Eb.
    change (Z.of_nat 0) with 0 in Eb. rewrite Z.add_0_r in Eb. unfold first_slot in Eb. cbn [new_region mreg_startaddr] in Eb. rewrite Eb. apply list_elem_of_lookup_2 in Et. split; [by apply HtR|].
    destruct (frame_dir _ _ _ t (sm_heap _ _ _ _ _ _ _ _ _ _ _ _ _ _ M)) as (_ & _ & ?); [rewrite !elem_of_union, !elem_of_list_to_set; tauto|lia].
Qed.

(** * Shrinking a region *)

Lemma free_frames_none fas (h : K) : Forall (fun f => f = 0) fas -> free_frames fas h = Some h.
Proof.
  intros Hf. unfold free_frames. assert (run_steps (0, 0, 0, h) fas = Some (0, 0, 0, h)) as ->; [|done]. induction Hf as [|f fas -> _ IH]; [done|]. cbn [run_steps run_step Z.eqb negb mbind option_bind]. exact IH.
Qed.

(** The loop looks at the pages from [cur] on. *)
Lemma shrink_frames_spec n m pd cur : 0 <= cur -> cur mod 4096 = 0 -> cur + 4096 * Z.of_nat n < 2 ^ 32 ->
  (forall pn, cur / 4096 <= pn < cur / 4096 + Z.of_nat n -> page_base_addr (get_pte m (base_of m pd (pn / 1024)) (pn mod 1024)) = 0) ->
  Forall (fun f => f = 0) (shrink_frames n m pd cur).
Proof.
  revert cur. induction n as [|n IH]; intros cur H0 Ha Hl He; cbn [shrink_frames]; [constructor|]. destruct (addr_index cur) as [E1 E2]; [lia|].
  change (Z.land (Z.shiftr cur 22) 0x3ff) with (pdi cur). change (Z.land (Z.shiftr cur 12) 0x3ff) with (pti cur). rewrite u32_id by lia. apply Forall_app. split.
  - destruct (_ =? 0); [constructor|]. repeat constructor. rewrite E1, E2. apply He. Z.div_mod_to_equations; lia.
  - apply IH; [lia|Z.div_mod_to_equations; lia|lia|]. intros pn Hpn. apply He. Z.div_mod_to_equations; lia.
Qed.

(** The tables hold no frame behind the last page of a region. *)
Lemma added_above s U R v pd L q g r T F s' pn :
  region_added s U R v pd L q g r T F s' -> region_fits r -> (mreg_endaddr r + 4095) / 4096 <= pn < 1024 * (last_slot r + 1) ->
  page_base_addr (get_pte (phys s') (base_of (phys s') pd (pn / 1024)) (pn mod 1024)) = 0.
Proof.
  intros [_ _ HT HF (s1 & M & Hrl)] (Ha & Hs & He) Hpn. rewrite (rl_phys _ _ Hrl). assert (Hsl : pn / 1024 = last_slot r) by (unfold last_slot in *; change (2 ^ 22) with 4194304 in *; Z.div_mod_to_equations; lia).
  set (k := Z.to_nat (last_slot r - first_slot r)). assert (Hfl : first_slot r <= last_slot r) by (unfold first_slot, last_slot; apply Z.div_le_mono; lia).
  assert (Ek : pn / 1024 = first_slot r + Z.of_nat k) by lia. destruct (lookup_lt_is_Some_2 T.*2 k) as [t Et]; [rewrite length_fmap; unfold zlen in HT; lia|].
  rewrite Ek, (ta_base _ _ _ _ (sm_tables _ _ _ _ _ _ _ _ _ _ _ _ _ _ M) k t Et). pose proof (Z.mod_pos_bound pn 1024 eq_refl) as Hm.
  rewrite (sm_entries _ _ _ _ _ _ _ _ _ _ _ _ _ _ M k t _ Et Hm), <- Ek. replace (1024 * (pn / 1024) + pn mod 1024) with pn by (Z.div_mod_to_equations; lia).
  unfold frame_at. destruct (mreg_startaddr r / 4096 <=? pn); [|done]. rewrite lookup_ge_None_2; [done|]. unfold zlen, region_pages in HF. lia.
Qed.

Lemma region_at_spec s v pd L1 q r L2 : space_ok s v pd (L1 ++ (q, r) :: L2) ->
  exists nx, region_at (mk_vm pd (head_ptr (L1 ++ (q, r) :: L2))) (mreg_startaddr r) s = Some (Some (q, with_next nx r)) /\ regions s !! q = Some (with_next nx r).
Proof.
  intros (Ev & Hc & Hnd & Hsp). pose proof (rseg_size _ _ _ _ Hc Hnd) as Hsz. rewrite length_app in Hsz.
  pose proof (find_slot_spec (region_fuel s) s (mreg_startaddr r) _ [] L1 ((q, r) :: L2) Hc) as Ef. change (last_ptr []) with 0 in Ef.
  unfold region_at. cbn [vm_mregion]. rewrite Ef; clear Ef; [|intros y Hy; by apply (spaced_starts _ _ _ _ _ _ Hsp Hy)|intros y L' [= <- <-]; cbn [snd]; lia|unfold region_fuel; lia].
  cbn [mbind option_bind head_ptr]. pose proof Hc as (x & _ & (-> & Hq0 & nx & Erq & _))%rseg_app. exists nx. rewrite (proj2 (Z.eqb_neq q 0)), Erq by done.
  cbn [mbind option_bind with_next mreg_startaddr]. by rewrite Z.eqb_refl.
Qed.

(** Shrinking a region frees none of its pages.  [vm_shrinkregion] walks the pages that
    follow the old end instead of those that precede it: on a region just added, as long
    as it stays in the last 4 MB slot, it lowers the end, returns 0 and gives nothing
    back; the memory is what it was, so the processor still reaches every page. *)
Theorem shrink_keeps_pages s U R v pd L type lstart lend size s1 :
  addable s U R v pd L (new_region type lstart lend) -> vm_addregion v type lstart lend 1 1 s = Some (0, s1) ->
  0 <= size <= lend - lstart -> lend + size + 8192 <= 2 ^ 22 * (lend / 2 ^ 22 + 1) ->
  exists s2 q r, vm_shrinkregion v lstart size s1 = Some (0, s2) /\ regions s2 !! q = Some r /\ mreg_startaddr r = lstart /\ mreg_endaddr r = lend - size /\
    heap s2 = heap s1 /\ phys s2 = phys s1.
Proof.
  intros Had E Hsz Hslot. destruct (addregion_cases _ _ _ _ _ _ _ _ _ Had) as [[E' _]|[(s' & E' & _)|(q & g & T & F & s' & E' & Hadd)]]; rewrite E in E'; [done|done|]. injection E' as <-.
  set (r := new_region type lstart lend) in *. pose proof (ad_fits _ _ _ _ _ _ _ Had) as Hr. pose proof Hr as (Ha & Hs & He). cbn [r new_region mreg_startaddr mreg_endaddr] in Ha, Hs, He.
  pose proof Hadd as [Hq Hsp HT HF (s0 & M & Hrl)]. destruct (insert_split (q, with_segment g r) L) as (L1 & L2 & EL & Ei & _). rewrite Ei in Hsp.
  destruct (region_at_spec _ _ _ _ _ _ _ Hsp) as (nx & Er & Eq). pose proof Hsp as (Ev & _). unfold vm_shrinkregion. rewrite Ev. cbn [mbind option_bind].
  change (mreg_startaddr (with_segment g r)) with lstart in Er. rewrite Er. cbn [mbind option_bind]. change (mreg_endaddr (with_next nx (with_segment g r))) with lend.
  rewrite !(u32_id (lend - size)) by lia. rewrite !land_page by lia. rewrite (u32_id (4096 * _ - _)) by (Z.div_mod_to_equations; lia).
  set (k := lend / 4096 - (lend - size) / 4096). assert (Hk : Z.land (Z.shiftr (4096 * (lend / 4096) - 4096 * ((lend - size) / 4096)) 12) 0x000fffff = k).
  { replace (4096 * (lend / 4096) - 4096 * ((lend - size) / 4096)) with (4096 * k) by (unfold k; lia). change (Z.land (Z.shiftr (4096 * k) 12) 0x000fffff) with (page_no (4096 * k)).
    rewrite page_no_eq by (unfold k; Z.div_mod_to_equations; lia). rewrite Z.mul_comm. by apply Z.div_mul. }
  rewrite Hk. assert (Hg : segments s1 !! g = Some (mk_mseg 0 0 1 (region_pages r) (first_node T))) by (rewrite (rl_segments _ _ Hrl), (sm_seg _ _ _ _ _ _ _ _ _ _ _ _ _ _ M); apply lookup_insert_eq).
  pose proof (sm_nz _ _ _ _ _ _ _ _ _ _ _ _ _ _ M) as Hg0.
  assert (Hz : free_frames (shrink_frames (Z.to_nat k) (phys s1) pd (u32 (Z.shiftl (Z.shiftr (u32 (lend + 4095)) 12) 12))) (heap s1) = Some (heap s1)).
  { apply free_frames_none. rewrite (u32_id (lend + 4095)), Z.shiftr_div_pow2, Z.shiftl_mul_pow2 by lia. change (2 ^ 12) with 4096. change (2 ^ 22) with 4194304 in Hslot.
    assert (0 <= k <= size / 4096 + 1) by (unfold k; Z.div_mod_to_equations; lia). rewrite u32_id by (Z.div_mod_to_equations; lia).
    apply shrink_frames_spec; [Z.div_mod_to_equations; lia|by apply Z_mod_mult|Z.div_mod_to_equations; lia|]. rewrite Z.div_mul by lia. intros pn Hpn. apply (added_above _ _ _ _ _ _ _ _ _ _ _ _ pn Hadd Hr).
    unfold last_slot. cbn [r new_region mreg_endaddr]. change (2 ^ 22) with 4194304. Z.div_mod_to_equations; lia. }
  unfold vm_getmemsegment, lock_region, unlock_region, upd_region, upd_segment, vm_releasesegment.
  repeat (cbn [mbind option_bind regions segments phys heap put_region put_segment set_regions set_segments set_heap with_lock with_end with_next with_segment mreg_reglock mreg_segment r new_region negb vm_pgdir];
    rewrite ?lookup_insert_eq, ?(proj2 (Z.eqb_neq g 0) ltac:(lia)), ?Hg, ?andb_true_r).
  rewrite Hz. cbn [mbind option_bind]. destruct (0 <? k);
    (cbn [mbind option_bind segments put_region put_segment set_regions set_segments set_heap]; rewrite lookup_insert_eq; cbn [mbind option_bind with_count with_npages mseg_sharecount];
     change (u16 (u16 (1 + 1) - 1)) with 1; change (1 <=? 0) with false; cbn [mbind option_bind]; eexists _, q, _;
     split; [reflexivity|]; split; [apply lookup_insert_eq|]; split; [reflexivity|]; split; [reflexivity|]; split; reflexivity).
Qed.

(** The top 4 MB cannot be reached.  For a region that ends at 0xFFC00000 or above, such as
    one with the last private page, the loop of [vm_expandpagetables] adds 4 MB to an
    address that wraps to 0 and never passes the end: with any number of turns it does
    not finish, or it stops because memory has run out. *)
Theorem expand_top_never_ends fuel pd mseg lstart lend ptl1 ptl2 avail rw global s :
  0 <= lstart < 2 ^ 32 -> lstart mod 2 ^ 22 = 0 -> 0xffc00000 <= lend ->
  match expand_loop fuel pd mseg lstart lend ptl1 ptl2 avail rw global s with Some (ret, _) => ret = ENOMEM | None => True end.
Proof.
  revert lstart ptl1 ptl2 s. induction fuel as [|fuel IH]; intros lstart ptl1 ptl2 s Hl Hm He; cbn [expand_loop].
  all: rewrite (proj2 (Z.leb_le lstart lend)) by (Z.div_mod_to_equations; lia); cbn [negb].
  { done. }
  assert (Hn : 0 <= u32 (lstart + 0x00400000) < 2 ^ 32 /\ u32 (lstart + 0x00400000) mod 2 ^ 22 = 0) by (unfold u32; Z.div_mod_to_equations; lia). destruct Hn as [Hn1 Hn2].
  destruct (_ =? 0).
  - destruct (new_table _ _ _ _ _ _ _ _ _) as [[p s1]|]; [|done]. cbn [mbind option_bind]. destruct (p =? 0); [done|]. destruct (next_ptl p s1); [|done]. cbn [mbind option_bind]. by apply IH.
  - destruct (next_ptl ptl1 s); [|done]. cbn [mbind option_bind]. by apply IH.
Qed.

(** * Growing a region without a segment *)

Lemma new_table_regions pd mseg pdind ptl1 ptl2 avail rw global s p s' : new_table pd mseg pdind ptl1 ptl2 avail rw global s = Some (p, s') -> regions s' = regions s.
Proof.
  unfold new_table, upd_segment. intros E. repeat (case_match || (progress simplify_option_eq)); done.
Qed.
Lemma expand_loop_regions fuel pd mseg lstart lend ptl1 ptl2 avail rw global s ret s' :
  expand_loop fuel pd mseg lstart lend ptl1 ptl2 avail rw global s = Some (ret, s') -> regions s' = regions s.
Proof.
  revert lstart ptl1 ptl2 s. induction fuel as [|fuel IH]; intros lstart ptl1 ptl2 s; cbn [expand_loop]; (destruct (negb _); [by intros [= _ <-]|]); [done|].
  destruct (_ =? 0).
  - destruct (new_table _ _ _ _ _ _ _ _ _) as [[p s1]|] eqn:E; [|done]. cbn [mbind option_bind]. apply new_table_regions in E. destruct (p =? 0); [intros [= _ <-]; done|].
    destruct (next_ptl p s1); [|done]. cbn [mbind option_bind]. intros ->%IH. done.
  - destruct (next_ptl ptl1 s); [|done]. cbn [mbind option_bind]. apply IH.
Qed.

(** A segment cannot be made for a region whose lock is held. *)
Lemma create_locked pd p memflag r s :
  regions s !! p = Some r -> mreg_reglock r = true -> vm_creatememsegment pd p memflag s = None \/ exists s', vm_creatememsegment pd p memflag s = Some (0, s').
Proof.
  intros Er Hl. unfold vm_creatememsegment. destruct (kmalloc _ _) as [[g h]|]; [|by left]. cbn [mbind option_bind]. destruct (g =? 0); [by left|]. cbn [regions set_heap]. rewrite Er.
  cbn [mbind option_bind]. unfold vm_expandpagetables. cbn [segments put_segment set_segments]. rewrite lookup_insert_eq. cbn [mbind option_bind].
  destruct (expand_loop _ _ _ _ _ _ _ _ _ _ _) as [[ret s1]|] eqn:E; [|by left]. apply expand_loop_regions in E. cbn [mbind option_bind]. destruct (ret <? 0).
  - destruct (vm_destroysegment g s1) as [s2|]; [right|left; done]. by exists s2.
  - left. unfold lock_region. rewrite E. cbn [regions put_segment set_segments set_heap]. rewrite Er. cbn [mbind option_bind]. by rewrite Hl.
Qed.

(** A region without a segment never grows.  [vm_expandregion] takes the region's lock and
    calls [vm_creatememsegment], which waits for the same lock: the call does not return,
    or it returns -1 because the tables ran out of memory. *)
Theorem expand_without_segment s v pd L1 q r L2 size pgflag memflag :
  space_ok s v pd (L1 ++ (q, r) :: L2) -> mreg_segment r = 0 -> mreg_reglock r = false -> pgflag <> 0 \/ memflag <> 0 ->
  match vm_expandregion v (mreg_startaddr r) size pgflag memflag s with Some (ret, _) => ret = -1 | None => True end.
Proof.
  intros Hsp Hg Hl Hf. destruct (region_at_spec _ _ _ _ _ _ _ Hsp) as (nx & Er & Eq). pose proof Hsp as (Ev & _). unfold vm_expandregion. rewrite Ev. cbn [mbind option_bind]. rewrite Er. cbn [mbind option_bind].
  destruct (if negb _ then _ else _) as [over|]; [|done]. cbn [mbind option_bind]. destruct over; [done|].
  assert (Hfl : negb (pgflag =? 0) || negb (memflag =? 0) = true) by (apply orb_true_iff; rewrite !negb_true_iff, !Z.eqb_neq; done). rewrite Hfl.
  unfold vm_getmemsegment, lock_region, unlock_region, upd_region.
  repeat (cbn [mbind option_bind regions put_region set_regions with_lock with_end with_next mreg_reglock mreg_segment negb Z.eqb]; rewrite ?lookup_insert_eq, ?Hl, ?Hg).
  match goal with |- context [vm_creatememsegment ?a ?b ?c ?d] => destruct (create_locked a b c _ d (lookup_insert_eq _ _ _) eq_refl) as [->|(s' & ->)] end; [done|]. cbn [mbind option_bind].
  by destruct (regions s' !! q).
Qed.

(** * Private pages *)

(** [n] free pages from page [i] on. *)
Definition free_run_at (bitmap : list Z) (n i : Z) : Prop := 0 <= i /\ i + n <= PRIVATE_PAGES /\ forall k, i <= k < i + n -> zget bitmap k = Some 0.

Lemma bit_at_in bitmap after k : zlen bitmap = PRIVATE_PAGES -> 0 <= k < PRIVATE_PAGES -> zget bitmap k = Some (bit_at bitmap after k).
Proof. intros Hz Hk. unfold bit_at. destruct (zget_is_Some bitmap k) as [x ->]; [lia|done]. Qed.

Lemma count_free_spec fuel bitmap after npages i j :
  zlen bitmap = PRIVATE_PAGES -> 0 <= i -> i < j <= PRIVATE_PAGES -> j - i <= npages -> PRIVATE_PAGES - j <= Z.of_nat fuel -> (forall k, i <= k < j -> zget bitmap k = Some 0) ->
  exists j', count_free fuel bitmap after npages j (j - i) = Some (j', j' - i) /\ j <= j' <= PRIVATE_PAGES /\ j' - i <= npages /\ (forall k, i <= k < j' -> zget bitmap k = Some 0) /\
    (j' - i = npages \/ j' = PRIVATE_PAGES \/ zget bitmap j' <> Some 0).
Proof.
  revert j. induction fuel as [|fuel IH]; intros j Hz Hi Hj Hn Hf Hfree; cbn [count_free].
  - exists j. rewrite (proj2 (Z.ltb_ge j PRIVATE_PAGES)) by lia. rewrite andb_false_r. split; [done|]. split; [lia|]. split; [done|]. split; [done|]. right. left. lia.
  - destruct (Z.ltb_spec (j - i) npages) as [Hlt|Hge]; cbn [andb]; [|exists j; split; [done|]; split; [lia|]; split; [done|]; split; [done|]; left; lia].
    destruct (Z.eqb_spec (bit_at bitmap after j) 0) as [Eb|Eb]; cbn [andb]; cycle 1.
    { exists j. split; [done|]. split; [lia|]. split; [done|]. split; [done|]. right. destruct (decide (j = PRIVATE_PAGES)); [by left|right].
      rewrite (bit_at_in bitmap after) by (done || lia). congruence. }
    destruct (Z.ltb_spec j PRIVATE_PAGES); [|exists j; split; [done|]; split; [lia|]; split; [done|]; split; [done|]; right; left; lia].
    replace (j - i + 1) with (j + 1 - i) by lia. destruct (IH (j + 1)) as (j' & E & ? & ? & ? & ?); auto; try lia.
    { intros k Hk. destruct (decide (k = j)) as [->|]; [|apply Hfree; lia]. rewrite (bit_at_in bitmap after) by (done || lia). congruence. }
    exists j'. split; [done|]. split; [lia|]. split_and!; (assumption || lia).
Qed.

Lemma find_pages_spec fuel bitmap after npages i :
  zlen bitmap = PRIVATE_PAGES -> 1 <= npages -> 0 <= i -> PRIVATE_PAGES - i <= Z.of_nat fuel -> (forall k, k < i -> ~ free_run_at bitmap npages k) ->
  exists r, find_pages fuel bitmap after npages i = Some r /\
    match r with Some p => free_run_at bitmap npages p /\ forall k, k < p -> ~ free_run_at bitmap npages k | None => forall k, ~ free_run_at bitmap npages k end.
Proof.
  intros Hz Hn. revert i. induction fuel as [|fuel IH]; intros i Hi Hf Hno; cbn [find_pages].
  all: destruct (Z.ltb_spec i PRIVATE_PAGES) as [Hlt|Hge]; cbn [negb]; [|exists None; split; [done|]; intros k Hk; destruct (decide (k < i)); [by eapply Hno|destruct Hk as (? & ? & _); lia]].
  - lia.
  - destruct (Z.eqb_spec (bit_at bitmap after i) 0) as [Eb|Eb].
    + destruct (count_free_spec (Z.to_nat PRIVATE_PAGES) bitmap after npages i (i + 1)) as (j & Ec & Hj & Hjn & Hfree & Hstop); auto; try (unfold PRIVATE_PAGES in *; lia).
      { intros k Hk. replace k with i by lia. rewrite (bit_at_in bitmap after) by (done || lia). congruence. }
      replace (i + 1 - i) with 1 in Ec by lia. rewrite Ec. cbn [mbind option_bind]. destruct (Z.eqb_spec (j - i) npages) as [Ej|Ej].
      * exists (Some i). split; [done|]. split; [|done]. split; [done|]. split; [lia|]. intros k Hk. apply Hfree. lia.
      * apply IH; [lia|lia|]. intros k Hk Hrun. destruct (decide (k < i)); [by eapply Hno|]. destruct Hrun as (_ & Hle & Hall). destruct Hstop as [?|[->|Hb]]; [done|lia|]. apply Hb, Hall. lia.
    + apply IH; [lia|lia|]. intros k Hk Hrun. destruct (decide (k < i)); [by eapply Hno|]. destruct Hrun as (_ & _ & Hall). specialize (Hall i ltac:(lia)).
      rewrite (bit_at_in bitmap after) in Hall by (done || lia). congruence.
Qed.

(** Private pages are found first fit.  The search of [syscall_primalloc] ends, whatever
    lies behind the bitmap; it finds the lowest run of free pages of the length asked
    for, and finds none only when there is none. *)
Theorem primalloc_first_fit bitmap after npages :
  zlen bitmap = PRIVATE_PAGES -> 1 <= npages ->
  exists r, find_pages (Z.to_nat PRIVATE_PAGES) bitmap after npages 0 = Some r /\
    match r with Some p => free_run_at bitmap npages p /\ forall k, k < p -> ~ free_run_at bitmap npages k | None => forall k, ~ free_run_at bitmap npages k end.
Proof. intros Hz Hn. apply find_pages_spec; auto; [lia|unfold PRIVATE_PAGES; lia|]. intros k Hk (? & _). lia. Qed.

(** * Growing a region *)

Lemma spaced_after L1 q r L2 lo y : spaced lo (L1 ++ (q, r) :: L2) -> y ∈ L2 -> mreg_endaddr r < mreg_startaddr y.2 /\ mreg_startaddr y.2 <= mreg_endaddr y.2.
Proof.
  assert (Hgen : forall L lo, spaced lo L -> y ∈ L -> lo < mreg_startaddr y.2 /\ mreg_startaddr y.2 <= mreg_endaddr y.2).
  { clear. induction L as [|[n u] L IH]; intros lo; cbn [spaced]; [by intros _ ?%elem_of_nil|]. intros (? & ? & Hsp) [->|Hy]%elem_of_cons; [done|]. destruct (IH _ Hsp Hy). lia. }
  revert lo. induction L1 as [|[n u] L1 IH]; intros lo; cbn [app spaced]; intros (? & ? & Hsp) Hy; [by apply Hgen in Hsp|by eapply IH].
Qed.

(** The check against the next region. *)
Lemma next_apart s v pd L1 q r L2 nx e :
  space_ok s v pd (L1 ++ (q, r) :: L2) -> regions s !! q = Some (with_next nx r) -> (forall y, y ∈ L2 -> e < mreg_startaddr y.2) ->
  (if negb (nx =? 0) then u ← regions s !! nx; Some (mreg_startaddr u <=? e) else Some false) = Some false.
Proof.
  intros (_ & (x & _ & (-> & _ & nx' & Eq & Hc))%rseg_app & _) E He. rewrite Eq in E. injection E as ->. destruct L2 as [|[n u] L2]; [cbn in Hc; by subst nx|].
  destruct Hc as (-> & Hn & nx' & E' & _). rewrite (proj2 (Z.eqb_neq n 0)), E' by done. cbn [negb mbind option_bind with_next mreg_startaddr].
  specialize (He (n, u) ltac:(by left)). cbn [snd] in He. f_equal. apply Z.leb_gt. lia.
Qed.

(** What the processor finds when whole pages have been entered behind a region. *)
Lemma grown_walk s U R v pd L q g r T F s1 size F' :
  region_added s U R v pd L q g r T F s1 -> region_fits r -> mreg_endaddr r mod 4096 = 0 -> 0 < size -> (mreg_endaddr r + size) / 4194304 = mreg_endaddr r / 4194304 ->
  zlen F' = size / 4096 -> (forall f, f ∈ F' -> f mod 4096 = 0 /\ 0 < f < 2 ^ 32) ->
  let m := map_frames F' pd (mreg_endaddr r) (rw_of r) (phys s1) in
  (forall i f o, F' !! i = Some f -> 0 <= o < 4096 -> walk m pd (mreg_endaddr r + 4096 * Z.of_nat i + o) = Some (f + o)) /\
  (forall a, mreg_startaddr r <= a < mreg_endaddr r -> walk m pd a = walk (phys s1) pd a) /\
  (size mod 4096 <> 0 -> walk m pd (mreg_endaddr r + size - 1) = None).
Proof.
  intros [_ _ HT HF (s0 & M & Hrl)] (Ha & Hs & He) Hal Hsz Hslot HF' Hfr m. pose proof (segment_mapped _ _ _ _ _ _ _ _ _ _ _ _ _ _ M) as Hm. rewrite <- (rl_phys _ _ Hrl) in Hm.
  assert (HzT : zlen T.*2 = zlen T) by (unfold zlen; by rewrite length_fmap). set (c := mreg_startaddr r / 4096) in *.
  assert (Hc : 4096 * (c + zlen F) = mreg_endaddr r /\ 0 <= c) by (unfold region_pages in HF; unfold c in *; Z.div_mod_to_equations; lia). destruct Hc as [Hc Hc0].
  assert (Hb : first_slot r <= (c + zlen F) / 1024 /\ (c + zlen F) / 1024 = last_slot r /\ c + zlen F + zlen F' <= 1024 * (last_slot r + 1) /\ last_slot r < 1023).
  { assert (0 <= zlen F) by (unfold zlen; lia). unfold first_slot, last_slot, c in *. change (2 ^ 22) with 4194304. Z.div_mod_to_equations; lia. }
  destruct Hb as (Hb1 & Hb2 & Hb3 & Hb4). change (2 ^ 22) with 4194304 in *.
  destruct (grow_mapped (phys s1) pd (first_slot r) (rw_of r) c T.*2 F F') as [Hg _]; auto; [apply rw_of_range|rewrite HzT, HT; lia|change (2 ^ 20) with 1048576; lia|]. rewrite Hc in Hg. fold m in Hg.
  assert (Hw : forall a, mreg_startaddr r <= a < mreg_endaddr r + size -> walk m pd a = (f ← frame_at (F ++ F') c (a / 4096); Some (f + a mod 4096))).
  { intros a Har. apply (mapped_walk _ _ _ _ _ _ _ a Hg); [Z.div_mod_to_equations; lia|]. rewrite HzT, HT. unfold first_slot, last_slot. change (2 ^ 22) with 4194304. Z.div_mod_to_equations; lia. }
  split; [|split].
  - intros i f o Hi Ho. pose proof (lookup_lt_Some _ _ _ Hi) as Hlt. unfold zlen in HF'. rewrite Hw by (Z.div_mod_to_equations; lia).
    assert (Ea : (mreg_endaddr r + 4096 * Z.of_nat i + o) / 4096 = c + zlen F + Z.of_nat i /\ (mreg_endaddr r + 4096 * Z.of_nat i + o) mod 4096 = o) by (Z.div_mod_to_equations; lia). destruct Ea as [-> ->].
    rewrite frame_at_app. unfold frame_at at 1. rewrite (proj2 (Z.leb_le _ _)) by lia. replace (Z.to_nat _) with i by lia. by rewrite Hi.
  - intros a Har. rewrite Hw by lia. rewrite (mapped_walk _ _ _ _ _ _ _ a Hm);
      [|Z.div_mod_to_equations; lia|rewrite HzT, HT; unfold first_slot, last_slot; change (2 ^ 22) with 4194304; Z.div_mod_to_equations; lia].
    rewrite frame_at_app. unfold frame_at at 1. rewrite (proj2 (Z.leb_gt _ _)) by (Z.div_mod_to_equations; lia). done.
  - intros Hp. rewrite Hw by lia. unfold frame_at. destruct (_ <=? _); [|done]. rewrite lookup_ge_None_2; [done|]. rewrite length_app. unfold zlen in *. Z.div_mod_to_equations; lia.
Qed.

(** A grown region is mapped, but for its last part of a page.  For a region just added that
    ends at a page boundary and grows inside its last 4 MB slot without meeting the next
    region, [vm_expandregion] runs out of memory and changes no mapping, or it returns 0:
    the whole pages that were added are in fresh frames, in order, and the old pages
    translate as before.  When the new end is not a page boundary its last page is left
    without a frame. *)
Theorem expand_maps s U R v pd L type lstart lend size s1 :
  addable s U R v pd L (new_region type lstart lend) -> vm_addregion v type lstart lend 1 1 s = Some (0, s1) ->
  lend mod 4096 = 0 -> 0 < size -> (lend + size) / 2 ^ 22 = lend / 2 ^ 22 -> (forall y, y ∈ L -> lend + size < mreg_startaddr y.2 \/ mreg_endaddr y.2 < lstart) ->
  exists ret s2, vm_expandregion v lstart size 1 1 s1 = Some (ret, s2) /\
    ((ret = ENOMEM /\ phys s2 = phys s1) \/
     (ret = 0 /\ exists F, zlen F = size / 4096 /\ NoDup F /\ (forall f, f ∈ F -> f ∉ R) /\
       (forall i f o, F !! i = Some f -> 0 <= o < 4096 -> walk (phys s2) pd (lend + 4096 * Z.of_nat i + o) = Some (f + o)) /\
       (forall a, lstart <= a < lend -> walk (phys s2) pd a = walk (phys s1) pd a) /\
       (size mod 4096 <> 0 -> walk (phys s2) pd (lend + size - 1) = None))).
Proof.
  intros Had E Hal Hsz Hslot Hapart. destruct (addregion_cases _ _ _ _ _ _ _ _ _ Had) as [[E' _]|[(s' & E' & _)|(q & g & T & F & s' & E' & Hadd)]]; rewrite E in E'; [done|done|]. injection E' as <-.
  set (r := new_region type lstart lend) in *. pose proof (ad_fits _ _ _ _ _ _ _ Had) as Hr. pose proof Hr as (Ha & Hs & He). cbn [r new_region mreg_startaddr mreg_endaddr] in Ha, Hs, He.
  pose proof Hadd as [Hq Hsp HT HF (s0 & M & Hrl)]. destruct (insert_split (q, with_segment g r) L) as (L1 & L2 & EL & Ei & HL1 & HL2). rewrite Ei in Hsp.
  destruct (region_at_spec _ _ _ _ _ _ _ Hsp) as (nx & Er & Eq). pose proof Hsp as (Ev & _). change (2 ^ 22) with 4194304 in Hslot.
  assert (Hne : lend + size < 0xffc00000) by (Z.div_mod_to_equations; lia). unfold vm_expandregion. rewrite Ev. cbn [mbind option_bind].
  change (mreg_startaddr (with_segment g r)) with lstart in Er. rewrite Er. cbn [mbind option_bind]. change (mreg_endaddr (with_next nx (with_segment g r))) with lend. change (mreg_next (with_next nx (with_segment g r))) with nx.
  rewrite !(u32_id (lend + size)) by lia. rewrite (next_apart s1 v pd L1 q _ L2 nx (lend + size) Hsp Eq).
  2: { intros y Hy. assert (HyL : y ∈ L) by (rewrite EL; apply elem_of_app; by right). destruct (Hapart y HyL) as [?|Hlo]; [done|].
    destruct Hsp as (_ & _ & _ & Hspc). destruct (spaced_after _ _ _ _ _ y Hspc Hy) as [? ?]. cbn [r with_segment new_region mreg_endaddr] in *. lia. }
  cbn [mbind option_bind Z.eqb negb orb]. rewrite !land_slot, !land_page by lia. change (2 ^ 22) with 4194304. rewrite Hslot, Z.eqb_refl. cbn [negb].
  set (k := (lend + size) / 4096 - lend / 4096). assert (Hk : k = size / 4096) by (unfold k; Z.div_mod_to_equations; lia).
  assert (Hkn : Z.land (Z.shiftr (u32 (4096 * ((lend + size) / 4096) - 4096 * (lend / 4096))) 12) 0x000fffff = k).
  { replace (4096 * ((lend + size) / 4096) - 4096 * (lend / 4096)) with (4096 * k) by (unfold k; lia). rewrite u32_id by (Z.div_mod_to_equations; lia).
    change (Z.land (Z.shiftr (4096 * k) 12) 0x000fffff) with (page_no (4096 * k)). rewrite page_no_eq by (Z.div_mod_to_equations; lia). rewrite Z.mul_comm. by apply Z.div_mul. }
  rewrite Hkn. assert (Hg : segments s1 !! g = Some (mk_mseg 0 0 1 (region_pages r) (first_node T))) by (rewrite (rl_segments _ _ Hrl), (sm_seg _ _ _ _ _ _ _ _ _ _ _ _ _ _ M); apply lookup_insert_eq).
  pose proof (sm_nz _ _ _ _ _ _ _ _ _ _ _ _ _ _ M) as Hg0.
  unfold grow_segment, vm_getmemsegment, lock_region, unlock_region, upd_region, upd_segment, vm_releasesegment.
  repeat (cbn [mbind option_bind regions segments phys heap put_region put_segment set_regions set_segments set_heap set_phys with_lock with_end with_next with_segment with_count mreg_reglock mreg_segment mseg_sharecount r new_region negb vm_pgdir Z.eqb];
    rewrite ?lookup_insert_eq, ?(proj2 (Z.eqb_neq g 0) ltac:(lia)), ?Hg).
  change (0 <? 0) with false. change (u16 (u16 (1 + 1) - 1)) with 1. change (1 <=? 0) with false. cbn [mbind option_bind]. cbv iota.
  destruct (Z.leb_spec k 0) as [Hk0|Hk0].
  - cbn [regions put_segment set_segments put_region set_regions]. rewrite lookup_insert_eq. cbn [mbind option_bind]. eexists 0, _. split; [reflexivity|]. right. split; [reflexivity|]. exists [].
    cbn [phys put_region set_regions put_segment set_segments]. assert (Hk00 : zlen (@nil Z) = size / 4096) by (change (zlen (@nil Z)) with 0; Z.div_mod_to_equations; lia).
    split; [exact Hk00|]. split; [constructor|]. split; [by intros f ?%elem_of_nil|].
    apply (grown_walk _ _ _ _ _ _ _ _ _ _ _ _ size [] Hadd Hr Hal Hsz Hslot Hk00). by intros f ?%elem_of_nil.
  - assert (Hh1 : heap_inv (heap s1) (ins_all T.*1 (<[g := SIZEOF_SEGMENT]> (<[q := SIZEOF_REGION]> U))) (R ∪ list_to_set T.*2 ∪ list_to_set F)) by (rewrite (rl_heap _ _ Hrl); apply (sm_heap _ _ _ _ _ _ _ _ _ _ _ _ _ _ M)).
    destruct (core_alloc_n_law (heap s1) _ _ k 32 Hh1) as (n & chs & h & -> & Hh2 & Hres); [Z.div_mod_to_equations; lia|]. cbn [mbind option_bind].
    destruct Hres as [[-> ->]|(-> & Htot & Hnb & Hnd & Hnew)].
    + change (ENOMEM <? 0) with true. cbn [regions put_segment set_segments put_region set_regions set_heap]. rewrite lookup_insert_eq. cbn [mbind option_bind]. eexists ENOMEM, _. split; [reflexivity|]. left. done.
    + rewrite (proj2 (Z.ltb_ge _ 0)) by (unfold zlen; lia). cbn [regions put_segment set_segments put_region set_regions set_heap set_phys]. rewrite lookup_insert_eq. cbn [mbind option_bind].
      eexists 0, _. split; [reflexivity|]. right. split; [reflexivity|]. cbn [phys put_region set_regions put_segment set_segments set_phys set_heap].
      change (rw_of _) with (rw_of r). assert (Hel : forall f, f ∈ frames (rev chs) <-> f ∈ frames chs) by (intros f; by rewrite (frames_perm chs)).
      assert (Hlen : zlen (frames (rev chs)) = size / 4096).
      { unfold zlen. rewrite (Permutation_length (frames_perm chs)). fold (zlen (frames chs)). rewrite zlen_frames; [lia|]. apply Forall_forall. intros ch Hin. specialize (Hnb ch Hin). lia. }
      exists (frames (rev chs)). split; [exact Hlen|]. split; [by rewrite (frames_perm chs)|]. split; [intros f Hf%Hel%Hnew; by rewrite !not_elem_of_union in Hf; apply Hf|].
      assert (Erun : map_runs (rev chs) pd lend (rw_of r) (phys s1) = map_frames (frames (rev chs)) pd lend (rw_of r) (phys s1)).
      { apply map_runs_frames; [lia|rewrite Hlen; Z.div_mod_to_equations; lia|]. eapply runs_range; [exact Hh2|intros ch Hin; apply Hnb; apply list_elem_of_In, in_rev, list_elem_of_In; done|].
        intros f Hf%Hel. apply elem_of_union. right. by apply elem_of_list_to_set. }
      rewrite Erun. apply (grown_walk _ _ _ _ _ _ _ _ _ _ _ _ size _ Hadd Hr Hal Hsz Hslot Hlen).
      intros f Hf%Hel. destruct (frame_range h _ _ f Hh2) as (? & ? & Hmx); [apply elem_of_union; right; by apply elem_of_list_to_set|]. unfold Pages.HOLE_MAX in Hmx. split; [done|lia].
Qed.

(** * Destroying a space *)

(** A region with the segment that it alone uses and the segment's tables. *)
Record held_region := mk_held { hr_ptr : Z; hr_region : memregion; hr_segment : memsegment; hr_tables : list (Z * Z) }.
Definition hr_list (X : list held_region) : list (Z * memregion) := (fun x => (hr_ptr x, hr_region x)) <$> X.
Definition hr_records (x : held_region) : list Z := (hr_tables x).*1 ++ [mreg_segment (hr_region x); hr_ptr x].
Definition all_records (X : list held_region) : list Z := concat (hr_records <$> X).
Definition all_pages (m : mem) (X : list held_region) : list Z := concat ((fun x => seg_pages m (hr_tables x)) <$> X).

(** Every region of [X] is unlocked and holds its segment; no record and no page
    is used twice. *)
Record regions_held (s : vmst K) (U : gmap Z Z) (R : gset Z) (X : list held_region) : Prop := {
  rh_each x : x ∈ X -> mreg_reglock (hr_region x) = false /\ mreg_segment (hr_region x) <> 0 /\
    segment_held s U R (mreg_segment (hr_region x)) (hr_segment x) (hr_tables x) /\ is_Some (U !! hr_ptr x);
  rh_records : NoDup (all_records X);
  rh_pages : NoDup (all_pages (phys s) X) }.

Lemma del_all_app {A} ns1 ns2 (m : gmap Z A) : del_all (ns1 ++ ns2) m = del_all ns2 (del_all ns1 m).
Proof. revert m. induction ns1 as [|n ns1 IH]; intros m; cbn [app del_all]; [done|apply IH]. Qed.
Lemma record_in x X n : x ∈ X -> n ∈ hr_records x -> n ∈ all_records X.
Proof. intros Hx Hn. unfold all_records. apply list_elem_of_In, in_concat. exists (hr_records x). split; apply list_elem_of_In; [by apply list_elem_of_fmap_2|done]. Qed.
Lemma page_in_all m x X p : x ∈ X -> p ∈ seg_pages m (hr_tables x) -> p ∈ all_pages m X.
Proof. intros Hx Hn. unfold all_pages. apply list_elem_of_In, in_concat. exists (seg_pages m (hr_tables x)). split; apply list_elem_of_In; [apply (list_elem_of_fmap_2 (fun x => seg_pages m (hr_tables x))); done|done]. Qed.
Lemma hr_records_elem x n : n ∈ hr_records x <-> n ∈ (hr_tables x).*1 \/ n = mreg_segment (hr_region x) \/ n = hr_ptr x.
Proof. unfold hr_records. rewrite elem_of_app, !elem_of_cons. split; [intros [?|[?|[?|?%elem_of_nil]]]|]; tauto. Qed.

(** Dropping the first region keeps the others. *)
Lemma regions_held_drop s U R x X h :
  regions_held s U R (x :: X) ->
  regions_held (mk_st h (phys s) (vms s) (delete (hr_ptr x) (regions s)) (delete (mreg_segment (hr_region x)) (segments s)) (del_all (hr_tables x).*1 (ptls s)))
    (del_all (hr_records x) U) (R ∖ list_to_set (seg_pages (phys s) (hr_tables x))) X.
Proof.
  intros [He Hr Hp]. unfold all_records, all_pages in Hr, Hp. cbn [fmap list_fmap concat] in Hr, Hp. fold (all_records X) in Hr. fold (all_pages (phys s) X) in Hp.
  apply NoDup_app in Hr as (_ & Hr2 & Hr3), Hp as (_ & Hp2 & Hp3). split; [|exact Hr3|exact Hp3].
  intros y Hy. destruct (He y) as (H1 & H2 & [S1 S2 S3 S4 S5 S6 S7 S8] & H4); [by right|]. split; [exact H1|]. split; [exact H2|].
  assert (Hout : forall n, n ∈ hr_records y -> n ∉ hr_records x) by (intros n Hn Hn'; apply (Hr2 n Hn'); by eapply record_in).
  split; [split|]; try assumption; cbn [phys segments ptls].
  - rewrite lookup_delete_ne; [exact S1|]. intros E. apply (Hout (mreg_segment (hr_region y))); apply hr_records_elem; rewrite ?E; tauto.
  - apply (ptchain_frame (ptls s)); [exact S3|]. intros n Hn. apply del_all_lookup. intros Hn'. apply (Hout n); apply hr_records_elem; tauto.
  - intros n Hn. rewrite del_all_lookup; [by apply S5|]. apply Hout, hr_records_elem. tauto.
  - intros q Hq. rewrite elem_of_difference, elem_of_list_to_set. split; [by apply S8|]. intros Hq'. apply (Hp2 q Hq'). by eapply page_in_all.
  - rewrite del_all_lookup; [exact H4|]. apply Hout, hr_records_elem. tauto.
Qed.

Lemma destroy_regions_spec fuel p s U R X :
  rseg (regions s) p (hr_list X) 0 -> regions_held s U R X -> heap_inv (heap s) U R -> (length X <= fuel)%nat ->
  exists s', destroy_regions fuel p s = Some s' /\ heap_inv (heap s') (del_all (all_records X) U) (R ∖ list_to_set (all_pages (phys s) X)) /\
    phys s' = phys s /\ vms s' = vms s /\ regions s' = del_all (hr_ptr <$> X) (regions s).
Proof.
  revert fuel p s U R. induction X as [|x X IH]; intros fuel p s U R Hc Hh Hi Hf.
  { cbn in Hc. subst p. exists s. split; [by destruct fuel|]. split; [|done]. cbn. by rewrite difference_empty_L. }
  destruct fuel as [|fuel]; [cbn in Hf; lia|]. destruct Hc as (-> & Hn0 & nx & E & Hc). cbn [destroy_regions]. rewrite (proj2 (Z.eqb_neq _ 0)), E by done. cbn [mbind option_bind].
  pose proof (rh_each _ _ _ _ Hh x ltac:(by left)) as (H1 & H2 & H3 & H4). pose proof (rh_records _ _ _ _ Hh) as Hnd.
  unfold all_records in Hnd. cbn [fmap list_fmap concat] in Hnd. apply NoDup_app in Hnd as (Hx & Hxo & _). unfold hr_records in Hx at 1. apply NoDup_app in Hx as (_ & HxT & Hxq).
  assert (Hqg : hr_ptr x <> mreg_segment (hr_region x)) by (apply NoDup_cons in Hxq as [Hn _]; intros E'; apply Hn; rewrite E'; by left).
  destruct (drop_region_spec s U R (hr_ptr x) (with_next nx (hr_region x)) (mreg_segment (hr_region x)) (hr_segment x) (hr_tables x)) as (h & -> & Hi1); auto.
  { intros Hin. apply (HxT _ Hin). right. by left. }
  cbn [mbind option_bind with_next mreg_next]. pose proof (regions_held_drop s U R x X h Hh) as Hh1.
  change (delete (hr_ptr x) (delete (mreg_segment (hr_region x)) (del_all (hr_tables x).*1 U))) with (del_all [mreg_segment (hr_region x); hr_ptr x] (del_all (hr_tables x).*1 U)) in Hi1.
  rewrite <- del_all_app in Hi1. fold (hr_records x) in Hi1.
  assert (Hc1 : rseg (delete (hr_ptr x) (regions s)) nx (hr_list X) 0).
  { eapply rseg_frame; [exact Hc|]. intros k Hk. apply lookup_delete_ne. intros <-. apply (Hxo (hr_ptr x)); [apply hr_records_elem; tauto|].
    apply list_elem_of_fmap in Hk as ([k' u] & Ek & (y & [= -> ->] & Hy)%list_elem_of_fmap). cbn in Ek. rewrite Ek. eapply record_in; [exact Hy|]. apply hr_records_elem. tauto. }
  match type of Hh1 with regions_held ?s1 ?U1 ?R1 _ => destruct (IH fuel nx s1 U1 R1 Hc1 Hh1 Hi1) as (s' & Es & Hi' & Ep & Ev & Er); [cbn in Hf; lia|] end.
  exists s'. split; [exact Es|]. cbn [phys vms regions] in Ep, Ev, Er, Hi'. split; [|done]. unfold all_records, all_pages. cbn [fmap list_fmap concat]. rewrite del_all_app.
  apply (heap_inv_ext _ _ _ _ Hi'). intros q. rewrite list_to_set_app, !elem_of_difference, elem_of_union. tauto.
Qed.

(** C13: Destroying a space gives everything back.  When each region of a space holds a
    segment of its own, [vm_destroy] returns; the frames taken are then those of before
    less the directory, the tables and the pages, and the blocks in use are those of
    before less the records of the regions, segments, table lists and of the space. *)
Theorem destroy_gives_back s U R v pd X :
  space_ok s v pd (hr_list X) -> regions_held s U R X -> heap_inv (heap s) U R -> pd ∈ R -> is_Some (U !! v) -> v ∉ all_records X -> pd ∉ all_pages (phys s) X ->
  exists s', vm_destroy v s = Some s' /\ heap_inv (heap s') (delete v (del_all (all_records X) U)) (R ∖ list_to_set (pd :: all_pages (phys s) X)) /\
    vms s' = delete v (vms s) /\ regions s' = del_all (hr_ptr <$> X) (regions s).
Proof.
  intros (Ev & Hc & Hnd & _) Hh Hi Hpd Hv Hvr Hpp. unfold vm_destroy. rewrite Ev. cbn [mbind option_bind vm_pgdir vm_mregion]. set (s1 := put_vm v (mk_vm pd 0) s).
  pose proof (rseg_size _ _ _ _ Hc Hnd) as Hsz. unfold hr_list in Hsz. rewrite length_fmap in Hsz.
  destruct (destroy_regions_spec (region_fuel s1) (head_ptr (hr_list X)) s1 U R X) as (s2 & -> & Hi2 & Ep & Evs & Er); [exact Hc|destruct Hh as [He ? ?]; split; [|done..]|exact Hi|unfold region_fuel; cbn [s1 regions put_vm set_vms]; lia|].
  { intros x Hx. destruct (He x Hx) as (? & ? & [] & ?). split_and!; auto. by split. }
  cbn [mbind option_bind]. destruct (core_free_law (heap s2) _ _ (mk_ch pd 1) Hi2) as (h3 & -> & Hi3); [done| |].
  { rewrite run_frames_one. intros p ->%list_elem_of_singleton. rewrite elem_of_difference, elem_of_list_to_set. done. }
  cbn [mbind option_bind]. unfold free_vm. cbn [heap set_heap].
  destruct (kfree_law h3 _ _ v Hi3) as (h4 & -> & Hi4); [rewrite del_all_lookup by done; exact Hv|]. cbn [mbind option_bind]. eexists. split; [reflexivity|].
  cbn [heap vms regions set_vms set_heap]. rewrite Evs, Er. cbn [s1 vms regions put_vm set_vms]. rewrite delete_insert_eq. split; [|done].
  apply (heap_inv_ext _ _ _ _ Hi4). intros q. rewrite run_frames_one, !elem_of_difference, !elem_of_list_to_set, !elem_of_cons. cbn [s1 phys put_vm set_vms].
  rewrite elem_of_nil. tauto.
Qed.

(** * A new space *)

Lemma copy_phys_spec n src dst m x :
  src + Z.of_nat n <= dst \/ dst + Z.of_nat n <= src ->
  ld8 (copy_phys n src dst m) x = if (dst <=? x) && (x <? dst + Z.of_nat n) then ld8 m (src + (x - dst)) else ld8 m x.
Proof.
  revert src dst m. induction n as [|n IH]; intros src dst m Hd; cbn [copy_phys].
  { destruct (Z.leb_spec dst x), (Z.ltb_spec x (dst + Z.of_nat 0)); try done; lia. }
  rewrite IH by lia. rewrite !ld8_st8. pose proof (ld8_range m src) as Hr.
  destruct (Z.leb_spec (dst + 1) x), (Z.ltb_spec x (dst + 1 + Z.of_nat n)), (Z.leb_spec dst x), (Z.ltb_spec x (dst + Z.of_nat (S n))); cbn [andb]; try lia.
  - destruct (Z.eqb_spec (src + 1 + (x - (dst + 1))) dst); [lia|]. f_equal. lia.
  - destruct (Z.eqb_spec x dst); [lia|done].
  - destruct (Z.eqb_spec x dst) as [->|]; [|lia]. rewrite Z.sub_diag, Z.add_0_r. apply u8_id. lia.
  - destruct (Z.eqb_spec x dst); [lia|done].
Qed.

Lemma created_bytes m kpd pd x : kpd + 4096 <= pd \/ pd + 4096 <= kpd ->
  ld8 (created m kpd pd) x = if (pd <=? x) && (x <? pd + 512) then ld8 m (kpd + (x - pd)) else if (pd <=? x) && (x <? pd + 4096) then 0 else ld8 m x.
Proof.
  intros Hd. unfold created. change (Z.to_nat (Z.land (Z.shiftr KERNEL_MEMMAP 22) 0x3ff * 4)) with (Z.to_nat 512). rewrite copy_phys_spec by lia. rewrite Z2Nat.id by lia.
  destruct (Z.leb_spec pd x), (Z.ltb_spec x (pd + 512)); cbn [andb]; try (rewrite bzero_out by lia; reflexivity).
  - destruct (Z.ltb_spec x (pd + 4096)); [apply bzero_in; lia|apply bzero_out; lia].
Qed.

Lemma created_entries (h : K) U R m kpd pd : heap_inv h U (R ∪ {[pd]}) -> dir_owned m kpd R -> pd ∉ R ->
  (forall j, 0 <= j < 128 -> get_pde (created m kpd pd) pd j = get_pde m kpd j) /\ (forall j, 128 <= j < 1024 -> get_pde (created m kpd pd) pd j = pde_of_word 0) /\
  (forall t i, t ∈ R \/ t = 0 -> 0 <= i < 1024 -> get_pte (created m kpd pd) t i = get_pte m t i).
Proof.
  intros Hh [Hk Hown] Hpd. destruct (frame_dir h U _ pd Hh) as (Hd & Ha & H0); [set_solver|]. destruct (frame_dir h U _ kpd Hh) as (Hdk & Hak & Hk0); [set_solver|].
  assert (Hne : kpd <> pd) by congruence. assert (Hap : kpd + 4096 <= pd \/ pd + 4096 <= kpd) by (Z.div_mod_to_equations; lia).
  split; [|split].
  - intros j Hj. apply get_pde_moved; [done|done|lia|]. intros x Hx. rewrite created_bytes by done. destruct (Z.leb_spec pd (pd + x)), (Z.ltb_spec (pd + x) (pd + 512)); cbn [andb]; try lia. f_equal. lia.
  - intros j Hj. apply get_pde_zero; [done|lia|]. intros x Hx. rewrite created_bytes by done.
    destruct (Z.leb_spec pd x), (Z.ltb_spec x (pd + 512)), (Z.ltb_spec x (pd + 4096)); cbn [andb]; try lia; done.
  - intros t i Ht Hi. assert (Hdt : dir_ok t /\ (t + 4096 <= pd \/ pd + 4096 <= t)).
    { destruct Ht as [Ht| ->]; [|unfold dir_ok; split; [lia|]; Z.div_mod_to_equations; lia]. destruct (frame_dir h U _ t Hh) as (Hdt & Hat & Ht0); [set_solver|].
      split; [done|]. assert (t <> pd) by congruence. Z.div_mod_to_equations; lia. }
    destruct Hdt as [Hdt Hat]. apply get_pte_same; [done|done|]. intros x Hx. unfold in_table in Hx. rewrite created_bytes by done.
    destruct (Z.leb_spec pd x), (Z.ltb_spec x (pd + 512)), (Z.ltb_spec x (pd + 4096)); cbn [andb]; try lia; done.
Qed.

(** A new space has the kernel in it and nothing else.  When the kernel's directory and
    tables are in use, [vm_createvm] returns 0 with nothing taken, or a space without
    regions whose directory is a frame of its own: addresses below [KERNEL_MEMMAP]
    translate as in the kernel's directory, through the same tables, and every address
    above faults. *)
Theorem createvm_shares_kernel s U R kpd :
  heap_inv (heap s) U R -> dir_owned (phys s) kpd R ->
  exists v s', vm_createvm kpd s = Some (v, s') /\
    ((v = 0 /\ untouched s U R s') \/
     (v <> 0 /\ U !! v = None /\ exists pd, pd ∉ R /\ heap_inv (heap s') (<[v := SIZEOF_VM]> U) (R ∪ {[pd]}) /\ space_ok s' v pd [] /\ dir_owned (phys s') pd (R ∪ {[pd]}) /\
      (forall a, 0 <= a < KERNEL_MEMMAP -> walk (phys s') pd a = walk (phys s) kpd a) /\ (forall a, KERNEL_MEMMAP <= a < 2 ^ 32 -> walk (phys s') pd a = None))).
Proof.
  intros Hh Hk. unfold vm_createvm. destruct (kmalloc_law (heap s) U R SIZEOF_VM Hh) as (v & h1 & -> & Hv); [unfold SIZEOF_VM, Kmalloc.MALLOC_MAX; lia|]. cbn [mbind option_bind].
  destruct Hv as [[-> Hh1]|(Hv0 & Hvn & Hh1)]; [rewrite Z.eqb_refl; exists 0, (set_heap h1 s); split; [done|]; left; split; [done|by split]|].
  rewrite (proj2 (Z.eqb_neq v 0)) by lia. destruct (core_alloc_law h1 _ _ 1 Hh1) as (ch & h2 & -> & Hn & Hnew & Hh2); [lia|]. cbn [mbind option_bind].
  destruct (Z.eqb_spec (no_blocks ch) 1) as [En|En]; cbn [negb].
  - destruct ch as [pd nb]. cbn [no_blocks phys_addr] in *. subst nb. rewrite run_frames_one in Hnew, Hh2. assert (HpR : pd ∉ R) by (apply Hnew; by left).
    assert (Hh3 : heap_inv h2 (<[v := SIZEOF_VM]> U) (R ∪ {[pd]})) by (apply (heap_inv_ext _ _ _ _ Hh2); intros p; rewrite !elem_of_union, elem_of_list_to_set, list_elem_of_singleton, elem_of_singleton; done).
    eexists v, _. split; [reflexivity|]. right. split; [lia|]. split; [done|]. exists pd. cbn [heap phys put_vm set_vms set_phys set_heap].
    destruct (created_entries h2 _ R (phys s) kpd pd Hh3 Hk HpR) as (E1 & E2 & E3). destruct Hk as [Hk Hown].
    assert (Eb : forall j, 0 <= j < 1024 -> base_of (created (phys s) kpd pd) pd j = if j <? 128 then base_of (phys s) kpd j else 0).
    { intros j Hj. unfold base_of. destruct (Z.ltb_spec j 128); [by rewrite E1 by lia|]. by rewrite E2 by lia. }
    split; [done|]. split; [done|]. split; [split; [apply lookup_insert_eq|split; [done|split; [constructor|done]]]|]. split; [|split].
    + split; [set_solver|]. intros j Hj. rewrite Eb by done. destruct (Z.ltb_spec j 128); [|by left]. destruct (Hown j Hj) as [?|[Hin _]]; [by left|right]. split; [set_solver|congruence].
    + intros a Ha. unfold KERNEL_MEMMAP in Ha. assert (Hp : 0 <= pdi a < 128) by (destruct (addr_index a) as [-> _]; [lia|]; Z.div_mod_to_equations; lia).
      rewrite !walk_eq, !entry_of_eq, E1, Eb by lia. destruct (Z.ltb_spec (pdi a) 128); [|lia]. rewrite E3; [done| |apply pti_range]. destruct (Hown (pdi a)) as [?|[? _]]; [lia|by right|by left].
    + intros a Ha. unfold KERNEL_MEMMAP in Ha. assert (Hp : 128 <= pdi a < 1024) by (destruct (addr_index a) as [-> _]; [lia|]; Z.div_mod_to_equations; lia). by rewrite walk_eq, E2 by lia.
  - destruct (kfree_law h2 (<[v := SIZEOF_VM]> U) _ v Hh2) as (h3 & -> & Hh3); [rewrite lookup_insert_eq; eauto|]. cbn [mbind option_bind]. exists 0, (set_heap h3 s). split; [done|]. left. split; [done|].
    rewrite delete_insert_id in Hh3 by done. split; try done. apply (heap_inv_ext _ _ _ _ Hh3). intros p. rewrite elem_of_union, elem_of_list_to_set, run_frames_elem.
    split; [intros [?|(i & Hi & _)]; [done|lia]|by left].
Qed.

(** * A first space *)

(** A directory and the record of a space without regions. *)
Definition boot (h : K) : option (Z * Z * Z * K) :=
  '(ch, h) ← core_alloc 1 h;
  '(v, h) ← kmalloc SIZEOF_VM h;
  Some (no_blocks ch, phys_addr ch, v, h).
Definition empty_space (v pd : Z) (h : K) : vmst K := mk_st h ∅ {[v := mk_vm pd 0]} ∅ ∅ ∅.

Lemma boot_spec h0 : heap_inv h0 ∅ ∅ ->
  exists n pd v h, boot h0 = Some (n, pd, v, h) /\ (n = 1 -> v <> 0 -> heap_inv h {[v := SIZEOF_VM]} {[pd]}).
Proof.
  intros H0. destruct (core_alloc_law h0 ∅ ∅ 1 H0) as (ch & h & E & Hn & _ & Hh); [lia|].
  destruct (kmalloc_law h _ _ SIZEOF_VM Hh) as (v & h' & E' & Hv); [unfold SIZEOF_VM, Kmalloc.MALLOC_MAX; lia|].
  exists (no_blocks ch), (phys_addr ch), v, h'. split; [unfold boot; rewrite E; cbn [mbind option_bind]; by rewrite E'|]. intros Hr Hz.
  destruct Hv as [[? _]|(_ & _ & Hi)]; [contradiction|].
  assert (Er : run_frames ch = [phys_addr ch]) by (destruct ch as [a b]; cbn in Hr; subst b; apply run_frames_one). rewrite Er in Hi.
  apply (heap_inv_ext _ _ _ _ Hi). intros p. rewrite elem_of_union, elem_of_list_to_set, elem_of_singleton.
  split; [intros [?%elem_of_empty|?%list_elem_of_singleton]|intros ->; right]; [done|done|by left].
Qed.

Lemma empty_base pd j : base_of ∅ pd j = 0.
Proof. reflexivity. Qed.

Lemma empty_addable pd v h type lstart lend :
  heap_inv h {[v := SIZEOF_VM]} {[pd]} -> region_fits (new_region type lstart lend) -> addable (empty_space v pd h) {[v := SIZEOF_VM]} {[pd]} v pd [] (new_region type lstart lend).
Proof.
  intros Hh Hr. split; [exact Hh| | | |exact Hr|by intros y ?%elem_of_nil|intros j _; apply empty_base].
  - split; intros p x Hp; cbn [empty_space vms regions segments ptls] in Hp; [|by rewrite lookup_empty in Hp..]. apply lookup_singleton_Some in Hp as [<- _]. apply lookup_singleton_eq.
  - split; [apply lookup_singleton_eq|]. split; [done|]. split; [constructor|exact I].
  - split; [by apply elem_of_singleton|]. intros j _. left. apply empty_base.
Qed.

End Regions.

(** * A space on a machine with sixteen pages *)

#[local] Instance ex_kernel : KernelHeap (Kmalloc.heap CoreAlloc.core) := real_heap Kmalloc.ex_segs Kmalloc.ex_low_ram.

Lemma ex_heap_inv : heap_inv Kmalloc.ex_heap ∅ ∅.
Proof.
  exists [], [], []. split; [exact Kmalloc.ex_heap_ok|]. split; [|by intros p ?%elem_of_empty].
  intros a n. rewrite lookup_empty. split; [done|by intros (k & ?%elem_of_nil)].
Qed.

(** The space and what adding and deleting a region of two pages return. *)
Definition ex_returns : option (Z * Z * Z * Z) :=
  '(n, pd, v, h) ← boot Kmalloc.ex_heap;
  '(r1, s) ← vm_addregion v SEGMENTTYPE_DATA 0x400000 0x402000 1 1 (empty_space v pd h);
  '(r2, s) ← vm_delregion v 0x400000 s;
  Some (n, if v =? 0 then 0 else 1, r1, r2).

Lemma ex_region_fits : region_fits (new_region SEGMENTTYPE_DATA 0x400000 0x402000).
Proof. unfold region_fits. cbn [new_region mreg_startaddr mreg_endaddr]. split; [reflexivity|lia]. Qed.

Lemma ex_ready : exists (pd v : Z) (h : Kmalloc.heap CoreAlloc.core) s1 s2, heap_inv h {[v := SIZEOF_VM]} {[pd]} /\
  vm_addregion v SEGMENTTYPE_DATA 0x400000 0x402000 1 1 (empty_space v pd h) = Some (0, s1) /\ vm_delregion v 0x400000 s1 = Some (0, s2).
Proof.
  assert (Hr : ex_returns = Some (1, 1, 0, 0)) by (vm_compute; reflexivity). unfold ex_returns in Hr.
  destruct (boot_spec Kmalloc.ex_heap ex_heap_inv) as (n & pd & v & h & E & Hh). rewrite E in Hr. cbn [mbind option_bind] in Hr.
  destruct (vm_addregion _ _ _ _ _ _ _) as [[r1 s1]|] eqn:E1; [|discriminate Hr]. cbn [mbind option_bind] in Hr.
  destruct (vm_delregion _ _ _) as [[r2 s2]|] eqn:E2; [|discriminate Hr]. cbn [mbind option_bind] in Hr. injection Hr as -> Hv -> ->.
  exists pd, v, h, s1, s2. split; [apply Hh; [reflexivity|]; destruct (Z.eqb_spec v 0); [discriminate Hv|done]|]. exact (conj E1 E2).
Qed.


Lemma region_round_trip_witness : exists (pd v : Z) (h : Kmalloc.heap CoreAlloc.core) s1 s2,
  vm_addregion v SEGMENTTYPE_DATA 0x400000 0x402000 1 1 (empty_space v pd h) = Some (0, s1) /\ vm_delregion v 0x400000 s1 = Some (0, s2) /\ heap_inv (heap s2) {[v := SIZEOF_VM]} {[pd]}.
Proof.
  destruct ex_ready as (pd & v & h & s1 & _ & Hh & E1 & _). exists pd, v, h, s1.
  destruct (region_round_trip _ _ _ _ _ _ _ _ _ s1 (empty_addable pd v h _ _ _ Hh ex_region_fits) E1) as (s2 & E2 & _ & Hh2 & _). exists s2. exact (conj E1 (conj E2 Hh2)).
Defined.

Lemma deleted_region_still_mapped_witness : exists (pd v : Z) (h : Kmalloc.heap CoreAlloc.core) s1 s2 f,
  vm_addregion v SEGMENTTYPE_DATA 0x400000 0x402000 1 1 (empty_space v pd h) = Some (0, s1) /\ vm_delregion v 0x400000 s1 = Some (0, s2) /\ walk (phys s2) pd 0x400000 = Some f.
Proof.
  destruct ex_ready as (pd & v & h & s1 & s2 & Hh & E1 & E2). exists pd, v, h, s1, s2.
  destruct (deleted_region_still_mapped _ _ _ _ _ _ _ _ _ s1 s2 (empty_addable pd v h _ _ _ Hh ex_region_fits) eq_refl E1 E2) as (_ & f & Hw & _). exists f. exact (conj E1 (conj E2 Hw)).
Defined.

Lemma shrink_keeps_pages_witness : exists (pd v : Z) (h : Kmalloc.heap CoreAlloc.core) s1 s2,
  vm_addregion v SEGMENTTYPE_DATA 0x400000 0x402000 1 1 (empty_space v pd h) = Some (0, s1) /\ vm_shrinkregion v 0x400000 0x1000 s1 = Some (0, s2) /\ heap s2 = heap s1.
Proof.
  destruct ex_ready as (pd & v & h & s1 & _ & Hh & E1 & _). exists pd, v, h, s1.
  destruct (shrink_keeps_pages _ _ _ _ _ _ _ _ _ 0x1000 s1 (empty_addable pd v h _ _ _ Hh ex_region_fits) E1) as (s2 & q & r & E & _ & _ & _ & Hs & _); [lia|vm_compute; discriminate|].
  exists s2. exact (conj E1 (conj E Hs)).
Defined.

Lemma expand_maps_witness : exists (pd v : Z) (h : Kmalloc.heap CoreAlloc.core) s1 ret s2,
  vm_addregion v SEGMENTTYPE_DATA 0x400000 0x402000 1 1 (empty_space v pd h) = Some (0, s1) /\ vm_expandregion v 0x400000 0x1800 1 1 s1 = Some (ret, s2) /\ (ret = ENOMEM \/ ret = 0).
Proof.
  destruct ex_ready as (pd & v & h & s1 & _ & Hh & E1 & _). exists pd, v, h, s1.
  destruct (expand_maps _ _ _ _ _ _ _ _ _ 0x1800 s1 (empty_addable pd v h _ _ _ Hh ex_region_fits) E1) as (ret & s2 & E & Hret); [reflexivity|lia|reflexivity|by intros y ?%elem_of_nil|].
  exists ret, s2. split; [exact E1|]. split; [exact E|]. destruct Hret as [[? _]|[? _]]; [by left|by right].
Defined.

Lemma destroy_gives_back_witness : exists (pd v : Z) (h : Kmalloc.heap CoreAlloc.core) s1 s2,
  vm_addregion v SEGMENTTYPE_DATA 0x400000 0x402000 1 1 (empty_space v pd h) = Some (0, s1) /\ vm_destroy v s1 = Some s2 /\ vms s2 = delete v (vms s1).
Proof.
  destruct ex_ready as (pd & v & h & s1 & _ & Hh & E1 & _). exists pd, v, h, s1. pose proof (empty_addable pd v h _ _ _ Hh ex_region_fits) as Had.
  destruct (addregion_cases _ _ _ _ _ _ _ _ _ Had) as [[E' _]|[(s' & E' & _)|(q & g & T & F & s' & E' & Hadd)]]; rewrite E1 in E'; [discriminate E'|discriminate E'|]. injection E' as <-.
  destruct (added_held _ _ _ _ _ _ _ _ _ _ _ _ Hadd ex_region_fits) as (Hheld & Hel & Hqg & HqT). pose proof Hadd as [Hq Hsp HT HF (s0 & M & Hrl)].
  set (x := mk_held q (with_segment g (new_region SEGMENTTYPE_DATA 0x400000 0x402000)) (mk_mseg 0 0 1 (region_pages (new_region SEGMENTTYPE_DATA 0x400000 0x402000)) (first_node T)) T).
  pose proof (sm_new _ _ _ _ _ _ _ _ _ _ _ _ _ _ M) as Hgn. destruct (sm_frames _ _ _ _ _ _ _ _ _ _ _ _ _ _ M) as (_ & HfF & HtR).
  assert (Hvq : v <> q) by (intros ->; by rewrite lookup_singleton_eq in Hq).
  assert (Hvg : v <> g) by (intros ->; rewrite lookup_insert_ne, lookup_singleton_eq in Hgn by congruence; discriminate Hgn).
  assert (HvT : v ∉ T.*1) by (intros Hin; destruct (sm_fresh _ _ _ _ _ _ _ _ _ _ _ _ _ _ M v Hin) as [_ E]; rewrite lookup_insert_ne, lookup_singleton_eq in E by congruence; discriminate E).
  destruct (destroy_gives_back s1 (ins_all T.*1 (<[g := SIZEOF_SEGMENT]> (<[q := SIZEOF_REGION]> {[v := SIZEOF_VM]}))) ({[pd]} ∪ list_to_set T.*2 ∪ list_to_set F) v pd [x] Hsp) as (s2 & E2 & _ & Ev & _); [split| | | | | |exists s2; exact (conj E1 (conj E2 Ev))].
  - intros y ->%list_elem_of_singleton. split; [reflexivity|]. split; [cbn; pose proof (sm_nz _ _ _ _ _ _ _ _ _ _ _ _ _ _ M); lia|]. split; [exact Hheld|].
    cbn [x hr_ptr]. rewrite ins_all_lookup, bool_decide_false, lookup_insert_ne, lookup_insert_eq by congruence. eauto.
  - unfold all_records. cbn [fmap list_fmap concat]. rewrite app_nil_r. unfold hr_records. cbn [x hr_tables hr_region hr_ptr with_segment mreg_segment]. apply NoDup_app. split; [apply Hheld|]. split.
    + intros n Hn [->|[->|?%elem_of_nil]%elem_of_cons]%elem_of_cons; [by apply (sh_apart _ _ _ _ _ _ Hheld)|done|done].
    + apply NoDup_cons. split; [by intros ->%list_elem_of_singleton|apply NoDup_singleton].
  - unfold all_pages. cbn [fmap list_fmap concat]. rewrite app_nil_r. apply (sh_pages _ _ _ _ _ _ Hheld).
  - rewrite (rl_heap _ _ Hrl). apply (sm_heap _ _ _ _ _ _ _ _ _ _ _ _ _ _ M).
  - rewrite !elem_of_union, elem_of_singleton. by do 2 left.
  - rewrite ins_all_lookup, bool_decide_false, !lookup_insert_ne, lookup_singleton_eq by congruence. eauto.
  - unfold all_records. cbn [fmap list_fmap concat]. rewrite app_nil_r, hr_records_elem. by intros [?|[?|?]].
  - unfold all_pages. cbn [fmap list_fmap concat]. rewrite app_nil_r. intros Hin. assert (Hp : pd ∈ T.*2 \/ pd ∈ F) by exact (proj1 (Hel pd) Hin). destruct Hp as [Ht|Hf]; [apply (HtR pd Ht)|destruct (HfF pd Hf) as [Hn _]; apply Hn]; apply elem_of_singleton; reflexivity.
Defined.

Lemma createvm_shares_kernel_witness : exists (pd v : Z) (h : Kmalloc.heap CoreAlloc.core) v2 s', vm_createvm pd (empty_space v pd h) = Some (v2, s').
Proof.
  destruct ex_ready as (pd & v & h & _ & _ & Hh & _). exists pd, v, h.
  destruct (createvm_shares_kernel (empty_space v pd h) _ _ pd Hh) as (v2 & s' & E & _); [|exists v2, s'; exact E].
  split; [by apply elem_of_singleton|]. intros j _. left. apply empty_base.
Defined.

Lemma expand_without_segment_witness :
  match vm_expandregion 0x2000 0x400000 4096 1 1
    (mk_st Kmalloc.ex_heap ∅ {[0x2000 := mk_vm 0x10f000 0x2100]} {[0x2100 := mk_mreg 0x400000 0x402000 SEGMENTTYPE_DATA false 0 0]} ∅ ∅)
  with Some (ret, _) => ret = -1 | None => True end.
Proof.
  apply (expand_without_segment _ 0x2000 0x10f000 [] 0x2100 (mk_mreg 0x400000 0x402000 SEGMENTTYPE_DATA false 0 0) []); [|reflexivity|reflexivity|by left].
  split; [reflexivity|]. split; [|split; [apply NoDup_singleton|cbn; lia]]. cbn. split; [done|]. split; [done|]. by exists 0.
Defined.

Lemma expand_top_never_ends_witness :
  match expand_loop 3 0x10f000 0x2200 0xffc00000 0xffc00000 0 0 0 1 0 (mk_st Kmalloc.ex_heap ∅ ∅ ∅ {[0x2200 := mk_mseg 0 0 1 1 0]} ∅) with Some (ret, _) => ret = ENOMEM | None => True end.
Proof. apply expand_top_never_ends; [lia|reflexivity|lia]. Defined.

Lemma primalloc_first_fit_witness : exists r, find_pages (Z.to_nat PRIVATE_PAGES) (1 :: replicate (Z.to_nat 8191) 0) (fun _ => 0) 2 0 = Some r /\
  match r with Some p => free_run_at (1 :: replicate (Z.to_nat 8191) 0) 2 p /\ forall k, k < p -> ~ free_run_at (1 :: replicate (Z.to_nat 8191) 0) 2 k
  | None => forall k, ~ free_run_at (1 :: replicate (Z.to_nat 8191) 0) 2 k end.
Proof. apply primalloc_first_fit; [vm_compute; reflexivity|lia]. Defined.

(** A region from page 0x401 on, in a table at 0x6000; its first page is in frame 7. *)
Definition ex_dirty : vmst (Kmalloc.heap CoreAlloc.core) :=
  mk_st Kmalloc.ex_heap (put_pte (make_PTE 0x6000 1 7 0 1 1 0 (make_PDE 0x5000 1 6 0 1 1 0 ∅)) 0x6000 1 (mk_PTE 1 1 1 1 1 1 1 0 0 0 7))
    {[0x2000 := mk_vm 0x5000 0x2100]} {[0x2100 := mk_mreg 0x401000 0x402000 SEGMENTTYPE_DATA false 0x2200 0]}
    {[0x2200 := mk_mseg 0 0 1 1 0x2300]} {[0x2300 := mk_ptl 0x6000 0]}.

(** The list of dirty pages counts from the region's start.  [vm_getattrlistpages] takes
    the region's first page for the page of entry 0 of its first table, which is the page
    at the 4 MB boundary below: when the only dirty page is page 0x401, the one page that
    [vm_getdirtylist] notes is 0x402; the dirty bit is cleared. *)
Theorem dirty_page_misnumbered :
  match vm_getdirtylist 0x2000 0x401800 10 0 ex_dirty with
  | Some (n, s) => n = 1 /\ ld32 (phys s) 0x7800 = 0x402 /\ walk (phys s) 0x5000 0x401800 = Some 0x7800 /\ dirty (get_pte (phys s) 0x6000 1) = 0
  | None => False
  end.
Proof. vm_compute. repeat split. Qed.

End Regions.
