(* ===== verification/Pthread.v ===== *)
(** POSIX threads ([src/base/pthread.c], and of [src/base/process.c] the loop with which
    [terminate_thread] takes another thread off its queue).  Mutexes and conditions are
    the locks and events of Lock.v; barriers keep a queue of their own; the threads of a
    process are a list linked by [kt_sib].  As in Lock.v a call that sleeps is cut at
    [scheduler()]. *)
From S2P Require Import Prelude Timer Queue Chain Sched Lock CoreAlloc MemList Kmalloc KernelHeap Paging.

Module Pthread.
Import Sched Lock.

(** * Mutexes and conditions *)

Record pthread_mutexattr_t := mk_mattr { mutexkind : Z }.
Record pthread_mutex_t := mk_mutex { m_kind : Z; m_lock : loc }.

Definition syscall_pthread_mutex_init (m_lock : loc) (attr : option pthread_mutexattr_t) (k : kstate) : pthread_mutex_t * kstate :=
  (mk_mutex (match attr with Some a => mutexkind a | None => 0 end) m_lock, set_objs (<[m_lock := lockobj_init]> (objs k)) k).
Definition syscall_pthread_mutex_lock (m : pthread_mutex_t) (k : kstate) : option (outcome * kstate) := lock_1 (m_lock m) k.
Definition syscall_pthread_mutex_trylock (m : pthread_mutex_t) (k : kstate) : option (Z * kstate) := trylock (m_lock m) k.
Definition syscall_pthread_mutex_unlock (m : pthread_mutex_t) (k : kstate) : option (Z * kstate) := unlock (m_lock m) k.

Definition syscall_pthread_cond_init (c_event : loc) (k : kstate) : kstate := set_objs (<[c_event := eventobj_init]> (objs k)) k.
(** [DEL_SLQ], then [wakeup] of the thread that it gave; a condition is its event. *)
Definition syscall_pthread_cond_signal (cond : ptr) (k : kstate) : option (Z * kstate) :=
  match cond with
  | None => Some (-1, k)
  | Some e =>
      ob ← objs k !! e;
      match sl_waiters ob with
      | [] => Some (0, k)
      | t :: q => k ← upd_obj e (with_waiters q) k; k ← wakeup t k; Some (0, k)
      end
  end.
Definition syscall_pthread_cond_broadcast (e : loc) (k : kstate) : option (Z * kstate) := event_wakeup e k.
Definition syscall_pthread_cond_wait (e : loc) (mutex : option pthread_mutex_t) (k : kstate) : option (outcome * kstate) :=
  match mutex with
  | Some m => event_sleep_1 e (Some (m_lock m)) k
  | None => event_sleep_1 e NULL k
  end.

(** * Barriers *)

(** [ba_waitq] is the chain along [kt_qnext]. *)
Record pthread_barrier_t := mk_bar { ba_required : Z; ba_present : Z; ba_waitq : list loc }.

Definition syscall_pthread_barrier_init (count : Z) : pthread_barrier_t := mk_bar (s32 count) 0 [].

(** The [while] that wakes the threads of the queue. *)
Fixpoint wake_queue (q : list loc) (k : kstate) : option kstate :=
  match q with
  | [] => Some k
  | t :: q => k ← wakeup t k; wake_queue q k
  end.

(** A thread that is woken returns 0. *)
Definition syscall_pthread_barrier_wait (b : pthread_barrier_t) (k : kstate) : option (outcome * pthread_barrier_t * kstate) :=
  if s32 (ba_present b + 1) =? ba_required b then
    k ← wake_queue (ba_waitq b) k;
    Some (Returned 0, mk_bar (ba_required b) 0 [], k)
  else
    let t := current_thread k in
    k ← upd_thr t (with_state THREAD_STATE_SLEEP) k;
    k ← scheduler k;
    Some (Blocked, mk_bar (ba_required b) (s32 (ba_present b + 1)) (t :: ba_waitq b), k).

Definition syscall_pthread_yield (k : kstate) : option (Z * kstate) := k ← scheduler k; Some (0, k).

(** * Taking a thread off its queue *)

Definition THREAD_STATE_TERMINATING : Z := 4.
Definition THREAD_STATE_TERMINATED : Z := 5.

(** The [while (1)] of [terminate_thread].  Interrupts are off and the spin locks are
    free, so that a turn that finds nothing is followed by the same turn. *)
Fixpoint take_off (fuel : nat) (t : loc) (k : kstate) : option kstate :=
  match fuel with
  | O => None
  | S fuel =>
      x ← threads k !! t;
      ps ← proc_state k !! kt_process x;
      if (sc_state x =? THREAD_STATE_READY) && (ps =? PROC_STATE_READY) then '(_, k) ← del_readyq t k; Some k
      else if sc_state x =? THREAD_STATE_SLEEP then
        match kt_slpchannel x with
        | Some o =>
            ob ← objs k !! o;
            if bool_decide (t ∈ sl_waiters ob) then upd_obj o (fun ob => with_waiters (filter (fun x => x <> t) (sl_waiters ob)) ob) k
            else take_off fuel t k
        | None => take_off fuel t k
        end
      else take_off fuel t k
  end.

(** * The threads of a process *)

Record tinfo := mk_ti { kt_threadid : Z; kt_sib : ptr; kt_exitstatus : Z; kt_threadjoinable : Z; kt_exitlock : loc; kt_threadexit : loc }.
Definition with_sib (p : ptr) (x : tinfo) : tinfo := mk_ti (kt_threadid x) p (kt_exitstatus x) (kt_threadjoinable x) (kt_exitlock x) (kt_threadexit x).
Definition with_joinable (v : Z) (x : tinfo) : tinfo := mk_ti (kt_threadid x) (kt_sib x) (kt_exitstatus x) v (kt_exitlock x) (kt_threadexit x).

(** The current process: its number and its list of threads. *)
Record proc := mk_proc { proc_id : Z; proc_threadptr : ptr; tinf : gmap loc tinfo }.
Definition set_info (m : gmap loc tinfo) (p : proc) : proc := mk_proc (proc_id p) (proc_threadptr p) m.
Definition set_first (f : ptr) (p : proc) : proc := mk_proc (proc_id p) f (tinf p).
Definition list_fuel (p : proc) : nat := S (size (tinf p)).

(** The [while] that looks for a number. *)
Definition find_thread (fuel : nat) (no : Z) (thr : ptr) (m : gmap loc tinfo) : option ptr := walk kt_sib fuel (fun _ x => kt_threadid x =? no) m thr.
(** The [while (t1->kt_sib != thr)]: the thread before [thr]; a null [t1] is followed. *)
Definition thread_before (fuel : nat) (thr t1 : ptr) (m : gmap loc tinfo) : option loc := walk_before kt_sib fuel thr m t1.
Definition remove_thread (thr : loc) (p : proc) : option proc :=
  x ← tinf p !! thr;
  p ← (if bool_decide (proc_threadptr p = Some thr) then Some (set_first (kt_sib x) p)
       else t1 ← thread_before (list_fuel p) (Some thr) (proc_threadptr p) (tinf p);
            y ← tinf p !! t1;
            Some (set_info (<[t1 := with_sib (kt_sib x) y]> (tinf p)) p));
  x ← tinf p !! thr;
  Some (set_info (<[thr := with_sib NULL x]> (tinf p)) p).

Definition thread_of (th : Z) : Z * Z := (Z.land (Z.shiftr th 16) 0xffff, Z.land th 0xffff).
Definition syscall_pthread_self (p : proc) (cur : loc) : option Z := x ← tinf p !! cur; Some (u32 (Z.shiftl (proc_id p) 16 + kt_threadid x)).
Definition pthread_equal (a b : Z) : Z := if a =? b then 1 else 0.

(** [syscall_pthread_join] and [syscall_pthread_detach] up to their first test of the
    state of the thread: -1, or the thread. *)
Definition join_target (th : Z) (cur : loc) (p : proc) : option (Z + loc) :=
  let '(pno, thno) := thread_of th in
  if negb (proc_id p =? pno) then Some (inl (-1)) else
  x ← tinf p !! cur;
  if kt_threadid x =? thno then Some (inl (-1)) else
  thr ← find_thread (list_fuel p) thno (proc_threadptr p) (tinf p);
  Some (match thr with None => inl (-1) | Some t => inr t end).
Definition detach_target (th : Z) (p : proc) : option (Z + loc) :=
  let '(pno, thno) := thread_of th in
  if negb (proc_id p =? pno) then Some (inl (-1)) else
  thr ← find_thread (list_fuel p) thno (proc_threadptr p) (tinf p);
  Some (match thr with None => inl (-1) | Some t => inr t end).

(** [syscall_pthread_detach] with [kt_exitlock] and [proc_thrlock] free; the thread that
    the call passes to [destroy_thread], if any. *)
Definition syscall_pthread_detach (th : Z) (p : proc) (k : kstate) : option (Z * ptr * proc) :=
  r ← detach_target th p;
  match r with
  | inl e => Some (e, NULL, p)
  | inr t =>
      x ← threads k !! t;
      if negb (sc_state x =? THREAD_STATE_TERMINATED) then
        i ← tinf p !! t; Some (0, NULL, set_info (<[t := with_joinable 0 i]> (tinf p)) p)
      else p ← remove_thread t p; Some (0, Some t, p)
  end.

(** [syscall_pthread_join] to the point where it sleeps, or holds [kt_exitlock] of a
    thread that has ended, and from there to the end. *)
Inductive joining := JoinFailed (e : Z) | JoinWaits (t : loc) | JoinReady (t : loc).
Definition join_1 (th : Z) (p : proc) (k : kstate) : option (joining * kstate) :=
  r ← join_target th (current_thread k) p;
  match r with
  | inl e => Some (JoinFailed e, k)
  | inr t =>
      i ← tinf p !! t;
      '(o, k) ← lock_1 (kt_exitlock i) k;
      match o with
      | Blocked => Some (JoinWaits t, k)
      | Returned _ =>
          x ← threads k !! t;
          if negb (sc_state x =? THREAD_STATE_TERMINATED) then '(_, k) ← event_sleep_1 (kt_threadexit i) (Some (kt_exitlock i)) k; Some (JoinWaits t, k)
          else Some (JoinReady t, k)
      end
  end.
(** The result, the exit status and the thread that goes to [destroy_thread]. *)
Definition join_2 (t : loc) (p : proc) (k : kstate) : option (Z * Z * loc * proc * kstate) :=
  i ← tinf p !! t;
  '(_, k) ← unlock (kt_exitlock i) k;
  p ← remove_thread t p;
  Some (0, kt_exitstatus i, t, p, k).

(** * The stack of a new thread *)

(** The [for] of [syscall_pthread_create] over page numbers, one for each 4 MB. *)
Fixpoint find_stack (fuel : nat) (m : Paging.mem) (pd start : Z) : option Z :=
  if negb (0x60000 <? start) then Some start else
  match fuel with
  | O => None
  | S fuel =>
      if Paging.page_table_base_addr (Paging.get_pde m pd (Z.land (Z.shiftr start 10) 0x3ff)) =? 0 then Some start
      else find_stack fuel m pd (u32 (start - 0x400))
  end.
Definition USER_STACK_SIZE : Z := 0x10000.
Definition EMAXTHREADS : Z := -104.
(** The address of the stack, or the error. *)
Definition stack_place (m : Paging.mem) (pd : Z) : option (Z + Z) :=
  start ← find_stack 1024 m pd (Z.land (Z.shiftr Paging.USERSTACK_SEGMENT_END 12) 0x000fffff - 1);
  Some (if start <=? 0x60000 then inl EMAXTHREADS else inr (u32 (u32 (Z.shiftl (start + 1) 12) - USER_STACK_SIZE))).

(** * Threads outside the objects' queues *)

(** A thread without sleep channel may change its state. *)
Lemma wait_inv_outside k k' t x z :
  wait_inv k -> sched_inv k' -> objs k' = objs k -> threads k !! t = Some x -> threads k' = <[t := z]> (threads k) ->
  kt_slpchannel x = NULL -> kt_slpchannel z = NULL -> wait_inv k'.
Proof.
  intros [H1 H2 H3 H4] Hs Ho Hx Ht Hc Hz. split; [done| | |]; rewrite Ho, ?Ht.
  - exact H2.
  - intros o ob t' Hob Hin. destruct (H3 o ob t' Hob Hin) as (y & Hy & Hsy & Hcy). assert (t' <> t) by congruence. exists y. by rewrite lookup_insert_ne.
  - intros t' y o. destruct (decide (t' = t)) as [->|]; [rewrite lookup_insert_eq; intros [= <-]; congruence|]. rewrite lookup_insert_ne by done. apply H4.
Qed.

Lemma sched_inv_insert k k' t x z :
  sched_inv k -> rq_inv ∅ k' -> threads k !! t = Some x -> threads k' = <[t := z]> (threads k) -> current_thread k' = current_thread k ->
  sc_state z <> THREAD_STATE_RUNNING -> sched_inv k'.
Proof.
  intros [_ Hrun] Hr Hx Ht Hc Hz. split; [done|]. intros t' y. rewrite Ht, Hc. destruct (decide (t' = t)) as [->|]; [rewrite lookup_insert_eq; intros [= <-]; done|].
  rewrite lookup_insert_ne by done. apply Hrun.
Qed.

(** [wakeup] of a sleeper that is in no object's queue and whose process is ready. *)
Lemma wakeup_outside k t x :
  wait_inv k -> is_Some (threads k !! current_thread k) -> threads k !! t = Some x -> sc_state x = THREAD_STATE_SLEEP -> kt_slpchannel x = NULL ->
  proc_state k !! kt_process x = Some PROC_STATE_READY ->
  exists k' y, wakeup t k = Some k' /\ raised 5 x y /\ wait_inv k' /\ same_rest k k' /\ threads k' = <[t := readied y]> (threads k).
Proof.
  intros Hw Hc Hx Hs Hch Hp. destruct (wakeup_spec k t x PROC_STATE_READY) as (k' & y & E & Hy & Hr & Hrest & Ht); auto; [by apply wait_inv_rq|by rewrite Hs|].
  change (PROC_STATE_READY =? PROC_STATE_READY) with true in Ht. cbv iota in Ht. exists k', y. split; [done|]. split; [done|]. split; [|done].
  destruct Hrest as (_ & Ho & Hcur & _). apply (wait_inv_outside k k' t x (readied y)); auto. by apply (sched_inv_insert k k' t x (readied y)); [apply wi_sched|..].
Qed.

(** * Barriers *)

(** The threads of the queue sleep, outside all other queues, and each can be woken. *)
Definition at_barrier (k : kstate) (t : loc) : Prop :=
  exists x, threads k !! t = Some x /\ sc_state x = THREAD_STATE_SLEEP /\ kt_slpchannel x = NULL /\ proc_state k !! kt_process x = Some PROC_STATE_READY.

Record bar_inv (k : kstate) (b : pthread_barrier_t) : Prop := {
  bi_wait : wait_inv k;
  bi_run : running_ok k;
  bi_idle : idle_ok k;
  bi_procs t x : threads k !! t = Some x -> proc_state k !! kt_process x = Some PROC_STATE_READY;
  bi_nodup : NoDup (ba_waitq b);
  bi_asleep t : t ∈ ba_waitq b -> at_barrier k t;
  bi_present : ba_present b = zlen (ba_waitq b);
  bi_required : zlen (ba_waitq b) < ba_required b < 2 ^ 31 }.

Lemma wake_queue_spec q k :
  wait_inv k -> is_Some (threads k !! current_thread k) -> NoDup q -> (forall t, t ∈ q -> at_barrier k t) ->
  exists k', wake_queue q k = Some k' /\ wait_inv k' /\ same_rest k k' /\
    (forall t, t ∈ q -> exists x y, threads k !! t = Some x /\ raised 5 x y /\ threads k' !! t = Some (readied y)) /\
    (forall t, t ∉ q -> threads k' !! t = threads k !! t).
Proof.
  revert k. induction q as [|t q IH]; intros k Hw Hc Hnd Hq; cbn [wake_queue].
  { exists k. split; [done|]. split; [done|]. split; [done|]. split; [by intros t ?%elem_of_nil|done]. }
  apply NoDup_cons in Hnd as [Htq Hnd]. destruct (Hq t) as (x & Hx & Hs & Hch & Hp); [by left|].
  destruct (wakeup_outside k t x Hw Hc Hx Hs Hch Hp) as (k1 & y & -> & Hy & Hw1 & Hr1 & Ht1). cbn [mbind option_bind].
  pose proof Hr1 as (Hps & _ & Hcur & _).
  assert (Hsame : forall t', t' <> t -> threads k1 !! t' = threads k !! t') by (intros t' Hne; by rewrite Ht1, lookup_insert_ne).
  destruct (IH k1) as (k' & -> & Hw' & Hr' & Hin & Hout); [done| |done| |].
  { rewrite Hcur. destruct (decide (current_thread k = t)) as [->|]; [rewrite Ht1, lookup_insert_eq; eauto|by rewrite Hsame]. }
  { intros t' Ht'. destruct (Hq t') as (x' & ?); [by right|]. exists x'. rewrite Hps, Hsame; [done|by intros ->]. }
  exists k'. split; [done|]. split; [done|]. split; [by etrans|]. split.
  - intros t' [->|Ht']%elem_of_cons.
    + exists x, y. rewrite Hout by done. rewrite Ht1, lookup_insert_eq. done.
    + destruct (Hin t' Ht') as (x' & y' & Hx' & Hy' & Hk'). exists x', y'. rewrite Hsame in Hx' by (by intros ->). done.
  - intros t' [Hne Ht']%not_elem_of_cons. by rewrite Hout, Hsame.
Qed.

(** A switch of threads keeps the barrier. *)
Lemma switch_keeps k b x :
  wait_inv k -> threads k !! current_thread k = Some x -> sc_state x <> THREAD_STATE_READY -> idle_ok k ->
  (forall t x, threads k !! t = Some x -> proc_state k !! kt_process x = Some PROC_STATE_READY) ->
  NoDup (ba_waitq b) -> (forall t, t ∈ ba_waitq b -> at_barrier k t) -> ba_present b = zlen (ba_waitq b) -> zlen (ba_waitq b) < ba_required b < 2 ^ 31 ->
  exists k', scheduler k = Some k' /\ bar_inv k' b /\ forall t, runnable k' t <-> runnable k t.
Proof.
  intros Hw Hx Hs Hid Hp Hnd Has Hpr Hreq. destruct (scheduler_wait k x Hw Hx Hs Hid) as (k' & E & Hw' & Hd & (Hkept & Ho & Hps & _) & Hrun).
  exists k'. split; [done|]. split; [|done]. split; try done.
  - by apply dispatched_running.
  - destruct Hid as (ti & (y & Hy & Hc) & Hr). exists ti. split; [|by apply Hrun]. destruct (kept_fwd _ _ _ _ Hkept Hy) as (z & Hz & (Hcz & _)). exists z. split; [done|congruence].
  - intros t z Hz. destruct (kept_bwd _ _ _ _ Hkept Hz) as (y & Hy & (_ & _ & _ & _ & _ & Hpz & _)). rewrite Hps, Hpz. eauto.
  - intros t Ht. destruct (Has t Ht) as (y & Hy & Hsy & Hcy & Hpy). destruct (kept_fwd _ _ _ _ Hkept Hy) as (z & Hz & (_ & _ & _ & _ & Hcz & Hpz & Hsz)).
    exists z. split; [done|]. split; [|split; [congruence|by rewrite Hps, Hpz]]. destruct Hsz as [->|Hsz]; [done|].
    assert (runnable k t) as (y' & Hy' & Hsy') by (apply Hrun; by exists z). simplify_eq. rewrite Hsy in Hsy'. by destruct Hsy'.
Qed.

Lemma not_at_barrier k t : at_barrier k t -> ~ runnable k t.
Proof. intros (x & Hx & Hs & _) (y & Hy & Hsy). simplify_eq. rewrite Hs in Hsy. by destruct Hsy. Qed.

Lemma current_runnable k : running_ok k -> runnable k (current_thread k).
Proof. intros (x & Hx & Hs & _). exists x. auto. Qed.

(** A thread that is not the last one sleeps, on top of the queue. *)
Lemma barrier_blocks k b :
  bar_inv k b -> zlen (ba_waitq b) + 1 < ba_required b -> ~ is_idle k (current_thread k) ->
  exists k', syscall_pthread_barrier_wait b k = Some (Blocked, mk_bar (ba_required b) (zlen (ba_waitq b) + 1) (current_thread k :: ba_waitq b), k') /\
    bar_inv k' (mk_bar (ba_required b) (zlen (ba_waitq b) + 1) (current_thread k :: ba_waitq b)) /\ forall t, runnable k' t <-> runnable k t /\ t <> current_thread k.
Proof.
  intros [Hw Hrun Hid Hp Hnd Has Hpr Hreq] Hlt Hni. pose proof Hrun as (x & Hx & Hs & _). assert (0 <= zlen (ba_waitq b)) by (unfold zlen; lia).
  unfold syscall_pthread_barrier_wait. rewrite Hpr, s32_id by lia. rewrite (proj2 (Z.eqb_neq _ _)) by lia. rewrite (upd_thr_Some _ _ _ x) by done. cbn [mbind option_bind].
  set (k1 := set_threads _ k). set (b' := mk_bar _ _ _). assert (Hcur : current_thread k ∉ ba_waitq b) by (intros Hin; apply (not_at_barrier k (current_thread k)); [by apply Has|by apply current_runnable]).
  assert (Hw1 : wait_inv k1).
  { apply (wait_inv_outside k k1 (current_thread k) x (with_state THREAD_STATE_SLEEP x)); try done.
    - apply (sched_inv_insert k k1 (current_thread k) x (with_state THREAD_STATE_SLEEP x)); try done; [by apply wi_sched|].
      apply (rq_inv_thread _ _ _ x); [by apply wait_inv_rq|done| |right; left; by rewrite Hs]. apply (wf_same_prio x); try done. by apply (rq_wf _ _ (wait_inv_rq _ Hw) (current_thread k)).
    - apply (wi_channel k (current_thread k)); [done|done|by rewrite Hs].
    - apply (wi_channel k (current_thread k) x); [done|done|by rewrite Hs]. }
  assert (Hrn : forall t, runnable k1 t <-> runnable k t /\ t <> current_thread k).
  { intros t. unfold runnable. cbn [k1 threads set_threads]. destruct (decide (t = current_thread k)) as [->|Hne].
    - rewrite lookup_insert_eq. split; [intros (y & [= <-] & [?|?]); done|by intros [_ ?]].
    - rewrite lookup_insert_ne by done. tauto. }
  destruct (switch_keeps k1 b' (with_state THREAD_STATE_SLEEP x)) as (k' & E & Hb & Hr); try done.
  - cbn [k1 threads set_threads current_thread]. apply lookup_insert_eq.
  - destruct Hid as (ti & (y & Hy & Hc) & Hr). assert (ti <> current_thread k) by (intros ->; apply Hni; by exists y). exists ti. split; [|by apply Hrn].
    exists y. cbn [k1 threads set_threads]. by rewrite lookup_insert_ne.
  - intros t y. cbn [k1 threads proc_state set_threads]. destruct (decide (t = current_thread k)) as [->|]; [rewrite lookup_insert_eq; intros [= <-]; by apply (Hp (current_thread k) x)|].
    rewrite lookup_insert_ne by done. apply Hp.
  - apply NoDup_cons. done.
  - intros t [->|Ht]%elem_of_cons.
    + exists (with_state THREAD_STATE_SLEEP x). cbn [k1 threads proc_state set_threads]. rewrite lookup_insert_eq. split; [done|]. split; [done|]. split; [|by apply (Hp (current_thread k) x)].
      apply (wi_channel k (current_thread k) x); [done|done|by rewrite Hs].
    + destruct (Has t Ht) as (y & Hy & ?). exists y. cbn [k1 threads proc_state set_threads]. rewrite lookup_insert_ne by (intros <-; done). done.
  - cbn [b' ba_present ba_waitq]. unfold zlen. cbn [length]. lia.
  - cbn [b' ba_required ba_waitq]. unfold zlen in *. cbn [length]. lia.
  - rewrite E. cbn [mbind option_bind]. exists k'. split; [done|]. split; [done|]. intros t. by rewrite Hr, Hrn.
Qed.

(** The last thread wakes them all and goes on. *)
Lemma barrier_opens k b :
  bar_inv k b -> zlen (ba_waitq b) + 1 = ba_required b ->
  exists k', syscall_pthread_barrier_wait b k = Some (Returned 0, mk_bar (ba_required b) 0 [], k') /\ bar_inv k' (mk_bar (ba_required b) 0 []) /\
    current_thread k' = current_thread k /\ forall t, runnable k' t <-> runnable k t \/ t ∈ ba_waitq b.
Proof.
  intros [Hw Hrun Hid Hp Hnd Has Hpr Hreq] Heq. assert (0 <= zlen (ba_waitq b)) by (unfold zlen; lia).
  unfold syscall_pthread_barrier_wait. rewrite Hpr, s32_id by lia. rewrite (proj2 (Z.eqb_eq _ _)) by lia.
  destruct (wake_queue_spec (ba_waitq b) k) as (k' & -> & Hw' & (Hps & _ & Hcur & _) & Hin & Hout); [done|destruct Hrun as (x & -> & _); eauto|done|done|].
  cbn [mbind option_bind]. exists k'. split; [done|].
  assert (Hkeep : forall t, runnable k t -> threads k' !! t = threads k !! t) by (intros t Ht; apply Hout; intros Hq; by apply (not_at_barrier k t); [apply Has|]).
  assert (Hrn : forall t, runnable k' t <-> runnable k t \/ t ∈ ba_waitq b).
  { intros t. destruct (decide (t ∈ ba_waitq b)) as [Ht|Ht].
    - split; [by right|]. intros _. destruct (Hin t Ht) as (x & y & _ & _ & Hy). exists (readied y). split; [done|by left].
    - unfold runnable. rewrite (Hout t Ht). tauto. }
  split; [|split; [done|exact Hrn]]. split; cbn [ba_waitq ba_present ba_required].
  - done.
  - destruct Hrun as (x & Hx & Hs & Hq). exists x. rewrite Hcur, Hkeep by (exists x; auto). done.
  - destruct Hid as (ti & (y & Hy & Hc) & Hr). exists ti. split; [exists y; by rewrite Hkeep|]. apply Hrn. by left.
  - intros t z Hz. rewrite Hps. destruct (decide (t ∈ ba_waitq b)) as [Ht|Ht]; [|rewrite Hout in Hz by done; eauto].
    destruct (Hin t Ht) as (x & y & Hx & (pr & -> & _) & Hy). rewrite Hy in Hz. injection Hz as <-. by apply (Hp t x).
  - constructor.
  - by intros t ?%elem_of_nil.
  - done.
  - change (zlen (@nil loc)) with 0. lia.
Qed.

(** Threads that meet at a barrier or give up the processor, in any order; [arrived]
    counts the calls of [syscall_pthread_barrier_wait]. *)
Record bsys := mk_bs { bk : kstate; bb : pthread_barrier_t; arrived : Z }.
Inductive bstep : bsys -> bsys -> Prop :=
| BWait k b a o b' k' : ~ is_idle k (current_thread k) -> syscall_pthread_barrier_wait b k = Some (o, b', k') -> bstep (mk_bs k b a) (mk_bs k' b' (a + 1))
| BYield k b a r k' : syscall_pthread_yield k = Some (r, k') -> bstep (mk_bs k b a) (mk_bs k' b a).

Definition round_inv (n : Z) (s : bsys) : Prop :=
  bar_inv (bk s) (bb s) /\ ba_required (bb s) = n /\ 0 <= arrived s /\ zlen (ba_waitq (bb s)) = arrived s mod n.

Lemma round_step n s s' : round_inv n s -> bstep s s' -> round_inv n s'.
Proof.
  intros (Hb & Hn & Ha & Hq) Hstep. destruct Hstep as [k b a o b' k' Hni E|k b a r k' E]; cbn [bk bb arrived] in *.
  - pose proof (bi_required _ _ Hb) as Hreq. assert (0 <= zlen (ba_waitq b)) by (unfold zlen; lia).
    destruct (Z.lt_ge_cases (zlen (ba_waitq b) + 1) (ba_required b)) as [Hlt|Hge].
    + destruct (barrier_blocks k b Hb Hlt Hni) as (k1 & E1 & Hb1 & _). rewrite E in E1. injection E1 as -> -> ->. split; [done|]. split; [done|]. split; [cbn; lia|].
      cbn [ba_waitq bb arrived]. unfold zlen in *. cbn [length]. rewrite <- Hn in *. pose proof (Z.div_mod a (ba_required b)). apply (Z.mod_unique_pos _ _ (a / ba_required b)); lia.
    + destruct (barrier_opens k b Hb ltac:(lia)) as (k1 & E1 & Hb1 & _). rewrite E in E1. injection E1 as -> -> ->. split; [done|]. split; [done|]. split; [cbn; lia|].
      cbn [ba_waitq bb arrived]. change (zlen (@nil loc)) with 0. rewrite <- Hn in *. pose proof (Z.div_mod a (ba_required b)). apply (Z.mod_unique_pos _ _ (a / ba_required b + 1)); lia.
  - unfold syscall_pthread_yield in E. destruct Hb as [Hw Hrun Hid Hp Hnd Has Hpr Hreq]. pose proof Hrun as (x & Hx & Hs & _).
    destruct (switch_keeps k b x) as (k1 & E1 & Hb1 & _); try done; [by rewrite Hs|]. rewrite E1 in E. cbn in E. injection E as _ <-. done.
Qed.

(** C17: Nobody passes a barrier alone.  From a new barrier for [n] threads, after any sequence
    of arrivals and switches, the threads at the barrier are as many as arrivals since the
    last time it opened, and all are asleep.  The next call never fails: it lets the caller
    pass exactly when it is the [n]-th of its round, and then every thread that waited is
    runnable and the barrier is as new; otherwise the caller alone stops being runnable. *)
Theorem barrier_rounds n k0 s :
  bar_inv k0 (syscall_pthread_barrier_init n) -> rtc bstep (mk_bs k0 (syscall_pthread_barrier_init n) 0) s ->
  zlen (ba_waitq (bb s)) = arrived s mod s32 n /\ (forall t, t ∈ ba_waitq (bb s) -> at_barrier (bk s) t) /\
  (~ is_idle (bk s) (current_thread (bk s)) ->
   exists o b' k', syscall_pthread_barrier_wait (bb s) (bk s) = Some (o, b', k') /\
     if (arrived s + 1) mod s32 n =? 0 then
       o = Returned 0 /\ b' = syscall_pthread_barrier_init n /\ forall t, runnable k' t <-> runnable (bk s) t \/ t ∈ ba_waitq (bb s)
     else o = Blocked /\ ba_waitq b' = current_thread (bk s) :: ba_waitq (bb s) /\ forall t, runnable k' t <-> runnable (bk s) t /\ t <> current_thread (bk s)).
Proof.
  intros Hb0 Hr. pose proof (bi_required _ _ Hb0) as Hreq0. cbn in Hreq0. change (zlen (@nil loc)) with 0 in Hreq0. assert (Hs : round_inv (s32 n) s).
  { revert Hr. generalize (mk_bs k0 (syscall_pthread_barrier_init n) 0) (conj Hb0 (conj eq_refl (conj (Z.le_refl 0) (eq_sym (Z.mod_0_l (s32 n) ltac:(lia))))) : round_inv (s32 n) (mk_bs k0 (syscall_pthread_barrier_init n) 0)).
    intros s0 Hs0 Hr. induction Hr as [|s0 s1 s Hst _ IH]; [done|]. apply IH. by eapply round_step. }
  destruct Hs as (Hb & Hn & Ha & Hq). split; [done|]. split; [apply (bi_asleep _ _ Hb)|]. intros Hni. pose proof (bi_required _ _ Hb) as Hreq.
  assert (0 <= zlen (ba_waitq (bb s))) by (unfold zlen; lia). pose proof (Z.div_mod (arrived s) (s32 n)) as Hdm. rewrite <- Hn in *.
  destruct (Z.lt_ge_cases (zlen (ba_waitq (bb s)) + 1) (ba_required (bb s))) as [Hlt|Hge].
  - destruct (barrier_blocks _ _ Hb Hlt Hni) as (k' & -> & _ & Hrn). eexists _, _, k'. split; [reflexivity|].
    rewrite (proj2 (Z.eqb_neq _ 0)); [done|]. rewrite <- (Z.mod_unique_pos (arrived s + 1) (ba_required (bb s)) (arrived s / ba_required (bb s)) (zlen (ba_waitq (bb s)) + 1)); lia.
  - destruct (barrier_opens _ _ Hb ltac:(lia)) as (k' & -> & _ & _ & Hrn). eexists _, _, k'. split; [reflexivity|].
    rewrite (proj2 (Z.eqb_eq _ 0)); [split; [done|]; split; [|done]; unfold syscall_pthread_barrier_init; by rewrite <- Hn|].
    symmetry. apply (Z.mod_unique_pos _ _ (arrived s / ba_required (bb s) + 1)); lia.
Qed.

(** A thread at a barrier cannot be killed.  A barrier does not set [kt_slpchannel], so the
    loop of [terminate_thread], which runs with interrupts off, finds the thread neither
    ready nor on a channel: with any number of turns it does not end. *)
Theorem kill_at_barrier_never_ends k b t fuel : bar_inv k b -> t ∈ ba_waitq b -> take_off fuel t k = None.
Proof.
  intros Hb Ht. destruct (bi_asleep _ _ Hb t Ht) as (x & Hx & Hs & Hch & Hp). induction fuel as [|fuel IH]; cbn [take_off]; [done|].
  rewrite Hx. cbn [mbind option_bind]. rewrite Hp. cbn [mbind option_bind]. rewrite Hs, Hch. exact IH.
Qed.

(** * The list of threads *)

(** A list of threads without repetition, and what calls leave alone but its links. *)
Definition thr_list (p : proc) (l : list loc) : Prop := chain kt_sib (tinf p) (proc_threadptr p) l /\ NoDup l.
Definition same_info (p p' : proc) : Prop := proc_id p' = proc_id p /\ forall t, with_sib NULL <$> tinf p' !! t = with_sib NULL <$> tinf p !! t.
Definition id_is (m : gmap loc tinfo) (no : Z) : loc -> bool := holds (fun _ x => kt_threadid x =? no) m.

Lemma with_sib_insert (m : gmap loc tinfo) t x q t' : m !! t = Some x -> with_sib NULL <$> <[t := with_sib q x]> m !! t' = with_sib NULL <$> m !! t'.
Proof. intros Hx. destruct (decide (t' = t)) as [->|]; [rewrite lookup_insert_eq, Hx; by destruct x|by rewrite lookup_insert_ne]. Qed.

(** A thread of the list is unlinked, and nothing else changes. *)
Lemma remove_thread_in p l1 t l2 :
  thr_list p (l1 ++ t :: l2) -> exists p', remove_thread t p = Some p' /\ thr_list p' (l1 ++ l2) /\ same_info p p'.
Proof.
  intros [Hl Hnd]. destruct (chain_in kt_sib _ _ _ t Hl) as [x Hx]; [set_solver|]. unfold remove_thread, thread_before. rewrite Hx. cbn [mbind option_bind].
  assert (Hnd' : NoDup (l1 ++ l2) /\ t ∉ l1 ++ l2) by (rewrite (Permutation_app_comm l1 (t :: l2)) in Hnd; cbn in Hnd; apply NoDup_cons in Hnd as [? ?]; rewrite (Permutation_app_comm l1 l2); split; [done|set_solver]).
  destruct Hnd' as [Hnd' Ht]. destruct l1 as [|b l1] using rev_ind.
  - cbn [app chain] in Hl. destruct Hl as (Hf & x' & Hx' & Hl). assert (x' = x) as -> by congruence. rewrite bool_decide_eq_true_2 by done. cbn [mbind option_bind tinf set_first]. rewrite Hx. cbn [mbind option_bind].
    eexists. split; [reflexivity|]. split; [split; [by apply chain_out|done]|]. split; [done|]. intros t'. cbn [tinf set_first set_info]. by apply with_sib_insert.
  - clear IHl1. rewrite <- (app_assoc l1) in *. cbn [app] in *.
    assert (Hbt : b <> t) by set_solver. destruct (chain_in kt_sib _ _ _ b Hl) as [y Hy]; [set_solver|].
    rewrite bool_decide_eq_false_2 by (intros Hf; rewrite Hf in Hl; destruct l1 as [|a l1]; destruct Hl as ([= ->] & _); set_solver).
    rewrite (walk_before_in kt_sib _ _ l1 b t l2); [|done|set_solver|unfold list_fuel; pose proof (chain_size kt_sib _ _ _ Hl Hnd) as Hsz; rewrite length_app in Hsz; lia].
    cbn [mbind option_bind]. rewrite Hy. cbn [mbind option_bind tinf set_info]. rewrite lookup_insert_ne, Hx by done. cbn [mbind option_bind].
    eexists. split; [reflexivity|]. split; [split; [|done]|].
    + apply chain_out; [|done]. by apply (chain_cut kt_sib _ _ _ _ t _ x).
    + split; [done|]. intros t'. cbn [tinf set_info]. rewrite with_sib_insert by (by rewrite lookup_insert_ne). by apply with_sib_insert.
Qed.

(** Without the thread in the list, the search for its predecessor follows a null pointer. *)
Lemma remove_thread_out p l t : thr_list p l -> t ∉ l -> remove_thread t p = None.
Proof.
  intros [Hl _] Ht. unfold remove_thread, thread_before. destruct (tinf p !! t) as [x|]; [|done]. cbn [mbind option_bind].
  rewrite bool_decide_eq_false_2 by (intros Hf; rewrite Hf in Hl; destruct l as [|a l]; [done|destruct Hl as ([= ->] & _); set_solver]).
  by rewrite (walk_before_out kt_sib _ _ _ _ _ Hl Ht).
Qed.

(** Detaching.  With a list [l] of threads: a thread of another process, or one that is
    not in the list, gives -1; a thread that has not ended is made non-joinable; one that
    has ended leaves the list, keeps the order of the others, and goes to
    [destroy_thread]. *)
Theorem detach_unlinks th p k l :
  thr_list p l ->
  match (if proc_id p =? fst (thread_of th) then List.find (id_is (tinf p) (snd (thread_of th))) l else None) with
  | None => syscall_pthread_detach th p k = Some (-1, NULL, p)
  | Some t => forall x, threads k !! t = Some x ->
      exists l1 l2, l = l1 ++ t :: l2 /\
      if sc_state x =? THREAD_STATE_TERMINATED then exists p', syscall_pthread_detach th p k = Some (0, Some t, p') /\ thr_list p' (l1 ++ l2) /\ same_info p p'
      else exists i p', tinf p !! t = Some i /\ syscall_pthread_detach th p k = Some (0, NULL, p') /\ tinf p' = <[t := with_joinable 0 i]> (tinf p) /\ proc_threadptr p' = proc_threadptr p
  end.
Proof.
  intros Hl. pose proof Hl as [Hs Hnd]. unfold syscall_pthread_detach, detach_target. destruct (thread_of th) as [pno thno]. cbn [fst snd].
  destruct (proc_id p =? pno); cbn [negb]; [|done].
  unfold find_thread; rewrite (walk_spec kt_sib _ _ l) by (try done; unfold list_fuel; pose proof (chain_size kt_sib _ _ _ Hs Hnd); lia). cbn [mbind option_bind].
  destruct (List.find _ l) as [t|] eqn:Ef; [|done]. intros x Hx. apply List.find_some in Ef as [Hin _]. apply list_elem_of_In in Hin.
  destruct (list_elem_of_split _ _ Hin) as (l1 & l2 & ->). exists l1, l2. split; [done|]. cbn [mbind option_bind]. rewrite Hx. cbn [mbind option_bind].
  destruct (sc_state x =? THREAD_STATE_TERMINATED); cbn [negb].
  - destruct (remove_thread_in p l1 t l2 Hl) as (p' & -> & H1 & H2). exists p'. done.
  - destruct (chain_in kt_sib _ _ _ t Hs Hin) as [i Hi]. rewrite Hi. cbn [mbind option_bind]. eexists i, _. done.
Qed.

(** Two threads that join the same thread.  [kt_threadexit] wakes both; the first takes
    the thread off the list, and the second follows a null pointer, whatever happens to
    the locks meanwhile. *)
Theorem second_join_crashes p l t k r v t' p' k' k2 :
  thr_list p l -> join_2 t p k = Some (r, v, t', p', k') -> join_2 t p' k2 = None.
Proof.
  intros Hl. unfold join_2 at 1. destruct (tinf p !! t) as [i|] eqn:Hi; [|done]. cbn [mbind option_bind].
  destruct (unlock (kt_exitlock i) k) as [[z k1]|]; [|done]. cbn [mbind option_bind]. destruct (remove_thread t p) as [p1|] eqn:E; [|done]. cbn [mbind option_bind].
  intros [= <- <- <- <- <-]. destruct (decide (t ∈ l)) as [Hin|]; [|by rewrite (remove_thread_out p l t) in E].
  destruct (list_elem_of_split _ _ Hin) as (l1 & l2 & ->). destruct (remove_thread_in p l1 t l2 Hl) as (p2 & E2 & Hl2 & _). assert (p1 = p2) as -> by congruence.
  unfold join_2. destruct (tinf p2 !! t) as [i2|]; [|done]. cbn [mbind option_bind]. destruct (unlock (kt_exitlock i2) k2) as [[z2 k3]|]; [|done]. cbn [mbind option_bind].
  rewrite (remove_thread_out p2 (l1 ++ l2) t Hl2); [done|]. destruct Hl as [_ Hnd]. apply NoDup_app in Hnd as (_ & Hd & Hnd%NoDup_cons). set_solver.
Qed.

(** * The stack of a new thread *)

Definition slot_free (m : Paging.mem) (pd i : Z) : bool := Paging.page_table_base_addr (Paging.get_pde m pd i) =? 0.

Lemma slot_index i : 0 <= i < 1024 -> Z.land (Z.shiftr (i * 0x400 + 0x3ff) 10) 0x3ff = i.
Proof. intros Hi. rewrite Z.shiftr_div_pow2 by lia. change 0x3ff with (Z.ones 10) at 2. rewrite Z.land_ones by lia. change (2 ^ 10) with 1024. replace ((i * 0x400 + 0x3ff) / 1024) with i by (Z.to_euclidean_division_equations; lia). apply Z.mod_small. lia. Qed.

Lemma find_stack_spec m pd fuel i :
  383 <= i < 1024 -> i - 383 < Z.of_nat fuel ->
  exists j, 383 <= j <= i /\ find_stack fuel m pd (i * 0x400 + 0x3ff) = Some (j * 0x400 + 0x3ff) /\ (forall n, j < n <= i -> slot_free m pd n = false) /\ (383 < j -> slot_free m pd j = true).
Proof.
  revert i. induction fuel as [|fuel IH]; intros i Hi Hf; [lia|]. cbn [find_stack]. destruct (Z.ltb_spec 0x60000 (i * 0x400 + 0x3ff)) as [Hlt|Hge]; cbn [negb].
  - rewrite slot_index by lia. fold (slot_free m pd i). destruct (slot_free m pd i) eqn:Hs.
    + exists i. split_and!; try done; lia.
    + rewrite u32_id by lia. replace (i * 0x400 + 0x3ff - 0x400) with ((i - 1) * 0x400 + 0x3ff) by lia. destruct (IH (i - 1)) as (j & Hj & E & Hn & Hfree); [lia..|].
      exists j. split; [lia|]. split; [done|]. split; [|done]. intros n Hin. destruct (decide (n = i)) as [->|]; [done|apply Hn; lia].
  - exists i. split_and!; try done; lia.
Qed.

(** A new thread's stack.  The search ends, on the highest of the 4 MB slots 384 to 1014
    that has no page table, and the stack is the top 64 KB of that slot; with no such slot
    the call gives [EMAXTHREADS]. *)
Theorem stack_place_highest m pd :
  exists r, stack_place m pd = Some r /\
    match r with
    | inr a => exists i, 384 <= i <= 1014 /\ slot_free m pd i = true /\ (forall j, i < j <= 1014 -> slot_free m pd j = false) /\ a = (i + 1) * 2 ^ 22 - USER_STACK_SIZE
    | inl e => e = EMAXTHREADS /\ forall j, 384 <= j <= 1014 -> slot_free m pd j = false
    end.
Proof.
  unfold stack_place. change (Z.land (Z.shiftr Paging.USERSTACK_SEGMENT_END 12) 0x000fffff - 1) with (1014 * 0x400 + 0x3ff).
  destruct (find_stack_spec m pd 1024 1014) as (j & Hj & -> & Hn & Hfree); [lia..|]. cbn [mbind option_bind]. eexists. split; [reflexivity|].
  destruct (Z.leb_spec (j * 0x400 + 0x3ff) 0x60000) as [Hle|Hgt].
  - split; [done|]. intros n Hin. apply Hn. lia.
  - exists j. split; [lia|]. split; [apply Hfree; lia|]. split; [done|]. unfold USER_STACK_SIZE. rewrite Z.shiftl_mul_pow2 by lia. change (2 ^ 12) with 4096. change (2 ^ 22) with 4194304. rewrite (u32_id ((j * 0x400 + 0x3ff + 1) * 4096)) by lia. rewrite u32_id by lia. lia.
Qed.

(** * Conditions *)

(** Signalling a condition.  The thread that has waited longest, and no other, leaves the
    queue and is made ready; without waiters nothing happens; a null condition gives -1. *)
Theorem cond_signal_wakes_first k e ob :
  lock_inv k -> objs k !! e = Some ob -> sl_type ob = SYNCH_TYPE_EVENT ->
  (forall t x, threads k !! t = Some x -> proc_state k !! kt_process x = Some PROC_STATE_READY) ->
  syscall_pthread_cond_signal NULL k = Some (-1, k) /\
  match sl_waiters ob with
  | [] => syscall_pthread_cond_signal (Some e) k = Some (0, k)
  | t :: q => exists k' y, syscall_pthread_cond_signal (Some e) k = Some (0, k') /\ lock_inv k' /\
      objs k' = <[e := with_waiters q ob]> (objs k) /\ threads k' = <[t := y]> (threads k) /\ sc_state y = THREAD_STATE_READY
  end.
Proof.
  intros [Hk Hrun] Ho Hty Hp. split; [done|]. unfold syscall_pthread_cond_signal. rewrite Ho. cbn [mbind option_bind]. destruct (sl_waiters ob) as [|t q] eqn:Hq; [done|].
  pose proof (lc_wait _ Hk) as Hw. pose proof Hrun as (xc & Hxc & Hsc & Hqc). rewrite (upd_obj_Some _ _ _ _ Ho). cbn [mbind option_bind].
  destruct (wi_sound _ Hw e ob t Ho) as (x & Hx & Hs & Hch); [rewrite Hq; by left|]. set (k1 := set_objs _ k).
  destruct (wakeup_spec k1 t x PROC_STATE_READY) as (k' & y & -> & Hy & Hi' & Hr' & Ht').
  { by apply (rq_inv_ext _ k); [..|apply wait_inv_rq]. } { done. } { rewrite Hs. done. } { by apply (Hp t x). } { eauto. }
  simpl (_ =? _) in Ht'. cbv iota in Ht'. destruct Hr' as (Eps & Eo & Ec & _). simpl in Eps, Eo, Ec.
  pose proof Hy as (p & -> & _). exists k', (readied (with_cpupri p x)). cbn [mbind option_bind]. split; [done|].
  assert (filter (fun z => z <> t) (sl_waiters ob) = q) as Ef.
  { pose proof (wi_nodup _ Hw _ _ Ho) as Hnd. rewrite Hq in *. apply NoDup_cons in Hnd as [Htq _].
    rewrite filter_cons_False by (intros Hn; by apply Hn). apply filter_all. apply Forall_forall. by intros z Hz ->. }
  assert (t <> current_thread k) as Hne by (intros ->; simplify_eq; rewrite Hs in Hsc; done).
  split; [|by split_and!]. split.
  - apply (lock_core_event k k' e ob (with_waiters q ob)); auto.
    + eapply (wake_inv k k' e ob (with_waiters q ob) t); eauto. rewrite Hq. by left.
    + rewrite Ht'. apply runs_on_insert with x; auto.
    + rewrite Ht'. intros t' z. destruct (decide (t' = t)) as [->|]; [rewrite lookup_insert_eq; intros [= <-]; by exists x|rewrite lookup_insert_ne by done; by exists z].
  - exists xc. rewrite Ec, Ht', lookup_insert_ne by done. done.
Qed.

(** * Concrete states: thread 1 arrives at a barrier for two *)

Definition ex_b0 : pthread_barrier_t := syscall_pthread_barrier_init 2.
Definition ex_arrive : option (outcome * pthread_barrier_t * kstate) := syscall_pthread_barrier_wait ex_b0 ex_l.

Lemma ex_b0_inv : bar_inv ex_l ex_b0.
Proof.
  pose proof ex_l_inv as [Hc Hr]. split; [apply Hc|done|apply Hc| |constructor|by intros t ?%elem_of_nil|done|done].
  change (map_Forall (fun t x => proc_state ex_l !! kt_process x = Some PROC_STATE_READY) (threads ex_l)). by apply (bool_decide_unpack _); vm_compute.
Qed.

Lemma ex_not_idle_l : ~ is_idle ex_l (current_thread ex_l).
Proof. eapply ex_not_idle; [vm_compute; reflexivity|reflexivity]. Qed.

Lemma barrier_rounds_witness :
  exists s, rtc bstep (mk_bs ex_l ex_b0 0) s /\ arrived s = 1 /\ zlen (ba_waitq (bb s)) = 1 /\ (forall t, t ∈ ba_waitq (bb s) -> at_barrier (bk s) t) /\
    exists k', syscall_pthread_barrier_wait (bb s) (bk s) = Some (Returned 0, ex_b0, k') /\ forall t, runnable k' t <-> runnable (bk s) t \/ t ∈ ba_waitq (bb s).
Proof.
  destruct ex_arrive as [[[o b'] k']|] eqn:E; [|vm_compute in E; discriminate].
  assert (Hr : rtc bstep (mk_bs ex_l ex_b0 0) (mk_bs k' b' 1)) by (eapply rtc_l; [|apply rtc_refl]; apply (BWait ex_l ex_b0 0 o b' k'); [exact ex_not_idle_l|exact E]).
  destruct (barrier_rounds 2 ex_l (mk_bs k' b' 1) ex_b0_inv Hr) as (Hn & Ha & Hw).
  exists (mk_bs k' b' 1). split; [exact Hr|]. split; [reflexivity|]. split; [exact Hn|]. split; [exact Ha|].
  destruct Hw as (o2 & b2 & k2 & E2 & Ho & Hb & Hrn).
  { intros (y & Hy & Hc). vm_compute in E. injection E as <- <- <-. vm_compute in Hy. injection Hy as <-. discriminate. }
  exists k2. subst o2 b2. split; [exact E2|exact Hrn].
Defined.

Lemma kill_at_barrier_never_ends_witness : exists b k, ex_arrive = Some (Blocked, b, k) /\ 1%positive ∈ ba_waitq b /\ forall fuel, take_off fuel 1 k = None.
Proof.
  destruct (barrier_blocks ex_l ex_b0 ex_b0_inv) as (k & E & Hb & _); [reflexivity|exact ex_not_idle_l|].
  eexists _, k. split; [exact E|]. split; [apply list_elem_of_here|]. intros fuel. apply (kill_at_barrier_never_ends k _ 1 fuel Hb). apply list_elem_of_here.
Defined.

(** Process 3 with threads 1, 2 and 3, numbered 0, 1 and 2; thread 2 has ended. *)
Definition ex_info (id : Z) (sib : ptr) (ex : loc) : tinfo := mk_ti id sib 7 1 ex 11.
Definition ex_proc : proc := mk_proc 3 (Some 1%positive) (list_to_map [(1%positive, ex_info 0 (Some 2%positive) 10); (2%positive, ex_info 1 (Some 3%positive) 10); (3%positive, ex_info 2 NULL 10)]).
Definition ex_t (s : Z) : kthread := with_state s (default (mk_thr 2 0 105 0 0 0 100 0 0 5980 NULL NULL 1) (threads ex_l !! 2%positive)).
Definition ex_ended : kstate := set_threads (<[2%positive := ex_t THREAD_STATE_TERMINATED]> (threads ex_l)) ex_l.

Lemma ex_proc_list : thr_list ex_proc [1; 2; 3]%positive.
Proof. split; [vm_compute; eauto 20|]. by apply (bool_decide_unpack _); vm_compute. Qed.

Lemma detach_unlinks_witness :
  exists p', syscall_pthread_detach 0x30001 ex_proc ex_ended = Some (0, Some 2%positive, p') /\ thr_list p' [1; 3]%positive /\ same_info ex_proc p'.
Proof.
  destruct (detach_unlinks 0x30001 ex_proc ex_ended _ ex_proc_list (ex_t THREAD_STATE_TERMINATED)) as (l1 & l2 & E & H); [reflexivity|].
  destruct l1 as [|a [|b [|c [|d l1]]]]; try discriminate E; injection E; intros; subst; try discriminate. exact H.
Defined.

Lemma second_join_crashes_witness :
  exists p' k', join_2 2 ex_proc ex_h1 = Some (0, 7, 2%positive, p', k') /\ forall k2, join_2 2 p' k2 = None.
Proof.
  destruct (join_2 2 ex_proc ex_h1) as [[[[[r v] t'] p'] k']|] eqn:E; [|vm_compute in E; discriminate].
  exists p', k'. split; [vm_compute in E; injection E; intros; subst; reflexivity|]. intros k2. exact (second_join_crashes ex_proc _ 2 ex_h1 r v t' p' k' k2 ex_proc_list E).
Defined.

Lemma cond_signal_wakes_first_witness : syscall_pthread_cond_signal NULL ex_l = Some (-1, ex_l) /\ syscall_pthread_cond_signal (Some 11%positive) ex_l = Some (0, ex_l).
Proof. apply (cond_signal_wakes_first ex_l 11 eventobj_init ex_l_inv); [reflexivity|reflexivity|exact (bi_procs _ _ ex_b0_inv)]. Defined.

End Pthread.
