(* ===== verification/Process.v ===== *)
(** Processes and their threads ([src/base/process.c]): the tables of descriptors and task
    states, the pools of process and thread blocks, creation, termination, the thread that
    takes terminated threads and processes apart, [wait], [kill] and [getpids].  Queues and
    events are those of Sched.v and Lock.v; a lock that only guards a list of this file is
    taken without waiting.  What the code asks of other parts (sockets, files, memory) is
    kept in [calls], in order. *)
From Stdlib Require Import Sorting.Sorted.
From S2P Require Import Prelude Timer Queue Chain Sched Lock CoreAlloc MemList Kmalloc KernelHeap Paging Pthread.

Module Process.
Import Sched Lock.

(** * Data *)

Record process := mk_pr {
  proc_id : Z; proc_type : Z; proc_ldtindex : Z; proc_thrno : Z; proc_waitable : Z; proc_exitstatus : Z;
  proc_vm : loc; root_dir : ptr; current_dir : ptr; fhandles : list Z; proc_exitevent : loc; proc_childtermevent : loc;
  proc_threadptr : ptr; proc_parent : ptr; proc_childlist : ptr; proc_sib : ptr; proc_next : ptr; proc_prev : ptr }.

(** The fields of [struct kthread] that are not in [Sched.kthread]; [kt_tss] is an index
    of [tss_table], [kt_qnext] the link of the unused threads. *)
Record thread := mk_th {
  kt_threadid : Z; kt_type : Z; kt_tssdesc : Z; kt_tss : Z; kt_ustackstart : Z; kt_defsock : ptr; kt_terminatelock : Z;
  kt_threadjoinable : Z; kt_exitstatus : Z; kt_threadexit : loc; kt_sib : ptr; kt_uselist : ptr; kt_qnext : ptr }.

Inductive call :=
| DeleteSocket (s : loc) | VmDelRegionEnd (vm : loc) (a : Z) | SyscallClose (i : Z) | DropVnode (v : loc) | HoldVnode (v : loc)
| VmDestroy (vm : loc) | Kfree (p : loc) | ChangeScreen (p : ptr) | IncrementRef (h : Z).

Record pst := mk_ps {
  kst : kstate; procs : gmap loc process; thrs : gmap loc thread;
  used_processes : ptr; suspended_processes : ptr; unused_processes : ptr; unusedproc_count : Z;
  used_threads : ptr; terminated_threads : ptr; unused_threads : ptr; unusedthr_count : Z;
  tss_res1 : list Z; gdt_table : list Paging.segdesc; ldt_table : list Paging.LDT;
  current_process : loc; kbd_focus : ptr; terminatehandler_event : loc; calls : list call }.

Definition set_kst x s := mk_ps x (procs s) (thrs s) (used_processes s) (suspended_processes s) (unused_processes s) (unusedproc_count s) (used_threads s) (terminated_threads s) (unused_threads s) (unusedthr_count s) (tss_res1 s) (gdt_table s) (ldt_table s) (current_process s) (kbd_focus s) (terminatehandler_event s) (calls s).
Definition set_procs x s := mk_ps (kst s) x (thrs s) (used_processes s) (suspended_processes s) (unused_processes s) (unusedproc_count s) (used_threads s) (terminated_threads s) (unused_threads s) (unusedthr_count s) (tss_res1 s) (gdt_table s) (ldt_table s) (current_process s) (kbd_focus s) (terminatehandler_event s) (calls s).
Definition set_thrs x s := mk_ps (kst s) (procs s) x (used_processes s) (suspended_processes s) (unused_processes s) (unusedproc_count s) (used_threads s) (terminated_threads s) (unused_threads s) (unusedthr_count s) (tss_res1 s) (gdt_table s) (ldt_table s) (current_process s) (kbd_focus s) (terminatehandler_event s) (calls s).
Definition set_used x s := mk_ps (kst s) (procs s) (thrs s) x (suspended_processes s) (unused_processes s) (unusedproc_count s) (used_threads s) (terminated_threads s) (unused_threads s) (unusedthr_count s) (tss_res1 s) (gdt_table s) (ldt_table s) (current_process s) (kbd_focus s) (terminatehandler_event s) (calls s).
Definition set_suspended x s := mk_ps (kst s) (procs s) (thrs s) (used_processes s) x (unused_processes s) (unusedproc_count s) (used_threads s) (terminated_threads s) (unused_threads s) (unusedthr_count s) (tss_res1 s) (gdt_table s) (ldt_table s) (current_process s) (kbd_focus s) (terminatehandler_event s) (calls s).
Definition set_unused x n s := mk_ps (kst s) (procs s) (thrs s) (used_processes s) (suspended_processes s) x n (used_threads s) (terminated_threads s) (unused_threads s) (unusedthr_count s) (tss_res1 s) (gdt_table s) (ldt_table s) (current_process s) (kbd_focus s) (terminatehandler_event s) (calls s).
Definition set_usedthr x s := mk_ps (kst s) (procs s) (thrs s) (used_processes s) (suspended_processes s) (unused_processes s) (unusedproc_count s) x (terminated_threads s) (unused_threads s) (unusedthr_count s) (tss_res1 s) (gdt_table s) (ldt_table s) (current_process s) (kbd_focus s) (terminatehandler_event s) (calls s).
Definition set_termthr x s := mk_ps (kst s) (procs s) (thrs s) (used_processes s) (suspended_processes s) (unused_processes s) (unusedproc_count s) (used_threads s) x (unused_threads s) (unusedthr_count s) (tss_res1 s) (gdt_table s) (ldt_table s) (current_process s) (kbd_focus s) (terminatehandler_event s) (calls s).
Definition set_unusedthr x n s := mk_ps (kst s) (procs s) (thrs s) (used_processes s) (suspended_processes s) (unused_processes s) (unusedproc_count s) (used_threads s) (terminated_threads s) x n (tss_res1 s) (gdt_table s) (ldt_table s) (current_process s) (kbd_focus s) (terminatehandler_event s) (calls s).
Definition set_tss x s := mk_ps (kst s) (procs s) (thrs s) (used_processes s) (suspended_processes s) (unused_processes s) (unusedproc_count s) (used_threads s) (terminated_threads s) (unused_threads s) (unusedthr_count s) x (gdt_table s) (ldt_table s) (current_process s) (kbd_focus s) (terminatehandler_event s) (calls s).
Definition set_gdt x s := mk_ps (kst s) (procs s) (thrs s) (used_processes s) (suspended_processes s) (unused_processes s) (unusedproc_count s) (used_threads s) (terminated_threads s) (unused_threads s) (unusedthr_count s) (tss_res1 s) x (ldt_table s) (current_process s) (kbd_focus s) (terminatehandler_event s) (calls s).
Definition set_ldt x s := mk_ps (kst s) (procs s) (thrs s) (used_processes s) (suspended_processes s) (unused_processes s) (unusedproc_count s) (used_threads s) (terminated_threads s) (unused_threads s) (unusedthr_count s) (tss_res1 s) (gdt_table s) x (current_process s) (kbd_focus s) (terminatehandler_event s) (calls s).
Definition set_focus x s := mk_ps (kst s) (procs s) (thrs s) (used_processes s) (suspended_processes s) (unused_processes s) (unusedproc_count s) (used_threads s) (terminated_threads s) (unused_threads s) (unusedthr_count s) (tss_res1 s) (gdt_table s) (ldt_table s) (current_process s) x (terminatehandler_event s) (calls s).
Definition say c s := mk_ps (kst s) (procs s) (thrs s) (used_processes s) (suspended_processes s) (unused_processes s) (unusedproc_count s) (used_threads s) (terminated_threads s) (unused_threads s) (unusedthr_count s) (tss_res1 s) (gdt_table s) (ldt_table s) (current_process s) (kbd_focus s) (terminatehandler_event s) (calls s ++ c).

Definition set_links (tp parent child sib nx pv : ptr) (x : process) : process :=
  mk_pr (proc_id x) (proc_type x) (proc_ldtindex x) (proc_thrno x) (proc_waitable x) (proc_exitstatus x) (proc_vm x) (root_dir x) (current_dir x) (fhandles x) (proc_exitevent x) (proc_childtermevent x) tp parent child sib nx pv.
Definition with_threadptr p x := set_links p (proc_parent x) (proc_childlist x) (proc_sib x) (proc_next x) (proc_prev x) x.
Definition with_parent p x := set_links (proc_threadptr x) p (proc_childlist x) (proc_sib x) (proc_next x) (proc_prev x) x.
Definition with_childlist p x := set_links (proc_threadptr x) (proc_parent x) p (proc_sib x) (proc_next x) (proc_prev x) x.
Definition with_psib p x := set_links (proc_threadptr x) (proc_parent x) (proc_childlist x) p (proc_next x) (proc_prev x) x.
Definition with_pnext p x := set_links (proc_threadptr x) (proc_parent x) (proc_childlist x) (proc_sib x) p (proc_prev x) x.
Definition with_pprev p x := set_links (proc_threadptr x) (proc_parent x) (proc_childlist x) (proc_sib x) (proc_next x) p x.
Definition with_files r c fh x :=
  mk_pr (proc_id x) (proc_type x) (proc_ldtindex x) (proc_thrno x) (proc_waitable x) (proc_exitstatus x) (proc_vm x) r c fh (proc_exitevent x) (proc_childtermevent x) (proc_threadptr x) (proc_parent x) (proc_childlist x) (proc_sib x) (proc_next x) (proc_prev x).
Definition with_exitstatus v x :=
  mk_pr (proc_id x) (proc_type x) (proc_ldtindex x) (proc_thrno x) (proc_waitable x) v (proc_vm x) (root_dir x) (current_dir x) (fhandles x) (proc_exitevent x) (proc_childtermevent x) (proc_threadptr x) (proc_parent x) (proc_childlist x) (proc_sib x) (proc_next x) (proc_prev x).

Definition set_tlinks (tss tlock join : Z) (sib use nx : ptr) (x : thread) : thread :=
  mk_th (kt_threadid x) (kt_type x) (kt_tssdesc x) tss (kt_ustackstart x) (kt_defsock x) tlock join (kt_exitstatus x) (kt_threadexit x) sib use nx.
Definition with_tss v x := set_tlinks v (kt_terminatelock x) (kt_threadjoinable x) (kt_sib x) (kt_uselist x) (kt_qnext x) x.
Definition with_tlock v x := set_tlinks (kt_tss x) v (kt_threadjoinable x) (kt_sib x) (kt_uselist x) (kt_qnext x) x.
Definition with_joinable v x := set_tlinks (kt_tss x) (kt_terminatelock x) v (kt_sib x) (kt_uselist x) (kt_qnext x) x.
Definition with_tsib p x := set_tlinks (kt_tss x) (kt_terminatelock x) (kt_threadjoinable x) p (kt_uselist x) (kt_qnext x) x.
Definition with_uselist p x := set_tlinks (kt_tss x) (kt_terminatelock x) (kt_threadjoinable x) (kt_sib x) p (kt_qnext x) x.
Definition with_qnext p x := set_tlinks (kt_tss x) (kt_terminatelock x) (kt_threadjoinable x) (kt_sib x) (kt_uselist x) p x.

(** Stores through a process pointer, a thread pointer, and into the scheduler's state. *)
Definition upd_proc (p : loc) (f : process -> process) (s : pst) : option pst := x ← procs s !! p; Some (set_procs (<[p := f x]> (procs s)) s).
Definition upd_th (t : loc) (f : thread -> thread) (s : pst) : option pst := x ← thrs s !! t; Some (set_thrs (<[t := f x]> (thrs s)) s).
Definition in_k (f : kstate -> option kstate) (s : pst) : option pst := k ← f (kst s); Some (set_kst k s).
Definition state_of (t : loc) (s : pst) : option Z := x ← threads (kst s) !! t; Some (sc_state x).
Definition pfuel (s : pst) : nat := size (procs s).
Definition tfuel (s : pst) : nat := size (thrs s).

Definition PROC_STATE_SUSPENDED : Z := 1.
Definition PROC_STATE_TERMINATED : Z := 5.
Definition THREAD_STATE_TERMINATING : Z := Pthread.THREAD_STATE_TERMINATING.
Definition THREAD_STATE_TERMINATED : Z := Pthread.THREAD_STATE_TERMINATED.
Definition MAXTHREADS : Z := 256.
Definition MAXPROCFILES : nat := 20.
Definition UNUSEDPROC_COUNTMAX : Z := 10.
Definition UNUSEDTHR_COUNTMAX : Z := 25.
Definition TASKDESC_START : Z := 20.
Definition TASKDESC_END : Z := 275.
Definition EMAXTHREADS : Z := -104.
Definition EMAXPROCESSES : Z := -108.
Definition EINVALIDPID : Z := -93.
Definition ENOCHILD : Z := -109.
Definition ENOMEM : Z := -2.

(** * Tables *)

(** The second word of a descriptor. *)
Definition desc_b (d : Paging.segdesc) : Z :=
  Paging.base_middle d + 2 ^ 8 * Paging.access d + 2 ^ 16 * Paging.granularity d + 2 ^ 24 * Paging.base_high d.
Definition set_b (v : Z) (d : Paging.segdesc) : Paging.segdesc :=
  Paging.mk_segdesc (Paging.limit_low d) (Paging.base_low d) (u8 v) (u8 (Z.shiftr v 8)) (u8 (Z.shiftr v 16)) (u8 (Z.shiftr v 24)).
Definition set_code_b (v : Z) (l : Paging.LDT) : Paging.LDT := Paging.mk_LDT (set_b v (Paging.code l)) (Paging.data l) (Paging.stack_user l).

(** [for (i = ...; i < i + n; i++) if (free(table[i])) break;] *)
Fixpoint scan {A} (n : nat) (free : A -> bool) (i : Z) (l : list A) : option Z :=
  match n with
  | O => Some i
  | S n => x ← zget l i; if free x then Some i else scan n free (i + 1) l
  end.

Definition alloc_task_index (s : pst) : option (Z * pst) :=
  i ← scan 256 (fun d => desc_b d =? 0) TASKDESC_START (gdt_table s);
  if i <=? TASKDESC_END then d ← zget (gdt_table s) i; g ← zset (gdt_table s) i (set_b 1 d); Some (i, set_gdt g s)
  else Some (-1, s).
Definition initialize_tss_table (s : pst) : pst := set_tss (replicate 256 0xffff) s.
Definition alloc_tss (s : pst) : option (Z * pst) :=
  i ← scan 256 (fun r => r =? 0xffff) 0 (tss_res1 s);
  if i <? MAXTHREADS then r ← zset (tss_res1 s) i 0; Some (i, set_tss r s) else Some (-1, s).
Definition alloc_ldt_index (s : pst) : option (Z * pst) :=
  i ← scan 32 (fun l => desc_b (Paging.code l) =? 0) 0 (ldt_table s);
  if i <? Paging.MAXPROCESSES then l ← zget (ldt_table s) i; t ← zset (ldt_table s) i (set_code_b 1 l); Some (i, set_ldt t s)
  else Some (-1, s).
Definition free_task_index (ind : Z) (s : pst) : option pst := d ← zget (gdt_table s) ind; g ← zset (gdt_table s) ind (set_b 0 d); Some (set_gdt g s).
Definition free_ldt_index (ind : Z) (s : pst) : option pst := l ← zget (ldt_table s) ind; t ← zset (ldt_table s) ind (set_code_b 0 l); Some (set_ldt t s).

(** * Pools of blocks *)

(** The blocks that [kmalloc] gives, null or with the contents that they happen to have. *)
Record pblock := mk_pb { pb_proc : option (loc * process); pb_out : ptr; pb_in : ptr; pb_files : ptr }.
Definition zero_files : process -> process := with_files NULL NULL (replicate MAXPROCFILES 0).
Definition kfree_opt (p : ptr) : list call := match p with Some p => [Kfree p] | None => [] end.

Definition alloc_process (b : pblock) (s : pst) : option (ptr * pst) :=
  match unused_processes s with
  | Some p =>
      x ← procs s !! p;
      let s := set_unused (proc_next x) (unusedproc_count s - 1) s in
      s ← (match unused_processes s with Some q => upd_proc q (with_pprev NULL) s | None => Some s end);
      s ← upd_proc p (fun x => zero_files (with_pnext NULL x)) s;
      Some (Some p, s)
  | None =>
      match pb_proc b, pb_out b, pb_in b, pb_files b with
      | Some (p, x), Some _, Some _, Some _ => Some (Some p, set_procs (<[p := zero_files x]> (procs s)) s)
      | _, _, _, _ => Some (NULL, say (kfree_opt (fst <$> pb_proc b) ++ kfree_opt (pb_out b) ++ kfree_opt (pb_in b) ++ kfree_opt (pb_files b)) s)
      end
  end.

(** Freed memory is no longer in the map. *)
Definition destroy_process (p : loc) (s : pst) : option pst :=
  if unusedproc_count s <? UNUSEDPROC_COUNTMAX then
    s ← upd_proc p (with_pnext (unused_processes s)) s;
    s ← upd_proc p (with_pprev NULL) s;
    s ← (match unused_processes s with Some q => upd_proc q (with_pprev (Some p)) s | None => Some s end);
    Some (set_unused (Some p) (unusedproc_count s + 1) s)
  else
    _ ← procs s !! p;
    Some (say [Kfree p] (set_procs (delete p (procs s)) s)).

Definition alloc_thread (b : option (loc * thread * kthread)) (s : pst) : option (ptr * pst) :=
  '(i, s) ← alloc_tss s;
  if i <? 0 then Some (NULL, s) else
  match unused_threads s with
  | Some t =>
      x ← thrs s !! t;
      let s := set_unusedthr (kt_qnext x) (unusedthr_count s - 1) s in
      s ← upd_th t (fun x => with_tss i (with_qnext NULL x)) s;
      Some (Some t, s)
  | None =>
      match b with
      | Some (t, x, y) => Some (Some t, set_kst (set_threads (<[t := y]> (threads (kst s))) (kst s)) (set_thrs (<[t := with_tss i x]> (thrs s)) s))
      | None => r ← zset (tss_res1 s) i 0xffff; Some (NULL, set_tss r s)
      end
  end.

Definition destroy_thread (t : loc) (s : pst) : option pst :=
  x ← thrs s !! t;
  r ← zset (tss_res1 s) (kt_tss x) 0xffff;
  let s := set_tss r s in
  if unusedthr_count s <? UNUSEDTHR_COUNTMAX then
    s ← upd_th t (with_qnext (unused_threads s)) s;
    in_k (upd_thr t (with_state THREAD_STATE_TERMINATED)) (set_unusedthr (Some t) (unusedthr_count s + 1) s)
  else Some (say [Kfree t] (set_kst (set_threads (delete t (threads (kst s))) (kst s)) (set_thrs (delete t (thrs s)) s))).

(** * Creation *)

Definition SCHED_CLASS_INTERRUPT : Z := 1.
Definition SCHED_CLASS_SYSTEM : Z := 2.
Definition SCHED_CLASS_USER : Z := 3.
Definition TSS_TYPE : Z := 9.
Definition SIZEOF_TSS : Z := 104.
Definition init_event (e : loc) (k : kstate) : kstate := set_objs (<[e := eventobj_init]> (objs k)) k.

(** [tss_table] is the address of the table; the registers in the task state are not kept.
    [sock] is what [create_defsock] gives. *)
Definition create_thread (b : option (loc * thread * kthread)) (tss_table : Z) (sock : ptr) (p : loc) (scid priority stck_top threadno : Z) (s : pst) : option (Z * pst) :=
  '(thrslot, s) ← alloc_task_index s;
  if thrslot <? 0 then Some (EMAXTHREADS, s) else
  '(thr, s) ← alloc_thread b s;
  match thr with
  | None => s ← free_task_index thrslot s; Some (ENOMEM, s)
  | Some t =>
      x ← thrs s !! t; y ← threads (kst s) !! t; pr ← procs s !! p;
      d ← zget (gdt_table s) thrslot;
      let d := Paging.initialize_dataseg d (u32 (tss_table + SIZEOF_TSS * kt_tss x)) SIZEOF_TSS 0 in
      let d := Paging.mk_segdesc (Paging.limit_low d) (Paging.base_low d) (Paging.base_middle d) (Z.lor Paging.PRESENT TSS_TYPE) (Paging.granularity d) (Paging.base_high d) in
      g ← zset (gdt_table s) thrslot d;
      let s := set_gdt g s in
      let cpupri := if scid =? SCHED_CLASS_SYSTEM then s16 priority else if scid =? SCHED_CLASS_USER then 10 else if scid =? SCHED_CLASS_INTERRUPT then 130 else sc_cpupri y in
      let y := mk_thr (s16 scid) (s16 priority) cpupri 0 (sc_reccpuusage y) THREAD_STATE_READY TIME_QUANTUM 0 0 0 NULL NULL p in
      let s := set_kst (init_event (kt_threadexit x) (set_threads (<[t := y]> (threads (kst s))) (kst s))) s in
      let ustack := if negb (proc_type pr =? Paging.PROC_TYPE_SYSTEM) then u32 (stck_top - 1) else 0 in
      let s := set_thrs (<[t := mk_th (u16 threadno) (u16 (proc_type pr)) (thrslot * 8) (kt_tss x) ustack sock 0 1 0 (kt_threadexit x) (proc_threadptr pr) (used_threads s) (kt_qnext x)]> (thrs s)) s in
      s ← upd_proc p (with_threadptr (Some t)) s;
      let s := set_usedthr (Some t) s in
      s ← in_k (add_readyq t) s;
      Some (0, s)
  end.

(** * Termination of threads and processes *)

(** Out of [used_threads]. *)
Definition unlink_used (t : loc) (s : pst) : option pst :=
  x ← thrs s !! t;
  if bool_decide (used_threads s = Some t) then Some (set_usedthr (kt_uselist x) s) else
  t1 ← walk kt_uselist (tfuel s) (fun _ y => bool_decide (kt_uselist y = Some t)) (thrs s) (used_threads s);
  match t1 with
  | Some t1 => upd_th t1 (with_uselist (kt_uselist x)) s
  | None => Some s
  end.
(** Onto [terminated_threads], with a signal to the thread that takes it from there. *)
Definition push_terminated (t : loc) (s : pst) : option pst :=
  s ← upd_th t (with_uselist (terminated_threads s)) s;
  s ← in_k (upd_thr t (with_state THREAD_STATE_TERMINATING)) (set_termthr (Some t) s);
  in_k (fun k => '(_, k) ← event_wakeup (terminatehandler_event s) k; Some k) s.

(** A thread that ends itself does not come back from [scheduler()].  A turn of the loop
    that takes another thread off its queue and finds nothing is followed by the same. *)
Definition terminate_thread (t : loc) (s : pst) : option (outcome * pst) :=
  x ← thrs s !! t;
  if negb (kt_terminatelock x =? 0) then Some (Returned (-1), s) else
  s ← upd_th t (with_tlock 1) s;
  s ← unlink_used t s;
  if bool_decide (t = current_thread (kst s)) then
    s ← push_terminated t s;
    s ← in_k scheduler s;
    Some (Blocked, s)
  else
    s ← in_k (Pthread.take_off 1 t) s;
    s ← push_terminated t s;
    Some (Returned 0, s).

Fixpoint terminate_loop (fuel : nat) (t1 : ptr) (s : pst) : option pst :=
  match t1 with
  | None => Some s
  | Some t2 =>
      match fuel with
      | O => None
      | S fuel =>
          x ← thrs s !! t2; st ← state_of t2 s;
          s ← (if negb (bool_decide (t2 = current_thread (kst s))) && negb (st =? THREAD_STATE_TERMINATING) && negb (st =? THREAD_STATE_TERMINATED)
               then '(_, s) ← terminate_thread t2 s; Some s else Some s);
          terminate_loop fuel (kt_sib x) s
      end
  end.
Definition terminate_process (p : loc) (s : pst) : option (outcome * pst) :=
  x ← procs s !! p;
  let s := if bool_decide (kbd_focus s = Some p) then set_focus (proc_parent x) (say [ChangeScreen (proc_parent x)] s) else s in
  s ← terminate_loop (tfuel s) (proc_threadptr x) s;
  y ← threads (kst s) !! current_thread (kst s);
  if bool_decide (kt_process y = p) then terminate_thread (current_thread (kst s)) s else Some (Returned 0, s).

Fixpoint exit_loop (fuel : nat) (kt1 : ptr) (s : pst) : option pst :=
  match kt1 with
  | None => Some s
  | Some t =>
      match fuel with
      | O => None
      | S fuel =>
          x ← thrs s !! t;
          if bool_decide (t = current_thread (kst s)) then exit_loop fuel (kt_sib x) s else
          st ← state_of t s;
          s ← (if negb (st =? THREAD_STATE_TERMINATING) && negb (st =? THREAD_STATE_TERMINATED)
               then s ← upd_th t (with_joinable 0) s; '(_, s) ← terminate_thread t s; Some s else Some s);
          exit_loop fuel (kt_sib x) s
      end
  end.
Definition syscall_exit (status : Z) (s : pst) : option (outcome * pst) :=
  x ← procs s !! current_process s;
  s ← exit_loop (tfuel s) (proc_threadptr x) s;
  s ← upd_proc (current_process s) (with_exitstatus status) s;
  terminate_thread (current_thread (kst s)) s.

(** * Creation of a process *)

Record process_param := mk_pp { cs_start : Z; cs_size : Z; ss3_start : Z; ss3_size : Z; mainthrno : Z; vminfo : loc }.
Definition hold_vnode (v : ptr) : list call := match v with Some v => [HoldVnode v] | None => [] end.
Definition ref_calls (fh : list Z) : list call := IncrementRef <$> filter (fun h => 0 <= h) fh.

(** In front of [used_processes]. *)
Definition push_used (p : loc) (s : pst) : option pst :=
  s ← (match used_processes s with Some q => upd_proc q (with_pprev (Some p)) s | None => Some s end);
  s ← upd_proc p (with_pnext (used_processes s)) s;
  Some (set_used (Some p) s).

(** [cwd] and [root] are what [get_curdir] and [get_rootdir] give. *)
Definition create_process (b : pblock) (tb : option (loc * thread * kthread)) (tss_table : Z) (sock cwd root : ptr) (tparam : process_param) (type priority procno : Z) (s : pst)
  : option (Z * pst) :=
  '(pslot, s) ← alloc_ldt_index s;
  if pslot <? 0 then Some (EMAXPROCESSES, s) else
  '(proc, s) ← alloc_process b s;
  match proc with
  | None => s ← free_ldt_index pslot s; Some (ENOMEM, s)
  | Some p =>
      x ← procs s !! p; cur ← procs s !! current_process s;
      l ← zget (ldt_table s) pslot;
      tbl ← zset (ldt_table s) pslot (Paging.initialize_ldt l (cs_start tparam) (cs_size tparam) type);
      let s := say (hold_vnode cwd ++ hold_vnode root ++ ref_calls (fhandles cur)) (set_ldt tbl s) in
      let s := set_kst (set_proc_state (<[p := PROC_STATE_READY]> (proc_state (kst s))) (init_event (proc_exitevent x) (init_event (proc_childtermevent x) (kst s)))) s in
      let s := set_procs (<[p := mk_pr (u16 procno) type pslot (mainthrno tparam) 1 0 (vminfo tparam) root cwd (fhandles cur) (proc_exitevent x) (proc_childtermevent x)
                              NULL (Some (current_process s)) NULL (proc_childlist cur) (proc_next x) NULL]> (procs s)) s in
      s ← upd_proc (current_process s) (with_childlist (Some p)) s;
      s ← push_used p s;
      '(ret, s) ← create_thread tb tss_table sock p (if type =? Paging.PROC_TYPE_SYSTEM then SCHED_CLASS_SYSTEM else SCHED_CLASS_USER) priority
                    (u32 (ss3_start tparam + ss3_size tparam)) (mainthrno tparam) s;
      if ret <? 0 then '(_, s) ← terminate_process p s; Some (ret, s) else Some (ret, s)
  end.

(** * The thread that takes terminated threads apart *)

Fixpoint release_objects (fuel : nat) (t : loc) (k : kstate) : option kstate :=
  x ← threads k !! t;
  match kt_synchobjlist x with
  | None => Some k
  | Some o =>
      match fuel with
      | O => None
      | S fuel => ob ← objs k !! o; k ← upd_thr t (with_synchobjlist (sl_next ob)) k; k ← releasesynch_object o k; release_objects fuel t k
      end
  end.
(** Out of the list of its process, which may not hold it. *)
Definition unlink_sib (t p : loc) (s : pst) : option pst :=
  x ← thrs s !! t; pr ← procs s !! p;
  s ← (if bool_decide (proc_threadptr pr = Some t) then upd_proc p (with_threadptr (kt_sib x)) s else
       t1 ← walk kt_sib (tfuel s) (fun _ y => bool_decide (kt_sib y = Some t)) (thrs s) (proc_threadptr pr);
       match t1 with Some t1 => upd_th t1 (with_tsib (kt_sib x)) s | None => Some s end);
  upd_th t (with_tsib NULL) s.
(** [kt_ustackstart] is unsigned, so that [>= 0] always holds. *)
Definition reap_thread (t p : loc) (s : pst) : option pst :=
  x ← thrs s !! t; pr ← procs s !! p;
  let s := match kt_defsock x with Some so => say [DeleteSocket so] s | None => s end in
  s ← free_task_index (cdiv (kt_tssdesc x) 8) s;
  s ← in_k (fun k => release_objects (S (size (objs k))) t k) s;
  let s := if 0 <=? kt_ustackstart x then say [VmDelRegionEnd (proc_vm pr) (kt_ustackstart x)] s else s in
  if kt_threadjoinable x =? 0 then s ← unlink_sib t p s; destroy_thread t s
  else
    s ← in_k (upd_thr t (with_state THREAD_STATE_TERMINATED)) s;
    in_k (fun k => '(_, k) ← event_wakeup (kt_threadexit x) k; Some k) s.

(** [term_proc_flag]: no thread of the list has another state than terminated. *)
Definition all_terminated (p : loc) (s : pst) : option bool :=
  pr ← procs s !! p;
  t1 ← walk kt_sib (tfuel s) (fun t _ => negb (bool_decide (state_of t s = Some THREAD_STATE_TERMINATED))) (thrs s) (proc_threadptr pr);
  Some (bool_decide (t1 = NULL)).

Fixpoint destroy_threads (fuel : nat) (t1 : ptr) (s : pst) : option pst :=
  match t1 with
  | None => Some s
  | Some t2 =>
      match fuel with
      | O => None
      | S fuel => x ← thrs s !! t2; s ← destroy_thread t2 s; destroy_threads fuel (kt_sib x) s
      end
  end.
Definition close_calls (fh : list Z) : list call :=
  flat_map (fun i => match zget fh (Z.of_nat i) with Some h => if 0 <=? h then [SyscallClose (Z.of_nat i)] else [] | None => [] end) (seq 0 MAXPROCFILES).
Definition drop_vnode (v : ptr) : list call := match v with Some v => [DropVnode v] | None => [] end.

(** The [while] over the children: [p1] is the child and [p2] the last live child. *)
Fixpoint adopt_loop (fuel : nat) (p : loc) (parent : ptr) (p1 p2 : ptr) (s : pst) : option (ptr * pst) :=
  match p1 with
  | None => Some (p2, s)
  | Some c =>
      match fuel with
      | O => None
      | S fuel =>
          x ← procs s !! c;
          st ← proc_state (kst s) !! c;
          if st =? PROC_STATE_TERMINATED then
            s ← (match p2 with None => upd_proc p (with_childlist (proc_sib x)) s | Some q => upd_proc q (with_psib (proc_sib x)) s end);
            s ← destroy_process c s;
            adopt_loop fuel p parent (proc_sib x) p2 s
          else
            s ← upd_proc c (with_parent parent) s;
            adopt_loop fuel p parent (proc_sib x) (Some c) s
      end
  end.
(** The live children go to the parent. *)
Definition adopt (p parent : loc) (s : pst) : option pst :=
  x ← procs s !! p;
  match proc_childlist x with
  | None => Some s
  | Some _ =>
      '(p2, s) ← adopt_loop (pfuel s) p (Some parent) (proc_childlist x) NULL s;
      s ← (match p2 with
           | Some q =>
               px ← procs s !! parent;
               s ← upd_proc q (with_psib (proc_childlist px)) s;
               x ← procs s !! p;
               upd_proc parent (with_childlist (proc_childlist x)) s
           | None => Some s
           end);
      upd_proc p (with_childlist NULL) s
  end.
(** Out of the list of children of [q]. *)
Definition unlink_child (p q : loc) (s : pst) : option pst :=
  x ← procs s !! p; y ← procs s !! q;
  p1 ← walk_prev proc_sib (pfuel s) p (procs s) NULL (proc_childlist y);
  s ← (match p1 with None => upd_proc q (with_childlist (proc_sib x)) s | Some p1 => upd_proc p1 (with_psib (proc_sib x)) s end);
  upd_proc p (with_psib NULL) s.

Definition end_process (p : loc) (s : pst) : option pst :=
  x ← procs s !! p;
  s ← destroy_threads (tfuel s) (proc_threadptr x) s;
  let s := say (close_calls (fhandles x) ++ drop_vnode (current_dir x) ++ drop_vnode (root_dir x) ++ [VmDestroy (proc_vm x)]) s in
  parent ← proc_parent x; px ← procs s !! parent;
  s ← adopt p parent s;
  if proc_waitable x =? 1 then
    let s := set_kst (set_proc_state (<[p := PROC_STATE_TERMINATED]> (proc_state (kst s))) (kst s)) s in
    s ← in_k (fun k => '(_, k) ← event_wakeup (proc_exitevent x) k; Some k) s;
    in_k (fun k => '(_, k) ← event_wakeup (proc_childtermevent px) k; Some k) s
  else
    s ← unlink_child p parent s; destroy_process p s.

(** A turn of [thread_terminate_handler] with a thread to take apart. *)
Definition handler_turn (s : pst) : option pst :=
  match terminated_threads s with
  | None => Some s
  | Some t =>
      x ← thrs s !! t;
      let s := set_termthr (kt_uselist x) s in
      y ← threads (kst s) !! t;
      let p := kt_process y in
      s ← reap_thread t p s;
      flag ← all_terminated p s;
      if (flag : bool) then end_process p s else Some s
  end.

(** * System calls *)

(** [syscall_wait] until it sleeps or ends.  Where no child has ended [proc] is null and
    [proc->proc_childlist] is read all the same: page 0 is mapped, and [low] is the word of
    low memory that is there. *)
Definition syscall_wait (low : Z) (childlistlock : loc) (s : pst) : option (outcome * option Z * pst) :=
  c ← procs s !! current_process s;
  proc ← walk proc_sib (pfuel s) (fun p _ => bool_decide (proc_state (kst s) !! p = Some PROC_STATE_TERMINATED)) (procs s) (proc_childlist c);
  match proc with
  | None =>
      if low =? 0 then Some (Returned ENOCHILD, None, s) else
      '(o, k) ← event_sleep_1 (proc_childtermevent c) (Some childlistlock) (kst s);
      Some (o, None, set_kst k s)
  | Some p =>
      x ← procs s !! p;
      s ← unlink_child p (current_process s) s;
      s ← destroy_process p s;
      Some (Returned 0, Some (proc_exitstatus x), s)
  end.

Definition find_pid (fuel : nat) (pid : Z) (s : pst) : option ptr :=
  p ← walk proc_next fuel (fun _ x => proc_id x =? pid) (procs s) (used_processes s);
  match p with
  | Some p => Some (Some p)
  | None => walk proc_next fuel (fun _ x => proc_id x =? pid) (procs s) (suspended_processes s)
  end.
Definition syscall_kill (fuel : nat) (pid : Z) (s : pst) : option (outcome * pst) :=
  p ← find_pid fuel pid s;
  match p with
  | Some p => terminate_process p s
  | None => Some (Returned EINVALIDPID, s)
  end.

(** [while (proc != NULL && count < n) pid[count++] = proc->proc_id]. *)
Fixpoint collect_pids (fuel : nat) (n : Z) (m : gmap loc process) (p : ptr) (pids : list Z) : option (list Z) :=
  match p with
  | None => Some pids
  | Some a =>
      if n <=? zlen pids then Some pids else
      match fuel with
      | O => None
      | S fuel => x ← m !! a; collect_pids fuel n m (proc_next x) (pids ++ [proc_id x])
      end
  end.
Definition syscall_getpids (n : Z) (s : pst) : option (Z * list Z) :=
  if n <=? 0 then Some (0, []) else
  pids ← collect_pids (pfuel s) n (procs s) (used_processes s) [];
  pids ← collect_pids (pfuel s) n (procs s) (suspended_processes s) pids;
  Some (zlen pids, pids).

(** [syscall_getprocinfo] but the name and the times; [regs] are the bounds of the regions
    of the process's memory. *)
Record uprocinfo := mk_up { uproc_type : Z; uproc_id : Z; uproc_ppid : Z; uproc_status : Z; uproc_memuse : Z; uproc_nopenfiles : Z; uproc_nthreadslocal : Z }.
Fixpoint count_threads (fuel : nat) (t : ptr) (s : pst) : option Z :=
  match t with
  | None => Some 0
  | Some t =>
      match fuel with
      | O => None
      | S fuel =>
          x ← thrs s !! t; st ← state_of t s; n ← count_threads fuel (kt_sib x) s;
          Some (if negb (st =? THREAD_STATE_TERMINATED) && negb (st =? THREAD_STATE_TERMINATING) then n + 1 else n)
      end
  end.
Definition region_use (regs : list (Z * Z)) : Z := fold_left (fun use r => u32 (use + Z.shiftl (snd r - fst r + 4095) 12)) regs 0.
Definition syscall_getprocinfo (fuel : nat) (pid : Z) (regs : list (Z * Z)) (s : pst) : option (Z * option uprocinfo) :=
  p ← find_pid fuel pid s;
  match p with
  | None => Some (EINVALIDPID, None)
  | Some p =>
      x ← procs s !! p; st ← proc_state (kst s) !! p;
      ppid ← (match proc_parent x with Some q => y ← procs s !! q; Some (proc_id y) | None => Some 0 end);
      n ← count_threads (tfuel s) (proc_threadptr x) s;
      Some (0, Some (mk_up (proc_type x) (proc_id x) ppid st (region_use regs) (zlen (filter (fun h => 0 <= h) (fhandles x))) n))
  end.

Definition suspend (p : loc) (s : pst) : option pst :=
  x ← procs s !! p;
  let s := set_kst (set_proc_state (<[p := PROC_STATE_SUSPENDED]> (proc_state (kst s))) (kst s)) s in
  s ← (match proc_prev x with Some q => upd_proc q (with_pnext (proc_next x)) s | None => Some (set_used (proc_next x) s) end);
  s ← (match proc_next x with Some q => upd_proc q (with_pprev (proc_prev x)) s | None => Some s end);
  s ← upd_proc p (fun x => with_pnext (suspended_processes s) (with_pprev NULL x)) s;
  s ← (match suspended_processes s with Some q => upd_proc q (with_pprev (Some p)) s | None => Some s end);
  let k := kst s in
  Some (set_kst (set_readyq (filter (fun t => kt_process <$> threads k !! t <> Some p) <$> readyq k) k) (set_suspended (Some p) s)).

(** [halt_system] up to [syscall_sync]; the caller is a thread of the system process. *)
Fixpoint halt_loop (fuel : nat) (p : ptr) (s : pst) : option pst :=
  match p with
  | None => Some s
  | Some a =>
      match fuel with
      | O => None
      | S fuel =>
          x ← procs s !! a; st ← proc_state (kst s) !! a;
          s ← (if negb (proc_type x =? Paging.PROC_TYPE_SYSTEM) && ((st =? PROC_STATE_READY) || (st =? PROC_STATE_SUSPENDED))
               then '(_, s) ← terminate_process a s; Some s else Some s);
          x ← procs s !! a;
          halt_loop fuel (proc_next x) s
      end
  end.
Definition halt_system (s : pst) : option pst := halt_loop (pfuel s) (used_processes s) s.

Definition terminate_initialize_system_thread (s : pst) : option pst :=
  s ← unlink_used (current_thread (kst s)) s;
  s ← in_k (upd_thr (current_thread (kst s)) (with_state THREAD_STATE_TERMINATING)) s;
  in_k scheduler s.

(** [get_global_processno]: the number and the next one. *)
Definition PROC_TYPE_PARALLEL : Z := 0x20.
Definition get_global_processno (type procno : Z) : Z * Z :=
  if negb (type =? PROC_TYPE_PARALLEL) then (u16 (s16 procno), u16 (procno + 1)) else (u16 (-1), procno).

(** * Section headers *)

Record Elf32_Shdr := mk_shdr { sh_name : Z; sh_type : Z; sh_flags : Z; sh_addr : Z; sh_offset : Z; sh_size : Z; sh_link : Z; sh_info : Z; sh_addralign : Z; sh_entsize : Z }.

(** The inner loop of [sort_hdrs] from [j] to [n - 1], and the outer one from [i]. *)
Fixpoint sort_inner (fuel : nat) (i j n : Z) (hdrs : list Elf32_Shdr) : option (list Elf32_Shdr) :=
  if negb (j <? n) then Some hdrs else
  match fuel with
  | O => None
  | S fuel =>
      a ← zget hdrs i; b ← zget hdrs j;
      hdrs ← (if sh_addr b <? sh_addr a then h ← zset hdrs i b; zset h j a else Some hdrs);
      sort_inner fuel i (j + 1) n hdrs
  end.
Fixpoint sort_outer (fuel : nat) (i n : Z) (hdrs : list Elf32_Shdr) : option (list Elf32_Shdr) :=
  if negb (i <? n - 1) then Some hdrs else
  match fuel with
  | O => None
  | S fuel => hdrs ← sort_inner (Z.to_nat n) i (i + 1) n hdrs; sort_outer fuel (i + 1) n hdrs
  end.
Definition sort_hdrs (hdrs : list Elf32_Shdr) (n : Z) : option (list Elf32_Shdr) := sort_outer (Z.to_nat n) 0 n hdrs.

(** * Stores and lists *)

Lemma upd_proc_Some p f s x : procs s !! p = Some x -> upd_proc p f s = Some (set_procs (<[p := f x]> (procs s)) s).
Proof. unfold upd_proc. by intros ->. Qed.
Lemma upd_th_Some t f s x : thrs s !! t = Some x -> upd_th t f s = Some (set_thrs (<[t := f x]> (thrs s)) s).
Proof. unfold upd_th. by intros ->. Qed.

(** An optional store to a field that a chain does not use. *)
Definition touch (q : ptr) (f : process -> process) (m : gmap loc process) : gmap loc process := match q with Some q => alter f q m | None => m end.

Lemma touch_Some q f s : (forall a, q = Some a -> is_Some (procs s !! a)) -> (match q with Some q => upd_proc q f s | None => Some s end) = Some (set_procs (touch q f (procs s)) s).
Proof.
  intros H. destruct q as [a|]; [|by destruct s]. destruct (H a eq_refl) as [x Hx]. rewrite (upd_proc_Some _ _ _ x) by done. cbn [touch]. do 2 f_equal.
  apply map_eq. intros b. destruct (decide (b = a)) as [->|]; [by rewrite lookup_insert_eq, lookup_alter_eq, Hx|by rewrite lookup_insert_ne, lookup_alter_ne].
Qed.

Lemma touch_lookup q f m a : touch q f m !! a = if bool_decide (q = Some a) then f <$> m !! a else m !! a.
Proof. case_bool_decide as H; destruct q as [b|]; cbn [touch]; try done; [injection H as ->; apply lookup_alter_eq|]. rewrite lookup_alter_ne by congruence. done. Qed.

Lemma touch_chain nx q f m p l : (forall x, nx (f x) = nx x) -> chain nx m p l -> chain nx (touch q f m) p l.
Proof.
  intros H Hl. apply (chain_keep nx m); [done|]. intros t x _ Hx. rewrite touch_lookup, Hx. case_bool_decide; [exists (f x); by rewrite H|by exists x].
Qed.

(** * The list of processes *)

Definition used_list (s : pst) (l : list loc) : Prop := chain proc_next (procs s) (used_processes s) l /\ NoDup l.
Definition unused_list (s : pst) (l : list loc) : Prop := chain proc_next (procs s) (unused_processes s) l /\ NoDup l.

Lemma chain_head_is (s : pst) p l : chain proc_next (procs s) p l -> forall a, p = Some a -> is_Some (procs s !! a).
Proof. intros Hl a ->. destruct l as [|b l]; [done|]. destruct Hl as ([= <-] & x & Hx & _). eauto. Qed.

(** The end of a process leaves it in [used_processes], with the link of an unused one. *)
Lemma destroy_process_links s l1 p l2 lu :
  used_list s (l1 ++ p :: l2) -> unused_list s lu -> (forall t, t ∈ l1 ++ p :: l2 -> t ∉ lu) -> unusedproc_count s < UNUSEDPROC_COUNTMAX ->
  exists s', destroy_process p s = Some s' /\ used_processes s' = used_processes s /\ suspended_processes s' = suspended_processes s /\ used_list s' (l1 ++ p :: lu) /\ unused_list s' (p :: lu) /\
    (forall a, proc_id <$> procs s' !! a = proc_id <$> procs s !! a) /\ kst s' = kst s /\ ldt_table s' = ldt_table s.
Proof.
  intros [Hu Hnu] [Hl Hnl] Hd Hc. destruct (chain_from proc_next _ _ _ _ _ Hu) as (x & Hx & _). unfold destroy_process. rewrite (proj2 (Z.ltb_lt _ _)) by done.
  rewrite (upd_proc_Some _ _ _ x) by done. cbn [mbind option_bind]. rewrite (upd_proc_Some _ _ _ (with_pnext (unused_processes s) x)) by apply lookup_insert_eq. cbn [mbind option_bind].
  cbn [procs set_procs unused_processes]. rewrite insert_insert_eq. set (y := with_pprev NULL _). set (s1 := set_procs _ (set_procs _ s)).
  assert (Hp : p ∉ lu) by (apply Hd; set_solver). rewrite touch_Some; cycle 1.
  { cbn. intros a Ha. destruct (chain_head_is s _ _ Hl a Ha) as [z Hz]. destruct (decide (a = p)) as [->|]; [rewrite lookup_insert_eq; eauto|rewrite lookup_insert_ne by done; eauto]. }
  cbn [mbind option_bind]. eexists. split; [reflexivity|]. cbn. set (m := touch _ _ _).
  assert (Hl1 : chain proc_next m (unused_processes s) lu) by (apply touch_chain; [done|]; by apply chain_out).
  assert (Hmp : m !! p = Some y).
  { unfold m. rewrite touch_lookup, lookup_insert_eq. rewrite bool_decide_eq_false_2; [done|]. intros E. destruct lu as [|b lu]; [cbn in Hl; congruence|]. destruct Hl as (E' & _). assert (b = p) as -> by congruence. set_solver. }
  split_and!; try done.
  - split; cbn.
    + apply (chain_retail proc_next (touch (unused_processes s) (with_pprev (Some p)) (procs s)) m _ l1 p l2 lu y); [by apply touch_chain| |done|exact Hl1].
      intros t Ht. unfold m. rewrite !touch_lookup. rewrite !lookup_insert_ne; [done|]. intros <-. apply NoDup_app in Hnu as (_ & H & _). apply (H p Ht). by left.
    + apply NoDup_app in Hnu as (? & H & Hn2). apply NoDup_app. split; [done|]. split; [|by apply NoDup_cons].
      intros t Ht [->|Hin]%elem_of_cons; [apply (H p Ht); by left|]. apply (Hd t); [set_solver|done].
  - split; cbn; [|by apply NoDup_cons]. split; [done|]. exists y. split; [done|exact Hl1].
  - intros a. unfold m. rewrite touch_lookup. destruct (decide (a = p)) as [->|]; [rewrite lookup_insert_eq, Hx; by case_bool_decide|rewrite lookup_insert_ne by done]. case_bool_decide; [|done]. by destruct (procs s !! a).
Qed.

Lemma alloc_process_unused s b p lu :
  unused_list s (p :: lu) ->
  exists s' x, procs s !! p = Some x /\ alloc_process b s = Some (Some p, s') /\ unused_list s' lu /\ used_processes s' = used_processes s /\ suspended_processes s' = suspended_processes s /\
    unusedproc_count s' = unusedproc_count s - 1 /\ procs s' !! p = Some (zero_files (with_pnext NULL x)) /\
    (forall a y, a <> p -> procs s !! a = Some y -> exists z, procs s' !! a = Some z /\ proc_next z = proc_next y /\ proc_id z = proc_id y) /\ kst s' = kst s /\ ldt_table s' = ldt_table s.
Proof.
  intros [(Hf & x & Hx & Hl) Hnd]. apply NoDup_cons in Hnd as [Hp Hnd]. unfold alloc_process. rewrite Hf, Hx. cbn [mbind option_bind]. cbn [unused_processes set_unused].
  rewrite touch_Some by (cbn; exact (chain_head_is s _ _ Hl)). cbn [mbind option_bind]. set (m := touch _ _ _).
  assert (Hmp : m !! p = Some x).
  { unfold m. rewrite touch_lookup. cbn. rewrite bool_decide_eq_false_2; [done|]. intros E. destruct lu as [|b' lu]; [cbn in Hl; congruence|]. destruct Hl as (E' & _). assert (b' = p) as -> by congruence. set_solver. }
  rewrite (upd_proc_Some _ _ _ x) by exact Hmp. cbn [mbind option_bind]. eexists _, x. split; [done|]. split; [reflexivity|]. cbn. split_and!; try done.
  - split; [|done]. cbn. apply chain_out; [|done]. by apply touch_chain.
  - apply lookup_insert_eq.
  - intros a y Ha Hy. rewrite lookup_insert_ne by done. unfold m. rewrite touch_lookup. cbn. rewrite Hy. case_bool_decide; cbn; eauto.
Qed.

Lemma push_used_spec s l p x :
  chain proc_next (procs s) (used_processes s) l -> procs s !! p = Some x ->
  exists s', push_used p s = Some s' /\ used_processes s' = Some p /\ (exists y, procs s' !! p = Some y /\ proc_next y = used_processes s) /\
    forall a y, a <> p -> procs s !! a = Some y -> exists z, procs s' !! a = Some z /\ proc_next z = proc_next y /\ proc_id z = proc_id y.
Proof.
  intros Hl Hx. unfold push_used. rewrite touch_Some by exact (chain_head_is s _ _ Hl). cbn [mbind option_bind]. set (m := touch _ _ _).
  assert (Hm : forall a y, procs s !! a = Some y -> exists z, m !! a = Some z /\ proc_next z = proc_next y /\ proc_id z = proc_id y).
  { intros a y Hy. unfold m. rewrite touch_lookup, Hy. case_bool_decide; cbn; eauto. }
  destruct (Hm p x Hx) as (z & Hz & _). rewrite (upd_proc_Some _ _ _ z) by exact Hz. cbn [mbind option_bind]. eexists. split; [reflexivity|]. cbn. split; [done|].
  split; [eexists; split; [apply lookup_insert_eq|done]|]. intros a y Ha Hy. rewrite lookup_insert_ne by done. eauto.
Qed.

(** A process that has been waited for is still in [used_processes], but its link is the
    one of the unused processes: the processes behind it are no longer in the list, and
    [kill] says that there are none with their numbers. *)
Theorem reaped_process_hides_others s l1 p l2 lu q x fuel :
  used_list s (l1 ++ p :: l2) -> unused_list s lu -> (forall t, t ∈ l1 ++ p :: l2 -> t ∉ lu) -> unusedproc_count s < UNUSEDPROC_COUNTMAX -> suspended_processes s = NULL ->
  q ∈ l2 -> procs s !! q = Some x -> (forall a y, a ∈ l1 ++ p :: lu -> procs s !! a = Some y -> proc_id y <> proc_id x) -> (size (procs s) <= fuel)%nat ->
  exists s', destroy_process p s = Some s' /\ procs s' !! q <> None /\ syscall_kill fuel (proc_id x) s' = Some (Returned EINVALIDPID, s').
Proof.
  intros Hu Hun Hd Hc Hsp Hq Hx Hid Hfuel. destruct (destroy_process_links s l1 p l2 lu Hu Hun Hd Hc) as (s' & E & Eu & Es & [Hu' Hn'] & _ & Hids & _). exists s'. split; [done|].
  assert (procs s' !! q <> None) as Hq' by (intros E'; pose proof (Hids q) as H; by rewrite E', Hx in H). split; [done|].
  unfold syscall_kill, find_pid. rewrite (walk_spec proc_next _ _ _ _ _ Hu').
  2:{ pose proof (chain_size proc_next _ _ _ Hu' Hn') as Hz. assert (size (procs s') = size (procs s)) as Ez; [|lia].
      rewrite <- !size_dom. f_equal. apply set_eq. intros a. rewrite !elem_of_dom. pose proof (Hids a) as H. by destruct (procs s' !! a), (procs s !! a). }
  cbn [mbind option_bind]. destruct (List.find _ _) as [a|] eqn:Ef.
  - exfalso. apply List.find_some in Ef as [Hin Ha]. apply list_elem_of_In in Hin. unfold holds in Ha. pose proof (Hids a) as H. destruct (procs s' !! a) as [y|]; [|done]. destruct (procs s !! a) as [y0|] eqn:Hy0; [|done].
    cbn in H. apply (Hid a y0 Hin Hy0). apply Z.eqb_eq in Ha. congruence.
  - rewrite Es, Hsp. by destruct fuel.
Qed.

(** C19: The next new process gets the block of the one that was waited for, which is still in
    the list, and is put in front of it: the list is a ring, and a search for any other
    number does not end. *)
Theorem reused_process_closes_ring s l1 p l2 lu b :
  used_list s (l1 ++ p :: l2) -> unused_list s lu -> (forall t, t ∈ l1 ++ p :: l2 -> t ∉ lu) -> unusedproc_count s < UNUSEDPROC_COUNTMAX ->
  exists s1 s2 s3, destroy_process p s = Some s1 /\ alloc_process b s1 = Some (Some p, s2) /\ push_used p s2 = Some s3 /\ procs s3 !! p <> None /\
    forall fuel pid, (forall a y, a ∈ p :: l1 -> procs s3 !! a = Some y -> proc_id y <> pid) -> syscall_kill fuel pid s3 = None.
Proof.
  intros Hu Hun Hd Hc. destruct (destroy_process_links s l1 p l2 lu Hu Hun Hd Hc) as (s1 & E1 & _ & _ & [Hu1 Hn1] & Hun1 & _).
  destruct (alloc_process_unused s1 b p lu Hun1) as (s2 & x & Hx & E2 & _ & Eu2 & _ & _ & Hp2 & Hk2 & _).
  assert (Hu2 : chain proc_next (procs s2) (used_processes s2) (l1 ++ [p])).
  { rewrite Eu2. clear - Hu1 Hk2 Hp2 Hn1. revert Hu1. generalize (used_processes s1). induction l1 as [|a l1 IH]; intros f; cbn [app chain].
    - intros (-> & _). split; [done|]. eexists. split; [exact Hp2|done].
    - intros (-> & y & Hy & Hl). split; [done|]. apply NoDup_cons in Hn1 as [Ha Hn1]. destruct (Hk2 a y) as (z & Hz & En & _); [set_solver|done|]. exists z. split; [done|]. rewrite En. by apply IH. }
  destruct (push_used_spec s2 _ p _ Hu2 Hp2) as (s3 & E3 & Eu3 & (y3 & Hp3 & En3) & Hk3). exists s1, s2, s3. split; [done|]. split; [done|]. split; [done|]. split; [by rewrite Hp3|].
  intros fuel pid Hid. unfold syscall_kill, find_pid. rewrite Eu3, (walk_ring proc_next (procs s3) p l1 p fuel _ (Some p)); [reflexivity| | |reflexivity|by left].
  - intros k1 t k2 y Ek Hy. destruct k1 as [|a k1]; cbn in Ek; injection Ek as -> Ek.
    + subst k2. assert (y = y3) as -> by congruence. rewrite En3. by apply chain_head in Hu2.
    + assert (Htp : t <> a) by (intros ->; subst l1; apply NoDup_app in Hn1 as (_ & Hd1 & _); apply (Hd1 a); set_solver).
      assert (Hu3 : chain proc_next (procs s2) (used_processes s2) (k1 ++ t :: k2 ++ [a])) by (subst l1; by rewrite <- app_assoc in Hu2).
      apply chain_from in Hu3 as (z & Hz & Hl). destruct (Hk3 t z Htp Hz) as (z' & Hz' & En & _). assert (y = z') as -> by congruence. rewrite En. by apply chain_head in Hl.
  - intros t Ht. assert (exists y, procs s3 !! t = Some y) as [y Hy].
    { destruct (decide (t = p)) as [->|]; [eauto|]. destruct (chain_in proc_next _ _ _ t Hu2) as [z Hz]; [set_solver|]. destruct (Hk3 t z) as (z' & ? & _); eauto. }
    exists y. split; [done|]. apply Z.eqb_neq. by apply (Hid t).
Qed.

(** * The tree of processes *)

(** What the lists of unused and used processes do not touch. *)
Definition tree_eq (y z : process) : Prop :=
  proc_sib z = proc_sib y /\ proc_childlist z = proc_childlist y /\ proc_parent z = proc_parent y /\ proc_id z = proc_id y /\ proc_exitstatus z = proc_exitstatus y /\ proc_waitable z = proc_waitable y.
Definition kept_tree (out : list loc) (m m' : gmap loc process) : Prop := forall a y, a ∉ out -> m !! a = Some y -> exists z, m' !! a = Some z /\ tree_eq y z.
(** The blocks [D] have been given back one after the other: the pool, [lu] before, takes
    them until it has ten, and the rest goes to [kfree]. *)
Definition given_back (D lu : list loc) (s s' : pst) : Prop :=
  let n := Z.to_nat (UNUSEDPROC_COUNTMAX - unusedproc_count s) in
  unused_list s' (reverse (take n D) ++ lu) /\ unusedproc_count s' = unusedproc_count s + zlen (take n D) /\ calls s' = calls s ++ (Kfree <$> drop n D).
(** Stores that do not concern the pool. *)
Definition keeps_next (m m' : gmap loc process) : Prop := forall a y, m !! a = Some y -> exists z, m' !! a = Some z /\ proc_next z = proc_next y.
Definition same_pool (s s' : pst) : Prop :=
  unused_processes s' = unused_processes s /\ unusedproc_count s' = unusedproc_count s /\ calls s' = calls s /\ keeps_next (procs s) (procs s').

Lemma keeps_next_insert m p x z : m !! p = Some x -> proc_next z = proc_next x -> keeps_next m (<[p := z]> m).
Proof. intros Hx E a y Hy. destruct (decide (a = p)) as [->|]; [exists z; rewrite lookup_insert_eq; split; [done|congruence]|exists y; by rewrite lookup_insert_ne]. Qed.
Lemma keeps_next_trans m1 m2 m3 : keeps_next m1 m2 -> keeps_next m2 m3 -> keeps_next m1 m3.
Proof. intros H1 H2 a y Hy. destruct (H1 a y Hy) as (z & Hz & E). destruct (H2 a z Hz) as (w & Hw & E'). exists w. split; [done|congruence]. Qed.
Lemma unused_list_same s s' lu : same_pool s s' -> unused_list s lu -> unused_list s' lu.
Proof. intros (E & _ & _ & Hk) [Hl Hn]. split; [|done]. rewrite E. apply (chain_keep proc_next (procs s)); [done|]. intros t x _. apply Hk. Qed.
Lemma same_pool_refl s : same_pool s s.
Proof. split_and!; try done. by intros a y Hy; exists y. Qed.
Lemma given_back_same s s1 s2 s3 D lu : same_pool s s1 -> given_back D lu s1 s2 -> same_pool s2 s3 -> given_back D lu s s3.
Proof.
  intros (_ & En & Ec & _) (Hl & En2 & Ec2) Hs. unfold given_back. rewrite <- En, <- Ec. split; [by apply (unused_list_same s2)|]. destruct Hs as (_ & -> & -> & _). done.
Qed.
Lemma given_back_cons s s1 s2 c D lu : given_back [c] lu s s1 -> (forall lu1, unused_list s1 lu1 -> given_back D lu1 s1 s2) -> given_back (c :: D) lu s s2.
Proof.
  unfold given_back. remember (Z.to_nat (UNUSEDPROC_COUNTMAX - unusedproc_count s)) as n eqn:E. intros (Hl & En & Ec) H. destruct (H _ Hl) as (Hl2 & En2 & Ec2). rewrite Ec2, Ec, En2, En. clear H. rewrite En in *. clear En En2 Ec Ec2.
  destruct n as [|n]; cbn [take drop reverse fmap list_fmap] in *.
  - unfold zlen in *. cbn [length] in *. replace (Z.to_nat (UNUSEDPROC_COUNTMAX - (unusedproc_count s + Z.of_nat 0))) with 0%nat in * by lia. rewrite take_0, drop_0 in *. rewrite <- app_assoc. split_and!; [done|cbn [length]; lia|done].
  - rewrite take_nil, drop_nil in *. unfold zlen in *. cbn [length fmap list_fmap] in *. replace (Z.to_nat (UNUSEDPROC_COUNTMAX - (unusedproc_count s + Z.of_nat 1))) with n in * by lia.
    rewrite reverse_cons, <- app_assoc, app_nil_r in *. split_and!; [done|lia|done].
Qed.

#[local] Instance tree_eq_pre : PreOrder tree_eq.
Proof. split; [by intros x|]. intros x y z (? & ? & ? & ? & ? & ?) (? & ? & ? & ? & ? & ?). split_and!; congruence. Qed.
Lemma kept_tree_trans out1 out2 m1 m2 m3 : kept_tree out1 m1 m2 -> kept_tree out2 m2 m3 -> kept_tree (out1 ++ out2) m1 m3.
Proof. intros H1 H2 a y Ha Hy. apply not_elem_of_app in Ha as [? ?]. destruct (H1 a y) as (z & Hz & ?); [done..|]. destruct (H2 a z) as (w & Hw & ?); [done..|]. exists w. split; [done|]. by etrans. Qed.
Lemma kept_tree_weaken out out' m m' : kept_tree out m m' -> (forall a, a ∈ out -> a ∈ out') -> kept_tree out' m m'.
Proof. intros H Hs a y Ha. apply H. auto. Qed.
Lemma kept_tree_insert m p x : kept_tree [p] m (<[p := x]> m).
Proof. intros a y Ha Hy. exists y. rewrite lookup_insert_ne by set_solver. done. Qed.
Lemma kept_tree_chain out m m' f l : kept_tree out m m' -> (forall t, t ∈ l -> t ∉ out) -> chain proc_sib m f l -> chain proc_sib m' f l.
Proof. intros H Ho Hl. apply (chain_keep proc_sib m); [done|]. intros t x Ht Hx. destruct (H t x (Ho t Ht) Hx) as (z & Hz & E & _). eauto. Qed.

Lemma destroy_process_tree s c lu x :
  procs s !! c = Some x -> unused_list s lu -> c ∉ lu ->
  exists s', destroy_process c s = Some s' /\ given_back [c] lu s s' /\ kst s' = kst s /\ kept_tree [c] (procs s) (procs s').
Proof.
  intros Hx [Hl Hn] Hc. unfold destroy_process, given_back. destruct (Z.ltb_spec (unusedproc_count s) UNUSEDPROC_COUNTMAX) as [Hlt|Hge].
  - rewrite (upd_proc_Some _ _ _ x) by done. cbn [mbind option_bind]. rewrite (upd_proc_Some _ _ _ (with_pnext (unused_processes s) x)) by apply lookup_insert_eq. cbn [mbind option_bind].
    cbn [procs set_procs unused_processes]. rewrite insert_insert_eq. rewrite touch_Some; cycle 1.
    { cbn. intros a Ha. destruct (chain_head_is s _ _ Hl a Ha) as [z Hz]. destruct (decide (a = c)) as [->|]; [rewrite lookup_insert_eq; eauto|rewrite lookup_insert_ne by done; eauto]. }
    cbn [mbind option_bind]. replace (Z.to_nat _) with (S (Z.to_nat (UNUSEDPROC_COUNTMAX - unusedproc_count s - 1))) by lia. cbn [take drop]. rewrite take_nil, drop_nil.
    assert (Hd : unused_processes s <> Some c) by (intros E; apply Hc; pose proof (chain_head proc_next _ _ _ Hl) as E'; rewrite E in E'; destruct lu; [done|]; injection E' as ->; by left).
    eexists. split; [reflexivity|]. cbn. split; [|split; [done|]].
    + split; [|by rewrite app_nil_r]. split; cbn; [|by apply NoDup_cons]. split; [done|]. eexists. rewrite touch_lookup, lookup_insert_eq, bool_decide_eq_false_2 by done. split; [done|].
      cbn. apply touch_chain; [done|]. by apply chain_out.
    + intros a y Ha Hy. rewrite touch_lookup, lookup_insert_ne by set_solver. rewrite Hy. case_bool_decide; eexists; split; try done.
  - rewrite Hx. cbn [mbind option_bind]. replace (Z.to_nat _) with 0%nat by lia. eexists. split; [reflexivity|]. cbn. split; [|split; [done|]].
    + split_and!; [|unfold zlen; cbn; lia|done]. split; [|done]. cbn. apply (chain_keep proc_next (procs s)); [done|]. intros t y Ht Hy. exists y. rewrite lookup_delete_ne by (by intros ->). done.
    + intros a y Ha Hy. exists y. rewrite lookup_delete_ne by set_solver. done.
Qed.

(** A child out of the list of its parent. *)
Lemma unlink_child_spec s p q y l1 l2 :
  procs s !! q = Some y -> chain proc_sib (procs s) (proc_childlist y) (l1 ++ p :: l2) -> NoDup (l1 ++ p :: l2) -> q ∉ l1 ++ p :: l2 ->
  exists m z, unlink_child p q s = Some (set_procs m s) /\ m !! q = Some z /\ chain proc_sib m (proc_childlist z) (l1 ++ l2) /\ is_Some (m !! p) /\ kept_tree (q :: l1 ++ [p]) (procs s) m /\
    keeps_next (procs s) m.
Proof.
  intros Hq Hl Hnd Hni. destruct (chain_from proc_sib _ _ _ _ _ Hl) as (x & Hx & Hl2). unfold unlink_child. rewrite Hx, Hq. cbn [mbind option_bind].
  assert (Hp1 : p ∉ l1 /\ p ∉ l2) by (apply NoDup_app in Hnd as (_ & H & [? _]%NoDup_cons); split; [intros Hin; apply (H p Hin); by left|done]).
  rewrite (walk_prev_in proc_sib _ _ l1 p l2); [|done|apply Hp1|]; cycle 1.
  { pose proof (chain_size proc_sib _ _ _ Hl Hnd) as Hz. rewrite length_app in Hz. unfold pfuel. cbn in Hz. lia. }
  cbn [mbind option_bind]. assert (Hqp : q <> p) by set_solver. destruct l1 as [|b l1 _] using rev_ind.
  - cbn [last]. rewrite (upd_proc_Some _ _ _ y) by done. cbn [mbind option_bind]. rewrite (upd_proc_Some _ _ _ x) by (cbn; by rewrite lookup_insert_ne). cbn [mbind option_bind].
    eexists _, _. split; [reflexivity|]. cbn. split; [rewrite lookup_insert_ne, lookup_insert_eq by done; done|]. split; [cbn; apply chain_out; [|tauto]; apply chain_out; [done|set_solver]|].
    split; [rewrite lookup_insert_eq; eauto|]. split.
    + apply (kept_tree_weaken ([q] ++ [p])); [|set_solver]. eapply kept_tree_trans; apply kept_tree_insert.
    + eapply keeps_next_trans; [|apply (keeps_next_insert _ _ x); [by rewrite lookup_insert_ne|done]]. by apply (keeps_next_insert _ _ y).
  - rewrite last_snoc. rewrite <- app_assoc in *. cbn [app] in *. destruct (chain_from proc_sib _ _ _ _ _ Hl) as (yb & Hb & _). assert (Hbp : b <> p) by set_solver. assert (Hbq : b <> q) by set_solver.
    rewrite (upd_proc_Some _ _ _ yb) by done. cbn [mbind option_bind]. rewrite (upd_proc_Some _ _ _ x) by (cbn; by rewrite lookup_insert_ne). cbn [mbind option_bind].
    eexists _, y. split; [reflexivity|]. cbn. split; [rewrite !lookup_insert_ne by done; done|]. split.
    { apply chain_out; [apply (chain_cut proc_sib _ _ l1 b p l2 x); done|]. set_solver. }
    split; [rewrite lookup_insert_eq; eauto|]. split.
    + apply (kept_tree_weaken ([b] ++ [p])); [|set_solver]. eapply kept_tree_trans; apply kept_tree_insert.
    + eapply keeps_next_trans; [|apply (keeps_next_insert _ _ x); [by rewrite lookup_insert_ne|done]]. by apply (keeps_next_insert _ _ yb).
Qed.

(** C16: Waiting for a child.  If a child has ended, the first such child of the list leaves
    it, its exit status is returned, and its block goes to the pool of unused processes or,
    if that has ten, to [kfree].  If none has ended, the code looks at
    [proc->proc_childlist] where [proc] is null: what happens does not depend on the
    children but on the word that is there in low memory.  If it is 0 the caller gets
    [ENOCHILD], even if it has children; otherwise it sleeps until a child ends, even if
    it has none. *)
Theorem wait_reaps s low lck c l lu :
  procs s !! current_process s = Some c -> chain proc_sib (procs s) (proc_childlist c) l -> NoDup l -> current_process s ∉ l -> unused_list s lu -> (forall a, a ∈ l -> a ∉ lu) ->
  match List.find (fun p => bool_decide (proc_state (kst s) !! p = Some PROC_STATE_TERMINATED)) l with
  | Some p => exists l1 l2 x s' z, l = l1 ++ p :: l2 /\ procs s !! p = Some x /\ syscall_wait low lck s = Some (Returned 0, Some (proc_exitstatus x), s') /\
      procs s' !! current_process s = Some z /\ chain proc_sib (procs s') (proc_childlist z) (l1 ++ l2) /\ given_back [p] lu s s' /\ kst s' = kst s
  | None =>
      if low =? 0 then syscall_wait low lck s = Some (Returned ENOCHILD, None, s)
      else forall ob obl, lock_inv (kst s) -> ~ is_idle (kst s) (current_thread (kst s)) -> objs (kst s) !! proc_childtermevent c = Some ob -> sl_type ob = SYNCH_TYPE_EVENT ->
        objs (kst s) !! lck = Some obl -> sl_type obl = SYNCH_TYPE_LOCK -> o_owner obl = Some (current_thread (kst s)) ->
        exists k' ob' obl', syscall_wait low lck s = Some (Blocked, None, set_kst k' s) /\ lock_inv k' /\ objs k' !! proc_childtermevent c = Some ob' /\
          sl_waiters ob' = sl_waiters ob ++ [current_thread (kst s)] /\ objs k' !! lck = Some obl' /\ free_lock obl'
  end.
Proof.
  intros Hc Hl Hnd Hni Hun Hdu. unfold syscall_wait. rewrite Hc. cbn [mbind option_bind].
  rewrite (walk_spec proc_sib _ _ l _ _ Hl) by (unfold pfuel; by apply (chain_size proc_sib (procs s) (proc_childlist c))). cbn [mbind option_bind].
  set (P := fun p => bool_decide (proc_state (kst s) !! p = Some PROC_STATE_TERMINATED)).
  assert (Ef : List.find (holds (fun p _ => P p) (procs s)) l = List.find P l).
  { assert (forall t, t ∈ l -> holds (fun p _ => P p) (procs s) t = P t) as H by (intros t Ht; unfold holds; by destruct (chain_in proc_sib _ _ _ t Hl Ht) as [x ->]).
    clear - H. induction l as [|a l IH]; [done|]. cbn. rewrite H by (by left). destruct (P a); [done|]. apply IH. intros t Ht. apply H. by right. }
  match goal with |- context [List.find (holds ?f ?m) l] => change (List.find (holds f m) l) with (List.find (holds (fun p _ => P p) m) l) end. rewrite Ef. destruct (List.find P l) as [p|] eqn:E.
  2:{ destruct (low =? 0); [done|]. intros ob obl Hk Hi Ho Hty Hol Htl Hown.
      destruct (event_sleep_ok _ _ _ _ _ Hk Hi Ho Hty Hol Htl Hown) as (k' & m1 & ob' & obl' & -> & Hk' & _ & Eo & _ & Hq & Hl1 & Hf & _). rewrite bind_Some.
      exists k', ob', obl'. rewrite Eo at 1. rewrite lookup_insert_eq. done. }
  apply List.find_some in E as [Hin _]. apply list_elem_of_In in Hin.
  destruct (list_elem_of_split _ _ Hin) as (l1 & l2 & ->). destruct (chain_from proc_sib _ _ _ _ _ Hl) as (x & Hx & _). rewrite Hx. cbn [mbind option_bind].
  destruct (unlink_child_spec s p (current_process s) c l1 l2 Hc Hl Hnd Hni) as (m & z & -> & Hz & Hl' & [xp Hp] & _ & Hkn). cbn [mbind option_bind].
  assert (Hp12 : p ∉ l1 ++ l2) by (apply NoDup_app in Hnd as (_ & H & [? _]%NoDup_cons); intros [Hi|Hi]%elem_of_app; [apply (H p Hi); by left|done]).
  assert (Hsp : same_pool s (set_procs m s)) by done.
  destruct (destroy_process_tree (set_procs m s) p lu xp) as (s' & -> & Hgb & Ek & Hkt); [done|by apply (unused_list_same s)|by apply Hdu|].
  cbn [mbind option_bind]. destruct (Hkt (current_process s) z) as (z' & Hz' & (_ & Ec & _)); [set_solver|done|].
  exists l1, l2, x, s', z'. split_and!; try done.
  rewrite Ec. apply (kept_tree_chain [p] m); [done| |done]. intros t Ht [->|?]%elem_of_cons; [done|set_solver].
Qed.

(** * Children of a process that ends *)

Definition alive (k : kstate) (c : loc) : Prop := proc_state k !! c <> Some PROC_STATE_TERMINATED.
#[local] Instance alive_dec k c : Decision (alive k c).
Proof. unfold alive. apply _. Defined.

(** The list after a child that has ended is taken out behind the live ones [pre]. *)
Lemma skip_dead s p xp pre c rest x :
  procs s !! p = Some xp -> procs s !! c = Some x -> chain proc_sib (procs s) (proc_childlist xp) (pre ++ c :: rest) -> NoDup (pre ++ c :: rest) -> p ∉ pre ++ c :: rest ->
  exists m xp', (match last pre with None => upd_proc p (with_childlist (proc_sib x)) s | Some q => upd_proc q (with_psib (proc_sib x)) s end) = Some (set_procs m s) /\
    m !! p = Some xp' /\ chain proc_sib m (proc_childlist xp') (pre ++ rest) /\ proc_parent xp' = proc_parent xp /\ proc_sib xp' = proc_sib xp /\
    (forall a y, procs s !! a = Some y -> exists z, m !! a = Some z /\ proc_parent z = proc_parent y) /\ keeps_next (procs s) m /\ kept_tree (p :: pre) (procs s) m.
Proof.
  intros Hp Hc Hl Hnd Hni. destruct pre as [|b pre _] using rev_ind.
  - cbn [last app] in *. rewrite (upd_proc_Some _ _ _ xp) by done. eexists _, _. split; [reflexivity|]. split; [apply lookup_insert_eq|]. cbn in Hl. destruct Hl as (_ & x' & Hx' & Hl). assert (x' = x) as -> by congruence.
    split; [cbn; apply chain_out; [done|set_solver]|]. split; [done|]. split; [done|]. split; [|split; [by apply (keeps_next_insert _ _ xp)|apply (kept_tree_weaken [p]); [apply kept_tree_insert|set_solver]]].
    intros a y Hy. destruct (decide (a = p)) as [->|]; [rewrite lookup_insert_eq; eexists; split; [done|]; cbn; congruence|rewrite lookup_insert_ne by done; eauto].
  - rewrite last_snoc. rewrite <- app_assoc in *. cbn [app] in *. destruct (chain_from proc_sib _ _ _ _ _ Hl) as (yb & Hb & _).
    rewrite (upd_proc_Some _ _ _ yb) by done. eexists _, xp. split; [reflexivity|]. split; [rewrite lookup_insert_ne by set_solver; done|]. split; [apply (chain_cut proc_sib _ _ pre b c rest x); done|].
    split; [done|]. split; [done|]. split; [|split; [by apply (keeps_next_insert _ _ yb)|apply (kept_tree_weaken [b]); [apply kept_tree_insert|set_solver]]].
    intros a y Hy. destruct (decide (a = b)) as [->|]; [rewrite lookup_insert_eq; eexists; split; [done|]; cbn; congruence|rewrite lookup_insert_ne by done; eauto].
Qed.

Lemma adopt_loop_spec rest : forall fuel p q pre s xp lu,
  procs s !! p = Some xp -> chain proc_sib (procs s) (proc_childlist xp) (pre ++ rest) -> NoDup (pre ++ rest) -> p ∉ pre ++ rest -> unused_list s lu -> (forall c, c ∈ rest -> c ∉ lu) ->
  (forall c, c ∈ rest -> is_Some (proc_state (kst s) !! c)) -> (forall c, c ∈ pre -> exists y, procs s !! c = Some y /\ proc_parent y = Some q) -> (length rest <= fuel)%nat ->
  exists s' xp', adopt_loop fuel p (Some q) (head rest) (last pre) s = Some (last (pre ++ filter (alive (kst s)) rest), s') /\ kst s' = kst s /\
    procs s' !! p = Some xp' /\ proc_parent xp' = proc_parent xp /\ proc_sib xp' = proc_sib xp /\
    chain proc_sib (procs s') (proc_childlist xp') (pre ++ filter (alive (kst s)) rest) /\
    (forall c, c ∈ pre ++ filter (alive (kst s)) rest -> exists y, procs s' !! c = Some y /\ proc_parent y = Some q) /\ kept_tree (p :: pre ++ rest) (procs s) (procs s') /\
    given_back (filter (fun c => ~ alive (kst s) c) rest) lu s s'.
Proof.
  induction rest as [|c rest IH]; intros fuel p q pre s xp lu Hp Hl Hnd Hni Hun Hdu Hst Hpar Hf.
  { rewrite !filter_nil, app_nil_r in *. exists s, xp. destruct fuel; split_and!; try done; try (intros a y _ Hy; by exists y); unfold given_back; rewrite take_nil, drop_nil; (split; [done|]; split; [unfold zlen; cbn; lia|by rewrite app_nil_r]). }
  destruct fuel as [|fuel]; [cbn in Hf; lia|]. cbn [head adopt_loop]. destruct (chain_from proc_sib _ _ _ _ _ Hl) as (x & Hx & Hl2). rewrite Hx. cbn [mbind option_bind].
  destruct (Hst c) as [st Est]; [by left|]. rewrite Est. cbn [mbind option_bind]. pose proof (chain_head proc_sib _ _ _ Hl2) as Eh. rewrite Eh.
  assert (Hcp : c <> p) by set_solver. destruct (Z.eqb_spec st PROC_STATE_TERMINATED) as [->|Hne].
  - rewrite filter_cons_False by (intros H; by apply H). rewrite (filter_cons_True (fun c => ~ alive (kst s) c)) by (intros H; by apply H).
    destruct (skip_dead s p xp pre c rest x Hp Hx Hl Hnd Hni) as (m & xp1 & E1 & Hp1 & Hl1 & Epar & Esib & Hpars & Hkn & Hk1). rewrite <- Eh, E1. cbn [mbind option_bind]. rewrite Eh.
    destruct (Hpars c x Hx) as (xc & Hxc & _). assert (Hcr : c ∉ pre ++ rest /\ NoDup (pre ++ rest)) by (apply NoDup_app in Hnd as (? & H & [? ?]%NoDup_cons); split; [intros [Hi|Hi]%elem_of_app; [apply (H c Hi); by left|done]|apply NoDup_app; split; [done|]; split; [|done]; intros t Ht Ht'; apply (H t Ht); by right]).
    destruct Hcr as [Hcr Hnd']. assert (Hsp : same_pool s (set_procs m s)) by done.
    destruct (destroy_process_tree (set_procs m s) c lu xc Hxc) as (s2 & -> & Hgb & Ek & Hk2); [by apply (unused_list_same s)|apply Hdu; by left|].
    cbn [mbind option_bind]. destruct (Hk2 p xp1) as (xp2 & Hp2 & (Es2 & Ec2 & Ep2 & _)); [set_solver|done|].
    assert (Hni' : p ∉ pre ++ rest) by (clear - Hni; set_solver).
    pose proof (proj1 Hgb) as Hun2. set (lu1 := reverse _ ++ lu) in Hun2.
    destruct (IH fuel p q pre s2 xp2 lu1 Hp2) as (s' & xp' & E' & Ek' & Hp' & Epar' & Esib' & Hl' & Hlive & Hk' & Hgb'); [|done|done|exact Hun2|..].
    + rewrite Ec2. apply (kept_tree_chain [c] m); [done| |done]. intros t Ht [->|?]%elem_of_cons; [done|set_solver].
    + intros c' Hc' [Hin|Hin]%elem_of_app; [|by apply (Hdu c'); [right|]]. apply elem_of_reverse, elem_of_take in Hin as (i & [-> <-]%list_lookup_singleton_Some & _). apply Hcr, elem_of_app. by right.
    + rewrite Ek. cbn. intros c' Hc'. apply Hst. by right.
    + intros c' Hc'. destruct (Hpar c' Hc') as (y & Hy & Ey). destruct (Hpars c' y Hy) as (z & Hz & Ez). destruct (Hk2 c' z) as (w & Hw & (_ & _ & Ew & _)); [set_solver|done|]. exists w. split; [done|]. congruence.
    + cbn in Hf. lia.
    + rewrite Ek in *. cbn [kst set_procs] in *. exists s', xp'. split_and!; try done; try congruence.
      * apply (kept_tree_weaken (((p :: pre) ++ [c]) ++ (p :: pre ++ rest))); [|set_solver]. eapply kept_tree_trans; [|exact Hk']. eapply kept_tree_trans; [exact Hk1|exact Hk2].
      * apply (given_back_cons _ s2); [exact Hgb|]. intros lu2 Hlu2. by rewrite (chain_unique proc_next _ _ _ _ (proj1 Hlu2) (proj1 Hun2)).
  - assert (Hal : alive (kst s) c) by (unfold alive; congruence). rewrite filter_cons_True by done. rewrite (filter_cons_False (fun c => ~ alive (kst s) c)) by tauto.
    rewrite (upd_proc_Some _ _ _ x) by done. cbn [mbind option_bind]. set (s1 := set_procs _ s).
    assert (Hsp : same_pool s s1) by (split_and!; try done; by apply (keeps_next_insert _ _ x)).
    destruct (IH fuel p q (pre ++ [c]) s1 xp lu) as (s' & xp' & E' & Ek' & Hp' & Epar' & Esib' & Hl' & Hlive & Hk' & Hgb'); try done.
    + cbn. by rewrite lookup_insert_ne.
    + rewrite <- app_assoc. cbn. apply (chain_same proc_sib _ _ _ _ x); done.
    + by rewrite <- app_assoc.
    + by rewrite <- app_assoc.
    + by apply (unused_list_same s).
    + intros c' Hc'. apply Hdu. by right.
    + intros c' Hc'. apply Hst. by right.
    + intros c' [Hc'| ->%list_elem_of_singleton]%elem_of_app; cbn; [|rewrite lookup_insert_eq; eauto].
      rewrite lookup_insert_ne; [by apply Hpar|]. intros <-. apply NoDup_app in Hnd as (_ & H & _). apply (H c Hc'). by left.
    + cbn in Hf. lia.
    + rewrite last_snoc in E'. rewrite <- app_assoc in *. cbn [app] in *. exists s', xp'. split_and!; try done.
      apply (kept_tree_weaken ([c] ++ (p :: pre ++ [c] ++ rest))); [|set_solver]. eapply kept_tree_trans; [apply kept_tree_insert|]. exact Hk'.
Qed.

(** C15: Orphans.  When process [p] ends, its children that are alive go, in their order and in
    front of the others, to the list of its parent [q], which becomes their parent; the
    blocks of the children that have ended are given back, in their order: to the pool of
    unused processes until it has ten, then to [kfree]; and [p] has no children left. *)
Theorem orphans_adopted s p q xp xq l lq lu :
  procs s !! p = Some xp -> procs s !! q = Some xq -> p <> q -> chain proc_sib (procs s) (proc_childlist xp) l -> chain proc_sib (procs s) (proc_childlist xq) lq ->
  NoDup (l ++ lq) -> p ∉ l -> q ∉ l ++ lq -> unused_list s lu -> (forall c, c ∈ l -> c ∉ lu) -> (forall c, c ∈ l -> is_Some (proc_state (kst s) !! c)) ->
  exists s' xp' xq', adopt p q s = Some s' /\ kst s' = kst s /\ procs s' !! p = Some xp' /\ proc_childlist xp' = NULL /\ proc_sib xp' = proc_sib xp /\
    procs s' !! q = Some xq' /\ chain proc_sib (procs s') (proc_childlist xq') (filter (alive (kst s)) l ++ lq) /\
    (forall c, c ∈ filter (alive (kst s)) l -> exists y, procs s' !! c = Some y /\ proc_parent y = Some q) /\
    given_back (filter (fun c => ~ alive (kst s) c) l) lu s s'.
Proof.
  intros Hp Hq Hpq Hl Hlq Hnd Hpl Hql Hun Hdu Hst. apply NoDup_app in Hnd as (Hnl & Hd & Hnq). unfold adopt. rewrite Hp. cbn [mbind option_bind].
  pose proof (chain_head proc_sib _ _ _ Hl) as Eh. destruct l as [|c0 l0].
  { cbn in Eh. rewrite Eh. exists s, xp, xq. split_and!; try done; [by intros c ?%elem_of_nil|]. unfold given_back. rewrite filter_nil, take_nil, drop_nil. split; [done|]. split; [unfold zlen; cbn [length]; lia|by rewrite app_nil_r]. }
  set (l := c0 :: l0) in *. rewrite Eh. change (head l) with (Some c0) at 1. cbv iota. change (@NULL) with (last (@nil loc)).
  destruct (adopt_loop_spec l (pfuel s) p q [] s xp lu) as (s1 & xp1 & E1 & Ek & Hp1 & _ & Esib & Hl1 & Hpar & Hk & Hgb); try done; [by intros c ?%elem_of_nil|by apply (chain_size proc_sib _ _ _ Hl)|].
  change (last (@nil loc)) with (@None loc) in *. rewrite E1. cbn [mbind option_bind app] in *. set (live := filter (alive (kst s)) l) in *.
  assert (Hlive : forall c, c ∈ live -> c ∈ l) by (intros c [_ ?]%list_elem_of_filter; done).
  destruct (Hk q xq) as (xq1 & Hq1 & (_ & Ec1 & _)); [set_solver|done|].
  assert (Hlq1 : chain proc_sib (procs s1) (proc_childlist xq) lq).
  { apply (chain_keep proc_sib (procs s)); [done|]. intros t x Ht Hx. destruct (decide (t = p)) as [->|]; [exists xp1; split; [done|congruence]|].
    destruct (Hk t x) as (z & Hz & E & _); [|done|eauto]. intros [->|Hin]%elem_of_cons; [done|]. by apply (Hd t). }
  assert (live = [] \/ exists pre z, live = pre ++ [z]) as [Elive|(pre & z & Elive)] by (destruct live using rev_ind; eauto).
  - rewrite Elive in *. cbn [last mbind option_bind]. rewrite (upd_proc_Some _ _ _ xp1) by done. eexists _, _, xq1. split; [reflexivity|]. cbn. split; [done|].
    split; [apply lookup_insert_eq|]. split; [done|]. split; [done|]. split; [by rewrite lookup_insert_ne|]. split; [rewrite Ec1; by apply (chain_same proc_sib _ _ _ _ xp1)|]. split; [by intros c ?%elem_of_nil|].
    apply (given_back_same s s s1 _ _ _ (same_pool_refl s) Hgb). split_and!; try done. by apply (keeps_next_insert _ _ xp1).
  - rewrite Elive in *. rewrite last_snoc. rewrite Hq1. cbn [mbind option_bind]. destruct (Hpar z) as (yz & Hz & Epz); [set_solver|]. assert (Hzl : z ∈ l) by (apply Hlive; set_solver).
    rewrite (upd_proc_Some _ _ _ yz) by done. cbn [mbind option_bind]. assert (Hzp : z <> p) by (intros ->; done). assert (Hzq : z <> q) by (intros ->; set_solver).
    cbn [procs set_procs]. rewrite lookup_insert_ne, Hp1 by done. cbn [mbind option_bind]. rewrite (upd_proc_Some _ _ _ xq1) by (cbn; by rewrite lookup_insert_ne). cbn [mbind option_bind].
    rewrite (upd_proc_Some _ _ _ xp1) by (cbn; by rewrite !lookup_insert_ne). eexists _, _, _. split; [reflexivity|]. cbn. split; [done|].
    split; [apply lookup_insert_eq|]. split; [done|]. split; [done|]. split; [rewrite lookup_insert_ne by done; apply lookup_insert_eq|]. split.
    + cbn. rewrite <- app_assoc. cbn. apply (chain_same proc_sib _ _ _ _ xp1); [|by rewrite !lookup_insert_ne|done]. apply (chain_same proc_sib _ _ _ _ xq1); [|by rewrite lookup_insert_ne|done].
      apply (chain_retail proc_sib (procs s1) _ _ pre z [] lq (with_psib (proc_childlist xq1) yz)); [done| |apply lookup_insert_eq|].
      * intros t Ht. rewrite lookup_insert_ne; [done|]. intros <-. assert (NoDup live) as Hn by (by apply NoDup_filter). rewrite Elive in Hn. apply NoDup_app in Hn as (_ & H & _). apply (H z Ht). by left.
      * cbn. rewrite Ec1. apply chain_out; [done|]. by apply Hd.
    + split.
      2:{ apply (given_back_same s s s1 _ _ _ (same_pool_refl s) Hgb). split_and!; try done. cbn. apply (keeps_next_trans _ (<[z := with_psib (proc_childlist xq1) yz]> (procs s1))); [by apply (keeps_next_insert _ _ yz)|].
          eapply keeps_next_trans; [|apply (keeps_next_insert _ _ xp1); [by rewrite !lookup_insert_ne|done]]. apply (keeps_next_insert _ _ xq1); [by rewrite lookup_insert_ne|done]. }
      intros c Hc. destruct (Hpar c Hc) as (y & Hy & Ey). assert (c <> p) by (intros ->; by apply Hpl, Hlive). assert (c <> q) by (intros ->; apply Hql, elem_of_app; left; by apply Hlive).
      rewrite !lookup_insert_ne by done. destruct (decide (c = z)) as [->|]; [rewrite lookup_insert_eq; eexists; split; [done|]; cbn; congruence|rewrite lookup_insert_ne by done; eauto].
Qed.

(** * The local descriptor tables *)

Ltac tables := cbn [ldt_table set_kst set_procs set_thrs set_used set_suspended set_unused set_usedthr set_termthr set_unusedthr set_tss set_gdt set_focus say] in *; try congruence.

Lemma upd_proc_ldt p f s s' : upd_proc p f s = Some s' -> ldt_table s' = ldt_table s.
Proof. unfold upd_proc. intros H. split_run. done. Qed.
Lemma upd_th_ldt t f s s' : upd_th t f s = Some s' -> ldt_table s' = ldt_table s.
Proof. unfold upd_th. intros H. split_run. done. Qed.
Lemma in_k_ldt f s s' : in_k f s = Some s' -> ldt_table s' = ldt_table s.
Proof. unfold in_k. intros H. split_run. done. Qed.
Ltac store_ldt := repeat match goal with
  | H : upd_proc _ _ _ = Some _ |- _ => apply upd_proc_ldt in H
  | H : upd_th _ _ _ = Some _ |- _ => apply upd_th_ldt in H
  | H : in_k _ _ = Some _ |- _ => apply in_k_ldt in H
  end.
Ltac by_stores := intros H; split_run; store_ldt; tables.

Lemma alloc_task_index_ldt s i s' : alloc_task_index s = Some (i, s') -> ldt_table s' = ldt_table s.
Proof. unfold alloc_task_index. by_stores. Qed.
Lemma free_task_index_ldt i s s' : free_task_index i s = Some s' -> ldt_table s' = ldt_table s.
Proof. unfold free_task_index. by_stores. Qed.
Lemma alloc_thread_ldt b s r s' : alloc_thread b s = Some (r, s') -> ldt_table s' = ldt_table s.
Proof. unfold alloc_thread, alloc_tss. by_stores. Qed.
Lemma destroy_thread_ldt t s s' : destroy_thread t s = Some s' -> ldt_table s' = ldt_table s.
Proof. unfold destroy_thread. by_stores. Qed.
Lemma alloc_process_ldt b s r s' : alloc_process b s = Some (r, s') -> ldt_table s' = ldt_table s.
Proof. unfold alloc_process. by_stores. Qed.
Lemma destroy_process_ldt p s s' : destroy_process p s = Some s' -> ldt_table s' = ldt_table s.
Proof. unfold destroy_process. by_stores. Qed.
Lemma push_used_ldt p s s' : push_used p s = Some s' -> ldt_table s' = ldt_table s.
Proof. unfold push_used. by_stores. Qed.
Lemma unlink_child_ldt p q s s' : unlink_child p q s = Some s' -> ldt_table s' = ldt_table s.
Proof. unfold unlink_child. by_stores. Qed.
Ltac block_ldt := repeat match goal with
  | H : alloc_task_index _ = Some _ |- _ => apply alloc_task_index_ldt in H
  | H : free_task_index _ _ = Some _ |- _ => apply free_task_index_ldt in H
  | H : alloc_thread _ _ = Some _ |- _ => apply alloc_thread_ldt in H
  | H : destroy_thread _ _ = Some _ |- _ => apply destroy_thread_ldt in H
  | H : alloc_process _ _ = Some _ |- _ => apply alloc_process_ldt in H
  | H : destroy_process _ _ = Some _ |- _ => apply destroy_process_ldt in H
  | H : push_used _ _ = Some _ |- _ => apply push_used_ldt in H
  | H : unlink_child _ _ _ = Some _ |- _ => apply unlink_child_ldt in H
  end; store_ldt; tables.
Ltac by_blocks := intros H; split_run; block_ldt.

Lemma create_thread_ldt b tt so p sc pr st tn s r s' : create_thread b tt so p sc pr st tn s = Some (r, s') -> ldt_table s' = ldt_table s.
Proof. unfold create_thread. by_blocks. Qed.
Lemma terminate_thread_ldt t s o s' : terminate_thread t s = Some (o, s') -> ldt_table s' = ldt_table s.
Proof. unfold terminate_thread, unlink_used, push_terminated. by_blocks. Qed.
Lemma terminate_loop_ldt fuel t1 s s' : terminate_loop fuel t1 s = Some s' -> ldt_table s' = ldt_table s.
Proof.
  revert t1 s. induction fuel as [|fuel IH]; intros [t|] s; cbn [terminate_loop]; try by intros [= <-]. intros H. split_run; apply IH in H; try done. apply terminate_thread_ldt in E2. congruence.
Qed.
Lemma exit_loop_ldt fuel t1 s s' : exit_loop fuel t1 s = Some s' -> ldt_table s' = ldt_table s.
Proof.
  revert t1 s. induction fuel as [|fuel IH]; intros [t|] s; cbn [exit_loop]; try by intros [= <-]. intros H. split_run; apply IH in H; try done.
  repeat match goal with H : terminate_thread _ _ = _ |- _ => apply terminate_thread_ldt in H end. store_ldt. congruence.
Qed.
Lemma terminate_process_ldt p s o s' : terminate_process p s = Some (o, s') -> ldt_table s' = ldt_table s.
Proof.
  unfold terminate_process. intros H. split_run; repeat match goal with H : terminate_loop _ _ _ = _ |- _ => apply terminate_loop_ldt in H | H : terminate_thread _ _ = _ |- _ => apply terminate_thread_ldt in H end;
  destruct (bool_decide (kbd_focus s = Some p)); tables.
Qed.
Lemma syscall_exit_ldt st s o s' : syscall_exit st s = Some (o, s') -> ldt_table s' = ldt_table s.
Proof. unfold syscall_exit. intros H. split_run. apply exit_loop_ldt in E0. apply terminate_thread_ldt in H. store_ldt. congruence. Qed.
Lemma adopt_loop_ldt fuel p q p1 p2 s r s' : adopt_loop fuel p q p1 p2 s = Some (r, s') -> ldt_table s' = ldt_table s.
Proof.
  revert p1 p2 s. induction fuel as [|fuel IH]; intros [c|] p2 s; cbn [adopt_loop]; try by intros [= <- <-]. intros H. split_run; apply IH in H; block_ldt.
Qed.
Lemma adopt_ldt p q s s' : adopt p q s = Some s' -> ldt_table s' = ldt_table s.
Proof. unfold adopt. intros H. split_run; repeat match goal with H : adopt_loop _ _ _ _ _ _ = _ |- _ => apply adopt_loop_ldt in H end; block_ldt. Qed.
Lemma destroy_threads_ldt fuel t1 s s' : destroy_threads fuel t1 s = Some s' -> ldt_table s' = ldt_table s.
Proof. revert t1 s. induction fuel as [|fuel IH]; intros [t|] s; cbn [destroy_threads]; try by intros [= <-]. intros H. split_run; apply IH in H; block_ldt. Qed.
Lemma end_process_ldt p s s' : end_process p s = Some s' -> ldt_table s' = ldt_table s.
Proof.
  unfold end_process. intros H. split_run; repeat match goal with H : adopt _ _ _ = _ |- _ => apply adopt_ldt in H | H : destroy_threads _ _ _ = _ |- _ => apply destroy_threads_ldt in H end; block_ldt.
Qed.
Lemma reap_thread_ldt t p s s' : reap_thread t p s = Some s' -> ldt_table s' = ldt_table s.
Proof.
  unfold reap_thread, unlink_sib. intros H. destruct (thrs s !! t) as [x|]; [|done]. cbn [mbind option_bind] in H. destruct (kt_defsock x), (0 <=? kt_ustackstart x); split_run; block_ldt.
Qed.
Lemma handler_turn_ldt s s' : handler_turn s = Some s' -> ldt_table s' = ldt_table s.
Proof. unfold handler_turn. intros H. split_run; repeat match goal with H : end_process _ _ = _ |- _ => apply end_process_ldt in H | H : reap_thread _ _ _ = _ |- _ => apply reap_thread_ldt in H end; tables. Qed.
Lemma syscall_wait_ldt low l s o r s' : syscall_wait low l s = Some (o, r, s') -> ldt_table s' = ldt_table s.
Proof. unfold syscall_wait. by_blocks. Qed.
Lemma suspend_ldt p s s' : suspend p s = Some s' -> ldt_table s' = ldt_table s.
Proof. unfold suspend. by_blocks. Qed.

(** The first free entry, or the end of the table. *)
Lemma table_scan_spec {A} (free : A -> bool) (l : list A) n i :
  0 <= i -> i + Z.of_nat n <= zlen l ->
  exists j, scan n free i l = Some j /\ i <= j <= i + Z.of_nat n /\ (forall k x, i <= k < j -> zget l k = Some x -> free x = false) /\
    (j < i + Z.of_nat n -> exists x, zget l j = Some x /\ free x = true).
Proof.
  revert i. induction n as [|n IH]; intros i Hi Hn; cbn [scan].
  - exists i. split_and!; try done; lia.
  - destruct (zget_is_Some l i) as [x Hx]; [lia|]. rewrite Hx. cbn [mbind option_bind]. destruct (free x) eqn:Ef.
    + exists i. split_and!; try done; try lia. eauto.
    + destruct (IH (i + 1)) as (j & -> & Hj & Hbefore & Hat); [lia..|]. exists j. split; [done|]. split; [lia|]. split; [|intros; apply Hat; lia].
      intros k y Hk Hy. destruct (decide (k = i)) as [->|]; [congruence|]. apply (Hbefore k y); [lia|done].
Qed.

Definition ldt_free (l : Paging.LDT) : Prop := desc_b (Paging.code l) = 0.
#[local] Instance ldt_free_dec l : Decision (ldt_free l).
Proof. unfold ldt_free. apply _. Defined.
Definition free_ldts (s : pst) : Z := zlen (filter ldt_free (ldt_table s)).


Lemma free_count_set l l' i a b : zget l i = Some a -> zset l i b = Some l' ->
  zlen (filter ldt_free l') = zlen (filter ldt_free l) - (if decide (ldt_free a) then 1 else 0) + (if decide (ldt_free b) then 1 else 0).
Proof.
  intros Ha [Hi ->]%zset_inv. unfold zget in Ha. destruct (i <? 0); [done|]. rewrite <- (take_drop_middle l (Z.to_nat i) a Ha) at 2. rewrite insert_take_drop by (unfold zlen in Hi; lia).
  rewrite !filter_app, !filter_cons. unfold zlen. repeat case_decide; rewrite !length_app; cbn [length]; lia.
Qed.

Lemma initialized_not_free l cs sz ty : ~ ldt_free (Paging.initialize_ldt l cs sz ty).
Proof.
  unfold ldt_free, Paging.initialize_ldt, Paging.initialize_codeseg, desc_b. set (d := Paging.sdesc _ _ _). cbn [Paging.code Paging.base_middle Paging.access Paging.granularity Paging.base_high].
  assert (0 <= Paging.base_middle d /\ 0 <= Paging.granularity d /\ 0 <= Paging.base_high d) as (? & ? & ?).
  { unfold d, Paging.sdesc. destruct (_ <? _); cbn; split_and!; apply u8_range. }
  destruct (ty =? Paging.PROC_TYPE_SYSTEM); match goal with |- context [u8 ?a] => let v := eval vm_compute in (u8 a) in change (u8 a) with v end; lia.
Qed.

Lemma set_code_b_free l : ldt_free (set_code_b 0 l) /\ ~ ldt_free (set_code_b 1 l).
Proof. split; [reflexivity|discriminate]. Qed.

Lemma alloc_ldt_index_counts s i s' :
  zlen (ldt_table s) = Paging.MAXPROCESSES -> alloc_ldt_index s = Some (i, s') ->
  (i = -1 /\ s' = s /\ free_ldts s = 0) \/
  (0 <= i /\ zlen (ldt_table s') = zlen (ldt_table s) /\ free_ldts s' = free_ldts s - 1 /\ exists l, zget (ldt_table s') i = Some l /\ ~ ldt_free l).
Proof.
  intros Hn. unfold alloc_ldt_index. destruct (table_scan_spec (fun l => desc_b (Paging.code l) =? 0) (ldt_table s) 32 0) as (j & -> & Hj & Hbefore & Hat); [lia|rewrite Hn; done|]. cbn [mbind option_bind].
  destruct (Z.ltb_spec j Paging.MAXPROCESSES) as [Hlt|Hge].
  - intros H. step H as l from E. step H as t from E0. injection H as <- <-. right. destruct Hat as (l' & Hl & Hf); [done|]. assert (l' = l) as -> by congruence. cbn [set_ldt ldt_table]. split; [lia|]. split; [by eapply zlen_zset|].
    unfold free_ldts. cbn [set_ldt ldt_table]. rewrite (free_count_set _ _ _ _ _ E E0). rewrite decide_True by (by apply Z.eqb_eq). rewrite decide_False by apply set_code_b_free. split; [lia|]. eexists. split; [by eapply zget_zset_eq|apply set_code_b_free].
  - intros [= <- <-]. left. split; [done|]. split; [done|]. unfold free_ldts. assert (filter ldt_free (ldt_table s) = []) as ->; [|done].
    destruct (filter ldt_free (ldt_table s)) as [|x fl] eqn:Efl; [done|]. exfalso. assert (Hx : x ∈ filter ldt_free (ldt_table s)) by (rewrite Efl; by left). apply list_elem_of_filter in Hx as [Hf Hx]. apply list_elem_of_lookup in Hx as [k Hk].
    assert (Hg : zget (ldt_table s) (Z.of_nat k) = Some x) by (unfold zget; rewrite (proj2 (Z.ltb_ge _ _)), Nat2Z.id by lia; done).
    pose proof (zget_Some_range _ _ _ Hg) as Hr. rewrite Hn in Hr. pose proof (Hbefore (Z.of_nat k) x ltac:(lia) Hg) as Hb. apply Z.eqb_neq in Hb. done.
Qed.

Lemma create_process_counts b tb tt so cw ro tp ty pr no s r s' :
  zlen (ldt_table s) = Paging.MAXPROCESSES -> create_process b tb tt so cw ro tp ty pr no s = Some (r, s') ->
  zlen (ldt_table s') = Paging.MAXPROCESSES /\ free_ldts s' <= free_ldts s - (if r <? 0 then 0 else 1).
Proof.
  intros Hn. unfold create_process. intros H. step H as [i s1] from E1. destruct (alloc_ldt_index_counts _ _ _ Hn E1) as [(-> & -> & _)|(Hi & Hn1 & Hf1 & l1 & Hl1 & Hnf)].
  { change (-1 <? 0) with true in H. cbv iota in H. injection H as <- <-. split; [done|]. change (EMAXPROCESSES <? 0) with true. cbv iota. lia. }
  rewrite (proj2 (Z.ltb_ge i 0)) in H by done. step H as [op s2] from E2. apply alloc_process_ldt in E2. destruct op as [p|].
  - assert (exists tbl, zset (ldt_table s2) i (Paging.initialize_ldt l1 (cs_start tp) (cs_size tp) ty) = Some tbl /\ ldt_table s' = tbl) as (tbl & Ht & Es).
    { rewrite E2. rewrite E2 in H. step H as x from Ex. step H as cur from Ec. rewrite Hl1 in H. cbn [mbind option_bind] in H. step H as tbl from Et. exists tbl. split; [done|].
      step H as s4 from E4. step H as s5 from E5. step H as [ret s6] from E6. apply upd_proc_ldt in E4. apply push_used_ldt in E5. apply create_thread_ldt in E6.
      cbn [ldt_table set_procs set_kst say set_ldt] in *. destruct (ret <? 0); [|injection H as <- <-; congruence]. step H as [o s7] from E7. apply terminate_process_ldt in E7. injection H as <- <-. congruence. }
    rewrite E2 in Ht. pose proof (free_count_set _ _ _ _ _ Hl1 Ht) as Hfc. rewrite decide_False in Hfc by done. rewrite decide_False in Hfc by apply initialized_not_free.
    unfold free_ldts in *. rewrite Es. split; [rewrite (zlen_zset _ _ _ _ Ht); lia|]. destruct (r <? 0); lia.
  - step H as s3 from E3. injection H as <- <-. change (ENOMEM <? 0) with true. cbv iota. unfold free_ldt_index in E3. rewrite E2, Hl1 in E3. cbn [mbind option_bind] in E3. step E3 as t from Et. injection E3 as <-.
    pose proof (free_count_set _ _ _ _ _ Hl1 Et) as Hfc. rewrite decide_False in Hfc by done. rewrite decide_True in Hfc by apply set_code_b_free.
    unfold free_ldts in *. cbn [ldt_table set_ldt]. split; [rewrite (zlen_zset _ _ _ _ Et); lia|]. rewrite Hfc. lia.
Qed.

(** Any sequence of creations, ends and other calls; the number counts the calls of
    [create_process] that succeeded. *)
Inductive pruns (s0 : pst) : Z -> pst -> Prop :=
| Runs : pruns s0 0 s0
| RunCreate n s b tb tt so cw ro tp ty pr no r s' : pruns s0 n s -> create_process b tb tt so cw ro tp ty pr no s = Some (r, s') -> pruns s0 (if r <? 0 then n else n + 1) s'
| RunThread n s b tt so p sc pr st tn r s' : pruns s0 n s -> create_thread b tt so p sc pr st tn s = Some (r, s') -> pruns s0 n s'
| RunTerminate n s p o s' : pruns s0 n s -> terminate_process p s = Some (o, s') -> pruns s0 n s'
| RunExit n s st o s' : pruns s0 n s -> syscall_exit st s = Some (o, s') -> pruns s0 n s'
| RunHandler n s s' : pruns s0 n s -> handler_turn s = Some s' -> pruns s0 n s'
| RunWait n s low l o r s' : pruns s0 n s -> syscall_wait low l s = Some (o, r, s') -> pruns s0 n s'
| RunSuspend n s p s' : pruns s0 n s -> suspend p s = Some s' -> pruns s0 n s'.

(** C18: Processes for ever.  The descriptor table of a process is never given back when the
    process ends: whatever is done, at most as many processes can be created as tables were
    free at the start (at most 32), and when none is left every call gives
    [EMAXPROCESSES]. *)
Theorem process_slots_run_out s0 n s :
  zlen (ldt_table s0) = Paging.MAXPROCESSES -> pruns s0 n s ->
  n + free_ldts s <= free_ldts s0 <= 32 /\
  (free_ldts s = 0 -> forall b tb tt so cw ro tp ty pr no, create_process b tb tt so cw ro tp ty pr no s = Some (EMAXPROCESSES, s)).
Proof.
  intros Hn0 Hr. assert (Hs : zlen (ldt_table s) = Paging.MAXPROCESSES /\ n + free_ldts s <= free_ldts s0).
  { induction Hr as [|n s b tb tt so cw ro tp ty pr no r s' _ IH E|n s b tt so p sc pr st tn r s' _ IH E|n s p o s' _ IH E|n s st o s' _ IH E|n s s' _ IH E|n s low l o r s' _ IH E|n s p s' _ IH E].
    { split; [done|lia]. }
    { destruct IH as [IHn IHf]. destruct (create_process_counts _ _ _ _ _ _ _ _ _ _ _ _ _ IHn E) as [? ?]. split; [done|]. destruct (r <? 0); lia. }
    all: unfold free_ldts in *; first [apply create_thread_ldt in E|apply terminate_process_ldt in E|apply syscall_exit_ldt in E|apply handler_turn_ldt in E|apply syscall_wait_ldt in E|apply suspend_ldt in E]; rewrite E; exact IH. }
  destruct Hs as [Hn Hf]. split.
  - split; [done|]. unfold free_ldts. pose proof (length_filter ldt_free (ldt_table s0)) as Hle. unfold zlen in *. change Paging.MAXPROCESSES with 32 in Hn0. lia.
  - intros Hz b tb tt so cw ro tp ty pr no. unfold create_process. destruct (alloc_ldt_index s) as [[i s1]|] eqn:E.
    + destruct (alloc_ldt_index_counts _ _ _ Hn E) as [(-> & -> & _)|(_ & _ & Hf1 & _)]; [done|]. exfalso. unfold free_ldts, zlen in *. lia.
    + exfalso. revert E. unfold alloc_ldt_index. destruct (table_scan_spec (fun l => desc_b (Paging.code l) =? 0) (ldt_table s) 32 0) as (j & -> & Hj & _); [lia|rewrite Hn; done|]. cbn [mbind option_bind].
      destruct (Z.ltb_spec j Paging.MAXPROCESSES); [|done]. destruct (zget_is_Some (ldt_table s) j) as [l ->]; [lia|]. cbn [mbind option_bind]. rewrite zset_Some by lia. done.
Qed.

(** * Sorting section headers *)

Definition addr_le (a b : Elf32_Shdr) : Prop := sh_addr a <= sh_addr b.

Lemma zget_mid {A} (pre post : list A) a i : i = zlen pre -> zget (pre ++ a :: post) i = Some a.
Proof. intros ->. unfold zget, zlen. rewrite (proj2 (Z.ltb_ge _ _)), Nat2Z.id by lia. by apply list_lookup_middle. Qed.
Lemma zset_mid {A} (pre post : list A) a b i : i = zlen pre -> zset (pre ++ a :: post) i b = Some (pre ++ b :: post).
Proof.
  intros ->. rewrite zset_Some by (unfold zlen; rewrite length_app; cbn; lia). unfold zlen. rewrite Nat2Z.id. f_equal. rewrite insert_app_r_alt by lia. by rewrite Nat.sub_diag.
Qed.

Lemma sort_inner_spec pre n rest : forall fuel a mid j,
  n = zlen (pre ++ a :: mid ++ rest) -> j = zlen pre + 1 + zlen mid -> (length rest <= fuel)%nat -> Forall (addr_le a) mid ->
  exists a' tail, sort_inner fuel (zlen pre) j n (pre ++ a :: mid ++ rest) = Some (pre ++ a' :: tail) /\ a' :: tail ≡ₚ a :: mid ++ rest /\ Forall (addr_le a') tail.
Proof.
  induction rest as [|b rest IH]; intros fuel a mid j Hn Hj Hf Hle.
  - rewrite app_nil_r in *. exists a, mid. split; [|done]. destruct fuel; cbn [sort_inner]; (rewrite (proj2 (Z.ltb_ge j n)); [done|]); unfold zlen in *; rewrite length_app in Hn; cbn in Hn; lia.
  - destruct fuel as [|fuel]; [cbn in Hf; lia|]. cbn [sort_inner]. rewrite (proj2 (Z.ltb_lt j n)) by (unfold zlen in *; rewrite !length_app in Hn; cbn in Hn; rewrite length_app in Hn; cbn in Hn; lia). cbn [negb].
    rewrite (zget_mid pre (mid ++ b :: rest) a (zlen pre)) by done. cbn [mbind option_bind]. assert (Esp : pre ++ a :: mid ++ b :: rest = (pre ++ a :: mid) ++ b :: rest) by (by rewrite <- app_assoc).
    assert (Ej : j = zlen (pre ++ a :: mid)) by (unfold zlen in *; rewrite length_app; cbn; lia). rewrite Esp, (zget_mid (pre ++ a :: mid) rest b j) by done. cbn [mbind option_bind].
    destruct (Z.ltb_spec (sh_addr b) (sh_addr a)) as [Hlt|Hge].
    + rewrite <- Esp, (zset_mid pre (mid ++ b :: rest) a b (zlen pre)) by done. cbn [mbind option_bind]. replace (pre ++ b :: mid ++ b :: rest) with ((pre ++ b :: mid) ++ b :: rest) by (by rewrite <- app_assoc).
      rewrite zset_mid by (unfold zlen in *; rewrite length_app; cbn; lia). cbn [mbind option_bind]. replace ((pre ++ b :: mid) ++ a :: rest) with (pre ++ b :: (mid ++ [a]) ++ rest) by (by rewrite <- !app_assoc).
      destruct (IH fuel b (mid ++ [a]) (j + 1)) as (a' & tail & -> & Hperm & Hall).
      * rewrite Hn. unfold zlen. rewrite !length_app. cbn. rewrite !length_app. cbn. lia.
      * unfold zlen in *. rewrite length_app. cbn. lia.
      * cbn in Hf. lia.
      * apply Forall_app. split; [|by repeat constructor; unfold addr_le; lia]. eapply Forall_impl; [exact Hle|]. unfold addr_le. cbn. intros; lia.
      * exists a', tail. split; [done|]. split; [|done]. rewrite Hperm. rewrite <- app_assoc. cbn. by rewrite <- !Permutation_middle, Permutation_swap.
    + cbn [mbind option_bind]. rewrite <- Esp. replace (pre ++ a :: mid ++ b :: rest) with (pre ++ a :: (mid ++ [b]) ++ rest) by (by rewrite <- !app_assoc).
      destruct (IH fuel a (mid ++ [b]) (j + 1)) as (a' & tail & -> & Hperm & Hall).
      * rewrite Hn. by rewrite <- app_assoc.
      * unfold zlen in *. rewrite length_app. cbn. lia.
      * cbn in Hf. lia.
      * apply Forall_app. split; [done|]. repeat constructor. done.
      * exists a', tail. split; [done|]. split; [|done]. by rewrite Hperm, <- app_assoc.
Qed.

Lemma sort_outer_spec n fuel : forall pre rest, n = zlen (pre ++ rest) -> (length rest <= fuel)%nat ->
  exists rest', sort_outer fuel (zlen pre) n (pre ++ rest) = Some (pre ++ rest') /\ rest' ≡ₚ rest /\ StronglySorted addr_le rest'.
Proof.
  induction fuel as [|fuel IH]; intros pre rest Hn Hf.
  - destruct rest; [|cbn in Hf; lia]. exists []. cbn [sort_outer]. rewrite (proj2 (Z.ltb_ge _ _)) by (rewrite Hn, app_nil_r; lia). split; [done|]. split; [done|constructor].
  - cbn [sort_outer]. destruct rest as [|a [|b rest]].
    + exists []. rewrite (proj2 (Z.ltb_ge _ _)) by (rewrite Hn, app_nil_r; lia). split; [done|]. split; [done|constructor].
    + exists [a]. rewrite (proj2 (Z.ltb_ge _ _)) by (rewrite Hn; unfold zlen; rewrite length_app; cbn; lia). split; [done|]. split; [done|]. repeat constructor.
    + rewrite (proj2 (Z.ltb_lt _ _)) by (rewrite Hn; unfold zlen; rewrite length_app; cbn; lia). cbn [negb].
      destruct (sort_inner_spec pre n (b :: rest) (Z.to_nat n) a [] (zlen pre + 1)) as (a' & tail & E & Hperm & Hall); [done|by rewrite Z.add_0_r|rewrite Hn; unfold zlen; rewrite length_app; cbn; lia|constructor|].
      cbn [app] in E. rewrite E. cbn [mbind option_bind]. rewrite (cons_middle a' pre tail), app_assoc. assert (Hlen : length tail = length (b :: rest)) by (apply Permutation_length in Hperm; cbn in *; lia).
      replace (zlen pre + 1) with (zlen (pre ++ [a'])) by (unfold zlen; rewrite length_app; cbn; lia).
      destruct (IH (pre ++ [a']) tail) as (rest' & -> & Hp' & Hs'); [rewrite Hn; unfold zlen; rewrite !length_app; cbn in *; lia|cbn in *; lia|].
      exists (a' :: rest'). split; [by rewrite <- app_assoc|]. split; [by rewrite Hp'|]. constructor; [done|]. by rewrite Hp'.
Qed.

(** [sort_hdrs] sorts the headers by address: its loops end, inside the array, with a
    permutation of the headers in ascending order. *)
Theorem sort_hdrs_sorts hdrs : exists hdrs', sort_hdrs hdrs (zlen hdrs) = Some hdrs' /\ hdrs' ≡ₚ hdrs /\ StronglySorted addr_le hdrs'.
Proof. unfold sort_hdrs. apply (sort_outer_spec (zlen hdrs) (Z.to_nat (zlen hdrs)) [] hdrs); [done|unfold zlen; lia]. Qed.

(** * The pool of threads *)

(** The threads in use have a task state each, no other task state is taken, and the
    unused blocks are a list outside them. *)
Record thread_pool (live : gset loc) (s : pst) : Prop := {
  tp_len : zlen (tss_res1 s) = MAXTHREADS;
  tp_unused : exists lu, chain kt_qnext (thrs s) (unused_threads s) lu /\ NoDup lu /\ unusedthr_count s = zlen lu /\ zlen lu <= UNUSEDTHR_COUNTMAX /\ forall t, t ∈ lu -> t ∉ live;
  tp_live t : t ∈ live -> exists x r, thrs s !! t = Some x /\ zget (tss_res1 s) (kt_tss x) = Some r /\ r <> 0xffff;
  tp_known t : t ∈ live -> is_Some (threads (kst s) !! t);
  tp_own t t' x x' : t ∈ live -> t' ∈ live -> thrs s !! t = Some x -> thrs s !! t' = Some x' -> kt_tss x = kt_tss x' -> t = t';
  tp_taken i r : zget (tss_res1 s) i = Some r -> r <> 0xffff -> exists t x, t ∈ live /\ thrs s !! t = Some x /\ kt_tss x = i;
  tp_unused_known lu t : chain kt_qnext (thrs s) (unused_threads s) lu -> t ∈ lu -> is_Some (threads (kst s) !! t) }.

(** A thread block with the task state [i], which was free, joins the threads in use. *)
Lemma thread_pool_join live s s' t x i res lu :
  thread_pool live s -> t ∉ live -> zget (tss_res1 s) i = Some 0xffff -> zset (tss_res1 s) i 0 = Some res -> tss_res1 s' = res ->
  thrs s' = <[t := x]> (thrs s) -> kt_tss x = i -> (forall a, is_Some (threads (kst s) !! a) -> is_Some (threads (kst s') !! a)) -> is_Some (threads (kst s') !! t) ->
  chain kt_qnext (thrs s') (unused_threads s') lu -> NoDup lu -> unusedthr_count s' = zlen lu -> zlen lu <= UNUSEDTHR_COUNTMAX -> (forall a, a ∈ lu -> a ∉ {[t]} ∪ live /\ is_Some (threads (kst s) !! a)) ->
  thread_pool ({[t]} ∪ live) s'.
Proof.
  intros [Hlen _ Hlive Hkn Hown Htaken _] Ht Hi Hset Etss Eth Ex Hk Hkt Hch Hnd Hc Hmax Hlu. assert (Hne : forall a y, a ∈ live -> thrs s !! a = Some y -> kt_tss y <> i).
  { intros a y Ha Hy E. destruct (Hlive a Ha) as (y' & r & Hy' & Hr & Hr'). assert (y' = y) as -> by congruence. rewrite E in Hr. congruence. }
  assert (Hla : forall a, a ∈ live -> a <> t) by (by intros a Ha ->). split.
  - rewrite Etss. by rewrite (zlen_zset _ _ _ _ Hset).
  - exists lu. split_and!; try done. intros a Ha. by apply Hlu.
  - intros a [->%elem_of_singleton|Ha]%elem_of_union; rewrite Eth, Etss.
    + rewrite lookup_insert_eq. exists x, 0. rewrite Ex. split_and!; try done. by eapply zget_zset_eq.
    + rewrite lookup_insert_ne by (by apply not_eq_sym, Hla). destruct (Hlive a Ha) as (y & r & Hy & Hr & Hr'). exists y, r. split_and!; try done.
      rewrite (zget_zset_ne _ _ _ _ _ Hset); [done|]. intros E. by apply (Hne a y).
  - intros a [->%elem_of_singleton|Ha]%elem_of_union; [done|]. by apply Hk, Hkn.
  - intros a b y z. rewrite Eth. intros [->%elem_of_singleton|Ha]%elem_of_union [->%elem_of_singleton|Hb]%elem_of_union; rewrite ?lookup_insert_eq; try done.
    + rewrite lookup_insert_ne by (by apply not_eq_sym, Hla). intros [= <-] Hz E. exfalso. apply (Hne b z Hb Hz). congruence.
    + rewrite lookup_insert_ne by (by apply not_eq_sym, Hla). intros Hy [= <-] E. exfalso. apply (Hne a y Ha Hy). congruence.
    + rewrite !lookup_insert_ne by (by apply not_eq_sym, Hla). by apply Hown.
  - intros j r. rewrite Etss, Eth. destruct (decide (j = i)) as [->|Hj].
    + intros _ _. exists t, x. rewrite lookup_insert_eq. split_and!; try done. set_solver.
    + rewrite (zget_zset_ne _ _ _ _ _ Hset) by done. intros Hr Hr'. destruct (Htaken j r Hr Hr') as (a & y & Ha & Hy & Ey). exists a, y. rewrite lookup_insert_ne by (by apply not_eq_sym, Hla). set_solver.
  - intros lu' a Hch' Ha. assert (lu' = lu) as -> by (by eapply chain_unique). apply Hk. by apply Hlu.
Qed.

Lemma alloc_tss_spec s :
  zlen (tss_res1 s) = MAXTHREADS ->
  (exists i r, alloc_tss s = Some (i, set_tss r s) /\ 0 <= i /\ zget (tss_res1 s) i = Some 0xffff /\ zset (tss_res1 s) i 0 = Some r) \/
  (alloc_tss s = Some (-1, s) /\ forall i r, zget (tss_res1 s) i = Some r -> r <> 0xffff).
Proof.
  intros Hn. unfold alloc_tss. destruct (table_scan_spec (fun r => r =? 0xffff) (tss_res1 s) 256 0) as (j & -> & Hj & Hbefore & Hat); [lia|rewrite Hn; done|]. cbn [mbind option_bind].
  destruct (Z.ltb_spec j MAXTHREADS) as [Hlt|Hge].
  - left. destruct Hat as (r & Hr & ->%Z.eqb_eq); [done|]. rewrite zset_Some by (rewrite Hn; lia). eexists j, _. split; [reflexivity|]. split_and!; [lia|done|]. rewrite zset_Some by (rewrite Hn; lia). done.
  - right. split; [done|]. intros i r Hr. pose proof (zget_Some_range _ _ _ Hr) as Hi. unfold MAXTHREADS in *. assert (Hb := Hbefore i r ltac:(lia) Hr). by apply Z.eqb_neq in Hb.
Qed.

Lemma alloc_thread_pool live s b :
  thread_pool live s -> (forall t x y, b = Some (t, x, y) -> t ∉ live /\ thrs s !! t = None) ->
  exists r s', alloc_thread b s = Some (r, s') /\
    match r with
    | Some t => t ∉ live /\ thread_pool ({[t]} ∪ live) s'
    | None => tss_res1 s' = tss_res1 s /\ thread_pool live s' /\ (b = None \/ forall i r, zget (tss_res1 s) i = Some r -> r <> 0xffff)
    end.
Proof.
  intros Hp Hb. unfold alloc_thread. destruct (alloc_tss_spec s (tp_len _ _ Hp)) as [(i & res & -> & Hi & Hfree & Hset)|[-> Hfull]]; cbn [mbind option_bind].
  2:{ exists NULL, s. split; [done|]. split; [done|]. split; [done|]. by right. }
  rewrite (proj2 (Z.ltb_ge i 0)) by done. cbn [unused_threads set_tss]. destruct (tp_unused _ _ Hp) as (lu & Hch & Hnd & Hc & Hmax & Hout). destruct lu as [|t lu].
  - cbn in Hch. rewrite Hch. destruct b as [[[t x] y]|].
    + destruct (Hb t x y eq_refl) as [Ht Hn]. eexists _, _. split; [reflexivity|]. cbv iota. split; [done|]. eapply (thread_pool_join live s _ t (with_tss i x) i res []); try done; cbn.
      * intros a Ha. apply lookup_insert_is_Some'. by right.
      * rewrite lookup_insert_eq. eauto.
      * by intros a ?%elem_of_nil.
    + assert (Hset' : zset res i 0xffff = Some (tss_res1 s)).
      { apply zset_inv in Hset as [Hr ->]. rewrite zset_Some by (unfold zlen in *; by rewrite length_insert). f_equal. rewrite list_insert_insert_eq. apply list_insert_id. unfold zget in Hfree. by rewrite (proj2 (Z.ltb_ge i 0)) in Hfree by lia. }
      cbn [tss_res1 set_tss]. rewrite Hset'. cbn [mbind option_bind]. exists NULL, s. split; [by destruct s|]. split; [done|]. split; [done|]. by left.
  - destruct Hch as (Hf & x & Hx & Hch). rewrite Hf. cbn [thrs set_tss]. rewrite Hx. cbn [mbind option_bind]. rewrite (upd_th_Some _ _ _ x) by done. cbn [mbind option_bind].
    apply NoDup_cons in Hnd as [Htl Hnd]. assert (Ht : t ∉ live) by (apply Hout; by left). assert (Hkn : forall a, a ∈ t :: lu -> is_Some (threads (kst s) !! a)).
    { intros a Ha. apply (tp_unused_known _ _ Hp (t :: lu)); [|done]. split; [done|]. by exists x. }
    eexists _, _. split; [reflexivity|]. cbv iota. split; [done|]. eapply (thread_pool_join live s _ t (with_tss i (with_qnext NULL x)) i res lu); try done; cbn.
    + apply Hkn. by left.
    + by apply chain_out.
    + rewrite Hc. unfold zlen. cbn. lia.
    + unfold zlen in *. cbn in Hmax. lia.
    + intros a Ha. split; [|apply Hkn; by right]. assert (a ∉ live) by (apply Hout; by right). assert (a <> t) by (by intros ->). set_solver.
Qed.

Lemma destroy_thread_pool live s t :
  thread_pool live s -> t ∈ live -> exists s', destroy_thread t s = Some s' /\ thread_pool (live ∖ {[t]}) s'.
Proof.
  intros Hp Ht. destruct (tp_live _ _ Hp t Ht) as (x & r & Hx & Hr & Hr'). destruct (tp_known _ _ Hp t Ht) as [y Hy]. destruct (tp_unused _ _ Hp) as (lu & Hch & Hnd & Hc & Hmax & Hout).
  assert (Htl : t ∉ lu) by (intros Hin; by apply (Hout t Hin)). pose proof (zget_Some_range _ _ _ Hr) as Hrange. unfold destroy_thread. rewrite Hx. cbn [mbind option_bind].
  destruct (zset (tss_res1 s) (kt_tss x) 0xffff) as [res|] eqn:Hset; [|by rewrite zset_Some in Hset]. cbn [mbind option_bind].
  assert (Hothers : forall a z, a ∈ live -> a <> t -> thrs s !! a = Some z -> kt_tss z <> kt_tss x) by (intros a z Ha Hne Hz E; apply Hne; by apply (tp_own _ _ Hp a t z x)).
  assert (Hgen : forall s', tss_res1 s' = res -> (forall a, a <> t -> thrs s' !! a = thrs s !! a) -> (forall a, a <> t -> threads (kst s') !! a = threads (kst s) !! a) ->
    (exists lu', chain kt_qnext (thrs s') (unused_threads s') lu' /\ NoDup lu' /\ unusedthr_count s' = zlen lu' /\ zlen lu' <= UNUSEDTHR_COUNTMAX /\ forall a, a ∈ lu' -> (a = t \/ a ∈ lu) /\ is_Some (threads (kst s') !! a)) ->
    thread_pool (live ∖ {[t]}) s').
  { intros s' Etss Eth Ek (lu' & Hch' & Hnd' & Hc' & Hmax' & Hin'). split.
    - rewrite Etss, (zlen_zset _ _ _ _ Hset). apply Hp.
    - exists lu'. split_and!; try done. intros a Ha. destruct (Hin' a Ha) as [[->|Hl] _]; [set_solver|]. pose proof (Hout a Hl). set_solver.
    - intros a [Ha Hne]%elem_of_difference. assert (a <> t) by set_solver. destruct (tp_live _ _ Hp a Ha) as (z & q & Hz & Hq & Hq'). exists z, q. rewrite Eth by done. split_and!; try done.
      rewrite Etss, (zget_zset_ne _ _ _ _ _ Hset); [done|]. by apply not_eq_sym, (Hothers a).
    - intros a [Ha Hne]%elem_of_difference. rewrite Ek by set_solver. by apply (tp_known _ _ Hp).
    - intros a b z w [Ha Hna]%elem_of_difference [Hb Hnb]%elem_of_difference. rewrite !Eth by set_solver. by apply (tp_own _ _ Hp).
    - intros j q. rewrite Etss. destruct (decide (j = kt_tss x)) as [->|Hj]; [rewrite (zget_zset_eq _ _ _ _ Hset); by intros [= <-]|]. rewrite (zget_zset_ne _ _ _ _ _ Hset) by done.
      intros Hq Hq'. destruct (tp_taken _ _ Hp j q Hq Hq') as (a & z & Ha & Hz & Ez). assert (a <> t) by (intros ->; congruence). exists a, z. rewrite Eth by done. set_solver.
    - intros l a Hl Ha. assert (l = lu') as -> by (by eapply chain_unique). by apply Hin'. }
  cbn [unusedthr_count set_tss unused_threads]. destruct (Z.ltb_spec (unusedthr_count s) UNUSEDTHR_COUNTMAX) as [Hlt|Hge].
  - rewrite (upd_th_Some _ _ _ x) by done. cbn [mbind option_bind]. unfold in_k. rewrite (upd_thr_Some _ _ _ y) by done. cbn [mbind option_bind]. eexists. split; [reflexivity|]. apply Hgen; cbn; try done.
    + intros a Ha. by rewrite lookup_insert_ne.
    + intros a Ha. by rewrite lookup_insert_ne.
    + exists (t :: lu). split_and!.
      * split; [done|]. eexists. rewrite lookup_insert_eq. split; [done|]. cbn. by apply chain_out.
      * by apply NoDup_cons.
      * rewrite Hc. unfold zlen. cbn. lia.
      * unfold zlen in *. cbn. lia.
      * intros a [->|Ha]%elem_of_cons; [split; [by left|rewrite lookup_insert_eq; eauto]|]. split; [by right|]. apply lookup_insert_is_Some'. right. by apply (tp_unused_known _ _ Hp lu).
  - eexists. split; [reflexivity|]. apply Hgen; cbn; try done.
    + intros a Ha. by rewrite lookup_delete_ne.
    + intros a Ha. by rewrite lookup_delete_ne.
    + exists lu. split_and!; try done.
      * apply (chain_keep kt_qnext (thrs s)); [done|]. intros a z Ha Hz. exists z. rewrite lookup_delete_ne by (by intros <-). done.
      * intros a Ha. split; [by right|]. rewrite lookup_delete_ne by (by intros <-). by apply (tp_unused_known _ _ Hp lu).
Qed.

(** Threads come and go: the threads in use, and the state. *)
Definition fresh_block (live : gset loc) (s : pst) (b : option (loc * thread * kthread)) : Prop := forall t x y, b = Some (t, x, y) -> t ∉ live /\ thrs s !! t = None.
Inductive tstep : gset loc * pst -> gset loc * pst -> Prop :=
| TAlloc live s b t s' : fresh_block live s b -> alloc_thread b s = Some (Some t, s') -> tstep (live, s) ({[t]} ∪ live, s')
| TNone live s b s' : fresh_block live s b -> alloc_thread b s = Some (NULL, s') -> tstep (live, s) (live, s')
| TDestroy live s t s' : t ∈ live -> destroy_thread t s = Some s' -> tstep (live, s) (live ∖ {[t]}, s').

Lemma tstep_pool x y : tstep x y -> thread_pool (fst x) (snd x) -> thread_pool (fst y) (snd y).
Proof.
  intros [live s b t s' Hb E|live s b s' Hb E|live s t s' Ht E] Hp; cbn [fst snd] in *.
  - destruct (alloc_thread_pool live s b Hp Hb) as (r & s1 & E1 & H). rewrite E in E1. injection E1 as <- <-. apply H.
  - destruct (alloc_thread_pool live s b Hp Hb) as (r & s1 & E1 & H). rewrite E in E1. injection E1 as <- <-. apply H.
  - destruct (destroy_thread_pool live s t Hp Ht) as (s1 & E1 & H). rewrite E in E1. by injection E1 as <-.
Qed.

Lemma initial_pool s : unused_threads s = NULL -> unusedthr_count s = 0 -> thread_pool ∅ (initialize_tss_table s).
Proof.
  intros Hu Hc. assert (Hall : forall i r, zget (replicate 256 0xffff) i = Some r -> r = 0xffff).
  { intros i r H. unfold zget in H. destruct (i <? 0); [done|]. by apply lookup_replicate in H as [-> _]. }
  split; cbn [initialize_tss_table set_tss tss_res1 thrs kst unused_threads unusedthr_count].
  - unfold zlen. by rewrite length_replicate.
  - exists []. split_and!; try done. constructor.
  - set_solver.
  - set_solver.
  - set_solver.
  - intros i r H Hr. by apply Hall in H.
  - rewrite Hu. intros [|a lu] t H Ht; [by apply elem_of_nil in Ht|by destruct H].
Qed.

(** C14: Threads and task states.  From the empty pool, after any sequence of allocations and
    releases, two threads in use never share a task state.  The next allocation ends with a
    block that is not in use, unless [kmalloc] has none or all 256 task states are taken;
    then the table is as before.  A thread in use can always be released. *)
Theorem thread_states_exclusive s0 live s :
  unused_threads s0 = NULL -> unusedthr_count s0 = 0 -> rtc tstep (∅, initialize_tss_table s0) (live, s) ->
  (forall t t' x x', t ∈ live -> t' ∈ live -> thrs s !! t = Some x -> thrs s !! t' = Some x' -> kt_tss x = kt_tss x' -> t = t') /\
  (forall b, fresh_block live s b -> exists r s', alloc_thread b s = Some (r, s') /\
     match r with
     | Some t => t ∉ live
     | None => tss_res1 s' = tss_res1 s /\ (b = None \/ forall i v, 0 <= i < 256 -> zget (tss_res1 s) i = Some v -> exists t x, t ∈ live /\ thrs s !! t = Some x /\ kt_tss x = i)
     end) /\
  (forall t, t ∈ live -> exists s', destroy_thread t s = Some s').
Proof.
  intros Hu Hc Hr. assert (Hp : thread_pool live s).
  { change (thread_pool (fst (live, s)) (snd (live, s))). revert Hr. generalize (live, s). intros y Hr. assert (H0 : thread_pool (fst (∅ : gset loc, initialize_tss_table s0)) (snd (∅ : gset loc, initialize_tss_table s0))) by (by apply initial_pool).
    induction Hr as [|a b y Hst _ IH]; [done|]. apply IH. by eapply tstep_pool. }
  split; [by apply (tp_own _ _ Hp)|]. split.
  - intros b Hb. destruct (alloc_thread_pool live s b Hp Hb) as (r & s' & E & H). exists r, s'. split; [done|]. destruct r as [t|]; [apply H|]. destruct H as (Et & _ & [->|Hfull]); split; [done|by left|done|].
    right. intros i v _ Hv. apply (tp_taken _ _ Hp i v Hv). by apply (Hfull i).
  - intros t Ht. destruct (destroy_thread_pool live s t Hp Ht) as (s' & E & _). eauto.
Qed.

(** * A process that is created, killed and waited for *)

(** Process 1, with the threads of [Lock.ex_l], runs; nothing else has been created. *)
Definition ex_pr (id : Z) (parent : ptr) : process :=
  mk_pr id Paging.PROC_TYPE_SYSTEM 0 0 1 0 50 NULL NULL (replicate MAXPROCFILES (-4)) 51 52 NULL parent NULL NULL NULL NULL.
Definition ex_desc : Paging.segdesc := Paging.mk_segdesc 0 0 0 0 0 0.
Definition ex_s0 : pst :=
  mk_ps (init_event 51 (init_event 52 ex_l)) {[ 1%positive := ex_pr 1 NULL ]} ∅ (Some 1%positive) NULL NULL 0 NULL NULL NULL 0 (replicate 256 0xffff) (replicate 308 ex_desc) (replicate 32 (Paging.mk_LDT ex_desc ex_desc ex_desc)) 1 NULL 11 [].

(** Blocks 20 and 25 for a process and its thread. *)
Definition ex_pb (p e1 e2 : loc) : pblock :=
  mk_pb (Some (p, mk_pr 0 0 0 0 0 0 50 NULL NULL [] e1 e2 NULL NULL NULL NULL NULL NULL)) (Some 60%positive) (Some 61%positive) (Some 62%positive).
Definition ex_tb (t e : loc) : option (loc * thread * kthread) := Some (t, mk_th 0 0 0 0 0 NULL 0 0 0 e NULL NULL NULL, mk_thr 0 0 0 0 0 0 0 0 0 0 NULL NULL 1).
Definition ex_create (p e1 e2 t e : loc) (no : Z) (s : pst) : option (Z * pst) :=
  create_process (ex_pb p e1 e2) (ex_tb t e) 0x9000 NULL NULL NULL (mk_pp 0 0x1000 0x2000 0x1000 0 50) 1 0 no s.
Definition ex_after (r : option (Z * pst)) : pst := match r with Some (_, s) => s | None => ex_s0 end.
Definition ex_s1 : pst := ex_after (ex_create 20 21 22 25 26 7 ex_s0).
Definition ex_s2 : pst := match syscall_kill 9 7 ex_s1 with Some (_, s) => s | None => ex_s0 end.
Definition ex_s3 : pst := Eval vm_compute in default ex_s0 (handler_turn ex_s2).
Definition ex_p1 : process := Eval vm_compute in default (ex_pr 0 NULL) (procs ex_s3 !! 1%positive).

Ltac compute_chain := repeat (cbn [app chain]; split; [vm_compute; reflexivity|eexists; split; [vm_compute; reflexivity|]]); reflexivity.
Ltac compute_nodup := by apply (bool_decide_unpack _); vm_compute.

Lemma ex_s3_used : used_list ex_s3 ([] ++ 20%positive :: [1%positive]).
Proof. split; [compute_chain|compute_nodup]. Qed.
Lemma ex_s3_unused : unused_list ex_s3 [].
Proof. split; [vm_compute; reflexivity|constructor]. Qed.

Lemma wait_reaps_witness :
  exists l1 l2 x s' z, [20%positive] = l1 ++ 20%positive :: l2 /\ procs ex_s3 !! 20%positive = Some x /\ syscall_wait 5 10 ex_s3 = Some (Returned 0, Some (proc_exitstatus x), s') /\
    procs s' !! current_process ex_s3 = Some z /\ chain proc_sib (procs s') (proc_childlist z) (l1 ++ l2) /\ given_back [20%positive] [] ex_s3 s' /\ kst s' = kst ex_s3.
Proof.
  refine (wait_reaps ex_s3 5 10 ex_p1 [20%positive] [] _ _ _ _ ex_s3_unused _); [vm_compute; reflexivity|compute_chain|compute_nodup|compute_nodup|].
  intros a _. apply not_elem_of_nil.
Defined.

Lemma reaped_process_hides_others_witness :
  exists s', destroy_process 20 ex_s3 = Some s' /\ procs s' !! 1%positive <> None /\ syscall_kill 9 1 s' = Some (Returned EINVALIDPID, s').
Proof.
  refine (reaped_process_hides_others ex_s3 [] 20 [1%positive] [] 1 ex_p1 9 ex_s3_used ex_s3_unused _ _ _ _ _ _ _); [set_solver|vm_compute; reflexivity|vm_compute; reflexivity|set_solver|vm_compute; reflexivity| |vm_compute; lia].
  intros a y [->|?%elem_of_nil]%elem_of_cons; [|done]. vm_compute. by intros [= <-].
Defined.

Lemma reused_process_closes_ring_witness :
  exists s1 s2 s3, destroy_process 20 ex_s3 = Some s1 /\ alloc_process (ex_pb 30 31 32) s1 = Some (Some 20%positive, s2) /\ push_used 20 s2 = Some s3 /\ procs s3 !! 20%positive <> None /\
    forall fuel pid, (forall a y, a ∈ [20%positive] -> procs s3 !! a = Some y -> proc_id y <> pid) -> syscall_kill fuel pid s3 = None.
Proof. apply (reused_process_closes_ring ex_s3 [] 20 [1%positive] [] (ex_pb 30 31 32) ex_s3_used ex_s3_unused); [set_solver|vm_compute; reflexivity]. Defined.

Lemma process_slots_run_out_witness : pruns ex_s0 1 ex_s1 /\ 1 + free_ldts ex_s1 <= free_ldts ex_s0 <= 32.
Proof.
  assert (H : pruns ex_s0 1 ex_s1).
  { apply (RunCreate ex_s0 0 ex_s0 (ex_pb 20 21 22) (ex_tb 25 26) 0x9000 NULL NULL NULL (mk_pp 0 0x1000 0x2000 0x1000 0 50) 1 0 7 0 ex_s1); [constructor|vm_compute; reflexivity]. }
  split; [exact H|]. exact (proj1 (process_slots_run_out ex_s0 1 ex_s1 eq_refl H)).
Defined.

(** Process 20 with a live child 30 and a child 31 that has ended. *)
Definition ex_tree : pst :=
  set_procs (list_to_map [(1%positive, with_childlist (Some 20%positive) (ex_pr 1 NULL)); (20%positive, with_childlist (Some 31%positive) (ex_pr 2 (Some 1%positive)));
                          (31%positive, with_psib (Some 30%positive) (ex_pr 3 (Some 20%positive))); (30%positive, ex_pr 4 (Some 20%positive))])
    (set_kst (set_proc_state (list_to_map [(30%positive, PROC_STATE_READY); (31%positive, PROC_STATE_TERMINATED)]) ex_l) ex_s0).

Lemma orphans_adopted_witness :
  exists s' xp' xq', adopt 20 1 ex_tree = Some s' /\ kst s' = kst ex_tree /\ procs s' !! 20%positive = Some xp' /\ proc_childlist xp' = NULL /\ proc_sib xp' = NULL /\
    procs s' !! 1%positive = Some xq' /\ chain proc_sib (procs s') (proc_childlist xq') [30%positive; 20%positive] /\
    (forall c, c ∈ [30%positive] -> exists y, procs s' !! c = Some y /\ proc_parent y = Some 1%positive) /\ given_back [31%positive] [] ex_tree s'.
Proof.
  refine (orphans_adopted ex_tree 20 1 (with_childlist (Some 31%positive) (ex_pr 2 (Some 1%positive))) (with_childlist (Some 20%positive) (ex_pr 1 NULL)) [31%positive; 30%positive] [20%positive] [] _ _ _ _ _ _ _ _ _ _ _);
    [reflexivity|reflexivity|discriminate|compute_chain|compute_chain|compute_nodup|compute_nodup|compute_nodup|by split; [|constructor]|intros c _; apply not_elem_of_nil|].
  intros c [->|[->|?%elem_of_nil]%elem_of_cons]%elem_of_cons; [vm_compute; eauto..|done].
Defined.

Lemma thread_states_exclusive_witness :
  exists s1, alloc_thread (ex_tb 25 26) (initialize_tss_table ex_s0) = Some (Some 25%positive, s1) /\
    exists r s', alloc_thread (ex_tb 27 28) s1 = Some (r, s') /\
      match r with
      | Some t => t ∉ ({[25%positive]} ∪ ∅ : gset loc)
      | None => tss_res1 s' = tss_res1 s1 /\ (ex_tb 27 28 = None \/ forall i v, 0 <= i < 256 -> zget (tss_res1 s1) i = Some v -> exists t x, t ∈ ({[25%positive]} ∪ ∅ : gset loc) /\ thrs s1 !! t = Some x /\ kt_tss x = i)
      end.
Proof.
  destruct (alloc_thread (ex_tb 25 26) (initialize_tss_table ex_s0)) as [[[t|] s1]|] eqn:E; [|vm_compute in E; discriminate..].
  assert (t = 25%positive) as -> by (vm_compute in E; by injection E as <- _). exists s1. split; [reflexivity|].
  assert (Hr : rtc tstep (∅, initialize_tss_table ex_s0) ({[25%positive]} ∪ ∅, s1)).
  { eapply rtc_l; [|apply rtc_refl]. apply (TAlloc ∅ _ (ex_tb 25 26) 25); [|exact E]. intros t x y Ht. injection Ht as <- <- <-. split; [set_solver|reflexivity]. }
  apply (thread_states_exclusive ex_s0 _ s1 eq_refl eq_refl Hr). intros t x y Ht. injection Ht as <- <- <-. split; [set_solver|].
  vm_compute in E. injection E as <-. reflexivity.
Defined.

(** A process that has ended keeps the pointer to its threads, whose blocks are given to
    new threads: when process 7 (block 20) has ended and process 1 starts a thread, the
    thread gets block 25, and a [kill] of number 7 ends it. *)
Lemma zombie_kill_hits_stranger :
  exists s4 s5, create_thread None 0x9000 NULL 1 SCHED_CLASS_SYSTEM 100 0 9 ex_s3 = Some (0, s4) /\ (kt_process <$> threads (kst s4) !! 25%positive) = Some 1%positive /\
    syscall_kill 9 7 s4 = Some (Returned 0, s5) /\ state_of 25 s5 = Some THREAD_STATE_TERMINATING.
Proof. eexists _, _. split; [vm_compute; reflexivity|]. split; [vm_compute; reflexivity|]. split; [vm_compute; reflexivity|]. vm_compute. reflexivity. Qed.
End Process.
