(* ===== verification/Frame.v ===== *)
(** Frames on the network ([src/include/packet.h], and [checksum] of [src/base/socket.c]):
    the fields of a frame, its bytes, and the checksum that guards them. *)
From Stdlib Require Import Btauto.
From S2P Require Import Prelude.

Module Frame.

(** * Data *)

Record isockaddr := mk_sa { saddr_type : Z; saddr_host : Z; saddr_port : Z }.
#[global] Instance isockaddr_eq_dec : EqDecision isockaddr.
Proof. solve_decision. Defined.

(** [struct eth_frame_snd] with the bytes of [buf2], or [struct eth_frame_rcv]; of
    [struct ack_frame] the padding is [fr_data]. *)
Record frame := mk_fr {
  ethfrhdr_hwaddr_dest : list Z; ethfrhdr_hwaddr_src : list Z; ethfrhdr_type : Z; ethfrhdr_seqno : Z;
  pkt_checksum : Z; pkt_type : Z; pkt_frame_length : Z; pkt_winseq_no : Z; pkt_dest : isockaddr; pkt_src : isockaddr;
  pkt_offset : Z; pkt_length : Z; pkt_id : Z; pkt_tag : Z; pkt_groupid : Z; pkt_srcsockctime : Z; fr_data : list Z }.
Definition with_checksum (c : Z) (f : frame) : frame :=
  mk_fr (ethfrhdr_hwaddr_dest f) (ethfrhdr_hwaddr_src f) (ethfrhdr_type f) (ethfrhdr_seqno f) c (pkt_type f) (pkt_frame_length f) (pkt_winseq_no f) (pkt_dest f) (pkt_src f)
    (pkt_offset f) (pkt_length f) (pkt_id f) (pkt_tag f) (pkt_groupid f) (pkt_srcsockctime f) (fr_data f).

(** * Bytes *)

Definition short_bytes (v : Z) : list Z := [u8 v; u8 (Z.shiftr v 8)].
Definition int_bytes (v : Z) : list Z := [u8 v; u8 (Z.shiftr v 8); u8 (Z.shiftr v 16); u8 (Z.shiftr v 24)].
Definition addr_bytes (a : isockaddr) : list Z := int_bytes (saddr_type a) ++ int_bytes (saddr_host a) ++ int_bytes (saddr_port a).
(** The bytes before and after the checksum, and the header of 72 bytes. *)
Definition bytes_before (f : frame) : list Z := ethfrhdr_hwaddr_dest f ++ ethfrhdr_hwaddr_src f ++ short_bytes (ethfrhdr_type f) ++ short_bytes (ethfrhdr_seqno f).
Definition bytes_after (f : frame) : list Z :=
  short_bytes (pkt_type f) ++ short_bytes (pkt_frame_length f) ++ short_bytes (pkt_winseq_no f) ++ addr_bytes (pkt_dest f) ++ addr_bytes (pkt_src f) ++
  int_bytes (pkt_offset f) ++ int_bytes (pkt_length f) ++ int_bytes (pkt_id f) ++ int_bytes (pkt_tag f) ++ int_bytes (pkt_groupid f) ++ int_bytes (pkt_srcsockctime f).
Definition header_bytes (f : frame) : list Z := bytes_before f ++ short_bytes (pkt_checksum f) ++ bytes_after f.
Definition FRAMEDATA_OFFSET : Z := 72.

(** * The checksum *)

(** One of the three loops of [checksum]: words of two bytes, and an odd byte at the end. *)
Fixpoint sum_words (check_sum : Z) (buf : list Z) : Z :=
  match buf with
  | a :: b :: buf => sum_words (Z.lxor check_sum (a + 256 * b)) buf
  | [a] => Z.lxor check_sum a
  | [] => check_sum
  end.
Definition checksum (buf1 : list Z) (buf2 buf3 : option (list Z)) : Z :=
  let c := sum_words 0 buf1 in
  let c := match buf2 with Some b => sum_words c b | None => c end in
  match buf3 with Some b => sum_words c b | None => c end.

(** What a sender stores in [pkt_checksum], over the header and the data, or over an
    acknowledgement as one buffer. *)
Definition seal (f : frame) : frame := with_checksum (checksum (header_bytes (with_checksum 0 f)) (Some (fr_data f)) None) f.
Definition seal_ack (f : frame) : frame := with_checksum (checksum (header_bytes (with_checksum 0 f) ++ fr_data f) None None) f.

(** The test of [assemble] on a frame that was received in one buffer. *)
Definition PROTOTYPE_TEMP : Z := 0x1111.
Definition accepted (f : frame) : bool := (checksum (header_bytes f ++ fr_data f) None None =? 0) && (ethfrhdr_type f =? PROTOTYPE_TEMP).

(** * Sums of words *)

Definition is_byte (b : Z) : Prop := 0 <= b < 256.
Definition wf_frame (f : frame) : Prop :=
  length (ethfrhdr_hwaddr_dest f) = 6%nat /\ length (ethfrhdr_hwaddr_src f) = 6%nat /\ Forall is_byte (ethfrhdr_hwaddr_dest f) /\ Forall is_byte (ethfrhdr_hwaddr_src f) /\ Forall is_byte (fr_data f).

(** Induction over pairs. *)
Lemma pair_ind (P : list Z -> Prop) : P [] -> (forall a, P [a]) -> (forall a b l, P l -> P (a :: b :: l)) -> forall l, P l.
Proof. intros H0 H1 H2. fix IH 1. intros [|a [|b l]]; [exact H0|apply H1|apply H2, IH]. Qed.

Lemma sum_words_acc c l : sum_words c l = Z.lxor c (sum_words 0 l).
Proof.
  revert c. induction l as [|a|a b l IH] using pair_ind; intros c; cbn [sum_words]; [by rewrite Z.lxor_0_r|by rewrite Z.lxor_0_l|].
  rewrite IH, (IH (Z.lxor 0 _)), Z.lxor_0_l. apply Z.lxor_assoc.
Qed.

Lemma sum_words_app l1 l2 : Nat.Even (length l1) -> sum_words 0 (l1 ++ l2) = Z.lxor (sum_words 0 l1) (sum_words 0 l2).
Proof.
  induction l1 as [|a|a b l1 IH] using pair_ind; intros He; cbn [app].
  - by rewrite Z.lxor_0_l.
  - destruct He as [k Hk]. cbn in Hk. lia.
  - cbn [sum_words]. rewrite (sum_words_acc _ (l1 ++ l2)), (sum_words_acc _ l1), Z.lxor_0_l. rewrite IH, Z.lxor_assoc; [done|]. destruct He as [k Hk]. exists (pred k). cbn in Hk. lia.
Qed.

Lemma lxor_16 a b : 0 <= a < 2 ^ 16 -> 0 <= b < 2 ^ 16 -> 0 <= Z.lxor a b < 2 ^ 16.
Proof.
  intros Ha Hb. assert (0 <= Z.lxor a b) by (apply Z.lxor_nonneg; lia). split; [done|].
  assert (Hm : Z.lxor a b = Z.lxor a b mod 2 ^ 16); [|rewrite Hm; apply Z.mod_pos_bound; lia]. apply Z.bits_inj'. intros n Hn. destruct (Z.lt_ge_cases n 16) as [Hlt|Hge].
  - by rewrite Z.mod_pow2_bits_low.
  - assert (Hh : forall x, 0 <= x < 2 ^ 16 -> Z.testbit x n = false) by (intros x Hx; rewrite <- (Z.mod_small x (2 ^ 16)) by done; apply Z.mod_pow2_bits_high; lia).
    rewrite Z.mod_pow2_bits_high by lia. by rewrite Z.lxor_spec, !Hh.
Qed.

Lemma sum_words_16 l : Forall is_byte l -> 0 <= sum_words 0 l < 2 ^ 16.
Proof.
  induction l as [|a|a b l IH] using pair_ind; intros Hl; cbn [sum_words]; [lia|apply Forall_inv in Hl; rewrite Z.lxor_0_l; unfold is_byte in Hl; lia|].
  inversion Hl as [|? ? Ha Hl']; subst. inversion Hl' as [|? ? Hb Hl'']; subst. rewrite sum_words_acc, Z.lxor_0_l. unfold is_byte in *. apply lxor_16; [lia|auto].
Qed.

Lemma short_sum v : 0 <= v < 2 ^ 16 -> sum_words 0 (short_bytes v) = v.
Proof. intros Hv. cbn [sum_words short_bytes]. rewrite Z.lxor_0_l. unfold u8. rewrite Z.shiftr_div_pow2 by lia. change (2 ^ 8) with 256. Z.div_mod_to_equations. lia. Qed.
Lemma short_are_bytes v : Forall is_byte (short_bytes v).
Proof. repeat constructor; apply u8_range. Qed.
Lemma int_are_bytes v : Forall is_byte (int_bytes v).
Proof. repeat constructor; apply u8_range. Qed.
Lemma addr_bytes_bytes a : Forall is_byte (addr_bytes a).
Proof. unfold addr_bytes. rewrite !Forall_app. split_and!; apply int_are_bytes. Qed.

Lemma before_even f : wf_frame f -> Nat.Even (length (bytes_before f)).
Proof. intros (H1 & H2 & _). unfold bytes_before. rewrite !length_app, H1, H2. by exists 8%nat. Qed.
Lemma header_even f : wf_frame f -> Nat.Even (length (header_bytes f)).
Proof. intros (H1 & H2 & _). unfold header_bytes, bytes_before. rewrite !length_app, H1, H2. by exists 36%nat. Qed.
Lemma before_bytes f : wf_frame f -> Forall is_byte (bytes_before f).
Proof. intros (_ & _ & H1 & H2 & _). unfold bytes_before. rewrite !Forall_app. split_and!; auto using short_are_bytes. Qed.
Lemma after_bytes f : Forall is_byte (bytes_after f).
Proof. unfold bytes_after. rewrite !Forall_app. split_and!; auto using short_are_bytes, int_are_bytes, addr_bytes_bytes. Qed.

(** The header's sum is the checksum added to the sum with a checksum of 0. *)
Lemma header_sum f : wf_frame f -> 0 <= pkt_checksum f < 2 ^ 16 ->
  sum_words 0 (header_bytes f) = Z.lxor (pkt_checksum f) (sum_words 0 (header_bytes (with_checksum 0 f))).
Proof.
  intros Hf Hc. unfold header_bytes. cbn [pkt_checksum with_checksum]. change (bytes_before (with_checksum 0 f)) with (bytes_before f). change (bytes_after (with_checksum 0 f)) with (bytes_after f).
  rewrite !sum_words_app; try (by apply before_even); try (by exists 1%nat). rewrite short_sum by done. change (sum_words 0 (short_bytes 0)) with 0. rewrite Z.lxor_0_l, !(Z.lxor_comm (sum_words 0 (bytes_before f))), Z.lxor_assoc. done.
Qed.

Lemma seal_range f : wf_frame f -> 0 <= pkt_checksum (seal f) < 2 ^ 16 /\ pkt_checksum (seal_ack f) = pkt_checksum (seal f).
Proof.
  intros Hf. assert (Hf0 : wf_frame (with_checksum 0 f)) by done. split.
  - cbn [seal with_checksum pkt_checksum checksum]. rewrite sum_words_acc. apply lxor_16; [apply sum_words_16|apply sum_words_16, Hf]. unfold header_bytes. rewrite !Forall_app. split_and!; [by apply before_bytes|apply short_are_bytes|apply after_bytes].
  - cbn [seal seal_ack with_checksum pkt_checksum checksum]. rewrite sum_words_app by (by apply header_even). by rewrite (sum_words_acc (sum_words 0 _)).
Qed.

Lemma seal_sum f : wf_frame f -> sum_words 0 (header_bytes (seal f) ++ fr_data f) = 0.
Proof.
  intros Hf. destruct (seal_range f Hf) as [Hr _]. assert (Hf' : wf_frame (seal f)) by done. rewrite sum_words_app by (by apply header_even). rewrite header_sum by done.
  change (with_checksum 0 (seal f)) with (with_checksum 0 f). cbn [seal with_checksum pkt_checksum checksum]. rewrite sum_words_acc. set (a := sum_words 0 (header_bytes _)). set (b := sum_words 0 (fr_data f)).
  rewrite (Z.lxor_comm a b), (Z.lxor_assoc b a a), Z.lxor_nilpotent, Z.lxor_0_r. apply Z.lxor_nilpotent.
Qed.

Lemma accepted_seal f : wf_frame f -> ethfrhdr_type f = PROTOTYPE_TEMP -> accepted (seal f) = true.
Proof.
  intros Hf Ht. unfold accepted, checksum. change (fr_data (seal f)) with (fr_data f). rewrite (seal_sum f Hf). change (ethfrhdr_type (seal f)) with (ethfrhdr_type f). by rewrite Ht.
Qed.
Lemma seal_ack_seal f : wf_frame f -> seal_ack f = seal f.
Proof. intros Hf. destruct (seal_range f Hf) as [_ Hra]. unfold seal, seal_ack in *. cbn [pkt_checksum with_checksum] in Hra. by rewrite Hra. Qed.

(** C27: A frame as its sender seals it passes the test of the receiver, who reads header and
    data as one buffer; and a frame in which only bytes of one 16-bit word differ from
    what was sent does not. *)
Theorem checksum_guards f pre a b post a' b' :
  wf_frame f -> ethfrhdr_type f = PROTOTYPE_TEMP ->
  accepted (seal f) = true /\
  (header_bytes (seal f) ++ fr_data f = pre ++ a :: b :: post -> Nat.Even (length pre) -> is_byte a -> is_byte b -> is_byte a' -> is_byte b' -> (a', b') <> (a, b) ->
   checksum (pre ++ a' :: b' :: post) None None <> 0).
Proof.
  intros Hf Ht. pose proof (seal_sum f Hf) as Hs. split.
  - by apply accepted_seal.
  - intros E He Ha Hb Ha' Hb' Hne. rewrite E in Hs. unfold checksum. rewrite sum_words_app in Hs |- * by done. cbn [sum_words] in *. rewrite Z.lxor_0_l in *.
    rewrite (sum_words_acc (a + 256 * b)) in Hs. rewrite (sum_words_acc (a' + 256 * b')). intros Hs'. apply Hne. apply Z.lxor_eq in Hs, Hs'. rewrite Hs in Hs'.
    assert (Hx : a + 256 * b = a' + 256 * b'); [|unfold is_byte in *; f_equal; lia].
    apply (f_equal (fun z => Z.lxor z (sum_words 0 post))) in Hs'. rewrite !Z.lxor_assoc, !Z.lxor_nilpotent, !Z.lxor_0_r in Hs'. done.
Qed.

(** A queued acknowledgement whose offset and number are changed, as [send_ack] does,
    without a new checksum, passes only if the changes cancel. *)
Definition with_ack (winseq offset : Z) (f : frame) : frame :=
  mk_fr (ethfrhdr_hwaddr_dest f) (ethfrhdr_hwaddr_src f) (ethfrhdr_type f) (ethfrhdr_seqno f) (pkt_checksum f) (pkt_type f) (pkt_frame_length f) winseq (pkt_dest f) (pkt_src f)
    offset (pkt_length f) (pkt_id f) (pkt_tag f) (pkt_groupid f) (pkt_srcsockctime f) (fr_data f).
Definition ack_sum (winseq offset : Z) : Z := Z.lxor (sum_words 0 (short_bytes winseq)) (sum_words 0 (int_bytes offset)).

Lemma ack_header_sum w o f : wf_frame f -> sum_words 0 (header_bytes (with_ack w o f)) = Z.lxor (ack_sum w o) (sum_words 0 (header_bytes (with_ack 0 0 f))).
Proof.
  intros Hf. unfold header_bytes, bytes_after, addr_bytes. rewrite <- !app_assoc. change (bytes_before (with_ack w o f)) with (bytes_before f). change (bytes_before (with_ack 0 0 f)) with (bytes_before f). cbn [with_ack pkt_checksum pkt_type pkt_frame_length pkt_winseq_no pkt_dest pkt_src pkt_offset pkt_length pkt_id pkt_tag pkt_groupid pkt_srcsockctime].
  rewrite !sum_words_app; try (by apply before_even); try (by exists 1%nat); try (by exists 2%nat). change (sum_words 0 (short_bytes 0)) with 0. change (sum_words 0 (int_bytes 0)) with 0. rewrite !Z.lxor_0_l. unfold ack_sum.
  apply Z.bits_inj'. intros n _. rewrite !Z.lxor_spec. btauto.
Qed.

(** The acknowledgement that [send_ack] finds in the queue gets another offset and number,
    and keeps its checksum: the other host accepts it only where the sums of the old and
    the new fields are equal. *)
Theorem changed_ack_refused f w o :
  wf_frame f -> ethfrhdr_type f = PROTOTYPE_TEMP -> accepted (with_ack w o (seal_ack f)) = (ack_sum w o =? ack_sum (pkt_winseq_no f) (pkt_offset f)).
Proof.
  intros Hf Ht. destruct (seal_range f Hf) as [Hr Hra]. pose proof (seal_sum f Hf) as Hs. unfold accepted, checksum. change (ethfrhdr_type (with_ack w o (seal_ack f))) with (ethfrhdr_type f). rewrite Ht. cbn [fr_data with_ack]. change (fr_data (seal_ack f)) with (fr_data f).
  assert (Hf' : wf_frame (seal_ack f)) by done. assert (Hw : wf_frame (with_ack w o (seal_ack f))) by done. change (PROTOTYPE_TEMP =? PROTOTYPE_TEMP) with true. rewrite andb_true_r.
  assert (Eseal : seal f = with_ack (pkt_winseq_no f) (pkt_offset f) (seal_ack f)).
  { unfold seal, seal_ack in *. cbn [pkt_checksum with_checksum] in Hra. rewrite Hra. unfold with_ack, with_checksum. cbn. done. }
  rewrite Eseal in Hs. rewrite sum_words_app in Hs |- * by (by apply header_even). rewrite ack_header_sum in Hs |- * by done. set (r := sum_words 0 (header_bytes (with_ack 0 0 _))) in *. set (d := sum_words 0 (fr_data f)) in *.
  apply eq_true_iff_eq. rewrite !Z.eqb_eq. apply Z.lxor_eq in Hs. rewrite <- Hs. split.
  - intros H. apply Z.lxor_eq in H. apply (f_equal (fun z => Z.lxor z r)) in H. rewrite !Z.lxor_assoc, !Z.lxor_nilpotent, !Z.lxor_0_r in H. done.
  - intros ->. apply Z.lxor_nilpotent.
Qed.

(** * A frame *)

Definition ex_frame : frame := mk_fr [1; 2; 3; 4; 5; 6] [7; 8; 9; 10; 11; 12] PROTOTYPE_TEMP 0 0 1 3 0 (mk_sa 1 2 77) (mk_sa 1 3 (-5)) 0 3 9 (-1) 0 0 [200; 100; 50].

Lemma checksum_guards_witness :
  accepted (seal ex_frame) = true /\ checksum ([1; 2] ++ 9 :: 4 :: List.skipn 4 (header_bytes (seal ex_frame) ++ fr_data ex_frame)) None None <> 0.
Proof.
  destruct (checksum_guards ex_frame [1; 2] 3 4 (List.skipn 4 (header_bytes (seal ex_frame) ++ fr_data ex_frame)) 9 4) as [H1 H2]; [vm_compute; repeat constructor; discriminate|reflexivity|].
  split; [exact H1|]. apply H2; [vm_compute; reflexivity|by exists 1%nat|unfold is_byte; lia..|congruence].
Defined.

Lemma changed_ack_refused_witness : accepted (with_ack 0 23008 (seal_ack (with_ack 0 11504 ex_frame))) = false.
Proof. rewrite (changed_ack_refused (with_ack 0 11504 ex_frame) 0 23008); [reflexivity|vm_compute; repeat constructor; discriminate|reflexivity]. Defined.
End Frame.
