(* ===== verification/Packet.v ===== *)
(** Packets over the network ([src/base/socket.c]): a packet is cut into frames, eight to a
    window; the receiver puts the frames of a packet together in order, acknowledges each
    window and asks for what is missing; the sender repeats what was asked for.  A thread
    that sleeps is cut there, as in Lock.v. *)
From S2P Require Import Prelude Frame.

Module Packet.
Import Frame.

Definition MAXWINDOWSIZE : Z := 8.
Definition MAX_PROTOCOL_FRSIZE : Z := 1438.
Definition MAXACTIVEPACKETS : nat := 100.
Definition MaxIndex : Z := 50.
Definition PKTTYPE_DATA : Z := 1.
Definition PKTTYPE_ACK : Z := 2.
Definition PKTTYPE_ERROR : Z := 3.
Definition PKTTYPE_CONNECTCLOSE : Z := 7.
Definition PKTTYPE_PKTSEQNOINIT : Z := 8.
Definition PKTTYPE_SYNCH : Z := 9.
Definition PKTTYPE_REXEC : Z := 10.
Definition PKTTYPE_MCCONSISTENCY : Z := 11.
Definition PKTSTATUS_READYTOTXMT : Z := 5.
Definition PKTSTATUS_RESTARTTXMT : Z := 7.
Definition PKTSTATUS_CONTINUENEXTWINDOW : Z := 8.
Definition PKTSTATUS_TXCOMPLETE : Z := 9.
Definition ENOMEM : Z := -2.
Definition EMAXRCVPKTS : Z := -68.
Definition ETXMTTIMEDOUT : Z := -91.
Definition EDEST_NOTEXIST : Z := -27.
Definition ECONNECTIONCLOSED : Z := -92.

(** * Sending *)

(** [struct packet] as the sender uses it: the header, the data and the window. *)
Record spkt := mk_sp {
  sp_type : Z; sp_dest : isockaddr; sp_src : isockaddr; sp_length : Z; sp_id : Z; sp_tag : Z; sp_groupid : Z; sp_data : list Z;
  pkt_ackdata : Z; pkt_status : Z; pkt_retries : Z; pkt_swinstatus : Z; pkt_wincur_pos : Z; pkt_cur_pos : Z; pkt_window_size : Z; pkt_start_frame : Z }.
Definition set_ack (a st re sw wc cu : Z) (p : spkt) : spkt :=
  mk_sp (sp_type p) (sp_dest p) (sp_src p) (sp_length p) (sp_id p) (sp_tag p) (sp_groupid p) (sp_data p) a st re sw wc cu (pkt_window_size p) (pkt_start_frame p).
Definition set_window (wc cu ws sf : Z) (p : spkt) : spkt :=
  mk_sp (sp_type p) (sp_dest p) (sp_src p) (sp_length p) (sp_id p) (sp_tag p) (sp_groupid p) (sp_data p) (pkt_ackdata p) (pkt_status p) (pkt_retries p) (pkt_swinstatus p) wc cu ws sf.
Definition set_status (st sw : Z) (p : spkt) : spkt := set_ack (pkt_ackdata p) st (pkt_retries p) sw (pkt_wincur_pos p) (pkt_cur_pos p) p.

(** The hardware addresses of the hosts. *)
Section hw.
Variable hwaddr : Z -> list Z.
Variable this_host : Z.
Definition broadcast_addr : list Z := replicate 6 0xff.

(** One frame of [psock_send_pkt], of [frsize] bytes at [k]. *)
Definition make_frame (p : spkt) (k frsize : Z) : frame :=
  seal (mk_fr (if negb (saddr_host (sp_dest p) =? -1) then hwaddr (saddr_host (sp_dest p)) else broadcast_addr) (hwaddr this_host) PROTOTYPE_TEMP 0
          0 (sp_type p) (u16 frsize) (pkt_window_size p) (sp_dest p) (sp_src p) k (sp_length p) (sp_id p) (sp_tag p) (sp_groupid p) 0
          (take (Z.to_nat frsize) (drop (Z.to_nat k) (sp_data p)))).

(** The loop that builds the frames of a window; [pkt_current_frame] is [pkt_window_size]. *)
Fixpoint build_window (fuel : nat) (p : spkt) (win : list frame) : option (spkt * list frame) :=
  if negb ((pkt_cur_pos p <? sp_length p) && (pkt_window_size p <? MAXWINDOWSIZE)) then Some (p, win) else
  match fuel with
  | O => None
  | S fuel =>
      let left := u32 (sp_length p - pkt_cur_pos p) in
      let frsize := if MAX_PROTOCOL_FRSIZE <? left then MAX_PROTOCOL_FRSIZE else left in
      let f := make_frame p (pkt_cur_pos p) frsize in
      build_window fuel (set_window (pkt_wincur_pos p) (u32 (pkt_cur_pos p + frsize)) (u16 (pkt_window_size p + 1)) (pkt_start_frame p) p) (win ++ [f])
  end.
Definition new_window (p : spkt) : option (spkt * list frame) :=
  '(p, win) ← build_window 8 (set_window (pkt_cur_pos p) (pkt_cur_pos p) 0 (pkt_start_frame p) p) [];
  Some (set_window (pkt_wincur_pos p) (pkt_cur_pos p) (pkt_window_size p) 0 p, win).

(** A transmitter that waits for the acknowledgement of a window, after [l] failures; what
    it has queued for the network; or the end of [psock_send_pkt]. *)
Record sender := mk_snd { sp : spkt; win : list frame; l : Z }.
Inductive sent := Waiting (s : sender) (out : list frame) | Ended (p : spkt).

Definition start_window (p : spkt) : option sent :=
  if pkt_cur_pos p <? sp_length p then '(p, win) ← new_window p; Some (Waiting (mk_snd p win 0) win) else Some (Ended p).
(** After the loop of retries.  A packet that is done is freed, or given to its owner who
    frees it, and the test of the loop reads [pkt_cur_pos] and [pkt_length] from it all the
    same.  [reuse] are the two words, if the memory has been written since; [kfree] itself
    leaves them.  If they ask for another window, or the packet has data left, the loop
    goes on with memory that is no longer its own: [None]. *)
Definition window_done (reuse : option (Z * Z)) (s : sender) : option sent :=
  let p := if 2 <=? l s then set_status PKTSTATUS_TXCOMPLETE ETXMTTIMEDOUT (sp s) else sp s in
  if (pkt_cur_pos p =? sp_length p) || (pkt_status p =? PKTSTATUS_TXCOMPLETE) then
    let '(cur, len) := default (pkt_cur_pos p, sp_length p) reuse in
    if cur <? len then None else Some (Ended p)
  else start_window p.
(** The head of the loop of retries: with nothing to queue it does not sleep. *)
Fixpoint retry (fuel : nat) (reuse : option (Z * Z)) (s : sender) : option sent :=
  if 2 <=? l s then window_done reuse s else
  match drop (Z.to_nat (pkt_start_frame (sp s))) (win s) with
  | [] =>
      match fuel with
      | O => None
      | S fuel => if pkt_status (sp s) =? PKTSTATUS_RESTARTTXMT then retry fuel reuse (mk_snd (sp s) (win s) (l s + 1)) else window_done reuse s
      end
  | out => Some (Waiting s out)
  end.
(** After [event_timed_sleep]. *)
Definition after_sleep (timedout : bool) (reuse : option (Z * Z)) (s : sender) : option sent :=
  if timedout || (pkt_status (sp s) =? PKTSTATUS_RESTARTTXMT) then retry 2 reuse (mk_snd (sp s) (win s) (l s + 1)) else window_done reuse s.
Definition psock_send_pkt (p : spkt) : option sent := start_window p.

(** [remove_frames_fromtxq] on the frames that wait for the network card. *)
Definition remove_frames_fromtxq (id offset : Z) (port type pkttype : Z) (q : list frame) : Z * list frame :=
  let gone := fun f => (pkt_type f =? pkttype) && (pkt_id f =? id) && (pkt_offset f <? offset) && (saddr_port (pkt_src f) =? port) && (saddr_type (pkt_src f) =? type) in
  (zlen (filter (fun f => gone f = true) q), filter (fun f => gone f = false) q).

(** [process_ack] on the packet and on the frames that wait for the card. *)
Definition process_ack (p : spkt) (f : frame) (q : list frame) : spkt * list frame :=
  if negb (sp_id p =? pkt_id f) then (p, q) else
  if (pkt_offset f <? pkt_ackdata p) && negb (pkt_offset f =? 0) then (p, q) else
  let '(_, q) := remove_frames_fromtxq (pkt_id f) (pkt_offset f) (saddr_port (pkt_dest f)) (saddr_type (pkt_dest f)) (sp_type p) q in
  if pkt_offset f =? 0 then
    let re := s16 (pkt_retries p + 1) in
    if 3 <? re then (set_ack (pkt_ackdata p) PKTSTATUS_TXCOMPLETE re ETXMTTIMEDOUT (pkt_wincur_pos p) (pkt_cur_pos p) p, q)
    else (set_ack 0 PKTSTATUS_CONTINUENEXTWINDOW re (pkt_swinstatus p) 0 0 p, q)
  else
    let p := set_ack (pkt_offset f) (pkt_status p) (pkt_retries p) (pkt_swinstatus p) (pkt_wincur_pos p) (pkt_cur_pos p) p in
    if (pkt_wincur_pos p <? pkt_offset f) && (pkt_offset f <? pkt_cur_pos p) then
      (set_window (pkt_wincur_pos p) (pkt_cur_pos p) (pkt_window_size p) (pkt_winseq_no f) (set_status PKTSTATUS_RESTARTTXMT (pkt_swinstatus p) p), q)
    else if pkt_offset f =? pkt_cur_pos p then
      (set_status (if pkt_offset f =? sp_length p then PKTSTATUS_TXCOMPLETE else PKTSTATUS_CONTINUENEXTWINDOW) (pkt_swinstatus p) p, q)
    else (p, q).

(** * Receiving *)

(** [struct packet] as the receiver uses it; [rp_timer] says that [pkt_tobj] runs. *)
Record rpkt := mk_rp {
  rp_type : Z; rp_dest : isockaddr; rp_src : isockaddr; rp_length : Z; rp_id : Z; rp_tag : Z; rp_groupid : Z;
  rp_frames : list frame; pkt_expc_seqno : Z; pkt_rcvddata : Z; rp_timer : bool }.
(** [next_seqno] of a source: the last packet that was complete. *)
Record nodetag := mk_node { n_type : Z; n_host : Z; n_port : Z; next_seqno : Z; n_msec : Z }.
(** The assembler: its packets, the table of sources (a list for each chain), the packets
    queued at sockets, the packets for [local_broadcast], and the frames to be sent. *)
Record rstate := mk_rs {
  rcvpkts : list (option rpkt); hash_table : list (list nodetag); queued : list rpkt; broadcasts : list (rpkt * list Z); tx_q : list frame;
  secs : Z; this_hostid : Z; no_hosts : Z }.
Definition set_rcvpkts x r := mk_rs x (hash_table r) (queued r) (broadcasts r) (tx_q r) (secs r) (this_hostid r) (no_hosts r).
Definition set_hash x r := mk_rs (rcvpkts r) x (queued r) (broadcasts r) (tx_q r) (secs r) (this_hostid r) (no_hosts r).
Definition set_queued x r := mk_rs (rcvpkts r) (hash_table r) x (broadcasts r) (tx_q r) (secs r) (this_hostid r) (no_hosts r).
Definition set_broadcasts x r := mk_rs (rcvpkts r) (hash_table r) (queued r) x (tx_q r) (secs r) (this_hostid r) (no_hosts r).
Definition set_txq x r := mk_rs (rcvpkts r) (hash_table r) (queued r) (broadcasts r) x (secs r) (this_hostid r) (no_hosts r).
(** What [kmalloc] and [locate_socket] find during one frame; the memory of an
    acknowledgement has some bytes where its padding is. *)
Record luck := mk_luck { m_pkt : bool; m_node : bool; m_ack : option (list Z); m_data : bool; sock : bool }.

Fixpoint first_free (i : Z) (s : list (option rpkt)) : option Z :=
  match s with
  | [] => None
  | None :: _ => Some i
  | Some _ :: s => first_free (i + 1) s
  end.
Definition alloc_pktindex (mem : bool) (ef : frame) (r : rstate) : option (Z * rstate) :=
  match first_free 0 (rcvpkts r) with
  | None => Some (EMAXRCVPKTS, r)
  | Some i =>
      if negb mem then Some (ENOMEM, r) else
      s ← zset (rcvpkts r) i (Some (mk_rp (pkt_type ef) (pkt_dest ef) (pkt_src ef) (pkt_length ef) (pkt_id ef) (pkt_tag ef) (pkt_groupid ef) [] 0 0 false));
      Some (i, set_rcvpkts s r)
  end.
Fixpoint pktindex (i : Z) (ef : frame) (s : list (option rpkt)) : Z :=
  match s with
  | [] => -1
  | Some p :: s => if (rp_id p =? pkt_id ef) && bool_decide (rp_src p = pkt_src ef) then i else pktindex (i + 1) ef s
  | None :: s => pktindex (i + 1) ef s
  end.

(** The chain of a source; the index is a signed remainder. *)
Definition hash_index (host port : Z) : Z := cmod (s32 (s32 (host * 100) + port)) MaxIndex.
Definition is_node (a : isockaddr) (n : nodetag) : bool := (n_host n =? saddr_host a) && (n_port n =? saddr_port a) && (n_type n =? saddr_type a).
Definition locate_hash_node (a : isockaddr) (r : rstate) : option (option nodetag) :=
  c ← zget (hash_table r) (hash_index (saddr_host a) (saddr_port a)); Some (List.find (is_node a) c).
Definition add_hash_node (mem : bool) (a : isockaddr) (id : Z) (r : rstate) : option rstate :=
  if negb mem then Some r else
  c ← zget (hash_table r) (hash_index (saddr_host a) (saddr_port a));
  h ← zset (hash_table r) (hash_index (saddr_host a) (saddr_port a)) (mk_node (saddr_type a) (saddr_host a) (saddr_port a) (s32 id) (s32 (secs r)) :: c);
  Some (set_hash h r).
(** A store to the node that [locate_hash_node] found. *)
Fixpoint update_node (a : isockaddr) (id now : Z) (c : list nodetag) : list nodetag :=
  match c with
  | [] => []
  | n :: c => if is_node a n then mk_node (n_type n) (n_host n) (n_port n) (s32 id) (s32 now) :: c else n :: update_node a id now c
  end.
Definition set_node (a : isockaddr) (id : Z) (r : rstate) : option rstate :=
  c ← zget (hash_table r) (hash_index (saddr_host a) (saddr_port a));
  h ← zset (hash_table r) (hash_index (saddr_host a) (saddr_port a)) (update_node a id (secs r) c);
  Some (set_hash h r).
(** [initialize_seqno]: port -1 stands for all ports of the host. *)
Definition initialize_seqno (host port type : Z) (r : rstate) : rstate :=
  set_hash ((fun c => filter (fun n => negb ((n_host n =? host) && ((port =? -1) || ((n_port n =? port) && (n_type n =? type)))) = true) c) <$> hash_table r) r.

(** [initialize_recvpkts] and [initialize_hash_table]. *)
Definition initial (q : list frame) (now host hosts : Z) : rstate := mk_rs (replicate MAXACTIVEPACKETS None) (replicate (Z.to_nat MaxIndex) []) [] [] q now host hosts.

(** The acknowledgement of a frame; [pad] are the bytes of [padding]. *)
Definition make_ack (type : Z) (ef : frame) (expect_winseqno offset : Z) (pad : list Z) : frame :=
  seal_ack (mk_fr (hwaddr (saddr_host (pkt_src ef))) (hwaddr this_host) PROTOTYPE_TEMP 0 0 type 0 (u16 expect_winseqno)
              (pkt_src ef) (pkt_dest ef) (u32 offset) 0 (pkt_id ef) (pkt_tag ef) (pkt_groupid ef) 0 pad).
Definition is_ack (type : Z) (ef ack : frame) : bool := (pkt_type ack =? type) && (pkt_id ack =? pkt_id ef) && bool_decide (pkt_dest ack = pkt_src ef).
(** The queue with the first such acknowledgement changed, if there is one. *)
Fixpoint change_ack (type : Z) (ef : frame) (winseq offset : Z) (q : list frame) : option (list frame) :=
  match q with
  | [] => None
  | a :: q =>
      if is_ack type ef a then Some ((if pkt_offset a =? u32 offset then a else with_ack (u16 winseq) (u32 offset) a) :: q)
      else q ← change_ack type ef winseq offset q; Some (a :: q)
  end.
Definition send_ack (mem : option (list Z)) (type : Z) (ef : frame) (winseq offset : Z) (r : rstate) : rstate :=
  match change_ack type ef winseq offset (tx_q r) with
  | Some q => set_txq q r
  | None => match mem with Some pad => set_txq (make_ack type ef winseq offset pad :: tx_q r) r | None => r end
  end.

(** [deliver_packet]: a broadcast to the threads of a parallel process is put together
    first; any other packet is queued at its socket. *)
Definition frames_data (fs : list frame) : list Z := List.concat (fr_data <$> fs).
Definition deliver_packet (m : luck) (ind : Z) (r : rstate) : option (Z * rstate) :=
  slot ← zget (rcvpkts r) ind;
  match slot with
  | None => Some (0, r)
  | Some p =>
      s ← zset (rcvpkts r) ind None;
      if (saddr_host (rp_dest p) =? -1) && (saddr_port (rp_dest p) <? -65535) then
        Some (0, set_rcvpkts s (if m_data m then set_broadcasts (broadcasts r ++ [(p, frames_data (rp_frames p))]) r else r))
      else if sock m then Some (0, set_rcvpkts s (set_queued (queued r ++ [p]) r))
      else Some (-1, set_rcvpkts s r)
  end.

(** Whether this host answers: broadcasts are acknowledged by the next host only. *)
Definition answers (dest src : isockaddr) (r : rstate) : bool :=
  negb (saddr_host dest =? -1) || (cmod (s32 (saddr_host src + 1)) (no_hosts r) =? this_hostid r).

(** [packet_type_data] for a packet in slot [ind]; the timer of a complete packet is stopped. *)
Definition integrate (m : luck) (ef : frame) (ind : Z) (r : rstate) : option rstate :=
  slot ← zget (rcvpkts r) ind;
  p ← slot;
  if pkt_rcvddata p =? pkt_offset ef then
    let p := mk_rp (rp_type p) (rp_dest p) (rp_src p) (rp_length p) (rp_id p) (rp_tag p) (rp_groupid p) (rp_frames p ++ [ef])
               (cmod (pkt_expc_seqno p + 1) MAXWINDOWSIZE) (u32 (pkt_rcvddata p + pkt_frame_length ef)) (negb (pkt_length ef =? u32 (pkt_rcvddata p + pkt_frame_length ef))) in
    s ← zset (rcvpkts r) ind (Some p);
    let r := set_rcvpkts s r in
    let complete := pkt_length ef =? pkt_rcvddata p in
    let r := if (complete || (pkt_expc_seqno p =? 0)) && answers (rp_dest p) (rp_src p) r
             then send_ack (m_ack m) PKTTYPE_ACK ef (pkt_expc_seqno p) (pkt_rcvddata p) r else r in
    if complete then
      n ← locate_hash_node (pkt_src ef) r;
      r ← (match n with None => add_hash_node (m_node m) (pkt_src ef) (pkt_id ef) r | Some _ => set_node (pkt_src ef) (pkt_id ef) r end);
      '(res, r) ← deliver_packet m ind r;
      Some (if negb (res =? 0) && negb (saddr_host (pkt_dest ef) =? -1) then send_ack (m_ack m) PKTTYPE_ERROR ef EDEST_NOTEXIST 0 r else r)
    else Some r
  else if negb (saddr_host (rp_dest p) =? -1) then Some (send_ack (m_ack m) PKTTYPE_ACK ef (pkt_expc_seqno p) (pkt_rcvddata p) r)
  else Some r.

Definition packet_type_data (m : luck) (ef : frame) (r : rstate) : option rstate :=
  let ind := pktindex 0 ef (rcvpkts r) in
  if ind =? -1 then
    n ← locate_hash_node (pkt_src ef) r;
    let seq := match n with Some n => next_seqno n | None => 0 end in
    if pkt_id ef <=? u32 seq then
      Some (if answers (pkt_dest ef) (pkt_src ef) r
            then send_ack (m_ack m) PKTTYPE_ACK ef (((pkt_length ef + MAX_PROTOCOL_FRSIZE - 1) / MAX_PROTOCOL_FRSIZE) mod MAXWINDOWSIZE) (pkt_length ef) r else r)
    else
      '(ind, r) ← alloc_pktindex (m_pkt m) ef r;
      if ind <? 0 then Some r else integrate m ef ind r
  else integrate m ef ind r.

(** The timer of a packet expires: [remove_pkt]. *)
Definition remove_pkt (ind : Z) (r : rstate) : option rstate :=
  slot ← zget (rcvpkts r) ind; _ ← slot; s ← zset (rcvpkts r) ind None; Some (set_rcvpkts s r).

(** * The assembler *)

(** The socket that a frame is for: its peer, the packet it is sending with [pkt_lock] and
    [pkt_windowcomplete], and [psk_rcvdevent]. *)
Record psk := mk_psk { psk_peer : isockaddr; psk_sndpkt : option spkt; pkt_lock : bool; window_woken : bool; rcvd_woken : bool }.
(** The assembler finishes with a frame, or waits for [pkt_lock]. *)
Inductive outcome := Handled (k : option psk) (r : rstate) | Blocked.

Definition on_error (f : frame) (k : option psk) : option psk :=
  k ← k;
  Some (match psk_sndpkt k with
        | Some p =>
            if sp_id p =? pkt_id f then mk_psk (psk_peer k) (Some (set_status PKTSTATUS_TXCOMPLETE (s16 (pkt_winseq_no f)) p)) false true (rcvd_woken k)
            else mk_psk (psk_peer k) (Some p) true (window_woken k) (rcvd_woken k)
        | None => k
        end).
Definition on_ack (f : frame) (k : option psk) (r : rstate) : option psk * rstate :=
  match k with
  | Some k =>
      match psk_sndpkt k with
      | Some p => let '(p, q) := process_ack p f (tx_q r) in (Some (mk_psk (psk_peer k) (Some p) false true (rcvd_woken k)), set_txq q r)
      | None => (Some k, r)
      end
  | None => (None, r)
  end.
Definition on_close (k : option psk) : option psk :=
  k ← k;
  Some (mk_psk (mk_sa (saddr_type (psk_peer k)) 0 0)
          (p ← psk_sndpkt k; Some (set_ack (pkt_ackdata p) PKTSTATUS_TXCOMPLETE (pkt_retries p) ECONNECTIONCLOSED (pkt_wincur_pos p) (sp_length p) p))
          false (match psk_sndpkt k with Some _ => true | None => window_woken k end) true).

(** The body of the loop of [assemble] for one frame. *)
Definition assemble (m : luck) (f : frame) (k : option psk) (r : rstate) : option outcome :=
  if negb (accepted f) then Some (Handled k r) else
  if pkt_type f =? PKTTYPE_PKTSEQNOINIT then Some (Handled k (initialize_seqno (saddr_host (pkt_src f)) (saddr_port (pkt_src f)) (saddr_type (pkt_src f)) r)) else
  if (match k with None => 0 <? saddr_port (pkt_dest f) | Some _ => false end) then
    Some (Handled k (if negb (saddr_host (pkt_dest f) =? -1) then send_ack (m_ack m) PKTTYPE_ERROR f EDEST_NOTEXIST 0 r else r))
  else
  if (match k with Some k => match psk_sndpkt k with Some _ => pkt_lock k | None => false end | None => false end) then Some Blocked else
  if pkt_type f =? PKTTYPE_ERROR then Some (Handled (on_error f k) r)
  else if pkt_type f =? PKTTYPE_ACK then let '(k, r) := on_ack f k r in Some (Handled k r)
  else if pkt_type f =? PKTTYPE_CONNECTCLOSE then Some (Handled (on_close k) (send_ack (m_ack m) PKTTYPE_ACK f 1 (pkt_length f) r))
  else if (pkt_type f =? PKTTYPE_MCCONSISTENCY) || (pkt_type f =? PKTTYPE_REXEC) || (pkt_type f =? PKTTYPE_SYNCH) || (pkt_type f =? PKTTYPE_DATA) then
    r ← packet_type_data m f r; Some (Handled k r)
  else Some (Handled k r).

(** * [packet_type_data] use by use *)

(** The timer thread is another thread: [remove_pkt] can run between any two uses of
    [rcvpkts[ind]] in [packet_type_data].  The uses are grouped in steps that change the
    packet once; a timer inside a step leaves the rest of the step with a null pointer, as it
    does the step after it.  Up to the slot of the packet nothing of it is
    used; [None] is a frame that needs no slot. *)
Definition look (m : luck) (ef : frame) (r : rstate) : option (option Z * rstate) :=
  let ind := pktindex 0 ef (rcvpkts r) in
  if ind =? -1 then
    n ← locate_hash_node (pkt_src ef) r;
    let seq := match n with Some n => next_seqno n | None => 0 end in
    if pkt_id ef <=? u32 seq then
      Some (None, if answers (pkt_dest ef) (pkt_src ef) r
                  then send_ack (m_ack m) PKTTYPE_ACK ef (((pkt_length ef + MAX_PROTOCOL_FRSIZE - 1) / MAX_PROTOCOL_FRSIZE) mod MAXWINDOWSIZE) (pkt_length ef) r else r)
    else
      '(ind, r) ← alloc_pktindex (m_pkt m) ef r;
      Some (if ind <? 0 then None else Some ind, r)
  else Some (Some ind, r).

(** Through the pointer in slot [ind], which may be null by now. *)
Definition slot_at (ind : Z) (r : rstate) : option rpkt := slot ← zget (rcvpkts r) ind; slot.
Definition upd_slot (ind : Z) (f : rpkt -> rpkt) (r : rstate) : option rstate :=
  p ← slot_at ind r; s ← zset (rcvpkts r) ind (Some (f p)); Some (set_rcvpkts s r).
Definition with_timer (b : bool) (p : rpkt) : rpkt :=
  mk_rp (rp_type p) (rp_dest p) (rp_src p) (rp_length p) (rp_id p) (rp_tag p) (rp_groupid p) (rp_frames p) (pkt_expc_seqno p) (pkt_rcvddata p) b.
Definition with_frame (ef : frame) (p : rpkt) : rpkt :=
  mk_rp (rp_type p) (rp_dest p) (rp_src p) (rp_length p) (rp_id p) (rp_tag p) (rp_groupid p) (rp_frames p ++ [ef]) (pkt_expc_seqno p) (pkt_rcvddata p) (rp_timer p).
Definition with_bytes (n : Z) (p : rpkt) : rpkt :=
  mk_rp (rp_type p) (rp_dest p) (rp_src p) (rp_length p) (rp_id p) (rp_tag p) (rp_groupid p) (rp_frames p) (pkt_expc_seqno p) (u32 (pkt_rcvddata p + n)) (rp_timer p).
Definition with_number (p : rpkt) : rpkt :=
  mk_rp (rp_type p) (rp_dest p) (rp_src p) (rp_length p) (rp_id p) (rp_tag p) (rp_groupid p) (rp_frames p) (cmod (pkt_expc_seqno p + 1) MAXWINDOWSIZE) (pkt_rcvddata p) (rp_timer p).

Inductive stage := Found | Late | InOrder | Timed | Linked | Counted | Numbered | Acked | Complete | Stopped | Remembered.
Definition run_stage (m : luck) (ef : frame) (ind : Z) (st : stage) (r : rstate) : option (rstate * option stage) :=
  match st with
  | Found => p ← slot_at ind r; Some (r, Some (if pkt_rcvddata p =? pkt_offset ef then InOrder else Late))
  | Late =>
      p ← slot_at ind r;
      Some (if negb (saddr_host (rp_dest p) =? -1) then send_ack (m_ack m) PKTTYPE_ACK ef (pkt_expc_seqno p) (pkt_rcvddata p) r else r, None)
  | InOrder => r ← upd_slot ind (with_timer true) r; Some (r, Some Timed)
  | Timed => r ← upd_slot ind (with_frame ef) r; Some (r, Some Linked)
  | Linked => r ← upd_slot ind (with_bytes (pkt_frame_length ef)) r; Some (r, Some Counted)
  | Counted => r ← upd_slot ind with_number r; Some (r, Some Numbered)
  | Numbered =>
      p ← slot_at ind r;
      Some (if ((pkt_length ef =? pkt_rcvddata p) || (pkt_expc_seqno p =? 0)) && answers (rp_dest p) (rp_src p) r
            then send_ack (m_ack m) PKTTYPE_ACK ef (pkt_expc_seqno p) (pkt_rcvddata p) r else r, Some Acked)
  | Acked => p ← slot_at ind r; Some (r, if pkt_length ef =? pkt_rcvddata p then Some Complete else None)
  | Complete => r ← upd_slot ind (with_timer false) r; Some (r, Some Stopped)
  | Stopped =>
      n ← locate_hash_node (pkt_src ef) r;
      r ← (match n with None => add_hash_node (m_node m) (pkt_src ef) (pkt_id ef) r | Some _ => set_node (pkt_src ef) (pkt_id ef) r end);
      Some (r, Some Remembered)
  | Remembered =>
      '(res, r) ← deliver_packet m ind r;
      Some (if negb (res =? 0) && negb (saddr_host (pkt_dest ef) =? -1) then send_ack (m_ack m) PKTTYPE_ERROR ef EDEST_NOTEXIST 0 r else r, None)
  end.
Fixpoint run_stages (fuel : nat) (m : luck) (ef : frame) (ind : Z) (st : stage) (r : rstate) : option rstate :=
  match fuel with
  | O => None
  | S fuel =>
      '(r, st) ← run_stage m ef ind st r;
      match st with Some st => run_stages fuel m ef ind st r | None => Some r end
  end.

(** * What the assembler puts together *)

Lemma send_ack_keeps m type ef w o r :
  rcvpkts (send_ack m type ef w o r) = rcvpkts r /\ queued (send_ack m type ef w o r) = queued r /\
  broadcasts (send_ack m type ef w o r) = broadcasts r /\ hash_table (send_ack m type ef w o r) = hash_table r.
Proof. unfold send_ack. destruct (change_ack _ _ _ _ _); [done|]. by destruct m. Qed.

Lemma pktindex_slot ef s i ind :
  pktindex i ef s = ind -> ind <> -1 -> 0 <= i -> exists p, s !! Z.to_nat (ind - i) = Some (Some p) /\ i <= ind /\ rp_src p = pkt_src ef /\ rp_id p = pkt_id ef.
Proof.
  revert i. induction s as [|[p|] s IH]; intros i; cbn [pktindex]; [lia|..].
  - destruct (_ && _) eqn:E.
    + intros <- _ _. apply andb_true_iff in E as [E1%Z.eqb_eq E2%bool_decide_eq_true]. rewrite Z.sub_diag. exists p. eauto with lia.
    + intros H Hn Hi. destruct (IH (i + 1) H Hn) as (q & Hq & ? & ?); [lia|]. exists q.
      replace (Z.to_nat (ind - i)) with (S (Z.to_nat (ind - (i + 1)))) by lia. split; [exact Hq|]. split; [lia|done].
  - intros H Hn Hi. destruct (IH (i + 1) H Hn) as (q & Hq & ? & ?); [lia|]. exists q.
    replace (Z.to_nat (ind - i)) with (S (Z.to_nat (ind - (i + 1)))) by lia. split; [exact Hq|]. split; [lia|done].
Qed.

Lemma send_ack_slots m type ef w o s r : send_ack m type ef w o (set_rcvpkts s r) = set_rcvpkts s (send_ack m type ef w o r).
Proof. unfold send_ack. cbn [tx_q set_rcvpkts]. destruct (change_ack _ _ _ _ _); [done|]. by destruct m. Qed.

Lemma slot_at_inv ind r p : slot_at ind r = Some p -> 0 <= ind < zlen (rcvpkts r) /\ rcvpkts r !! Z.to_nat ind = Some (Some p).
Proof.
  unfold slot_at, zget. destruct (Z.ltb_spec ind 0); [done|]. destruct (rcvpkts r !! Z.to_nat ind) as [o|] eqn:E; [|done]. cbn. intros ->.
  split; [|done]. apply lookup_lt_Some in E. unfold zlen. lia.
Qed.
Lemma slot_at_lookup ind r o : 0 <= ind -> rcvpkts r !! Z.to_nat ind = Some o -> slot_at ind r = o.
Proof. intros Hi H. unfold slot_at, zget. destruct (Z.ltb_spec ind 0); [lia|]. by rewrite H. Qed.
Lemma upd_slot_run ind f r p : slot_at ind r = Some p -> upd_slot ind f r = Some (set_rcvpkts (<[Z.to_nat ind := Some (f p)]> (rcvpkts r)) r).
Proof. intros H. unfold upd_slot. rewrite H. cbn [mbind option_bind]. apply slot_at_inv in H as [H _]. by rewrite zset_Some. Qed.
Lemma slot_at_set ind p s r : 0 <= ind < zlen s -> slot_at ind (set_rcvpkts (<[Z.to_nat ind := Some p]> s) r) = Some p.
Proof. intros H. apply slot_at_lookup; [lia|]. cbn. apply list_lookup_insert_eq. unfold zlen in H. lia. Qed.

Lemma stages_go n m ef ind st r r' st' : run_stage m ef ind st r = Some (r', Some st') -> run_stages (S n) m ef ind st r = run_stages n m ef ind st' r'.
Proof. intros H. cbn [run_stages]. by rewrite H. Qed.
Lemma stages_end n m ef ind st r r' : run_stage m ef ind st r = Some (r', None) -> run_stages (S n) m ef ind st r = Some r'.
Proof. intros H. cbn [run_stages]. by rewrite H. Qed.
Lemma stage_upd n m ef ind st st' f s r p :
  0 <= ind < zlen s -> (forall r, run_stage m ef ind st r = (r ← upd_slot ind f r; Some (r, Some st'))) ->
  run_stages (S n) m ef ind st (set_rcvpkts (<[Z.to_nat ind := Some p]> s) r) = run_stages n m ef ind st' (set_rcvpkts (<[Z.to_nat ind := Some (f p)]> s) r).
Proof.
  intros Hi H. apply stages_go. rewrite H, (upd_slot_run _ _ _ p) by (by apply slot_at_set). cbn [mbind option_bind rcvpkts set_rcvpkts]. by rewrite list_insert_insert_eq.
Qed.

(** [integrate] is its uses of the slot one after the other. *)
Lemma integrate_stages m ef ind r : integrate m ef ind r = run_stages 11 m ef ind Found r.
Proof.
  unfold integrate. destruct (slot_at ind r) as [p|] eqn:Hp.
  2:{ cbn [run_stages run_stage]. rewrite Hp. unfold slot_at in Hp. destruct (zget (rcvpkts r) ind) as [[p|]|]; done. }
  pose proof (slot_at_inv _ _ _ Hp) as [Hi Hl].
  assert (zget (rcvpkts r) ind = Some (Some p)) as -> by (unfold zget; destruct (Z.ltb_spec ind 0); [lia|done]). rewrite !bind_Some.
  rewrite (stages_go _ _ _ _ _ r r (if pkt_rcvddata p =? pkt_offset ef then InOrder else Late)) by (cbn [run_stage]; by rewrite Hp).
  destruct (pkt_rcvddata p =? pkt_offset ef).
  2:{ erewrite stages_end by (cbn [run_stage]; rewrite Hp; reflexivity). by destruct (negb _). }
  erewrite stages_go by (cbn [run_stage]; rewrite (upd_slot_run _ _ _ _ Hp); reflexivity).
  do 3 (erewrite stage_upd by done). rewrite zset_Some by done. rewrite bind_Some. cbv zeta. set (q := with_number _).
  cbn [pkt_rcvddata pkt_expc_seqno rp_dest rp_src]. change (u32 (pkt_rcvddata p + pkt_frame_length ef)) with (pkt_rcvddata q). change (cmod (pkt_expc_seqno p + 1) MAXWINDOWSIZE) with (pkt_expc_seqno q).
  change (rp_dest p) with (rp_dest q). change (rp_src p) with (rp_src q).
  set (q' := mk_rp _ _ _ _ _ _ _ _ _ _ (negb _)). remember (pkt_length ef =? pkt_rcvddata q) as c eqn:Ec in *. assert (q' = if c then with_timer false q else q) as Eq by (unfold q', q; by destruct c).
  clearbody q'. assert (rp_dest q = rp_dest p /\ rp_src q = rp_src p) as [Ed Es] by done. clearbody q. subst q'.
  erewrite stages_go by (cbn [run_stage]; rewrite slot_at_set by done; reflexivity). rewrite <- Ec.
  set (b := (c || _) && _). change (answers (rp_dest q) (rp_src q) (set_rcvpkts _ r)) with (answers (rp_dest q) (rp_src q) r) in b.
  change ((c || (pkt_expc_seqno q =? 0)) && answers (rp_dest q) (rp_src q) (set_rcvpkts (<[Z.to_nat ind:=Some q]> (rcvpkts r)) r)) with b.
  set (r1 := if b then send_ack (m_ack m) PKTTYPE_ACK ef (pkt_expc_seqno q) (pkt_rcvddata q) r else r).
  assert (forall s, (if b then send_ack (m_ack m) PKTTYPE_ACK ef (pkt_expc_seqno q) (pkt_rcvddata q) (set_rcvpkts s r) else set_rcvpkts s r) = set_rcvpkts s r1) as Hack by (intros s; unfold r1; destruct b; [apply send_ack_slots|done]).
  rewrite !Hack. clearbody r1 b. destruct c.
  - erewrite stages_go by (cbn [run_stage]; rewrite slot_at_set by done; cbn [mbind option_bind]; rewrite <- Ec; reflexivity). erewrite stage_upd by done. cbn [run_stages run_stage].
    destruct (locate_hash_node _ _) as [n|]; [|done]. cbn [mbind option_bind]. destruct (match n with Some _ => _ | None => _ end) as [r2|]; [|done]. cbn [mbind option_bind].
    cbn [run_stage]. by destruct (deliver_packet m ind r2) as [[res r3]|].
  - by erewrite stages_end by (cbn [run_stage]; rewrite slot_at_set by done; cbn [mbind option_bind]; rewrite <- Ec; reflexivity).
Qed.

Definition table_ok (r : rstate) : Prop := zlen (hash_table r) = MaxIndex.

Lemma hash_index_range host port : 0 <= hash_index host port -> 0 <= hash_index host port < MaxIndex.
Proof. unfold hash_index, cmod, MaxIndex. intros H. pose proof (Z.rem_bound_abs (s32 (s32 (host * 100) + port)) 50 ltac:(done)). lia. Qed.
Lemma table_ok_ack m type ef w o r : table_ok r -> table_ok (send_ack m type ef w o r).
Proof. unfold table_ok. by destruct (send_ack_keeps m type ef w o r) as (_ & _ & _ & ->). Qed.
Lemma chain_exists a r : table_ok r -> 0 <= hash_index (saddr_host a) (saddr_port a) -> exists c, zget (hash_table r) (hash_index (saddr_host a) (saddr_port a)) = Some c.
Proof. intros Ht Hi%hash_index_range. apply zget_is_Some. unfold table_ok in Ht. lia. Qed.
Lemma table_update r a (c : list nodetag) :
  table_ok r -> 0 <= hash_index (saddr_host a) (saddr_port a) -> exists h, zset (hash_table r) (hash_index (saddr_host a) (saddr_port a)) c = Some h /\ zlen h = MaxIndex.
Proof.
  unfold table_ok. intros Ht Hi%hash_index_range. rewrite zset_Some by lia. eexists. split; [done|]. unfold zlen in *. by rewrite length_insert.
Qed.
Lemma add_hash_node_ok m a id r :
  table_ok r -> 0 <= hash_index (saddr_host a) (saddr_port a) -> exists h, add_hash_node m a id r = Some (set_hash h r) /\ zlen h = MaxIndex.
Proof.
  intros Ht Hi. unfold add_hash_node. destruct m; cbn [negb]; [|by exists (hash_table r); destruct r]. destruct (chain_exists a r Ht Hi) as [c ->]. cbn [mbind option_bind].
  destruct (table_update r a (mk_node (saddr_type a) (saddr_host a) (saddr_port a) (s32 id) (s32 (secs r)) :: c) Ht Hi) as (h & -> & Hh). by eauto.
Qed.
Lemma set_node_ok a id r :
  table_ok r -> 0 <= hash_index (saddr_host a) (saddr_port a) -> exists h, set_node a id r = Some (set_hash h r) /\ zlen h = MaxIndex.
Proof.
  intros Ht Hi. unfold set_node. destruct (chain_exists a r Ht Hi) as [c ->]. cbn [mbind option_bind].
  destruct (table_update r a (update_node a id (secs r) c) Ht Hi) as (h & -> & Hh). by eauto.
Qed.
(** The number of a packet that is complete is remembered. *)
Lemma remember_ok m a id r :
  table_ok r -> 0 <= hash_index (saddr_host a) (saddr_port a) ->
  exists n h, locate_hash_node a r = Some n /\
    (match n with None => add_hash_node m a id r | Some _ => set_node a id r end) = Some (set_hash h r) /\ zlen h = MaxIndex.
Proof.
  intros Ht Hi. unfold locate_hash_node. destruct (chain_exists a r Ht Hi) as [c ->]. cbn [mbind option_bind].
  destruct (List.find (is_node a) c) as [n|].
  - destruct (set_node_ok a id r Ht Hi) as (h & H & Hh). exists (Some n), h. done.
  - destruct (add_hash_node_ok m a id r Ht Hi) as (h & H & Hh). exists None, h. done.
Qed.
Lemma deliver_defined m ind r : 0 <= ind < zlen (rcvpkts r) -> exists res r', deliver_packet m ind r = Some (res, r') /\ hash_table r' = hash_table r.
Proof.
  intros Hi. unfold deliver_packet. destruct (zget_is_Some _ _ Hi) as [o ->]. cbn [mbind option_bind]. destruct o as [p|]; [|by eauto].
  rewrite zset_Some by done. cbn [mbind option_bind]. repeat case_match; eauto.
Qed.

Lemma integrate_defined m ef ind r p :
  table_ok r -> 0 <= hash_index (saddr_host (pkt_src ef)) (saddr_port (pkt_src ef)) -> 0 <= ind -> rcvpkts r !! Z.to_nat ind = Some (Some p) ->
  exists r', integrate m ef ind r = Some r' /\ table_ok r'.
Proof.
  intros Ht Hh Hi Hp. assert (0 <= ind < zlen (rcvpkts r)) as Hr by (apply lookup_lt_Some in Hp; unfold zlen; lia).
  unfold integrate, zget. destruct (Z.ltb_spec ind 0); [lia|]. rewrite Hp. cbn [mbind option_bind]. case_match.
  2:{ destruct (negb _); eauto using table_ok_ack. }
  rewrite zset_Some by done. cbn [mbind option_bind]. set (r1 := set_rcvpkts _ r). set (p1 := mk_rp _ _ _ _ _ _ _ _ _ _ _) in *.
  set (r2 := if (_ || _) && _ then _ else _).
  assert (table_ok r2 /\ rcvpkts r2 = rcvpkts r1) as [Ht2 Hs2]
    by (unfold r2; destruct (_ && _); [split; [by apply table_ok_ack|by destruct (send_ack_keeps (m_ack m) PKTTYPE_ACK ef (pkt_expc_seqno p1) (pkt_rcvddata p1) r1)]|done]).
  clearbody r2. destruct (pkt_length ef =? _); [|by eauto]. destruct (remember_ok (m_node m) _ (pkt_id ef) _ Ht2 Hh) as (n & h & -> & Hset & Hh3). cbn [mbind option_bind].
  rewrite Hset. cbn [mbind option_bind]. destruct (deliver_defined m ind (set_hash h r2)) as (res & r4 & -> & Hh4).
  { cbn. rewrite Hs2. cbn. unfold zlen in *. by rewrite length_insert. }
  cbn [mbind option_bind]. eexists. split; [done|]. destruct (negb _ && negb _); [apply table_ok_ack|]; unfold table_ok; by rewrite Hh4.
Qed.

Lemma first_free_range s i j : first_free i s = Some j -> i <= j < i + zlen s.
Proof.
  revert i. unfold zlen. induction s as [|[p|] s IH]; intros i; cbn [first_free length]; [done|..].
  - intros Hj%IH. lia.
  - intros [= <-]. lia.
Qed.

Lemma packet_type_data_defined m ef r :
  table_ok r -> 0 <= hash_index (saddr_host (pkt_src ef)) (saddr_port (pkt_src ef)) -> exists r', packet_type_data m ef r = Some r' /\ table_ok r'.
Proof.
  intros Ht Hh. unfold packet_type_data. destruct (Z.eqb_spec (pktindex 0 ef (rcvpkts r)) (-1)) as [_|Hn].
  - unfold locate_hash_node. destruct (chain_exists _ _ Ht Hh) as [c ->]. cbn [mbind option_bind]. destruct (_ <=? _).
    { destruct (answers _ _ _); eauto using table_ok_ack. }
    unfold alloc_pktindex. destruct (first_free _ _) as [i|] eqn:Ei; [|by eauto]. apply first_free_range in Ei. destruct (m_pkt m); cbn [negb]; [|by eauto].
    rewrite zset_Some by lia. cbn [mbind option_bind]. destruct (Z.ltb_spec i 0); [by eauto|].
    eapply integrate_defined; try done. cbn. apply list_lookup_insert_eq. unfold zlen in Ei. lia.
  - destruct (pktindex_slot ef (rcvpkts r) 0 _ eq_refl Hn) as (p & Hp & ? & ? & ?); [lia|]. rewrite Z.sub_0_r in Hp. by eapply integrate_defined.
Qed.

(** [packet_type_data] is [look], then the uses of the slot. *)
Lemma packet_type_data_stages m ef r :
  packet_type_data m ef r = ('(o, r) ← look m ef r; match o with Some ind => run_stages 11 m ef ind Found r | None => Some r end).
Proof.
  unfold packet_type_data, look. destruct (_ =? -1); [|cbn [mbind option_bind]; apply integrate_stages]. destruct (locate_hash_node _ _) as [n|]; [|done]. cbn [mbind option_bind].
  destruct (_ <=? _); [done|]. destruct (alloc_pktindex _ _ _) as [[i r1]|]; [|done]. cbn [mbind option_bind]. destruct (i <? 0); [done|]. apply integrate_stages.
Qed.

Section genuine.
(** The packet that each source sent under each number. *)
Variable msg : isockaddr -> Z -> list Z.

(** A frame cut from the packet it names. *)
Definition genuine (f : frame) : Prop :=
  let d := msg (pkt_src f) (pkt_id f) in
  pkt_length f = zlen d /\ zlen d < 2 ^ 32 /\ 0 <= pkt_offset f /\ 0 <= pkt_frame_length f /\ pkt_offset f + pkt_frame_length f <= zlen d /\
  fr_data f = take (Z.to_nat (pkt_frame_length f)) (drop (Z.to_nat (pkt_offset f)) d).
(** A packet that is being put together holds a prefix of what was sent. *)
Definition slot_ok (p : rpkt) : Prop :=
  let d := msg (rp_src p) (rp_id p) in
  0 <= pkt_rcvddata p <= zlen d /\ frames_data (rp_frames p) = take (Z.to_nat (pkt_rcvddata p)) d.
Definition whole (p : rpkt) : Prop := frames_data (rp_frames p) = msg (rp_src p) (rp_id p).
Definition received_ok (r : rstate) : Prop :=
  Forall (fun o => match o with Some p => slot_ok p | None => True end) (rcvpkts r) /\ Forall whole (queued r) /\
  Forall (fun b => whole b.1 /\ b.2 = msg (rp_src b.1) (rp_id b.1)) (broadcasts r).

Lemma received_ok_same r r' :
  rcvpkts r' = rcvpkts r -> queued r' = queued r -> broadcasts r' = broadcasts r -> received_ok r -> received_ok r'.
Proof. unfold received_ok. by intros -> -> ->. Qed.
Lemma received_ok_ack m type ef w o r : received_ok r -> received_ok (send_ack m type ef w o r).
Proof. destruct (send_ack_keeps m type ef w o r) as (? & ? & ? & _). by apply received_ok_same. Qed.
Lemma received_ok_slots s r :
  received_ok r -> Forall (fun o => match o with Some p => slot_ok p | None => True end) s -> received_ok (set_rcvpkts s r).
Proof. by intros (_ & ? & ?) ?. Qed.

Lemma deliver_ok m ind r r' res p :
  received_ok r -> rcvpkts r !! Z.to_nat ind = Some (Some p) -> 0 <= ind -> whole p -> deliver_packet m ind r = Some (res, r') -> received_ok r'.
Proof.
  intros Hok Hp Hi Hw. unfold deliver_packet, zget. destruct (Z.ltb_spec ind 0); [lia|]. rewrite Hp. cbn [mbind option_bind].
  destruct (zset _ _ _) as [s|] eqn:Es; [|done]. apply zset_inv in Es as [_ ->]. cbn [mbind option_bind].
  destruct Hok as (Hs & Hq & Hb).
  assert (Forall (fun o => match o with Some p => slot_ok p | None => True end) (<[Z.to_nat ind:=None]> (rcvpkts r))) as Hs' by (by apply Forall_insert).
  repeat case_match; intros [= _ <-]; (split; [exact Hs'|]); split; cbn; try done; apply Forall_app; (split; [done|]); by repeat constructor.
Qed.
Lemma hash_keeps m a id r r' :
  (add_hash_node m a id r = Some r' \/ set_node a id r = Some r') -> rcvpkts r' = rcvpkts r /\ queued r' = queued r /\ broadcasts r' = broadcasts r.
Proof.
  intros [H|H].
  - unfold add_hash_node in H. destruct m; cbn [negb] in H; [|by injection H as <-]. by do 2 bind_inv H; injection H as <-.
  - unfold set_node in H. by do 2 bind_inv H; injection H as <-.
Qed.

Lemma frames_data_snoc fs f : frames_data (fs ++ [f]) = frames_data fs ++ fr_data f.
Proof. unfold frames_data. rewrite fmap_app, List.concat_app. cbn. by rewrite app_nil_r. Qed.

Lemma integrate_ok m ef ind r r' p :
  genuine ef -> received_ok r -> rcvpkts r !! Z.to_nat ind = Some (Some p) -> 0 <= ind -> rp_src p = pkt_src ef -> rp_id p = pkt_id ef ->
  integrate m ef ind r = Some r' -> received_ok r'.
Proof.
  intros (Hlen & H32 & Ho & Hf & Hof & Hd) Hok Hp Hi Hsrc Hid. unfold integrate, zget. destruct (Z.ltb_spec ind 0); [lia|].
  rewrite Hp. cbn [mbind option_bind].
  assert (slot_ok p) as (Hr & Hdata) by (destruct Hok as (Hs & _); exact (Forall_lookup_1 _ _ _ _ Hs Hp)).
  rewrite Hsrc, Hid in Hr, Hdata. destruct (Z.eqb_spec (pkt_rcvddata p) (pkt_offset ef)) as [Heq|_].
  2:{ case_match; intros [= <-]; by auto using received_ok_ack. }
  set (p1 := mk_rp _ _ _ _ _ _ _ _ _ _ _). destruct (zset _ _ _) as [s|] eqn:Es; [|done]. apply zset_inv in Es as [Hi' ->]. cbn [mbind option_bind].
  assert (u32 (pkt_rcvddata p + pkt_frame_length ef) = pkt_offset ef + pkt_frame_length ef) as Hu by u32_lia.
  assert (slot_ok p1) as Hp1.
  { split; cbn [p1 pkt_rcvddata rp_src rp_id rp_frames]; rewrite Hsrc, Hid, Hu; [lia|].
    rewrite frames_data_snoc, Hdata, Hd, Heq, Z2Nat.inj_add by lia. by rewrite take_take_drop. }
  set (r1 := set_rcvpkts _ r).
  assert (received_ok r1) as Hok1 by (apply received_ok_slots; [done|]; apply Forall_insert; [apply Hok|done]).
  set (r2 := if (_ || _) && _ then _ else _).
  assert (received_ok r2 /\ rcvpkts r2 = rcvpkts r1) as [Hok2 Hs2]
    by (unfold r2; case_match; [split; [by apply received_ok_ack|by destruct (send_ack_keeps (m_ack m) PKTTYPE_ACK ef (pkt_expc_seqno p1) (pkt_rcvddata p1) r1)]|done]).
  destruct (Z.eqb_spec (pkt_length ef) (pkt_rcvddata p1)) as [Hc|_]; [|by intros [= <-]].
  assert (whole p1) as Hw.
  { destruct Hp1 as [_ Hp1]. unfold whole. rewrite Hp1, <- Hc, Hlen. cbn [p1 rp_src rp_id]. rewrite Hsrc, Hid. unfold zlen. rewrite Nat2Z.id. apply firstn_all. }
  clearbody r2. intros H1. destruct (locate_hash_node _ _) as [n|]; [|done]. cbn [mbind option_bind] in H1.
  step H1 as r3 from E3. step H1 as [res r4] from E4. injection H1 as <-.
  assert (rcvpkts r3 = rcvpkts r2 /\ queued r3 = queued r2 /\ broadcasts r3 = broadcasts r2) as (Hs3 & Hq3 & Hb3) by (destruct n; eapply (hash_keeps (m_node m)); eauto).
  assert (received_ok r4).
  { apply (deliver_ok m ind r3 r4 res p1); try done; [by apply (received_ok_same r2)|]. rewrite Hs3, Hs2. cbn. apply list_lookup_insert_eq. unfold zlen in Hi'. lia. }
  destruct (negb _ && negb _); [by apply received_ok_ack|done].
Qed.

Lemma packet_type_data_ok m ef r r' : genuine ef -> received_ok r -> packet_type_data m ef r = Some r' -> received_ok r'.
Proof.
  intros Hg Hok. unfold packet_type_data. destruct (Z.eqb_spec (pktindex 0 ef (rcvpkts r)) (-1)) as [_|Hn].
  - destruct (locate_hash_node _ _) as [n|]; [|done]. cbn [mbind option_bind]. case_match.
    { destruct (answers _ _ _); intros [= <-]; [by apply received_ok_ack|done]. }
    unfold alloc_pktindex. destruct (first_free _ _) as [i|]; [|by intros [= <-]]. destruct (m_pkt m); cbn [negb]; [|by intros [= <-]].
    set (p := mk_rp _ _ _ _ _ _ _ _ _ _ _). destruct (zset _ _ _) as [s|] eqn:Es; [|done]. apply zset_inv in Es as [Hi ->]. cbn [mbind option_bind].
    destruct (Z.ltb_spec i 0); [lia|]. apply (integrate_ok m ef i _ r' p); try done; [|cbn; apply list_lookup_insert_eq; unfold zlen in Hi; lia].
    apply received_ok_slots; [done|]. apply Forall_insert; [apply Hok|]. unfold slot_ok. cbn. unfold zlen. split; [lia|done].
  - destruct (pktindex_slot ef (rcvpkts r) 0 _ eq_refl Hn) as (p & Hp & ? & ? & ?); [lia|]. rewrite Z.sub_0_r in Hp. by apply (integrate_ok m ef _ r r' p).
Qed.

(** What happens at the assembler: a frame arrives for a socket, or the timer of a packet expires. *)
Definition is_data (f : frame) : bool := (pkt_type f =? PKTTYPE_MCCONSISTENCY) || (pkt_type f =? PKTTYPE_REXEC) || (pkt_type f =? PKTTYPE_SYNCH) || (pkt_type f =? PKTTYPE_DATA).
(** A source whose index in the table is not negative. *)
Definition source_ok (f : frame) : Prop := 0 <= hash_index (saddr_host (pkt_src f)) (saddr_port (pkt_src f)).
(** A data frame that is being handled: its slot, and how far [packet_type_data] is. *)
Record job := mk_job { j_luck : luck; j_frame : frame; j_slot : Z; j_stage : stage }.
(** A whole frame is handled; or a data frame is handled use by use; and at any moment the
    timer of any packet expires, also of the one that is being handled. *)
Inductive rstep : rstate * option job -> rstate * option job -> Prop :=
  | arrives m f k k' r r' : (is_data f = true -> genuine f /\ source_ok f) -> assemble m f k r = Some (Handled k' r') -> rstep (r, None) (r', None)
  | begins m f o r r' : is_data f = true -> accepted f = true -> genuine f -> source_ok f -> look m f r = Some (o, r') -> rstep (r, None) (r', (fun ind => mk_job m f ind Found) <$> o)
  | goes_on m f ind st st' r r' : run_stage m f ind st r = Some (r', st') -> rstep (r, Some (mk_job m f ind st)) (r', mk_job m f ind <$> st')
  | expires ind p j r r' : zget (rcvpkts r) ind = Some (Some p) -> rp_timer p = true -> remove_pkt ind r = Some r' -> rstep (r, j) (r', j).

Lemma assemble_cases m f k r h :
  assemble m f k r = Some h ->
  h = Blocked \/ exists k' r', h = Handled k' r' /\
    (r' = r \/ r' = initialize_seqno (saddr_host (pkt_src f)) (saddr_port (pkt_src f)) (saddr_type (pkt_src f)) r \/ (exists t w o, r' = send_ack (m_ack m) t f w o r) \/
     (exists q, r' = set_txq q r) \/ (is_data f = true /\ packet_type_data m f r = Some r')).
Proof.
  unfold assemble. repeat lazymatch goal with |- (if ?b then _ else _) = _ -> _ => destruct b eqn:? end; try (intros [= <-]; eauto 8; fail).
  - intros [= <-]. right. do 2 eexists. split; [done|]. destruct (negb (saddr_host (pkt_dest f) =? -1)).
    + do 2 right. left. eauto.
    + by left.
  - unfold on_ack. destruct k as [k|]; [|intros [= <-]; eauto 8]. destruct (psk_sndpkt k); [|intros [= <-]; eauto 8].
    destruct (process_ack _ _ _). intros [= <-]. right. do 2 eexists. split; [done|]. do 3 right. left. eauto.
  - intros [= <-]. right. do 2 eexists. split; [done|]. do 2 right. left. eauto.
  - destruct (packet_type_data m f r) eqn:E; [|done]. intros [= <-]. right. do 2 eexists. split; [done|]. do 4 right. done.
Qed.

Lemma table_ok_init host port type r : table_ok r -> table_ok (initialize_seqno host port type r).
Proof. unfold table_ok, zlen. cbn. by rewrite length_fmap. Qed.

(** What holds of the packet of a frame that is being handled. *)
Definition stage_ok (st : stage) (f : frame) (p : rpkt) : Prop :=
  rp_src p = pkt_src f /\ rp_id p = pkt_id f /\
  match st with
  | InOrder | Timed => slot_ok p /\ pkt_rcvddata p = pkt_offset f
  | Linked => pkt_rcvddata p = pkt_offset f /\ frames_data (rp_frames p) = take (Z.to_nat (pkt_offset f + pkt_frame_length f)) (msg (pkt_src f) (pkt_id f))
  | Complete | Stopped | Remembered => slot_ok p /\ pkt_rcvddata p = pkt_length f
  | _ => slot_ok p
  end.
Record busy_ok (f : frame) (ind : Z) (st : stage) (r : rstate) : Prop := {
  bo_frame : genuine f /\ source_ok f;
  bo_range : 0 <= ind < zlen (rcvpkts r);
  bo_slot p : slot_at ind r = Some p -> stage_ok st f p;
  bo_others i p : rcvpkts r !! i = Some (Some p) -> i <> Z.to_nat ind -> slot_ok p;
  bo_queued : Forall whole (queued r);
  bo_given : Forall (fun b => whole b.1 /\ b.2 = msg (rp_src b.1) (rp_id b.1)) (broadcasts r);
  bo_table : table_ok r }.

Lemma busy_upd st st' g f ind r r' : busy_ok f ind st r -> (forall p, stage_ok st f p -> stage_ok st' f (g p)) -> upd_slot ind g r = Some r' -> busy_ok f ind st' r'.
Proof.
  intros [Hf Hr Hs Ho Hq Hb Ht] Hg H. destruct (slot_at ind r) as [p|] eqn:Hp; [|unfold upd_slot in H; by rewrite Hp in H]. rewrite (upd_slot_run _ _ _ _ Hp) in H. injection H as <-.
  split; try done; cbn [rcvpkts set_rcvpkts].
  - unfold zlen in *. by rewrite length_insert.
  - intros p'. rewrite slot_at_set by done. intros [= <-]. by apply Hg, Hs.
  - intros i p'. intros Hl Hne. rewrite list_lookup_insert_ne in Hl by done. by apply (Ho i).
Qed.
Lemma busy_same st st' f ind r r' :
  busy_ok f ind st r -> rcvpkts r' = rcvpkts r -> queued r' = queued r -> broadcasts r' = broadcasts r -> table_ok r' -> (forall p, slot_at ind r = Some p -> stage_ok st f p -> stage_ok st' f p) -> busy_ok f ind st' r'.
Proof.
  intros [Hf Hr Hs Ho Hq Hb Ht] E1 E2 E3 Ht' Hg. assert (slot_at ind r' = slot_at ind r) as Es by (unfold slot_at; by rewrite E1).
  split; try done; rewrite ?E1, ?E2, ?E3; try done. intros p. rewrite Es. intros Hp. apply Hg; [done|]. by apply Hs.
Qed.
Lemma busy_received st f ind r : busy_ok f ind st r -> (forall p, stage_ok st f p -> slot_ok p) -> received_ok r.
Proof.
  intros [Hf Hr Hs Ho Hq Hb Ht] Hg. split; [|done]. apply Forall_lookup. intros i [p|] Hp; [|done]. destruct (decide (i = Z.to_nat ind)) as [->|Hne]; [|by apply (Ho i)].
  apply Hg, Hs. apply slot_at_lookup; [lia|done].
Qed.

(** A use of the slot leads from stage to stage. *)
Lemma run_stage_ok m f ind st r r' st' :
  busy_ok f ind st r -> run_stage m f ind st r = Some (r', st') -> match st' with Some st' => busy_ok f ind st' r' | None => received_ok r' /\ table_ok r' end.
Proof.
  intros Hb. pose proof Hb as [[(Hlen & H32 & Ho & Hfl & Hof & Hd) Hsrc] Hr Hs _ _ _ Ht].
  destruct st; cbn [run_stage]; try (destruct (slot_at ind r) as [p|] eqn:Hp; [|done]; specialize (Hs p eq_refl); cbn [mbind option_bind]).
  - intros [= <- <-]. destruct (Z.eqb_spec (pkt_rcvddata p) (pkt_offset f)) as [E|_]; (eapply busy_same; [exact Hb|done..|]); [|done].
    intros p' Hp' (? & ? & ?). assert (p' = p) as -> by congruence. by split_and!.
  - intros [= <- <-]. assert (received_ok r) as Hok by (apply (busy_received _ _ _ _ Hb); by intros p' (_ & _ & ?)). destruct (negb _); auto using received_ok_ack, table_ok_ack.
  - intros H. step H as r1 from E. injection H as <- <-. eapply (busy_upd InOrder); [exact Hb| |exact E]. by intros q (? & ? & ? & ?).
  - intros H. step H as r1 from E. injection H as <- <-. eapply (busy_upd Timed); [exact Hb| |exact E]. intros q (Eq1 & Eq2 & (_ & Hda) & Hof'). split_and!; try done.
    cbn [with_frame rp_frames]. rewrite frames_data_snoc, Hda, Hd, Hof', Eq1, Eq2, Z2Nat.inj_add by lia. by rewrite take_take_drop.
  - intros H. step H as r1 from E. injection H as <- <-. eapply (busy_upd Linked); [exact Hb| |exact E]. intros q (Eq1 & Eq2 & Hof' & Hda). split_and!; try done.
    assert (u32 (pkt_rcvddata q + pkt_frame_length f) = pkt_offset f + pkt_frame_length f) as Hu by u32_lia.
    unfold slot_ok. cbn [with_bytes pkt_rcvddata rp_frames rp_src rp_id]. rewrite Hu, Eq1, Eq2, Hda. split; [lia|done].
  - intros H. step H as r1 from E. injection H as <- <-. eapply (busy_upd Counted); [exact Hb| |exact E]. by intros q (? & ? & ?).
  - intros [= <- <-]. destruct (_ && _); (eapply busy_same; [exact Hb|..]); try done; try apply send_ack_keeps. by apply table_ok_ack.
  - intros [= <- <-]. destruct (Z.eqb_spec (pkt_length f) (pkt_rcvddata p)) as [E|_].
    + eapply busy_same; [exact Hb|done..|]. intros p' Hp' (? & ? & ?). assert (p' = p) as -> by congruence. by split_and!.
    + split; [|done]. apply (busy_received _ _ _ _ Hb). by intros p' (_ & _ & ?).
  - intros H. step H as r1 from E. injection H as <- <-. eapply (busy_upd Complete); [exact Hb| |exact E]. by intros q (? & ? & ? & ?).
  - intros H. destruct (remember_ok (m_node m) _ (pkt_id f) _ Ht Hsrc) as (n & h & En & Eh & Hh). rewrite En in H. cbn [mbind option_bind] in H. rewrite Eh in H. cbn [mbind option_bind] in H. injection H as <- <-.
    eapply busy_same; [exact Hb|done..|]. done.
  - intros H. step H as [res r1] from E. injection H as <- <-. assert (received_ok r1 /\ table_ok r1) as [Hok1 Ht1].
    2:{ destruct (_ && _); auto using received_ok_ack, table_ok_ack. }
    destruct (deliver_defined m ind r Hr) as (res' & r1' & E' & Hh). rewrite E in E'. injection E' as <- <-. split; [|unfold table_ok; by rewrite Hh].
    assert (received_ok r) as Hok by (apply (busy_received _ _ _ _ Hb); by intros p' (_ & _ & ? & _)). destruct (slot_at ind r) as [p|] eqn:Hp.
    + apply slot_at_inv in Hp as [_ Hl]. destruct (Hs p eq_refl) as (Eq1 & Eq2 & [_ Hda] & Hc). apply (deliver_ok m ind r r1 res p); try done; [lia|].
      unfold whole. rewrite Hda, Hc, Hlen, Eq1, Eq2. unfold zlen. rewrite Nat2Z.id. apply firstn_all.
    + unfold deliver_packet in E. unfold slot_at in Hp. destruct (zget (rcvpkts r) ind) as [[p|]|]; try done. cbn in E. by injection E as _ <-.
Qed.

(** A frame gets a slot that no other packet has. *)
Lemma look_ok m f r o r' :
  genuine f -> source_ok f -> received_ok r -> table_ok r -> look m f r = Some (o, r') -> match o with Some ind => busy_ok f ind Found r' | None => received_ok r' /\ table_ok r' end.
Proof.
  intros Hg Hsrc Hok Ht. assert (forall ind p, 0 <= ind -> rcvpkts r !! Z.to_nat ind = Some (Some p) -> rp_src p = pkt_src f -> rp_id p = pkt_id f -> busy_ok f ind Found r) as Hbusy.
  { intros ind p Hi Hp E1 E2. pose proof Hok as (Hs & Hq & Hb). split; try done.
    - apply lookup_lt_Some in Hp. unfold zlen. lia.
    - intros p'. rewrite (slot_at_lookup _ _ _ Hi Hp). intros [= <-]. split_and!; try done. exact (Forall_lookup_1 _ _ _ _ Hs Hp).
    - intros i p' Hp' _. exact (Forall_lookup_1 _ _ _ _ Hs Hp'). }
  unfold look. destruct (Z.eqb_spec (pktindex 0 f (rcvpkts r)) (-1)) as [_|Hn].
  - destruct (locate_hash_node _ _) as [n|]; [|done]. cbn [mbind option_bind]. case_match.
    { intros [= <- <-]. destruct (answers _ _ _); auto using received_ok_ack, table_ok_ack. }
    unfold alloc_pktindex. destruct (first_free _ _) as [i|]; [|by intros [= <- <-]]. destruct (m_pkt m); cbn [negb]; [|by intros [= <- <-]].
    set (p := mk_rp _ _ _ _ _ _ _ _ _ _ _). destruct (zset _ _ _) as [s|] eqn:Es; [|done]. apply zset_inv in Es as [Hi ->]. cbn [mbind option_bind].
    destruct (Z.ltb_spec i 0); [lia|]. intros [= <- <-]. clear Hbusy. destruct Hok as (Hs & Hq & Hb). split; try done; cbn [rcvpkts set_rcvpkts].
    + unfold zlen in *. by rewrite length_insert.
    + intros p'. rewrite slot_at_set by done. intros [= <-]. split_and!; try done. unfold slot_ok. cbn. unfold zlen. split; [lia|done].
    + intros j p' Hp' Hne. rewrite list_lookup_insert_ne in Hp' by done. exact (Forall_lookup_1 _ _ _ _ Hs Hp').
  - intros [= <- <-]. destruct (pktindex_slot f (rcvpkts r) 0 _ eq_refl Hn) as (p & Hp & ? & ? & ?); [lia|]. rewrite Z.sub_0_r in Hp. by apply (Hbusy _ p).
Qed.

Lemma remove_pkt_inv ind r r' : remove_pkt ind r = Some r' -> 0 <= ind < zlen (rcvpkts r) /\ r' = set_rcvpkts (<[Z.to_nat ind := None]> (rcvpkts r)) r.
Proof. unfold remove_pkt. destruct (zget _ _) as [[p|]|] eqn:E; try done. cbn [mbind option_bind]. intros H. step H as s from Es. injection H as <-. by apply zset_inv in Es as [? ->]. Qed.
Lemma remove_slot ind r r' : remove_pkt ind r = Some r' -> slot_at ind r' = None.
Proof. intros [Hi ->]%remove_pkt_inv. apply slot_at_lookup; [lia|]. cbn. apply list_lookup_insert_eq. unfold zlen in Hi. lia. Qed.

(** Between frames, and while one is handled. *)
Definition at_ok (x : rstate * option job) : Prop := match x.2 with Some j => busy_ok (j_frame j) (j_slot j) (j_stage j) x.1 | None => received_ok x.1 /\ table_ok x.1 end.
Lemma rstep_ok x y : rstep x y -> at_ok x -> at_ok y.
Proof.
  intros [m f k k' r r' Hg H|m f o r r' Hd Hacc Hg Hs H|m f ind st st' r r' H|ind p j r r' Hp _ H]; unfold at_ok; cbn [fst snd].
  - intros [Hok Ht]. apply assemble_cases in H as [|(? & ? & [= <- <-] & [-> |[-> |[(? & ? & ? & ->)|[[q ->]|[Hd H]]]]])]; [done|done|auto using table_ok_init|auto using received_ok_ack, table_ok_ack|done|].
    destruct (Hg Hd) as [Hgen Hs]. split; [by eapply packet_type_data_ok; eauto|]. destruct (packet_type_data_defined m f r Ht Hs) as (r2 & H2 & Ht2). rewrite H in H2. by injection H2 as ->.
  - intros [Hok Ht]. pose proof (look_ok m f r o r' Hg Hs Hok Ht H) as Hx. by destruct o.
  - intros Hb. pose proof (run_stage_ok m f ind st r r' st' Hb H) as Hx. by destruct st'.
  - apply remove_pkt_inv in H as [Hi ->]. destruct j as [[m f i st]|]; cbn [j_frame j_slot j_stage].
    + intros [Hf Hr Hs Ho Hq Hb Ht]. split; try done; cbn [rcvpkts set_rcvpkts].
      * unfold zlen in *. by rewrite length_insert.
      * intros p' Hp'. apply slot_at_inv in Hp' as [_ Hp']. cbn in Hp'. destruct (decide (Z.to_nat ind = Z.to_nat i)) as [E|E].
        -- rewrite <- E, list_lookup_insert_eq in Hp' by (unfold zlen in Hi; lia). done.
        -- rewrite list_lookup_insert_ne in Hp' by done. apply Hs. apply slot_at_lookup; [lia|done].
      * intros j p' Hp' Hne. destruct (decide (j = Z.to_nat ind)) as [->|E]; [rewrite list_lookup_insert_eq in Hp' by (unfold zlen in Hi; lia); done|].
        rewrite list_lookup_insert_ne in Hp' by done. by apply (Ho j).
    + intros [Hok Ht]. split; [|done]. apply received_ok_slots; [done|]. apply Forall_insert; [apply Hok|done].
Qed.

Lemma initial_ok q now host hosts : received_ok (initial q now host hosts) /\ table_ok (initial q now host hosts).
Proof. split; [|done]. split; [|done]. by apply Forall_replicate. Qed.

Lemma reachable_ok q now host hosts x : rtc rstep (initial q now host hosts, None) x -> at_ok x.
Proof.
  intros H. cut (at_ok (initial q now host hosts, None)); [|apply initial_ok]. induction H as [|x y z Hs _ IH]; [done|]. intros Hx. by apply IH, (rstep_ok x y).
Qed.

(** With the packet still in its slot the next use succeeds. *)
Lemma run_stage_defined m f ind st r p : table_ok r -> source_ok f -> slot_at ind r = Some p -> exists y, run_stage m f ind st r = Some y.
Proof.
  intros Ht Hs Hp. destruct st; cbn [run_stage]; rewrite ?(upd_slot_run _ _ _ _ Hp), ?Hp; cbn [mbind option_bind]; eauto.
  - destruct (remember_ok (m_node m) _ (pkt_id f) _ Ht Hs) as (n & h & -> & Eh & _). cbn [mbind option_bind]. rewrite Eh. cbn [mbind option_bind]. eauto.
  - destruct (deliver_defined m ind r) as (res & r' & -> & _); [apply slot_at_inv in Hp; apply Hp|]. cbn [mbind option_bind]. eauto.
Qed.

(** C25: Frames arrive in any order, repeated or not at all, and timers throw away packets that
    are not complete at any moment: between frames, and between any two steps of the
    handling of a frame, also the packet that the frame belongs to.  If
    every data frame that passes the checksum was cut from the packet it names, and its
    source has an index in the table (the index of the threads of a parallel process is
    negative), then each packet queued at a socket or given to the threads of a process is
    byte for byte what its source sent under that number.  Between frames the assembler has
    an answer for every frame of such a source; and a frame that is being handled goes on
    as long as its packet is in its slot: the only thing that goes wrong is a timer that
    expires in the middle of its own packet, after which the code goes on with a null
    pointer and nothing more is claimed. *)
Theorem received_packets_genuine q now host hosts r j :
  rtc rstep (initial q now host hosts, None) (r, j) ->
  Forall whole (queued r) /\ Forall (fun b => b.2 = msg (rp_src b.1) (rp_id b.1)) (broadcasts r) /\
  match j with
  | None => forall m f k, source_ok f -> exists h, assemble m f k r = Some h
  | Some j => slot_at (j_slot j) r <> None -> exists y, run_stage (j_luck j) (j_frame j) (j_slot j) (j_stage j) r = Some y
  end.
Proof.
  intros H%reachable_ok. unfold at_ok in H. cbn [fst snd] in H. destruct j as [j|].
  - destruct H as [[_ Hs] _ _ _ Hq Hb Ht]. split; [done|]. split; [eapply Forall_impl; [exact Hb|]; by intros b []|].
    destruct (slot_at (j_slot j) r) as [p|] eqn:Hp; [|done]. intros _. by apply (run_stage_defined _ _ _ _ _ p).
  - destruct H as [(_ & Hq & Hb) Ht]. split; [done|]. split; [eapply Forall_impl; [exact Hb|]; by intros b []|].
    intros m f k Hs. unfold assemble. destruct (packet_type_data_defined m f r Ht Hs) as (r' & -> & _). destruct (on_ack f k r). cbn [mbind option_bind]. repeat case_match; eauto.
Qed.

(** The comment in the code says that a timer causes no race; but when it empties the slot of
    the frame that is being handled, the next use goes through a null pointer. *)
Theorem timer_race_null m f ind st r r' : remove_pkt ind r = Some r' -> st <> Stopped -> st <> Remembered -> run_stage m f ind st r' = None.
Proof. intros H%remove_slot H1 H2. destruct st; cbn [run_stage]; unfold upd_slot; rewrite ?H; done. Qed.
End genuine.
End hw.

(** * A packet over a network that loses nothing *)

(** A frame of a packet: [n] bytes at [k]. *)
Definition piece (p : spkt) (k n : Z) (f : frame) : Prop :=
  pkt_type f = sp_type p /\ pkt_dest f = sp_dest p /\ pkt_src f = sp_src p /\ pkt_offset f = k /\ pkt_length f = sp_length p /\ pkt_id f = sp_id p /\
  pkt_frame_length f = n /\ fr_data f = take (Z.to_nat n) (drop (Z.to_nat k) (sp_data p)) /\ accepted f = true.
(** Frames one after the other, from byte [k] to byte [k']. *)
Inductive pieces (p : spkt) : Z -> list frame -> Z -> Prop :=
  | pieces_nil k : pieces p k [] k
  | pieces_cons k n f fs k' : 0 < n -> n = Z.min MAX_PROTOCOL_FRSIZE (sp_length p - k) -> piece p k n f -> pieces p (k + n) fs k' -> pieces p k (f :: fs) k'.
(** Frames as the transmitter cuts them: all full but the last. *)
Fixpoint cut_ok (fs : list frame) : Prop :=
  match fs with
  | [] => True
  | f :: fs => (match fs with [] => 0 < zlen (fr_data f) <= MAX_PROTOCOL_FRSIZE | _ => zlen (fr_data f) = MAX_PROTOCOL_FRSIZE end) /\ cut_ok fs
  end.
(** The header and the data of a packet, which no step of the sender changes. *)
Definition same_packet (p p' : spkt) : Prop :=
  sp_type p' = sp_type p /\ sp_dest p' = sp_dest p /\ sp_src p' = sp_src p /\ sp_length p' = sp_length p /\ sp_id p' = sp_id p /\ sp_data p' = sp_data p.
Definition packet_ok (p : spkt) : Prop :=
  sp_length p = zlen (sp_data p) /\ sp_length p < 2 ^ 31 /\ Forall is_byte (sp_data p).

(** Frames that arrive in order at a host. *)
Fixpoint frames_arrive (hwaddr : Z -> list Z) (host : Z) (m : luck) (k : option psk) (fs : list frame) (r : rstate) : option (option psk * rstate) :=
  match fs with
  | [] => Some (k, r)
  | f :: fs =>
      h ← assemble hwaddr host m f k r;
      match h with Handled k r => frames_arrive hwaddr host m k fs r | Blocked => None end
  end.

(** The memory of a packet that was sent does not ask for another window. *)
Definition settled (reuse : option (Z * Z)) : Prop := match reuse with Some (cur, len) => len <= cur | None => True end.

(** Window after window: the frames of host [ha] arrive at [hb], its acknowledgements at
    [ha], and the transmitter goes on where it was woken. *)
Fixpoint exchange (hwaddr : Z -> list Z) (ha hb : Z) (m : luck) (peer : isockaddr) (reuse : option (Z * Z)) (fuel : nat) (s : sent) (kb : option psk) (ra rb : rstate) : option (spkt * rstate) :=
  match s with
  | Ended p => Some (p, rb)
  | Waiting s out =>
      match fuel with
      | O => None
      | S fuel =>
          '(kb, rb) ← frames_arrive hwaddr hb m kb out rb;
          '(ka, ra) ← frames_arrive hwaddr ha m (Some (mk_psk peer (Some (sp s)) false false false)) (tx_q rb) ra;
          ka ← ka; p ← psk_sndpkt ka;
          if window_woken ka then
            s ← after_sleep hwaddr ha false reuse (mk_snd p (win s) (l s));
            exchange hwaddr ha hb m peer reuse fuel s kb ra (set_txq [] rb)
          else None
      end
  end.

Section network.
Variable hwaddr : Z -> list Z.
Hypothesis hwaddr_ok : forall h, length (hwaddr h) = 6%nat /\ Forall is_byte (hwaddr h).

Lemma make_frame_piece h p k n :
  packet_ok p -> 0 <= k -> 0 < n <= MAX_PROTOCOL_FRSIZE -> k + n <= sp_length p -> piece p k n (make_frame hwaddr h p k n).
Proof.
  intros (Hl & H31 & Hb) Hk Hn Hkn. unfold piece, make_frame. cbn [pkt_type pkt_dest pkt_src pkt_offset pkt_length pkt_id pkt_frame_length fr_data seal with_checksum].
  split_and!; try done; [unfold MAX_PROTOCOL_FRSIZE in *; unfold u16; rewrite Z.mod_small; lia|]. apply accepted_seal; [|done]. unfold wf_frame.
  cbn [ethfrhdr_hwaddr_dest ethfrhdr_hwaddr_src fr_data]. destruct (hwaddr_ok h) as [? ?], (hwaddr_ok (saddr_host (sp_dest p))) as [? ?]. split_and!; try done.
  - by destruct (negb _).
  - destruct (negb _); [done|]. by repeat constructor.
  - by apply Forall_take, Forall_drop.
Qed.
Lemma piece_same p p' k n f : same_packet p p' -> piece p' k n f -> piece p k n f.
Proof. intros (Ht & Hd & Hs & Hl & Hi & Hda). unfold piece. by rewrite Ht, Hd, Hs, Hl, Hi, Hda. Qed.

Lemma pieces_same p p' k fs k' : same_packet p p' -> pieces p' k fs k' -> pieces p k fs k'.
Proof.
  intros Hs. pose proof Hs as (_ & _ & _ & Hl & _). induction 1; [constructor|]. apply (pieces_cons p k n); [done|by rewrite <- Hl|by apply (piece_same p p')|done].
Qed.

Lemma build_window_pieces h fuel p win :
  packet_ok p -> 0 <= pkt_cur_pos p <= sp_length p -> pkt_window_size p = zlen win -> zlen win <= MAXWINDOWSIZE -> MAXWINDOWSIZE - zlen win <= Z.of_nat fuel ->
  exists p' fs, build_window hwaddr h fuel p win = Some (p', win ++ fs) /\
    p' = set_window (pkt_wincur_pos p) (pkt_cur_pos p') (zlen (win ++ fs)) (pkt_start_frame p) p /\
    pieces p (pkt_cur_pos p) fs (pkt_cur_pos p') /\ pkt_cur_pos p' <= sp_length p /\ (pkt_cur_pos p' < sp_length p -> zlen (win ++ fs) = MAXWINDOWSIZE) /\ zlen (win ++ fs) <= MAXWINDOWSIZE.
Proof.
  revert p win. induction fuel as [|fuel IH]; intros p win Hp Hc Hw H8 Hf; cbn [build_window].
  - assert (zlen win = MAXWINDOWSIZE) as Hwin by lia. rewrite Hw, Hwin, Z.ltb_irrefl, andb_false_r. cbn [negb].
    exists p, []. rewrite app_nil_r. split; [done|]. split; [rewrite <- Hw; by destruct p|]. split; [constructor|]. split; [lia|]. by split.
  - destruct (negb _) eqn:E.
    + exists p, []. rewrite app_nil_r. split; [done|]. split; [rewrite <- Hw; by destruct p|]. split; [constructor|]. split; [lia|]. split; [|done]. intros Hlt.
      apply negb_true_iff, andb_false_iff in E. rewrite !Z.ltb_ge in E. lia.
    + apply negb_false_iff, andb_true_iff in E as [E1%Z.ltb_lt E2%Z.ltb_lt].
      set (n := if _ <? _ then _ else _).
      assert (0 < n <= MAX_PROTOCOL_FRSIZE /\ n = Z.min MAX_PROTOCOL_FRSIZE (sp_length p - pkt_cur_pos p)) as [Hn Hmin].
      { unfold n. assert (u32 (sp_length p - pkt_cur_pos p) = sp_length p - pkt_cur_pos p) as -> by (destruct Hp; u32_lia).
        unfold MAX_PROTOCOL_FRSIZE. case_ztest; lia. }
      assert (u32 (pkt_cur_pos p + n) = pkt_cur_pos p + n) as -> by (destruct Hp; u32_lia).
      assert (u16 (pkt_window_size p + 1) = zlen (win ++ [make_frame hwaddr h p (pkt_cur_pos p) n])) as ->.
      { unfold zlen in *. rewrite length_app. cbn [length]. unfold u16, MAXWINDOWSIZE in *. rewrite Z.mod_small; lia. }
      set (f := make_frame _ _ _ _ _). set (p1 := set_window _ _ _ _ _).
      destruct (IH p1 (win ++ [f])) as (p' & fs & -> & Hp' & Hps & Hl & Hm); try done; [cbn; lia|unfold zlen in *; rewrite length_app; cbn [length]; lia..|].
      exists p', (f :: fs). rewrite <- app_assoc in *. cbn [app] in *. split; [done|]. split; [done|]. split; [|done].
      apply (pieces_cons p _ n); [lia|done|apply make_frame_piece; [done|lia..]|]. apply (pieces_same p p1); [|exact Hps]. by unfold same_packet.
Qed.

Lemma new_window_pieces h p :
  packet_ok p -> 0 <= pkt_cur_pos p < sp_length p ->
  exists p' fs, new_window hwaddr h p = Some (p', fs) /\ p' = set_window (pkt_cur_pos p) (pkt_cur_pos p') (zlen fs) 0 p /\
    pieces p (pkt_cur_pos p) fs (pkt_cur_pos p') /\ pkt_cur_pos p' <= sp_length p /\ (pkt_cur_pos p' < sp_length p -> zlen fs = MAXWINDOWSIZE) /\ zlen fs <= MAXWINDOWSIZE.
Proof.
  intros Hp Hc. unfold new_window. destruct (build_window_pieces h 8 (set_window (pkt_cur_pos p) (pkt_cur_pos p) 0 (pkt_start_frame p) p) []) as (p' & fs & -> & Hp' & Hps & Hl & Hm);
    [done|cbn; lia|done..|]. cbn [app] in *. cbn [mbind option_bind]. eexists _, fs. split; [done|]. cbn [set_window pkt_cur_pos pkt_wincur_pos sp_length] in *.
  rewrite Hp'. cbn. split; [done|]. split; [|done]. apply (pieces_same p (set_window (pkt_cur_pos p) (pkt_cur_pos p) 0 (pkt_start_frame p) p)); [|exact Hps]. by unfold same_packet.
Qed.

(** ** The receiver *)

Lemma pktindex_insert ef q s j n :
  pktindex j ef s = -1 -> 0 <= j -> (n < length s)%nat -> rp_id q = pkt_id ef -> rp_src q = pkt_src ef -> pktindex j ef (<[n := Some q]> s) = j + Z.of_nat n.
Proof.
  intros H Hj Hn Hid Hs. revert j n H Hj Hn. induction s as [|o s IH]; intros j n H Hj Hn; cbn [length] in Hn; [lia|].
  destruct n as [|n]; cbn [insert list_insert pktindex].
  - rewrite Hid, Hs, Z.eqb_refl, bool_decide_true by done. cbn. lia.
  - assert (pktindex (j + 1) ef s = -1) as H' by (cbn [pktindex] in H; destruct o; [destruct (_ && _); [lia|done]|done]).
    replace (j + Z.of_nat (S n)) with (j + 1 + Z.of_nat n) by lia. rewrite <- (IH (j + 1) n) by (try done; lia).
    destruct o as [p|]; [|done]. cbn [pktindex] in H. destruct (_ && _); [lia|done].
Qed.

Definition full_frame (f : frame) : Prop := zlen (fr_data f) = MAX_PROTOCOL_FRSIZE.
Lemma cut_ok_snoc fs f : Forall full_frame fs -> 0 < zlen (fr_data f) <= MAX_PROTOCOL_FRSIZE -> cut_ok (fs ++ [f]).
Proof. intros Hfs Hf. induction Hfs as [|g fs Hg _ IH]; [done|]. split; [|exact IH]. by destruct fs. Qed.
Lemma piece_len p k n f : packet_ok p -> piece p k n f -> 0 <= k -> 0 < n -> k + n <= sp_length p -> zlen (fr_data f) = n.
Proof. intros (Hl & _) (_ & _ & _ & _ & _ & _ & _ & Hd & _) Hk Hn Hkn. rewrite Hd. unfold zlen in *. rewrite length_take, length_drop. lia. Qed.
(** The packet in slot [i] of the slots [s0], which had none for it: [k] bytes, [e] frames of the window. *)
Definition holds (p : spkt) (k e : Z) (q : rpkt) : Prop :=
  rp_src q = sp_src p /\ rp_id q = sp_id p /\ rp_dest q = sp_dest p /\ pkt_rcvddata q = k /\ pkt_expc_seqno q = e /\
  frames_data (rp_frames q) = take (Z.to_nat k) (sp_data p) /\ rp_length q = sp_length p /\ (if k <? sp_length p then Forall full_frame (rp_frames q) else cut_ok (rp_frames q)).
Lemma holds_next p k n e e' q f :
  packet_ok p -> holds p k e q -> piece p k n f -> 0 <= k -> 0 < n -> n = Z.min MAX_PROTOCOL_FRSIZE (sp_length p - k) ->
  holds p (k + n) e' (mk_rp (rp_type q) (rp_dest q) (rp_src q) (rp_length q) (rp_id q) (rp_tag q) (rp_groupid q) (rp_frames q ++ [f]) e' (k + n) true).
Proof.
  intros Hp (Hs & Hid & Hd & Hk & He & Hda & Hl & Hc) Hf Hk0 Hn Hmin. pose proof (piece_len p k n f Hp Hf Hk0 Hn ltac:(lia)) as Hlen.
  destruct Hf as (_ & _ & _ & _ & _ & _ & _ & Hfda & _). unfold holds. split_and!; try done; cbn [rp_frames].
  - rewrite frames_data_snoc, Hda, Hfda, Z2Nat.inj_add by lia. by rewrite take_take_drop.
  - destruct (Z.ltb_spec k (sp_length p)); [|lia]. destruct (Z.ltb_spec (k + n) (sp_length p)).
    + apply Forall_app_2; [done|]. constructor; [|constructor]. unfold full_frame. lia.
    + apply cut_ok_snoc; [done|]. lia.
Qed.
(** The acknowledgement of the first [k] bytes. *)
Definition acks (p : spkt) (k : Z) (a : frame) : Prop :=
  pkt_type a = PKTTYPE_ACK /\ pkt_id a = sp_id p /\ pkt_offset a = k /\ pkt_dest a = sp_src p /\ accepted a = true.

Lemma make_ack_acks h p k n f w o pad :
  piece p k n f -> Forall is_byte pad -> 0 <= o < 2 ^ 32 -> acks p o (make_ack hwaddr h PKTTYPE_ACK f w o pad).
Proof.
  intros (_ & Hd & Hs & _ & _ & Hi & _) Hpad Ho. unfold make_ack, acks.
  destruct (hwaddr_ok h) as [? ?], (hwaddr_ok (saddr_host (pkt_src f))) as [? ?].
  rewrite seal_ack_seal by done. cbn [pkt_type pkt_id pkt_offset pkt_dest seal with_checksum]. split_and!; try done; [by unfold u32; rewrite Z.mod_small|].
  by apply accepted_seal.
Qed.

Section receiver.
Context (hb : Z) (m : luck) (p : spkt) (i : nat) (s0 : list (option rpkt)).
Hypothesis Hp : packet_ok p.
Hypothesis Hdest : saddr_host (sp_dest p) <> -1.
Hypothesis Hsock : sock m = true.
Hypothesis Hsource : 0 <= hash_index (saddr_host (sp_src p)) (saddr_port (sp_src p)).
Hypothesis Hfree : s0 !! i = Some None.
Context (pad : list Z).
Hypothesis Hpad : m_ack m = Some pad /\ Forall is_byte pad.

(** A frame that is not the last, in a window that is not at its end. *)
Lemma middle_frame r q k n e f :
  rcvpkts r = <[i := Some q]> s0 -> holds p k e q -> piece p k n f -> 0 <= k -> 0 < n -> n = Z.min MAX_PROTOCOL_FRSIZE (sp_length p - k) -> k + n < sp_length p -> 0 <= e < 7 ->
  exists q', integrate hwaddr hb m f (Z.of_nat i) r = Some (set_rcvpkts (<[i := Some q']> s0) r) /\ holds p (k + n) (e + 1) q'.
Proof.
  intros Hr Hh Hf Hk0 Hn Hmin Hkn He7. pose proof Hh as (Hs & Hid & Hd & Hk & He & Hda). pose proof Hf as (_ & Hfd & Hfs & Hfo & Hfl & Hfi & Hfn & Hfda & _).
  pose proof (lookup_lt_Some _ _ _ Hfree) as Hi. pose proof Hp as (_ & H31 & _).
  unfold integrate, zget. destruct (Z.ltb_spec (Z.of_nat i) 0); [lia|]. rewrite Nat2Z.id, Hr, list_lookup_insert_eq by done. cbn [mbind option_bind].
  rewrite Hk, Hfo, Z.eqb_refl, zset_Some by (unfold zlen; rewrite length_insert; lia). cbn [mbind option_bind pkt_rcvddata pkt_expc_seqno].
  rewrite Nat2Z.id, list_insert_insert_eq, Hfl, Hfn, He. assert (u32 (k + n) = k + n) as -> by u32_lia.
  destruct (Z.eqb_spec (sp_length p) (k + n)); [lia|]. assert (cmod (e + 1) MAXWINDOWSIZE = e + 1) as -> by (unfold cmod, MAXWINDOWSIZE; apply Z.rem_small; lia).
  destruct (Z.eqb_spec (e + 1) 0); [lia|]. cbn [orb andb]. eexists. split; [done|]. by apply (holds_next p k n e).
Qed.

(** The last frame of a window or of the packet. *)
Lemma last_frame r q k n e f :
  rcvpkts r = <[i := Some q]> s0 -> holds p k e q -> piece p k n f -> 0 <= k -> 0 < n -> n = Z.min MAX_PROTOCOL_FRSIZE (sp_length p - k) -> 0 <= e < 8 -> table_ok r -> tx_q r = [] ->
  (k + n < sp_length p -> e = 7) ->
  exists q' a r', integrate hwaddr hb m f (Z.of_nat i) r = Some r' /\ holds p (k + n) (cmod (e + 1) MAXWINDOWSIZE) q' /\ acks p (k + n) a /\ tx_q r' = [a] /\ table_ok r' /\
    (if k + n =? sp_length p then rcvpkts r' = s0 /\ queued r' = queued r ++ [q'] else rcvpkts r' = <[i := Some q']> s0 /\ queued r' = queued r).
Proof.
  intros Hr Hh Hf Hk0 Hn Hmin He8 Ht Hq Hlast. pose proof Hh as (Hs & Hid & Hd & Hk & He & Hda). destruct Hpad as [Hm Hbytes].
  pose proof Hf as (_ & Hfd & Hfs & Hfo & Hfl & Hfi & Hfn & Hfda & _).
  pose proof (lookup_lt_Some _ _ _ Hfree) as Hi. pose proof Hp as (_ & H31 & _).
  unfold integrate, zget. destruct (Z.ltb_spec (Z.of_nat i) 0); [lia|]. rewrite Nat2Z.id, Hr, list_lookup_insert_eq by done. cbn [mbind option_bind].
  rewrite Hk, Hfo, Z.eqb_refl, zset_Some by (unfold zlen; rewrite length_insert; lia). cbn [mbind option_bind pkt_rcvddata pkt_expc_seqno].
  rewrite Nat2Z.id, list_insert_insert_eq, Hfl, Hfn, He, Hfs, Hfi, Hfd. assert (u32 (k + n) = k + n) as -> by u32_lia.
  set (q' := mk_rp _ _ _ _ _ _ _ _ _ _ _). set (r1 := set_rcvpkts _ r).
  assert (holds p (k + n) (cmod (e + 1) MAXWINDOWSIZE) q') as Hq'.
  { by apply (holds_next p k n e). }
  replace (answers (rp_dest q') (rp_src q') r1) with true by (cbn; unfold answers; rewrite Hd; by destruct (Z.eqb_spec (saddr_host (sp_dest p)) (-1))).
  rewrite andb_true_r. set (c := cmod (e + 1) MAXWINDOWSIZE).
  assert ((sp_length p =? k + n) || (c =? 0) = true) as ->.
  { destruct (Z.eqb_spec (sp_length p) (k + n)); [done|]. unfold c. by rewrite Hlast by lia. }
  set (a := make_ack hwaddr hb PKTTYPE_ACK f c (k + n) pad).
  assert (send_ack hwaddr hb (m_ack m) PKTTYPE_ACK f c (k + n) r1 = set_txq [a] r1) as -> by (unfold send_ack; cbn; by rewrite Hq, Hm).
  assert (acks p (k + n) a) as Ha by (apply (make_ack_acks _ _ k n); try done; lia).
  rewrite (Z.eqb_sym (k + n)). destruct (Z.eqb_spec (sp_length p) (k + n)) as [Hc|Hc].
  2:{ exists q', a, (set_txq [a] r1). done. }
  set (r2 := set_txq [a] r1). assert (table_ok r2) as Ht2 by done.
  destruct (remember_ok (m_node m) (sp_src p) (sp_id p) r2 Ht2 Hsource) as (nd & h & -> & Hset & Hhash). cbn [mbind option_bind]. rewrite Hset. cbn [mbind option_bind].
  unfold deliver_packet, zget. destruct (Z.ltb_spec (Z.of_nat i) 0); [lia|]. rewrite Nat2Z.id.
  change (rcvpkts (set_hash h r2)) with (<[i := Some q']> s0). rewrite list_lookup_insert_eq, zset_Some by (try done; unfold zlen; rewrite length_insert; lia). cbn [mbind option_bind].
  rewrite Nat2Z.id, list_insert_insert_eq, (list_insert_id s0 i None) by done. change (rp_dest q') with (rp_dest q). rewrite Hd, Hsock.
  destruct (Z.eqb_spec (saddr_host (sp_dest p)) (-1)); [done|]. cbn [andb mbind option_bind negb Z.eqb].
  exists q', a. eexists. split_and!; try done.
Qed.

Hypothesis Hmem : m_pkt m = true.
Hypothesis Htype : sp_type p = PKTTYPE_DATA.
Hypothesis Hslot : first_free 0 s0 = Some (Z.of_nat i).
Hypothesis Hnone : forall f, pkt_id f = sp_id p -> pkt_src f = sp_src p -> pktindex 0 f s0 = -1.
Context (kb : psk).
Hypothesis Hidle : psk_sndpkt kb = None.

(** The receiver has not seen the packet, nor a later one of its source. *)
Definition unseen (r : rstate) : Prop :=
  exists n, locate_hash_node (sp_src p) r = Some n /\ u32 (match n with Some n => next_seqno n | None => 0 end) < sp_id p.
Definition ready (k e : Z) (r : rstate) : Prop :=
  (k = 0 /\ e = 0 /\ rcvpkts r = s0 /\ unseen r) \/ (exists q, rcvpkts r = <[i := Some q]> s0 /\ holds p k e q).

Lemma to_integrate r k e k2 n f :
  ready k e r -> piece p k2 n f ->
  exists q s, rcvpkts (set_rcvpkts s r) = <[i := Some q]> s0 /\ holds p k e q /\
    assemble hwaddr hb m f (Some kb) r = (r ← integrate hwaddr hb m f (Z.of_nat i) (set_rcvpkts s r); Some (Handled (Some kb) r)).
Proof.
  intros Hr (Hft & Hfd & Hfs & Hfo & Hfl & Hfi & Hfn & Hfda & Hacc). pose proof (lookup_lt_Some _ _ _ Hfree) as Hi.
  unfold assemble. rewrite Hacc, Hft, Htype, Hidle. cbn [negb Z.eqb orb Pos.eqb]. unfold packet_type_data.
  destruct Hr as [(-> & -> & Hs & nd & Hnd & Hseq)|(q & Hs & Hq)].
  - rewrite Hs, (Hnone f Hfi Hfs). cbn [Z.eqb Pos.eqb]. rewrite Hfs, Hnd. cbn [mbind option_bind]. rewrite Hfi. destruct (Z.leb_spec (sp_id p) (u32 (match nd with Some n => next_seqno n | None => 0 end))); [lia|].
    unfold alloc_pktindex. rewrite Hs, Hslot, Hmem. cbn [negb]. rewrite zset_Some by (unfold zlen; lia). cbn [mbind option_bind].
    destruct (Z.ltb_spec (Z.of_nat i) 0); [lia|]. rewrite Nat2Z.id. do 2 eexists. split; [done|]. split; [|done]. unfold holds. split_and!; try done. cbn [rp_frames]. by destruct (0 <? sp_length p).
  - rewrite Hs. assert (Hq' := Hq). destruct Hq' as (Hqs & Hqi & _).
    rewrite (pktindex_insert f q s0 0 i) by (try congruence; try lia; by apply Hnone). rewrite Z.add_0_l.
    destruct (Z.eqb_spec (Z.of_nat i) (-1)); [lia|]. exists q, (rcvpkts r). split; [done|]. split; [done|]. by destruct r.
Qed.

Lemma pieces_nil_inv k k' : pieces p k [] k' -> k' = k.
Proof. by inversion 1. Qed.
Lemma pieces_le k fs k' : pieces p k fs k' -> k <= k' /\ (fs <> [] -> k < k' <= sp_length p).
Proof. induction 1 as [|k n f fs k' Hn Hl _ Hps [IH1 IH2]]; [done|]. split; [lia|]. intros _. destruct fs; [inversion Hps; subst; lia|]. destruct IH2; [done|lia]. Qed.

(** A window of frames arrives: one acknowledgement is queued, and the packet goes on or is delivered. *)
Lemma window_arrives fs k k' e r :
  pieces p k fs k' -> fs <> [] -> ready k e r -> tx_q r = [] -> table_ok r -> 0 <= k -> 0 <= e -> e + zlen fs <= 8 -> (k' < sp_length p -> e + zlen fs = 8) ->
  exists q' a r' e', frames_arrive hwaddr hb m (Some kb) fs r = Some (Some kb, r') /\ acks p k' a /\ tx_q r' = [a] /\ table_ok r' /\ holds p k' e' q' /\
    (if k' =? sp_length p then rcvpkts r' = s0 /\ queued r' = queued r ++ [q'] else rcvpkts r' = <[i := Some q']> s0 /\ queued r' = queued r /\ e' = 0).
Proof.
  intros Hps. revert e r. induction Hps as [|k n f fs k' Hn Hl Hf Hps IH]; intros e r Hne Hr Hq Ht Hk He H8 Hlast; [done|].
  destruct (to_integrate r k e k n f Hr Hf) as (q & s & Hs & Hh & Hasm). cbn [frames_arrive]. rewrite Hasm.
  destruct fs as [|f2 fs].
  - apply pieces_nil_inv in Hps. subst k'. unfold zlen in H8, Hlast. cbn [length] in *.
    destruct (last_frame (set_rcvpkts s r) q k n e f) as (q' & a & r' & -> & Hh' & Ha & Hq' & Ht' & Hd); try done; try lia.
    cbn [mbind option_bind]. exists q', a, r', (cmod (e + 1) MAXWINDOWSIZE). split_and!; try done.
    destruct (Z.eqb_spec (k + n) (sp_length p)); [done|]. destruct Hd as [Hd1 Hd2]. split_and!; try done. by replace e with 7 by lia.
  - assert (k + n < k' <= sp_length p) as Hlt by (by apply (pieces_le _ (f2 :: fs))). unfold zlen in H8, Hlast. cbn [length] in *.
    destruct (middle_frame (set_rcvpkts s r) q k n e f) as (q' & -> & Hh'); try done; try lia. cbn [mbind option_bind].
    apply (IH (e + 1) (set_rcvpkts (<[i := Some q']> s0) (set_rcvpkts s r))); try done; try lia; unfold zlen; cbn [length]; try lia. right. by exists q'.
Qed.

(** ** The sender *)

Context (ha : Z) (peer : isockaddr) (reuse : option (Z * Z)) (Hset : settled reuse).

Lemma done_ended p1 w : pkt_cur_pos p1 = sp_length p1 -> window_done hwaddr ha reuse (mk_snd p1 w 0) = Some (Ended p1).
Proof.
  intros E. unfold window_done. change (2 <=? l (mk_snd p1 w 0)) with false. cbv iota. change (sp (mk_snd p1 w 0)) with p1. rewrite E, Z.eqb_refl. cbn [orb].
  unfold settled in Hset. destruct reuse as [[c n]|]; cbn; [by destruct (Z.ltb_spec c n); [lia|]|by rewrite Z.ltb_irrefl].
Qed.

(** The acknowledgement of a whole window wakes the transmitter. *)
Lemma ack_arrives p2 a ra :
  same_packet p p2 -> acks p (pkt_cur_pos p2) a -> 0 < pkt_cur_pos p2 <= sp_length p -> pkt_ackdata p2 <= pkt_cur_pos p2 ->
  exists ra', frames_arrive hwaddr ha m (Some (mk_psk peer (Some p2) false false false)) [a] ra =
    Some (Some (mk_psk peer (Some (set_ack (pkt_cur_pos p2) (if pkt_cur_pos p2 =? sp_length p then PKTSTATUS_TXCOMPLETE else PKTSTATUS_CONTINUENEXTWINDOW)
                                      (pkt_retries p2) (pkt_swinstatus p2) (pkt_wincur_pos p2) (pkt_cur_pos p2) p2)) false true false), ra').
Proof.
  intros (_ & _ & _ & Hl & Hi & _) (Hat & Hai & Hao & _ & Hacc) Hk Hack. cbn [frames_arrive]. unfold assemble. rewrite Hacc, Hat.
  cbn [negb Z.eqb Pos.eqb PKTTYPE_ACK PKTTYPE_PKTSEQNOINIT PKTTYPE_ERROR psk_sndpkt pkt_lock on_ack].
  unfold process_ack. rewrite Hi, Hai, Z.eqb_refl, Hao. cbn [negb]. destruct (Z.ltb_spec (pkt_cur_pos p2) (pkt_ackdata p2)); [lia|]. cbn [andb].
  destruct (remove_frames_fromtxq _ _ _ _ _ _) as [c q2]. destruct (Z.eqb_spec (pkt_cur_pos p2) 0); [lia|].
  cbn [set_ack pkt_wincur_pos pkt_cur_pos sp_length]. rewrite Z.ltb_irrefl, andb_false_r, Z.eqb_refl, Hl. cbn [mbind option_bind frames_arrive]. by eexists.
Qed.

Lemma windows_exchanged fuel p1 ra rb :
  same_packet p p1 -> 0 <= pkt_cur_pos p1 < sp_length p -> pkt_ackdata p1 <= pkt_cur_pos p1 -> ready (pkt_cur_pos p1) 0 rb -> tx_q rb = [] -> table_ok rb ->
  sp_length p - pkt_cur_pos p1 <= Z.of_nat fuel ->
  exists s p' q rb', start_window hwaddr ha p1 = Some s /\ exchange hwaddr ha hb m peer reuse fuel s (Some kb) ra rb = Some (p', rb') /\
    pkt_status p' = PKTSTATUS_TXCOMPLETE /\ pkt_swinstatus p' = pkt_swinstatus p1 /\ queued rb' = queued rb ++ [q] /\ rcvpkts rb' = s0 /\
    rp_src q = sp_src p /\ rp_dest q = sp_dest p /\ rp_id q = sp_id p /\ rp_length q = sp_length p /\ frames_data (rp_frames q) = sp_data p /\ cut_ok (rp_frames q).
Proof.
  revert p1 ra rb. induction fuel as [|fuel IH]; intros p1 ra rb Hsame Hc Hack Hr Hq Ht Hf; [lia|].
  assert (packet_ok p1) as Hp1 by (destruct Hsame as (_ & _ & _ & Hl & _ & Hda); unfold packet_ok; by rewrite Hl, Hda).
  pose proof Hsame as (_ & _ & _ & Hl1 & _).
  unfold start_window. destruct (Z.ltb_spec (pkt_cur_pos p1) (sp_length p1)); [|lia].
  destruct (new_window_pieces ha p1 Hp1) as (p2 & fs & -> & Hp2 & Hps & Hle & Hfull & Hmax); [lia|]. cbn [mbind option_bind]. apply (pieces_same p) in Hps; [|done].
  assert (same_packet p p2 /\ pkt_ackdata p2 = pkt_ackdata p1 /\ pkt_swinstatus p2 = pkt_swinstatus p1) as (Hsame2 & Hack2 & Hsw2) by (by rewrite Hp2).
  assert (fs <> []) as Hne by (intros ->; apply pieces_nil_inv in Hps; rewrite Hps in Hfull; specialize (Hfull ltac:(lia)); discriminate Hfull).
  destruct (pieces_le _ _ _ Hps) as [_ Hlt]. specialize (Hlt Hne). unfold MAXWINDOWSIZE in *. rewrite Hl1 in *.
  destruct (window_arrives fs _ _ 0 rb Hps Hne Hr Hq Ht) as (q & a & rb1 & e & Hfr & Ha & Hq1 & Ht1 & Hh & Hcase); [lia..|].
  exists (Waiting (mk_snd p2 fs 0) fs). destruct (ack_arrives p2 a ra Hsame2 Ha) as (ra1 & Hka); [lia|lia|].
  cbn [exchange]. rewrite Hfr. cbn [mbind option_bind sp win l]. rewrite Hq1, Hka. cbn [mbind option_bind psk_sndpkt window_woken]. unfold after_sleep. cbn [sp win l set_ack pkt_status].
  set (p3 := set_ack _ _ _ _ _ _ _) in *. assert (same_packet p p3) as Hsame3 by done.
  destruct (Z.eqb_spec (pkt_cur_pos p2) (sp_length p)) as [Hend|Hend].
  - assert (window_done hwaddr ha reuse (mk_snd p3 fs 0) = Some (Ended p3)) as Hdone.
    { apply done_ended. change (pkt_cur_pos p3) with (pkt_cur_pos p2). change (sp_length p3) with (sp_length p2). destruct Hsame2 as (_ & _ & _ & -> & _). done. }
    cbn [orb Z.eqb Pos.eqb PKTSTATUS_TXCOMPLETE PKTSTATUS_RESTARTTXMT]. rewrite Hdone. cbn [mbind option_bind]. destruct Hh as (Hhs & Hhi & Hhde & _ & _ & Hhd & Hhl & Hhc), Hcase as [Hc1 Hc2].
    exists p3, q, (set_txq [] rb1). split; [done|]. split; [by destruct fuel|]. split_and!; try done.
    + rewrite Hhd, Hend. destruct Hp as (-> & _). unfold zlen. rewrite Nat2Z.id. apply firstn_all.
    + by rewrite Hend, Z.ltb_irrefl in Hhc.
  - assert (window_done hwaddr ha reuse (mk_snd p3 fs 0) = start_window hwaddr ha p3) as Hdone.
    { unfold window_done. change (2 <=? l (mk_snd p3 fs 0)) with false. cbn iota. change (sp (mk_snd p3 fs 0)) with p3. change (pkt_cur_pos p3) with (pkt_cur_pos p2). change (sp_length p3) with (sp_length p2).
      destruct Hsame2 as (_ & _ & _ & -> & _). by destruct (Z.eqb_spec (pkt_cur_pos p2) (sp_length p)). }
    cbn [orb Z.eqb Pos.eqb PKTSTATUS_CONTINUENEXTWINDOW PKTSTATUS_RESTARTTXMT]. rewrite Hdone. destruct Hcase as (Hc1 & Hc2 & ->).
    destruct (IH p3 ra1 (set_txq [] rb1)) as (s & p' & q' & rb' & -> & Hex & Hst & Hsw & Hrest); try done; [change (pkt_cur_pos p3) with (pkt_cur_pos p2); lia|right; by exists q|change (pkt_cur_pos p3) with (pkt_cur_pos p2); lia|].
    exists p', q', rb'. split; [done|]. cbn [mbind option_bind]. split; [done|]. split; [done|]. split; [by rewrite Hsw|]. change (queued (set_txq [] rb1)) with (queued rb1) in Hrest. rewrite Hc2 in Hrest. done.
Qed.

(** ** A frame that is lost *)

(** A frame that does not follow is not kept; the receiver asks again for what it lacks. *)
Lemma late_frame r q k e f k2 n :
  rcvpkts r = <[i := Some q]> s0 -> holds p k e q -> piece p k2 n f -> k2 <> k ->
  assemble hwaddr hb m f (Some kb) r = Some (Handled (Some kb) (send_ack hwaddr hb (m_ack m) PKTTYPE_ACK f e k r)).
Proof.
  intros Hr (Hs & Hid & Hd & Hk & He & Hda) (Hft & _ & Hfs & Hfo & _ & Hfi & _ & _ & Hacc) Hne. pose proof (lookup_lt_Some _ _ _ Hfree) as Hi.
  unfold assemble. rewrite Hacc, Hft, Htype, Hidle. cbn [negb Z.eqb orb Pos.eqb PKTTYPE_DATA PKTTYPE_ACK PKTTYPE_ERROR PKTTYPE_CONNECTCLOSE PKTTYPE_PKTSEQNOINIT PKTTYPE_MCCONSISTENCY PKTTYPE_REXEC PKTTYPE_SYNCH].
  unfold packet_type_data. rewrite Hr. rewrite (pktindex_insert f q s0 0 i) by (try congruence; try lia; by apply Hnone). rewrite Z.add_0_l.
  destruct (Z.eqb_spec (Z.of_nat i) (-1)); [lia|]. unfold integrate, zget. destruct (Z.ltb_spec (Z.of_nat i) 0); [lia|].
  rewrite Nat2Z.id, Hr, list_lookup_insert_eq by done. cbn [mbind option_bind]. rewrite Hk, Hfo, Hd, He.
  destruct (Z.eqb_spec k k2); [done|]. by destruct (Z.eqb_spec (saddr_host (sp_dest p)) (-1)).
Qed.

Lemma same_ack r f k e a k2 n :
  tx_q r = [a] -> acks p k a -> piece p k2 n f -> 0 <= k < 2 ^ 32 -> send_ack hwaddr hb (m_ack m) PKTTYPE_ACK f e k r = r.
Proof.
  intros Hq (Hat & Hai & Hao & Had & _) (_ & _ & Hfs & _ & _ & Hfi & _) Hk. unfold send_ack. rewrite Hq. cbn [change_ack]. unfold is_ack.
  rewrite Hat, Hai, Hfi, Had, Hfs, !Z.eqb_refl, bool_decide_true, Hao by done. cbn [andb].
  assert (u32 k = k) as -> by (unfold u32; by rewrite Z.mod_small). rewrite Z.eqb_refl, <- Hq. by destruct r.
Qed.

Lemma late_frames fs r q k e a :
  rcvpkts r = <[i := Some q]> s0 -> holds p k e q -> Forall (fun f => exists k2 n, piece p k2 n f /\ k2 <> k) fs -> tx_q r = [a] -> acks p k a -> 0 <= k < 2 ^ 32 ->
  frames_arrive hwaddr hb m (Some kb) fs r = Some (Some kb, r).
Proof.
  intros Hr Hh Hfs Hq Ha Hk. induction Hfs as [|f fs (k2 & n & Hf & Hne) _ IH]; [done|]. cbn [frames_arrive].
  rewrite (late_frame r q k e f k2 n) by done. cbn [mbind option_bind]. by rewrite (same_ack r f k e a k2 n).
Qed.

Lemma pieces_after k fs k' : pieces p k fs k' -> Forall (fun f => exists k2 n, piece p k2 n f /\ k <= k2) fs.
Proof.
  induction 1 as [|k n f fs k' Hn _ Hf _ IH]; constructor; [by exists k, n|]. eapply Forall_impl; [exact IH|]. intros g (k2 & n2 & Hg & ?). exists k2, n2. split; [done|lia].
Qed.

(** The first frame of a window is lost: what follows it is refused, with one request for it. *)
Lemma window_without_first f fs r q k k' e :
  pieces p k (f :: fs) k' -> fs <> [] -> rcvpkts r = <[i := Some q]> s0 -> holds p k e q -> tx_q r = [] -> 0 <= k ->
  exists a, acks p k a /\ frames_arrive hwaddr hb m (Some kb) fs r = Some (Some kb, set_txq [a] r).
Proof.
  intros Hps Hne Hr Hh Hq Hk. destruct Hpad as [Hm Hbytes]. destruct fs as [|g fs]; [done|].
  inversion Hps as [|k0 n f0 fs0 k0' Hn Hl Hf Hrest]; subst. destruct Hp as (_ & H31 & _).
  assert (Forall (fun f => exists k2 n, piece p k2 n f /\ k2 <> k) (g :: fs)) as Hall.
  { eapply Forall_impl; [exact (pieces_after _ _ _ Hrest)|]. intros h (k2 & n2 & Hh2 & ?). exists k2, n2. split; [done|lia]. }
  inversion Hall as [|g0 fs1 (k2 & n2 & Hg & Hne2) Hall2]; subst. cbn [frames_arrive]. rewrite (late_frame r q k e g k2 n2) by done. cbn [mbind option_bind].
  assert (send_ack hwaddr hb (m_ack m) PKTTYPE_ACK g e k r = set_txq [make_ack hwaddr hb PKTTYPE_ACK g e k pad] r) as -> by (unfold send_ack; by rewrite Hq, Hm).
  assert (acks p k (make_ack hwaddr hb PKTTYPE_ACK g e k pad)) as Ha by (apply (make_ack_acks _ _ k2 n2); try done; lia).
  exists (make_ack hwaddr hb PKTTYPE_ACK g e k pad). split; [done|]. apply (late_frames fs _ q k e (make_ack hwaddr hb PKTTYPE_ACK g e k pad)); try done. lia.
Qed.

(** The request wakes the sender, which takes it for the end of the window. *)
Lemma request_arrives p2 w a ra :
  same_packet p p2 -> acks p (pkt_wincur_pos p2) a -> 0 < pkt_wincur_pos p2 < pkt_cur_pos p2 -> pkt_cur_pos p2 = sp_length p -> pkt_ackdata p2 <= pkt_wincur_pos p2 ->
  pkt_status p2 <> PKTSTATUS_RESTARTTXMT ->
  exists ra' p3, frames_arrive hwaddr ha m (Some (mk_psk peer (Some p2) false false false)) [a] ra = Some (Some (mk_psk peer (Some p3) false true false), ra') /\
    after_sleep hwaddr ha false reuse (mk_snd p3 w 0) = Some (Ended p3) /\ pkt_swinstatus p3 = pkt_swinstatus p2.
Proof.
  intros (_ & _ & _ & Hl & Hi & _) (Hat & Hai & Hao & _ & Hacc) Hk Hend Hack Hst. cbn [frames_arrive]. unfold assemble. rewrite Hacc, Hat.
  cbn [negb Z.eqb Pos.eqb PKTTYPE_ACK PKTTYPE_PKTSEQNOINIT PKTTYPE_ERROR psk_sndpkt pkt_lock on_ack].
  unfold process_ack. rewrite Hi, Hai, Z.eqb_refl, Hao. cbn [negb]. destruct (Z.ltb_spec (pkt_wincur_pos p2) (pkt_ackdata p2)); [lia|]. cbn [andb].
  destruct (remove_frames_fromtxq _ _ _ _ _ _) as [c q2]. destruct (Z.eqb_spec (pkt_wincur_pos p2) 0); [lia|].
  cbn [set_ack pkt_wincur_pos pkt_cur_pos sp_length]. rewrite Z.ltb_irrefl. cbn [andb]. destruct (Z.eqb_spec (pkt_wincur_pos p2) (pkt_cur_pos p2)); [lia|].
  cbn [mbind option_bind frames_arrive]. do 2 eexists. split; [done|]. split; [|done].
  unfold after_sleep. cbn [sp win l set_ack pkt_status pkt_cur_pos sp_length orb]. destruct (Z.eqb_spec (pkt_status p2) PKTSTATUS_RESTARTTXMT); [done|].
  apply done_ended. cbn. by rewrite Hl.
Qed.
End receiver.
End network.

Lemma first_free_free s i j : first_free i s = Some j -> 0 <= i -> s !! Z.to_nat (j - i) = Some None.
Proof.
  revert i. induction s as [|[q|] s IH]; intros i; cbn [first_free]; [done|..].
  - intros Hj Hi. pose proof (first_free_range _ _ _ Hj). replace (Z.to_nat (j - i)) with (S (Z.to_nat (j - (i + 1)))) by lia. cbn. apply IH; [done|lia].
  - intros [= <-] _. by rewrite Z.sub_diag.
Qed.
Lemma pktindex_none f s i : Forall (fun o => match o with Some q => ~ (rp_id q = pkt_id f /\ rp_src q = pkt_src f) | None => True end) s -> pktindex i f s = -1.
Proof.
  intros H. revert i. induction H as [|[q|] s Hq _ IH]; intros i; cbn [pktindex]; [done| |done].
  destruct (_ && _) eqn:E; [|done]. apply andb_true_iff in E as [E1%Z.eqb_eq E2%bool_decide_eq_true]. by destruct Hq.
Qed.

(** A receiver with memory and a socket, and a free slot for a packet that it does not know. *)
Definition has_memory (m : luck) : Prop := m_pkt m = true /\ sock m = true /\ exists pad, m_ack m = Some pad /\ Forall is_byte pad.
Definition can_receive (p : spkt) (r : rstate) : Prop :=
  table_ok r /\ tx_q r = [] /\ is_Some (first_free 0 (rcvpkts r)) /\
  Forall (fun o => match o with Some q => ~ (rp_id q = sp_id p /\ rp_src q = sp_src p) | None => True end) (rcvpkts r) /\ unseen p r.

(** Over a network that loses nothing, [psock_send_pkt] on one host and [assemble] on both
    take any packet across: after at most as many windows as it has bytes the sender ends
    with the status it began with and [PKTSTATUS_TXCOMPLETE], and the other host has queued
    exactly one packet, with the addresses, number and bytes of the sender's, and its slot is
    free.  The memory of the packet must not have been written over between its release and
    the last test of the loop ([settled]). *)
Lemma exchange_delivers hwaddr ha hb m peer reuse p kb ra rb :
  (forall h, length (hwaddr h) = 6%nat /\ Forall is_byte (hwaddr h)) -> settled reuse ->
  packet_ok p -> 0 < sp_length p -> sp_type p = PKTTYPE_DATA -> saddr_host (sp_dest p) <> -1 -> 0 <= hash_index (saddr_host (sp_src p)) (saddr_port (sp_src p)) ->
  pkt_cur_pos p = 0 -> pkt_ackdata p = 0 -> has_memory m -> can_receive p rb -> psk_sndpkt kb = None ->
  exists s p' q rb', psock_send_pkt hwaddr ha p = Some s /\ exchange hwaddr ha hb m peer reuse (Z.to_nat (sp_length p)) s (Some kb) ra rb = Some (p', rb') /\
    pkt_status p' = PKTSTATUS_TXCOMPLETE /\ pkt_swinstatus p' = pkt_swinstatus p /\ queued rb' = queued rb ++ [q] /\ rcvpkts rb' = rcvpkts rb /\
    rp_src q = sp_src p /\ rp_dest q = sp_dest p /\ rp_id q = sp_id p /\ rp_length q = sp_length p /\ frames_data (rp_frames q) = sp_data p /\ cut_ok (rp_frames q).
Proof.
  intros Hhw Hset Hp Hl Hty Hd Hsrc Hc Ha (Hm1 & Hm2 & pad & Hm3) (Ht & Hq & [j Hj] & Hnew & Hun) Hkb.
  pose proof (first_free_free _ _ _ Hj ltac:(lia)) as Hfree. rewrite Z.sub_0_r in Hfree. pose proof (first_free_range _ _ _ Hj) as Hjr.
  eapply (windows_exchanged hwaddr Hhw hb m p (Z.to_nat j) (rcvpkts rb)); try done; try lia; rewrite ?Hc.
  - rewrite Z2Nat.id by lia. done.
  - intros f Hfi Hfs. apply pktindex_none. by rewrite Hfi, Hfs.
  - left. done.
Qed.

(** A receiver that has the first [k] bytes of a packet and is at the start of a window. *)
Definition has_prefix (p : spkt) (k : Z) (r : rstate) : Prop :=
  exists i s q, rcvpkts r = <[i := Some q]> s /\ s !! i = Some None /\ holds p k 0 q /\
    Forall (fun o => match o with Some q => ~ (rp_id q = sp_id p /\ rp_src q = sp_src p) | None => True end) s.

(** C26: The first frame of the last window, not the first window, is lost.  The receiver refuses
    what follows and asks once for the missing frame; [process_ack] looks for an offset
    beyond the start of the window, so it changes only [pkt_ackdata], but the sender is
    woken, takes that for the end of the window and ends without an error (its last test
    reads the packet after it was given back: [settled]), though the receiver has no more
    than before. *)
Theorem lost_frame_reported_sent hwaddr ha hb m peer reuse p f fs w kb ra rb :
  (forall h, length (hwaddr h) = 6%nat /\ Forall is_byte (hwaddr h)) -> settled reuse ->
  packet_ok p -> sp_type p = PKTTYPE_DATA -> saddr_host (sp_dest p) <> -1 -> has_memory m -> psk_sndpkt kb = None -> tx_q rb = [] ->
  pieces p (pkt_wincur_pos p) (f :: fs) (sp_length p) -> fs <> [] -> 0 < pkt_wincur_pos p -> pkt_cur_pos p = sp_length p -> pkt_ackdata p <= pkt_wincur_pos p -> pkt_status p <> PKTSTATUS_RESTARTTXMT ->
  has_prefix p (pkt_wincur_pos p) rb ->
  exists a ra' p', frames_arrive hwaddr hb m (Some kb) fs rb = Some (Some kb, set_txq [a] rb) /\
    frames_arrive hwaddr ha m (Some (mk_psk peer (Some p) false false false)) [a] ra = Some (Some (mk_psk peer (Some p') false true false), ra') /\
    after_sleep hwaddr ha false reuse (mk_snd p' w 0) = Some (Ended p') /\ pkt_swinstatus p' = pkt_swinstatus p.
Proof.
  intros Hhw Hset Hp Hty Hd (_ & _ & pad & Hm) Hkb Hq Hps Hne Hk Hc Hack Hst (i & s & q & Hr & Hfree & Hh & Hnew).
  pose proof (pieces_le p _ _ _ Hps) as [_ Hlt]. specialize (Hlt ltac:(done)).
  assert (forall f, pkt_id f = sp_id p -> pkt_src f = sp_src p -> pktindex 0 f s = -1) as Hnone by (intros g Hgi Hgs; apply pktindex_none; by rewrite Hgi, Hgs).
  edestruct (window_without_first hwaddr Hhw hb m p i s) as (a & Ha & Hfr); try done; [lia|].
  edestruct (request_arrives hwaddr m p ha peer reuse Hset p w a ra) as (ra' & p' & H1 & H2 & H3); try done; [lia|]. by exists a, ra', p'.
Qed.

(** An error frame that names another packet than the one its socket is sending: [assemble]
    keeps [pkt_lock], and stops for good at the next frame for this socket that has a good
    checksum and is not a sequence number. *)
Theorem stray_error_blocks hwaddr host m f k p r :
  accepted f = true -> pkt_type f = PKTTYPE_ERROR -> psk_sndpkt k = Some p -> pkt_lock k = false -> sp_id p <> pkt_id f ->
  exists k', assemble hwaddr host m f (Some k) r = Some (Handled (Some k') r) /\ psk_sndpkt k' = Some p /\
    forall m' g r', accepted g = true -> pkt_type g <> PKTTYPE_PKTSEQNOINIT -> assemble hwaddr host m' g (Some k') r' = Some Blocked.
Proof.
  intros Hacc Ht Hk Hl Hid. unfold assemble. rewrite Hacc, Ht, Hk, Hl. cbn [negb Z.eqb Pos.eqb PKTTYPE_PKTSEQNOINIT PKTTYPE_ERROR on_error mbind option_bind]. rewrite Hk.
  destruct (Z.eqb_spec (sp_id p) (pkt_id f)); [done|]. eexists. split; [done|]. split; [done|]. intros m' g r' Hg Hgt. rewrite Hg. cbn [negb].
  by destruct (Z.eqb_spec (pkt_type g) PKTTYPE_PKTSEQNOINIT).
Qed.

(** The threads of a parallel process have number 65535 in the upper half of their port: the
    index of such a source in the table is negative for most hosts, and its first frame
    makes the assembler read before the table. *)
Theorem parallel_source_crashes hwaddr host m f r h t :
  0 <= h < 256 -> 0 <= t < 64 -> (h * 100 + t - 65536) mod 50 <> 0 -> saddr_host (pkt_src f) = h -> saddr_port (pkt_src f) = s32 (Z.shiftl 65535 16 + t) -> pktindex 0 f (rcvpkts r) = -1 ->
  packet_type_data hwaddr host m f r = None.
Proof.
  intros Hh Ht Hne Hsh Hsp Hi. unfold packet_type_data. rewrite Hi. cbn [Z.eqb Pos.eqb].
  assert (hash_index h (s32 (Z.shiftl 65535 16 + t)) < 0) as Hneg.
  { change (Z.shiftl 65535 16) with 4294901760. assert (s32 (4294901760 + t) = t - 65536) as -> by u32_lia.
    unfold hash_index, cmod, MaxIndex. assert (s32 (s32 (h * 100) + (t - 65536)) = h * 100 + t - 65536) as -> by u32_lia.
    pose proof (Z.rem_mod (h * 100 + t - 65536) 50 ltac:(done)) as E. rewrite E. pose proof (Z.rem_sign_nz (h * 100 + t - 65536) 50 ltac:(done)).
    Z.div_mod_to_equations. lia. }
  unfold locate_hash_node, zget. rewrite Hsh, Hsp. by destruct (Z.ltb_spec (hash_index h (s32 (Z.shiftl 65535 16 + t))) 0); [|lia].
Qed.

(** * Packets of three bytes and of nine frames *)

Definition ex_hw (h : Z) : list Z := [2; 0; 0; 0; 0; u8 h].
Lemma ex_hw_ok h : length (ex_hw h) = 6%nat /\ Forall is_byte (ex_hw h).
Proof. split; [done|]. pose proof (Z.mod_pos_bound h 256 ltac:(done)). unfold ex_hw. repeat apply Forall_cons_2; try apply Forall_nil_2; unfold is_byte; try lia. by unfold u8. Qed.
Definition ex_packet (data : list Z) (wincur cur : Z) : spkt :=
  mk_sp PKTTYPE_DATA (mk_sa 2 2 77) (mk_sa 2 1 99) (zlen data) 5 (-1) 0 data 0 PKTSTATUS_READYTOTXMT 1 0 wincur cur 0 0.
Definition ex_small : spkt := ex_packet [200; 100; 50] 0 0.
Definition ex_large : spkt := ex_packet (replicate 12943 7) 11504 12943.
Definition ex_luck : luck := mk_luck true true (Some (replicate 10 0)) true true.
Definition ex_receiver : rstate := initial [] 0 2 4.
Definition ex_sock : psk := mk_psk (mk_sa 2 1 99) None false false false.

Example ex_small_exchanged :
  exists s p' q rb', psock_send_pkt ex_hw 1 ex_small = Some s /\ exchange ex_hw 1 2 ex_luck (mk_sa 2 2 77) None 3 s (Some ex_sock) (initial [] 0 1 4) ex_receiver = Some (p', rb') /\
    pkt_status p' = PKTSTATUS_TXCOMPLETE /\ pkt_swinstatus p' = 0 /\ queued rb' = [q] /\ rcvpkts rb' = replicate 100 None /\
    rp_src q = mk_sa 2 1 99 /\ rp_dest q = mk_sa 2 2 77 /\ rp_id q = 5 /\ rp_length q = 3 /\ frames_data (rp_frames q) = [200; 100; 50] /\ cut_ok (rp_frames q).
Proof.
  apply (exchange_delivers ex_hw 1 2 ex_luck (mk_sa 2 2 77) None ex_small ex_sock (initial [] 0 1 4) ex_receiver); try done.
  - apply ex_hw_ok.
  - split; [done|]. split; [done|]. by repeat constructor.
  - split; [done|]. split; [done|]. exists (replicate 10 0). split; [done|]. by apply Forall_replicate.
  - split; [done|]. split; [done|]. split; [by eexists|]. split; [by apply Forall_replicate|]. by exists None.
Qed.

Lemma received_packets_genuine_witness :
  exists r q, rtc (rstep ex_hw 2 (fun _ _ => [200; 100; 50])) (ex_receiver, None) (r, None) /\ queued r = [q] /\ frames_data (rp_frames q) = [200; 100; 50].
Proof.
  pose (f := make_frame ex_hw 1 ex_small 0 3).
  destruct (assemble ex_hw 2 ex_luck f (Some ex_sock) ex_receiver) as [[k' r|]|] eqn:E; [|vm_compute in E; discriminate E..].
  assert (Hr : rtc (rstep ex_hw 2 (fun _ _ => [200; 100; 50])) (ex_receiver, None) (r, None)).
  { apply rtc_once. refine (arrives ex_hw 2 _ ex_luck f (Some ex_sock) k' ex_receiver r _ E). clear E. intros _. split; [vm_compute; split_and!; done|vm_compute; done]. }
  destruct (received_packets_genuine ex_hw 2 (fun _ _ => [200; 100; 50]) [] 0 2 4 r None Hr) as (Hq & _ & _).
  assert (length (queued r) = 1%nat) as Hl by (vm_compute in E; injection E as _ <-; reflexivity).
  destruct (queued r) as [|q [|]] eqn:Eq; [discriminate Hl| |discriminate Hl]. exists r, q. split; [exact Hr|]. split; [exact Eq|].
  inversion Hq as [|? ? Hw _]; subst. exact Hw.
Defined.

(** An error for packet 4 while packet 5 is sent. *)
Definition ex_error : frame := make_ack ex_hw 2 PKTTYPE_ERROR (mk_fr [] [] PROTOTYPE_TEMP 0 0 PKTTYPE_DATA 0 0 (mk_sa 2 2 77) (mk_sa 2 1 99) 0 0 4 0 0 0 []) EDEST_NOTEXIST 0 (replicate 10 0).
Lemma stray_error_blocks_witness :
  exists k', assemble ex_hw 1 ex_luck ex_error (Some (mk_psk (mk_sa 2 2 77) (Some ex_small) false false false)) ex_receiver = Some (Handled (Some k') ex_receiver) /\
    assemble ex_hw 1 ex_luck ex_error (Some k') ex_receiver = Some Blocked.
Proof.
  destruct (stray_error_blocks ex_hw 1 ex_luck ex_error (mk_psk (mk_sa 2 2 77) (Some ex_small) false false false) ex_small ex_receiver) as (k' & H1 & _ & H2);
    [by vm_compute|done|done|done|done|]. exists k'. split; [exact H1|]. apply H2; [by vm_compute|done].
Defined.

(** The first frame of the second window of a packet is lost. *)
Definition ex_frames : list frame := (fun j => make_frame ex_hw 1 ex_large (1438 * Z.of_nat j) 1438) <$> seq 0 8.
Definition ex_half : rstate :=
  set_rcvpkts (<[0%nat := Some (mk_rp PKTTYPE_DATA (mk_sa 2 2 77) (mk_sa 2 1 99) 12943 5 (-1) 0 ex_frames 0 11504 true)]> (replicate 100 None)) ex_receiver.
Lemma ex_large_ok : packet_ok ex_large.
Proof. split; [done|]. split; [by vm_compute|]. by apply Forall_replicate. Qed.
Lemma ex_prefix : frames_data ex_frames = take 11504 (sp_data ex_large).
Proof. by vm_compute. Qed.

Lemma ex_full : Forall full_frame ex_frames.
Proof. unfold ex_frames. repeat (apply Forall_cons_2; [by vm_compute|]). constructor. Qed.

Lemma lost_frame_reported_sent_witness :
  exists a ra' p', frames_arrive ex_hw 2 ex_luck (Some ex_sock) [make_frame ex_hw 1 ex_large 12942 1] ex_half = Some (Some ex_sock, set_txq [a] ex_half) /\
    frames_arrive ex_hw 1 ex_luck (Some (mk_psk (mk_sa 2 2 77) (Some ex_large) false false false)) [a] ex_receiver = Some (Some (mk_psk (mk_sa 2 2 77) (Some p') false true false), ra') /\
    after_sleep ex_hw 1 false None (mk_snd p' [] 0) = Some (Ended p') /\ pkt_swinstatus p' = 0.
Proof.
  apply (lost_frame_reported_sent ex_hw 1 2 ex_luck (mk_sa 2 2 77) None ex_large (make_frame ex_hw 1 ex_large 11504 1438)); try done.
  - apply ex_hw_ok.
  - apply ex_large_ok.
  - split; [done|]. split; [done|]. exists (replicate 10 0). split; [done|]. by apply Forall_replicate.
  - change (sp_length ex_large) with 12943. change (pkt_wincur_pos ex_large) with 11504. apply (pieces_cons ex_large 11504 1438); [done|done|apply make_frame_piece; [apply ex_hw_ok|apply ex_large_ok|done..]|].
    apply (pieces_cons ex_large 12942 1); [done|done|apply make_frame_piece; [apply ex_hw_ok|apply ex_large_ok|done..]|]. apply (pieces_nil ex_large 12943).
  - exists 0%nat, (replicate 100 None), (mk_rp PKTTYPE_DATA (mk_sa 2 2 77) (mk_sa 2 1 99) 12943 5 (-1) 0 ex_frames 0 11504 true).
    split; [done|]. split; [done|]. split; [split; [done|]; split; [done|]; split; [done|]; split; [done|]; split; [done|]; split; [apply ex_prefix|]; split; [done|]; apply ex_full|]. by apply Forall_replicate.
Defined.
End Packet.
