(* ===== verification/Socket.v ===== *)
(** Sockets ([src/base/socket.c]): the table of sockets, binding, sending to a socket of the
    same host or to the transmitter, and the calls that receive.  The calls run on one
    host; [socklist_lock] and [psk_busy] are kept, because some calls wait for a lock that
    they hold. *)
From S2P Require Import Prelude Kmalloc Frame Packet.

Module Socket.
Import Frame Packet.

Definition MAXSOCKETS : nat := 50.
Definition MAXPROCFILES : Z := 20.
Definition SOCKHANDLEBEGIN : Z := 100.
Definition SOCKHANDLEEND : Z := 150.
Definition SOCK_UNUSED : Z := 0.
Definition SOCK_STREAM : Z := 1.
Definition SOCK_DGRAM : Z := 2.
Definition MSG_DONTWAIT : Z := 1.
Definition MSG_TRUNC : Z := 2.
Definition MSG_PEEK : Z := 4.
Definition PKTTYPE_CONNECTREQ : Z := 5.
Definition PKTTYPE_CONNECTREP : Z := 6.
Definition ENO_FREE_FILE_TABLE_SLOT : Z := -35.
Definition ENOSOCKET : Z := -79.
Definition EBADF : Z := -80.
Definition EINVALIDFUNCTION : Z := -81.
Definition ENOTSOCK : Z := -82.
Definition ENOTCONNECTED : Z := -83.
Definition EPORTALREADYEXISTS : Z := -84.
Definition ENOTBOUND : Z := -85.
Definition ECONNECTED : Z := -86.
Definition ESOCKTYPE : Z := -87.
Definition EPEERNOTEXISTS : Z := -88.

(** * The data *)

(** [struct packet] in the queue of a socket that receives: its bytes are in [pkt_data], or
    in the frames it was put together from; [pkt_rcv_offset] of them are read. *)
Record inpkt := mk_in {
  in_type : Z; in_dest : isockaddr; in_src : isockaddr; in_length : Z; in_id : Z; in_tag : Z; in_groupid : Z;
  pkt_data : option (list Z); in_frames : list frame; pkt_rcv_offset : Z }.
Definition set_frames (fs : list frame) (p : inpkt) : inpkt := mk_in (in_type p) (in_dest p) (in_src p) (in_length p) (in_id p) (in_tag p) (in_groupid p) (pkt_data p) fs (pkt_rcv_offset p).
Definition set_offset (o : Z) (p : inpkt) : inpkt := mk_in (in_type p) (in_dest p) (in_src p) (in_length p) (in_id p) (in_tag p) (in_groupid p) (pkt_data p) (in_frames p) o.
(** A packet that [deliver_packet] queues. *)
Definition of_rpkt (q : rpkt) : inpkt := mk_in (rp_type q) (rp_dest q) (rp_src q) (rp_length q) (rp_id q) (rp_tag q) (rp_groupid q) None (rp_frames q) 0.

Record proc_sock := mk_sock {
  psk_type : Z; psk_port : Z; psk_refcount : Z; psk_sndseqid : Z; psk_rcvpkt : list inpkt; psk_sndpkt : list spkt; psk_peer : isockaddr;
  psk_transmitterusing : Z; psk_delrequest : Z; psk_busy : bool }.
Definition set_type x k := mk_sock x (psk_port k) (psk_refcount k) (psk_sndseqid k) (psk_rcvpkt k) (psk_sndpkt k) (psk_peer k) (psk_transmitterusing k) (psk_delrequest k) (psk_busy k).
Definition set_port x k := mk_sock (psk_type k) x (psk_refcount k) (psk_sndseqid k) (psk_rcvpkt k) (psk_sndpkt k) (psk_peer k) (psk_transmitterusing k) (psk_delrequest k) (psk_busy k).
Definition set_refcount x k := mk_sock (psk_type k) (psk_port k) x (psk_sndseqid k) (psk_rcvpkt k) (psk_sndpkt k) (psk_peer k) (psk_transmitterusing k) (psk_delrequest k) (psk_busy k).
Definition set_sndseqid x k := mk_sock (psk_type k) (psk_port k) (psk_refcount k) x (psk_rcvpkt k) (psk_sndpkt k) (psk_peer k) (psk_transmitterusing k) (psk_delrequest k) (psk_busy k).
Definition set_rcvpkt x k := mk_sock (psk_type k) (psk_port k) (psk_refcount k) (psk_sndseqid k) x (psk_sndpkt k) (psk_peer k) (psk_transmitterusing k) (psk_delrequest k) (psk_busy k).
Definition set_sndpkt x k := mk_sock (psk_type k) (psk_port k) (psk_refcount k) (psk_sndseqid k) (psk_rcvpkt k) x (psk_peer k) (psk_transmitterusing k) (psk_delrequest k) (psk_busy k).
Definition set_peer x k := mk_sock (psk_type k) (psk_port k) (psk_refcount k) (psk_sndseqid k) (psk_rcvpkt k) (psk_sndpkt k) x (psk_transmitterusing k) (psk_delrequest k) (psk_busy k).
Definition set_using x k := mk_sock (psk_type k) (psk_port k) (psk_refcount k) (psk_sndseqid k) (psk_rcvpkt k) (psk_sndpkt k) (psk_peer k) x (psk_delrequest k) (psk_busy k).
Definition set_delrequest x k := mk_sock (psk_type k) (psk_port k) (psk_refcount k) (psk_sndseqid k) (psk_rcvpkt k) (psk_sndpkt k) (psk_peer k) (psk_transmitterusing k) x (psk_busy k).
Definition set_busy x k := mk_sock (psk_type k) (psk_port k) (psk_refcount k) (psk_sndseqid k) (psk_rcvpkt k) (psk_sndpkt k) (psk_peer k) (psk_transmitterusing k) (psk_delrequest k) x.

(** The sockets of a host, [socklist_hdr] as the list of the indices of its sockets, and the
    handles of the current process. *)
Record net := mk_net {
  socktable : list proc_sock; socklist : list Z; socklist_lock : bool; next_internal_port_no : Z; fhandles : list Z; announced : list frame }.
Definition set_table x s := mk_net x (socklist s) (socklist_lock s) (next_internal_port_no s) (fhandles s) (announced s).
Definition set_list x s := mk_net (socktable s) x (socklist_lock s) (next_internal_port_no s) (fhandles s) (announced s).
Definition set_lock x s := mk_net (socktable s) (socklist s) x (next_internal_port_no s) (fhandles s) (announced s).
Definition set_next_port x s := mk_net (socktable s) (socklist s) (socklist_lock s) x (fhandles s) (announced s).
Definition set_handles x s := mk_net (socktable s) (socklist s) (socklist_lock s) (next_internal_port_no s) x (announced s).
Definition set_announced x s := mk_net (socktable s) (socklist s) (socklist_lock s) (next_internal_port_no s) (fhandles s) x.

(** * Calls on this state *)

(** A call does what C leaves undefined, or waits for a lock that its own thread holds. *)
Inductive fault := Undefined | Waits_for_itself.
Definition M (A : Type) : Type := net -> fault + A * net.
Definition ret {A} (a : A) : M A := fun s => inr (a, s).
Definition bind {A B} (m : M A) (k : A -> M B) : M B := fun s => match m s with inl e => inl e | inr (a, s) => k a s end.
Notation "x <-- m ; k" := (bind m (fun x => k)) (at level 100, m at next level, right associativity).
Notation "m ;; k" := (bind m (fun _ => k)) (at level 100, right associativity).
Definition get {A} (f : net -> A) : M A := fun s => inr (f s, s).
Definition modify (f : net -> net) : M unit := fun s => inr (tt, f s).
Definition get_sock (i : Z) : M proc_sock := fun s => match zget (socktable s) i with Some k => inr (k, s) | None => inl Undefined end.
Definition upd (i : Z) (f : proc_sock -> proc_sock) : M unit := fun s =>
  match zget (socktable s) i with
  | Some k => match zset (socktable s) i (f k) with Some t => inr (tt, set_table t s) | None => inl Undefined end
  | None => inl Undefined
  end.
Definition lock_list : M unit := fun s => if socklist_lock s then inl Waits_for_itself else inr (tt, set_lock true s).
Definition unlock_list : M unit := modify (set_lock false).
Definition lock_busy (i : Z) : M unit := k <-- get_sock i; if psk_busy k then (fun _ => inl Waits_for_itself) else upd i (set_busy true).
Definition unlock_busy (i : Z) : M unit := upd i (set_busy false).

(** The first socket of the list with a port and a type. *)
Fixpoint find_socket (port type : Z) (t : list proc_sock) (l : list Z) : option (option Z) :=
  match l with
  | [] => Some None
  | i :: l => k ← zget t i; if (psk_port k =? port) && (psk_type k =? type) then Some (Some i) else find_socket port type t l
  end.
Definition find_port (port type : Z) : M (option Z) := fun s => match find_socket port type (socktable s) (socklist s) with Some o => inr (o, s) | None => inl Undefined end.
Definition locate_socket (port type : Z) : M (option Z) :=
  o <-- find_port port type;
  match o with Some i => lock_busy i;; ret (Some i) | None => ret None end.

(** The bytes of a packet that are not read yet, and those of a queue. *)
Definition rest (p : inpkt) : list Z :=
  match pkt_data p with
  | Some d => drop (Z.to_nat (pkt_rcv_offset p)) d
  | None => drop (Z.to_nat (pkt_rcv_offset p mod MAX_PROTOCOL_FRSIZE)) (frames_data (in_frames p))
  end.
Definition pending (q : list inpkt) : list Z := List.concat (rest <$> q).

Section host.
Variable hwaddr : Z -> list Z.
Variable this_hostid : Z.

(** [sock_send]: the caller holds both locks.  [mem] says whether there is memory for the
    packet and for its data; [kmalloc] gives none for 0 bytes or for more than 16 MB.  The
    call returns, or sleeps until the packet is sent. *)
Inductive reply := Value (v : Z) | Sleep.
Definition kmalloc_gives (mem : bool) (n : Z) : bool := mem && (0 <? n) && (n <=? Kmalloc.MALLOC_MAX).
Definition sock_send (mem : bool * bool) (i : Z) (dest : isockaddr) (buf : list Z) (pkttype groupid tag nb : Z) : M reply :=
  let len := zlen buf in
  if negb (mem.1) then ret (Value ENOMEM) else
  if negb (kmalloc_gives mem.2 len) then ret (Value ENOMEM) else
  k <-- get_sock i;
  let id := u32 (psk_sndseqid k + 1) in
  upd i (set_sndseqid id);;
  let src := mk_sa (psk_type k) this_hostid (psk_port k) in
  if saddr_host dest =? this_hostid then
    o <-- locate_socket (saddr_port dest) (saddr_type dest);
    match o with
    | Some j =>
        (if pkttype =? PKTTYPE_CONNECTCLOSE then upd j (fun k => set_peer (mk_sa (saddr_type (psk_peer k)) 0 0) k)
         else upd j (fun k => set_rcvpkt (psk_rcvpkt k ++ [mk_in pkttype dest src len id tag groupid (Some buf) [] 0]) k));;
        unlock_busy j;;
        ret (Value len)
    | None => ret (Value EPEERNOTEXISTS)
    end
  else
    upd i (fun k => set_sndpkt (psk_sndpkt k ++ [mk_sp pkttype dest src len id tag groupid buf 0 PKTSTATUS_READYTOTXMT 1 0 0 0 0 0]) k);;
    if nb =? 0 then unlock_list;; unlock_busy i;; ret Sleep else ret (Value len).

(** The socket behind a descriptor. *)
Definition handle_of (s : Z) : M Z := fun st => match zget (fhandles st) s with Some h => inr (h, st) | None => inl Undefined end.
Definition socket_handle (h : Z) : bool := (SOCKHANDLEBEGIN <=? h) && (h <? SOCKHANDLEEND).
Definition bad_handle (s : Z) : bool := (s <? 0) || (MAXPROCFILES <=? s).
Definition send_locked (mem : bool * bool) (i : Z) (dest : isockaddr) (buf : list Z) : M reply :=
  lock_list;; lock_busy i;;
  r <-- sock_send mem i dest buf PKTTYPE_DATA 0 (-1) 1;
  unlock_busy i;; unlock_list;; ret r.
Definition syscall_send (mem : bool * bool) (s : Z) (buf : list Z) : M reply :=
  if bad_handle s then ret (Value EBADF) else
  h <-- handle_of s;
  if negb (socket_handle h) then ret (Value ENOTSOCK) else
  let i := h - SOCKHANDLEBEGIN in
  k <-- get_sock i;
  if negb (psk_type k =? SOCK_STREAM) then ret (Value EINVALIDFUNCTION) else
  if saddr_port (psk_peer k) =? 0 then ret (Value ENOTCONNECTED) else
  send_locked mem i (psk_peer k) buf.
Definition syscall_sendto (mem : bool * bool) (s : Z) (buf : list Z) (host port : Z) : M reply :=
  if bad_handle s then ret (Value EBADF) else
  h <-- handle_of s;
  if negb (socket_handle h) then ret (Value ENOTSOCK) else
  let i := h - SOCKHANDLEBEGIN in
  k <-- get_sock i;
  if negb (psk_type k =? SOCK_DGRAM) then ret (Value EINVALIDFUNCTION) else
  send_locked mem i (mk_sa SOCK_DGRAM host port) buf.

(** * Receiving *)

(** The loop of [recv_fromsock_stream] over the frames of a packet.  The length of the data
    of a frame is [len1] without the header; the comparison is unsigned. *)
Fixpoint copy_frames (fuel : nat) (len : Z) (p : inpkt) (out : list Z) : option (inpkt * list Z) :=
  if len <=? 0 then Some (p, out) else
  match fuel, in_frames p with
  | S fuel, f :: fs =>
      let froffset := pkt_rcv_offset p mod MAX_PROTOCOL_FRSIZE in
      let left := u32 (zlen (fr_data f) - froffset) in
      let len2 := if left <? len then left else len in
      if zlen (fr_data f) <? froffset + len2 then None else
      let p := if froffset + len2 =? zlen (fr_data f) then set_frames fs p else p in
      copy_frames fuel (len - len2) (set_offset (u32 (pkt_rcv_offset p + len2)) p) (out ++ take (Z.to_nat len2) (drop (Z.to_nat froffset) (fr_data f)))
  | _, _ => None
  end.
Definition copy_packet (len : Z) (p : inpkt) (out : list Z) : option (inpkt * list Z) :=
  match pkt_data p with
  | Some d => Some (set_offset (u32 (pkt_rcv_offset p + len)) p, out ++ take (Z.to_nat len) (drop (Z.to_nat (pkt_rcv_offset p)) d))
  | None => copy_frames (S (length (in_frames p))) len p out
  end.
(** The loop over the packets of a socket: what is left of them, and the bytes copied. *)
Fixpoint copy_packets (fuel : nat) (maxlen : Z) (q : list inpkt) (out : list Z) : option (list inpkt * list Z) :=
  match q with
  | [] => Some ([], out)
  | p :: q =>
      if maxlen <=? zlen out then Some (p :: q, out) else
      match fuel with
      | O => None
      | S fuel =>
          let actlen := s32 (u32 (in_length p - pkt_rcv_offset p)) in
          let len := if actlen <? maxlen - zlen out then actlen else maxlen - zlen out in
          '(p, out) ← copy_packet len p out;
          if pkt_rcv_offset p =? in_length p then copy_packets fuel maxlen q out else copy_packets fuel maxlen (p :: q) out
      end
  end.
(** The call from its label: a count with the bytes copied, or it sleeps. *)
Definition recv_fromsock_stream (i maxlen flags : Z) : M (reply * list Z) :=
  k <-- get_sock i;
  if negb (saddr_port (psk_peer k) =? 0) && bool_decide (psk_rcvpkt k = []) then
    ret (if Z.land flags MSG_DONTWAIT =? 0 then Sleep else Value 0, [])
  else if saddr_port (psk_peer k) =? 0 then ret (Value ECONNECTIONCLOSED, [])
  else
    match copy_packets (S (length (psk_rcvpkt k))) maxlen (psk_rcvpkt k) [] with
    | Some (q, out) => upd i (set_rcvpkt q);; ret (Value (zlen out), out)
    | None => fun _ => inl Undefined
    end.

(** The frames of a datagram, up to [len1] bytes. *)
Fixpoint copy_whole (len1 : Z) (fs : list frame) (out : list Z) : option (list Z) :=
  if len1 <=? 0 then Some out else
  match fs with
  | [] => None
  | f :: fs =>
      let len2 := if zlen (fr_data f) <? len1 then zlen (fr_data f) else len1 in
      copy_whole (len1 - len2) fs (out ++ take (Z.to_nat len2) (fr_data f))
  end.
Definition packet_bytes (len : Z) (p : inpkt) : option (list Z) :=
  match pkt_data p with Some d => Some (take (Z.to_nat len) d) | None => copy_whole len (in_frames p) [] end.
(** [recv_fromsock_dgram]: the address it stores is not set when the packet is too long. *)
Definition recv_fromsock_dgram (i maxlen flags : Z) : M (reply * list Z * option isockaddr) :=
  k <-- get_sock i;
  match psk_rcvpkt k with
  | [] => ret (if Z.land flags MSG_DONTWAIT =? 0 then Sleep else Value 0, [], None)
  | p :: q =>
      let actlen := s32 (in_length p) in
      if (actlen <=? maxlen) || negb (Z.land flags MSG_TRUNC =? 0) then
        let len := if actlen <? maxlen then actlen else maxlen in
        match packet_bytes len p with
        | Some out =>
            (if Z.land flags MSG_PEEK =? 0 then upd i (set_rcvpkt q) else ret tt);;
            ret (Value len, out, Some (in_src p))
        | None => fun _ => inl Undefined
        end
      else ret (Value (- actlen), [], None)
  end.
(** [deliver_packet] with the sockets: the packet is queued at the socket it is for. *)
Definition queue_packet (q : rpkt) : M Z :=
  lock_list;;
  o <-- locate_socket (saddr_port (rp_dest q)) (saddr_type (rp_dest q));
  unlock_list;;
  match o with
  | Some j => upd j (fun k => set_rcvpkt (psk_rcvpkt k ++ [of_rpkt q]) k);; unlock_busy j;; ret 0
  | None => ret (-1)
  end.
Definition syscall_recv (s maxlen flags : Z) : M (reply * list Z) :=
  if bad_handle s then ret (Value EBADF, []) else
  h <-- handle_of s;
  if negb (socket_handle h) then ret (Value ENOTSOCK, []) else
  k <-- get_sock (h - SOCKHANDLEBEGIN);
  if negb (psk_type k =? SOCK_STREAM) then ret (Value EINVALIDFUNCTION, []) else recv_fromsock_stream (h - SOCKHANDLEBEGIN) maxlen flags.
Definition syscall_recvfrom (s maxlen flags : Z) : M (reply * list Z * option isockaddr) :=
  if bad_handle s then ret (Value EBADF, [], None) else
  h <-- handle_of s;
  if negb (socket_handle h) then ret (Value ENOTSOCK, [], None) else
  k <-- get_sock (h - SOCKHANDLEBEGIN);
  if negb (psk_type k =? SOCK_DGRAM) then ret (Value EINVALIDFUNCTION, [], None) else recv_fromsock_dgram (h - SOCKHANDLEBEGIN) maxlen flags.

(** The packet that [trecvfrom_internal] takes from the socket of a thread: the first of its
    kind, source, group and tag.  [fromaddr] -2 and [tag] -1 match any. *)
Definition MPI_ANY_SOURCE : Z := -2.
Definition MPI_ANY_TAG : Z := -1.
Definition expected (pkttype fromaddr groupid tag : Z) (p : inpkt) : bool :=
  (in_type p =? pkttype) && ((fromaddr =? MPI_ANY_SOURCE) || (Z.land (saddr_port (in_src p)) 0xffff =? fromaddr)) &&
  ((groupid =? 0) || (in_groupid p =? u32 groupid)) && ((tag =? MPI_ANY_TAG) || (in_tag p =? u32 tag)).
Fixpoint split_at_expected (t : inpkt -> bool) (q : list inpkt) : option (list inpkt * inpkt * list inpkt) :=
  match q with
  | [] => None
  | p :: q => if t p then Some ([], p, q) else '(a, x, b) ← split_at_expected t q; Some (p :: a, x, b)
  end.
(** The call from its label, for a caller that does not limit its waiting. *)
Definition trecvfrom_internal (i maxlen pkttype fromaddr groupid tag nb : Z) : M (reply * list Z * option (Z * Z)) :=
  k <-- get_sock i;
  match split_at_expected (expected pkttype fromaddr groupid tag) (psk_rcvpkt k) with
  | None => ret (if nb =? 0 then Sleep else Value 0, [], None)
  | Some (a, p, b) =>
      let actlen := s32 (in_length p) in
      let info := Some (s16 (saddr_port (in_src p)), in_tag p) in
      if actlen <=? maxlen then
        let out := match pkt_data p with Some d => take (Z.to_nat actlen) d | None => frames_data (in_frames p) end in
        upd i (set_rcvpkt (a ++ b));; ret (Value actlen, out, info)
      else ret (Value (- actlen), [], info)
  end.

Definition syscall_trecvfrom (i maxlen from nb : Z) : M (reply * list Z * option (Z * Z)) := trecvfrom_internal i maxlen PKTTYPE_DATA from 0 (-1) nb.

(** * Making sockets *)

Fixpoint free_sock (i : Z) (t : list proc_sock) : option Z :=
  match t with
  | [] => None
  | k :: t => if psk_type k =? SOCK_UNUSED then Some i else free_sock (i + 1) t
  end.
Definition initialize_socktable : M unit := modify (fun s => set_table (set_type SOCK_UNUSED <$> socktable s) s).
(** [create_defsock], the socket of a thread: the index of the socket, or -1 for no socket. *)
Definition create_defsock (portno : Z) : M Z :=
  o <-- get (fun s => free_sock 0 (socktable s));
  match o with
  | None => ret (-1)
  | Some i =>
      upd i (fun k => mk_sock SOCK_DGRAM portno 1 0 [] [] (psk_peer k) 0 0 false);;
      lock_list;; modify (fun s => set_list (i :: socklist s) s);; unlock_list;; ret i
  end.
Fixpoint free_handle (i : Z) (h : list Z) : option Z :=
  match h with
  | [] => None
  | x :: h => if x <? -2 then Some i else free_handle (i + 1) h
  end.
Definition set_handle (s h : Z) : M unit := fun st => match zset (fhandles st) s h with Some l => inr (tt, set_handles l st) | None => inl Undefined end.
Definition syscall_socket (type : Z) : M Z :=
  o <-- get (fun s => free_handle 0 (fhandles s));
  match o with
  | None => ret ENO_FREE_FILE_TABLE_SLOT
  | Some fhand =>
      set_handle fhand 0;;
      o <-- get (fun s => free_sock 0 (socktable s));
      match o with
      | None => set_handle fhand (-3);; ret ENOSOCKET
      | Some i =>
          set_handle fhand (i + SOCKHANDLEBEGIN);;
          let ty := if type =? SOCK_STREAM then SOCK_STREAM else SOCK_DGRAM in
          upd i (fun _ => mk_sock ty 0 1 1 [] [] (mk_sa ty 0 (-1)) 0 0 false);;
          lock_list;; modify (fun s => set_list (i :: socklist s) s);; unlock_list;; ret fhand
      end
  end.

(** The frame that tells the other hosts to forget the numbers of a source. *)
Definition seqno_frame (sourcemachine sourceport socktype : Z) (pad : list Z) : frame :=
  seal_ack (mk_fr broadcast_addr (hwaddr this_hostid) PROTOTYPE_TEMP 0 0 PKTTYPE_PKTSEQNOINIT 0 0
              (mk_sa 0 (-1) 0) (mk_sa socktype sourcemachine sourceport) 0 0 1 (u32 (-1)) 0 0 pad).
Definition send_seqnumber_mesg (mem : option (list Z)) (sourcemachine sourceport socktype : Z) : M Z :=
  match mem with
  | None => ret (-1)
  | Some pad => modify (fun s => set_announced (announced s ++ [seqno_frame sourcemachine sourceport socktype pad]) s);; ret 0
  end.
Definition take_port : M Z := p <-- get next_internal_port_no; modify (set_next_port (u16 (p + 1)));; ret p.
(** The loop of [syscall_bind]: another port is tried only where the caller gave none. *)
Fixpoint bind_loop (fuel : nat) (mem : option (list Z)) (i sin_port port : Z) : M Z :=
  k <-- get_sock i;
  lock_list;;
  o <-- find_port port (psk_type k);
  match o with
  | Some _ =>
      unlock_list;;
      if sin_port =? 0 then
        match fuel with O => fun _ => inl Undefined | S fuel => p <-- take_port; bind_loop fuel mem i sin_port p end
      else ret EPORTALREADYEXISTS
  | None =>
      upd i (set_port port);; unlock_list;;
      send_seqnumber_mesg mem this_hostid port (psk_type k);; ret 0
  end.
Definition syscall_bind (mem : option (list Z)) (s sin_port : Z) : M Z :=
  if bad_handle s then ret (-1) else
  h <-- handle_of s;
  if (h <? SOCKHANDLEBEGIN) || (SOCKHANDLEEND <? h) then ret (-1) else
  p <-- (if 0 <? sin_port then ret sin_port else take_port);
  bind_loop MAXSOCKETS mem (h - SOCKHANDLEBEGIN) sin_port p.
Definition syscall_listen (s : Z) : M Z :=
  if bad_handle s then ret EBADF else
  h <-- handle_of s;
  if negb (socket_handle h) then ret ENOTSOCK else
  k <-- get_sock (h - SOCKHANDLEBEGIN);
  ret (if negb (psk_type k =? SOCK_STREAM) then ESOCKTYPE else 0).

(** * Connections *)

(** [struct connect_request] as it is sent. *)
Record connect_request := mk_cr { conreq_type : Z; conreq_dest : isockaddr; conreq_src : isockaddr }.
Definition request_bytes (m : connect_request) : list Z := int_bytes (conreq_type m) ++ addr_bytes (conreq_dest m) ++ addr_bytes (conreq_src m).
Definition int_at (b : list Z) (n : nat) : Z := s32 (nth n b 0 + 2 ^ 8 * nth (n + 1) b 0 + 2 ^ 16 * nth (n + 2) b 0 + 2 ^ 24 * nth (n + 3) b 0).
Definition addr_at (b : list Z) (n : nat) : isockaddr := mk_sa (int_at b n) (int_at b (n + 4)) (int_at b (n + 8)).
Definition request_of (b : list Z) : connect_request := mk_cr (int_at b 0) (addr_at b 4) (addr_at b 16).
Definition REQUEST_SIZE : Z := 28.

(** [syscall_connect] up to the reply, and from there on. *)
Definition connect_2 (i : Z) : M reply :=
  r <-- recv_fromsock_stream i REQUEST_SIZE 0;
  let '(v, out) := r in
  match v with
  | Sleep => ret Sleep
  | Value err =>
      if negb (err =? REQUEST_SIZE) then ret (Value err) else
      upd i (set_peer (conreq_dest (request_of out)));; ret (Value 0)
  end.
Definition syscall_connect (mem : bool * bool) (s host port : Z) : M reply :=
  if bad_handle s then ret (Value EBADF) else
  h <-- handle_of s;
  if negb (socket_handle h) then ret (Value ENOTSOCK) else
  let i := h - SOCKHANDLEBEGIN in
  k <-- get_sock i;
  if negb (psk_type k =? SOCK_STREAM) then ret (Value ESOCKTYPE) else
  if psk_port k =? 0 then ret (Value ENOTBOUND) else
  if negb (saddr_port (psk_peer k) =? -1) then ret (Value ECONNECTED) else
  let dest := mk_sa SOCK_STREAM host port in
  err <-- send_locked mem i dest (request_bytes (mk_cr PKTTYPE_CONNECTREQ dest (mk_sa SOCK_STREAM this_hostid (psk_port k))));
  match err with
  | Value v => if negb (v =? REQUEST_SIZE) then ret (Value v) else connect_2 i
  | Sleep => ret Sleep
  end.
(** The loop that binds the new socket of [syscall_accept]: the port it asked for last. *)
Fixpoint bind_new (fuel : nat) (seqmem : option (list Z)) (s1 : Z) : M Z :=
  p <-- take_port;
  e <-- syscall_bind seqmem s1 p;
  if e =? 0 then ret p else match fuel with O => fun _ => inl Undefined | S fuel => bind_new fuel seqmem s1 end.
(** The last reference of a socket goes. *)
Definition delete_socket (i : Z) : M unit :=
  upd i (fun k => set_using 1 (set_port 0 k));;
  unlock_busy i;;
  lock_list;; lock_busy i;;
  modify (fun s => set_list (filter (fun j => j <> i) (socklist s)) s);;
  unlock_list;;
  upd i (fun k => set_sndpkt [] (set_rcvpkt [] k));;
  unlock_busy i;;
  upd i (set_type SOCK_UNUSED).
Definition increment_sockref_count (handle : Z) : M unit :=
  if socket_handle handle then
    let i := handle - SOCKHANDLEBEGIN in
    lock_busy i;; upd i (fun k => set_refcount (s16 (psk_refcount k + 1)) k);; unlock_busy i
  else ret tt.
Definition decrement_sockref_count (mem : bool * bool) (handle : Z) : M unit :=
  if negb (socket_handle handle) then ret tt else
  let i := handle - SOCKHANDLEBEGIN in
  lock_list;; lock_busy i;;
  upd i (fun k => set_refcount (s16 (psk_refcount k - 1)) k);;
  k <-- get_sock i;
  if 0 <? psk_refcount k then unlock_busy i;; unlock_list else
  if (psk_type k =? SOCK_STREAM) && negb (saddr_port (psk_peer k) =? -1) && negb (saddr_port (psk_peer k) =? 0) then
    let dest := mk_sa SOCK_STREAM (saddr_host (psk_peer k)) (saddr_port (psk_peer k)) in
    sock_send mem i dest (request_bytes (mk_cr PKTTYPE_CONNECTCLOSE dest (mk_sa SOCK_STREAM this_hostid (psk_port k)))) PKTTYPE_CONNECTCLOSE 0 (-1) 1;;
    unlock_list;;
    k <-- get_sock i;
    if negb (saddr_host (psk_peer k) =? this_hostid) then upd i (set_delrequest 1);; unlock_busy i else delete_socket i
  else if psk_transmitterusing k =? 0 then delete_socket i
  else upd i (set_delrequest 1);; unlock_busy i.
Definition syscall_close_socket (mem : bool * bool) (s : Z) : M Z :=
  if bad_handle s then ret EBADF else
  h <-- handle_of s;
  if negb (socket_handle h) then ret ENOTSOCK else decrement_sockref_count mem h;; ret 0.
(** [syscall_accept]; a message that is not a request is dropped and the call receives again. *)
Fixpoint syscall_accept_loop (fuel : nat) (mem : bool * bool) (seqmem : option (list Z)) (i : Z) : M reply :=
  k <-- get_sock i;
  r <-- recv_fromsock_stream i REQUEST_SIZE 0;
  let '(v, out) := r in
  match v with
  | Sleep => ret Sleep
  | Value err =>
      if negb (err =? REQUEST_SIZE) then ret (Value err) else
      let msg := request_of out in
      if conreq_type msg =? PKTTYPE_CONNECTREQ then
        s1 <-- syscall_socket (psk_type k);
        if s1 <? 0 then ret (Value s1) else
        port <-- bind_new MAXSOCKETS seqmem s1;
        h <-- handle_of s1;
        let j := h - SOCKHANDLEBEGIN in
        upd j (set_peer (conreq_src msg));;
        err <-- send_locked mem j (conreq_src msg) (request_bytes (mk_cr PKTTYPE_CONNECTREP (mk_sa SOCK_STREAM this_hostid port) (conreq_src msg)));
        match err with
        | Value v => if negb (v =? REQUEST_SIZE) then syscall_close_socket mem s1;; ret (Value v) else ret (Value s1)
        | Sleep => ret Sleep
        end
      else match fuel with O => fun _ => inl Undefined | S fuel => syscall_accept_loop fuel mem seqmem i end
  end.
Definition syscall_accept (mem : bool * bool) (seqmem : option (list Z)) (s : Z) : M reply :=
  if bad_handle s then ret (Value EBADF) else
  h <-- handle_of s;
  if negb (socket_handle h) then ret (Value ENOTSOCK) else
  let i := h - SOCKHANDLEBEGIN in
  k <-- get_sock i;
  if negb (psk_type k =? SOCK_STREAM) then ret (Value ESOCKTYPE) else
  if psk_port k =? 0 then ret (Value ENOTBOUND) else
  syscall_accept_loop (S (length (pending (psk_rcvpkt k)))) mem seqmem i.
End host.

(** * A queue of packets as a stream of bytes *)

Definition in_ok (p : inpkt) : Prop :=
  0 <= pkt_rcv_offset p <= in_length p /\ in_length p < 2 ^ 31 /\
  match pkt_data p with
  | Some d => zlen d = in_length p
  | None =>
      cut_ok (in_frames p) /\ (pkt_rcv_offset p = in_length p -> in_frames p = []) /\
      (pkt_rcv_offset p < in_length p -> zlen (frames_data (in_frames p)) = in_length p - pkt_rcv_offset p + pkt_rcv_offset p mod MAX_PROTOCOL_FRSIZE)
  end.

Lemma zlen_append {A} (a b : list A) : zlen (a ++ b) = zlen a + zlen b.
Proof. unfold zlen. rewrite length_app. lia. Qed.
Lemma zlen_drop {A} (l : list A) n : 0 <= n <= zlen l -> zlen (drop (Z.to_nat n) l) = zlen l - n.
Proof. unfold zlen. rewrite length_drop. lia. Qed.
Lemma zlen_take {A} (l : list A) n : 0 <= n <= zlen l -> zlen (take (Z.to_nat n) l) = n.
Proof. unfold zlen. rewrite length_take. lia. Qed.
Lemma frames_data_cons f fs : frames_data (f :: fs) = fr_data f ++ frames_data fs.
Proof. done. Qed.
Lemma cut_ok_data fs : cut_ok fs -> fs <> [] -> 0 < zlen (frames_data fs).
Proof.
  destruct fs as [|f [|g fs]]; [done|..]; intros [Hf _] _; rewrite frames_data_cons, zlen_append; unfold zlen, MAX_PROTOCOL_FRSIZE in *; lia.
Qed.

Lemma rest_len p : in_ok p -> zlen (rest p) = in_length p - pkt_rcv_offset p.
Proof.
  intros (Ho & Hl & Hd). unfold rest. destruct (pkt_data p) as [d|].
  - rewrite zlen_drop; lia.
  - destruct Hd as (_ & He & Hd). destruct (decide (pkt_rcv_offset p = in_length p)) as [E|E].
    + rewrite He by done. cbn. rewrite drop_nil. unfold zlen. cbn. lia.
    + pose proof (Z.mod_pos_bound (pkt_rcv_offset p) MAX_PROTOCOL_FRSIZE ltac:(done)). rewrite zlen_drop; rewrite Hd; lia.
Qed.

(** The first frame holds the byte to be read next. *)
Lemma first_frame p :
  in_ok p -> pkt_data p = None -> pkt_rcv_offset p < in_length p ->
  exists f fs, in_frames p = f :: fs /\ cut_ok fs /\ pkt_rcv_offset p mod MAX_PROTOCOL_FRSIZE < zlen (fr_data f) <= MAX_PROTOCOL_FRSIZE /\
    (fs <> [] -> zlen (fr_data f) = MAX_PROTOCOL_FRSIZE) /\
    zlen (fr_data f) + zlen (frames_data fs) = in_length p - pkt_rcv_offset p + pkt_rcv_offset p mod MAX_PROTOCOL_FRSIZE.
Proof.
  intros (Ho & Hl & Hd) Hn Hlt. rewrite Hn in Hd. destruct Hd as (Hc & _ & Hz). specialize (Hz Hlt).
  pose proof (Z.mod_pos_bound (pkt_rcv_offset p) MAX_PROTOCOL_FRSIZE ltac:(done)) as Hm.
  destruct (in_frames p) as [|f fs]; [unfold zlen in Hz; cbn in Hz; lia|]. exists f, fs. rewrite frames_data_cons, zlen_append in Hz. destruct Hc as [Hf Hc].
  split; [done|]. split; [done|]. split; [|split; [by destruct fs|lia]].
  destruct fs; [unfold zlen in Hz at 2; cbn in Hz; lia|lia].
Qed.

(** One step of the loop over the frames: [n] bytes of the first frame are read. *)
Definition advance (n : Z) (f : frame) (fs : list frame) (p : inpkt) : inpkt :=
  let p := if pkt_rcv_offset p mod MAX_PROTOCOL_FRSIZE + n =? zlen (fr_data f) then set_frames fs p else p in
  set_offset (pkt_rcv_offset p + n) p.
Lemma advance_ok n p f fs :
  in_ok p -> pkt_data p = None -> pkt_rcv_offset p < in_length p -> in_frames p = f :: fs -> 0 < n -> pkt_rcv_offset p mod MAX_PROTOCOL_FRSIZE + n <= zlen (fr_data f) ->
  in_ok (advance n f fs p) /\ pkt_data (advance n f fs p) = None /\ pkt_rcv_offset (advance n f fs p) = pkt_rcv_offset p + n /\ in_length (advance n f fs p) = in_length p /\
  rest p = take (Z.to_nat n) (drop (Z.to_nat (pkt_rcv_offset p mod MAX_PROTOCOL_FRSIZE)) (fr_data f)) ++ rest (advance n f fs p).
Proof.
  intros Hok Hn Hlt Hfs H0 Hfit. destruct (first_frame p Hok Hn Hlt) as (f' & fs' & Hfs' & Hcut & Hm & Hfull & Hz).
  assert (f' = f /\ fs' = fs) as [-> ->] by (split; congruence). pose proof Hok as (Ho & Hl & Hd). rewrite Hn in Hd. destruct Hd as (Hc & _ & _).
  pose proof (Z.mod_pos_bound (pkt_rcv_offset p) MAX_PROTOCOL_FRSIZE ltac:(done)) as Hmp. set (o := pkt_rcv_offset p mod MAX_PROTOCOL_FRSIZE) in *.
  assert (pkt_rcv_offset p = MAX_PROTOCOL_FRSIZE * (pkt_rcv_offset p / MAX_PROTOCOL_FRSIZE) + o) as Hdiv by (apply Z.div_mod; done).
  assert (0 <= zlen (frames_data fs)) as Hnn by (unfold zlen; lia).
  unfold advance. fold o. destruct (Z.eqb_spec (o + n) (zlen (fr_data f))) as [E|E].
  - assert (fs <> [] -> (pkt_rcv_offset p + n) mod MAX_PROTOCOL_FRSIZE = 0) as Hmod.
    { intros Hne. rewrite Hdiv, (Hfull Hne) in *. replace (_ + o + n) with ((pkt_rcv_offset p / MAX_PROTOCOL_FRSIZE + 1) * MAX_PROTOCOL_FRSIZE) by lia. by rewrite Z.mod_mul. }
    assert (in_length p = pkt_rcv_offset p + n + zlen (frames_data fs)) as Hlen by lia.
    assert (fs = [] <-> zlen (frames_data fs) = 0) as Hemp.
    { split; [by intros ->|]. intros H. destruct fs; [done|]. pose proof (cut_ok_data _ Hcut ltac:(done)). lia. }
    assert (rest (set_offset (pkt_rcv_offset p + n) (set_frames fs p)) = frames_data fs) as Hrest.
    { unfold rest. cbn [set_offset set_frames pkt_data pkt_rcv_offset in_frames]. rewrite Hn. destruct (decide (fs = [])) as [-> |Hne]; [apply drop_nil|]. by rewrite (Hmod Hne). }
    split; [|split; [done|split; [done|split; [done|]]]].
    + unfold in_ok. cbn [set_offset set_frames pkt_data pkt_rcv_offset in_frames in_length]. rewrite Hn. split; [lia|]. split; [done|]. split; [done|]. split.
      * intros ?. apply Hemp. lia.
      * intros ?. rewrite Hmod; [lia|]. rewrite Hemp. lia.
    + cbn [set_frames pkt_rcv_offset]. rewrite Hrest. unfold rest. rewrite Hn, Hfs, frames_data_cons, drop_app_le by (unfold zlen in *; lia). fold o. f_equal.
      rewrite take_ge; [done|]. rewrite length_drop. unfold zlen in *. lia.
  - assert ((pkt_rcv_offset p + n) mod MAX_PROTOCOL_FRSIZE = o + n) as Hmod.
    { rewrite Hdiv, <- Z.add_assoc, Z.add_comm, Z.mul_comm, Z.mod_add by done. apply Z.mod_small. lia. }
    assert (pkt_rcv_offset p + n < in_length p) as Hlt' by lia.
    split; [|split; [done|split; [done|split; [done|]]]].
    + unfold in_ok. cbn [set_offset pkt_data pkt_rcv_offset in_frames in_length]. rewrite Hn, Hmod. split; [lia|]. split; [done|]. split; [done|]. split; [lia|].
      intros _. rewrite Hfs, frames_data_cons, zlen_append. lia.
    + unfold rest. cbn [set_offset pkt_data pkt_rcv_offset in_frames]. rewrite Hn, Hmod, Hfs, frames_data_cons. fold o.
      rewrite !drop_app_le by (unfold zlen in *; lia). rewrite app_assoc. f_equal. rewrite Z2Nat.inj_add by lia. rewrite <- drop_drop. symmetry. apply firstn_skipn.
Qed.

Lemma copy_frames_reads fuel len p out :
  in_ok p -> pkt_data p = None -> 0 <= len <= in_length p - pkt_rcv_offset p -> len = 0 \/ (length (in_frames p) < fuel)%nat ->
  exists p', copy_frames fuel len p out = Some (p', out ++ take (Z.to_nat len) (rest p)) /\ in_ok p' /\ rest p' = drop (Z.to_nat len) (rest p) /\
    pkt_rcv_offset p' = pkt_rcv_offset p + len /\ in_length p' = in_length p.
Proof.
  revert len p out. induction fuel as [|fuel IH]; intros len p out Hok Hn Hlen Hfuel.
  { assert (len = 0) as -> by lia. exists p. cbn. rewrite app_nil_r. split_and!; try done. lia. }
  cbn [copy_frames]. destruct (Z.leb_spec len 0) as [H|H].
  { assert (len = 0) as -> by lia. exists p. cbn. rewrite app_nil_r. split_and!; try done. lia. }
  destruct Hfuel as [Hz|Hfuel]; [lia|]. pose proof (rest_len p Hok) as Hrl.
  destruct (first_frame p Hok Hn) as (f & fs & Hfs & Hcut & Hm & _ & _); [lia|]. rewrite Hfs in *.
  pose proof (Z.mod_pos_bound (pkt_rcv_offset p) MAX_PROTOCOL_FRSIZE ltac:(done)) as Hmp. unfold MAX_PROTOCOL_FRSIZE in Hm at 2.
  set (o := pkt_rcv_offset p mod MAX_PROTOCOL_FRSIZE) in *. assert (u32 (zlen (fr_data f) - o) = zlen (fr_data f) - o) as -> by u32_lia.
  set (n := if _ <? len then _ else _). assert (0 < n /\ n <= len /\ o + n <= zlen (fr_data f) /\ (n = len \/ o + n = zlen (fr_data f))) as (Hn1 & Hn2 & Hn3 & Hn4) by (unfold n; case_ztest; lia).
  destruct (Z.ltb_spec (zlen (fr_data f)) (o + n)); [lia|].
  destruct (advance_ok n p f fs Hok Hn ltac:(lia) Hfs Hn1 Hn3) as (Hok' & Hn' & Ho' & Hl' & Hrest).
  assert (set_offset (u32 (pkt_rcv_offset (if o + n =? zlen (fr_data f) then set_frames fs p else p) + n)) (if o + n =? zlen (fr_data f) then set_frames fs p else p) = advance n f fs p) as ->.
  { unfold advance. fold o. destruct Hok as (? & ? & _). f_equal. destruct (_ =? _); cbn [set_frames pkt_rcv_offset]; u32_lia. }
  destruct (IH (len - n) (advance n f fs p) (out ++ take (Z.to_nat n) (drop (Z.to_nat o) (fr_data f))) Hok' Hn') as (p' & -> & Hokp & Hrp & Hop & Hlp); [lia|..].
  { destruct Hn4 as [-> |E]; [left; lia|right]. unfold advance. fold o. rewrite E, Z.eqb_refl. cbn. cbn in Hfuel. lia. }
  assert (length (take (Z.to_nat n) (drop (Z.to_nat o) (fr_data f))) = Z.to_nat n) as Hlt by (rewrite length_take, length_drop; unfold zlen in *; lia).
  exists p'. split; [|split_and!; try done; try lia].
  - do 2 f_equal. rewrite Hrest, <- app_assoc. f_equal. replace (Z.to_nat len) with (Z.to_nat n + Z.to_nat (len - n))%nat by lia.
    by rewrite take_app_add'.
  - rewrite Hrp, Hrest. replace (Z.to_nat len) with (Z.to_nat n + Z.to_nat (len - n))%nat by lia. by rewrite drop_app_add'.
Qed.

Lemma copy_packet_reads len p out :
  in_ok p -> 0 <= len <= in_length p - pkt_rcv_offset p ->
  exists p', copy_packet len p out = Some (p', out ++ take (Z.to_nat len) (rest p)) /\ in_ok p' /\ rest p' = drop (Z.to_nat len) (rest p) /\
    pkt_rcv_offset p' = pkt_rcv_offset p + len /\ in_length p' = in_length p.
Proof.
  intros Hok Hlen. unfold copy_packet. destruct (pkt_data p) as [d|] eqn:Ed; [|apply copy_frames_reads; auto with lia].
  pose proof Hok as (Ho & Hl & Hd). rewrite Ed in Hd. assert (u32 (pkt_rcv_offset p + len) = pkt_rcv_offset p + len) as -> by u32_lia.
  eexists. split; [unfold rest; by rewrite Ed|]. unfold in_ok, rest. cbn [set_offset pkt_rcv_offset in_length pkt_data in_frames]. rewrite Ed.
  split; [split_and!; try done; lia|]. split; [|done]. rewrite drop_drop. f_equal. lia.
Qed.

Lemma pending_cons p q : pending (p :: q) = rest p ++ pending q.
Proof. done. Qed.

(** A packet with bytes to read. *)
Definition unread (p : inpkt) : Prop := pkt_rcv_offset p < in_length p.
Lemma pending_nil q : Forall in_ok q -> Forall unread q -> pending q = [] <-> q = [].
Proof.
  intros Hok Hu. split; [|by intros ->]. destruct q as [|p q]; [done|]. inversion Hok as [|? ? Hp]; inversion Hu as [|? ? Hpu]; subst. rewrite pending_cons. intros [E _]%app_eq_nil.
  pose proof (rest_len p Hp) as Hr. rewrite E in Hr. unfold unread in Hpu. unfold zlen in Hr. cbn in Hr. lia.
Qed.

Lemma copy_packets_reads fuel maxlen q out :
  Forall in_ok q -> maxlen < 2 ^ 31 -> zlen out <= maxlen -> zlen out = maxlen \/ (length q < fuel)%nat ->
  exists q', copy_packets fuel maxlen q out = Some (q', out ++ take (Z.to_nat (maxlen - zlen out)) (pending q)) /\ Forall in_ok q' /\
    pending q' = drop (Z.to_nat (maxlen - zlen out)) (pending q) /\ (Forall unread q -> Forall unread q').
Proof.
  revert q out. induction fuel as [|fuel IH]; intros q out Hq Hmax Hout Hfuel; (destruct q as [|p q]; [exists []; cbn; by rewrite take_nil, drop_nil, app_nil_r|]); cbn [copy_packets].
  { assert (zlen out = maxlen) as <- by (cbn in Hfuel; lia). rewrite Z.leb_refl, Z.sub_diag. exists (p :: q). by rewrite app_nil_r. }
  destruct (Z.leb_spec maxlen (zlen out)) as [H|H].
  { assert (zlen out = maxlen) as <- by lia. rewrite Z.sub_diag. exists (p :: q). by rewrite app_nil_r. }
  inversion Hq as [|? ? Hp Hq']; subst. pose proof Hp as (Ho & Hl & _). pose proof (rest_len p Hp) as Hr.
  assert (s32 (u32 (in_length p - pkt_rcv_offset p)) = in_length p - pkt_rcv_offset p) as -> by u32_lia.
  set (n := if _ <? _ then _ else _). assert (0 <= n <= in_length p - pkt_rcv_offset p /\ n <= maxlen - zlen out /\ (n = in_length p - pkt_rcv_offset p \/ n = maxlen - zlen out)) as (Hn1 & Hn2 & Hn3)
    by (unfold n; case_ztest; lia).
  destruct (copy_packet_reads n p out Hp Hn1) as (p' & -> & Hp' & Hrp & Hop & Hlp). cbn [mbind option_bind]. rewrite Hop, Hlp.
  assert (zlen (out ++ take (Z.to_nat n) (rest p)) = zlen out + n) as Hlen by (rewrite zlen_append, zlen_take; lia).
  assert (length (take (Z.to_nat n) (rest p)) = Z.to_nat n) as Hlt by (rewrite length_take; unfold zlen in Hr; lia).
  rewrite pending_cons. destruct (Z.eqb_spec (pkt_rcv_offset p + n) (in_length p)) as [E|E].
  - assert (take (Z.to_nat n) (rest p) = rest p) as Hall by (apply take_ge; unfold zlen in Hr; lia). rewrite Hall in *.
    destruct (IH q (out ++ rest p) Hq' Hmax) as (q' & -> & Hq2 & Hpend & Hun); [lia|cbn in Hfuel; lia|].
    exists q'. rewrite Hlen in *. replace (Z.to_nat (maxlen - zlen out)) with (Z.to_nat n + Z.to_nat (maxlen - (zlen out + n)))%nat by lia.
    rewrite take_app_add', drop_app_add' by done. rewrite app_assoc. split_and!; try done. intros Hu. inversion Hu; subst. by apply Hun.
  - assert (n = maxlen - zlen out) as Hn by lia.
    destruct (IH (p' :: q) (out ++ take (Z.to_nat n) (rest p))) as (q' & -> & Hq2 & Hpend & Hun); [by constructor|done|lia|left; lia|].
    exists q'. rewrite Hlen in *. replace (maxlen - (zlen out + n)) with 0 in * by lia. rewrite <- Hn, app_nil_r. split; [|split; [done|split]].
    + by rewrite take_app_le by (unfold zlen in Hr; lia).
    + rewrite Hpend. cbn [Z.to_nat drop]. rewrite pending_cons, Hrp. symmetry. apply drop_app_le. unfold zlen in Hr. lia.
    + intros Hu. inversion Hu; subst. apply Hun. constructor; [unfold unread; lia|done].
Qed.

Lemma upd_run i f s k : zget (socktable s) i = Some k -> upd i f s = inr (tt, set_table (<[Z.to_nat i := f k]> (socktable s)) s).
Proof. intros H. unfold upd. rewrite H, zset_Some by (by eapply zget_Some_range). done. Qed.
Lemma get_run i s k : zget (socktable s) i = Some k -> get_sock i s = inr (k, s).
Proof. intros H. unfold get_sock. by rewrite H. Qed.
Lemma bind_run {A B} (m : M A) (k : A -> M B) s a s' : m s = inr (a, s') -> bind m k s = k a s'.
Proof. intros H. unfold bind. by rewrite H. Qed.

(** * Datagrams *)

Lemma copy_whole_reads len fs out : 0 <= len <= zlen (frames_data fs) -> copy_whole len fs out = Some (out ++ take (Z.to_nat len) (frames_data fs)).
Proof.
  revert len out. induction fs as [|f fs IH]; intros len out Hl; cbn [copy_whole]; (destruct (Z.leb_spec len 0); [assert (len = 0) as -> by lia; by rewrite app_nil_r|]).
  - unfold zlen in Hl. cbn in Hl. lia.
  - rewrite frames_data_cons, zlen_append in *. set (n := if _ <? _ then _ else _).
    assert (0 <= n <= len /\ n <= zlen (fr_data f) /\ (n = len \/ n = zlen (fr_data f))) as (Hn1 & Hn2 & Hn3) by (unfold n, zlen in *; case_ztest; lia).
    clearbody n. rewrite IH by (destruct Hn3; unfold zlen in *; lia). f_equal. rewrite <- app_assoc. f_equal. destruct Hn3 as [-> | ->].
    + rewrite Z.sub_diag, app_nil_r, take_app_le by (unfold zlen in Hn2; lia). done.
    + replace (Z.to_nat len) with (length (fr_data f) + Z.to_nat (len - zlen (fr_data f)))%nat by (unfold zlen in *; lia).
      rewrite take_app_add, take_ge by (unfold zlen; lia). done.
Qed.

(** A datagram that fits is received whole, with the address of its sender, and taken off the
    queue unless the caller only looks; one that does not fit stays where it is. *)
Theorem dgram_received i k p q maxlen flags s :
  zget (socktable s) i = Some k -> psk_rcvpkt k = p :: q -> in_ok p -> pkt_rcv_offset p = 0 -> Z.land flags MSG_TRUNC = 0 ->
  recv_fromsock_dgram i maxlen flags s =
    if in_length p <=? maxlen then
      inr ((Value (in_length p), rest p, Some (in_src p)),
           if Z.land flags MSG_PEEK =? 0 then set_table (<[Z.to_nat i := set_rcvpkt q k]> (socktable s)) s else s)
    else inr ((Value (- in_length p), [], None), s).
Proof.
  intros Hi Hq Hok Ho Hf. unfold recv_fromsock_dgram. rewrite (bind_run _ _ _ _ _ (get_run i s k Hi)), Hq. pose proof Hok as (Hr & Hl & Hd).
  assert (s32 (in_length p) = in_length p) as -> by u32_lia. rewrite Hf. cbn [Z.eqb negb]. rewrite orb_false_r. destruct (Z.leb_spec (in_length p) maxlen); [|done].
  assert ((if in_length p <? maxlen then in_length p else maxlen) = in_length p) as -> by (case_ztest; lia).
  assert (packet_bytes (in_length p) p = Some (rest p)) as ->.
  { pose proof (rest_len p Hok) as Hrl. unfold packet_bytes, rest in *. destruct (pkt_data p) as [d|]; rewrite Ho in *.
    - cbn [Z.to_nat drop] in *. f_equal. apply take_ge. unfold zlen in *. lia.
    - change (0 mod MAX_PROTOCOL_FRSIZE) with 0 in *. change (drop (Z.to_nat 0) (frames_data (in_frames p))) with (frames_data (in_frames p)) in *. rewrite copy_whole_reads by lia. cbn [app]. f_equal. apply take_ge. unfold zlen in *. lia. }
  destruct (Z.land flags MSG_PEEK =? 0); [|done]. by rewrite (bind_run _ _ _ _ _ (upd_run i _ s k Hi)).
Qed.

Lemma split_at_expected_spec t q a p b : split_at_expected t q = Some (a, p, b) -> q = a ++ p :: b /\ t p = true /\ Forall (fun x => t x = false) a.
Proof.
  revert a p b. induction q as [|x q IH]; intros a p b; cbn [split_at_expected]; [done|]. destruct (t x) eqn:E; [intros [= <- <- <-]; done|].
  destruct (split_at_expected t q) as [[[a' p'] b']|]; [|done]. cbn [mbind option_bind]. intros [= <- <- <-]. destruct (IH _ _ _ eq_refl) as (-> & ? & ?). split; [done|]. split; [done|]. by constructor.
Qed.
(** A thread that receives gets the first packet it asked for that fits, and the others stay
    in their order. *)
Theorem trecv_takes_first i k maxlen ty from group tag nb v out info s s' :
  zget (socktable s) i = Some k -> trecvfrom_internal i maxlen ty from group tag nb s = inr ((Value v, out, Some info), s') -> 0 <= v -> Forall (fun p => 0 < in_length p < 2 ^ 31) (psk_rcvpkt k) ->
  exists a p b, psk_rcvpkt k = a ++ p :: b /\ expected ty from group tag p = true /\ Forall (fun x => expected ty from group tag x = false) a /\
    v = in_length p /\ socktable s' = <[Z.to_nat i := set_rcvpkt (a ++ b) k]> (socktable s).
Proof.
  intros Hi H Hv Hlen. unfold trecvfrom_internal in H. rewrite (bind_run _ _ _ _ _ (get_run i s k Hi)) in H.
  destruct (split_at_expected _ _) as [[[a p] b]|] eqn:E; [|by destruct (nb =? 0)]. apply split_at_expected_spec in E as (Hq & Ht & Ha).
  assert (0 < in_length p < 2 ^ 31) as Hp by (rewrite Hq in Hlen; by apply Forall_app in Hlen as [_ [Hp _]%Forall_cons]).
  assert (s32 (in_length p) = in_length p) as Hs by u32_lia. cbv zeta in H. rewrite Hs in H. destruct (Z.leb_spec (in_length p) maxlen).
  - rewrite (bind_run _ _ _ _ _ (upd_run i _ s k Hi)) in H. unfold ret in H. injection H as <- _ _ <-. by exists a, p, b.
  - unfold ret in H. injection H as <- _ _ _. lia.
Qed.

(** * Two sockets of one host *)

Lemma zget_insert_eq {A} (t : list A) i k k' : zget t i = Some k -> zget (<[Z.to_nat i := k']> t) i = Some k'.
Proof. intros H. pose proof (zget_Some_range _ _ _ H). eapply zget_zset_eq. by rewrite zset_Some. Qed.
Lemma zget_insert_ne {A} (t : list A) i j k k' : zget t i = Some k -> i <> j -> zget (<[Z.to_nat i := k']> t) j = zget t j.
Proof. intros H Hn. pose proof (zget_Some_range _ _ _ H). eapply zget_zset_ne; [|done]. by rewrite zset_Some. Qed.

(** A change of a socket that keeps its port and type is not seen by a search. *)
Definition same_name (k k' : proc_sock) : Prop := psk_port k' = psk_port k /\ psk_type k' = psk_type k.
Lemma find_socket_insert p ty t l i k k' :
  zget t i = Some k -> same_name k k' -> find_socket p ty (<[Z.to_nat i := k']> t) l = find_socket p ty t l.
Proof.
  intros Hi [Hp Ht]. induction l as [|j l IH]; [done|]. cbn [find_socket]. destruct (decide (i = j)) as [-> |Hn].
  - rewrite (zget_insert_eq _ _ _ _ Hi), Hi. cbn [mbind option_bind]. by rewrite Hp, Ht, IH.
  - rewrite (zget_insert_ne _ _ _ _ _ Hi Hn). destruct (zget t j); [|done]. cbn [mbind option_bind]. by rewrite IH.
Qed.

(** Sockets [i] and [j], the state of the lock of the list, and the search for [j]. *)
Definition view (s : net) (b : bool) (i : Z) (ki : proc_sock) (j : Z) (kj : proc_sock) (h : list Z) : Prop :=
  i <> j /\ zget (socktable s) i = Some ki /\ zget (socktable s) j = Some kj /\ socklist_lock s = b /\
  find_socket (psk_port kj) (psk_type kj) (socktable s) (socklist s) = Some (Some j) /\ fhandles s = h.

Lemma view_upd_i f s b i ki j kj h : view s b i ki j kj h -> same_name ki (f ki) -> exists s', upd i f s = inr (tt, s') /\ view s' b i (f ki) j kj h.
Proof.
  intros (Hn & Hi & Hj & Hb & Hf & Hh) Hs. eexists. split; [by apply upd_run|]. split; [done|]. cbn. rewrite (zget_insert_eq _ _ _ _ Hi), (zget_insert_ne _ _ _ _ _ Hi Hn).
  split_and!; try done. by rewrite (find_socket_insert _ _ _ _ _ _ _ Hi Hs).
Qed.
Lemma view_upd_j f s b i ki j kj h : view s b i ki j kj h -> same_name kj (f kj) -> exists s', upd j f s = inr (tt, s') /\ view s' b i ki j (f kj) h.
Proof.
  intros (Hn & Hi & Hj & Hb & Hf & Hh) Hs. eexists. split; [by apply upd_run|]. split; [done|]. cbn. rewrite (zget_insert_eq _ _ _ _ Hj), (zget_insert_ne _ _ _ _ _ Hj) by done.
  split_and!; try done. rewrite (find_socket_insert _ _ _ _ _ _ _ Hj Hs). by destruct Hs as [-> ->].
Qed.
Lemma view_lock s i ki j kj h : view s false i ki j kj h -> exists s', lock_list s = inr (tt, s') /\ view s' true i ki j kj h.
Proof. intros (Hn & Hi & Hj & Hb & Hf & Hh). unfold lock_list. rewrite Hb. by eexists. Qed.
Lemma view_unlock s b i ki j kj h : view s b i ki j kj h -> exists s', unlock_list s = inr (tt, s') /\ view s' false i ki j kj h.
Proof. intros (Hn & Hi & Hj & Hb & Hf & Hh). by eexists. Qed.
Lemma view_busy_i s b i ki j kj h : view s b i ki j kj h -> psk_busy ki = false -> exists s', lock_busy i s = inr (tt, s') /\ view s' b i (set_busy true ki) j kj h.
Proof.
  intros Hv Hb. unfold lock_busy. rewrite (bind_run _ _ _ _ _ (get_run i s ki ltac:(apply Hv))), Hb. by apply view_upd_i.
Qed.
Lemma view_busy_j s b i ki j kj h : view s b i ki j kj h -> psk_busy kj = false -> exists s', lock_busy j s = inr (tt, s') /\ view s' b i ki j (set_busy true kj) h.
Proof.
  intros Hv Hb. unfold lock_busy. rewrite (bind_run _ _ _ _ _ (get_run j s kj ltac:(apply Hv))), Hb. by apply view_upd_j.
Qed.

(** Run one call whose effect on the two sockets is known. *)
Ltac vstep L :=
  let s' := fresh "s" in let E := fresh "E" in let V := fresh "V" in
  destruct L as (s' & E & V); [try done..|]; rewrite (bind_run _ _ _ _ _ E); clear E.

Lemma kmalloc_given n : 0 < n <= Kmalloc.MALLOC_MAX -> kmalloc_gives true n = true.
Proof. intros H. unfold kmalloc_gives. by destruct (Z.ltb_spec 0 n), (Z.leb_spec n Kmalloc.MALLOC_MAX); try lia. Qed.

(** A packet for a socket of this host is appended to what that socket has. *)
Lemma local_send host s i ki j kj h d pkttype groupid tag nb :
  view s true i ki j kj h -> psk_busy kj = false -> pkttype <> PKTTYPE_CONNECTCLOSE -> 0 < zlen d <= Kmalloc.MALLOC_MAX ->
  exists s' p, sock_send host (true, true) i (mk_sa (psk_type kj) host (psk_port kj)) d pkttype groupid tag nb s = inr (Value (zlen d), s') /\
    view s' true i (set_sndseqid (u32 (psk_sndseqid ki + 1)) ki) j (set_rcvpkt (psk_rcvpkt kj ++ [p]) kj) h /\
    in_ok p /\ unread p /\ rest p = d /\ in_src p = mk_sa (psk_type ki) host (psk_port ki) /\ in_type p = pkttype.
Proof.
  intros Hv Hb Ht Hd. unfold sock_send. cbn [fst snd negb]. rewrite (kmalloc_given _ Hd). cbn [negb]. rewrite (bind_run _ _ _ _ _ (get_run i s ki ltac:(apply Hv))). cbv zeta.
  vstep (view_upd_i (set_sndseqid (u32 (psk_sndseqid ki + 1))) s true i ki j kj h Hv). cbn [saddr_host saddr_port saddr_type]. rewrite Z.eqb_refl.
  assert (locate_socket (psk_port kj) (psk_type kj) s0 = (lock_busy j;; ret (Some j)) s0) as Hl.
  { unfold locate_socket, find_port, bind. by destruct V as (_ & _ & _ & _ & -> & _). }
  destruct (view_busy_j s0 true i _ j kj h V Hb) as (s1 & E1 & V1).
  assert (locate_socket (psk_port kj) (psk_type kj) s0 = inr (Some j, s1)) as Hl2 by (rewrite Hl, (bind_run _ _ _ _ _ E1); done).
  rewrite (bind_run _ _ _ _ _ Hl2). destruct (Z.eqb_spec pkttype PKTTYPE_CONNECTCLOSE); [done|].
  set (p := mk_in _ _ _ _ _ _ _ _ _ _). vstep (view_upd_j (fun k => set_rcvpkt (psk_rcvpkt k ++ [p]) k) s1 true i _ j _ h V1). unfold unlock_busy.
  vstep (view_upd_j (set_busy false) s2 true i _ j _ h V0). eexists _, p. split; [done|]. cbn [set_busy set_rcvpkt psk_rcvpkt] in V2.
  split; [rewrite <- Hb in V2; by destruct kj|]. assert (Kmalloc.MALLOC_MAX < 2 ^ 31) by done. split; [split; [cbn; lia|]; split; [cbn; lia|done]|]. split; [unfold unread; cbn; lia|done].
Qed.

Lemma not_busy k x : psk_busy k = false -> set_busy false (set_sndseqid x (set_busy true k)) = set_sndseqid x k.
Proof. intros H. destruct k. cbn in *. by subst. Qed.
Lemma local_send_locked host s i ki j kj h d :
  view s false i ki j kj h -> psk_busy ki = false -> psk_busy kj = false -> 0 < zlen d <= Kmalloc.MALLOC_MAX ->
  exists s' p, send_locked host (true, true) i (mk_sa (psk_type kj) host (psk_port kj)) d s = inr (Value (zlen d), s') /\
    view s' false i (set_sndseqid (u32 (psk_sndseqid ki + 1)) ki) j (set_rcvpkt (psk_rcvpkt kj ++ [p]) kj) h /\ in_ok p /\ unread p /\ rest p = d.
Proof.
  intros Hv Hbi Hbj Hd. unfold send_locked. vstep (view_lock s i ki j kj h Hv). vstep (view_busy_i s0 true i ki j kj h V Hbi).
  destruct (local_send host s1 i _ j kj h d PKTTYPE_DATA 0 (-1) 1 V0 Hbj ltac:(done) Hd) as (s2 & p & E & V1 & Hok & Hu & Hr & _). rewrite (bind_run _ _ _ _ _ E). unfold unlock_busy.
  vstep (view_upd_i (set_busy false) s2 true i _ j _ h V1). vstep (view_unlock s3 true i _ j _ h V2). exists s4, p. split; [done|]. split; [|done].
  change (psk_sndseqid (set_busy true ki)) with (psk_sndseqid ki) in V3. by rewrite not_busy in V3.
Qed.

(** Without memory nothing is sent. *)
Lemma send_refused host mem s i ki j kj h dest d :
  view s false i ki j kj h -> psk_busy ki = false -> mem.1 && kmalloc_gives mem.2 (zlen d) = false ->
  exists s', send_locked host mem i dest d s = inr (Value ENOMEM, s') /\ view s' false i ki j kj h.
Proof.
  intros Hv Hb Hm. unfold send_locked. vstep (view_lock s i ki j kj h Hv). vstep (view_busy_i s0 true i ki j kj h V Hb).
  assert (sock_send host mem i dest d PKTTYPE_DATA 0 (-1) 1 s1 = inr (Value ENOMEM, s1)) as E.
  { unfold sock_send. destruct (mem.1); cbn [negb andb] in *; [|done]. by rewrite Hm. }
  rewrite (bind_run _ _ _ _ _ E). unfold unlock_busy. vstep (view_upd_i (set_busy false) s1 true i _ j _ h V0). vstep (view_unlock s2 true i _ j _ h V1). exists s3. split; [done|].
  assert (set_busy false (set_busy true ki) = ki) as Ek by (destruct ki; cbn in *; by subst). by rewrite Ek in V2.
Qed.

(** Descriptor [hs] is connected to the socket of descriptor [hr], which has [P] to read. *)
Definition pipe (host : Z) (hs hr i j : Z) (P : list Z) (s : net) : Prop :=
  exists ki kj h, view s false i ki j kj h /\ 0 <= i < 50 /\ 0 <= j < 50 /\ 0 <= hs < 20 /\ 0 <= hr < 20 /\
    zget h hs = Some (i + SOCKHANDLEBEGIN) /\ zget h hr = Some (j + SOCKHANDLEBEGIN) /\ psk_busy ki = false /\ psk_busy kj = false /\
    psk_type ki = SOCK_STREAM /\ psk_type kj = SOCK_STREAM /\ psk_peer ki = mk_sa SOCK_STREAM host (psk_port kj) /\ psk_port kj <> 0 /\ saddr_port (psk_peer kj) <> 0 /\
    Forall in_ok (psk_rcvpkt kj) /\ Forall unread (psk_rcvpkt kj) /\ pending (psk_rcvpkt kj) = P.

Lemma handle_run h i st : zget (fhandles st) h = Some (i + SOCKHANDLEBEGIN) -> 0 <= i < 50 -> 0 <= h < 20 ->
  bad_handle h = false /\ handle_of h st = inr (i + SOCKHANDLEBEGIN, st) /\ socket_handle (i + SOCKHANDLEBEGIN) = true /\ i + SOCKHANDLEBEGIN - SOCKHANDLEBEGIN = i.
Proof.
  intros Hh Hi H20. unfold bad_handle, handle_of, socket_handle, MAXPROCFILES, SOCKHANDLEBEGIN, SOCKHANDLEEND in *. rewrite Hh.
  destruct (Z.ltb_spec h 0), (Z.leb_spec 20 h), (Z.leb_spec 100 (i + 100)), (Z.ltb_spec (i + 100) 150); try lia. split_and!; try done. lia.
Qed.

Lemma pending_app q q' : pending (q ++ q') = pending q ++ pending q'.
Proof. unfold pending. by rewrite fmap_app, List.concat_app. Qed.

(** The calls on the two ends: a send, with what [kmalloc] finds, and a receive.  A receive that
    sleeps has no effect; when it is woken it looks again, as a call of its own. *)
Inductive pipe_call := Send (mem : bool * bool) (d : list Z) | Recv (n flags : Z).
Definition pipe_op (host hs hr : Z) (c : pipe_call) : M (reply * list Z) :=
  match c with
  | Send mem d => v <-- syscall_send host mem hs d; ret (v, [])
  | Recv n flags => syscall_recv hr n flags
  end.
Fixpoint pipe_run (host hs hr : Z) (cs : list pipe_call) : M (list (reply * list Z)) :=
  match cs with
  | [] => ret []
  | c :: cs => a <-- pipe_op host hs hr c; b <-- pipe_run host hs hr cs; ret (a :: b)
  end.

(** A queue of bytes. *)
Definition fifo_op (c : pipe_call) (P : list Z) : reply * list Z * list Z :=
  match c with
  | Send mem d => if mem.1 && kmalloc_gives mem.2 (zlen d) then (Value (zlen d), [], P ++ d) else (Value ENOMEM, [], P)
  | Recv n flags =>
      match P with
      | [] => (if Z.land flags MSG_DONTWAIT =? 0 then Sleep else Value 0, [], [])
      | _ => (Value (zlen (take (Z.to_nat n) P)), take (Z.to_nat n) P, drop (Z.to_nat n) P)
      end
  end.
Fixpoint fifo_run (cs : list pipe_call) (P : list Z) : list (reply * list Z) * list Z :=
  match cs with
  | [] => ([], P)
  | c :: cs => let '(v, out, P) := fifo_op c P in let '(rs, P) := fifo_run cs P in ((v, out) :: rs, P)
  end.
(** [maxlen] is an [int] that is not negative. *)
Definition call_ok (c : pipe_call) : Prop := match c with Send _ _ => True | Recv n _ => 0 <= n < 2 ^ 31 end.

Lemma pipe_send host hs hr i j P s mem d :
  pipe host hs hr i j P s ->
  exists s', syscall_send host mem hs d s = inr ((fifo_op (Send mem d) P).1.1, s') /\ pipe host hs hr i j (fifo_op (Send mem d) P).2 s'.
Proof.
  intros (ki & kj & h & Hv & Hi & Hj & Hhs & Hhr & Hzs & Hzr & Hbi & Hbj & Hti & Htj & Hpeer & Hp0 & Hpj & Hok & Hun & HP). unfold syscall_send.
  destruct (handle_run hs i s) as (-> & Hrun & Hsock & Hsub); [destruct Hv as (_ & _ & _ & _ & _ & ->); done|done|done|]. rewrite (bind_run _ _ _ _ _ Hrun), Hsock, Hsub. cbn [negb].
  rewrite (bind_run _ _ _ _ _ (get_run i s ki ltac:(apply Hv))), Hti, Z.eqb_refl, Hpeer. cbn [negb saddr_port fifo_op]. destruct (Z.eqb_spec (psk_port kj) 0); [done|].
  destruct (mem.1 && kmalloc_gives mem.2 (zlen d)) eqn:Em.
  - rewrite <- Htj. apply andb_true_iff in Em as [Em1 [[Em2 Em3%Z.ltb_lt]%andb_true_iff Em4%Z.leb_le]%andb_true_iff]. destruct mem as [b1 b2]. cbn in Em1, Em2. subst b1 b2.
    destruct (local_send_locked host s i ki j kj h d Hv Hbi Hbj ltac:(lia)) as (s' & p & -> & Hv' & Hokp & Hup & Hrp). exists s'. split; [done|].
    exists (set_sndseqid (u32 (psk_sndseqid ki + 1)) ki), (set_rcvpkt (psk_rcvpkt kj ++ [p]) kj), h. split_and!; try done; try lia; cbn [set_rcvpkt psk_rcvpkt].
    + by apply Forall_app_2; [|constructor].
    + by apply Forall_app_2; [|constructor].
    + rewrite pending_app, HP. cbn. by rewrite Hrp, app_nil_r.
  - destruct (send_refused host mem s i ki j kj h (mk_sa SOCK_STREAM host (psk_port kj)) d Hv Hbi Em) as (s' & -> & Hv'). exists s'. split; [done|]. exists ki, kj, h. split_and!; try done; lia.
Qed.

Lemma pipe_recv host hs hr i j P s n flags :
  pipe host hs hr i j P s -> 0 <= n < 2 ^ 31 ->
  exists s', syscall_recv hr n flags s = inr ((fifo_op (Recv n flags) P).1, s') /\ pipe host hs hr i j (fifo_op (Recv n flags) P).2 s'.
Proof.
  intros (ki & kj & h & Hv & Hi & Hj & Hhs & Hhr & Hzs & Hzr & Hbi & Hbj & Hti & Htj & Hpeer & Hp0 & Hpj & Hok & Hun & HP) Hn. unfold syscall_recv.
  destruct (handle_run hr j s) as (-> & Hrun & Hsock & Hsub); [destruct Hv as (_ & _ & _ & _ & _ & ->); done|done|done|]. rewrite (bind_run _ _ _ _ _ Hrun), Hsock, Hsub. cbn [negb].
  rewrite (bind_run _ _ _ _ _ (get_run j s kj ltac:(apply Hv))), Htj, Z.eqb_refl. cbn [negb]. unfold recv_fromsock_stream.
  rewrite (bind_run _ _ _ _ _ (get_run j s kj ltac:(apply Hv))). destruct (Z.eqb_spec (saddr_port (psk_peer kj)) 0); [done|]. cbn [negb andb].
  pose proof (pending_nil _ Hok Hun) as Hnil. destruct (bool_decide_reflect (psk_rcvpkt kj = [])) as [E|E].
  - assert (P = []) as -> by (rewrite <- HP; by apply Hnil). cbn [fifo_op fst snd]. eexists. split; [done|]. exists ki, kj, h. split_and!; try done; lia.
  - destruct (copy_packets_reads (S (length (psk_rcvpkt kj))) n (psk_rcvpkt kj) [] Hok ltac:(lia)) as (q & -> & Hq & Hpend & Hunq); [unfold zlen; cbn; lia|right; lia|].
    change (zlen (@nil Z)) with 0 in *. rewrite Z.sub_0_r in *. cbn [app]. destruct (view_upd_j (set_rcvpkt q) s false i ki j kj h Hv ltac:(done)) as (s' & E' & V).
    rewrite (bind_run _ _ _ _ _ E'). rewrite HP in *. destruct P as [|b P]; [by destruct E; apply Hnil|]. cbn [fifo_op fst snd]. exists s'. split; [done|].
    exists ki, (set_rcvpkt q kj), h. split_and!; try done; try lia. cbn. by apply Hunq.
Qed.

(** C21: Two connected sockets of a host are a queue of bytes.  For calls that send on one and
    receive on the other in any order, of any size, and with or without memory, none waits
    for a lock of its own or does what is undefined, and each does what the queue does: a
    send for which [kmalloc] gives memory (from 1 byte to 16 MB) appends all its bytes and
    returns their number, any other returns [ENOMEM] and sends nothing; a receive takes the
    first bytes, as many as there are up to its limit, and where there are none it returns
    0 with [MSG_DONTWAIT] and sleeps otherwise. *)
Theorem pipe_fifo host hs hr i j P cs s :
  pipe host hs hr i j P s -> Forall call_ok cs ->
  exists s', pipe_run host hs hr cs s = inr ((fifo_run cs P).1, s') /\ pipe host hs hr i j (fifo_run cs P).2 s'.
Proof.
  intros Hp Hcs. revert P s Hp. induction Hcs as [|c cs Hc _ IH]; intros P s Hp; [by exists s|]. cbn [pipe_run fifo_run].
  assert (exists s1, pipe_op host hs hr c s = inr ((fifo_op c P).1, s1) /\ pipe host hs hr i j (fifo_op c P).2 s1) as (s1 & E & Hp1).
  { destruct c as [mem d|n flags]; cbn [pipe_op]; [|by apply pipe_recv]. destruct (pipe_send host hs hr i j P s mem d Hp) as (s1 & E & Hp1). exists s1. split; [|done].
    rewrite (bind_run _ _ _ _ _ E). cbn [fifo_op]. by destruct (_ && _). }
  rewrite (bind_run _ _ _ _ _ E). destruct (fifo_op c P) as [[v out] P1]. cbn [fst snd] in *. destruct (IH P1 s1 Hp1) as (s' & E' & Hp'). rewrite (bind_run _ _ _ _ _ E').
  destruct (fifo_run cs P1) as [rs P']. by exists s'.
Qed.

(** * A stream between two hosts *)

Lemma remote_send host s i ki dest d :
  zget (socktable s) i = Some ki -> saddr_host dest <> host -> 0 < zlen d <= Kmalloc.MALLOC_MAX ->
  exists s' p, sock_send host (true, true) i dest d PKTTYPE_DATA 0 (-1) 1 s = inr (Value (zlen d), s') /\
    zget (socktable s') i = Some (set_sndpkt (psk_sndpkt ki ++ [p]) (set_sndseqid (u32 (psk_sndseqid ki + 1)) ki)) /\
    p = mk_sp PKTTYPE_DATA dest (mk_sa (psk_type ki) host (psk_port ki)) (zlen d) (u32 (psk_sndseqid ki + 1)) (-1) 0 d 0 PKTSTATUS_READYTOTXMT 1 0 0 0 0 0.
Proof.
  intros Hi Hn Hd. unfold sock_send. cbn [fst snd negb]. rewrite (kmalloc_given _ Hd). cbn [negb]. rewrite (bind_run _ _ _ _ _ (get_run i s ki Hi)). cbv zeta. rewrite (bind_run _ _ _ _ _ (upd_run i _ s ki Hi)).
  destruct (Z.eqb_spec (saddr_host dest) host); [done|]. set (s1 := set_table _ s). set (p := mk_sp _ _ _ _ _ _ _ _ _ _ _ _ _ _ _ _).
  assert (zget (socktable s1) i = Some (set_sndseqid (u32 (psk_sndseqid ki + 1)) ki)) as H1 by (by apply (zget_insert_eq _ _ ki)).
  rewrite (bind_run _ _ _ _ _ (upd_run i _ s1 _ H1)). cbn [Z.eqb]. eexists _, p. split; [done|]. split; [|done]. cbn [set_table socktable]. by apply (zget_insert_eq _ _ (set_sndseqid (u32 (psk_sndseqid ki + 1)) ki)).
Qed.

Lemma stream_recv j k n flags s :
  zget (socktable s) j = Some k -> psk_rcvpkt k <> [] -> saddr_port (psk_peer k) <> 0 -> Forall in_ok (psk_rcvpkt k) -> 0 <= n < 2 ^ 31 ->
  exists q s', recv_fromsock_stream j n flags s = inr ((Value (zlen (take (Z.to_nat n) (pending (psk_rcvpkt k)))), take (Z.to_nat n) (pending (psk_rcvpkt k))), s') /\
    zget (socktable s') j = Some (set_rcvpkt q k) /\ Forall in_ok q /\ pending q = drop (Z.to_nat n) (pending (psk_rcvpkt k)).
Proof.
  intros Hj Hq Hp Hok Hn. unfold recv_fromsock_stream. rewrite (bind_run _ _ _ _ _ (get_run j s k Hj)). destruct (Z.eqb_spec (saddr_port (psk_peer k)) 0); [done|]. cbn [negb andb].
  rewrite bool_decide_false by done. destruct (copy_packets_reads (S (length (psk_rcvpkt k))) n (psk_rcvpkt k) [] Hok ltac:(lia)) as (q & -> & Hq' & Hpend & _); [unfold zlen; cbn; lia|right; lia|].
  change (zlen (@nil Z)) with 0 in *. rewrite Z.sub_0_r in *. cbn [app]. rewrite (bind_run _ _ _ _ _ (upd_run j _ s k Hj)). eexists q, _. split; [done|]. split; [|done]. by apply (zget_insert_eq _ _ k).
Qed.

Lemma assembled_ok q d : rp_length q = zlen d -> zlen d < 2 ^ 31 -> 0 < zlen d -> frames_data (rp_frames q) = d -> cut_ok (rp_frames q) -> in_ok (of_rpkt q) /\ rest (of_rpkt q) = d.
Proof.
  intros Hl H31 H0 Hd Hc. split; [|done]. unfold in_ok, of_rpkt. cbn [pkt_rcv_offset in_length pkt_data in_frames]. split; [lia|]. split; [lia|]. split; [done|]. split; [lia|].
  intros _. rewrite Hd. change (0 mod MAX_PROTOCOL_FRSIZE) with 0. lia.
Qed.

(** A packet is queued at the socket that it is for. *)
Lemma queue_packet_run q j kj s :
  find_socket (saddr_port (rp_dest q)) (saddr_type (rp_dest q)) (socktable s) (socklist s) = Some (Some j) -> zget (socktable s) j = Some kj -> psk_busy kj = false -> socklist_lock s = false ->
  exists s', queue_packet q s = inr (0, s') /\ zget (socktable s') j = Some (set_rcvpkt (psk_rcvpkt kj ++ [of_rpkt q]) kj) /\ socklist_lock s' = false.
Proof.
  intros Hf Hj Hb Hl. unfold queue_packet. unfold bind at 1, lock_list. rewrite Hl. unfold bind at 1, locate_socket, bind at 1, find_port. cbn [set_lock socktable socklist]. rewrite Hf.
  unfold bind at 1, lock_busy, bind at 1, get_sock. cbn [set_lock socktable]. rewrite Hj, Hb, (upd_run j _ (set_lock true s) kj) by done. unfold bind at 1, ret at 1, unlock_list, modify. cbn [set_lock set_table socktable socklist].
  erewrite bind_run by (apply upd_run; by apply (zget_insert_eq _ _ kj)). unfold unlock_busy.
  erewrite bind_run by (apply upd_run; cbn [set_table set_lock socktable]; eapply zget_insert_eq; by apply (zget_insert_eq _ _ kj)).
  eexists. split; [reflexivity|]. cbn [set_table set_lock socktable socklist_lock]. split; [|done]. erewrite zget_insert_eq; [|eapply zget_insert_eq; by apply (zget_insert_eq _ _ kj)].
  f_equal. destruct kj. cbn in *. by subst.
Qed.

(** C20: From a socket of one host to a socket of another.  The network loses nothing; the
    sender has memory for the packet, from 1 byte to 16 MB, and an index in the tables of
    sources; the receiver has memory, a free slot and no packet of that number yet
    ([can_receive]); the socket is connected and not busy; and the memory of the packet is
    not written over between its release by [psock_send_pkt] and the last test of its loop,
    which still reads it.  Then the bytes of a call that sends are queued as a packet,
    [psock_send_pkt] and the assemblers of both hosts take it across and report no error;
    and the one packet that comes out is for the socket that the call named: when it is
    queued there, a call that receives gets, after what was pending, these bytes. *)
Theorem network_stream hwaddr ha hb m peer reuse i ki dest d sa kb ra rb j kj n flags sb :
  (forall h, length (hwaddr h) = 6%nat /\ Forall is_byte (hwaddr h)) -> has_memory m -> Packet.psk_sndpkt kb = None -> settled reuse ->
  zget (socktable sa) i = Some ki -> saddr_host dest <> ha -> saddr_host dest <> -1 -> 0 <= hash_index ha (psk_port ki) ->
  0 < zlen d <= Kmalloc.MALLOC_MAX -> Forall is_byte d ->
  find_socket (saddr_port dest) (saddr_type dest) (socktable sb) (socklist sb) = Some (Some j) -> zget (socktable sb) j = Some kj -> psk_busy kj = false -> socklist_lock sb = false ->
  saddr_port (psk_peer kj) <> 0 -> Forall in_ok (psk_rcvpkt kj) -> 0 <= n < 2 ^ 31 ->
  exists sa' p, sock_send ha (true, true) i dest d PKTTYPE_DATA 0 (-1) 1 sa = inr (Value (zlen d), sa') /\
    psk_sndpkt <$> zget (socktable sa') i = Some (psk_sndpkt ki ++ [p]) /\
    (can_receive p rb ->
     exists t p' q rb' sb', psock_send_pkt hwaddr ha p = Some t /\ exchange hwaddr ha hb m peer reuse (length d) t (Some kb) ra rb = Some (p', rb') /\
       pkt_swinstatus p' = 0 /\ queued rb' = queued rb ++ [q] /\
       (queue_packet q;; recv_fromsock_stream j n flags) sb =
         inr ((Value (zlen (take (Z.to_nat n) (pending (psk_rcvpkt kj) ++ d))), take (Z.to_nat n) (pending (psk_rcvpkt kj) ++ d)), sb')).
Proof.
  intros Hhw Hm Hkb Hset Hi Hha Hdest Hsrc Hd Hb Hf Hj Hbj Hlk Hpeer Hok Hn. destruct (remote_send ha sa i ki dest d Hi Hha Hd) as (sa' & p & Hsend & Hi' & Hp).
  assert (Kmalloc.MALLOC_MAX < 2 ^ 31) by done. exists sa', p. split; [done|]. split; [by rewrite Hi'|]. intros Hcan.
  destruct (exchange_delivers hwaddr ha hb m peer reuse p kb ra rb) as (t & p' & q & rb' & Ht & Hex & Hst & Hsw & Hqu & _ & _ & Hqd & _ & Hlen & Hfd & Hcut); try done; try (rewrite Hp; done).
  { rewrite Hp. split; [done|]. split; [cbn; lia|done]. } { rewrite Hp. cbn. lia. }
  assert (Z.to_nat (sp_length p) = length d) as Hfuel by (rewrite Hp; cbn; unfold zlen; lia). rewrite Hfuel in Hex.
  assert (rp_dest q = dest) as Hqd' by (by rewrite Hqd, Hp). destruct (assembled_ok q d) as [Hokq Hrest]; [by rewrite Hlen, Hp|lia|lia|by rewrite Hfd, Hp|done|].
  destruct (queue_packet_run q j kj sb) as (s1 & Hq1 & Hj1 & _); [by rewrite Hqd'|done|done|done|].
  destruct (stream_recv j (set_rcvpkt (psk_rcvpkt kj ++ [of_rpkt q]) kj) n flags s1) as (q2 & sb' & Hrecv & _); try done; [cbn [set_rcvpkt psk_rcvpkt]; by destruct (psk_rcvpkt kj)|cbn [set_rcvpkt psk_rcvpkt]; by apply Forall_app_2; [|constructor]|].
  exists t, p', q, rb', sb'. split; [done|]. split; [done|]. split; [by rewrite Hsw, Hp|]. split; [done|]. rewrite (bind_run _ _ _ _ _ Hq1).
  cbn [set_rcvpkt psk_rcvpkt] in Hrecv. rewrite pending_app in Hrecv. replace (pending [of_rpkt q]) with d in Hrecv by (rewrite pending_cons, Hrest; symmetry; apply app_nil_r). exact Hrecv.
Qed.

(** * Ports *)

Definition valid_list (s : net) : Prop := Forall (fun i => is_Some (zget (socktable s) i)) (socklist s) /\ (length (socklist s) <= MAXSOCKETS)%nat.
(** The ports that sockets of a type have. *)
Definition ports (ty : Z) (t : list proc_sock) (l : list Z) : list Z := omap (fun i => k ← zget t i; if psk_type k =? ty then Some (psk_port k) else None) l.

Lemma find_socket_ports port ty t l :
  Forall (fun i => is_Some (zget t i)) l -> find_socket port ty t l = Some None <-> port ∉ ports ty t l.
Proof.
  induction 1 as [|i l [k Hk] _ IH]; [cbn; set_solver|]. unfold ports in *. cbn [find_socket omap list_omap]. rewrite Hk. cbn [mbind option_bind].
  destruct (Z.eqb_spec (psk_type k) ty).
  - destruct (Z.eqb_spec (psk_port k) port); cbn [andb]; [split; [done|set_solver]|]. rewrite IH. set_solver.
  - rewrite andb_false_r. apply IH.
Qed.
Lemma find_socket_total port ty t l : Forall (fun i => is_Some (zget t i)) l -> exists o, find_socket port ty t l = Some o.
Proof.
  induction 1 as [|i l [k Hk] _ [o IH]]; [by eexists|]. cbn [find_socket]. rewrite Hk. cbn [mbind option_bind]. destruct (_ && _); eauto.
Qed.
Lemma ports_length ty t l : (length (ports ty t l) <= length l)%nat.
Proof. unfold ports. induction l as [|i l IH]; [done|]. cbn [omap list_omap length]. destruct (mbind _ _); cbn [length]; lia. Qed.

(** One of 51 ports in a row is free. *)
Lemma port_free (used : list Z) port : (length used <= 50)%nat -> 0 <= port < 2 ^ 16 -> exists n : nat, (n <= 50)%nat /\ u16 (port + Z.of_nat n) ∉ used.
Proof.
  intros Hu Hp. destruct (decide (Forall (fun n => u16 (port + Z.of_nat n) ∈ used) (seq 0 51))) as [Hall|Hno].
  - exfalso. assert (length (seq 0 51) <= length used)%nat as Hle; [|rewrite length_seq in Hle; lia].
    rewrite <- (length_fmap (fun n => u16 (port + Z.of_nat n)) (seq 0 51)). apply List.NoDup_incl_length.
    + apply NoDup_ListNoDup. apply NoDup_fmap_2_strong; [|apply NoDup_seq]. intros x y Hx%elem_of_seq Hy%elem_of_seq. unfold u16. intros E. Z.div_mod_to_equations. lia.
    + intros x (n & -> & Hn)%list_elem_of_In%list_elem_of_fmap. apply list_elem_of_In. rewrite Forall_forall in Hall. by apply Hall.
  - apply not_Forall_Exists in Hno; [|intros n; apply decide; apply _]. apply Exists_exists in Hno as (n & Hn%elem_of_seq & Hx). exists n. split; [lia|done].
Qed.

(** The state after socket [i] got port [p]. *)
Definition bound (i : Z) (k : proc_sock) (p : Z) (s s' : net) : Prop :=
  socktable s' = <[Z.to_nat i := set_port p k]> (socktable s) /\ socklist s' = socklist s /\ socklist_lock s' = false /\ fhandles s' = fhandles s.

Section bind.
Variable hwaddr : Z -> list Z.
Variable host : Z.
Implicit Types (s : net) (k : proc_sock).

Lemma find_port_run p ty s : valid_list s -> exists o, find_port p ty s = inr (o, s) /\ (o = None <-> p ∉ ports ty (socktable s) (socklist s)).
Proof.
  intros [Hv _]. unfold find_port. destruct (find_socket_total p ty _ _ Hv) as [o Ho]. rewrite Ho. exists o. split; [done|].
  rewrite <- (find_socket_ports p ty _ _ Hv), Ho. split; [by intros ->|congruence].
Qed.

Lemma bind_loop_free fuel mem i sp port k s :
  socklist_lock s = false -> zget (socktable s) i = Some k -> valid_list s -> port ∉ ports (psk_type k) (socktable s) (socklist s) ->
  exists s', bind_loop hwaddr host fuel mem i sp port s = inr (0, s') /\ bound i k port s s'.
Proof.
  intros Hl Hi Hv Hp. destruct fuel; cbn [bind_loop]; rewrite (bind_run _ _ _ _ _ (get_run i s k Hi));
    rewrite (bind_run lock_list _ _ tt (set_lock true s)) by (unfold lock_list; by rewrite Hl);
    (destruct (find_port_run port (psk_type k) (set_lock true s) Hv) as (o & Ho & Hno); rewrite (bind_run _ _ _ _ _ Ho); apply Hno in Hp as ->);
    rewrite (bind_run _ _ _ _ _ (upd_run i (set_port port) (set_lock true s) k Hi)); unfold unlock_list, modify; unfold bind at 1;
    unfold send_seqnumber_mesg, modify; destruct mem; (eexists; split; [done|]); by split_and!.
Qed.
Lemma bind_loop_taken fuel mem i sp port k s :
  socklist_lock s = false -> zget (socktable s) i = Some k -> valid_list s -> port ∈ ports (psk_type k) (socktable s) (socklist s) ->
  bind_loop hwaddr host (S fuel) mem i sp port s =
    if sp =? 0 then bind_loop hwaddr host fuel mem i sp (next_internal_port_no s) (set_next_port (u16 (next_internal_port_no s + 1)) s) else inr (EPORTALREADYEXISTS, s).
Proof.
  intros Hl Hi Hv Hp. cbn [bind_loop]. rewrite (bind_run _ _ _ _ _ (get_run i s k Hi)).
  rewrite (bind_run lock_list _ _ tt (set_lock true s)) by (unfold lock_list; by rewrite Hl).
  destruct (find_port_run port (psk_type k) (set_lock true s) Hv) as (o & Ho & Hno). rewrite (bind_run _ _ _ _ _ Ho).
  destruct o as [j|]; [|by destruct (proj1 Hno eq_refl)]. unfold unlock_list, modify. unfold bind at 1.
  assert (set_lock false (set_lock true s) = s) as -> by (destruct s; cbn in *; by subst). by destruct (sp =? 0).
Qed.
Lemma bind_loop_finds n fuel mem i port k s :
  socklist_lock s = false -> zget (socktable s) i = Some k -> valid_list s -> (n <= fuel)%nat -> 0 <= port < 2 ^ 16 -> next_internal_port_no s = u16 (port + 1) ->
  u16 (port + Z.of_nat n) ∉ ports (psk_type k) (socktable s) (socklist s) ->
  exists p s', bind_loop hwaddr host fuel mem i 0 port s = inr (0, s') /\ bound i k p s s' /\ p ∉ ports (psk_type k) (socktable s) (socklist s) /\ 0 <= p < 2 ^ 16.
Proof.
  revert fuel port s. induction n as [|n IH]; intros fuel port s Hl Hi Hv Hf Hp Hnx Hn.
  - replace (u16 (port + Z.of_nat 0)) with port in Hn by (rewrite Z.add_0_r; unfold u16; by rewrite Z.mod_small).
    destruct (bind_loop_free fuel mem i 0 port k s) as (s' & H & Hb); try done. by exists port, s'.
  - destruct (decide (port ∈ ports (psk_type k) (socktable s) (socklist s))) as [Hin|Hout].
    + destruct fuel as [|fuel]; [lia|]. rewrite (bind_loop_taken fuel mem i 0 port k s Hl Hi Hv Hin). cbn [Z.eqb].
      destruct (IH fuel (next_internal_port_no s) (set_next_port (u16 (next_internal_port_no s + 1)) s)) as (p & s' & H & Hb & Hrest); try done; [lia|rewrite Hnx; apply u16_range| |].
      { cbn [set_next_port socktable socklist]. replace (u16 (next_internal_port_no s + Z.of_nat n)) with (u16 (port + Z.of_nat (S n))); [done|]. rewrite Hnx. unfold u16. rewrite Zplus_mod_idemp_l. f_equal. lia. }
      exists p, s'. done.
    + destruct (bind_loop_free fuel mem i 0 port k s) as (s' & H & Hb); try done. by exists port, s'.
Qed.

(** Sockets with a port have different ones. *)
Definition ports_differ (s : net) : Prop :=
  forall a b ka kb, a ∈ socklist s -> b ∈ socklist s -> zget (socktable s) a = Some ka -> zget (socktable s) b = Some kb -> same_name ka kb -> psk_port ka <> 0 -> a = b.

Lemma bound_differ i k p s s' :
  bound i k p s s' -> zget (socktable s) i = Some k -> p ∉ ports (psk_type k) (socktable s) (socklist s) -> ports_differ s -> ports_differ s'.
Proof.
  intros (Ht & Hl & _) Hi Hp Hd a b ka kb Ha Hb Hka Hkb [Hn1 Hn2] H0. rewrite Hl in Ha, Hb. rewrite Ht in Hka, Hkb.
  assert (forall c kc, c ∈ socklist s -> c <> i -> zget (<[Z.to_nat i := set_port p k]> (socktable s)) c = Some kc -> psk_port kc = p -> psk_type kc = psk_type k -> False) as Hfresh.
  { intros c kc Hc Hne Hkc Hpc Htc. rewrite (zget_insert_ne _ _ _ _ _ Hi) in Hkc by done. apply Hp. apply list_elem_of_omap. exists c. split; [done|]. rewrite Hkc. cbn. by rewrite Htc, Z.eqb_refl, Hpc. }
  destruct (decide (a = i)) as [-> |Hai], (decide (b = i)) as [-> |Hbi]; try done.
  - rewrite (zget_insert_eq _ _ _ _ Hi) in Hka. injection Hka as <-. exfalso. by apply (Hfresh b kb).
  - rewrite (zget_insert_eq _ _ _ _ Hi) in Hkb. injection Hkb as <-. exfalso. by apply (Hfresh a ka).
  - rewrite (zget_insert_ne _ _ _ _ _ Hi) in Hka by done. rewrite (zget_insert_ne _ _ _ _ _ Hi) in Hkb by done. by apply (Hd a b ka kb).
Qed.

(** C22: [syscall_bind] of a free port takes it, of a port in use changes nothing and says so, and
    without a port always finds one, in at most 51 tries; the ports of the sockets of one
    type stay different. *)
Theorem bind_takes_port mem hs i sin_port k s :
  socklist_lock s = false -> valid_list s -> ports_differ s -> zget (socktable s) i = Some k -> 0 <= i < 50 -> 0 <= hs < 20 -> zget (fhandles s) hs = Some (i + SOCKHANDLEBEGIN) ->
  0 <= sin_port < 2 ^ 16 -> 0 <= next_internal_port_no s < 2 ^ 16 ->
  (sin_port <> 0 /\ sin_port ∈ ports (psk_type k) (socktable s) (socklist s) /\ syscall_bind hwaddr host mem hs sin_port s = inr (EPORTALREADYEXISTS, s)) \/
  (exists p s', syscall_bind hwaddr host mem hs sin_port s = inr (0, s') /\ bound i k p s s' /\ (sin_port <> 0 -> p = sin_port) /\
     p ∉ ports (psk_type k) (socktable s) (socklist s) /\ ports_differ s').
Proof.
  intros Hl Hv Hd Hi Hir Hh Hz Hsp Hnx. unfold syscall_bind. destruct (handle_run hs i s Hz Hir Hh) as (-> & Hrun & _ & Hsub). rewrite (bind_run _ _ _ _ _ Hrun), Hsub.
  unfold SOCKHANDLEBEGIN, SOCKHANDLEEND. destruct (Z.ltb_spec (i + 100) 100), (Z.ltb_spec 150 (i + 100)); try lia. cbn [orb].
  destruct (Z.ltb_spec 0 sin_port) as [Hpos|Hzero].
  - unfold bind, ret at 1. destruct (decide (sin_port ∈ ports (psk_type k) (socktable s) (socklist s))) as [Hin|Hout].
    + left. split; [lia|]. split; [done|]. unfold MAXSOCKETS. rewrite (bind_loop_taken 49 mem i sin_port sin_port k s) by done. by destruct (Z.eqb_spec sin_port 0); [lia|].
    + right. destruct (bind_loop_free MAXSOCKETS mem i sin_port sin_port k s) as (s' & H' & Hb); try done. exists sin_port, s'. split_and!; try done. by eapply bound_differ.
  - right. assert (sin_port = 0) as -> by lia. unfold take_port, get, modify, bind, ret. cbn.
    set (s1 := set_next_port (u16 (next_internal_port_no s + 1)) s).
    destruct (port_free (ports (psk_type k) (socktable s) (socklist s)) (next_internal_port_no s)) as (n & Hn & Hfree); [|done|].
    { destruct Hv as [_ Hv]. pose proof (ports_length (psk_type k) (socktable s) (socklist s)). unfold MAXSOCKETS in Hv. lia. }
    destruct (bind_loop_finds n MAXSOCKETS mem i (next_internal_port_no s) k s1) as (p & s' & H' & Hb & Hp & _); try done.
    exists p, s'. split; [exact H'|]. split; [exact Hb|]. split; [done|]. split; [exact Hp|]. by eapply (bound_differ i k p s).
Qed.
End bind.

(** * Calls that wait for themselves *)

Definition locked (s : net) (b : bool) (i : Z) (k : proc_sock) : Prop := socklist_lock s = b /\ zget (socktable s) i = Some k.
Lemma locked_upd f s b i k : locked s b i k -> exists s', upd i f s = inr (tt, s') /\ locked s' b i (f k).
Proof. intros [Hb Hi]. eexists. split; [by apply upd_run|]. split; [done|]. by apply (zget_insert_eq _ _ k). Qed.
Lemma locked_list s i k : locked s false i k -> exists s', lock_list s = inr (tt, s') /\ locked s' true i k.
Proof. intros [Hb Hi]. unfold lock_list. rewrite Hb. by eexists. Qed.
Lemma locked_busy s b i k : locked s b i k -> psk_busy k = false -> exists s', lock_busy i s = inr (tt, s') /\ locked s' b i (set_busy true k).
Proof. intros H Hb. unfold lock_busy. rewrite (bind_run _ _ _ _ _ (get_run i s k ltac:(apply H))), Hb. by apply locked_upd. Qed.
Lemma locked_twice {A} (m : M A) s i k : locked s true i k -> bind lock_list (fun _ => m) s = inl Waits_for_itself.
Proof. intros [Hb _]. unfold bind, lock_list. by rewrite Hb. Qed.

(** C23: The last reference of a socket that is not connected goes while no transmitter uses it:
    [decrement_sockref_count] calls [delete_socket] with [socklist_lock] taken, and that
    takes it again. *)
Theorem close_waits_for_itself host mem i k s :
  locked s false i k -> 0 <= i < 50 -> psk_busy k = false -> psk_refcount k = 1 -> psk_transmitterusing k = 0 ->
  psk_type k <> SOCK_STREAM \/ saddr_port (psk_peer k) = -1 \/ saddr_port (psk_peer k) = 0 ->
  decrement_sockref_count host mem (i + SOCKHANDLEBEGIN) s = inl Waits_for_itself.
Proof.
  intros Hl Hi Hb Hr Hu Hc. unfold decrement_sockref_count. unfold socket_handle, SOCKHANDLEBEGIN, SOCKHANDLEEND.
  destruct (Z.leb_spec 100 (i + 100)), (Z.ltb_spec (i + 100) 150); try lia. cbn [andb negb]. cbv zeta. replace (i + 100 - 100) with i by lia.
  vstep (locked_list s i k Hl). vstep (locked_busy s0 true i k V Hb). vstep (locked_upd (fun k => set_refcount (s16 (psk_refcount k - 1)) k) s1 true i _ V0).
  rewrite (bind_run _ _ _ _ _ (get_run i s2 _ ltac:(apply V1))). cbn [set_refcount set_busy psk_refcount psk_type psk_peer psk_transmitterusing]. rewrite Hr, Hu. cbn [Z.eqb].
  change (0 <? s16 (1 - 1)) with false. cbn iota.
  assert ((psk_type k =? SOCK_STREAM) && negb (saddr_port (psk_peer k) =? -1) && negb (saddr_port (psk_peer k) =? 0) = false) as ->.
  { destruct (Z.eqb_spec (psk_type k) SOCK_STREAM), (Z.eqb_spec (saddr_port (psk_peer k)) (-1)), (Z.eqb_spec (saddr_port (psk_peer k)) 0); try done. tauto. }
  unfold delete_socket. vstep (locked_upd (fun k => set_using 1 (set_port 0 k)) s2 true i _ V1). unfold unlock_busy. vstep (locked_upd (set_busy false) s3 true i _ V2). by eapply locked_twice.
Qed.

(** A datagram to the port of the socket that sends it: [sock_send] is called with
    [psk_busy] taken, and [locate_socket] takes it again. *)
Theorem send_to_self_waits host hs i k d s :
  locked s false i k -> 0 <= i < 50 -> 0 <= hs < 20 -> zget (fhandles s) hs = Some (i + SOCKHANDLEBEGIN) -> psk_busy k = false -> psk_type k = SOCK_DGRAM ->
  find_socket (psk_port k) SOCK_DGRAM (socktable s) (socklist s) = Some (Some i) -> 0 < zlen d <= Kmalloc.MALLOC_MAX ->
  syscall_sendto host (true, true) hs d host (psk_port k) s = inl Waits_for_itself.
Proof.
  intros [Hl Hi] Hr Hh Hz Hb Ht Hf Hd. unfold syscall_sendto. destruct (handle_run hs i s Hz Hr Hh) as (-> & Hrun & Hsock & Hsub). rewrite (bind_run _ _ _ _ _ Hrun), Hsock, Hsub. cbn [negb].
  rewrite (bind_run _ _ _ _ _ (get_run i s k Hi)), Ht. cbn [Z.eqb Pos.eqb SOCK_DGRAM negb]. unfold send_locked, bind at 1, lock_list. rewrite Hl. unfold bind at 1, lock_busy, bind at 1, get_sock. cbn [set_lock socktable].
  rewrite Hi, Hb, (upd_run i _ (set_lock true s) k Hi). unfold bind at 1, sock_send. cbn [fst snd negb]. rewrite (kmalloc_given _ Hd). cbn [negb]. unfold bind at 1, get_sock. cbn [set_table set_lock socktable]. rewrite (zget_insert_eq _ _ _ _ Hi). cbv zeta.
  unfold bind at 1. rewrite (upd_run i _ _ (set_busy true k)) by (by apply (zget_insert_eq _ _ k)). cbn [saddr_host saddr_port saddr_type]. rewrite Z.eqb_refl.
  unfold bind at 1, locate_socket, bind at 1, find_port. cbn [set_table set_lock socktable socklist].
  rewrite list_insert_insert_eq, (find_socket_insert _ _ _ _ _ k), Hf by done. unfold bind at 1, lock_busy, bind at 1, get_sock. cbn [set_table set_lock socktable].
  by rewrite (zget_insert_eq _ _ k).
Qed.

(** * What a closed connection loses *)

(** Sockets [i] and [j] whatever the list of sockets is. *)
Definition two (s : net) (b : bool) (i : Z) (ki : proc_sock) (j : Z) (kj : proc_sock) (h : list Z) : Prop :=
  i <> j /\ zget (socktable s) i = Some ki /\ zget (socktable s) j = Some kj /\ socklist_lock s = b /\ fhandles s = h.
Lemma two_upd f s b i ki j kj h : two s b i ki j kj h -> exists s', upd i f s = inr (tt, s') /\ two s' b i (f ki) j kj h.
Proof.
  intros (Hn & Hi & Hj & Hb & Hh). eexists. split; [by apply upd_run|]. split; [done|]. cbn. rewrite (zget_insert_eq _ _ _ _ Hi), (zget_insert_ne _ _ _ _ _ Hi Hn). done.
Qed.
Lemma two_lock s i ki j kj h : two s false i ki j kj h -> exists s', lock_list s = inr (tt, s') /\ two s' true i ki j kj h.
Proof. intros (Hn & Hi & Hj & Hb & Hh). unfold lock_list. rewrite Hb. by eexists. Qed.
Lemma two_busy s b i ki j kj h : two s b i ki j kj h -> psk_busy ki = false -> exists s', lock_busy i s = inr (tt, s') /\ two s' b i (set_busy true ki) j kj h.
Proof. intros Hv Hb. unfold lock_busy. rewrite (bind_run _ _ _ _ _ (get_run i s ki ltac:(apply Hv))), Hb. by apply two_upd. Qed.
Lemma two_modify f s b b' i ki j kj h :
  two s b i ki j kj h -> socktable (f s) = socktable s -> fhandles (f s) = fhandles s -> socklist_lock (f s) = b' -> exists s', modify f s = inr (tt, s') /\ two s' b' i ki j kj h.
Proof. intros (Hn & Hi & Hj & Hb & Hh) Ht Hf Hl. eexists. split; [done|]. split; [done|]. by rewrite Ht, Hf. Qed.

Lemma delete_two s i ki j kj h : two s false i ki j kj h -> exists s' ki', delete_socket i s = inr (tt, s') /\ two s' false i ki' j kj h.
Proof.
  intros V. unfold delete_socket, unlock_list, unlock_busy.
  vstep (two_upd (fun k => set_using 1 (set_port 0 k)) s false i _ j kj h V). vstep (two_upd (set_busy false) s0 false i _ j kj h V0). vstep (two_lock s1 i _ j kj h V1).
  vstep (two_busy s2 true i _ j kj h V2). vstep (two_modify (fun s => set_list (filter (fun j => j <> i) (socklist s)) s) s3 true true i _ j kj h V3 eq_refl eq_refl ltac:(apply V3)).
  vstep (two_modify (set_lock false) s4 true false i _ j kj h V4).
  vstep (two_upd (fun k => set_sndpkt [] (set_rcvpkt [] k)) s5 false i _ j kj h V5). vstep (two_upd (set_busy false) s6 false i _ j kj h V6).
  destruct (two_upd (set_type SOCK_UNUSED) s7 false i _ j kj h V7) as (s8 & E & V8). by exists s8, (set_type SOCK_UNUSED (set_busy false (set_sndpkt [] (set_rcvpkt [] (set_busy true (set_busy false (set_using 1 (set_port 0 ki)))))))).
Qed.

(** The closing message to a socket of this host only clears its peer. *)
Lemma local_close host s i ki j kj h d groupid tag nb :
  view s true i ki j kj h -> psk_busy kj = false -> 0 < zlen d <= Kmalloc.MALLOC_MAX ->
  exists s', sock_send host (true, true) i (mk_sa (psk_type kj) host (psk_port kj)) d PKTTYPE_CONNECTCLOSE groupid tag nb s = inr (Value (zlen d), s') /\
    two s' true i (set_sndseqid (u32 (psk_sndseqid ki + 1)) ki) j (set_peer (mk_sa (saddr_type (psk_peer kj)) 0 0) kj) h.
Proof.
  intros Hv Hb Hd. unfold sock_send. cbn [fst snd negb]. rewrite (kmalloc_given _ Hd). cbn [negb]. rewrite (bind_run _ _ _ _ _ (get_run i s ki ltac:(apply Hv))). cbv zeta.
  vstep (view_upd_i (set_sndseqid (u32 (psk_sndseqid ki + 1))) s true i ki j kj h Hv). cbn [saddr_host saddr_port saddr_type]. rewrite Z.eqb_refl.
  destruct (view_busy_j s0 true i _ j kj h V Hb) as (s1 & E1 & V1).
  assert (locate_socket (psk_port kj) (psk_type kj) s0 = inr (Some j, s1)) as Hl.
  { unfold locate_socket, find_port. unfold bind at 1. destruct V as (_ & _ & _ & _ & -> & _). by rewrite (bind_run _ _ _ _ _ E1). }
  rewrite (bind_run _ _ _ _ _ Hl), Z.eqb_refl.
  vstep (view_upd_j (fun k => set_peer (mk_sa (saddr_type (psk_peer k)) 0 0) k) s1 true i _ j _ h V1). unfold unlock_busy.
  vstep (view_upd_j (set_busy false) s2 true i _ j _ h V0). eexists. split; [done|]. destruct V2 as (Hn & Hi & Hj & Hlk & _ & Hh). split_and!; try done.
  rewrite Hj. f_equal. destruct kj. cbn in *. by subst.
Qed.

(** One end of a connection within a host sends and closes: the other end finds the
    connection closed at its next call and gets none of the bytes that are waiting for it. *)
Theorem close_loses_pending host hs hr i j P s ki :
  pipe host hs hr i j P s -> zget (socktable s) i = Some ki -> psk_refcount ki = 1 -> 0 < saddr_port (psk_peer ki) ->
  exists s' kj, syscall_close_socket host (true, true) hs s = inr (0, s') /\ zget (socktable s') j = Some kj /\ pending (psk_rcvpkt kj) = P /\
    forall n flags, syscall_recv hr n flags s' = inr ((Value ECONNECTIONCLOSED, []), s').
Proof.
  intros (ki' & kj & h & Hv & Hi & Hj & Hhs & Hhr & Hzs & Hzr & Hbi & Hbj & Hti & Htj & Hpeer & Hp0 & Hpj & Hok & _ & HP) Hki Href Hport.
  assert (ki' = ki) as -> by (destruct Hv as (_ & ? & _); congruence). unfold syscall_close_socket.
  destruct (handle_run hs i s) as (-> & Hrun & Hsock & Hsub); [destruct Hv as (_ & _ & _ & _ & _ & ->); done|done|done|]. rewrite (bind_run _ _ _ _ _ Hrun), Hsock. cbn [negb].
  assert (exists s', decrement_sockref_count host (true, true) (i + SOCKHANDLEBEGIN) s = inr (tt, s') /\ exists k', two s' false i k' j (set_peer (mk_sa (saddr_type (psk_peer kj)) 0 0) kj) h) as (s' & E & k' & V).
  { unfold decrement_sockref_count. rewrite Hsock, Hsub. cbn [negb]. vstep (view_lock s i ki j kj h Hv). vstep (view_busy_i s0 true i ki j kj h V Hbi).
    vstep (view_upd_i (fun k => set_refcount (s16 (psk_refcount k - 1)) k) s1 true i _ j kj h V0). rewrite (bind_run _ _ _ _ _ (get_run i s2 _ ltac:(apply V1))).
    cbn [set_refcount set_busy psk_refcount psk_type psk_peer]. rewrite Href, Hti, Hpeer in *. cbn [saddr_port saddr_host] in *. change (0 <? s16 (1 - 1)) with false. cbn iota.
    destruct (Z.eqb_spec (psk_port kj) (-1)), (Z.eqb_spec (psk_port kj) 0); try lia. cbn [negb andb Z.eqb Pos.eqb SOCK_STREAM]. cbv zeta. rewrite <- Htj.
    destruct (local_close host s2 i _ j kj h (request_bytes (mk_cr PKTTYPE_CONNECTCLOSE (mk_sa (psk_type kj) host (psk_port kj)) (mk_sa (psk_type kj) host (psk_port ki)))) 0 (-1) 1 V1 Hbj ltac:(by vm_compute)) as (s3 & Hsend & V2).
    rewrite (bind_run _ _ _ _ _ Hsend). clear Hsend. unfold unlock_list. vstep (two_modify (set_lock false) s3 true false i _ j _ h V2). rewrite (bind_run _ _ _ _ _ (get_run i s4 _ ltac:(apply V3))).
    cbn [set_sndseqid set_refcount set_busy psk_peer]. rewrite Hpeer. cbn [saddr_host]. rewrite Z.eqb_refl. cbn [negb].
    destruct (delete_two s4 i _ j _ h V3) as (s5 & k5 & E5 & V5). by exists s5; eauto. }
  rewrite (bind_run _ _ _ _ _ E). exists s', (set_peer (mk_sa (saddr_type (psk_peer kj)) 0 0) kj). split; [done|]. destruct V as (_ & _ & Hj' & _ & Hh). split; [done|]. split; [done|].
  intros n flags. unfold syscall_recv. destruct (handle_run hr j s') as (-> & Hrun' & Hsock' & Hsub'); [by rewrite Hh|done|done|]. rewrite (bind_run _ _ _ _ _ Hrun'), Hsock', Hsub'. cbn [negb].
  rewrite (bind_run _ _ _ _ _ (get_run j s' _ Hj')). cbn [set_peer psk_type]. rewrite Htj. cbn [Z.eqb Pos.eqb SOCK_STREAM negb]. unfold recv_fromsock_stream.
  by rewrite (bind_run _ _ _ _ _ (get_run j s' _ Hj')).
Qed.

(** * A connection within host 2 *)

Definition ex_empty : net :=
  mk_net (replicate 50 (mk_sock SOCK_UNUSED 0 0 0 [] [] (mk_sa 0 0 0) 0 0 false)) [] false 0x4000 ([-1; -1; -1] ++ replicate 17 (-3)) [].
(** A server at port 80 and a client; the client asks, the server accepts, the client reads
    the answer. *)
Definition ex_handshake : M (Z * Z * reply * reply * reply) :=
  a <-- syscall_socket SOCK_STREAM;
  syscall_bind ex_hw 2 (Some []) a 80;;
  b <-- syscall_socket SOCK_STREAM;
  syscall_bind ex_hw 2 (Some []) b 0;;
  r1 <-- syscall_connect 2 (true, true) b 2 80;
  r2 <-- syscall_accept ex_hw 2 (true, true) (Some []) a;
  r3 <-- connect_2 1;
  ret (a, b, r1, r2, r3).
Definition after {A} (m : M A) (s : net) : net := match m s with inr (_, s) => s | inl _ => s end.
Definition ex_net : net := Eval vm_compute in after ex_handshake ex_empty.
Lemma ex_handshake_runs : ex_handshake ex_empty = inr ((3, 4, Sleep, Value 5, Value 0), ex_net).
Proof. by vm_compute. Qed.
(** Client and new socket have each other's address. *)
Lemma ex_handshake_peers :
  psk_peer <$> zget (socktable ex_net) 1 = Some (mk_sa SOCK_STREAM 2 16385) /\ psk_port <$> zget (socktable ex_net) 1 = Some 16384 /\
  psk_peer <$> zget (socktable ex_net) 2 = Some (mk_sa SOCK_STREAM 2 16384) /\ psk_port <$> zget (socktable ex_net) 2 = Some 16385.
Proof. by vm_compute. Qed.

Lemma ex_pipe : pipe 2 4 5 1 2 [] ex_net.
Proof.
  destruct (zget (socktable ex_net) 1) as [ki|] eqn:Ei; [|vm_compute in Ei; discriminate Ei]. destruct (zget (socktable ex_net) 2) as [kj|] eqn:Ej; [|vm_compute in Ej; discriminate Ej].
  exists ki, kj, (fhandles ex_net). vm_compute in Ei, Ej. injection Ei as <-. injection Ej as <-. split; [by split_and!|]. split_and!; try reflexivity; try lia; try discriminate; constructor.
Qed.

Lemma pipe_fifo_witness :
  exists s', pipe_run 2 4 5 [Recv 5 0; Send (true, true) [1; 2; 3]; Recv 2 0; Send (true, true) []; Send (true, false) [9]; Recv 100 1] ex_net =
      inr ([(Sleep, []); (Value 3, []); (Value 2, [1; 2]); (Value ENOMEM, []); (Value ENOMEM, []); (Value 1, [3])], s') /\ pipe 2 4 5 1 2 [] s'.
Proof.
  apply (pipe_fifo 2 4 5 1 2 [] [Recv 5 0; Send (true, true) [1; 2; 3]; Recv 2 0; Send (true, true) []; Send (true, false) [9]; Recv 100 1] ex_net); [apply ex_pipe|].
  repeat (constructor; [cbn; lia|]). constructor.
Defined.

(** The client sends three bytes. *)
Definition ex_sent : net := Eval vm_compute in after (syscall_send 2 (true, true) 4 [7; 8; 9]) ex_net.
Lemma ex_sent_pipe : pipe 2 4 5 1 2 [7; 8; 9] ex_sent.
Proof. destruct (pipe_send 2 4 5 1 2 [] ex_net (true, true) [7; 8; 9] ex_pipe) as (s' & E & H). vm_compute in E. injection E as <-. exact H. Qed.
Lemma close_loses_pending_witness :
  exists s' kj, syscall_close_socket 2 (true, true) 4 ex_sent = inr (0, s') /\ zget (socktable s') 2 = Some kj /\ pending (psk_rcvpkt kj) = [7; 8; 9] /\
    forall n flags, syscall_recv 5 n flags s' = inr ((Value ECONNECTIONCLOSED, []), s').
Proof.
  destruct (zget (socktable ex_sent) 1) as [ki|] eqn:Ei; [|vm_compute in Ei; discriminate Ei].
  apply (close_loses_pending 2 4 5 1 2 [7; 8; 9] ex_sent ki ex_sent_pipe Ei); vm_compute in Ei; injection Ei as <-; done.
Defined.

(** Socket 1 as one of host 1 sends to socket 2 as one of host 2. *)
Lemma network_stream_witness :
  exists sa' p t p' q rb' sb', sock_send 1 (true, true) 1 (mk_sa SOCK_STREAM 2 16385) [200; 100; 50] PKTTYPE_DATA 0 (-1) 1 ex_net = inr (Value 3, sa') /\
    psock_send_pkt ex_hw 1 p = Some t /\ exchange ex_hw 1 2 ex_luck (mk_sa SOCK_STREAM 2 16385) (Some (3, 3)) 3 t (Some ex_sock) (initial [] 0 1 4) ex_receiver = Some (p', rb') /\
    queued rb' = [q] /\ (queue_packet q;; recv_fromsock_stream 2 10 0) ex_net = inr ((Value 3, [200; 100; 50]), sb').
Proof.
  destruct (zget (socktable ex_net) 1) as [ki|] eqn:Ei; [|vm_compute in Ei; discriminate Ei]. destruct (zget (socktable ex_net) 2) as [kj|] eqn:Ej; [|vm_compute in Ej; discriminate Ej].
  destruct (network_stream ex_hw 1 2 ex_luck (mk_sa SOCK_STREAM 2 16385) (Some (3, 3)) 1 ki (mk_sa SOCK_STREAM 2 16385) [200; 100; 50] ex_net ex_sock (initial [] 0 1 4) ex_receiver 2 kj 10 0 ex_net)
    as (sa' & p & Hs & Hp & Hrest); try done; try (vm_compute in Ei; injection Ei as <-; done); try (vm_compute in Ej; injection Ej as <-; first [done|apply Forall_nil_2]).
  { apply ex_hw_ok. } { split; [done|]. split; [done|]. exists (replicate 10 0). split; [done|]. by apply Forall_replicate. } { by repeat constructor. }
  destruct Hrest as (t & p' & q & rb' & sb' & H1 & H2 & _ & H3 & H4).
  { vm_compute in Ei. injection Ei as <-. vm_compute in Hs. injection Hs as <-. vm_compute in Hp. injection Hp as <-.
    split; [done|]. split; [done|]. split; [by eexists|]. split; [by apply Forall_replicate|]. by exists None. }
  exists sa', p, t, p', q, rb', sb'. split; [exact Hs|]. split; [exact H1|]. split; [exact H2|]. split; [exact H3|].
  vm_compute in Ej. injection Ej as <-. exact H4.
Defined.

Lemma ex_net_valid : valid_list ex_net.
Proof. split; [|by vm_compute; lia]. repeat (constructor; [by eexists; vm_compute|]). constructor. Qed.
Lemma ex_differ : ports_differ ex_net.
Proof.
  intros a b ka kb Ha Hb Hka Hkb [Hp _] _. change (socklist ex_net) with [2; 1; 0] in Ha, Hb. rewrite !elem_of_cons in Ha, Hb.
  assert (forall x y, Some x = Some y -> psk_port y = psk_port x) by (by intros x y [= <-]).
  destruct Ha as [-> |[-> |[-> |Ha]]], Hb as [-> |[-> |[-> |Hb]]]; try done; try (by apply elem_of_nil in Ha); try (by apply elem_of_nil in Hb);
    vm_compute in Hka, Hkb; injection Hka as <-; injection Hkb as <-; vm_compute in Hp; discriminate Hp.
Qed.
Lemma bind_takes_port_witness :
  exists k, zget (socktable ex_net) 1 = Some k /\
  ((80 <> 0 /\ 80 ∈ ports (psk_type k) (socktable ex_net) (socklist ex_net) /\ syscall_bind ex_hw 2 (Some []) 4 80 ex_net = inr (EPORTALREADYEXISTS, ex_net)) \/
   (exists p s', syscall_bind ex_hw 2 (Some []) 4 80 ex_net = inr (0, s') /\ bound 1 k p ex_net s' /\ (80 <> 0 -> p = 80) /\
      p ∉ ports (psk_type k) (socktable ex_net) (socklist ex_net) /\ ports_differ s')).
Proof.
  destruct (zget (socktable ex_net) 1) as [k|] eqn:Ei; [|vm_compute in Ei; discriminate Ei]. exists k. split; [done|].
  by apply (bind_takes_port ex_hw 2 (Some []) 4 1 80 k ex_net eq_refl ex_net_valid ex_differ Ei).
Defined.

(** The server's first socket is not connected; a datagram socket bound to port 9. *)
Lemma close_waits_for_itself_witness : decrement_sockref_count 2 (true, true) 100 ex_net = inl Waits_for_itself.
Proof.
  destruct (zget (socktable ex_net) 0) as [k|] eqn:Ei; [|vm_compute in Ei; discriminate Ei].
  apply (close_waits_for_itself 2 (true, true) 0 k ex_net); [by split|done|..]; vm_compute in Ei; injection Ei as <-; try done. by right; left.
Defined.
Definition ex_dgram : net := Eval vm_compute in after (a <-- syscall_socket SOCK_DGRAM; syscall_bind ex_hw 2 (Some []) a 9) ex_empty.
Lemma send_to_self_waits_witness : syscall_sendto 2 (true, true) 3 [1; 2] 2 9 ex_dgram = inl Waits_for_itself.
Proof.
  destruct (zget (socktable ex_dgram) 0) as [k|] eqn:Ei; [|vm_compute in Ei; discriminate Ei].
  assert (psk_port k = 9) as Hp by (vm_compute in Ei; injection Ei as <-; done). rewrite <- Hp.
  apply (send_to_self_waits 2 3 0 k [1; 2] ex_dgram); [by split|done|done|done|..]; vm_compute in Ei; injection Ei as <-; done.
Defined.
End Socket.
