(* ===== verification/Strings.v ===== *)
(** Character strings: base/string.c, whose functions lib/string.c repeats for
    user programs.  Memory is an array of [char]s and a pointer an index into
    it, so that the source and the destination of a copy can overlap as they can
    in C. *)
From S2P Require Import Prelude.

Module Strings.

Abbreviation mem := (list Z).
Definition NULLP : Z := 0.

(** * Copies *)

(** Every loop below moves an index up one byte at a time and stops at a byte
    of memory at the latest; [fuel] is the size of the memory, which no index
    can pass. *)
Definition turns (m : mem) : nat := S (length m).

Fixpoint strlen_loop (fuel : nat) (m : mem) (src i : Z) : option Z :=
  match fuel with
  | O => None
  | S fuel => c ← zget m (src + i); if c =? 0 then Some i else strlen_loop fuel m src (i + 1)
  end.
Definition strlen (m : mem) (src : Z) : option Z := strlen_loop (turns m) m src 0.

Fixpoint strnlen_loop (fuel : nat) (m : mem) (src i n : Z) : option Z :=
  match fuel with
  | O => None
  | S fuel =>
      if n =? 0 then Some i else
      c ← zget m (src + i); if c =? 0 then Some i else strnlen_loop fuel m src (i + 1) (n - 1)
  end.
Definition strnlen (m : mem) (src n : Z) : option Z := strnlen_loop (turns m) m src 0 n.

Fixpoint strcpy_loop (fuel : nat) (m : mem) (dest src i : Z) : option (Z * mem) :=
  match fuel with
  | O => None
  | S fuel =>
      c ← zget m (src + i);
      if c =? 0 then Some (i, m) else m ← zset m (dest + i) c; strcpy_loop fuel m dest src (i + 1)
  end.
Definition strcpy (m : mem) (dest src : Z) : option (Z * mem) :=
  if (dest =? NULLP) || (src =? NULLP) then Some (dest, m) else
  '(i, m) ← strcpy_loop (turns m) m dest src 0;
  m ← zset m (dest + i) 0;
  Some (dest, m).

(** [for (i = 0; i <= l; i++) dest[i] = src[i]], [n] turns. *)
Fixpoint copy_loop (n : nat) (m : mem) (dest src i : Z) : option mem :=
  match n with
  | O => Some m
  | S n => c ← zget m (src + i); m ← zset m (dest + i) c; copy_loop n m dest src (i + 1)
  end.
Definition strcat (m : mem) (dest src : Z) : option (Z * mem) :=
  if (dest =? NULLP) || (src =? NULLP) then Some (dest, m) else
  l ← strlen m src;
  d ← strlen m dest;
  m ← copy_loop (Z.to_nat (l + 1)) m (dest + d) src 0;
  Some (dest + d, m).

(** [n] is unsigned: the test [n - 1] of a zero [n] is a large number. *)
Fixpoint strncpy_loop (fuel : nat) (m : mem) (dest src i n : Z) : option (Z * mem) :=
  match fuel with
  | O => None
  | S fuel =>
      if u32 (n - 1) =? 0 then Some (i, m) else
      c ← zget m (src + i);
      if c =? 0 then Some (i, m) else m ← zset m (dest + i) c; strncpy_loop fuel m dest src (i + 1) (u32 (n - 1))
  end.
Definition strncpy (m : mem) (dest src n : Z) : option (Z * mem) :=
  if (dest =? NULLP) || (src =? NULLP) then Some (dest, m) else
  '(i, m) ← strncpy_loop (turns m) m dest src 0 n;
  m ← zset m (dest + i) 0;
  Some (dest, m).

Definition strncat (m : mem) (dest src n : Z) : option (Z * mem) :=
  if (dest =? NULLP) || (src =? NULLP) then Some (dest, m) else
  l ← strlen m src;
  let l := if u32 l <=? n then l else s32 n in
  d ← strlen m dest;
  m ← copy_loop (Z.to_nat (l + 1)) m (dest + d) src 0;
  Some (dest + d, m).

(** * Comparisons *)

(** The loop of [strcmp] ([lim] is [None]) and of [strncmp], whose bound
    [i < n - 1] is unsigned. *)
Fixpoint cmp_loop (f : Z -> Z) (lim : option Z) (fuel : nat) (m : mem) (dest src i : Z) : option Z :=
  match fuel with
  | O => None
  | S fuel =>
      let go := match lim with Some n => u32 i <? u32 (n - 1) | None => true end in
      a ← zget m (dest + i); b ← zget m (src + i);
      if (go && (f a =? f b) && negb (a =? 0) && negb (b =? 0))%bool then cmp_loop f lim fuel m dest src (i + 1)
      else Some (f a - f b)
  end.
Definition strcmp (m : mem) (dest src : Z) : option Z :=
  if dest =? src then Some 0 else cmp_loop id None (turns m) m dest src 0.
Definition strncmp (m : mem) (dest src n : Z) : option Z :=
  if dest =? src then Some 0 else cmp_loop id (Some n) (turns m) m dest src 0.

(** * Character classes *)

Definition toupper (ch : Z) : Z := if (97 <=? ch) && (ch <=? 122) then 65 + (ch - 97) else ch.
Definition tolower (ch : Z) : Z := if (65 <=? ch) && (ch <=? 90) then 97 + (ch - 65) else ch.
Definition isspace (ch : Z) : Z := if (ch =? 32) || (ch =? 9) || (ch =? 10) then 1 else 0.
Definition isalpha (ch : Z) : Z :=
  if ((97 <=? ch) && (ch <=? 122)) || ((65 <=? ch) && (ch <=? 90)) then 1 else 0.
Definition isnum (ch : Z) : Z := if (48 <=? ch) && (ch <=? 57) then 1 else 0.
Definition isdigit (ch : Z) : Z := if (48 <=? ch) && (ch <=? 57) then 1 else 0.
Definition isxdigit (ch : Z) : Z :=
  if ((48 <=? ch) && (ch <=? 57)) || ((97 <=? ch) && (ch <=? 102)) || ((65 <=? ch) && (ch <=? 70)) then 1 else 0.

(** Of lib/string.c only. *)
Definition strcasecmp (m : mem) (dest src : Z) : option Z :=
  if dest =? src then Some 0 else cmp_loop toupper None (turns m) m dest src 0.
Definition strncasecmp (m : mem) (dest src n : Z) : option Z :=
  if dest =? src then Some 0 else cmp_loop toupper (Some n) (turns m) m dest src 0.

(** * Searches *)

(** The [do .. while] of [strstr]: does [sub] start at [bp]? *)
Fixpoint match_here (fuel : nat) (m : mem) (bp sp : Z) : option bool :=
  match fuel with
  | O => None
  | S fuel =>
      s ← zget m sp;
      if s =? 0 then Some true else
      b ← zget m bp;
      if b =? s then match_here fuel m (bp + 1) (sp + 1) else Some false
  end.
Fixpoint strstr_loop (fuel : nat) (m : mem) (buf sub : Z) : option Z :=
  match fuel with
  | O => None
  | S fuel =>
      c ← zget m buf;
      if c =? 0 then Some 0 else
      found ← match_here (turns m) m buf sub;
      if (found : bool) then Some buf else strstr_loop fuel m (buf + 1) sub
  end.
Definition strstr (m : mem) (buf sub : Z) : option Z :=
  c ← zget m sub;
  if c =? 0 then Some buf else strstr_loop (turns m) m buf sub.

Fixpoint strchr_loop (fuel : nat) (m : mem) (s c : Z) : option Z :=
  match fuel with
  | O => None
  | S fuel =>
      x ← zget m s;
      if x =? s8 c then Some s else if x =? 0 then Some NULLP else strchr_loop fuel m (s + 1) c
  end.
Definition strchr (m : mem) (s c : Z) : option Z := strchr_loop (turns m) m s c.

(** * Strings in memory *)

(** The bytes from [p] on are [s]. *)
Fixpoint spells (m : mem) (p : Z) (s : list Z) : Prop :=
  match s with [] => True | c :: s => zget m p = Some c /\ spells m (p + 1) s end.

(** The C string at [p] is [s]. *)
Definition cstr (m : mem) (p : Z) (s : list Z) : Prop := Forall (fun c => c <> 0) s /\ spells m p (s ++ [0]).

(** [m'] is [m] with [s] written at [p] and nothing else changed. *)
Definition placed (m m' : mem) (p : Z) (s : list Z) : Prop :=
  zlen m' = zlen m /\ spells m' p s /\ forall a, a < p \/ p + zlen s <= a -> zget m' a = zget m a.

Lemma zlen_cons {A} (x : A) l : zlen (x :: l) = zlen l + 1.
Proof. unfold zlen. simpl. lia. Qed.
Lemma zlen_app {A} (l1 l2 : list A) : zlen (l1 ++ l2) = zlen l1 + zlen l2.
Proof. unfold zlen. rewrite length_app. lia. Qed.
Lemma zlen_nonneg {A} (l : list A) : 0 <= zlen l.
Proof. unfold zlen. lia. Qed.
Hint Rewrite @zlen_cons @zlen_app : width_rw.

Lemma spells_frame m m' p s :
  spells m p s -> (forall a, p <= a < p + zlen s -> zget m' a = zget m a) -> spells m' p s.
Proof.
  revert p. induction s as [|c s IH]; intros p; [done|]. intros [H1 H2] Hf. pose proof (zlen_nonneg s). rewrite zlen_cons in Hf.
  split; [rewrite Hf by lia; done|]. apply IH; [done|]. intros a Ha. apply Hf. lia.
Qed.

Lemma spells_app m p s1 s2 : spells m p (s1 ++ s2) <-> spells m p s1 /\ spells m (p + zlen s1) s2.
Proof.
  revert p. induction s1 as [|c s1 IH]; intros p; simpl.
  - change (zlen []) with 0. rewrite Z.add_0_r. tauto.
  - rewrite IH, zlen_cons. replace (p + 1 + zlen s1) with (p + (zlen s1 + 1)) by lia. tauto.
Qed.

Lemma spells_bound m p s : spells m p s -> s <> [] -> 0 <= p /\ p + zlen s <= zlen m.
Proof.
  revert p. induction s as [|c s IH]; intros p Hsp Hn; [done|]. destruct Hsp as [H1 H2]. apply zget_Some_range in H1 as Hr. rewrite zlen_cons.
  destruct s as [|c' s]; [change (zlen []) with 0; lia|]. destruct (IH (p + 1) H2); [done|]. lia.
Qed.

Lemma cstr_bound m p s : cstr m p s -> 0 <= p /\ p + zlen s < zlen m.
Proof. intros [_ H]. apply spells_bound in H; [|by destruct s]. rewrite zlen_app in H. change (zlen [0]) with 1 in H. lia. Qed.

Lemma cstr_nil m p : cstr m p [] <-> zget m p = Some 0.
Proof. unfold cstr. simpl. split; [tauto|]. intros. repeat split; auto. Qed.

Lemma cstr_cons m p c s : cstr m p (c :: s) <-> zget m p = Some c /\ c <> 0 /\ cstr m (p + 1) s.
Proof. unfold cstr. simpl. rewrite Forall_cons. tauto. Qed.

(** There is one string at an address. *)
Lemma cstr_unique m p s1 s2 : cstr m p s1 -> cstr m p s2 -> s1 = s2.
Proof.
  revert p s2. induction s1 as [|a s1 IH]; intros p [|b s2] H1 H2; first done.
  - apply cstr_nil in H1. apply cstr_cons in H2 as (? & ? & _). congruence.
  - apply cstr_nil in H2. apply cstr_cons in H1 as (? & ? & _). congruence.
  - apply cstr_cons in H1 as (? & ? & H1). apply cstr_cons in H2 as (? & ? & H2). f_equal; [congruence|eauto].
Qed.

Lemma cstr_fuel m p s : cstr m p s -> (length s < turns m)%nat.
Proof. intros H%cstr_bound. unfold turns, zlen in *. lia. Qed.

Lemma cstr_frame m m' p s :
  cstr m p s -> (forall a, p <= a <= p + zlen s -> zget m' a = zget m a) -> cstr m' p s.
Proof.
  intros [H1 H2] Hf. split; [done|]. apply (spells_frame m); [done|]. intros a Ha. apply Hf. rewrite zlen_app in Ha.
  change (zlen [0]) with 1 in Ha. lia.
Qed.

Lemma placed_nil m p : placed m m p [].
Proof. by repeat split. Qed.

Lemma placed_cons m m1 m' p c s : zset m p c = Some m1 -> placed m1 m' (p + 1) s -> placed m m' p (c :: s).
Proof.
  intros H1 (Hl & Hs & Hf). split; [by rewrite Hl, (zlen_zset _ _ _ _ H1)|]. split.
  - split; [|done]. rewrite Hf by lia. by apply (zget_zset_eq m).
  - rewrite zlen_cons. pose proof (zlen_nonneg s). intros a Ha. rewrite Hf by lia. apply (zget_zset_ne _ _ _ _ _ H1). lia.
Qed.

Lemma placed_snoc m m1 m' p c s : placed m m1 p s -> zset m1 (p + zlen s) c = Some m' -> placed m m' p (s ++ [c]).
Proof.
  intros (Hl & Hs & Hf) H1. split; [by rewrite (zlen_zset _ _ _ _ H1)|]. split.
  - apply spells_app. split.
    + apply (spells_frame m1); [done|]. intros a Ha. apply (zget_zset_ne _ _ _ _ _ H1). lia.
    + split; [by apply (zget_zset_eq m1)|done].
  - pose proof (zlen_nonneg s). rewrite zlen_app. change (zlen [c]) with 1. intros a Ha. rewrite (zget_zset_ne _ _ _ _ _ H1) by lia. apply Hf. lia.
Qed.

(** * Lengths and copies *)

Lemma strlen_loop_cstr fuel m src i s :
  cstr m (src + i) s -> (length s < fuel)%nat -> strlen_loop fuel m src i = Some (i + zlen s).
Proof.
  revert i s. induction fuel as [|fuel IH]; intros i s Hs Hf; [lia|]. cbn [strlen_loop]. destruct s as [|c s].
  - apply cstr_nil in Hs as ->. simpl. f_equal. change (zlen []) with 0. lia.
  - apply cstr_cons in Hs as (-> & Hc & Hs). cbn [mbind option_bind]. destruct (Z.eqb_spec c 0); [done|].
    rewrite (IH _ s); [rewrite zlen_cons; f_equal; lia|by rewrite Z.add_assoc|simpl in Hf; lia].
Qed.

Lemma strlen_cstr m p s : cstr m p s -> strlen m p = Some (zlen s).
Proof. intros Hs. unfold strlen. erewrite strlen_loop_cstr; [done|by rewrite Z.add_0_r|by apply (cstr_fuel m p)]. Qed.

Lemma strnlen_loop_cstr fuel m src i n s :
  cstr m (src + i) s -> (length s < fuel)%nat -> 0 <= n -> strnlen_loop fuel m src i n = Some (i + Z.min n (zlen s)).
Proof.
  revert i s n. induction fuel as [|fuel IH]; intros i s n Hs Hf Hn; [lia|]. cbn [strnlen_loop]. pose proof (zlen_nonneg s).
  destruct (Z.eqb_spec n 0) as [->|Hn0]; [f_equal; lia|]. destruct s as [|c s].
  - apply cstr_nil in Hs as ->. simpl. f_equal. change (zlen []) with 0. lia.
  - apply cstr_cons in Hs as (-> & Hc & Hs). cbn [mbind option_bind]. destruct (Z.eqb_spec c 0); [done|].
    rewrite (IH _ s); [rewrite zlen_cons; f_equal; lia|by rewrite Z.add_assoc|simpl in Hf; lia|lia].
Qed.

Lemma strnlen_cstr m p n s : cstr m p s -> 0 <= n -> strnlen m p n = Some (Z.min n (zlen s)).
Proof. intros Hs Hn. unfold strnlen. erewrite strnlen_loop_cstr; [done|by rewrite Z.add_0_r|by apply (cstr_fuel m p)|done]. Qed.

(** Going up, a copy may overlap its source from below. *)
Definition copy_ok (dest src n : Z) : Prop := dest <= src \/ src + n <= dest.

Lemma copy_loop_placed m dest src i s :
  spells m (src + i) s -> copy_ok (dest + i) (src + i) (zlen s) -> 0 <= dest + i -> dest + i + zlen s <= zlen m ->
  exists m', copy_loop (length s) m dest src i = Some m' /\ placed m m' (dest + i) s.
Proof.
  unfold copy_ok. revert m i. induction s as [|c s IH]; intros m i Hs Ho Hd Hl; cbn [copy_loop length]; [eauto using placed_nil|].
  destruct Hs as [-> Hs]. cbn [mbind option_bind]. rewrite zlen_cons in *. pose proof (zlen_nonneg s).
  pose proof (zset_Some m (dest + i) c ltac:(lia)) as Hz. rewrite Hz. cbn [mbind option_bind].
  destruct (IH (<[Z.to_nat (dest + i) := c]> m) (i + 1)) as (m' & -> & Hp); rewrite ?Z.add_assoc; try lia.
  - apply (spells_frame m); [done|]. intros a Ha. apply (zget_zset_ne _ _ _ _ _ Hz). lia.
  - rewrite (zlen_zset _ _ _ _ Hz). lia.
  - exists m'. split; [done|]. apply (placed_cons _ _ _ _ _ _ Hz). by rewrite <- Z.add_assoc.
Qed.

(** [strcpy]'s loop, and [strncpy]'s up to its limit, copies like [copy_loop]. *)
Lemma strcpy_loop_placed fuel m dest src i s :
  cstr m (src + i) s -> (length s < fuel)%nat -> copy_ok (dest + i) (src + i) (zlen s + 1) -> 0 <= dest + i ->
  dest + i + zlen s <= zlen m ->
  exists m', strcpy_loop fuel m dest src i = Some (i + zlen s, m') /\ placed m m' (dest + i) s.
Proof.
  unfold copy_ok. revert m i s. induction fuel as [|fuel IH]; intros m i s Hs Hf Ho Hd Hl; [lia|]. cbn [strcpy_loop]. destruct s as [|c s].
  - apply cstr_nil in Hs as ->. simpl. exists m. rewrite Z.add_0_r. eauto using placed_nil.
  - apply cstr_cons in Hs as (-> & Hc & Hs). cbn [mbind option_bind]. destruct (Z.eqb_spec c 0); [done|].
    rewrite zlen_cons in *. pose proof (zlen_nonneg s). pose proof (zset_Some m (dest + i) c ltac:(lia)) as Hz. rewrite Hz. cbn [mbind option_bind].
    destruct (IH (<[Z.to_nat (dest + i) := c]> m) (i + 1) s) as (m' & -> & Hp); rewrite ?Z.add_assoc; simpl in Hf; try lia.
    + apply (cstr_frame m); [done|]. intros a Ha. apply (zget_zset_ne _ _ _ _ _ Hz). lia.
    + rewrite (zlen_zset _ _ _ _ Hz). lia.
    + exists m'. split; [f_equal; f_equal; lia|]. apply (placed_cons _ _ _ _ _ _ Hz). by rewrite <- Z.add_assoc.
Qed.

Lemma placed_cstr m m' p s : Forall (fun c => c <> 0) s -> placed m m' p (s ++ [0]) -> cstr m' p s.
Proof. intros Hf (_ & Hs & _). by split. Qed.

(** [strcpy] copies the string.  The destination holds the source's string
    afterwards and nothing else in memory has changed; it may overlap the source
    from below but not run into it from above. *)
Theorem strcpy_copies m dest src s :
  cstr m src s -> src <> NULLP -> 0 < dest -> dest + zlen s < zlen m -> copy_ok dest src (zlen s + 1) ->
  exists m', strcpy m dest src = Some (dest, m') /\ cstr m' dest s /\ placed m m' dest (s ++ [0]).
Proof.
  intros Hs Hn Hd Hl Ho. unfold strcpy, NULLP in *. destruct (Z.eqb_spec dest 0); [lia|]. destruct (Z.eqb_spec src 0); [done|]. cbn [orb].
  destruct (strcpy_loop_placed (turns m) m dest src 0 s) as (m1 & -> & Hp); rewrite ?Z.add_0_r; auto; try lia.
  { by apply (cstr_fuel m src). }
  rewrite Z.add_0_r in Hp. cbn [mbind option_bind]. rewrite Z.add_0_l. destruct Hp as (Hl1 & Hp).
  pose proof (zlen_nonneg s). pose proof (zset_Some m1 (dest + zlen s) 0 ltac:(lia)) as Hz. rewrite Hz. cbn [mbind option_bind].
  eexists. split; [done|]. assert (placed m (<[Z.to_nat (dest + zlen s) := 0]> m1) dest (s ++ [0])) as HP
    by by apply (placed_snoc m m1). split; [|done]. apply (placed_cstr m); [apply Hs|done].
Qed.

(** [strcat] and [strncat]: the string at [dest] grows by the source's bytes. *)
Lemma append_spells m m' dest s1 s2 :
  cstr m dest s1 -> Forall (fun c => c <> 0) s2 -> placed m m' (dest + zlen s1) (s2 ++ [0]) -> cstr m' dest (s1 ++ s2).
Proof.
  intros [H1 H2] Hn (_ & Hs & Hf). split; [by apply Forall_app|]. rewrite <- app_assoc. apply spells_app. split; [|done].
  apply spells_app in H2 as [H2 _]. apply (spells_frame m); [done|]. intros a Ha. apply Hf. lia.
Qed.

(** [strcat] appends.  With room behind the destination string and the
    source outside what is written, the destination becomes the two strings one
    after the other; the pointer returned is the end of the old string, not its
    start as the C library has it. *)
Theorem strcat_appends m dest src s1 s2 :
  cstr m dest s1 -> cstr m src s2 -> 0 < dest -> 0 < src -> dest + zlen s1 + zlen s2 < zlen m ->
  copy_ok (dest + zlen s1) src (zlen s2 + 1) ->
  exists m', strcat m dest src = Some (dest + zlen s1, m') /\ cstr m' dest (s1 ++ s2) /\
    placed m m' (dest + zlen s1) (s2 ++ [0]).
Proof.
  intros H1 H2 Hd Hs Hl Ho. unfold strcat, NULLP. destruct (Z.eqb_spec dest 0); [lia|]. destruct (Z.eqb_spec src 0); [lia|]. cbn [orb].
  rewrite (strlen_cstr m src s2 H2), (strlen_cstr m dest s1 H1). cbn [mbind option_bind].
  replace (Z.to_nat (zlen s2 + 1)) with (length (s2 ++ [0])) by (rewrite length_app; unfold zlen; simpl; lia).
  pose proof (zlen_nonneg s1). assert (zlen (s2 ++ [0]) = zlen s2 + 1) as El by by rewrite zlen_app.
  destruct (copy_loop_placed m (dest + zlen s1) src 0 (s2 ++ [0])) as (m' & -> & Hp); rewrite ?Z.add_0_r, ?El; auto; try lia.
  { apply H2. }
  rewrite Z.add_0_r in Hp. cbn [mbind option_bind]. exists m'. split; [done|]. split; [|done].
  apply (append_spells m); [done|apply H2|done].
Qed.

(** * Comparisons *)

(** The difference of two strings at the first place where they differ, the
    end of a string counting as 0. *)
Fixpoint lexdiff (s1 s2 : list Z) : Z :=
  match s1, s2 with
  | [], [] => 0
  | a :: _, [] => a
  | [], b :: _ => - b
  | a :: s1, b :: s2 => if a =? b then lexdiff s1 s2 else a - b
  end.

Lemma lexdiff_eq s1 s2 :
  Forall (fun c => c <> 0) s1 -> Forall (fun c => c <> 0) s2 -> lexdiff s1 s2 = 0 <-> s1 = s2.
Proof.
  intros H1. revert s2. induction H1 as [|a s1 Ha H1 IH]; intros s2 H2; destruct H2 as [|b s2 Hb H2]; simpl; try done.
  - split; [lia|done].
  - destruct (Z.eqb_spec a b) as [->|Hne]; [rewrite IH by done; split; congruence|split; [lia|congruence]].
Qed.

(** The first [n] characters, or all of them. *)
Definition upto (lim : option Z) (i : Z) (s : list Z) : list Z :=
  match lim with Some n => take (Z.to_nat (n - i)) s | None => s end.

Lemma upto_nil lim i : upto lim i [] = [].
Proof. destruct lim; [apply take_nil|done]. Qed.

(** Looking at one more character; at the limit, none are left. *)
Lemma upto_cons lim i c s :
  (forall n, lim = Some n -> i < n) -> upto lim i (c :: s) = c :: upto lim (i + 1) s.
Proof.
  destruct lim as [n|]; [|done]. intros H. specialize (H n eq_refl). simpl.
  replace (Z.to_nat (n - i)) with (S (Z.to_nat (n - (i + 1)))) by lia. done.
Qed.

Section Compare.
Context (f : Z -> Z) (f_zero : forall c, f c = 0 <-> c = 0).

Lemma cmp_loop_spec lim fuel m dest src i s1 s2 :
  cstr m (dest + i) s1 -> cstr m (src + i) s2 -> (length s1 < fuel)%nat -> 0 <= i -> zlen m < 2 ^ 31 ->
  0 <= dest -> (forall n, lim = Some n -> i < n < 2 ^ 32) ->
  cmp_loop f lim fuel m dest src i = Some (lexdiff (f <$> upto lim i s1) (f <$> upto lim i s2)).
Proof.
  assert (f 0 = 0) as Hf0 by by apply f_zero.
  revert i s1 s2. induction fuel as [|fuel IH]; intros i s1 s2 H1 H2 Hf Hi Hm Hd Hlim; [lia|]. cbn [cmp_loop].
  pose proof (cstr_bound _ _ _ H1) as Hb. pose proof (zlen_nonneg s1).
  assert (exists a, zget m (dest + i) = Some a /\ a = hd 0 s1) as (a & -> & Ea).
  { destruct s1; [apply cstr_nil in H1|apply cstr_cons in H1 as [H1 _]]; eauto. }
  assert (exists b, zget m (src + i) = Some b /\ b = hd 0 s2) as (b & -> & Eb).
  { destruct s2; [apply cstr_nil in H2|apply cstr_cons in H2 as [H2 _]]; eauto. }
  cbn [mbind option_bind].
  assert (forall n, lim = Some n -> i < n) as Hlt by (intros n Hn; specialize (Hlim n Hn); lia).
  destruct s1 as [|c1 s1].
  - subst a. rewrite Z.eqb_refl, andb_false_r, andb_false_l, upto_nil. simpl. destruct s2 as [|c2 s2].
    + rewrite upto_nil. subst b. simpl. f_equal. lia.
    + rewrite upto_cons by done. subst b. simpl. f_equal. lia.
  - apply cstr_cons in H1 as (_ & Hc1 & H1). simpl in Ea. subst a. destruct (Z.eqb_spec c1 0) as [?|_]; [done|]. destruct s2 as [|c2 s2].
    + subst b. simpl hd. rewrite andb_false_r, upto_nil, (upto_cons lim i c1) by done. simpl. rewrite Hf0. f_equal. lia.
    + apply cstr_cons in H2 as (_ & Hc2 & H2). simpl in Eb. subst b. destruct (Z.eqb_spec c2 0) as [?|_]; [done|]. rewrite !andb_true_r.
      rewrite !upto_cons by done. rewrite !fmap_cons. cbn [lexdiff]. destruct (Z.eqb_spec (f c1) (f c2)) as [E|E]; [|by rewrite andb_false_r].
      rewrite andb_true_r. rewrite zlen_cons in Hb. pose proof (zlen_nonneg s1).
      assert (match lim with Some n => u32 i <? u32 (n - 1) | None => true end =
        match lim with Some n => i + 1 <? n | None => true end) as ->.
      { destruct lim as [n|]; [|done]. specialize (Hlim n eq_refl). rewrite !u32_id by lia.
        destruct (Z.ltb_spec i (n - 1)), (Z.ltb_spec (i + 1) n); lia || done. }
      assert (lim = Some (i + 1) \/ forall n, lim = Some n -> i + 1 < n < 2 ^ 32) as [->|Hnext].
      { destruct lim as [n|]; [|right; done]. specialize (Hlim n eq_refl). destruct (decide (n = i + 1)) as [->|]; [by left|].
        right. intros n' [= <-]. lia. }
      * rewrite Z.ltb_irrefl. simpl. replace (i + 1 - (i + 1)) with 0 by lia. change (Z.to_nat 0) with 0%nat.
        rewrite !take_0. simpl. f_equal. lia.
      * assert (match lim with Some n => i + 1 <? n | None => true end = true) as ->.
        { destruct lim as [n|]; [|done]. specialize (Hnext n eq_refl). apply Z.ltb_lt. lia. }
        apply IH; rewrite ?Z.add_assoc; auto; simpl in Hf; lia.
Qed.

End Compare.

Lemma toupper_zero c : toupper c = 0 <-> c = 0.
Proof. unfold toupper. destruct (Z.leb_spec 97 c); simpl; [|done]. destruct (Z.leb_spec c 122); lia. Qed.
Lemma id_zero (c : Z) : id c = 0 <-> c = 0.
Proof. done. Qed.

(** String comparison.  [strcmp] returns the difference of the two strings at
    the first place where they differ, so 0 exactly when they are equal;
    [strncmp] with a positive limit does the same for the first [n] characters;
    [strcasecmp] is 0 exactly when the strings are equal in upper case. *)
Theorem string_compare m p1 p2 s1 s2 n :
  cstr m p1 s1 -> cstr m p2 s2 -> zlen m < 2 ^ 31 -> 1 <= n < 2 ^ 32 ->
  strcmp m p1 p2 = Some (lexdiff s1 s2) /\ (lexdiff s1 s2 = 0 <-> s1 = s2) /\
  strncmp m p1 p2 n = Some (lexdiff (take (Z.to_nat n) s1) (take (Z.to_nat n) s2)) /\
  exists r, strcasecmp m p1 p2 = Some r /\ (r = 0 <-> toupper <$> s1 = toupper <$> s2).
Proof.
  intros H1 H2 Hm Hn. pose proof (cstr_bound _ _ _ H1) as [Hp _].
  assert (forall s, Forall (fun c => c <> 0) s -> Forall (fun c => c <> 0) (toupper <$> s)) as Hup.
  { intros s. induction 1; constructor; [by rewrite toupper_zero|done]. }
  assert (forall f lim, (forall c, f c = 0 <-> c = 0) -> (forall k, lim = Some k -> 0 < k < 2 ^ 32) -> p1 <> p2 ->
    cmp_loop f lim (turns m) m p1 p2 0 = Some (lexdiff (f <$> upto lim 0 s1) (f <$> upto lim 0 s2))) as Hgo.
  { intros f lim Hf Hlim _. apply cmp_loop_spec; rewrite ?Z.add_0_r; auto; try lia; by apply (cstr_fuel m p1). }
  assert (p1 = p2 -> s1 = s2) as Heq.
  { intros ->. by apply (cstr_unique m p2). }
  assert (forall s : list Z, lexdiff s s = 0) as Hrefl by (intros s; induction s as [|a s IH]; simpl; [done|by rewrite Z.eqb_refl]).
  split; [|split; [|split]].
  - unfold strcmp. destruct (Z.eqb_spec p1 p2) as [E|E]; [by rewrite (Heq E), Hrefl|].
    rewrite (Hgo id None id_zero) by done. simpl. by rewrite !list_fmap_id.
  - apply lexdiff_eq; [apply H1|apply H2].
  - unfold strncmp. destruct (Z.eqb_spec p1 p2) as [E|E]; [by rewrite (Heq E), Hrefl|].
    rewrite (Hgo id (Some n) id_zero); [|intros k [= <-]; lia|done]. simpl. by rewrite !list_fmap_id, Z.sub_0_r.
  - unfold strcasecmp. destruct (Z.eqb_spec p1 p2) as [E|E]; [exists 0; split; [done|]; by rewrite (Heq E)|].
    rewrite (Hgo toupper None toupper_zero) by done. eexists. split; [done|]. simpl. apply lexdiff_eq; apply Hup; [apply H1|apply H2].
Qed.

(** * Searches *)

Lemma match_here_spec fuel m bp sp s sub :
  cstr m bp s -> cstr m sp sub -> (length sub < fuel)%nat ->
  match_here fuel m bp sp = Some (bool_decide (sub `prefix_of` s)).
Proof.
  revert bp sp s sub. induction fuel as [|fuel IH]; intros bp sp s sub H1 H2 Hf; [lia|]. cbn [match_here]. destruct sub as [|b sub].
  - apply cstr_nil in H2 as ->. cbn [mbind option_bind]. by rewrite Z.eqb_refl, bool_decide_eq_true_2 by apply prefix_nil.
  - apply cstr_cons in H2 as (-> & Hb & H2). cbn [mbind option_bind]. destruct (Z.eqb_spec b 0) as [?|_]; [done|]. destruct s as [|a s].
    + apply cstr_nil in H1 as ->. cbn [mbind option_bind]. destruct (Z.eqb_spec 0 b); [congruence|].
      rewrite bool_decide_eq_false_2; [done|]. intros [k Hk]. done.
    + apply cstr_cons in H1 as (-> & _ & H1). cbn [mbind option_bind]. destruct (Z.eqb_spec a b) as [->|Hne].
      * rewrite (IH _ _ s sub) by (done || (simpl in Hf; lia)). f_equal. apply bool_decide_ext. split; [apply prefix_cons|apply prefix_cons_inv_2].
      * rewrite bool_decide_eq_false_2; [done|]. intros Hp%prefix_cons_inv_1. done.
Qed.

(** [r] is the place of the first occurrence of [sub] in [s], which is at [p]. *)
Definition first_occurrence (p : Z) (s sub : list Z) (r : Z) : Prop :=
  (exists k, r = p + Z.of_nat k /\ sub `prefix_of` drop k s /\ forall j, (j < k)%nat -> ~ sub `prefix_of` drop j s) \/
  (r = 0 /\ forall k, ~ sub `prefix_of` drop k s).

Lemma strstr_loop_spec fuel m p q s sub :
  cstr m p s -> cstr m q sub -> sub <> [] -> (length s < fuel)%nat ->
  exists r, strstr_loop fuel m p q = Some r /\ first_occurrence p s sub r.
Proof.
  revert p s. induction fuel as [|fuel IH]; intros p s H1 H2 Hne Hf; [lia|]. cbn [strstr_loop]. destruct s as [|a s].
  - apply cstr_nil in H1 as ->. simpl. exists 0. split; [done|]. right. split; [done|]. intros k. rewrite drop_nil.
    intros [x Hx]. destruct sub; done.
  - pose proof H1 as H1'. apply cstr_cons in H1 as (-> & Ha & H1). cbn [mbind option_bind]. destruct (Z.eqb_spec a 0) as [?|_]; [done|].
    rewrite (match_here_spec _ m p q (a :: s) sub H1' H2 (cstr_fuel _ _ _ H2)). cbn [mbind option_bind]. case_bool_decide as Hp.
    + exists p. split; [done|]. left. exists 0%nat. split; [lia|]. split; [done|]. lia.
    + destruct (IH (p + 1) s H1 H2 Hne) as (r & -> & Hr); [simpl in Hf; lia|]. exists r. split; [done|].
      destruct Hr as [(k & -> & Hk & Hj)|[-> Hk]].
      * left. exists (S k). split; [lia|]. split; [done|]. intros [|j] Hlt; [done|]. apply Hj. lia.
      * right. split; [done|]. intros [|k]; [done|]. apply Hk.
Qed.

(** [strstr] finds the first occurrence of the second string in the first,
    and returns [NULL] exactly when there is none. *)
Theorem strstr_first m p q s sub :
  cstr m p s -> cstr m q sub -> exists r, strstr m p q = Some r /\ first_occurrence p s sub r.
Proof.
  intros H1 H2. unfold strstr. destruct sub as [|b sub].
  - apply cstr_nil in H2 as ->. simpl. exists p. split; [done|]. left. exists 0%nat. split; [lia|]. split; [apply prefix_nil|lia].
  - pose proof H2 as H2'. apply cstr_cons in H2 as (-> & Hb & _). cbn [mbind option_bind]. destruct (Z.eqb_spec b 0) as [?|_]; [done|].
    apply strstr_loop_spec; auto. by apply (cstr_fuel m p).
Qed.

Lemma strchr_loop_spec fuel m p s c :
  cstr m p s -> (length s < fuel)%nat ->
  exists r, strchr_loop fuel m p c = Some r /\
    ((exists k, r = p + Z.of_nat k /\ (s ++ [0]) !! k = Some (s8 c) /\ forall j, (j < k)%nat -> s !! j <> Some (s8 c)) \/
     (r = NULLP /\ s8 c ∉ s ++ [0])).
Proof.
  revert p s. induction fuel as [|fuel IH]; intros p s H1 Hf; [lia|]. cbn [strchr_loop]. destruct s as [|a s].
  - apply cstr_nil in H1 as ->. cbn [mbind option_bind]. destruct (Z.eqb_spec 0 (s8 c)) as [E|E].
    + exists p. split; [done|]. left. exists 0%nat. split; [lia|]. split; [simpl; congruence|lia].
    + exists NULLP. split; [done|]. right. split; [done|]. simpl. rewrite list_elem_of_singleton. congruence.
  - apply cstr_cons in H1 as (-> & Ha & H1). cbn [mbind option_bind]. destruct (Z.eqb_spec a (s8 c)) as [E|E].
    + exists p. split; [done|]. left. exists 0%nat. split; [lia|]. split; [simpl; congruence|lia].
    + destruct (Z.eqb_spec a 0) as [?|_]; [done|]. destruct (IH (p + 1) s H1) as (r & -> & Hr); [simpl in Hf; lia|]. exists r. split; [done|].
      destruct Hr as [(k & -> & Hk & Hj)|[-> Hk]].
      * left. exists (S k). split; [lia|]. split; [done|]. intros [|j] Hlt; [simpl; congruence|]. apply Hj. lia.
      * right. split; [done|]. simpl. rewrite elem_of_cons. intros [?|?]; [congruence|done].
Qed.

(** * Bounded copies *)

Lemma strncpy_loop_placed fuel m dest src i n s :
  cstr m (src + i) s -> (length s < fuel)%nat -> copy_ok (dest + i) (src + i) (zlen s + 1) -> 0 <= dest + i ->
  dest + i + Z.min (u32 (n - 1)) (zlen s) <= zlen m ->
  exists m', strncpy_loop fuel m dest src i n = Some (i + Z.min (u32 (n - 1)) (zlen s), m') /\
    placed m m' (dest + i) (take (Z.to_nat (u32 (n - 1))) s).
Proof.
  unfold copy_ok. revert m i n s. induction fuel as [|fuel IH]; intros m i n s Hs Hf Ho Hd Hl; [lia|]. cbn [strncpy_loop].
  pose proof (zlen_nonneg s). pose proof (u32_range (n - 1)). destruct (Z.eqb_spec (u32 (n - 1)) 0) as [E|E].
  - rewrite E. rewrite Z.min_l, Z.add_0_r by lia. change (Z.to_nat 0) with 0%nat. rewrite take_0. eauto using placed_nil.
  - destruct s as [|c s].
    + apply cstr_nil in Hs as ->. simpl. rewrite take_nil. change (zlen []) with 0. rewrite Z.min_r, Z.add_0_r by lia. eauto using placed_nil.
    + apply cstr_cons in Hs as (-> & Hc & Hs). cbn [mbind option_bind]. destruct (Z.eqb_spec c 0) as [?|_]; [done|].
      rewrite zlen_cons in *. pose proof (zlen_nonneg s).
      pose proof (zset_Some m (dest + i) c ltac:(lia)) as Hz. rewrite Hz. cbn [mbind option_bind].
      assert (u32 (u32 (n - 1) - 1) = u32 (n - 1) - 1) as E1 by (apply u32_id; lia).
      destruct (IH (<[Z.to_nat (dest + i) := c]> m) (i + 1) (u32 (n - 1)) s) as (m' & -> & Hp); rewrite ?Z.add_assoc, ?E1; simpl in Hf; try lia.
      * apply (cstr_frame m); [done|]. intros a Ha. apply (zget_zset_ne _ _ _ _ _ Hz). lia.
      * rewrite (zlen_zset _ _ _ _ Hz). lia.
      * rewrite E1 in *. exists m'. split; [f_equal; f_equal; lia|].
        replace (Z.to_nat (u32 (n - 1))) with (S (Z.to_nat (u32 (n - 1) - 1))) by lia. cbn [take].
        apply (placed_cons _ _ _ _ _ _ Hz). by rewrite <- Z.add_assoc.
Qed.

(** [strncpy] copies at most [n - 1] characters and always ends the string,
    unlike the C library's; but for [n = 0] the unsigned [n - 1] is no limit at
    all: the whole string is copied. *)
Theorem strncpy_copies m dest src n s :
  cstr m src s -> src <> NULLP -> 0 < dest -> dest + zlen s < zlen m -> copy_ok dest src (zlen s + 1) ->
  0 <= n < 2 ^ 32 -> zlen m < 2 ^ 31 ->
  exists m', strncpy m dest src n = Some (dest, m') /\
    placed m m' dest ((if n =? 0 then s else take (Z.to_nat (n - 1)) s) ++ [0]).
Proof.
  intros Hs Hn Hd Hl Ho Hr Hm. unfold strncpy, NULLP in *. destruct (Z.eqb_spec dest 0); [lia|]. destruct (Z.eqb_spec src 0); [done|]. cbn [orb].
  pose proof (zlen_nonneg s). pose proof (u32_range (n - 1)).
  destruct (strncpy_loop_placed (turns m) m dest src 0 n s) as (m1 & -> & Hp); rewrite ?Z.add_0_r; auto; try lia.
  { by apply (cstr_fuel m src). }
  rewrite Z.add_0_r in Hp. cbn [mbind option_bind]. rewrite Z.add_0_l. assert (zlen m1 = zlen m) as Hl1 by apply Hp.
  assert (zlen (take (Z.to_nat (u32 (n - 1))) s) = Z.min (u32 (n - 1)) (zlen s)) as Et by (unfold zlen; rewrite length_take; lia).
  pose proof (zset_Some m1 (dest + Z.min (u32 (n - 1)) (zlen s)) 0 ltac:(lia)) as Hz. rewrite Hz. cbn [mbind option_bind].
  eexists. split; [done|]. rewrite <- Et in Hz.
  assert ((if n =? 0 then s else take (Z.to_nat (n - 1)) s) = take (Z.to_nat (u32 (n - 1))) s) as ->
    by (destruct (Z.eqb_spec n 0) as [->|?]; [rewrite take_ge; [done|unfold zlen in *; change (u32 (0 - 1)) with 4294967295; lia]|by rewrite u32_id by lia]).
  rewrite <- Et. by apply (placed_snoc m m1).
Qed.

(** [strncat] cuts without ending the string.  When the source is longer than
    [n], exactly [n + 1] of its characters are appended, one more than the
    caller allows, and no terminator after them. *)
Theorem strncat_unterminated m dest src n s1 s2 :
  cstr m dest s1 -> cstr m src s2 -> 0 < dest -> 0 < src -> 0 <= n < zlen s2 -> dest + zlen s1 + n < zlen m -> zlen m < 2 ^ 31 ->
  copy_ok (dest + zlen s1) src (n + 1) ->
  exists m', strncat m dest src n = Some (dest + zlen s1, m') /\
    placed m m' (dest + zlen s1) (take (Z.to_nat (n + 1)) s2) /\ 0 ∉ take (Z.to_nat (n + 1)) s2.
Proof.
  intros H1 H2 Hd Hs Hn Hl Hm Ho. unfold strncat, NULLP. destruct (Z.eqb_spec dest 0); [lia|]. destruct (Z.eqb_spec src 0); [lia|]. cbn [orb].
  rewrite (strlen_cstr m src s2 H2), (strlen_cstr m dest s1 H1). cbn [mbind option_bind]. pose proof (cstr_bound _ _ _ H2).
  rewrite u32_id by lia. destruct (Z.leb_spec (zlen s2) n); [lia|]. rewrite s32_id by lia.
  assert (length (take (Z.to_nat (n + 1)) s2) = Z.to_nat (n + 1)) as El by (rewrite length_take; unfold zlen in *; lia).
  assert (zlen (take (Z.to_nat (n + 1)) s2) = n + 1) as El' by (unfold zlen; lia). pose proof (zlen_nonneg s1).
  destruct (copy_loop_placed m (dest + zlen s1) src 0 (take (Z.to_nat (n + 1)) s2)) as (m' & Hc & Hp); rewrite ?Z.add_0_r, ?El'; auto; try lia.
  { destruct H2 as [_ H2]. rewrite <- (take_drop (Z.to_nat (n + 1)) s2), <- app_assoc in H2. by apply spells_app in H2 as [H2 _]. }
  rewrite El in Hc. rewrite Hc. cbn [mbind option_bind]. rewrite Z.add_0_r in Hp. exists m'. split; [done|]. split; [done|].
  intros Hin. destruct H2 as [H2 _]. apply (Forall_take (fun c => c <> 0) (Z.to_nat (n + 1))) in H2. rewrite Forall_forall in H2. by apply (H2 0).
Qed.

(** * A memory: "Disk" at 1, "disc" at 6, "is" at 11 and room from 14 on *)

Definition ex_mem : mem := [0; 68; 105; 115; 107; 0; 100; 105; 115; 99; 0; 105; 115; 0; 0; 0; 0; 0; 0; 0; 0; 0].

Ltac spell := split; [repeat constructor; lia|by vm_compute].

Lemma strcpy_copies_witness :
  exists m', strcpy ex_mem 14 1 = Some (14, m') /\ cstr m' 14 [68; 105; 115; 107] /\ placed ex_mem m' 14 ([68; 105; 115; 107] ++ [0]).
Proof. apply (strcpy_copies ex_mem 14 1 [68; 105; 115; 107]); [spell|done|done|by vm_compute|right; by vm_compute]. Defined.

Lemma strcat_appends_witness :
  exists m', strcat ex_mem 11 1 = Some (13, m') /\ cstr m' 11 ([105; 115] ++ [68; 105; 115; 107]) /\ placed ex_mem m' 13 ([68; 105; 115; 107] ++ [0]).
Proof. apply (strcat_appends ex_mem 11 1 [105; 115] [68; 105; 115; 107]); [spell|spell|done|done|by vm_compute|right; by vm_compute]. Defined.

Lemma string_compare_witness :
  strcmp ex_mem 1 6 = Some (-32) /\ (-32 = 0 <-> [68; 105; 115; 107] = [100; 105; 115; 99]) /\
  strncmp ex_mem 1 6 3 = Some (-32) /\
  exists r, strcasecmp ex_mem 1 6 = Some r /\ (r = 0 <-> toupper <$> [68; 105; 115; 107] = toupper <$> [100; 105; 115; 99]).
Proof. apply (string_compare ex_mem 1 6 [68; 105; 115; 107] [100; 105; 115; 99] 3); [spell|spell|by vm_compute|lia]. Defined.

Lemma strstr_first_witness :
  exists r, strstr ex_mem 1 11 = Some r /\ first_occurrence 1 [68; 105; 115; 107] [105; 115] r.
Proof. apply (strstr_first ex_mem 1 11 [68; 105; 115; 107] [105; 115]); spell. Defined.

Lemma strncpy_copies_witness :
  exists m', strncpy ex_mem 14 1 3 = Some (14, m') /\ placed ex_mem m' 14 (take 2 [68; 105; 115; 107] ++ [0]).
Proof. apply (strncpy_copies ex_mem 14 1 3 [68; 105; 115; 107]); [spell|done|done|by vm_compute|right; by vm_compute|lia|by vm_compute]. Defined.

Lemma strncat_unterminated_witness :
  exists m', strncat ex_mem 11 1 2 = Some (13, m') /\ placed ex_mem m' 13 (take 3 [68; 105; 115; 107]) /\ 0 ∉ take 3 [68; 105; 115; 107].
Proof. apply (strncat_unterminated ex_mem 11 1 2 [105; 115] [68; 105; 115; 107]); [spell|spell|done|done|by vm_compute|by vm_compute|by vm_compute|right; by vm_compute]. Defined.

End Strings.
