(* ===== verification/BufCache.v ===== *)
(** The buffer cache of base/fs.c: thirty buffers, found by block number in hash
    lists and recycled in the order of a free list, between the file system and
    the drive.  The drive is a type class, which Floppy.v implements.  The
    theorems describe the cache by the block that a reader sees, whether it is in
    a buffer or on the disk only. *)
From S2P Require Import Prelude Queue.

Module BufCache.

(** * The drive *)

(** What [enqueue_floppy_request] does for one block, with the request's status:
    a read fills the buffer.  There is one drive, whatever the device number. *)
Class Drive (D : Type) := {
  drive_read : Z -> list Z -> D -> Z * list Z * D;
  drive_write : Z -> list Z -> D -> Z * D;
  sector : D -> Z -> list Z;
  sector_length d b : length (sector d b) = 512%nat;
  drive_read_length d b old : length old = 512%nat -> length (drive_read b old d).1.2 = 512%nat;
  drive_read_data d b old : length old = 512%nat -> 0 <= (drive_read b old d).1.1 -> (drive_read b old d).1.2 = sector d b;
  drive_read_keeps d b old b' : length old = 512%nat -> sector (drive_read b old d).2 b' = sector d b';
  drive_write_data d b data : length data = 512%nat -> 0 <= (drive_write b data d).1 -> sector (drive_write b data d).2 b = data;
  drive_write_keeps d b data b' : length data = 512%nat -> b' <> b -> sector (drive_write b data d).2 b' = sector d b' }.

(** * Buffers and lists *)

Definition MAX_BUFFERS : nat := 30.
Definition BUFF_HASHNUMBER : Z := 7.
Definition BUFF_BUSY : Z := 0x01.
Definition BUFF_DATAVALID : Z := 0x02.
Definition BUFF_WRITEDELAY : Z := 0x04.
Definition EDISK_READ : Z := -33.

Record buffer_header := mk_bh {
  blockno : Z; hash_q_next : ptr; hash_q_prev : ptr; free_list_next : ptr; free_list_prev : ptr; write_q_next : ptr;
  buff : list Z; device : Z; flags : Z; io_status : Z }.

Definition set_hash_links (n p : ptr) (h : buffer_header) : buffer_header :=
  mk_bh (blockno h) n p (free_list_next h) (free_list_prev h) (write_q_next h) (buff h) (device h) (flags h) (io_status h).
Definition set_free_links (n p : ptr) (h : buffer_header) : buffer_header :=
  mk_bh (blockno h) (hash_q_next h) (hash_q_prev h) n p (write_q_next h) (buff h) (device h) (flags h) (io_status h).
Definition set_hnext (n : ptr) (h : buffer_header) := set_hash_links n (hash_q_prev h) h.
Definition set_hprev (p : ptr) (h : buffer_header) := set_hash_links (hash_q_next h) p h.
Definition set_fnext (n : ptr) (h : buffer_header) := set_free_links n (free_list_prev h) h.
Definition set_fprev (p : ptr) (h : buffer_header) := set_free_links (free_list_next h) p h.
Definition set_wnext (n : ptr) (h : buffer_header) : buffer_header :=
  mk_bh (blockno h) (hash_q_next h) (hash_q_prev h) (free_list_next h) (free_list_prev h) n (buff h) (device h) (flags h) (io_status h).
Definition set_id (dev blk : Z) (h : buffer_header) : buffer_header :=
  mk_bh blk (hash_q_next h) (hash_q_prev h) (free_list_next h) (free_list_prev h) (write_q_next h) (buff h) dev (flags h) (io_status h).
Definition set_buff (l : list Z) (h : buffer_header) : buffer_header :=
  mk_bh (blockno h) (hash_q_next h) (hash_q_prev h) (free_list_next h) (free_list_prev h) (write_q_next h) l (device h) (flags h) (io_status h).
Definition set_flags (fl : Z) (h : buffer_header) : buffer_header :=
  mk_bh (blockno h) (hash_q_next h) (hash_q_prev h) (free_list_next h) (free_list_prev h) (write_q_next h) (buff h) (device h) fl (io_status h).
Definition set_io (st : Z) (h : buffer_header) : buffer_header :=
  mk_bh (blockno h) (hash_q_next h) (hash_q_prev h) (free_list_next h) (free_list_prev h) (write_q_next h) (buff h) (device h) (flags h) st.

(** The global variables; [buffers[i]] is at the address [buf i]. *)
Record cache := mk_cache {
  buffers : gmap loc buffer_header; hash_queue_buffers : list ptr;
  free_buff_list_head : ptr; free_buff_list_tail : ptr;
  delayed_write_q_head : ptr; delayed_write_q_tail : ptr }.

Definition buf (i : nat) : loc := Pos.of_succ_nat i.

Definition set_buffers (m : gmap loc buffer_header) (s : cache) : cache :=
  mk_cache m (hash_queue_buffers s) (free_buff_list_head s) (free_buff_list_tail s) (delayed_write_q_head s) (delayed_write_q_tail s).
Definition set_hash (i : Z) (p : ptr) (s : cache) : option cache :=
  q ← zset (hash_queue_buffers s) i p;
  Some (mk_cache (buffers s) q (free_buff_list_head s) (free_buff_list_tail s) (delayed_write_q_head s) (delayed_write_q_tail s)).
Definition set_free_head (p : ptr) (s : cache) : cache :=
  mk_cache (buffers s) (hash_queue_buffers s) p (free_buff_list_tail s) (delayed_write_q_head s) (delayed_write_q_tail s).
Definition set_free_tail (p : ptr) (s : cache) : cache :=
  mk_cache (buffers s) (hash_queue_buffers s) (free_buff_list_head s) p (delayed_write_q_head s) (delayed_write_q_tail s).
Definition set_write_q (hd tl : ptr) (s : cache) : cache :=
  mk_cache (buffers s) (hash_queue_buffers s) (free_buff_list_head s) (free_buff_list_tail s) hd tl.
Definition upd (b : loc) (f : buffer_header -> buffer_header) (s : cache) : option cache :=
  h ← buffers s !! b; Some (set_buffers (<[b := f h]> (buffers s)) s).

(** The body of the loop of [initialize_buffer_cache]. *)
Definition init_buffer (i : nat) (h : buffer_header) : buffer_header :=
  mk_bh (blockno h) NULL NULL
    (if bool_decide (i < MAX_BUFFERS - 1)%nat then Some (buf (i + 1)) else free_list_next h)
    (if bool_decide (0 < i)%nat then Some (buf (i - 1)) else free_list_prev h)
    NULL (buff h) (device h) 0 (io_status h).

Fixpoint init_loop (ix : list nat) (s : cache) : option cache :=
  match ix with
  | [] => Some s
  | i :: ix => s ← upd (buf i) (init_buffer i) s; init_loop ix s
  end.

Definition initialize_buffer_cache (s : cache) : option cache :=
  let s := mk_cache (buffers s) (replicate (Z.to_nat BUFF_HASHNUMBER) NULL) (free_buff_list_head s) (free_buff_list_tail s) (delayed_write_q_head s) (delayed_write_q_tail s) in
  s ← init_loop (seq 0 MAX_BUFFERS) s;
  s ← upd (buf 0) (set_fprev NULL) s;
  s ← upd (buf (MAX_BUFFERS - 1)) (set_fnext NULL) s;
  Some (set_write_q NULL NULL (set_free_tail (Some (buf (MAX_BUFFERS - 1))) (set_free_head (Some (buf 0)) s))).

Definition enqueue_to_hashlist (hash : Z) (b : loc) (s : cache) : option cache :=
  q ← zget (hash_queue_buffers s) hash;
  s ← upd b (set_hnext q) s;
  s ← upd b (set_hprev NULL) s;
  s ← (match q with Some x => upd x (set_hprev (Some b)) s | None => Some s end);
  set_hash hash (Some b) s.

Definition delete_from_hashlist (hash : Z) (b : loc) (s : cache) : option cache :=
  h ← buffers s !! b;
  let n := hash_q_next h in
  let p := hash_q_prev h in
  if bool_decide (p = NULL /\ n = NULL) then Some s else
  s ← (match p with Some x => upd x (set_hnext n) s | None => set_hash hash n s end);
  match n with Some x => upd x (set_hprev p) s | None => Some s end.

Definition delete_from_freelist (b : loc) (s : cache) : option cache :=
  h ← buffers s !! b;
  let n := free_list_next h in
  let p := free_list_prev h in
  s ← (if bool_decide (free_buff_list_head s <> Some b) then x ← p; upd x (set_fnext n) s else Some (set_free_head n s));
  if bool_decide (free_buff_list_tail s <> Some b) then x ← n; upd x (set_fprev p) s else Some (set_free_tail p s).

Definition append_to_freelist (b : loc) (s : cache) : option cache :=
  s ← upd b (set_fnext NULL) s;
  s ← upd b (set_fprev (free_buff_list_tail s)) s;
  s ← (match free_buff_list_tail s with Some x => upd x (set_fnext (Some b)) s | None => Some (set_free_head (Some b) s) end);
  Some (set_free_tail (Some b) s).

Definition prepend_to_freelist (b : loc) (s : cache) : option cache :=
  s ← upd b (set_fnext (free_buff_list_head s)) s;
  s ← upd b (set_fprev NULL) s;
  s ← (match free_buff_list_head s with Some x => upd x (set_fprev (Some b)) s | None => Some s end);
  Some (set_free_head (Some b) s).

Definition append_to_write_queue (b : loc) (s : cache) : option cache :=
  s ← upd b (set_wnext NULL) s;
  match delayed_write_q_tail s with
  | Some x => upd x (set_wnext (Some b)) s
  | None => Some (set_write_q (Some b) (Some b) s)
  end.

(** * Taking and releasing a buffer *)

(** The inner loop of [getblk], through one hash list. *)
Fixpoint search (fuel : nat) (m : gmap loc buffer_header) (dev blk : Z) (p : ptr) : option ptr :=
  match p with
  | None => Some NULL
  | Some b =>
      match fuel with
      | O => None
      | S fuel =>
          h ← m !! b;
          if (device h =? dev) && (blockno h =? blk) then Some (Some b) else search fuel m dev blk (hash_q_next h)
      end
  end.

(** How one pass of [getblk]'s [while (1)] ends: with a buffer, asleep until a
    busy buffer is released, asleep until any buffer is released (after waking
    the thread that flushes), or after moving a buffer with delayed data to the
    write queue. *)
Inductive outcome := Got (b : loc) | Busy (b : loc) | NoBuffer | Again.

Definition getblk_1 (dev blk : Z) (s : cache) : option (outcome * cache) :=
  let hash_index := blk mod BUFF_HASHNUMBER in
  q ← zget (hash_queue_buffers s) hash_index;
  r ← search (S (size (buffers s))) (buffers s) dev blk q;
  match r with
  | Some b =>
      h ← buffers s !! b;
      if has_bits (flags h) BUFF_BUSY then Some (Busy b, s) else
      s ← upd b (set_flags (Z.lor (flags h) BUFF_BUSY)) s;
      s ← delete_from_freelist b s;
      Some (Got b, s)
  | None =>
      match free_buff_list_head s with
      | None => Some (NoBuffer, s)
      | Some b =>
          s ← delete_from_freelist b s;
          h ← buffers s !! b;
          if has_bits (flags h) BUFF_WRITEDELAY then
            s ← append_to_write_queue b s; Some (Again, s)
          else
            s ← delete_from_hashlist (blockno h mod BUFF_HASHNUMBER) b s;
            s ← upd b (set_id dev blk) s;
            s ← upd b (set_flags (Z.land (Z.lor (flags h) BUFF_BUSY) (Z.lnot BUFF_DATAVALID))) s;
            s ← enqueue_to_hashlist hash_index b s;
            Some (Got b, s)
      end
  end.

(** [getblk] for as long as the caller does not sleep.  Each pass again has one
    buffer less on the free list. *)
Fixpoint getblk_loop (fuel : nat) (dev blk : Z) (s : cache) : option (outcome * cache) :=
  match fuel with
  | O => None
  | S fuel =>
      '(r, s) ← getblk_1 dev blk s;
      match r with Again => getblk_loop fuel dev blk s | _ => Some (r, s) end
  end.
Definition getblk (dev blk : Z) (s : cache) : option (outcome * cache) := getblk_loop (S MAX_BUFFERS) dev blk s.

Definition brelease (b : loc) (s : cache) : option cache :=
  h ← buffers s !! b;
  s ← (if has_bits (flags h) BUFF_DATAVALID then append_to_freelist b s else prepend_to_freelist b s);
  upd b (fun h => set_flags (Z.land (flags h) (Z.lnot BUFF_BUSY)) h) s.

(** * Calls that use the drive *)

(** The caller gets a buffer, or sleeps in [getblk]. *)
Inductive result (A : Type) := Done (a : A) | Asleep.
Arguments Done {A} _.
Arguments Asleep {A}.

Section Calls.
Context {D : Type} `{!Drive D}.

Definition bread (dev blk : Z) (s : cache) (d : D) : option (result loc * cache * D) :=
  '(r, s) ← getblk dev blk s;
  match r with
  | Got b =>
      h ← buffers s !! b;
      if has_bits (flags h) BUFF_DATAVALID then Some (Done b, s, d) else
      let '(st, data, d) := drive_read blk (buff h) d in
      s ← upd b (set_buff data) s;
      if 0 <=? st then
        s ← upd b (fun h => set_io 0 (set_flags (Z.lor (flags h) BUFF_DATAVALID) h)) s; Some (Done b, s, d)
      else s ← upd b (set_io st) s; Some (Done b, s, d)
  | _ => Some (Asleep, s, d)
  end.

Definition read_block (dev blk : Z) (s : cache) (d : D) : option (result (Z * list Z) * cache * D) :=
  '(r, s, d) ← bread dev blk s d;
  match r with
  | Done b =>
      h ← buffers s !! b;
      s ← brelease b s;
      if negb (io_status h =? 0) then Some (Done (EDISK_READ, []), s, d) else Some (Done (1, buff h), s, d)
  | Asleep => Some (Asleep, s, d)
  end.

Definition write_block (dev blk : Z) (data : list Z) (s : cache) : option (result Z * cache) :=
  '(r, s) ← getblk dev blk s;
  match r with
  | Got b =>
      s ← upd b (set_buff data) s;
      s ← upd b (fun h => set_flags (Z.lor (Z.lor (flags h) BUFF_WRITEDELAY) BUFF_DATAVALID) h) s;
      s ← brelease b s;
      Some (Done 1, s)
  | _ => Some (Asleep, s)
  end.

(** What [flush_buffers] does for a buffer with delayed data. *)
Definition write_back (dev blk : Z) (s : cache) (d : D) : option (result () * cache * D) :=
  '(r, s) ← getblk dev blk s;
  match r with
  | Got b3 =>
      h ← buffers s !! b3;
      let '(_, d) := drive_write (blockno h) (buff h) d in
      s ← upd b3 (fun h => set_flags (Z.land (flags h) (Z.lnot BUFF_WRITEDELAY)) h) s;
      s ← brelease b3 s;
      Some (Done (), s, d)
  | _ => Some (Asleep, s, d)
  end.

(** Its first loop, over the write queue, and its second, over all buffers. *)
Fixpoint flush_queue (fuel : nat) (p : ptr) (s : cache) (d : D) : option (result () * cache * D) :=
  match p with
  | None => Some (Done (), s, d)
  | Some b1 =>
      match fuel with
      | O => None
      | S fuel =>
          h ← buffers s !! b1;
          '(r, s, d) ← write_back (device h) (blockno h) s d;
          match r with
          | Asleep => Some (Asleep, s, d)
          | Done _ =>
              h ← buffers s !! b1;
              s ← upd b1 (set_wnext NULL) s;
              flush_queue fuel (write_q_next h) s d
          end
      end
  end.

Fixpoint flush_all (ix : list nat) (s : cache) (d : D) : option (result () * cache * D) :=
  match ix with
  | [] => Some (Done (), s, d)
  | i :: ix =>
      h ← buffers s !! buf i;
      if has_bits (flags h) BUFF_WRITEDELAY then
        '(r, s, d) ← write_back (device h) (blockno h) s d;
        match r with
        | Asleep => Some (Asleep, s, d)
        | Done _ => flush_all ix s d
        end
      else flush_all ix s d
  end.

Definition flush_buffers (s : cache) (d : D) : option (result () * cache * D) :=
  let b1 := delayed_write_q_head s in
  let s := set_write_q NULL NULL s in
  '(r, s, d) ← flush_queue (S MAX_BUFFERS) b1 s d;
  match r with
  | Asleep => Some (Asleep, s, d)
  | Done _ => flush_all (seq 0 MAX_BUFFERS) s d
  end.

End Calls.

(** * Flags *)

Lemma has_bits_testbit x i : 0 <= i -> has_bits x (2 ^ i) = Z.testbit x i.
Proof.
  intros Hi. unfold has_bits. destruct (Z.eqb_spec (Z.land x (2 ^ i)) 0) as [E|E]; simpl.
  - assert (Z.testbit (Z.land x (2 ^ i)) i = Z.testbit 0 i) as Hb by by rewrite E.
    rewrite Z.land_spec, Z.pow2_bits_true, andb_true_r, Z.bits_0 in Hb by done. done.
  - symmetry. apply not_false_iff_true. intros Hb. apply E. apply Z.bits_inj'. intros n Hn.
    rewrite Z.land_spec, Z.bits_0, Z.pow2_bits_eqb by done. destruct (Z.eqb_spec i n) as [->|]; [by rewrite Hb|by rewrite andb_false_r].
Qed.

Lemma bit_lor x i j : 0 <= i -> 0 <= j -> has_bits (Z.lor x (2 ^ i)) (2 ^ j) = has_bits x (2 ^ j) || (i =? j).
Proof. intros. by rewrite !has_bits_testbit, Z.lor_spec, Z.pow2_bits_eqb by done. Qed.
Lemma bit_clear x i j : 0 <= i -> 0 <= j -> has_bits (Z.land x (Z.lnot (2 ^ i))) (2 ^ j) = has_bits x (2 ^ j) && negb (i =? j).
Proof. intros. by rewrite !has_bits_testbit, Z.land_spec, Z.lnot_spec, Z.pow2_bits_eqb by done. Qed.
Lemma busy_bit : BUFF_BUSY = 2 ^ 0. Proof. done. Qed.
Lemma valid_bit : BUFF_DATAVALID = 2 ^ 1. Proof. done. Qed.
Lemma delay_bit : BUFF_WRITEDELAY = 2 ^ 2. Proof. done. Qed.

Ltac flag_simpl := rewrite ?busy_bit, ?valid_bit, ?delay_bit, ?bit_lor, ?bit_clear, ?bit_lor, ?bit_clear, ?orb_true_r, ?orb_false_r, ?andb_true_r, ?andb_false_r by done; simpl.

(** * Three views of a buffer: its place in a hash list, its place in the free
    list, and the rest *)

Record info := mk_info { i_blk : Z; i_dev : Z; i_flags : Z; i_buff : list Z; i_io : Z }.
Definition info_of (h : buffer_header) : info := mk_info (blockno h) (device h) (flags h) (buff h) (io_status h).
Definition infos (s : cache) (b : loc) : option info := info_of <$> buffers s !! b.
Definition hlk (s : cache) (b : loc) : option (ptr * ptr) := (fun h => (hash_q_next h, hash_q_prev h)) <$> buffers s !! b.
Definition flk (s : cache) (b : loc) : option (ptr * ptr) := (fun h => (free_list_next h, free_list_prev h)) <$> buffers s !! b.

Definition busy (x : info) : bool := has_bits (i_flags x) BUFF_BUSY.
Definition valid (x : info) : bool := has_bits (i_flags x) BUFF_DATAVALID.
Definition delayed (x : info) : bool := has_bits (i_flags x) BUFF_WRITEDELAY.

Lemma upd_Some b f s h : buffers s !! b = Some h -> upd b f s = Some (set_buffers (<[b := f h]> (buffers s)) s).
Proof. intros E. unfold upd. by rewrite E. Qed.

(** What an assignment to one buffer leaves alone. *)
Lemma view_upd {X} (v : buffer_header -> X) s b h h' :
  buffers s !! b = Some h -> v h' = v h -> forall x, v <$> buffers (set_buffers (<[b := h']> (buffers s)) s) !! x = v <$> buffers s !! x.
Proof. intros E Ev x. simpl. destruct (decide (x = b)) as [->|]; [rewrite lookup_insert_eq, E; simpl; by rewrite Ev|by rewrite lookup_insert_ne]. Qed.

Lemma lookup_info s b h : buffers s !! b = Some h -> infos s b = Some (info_of h).
Proof. unfold infos. by intros ->. Qed.
Lemma infos_lookup s b x : infos s b = Some x -> exists h, buffers s !! b = Some h /\ info_of h = x.
Proof. unfold infos. intros (h & ? & ?)%fmap_Some. eauto. Qed.

(** The list of free buffers. *)
Definition free_ok (s : cache) (F : list loc) : Prop :=
  free_buff_list_head s = head F /\ free_buff_list_tail s = last F /\ Queue.dlist (flk s) F.

(** A change of the free list's links and ends only. *)
Definition free_frame (s s' : cache) : Prop :=
  (forall b, infos s' b = infos s b) /\ (forall b, hlk s' b = hlk s b) /\ hash_queue_buffers s' = hash_queue_buffers s /\
  delayed_write_q_head s' = delayed_write_q_head s /\ delayed_write_q_tail s' = delayed_write_q_tail s.
(** A change of hash links and heads only. *)
Definition hash_frame (s s' : cache) : Prop :=
  (forall b, infos s' b = infos s b) /\ (forall b, flk s' b = flk s b) /\
  free_buff_list_head s' = free_buff_list_head s /\ free_buff_list_tail s' = free_buff_list_tail s /\
  delayed_write_q_head s' = delayed_write_q_head s /\ delayed_write_q_tail s' = delayed_write_q_tail s.

Lemma free_frame_refl s : free_frame s s.
Proof. done. Qed.
Lemma free_frame_trans s1 s2 s3 : free_frame s1 s2 -> free_frame s2 s3 -> free_frame s1 s3.
Proof. intros (A1 & A2 & A3 & A4 & A5) (B1 & B2 & B3 & B4 & B5). split_and!; try congruence. Qed.
Lemma hash_frame_trans s1 s2 s3 : hash_frame s1 s2 -> hash_frame s2 s3 -> hash_frame s1 s3.
Proof. intros (A1 & A2 & A3 & A4 & A5 & A6) (B1 & B2 & B3 & B4 & B5 & B6). split_and!; try congruence. Qed.
#[local] Hint Resolve free_frame_refl : core.

Lemma free_frame_upd s b h n p :
  buffers s !! b = Some h -> free_frame s (set_buffers (<[b := set_free_links n p h]> (buffers s)) s).
Proof. intros E. split_and!; try done; intros x; by apply (view_upd _ s b h). Qed.
Lemma hash_frame_upd s b h n p :
  buffers s !! b = Some h -> hash_frame s (set_buffers (<[b := set_hash_links n p h]> (buffers s)) s).
Proof. intros E. split_and!; try done; intros x; by apply (view_upd _ s b h). Qed.

(** An assignment to the links of one list, as a function on the link view. *)
Lemma set_free_spec s b n p n0 p0 :
  flk s b = Some (n0, p0) ->
  exists h, buffers s !! b = Some h /\ free_list_next h = n0 /\ free_list_prev h = p0 /\
    let s' := set_buffers (<[b := set_free_links n p h]> (buffers s)) s in
    free_frame s s' /\ flk s' b = Some (n, p) /\ forall x, x <> b -> flk s' x = flk s x.
Proof.
  unfold flk. intros (h & E & [= -> ->])%fmap_Some. exists h. do 3 (split; [done|]). split; [by apply free_frame_upd|]. simpl. split.
  - by rewrite lookup_insert_eq.
  - intros x Hx. by rewrite lookup_insert_ne.
Qed.
Lemma set_hash_spec s b n p n0 p0 :
  hlk s b = Some (n0, p0) ->
  exists h, buffers s !! b = Some h /\ hash_q_next h = n0 /\ hash_q_prev h = p0 /\
    let s' := set_buffers (<[b := set_hash_links n p h]> (buffers s)) s in
    hash_frame s s' /\ hlk s' b = Some (n, p) /\ forall x, x <> b -> hlk s' x = hlk s x.
Proof.
  unfold hlk. intros (h & E & [= -> ->])%fmap_Some. exists h. do 3 (split; [done|]). split; [by apply hash_frame_upd|]. simpl. split.
  - by rewrite lookup_insert_eq.
  - intros x Hx. by rewrite lookup_insert_ne.
Qed.

(** * The free list is a list *)

Lemma upd_fnext s b n n0 p0 : flk s b = Some (n0, p0) -> exists s', upd b (set_fnext n) s = Some s' /\ free_frame s s' /\
  free_buff_list_head s' = free_buff_list_head s /\ free_buff_list_tail s' = free_buff_list_tail s /\
  flk s' b = Some (n, p0) /\ forall x, x <> b -> flk s' x = flk s x.
Proof.
  intros E. destruct (set_free_spec s b n p0 n0 p0 E) as (h & Hh & <- & <- & Hf & Hb & Hx). eexists. split; [by apply upd_Some|].
  split; [exact Hf|]. by split_and!.
Qed.
Lemma upd_fprev s b p n0 p0 : flk s b = Some (n0, p0) -> exists s', upd b (set_fprev p) s = Some s' /\ free_frame s s' /\
  free_buff_list_head s' = free_buff_list_head s /\ free_buff_list_tail s' = free_buff_list_tail s /\
  flk s' b = Some (n0, p) /\ forall x, x <> b -> flk s' x = flk s x.
Proof.
  intros E. destruct (set_free_spec s b n0 p n0 p0 E) as (h & Hh & <- & <- & Hf & Hb & Hx). eexists. split; [by apply upd_Some|].
  split; [exact Hf|]. by split_and!.
Qed.
Lemma upd_hnext s b n n0 p0 : hlk s b = Some (n0, p0) -> exists s', upd b (set_hnext n) s = Some s' /\ hash_frame s s' /\
  hash_queue_buffers s' = hash_queue_buffers s /\
  hlk s' b = Some (n, p0) /\ forall x, x <> b -> hlk s' x = hlk s x.
Proof.
  intros E. destruct (set_hash_spec s b n p0 n0 p0 E) as (h & Hh & <- & <- & Hf & Hb & Hx). eexists. split; [by apply upd_Some|].
  split; [exact Hf|]. by split_and!.
Qed.
Lemma upd_hprev s b p n0 p0 : hlk s b = Some (n0, p0) -> exists s', upd b (set_hprev p) s = Some s' /\ hash_frame s s' /\
  hash_queue_buffers s' = hash_queue_buffers s /\
  hlk s' b = Some (n0, p) /\ forall x, x <> b -> hlk s' x = hlk s x.
Proof.
  intros E. destruct (set_hash_spec s b n0 p n0 p0 E) as (h & Hh & <- & <- & Hf & Hb & Hx). eexists. split; [by apply upd_Some|].
  split; [exact Hf|]. by split_and!.
Qed.

Lemma links_exist s b : is_Some (buffers s !! b) -> (exists n p, flk s b = Some (n, p)) /\ (exists n p, hlk s b = Some (n, p)).
Proof. intros [h E]. unfold flk, hlk. rewrite E. simpl. split; eauto. Qed.

Lemma delete_from_freelist_spec s F1 b F2 :
  free_ok s (F1 ++ b :: F2) -> exists s', delete_from_freelist b s = Some s' /\ free_ok s' (F1 ++ F2) /\ free_frame s s' /\ flk s' b = flk s b.
Proof.
  intros (Hh & Ht & Hd). pose proof (proj2 Hd F1 b F2 eq_refl) as Hb. pose proof Hb as (h & Eb & [= En Ep])%fmap_Some.
  assert (b ∉ F1 ++ F2) as Hnin.
  { destruct Hd as [Hn _]. rewrite <- Permutation_middle in Hn. by apply NoDup_cons in Hn as [? _]. }
  unfold delete_from_freelist. rewrite Eb, bind_Some, Hh, <- En, <- Ep.
  assert (exists s1, (if bool_decide (head (F1 ++ b :: F2) <> Some b) then x ← last F1; upd x (set_fnext (head F2)) s else Some (set_free_head (head F2) s)) = Some s1 /\
    free_frame s s1 /\ free_buff_list_head s1 = head (F1 ++ F2) /\ free_buff_list_tail s1 = last (F1 ++ b :: F2) /\
    (forall x n p, last F1 = Some x -> flk s x = Some (n, p) -> flk s1 x = Some (head F2, p)) /\
    (forall x, last F1 <> Some x -> flk s1 x = flk s x)) as (s1 & -> & Hf1 & Hh1 & Ht1 & Hl1 & Ho1).
  { destruct (last F1) as [y|] eqn:El.
    - assert (F1 <> []) as Hne by (intros ->; done). rewrite bool_decide_true.
      2:{ destruct F1 as [|z F1]; [done|]. simpl. intros [= ->]. apply Hnin. by left. }
      rewrite bind_Some. destruct (Queue.dlist_prev _ _ _ _ _ Hd El) as (_ & _ & pv & Hy).
      destruct (upd_fnext s y (head F2) _ _ Hy) as (s1 & -> & Hf & A & B & C & E). exists s1. split; [done|]. split; [done|].
      split; [rewrite A, Hh; by destruct F1|]. split; [by rewrite B|]. split.
      + intros x n p [= <-] Hx. rewrite Hy in Hx. injection Hx as <- <-. exact C.
      + intros x Hx. apply E. congruence.
    - apply last_None in El as ->. simpl. rewrite bool_decide_false by (intros Hx; by apply Hx). eexists. split; [done|].
      split_and!; try done. }
  rewrite bind_Some, Ht1.
  assert (exists s', (if bool_decide (last (F1 ++ b :: F2) <> Some b) then x ← head F2; upd x (set_fprev (last F1)) s1 else Some (set_free_tail (last F1) s1)) = Some s' /\
    free_frame s1 s' /\ free_buff_list_head s' = head (F1 ++ F2) /\ free_buff_list_tail s' = last (F1 ++ F2) /\
    (forall x n p, head F2 = Some x -> flk s x = Some (n, p) -> flk s' x = Some (n, last F1)) /\
    (forall x, head F2 <> Some x -> flk s' x = flk s1 x)) as (s' & -> & Hf2 & Hh2 & Ht2 & Hl2 & Ho2).
  { destruct F2 as [|y F2]; simpl.
    - rewrite last_snoc, bool_decide_false by (intros Hx; by apply Hx). eexists. split; [done|]. rewrite app_nil_r in *. split_and!; done.
    - rewrite bool_decide_true.
      2:{ rewrite last_app_cons. intros Hx. apply Hnin, elem_of_app. right. change (last (b :: y :: F2)) with (last (y :: F2)) in Hx. by apply last_Some_elem_of. }
      destruct (Queue.dlist_next _ _ _ _ y Hd eq_refl) as (Hne & nx & Hy).
      assert (flk s1 y = Some (nx, Some b)) as Hy1.
      { rewrite Ho1; [done|]. intros Hx. destruct (Queue.dlist_prev _ _ _ _ _ Hd Hx) as (_ & Hnb & _). by apply Hnb. }
      destruct (upd_fprev s1 y (last F1) _ _ Hy1) as (s' & -> & Hf & A & B & C & E). exists s'. split; [done|]. split; [done|].
      split; [by rewrite A|]. split; [rewrite B, Ht1; by rewrite !last_app_cons|]. split.
      + intros x n p [= <-] Hx. rewrite Hy in Hx. injection Hx as <- <-. exact C.
      + intros x Hx. apply E. congruence. }
  exists s'. split; [done|]. split; [|split; [by eapply free_frame_trans|]].
  2:{ rewrite Ho2, Ho1; [done| |]; intros Hx; apply Hnin, elem_of_app; [left; by apply last_Some_elem_of|right; destruct F2; simplify_eq/=; by left]. }
  split; [done|]. split; [done|].
  apply (Queue.dlist_remove (flk s) _ F1 b F2 Hd).
  - done.
  - intros x n p Hx Hl. rewrite Ho2; [by eapply Hl1|]. intros Hy. by destruct (Queue.dlist_prev _ _ _ _ _ Hd Hx) as (_ & ? & _).
  - intros x Hxb Hxh Hxl. by rewrite Ho2, Ho1.
Qed.

Lemma append_to_freelist_spec s F b :
  free_ok s F -> b ∉ F -> is_Some (buffers s !! b) ->
  exists s', append_to_freelist b s = Some s' /\ free_ok s' (F ++ [b]) /\ free_frame s s'.
Proof.
  intros (Hh & Ht & Hd) Hb Hs. destruct (links_exist s b Hs) as [(n0 & p0 & Eb) _]. unfold append_to_freelist.
  destruct (upd_fnext s b NULL _ _ Eb) as (s1 & -> & Hf1 & Hh1 & Ht1 & Eb1 & Eo1). rewrite bind_Some, Ht1, Ht.
  destruct (upd_fprev s1 b (last F) _ _ Eb1) as (s2 & -> & Hf2 & Hh2 & Ht2 & Eb2 & Eo2). rewrite bind_Some, Ht2, Ht1, Ht.
  pose proof (free_frame_trans _ _ _ Hf1 Hf2) as Hf. destruct (last F) as [y|] eqn:El.
  - destruct (Queue.dlist_last _ _ _ Hd El) as [pv Ey]. assert (y <> b) as Hyb by (intros ->; apply Hb; by apply last_Some_elem_of).
    assert (flk s2 y = Some (NULL, pv)) as Ey2 by by rewrite Eo2, Eo1.
    destruct (upd_fnext s2 y (Some b) _ _ Ey2) as (s3 & -> & Hf3 & Hh3 & Ht3 & Eb3 & Eo3). rewrite bind_Some.
    eexists. split; [done|]. split; [|by eapply free_frame_trans]. split; [simpl; rewrite Hh3, Hh2, Hh1, Hh; by destruct F|].
    split; [by rewrite last_snoc|]. apply (Queue.dlist_snoc (flk s)); [done|done| | |].
    + rewrite El. rewrite <- Eb2. by apply Eo3.
    + intros x nx pv' Hx Ex. rewrite El in Hx. injection Hx as <-. rewrite Ey in Ex. injection Ex as <- <-. exact Eb3.
    + intros x Hxb Hxl. rewrite El in Hxl. transitivity (flk s2 x); [apply Eo3; congruence|]. by rewrite Eo2, Eo1.
  - apply last_None in El as ->. rewrite bind_Some. eexists. split; [done|]. split; [|done]. split; [done|]. split; [done|].
    apply (Queue.dlist_snoc (flk s) _ _ []); [done|done| |done|].
    + exact Eb2.
    + intros x Hxb _. transitivity (flk s2 x); [done|]. by rewrite Eo2, Eo1.
Qed.

(** On an empty list [prepend_to_freelist] does not set the tail, see below. *)
Lemma prepend_to_freelist_spec s F b :
  free_ok s F -> F <> [] -> b ∉ F -> is_Some (buffers s !! b) ->
  exists s', prepend_to_freelist b s = Some s' /\ free_ok s' (b :: F) /\ free_frame s s'.
Proof.
  intros (Hh & Ht & Hd) Hne Hb Hs. destruct (links_exist s b Hs) as [(n0 & p0 & Eb) _]. unfold prepend_to_freelist.
  destruct F as [|y F]; [done|]. clear Hne. rewrite Hh. simpl (head _).
  destruct (upd_fnext s b (Some y) _ _ Eb) as (s1 & -> & Hf1 & Hh1 & Ht1 & Eb1 & Eo1). rewrite bind_Some.
  destruct (upd_fprev s1 b NULL _ _ Eb1) as (s2 & -> & Hf2 & Hh2 & Ht2 & Eb2 & Eo2). rewrite bind_Some, Hh2, Hh1, Hh. simpl (head _).
  pose proof (free_frame_trans _ _ _ Hf1 Hf2) as Hf. destruct (Queue.dlist_head _ _ y Hd eq_refl) as [nx Ey].
  assert (y <> b) as Hyb by (intros ->; apply Hb; by left). assert (flk s2 y = Some (nx, NULL)) as Ey2 by by rewrite Eo2, Eo1.
  destruct (upd_fprev s2 y (Some b) _ _ Ey2) as (s3 & E3 & Hf3 & Hh3 & Ht3 & Eb3 & Eo3). cbv iota. rewrite E3, bind_Some.
  eexists. split; [done|]. split; [|by eapply free_frame_trans]. split; [done|]. split; [simpl; by rewrite Ht3, Ht2, Ht1, Ht|].
  apply (Queue.dlist_push (flk s)); [done|done| | |].
  - transitivity (flk s2 b); [by apply Eo3|done].
  - intros x nx' pv' [= <-] Ex. rewrite Ey in Ex. injection Ex as <- <-. exact Eb3.
  - intros x Hxb Hxl. simpl in Hxl. transitivity (flk s2 x); [apply Eo3; congruence|]. by rewrite Eo2, Eo1.
Qed.

(** * The hash lists are lists *)

Lemma zget_head (H : list (list loc)) i q : H !! i = Some q -> zget (head <$> H) (Z.of_nat i) = Some (head q).
Proof. intros E. unfold zget. destruct (Z.ltb_spec (Z.of_nat i) 0); [lia|]. rewrite Nat2Z.id, list_lookup_fmap, E. done. Qed.

Lemma set_hash_head s H i q q' :
  hash_queue_buffers s = head <$> H -> H !! i = Some q ->
  exists s', set_hash (Z.of_nat i) (head q') s = Some s' /\ hash_frame s s' /\ (forall x, hlk s' x = hlk s x) /\
    hash_queue_buffers s' = head <$> <[i := q']> H.
Proof.
  intros Hh E. unfold set_hash. rewrite Hh. pose proof (lookup_lt_Some _ _ _ E). rewrite zset_Some by (unfold zlen; rewrite length_fmap; lia).
  rewrite bind_Some, Nat2Z.id. eexists. split; [done|]. split; [done|]. split; [done|]. simpl. by rewrite list_fmap_insert.
Qed.

Lemma enqueue_to_hashlist_spec s H i q b :
  hash_queue_buffers s = head <$> H -> H !! i = Some q -> Queue.dlist (hlk s) q -> b ∉ q -> is_Some (buffers s !! b) ->
  exists s', enqueue_to_hashlist (Z.of_nat i) b s = Some s' /\ hash_frame s s' /\
    hash_queue_buffers s' = head <$> <[i := b :: q]> H /\ Queue.dlist (hlk s') (b :: q) /\
    forall x, x ∉ b :: q -> hlk s' x = hlk s x.
Proof.
  intros Hh E Hd Hb Hs. destruct (links_exist s b Hs) as [_ (n0 & p0 & Eb)]. unfold enqueue_to_hashlist.
  rewrite Hh, (zget_head H i q E), bind_Some.
  destruct (upd_hnext s b (head q) _ _ Eb) as (s1 & -> & Hf1 & Hq1 & Eb1 & Eo1). rewrite bind_Some.
  destruct (upd_hprev s1 b NULL _ _ Eb1) as (s2 & -> & Hf2 & Hq2 & Eb2 & Eo2). rewrite bind_Some.
  pose proof (hash_frame_trans _ _ _ Hf1 Hf2) as Hf.
  assert (exists s3, match head q with Some x => upd x (set_hprev (Some b)) s2 | None => Some s2 end = Some s3 /\ hash_frame s2 s3 /\
    hash_queue_buffers s3 = head <$> H /\ (forall x n p, head q = Some x -> hlk s x = Some (n, p) -> hlk s3 x = Some (n, Some b)) /\
    forall x, head q <> Some x -> hlk s3 x = hlk s2 x) as (s3 & -> & Hf3 & Hq3 & Hl3 & Eo3).
  { destruct q as [|y q]; simpl; [exists s2; split_and!; try done; congruence|].
    destruct (Queue.dlist_head _ _ y Hd eq_refl) as [nx Ey]. assert (y <> b) as Hyb by (intros ->; apply Hb; by left).
    assert (hlk s2 y = Some (nx, NULL)) as Ey2 by by rewrite Eo2, Eo1.
    destruct (upd_hprev s2 y (Some b) _ _ Ey2) as (s3 & -> & Hf3 & Hq3 & Eb3 & Eo3). exists s3. split; [done|]. split; [done|].
    split; [by rewrite Hq3, Hq2, Hq1|]. split; [|intros x Hx; apply Eo3; congruence].
    intros x n p [= <-] Ex. rewrite Ey in Ex. by injection Ex as <- <-. }
  rewrite bind_Some. destruct (set_hash_head s3 H i q (b :: q) Hq3 E) as (s4 & E4 & Hf4 & Hl4 & Hq4). exists s4.
  split; [exact E4|]. split; [by do 2 (eapply hash_frame_trans; [done|])|]. split; [done|].
  assert (head q <> Some b) as Hqb by (intros Hx; apply Hb; destruct q; simplify_eq/=; by left). split.
  - apply (Queue.dlist_push (hlk s)); [done|done| | |].
    + rewrite Hl4. by rewrite Eo3.
    + intros x n p Hx Ex. rewrite Hl4. by eapply Hl3.
    + intros x Hxb Hx. rewrite Hl4. by rewrite Eo3, Eo2, Eo1.
  - intros x Hx. apply not_elem_of_cons in Hx as [Hxb Hxq]. rewrite Hl4, Eo3, Eo2, Eo1; [done|done|done|].
    intros Hq. apply Hxq. destruct q; simplify_eq/=. by left.
Qed.

(** Taking a buffer out of a list that has another one. *)
Lemma delete_from_hashlist_spec s H i q1 b q2 :
  hash_queue_buffers s = head <$> H -> H !! i = Some (q1 ++ b :: q2) -> Queue.dlist (hlk s) (q1 ++ b :: q2) -> q1 ++ q2 <> [] ->
  exists s', delete_from_hashlist (Z.of_nat i) b s = Some s' /\ hash_frame s s' /\
    hash_queue_buffers s' = head <$> <[i := q1 ++ q2]> H /\ Queue.dlist (hlk s') (q1 ++ q2) /\
    forall x, x ∉ q1 ++ q2 -> hlk s' x = hlk s x.
Proof.
  intros Hh E Hd Hne. pose proof (proj2 Hd q1 b q2 eq_refl) as Hb. pose proof Hb as (h & Eb & [= En Ep])%fmap_Some.
  unfold delete_from_hashlist. rewrite Eb, bind_Some, <- En, <- Ep. rewrite bool_decide_false.
  2:{ intros [El%last_None Eh]. destruct q2; [|done]. subst q1. done. }
  assert (exists s1, match last q1 with Some x => upd x (set_hnext (head q2)) s | None => set_hash (Z.of_nat i) (head q2) s end = Some s1 /\
    hash_frame s s1 /\ hash_queue_buffers s1 = head <$> <[i := q1 ++ q2]> H /\
    (forall x n p, last q1 = Some x -> hlk s x = Some (n, p) -> hlk s1 x = Some (head q2, p)) /\
    (forall x, last q1 <> Some x -> hlk s1 x = hlk s x)) as (s1 & -> & Hf1 & Hq1 & Hl1 & Ho1).
  { destruct (last q1) as [y|] eqn:El.
    - destruct (Queue.dlist_prev _ _ _ _ _ Hd El) as (_ & _ & pv & Hy).
      destruct (upd_hnext s y (head q2) _ _ Hy) as (s1 & -> & Hf & A & C & Eo). exists s1. split; [done|]. split; [done|]. split.
      + rewrite A, Hh. symmetry. rewrite list_fmap_insert. apply list_insert_id. rewrite list_lookup_fmap, E. simpl.
        destruct q1; [done|]. done.
      + split; [|intros x Hx; apply Eo; congruence]. intros x n p [= <-] Hx. rewrite Hy in Hx. by injection Hx as <- <-.
    - apply last_None in El as ->. destruct (set_hash_head s H i _ q2 Hh E) as (s1 & -> & Hf & Hl & Hq). exists s1. by split_and!. }
  rewrite bind_Some.
  assert (exists s', match head q2 with Some x => upd x (set_hprev (last q1)) s1 | None => Some s1 end = Some s' /\
    hash_frame s1 s' /\ hash_queue_buffers s' = hash_queue_buffers s1 /\
    (forall x n p, head q2 = Some x -> hlk s x = Some (n, p) -> hlk s' x = Some (n, last q1)) /\
    (forall x, head q2 <> Some x -> hlk s' x = hlk s1 x)) as (s' & -> & Hf2 & Hq2 & Hl2 & Ho2).
  { destruct q2 as [|y q2]; simpl; [exists s1; by split_and!|].
    destruct (Queue.dlist_next _ _ _ _ y Hd eq_refl) as (Hyb & nx & Hy).
    assert (hlk s1 y = Some (nx, Some b)) as Hy1.
    { rewrite Ho1; [done|]. intros Hx. destruct (Queue.dlist_prev _ _ _ _ _ Hd Hx) as (_ & Hnb & _). by apply Hnb. }
    destruct (upd_hprev s1 y (last q1) _ _ Hy1) as (s' & -> & Hf & A & C & Eo). exists s'. split; [done|]. split; [done|]. split; [done|].
    split; [|intros x Hx; apply Eo; congruence]. intros x n p [= <-] Hx. rewrite Hy in Hx. by injection Hx as <- <-. }
  exists s'. split; [done|]. split; [by eapply hash_frame_trans|]. split; [by rewrite Hq2|]. split.
  - apply (Queue.dlist_remove (hlk s) _ q1 b q2 Hd).
    + done.
    + intros x n p Hx Hl. rewrite Ho2; [by eapply Hl1|]. intros Hy. by destruct (Queue.dlist_prev _ _ _ _ _ Hd Hx) as (_ & ? & _).
    + intros x Hxb Hxh Hxl. by rewrite Ho2, Ho1.
  - intros x Hx. rewrite Ho2, Ho1; [done| |].
    + intros Hl%last_Some_elem_of. apply Hx, elem_of_app. by left.
    + intros Hl. apply Hx, elem_of_app. right. destruct q2; simplify_eq/=. by left.
Qed.

(** * Invariant *)

Definition all_bufs : list loc := buf <$> seq 0 MAX_BUFFERS.
Definition hashed (H : list (list loc)) (b : loc) : Prop := exists i q, H !! i = Some q /\ b ∈ q.

(** The free list is [F], and the hash lists [H] have the blocks of their index. *)
Record lists_ok (s : cache) (F : list loc) (H : list (list loc)) : Prop := {
  lo_dom b : is_Some (buffers s !! b) <-> b ∈ all_bufs;
  lo_free : free_ok s F;
  lo_heads : hash_queue_buffers s = head <$> H;
  lo_num : length H = 7%nat;
  lo_lists i q : H !! i = Some q -> Queue.dlist (hlk s) q;
  lo_hashed i q b : H !! i = Some q -> b ∈ q -> exists x, infos s b = Some x /\ i_blk x mod BUFF_HASHNUMBER = Z.of_nat i }.

Section Invariant.
Context {D : Type} `{!Drive D}.
Implicit Types (s : cache) (d : D) (F : list loc) (H : list (list loc)) (b : loc) (x : info).

(** A clean buffer that no one is using has what the disk has. *)
Definition info_ok d x : Prop :=
  i_dev x = 0 /\ length (i_buff x) = 512%nat /\ (delayed x = true -> valid x = true) /\
  (busy x = false -> valid x = true -> delayed x = false -> i_buff x = sector d (i_blk x)).

(** Besides: a buffer is on the free list exactly when it is not busy, a block is
    in at most one buffer, a buffer in no hash list has no data, and the write
    queue is empty. *)
Record cache_ok s d F H : Prop := {
  ok_lists : lists_ok s F H;
  ok_info b x : infos s b = Some x -> info_ok d x;
  ok_busy b x : infos s b = Some x -> (b ∈ F <-> busy x = false);
  ok_unhashed b x : infos s b = Some x -> ~ hashed H b -> hlk s b = Some (NULL, NULL) /\ valid x = false;
  ok_unique b1 b2 x1 x2 : hashed H b1 -> hashed H b2 -> infos s b1 = Some x1 -> infos s b2 = Some x2 -> i_blk x1 = i_blk x2 -> b1 = b2;
  ok_queue : delayed_write_q_head s = NULL /\ delayed_write_q_tail s = NULL }.

Definition cache_inv s d : Prop := exists F H, cache_ok s d F H.

(** The block a reader sees: in a buffer if one has valid data of it, else on the
    disk. *)
Definition holds s (blk : Z) b : bool := match infos s b with Some x => valid x && (i_blk x =? blk) | None => false end.
Definition view s d (blk : Z) : list Z :=
  match List.find (holds s blk) all_bufs with
  | Some b => match infos s b with Some x => i_buff x | None => [] end
  | None => sector d blk
  end.

(** The same as a relation. *)
Definition content s d (blk : Z) (v : list Z) : Prop :=
  (exists b x, infos s b = Some x /\ valid x = true /\ i_blk x = blk /\ i_buff x = v) \/
  ((forall b x, infos s b = Some x -> valid x = true -> i_blk x <> blk) /\ v = sector d blk).

Lemma infos_dom s F H b x : lists_ok s F H -> infos s b = Some x -> b ∈ all_bufs.
Proof. intros Hl (h & E & _)%infos_lookup. apply (lo_dom _ _ _ Hl). eauto. Qed.

Lemma valid_hashed s d F H b x : cache_ok s d F H -> infos s b = Some x -> valid x = true -> hashed H b.
Proof.
  intros Hok E Hv. destruct (decide (Exists (fun q => b ∈ q) H)) as [(q & Hq & Hb)%Exists_exists|Hn].
  - apply list_elem_of_lookup in Hq as [i Hi]. by exists i, q.
  - exfalso. destruct (ok_unhashed _ _ _ _ Hok b x E) as [_ Hf]; [|congruence]. intros (i & q & Hi & Hq). apply Hn, Exists_exists.
    exists q. split; [by eapply list_elem_of_lookup_2|done].
Qed.

Lemma content_view s d F H blk v : cache_ok s d F H -> content s d blk v <-> view s d blk = v.
Proof.
  intros Hok. unfold view. destruct (List.find (holds s blk) all_bufs) as [b|] eqn:Ef.
  - apply List.find_some in Ef as [_ Hb]. unfold holds in Hb. destruct (infos s b) as [x|] eqn:E; [|done].
    apply andb_true_iff in Hb as [Hv Hx%Z.eqb_eq]. split; [|intros <-; left; by exists b, x].
    intros [(b' & x' & E' & Hv' & Hx' & <-)|[Hno _]]; [|by destruct (Hno b x E Hv)].
    assert (b = b') as <-.
    { eapply (ok_unique _ _ _ _ Hok b b' x x'); eauto using valid_hashed. congruence. }
    rewrite E in E'. by injection E' as <-.
  - pose proof (List.find_none _ _ Ef) as Hno. assert (forall b x, infos s b = Some x -> valid x = true -> i_blk x <> blk) as Hno'.
    { intros b x E Hv Hx. specialize (Hno b). unfold holds in Hno. rewrite E, Hv, Hx, Z.eqb_refl in Hno.
      discriminate Hno. apply list_elem_of_In. eapply infos_dom; [apply (ok_lists _ _ _ _ Hok)|done]. }
    split; [|intros <-; by right]. intros [(b & x & E & Hv & Hx & <-)|[_ ->]]; [by destruct (Hno' b x E Hv)|done].
Qed.

(** * Searching a hash list *)

Lemma search_list s dev blk q2 : forall fuel q1, Queue.dlist (hlk s) (q1 ++ q2) -> (length q2 <= fuel)%nat ->
  exists r, search fuel (buffers s) dev blk (head q2) = Some r /\
    match r with
    | Some b => b ∈ q2 /\ exists x, infos s b = Some x /\ i_dev x = dev /\ i_blk x = blk
    | None => forall b x, b ∈ q2 -> infos s b = Some x -> ~ (i_dev x = dev /\ i_blk x = blk)
    end.
Proof.
  induction q2 as [|b q2 IH]; intros fuel q1 Hd Hf; simpl in *.
  - exists NULL. split; [by destruct fuel|]. intros b x Hb. by apply not_elem_of_nil in Hb.
  - destruct fuel as [|fuel]; [lia|]. simpl. pose proof (proj2 Hd q1 b q2 eq_refl) as (h & E & [= En Ep])%fmap_Some. rewrite E, bind_Some.
    pose proof (lookup_info _ _ _ E) as Ei.
    destruct (Z.eqb_spec (device h) dev) as [Ed|Ed]; [destruct (Z.eqb_spec (blockno h) blk) as [Eb|Eb]|]; simpl.
    + exists (Some b). split; [done|]. split; [by left|]. eauto.
    + rewrite <- En. destruct (IH fuel (q1 ++ [b])) as (r & -> & Hr); [by rewrite <- app_assoc|lia|]. exists r. split; [done|].
      destruct r as [c|]; [destruct Hr; split; [by right|done]|]. intros c x [->|Hc]%elem_of_cons Ex; [|by eapply Hr].
      rewrite Ei in Ex. injection Ex as <-. simpl. tauto.
    + rewrite <- En. destruct (IH fuel (q1 ++ [b])) as (r & -> & Hr); [by rewrite <- app_assoc|lia|]. exists r. split; [done|].
      destruct r as [c|]; [destruct Hr; split; [by right|done]|]. intros c x [->|Hc]%elem_of_cons Ex; [|by eapply Hr].
      rewrite Ei in Ex. injection Ex as <-. simpl. tauto.
Qed.

Lemma dlist_size s q : Queue.dlist (hlk s) q -> (length q <= size (buffers s))%nat.
Proof.
  intros Hd. rewrite <- (size_dom (D := gset loc)), <- (size_list_to_set (C := gset loc)) by apply Hd.
  apply subseteq_size. intros b Hb%elem_of_list_to_set. apply elem_of_dom.
  destruct (Queue.dlist_elem _ _ _ Hd Hb) as (n & p & (h & E & _)%fmap_Some). by exists h.
Qed.

(** The search of [getblk]: it finds the buffer of the block, if there is one. *)
Lemma search_spec s F H dev blk :
  lists_ok s F H -> exists q r, zget (hash_queue_buffers s) (blk mod BUFF_HASHNUMBER) = Some q /\
    search (S (size (buffers s))) (buffers s) dev blk q = Some r /\
    match r with
    | Some b => hashed H b /\ exists x, infos s b = Some x /\ i_dev x = dev /\ i_blk x = blk
    | None => forall b x, hashed H b -> infos s b = Some x -> ~ (i_dev x = dev /\ i_blk x = blk)
    end.
Proof.
  intros Hl. pose proof (Z.mod_pos_bound blk BUFF_HASHNUMBER ltac:(done)) as Hm. set (i := Z.to_nat (blk mod BUFF_HASHNUMBER)).
  assert (blk mod BUFF_HASHNUMBER = Z.of_nat i) as Ei by (unfold i; lia).
  destruct (lookup_lt_is_Some_2 H i) as [q Hq]. { rewrite (lo_num _ _ _ Hl). unfold i, BUFF_HASHNUMBER in *. lia. }
  pose proof (lo_lists _ _ _ Hl i q Hq) as Hd. pose proof (dlist_size s q Hd).
  destruct (search_list s dev blk q (S (size (buffers s))) [] Hd ltac:(lia)) as (r & Er & Hr). exists (head q), r.
  split; [rewrite Ei, (lo_heads _ _ _ Hl); by apply zget_head|]. split; [done|]. destruct r as [b|].
  - destruct Hr as [Hb Hx]. split; [by exists i, q|done].
  - intros b x (j & q' & Hj & Hb) Ex [Ed Eb]. destruct (lo_hashed _ _ _ Hl j q' b Hj Hb) as (x' & Ex' & Em).
    rewrite Ex in Ex'. injection Ex' as <-. assert (j = i) as -> by (rewrite Eb, Ei in Em; lia). rewrite Hq in Hj. injection Hj as <-. by eapply Hr.
Qed.

(** * A change of one buffer's contents or flags *)

Definition info_step s b x' s' : Prop :=
  infos s' b = Some x' /\ (forall c, c <> b -> infos s' c = infos s c) /\ (forall c, flk s' c = flk s c) /\ (forall c, hlk s' c = hlk s c) /\
  hash_queue_buffers s' = hash_queue_buffers s /\ free_buff_list_head s' = free_buff_list_head s /\
  free_buff_list_tail s' = free_buff_list_tail s /\
  delayed_write_q_head s' = delayed_write_q_head s /\ delayed_write_q_tail s' = delayed_write_q_tail s.

(** Assignments to fields other than links. *)
Definition keeps_links (f : buffer_header -> buffer_header) : Prop := forall h,
  hash_q_next (f h) = hash_q_next h /\ hash_q_prev (f h) = hash_q_prev h /\ free_list_next (f h) = free_list_next h /\ free_list_prev (f h) = free_list_prev h.

Lemma upd_info s b f h :
  keeps_links f -> buffers s !! b = Some h -> exists s', upd b f s = Some s' /\ buffers s' !! b = Some (f h) /\ info_step s b (info_of (f h)) s'.
Proof.
  intros Hf E. destruct (Hf h) as (E1 & E2 & E3 & E4). eexists. split; [by apply upd_Some|]. split; [simpl; by rewrite lookup_insert_eq|].
  split_and!; try done.
  - unfold infos. simpl. by rewrite lookup_insert_eq.
  - intros c Hc. unfold infos. simpl. by rewrite lookup_insert_ne.
  - apply (view_upd _ s b h); [done|]. by rewrite E3, E4.
  - apply (view_upd _ s b h); [done|]. by rewrite E1, E2.
Qed.

Lemma info_step_trans s1 s2 s3 b x y : info_step s1 b x s2 -> info_step s2 b y s3 -> info_step s1 b y s3.
Proof.
  intros (A1 & A2 & A3 & A4 & A5 & A6 & A7 & A8 & A9) (B1 & B2 & B3 & B4 & B5 & B6 & B7 & B8 & B9). split_and!; try congruence.
  intros c Hc. by rewrite B2, A2.
Qed.

Lemma free_ok_ext s s' F :
  free_ok s F -> (forall c, flk s' c = flk s c) -> free_buff_list_head s' = free_buff_list_head s -> free_buff_list_tail s' = free_buff_list_tail s -> free_ok s' F.
Proof. intros (A & B & C) Hl E1 E2. split; [by rewrite E1|]. split; [by rewrite E2|]. by apply (Queue.dlist_frame (flk s)). Qed.

Lemma dom_ext s s' : (forall c, flk s' c = flk s c) -> forall c, is_Some (buffers s' !! c) <-> is_Some (buffers s !! c).
Proof. intros Hl c. specialize (Hl c). unfold flk in Hl. rewrite <- !(fmap_is_Some (fun h => (free_list_next h, free_list_prev h))). by rewrite Hl. Qed.
Lemma dom_ext_info s s' : (forall c, infos s' c = infos s c) -> forall c, is_Some (buffers s' !! c) <-> is_Some (buffers s !! c).
Proof. intros Hl c. specialize (Hl c). unfold infos in Hl. rewrite <- !(fmap_is_Some info_of). by rewrite Hl. Qed.

(** Such a change keeps the lists when the block number stays or the buffer is
    in no hash list. *)
Lemma lists_ok_info s F H b x x' s' :
  lists_ok s F H -> infos s b = Some x -> info_step s b x' s' -> (i_blk x' = i_blk x \/ ~ hashed H b) -> lists_ok s' F H.
Proof.
  intros Hl Ex (E1 & E2 & E3 & E4 & E5 & E6 & E7 & _) Hb. split.
  - intros c. rewrite dom_ext by done. apply Hl.
  - by eapply free_ok_ext; [apply Hl|..].
  - rewrite E5. apply Hl.
  - apply Hl.
  - intros i q Hq. apply (Queue.dlist_frame (hlk s)); [by eapply Hl|done].
  - intros i q c Hq Hc. destruct (lo_hashed _ _ _ Hl i q c Hq Hc) as (y & Ey & Em). destruct (decide (c = b)) as [->|].
    + exists x'. split; [done|]. destruct Hb as [->|Hb]; [congruence|]. destruct Hb. by exists i, q.
    + exists y. by rewrite E2.
Qed.

Lemma lists_ok_free s F F' H s' : lists_ok s F H -> free_frame s s' -> free_ok s' F' -> lists_ok s' F' H.
Proof.
  intros Hl (E1 & E2 & E3 & _) Hf. split.
  - intros c. rewrite dom_ext_info by done. apply Hl.
  - done.
  - rewrite E3. apply Hl.
  - apply Hl.
  - intros i q Hq. apply (Queue.dlist_frame (hlk s)); [by eapply Hl|done].
  - intros i q c Hq Hc. rewrite E1. by eapply Hl.
Qed.

(** The whole invariant, for changes of one buffer and of the free list. *)
Lemma cache_ok_change s d d' F F' H b x x' s' :
  cache_ok s d F H -> lists_ok s' F' H -> infos s b = Some x -> infos s' b = Some x' -> (forall c, c <> b -> infos s' c = infos s c) ->
  (forall c, hlk s' c = hlk s c) -> delayed_write_q_head s' = delayed_write_q_head s -> delayed_write_q_tail s' = delayed_write_q_tail s ->
  i_blk x' = i_blk x -> hashed H b -> info_ok d' x' -> (b ∈ F' <-> busy x' = false) ->
  (forall c, c <> b -> (c ∈ F' <-> c ∈ F)) -> (forall blk, blk <> i_blk x -> sector d' blk = sector d blk) ->
  cache_ok s' d' F' H.
Proof.
  intros Hok Hl Ex Ex' Eo Eh Ew1 Ew2 Eb Hh Hi Hbusy HF Hsec. split.
  - done.
  - intros c y Ey. destruct (decide (c = b)) as [->|Hc]; [congruence|]. rewrite Eo in Ey by done.
    destruct (ok_info _ _ _ _ Hok c y Ey) as (A1 & A2 & A3 & A4). split_and!; try done. intros B1 B2 B3. rewrite Hsec; [auto|].
    intros E. apply Hc. by eapply (ok_unique _ _ _ _ Hok c b y x); eauto using valid_hashed.
  - intros c y Ey. destruct (decide (c = b)) as [->|Hc]; [rewrite Ex' in Ey; by injection Ey as <-|]. rewrite Eo in Ey by done.
    rewrite HF by done. by apply (ok_busy _ _ _ _ Hok).
  - intros c y Ey Hn. assert (c <> b) as Hc by (by intros ->). rewrite Eo in Ey by done. rewrite Eh. by apply (ok_unhashed _ _ _ _ Hok).
  - intros b1 b2 x1 x2 H1 H2 E1 E2 E12.
    assert (forall c y, infos s' c = Some y -> exists y', infos s c = Some y' /\ i_blk y' = i_blk y) as Hback.
    { intros c y Ey. destruct (decide (c = b)) as [->|Hc]; [exists x; split; [done|congruence]|]. rewrite Eo in Ey by done. eauto. }
    destruct (Hback _ _ E1) as (y1 & E1' & Eb1). destruct (Hback _ _ E2) as (y2 & E2' & Eb2).
    apply (ok_unique _ _ _ _ Hok b1 b2 y1 y2); [done..|congruence].
  - rewrite Ew1, Ew2. apply Hok.
Qed.

(** What the readers see then. *)
Lemma view_change s d d' F F' H b x x' s' :
  cache_ok s d F H -> cache_ok s' d' F' H -> infos s b = Some x -> infos s' b = Some x' -> (forall c, c <> b -> infos s' c = infos s c) ->
  i_blk x' = i_blk x -> (forall blk, blk <> i_blk x -> sector d' blk = sector d blk) ->
  forall blk, blk <> i_blk x -> view s' d' blk = view s d blk.
Proof.
  intros Hok Hok' Ex Ex' Eo Eb Hsec blk Hne. apply (content_view _ _ _ _ _ _ Hok').
  destruct (proj2 (content_view s d F H blk _ Hok) eq_refl) as [(c & y & Ey & Hv & Hb & Hd)|[Hno Hd]].
  - left. exists c, y. split_and!; try done. rewrite Eo; [done|]. intros ->. congruence.
  - right. split; [|rewrite Hd; symmetry; by apply Hsec]. intros c y Ey Hv Hb. destruct (decide (c = b)) as [->|Hc]; [congruence|].
    rewrite Eo in Ey by done. by eapply Hno.
Qed.

Lemma view_valid s d F H b x : cache_ok s d F H -> infos s b = Some x -> valid x = true -> view s d (i_blk x) = i_buff x.
Proof. intros Hok E Hv. apply (content_view _ _ _ _ _ _ Hok). left. by exists b, x. Qed.
Lemma view_invalid s d F H b x : cache_ok s d F H -> hashed H b -> infos s b = Some x -> valid x = false -> view s d (i_blk x) = sector d (i_blk x).
Proof.
  intros Hok Hh E Hv. apply (content_view _ _ _ _ _ _ Hok). right. split; [|done]. intros c y Ey Hvy Eb.
  assert (c = b) as -> by (eapply (ok_unique _ _ _ _ Hok c b y x); eauto using valid_hashed). congruence.
Qed.

(** * [getblk] *)

Definition with_flags (fl : Z) x : info := mk_info (i_blk x) (i_dev x) fl (i_buff x) (i_io x).
Definition with_buff (l : list Z) x : info := mk_info (i_blk x) (i_dev x) (i_flags x) l (i_io x).
Definition with_io (st : Z) x : info := mk_info (i_blk x) (i_dev x) (i_flags x) (i_buff x) st.

Lemma infos_is_Some s b x : infos s b = Some x -> is_Some (buffers s !! b).
Proof. intros (h & E & _)%infos_lookup. eauto. Qed.

(** The lists of a clean state, without repetitions. *)
Lemma free_NoDup s F : free_ok s F -> NoDup F.
Proof. intros (_ & _ & Hd). apply Hd. Qed.

Lemma middle_mem F1 F2 b c : NoDup (F1 ++ b :: F2) -> (b ∉ F1 ++ F2) /\ (c <> b -> (c ∈ F1 ++ F2 <-> c ∈ F1 ++ b :: F2)).
Proof.
  intros Hn. split.
  - rewrite <- Permutation_middle in Hn. by apply NoDup_cons in Hn as [? _].
  - intros Hc. rewrite !elem_of_app, elem_of_cons. tauto.
Qed.

(** The block is in a buffer that no one uses: the caller gets that one. *)
Lemma getblk_1_hit s d F H b x :
  cache_ok s d F H -> hashed H b -> infos s b = Some x -> busy x = false ->
  exists s' F', getblk_1 0 (i_blk x) s = Some (Got b, s') /\ cache_ok s' d F' H /\ F ≡ₚ b :: F' /\
    infos s' b = Some (with_flags (Z.lor (i_flags x) BUFF_BUSY) x) /\ forall c, c <> b -> infos s' c = infos s c.
Proof.
  intros Hok Hh Ex Hb. pose proof (ok_lists _ _ _ _ Hok) as Hl. destruct (ok_info _ _ _ _ Hok b x Ex) as (Ed & El & Edv & Ecl).
  unfold getblk_1. destruct (search_spec s F H 0 (i_blk x) Hl) as (q & r & -> & Er & Hr). rewrite bind_Some, Er, bind_Some.
  assert (r = Some b) as ->.
  { destruct r as [c|]; [|by destruct (Hr b x Hh Ex)]. destruct Hr as (Hc & y & Ey & _ & Eb). f_equal. by eapply (ok_unique _ _ _ _ Hok c b y x). }
  destruct (infos_lookup _ _ _ Ex) as (h & Eh & Ei). rewrite Eh, bind_Some.
  assert (has_bits (flags h) BUFF_BUSY = false) as -> by (unfold busy in Hb; by rewrite <- Ei in Hb).
  destruct (upd_info s b (set_flags (Z.lor (flags h) BUFF_BUSY)) h) as (s1 & -> & E1 & Hs1); [done..|]. rewrite bind_Some.
  assert (b ∈ F) as HbF by by apply (ok_busy _ _ _ _ Hok b x). apply list_elem_of_split in HbF as (F1 & F2 & ->).
  assert (lists_ok s1 (F1 ++ b :: F2) H) as Hl1 by (eapply lists_ok_info; [done..|left; by rewrite <- Ei]).
  destruct (delete_from_freelist_spec s1 F1 b F2 (lo_free _ _ _ Hl1)) as (s' & -> & Hf & Hfr & _). rewrite bind_Some.
  destruct (middle_mem F1 F2 b b (free_NoDup _ _ (lo_free _ _ _ Hl))) as [Hnin _].
  exists s', (F1 ++ F2). split; [done|]. pose proof Hfr as (A1 & A2 & A3 & A4 & A5). destruct Hs1 as (B1 & B2 & B3 & B4 & B5 & B6 & B7 & B8 & B9).
  assert (infos s' b = Some (with_flags (Z.lor (i_flags x) BUFF_BUSY) x)) as E' by (rewrite A1, B1; by rewrite <- Ei).
  assert (forall c, c <> b -> (c ∈ F1 ++ F2 <-> c ∈ F1 ++ b :: F2)) as Hmem.
  { intros c Hc. by apply (middle_mem F1 F2 b c (free_NoDup _ _ (lo_free _ _ _ Hl))). }
  assert (forall c, c <> b -> infos s' c = infos s c) as Eo by (intros c Hc; by rewrite A1, B2).
  split; [|split; [by rewrite Permutation_middle|done]]. apply (cache_ok_change s d d (F1 ++ b :: F2) (F1 ++ F2) H b x (with_flags (Z.lor (i_flags x) BUFF_BUSY) x)); try done; try congruence.
  - by eapply lists_ok_free.
  - split_and!; [done|done| |].
    + unfold delayed, valid. simpl. flag_simpl. done.
    + unfold busy. simpl. flag_simpl. done.
  - unfold busy. simpl. flag_simpl. done.
Qed.

(** A buffer that can be given to another block: no delayed data, and not the
    only one of its hash list, which [delete_from_hashlist] would leave there. *)
Definition recyclable s b : bool :=
  match buffers s !! b with
  | Some h => negb (has_bits (flags h) BUFF_WRITEDELAY) &&
      negb (bool_decide (hash_q_next h = NULL /\ hash_q_prev h = NULL /\ zget (hash_queue_buffers s) (blockno h mod BUFF_HASHNUMBER) = Some (Some b)))
  | None => false
  end.

Lemma hashed_dec H b : hashed H b \/ ~ hashed H b.
Proof.
  destruct (decide (Exists (fun q => b ∈ q) H)) as [(q & Hq & Hb)%Exists_exists|Hn].
  - apply list_elem_of_lookup in Hq as [i Hi]. left. by exists i, q.
  - right. intros (i & q & Hi & Hq). apply Hn, Exists_exists. exists q. split; [by eapply list_elem_of_lookup_2|done].
Qed.

Lemma hashed_place s F H b x :
  lists_ok s F H -> hashed H b -> infos s b = Some x -> exists i q1 q2, i_blk x mod BUFF_HASHNUMBER = Z.of_nat i /\ H !! i = Some (q1 ++ b :: q2).
Proof.
  intros Hl (i & q & Hi & Hq) Ex. destruct (lo_hashed _ _ _ Hl i q b Hi Hq) as (y & Ey & Em). rewrite Ex in Ey. injection Ey as <-.
  apply list_elem_of_split in Hq as (q1 & q2 & ->). by exists i, q1, q2.
Qed.

(** A hash list replaced by another. *)
Lemma hashed_insert H i q q' c : H !! i = Some q -> hashed (<[i := q']> H) c <-> (c ∈ q' \/ exists j q, j <> i /\ H !! j = Some q /\ c ∈ q).
Proof.
  intros Hi. pose proof (lookup_lt_Some _ _ _ Hi). split.
  - intros (j & q0 & Hj & Hc). destruct (decide (j = i)) as [->|Hne].
    + rewrite list_lookup_insert_eq in Hj by done. injection Hj as <-. by left.
    + rewrite list_lookup_insert_ne in Hj by done. right. eauto.
  - intros [Hc|(j & q0 & Hne & Hj & Hc)].
    + exists i, q'. by rewrite list_lookup_insert_eq.
    + exists j, q0. by rewrite list_lookup_insert_ne.
Qed.

Lemma lists_ok_rehash s s' F H i q q' :
  lists_ok s F H -> hash_frame s s' -> H !! i = Some q -> hash_queue_buffers s' = head <$> <[i := q']> H -> Queue.dlist (hlk s') q' ->
  (forall c, c ∈ q' -> exists x, infos s c = Some x /\ i_blk x mod BUFF_HASHNUMBER = Z.of_nat i) ->
  (forall c, (exists j q, j <> i /\ H !! j = Some q /\ c ∈ q) -> hlk s' c = hlk s c) ->
  lists_ok s' F (<[i := q']> H).
Proof.
  intros Hl (E1 & E2 & E3 & E4 & _) Hi Eq Hd Hm Ho. split.
  - intros c. rewrite dom_ext by done. apply Hl.
  - by eapply free_ok_ext; [apply Hl|..].
  - done.
  - rewrite length_insert. apply Hl.
  - intros j q0 Hj. destruct (decide (j = i)) as [->|Hne].
    + rewrite list_lookup_insert_eq in Hj by (by eapply lookup_lt_Some). by injection Hj as <-.
    + rewrite list_lookup_insert_ne in Hj by done. apply (Queue.dlist_frame (hlk s)); [by eapply Hl|]. intros c Hc. apply Ho. eauto.
  - intros j q0 c Hj Hc. rewrite E1. destruct (decide (j = i)) as [->|Hne].
    + rewrite list_lookup_insert_eq in Hj by (by eapply lookup_lt_Some). injection Hj as <-. by apply Hm.
    + rewrite list_lookup_insert_ne in Hj by done. by eapply Hl.
Qed.

(** The buffers of two hash lists differ. *)
Lemma lists_disjoint s F H i q c :
  lists_ok s F H -> H !! i = Some q -> c ∈ q -> ~ exists j q, j <> i /\ H !! j = Some q /\ c ∈ q.
Proof.
  intros Hl Hi Hc (j & q' & Hne & Hj & Hc'). destruct (lo_hashed _ _ _ Hl i q c Hi Hc) as (x & Ex & E1).
  destruct (lo_hashed _ _ _ Hl j q' c Hj Hc') as (y & Ey & E2). apply Hne. rewrite Ex in Ey. injection Ey as <-. lia.
Qed.

(** A recyclable buffer is taken out of the hash lists. *)
Lemma evict_spec s d F H b x :
  cache_ok s d F H -> infos s b = Some x -> recyclable s b = true ->
  forall s1 F1, lists_ok s1 F1 H -> (forall c, infos s1 c = infos s c) -> (forall c, hlk s1 c = hlk s c) -> 
  exists s2 H2, delete_from_hashlist (i_blk x mod BUFF_HASHNUMBER) b s1 = Some s2 /\ lists_ok s2 F1 H2 /\ hash_frame s1 s2 /\
    (forall c, hashed H2 c <-> hashed H c /\ c <> b) /\ (forall c, ~ hashed H c -> hlk s2 c = hlk s c).
Proof.
  intros Hok Ex Hr s1 F1 Hl1 Ei Ek. pose proof (ok_lists _ _ _ _ Hok) as Hl. destruct (hashed_dec H b) as [Hh|Hh].
  - destruct (hashed_place s F H b x Hl Hh Ex) as (i & q1 & q2 & Em & Hi).
    assert (q1 ++ q2 <> []) as Hne.
    { intros E. apply app_eq_nil in E as [-> ->]. unfold recyclable in Hr. destruct (infos_lookup _ _ _ Ex) as (h & Eh & <-). rewrite Eh in Hr.
      rewrite bool_decide_true in Hr; [by rewrite andb_false_r in Hr|].
      pose proof (proj2 (lo_lists _ _ _ Hl i _ Hi) [] b [] eq_refl) as Hlk. unfold hlk in Hlk. rewrite Eh in Hlk. injection Hlk as E1 E2.
      split; [done|]. split; [done|]. simpl in Em. rewrite Em, (lo_heads _ _ _ Hl). by apply (zget_head H i [b]). }
    destruct (delete_from_hashlist_spec s1 H i q1 b q2) as (s2 & E2 & Hf & Hq & Hd & Ho);
      [apply Hl1|done|by apply (lo_lists _ _ _ Hl1 i)|done|]. rewrite Em.
    pose proof (proj1 (lo_lists _ _ _ Hl1 i _ Hi)) as Hnd. destruct (middle_mem q1 q2 b b Hnd) as [Hnin _].
    exists s2, (<[i := q1 ++ q2]> H). split; [done|]. split; [|split; [done|split]].
    + eapply lists_ok_rehash; [done..| |].
      * intros c Hc. apply (lo_hashed _ _ _ Hl1 i (q1 ++ b :: q2)); [done|]. rewrite elem_of_app in *. rewrite elem_of_cons. tauto.
      * intros c Hc. apply Ho. intros Hc2. eapply (lists_disjoint s1 F1 H i); [done..| |done]. rewrite elem_of_app in *. rewrite elem_of_cons. tauto.
    + intros c. rewrite hashed_insert by done. split.
      * intros [Hc|(j & q & Hne' & Hj & Hc)].
        -- split; [|by intros ->]. exists i, (q1 ++ b :: q2). split; [done|]. rewrite elem_of_app in *. rewrite elem_of_cons. tauto.
        -- split; [by exists j, q|]. intros ->. eapply (lists_disjoint s1 F1 H i _ b Hl1 Hi); [|by eauto]. rewrite elem_of_app, elem_of_cons. tauto.
      * intros [(j & q & Hj & Hc) Hcb]. destruct (decide (j = i)) as [->|]; [left|right; by eauto]. rewrite Hi in Hj. injection Hj as <-.
        by apply (middle_mem q1 q2 b c Hnd).
    + intros c Hc. rewrite Ho; [apply Ek|]. intros Hc2. apply Hc. exists i, (q1 ++ b :: q2). split; [done|]. rewrite elem_of_app in *. rewrite elem_of_cons. tauto.
  - destruct (ok_unhashed _ _ _ _ Hok b x Ex Hh) as [Hlk _]. exists s1, H. rewrite <- Ek in Hlk. unfold delete_from_hashlist, hlk in *.
    destruct (buffers s1 !! b) as [h|] eqn:E; [|done]. injection Hlk as E1 E2. rewrite bind_Some, E1, E2, bool_decide_true by done.
    split; [done|]. split; [done|]. split; [done|]. split; [|intros c _; apply Ek]. intros c. split; [|tauto]. intros Hc. split; [done|]. by intros ->.
Qed.

(** The state of a buffer just given to a block. *)
Definition renamed (blk : Z) x : info :=
  mk_info blk 0 (Z.land (Z.lor (i_flags x) BUFF_BUSY) (Z.lnot BUFF_DATAVALID)) (i_buff x) (i_io x).

(** The buffer, out of all hash lists, gets its new block and its new list. *)
Lemma rename_spec s F H b x blk :
  lists_ok s F H -> infos s b = Some x -> ~ hashed H b ->
  exists s' H', (s ← upd b (set_id 0 blk) s;
       s ← upd b (set_flags (Z.land (Z.lor (i_flags x) BUFF_BUSY) (Z.lnot BUFF_DATAVALID))) s;
       s ← enqueue_to_hashlist (blk mod BUFF_HASHNUMBER) b s;
       Some (Got b, s)) = Some (Got b, s') /\
    lists_ok s' F H' /\ (forall c, hashed H' c <-> hashed H c \/ c = b) /\
    infos s' b = Some (renamed blk x) /\ (forall c, c <> b -> infos s' c = infos s c) /\
    (forall c, c <> b -> ~ hashed H c -> hlk s' c = hlk s c) /\
    delayed_write_q_head s' = delayed_write_q_head s /\ delayed_write_q_tail s' = delayed_write_q_tail s.
Proof.
  intros Hl Ex Hn. destruct (infos_lookup _ _ _ Ex) as (h & Eh & <-). simpl (i_flags _).
  destruct (upd_info s b (set_id 0 blk) h) as (s1 & -> & Eh1 & Hs1); [done..|]. rewrite bind_Some.
  destruct (upd_info s1 b (set_flags (Z.land (Z.lor (flags h) BUFF_BUSY) (Z.lnot BUFF_DATAVALID))) _ ltac:(done) Eh1) as (s2 & -> & Eh2 & Hs2). rewrite bind_Some.
  pose proof (info_step_trans _ _ _ _ _ _ Hs1 Hs2) as Hs.
  assert (lists_ok s2 F H) as Hl2 by (eapply lists_ok_info; [exact Hl|exact Ex|exact Hs|by right]).
  pose proof (Z.mod_pos_bound blk BUFF_HASHNUMBER ltac:(done)) as Hm. set (i := Z.to_nat (blk mod BUFF_HASHNUMBER)).
  assert (blk mod BUFF_HASHNUMBER = Z.of_nat i) as Ei by (unfold i; lia).
  destruct (lookup_lt_is_Some_2 H i) as [q Hq]. { rewrite (lo_num _ _ _ Hl). unfold i, BUFF_HASHNUMBER in *. lia. }
  assert (b ∉ q) as Hbq by (intros Hb; apply Hn; by exists i, q).
  destruct (enqueue_to_hashlist_spec s2 H i q b) as (s3 & E3 & Hf & Hh & Hd & Ho); [apply Hl2|done|by apply (lo_lists _ _ _ Hl2 i)|done|by eauto|].
  rewrite Ei, E3, bind_Some. exists s3, (<[i := b :: q]> H). split; [done|].
  destruct Hs as (B1 & B2 & B3 & B4 & B5 & B6 & B7 & B8 & B9). destruct Hf as (A1 & A2 & A3 & A4 & A5 & A6).
  assert (infos s2 b = Some (renamed blk (info_of h))) as Eb by by rewrite B1. split; [|split; [|split_and!]].
  - eapply lists_ok_rehash; [exact Hl2|done|done|done|done| |].
    + intros c [->|Hc]%elem_of_cons; [by eexists|]. by eapply lo_hashed.
    + intros c Hc. apply Ho. rewrite not_elem_of_cons. split.
      * intros ->. destruct Hc as (j & q' & _ & Hj & Hc). apply Hn. by exists j, q'.
      * intros Hc2. by eapply (lists_disjoint s2 F H i q c).
  - intros c. rewrite hashed_insert, elem_of_cons by done. split.
    + intros [[->|Hc]|(j & q' & _ & Hj & Hc)]; [by right|left; by exists i, q|left; by exists j, q'].
    + intros [(j & q' & Hj & Hc)| ->]; [|left; by left]. destruct (decide (j = i)) as [->|]; [|right; by eauto]. rewrite Hq in Hj. injection Hj as <-. left. by right.
  - by rewrite A1.
  - intros c Hc. by rewrite A1, B2.
  - intros c Hc Hnc. rewrite Ho, B4; [done|]. rewrite not_elem_of_cons. split; [done|]. intros Hc2. apply Hnc. by exists i, q.
  - by rewrite A5, B8.
  - by rewrite A6, B9.
Qed.

(** The block is in no buffer: the first of the free list is given to it. *)
Lemma getblk_1_miss s d b F H x blk :
  cache_ok s d (b :: F) H -> (forall c y, hashed H c -> infos s c = Some y -> i_blk y <> blk) -> infos s b = Some x -> recyclable s b = true ->
  exists s' H', getblk_1 0 blk s = Some (Got b, s') /\ cache_ok s' d F H' /\ hashed H' b /\ (forall c, c <> b -> (hashed H' c <-> hashed H c)) /\
    infos s' b = Some (renamed blk x) /\ forall c, c <> b -> infos s' c = infos s c.
Proof.
  intros Hok Hno Ex Hr. pose proof (ok_lists _ _ _ _ Hok) as Hl. destruct (ok_info _ _ _ _ Hok b x Ex) as (Ed & El & Edv & Ecl).
  unfold getblk_1. destruct (search_spec s (b :: F) H 0 blk Hl) as (q & r & -> & Er & Hrr). rewrite bind_Some, Er, bind_Some.
  assert (r = NULL) as -> by (destruct r as [c|]; [destruct Hrr as (Hc & y & Ey & _ & Eb); by destruct (Hno c y Hc Ey)|done]).
  rewrite (proj1 (lo_free _ _ _ Hl)). simpl (head _). cbv iota.
  destruct (delete_from_freelist_spec s [] b F (lo_free _ _ _ Hl)) as (s1 & -> & Hf & Hfr & _). rewrite bind_Some.
  pose proof (lists_ok_free _ _ _ _ _ Hl Hfr Hf) as Hl1. simpl in Hl1. destruct Hfr as (A1 & A2 & A3 & A4 & A5).
  assert (infos s1 b = Some x) as Ex1 by by rewrite A1. destruct (infos_lookup _ _ _ Ex1) as (h & Eh & Ei). rewrite Eh, bind_Some.
  assert (delayed x = false) as Hdel.
  { unfold recyclable in Hr. destruct (infos_lookup _ _ _ Ex) as (h0 & Eh0 & <-). rewrite Eh0 in Hr. apply andb_true_iff in Hr as [Hr%negb_true_iff _]. done. }
  assert (has_bits (flags h) BUFF_WRITEDELAY = false) as -> by by rewrite <- Ei in Hdel.
  destruct (evict_spec s d (b :: F) H b x Hok Ex Hr s1 F Hl1 A1 A2) as (s2 & H2 & E2 & Hl2 & Hf2 & Hh2 & Hu2). rewrite <- Ei in E2. simpl in E2. rewrite E2, bind_Some.
  pose proof Hf2 as (B1 & B2 & B3 & B4 & B5 & B6).
  destruct (rename_spec s2 F H2 b x blk Hl2) as (s3 & H3 & E3 & Hl3 & Hh3 & Ei3 & Eo3 & Eu3 & Ew3 & Ew4).
  { by rewrite B1, A1. } { rewrite Hh2. tauto. } rewrite <- Ei in E3. simpl (i_flags _) in E3. exists s3, H3. split; [exact E3|].
  assert (forall c, c <> b -> infos s3 c = infos s c) as Eo by (intros c Hc; by rewrite Eo3, B1, A1).
  assert (forall c, hashed H3 c <-> hashed H c \/ c = b) as Hh. { intros c. rewrite Hh3, Hh2. destruct (decide (c = b)); tauto. }
  split; [|split; [apply Hh; by right|split; [|by split]]; intros c Hc; rewrite Hh; tauto]. 
  assert (NoDup (b :: F)) as Hnd by apply (free_NoDup _ _ (lo_free _ _ _ Hl)). apply NoDup_cons in Hnd as [HbF _]. split.
  - done.
  - intros c y Ey. destruct (decide (c = b)) as [->|Hc]; [|rewrite Eo in Ey by done; by eapply ok_info].
    rewrite Ei3 in Ey. injection Ey as <-. split; [done|]. split; [done|]. unfold delayed, valid, busy in *. simpl. split; flag_simpl; [|done].
    rewrite delay_bit in Hdel. by rewrite Hdel.
  - intros c y Ey. destruct (decide (c = b)) as [->|Hc].
    + rewrite Ei3 in Ey. injection Ey as <-. unfold busy. simpl. flag_simpl. done.
    + rewrite Eo in Ey by done. rewrite <- (ok_busy _ _ _ _ Hok c y Ey), elem_of_cons. tauto.
  - intros c y Ey Hnc. rewrite Hh in Hnc. assert (c <> b) as Hc by tauto. rewrite Eo in Ey by done.
    destruct (ok_unhashed _ _ _ _ Hok c y Ey ltac:(tauto)) as [Hlk Hv]. split; [|done]. rewrite Eu3, Hu2; [done|tauto|done|]. rewrite Hh2. tauto.
  - assert (forall c1 c2 y1 y2, hashed H3 c1 -> infos s3 c1 = Some y1 -> infos s3 c2 = Some y2 -> i_blk y1 = i_blk y2 -> c2 = b -> c1 = b) as Hb.
    { intros c1 c2 y1 y2 H1 E1' E2' E12 ->. rewrite Ei3 in E2'. injection E2' as <-. apply Hh in H1 as [H1| ->]; [|done].
      destruct (decide (c1 = b)) as [|Hc]; [done|]. rewrite Eo in E1' by done. by destruct (Hno c1 y1 H1 E1'). }
    intros c1 c2 y1 y2 H1 H2' E1' E2' E12. destruct (decide (c2 = b)) as [->|Hc2]; [by eapply Hb|].
    destruct (decide (c1 = b)) as [->|Hc1]; [symmetry; eapply (Hb c2 b); eauto|]. rewrite Eo in E1', E2' by done.
    apply Hh in H1 as [H1|]; [|done]. apply Hh in H2' as [H2'|]; [|done]. by eapply (ok_unique _ _ _ _ Hok c1 c2).
  - rewrite Ew3, Ew4, B5, B6, A4, A5. apply Hok.
Qed.

(** When [getblk] returns without sleeping and without one of the defects below. *)
Definition can_get (blk : Z) s : bool :=
  match zget (hash_queue_buffers s) (blk mod BUFF_HASHNUMBER) with
  | Some q =>
      match search (S (size (buffers s))) (buffers s) 0 blk q with
      | Some (Some b) => match buffers s !! b with Some h => negb (has_bits (flags h) BUFF_BUSY) | None => false end
      | Some None => match free_buff_list_head s with Some b => recyclable s b | None => false end
      | None => false
      end
  | None => false
  end.

Lemma getblk_first dev blk s r s' : getblk_1 dev blk s = Some (r, s') -> r <> Again -> getblk dev blk s = Some (r, s').
Proof. intros E Hr. unfold getblk, MAX_BUFFERS. cbn [getblk_loop]. rewrite E, bind_Some. by destruct r. Qed.

Lemma getblk_ok s d F H blk :
  cache_ok s d F H -> can_get blk s = true ->
  exists b s' F' H' x x', getblk 0 blk s = Some (Got b, s') /\ cache_ok s' d F' H' /\ F ≡ₚ b :: F' /\ hashed H' b /\
    infos s b = Some x /\ busy x = false /\ infos s' b = Some x' /\ busy x' = true /\ i_blk x' = blk /\ i_io x' = i_io x /\
    delayed x' = delayed x /\ (valid x' = true -> valid x = true /\ i_blk x = blk /\ i_buff x' = i_buff x) /\
    (forall c, c <> b -> infos s' c = infos s c) /\ (forall k, view s' d k = view s d k).
Proof.
  intros Hok Hg. pose proof (ok_lists _ _ _ _ Hok) as Hl. unfold can_get in Hg.
  destruct (search_spec s F H 0 blk Hl) as (q & r & Eq & Er & Hr). rewrite Eq, Er in Hg. destruct r as [b|].
  - destruct Hr as (Hh & x & Ex & _ & <-). destruct (infos_lookup _ _ _ Ex) as (h & Eh & Ei). rewrite Eh in Hg. apply negb_true_iff in Hg.
    assert (busy x = false) as Hb by by rewrite <- Ei.
    destruct (getblk_1_hit s d F H b x Hok Hh Ex Hb) as (s' & F' & E & Hok' & HF & Ex' & Eo).
    exists b, s', F', H, x, (with_flags (Z.lor (i_flags x) BUFF_BUSY) x). split; [by apply getblk_first|].
    assert (valid (with_flags (Z.lor (i_flags x) BUFF_BUSY) x) = valid x) as Ev by (unfold valid; simpl; flag_simpl; done).
    split_and!; try done; [unfold busy; simpl; flag_simpl; done|unfold delayed; simpl; flag_simpl; done|by rewrite Ev|].
    intros k. destruct (decide (k = i_blk x)) as [->|Hk]; [|by apply (view_change s d d F F' H b x _ s' Hok Hok' Ex Ex' Eo)].
    destruct (valid x) eqn:Evx.
    + rewrite (view_valid _ _ _ _ _ _ Hok Ex Evx). apply (view_valid _ _ _ _ _ _ Hok' Ex'). by rewrite Ev.
    + rewrite (view_invalid _ _ _ _ _ _ Hok Hh Ex Evx). apply (view_invalid _ _ _ _ _ _ Hok' Hh Ex'). by rewrite Ev.
  - rewrite (proj1 (lo_free _ _ _ Hl)) in Hg. destruct F as [|b F]; [done|]. simpl in Hg.
    assert (exists x, infos s b = Some x) as [x Ex].
    { unfold recyclable in Hg. destruct (buffers s !! b) as [h|] eqn:Eh; [|done]. eexists. by apply lookup_info. }
    assert (forall c y, hashed H c -> infos s c = Some y -> i_blk y <> blk) as Hno.
    { intros c y Hc Ey Eb. destruct (ok_info _ _ _ _ Hok c y Ey) as (Ed & _). by apply (Hr c y Hc Ey). }
    destruct (getblk_1_miss s d b F H x blk Hok Hno Ex Hg) as (s' & H' & E & Hok' & Hh & Hho & Ex' & Eo).
    assert (busy x = false) as Hbx by (apply (ok_busy _ _ _ _ Hok b x Ex); by left).
    assert (valid (renamed blk x) = false) as Ev by (unfold valid; simpl; flag_simpl; done).
    exists b, s', F, H', x, (renamed blk x). split; [by apply getblk_first|].
    split_and!; try done; [unfold busy; simpl; flag_simpl; done|unfold delayed; simpl; flag_simpl; done|by rewrite Ev|].
    intros k. apply (content_view _ _ _ _ _ _ Hok').
    destruct (proj2 (content_view s d (b :: F) H k _ Hok) eq_refl) as [(c & y & Ey & Hv & Hb & Hd)|[Hn Hd]].
    + destruct (decide (c = b)) as [->|Hc]; [|left; exists c, y; by rewrite Eo].
      rewrite Ex in Ey. injection Ey as <-. right. split.
      * intros c y Ey Hvy Eb. destruct (decide (c = b)) as [->|Hc]; [congruence|]. rewrite Eo in Ey by done. apply Hc.
        eapply (ok_unique _ _ _ _ Hok c b y x); eauto using valid_hashed. congruence.
      * rewrite <- Hd, <- Hb. destruct (ok_info _ _ _ _ Hok b x Ex) as (_ & _ & _ & Ecl). apply Ecl; [done..|].
        unfold recyclable in Hg. destruct (infos_lookup _ _ _ Ex) as (h & Eh & <-). rewrite Eh in Hg. by apply andb_true_iff in Hg as [Hg%negb_true_iff _].
    + right. split; [|done]. intros c y Ey Hv Eb. destruct (decide (c = b)) as [->|Hc]; [congruence|]. rewrite Eo in Ey by done. by eapply Hn.
Qed.

(** * Using and releasing a buffer *)

(** The caller who has a buffer changes it. *)
Lemma modify_ok s d F H b x x' s' :
  cache_ok s d F H -> hashed H b -> infos s b = Some x -> busy x = true -> info_step s b x' s' -> i_blk x' = i_blk x -> busy x' = true -> info_ok d x' ->
  cache_ok s' d F H /\ forall k, k <> i_blk x -> view s' d k = view s d k.
Proof.
  intros Hok Hh Ex Hb Hs Ei Hb' Hi. pose proof Hs as (B1 & B2 & B3 & B4 & B5 & B6 & B7 & B8 & B9).
  assert (b ∉ F) as HbF by (rewrite (ok_busy _ _ _ _ Hok b x Ex); congruence).
  assert (cache_ok s' d F H) as Hok'.
  { apply (cache_ok_change s d d F F H b x x'); try done; try congruence.
    - eapply lists_ok_info; [apply Hok|done..|by left].
    - rewrite Hb'. by split. }
  split; [done|]. by apply (view_change s d d F F H b x x').
Qed.

Lemma delayed_release x : delayed (with_flags (Z.land (i_flags x) (Z.lnot BUFF_BUSY)) x) = delayed x.
Proof. unfold delayed. simpl. flag_simpl. done. Qed.

(** A buffer may be released if it has data, or if the free list is not empty
    (see [prepend_to_freelist]), and if a change is marked as delayed. *)
Lemma brelease_ok s d F H b x :
  cache_ok s d F H -> hashed H b -> infos s b = Some x -> busy x = true -> (valid x = true \/ F <> []) ->
  (valid x = true -> delayed x = false -> i_buff x = sector d (i_blk x)) ->
  exists s' F', brelease b s = Some s' /\ cache_ok s' d F' H /\ F' ≡ₚ b :: F /\
    infos s' b = Some (with_flags (Z.land (i_flags x) (Z.lnot BUFF_BUSY)) x) /\ (forall c, c <> b -> infos s' c = infos s c) /\
    forall k, view s' d k = view s d k.
Proof.
  intros Hok Hh Ex Hb Hv Hcl. pose proof (ok_lists _ _ _ _ Hok) as Hl. destruct (ok_info _ _ _ _ Hok b x Ex) as (Ed & El & Edv & _).
  assert (b ∉ F) as HbF by (rewrite (ok_busy _ _ _ _ Hok b x Ex); congruence).
  destruct (infos_lookup _ _ _ Ex) as (h & Eh & Ei). unfold brelease. rewrite Eh, bind_Some.
  assert (exists s1 F', (if has_bits (flags h) BUFF_DATAVALID then append_to_freelist b s else prepend_to_freelist b s) = Some s1 /\
    free_ok s1 F' /\ free_frame s s1 /\ F' ≡ₚ b :: F) as (s1 & F' & -> & Hf & Hfr & HF).
  { change (has_bits (flags h) BUFF_DATAVALID) with (valid (info_of h)). rewrite Ei. destruct (valid x) eqn:Ev.
    - destruct (append_to_freelist_spec s F b (lo_free _ _ _ Hl) HbF) as (s1 & -> & A & B); [by eauto|]. exists s1, (F ++ [b]).
      split_and!; try done. by rewrite Permutation_app_comm.
    - destruct Hv as [|Hv]; [done|]. destruct (prepend_to_freelist_spec s F b (lo_free _ _ _ Hl) Hv HbF) as (s1 & -> & A & B); [by eauto|].
      by exists s1, (b :: F). }
  rewrite bind_Some. pose proof (lists_ok_free _ _ _ _ _ Hl Hfr Hf) as Hl1. destruct Hfr as (A1 & A2 & A3 & A4 & A5).
  assert (infos s1 b = Some x) as Ex1 by by rewrite A1. destruct (infos_lookup _ _ _ Ex1) as (h1 & Eh1 & Ei1).
  destruct (upd_info s1 b (fun h => set_flags (Z.land (flags h) (Z.lnot BUFF_BUSY)) h) h1) as (s' & -> & _ & Hs); [done..|].
  pose proof Hs as (B1 & B2 & B3 & B4 & B5 & B6 & B7 & B8 & B9). exists s', F'. split; [done|].
  assert (infos s' b = Some (with_flags (Z.land (i_flags x) (Z.lnot BUFF_BUSY)) x)) as E' by (rewrite B1; by rewrite <- Ei1).
  set (x' := with_flags (Z.land (i_flags x) (Z.lnot BUFF_BUSY)) x) in *.
  assert (valid x' = valid x /\ delayed x' = delayed x /\ busy x' = false) as (Ev & Edl & Ebu) by (unfold valid, delayed, busy; simpl; flag_simpl; done).
  assert (forall c, c <> b -> infos s' c = infos s c) as Eo by (intros c Hc; by rewrite B2, A1).
  assert (cache_ok s' d F' H) as Hok'.
  { apply (cache_ok_change s d d F F' H b x x'); try done; try congruence.
    - eapply lists_ok_info; [done..|left; by rewrite <- Ei1].
    - split_and!; [done|done|by rewrite Ev, Edl|]. rewrite Ev, Edl. auto.
    - split; [done|]. intros _. rewrite HF. by left.
    - intros c Hc. rewrite HF, elem_of_cons. tauto. }
  split; [done|]. split; [done|]. split; [done|]. split; [done|].
  intros k. destruct (decide (k = i_blk x)) as [->|Hk]; [|by apply (view_change s d d F F' H b x x' s' Hok Hok' Ex E' Eo)].
  destruct (valid x) eqn:Evx.
  - rewrite (view_valid _ _ _ _ _ _ Hok Ex Evx). by apply (view_valid _ _ _ _ _ _ Hok' E').
  - rewrite (view_invalid _ _ _ _ _ _ Hok Hh Ex Evx). by apply (view_invalid _ _ _ _ _ _ Hok' Hh E').
Qed.

(** * Reading and writing blocks *)

Lemma cache_ok_sector s d d' F H : (forall k, sector d' k = sector d k) -> cache_ok s d F H -> cache_ok s d' F H /\ forall k, view s d' k = view s d k.
Proof.
  intros Hs Hok. split; [|intros k; unfold view; by rewrite Hs]. destruct Hok as [A1 A2 A3 A4 A5 A6]. split; try done.
  intros b x Ex. destruct (A2 b x Ex) as (B1 & B2 & B3 & B4). split_and!; try done. rewrite Hs. auto.
Qed.

(** A buffer that has data of the block and the status of a failed request. *)
Definition stale_status s (blk : Z) : Prop := exists b x, infos s b = Some x /\ valid x = true /\ i_blk x = blk /\ i_io x <> 0.

(** The caller of [bread] holds the buffer [b] of the block: it has the data the
    readers see, or the request failed. *)
Definition holding s d F (blk : Z) b s' d' : Prop := exists F' H' x,
  cache_ok s' d' F' H' /\ F ≡ₚ b :: F' /\ hashed H' b /\ infos s' b = Some x /\ busy x = true /\ i_blk x = blk /\
  (forall k, sector d' k = sector d k) /\ (forall k, view s' d' k = view s d k) /\
  ((valid x = true /\ i_buff x = view s d blk /\ (delayed x = false -> i_buff x = sector d' blk) /\ (i_io x <> 0 -> stale_status s blk)) \/
   (valid x = false /\ i_io x < 0 /\ exists old, (drive_read blk old d).1.1 < 0)).

(** After a request for a buffer without data, whose new state is [z]. *)
Lemma request_done s d F H blk b y z s' d' st old :
  cache_ok s d F H -> hashed H b -> infos s b = Some y -> busy y = true -> valid y = false -> i_blk y = blk ->
  info_step s b z s' -> i_blk z = blk -> busy z = true -> info_ok d z -> (forall k, sector d' k = sector d k) -> (drive_read blk old d).1.1 = st ->
  (valid z = true /\ i_buff z = sector d blk /\ i_io z = 0) \/ (valid z = false /\ i_io z < 0 /\ st < 0) ->
  holding s d (b :: F) blk b s' d'.
Proof.
  intros Hok Hh Ey Hby Vy Eb Hst Ez Hbz Hiz Hs Est Hz. exists F, H, z.
  destruct (modify_ok s d F H b y z s' Hok Hh Ey Hby Hst ltac:(congruence) Hbz Hiz) as [Hok3 Hv3].
  destruct (cache_ok_sector _ _ _ _ _ Hs Hok3) as [Hok4 Hv4]. pose proof (proj1 Hst) as Ez3.
  assert (view s d blk = sector d blk) as Hvw by (rewrite <- Eb; by apply (view_invalid _ _ _ _ _ _ Hok Hh Ey)). split_and!; try done.
  - intros k. rewrite Hv4. destruct (decide (k = blk)) as [->|Hk]; [|apply Hv3; congruence].
    rewrite Hvw, <- Ez. destruct Hz as [(Vz & Bz & _)|(Vz & _)].
    + rewrite (view_valid _ _ _ _ _ _ Hok3 Ez3 Vz). congruence.
    + by apply (view_invalid _ _ _ _ _ _ Hok3 Hh Ez3).
  - destruct Hz as [(Vz & Bz & Iz)|(Vz & Iz & Hst0)]; [left|right].
    + split; [done|]. split; [congruence|]. split; [intros _; by rewrite Hs|done].
    + split; [done|]. split; [done|]. exists old. congruence.
Qed.

(** [bread] after [getblk]. *)
Lemma bread_fill s d F H blk b y :
  cache_ok s d F H -> hashed H b -> infos s b = Some y -> busy y = true -> valid y = false -> i_blk y = blk ->
  exists s' d', (h ← buffers s !! b;
      let '(st, data, d) := drive_read blk (buff h) d in
      s ← upd b (set_buff data) s;
      if 0 <=? st then
        s ← upd b (fun h => set_io 0 (set_flags (Z.lor (flags h) BUFF_DATAVALID) h)) s; Some (Done b, s, d)
      else s ← upd b (set_io st) s; Some (Done b, s, d)) = Some (Done b, s', d') /\ holding s d (b :: F) blk b s' d'.
Proof.
  intros Hok Hh Ey Hby Vy Eb. destruct (infos_lookup _ _ _ Ey) as (h & Eh & Ei). rewrite Eh, bind_Some.
  destruct (ok_info _ _ _ _ Hok b y Ey) as (I1 & I2 & I3 & _). destruct (drive_read blk (buff h) d) as [[st data] d'] eqn:Er.
  rewrite <- Ei in I2. simpl in I2. pose proof (fun k => drive_read_keeps d blk (buff h) k I2) as Hs. rewrite Er in Hs. simpl in Hs.
  pose proof (drive_read_length d blk (buff h) I2) as Hlen. rewrite Er in Hlen. simpl in Hlen.
  destruct (upd_info s b (set_buff data) h) as (s2 & -> & Eh2 & Hs2); [done..|]. rewrite bind_Some.
  assert (delayed y = false) as Hdy by (destruct (delayed y); [rewrite I3 in Vy; done|done]).
  assert ((drive_read blk (buff h) d).1.1 = st) as Est by by rewrite Er.
  pose proof Hby as Hby2. pose proof Vy as Vy2. pose proof Eb as Eb2. rewrite <- Ei in I1, Hby2, Vy2, Eb2, Hdy. unfold busy, valid, delayed in Hby2, Vy2, Hdy. simpl in I1, Hby2, Vy2, Eb2, Hdy. 
  destruct (Z.leb_spec 0 st) as [Hst|Hst].
  - pose proof (drive_read_data d blk (buff h)) as Hdata. rewrite Er in Hdata. simpl in Hdata. specialize (Hdata I2 Hst).
    destruct (upd_info s2 b (fun h => set_io 0 (set_flags (Z.lor (flags h) BUFF_DATAVALID) h)) (set_buff data h)) as (s3 & -> & _ & Hs3); [done..|].
    rewrite bind_Some. exists s3, d'. split; [done|]. pose proof (info_step_trans _ _ _ _ _ _ Hs2 Hs3) as Hst3.
    refine (request_done s d F H blk b y _ s3 d' st (buff h) Hok Hh Ey Hby Vy Eb Hst3 Eb2 _ _ Hs Est _); unfold info_ok, delayed, valid, busy; simpl; flag_simpl.
    + done.
    + split_and!; try done. intros _ _ _. by rewrite Eb2.
    + left. by split.
  - destruct (upd_info s2 b (set_io st) (set_buff data h)) as (s3 & -> & _ & Hs3); [done..|].
    rewrite bind_Some. exists s3, d'. split; [done|]. pose proof (info_step_trans _ _ _ _ _ _ Hs2 Hs3) as Hst3.
    refine (request_done s d F H blk b y _ s3 d' st (buff h) Hok Hh Ey Hby Vy Eb Hst3 Eb2 Hby2 _ Hs Est _); [|by right].
    unfold info_ok, delayed, valid, busy; simpl. split_and!; try done; [by rewrite Hdy|by rewrite Vy2].
Qed.

Lemma bread_ok s d F H blk :
  cache_ok s d F H -> can_get blk s = true -> exists b s' d', bread 0 blk s d = Some (Done b, s', d') /\ holding s d F blk b s' d'.
Proof.
  intros Hok Hg. destruct (getblk_ok s d F H blk Hok Hg) as (b & s1 & F1 & H1 & x & y & E & Hok1 & HF & Hh & Ex & Hbx & Ey & Hby & Eb & Eio & Edl & Hv & Eo & Hview).
  unfold bread. rewrite E, bind_Some. destruct (valid y) eqn:Evy.
  - destruct (infos_lookup _ _ _ Ey) as (h & Eh & Ei). rewrite Eh, bind_Some.
    change (has_bits (flags h) BUFF_DATAVALID) with (valid (info_of h)). rewrite Ei, Evy.
    destruct (Hv eq_refl) as (Vx & Bx & Ebf). exists b, s1, d. split; [done|]. exists F1, H1, y. split_and!; try done. left. split; [done|].
    destruct (ok_info _ _ _ _ Hok b x Ex) as (_ & _ & _ & Ecl). split_and!.
    + by rewrite <- Hview, <- Eb, (view_valid _ _ _ _ _ _ Hok1 Ey Evy).
    + intros Hd. rewrite Ebf, Ecl; [by rewrite Bx|done|done|congruence].
    + intros Hio. exists b, x. by rewrite <- Eio.
  - destruct (bread_fill s1 d F1 H1 blk b y Hok1 Hh Ey Hby Evy Eb) as (s' & d' & E' & F2 & H2 & z & Hok2 & HF2 & Hh2 & Ez & Hbz & Ebz & Hs & Hv2 & Hr).
    destruct (infos_lookup _ _ _ Ey) as (h & Eh & Ei). rewrite Eh, bind_Some in E'. rewrite Eh, bind_Some.
    change (has_bits (flags h) BUFF_DATAVALID) with (valid (info_of h)). rewrite Ei, Evy. exists b, s', d'. split; [exact E'|].
    exists F2, H2, z. split_and!; try done.
    + by rewrite HF.
    + intros k. by rewrite Hv2.
    + rewrite <- Hview. destruct Hr as [(Vz & Bz & Cz & Iz)|Hr]; [left|by right]. split_and!; try done.
      intros Hio. destruct (Iz Hio) as (c & w & Ew & Vw & Bw & Iow). assert (c <> b) as Hc by congruence. rewrite Eo in Ew by done. by exists c, w.
Qed.

Lemma two_free s F : free_ok s F -> free_buff_list_head s <> free_buff_list_tail s -> forall b F', F ≡ₚ b :: F' -> F' <> [].
Proof. intros (-> & -> & _) Hne b F' HF ->. apply Permutation_singleton_r in HF as ->. done. Qed.

(** C8: The cache is transparent to readers.  With at least two free buffers, and when
    [getblk] has a buffer for the block, [read_block] returns the block as the
    readers see it, or an error: the request failed now, or failed earlier for
    the buffer that has the data.  No block changes. *)
Theorem read_block_reads s d blk :
  cache_inv s d -> can_get blk s = true -> free_buff_list_head s <> free_buff_list_tail s ->
  exists r s' d', read_block 0 blk s d = Some (Done r, s', d') /\ cache_inv s' d' /\ (forall k, view s' d' k = view s d k) /\ (forall k, sector d' k = sector d k) /\
    (r = (1, view s d blk) \/ (r = (EDISK_READ, []) /\ (stale_status s blk \/ exists old, (drive_read blk old d).1.1 < 0))).
Proof.
  intros (F & H & Hok) Hg H2. destruct (bread_ok s d F H blk Hok Hg) as (b & s1 & d1 & E & F1 & H1 & x & Hok1 & HF & Hh & Ex & Hb & Eb & Hs & Hv & Hr).
  unfold read_block. rewrite E, bind_Some. destruct (infos_lookup _ _ _ Ex) as (h & Eh & Ei). rewrite Eh, bind_Some.
  destruct (brelease_ok s1 d1 F1 H1 b x Hok1 Hh Ex Hb) as (s' & F' & -> & Hok' & _ & _ & _ & Hv').
  { right. by eapply two_free; [apply Hok|..]. }
  { intros V Dl. rewrite Eb. destruct Hr as [(_ & _ & Hr & _)|[? _]]; [auto|congruence]. }
  rewrite bind_Some. rewrite <- Ei in Hr. simpl in Hr.
  assert (forall k, view s' d1 k = view s d k) as Hview by (intros k; by rewrite Hv').
  destruct (Z.eqb_spec (io_status h) 0) as [Hio|Hio]; simpl; eexists _, s', d1; (split; [done|]); (split; [by exists F', H1|]); (split; [done|]); (split; [done|]).
  - left. destruct Hr as [(_ & -> & _)|(_ & ? & _)]; [done|lia].
  - right. split; [done|]. destruct Hr as [(_ & _ & _ & Hst)|(_ & _ & Hst)]; [left; auto|by right].
Qed.

(** [getblk] gives the caller one buffer, which no one else had, with the number
    of the block; no block changes for the readers and no other buffer changes. *)
Theorem getblk_takes s d blk :
  cache_inv s d -> can_get blk s = true ->
  exists b s' x x', getblk 0 blk s = Some (Got b, s') /\ cache_inv s' d /\
    infos s b = Some x /\ busy x = false /\ infos s' b = Some x' /\ busy x' = true /\ i_blk x' = blk /\
    (forall c, c <> b -> infos s' c = infos s c) /\ (forall k, view s' d k = view s d k).
Proof.
  intros (F & H & Hok) Hg. destruct (getblk_ok s d F H blk Hok Hg) as (b & s1 & F1 & H1 & x & y & E & Hok1 & HF & Hh & Ex & Hbx & Ey & Hby & Eb & _ & _ & _ & Eo & Hview).
  exists b, s1, x, y. split_and!; try done. by exists F1, H1.
Qed.

(** The drive writes the blocks of [P]; all delayed data is of such blocks. *)
Definition reliable_writes (P : Z -> Prop) : Prop := forall d k data, P k -> length data = 512%nat -> 0 <= (drive_write k data d).1.
Definition delayed_in (P : Z -> Prop) s : Prop := forall b x, infos s b = Some x -> delayed x = true -> P (i_blk x).

(** No buffer is in use. *)
Definition idle s : Prop := forall b x, infos s b = Some x -> busy x = false.

(** [write_block] changes one block for the readers, and nothing on the disk. *)
Lemma write_block_writes s d blk data :
  cache_inv s d -> can_get blk s = true -> length data = 512%nat ->
  exists s', write_block 0 blk data s = Some (Done 1, s') /\ cache_inv s' d /\ (idle s -> idle s') /\ (forall P : Z -> Prop, P blk -> delayed_in P s -> delayed_in P s') /\
    view s' d blk = data /\ forall k, k <> blk -> view s' d k = view s d k.
Proof.
  intros (F & H & Hok) Hg Hlen. destruct (getblk_ok s d F H blk Hok Hg) as (b & s1 & F1 & H1 & x & y & E & Hok1 & HF & Hh & Ex & Hbx & Ey & Hby & Eb & _ & _ & _ & Eo & Hview).
  unfold write_block. rewrite E, bind_Some. destruct (infos_lookup _ _ _ Ey) as (h & Eh & Ei). destruct (ok_info _ _ _ _ Hok1 b y Ey) as (I1 & _).
  destruct (upd_info s1 b (set_buff data) h) as (s2 & -> & Eh2 & Hs2); [done..|]. rewrite bind_Some.
  destruct (upd_info s2 b (fun h => set_flags (Z.lor (Z.lor (flags h) BUFF_WRITEDELAY) BUFF_DATAVALID) h) _ ltac:(done) Eh2) as (s3 & -> & Eh3 & Hs3). rewrite bind_Some.
  pose proof (info_step_trans _ _ _ _ _ _ Hs2 Hs3) as Hs. rewrite <- Ei in I1, Hby, Eb, Ey. simpl in I1, Eb.
  set (z := info_of _) in Hs. assert (busy z = true /\ valid z = true /\ delayed z = true) as (Bz & Vz & Dz).
  { unfold busy, valid, delayed in *. simpl in *. flag_simpl. by rewrite busy_bit in Hby. }
  destruct (modify_ok s1 d F1 H1 b _ z s3 Hok1 Hh Ey Hby Hs) as [Hok3 Hv3]; [done|done|by split_and!; [..|congruence]|].
  destruct (brelease_ok s3 d F1 H1 b z Hok3 Hh (proj1 Hs) Bz) as (s' & F' & -> & Hok' & _ & Ez & Eoz & Hv'); [by left|congruence|].
  rewrite bind_Some. exists s'. split; [done|]. split; [by exists F', H1|]. split; [|split; [|split]].
  - intros Hid c w Ew. destruct (decide (c = b)) as [->|Hc]; [rewrite Ez in Ew; injection Ew as <-; unfold busy; simpl; flag_simpl; done|].
    rewrite Eoz in Ew by done. rewrite (proj1 (proj2 Hs)) in Ew by done. rewrite Eo in Ew by done. by eapply Hid.
  - intros P HP HdP c w Ew Hdw. destruct (decide (c = b)) as [->|Hc]; [rewrite Ez in Ew; injection Ew as <-; simpl; by rewrite Eb|].
    rewrite Eoz in Ew by done. rewrite (proj1 (proj2 Hs)) in Ew by done. rewrite Eo in Ew by done. by apply (HdP c w).
  - rewrite Hv', <- Eb. exact (view_valid _ _ _ _ _ _ Hok3 (proj1 Hs) Vz).
  - intros k Hk. rewrite Hv', Hv3 by (simpl; congruence). apply Hview.
Qed.

(** * Writing delayed data *)


Lemma idle_all s d F H : cache_ok s d F H -> idle s -> forall s' d' F' H', cache_ok s' d' F' H' -> F' ≡ₚ F -> (forall b, is_Some (infos s' b) -> is_Some (infos s b)) -> idle s'.
Proof.
  intros Hok Hi s' d' F' H' Hok' HF Hd b x Ex. apply (ok_busy _ _ _ _ Hok' b x Ex). rewrite HF. destruct (Hd b) as [y Ey]; [by rewrite Ex|].
  apply (ok_busy _ _ _ _ Hok b y Ey). by eapply Hi.
Qed.

Lemma write_back_ok P s d F H b x :
  reliable_writes P -> P (i_blk x) -> cache_ok s d F H -> infos s b = Some x -> busy x = false -> delayed x = true ->
  exists s' d' F' x', write_back (i_dev x) (i_blk x) s d = Some (Done (), s', d') /\ cache_ok s' d' F' H /\ F' ≡ₚ F /\
    infos s' b = Some x' /\ delayed x' = false /\ (forall c, c <> b -> infos s' c = infos s c) /\ forall k, view s' d' k = view s d k.
Proof.
  intros Hrel HP Hok Ex Hb Hdl. destruct (ok_info _ _ _ _ Hok b x Ex) as (I1 & I2 & I3 & _). pose proof (I3 Hdl) as Vx.
  pose proof (valid_hashed _ _ _ _ _ _ Hok Ex Vx) as Hh. unfold write_back. rewrite I1.
  destruct (getblk_1_hit s d F H b x Hok Hh Ex Hb) as (s1 & F1 & E & Hok1 & HF & Ex1 & Eo1). rewrite (getblk_first _ _ _ _ _ E) by done. rewrite bind_Some.
  set (x1 := with_flags _ x) in *. destruct (infos_lookup _ _ _ Ex1) as (h & Eh & Ei). rewrite Eh, bind_Some.
  assert (blockno h = i_blk x /\ buff h = i_buff x) as [-> ->] by (split; [change (i_blk (info_of h) = i_blk x)|change (i_buff (info_of h) = i_buff x)]; by rewrite Ei).
  destruct (drive_write (i_blk x) (i_buff x) d) as [st d'] eqn:Ew.
  pose proof (drive_write_data d (i_blk x) (i_buff x) I2 (Hrel _ _ _ HP I2)) as Hw. pose proof (fun k => drive_write_keeps d (i_blk x) (i_buff x) k I2) as Hk. rewrite Ew in Hw, Hk. simpl in Hw, Hk.
  destruct (upd_info s1 b (fun h => set_flags (Z.land (flags h) (Z.lnot BUFF_WRITEDELAY)) h) h) as (s2 & -> & _ & Hs2); [done..|]. rewrite bind_Some.
  pose proof Hs2 as (B1 & B2 & B3 & B4 & B5 & B6 & B7 & B8 & B9). set (x2 := info_of _) in Hs2, B1.
  assert (i_blk x2 = i_blk x /\ i_buff x2 = i_buff x /\ i_dev x2 = 0 /\ i_flags x2 = Z.land (Z.lor (i_flags x) BUFF_BUSY) (Z.lnot BUFF_WRITEDELAY)) as (E1 & E2 & E3 & E4).
  { change x2 with (with_flags (Z.land (i_flags (info_of h)) (Z.lnot BUFF_WRITEDELAY)) (info_of h)). by rewrite Ei. }
  assert (busy x2 = true /\ valid x2 = true /\ delayed x2 = false) as (Bz & Vz & Dz).
  { unfold busy, valid, delayed in *. rewrite E4. flag_simpl. split; [done|]. split; [by rewrite valid_bit in Vx|done]. }
  assert (b ∉ F1) as HbF. { rewrite (ok_busy _ _ _ _ Hok1 b x1 Ex1). unfold busy, x1. simpl. flag_simpl. done. }
  assert (cache_ok s2 d' F1 H) as Hok2.
  { apply (cache_ok_change s1 d d' F1 F1 H b x1 x2); try done; try congruence.
    - eapply lists_ok_info; [apply Hok1|done..|left; by rewrite E1].
    - split_and!; [done|by rewrite E2|by rewrite Dz|congruence].
    - rewrite Bz. by split. }
  destruct (brelease_ok s2 d' F1 H b x2 Hok2 Hh B1 Bz) as (s' & F' & -> & Hok' & HF' & Ex' & Eo' & Hv'); [by left|congruence|].
  rewrite bind_Some. exists s', d', F'. eexists. split; [done|]. split; [done|]. split; [by rewrite HF', HF|]. split; [exact Ex'|].
  split; [by rewrite delayed_release|]. split; [intros c Hc; by rewrite Eo', B2, Eo1|].
  intros k. rewrite Hv'. destruct (decide (k = i_blk x)) as [->|Hne].
  - rewrite (view_valid _ _ _ _ _ _ Hok Ex Vx), <- E1, <- E2. exact (view_valid _ _ _ _ _ _ Hok2 B1 Vz).
  - transitivity (view s1 d k).
    + by apply (view_change s1 d d' F1 F1 H b x1 x2).
    + by apply (view_change s d d F F1 H b x x1).
Qed.

Lemma flush_all_ok P ix : forall s d F H, reliable_writes P -> cache_ok s d F H -> idle s -> delayed_in P s -> Forall (fun i => buf i ∈ all_bufs) ix ->
  exists s' d' F', flush_all ix s d = Some (Done (), s', d') /\ cache_ok s' d' F' H /\ F' ≡ₚ F /\ idle s' /\
    (forall b x', infos s' b = Some x' -> delayed x' = true -> Forall (fun i => buf i <> b) ix /\ exists x, infos s b = Some x /\ delayed x = true) /\
    forall k, view s' d' k = view s d k.
Proof.
  induction ix as [|i ix IH]; intros s d F H Hrel Hok Hid HP Hix; simpl; [exists s, d, F; split_and!; eauto|].
  apply Forall_cons in Hix as [Hi Hix]. destruct (proj2 (lo_dom _ _ _ (ok_lists _ _ _ _ Hok) (buf i)) Hi) as [h Eh]. rewrite Eh, bind_Some.
  pose proof (lookup_info _ _ _ Eh) as Ex. pose proof (Hid _ _ Ex) as Hb.
  destruct (has_bits (flags h) BUFF_WRITEDELAY) eqn:Edl.
  - destruct (write_back_ok P s d F H (buf i) (info_of h) Hrel (HP _ _ Ex Edl) Hok Ex Hb Edl) as (s1 & d1 & F1 & x1 & E & Hok1 & HF & Ex1 & Hd1 & Eo & Hv).
    simpl (i_dev _) in E. simpl (i_blk _) in E. rewrite E, bind_Some.
    assert (idle s1) as Hid1.
    { eapply (idle_all s d F H Hok Hid); [done..|]. intros c [y Ey]. destruct (decide (c = buf i)) as [->|Hc]; [by rewrite Ex|]. rewrite <- Eo by done. by rewrite Ey. }
    assert (delayed_in P s1) as HP1.
    { intros c y Ey Hdy. destruct (decide (c = buf i)) as [->|Hc]; [congruence|]. rewrite Eo in Ey by done. by apply (HP c y). }
    destruct (IH s1 d1 F1 H Hrel Hok1 Hid1 HP1 Hix) as (s' & d' & F' & -> & Hok' & HF' & Hid' & Hdel & Hv'). exists s', d', F'. split_and!; try done.
    + by rewrite HF', HF.
    + intros b x' Ex' Hdx. destruct (Hdel b x' Ex' Hdx) as (Hn & y & Ey & Hdy). assert (b <> buf i) as Hbi by congruence.
      split; [by constructor|]. exists y. by rewrite <- Eo.
    + intros k. by rewrite Hv'.
  - destruct (IH s d F H Hrel Hok Hid HP Hix) as (s' & d' & F' & -> & Hok' & HF' & Hid' & Hdel & Hv'). exists s', d', F'. split_and!; try done.
    intros b x' Ex' Hdx. destruct (Hdel b x' Ex' Hdx) as (Hn & y & Ey & Hdy). split; [|by exists y]. constructor; [|done].
    intros <-. rewrite Ex in Ey. injection Ey as <-. unfold delayed in Hdy. simpl in Hdy. congruence.
Qed.

(** [flush_buffers] makes the disk what the readers see: with no buffer in use and
    a drive that writes, it returns, no delayed data is left, every block is on
    the disk as it was seen before, and is seen as before. *)
Lemma flush_writes_back P s d :
  reliable_writes P -> cache_inv s d -> idle s -> delayed_in P s ->
  exists s' d', flush_buffers s d = Some (Done (), s', d') /\ cache_inv s' d' /\ idle s' /\
    (forall b x, infos s' b = Some x -> delayed x = false) /\
    forall k, sector d' k = view s d k /\ view s' d' k = view s d k.
Proof.
  intros Hrel (F & H & Hok) Hid HP. unfold flush_buffers. destruct (ok_queue _ _ _ _ Hok) as [Eq1 Eq2]. rewrite Eq1.
  assert (set_write_q NULL NULL s = s) as -> by (destruct s; simpl in *; by subst).
  change (flush_queue (S MAX_BUFFERS) NULL s d) with (Some (Done (), s, d)). rewrite bind_Some.
  assert (Forall (fun i => buf i ∈ all_bufs) (seq 0 MAX_BUFFERS)) as Hix.
  { apply Forall_forall. intros i Hi. unfold all_bufs. by apply list_elem_of_fmap_2. }
  destruct (flush_all_ok P (seq 0 MAX_BUFFERS) s d F H Hrel Hok Hid HP Hix) as (s' & d' & F' & -> & Hok' & HF & Hid' & Hdel & Hv).
  assert (forall b x, infos s' b = Some x -> delayed x = false) as Hclean.
  { intros b x Ex. apply not_true_is_false. intros Hd. destruct (Hdel b x Ex Hd) as [Hn _].
    pose proof (infos_dom _ _ _ _ _ (ok_lists _ _ _ _ Hok') Ex) as (i & -> & Hi)%list_elem_of_fmap. rewrite Forall_forall in Hn. by apply (Hn i Hi). }
  exists s', d'. split; [done|]. split; [by exists F', H|]. split; [done|]. split; [done|]. intros k. split; [|done]. rewrite <- Hv.
  destruct (proj2 (content_view s' d' F' H k _ Hok') eq_refl) as [(b & x & Ex & Vx & <- & <-)|[_ Hd]]; [|done].
  destruct (ok_info _ _ _ _ Hok' b x Ex) as (_ & _ & _ & Hcl). symmetry. apply Hcl; [by eapply Hid'|done|by eapply Hclean].
Qed.

(** A write through the cache survives.  [write_block] changes what the readers
    see of one block and of no other; after [flush_buffers] every block is on the
    disk as the readers saw it, the written one included. *)
Lemma write_flush P s d blk data :
  reliable_writes P -> cache_inv s d -> idle s -> delayed_in P s -> P blk -> can_get blk s = true -> length data = 512%nat ->
  exists s1 s2 d2, write_block 0 blk data s = Some (Done 1, s1) /\ flush_buffers s1 d = Some (Done (), s2, d2) /\
    cache_inv s1 d /\ cache_inv s2 d2 /\ (forall k, view s1 d k = if k =? blk then data else view s d k) /\
    forall k, sector d2 k = view s1 d k /\ view s2 d2 k = view s1 d k.
Proof.
  intros Hrel Hinv Hid HP Hb Hg Hl. destruct (write_block_writes s d blk data Hinv Hg Hl) as (s1 & E1 & Hinv1 & Hid1 & HP1 & Hbd & Ho).
  destruct (flush_writes_back P s1 d Hrel Hinv1 (Hid1 Hid) (HP1 P Hb HP)) as (s2 & d2 & E2 & Hinv2 & _ & _ & Hk). exists s1, s2, d2. split_and!; try done.
  intros k. destruct (Z.eqb_spec k blk) as [->|]; auto.
Qed.

(** * Start *)

Lemma dlist_lookup (lk : loc -> option (ptr * ptr)) (os : list loc) :
  NoDup os -> (forall i o, os !! i = Some o -> lk o = Some (os !! S i, match i with O => NULL | S j => os !! j end)) -> Queue.dlist lk os.
Proof.
  intros Hn Hl. split; [done|]. intros a o b ->. rewrite (Hl (length a) o) by (by rewrite list_lookup_middle).
  f_equal. f_equal; [by rewrite lookup_app_r, Nat.sub_succ_l, Nat.sub_diag by lia; destruct b|].
  rewrite last_lookup. destruct a as [|y a]; [done|]. simpl. change (y :: a ++ o :: b) with ((y :: a) ++ o :: b). by rewrite lookup_app_l by (simpl; lia).
Qed.

Lemma buf_inj i j : buf i = buf j -> i = j.
Proof. apply SuccNat2Pos.inj. Qed.

Lemma init_loop_spec ix : forall s, NoDup ix -> (forall i, i ∈ ix -> is_Some (buffers s !! buf i)) ->
  exists m, init_loop ix s = Some (set_buffers m s) /\ (forall i, i ∈ ix -> m !! buf i = init_buffer i <$> buffers s !! buf i) /\
    (forall b, (forall i, i ∈ ix -> b <> buf i) -> m !! b = buffers s !! b).
Proof.
  induction ix as [|i ix IH]; intros s Hn Hs; simpl.
  - exists (buffers s). split; [by destruct s|]. split; [|done]. intros i Hi. by apply not_elem_of_nil in Hi.
  - apply NoDup_cons in Hn as [Hi Hn]. destruct (Hs i) as [h Eh]; [by left|]. rewrite (upd_Some _ _ _ _ Eh), bind_Some.
    assert (forall j, j ∈ ix -> buf i <> buf j) as Hne by (intros j Hj E%buf_inj; by subst).
    destruct (IH (set_buffers (<[buf i := init_buffer i h]> (buffers s)) s) Hn) as (m & -> & Hm & Ho).
    { intros j Hj. simpl. rewrite lookup_insert_ne by by apply Hne. apply Hs. by right. }
    exists m. split; [done|]. simpl in Hm, Ho. split.
    + intros j [->|Hj]%elem_of_cons.
      * rewrite Ho, lookup_insert_eq, Eh by done. done.
      * rewrite Hm, lookup_insert_ne by (done || by apply Hne). done.
    + intros b Hb. rewrite Ho, lookup_insert_ne; [done| |].
      * intros <-. by apply (Hb i); [left|].
      * intros j Hj. apply Hb. by right.
Qed.

Definition list_next (i : nat) : ptr := all_bufs !! S i.
Definition list_prev (i : nat) : ptr := match i with O => NULL | S j => all_bufs !! j end.

Lemma all_bufs_lookup i : (i < MAX_BUFFERS)%nat -> all_bufs !! i = Some (buf i).
Proof. intros Hi. unfold all_bufs. rewrite list_lookup_fmap, lookup_seq_lt by done. done. Qed.

Lemma init_buffers s :
  (forall b, is_Some (buffers s !! b) <-> b ∈ all_bufs) ->
  exists m, initialize_buffer_cache s = Some (mk_cache m (replicate 7 NULL) (head all_bufs) (last all_bufs) NULL NULL) /\
    (forall b, is_Some (m !! b) <-> b ∈ all_bufs) /\
    forall i h, (i < MAX_BUFFERS)%nat -> buffers s !! buf i = Some h -> m !! buf i = Some (mk_bh (blockno h) NULL NULL (list_next i) (list_prev i) NULL (buff h) (device h) 0 (io_status h)).
Proof.
  intros Hdom. unfold initialize_buffer_cache. set (s0 := mk_cache _ _ _ _ _ _).
  assert (forall i, (i < MAX_BUFFERS)%nat -> is_Some (buffers s !! buf i)) as Hs.
  { intros i Hi. apply Hdom. apply list_elem_of_lookup. exists i. by apply all_bufs_lookup. }
  destruct (init_loop_spec (seq 0 MAX_BUFFERS) s0) as (m & -> & Hm & Ho).
  { apply NoDup_seq. } { intros i [_ Hi]%elem_of_seq. by apply Hs. }
  rewrite bind_Some. assert (forall i, (i < MAX_BUFFERS)%nat -> m !! buf i = init_buffer i <$> buffers s !! buf i) as Hm'.
  { intros i Hi. apply Hm. apply elem_of_seq. lia. }
  destruct (Hs 0%nat ltac:(unfold MAX_BUFFERS; lia)) as [h0 E0]. destruct (Hs 29%nat ltac:(unfold MAX_BUFFERS; lia)) as [h9 E9].
  rewrite (upd_Some _ _ _ (init_buffer 0 h0)); [|cbn [buffers set_buffers]; by rewrite Hm', E0 by (unfold MAX_BUFFERS; lia)]. rewrite bind_Some.
  rewrite (upd_Some _ _ _ (init_buffer 29 h9)); [|cbn [buffers set_buffers]; rewrite lookup_insert_ne by done; change (MAX_BUFFERS - 1)%nat with 29%nat; by rewrite Hm', E9 by (unfold MAX_BUFFERS; lia)].
  rewrite bind_Some. exists (<[buf 29 := set_fnext NULL (init_buffer 29 h9)]> (<[buf 0 := set_fprev NULL (init_buffer 0 h0)]> m)). split; [done|].
  assert (forall i h, (i < MAX_BUFFERS)%nat -> buffers s !! buf i = Some h -> <[buf 29 := set_fnext NULL (init_buffer 29 h9)]> (<[buf 0 := set_fprev NULL (init_buffer 0 h0)]> m) !! buf i =
     Some (mk_bh (blockno h) NULL NULL (list_next i) (list_prev i) NULL (buff h) (device h) 0 (io_status h))) as Hfin.
  { intros i h Hi Eh. destruct (decide (i = 29%nat)) as [->|H29]; [rewrite lookup_insert_eq; rewrite E9 in Eh; by injection Eh as ->|].
    rewrite lookup_insert_ne by (intros ?%buf_inj; done). destruct (decide (i = 0%nat)) as [->|H0]; [rewrite lookup_insert_eq; rewrite E0 in Eh; by injection Eh as ->|].
    rewrite lookup_insert_ne by (intros ?%buf_inj; done). rewrite Hm', Eh by done. simpl. unfold init_buffer, list_next, list_prev. unfold MAX_BUFFERS in *.
    rewrite bool_decide_true, bool_decide_true by lia. rewrite all_bufs_lookup by (unfold MAX_BUFFERS; lia). destruct i as [|i]; [done|].
    rewrite all_bufs_lookup by (unfold MAX_BUFFERS; lia). replace (S i + 1)%nat with (S (S i)) by lia. by replace (S i - 1)%nat with i by lia. }
  split; [|exact Hfin]. intros b. split.
  - intros Hb. destruct (decide (b ∈ all_bufs)) as [|Hn]; [done|]. exfalso. apply Hn, Hdom.
    rewrite !lookup_insert_ne in Hb. 2,3: intros <-; apply Hn, list_elem_of_lookup; first [by exists 0%nat|by exists 29%nat].
    rewrite Ho in Hb; [done|]. intros i [_ Hi]%elem_of_seq ->. apply Hn, list_elem_of_lookup. exists i. by apply all_bufs_lookup.
  - intros (i & -> & [_ Hi]%elem_of_seq)%list_elem_of_fmap. destruct (Hs i Hi) as [h Eh]. eexists. by apply (Hfin i h).
Qed.

(** [initialize_buffer_cache] on the zeroed array establishes the invariant: all
    buffers are free, and a reader sees the disk. *)
Lemma start_ok s d :
  (forall b, is_Some (buffers s !! b) <-> b ∈ all_bufs) ->
  (forall b h, buffers s !! b = Some h -> device h = 0 /\ length (buff h) = 512%nat) ->
  exists s', initialize_buffer_cache s = Some s' /\ cache_inv s' d /\ idle s' /\ (forall b x, infos s' b = Some x -> delayed x = false) /\ forall k, view s' d k = sector d k.
Proof.
  intros Hdom Hdev. destruct (init_buffers s Hdom) as (m & E & Hd & Hm). eexists. split; [exact E|]. set (s' := mk_cache _ _ _ _ _ _).
  assert (forall b x, infos s' b = Some x -> exists i h, b = buf i /\ (i < MAX_BUFFERS)%nat /\ buffers s !! buf i = Some h /\
     hlk s' b = Some (NULL, NULL) /\ flk s' b = Some (list_next i, list_prev i) /\ x = mk_info (blockno h) (device h) 0 (buff h) (io_status h)) as Hx.
  { intros b x Ex. pose proof (infos_is_Some _ _ _ Ex) as Hb. apply Hd in Hb as (i & -> & [_ Hi]%elem_of_seq)%list_elem_of_fmap.
    destruct (proj2 (Hdom (buf i))) as [h Eh]; [apply list_elem_of_lookup; exists i; by apply all_bufs_lookup|]. exists i, h.
    unfold infos, hlk, flk in *. simpl in *. rewrite (Hm i h Hi Eh) in *. simpl in *. injection Ex as <-. by split_and!. }
  assert (forall b, ~ hashed (replicate 7 []) b) as Hnh.
  { intros b (i & q & [-> _]%lookup_replicate & Hq). by apply not_elem_of_nil in Hq. }
  assert (cache_ok s' d all_bufs (replicate 7 [])) as Hok.
  { split.
    - split; try done.
      + split; [done|]. split; [done|]. apply dlist_lookup; [apply NoDup_fmap_2; [exact buf_inj|apply NoDup_seq]|]. intros i o Ho.
        unfold all_bufs in Ho. rewrite list_lookup_fmap in Ho. destruct (seq 0 MAX_BUFFERS !! i) as [j|] eqn:Ej; [|done]. apply lookup_seq in Ej as [-> Hi]. injection Ho as <-.
        destruct (proj2 (Hdom (buf i))) as [h Eh]; [apply list_elem_of_lookup; exists i; by apply all_bufs_lookup|].
        unfold flk. simpl (buffers s'). change (0 + i)%nat with i. rewrite (Hm i h Hi Eh). done.
      + intros i q [-> _]%lookup_replicate. apply Queue.dlist_nil.
      + intros i q b Hi Hb. destruct (Hnh b). by exists i, q.
    - intros b x Ex. destruct (Hx b x Ex) as (i & h & -> & Hi & Eh & _ & _ & ->). destruct (Hdev _ _ Eh) as [Ed El]. by split_and!.
    - intros b x Ex. destruct (Hx b x Ex) as (i & h & -> & Hi & Eh & _ & _ & ->). split; [done|]. intros _. apply list_elem_of_lookup. exists i. by apply all_bufs_lookup.
    - intros b x Ex _. destruct (Hx b x Ex) as (i & h & -> & Hi & Eh & Hl & _ & ->). done.
    - intros b1 b2 x1 x2 Hb1. by destruct (Hnh b1).
    - done. }
  split; [by exists all_bufs, (replicate 7 [])|]. do 2 (split; [intros b x Ex; by destruct (Hx b x Ex) as (i & h & _ & _ & _ & _ & _ & ->)|]).
  intros k. apply (content_view _ _ _ _ _ _ Hok). right. split; [|done]. intros b x Ex. by destruct (Hx b x Ex) as (i & h & _ & _ & _ & _ & _ & ->).
Qed.

(** * [getblk] returns *)

Lemma upd_total s b f : is_Some (buffers s !! b) -> exists s', upd b f s = Some s' /\ hash_queue_buffers s' = hash_queue_buffers s /\ forall c, is_Some (buffers s' !! c) <-> is_Some (buffers s !! c).
Proof.
  intros [h E]. eexists. split; [by apply upd_Some|]. split; [done|]. intros c. simpl. destruct (decide (c = b)) as [->|]; [rewrite lookup_insert_eq, E; by split|by rewrite lookup_insert_ne].
Qed.

Lemma hash_head s F H i q y : lists_ok s F H -> H !! i = Some q -> head q = Some y -> is_Some (buffers s !! y).
Proof.
  intros Hl Hi Hy. destruct q as [|z q]; [done|]. injection Hy as ->. destruct (lo_hashed _ _ _ Hl i _ y Hi ltac:(by left)) as (x & Ex & _). by eapply infos_is_Some.
Qed.

(** Giving a buffer to a block returns, whatever the hash list it was in. *)
Lemma recycle_returns s F H b i j dev blk fl :
  lists_ok s F H -> is_Some (buffers s !! b) -> (i < 7)%nat -> (j < 7)%nat ->
  hlk s b = Some (NULL, NULL) \/ (exists q1 q2, H !! i = Some (q1 ++ b :: q2)) ->
  exists s', (s ← delete_from_hashlist (Z.of_nat i) b s; s ← upd b (set_id dev blk) s; s ← upd b (set_flags fl) s; s ← enqueue_to_hashlist (Z.of_nat j) b s;
    Some (Got b, s)) = Some (Got b, s').
Proof.
  intros Hl Hb Hi Hj Hp.
  assert (exists s1 H1, delete_from_hashlist (Z.of_nat i) b s = Some s1 /\ hash_queue_buffers s1 = head <$> H1 /\ length H1 = 7%nat /\
    (forall q y, q ∈ H1 -> head q = Some y -> is_Some (buffers s1 !! y)) /\ is_Some (buffers s1 !! b)) as (s1 & H1 & -> & Hq & Hn & Hy & Hb1).
  { destruct (decide (hlk s b = Some (NULL, NULL))) as [Hlk|Hlk].
    - exists s, H. unfold delete_from_hashlist. unfold hlk in Hlk. destruct (buffers s !! b) as [h|]; [|done]. injection Hlk as E1 E2.
      rewrite bind_Some, E1, E2, bool_decide_true by done. split; [done|]. split; [apply Hl|]. split; [apply Hl|]. split; [|done].
      intros q y [k Hk]%list_elem_of_lookup Hy. by eapply hash_head.
    - destruct Hp as [Hp|(q1 & q2 & Hp)]; [done|]. pose proof (lo_lists _ _ _ Hl i _ Hp) as Hd.
      destruct (delete_from_hashlist_spec s H i q1 b q2 (lo_heads _ _ _ Hl) Hp Hd) as (s1 & E1 & Hf & Hq & Hd1 & _).
      { intros E. apply app_eq_nil in E as [-> ->]. apply Hlk. apply (proj2 Hd [] b [] eq_refl). }
      exists s1, (<[i := q1 ++ q2]> H). destruct Hf as (A1 & _). split; [done|]. split; [done|]. split; [rewrite length_insert; apply Hl|]. rewrite dom_ext_info by done. split; [|done].
      intros q y [k Hk]%list_elem_of_lookup Hy. rewrite dom_ext_info by done. destruct (decide (k = i)) as [->|Hne].
      + rewrite list_lookup_insert_eq in Hk by (by eapply lookup_lt_Some). injection Hk as <-.
        assert (y ∈ q1 ++ q2) as Hy2 by (destruct (q1 ++ q2); simplify_eq/=; by left).
        destruct (lo_hashed _ _ _ Hl i _ y Hp) as (x & Ex & _); [rewrite elem_of_app in *; rewrite elem_of_cons; tauto|]. by eapply infos_is_Some.
      + rewrite list_lookup_insert_ne in Hk by done. by eapply hash_head. }
  rewrite bind_Some. destruct (upd_total s1 b (set_id dev blk) Hb1) as (s2 & -> & E2 & D2). rewrite bind_Some.
  destruct (upd_total s2 b (set_flags fl)) as (s3 & -> & E3 & D3); [by apply D2|]. rewrite bind_Some. unfold enqueue_to_hashlist.
  destruct (lookup_lt_is_Some_2 H1 j ltac:(lia)) as [q Hqj]. rewrite E3, E2, Hq, (zget_head H1 j q Hqj), bind_Some.
  destruct (upd_total s3 b (set_hnext (head q))) as (s4 & -> & E4 & D4); [by apply D3, D2|]. rewrite bind_Some.
  destruct (upd_total s4 b (set_hprev NULL)) as (s5 & -> & E5 & D5); [by apply D4, D3, D2|]. rewrite bind_Some.
  assert (exists s6, match head q with Some x => upd x (set_hprev (Some b)) s5 | None => Some s5 end = Some s6 /\ hash_queue_buffers s6 = hash_queue_buffers s5) as (s6 & -> & E6).
  { destruct (head q) as [y|] eqn:Eq; [|by exists s5]. destruct (upd_total s5 y (set_hprev (Some b))) as (s6 & -> & E6 & _); [|by exists s6].
    apply D5, D4, D3, D2. eapply (Hy q); [by eapply list_elem_of_lookup_2|done]. }
  rewrite bind_Some. unfold set_hash. rewrite E6, E5, E4, E3, E2, Hq, zset_Some by (unfold zlen; rewrite length_fmap; lia). rewrite !bind_Some. by eexists.
Qed.

(** Changes of the write queue only. *)
Definition same_lists s s' : Prop :=
  (forall c, infos s' c = infos s c) /\ (forall c, flk s' c = flk s c) /\ (forall c, hlk s' c = hlk s c) /\
  hash_queue_buffers s' = hash_queue_buffers s /\ free_buff_list_head s' = free_buff_list_head s /\ free_buff_list_tail s' = free_buff_list_tail s.

Lemma lists_ok_same s s' F H : lists_ok s F H -> same_lists s s' -> lists_ok s' F H.
Proof.
  intros Hl (E1 & E2 & E3 & E4 & E5 & E6). split.
  - intros c. rewrite dom_ext by done. apply Hl.
  - by eapply free_ok_ext; [apply Hl|..].
  - rewrite E4. apply Hl.
  - apply Hl.
  - intros i q Hq. apply (Queue.dlist_frame (hlk s)); [by eapply Hl|done].
  - intros i q c Hq Hc. rewrite E1. by eapply Hl.
Qed.

Lemma upd_wnext s b n : is_Some (buffers s !! b) -> exists s', upd b (set_wnext n) s = Some s' /\ same_lists s s' /\
  delayed_write_q_head s' = delayed_write_q_head s /\ delayed_write_q_tail s' = delayed_write_q_tail s.
Proof. intros [h E]. eexists. split; [by apply upd_Some|]. split; [|done]. split_and!; try done; intros c; by apply (view_upd _ s b h). Qed.

Lemma append_to_write_queue_spec s b :
  is_Some (buffers s !! b) -> (forall t, delayed_write_q_tail s = Some t -> is_Some (buffers s !! t)) ->
  exists s', append_to_write_queue b s = Some s' /\ same_lists s s' /\
    (delayed_write_q_tail s = NULL -> delayed_write_q_head s' = Some b) /\ forall t, delayed_write_q_tail s' = Some t -> is_Some (buffers s' !! t).
Proof.
  intros Hb Ht. unfold append_to_write_queue. destruct (upd_wnext s b NULL Hb) as (s1 & -> & Hs1 & E1 & E2). rewrite bind_Some, E2.
  pose proof Hs1 as (A1 & _). destruct (delayed_write_q_tail s) as [t|] eqn:Et.
  - destruct (upd_wnext s1 t (Some b)) as (s2 & -> & Hs2 & F1 & F2); [rewrite dom_ext_info by done; by apply Ht|].
    exists s2. split; [done|]. destruct Hs1 as (_ & B2 & B3 & B4 & B5 & B6), Hs2 as (C1 & C2 & C3 & C4 & C5 & C6).
    split; [split_and!; congruence|]. split; [done|]. intros t' Ht'. rewrite dom_ext_info by done. rewrite dom_ext_info by done. apply Ht. congruence.
  - eexists. split; [done|]. split; [done|]. split; [done|]. intros t [= <-]. simpl. rewrite dom_ext_info by done. done.
Qed.

Lemma getblk_loop_returns blk H : forall F s fuel, lists_ok s F H ->
  (forall b x, hashed H b -> infos s b = Some x -> ~ (i_dev x = 0 /\ i_blk x = blk)) ->
  (forall b x, infos s b = Some x -> ~ hashed H b -> hlk s b = Some (NULL, NULL)) ->
  (forall t, delayed_write_q_tail s = Some t -> is_Some (buffers s !! t)) -> (length F < fuel)%nat ->
  exists r s', getblk_loop fuel 0 blk s = Some (r, s') /\ r <> Again.
Proof.
  induction F as [|b F IH]; intros s fuel Hl Hno Hun Ht Hf; destruct fuel as [|fuel]; simpl in Hf; [lia| |lia|]; cbn [getblk_loop]; unfold getblk_1;
    destruct (search_spec s _ H 0 blk Hl) as (q & r & -> & Er & Hr); rewrite !bind_Some, Er, !bind_Some;
    (assert (r = NULL) as -> by (destruct r as [c|]; [destruct Hr as (Hc & y & Ey & Ed & Eb); by destruct (Hno c y Hc Ey)|done]));
    rewrite (proj1 (lo_free _ _ _ Hl)); cbn [head].
  - rewrite bind_Some. by eexists _, s.
  - destruct (delete_from_freelist_spec s [] b F (lo_free _ _ _ Hl)) as (s1 & -> & Hf1 & Hfr & _). rewrite bind_Some.
    pose proof (lists_ok_free _ _ _ _ _ Hl Hfr Hf1) as Hl1. simpl in Hl1. destruct Hfr as (A1 & A2 & A3 & A4 & A5).
    assert (is_Some (buffers s !! b)) as Hb.
    { destruct (lo_free _ _ _ Hl) as (_ & _ & Hd). destruct (Queue.dlist_elem _ _ b Hd) as (n & p & (h & E & _)%fmap_Some); [by left|]. by exists h. }
    destruct (proj2 (dom_ext_info s s1 A1 b) Hb) as [h Eh]. rewrite Eh, bind_Some. destruct (has_bits (flags h) BUFF_WRITEDELAY).
    + destruct (append_to_write_queue_spec s1 b) as (s2 & -> & Hs & _ & Ht2); [by eauto|intros t; rewrite A5, dom_ext_info by done; apply Ht|].
      rewrite !bind_Some. pose proof Hs as (B1 & B2 & B3 & _). apply IH; [by eapply lists_ok_same|..|lia].
      * intros c x Hc. rewrite B1, A1. by apply Hno.
      * intros c x. rewrite B1, A1, B3, A2. apply Hun.
      * done.
    + pose proof (lookup_info _ _ _ Eh) as Ex. pose proof (Z.mod_pos_bound (blockno h) BUFF_HASHNUMBER ltac:(done)). pose proof (Z.mod_pos_bound blk BUFF_HASHNUMBER ltac:(done)).
      destruct (recycle_returns s1 F H b (Z.to_nat (blockno h mod BUFF_HASHNUMBER)) (Z.to_nat (blk mod BUFF_HASHNUMBER)) 0 blk (Z.land (Z.lor (flags h) BUFF_BUSY) (Z.lnot BUFF_DATAVALID)) Hl1) as (s' & E);
        [by eauto|unfold BUFF_HASHNUMBER in *; lia|unfold BUFF_HASHNUMBER in *; lia| |].
      * destruct (hashed_dec H b) as [Hh|Hh]; [right|left; rewrite A2; apply (Hun b (info_of h)); [by rewrite <- A1|done]].
        destruct (hashed_place s1 F H b _ Hl1 Hh Ex) as (i & q1 & q2 & Em & Hi). exists q1, q2. simpl in Em. by rewrite Em, Nat2Z.id.
      * rewrite !Z2Nat.id in E by lia. rewrite E, bind_Some. by eexists _, s'.
Qed.

(** C31: [getblk] ends, with a buffer or asleep, however many of the free buffers have
    delayed data: each pass that does not end takes one off the free list. *)
Theorem getblk_returns s d blk : cache_inv s d -> exists r s', getblk 0 blk s = Some (r, s') /\ r <> Again.
Proof.
  intros (F & H & Hok). pose proof (ok_lists _ _ _ _ Hok) as Hl. destruct (search_spec s F H 0 blk Hl) as (q & r & Eq & Er & Hr).
  destruct r as [b|].
  - destruct Hr as (Hh & x & Ex & Ed & Eb). destruct (busy x) eqn:Hb.
    + exists (Busy b), s. split; [|done]. apply getblk_first; [|done]. unfold getblk_1. rewrite Eq, bind_Some, Er, bind_Some.
      destruct (infos_lookup _ _ _ Ex) as (h & Eh & <-). unfold busy in Hb. simpl in Hb. by rewrite Eh, bind_Some, Hb.
    + destruct (getblk_1_hit s d F H b x Hok Hh Ex Hb) as (s' & F' & E & _). rewrite Eb in E. exists (Got b), s'. split; [by apply getblk_first|done].
  - unfold getblk. apply (getblk_loop_returns blk H F); [done|done|..].
    + intros b x Ex Hn. by apply (ok_unhashed _ _ _ _ Hok b x Ex).
    + destruct (ok_queue _ _ _ _ Hok) as [_ ->]. done.
    + assert (F ⊆ all_bufs) as HF.
      { intros b Hb. destruct (lo_free _ _ _ Hl) as (_ & _ & Hd). destruct (Queue.dlist_elem _ _ b Hd Hb) as (n & p & (h & E & _)%fmap_Some). apply (lo_dom _ _ _ Hl). eauto. }
      pose proof (NoDup_submseteq _ _ (free_NoDup _ _ (lo_free _ _ _ Hl)) HF) as Hs%submseteq_length. unfold all_bufs in Hs. rewrite length_fmap, length_seq in Hs. lia.
Qed.

(** * Defects *)

(** A buffer that is neither in use nor on the free list is fatal: [getblk] finds
    it for its block and takes it off the free list through a null pointer. *)
Lemma getblk_orphan s F H b x :
  lists_ok s F H -> hashed H b -> infos s b = Some x -> busy x = false ->
  (forall c y, hashed H c -> infos s c = Some y -> i_blk y = i_blk x -> c = b) -> (b ∉ F) -> (exists n, flk s b = Some (n, NULL)) ->
  getblk_1 (i_dev x) (i_blk x) s = None.
Proof.
  intros Hl Hh Ex Hb Hu HbF [n Hn]. unfold getblk_1. destruct (search_spec s F H (i_dev x) (i_blk x) Hl) as (q & r & -> & Er & Hr). rewrite bind_Some, Er, bind_Some.
  assert (r = Some b) as -> by (destruct r as [c|]; [destruct Hr as (Hc & y & Ey & _ & Eb); by rewrite (Hu c y Hc Ey Eb)|by destruct (Hr b x Hh Ex)]).
  destruct (infos_lookup _ _ _ Ex) as (h & Eh & Ei). rewrite Eh, bind_Some. unfold busy in Hb. rewrite <- Ei in Hb. simpl in Hb. rewrite Hb.
  rewrite (upd_Some _ _ _ _ Eh), bind_Some. unfold delete_from_freelist. cbn [buffers set_buffers]. rewrite lookup_insert_eq, bind_Some.
  unfold flk in Hn. rewrite Eh in Hn. injection Hn as <- Ep. cbn [free_list_prev set_flags free_buff_list_head set_buffers]. rewrite Ep, bool_decide_true; [done|].
  rewrite (proj1 (lo_free _ _ _ Hl)). intros Hx. apply HbF. destruct F; simplify_eq/=. by left.
Qed.


(** A buffer alone in its hash list is not taken out of it.  When it is given to
    another block of the same list, it is linked to itself: the search for any
    other block of that list never ends. *)
Theorem lone_victim_hangs s d b F H x blk i :
  cache_ok s d (b :: F) H -> H !! i = Some [b] -> infos s b = Some x -> delayed x = false -> blk mod BUFF_HASHNUMBER = Z.of_nat i -> i_blk x <> blk ->
  exists s', getblk_1 0 blk s = Some (Got b, s') /\ zget (hash_queue_buffers s') (Z.of_nat i) = Some (Some b) /\
    forall n k, k <> blk -> search n (buffers s') 0 k (Some b) = None.
Proof.
  intros Hok Hi Ex Hdl Em Hne. pose proof (ok_lists _ _ _ _ Hok) as Hl. destruct (lo_hashed _ _ _ Hl i [b] b Hi) as (x' & Ex' & Emx); [by left|].
  rewrite Ex in Ex'. injection Ex' as <-. unfold getblk_1. destruct (search_spec s (b :: F) H 0 blk Hl) as (q & r & Eq & Er & Hr). rewrite Eq, bind_Some, Er, bind_Some.
  assert (r = NULL) as ->.
  { destruct r as [c|]; [|done]. destruct Hr as ((j & q' & Hj & Hc) & y & Ey & _ & Eb). destruct (lo_hashed _ _ _ Hl j q' c Hj Hc) as (y' & Ey' & Emy).
    rewrite Ey in Ey'. injection Ey' as <-. assert (j = i) as -> by (rewrite Eb in Emy; lia). rewrite Hi in Hj. injection Hj as <-. apply list_elem_of_singleton in Hc as ->. congruence. }
  rewrite (proj1 (lo_free _ _ _ Hl)). simpl (head _). cbv iota.
  destruct (delete_from_freelist_spec s [] b F (lo_free _ _ _ Hl)) as (s1 & -> & Hf & (A1 & A2 & A3 & _) & _). rewrite bind_Some.
  assert (infos s1 b = Some x) as Ex1 by by rewrite A1. destruct (infos_lookup _ _ _ Ex1) as (h & Eh & Ei). rewrite Eh, bind_Some.
  assert (has_bits (flags h) BUFF_WRITEDELAY = false) as -> by by rewrite <- Ei in Hdl.
  assert (hash_q_next h = NULL /\ hash_q_prev h = NULL) as [En Ep].
  { pose proof (proj2 (lo_lists _ _ _ Hl i _ Hi) [] b [] eq_refl) as Hlk. rewrite <- A2 in Hlk. unfold hlk in Hlk. rewrite Eh in Hlk. by injection Hlk as -> ->. }
  unfold delete_from_hashlist. rewrite Eh, bind_Some, En, Ep, bool_decide_true, bind_Some by done.
  rewrite (upd_Some _ _ _ _ Eh), bind_Some. erewrite upd_Some; [|cbn [buffers set_buffers]; by rewrite lookup_insert_eq]. rewrite bind_Some.
  unfold enqueue_to_hashlist. cbn [hash_queue_buffers set_buffers buffers]. rewrite A3, Em, (lo_heads _ _ _ Hl), (zget_head H i _ Hi), bind_Some. cbn [head].
  do 3 (erewrite upd_Some; [|cbn [buffers set_buffers]; by rewrite lookup_insert_eq]; rewrite bind_Some).
  unfold set_hash. cbn [hash_queue_buffers set_buffers buffers]. pose proof (lookup_lt_Some _ _ _ Hi) as Hlt.
  rewrite A3, (lo_heads _ _ _ Hl), zset_Some by (unfold zlen; rewrite length_fmap; lia). rewrite !bind_Some. eexists. split; [done|]. split.
  - cbn [hash_queue_buffers]. eapply zget_zset_eq. apply zset_Some. unfold zlen. rewrite length_fmap. lia.
  - intros n k Hk. cbn [buffers]. rewrite !insert_insert_eq. induction n as [|n IH]; [done|]. cbn [search]. rewrite lookup_insert_eq, bind_Some.
    cbn [device blockno set_id set_flags set_hnext set_hprev set_hash_links hash_q_next]. destruct (Z.eqb_spec blk k); [congruence|]. rewrite andb_false_r. exact IH.
Qed.

Lemma prepend_empty s b :
  free_buff_list_head s = NULL -> is_Some (buffers s !! b) ->
  exists s', prepend_to_freelist b s = Some s' /\ free_frame s s' /\ free_buff_list_tail s' = free_buff_list_tail s /\
    flk s' b = Some (NULL, NULL) /\ forall e, e <> b -> flk s' e = flk s e.
Proof.
  intros Hh Hs. destruct (links_exist s b Hs) as [(n0 & p0 & Eb) _]. unfold prepend_to_freelist. rewrite Hh.
  destruct (upd_fnext s b NULL _ _ Eb) as (s1 & -> & Hf1 & Hh1 & Ht1 & Eb1 & Eo1). rewrite bind_Some.
  destruct (upd_fprev s1 b NULL _ _ Eb1) as (s2 & -> & Hf2 & Hh2 & Ht2 & Eb2 & Eo2). rewrite bind_Some, Hh2, Hh1, Hh, bind_Some.
  eexists. split; [done|]. split; [by apply (free_frame_trans _ _ _ Hf1 Hf2)|]. split; [simpl; congruence|]. split; [done|].
  intros x Hx. transitivity (flk s2 x); [done|]. by rewrite Eo2, Eo1.
Qed.

Lemma append_no_tail s b :
  free_buff_list_tail s = NULL -> is_Some (buffers s !! b) ->
  exists s', append_to_freelist b s = Some s' /\ free_frame s s' /\ free_buff_list_head s' = Some b /\ free_buff_list_tail s' = Some b /\
    flk s' b = Some (NULL, NULL) /\ forall e, e <> b -> flk s' e = flk s e.
Proof.
  intros Ht Hs. destruct (links_exist s b Hs) as [(n0 & p0 & Eb) _]. unfold append_to_freelist.
  destruct (upd_fnext s b NULL _ _ Eb) as (s1 & -> & Hf1 & Hh1 & Ht1 & Eb1 & Eo1). rewrite bind_Some, Ht1, Ht.
  destruct (upd_fprev s1 b NULL _ _ Eb1) as (s2 & -> & Hf2 & Hh2 & Ht2 & Eb2 & Eo2). rewrite bind_Some, Ht2, Ht1, Ht, bind_Some.
  eexists. split; [done|]. split; [by apply (free_frame_trans _ _ _ Hf1 Hf2)|]. split; [done|]. split; [done|]. split; [done|].
  intros x Hx. transitivity (flk s2 x); [done|]. by rewrite Eo2, Eo1.
Qed.

(** When all buffers are in use, one released without data and the next with data:
    the first is lost from the free list, and the next [getblk] for its block goes
    through a null pointer. *)
Theorem released_buffer_lost s d H b c x y :
  cache_ok s d [] H -> infos s b = Some x -> infos s c = Some y -> b <> c -> valid x = false -> valid y = true -> hashed H b ->
  exists s1 s2, brelease b s = Some s1 /\ brelease c s1 = Some s2 /\ free_buff_list_head s2 = Some c /\ free_buff_list_tail s2 = Some c /\ getblk 0 (i_blk x) s2 = None.
Proof.
  intros Hok Ex Ey Hbc Vx Vy Hh. pose proof (ok_lists _ _ _ _ Hok) as Hl. destruct (lo_free _ _ _ Hl) as (Fh & Ft & _). simpl in Fh, Ft.
  destruct (infos_lookup _ _ _ Ex) as (h & Eh & Ei). destruct (ok_info _ _ _ _ Hok b x Ex) as (Ed & _). unfold brelease at 1. rewrite Eh, bind_Some.
  change (has_bits (flags h) BUFF_DATAVALID) with (valid (info_of h)). rewrite Ei, Vx.
  destruct (prepend_empty s b Fh) as (s1 & -> & (A1 & A2 & A3 & A4 & A5) & A6 & A7 & A8); [by eauto|]. rewrite bind_Some.
  destruct (infos_lookup s1 b x) as (h1 & Eh1 & Ei1); [by rewrite A1|].
  destruct (upd_info s1 b (fun h => set_flags (Z.land (flags h) (Z.lnot BUFF_BUSY)) h) h1) as (s2 & -> & _ & (B1 & B2 & B3 & B4 & B5 & B6 & B7 & _)); [done..|].
  destruct (infos_lookup s2 c y) as (g & Eg & Ej); [by rewrite B2, A1|]. exists s2. unfold brelease. rewrite Eg, bind_Some.
  change (has_bits (flags g) BUFF_DATAVALID) with (valid (info_of g)). rewrite Ej, Vy.
  destruct (append_no_tail s2 c) as (s3 & -> & (C1 & C2 & C3 & C4 & C5) & C6 & C7 & C8 & C9); [congruence|by eauto|]. rewrite bind_Some.
  destruct (infos_lookup s3 c y) as (g3 & Eg3 & Ej3); [by rewrite C1, B2, A1|].
  destruct (upd_info s3 c (fun h => set_flags (Z.land (flags h) (Z.lnot BUFF_BUSY)) h) g3) as (s4 & -> & _ & (D1 & D2 & D3 & D4 & D5 & D6 & D7 & _)); [done..|].
  exists s4. split; [done|]. split; [done|]. split; [congruence|]. split; [congruence|].
  set (x' := info_of _) in B1. assert (i_blk x' = i_blk x /\ i_dev x' = 0 /\ busy x' = false) as (X1 & X2 & X3).
  { change x' with (with_flags (Z.land (i_flags (info_of h1)) (Z.lnot BUFF_BUSY)) (info_of h1)). rewrite Ei1. split; [done|]. split; [done|]. unfold busy. simpl. flag_simpl. done. }
  assert (infos s4 b = Some x') as Ex4 by by rewrite D2, C1. assert (forall e z, infos s4 e = Some z -> exists z', infos s e = Some z' /\ i_blk z' = i_blk z) as Hback.
  { intros e z Ez. destruct (decide (e = b)) as [->|Heb]; [exists x; split; [done|congruence]|]. destruct (decide (e = c)) as [->|Hec].
    - rewrite D1 in Ez. injection Ez as <-. exists y. split; [done|]. rewrite <- Ej3. done.
    - exists z. split; [|done]. by rewrite <- A1, <- B2, <- C1, <- D2. }
  unfold getblk, MAX_BUFFERS. cbn [getblk_loop]. rewrite <- X2 at 1. rewrite <- X1. rewrite (getblk_orphan s4 [c] H b x'); try done.
  - split; [| |rewrite D5, C3, B5, A3; apply Hl|apply Hl| |].
    + intros e. rewrite (dom_ext s3 s4), (dom_ext_info s2 s3), (dom_ext s1 s2), (dom_ext_info s s1) by done. apply Hl.
    + split; [simpl; congruence|]. split; [simpl; congruence|]. apply dlist_lookup; [apply NoDup_singleton|]. intros [|i] o Ho; [|done]. injection Ho as <-. by rewrite D3.
    + intros i q Hi. apply (Queue.dlist_frame (hlk s)); [by apply (lo_lists _ _ _ Hl i)|]. intros e _. by rewrite D4, C2, B4, A2.
    + intros i q e Hi He. destruct (lo_hashed _ _ _ Hl i q e Hi He) as (z & Ez & Em).
      assert (is_Some (infos s4 e)) as [w Ew].
      { destruct (decide (e = c)) as [->|Hec]; [by rewrite D1|]. rewrite D2 by done. rewrite C1. destruct (decide (e = b)) as [->|]; [by rewrite B1|]. by rewrite B2, A1, Ez. }
      exists w. split; [done|]. destruct (Hback e w Ew) as (z' & Ez' & Eb). congruence.
  - intros e z He Ez Eb. destruct (Hback e z Ez) as (z' & Ez' & Eb'). eapply (ok_unique _ _ _ _ Hok e b z' x); [done..|congruence].
  - intros Hx%list_elem_of_singleton. done.
  - exists NULL. by rewrite D3, C9, B3, A7.
Qed.

End Invariant.

(** * A drive in memory, and caches on it *)

(** The next reads fail when [ram_faults] says so. *)
Record ram := mk_ram { ram_data : gmap Z (list Z); ram_faults : list bool }.
Definition ram_sector (d : ram) (k : Z) : list Z :=
  match ram_data d !! k with Some l => if bool_decide (length l = 512%nat) then l else replicate 512 0 | None => replicate 512 0 end.

#[export] Program Instance ram_drive : Drive ram := {|
  drive_read k old d := if default false (head (ram_faults d)) then (-1, old, mk_ram (ram_data d) (tail (ram_faults d)))
                        else (1, ram_sector d k, mk_ram (ram_data d) (tail (ram_faults d)));
  drive_write k data d := (1, mk_ram (<[k := data]> (ram_data d)) (ram_faults d));
  sector := ram_sector |}.
Next Obligation. intros d k. unfold ram_sector. case_match; [case_bool_decide|]; try done; apply length_replicate. Qed.
Next Obligation. intros d k old Hl. simpl. case_match; [done|]. simpl. unfold ram_sector. case_match; [case_bool_decide|]; try done; apply length_replicate. Qed.
Next Obligation. intros d k old _. simpl. case_match; simpl; [lia|done]. Qed.
Next Obligation. intros d k old k' _. simpl. by case_match. Qed.
Next Obligation. intros d k data Hl _. simpl. unfold ram_sector. simpl. by rewrite lookup_insert_eq, bool_decide_true. Qed.
Next Obligation. intros d k data k' Hl Hne. simpl. unfold ram_sector. simpl. by rewrite lookup_insert_ne. Qed.

(** The zeroed array, and the cache after the start. *)
Definition bss_header : buffer_header := mk_bh 0 NULL NULL NULL NULL NULL (replicate 512 0) 0 0 0.
Definition bss : cache := mk_cache (gset_to_gmap bss_header (list_to_set all_bufs)) (replicate 7 NULL) NULL NULL NULL NULL.
Definition ex_disk : ram := mk_ram ∅ [].
Definition ex_start : cache := default bss (initialize_buffer_cache bss).

Lemma bss_dom b : is_Some (buffers bss !! b) <-> b ∈ all_bufs.
Proof. cbn [bss buffers]. rewrite lookup_gset_to_gmap, option_guard_bool_decide. case_bool_decide as E; rewrite elem_of_list_to_set in E; split; try done; by intros [? ?]. Qed.
Lemma bss_headers b h : buffers bss !! b = Some h -> device h = 0 /\ length (buff h) = 512%nat.
Proof. cbn [bss buffers]. intros [_ <-]%lookup_gset_to_gmap_Some. by split. Qed.
Lemma ex_start_ok d : cache_inv (D := ram) ex_start d /\ idle ex_start.
Proof.
  unfold ex_start. destruct (start_ok bss d bss_dom bss_headers) as (s' & E' & Hi & Hid & _). rewrite E'. by split.
Qed.

(** Two buffers in their lists, for the blocks 3 and 4; all others are in use. *)
Definition ex_header (blk : Z) (n : ptr) (fl : Z) : buffer_header := mk_bh blk NULL NULL n NULL NULL (replicate 512 0) 0 fl 0.
Definition ex_two (f0 f1 : Z) (F : ptr) : cache :=
  mk_cache (<[buf 0 := ex_header 3 NULL f0]> (<[buf 1 := ex_header 4 NULL f1]> (gset_to_gmap (ex_header 0 NULL BUFF_BUSY) (list_to_set all_bufs))))
    [NULL; NULL; NULL; Some (buf 0); Some (buf 1); NULL; NULL] F F NULL NULL.
Definition ex_lists : list (list loc) := [[]; []; []; [buf 0]; [buf 1]; []; []].

Lemma ex_two_lookup f0 f1 F b h :
  buffers (ex_two f0 f1 F) !! b = Some h ->
  (b = buf 0 /\ h = ex_header 3 NULL f0) \/ (b = buf 1 /\ h = ex_header 4 NULL f1) \/ (b <> buf 0 /\ b <> buf 1 /\ h = ex_header 0 NULL BUFF_BUSY).
Proof.
  cbn [ex_two buffers]. destruct (decide (b = buf 0)) as [->|H0]; [rewrite lookup_insert_eq; intros [= <-]; by left|]. rewrite lookup_insert_ne by done.
  destruct (decide (b = buf 1)) as [->|H1]; [rewrite lookup_insert_eq; intros [= <-]; right; by left|]. rewrite lookup_insert_ne by done.
  intros [_ <-]%lookup_gset_to_gmap_Some. right. by right.
Qed.

Lemma ex_hashed b : hashed ex_lists b <-> b = buf 0 \/ b = buf 1.
Proof.
  split.
  - intros (i & q & Hi & Hb). do 7 (destruct i as [|i]; [injection Hi as <-; first [by apply not_elem_of_nil in Hb|apply list_elem_of_singleton in Hb; tauto]|]). done.
  - intros [->| ->]; [exists 3%nat, [buf 0]|exists 4%nat, [buf 1]]; (split; [done|by left]).
Qed.

Lemma ex_two_ok f0 f1 (F : list loc) :
  (F = [] /\ has_bits f0 BUFF_BUSY = true) \/ (F = [buf 0] /\ has_bits f0 BUFF_BUSY = false) -> has_bits f1 BUFF_BUSY = true ->
  (has_bits f0 BUFF_WRITEDELAY = true -> has_bits f0 BUFF_DATAVALID = true) -> (has_bits f1 BUFF_WRITEDELAY = true -> has_bits f1 BUFF_DATAVALID = true) ->
  cache_ok (ex_two f0 f1 (head F)) ex_disk F ex_lists.
Proof.
  intros HF B1 D0 D1. set (s := ex_two f0 f1 (head F)).
  assert (forall b x, infos s b = Some x -> (b = buf 0 /\ x = info_of (ex_header 3 NULL f0)) \/ (b = buf 1 /\ x = info_of (ex_header 4 NULL f1)) \/
     (b <> buf 0 /\ b <> buf 1 /\ x = info_of (ex_header 0 NULL BUFF_BUSY))) as Hx.
  { intros b x (h & Eh & <-)%infos_lookup. destruct (ex_two_lookup _ _ _ _ _ Eh) as [[-> ->]|[[-> ->]|(H0 & H1 & ->)]]; [by left|right; by left|right; by right]. }
  assert (forall b, is_Some (buffers s !! b) -> hlk s b = Some (NULL, NULL) /\ flk s b = Some (NULL, NULL)) as Hlk.
  { intros b [h Eh]. unfold hlk, flk. rewrite Eh. destruct (ex_two_lookup _ _ _ _ _ Eh) as [[_ ->]|[[_ ->]|(_ & _ & ->)]]; done. }
  assert (forall lk b, lk b = Some (NULL, NULL) -> Queue.dlist lk [b]) as Hone.
  { intros lk b Hb. apply dlist_lookup; [apply NoDup_singleton|]. intros [|i] o Ho; [|done]. by injection Ho as <-. }
  assert (is_Some (buffers s !! buf 0) /\ is_Some (buffers s !! buf 1)) as [S0 S1] by by split. split.
  - split.
    + intros b. rewrite <- bss_dom. unfold s. cbn [ex_two buffers]. destruct (decide (b = buf 0)) as [->|H0]; [by rewrite lookup_insert_eq|]. rewrite lookup_insert_ne by done.
      destruct (decide (b = buf 1)) as [->|H1]; [by rewrite lookup_insert_eq|]. rewrite lookup_insert_ne by done. cbn [bss buffers]. rewrite !lookup_gset_to_gmap, !option_guard_bool_decide. by case_bool_decide.
    + destruct HF as [[-> _]|[-> _]]; (split; [done|]; split; [done|]); [apply Queue.dlist_nil|]. apply Hone. by apply Hlk.
    + done.
    + done.
    + intros i q Hi. do 7 (destruct i as [|i]; [injection Hi as <-; first [apply Queue.dlist_nil|apply Hone; by apply Hlk]|]). done.
    + intros i q b Hi Hb. do 7 (destruct i as [|i]; [injection Hi as <-; first [by apply not_elem_of_nil in Hb|apply list_elem_of_singleton in Hb as ->; by eexists]|]). done.
  - intros b x Ex. destruct (Hx b x Ex) as [[_ ->]|[[_ ->]|(_ & _ & ->)]]; (split; [done|]; split; [done|]; split; [done|]); intros; done.
  - intros b x Ex. destruct (Hx b x Ex) as [[-> ->]|[[-> ->]|(H0 & H1 & ->)]]; unfold busy; simpl.
    + destruct HF as [[-> ->]|[-> ->]]; (split; [try done|try done]); [by intros ?%not_elem_of_nil|intros _; by left].
    + rewrite B1. split; [|done]. intros Hb. destruct HF as [[-> _]|[-> _]]; [by apply not_elem_of_nil in Hb|by apply list_elem_of_singleton in Hb].
    + split; [|done]. intros Hb. destruct HF as [[-> _]|[-> _]]; [by apply not_elem_of_nil in Hb|by apply list_elem_of_singleton in Hb].
  - intros b x Ex Hn. rewrite ex_hashed in Hn. destruct (Hx b x Ex) as [[-> ->]|[[-> ->]|(H0 & H1 & ->)]]; [tauto|tauto|]. split; [|done]. apply Hlk. by eapply infos_is_Some.
  - intros b1 b2 x1 x2 H1 H2 E1 E2 E12. rewrite ex_hashed in H1, H2.
    destruct (Hx b1 x1 E1) as [[-> ->]|[[-> ->]|(N0 & N1 & ->)]]; [| |tauto]; destruct (Hx b2 x2 E2) as [[-> ->]|[[-> ->]|(M0 & M1 & ->)]]; try done; tauto.
  - done.
Qed.

(** A block whose read failed once and which is then written reports an error to
    its readers from then on, although the cache has the data. *)
Definition ex_bad_disk : ram := mk_ram ∅ [true].
Lemma stale_status_example :
  exists s1 s2 s3 d1 d3, read_block 0 5 ex_start ex_bad_disk = Some (Done (EDISK_READ, []), s1, d1) /\
    write_block 0 5 (replicate 512 7) s1 = Some (Done 1, s2) /\ view s2 d1 5 = replicate 512 7 /\
    read_block 0 5 s2 d1 = Some (Done (EDISK_READ, []), s3, d3).
Proof. eexists _, _, _, _, _. split; [vm_compute; reflexivity|]. split; [vm_compute; reflexivity|]. split; vm_compute; reflexivity. Qed.

Lemma read_block_reads_witness :
  exists r s' d', read_block 0 12 ex_start ex_disk = Some (Done r, s', d') /\ cache_inv s' d' /\ (forall k, view s' d' k = view ex_start ex_disk k) /\ (forall k, sector d' k = sector ex_disk k) /\
    (r = (1, view ex_start ex_disk 12) \/ (r = (EDISK_READ, []) /\ (stale_status ex_start 12 \/ exists old, (drive_read 12 old ex_disk).1.1 < 0))).
Proof. apply (read_block_reads ex_start ex_disk 12); [apply ex_start_ok|vm_compute; reflexivity|vm_compute; discriminate]. Defined.

Lemma getblk_takes_witness :
  exists b s' x x', getblk 0 12 ex_start = Some (Got b, s') /\ cache_inv s' ex_disk /\
    infos ex_start b = Some x /\ busy x = false /\ infos s' b = Some x' /\ busy x' = true /\ i_blk x' = 12 /\
    (forall c, c <> b -> infos s' c = infos ex_start c) /\ (forall k, view s' ex_disk k = view ex_start ex_disk k).
Proof. apply (getblk_takes ex_start ex_disk 12); [apply ex_start_ok|vm_compute; reflexivity]. Defined.

Lemma getblk_returns_witness : exists r s', getblk 0 12 ex_start = Some (r, s') /\ r <> Again.
Proof. apply (getblk_returns ex_start ex_disk 12). apply ex_start_ok. Defined.



Lemma lone_victim_hangs_witness :
  exists s', getblk_1 0 10 (ex_two 2 1 (Some (buf 0))) = Some (Got (buf 0), s') /\ zget (hash_queue_buffers s') 3 = Some (Some (buf 0)) /\
    forall n k, k <> 10 -> search n (buffers s') 0 k (Some (buf 0)) = None.
Proof.
  apply (lone_victim_hangs (ex_two 2 1 (Some (buf 0))) ex_disk (buf 0) [] ex_lists (info_of (ex_header 3 NULL 2)) 10 3); [|reflexivity|reflexivity|reflexivity|reflexivity|discriminate].
  apply (ex_two_ok 2 1 [buf 0]); [by right|done|done|done].
Defined.

Lemma released_buffer_lost_witness :
  exists s1 s2, brelease (buf 0) (ex_two 1 3 NULL) = Some s1 /\ brelease (buf 1) s1 = Some s2 /\
    free_buff_list_head s2 = Some (buf 1) /\ free_buff_list_tail s2 = Some (buf 1) /\ getblk 0 3 s2 = None.
Proof.
  apply (released_buffer_lost (ex_two 1 3 NULL) ex_disk ex_lists (buf 0) (buf 1) (info_of (ex_header 3 NULL 1)) (info_of (ex_header 4 NULL 3)));
    [|reflexivity|reflexivity|discriminate|reflexivity|reflexivity|apply ex_hashed; by left].
  apply (ex_two_ok 1 3 []); [by left|done|done|done].
Defined.

End BufCache.
