(* ===== verification/Floppy.v ===== *)
(** The floppy driver of base/fdc.c above the controller's registers: sector
    addresses, transfers over several tracks with their retries, the queue of
    requests, and the drive that BufCache.v needs.  The controller itself (seek,
    transfer, recalibrate: sequences of port input and output) is a type class
    whose laws are what its commands promise. *)
From Stdlib Require Import Sorting.Sorted.
From S2P Require Import Prelude BufCache.

Module Floppy.

(** * Sector addresses *)

Definition fmt_sectorsPerTrack : Z := 18.
Definition fmt_heads : Z := 2.
Definition fmt_tracks : Z := 80.
Definition FDC_OK : Z := 0.
Definition FDC_ERROR : Z := -30.
Definition FDC_NODISK : Z := -31.
Definition FDC_TIMEOUT : Z := -32.

Record Chs := mk_chs { chs_c : Z; chs_h : Z; chs_s : Z }.

(** [None] for the result -1. *)
Definition lba_to_chs (lba : Z) : option Chs :=
  let cyl_bytes := fmt_heads * fmt_sectorsPerTrack in
  if cyl_bytes * fmt_tracks <=? lba then None else
  let temp := lba mod cyl_bytes in
  Some (mk_chs (lba / cyl_bytes) (temp / fmt_sectorsPerTrack) (temp mod fmt_sectorsPerTrack + 1)).

(** The address of a sector, and the sectors of a disk. *)
Definition chs_to_lba (x : Chs) : Z := (chs_c x * fmt_heads + chs_h x) * fmt_sectorsPerTrack + chs_s x - 1.
Definition chs_valid (x : Chs) : Prop := 0 <= chs_c x < fmt_tracks /\ 0 <= chs_h x < fmt_heads /\ 1 <= chs_s x <= fmt_sectorsPerTrack.

(** [lba_to_chs] is the bijection between the 2880 block numbers and the sectors
    of the disk; larger numbers are refused. *)
Theorem lba_chs_round_trip :
  (forall lba, 0 <= lba -> match lba_to_chs lba with
     | Some x => lba < 2880 /\ chs_valid x /\ chs_to_lba x = lba
     | None => 2880 <= lba
     end) /\
  (forall x, chs_valid x -> 0 <= chs_to_lba x /\ lba_to_chs (chs_to_lba x) = Some x).
Proof.
  split.
  - intros lba H0. unfold lba_to_chs, chs_valid, chs_to_lba, fmt_heads, fmt_sectorsPerTrack, fmt_tracks. change (2 * 18 * 80) with 2880. change (2 * 18) with 36. cbv zeta.
    destruct (Z.leb_spec 2880 lba); [done|]. simpl. Z.div_mod_to_equations. lia.
  - intros [c h s]. unfold lba_to_chs, chs_valid, chs_to_lba, fmt_heads, fmt_sectorsPerTrack, fmt_tracks. change (2 * 18 * 80) with 2880. change (2 * 18) with 36. cbv zeta. simpl. intros (Hc & Hh & Hs).
    split; [lia|]. destruct (Z.leb_spec 2880 ((c * 2 + h) * 18 + s - 1)); [lia|]. f_equal. f_equal; Z.div_mod_to_equations; lia.
Qed.

(** * The controller *)

Inductive op := Read | Write.

(** [fdc_transfer] moves [n] sectors of one track between the disk and the DMA
    buffer, if the head is on that track. *)
Definition in_track (x : Chs) (n : Z) : Prop := chs_valid x /\ 0 < n /\ chs_s x + n - 1 <= fmt_sectorsPerTrack.

Class Fdc (C : Type) := {
  drivePresent : C -> bool;
  specify : C -> C;
  fdc_seek : Z -> C -> Z * C;
  no_disk : C -> bool * C;
  fdc_transfer : Chs -> Z -> op -> C -> Z * C;
  recalibrate : C -> C;
  dma : C -> list Z;
  set_dma : list Z -> C -> C;
  medium : C -> Z -> list Z;
  track : C -> Z;
  medium_length c k : length (medium c k) = 512%nat;
  set_dma_dma l c : dma (set_dma l c) = l;
  set_dma_medium l c k : medium (set_dma l c) k = medium c k;
  specify_keeps c : dma (specify c) = dma c /\ forall k, medium (specify c) k = medium c k;
  recalibrate_keeps c : dma (recalibrate c) = dma c /\ forall k, medium (recalibrate c) k = medium c k;
  seek_result t c : (fdc_seek t c).1 = FDC_OK \/ (fdc_seek t c).1 = FDC_ERROR \/ (fdc_seek t c).1 = FDC_TIMEOUT;
  seek_track t c : (fdc_seek t c).1 = FDC_OK -> track (fdc_seek t c).2 = t;
  seek_keeps t c : dma (fdc_seek t c).2 = dma c /\ forall k, medium (fdc_seek t c).2 k = medium c k;
  no_disk_keeps c : track (no_disk c).2 = track c /\ dma (no_disk c).2 = dma c /\ forall k, medium (no_disk c).2 k = medium c k;
  transfer_result x n o c : (fdc_transfer x n o c).1 = FDC_OK \/ (fdc_transfer x n o c).1 = FDC_ERROR \/ (fdc_transfer x n o c).1 = FDC_TIMEOUT;
  read_keeps x n c k : medium (fdc_transfer x n Read c).2 k = medium c k;
  read_data x n c i : in_track x n -> track c = chs_c x -> (fdc_transfer x n Read c).1 = FDC_OK -> 0 <= i < n ->
    take 512 (drop (Z.to_nat (512 * i)) (dma (fdc_transfer x n Read c).2)) = medium c (chs_to_lba x + i);
  write_keeps_dma x n c : dma (fdc_transfer x n Write c).2 = dma c;
  write_keeps x n c k : in_track x n -> track c = chs_c x -> ~ chs_to_lba x <= k < chs_to_lba x + n -> medium (fdc_transfer x n Write c).2 k = medium c k;
  write_data x n c i : in_track x n -> track c = chs_c x -> (fdc_transfer x n Write c).1 = FDC_OK -> 0 <= i < n -> 512 * n <= zlen (dma c) ->
    medium (fdc_transfer x n Write c).2 (chs_to_lba x + i) = take 512 (drop (Z.to_nat (512 * i)) (dma c)) }.

Section Driver.
Context {C : Type} `{!Fdc C}.

(** The loop of [fdc_read] and [fdc_write], over the values of [tries]. *)
Fixpoint try_transfer (tries : list Z) (x : Chs) (n : Z) (o : op) (res : Z) (c : C) : Z * C :=
  match tries with
  | [] => (res, c)
  | t :: tries =>
      let again (res : Z) (c : C) := try_transfer tries x n o res (if t =? 2 then recalibrate c else c) in
      let '(r, c) := fdc_seek (chs_c x) c in
      if r =? FDC_OK then
        let '(nd, c) := no_disk c in
        if (nd : bool) then (FDC_NODISK, c) else
        let '(res, c) := fdc_transfer x n o c in
        if (res =? FDC_OK) || (res =? FDC_TIMEOUT) then (res, c) else again res c
      else again FDC_ERROR c
  end.

(** The bytes read are copied to the caller's buffer after success, if it is not null;
    [buffer] says whether it is one. *)
Definition fdc_read (x : Chs) (n : Z) (buffer : bool) (c : C) : Z * list Z * C :=
  if negb (drivePresent c) then (FDC_ERROR, [], c) else
  let '(res, c) := try_transfer [0; 1; 2] x n Read FDC_ERROR (specify c) in
  if (res =? FDC_OK) && buffer then (res, take (Z.to_nat (n * 512)) (dma c), c) else (res, [], c).

(** [None] is a null buffer. *)
Definition fdc_write (x : Chs) (n : Z) (buffer : option (list Z)) (c : C) : Z * C :=
  if negb (drivePresent c) then (FDC_ERROR, c) else
  match buffer with
  | None => (FDC_ERROR, c)
  | Some bytes => try_transfer [0; 1; 2] x n Write FDC_ERROR (set_dma (take (Z.to_nat (n * 512)) bytes) (specify c))
  end.

(** The loops of [floppy_read] and [floppy_write]: [m] sectors are left.  The requests come
    from the buffer cache, and their buffer is that of a cache entry: it is not null. *)
Fixpoint read_tracks (fuel : nat) (count start m : Z) (out : list Z) (c : C) : option (Z * list Z * C) :=
  match fuel with
  | O => None
  | S fuel =>
      if m <=? 0 then Some (count, out, c) else
      match lba_to_chs start with
      | None => Some (-1, out, c)
      | Some x =>
          let n := fmt_sectorsPerTrack - chs_s x + 1 in
          let n := if n <? m then n else m in
          let '(res, bytes, c) := fdc_read x n true c in
          if res <? 0 then Some (res, out, c) else read_tracks fuel count (u32 (start + n)) (m - n) (out ++ bytes) c
      end
  end.
Definition floppy_read (start count : Z) (c : C) : option (Z * list Z * C) := read_tracks (S (Z.to_nat count)) count start count [] c.

Fixpoint write_tracks (fuel : nat) (count start m : Z) (bytes : list Z) (c : C) : option (Z * C) :=
  match fuel with
  | O => None
  | S fuel =>
      if m <=? 0 then Some (count, c) else
      match lba_to_chs start with
      | None => Some (-1, c)
      | Some x =>
          let n := fmt_sectorsPerTrack - chs_s x + 1 in
          let n := if n <? m then n else m in
          let '(res, c) := fdc_write x n (Some bytes) c in
          if res <? 0 then Some (res, c) else write_tracks fuel count (u32 (start + n)) (m - n) (drop (Z.to_nat (n * 512)) bytes) c
      end
  end.
Definition floppy_write (start count : Z) (bytes : list Z) (c : C) : option (Z * C) := write_tracks (S (Z.to_nat count)) count start count bytes c.

(** What [floppy_thread] does for a request: up to ten attempts; the status is a
    [char].  [motor_on] and the delays have no effect here. *)
Fixpoint serve_read (i : nat) (lba blocks : Z) (buffer : list Z) (status : Z) (c : C) : option (Z * list Z * C) :=
  match i with
  | O => Some (status, buffer, c)
  | S i =>
      '(r, out, c) ← floppy_read lba blocks c;
      let buffer := out ++ drop (length out) buffer in
      if 0 <=? s8 r then Some (s8 r, buffer, c) else serve_read i lba blocks buffer (s8 r) c
  end.
Fixpoint serve_write (i : nat) (lba blocks : Z) (buffer : list Z) (status : Z) (c : C) : option (Z * C) :=
  match i with
  | O => Some (status, c)
  | S i =>
      '(r, c) ← floppy_write lba blocks buffer c;
      if 0 <=? s8 r then Some (s8 r, c) else serve_write i lba blocks buffer (s8 r) c
  end.

(** * What a transfer does *)

Definition same_medium (c c' : C) : Prop := forall k, medium c' k = medium c k.

Lemma try_read tries x n : forall res c, in_track x n -> -32 <= res < 0 ->
  exists r c', try_transfer tries x n Read res c = (r, c') /\ same_medium c c' /\ -32 <= r <= 0 /\
    (r = FDC_OK -> forall i, 0 <= i < n -> take 512 (drop (Z.to_nat (512 * i)) (dma c')) = medium c (chs_to_lba x + i)).
Proof.
  induction tries as [|t tries IH]; intros res c Hx Hres; cbn [try_transfer]; [exists res, c; split_and!; first [done|lia|unfold FDC_OK; lia]|].
  assert (forall r c', -32 <= r < 0 -> same_medium c c' ->
    exists r' c'', try_transfer tries x n Read r (if t =? 2 then recalibrate c' else c') = (r', c'') /\ same_medium c c'' /\ -32 <= r' <= 0 /\
      (r' = FDC_OK -> forall i, 0 <= i < n -> take 512 (drop (Z.to_nat (512 * i)) (dma c'')) = medium c (chs_to_lba x + i))) as Hagain.
  { intros r c' Hr Hm. destruct (IH r (if t =? 2 then recalibrate c' else c') Hx Hr) as (r' & c'' & E & Hm' & Hr' & Hd). exists r', c''.
    assert (same_medium c (if t =? 2 then recalibrate c' else c')) as Hm2 by (intros k; destruct (t =? 2); [rewrite (proj2 (recalibrate_keeps c'))|]; apply Hm).
    split; [done|]. split; [intros k; by rewrite Hm'|]. split; [done|]. intros Hok i Hi. rewrite Hd by done. apply Hm2. }
  pose proof (seek_track (chs_c x) c) as Ht. pose proof (proj2 (seek_keeps (chs_c x) c)) as Hm1. destruct (fdc_seek (chs_c x) c) as [r1 c1]. simpl in Ht, Hm1.
  destruct (Z.eqb_spec r1 FDC_OK) as [E1|E1]; [|by apply Hagain].
  pose proof (no_disk_keeps c1) as (Ht2 & _ & Hm2). destruct (no_disk c1) as [nd c2]. simpl in Ht2, Hm2.
  assert (same_medium c c2) as Hs2 by (intros k; by rewrite Hm2, Hm1).
  destruct nd; [exists FDC_NODISK, c2; split; [done|]; split; [done|]; split; [done|]; done|].
  pose proof (fun k => read_keeps x n c2 k) as Hm3. pose proof (read_data x n c2) as Hd. pose proof (transfer_result x n Read c2) as Hr3. destruct (fdc_transfer x n Read c2) as [r3 c3]. simpl in Hm3, Hd, Hr3.
  assert (same_medium c c3) as Hs3 by (intros k; by rewrite Hm3, Hs2).
  destruct ((r3 =? FDC_OK) || (r3 =? FDC_TIMEOUT)) eqn:E3.
  - exists r3, c3. split; [done|]. split; [done|]. split; [unfold FDC_OK, FDC_ERROR, FDC_TIMEOUT in *; lia|]. intros E i Hi. rewrite (Hd i); [apply Hs2|done|rewrite Ht2; by apply Ht|done|done].
  - apply Hagain; [|done]. apply orb_false_iff in E3 as [E3 _]. apply Z.eqb_neq in E3. unfold FDC_OK, FDC_ERROR, FDC_TIMEOUT in *. lia.
Qed.

Lemma try_write tries x n : forall res c, in_track x n -> -32 <= res < 0 -> 512 * n <= zlen (dma c) ->
  exists r c', try_transfer tries x n Write res c = (r, c') /\ -32 <= r <= 0 /\
    (forall k, ~ chs_to_lba x <= k < chs_to_lba x + n -> medium c' k = medium c k) /\
    (r = FDC_OK -> forall i, 0 <= i < n -> medium c' (chs_to_lba x + i) = take 512 (drop (Z.to_nat (512 * i)) (dma c))).
Proof.
  induction tries as [|t tries IH]; intros res c Hx Hres Hlen; cbn [try_transfer]; [exists res, c; split_and!; first [done|lia|unfold FDC_OK; lia]|].
  set (outside := fun c' => forall k, ~ chs_to_lba x <= k < chs_to_lba x + n -> medium c' k = medium c k).
  assert (forall r c', -32 <= r < 0 -> dma c' = dma c -> outside c' ->
    exists r' c'', try_transfer tries x n Write r (if t =? 2 then recalibrate c' else c') = (r', c'') /\ -32 <= r' <= 0 /\ outside c'' /\
      (r' = FDC_OK -> forall i, 0 <= i < n -> medium c'' (chs_to_lba x + i) = take 512 (drop (Z.to_nat (512 * i)) (dma c)))) as Hagain.
  { intros r c' Hr Hd Ho. pose proof (recalibrate_keeps c') as [Rd Rm].
    destruct (IH r (if t =? 2 then recalibrate c' else c') Hx Hr) as (r' & c'' & E & Hr' & Hm' & Hd'); [destruct (t =? 2); congruence|]. exists r', c''.
    split; [done|]. split; [done|]. split; [intros k Hk; rewrite Hm' by done; destruct (t =? 2); [rewrite Rm|]; by apply Ho|]. intros Hok i Hi. rewrite Hd' by done.
    destruct (t =? 2); congruence. }
  pose proof (seek_track (chs_c x) c) as Ht. pose proof (seek_keeps (chs_c x) c) as [Hd1 Hm1]. destruct (fdc_seek (chs_c x) c) as [r1 c1]. simpl in Ht, Hd1, Hm1.
  destruct (Z.eqb_spec r1 FDC_OK) as [E1|E1]; [|apply Hagain; [done|done|intros k _; apply Hm1]].
  pose proof (no_disk_keeps c1) as (Ht2 & Hd2 & Hm2). destruct (no_disk c1) as [nd c2]. simpl in Ht2, Hd2, Hm2.
  assert (forall k, medium c2 k = medium c k) as Hs2 by (intros k; by rewrite Hm2, Hm1). assert (dma c2 = dma c) as Hdd by congruence.
  destruct nd; [exists FDC_NODISK, c2; split; [done|]; split; [done|]; split; [intros k _; apply Hs2|done]|].
  assert (track c2 = chs_c x) as Htr by (rewrite Ht2; by apply Ht).
  pose proof (fun k Hk => write_keeps x n c2 k Hx Htr Hk) as Hm3. pose proof (fun i => write_data x n c2 i Hx Htr) as Hd3. pose proof (transfer_result x n Write c2) as Hr3.
  pose proof (write_keeps_dma x n c2) as Hdm. destruct (fdc_transfer x n Write c2) as [r3 c3]. simpl in Hm3, Hd3, Hr3, Hdm.
  assert (outside c3) as Ho3 by (intros k Hk; by rewrite Hm3, Hs2).
  destruct ((r3 =? FDC_OK) || (r3 =? FDC_TIMEOUT)) eqn:E3.
  - exists r3, c3. split; [done|]. split; [unfold FDC_OK, FDC_ERROR, FDC_TIMEOUT in *; lia|]. split; [done|]. intros E i Hi. rewrite Hd3, Hdd; [done|done|done|congruence].
  - apply Hagain; [|congruence|done]. apply orb_false_iff in E3 as [E3 _]. apply Z.eqb_neq in E3. unfold FDC_OK, FDC_ERROR, FDC_TIMEOUT in *. lia.
Qed.

(** Sectors one after the other. *)
Definition sectors (f : Z -> list Z) (start n : Z) : list Z := concat (f <$> seqZ start n).

Lemma sectors_app f start n m : 0 <= n -> 0 <= m -> sectors f start (n + m) = sectors f start n ++ sectors f (start + n) m.
Proof. intros Hn Hm. unfold sectors. rewrite seqZ_app by done. by rewrite fmap_app, concat_app. Qed.
Lemma sectors_one f start : sectors f start 1 = f start.
Proof. unfold sectors. rewrite seqZ_cons by lia. simpl. by rewrite app_nil_r. Qed.

Lemma length_sectors f start n : 0 <= n -> (forall k, length (f k) = 512%nat) -> zlen (sectors f start n) = 512 * n.
Proof.
  intros Hn Hf. unfold zlen. revert start. pattern n. apply natlike_ind; [done| |done]. intros m Hm IH start. replace (Z.succ m) with (1 + m) by lia.
  rewrite sectors_app, length_app, sectors_one, Hf by lia. specialize (IH (start + 1)). lia.
Qed.

(** A buffer read sector by sector. *)
Lemma slices_sectors f start n (l : list Z) :
  0 <= n -> (forall i, 0 <= i < n -> take 512 (drop (Z.to_nat (512 * i)) l) = f (start + i)) -> take (Z.to_nat (n * 512)) l = sectors f start n.
Proof.
  intros Hn. revert start l. pattern n. apply natlike_ind; [done| |done]. intros m Hm IH start l Hs. replace (Z.succ m) with (1 + m) by lia.
  rewrite sectors_app, sectors_one by lia. replace (Z.to_nat ((1 + m) * 512)) with (512 + Z.to_nat (m * 512))%nat by lia. rewrite <- take_take_drop. f_equal.
  - specialize (Hs 0 ltac:(lia)). replace (start + 0) with start in Hs by lia. by rewrite <- Hs.
  - apply IH. intros i Hi. rewrite drop_drop. specialize (Hs (i + 1) ltac:(lia)). replace (start + 1 + i) with (start + (i + 1)) by lia. rewrite <- Hs. do 2 f_equal. lia.
Qed.

(** A controller on which no command fails. *)
Definition working : Prop :=
  (forall c, drivePresent c = true) /\ (forall t c, (fdc_seek t c).1 = FDC_OK) /\ (forall c, (no_disk c).1 = false) /\ (forall x n o c, (fdc_transfer x n o c).1 = FDC_OK).

Lemma try_working t tries x n o res c : working -> (try_transfer (t :: tries) x n o res c).1 = FDC_OK.
Proof.
  intros (_ & Hs & Hn & Ht). cbn [try_transfer]. specialize (Hs (chs_c x) c). destruct (fdc_seek (chs_c x) c) as [r c1]. simpl in Hs. subst r. simpl (FDC_OK =? FDC_OK). cbv iota.
  specialize (Hn c1). destruct (no_disk c1) as [nd c2]. simpl in Hn. subst nd. specialize (Ht x n o c2). destruct (fdc_transfer x n o c2) as [r c3]. simpl in Ht. by subst r.
Qed.

Lemma fdc_read_spec x n c :
  in_track x n -> exists r bytes c', fdc_read x n true c = (r, bytes, c') /\ same_medium c c' /\
    ((-32 <= r < 0 /\ bytes = [] /\ ~ working) \/ (r = 0 /\ bytes = sectors (medium c) (chs_to_lba x) n)).
Proof.
  intros Hx. unfold fdc_read. destruct (drivePresent c) eqn:Ep; cbn [negb].
  2:{ exists FDC_ERROR, [], c. split; [done|]. split; [done|]. left. split; [done|]. split; [done|]. intros (Hp & _). congruence. }
  pose proof (try_working 0 [1; 2] x n Read FDC_ERROR (specify c)) as Hwk.
  destruct (try_read [0; 1; 2] x n FDC_ERROR (specify c) Hx ltac:(done)) as (r & c' & E & Hm & Hr & Hd). rewrite E in Hwk |- *. simpl in Hwk.
  assert (same_medium c c') as Hm' by (intros k; rewrite Hm; apply specify_keeps).
  destruct (Z.eqb_spec r FDC_OK) as [->|Hne]; cbn [andb]; eexists _, _, c'; (split; [done|]; split; [done|]); [right|left].
  - split; [done|]. destruct Hx as (_ & Hn & _). apply slices_sectors; [lia|]. intros i Hi. rewrite Hd by done. apply specify_keeps.
  - split; [unfold FDC_OK in Hne; lia|]. split; [done|]. auto.
Qed.

Lemma fdc_write_spec x n bytes c :
  in_track x n -> 512 * n <= zlen bytes -> exists r c', fdc_write x n (Some bytes) c = (r, c') /\ -32 <= r <= 0 /\ (working -> r = 0) /\
    (forall k, ~ chs_to_lba x <= k < chs_to_lba x + n -> medium c' k = medium c k) /\
    (r = 0 -> forall i, 0 <= i < n -> medium c' (chs_to_lba x + i) = take 512 (drop (Z.to_nat (512 * i)) bytes)).
Proof.
  intros Hx Hl. unfold fdc_write. destruct (drivePresent c) eqn:Ep; cbn [negb].
  2:{ exists FDC_ERROR, c. split; [done|]. split; [done|]. split; [intros (Hp & _); congruence|done]. }
  set (c1 := set_dma _ _). assert (dma c1 = take (Z.to_nat (n * 512)) bytes) as Hd by apply set_dma_dma.
  destruct (try_write [0; 1; 2] x n FDC_ERROR c1 Hx ltac:(done)) as (r & c' & E1 & Hr & Hm & Hw).
  { rewrite Hd. unfold zlen in *. rewrite length_take. lia. }
  pose proof (try_working 0 [1; 2] x n Write FDC_ERROR c1) as Hwk. rewrite E1 in Hwk |- *.
  exists r, c'. split; [done|]. split; [done|]. split; [exact Hwk|]. split; [intros k Hk; rewrite Hm by done; unfold c1; rewrite set_dma_medium; apply specify_keeps|].
  intros E i Hi. rewrite (Hw E i Hi), Hd. replace (Z.to_nat (n * 512)) with (Z.to_nat (512 * i) + (512 + Z.to_nat (512 * (n - i - 1))))%nat by lia.
  by rewrite <- take_drop_commute, take_take, Nat.min_l by lia.
Qed.

(** * Reading and writing over tracks *)

(** The part of a transfer that fits in the track of its first sector. *)
Lemma first_part start m x :
  0 <= start -> 0 < m -> lba_to_chs start = Some x ->
  let n := if fmt_sectorsPerTrack - chs_s x + 1 <? m then fmt_sectorsPerTrack - chs_s x + 1 else m in
  in_track x n /\ 0 < n <= m /\ chs_to_lba x = start /\ start + n <= 2880.
Proof.
  intros Hs Hm E. pose proof (proj1 lba_chs_round_trip start Hs) as Hx. rewrite E in Hx. destruct Hx as (Hlt & Hv & Hl). cbv zeta.
  unfold in_track. split; [split; [done|]|]; unfold chs_valid, chs_to_lba, fmt_sectorsPerTrack, fmt_heads, fmt_tracks in *; case_ztest; lia.
Qed.

Lemma read_tracks_spec fuel count : forall start m out c, 0 <= start -> 0 <= m -> start + m < 2 ^ 32 -> (Z.to_nat m < fuel)%nat ->
  exists r out' c', read_tracks fuel count start m out c = Some (r, out', c') /\ same_medium c c' /\
    ((r = count /\ out' = out ++ sectors (medium c) start m /\ (m = 0 \/ start + m <= 2880)) \/
     (-32 <= r < 0 /\ (exists j, 0 <= j < m /\ out' = out ++ sectors (medium c) start j) /\ (2880 < start + m \/ ~ working))).
Proof.
  induction fuel as [|fuel IH]; intros start m out c Hs Hm Hw Hf; [lia|]. cbn [read_tracks]. destruct (Z.leb_spec m 0) as [Hm0|Hm0].
  - exists count, out, c. split; [done|]. split; [done|]. left. assert (m = 0) as -> by lia. split; [done|]. unfold sectors. simpl. rewrite app_nil_r. split; [done|]. by left.
  - destruct (lba_to_chs start) as [x|] eqn:Ex.
    2:{ pose proof (proj1 lba_chs_round_trip start Hs) as Hx. rewrite Ex in Hx. exists (-1), out, c. split; [done|]. split; [done|]. right. split; [lia|]. split; [|left; lia].
        exists 0. unfold sectors. simpl. rewrite app_nil_r. split; [lia|done]. }
    destruct (first_part start m x Hs Hm0 Ex) as (Hx & Hn & El & Hb). set (n := if _ <? m then _ else m) in *.
    destruct (fdc_read_spec x n c Hx) as (r & bytes & c1 & -> & Hm1 & [(Hr & -> & Hwk)|[-> ->]]).
    + destruct (Z.ltb_spec r 0); [|lia]. exists r, out, c1. split; [done|]. split; [done|]. right. split; [done|]. split; [|by right]. exists 0. unfold sectors. simpl. rewrite app_nil_r. split; [lia|done].
    + simpl (0 <? 0). cbv iota. rewrite u32_id by lia.
      destruct (IH (start + n) (m - n) (out ++ sectors (medium c) (chs_to_lba x) n) c1) as (r & out' & c' & -> & Hm2 & Hres); [lia|lia|lia|lia|].
      exists r, out', c'. split; [done|]. split; [intros k; by rewrite Hm2|]. rewrite El in Hres.
      assert (forall j, 0 <= j -> (out ++ sectors (medium c) start n) ++ sectors (medium c1) (start + n) j = out ++ sectors (medium c) start (n + j)) as Hcat.
      { intros j Hj. rewrite sectors_app by lia. rewrite <- app_assoc. do 2 f_equal. unfold sectors. f_equal. apply list_fmap_ext. intros _ k _. apply Hm1. }
      destruct Hres as [(-> & -> & Hend)|(Hr & (j & Hj & ->) & Hbad)]; [left|right].
      * split; [done|]. rewrite Hcat by lia. split; [do 2 f_equal; lia|lia].
      * split; [done|]. split; [|destruct Hbad; [left; lia|by right]]. exists (n + j). split; [lia|]. apply Hcat. lia.
Qed.

(** [floppy_read] ends.  On success the buffer has the sectors asked for, in order,
    over as many tracks as they take; otherwise a part of them.  It succeeds when the
    sectors exist and no command fails.  The disk does not change. *)
Theorem floppy_read_reads start count c :
  0 <= start -> 0 <= count -> start + count < 2 ^ 32 ->
  exists r out c', floppy_read start count c = Some (r, out, c') /\ same_medium c c' /\
    ((r = count /\ out = sectors (medium c) start count /\ (count = 0 \/ start + count <= 2880)) \/
     (-32 <= r < 0 /\ (exists j, 0 <= j < count /\ out = sectors (medium c) start j) /\ (2880 < start + count \/ ~ working))).
Proof. intros Hs Hc Hb. apply (read_tracks_spec _ count start count [] c); lia. Qed.

Lemma write_tracks_spec fuel count : forall start m bytes c, 0 <= start -> 0 <= m -> start + m < 2 ^ 32 -> (Z.to_nat m < fuel)%nat -> zlen bytes = 512 * m ->
  exists r c', write_tracks fuel count start m bytes c = Some (r, c') /\ (forall k, ~ start <= k < start + m -> medium c' k = medium c k) /\
    ((r = count /\ bytes = sectors (medium c') start m /\ (m = 0 \/ start + m <= 2880)) \/ (-32 <= r < 0 /\ (2880 < start + m \/ ~ working))).
Proof.
  induction fuel as [|fuel IH]; intros start m bytes c Hs Hm Hw Hf Hl; [lia|]. cbn [write_tracks]. destruct (Z.leb_spec m 0) as [Hm0|Hm0].
  - exists count, c. split; [done|]. split; [done|]. left. assert (m = 0) as -> by lia. split; [done|]. split; [|by left]. destruct bytes; [done|unfold zlen in Hl; simpl in Hl; lia].
  - destruct (lba_to_chs start) as [x|] eqn:Ex.
    2:{ pose proof (proj1 lba_chs_round_trip start Hs) as Hx. rewrite Ex in Hx. exists (-1), c. split; [done|]. split; [done|]. right. split; [lia|]. left. lia. }
    destruct (first_part start m x Hs Hm0 Ex) as (Hx & Hn & El & Hb). set (n := if _ <? m then _ else m) in *.
    destruct (fdc_write_spec x n bytes c Hx ltac:(lia)) as (r & c1 & -> & Hr & Hwk & Ho & Hd). rewrite El in Ho, Hd.
    destruct (Z.ltb_spec r 0) as [Hneg|Hneg].
    + exists r, c1. split; [done|]. split; [intros k Hk; apply Ho; lia|]. right. split; [lia|]. right. intros Hwork. specialize (Hwk Hwork). lia.
    + assert (r = 0) as -> by lia. specialize (Hd eq_refl). rewrite u32_id by lia.
      destruct (IH (start + n) (m - n) (drop (Z.to_nat (n * 512)) bytes) c1) as (r & c' & -> & Ho2 & Hres); [lia|lia|lia|lia|unfold zlen in *; rewrite length_drop; lia|].
      exists r, c'. split; [done|]. split; [intros k Hk; rewrite Ho2 by lia; apply Ho; lia|].
      destruct Hres as [(-> & E2 & Hend)|(Hneg' & Hbad)]; [left|right; split; [done|destruct Hbad; [left; lia|by right]]].
      split; [done|]. split; [|lia]. rewrite <- (take_drop (Z.to_nat (n * 512)) bytes), E2. replace m with (n + (m - n)) at 2 by lia. rewrite sectors_app by lia. f_equal.
      apply slices_sectors; [lia|]. intros i Hi. rewrite <- Hd by done. symmetry. apply Ho2. lia.
Qed.

(** [floppy_write] ends, writes exactly the sectors it is asked to and no other, or
    reports an error. *)
Theorem floppy_write_writes start count bytes c :
  0 <= start -> 0 <= count -> start + count < 2 ^ 32 -> zlen bytes = 512 * count ->
  exists r c', floppy_write start count bytes c = Some (r, c') /\ (forall k, ~ start <= k < start + count -> medium c' k = medium c k) /\
    ((r = count /\ bytes = sectors (medium c') start count /\ (count = 0 \/ start + count <= 2880)) \/ (-32 <= r < 0 /\ (2880 < start + count \/ ~ working))).
Proof. intros Hs Hc Hb Hl. apply write_tracks_spec; try done; lia. Qed.

(** * A request for one block *)

Lemma s8_status r : -32 <= r < 0 -> s8 r = r.
Proof. intros. apply s8_id. lia. Qed.

Lemma read_once k c : 0 <= k -> k + 1 < 2 ^ 32 ->
  exists r out c', floppy_read k 1 c = Some (r, out, c') /\ same_medium c c' /\
    ((r = 1 /\ out = medium c k) \/ (-32 <= r < 0 /\ out = [] /\ (2880 <= k \/ ~ working))).
Proof.
  intros Hk Hw. destruct (read_tracks_spec (S (Z.to_nat 1)) 1 k 1 [] c Hk) as (r & out & c1 & E & Hm & Hr); [lia..|]. exists r, out, c1. split; [exact E|]. split; [done|].
  destruct Hr as [(-> & -> & _)|(Hneg & (j & Hj & ->) & Hbad)]; [left|right].
  - by rewrite sectors_one.
  - split; [done|]. assert (j = 0) as -> by lia. split; [done|]. destruct Hbad; [left; lia|by right].
Qed.

Lemma write_once k data c : 0 <= k -> k + 1 < 2 ^ 32 -> length data = 512%nat ->
  exists r c', floppy_write k 1 data c = Some (r, c') /\ (forall k', k' <> k -> medium c' k' = medium c k') /\
    ((r = 1 /\ medium c' k = data) \/ (-32 <= r < 0 /\ (2880 <= k \/ ~ working))).
Proof.
  intros Hk Hw Hl. destruct (write_tracks_spec (S (Z.to_nat 1)) 1 k 1 data c Hk) as (r & c1 & E & Hm & Hr); [lia|lia|lia|unfold zlen; lia|].
  exists r, c1. split; [exact E|]. split; [intros k' Hk'; apply Hm; lia|].
  destruct Hr as [(-> & -> & _)|(Hneg & Hbad)]; [left; by rewrite sectors_one|right]. split; [done|]. destruct Hbad; [left; lia|by right].
Qed.

Lemma serve_read_block i k : forall old st c, 0 <= k -> k + 1 < 2 ^ 32 -> length old = 512%nat ->
  exists st' buf c', serve_read (S i) k 1 old st c = Some (st', buf, c') /\ same_medium c c' /\ length buf = 512%nat /\
    (0 <= st' -> buf = medium c k) /\ (working -> k < 2880 -> st' = 1).
Proof.
  induction i as [|i IH]; intros old st c Hk Hw Hl; (remember (S i) as n eqn:En || idtac); cbn [serve_read];
    destruct (read_once k c Hk Hw) as (r & out & c1 & -> & Hm & [(-> & ->)|(Hneg & -> & Hbad)]); rewrite bind_Some.
  1,3: change (0 <=? s8 1) with true; cbv iota zeta; rewrite medium_length, (drop_ge old), app_nil_r by lia; eexists _, _, c1; split; [done|]; split; [done|]; split; [apply medium_length|]; done.
  all: rewrite s8_status by done; destruct (Z.leb_spec 0 r); [lia|]; simpl ([] ++ _); cbn [length]; rewrite drop_0.
  - exists r, old, c1. split; [done|]. split; [done|]. split; [done|]. split; [lia|]. intros Hwk Hlt. destruct Hbad; [lia|done].
  - subst n. destruct (IH old r c1 Hk Hw Hl) as (st' & buf & c' & -> & Hm2 & Hl2 & Hd & Hwk). exists st', buf, c'. split; [done|].
    split; [intros k'; by rewrite Hm2|]. split; [done|]. split; [|done]. intros Hst. rewrite Hd by done. apply Hm.
Qed.

Lemma serve_write_block i k data : forall st c, 0 <= k -> k + 1 < 2 ^ 32 -> length data = 512%nat ->
  exists st' c', serve_write (S i) k 1 data st c = Some (st', c') /\ (forall k', k' <> k -> medium c' k' = medium c k') /\
    (0 <= st' -> medium c' k = data) /\ (working -> k < 2880 -> st' = 1).
Proof.
  induction i as [|i IH]; intros st c Hk Hw Hl; (remember (S i) as n eqn:En || idtac); cbn [serve_write];
    destruct (write_once k data c Hk Hw Hl) as (r & c1 & -> & Hm & [(-> & Hd)|(Hneg & Hbad)]); rewrite bind_Some.
  1,3: change (0 <=? s8 1) with true; cbv iota; exists 1, c1; by split_and!.
  all: rewrite s8_status by done; destruct (Z.leb_spec 0 r); [lia|].
  - exists r, c1. split; [done|]. split; [done|]. split; [lia|]. intros Hwk Hlt. destruct Hbad; [lia|done].
  - subst n. destruct (IH r c1 Hk Hw Hl) as (st' & c' & -> & Hm2 & Hd & Hwk). exists st', c'. split; [done|].
    split; [|by split]. intros k' Hk'. rewrite Hm2 by done. by apply Hm.
Qed.

(** The drive of the buffer cache; block numbers are unsigned. *)
Definition in_range (k : Z) : bool := (0 <=? k) && (k + 1 <? 2 ^ 32).

Lemma in_range_spec k : in_range k = true -> 0 <= k /\ k + 1 < 2 ^ 32.
Proof. unfold in_range. destruct (Z.leb_spec 0 k), (Z.ltb_spec (k + 1) (2 ^ 32)); simpl; try done; lia. Qed.

#[export] Program Instance floppy_drive : BufCache.Drive C := {|
  BufCache.drive_read k old c := if in_range k then default (-1, old, c) (serve_read 10 k 1 old 0 c) else (-1, old, c);
  BufCache.drive_write k data c := if in_range k then default (-1, c) (serve_write 10 k 1 data 0 c) else (-1, c);
  BufCache.sector := medium |}.
Next Obligation. apply medium_length. Qed.
Next Obligation.
  intros c k old Hl. cbv beta. destruct (in_range k) eqn:E; [|done]. apply in_range_spec in E as [E1 E2].
  by destruct (serve_read_block 9 k old 0 c E1 E2 Hl) as (st & buf & c' & -> & _ & Hb & _).
Qed.
Next Obligation.
  intros c k old Hl. cbv beta. destruct (in_range k) eqn:E; [|simpl; lia]. apply in_range_spec in E as [E1 E2].
  by destruct (serve_read_block 9 k old 0 c E1 E2 Hl) as (st & buf & c' & -> & _ & _ & Hb & _).
Qed.
Next Obligation.
  intros c k old k' Hl. cbv beta. destruct (in_range k) eqn:E; [|done]. apply in_range_spec in E as [E1 E2].
  by destruct (serve_read_block 9 k old 0 c E1 E2 Hl) as (st & buf & c' & -> & Hm & _).
Qed.
Next Obligation.
  intros c k data Hl. cbv beta. destruct (in_range k) eqn:E; [|simpl; lia]. apply in_range_spec in E as [E1 E2].
  by destruct (serve_write_block 9 k data 0 c E1 E2 Hl) as (st & c' & -> & _ & Hd & _).
Qed.
Next Obligation.
  intros c k data k' Hl Hne. cbv beta. destruct (in_range k) eqn:E; [|done]. apply in_range_spec in E as [E1 E2].
  destruct (serve_write_block 9 k data 0 c E1 E2 Hl) as (st & c' & -> & Hm & _). by apply Hm.
Qed.

(** C7: From the file system to the disk.  The controller works; no buffer is in use;
    the block and every block with delayed data are among the 2880 of the disk; and
    [getblk] has a buffer for the block: it is in the cache, or the buffer at the head of
    the free list has no delayed data and is not alone in its hash list ([can_get]; the
    other cases are defects, [delayed_victim_crashes] and [lone_victim_hangs]).  Then a
    block written through the cache and flushed is on the medium, and every other block is
    there as its readers saw it. *)
Theorem block_reaches_disk s c blk data :
  working -> BufCache.cache_inv s c -> BufCache.idle s -> BufCache.delayed_in (fun k => 0 <= k < 2880) s ->
  0 <= blk < 2880 -> BufCache.can_get blk s = true -> length data = 512%nat ->
  exists s1 s2 c2, BufCache.write_block 0 blk data s = Some (BufCache.Done 1, s1) /\
    BufCache.flush_buffers s1 c = Some (BufCache.Done (), s2, c2) /\ BufCache.cache_inv s2 c2 /\
    medium c2 blk = data /\ forall k, k <> blk -> medium c2 k = BufCache.view s c k.
Proof.
  intros Hw Hinv Hid Hdl Hb Hg Hl. assert (BufCache.reliable_writes (D := C) (fun k => 0 <= k < 2880)) as Hrel.
  { intros c0 k d0 Hk Hl0. cbn [BufCache.drive_write floppy_drive]. assert (in_range k = true) as -> by (unfold in_range; destruct (Z.leb_spec 0 k), (Z.ltb_spec (k + 1) (2 ^ 32)); simpl; try done; lia).
    destruct (serve_write_block 9 k d0 0 c0 ltac:(lia) ltac:(lia) Hl0) as (st & c' & -> & _ & _ & Hst). simpl. rewrite Hst; [lia|done|lia]. }
  destruct (BufCache.write_flush _ s c blk data Hrel Hinv Hid Hdl Hb Hg Hl) as (s1 & s2 & c2 & E1 & E2 & _ & Hinv2 & Hv & Hk).
  exists s1, s2, c2. split_and!; try done.
  - change (medium c2 blk) with (BufCache.sector c2 blk). rewrite (proj1 (Hk blk)), Hv. by rewrite Z.eqb_refl.
  - intros k Hne. change (medium c2 k) with (BufCache.sector c2 k). rewrite (proj1 (Hk k)), Hv. by destruct (Z.eqb_spec k blk).
Qed.

End Driver.

(** * The queue of requests *)

Definition MAX_FLOPPY_REQUESTS : nat := 50.

Record floppy_request := mk_req { lba_start : Z; blocks : Z; buffer : Z; next : ptr; operation : Z; status : Z }.
Record requests := mk_rqs { drbuf : gmap loc floppy_request; free_drbuf_head : ptr; req_drbuf_head : ptr }.

Definition set_next (n : ptr) (r : floppy_request) : floppy_request := mk_req (lba_start r) (blocks r) (buffer r) n (operation r) (status r).
Definition set_request (lba n bf o : Z) (r : floppy_request) : floppy_request := mk_req lba n bf (next r) o (status r).
Definition upd_req (b : loc) (f : floppy_request -> floppy_request) (q : requests) : option requests :=
  r ← drbuf q !! b; Some (mk_rqs (<[b := f r]> (drbuf q)) (free_drbuf_head q) (req_drbuf_head q)).
Definition set_free (p : ptr) (q : requests) : requests := mk_rqs (drbuf q) p (req_drbuf_head q).
Definition set_queue (p : ptr) (q : requests) : requests := mk_rqs (drbuf q) (free_drbuf_head q) p.

(** [&drbuf[i]] *)
Definition drb (i : nat) : loc := Pos.of_succ_nat i.
Fixpoint link_bufs (ix : list nat) (p : loc) (q : requests) : option requests :=
  match ix with
  | [] => upd_req p (set_next NULL) q
  | i :: ix => q ← upd_req p (set_next (Some (drb i))) q; link_bufs ix (drb i) q
  end.
Definition initialize_floppy_request_bufs (q : requests) : option requests :=
  link_bufs (seq 1 (MAX_FLOPPY_REQUESTS - 1)) (drb 0) (set_free (Some (drb 0)) (set_queue NULL q)).

(** The [while] that looks for the place of a request. *)
Fixpoint find_place (fuel : nat) (m : gmap loc floppy_request) (lba : Z) (p : loc) : option loc :=
  match fuel with
  | O => None
  | S fuel =>
      r ← m !! p;
      match next r with
      | None => Some p
      | Some n => rn ← m !! n; if lba_start rn <? lba then find_place fuel m lba n else Some p
      end
  end.

(** Until the caller sleeps for the completion.  With no free entry it sleeps before,
    and tries again: [NULL]. *)
Definition enqueue_floppy_request (lba n bf o : Z) (q : requests) : option (ptr * requests) :=
  match free_drbuf_head q with
  | None => Some (NULL, q)
  | Some dreq =>
      r ← drbuf q !! dreq;
      let q := set_free (next r) q in
      q ← upd_req dreq (set_request lba n bf o) q;
      q ← (match req_drbuf_head q with
           | None => upd_req dreq (set_next NULL) (set_queue (Some dreq) q)
           | Some p =>
               rp ← drbuf q !! p;
               if lba <=? lba_start rp then q ← upd_req dreq (set_next (Some p)) q; Some (set_queue (Some dreq) q)
               else
                 p ← find_place (size (drbuf q)) (drbuf q) lba p;
                 rp ← drbuf q !! p;
                 q ← upd_req dreq (set_next (next rp)) q;
                 upd_req p (set_next (Some dreq)) q
           end);
      Some (Some dreq, q)
  end.

Definition free_floppy_request (dr : loc) (q : requests) : option requests :=
  q ← upd_req dr (set_next (free_drbuf_head q)) q; Some (set_free (Some dr) q).

(** [floppy_thread] takes the first request, or sleeps. *)
Definition next_request (q : requests) : option (ptr * requests) :=
  match req_drbuf_head q with
  | None => Some (NULL, q)
  | Some freq =>
      r ← drbuf q !! freq;
      q ← upd_req freq (set_next NULL) (set_queue (next r) q);
      Some (Some freq, q)
  end.

(** A chain of entries from [p] to [e]. *)
Fixpoint lseg (m : gmap loc floppy_request) (p : ptr) (l : list loc) (e : ptr) : Prop :=
  match l with
  | [] => p = e
  | b :: l => p = Some b /\ exists r, m !! b = Some r /\ lseg m (next r) l e
  end.

Definition lba_of (q : requests) (b : loc) : Z := match drbuf q !! b with Some r => lba_start r | None => 0 end.

(** Free entries [Fr], queued requests [Q] in the order of their block numbers. *)
Record queue_ok (q : requests) (Fr Q : list loc) : Prop := {
  q_free : lseg (drbuf q) (free_drbuf_head q) Fr NULL;
  q_queue : lseg (drbuf q) (req_drbuf_head q) Q NULL;
  q_nodup : NoDup (Fr ++ Q);
  q_sorted : StronglySorted Z.le (lba_of q <$> Q) }.

Lemma lseg_app m l1 : forall p l2 e, lseg m p (l1 ++ l2) e <-> exists x, lseg m p l1 x /\ lseg m x l2 e.
Proof.
  induction l1 as [|b l1 IH]; intros p l2 e; simpl; [split; [intros H; by exists p|by intros (x & -> & H)]|]. split.
  - intros (-> & r & Hr & (x & H1 & H2)%IH). exists x. eauto.
  - intros (x & (-> & r & Hr & H1) & H2). split; [done|]. exists r. split; [done|]. apply IH. eauto.
Qed.

Lemma lseg_ext m m' l : forall p e, lseg m p l e -> (forall b, b ∈ l -> next <$> m' !! b = next <$> m !! b) -> lseg m' p l e.
Proof.
  induction l as [|b l IH]; intros p e; simpl; [done|]. intros (-> & r & Hr & Hl) Hext. split; [done|].
  pose proof (Hext b ltac:(by left)) as Hb. rewrite Hr in Hb. apply fmap_Some in Hb as (r' & Hr' & E). exists r'. split; [done|]. rewrite <- E.
  apply IH; [done|]. intros c Hc. apply Hext. by right.
Qed.

Lemma lseg_lookup m p l e b : lseg m p l e -> b ∈ l -> is_Some (m !! b).
Proof.
  revert p. induction l as [|c l IH]; intros p; simpl; [intros _ H; by apply not_elem_of_nil in H|]. intros (-> & r & Hr & Hl) [->|Hb]%elem_of_cons; [by exists r|by eapply IH].
Qed.

Lemma lseg_size m p l e : NoDup l -> lseg m p l e -> (length l <= size m)%nat.
Proof.
  intros Hn Hl. rewrite <- (size_dom (D := gset loc)), <- (size_list_to_set (C := gset loc)) by done. apply subseteq_size.
  intros b Hb%elem_of_list_to_set. apply elem_of_dom. by eapply lseg_lookup.
Qed.

Definition lba_in (m : gmap loc floppy_request) (b : loc) : Z := match m !! b with Some r => lba_start r | None => 0 end.

(** The search stops at the last request with a smaller block number. *)
Lemma find_request_place m lba l : forall p fuel, lseg m (Some p) (p :: l) NULL -> lba_in m p < lba -> (length l < fuel)%nat ->
  exists l1 y l2, find_place fuel m lba p = Some y /\ p :: l = l1 ++ y :: l2 /\ Forall (fun b => lba_in m b < lba) (l1 ++ [y]) /\
    match l2 with [] => True | z :: _ => lba <= lba_in m z end.
Proof.
  induction l as [|z l IH]; intros p fuel (_ & r & Hr & Hl) Hp Hf; (destruct fuel as [|fuel]; [simpl in Hf; lia|]); cbn [find_place]; rewrite Hr, bind_Some; simpl in Hl.
  - rewrite Hl. exists [], p, []. split; [done|]. split; [done|]. split; [by constructor|done].
  - destruct Hl as (E & rz & Hz & Hl). rewrite E, Hz, bind_Some. assert (lba_in m z = lba_start rz) as Ez by (unfold lba_in; by rewrite Hz).
    destruct (Z.ltb_spec (lba_start rz) lba).
    + destruct (IH z fuel) as (l1 & y & l2 & -> & El & HF & Hs); [split; [done|]; by exists rz|lia|simpl in Hf; lia|].
      exists (p :: l1), y, l2. split; [done|]. split; [simpl; by rewrite El|]. split; [by constructor|done].
    + exists [], p, (z :: l). split; [done|]. split; [done|]. split; [by constructor|lia].
Qed.

(** The place of a request in the queue. *)
Fixpoint place (q : requests) (lba : Z) (b : loc) (Q : list loc) : list loc :=
  match Q with
  | [] => [b]
  | c :: Q' => if lba_of q c <? lba then c :: place q lba b Q' else b :: Q
  end.

Lemma place_Permutation q lba b Q : place q lba b Q ≡ₚ b :: Q.
Proof. induction Q as [|c Q IH]; simpl; [done|]. case_ztest; [|done]. rewrite IH. apply Permutation_swap. Qed.

Lemma place_in_order q lba b Q1 Q2 :
  Forall (fun c => lba_of q c < lba) Q1 -> match Q2 with [] => True | z :: _ => lba <= lba_of q z end -> place q lba b (Q1 ++ Q2) = Q1 ++ b :: Q2.
Proof.
  intros HF Hs. induction HF as [|c Q1 Hc HF IH]; simpl.
  - destruct Q2 as [|z Q2]; [done|]. simpl. destruct (Z.ltb_spec (lba_of q z) lba); [lia|done].
  - destruct (Z.ltb_spec (lba_of q c) lba); [by rewrite IH|lia].
Qed.

(** The place of a request in a sorted queue. *)
Lemma place_between q lba b Q :
  StronglySorted Z.le (lba_of q <$> Q) ->
  exists Q1 Q2, Q = Q1 ++ Q2 /\ place q lba b Q = Q1 ++ b :: Q2 /\ Forall (fun c => lba_of q c < lba) Q1 /\ Forall (fun c => lba <= lba_of q c) Q2.
Proof.
  induction Q as [|c Q IH]; intros Hs; [by exists [], []|]. cbn in Hs. apply StronglySorted_inv in Hs as [Hs Hc]. cbn. destruct (Z.ltb_spec (lba_of q c) lba) as [Hlt|Hge].
  - destruct (IH Hs) as (Q1 & Q2 & -> & -> & H1 & H2). exists (c :: Q1), Q2. split_and!; try done. by constructor.
  - exists [], (c :: Q). split_and!; try done. constructor; [done|]. apply Forall_forall. intros y Hy. rewrite Forall_forall in Hc. specialize (Hc (lba_of q y)). pose proof (Hc (list_elem_of_fmap_2 _ _ _ Hy)). lia.
Qed.

Lemma sorted_insert (f : loc -> Z) b Q1 Q2 lba :
  StronglySorted Z.le (f <$> Q1 ++ Q2) -> f b = lba -> Forall (fun c => f c <= lba) Q1 -> match Q2 with [] => True | z :: _ => lba <= f z end ->
  StronglySorted Z.le (f <$> Q1 ++ b :: Q2).
Proof.
  intros Hs Eb HF Hz. induction HF as [|c Q1 Hc HF IH]; simpl in *.
  - constructor; [done|]. rewrite Eb. destruct Q2 as [|z Q2]; [constructor|]. apply StronglySorted_inv in Hs as [_ Hs]. constructor; [done|].
    eapply Forall_impl; [exact Hs|]. simpl. intros. lia.
  - apply StronglySorted_inv in Hs as [Hs Hc']. constructor; [by apply IH|]. rewrite fmap_app in *. apply Forall_app in Hc' as [H1 H2].
    apply Forall_app. split; [done|]. constructor; [lia|done].
Qed.

(** Changes of one entry, in terms of links and block numbers. *)
Lemma upd_req_Some b f q r : drbuf q !! b = Some r -> upd_req b f q = Some (mk_rqs (<[b := f r]> (drbuf q)) (free_drbuf_head q) (req_drbuf_head q)).
Proof. intros E. unfold upd_req. by rewrite E. Qed.

Lemma lseg_insert_ne m b r p l e : lseg m p l e -> (b ∉ l) -> lseg (<[b := r]> m) p l e.
Proof. intros Hl Hb. apply (lseg_ext m); [done|]. intros c Hc. rewrite lookup_insert_ne; [done|]. by intros <-. Qed.

(** The state after the links of the new request are set, wherever it goes. *)
Lemma enqueue_linked q b Fr Q1 Q2 r lba m' hd :
  queue_ok q (b :: Fr) (Q1 ++ Q2) -> drbuf q !! b = Some r ->
  Forall (fun c => lba_of q c < lba) Q1 -> match Q2 with [] => True | z :: _ => lba <= lba_of q z end ->
  lseg m' (next r) Fr NULL -> lseg m' hd (Q1 ++ b :: Q2) NULL ->
  (forall c, c <> b -> lba_in m' c = lba_of q c) -> lba_in m' b = lba ->
  queue_ok (mk_rqs m' (next r) hd) Fr (place q lba b (Q1 ++ Q2)).
Proof.
  intros Hq Hb HF Hz H1 H2 Ho Eb. rewrite place_in_order by done. pose proof (q_nodup _ _ _ Hq) as Hn. split; [done|done| |].
  - simpl in Hn. rewrite app_assoc, <- Permutation_middle, <- app_assoc. done.
  - simpl in Hn. apply NoDup_cons in Hn as [Hbn Hn].
    assert (forall Q : list loc, (forall c, c ∈ Q -> c ∈ Q1 ++ Q2) -> (lba_of (mk_rqs m' (next r) hd) <$> Q) = (lba_of q <$> Q)) as Hext.
    { intros Q HQ. apply list_fmap_ext. intros i c Hc%list_elem_of_lookup_2. apply Ho. intros ->. apply Hbn, elem_of_app. right. auto. }
    apply (sorted_insert _ b Q1 Q2 lba).
    + rewrite Hext by done. apply Hq.
    + exact Eb.
    + eapply Forall_impl; [apply Forall_and; split; [exact HF|apply Forall_forall; intros c Hc; exact Hc]|]. intros c [Hc Hin]. simpl in Hc. 
      change (lba_of (mk_rqs m' (next r) hd) c) with (lba_in m' c). rewrite Ho; [lia|]. intros ->. apply Hbn. rewrite !elem_of_app. tauto.
    + destruct Q2 as [|z Q2]; [done|]. change (lba_of (mk_rqs m' (next r) hd) z) with (lba_in m' z). rewrite Ho; [done|]. intros ->. apply Hbn. rewrite !elem_of_app. right. right. by left.
Qed.

(** The new request linked after [y]. *)
Lemma link_after q b Fr Q1 y Q2 r r1 ry lba hd :
  queue_ok q (b :: Fr) (Q1 ++ y :: Q2) -> drbuf q !! b = Some r -> drbuf q !! y = Some ry -> lba_start r1 = lba -> lseg (<[b := r1]> (drbuf q)) hd Q1 (Some y) ->
  lseg (<[b := r1]> (drbuf q)) (next ry) Q2 NULL -> lseg (<[b := r1]> (drbuf q)) (next r) Fr NULL ->
  Forall (fun c => lba_in (<[b := r1]> (drbuf q)) c < lba) (Q1 ++ [y]) -> match Q2 with [] => True | z :: _ => lba <= lba_in (<[b := r1]> (drbuf q)) z end ->
  queue_ok (mk_rqs (<[y := set_next (Some b) ry]> (<[b := set_next (next ry) r1]> (<[b := r1]> (drbuf q)))) (next r) hd) Fr (place q lba b (Q1 ++ y :: Q2)).
Proof.
  intros Hq Er Ery El Hs1 Hs2 Hfr HF Hz. set (m1 := <[b := r1]> (drbuf q)) in *.
  pose proof (q_nodup _ _ _ Hq) as Hn. simpl in Hn. apply NoDup_cons in Hn as [Hbn Hn]. rewrite !elem_of_app, elem_of_cons in Hbn.
  apply NoDup_app in Hn as (_ & Hdj & Hn). apply NoDup_app in Hn as (_ & Hd & Hn). apply NoDup_cons in Hn as [HyQ2 _].
  assert (y ∉ Q1) as HyQ1 by (intros HH; apply (Hd y HH); by left). assert (y ∉ Fr) as HyF by (intros HH; apply (Hdj y HH), elem_of_app; right; by left).
  assert (forall c, c <> b -> lba_in m1 c = lba_of q c) as El1 by (intros c Hc; unfold lba_in, lba_of, m1; by rewrite lookup_insert_ne).
  assert (y <> b) as Hyb by (intros ->; tauto). replace (Q1 ++ y :: Q2) with ((Q1 ++ [y]) ++ Q2) in * by (by rewrite <- app_assoc).
  apply (enqueue_linked q b Fr (Q1 ++ [y]) Q2 r lba); try done.
  - eapply Forall_impl; [apply Forall_and; split; [exact HF|apply Forall_forall; intros c Hc; exact Hc]|]. simpl. intros c [Hc Hin].
    rewrite <- El1; [done|]. intros ->. apply elem_of_app in Hin as [|Hin%list_elem_of_singleton]; [tauto|done].
  - destruct Q2 as [|z Q2]; [done|]. rewrite <- El1; [done|]. intros ->. apply Hbn. do 3 right. by left.
  - apply lseg_insert_ne; [apply lseg_insert_ne; [done|tauto]|done].
  - rewrite <- app_assoc. apply lseg_app. exists (Some y). split; [apply lseg_insert_ne; [apply lseg_insert_ne; [done|tauto]|done]|]. split; [done|]. eexists. rewrite lookup_insert_eq. split; [done|].
    split; [done|]. eexists. rewrite lookup_insert_ne by done. rewrite lookup_insert_eq. split; [done|]. simpl. apply lseg_insert_ne; [apply lseg_insert_ne; [done|tauto]|done].
  - intros c Hc. unfold lba_in. destruct (decide (c = y)) as [->|Hcy]; [rewrite lookup_insert_eq; unfold lba_of; by rewrite Ery|].
    rewrite !lookup_insert_ne by done. unfold lba_of, m1. by rewrite lookup_insert_ne.
  - unfold lba_in. rewrite lookup_insert_ne by done. by rewrite lookup_insert_eq.
Qed.

(** [enqueue_floppy_request] takes the first free entry, fills it in and puts it in
    its place in the queue, which stays in the order of the block numbers. *)
Lemma enqueue_inserts_spec q b Fr Q lba n bf o :
  queue_ok q (b :: Fr) Q ->
  exists q', enqueue_floppy_request lba n bf o q = Some (Some b, q') /\ queue_ok q' Fr (place q lba b Q) /\ place q lba b Q ≡ₚ b :: Q /\
    (exists r, drbuf q' !! b = Some r /\ lba_start r = lba /\ blocks r = n /\ buffer r = bf /\ operation r = o) /\
    forall c r, c <> b -> drbuf q !! c = Some r -> exists nx, drbuf q' !! c = Some (set_next nx r).
Proof.
  intros Hq. pose proof (q_free _ _ _ Hq) as (Efree & r & Er & Hfr). pose proof (q_nodup _ _ _ Hq) as Hn. pose proof Hn as Hn'. simpl in Hn'. apply NoDup_cons in Hn' as [Hbn Hn'].
  assert ((b ∉ Fr) /\ (b ∉ Q)) as [HbF HbQ] by (rewrite elem_of_app in Hbn; tauto).
  unfold enqueue_floppy_request. rewrite Efree, Er, bind_Some. rewrite (upd_req_Some _ _ _ r) by done. cbn [drbuf set_free free_drbuf_head req_drbuf_head]. rewrite bind_Some.
  set (r1 := set_request lba n bf o r). set (m1 := <[b := r1]> (drbuf q)).
  assert (m1 !! b = Some r1) as Eb1 by apply lookup_insert_eq.
  assert (forall c, c <> b -> m1 !! c = drbuf q !! c) as Eo1 by (intros c Hc; by apply lookup_insert_ne).
  assert (lseg m1 (next r) Fr NULL) as Hfr1 by by apply lseg_insert_ne.
  assert (lseg m1 (req_drbuf_head q) Q NULL) as HQ1 by (apply lseg_insert_ne; [apply Hq|done]).
  assert (forall c, c <> b -> lba_in m1 c = lba_of q c) as El1 by (intros c Hc; unfold lba_in, lba_of; by rewrite Eo1).
  assert (forall nx c, c <> b -> lba_in (<[b := set_next nx r1]> m1) c = lba_of q c) as El2 by (intros nx c Hc; unfold lba_in; rewrite lookup_insert_ne by done; by apply El1).
  assert (forall nx, (exists r0, <[b := set_next nx r1]> m1 !! b = Some r0 /\ lba_start r0 = lba /\ blocks r0 = n /\ buffer r0 = bf /\ operation r0 = o)) as Hself.
  { intros nx. eexists. rewrite lookup_insert_eq. split; [done|]. done. }
  assert (forall nx c r0, c <> b -> drbuf q !! c = Some r0 -> exists nx', <[b := set_next nx r1]> m1 !! c = Some (set_next nx' r0)) as Hoth.
  { intros nx c r0 Hc Hr0. exists (next r0). rewrite lookup_insert_ne, Eo1, Hr0 by done. by destruct r0. }
  destruct Q as [|p Q].
  - pose proof (q_queue _ _ _ Hq) as Eh. simpl in Eh. rewrite Eh. rewrite (upd_req_Some _ _ _ r1) by done. cbn [drbuf set_queue free_drbuf_head req_drbuf_head]. rewrite bind_Some.
    eexists. split; [done|]. split; [|split; [done|split; [apply Hself|apply Hoth]]].
    apply (enqueue_linked q b Fr [] [] r lba); [done|done|done|done|by apply lseg_insert_ne| |by apply El2|unfold lba_in; by rewrite lookup_insert_eq].
    split; [done|]. eexists. split; [apply lookup_insert_eq|done].
  - pose proof (q_queue _ _ _ Hq) as (Eh & rp & Erp & HQ). rewrite Eh. rewrite Eh in HQ1. assert (p <> b) as Hpb by (intros ->; apply HbQ; by left).
    assert ((p ∉ Q) /\ (p ∉ Fr)) as [HpQ HpF].
    { apply NoDup_app in Hn' as (_ & Hd & Hnq). apply NoDup_cons in Hnq as [? _]. split; [done|]. intros HF. apply (Hd p HF). by left. }
    cbn [drbuf req_drbuf_head]. rewrite Eo1, Erp, bind_Some by done. assert (lba_of q p = lba_start rp) as Ep by (unfold lba_of; by rewrite Erp).
    destruct (Z.leb_spec lba (lba_start rp)) as [Hle|Hgt].
    + rewrite (upd_req_Some _ _ _ r1) by done. cbn [drbuf set_queue free_drbuf_head req_drbuf_head]. rewrite !bind_Some. cbn [drbuf set_queue free_drbuf_head req_drbuf_head].
      eexists. split; [done|]. split; [|split; [apply place_Permutation|split; [apply Hself|apply Hoth]]].
      unfold set_queue. cbn [drbuf free_drbuf_head req_drbuf_head]. apply (enqueue_linked q b Fr [] (p :: Q) r lba); [done|done|done|lia|by apply lseg_insert_ne| |by apply El2|unfold lba_in; by rewrite lookup_insert_eq].
      split; [done|]. eexists. split; [apply lookup_insert_eq|]. by apply lseg_insert_ne.
    + pose proof (proj1 (proj2 (proj1 (NoDup_app _ _) Hn'))) as Hdj. apply NoDup_app in Hn' as (HnF & _ & HnQ).
      destruct (find_request_place m1 lba Q p (size m1)) as (Q1 & y & Q2 & -> & EQ & HF & Hz); [done|rewrite El1 by done; lia|pose proof (lseg_size _ _ _ _ HnQ HQ1); simpl in *; lia|].
      rewrite bind_Some. assert (y ∈ p :: Q) as Hy by (rewrite EQ; apply elem_of_app; right; by left). assert (y <> b) as Hyb by (by intros ->).
      rewrite EQ in HQ1. apply lseg_app in HQ1 as (x & Hs1 & (-> & ry & Ery & Hs2)). rewrite Ery, bind_Some.
      rewrite (upd_req_Some _ _ _ r1) by done. cbn [drbuf set_queue free_drbuf_head req_drbuf_head]. rewrite bind_Some.
      rewrite (upd_req_Some _ _ _ ry) by (cbn [drbuf]; by rewrite lookup_insert_ne). cbn [drbuf free_drbuf_head req_drbuf_head]. rewrite bind_Some.
      rewrite EQ in HnQ, HbQ, Hdj |- *. assert ((y ∉ Q1) /\ (y ∉ Q2)) as [HyQ1 HyQ2].
      { apply NoDup_app in HnQ as (_ & Hd & HnQ). apply NoDup_cons in HnQ as [? _]. split; [|done]. intros HH. apply (Hd y HH). by left. }
      assert (y ∉ Fr) as HyF by (intros HH; apply (Hdj y HH), elem_of_app; right; by left). rewrite not_elem_of_app, not_elem_of_cons in HbQ. destruct HbQ as (Hb1 & Hb2 & Hb3).
      eexists. split; [done|]. split; [|split; [apply place_Permutation|split]].
      * apply (link_after q b Fr Q1 y Q2 r r1 ry lba); try done; [by rewrite EQ in Hq|by rewrite Eo1 in Ery].
      * destruct (Hself (next ry)) as (r0 & E0 & Hr0). exists r0. split; [|done]. cbn [drbuf]. by rewrite lookup_insert_ne.
      * intros c r0 Hc Hr0. destruct (decide (c = y)) as [->|Hcy]; [|cbn [drbuf]; rewrite lookup_insert_ne by done; by apply Hoth].
        exists (Some b). cbn [drbuf]. rewrite lookup_insert_eq. rewrite Eo1, Hr0 in Ery by done. by injection Ery as <-.
Qed.

(** The driver's thread takes the request with the smallest block number. *)
Lemma next_request_spec q Fr b Q :
  queue_ok q Fr (b :: Q) -> exists q', next_request q = Some (Some b, q') /\ queue_ok q' Fr Q /\ is_Some (drbuf q' !! b) /\
    (forall c, c ∈ Q -> lba_of q b <= lba_of q c) /\ forall c, lba_of q' c = lba_of q c.
Proof.
  intros [Hf (E & r & Er & HQ) Hn Hs]. unfold next_request. rewrite E, Er, bind_Some. rewrite (upd_req_Some _ _ _ r) by done. cbn [drbuf set_queue free_drbuf_head req_drbuf_head]. rewrite bind_Some.
  pose proof (proj1 (NoDup_app _ _) Hn) as (HnF & Hd & HnQ). apply NoDup_cons in HnQ as [HbQ HnQ]. assert (b ∉ Fr) as HbF by (intros HH; apply (Hd b HH); by left).
  assert (forall c, lba_of (mk_rqs (<[b := set_next NULL r]> (drbuf q)) (free_drbuf_head q) (next r)) c = lba_of q c) as Hl.
  { intros c. unfold lba_of. cbn [drbuf]. destruct (decide (c = b)) as [->|]; [rewrite lookup_insert_eq, Er; done|by rewrite lookup_insert_ne]. }
  apply StronglySorted_inv in Hs as [Hs Hle]. eexists. split; [done|]. split; [split|split; [|split]].
  - by apply lseg_insert_ne.
  - by apply lseg_insert_ne.
  - rewrite <- Permutation_middle in Hn. by apply NoDup_cons in Hn as [_ ?].
  - replace (lba_of _ <$> Q) with (lba_of q <$> Q); [done|]. apply list_fmap_ext. intros i c _. by rewrite Hl.
  - cbn [drbuf]. by rewrite lookup_insert_eq.
  - intros c Hc. rewrite Forall_forall in Hle. apply Hle. by apply list_elem_of_fmap_2.
  - exact Hl.
Qed.

Lemma free_request_spec q Fr Q b :
  queue_ok q Fr Q -> is_Some (drbuf q !! b) -> (b ∉ Fr ++ Q) ->
  exists q', free_floppy_request b q = Some q' /\ queue_ok q' (b :: Fr) Q /\ forall c, lba_of q' c = lba_of q c.
Proof.
  intros [Hf HQ Hn Hs] [r Er] Hb. unfold free_floppy_request. rewrite (upd_req_Some _ _ _ r) by done. cbn [drbuf free_drbuf_head req_drbuf_head]. rewrite bind_Some.
  rewrite elem_of_app in Hb. assert (forall c, lba_of (set_free (Some b) (mk_rqs (<[b := set_next (free_drbuf_head q) r]> (drbuf q)) (free_drbuf_head q) (req_drbuf_head q))) c = lba_of q c) as Hl.
  { intros c. unfold lba_of, set_free. cbn [drbuf]. destruct (decide (c = b)) as [->|]; [rewrite lookup_insert_eq, Er; done|by rewrite lookup_insert_ne]. }
  eexists. split; [done|]. split; [split|exact Hl].
  - split; [done|]. eexists. cbn [set_free drbuf]. rewrite lookup_insert_eq. split; [done|]. apply lseg_insert_ne; [done|tauto].
  - apply lseg_insert_ne; [done|tauto].
  - simpl. constructor; [by rewrite elem_of_app|done].
  - replace (lba_of _ <$> Q) with (lba_of q <$> Q); [done|]. apply list_fmap_ext. intros i c _. by rewrite Hl.
Qed.

(** One process that asks for a block, waits until the thread has served it, and
    asks again, [n] times. *)
Fixpoint ask_again (n : nat) (lba : Z) (q : requests) : option requests :=
  match n with
  | O => Some q
  | S n =>
      '(p, q) ← enqueue_floppy_request lba 1 0 1 q; b ← p;
      '(f, q) ← next_request q; f ← f;
      if bool_decide (f = b) then q ← free_floppy_request b q; ask_again n lba q else None
  end.

(** The queue starves requests for high block numbers: as long as one process asks
    for a lower block again each time it is served, no other request is served. *)
Theorem high_blocks_starve q b Fr Q lba :
  queue_ok q (b :: Fr) Q -> Forall (fun c => lba <= lba_of q c) Q -> forall n, exists q', ask_again n lba q = Some q' /\ queue_ok q' (b :: Fr) Q.
Proof.
  intros Hq HQ n. revert q Hq HQ. induction n as [|n IH]; intros q Hq HQ; [by exists q|]. cbn [ask_again].
  pose proof (q_nodup _ _ _ Hq) as Hn. simpl in Hn. apply NoDup_cons in Hn as [Hb Hn].
  destruct (enqueue_inserts_spec q b Fr Q lba 1 0 1 Hq) as (q1 & -> & Hq1 & _ & (r & Er & Elb & _) & Hsame). rewrite !bind_Some.
  assert (place q lba b Q = b :: Q) as Ep by (destruct Q as [|c Q]; [done|]; simpl; inversion HQ; destruct (Z.ltb_spec (lba_of q c) lba); [lia|done]). rewrite Ep in Hq1.
  destruct (next_request_spec q1 Fr b Q Hq1) as (q2 & -> & Hq2 & Hb2 & _ & El2). rewrite !bind_Some, bool_decide_true by done.
  destruct (free_request_spec q2 Fr Q b Hq2 Hb2 Hb) as (q3 & -> & Hq3 & El3). rewrite bind_Some. apply IH; [done|].
  apply Forall_forall. intros c Hc. rewrite Forall_forall in HQ. specialize (HQ c Hc). assert (c <> b) as Hcb by (intros ->; apply Hb, elem_of_app; by right).
  rewrite El3, El2. destruct (lseg_lookup _ _ _ _ c (q_queue _ _ _ Hq) Hc) as [rc Erc]. destruct (Hsame c rc Hcb Erc) as [nx Enx].
  unfold lba_of in *. rewrite Enx. rewrite Erc in HQ. done.
Qed.

(** * Start of the queue *)

Lemma link_bufs_spec ix : forall p q, NoDup (p :: (drb <$> ix)) -> Forall (fun b => is_Some (drbuf q !! b)) (p :: (drb <$> ix)) ->
  exists m, link_bufs ix p q = Some (mk_rqs m (free_drbuf_head q) (req_drbuf_head q)) /\ lseg m (Some p) (p :: (drb <$> ix)) NULL /\
    forall c, c ∉ p :: (drb <$> ix) -> m !! c = drbuf q !! c.
Proof.
  induction ix as [|i ix IH]; intros p q Hn HF; cbn [link_bufs fmap list_fmap] in *; apply Forall_cons in HF as [[r Er] HF]; rewrite (upd_req_Some _ _ _ r) by done.
  - eexists. split; [done|]. split; [split; [done|]; eexists; rewrite lookup_insert_eq; split; done|]. intros c [Hc _]%not_elem_of_cons. by rewrite lookup_insert_ne.
  - rewrite bind_Some. apply NoDup_cons in Hn as [Hp Hn].
    destruct (IH (drb i) (mk_rqs (<[p := set_next (Some (drb i)) r]> (drbuf q)) (free_drbuf_head q) (req_drbuf_head q)) Hn) as (m & -> & Hl & Ho).
    { eapply Forall_impl; [apply Forall_and; split; [exact HF|apply Forall_forall; intros c Hc; exact Hc]|]. simpl. intros c [Hc Hin]. rewrite lookup_insert_ne; [done|]. by intros ->. }
    exists m. split; [done|]. split.
    + split; [done|]. eexists. rewrite Ho by done. cbn [drbuf]. rewrite lookup_insert_eq. split; [done|]. exact Hl.
    + intros c [Hc Hc2]%not_elem_of_cons. rewrite Ho by done. cbn [drbuf]. by rewrite lookup_insert_ne.
Qed.

Definition all_requests : list loc := drb <$> seq 0 MAX_FLOPPY_REQUESTS.

(** At the start all entries are free. *)
Lemma initialize_requests q :
  (forall b, b ∈ all_requests -> is_Some (drbuf q !! b)) -> exists q', initialize_floppy_request_bufs q = Some q' /\ queue_ok q' all_requests [].
Proof.
  intros Hd. unfold initialize_floppy_request_bufs. assert (NoDup all_requests) as Hn by (apply NoDup_fmap_2; [intros i j; apply SuccNat2Pos.inj|apply NoDup_seq]).
  destruct (link_bufs_spec (seq 1 49) (drb 0) (set_free (Some (drb 0)) (set_queue NULL q))) as (m & E & Hl & _).
  { exact Hn. } { apply Forall_forall. exact Hd. }
  eexists. split; [exact E|]. split; [exact Hl|done|by rewrite app_nil_r|constructor].
Qed.

(** * A controller in memory *)

Record sim := mk_sim { sim_media : Z -> list Z; sim_dma : list Z; sim_track : Z }.
Definition sim_medium (c : sim) (k : Z) : list Z := if bool_decide (length (sim_media c k) = 512%nat) then sim_media c k else replicate 512 0.
Definition sim_transfer (x : Chs) (n : Z) (o : op) (c : sim) : Z * sim :=
  match o with
  | Read => (FDC_OK, mk_sim (sim_media c) (sectors (sim_medium c) (chs_to_lba x) n) (sim_track c))
  | Write => (FDC_OK, mk_sim (fun k => if (chs_to_lba x <=? k) && (k <? chs_to_lba x + n) then take 512 (drop (Z.to_nat (512 * (k - chs_to_lba x))) (sim_dma c)) else sim_media c k) (sim_dma c) (sim_track c))
  end.

Lemma sim_medium_length c k : length (sim_medium c k) = 512%nat.
Proof. unfold sim_medium. case_bool_decide; [done|apply length_replicate]. Qed.

Lemma sectors_slice (f : Z -> list Z) start n i :
  (forall k, length (f k) = 512%nat) -> 0 <= i < n -> take 512 (drop (Z.to_nat (512 * i)) (sectors f start n)) = f (start + i).
Proof.
  intros Hf Hi. replace n with (i + (1 + (n - i - 1))) by lia. rewrite !sectors_app, sectors_one by lia.
  pose proof (length_sectors f start i ltac:(lia) Hf) as Hl. unfold zlen in Hl. rewrite drop_app_length' by lia. rewrite take_app_length' by (by rewrite Hf). done.
Qed.

#[export] Program Instance sim_fdc : Fdc sim := {|
  drivePresent _ := true; specify c := c; fdc_seek t c := (FDC_OK, mk_sim (sim_media c) (sim_dma c) t); no_disk c := (false, c);
  fdc_transfer := sim_transfer; recalibrate c := c; dma := sim_dma; set_dma l c := mk_sim (sim_media c) l (sim_track c); medium := sim_medium; track := sim_track |}.
Next Obligation. apply sim_medium_length. Qed.
Next Obligation. done. Qed.
Next Obligation. done. Qed.
Next Obligation. done. Qed.
Next Obligation. done. Qed.
Next Obligation. intros. by left. Qed.
Next Obligation. done. Qed.
Next Obligation. done. Qed.
Next Obligation. done. Qed.
Next Obligation. intros x n [] c; by left. Qed.
Next Obligation. done. Qed.
Next Obligation. intros x n c i _ _ _ Hi. apply sectors_slice; [apply sim_medium_length|done]. Qed.
Next Obligation. done. Qed.
Next Obligation.
  intros x n c k _ _ Hk. unfold sim_medium, sim_transfer. cbn [snd sim_media]. destruct (Z.leb_spec (chs_to_lba x) k), (Z.ltb_spec k (chs_to_lba x + n)); simpl; try done. lia.
Qed.
Next Obligation.
  intros x n c i _ _ _ Hi Hl. unfold sim_medium, sim_transfer. cbn [snd sim_media]. unfold zlen in Hl.
  destruct (Z.leb_spec (chs_to_lba x) (chs_to_lba x + i)), (Z.ltb_spec (chs_to_lba x + i) (chs_to_lba x + n)); try lia. cbn [andb].
  replace (chs_to_lba x + i - chs_to_lba x) with i by lia. rewrite bool_decide_true; [done|]. rewrite length_take, length_drop. lia.
Qed.

Lemma sim_working : working (C := sim).
Proof. split_and!; try done. intros x n [] c; done. Qed.
Definition ex_sim : sim := mk_sim (fun k => replicate 512 k) [] 0.

(** Twenty sectors from 10 on: over two tracks. *)
Lemma floppy_read_reads_witness :
  exists r out c', floppy_read 10 20 ex_sim = Some (r, out, c') /\ same_medium ex_sim c' /\
    ((r = 20 /\ out = sectors (medium ex_sim) 10 20 /\ (20 = 0 \/ 10 + 20 <= 2880)) \/
     (-32 <= r < 0 /\ (exists j, 0 <= j < 20 /\ out = sectors (medium ex_sim) 10 j) /\ (2880 < 10 + 20 \/ ~ working (C := sim)))).
Proof. apply (floppy_read_reads 10 20 ex_sim); lia. Defined.

Lemma floppy_write_writes_witness :
  exists r c', floppy_write 17 2 (replicate 1024 7) ex_sim = Some (r, c') /\ (forall k, ~ 17 <= k < 17 + 2 -> medium c' k = medium ex_sim k) /\
    ((r = 2 /\ replicate 1024 7 = sectors (medium c') 17 2 /\ (2 = 0 \/ 17 + 2 <= 2880)) \/ (-32 <= r < 0 /\ (2880 < 17 + 2 \/ ~ working (C := sim)))).
Proof. apply (floppy_write_writes 17 2 (replicate 1024 7) ex_sim); [lia|lia|lia|reflexivity]. Defined.

Lemma ex_start_cache (c : sim) : BufCache.cache_inv BufCache.ex_start c /\ BufCache.idle BufCache.ex_start /\ BufCache.delayed_in (fun k => 0 <= k < 2880) BufCache.ex_start.
Proof.
  destruct (BufCache.start_ok BufCache.bss c BufCache.bss_dom BufCache.bss_headers) as (s' & E & Hi & Hid & Hc & _). unfold BufCache.ex_start. rewrite E. cbn [default]. split; [done|]. split; [done|].
  intros b x Ex Hd. by rewrite (Hc b x Ex) in Hd.
Qed.

Lemma block_reaches_disk_witness :
  exists s1 s2 c2, BufCache.write_block 0 100 (replicate 512 7) BufCache.ex_start = Some (BufCache.Done 1, s1) /\
    BufCache.flush_buffers s1 ex_sim = Some (BufCache.Done (), s2, c2) /\ BufCache.cache_inv s2 c2 /\
    medium c2 100 = replicate 512 7 /\ forall k, k <> 100 -> medium c2 k = BufCache.view BufCache.ex_start ex_sim k.
Proof.
  apply (block_reaches_disk BufCache.ex_start ex_sim 100 (replicate 512 7));
    [apply sim_working|apply ex_start_cache|apply (ex_start_cache ex_sim)|apply (ex_start_cache ex_sim)|lia|vm_compute; reflexivity|reflexivity].
Defined.

(** Three requests in the queue and two free entries. *)
Definition ex_req (lba : Z) (nx : ptr) : floppy_request := mk_req lba 1 0 nx 1 0.
Definition ex_queue : requests :=
  mk_rqs {[ drb 0 := ex_req 40 NULL; drb 1 := ex_req 7 (Some (drb 2)); drb 2 := ex_req 9 (Some (drb 0)); drb 3 := ex_req 0 (Some (drb 4)); drb 4 := ex_req 0 NULL ]}
    (Some (drb 3)) (Some (drb 1)).
Lemma ex_queue_ok : queue_ok ex_queue [drb 3; drb 4] [drb 1; drb 2; drb 0].
Proof.
  split.
  - split; [done|]. eexists. split; [reflexivity|]. split; [done|]. eexists. by split.
  - split; [done|]. eexists. split; [reflexivity|]. split; [done|]. eexists. split; [reflexivity|]. split; [done|]. eexists. by split.
  - apply (bool_decide_unpack _). by vm_compute.
  - repeat constructor; vm_compute; discriminate.
Qed.

Lemma high_blocks_starve_witness : forall n, exists q', ask_again n 5 ex_queue = Some q' /\ queue_ok q' [drb 3; drb 4] [drb 1; drb 2; drb 0].
Proof. apply (high_blocks_starve ex_queue (drb 3) [drb 4] [drb 1; drb 2; drb 0] 5); [apply ex_queue_ok|repeat constructor; vm_compute; discriminate]. Defined.

(** C33: [enqueue_floppy_request] with a free entry takes the first one, fills it in and
    puts it in its place: the queue has the requests of before in the order they had and
    the new one, sorted by block number and before those for the same block; no other
    entry is changed but for its link.  The driver's thread then takes a request with the
    smallest block number, and the queue keeps the rest. *)
Theorem enqueue_inserts q b Fr Q lba n bf o :
  queue_ok q (b :: Fr) Q ->
  exists q' Q1 Q2, enqueue_floppy_request lba n bf o q = Some (Some b, q') /\ Q = Q1 ++ Q2 /\ queue_ok q' Fr (Q1 ++ b :: Q2) /\
    Forall (fun c => lba_of q c < lba) Q1 /\ Forall (fun c => lba <= lba_of q c) Q2 /\
    (exists r, drbuf q' !! b = Some r /\ lba_start r = lba /\ blocks r = n /\ buffer r = bf /\ operation r = o) /\
    (forall c r, c <> b -> drbuf q !! c = Some r -> exists nx, drbuf q' !! c = Some (set_next nx r)) /\
    exists f Q' q2, Q1 ++ b :: Q2 = f :: Q' /\ next_request q' = Some (Some f, q2) /\ queue_ok q2 Fr Q' /\ forall c, c ∈ Q' -> lba_of q' f <= lba_of q' c.
Proof.
  intros Hq. destruct (enqueue_inserts_spec q b Fr Q lba n bf o Hq) as (q' & E & Hq' & _ & Hr & Ho).
  destruct (place_between q lba b Q (q_sorted _ _ _ Hq)) as (Q1 & Q2 & -> & Ep & H1 & H2). rewrite Ep in Hq'. exists q', Q1, Q2. do 7 (split; [done|]).
  destruct (Q1 ++ b :: Q2) as [|f Q'] eqn:Ef; [by destruct Q1|]. destruct (next_request_spec q' Fr f Q' Hq') as (q2 & E2 & Hq2 & _ & Hm & _). by exists f, Q', q2.
Qed.

Lemma enqueue_inserts_witness :
  exists q' Q1 Q2, enqueue_floppy_request 8 1 0 1 ex_queue = Some (Some (drb 3), q') /\ [drb 1; drb 2; drb 0] = Q1 ++ Q2 /\ queue_ok q' [drb 4] (Q1 ++ drb 3 :: Q2) /\
    Forall (fun c => lba_of ex_queue c < 8) Q1 /\ Forall (fun c => 8 <= lba_of ex_queue c) Q2 /\
    (exists r, drbuf q' !! drb 3 = Some r /\ lba_start r = 8 /\ blocks r = 1 /\ buffer r = 0 /\ operation r = 1) /\
    (forall c r, c <> drb 3 -> drbuf ex_queue !! c = Some r -> exists nx, drbuf q' !! c = Some (set_next nx r)) /\
    exists f Q' q2, Q1 ++ drb 3 :: Q2 = f :: Q' /\ next_request q' = Some (Some f, q2) /\ queue_ok q2 [drb 4] Q' /\ forall c, c ∈ Q' -> lba_of q' f <= lba_of q' c.
Proof. apply (enqueue_inserts ex_queue (drb 3) [drb 4] [drb 1; drb 2; drb 0] 8 1 0 1). apply ex_queue_ok. Defined.

End Floppy.
