(* ===== verification/FatTable.v ===== *)
(** The file allocation table of the FAT12 file system (base/fat12.c): entries of
    12 bits packed in bytes, the search for a free cluster, chains of clusters.
    The table is read into memory at mount time; every function works on that
    copy. *)
From S2P Require Import Prelude.

Module FatTable.

(** * The table *)

(** [struct fat12_fsdata]; [fat] has [9 * 512] bytes. *)
Record fat12_fsdata := mk_fsdata { spc : Z; nfat : Z; total_sect : Z; no_rootdir_ent : Z; no_sect_fat : Z; fat : list Z }.

Definition set_fat (f : list Z) (fs : fat12_fsdata) : fat12_fsdata :=
  mk_fsdata (spc fs) (nfat fs) (total_sect fs) (no_rootdir_ent fs) (no_sect_fat fs) f.

Definition FAT_BYTES : Z := 9 * 512.

Definition set_clval12 (clno val : Z) (f : list Z) : option (list Z) :=
  let fat_index := cdiv (clno * 3) 2 in
  if cmod clno 2 =? 0 then
    f ← zset f fat_index (u8 (Z.land val 0xff));
    b ← zget f (fat_index + 1);
    zset f (fat_index + 1) (u8 (Z.lor (Z.land b 0xf0) (Z.land (Z.shiftr val 8) 0x000f)))
  else
    b ← zget f fat_index;
    f ← zset f fat_index (u8 (Z.lor (Z.land b 0x0f) (Z.land (Z.shiftl val 4) 0x00f0)));
    zset f (fat_index + 1) (u8 (Z.land (Z.shiftr val 4) 0x00ff)).

Definition get_clval12 (clno : Z) (f : list Z) : option Z :=
  let fat_index := cdiv (clno * 3) 2 in
  val1 ← zget f fat_index;
  val2 ← zget f (fat_index + 1);
  let val := u16 (Z.lor val1 (Z.shiftl val2 8)) in
  Some (if cmod clno 2 =? 0 then Z.land val 0x0fff else Z.land (Z.shiftr val 4) 0x0fff).

(** The result is an [unsigned short]. *)
Definition next_cluster_12 (clno : Z) (f : list Z) : option Z :=
  if clno <? 1 then Some (u16 (clno + 1))
  else if clno =? 1 then Some 0xfff
  else if (2 <=? clno) && (clno <=? 0xff6) then get_clval12 clno f
  else Some 0.

(** The step that the callers spell out: the blocks of the root directory have
    the cluster numbers -12 to 1. *)
Definition step_cluster (c : Z) (f : list Z) : option Z :=
  if c <? 1 then Some (c + 1) else if c =? 1 then Some 0xfff else next_cluster_12 c f.

(** The loop of [alloc_block12] from cluster [i] on. *)
Fixpoint alloc_loop (n : nat) (i : Z) (f : list Z) : option (Z * list Z) :=
  match n with
  | O => Some (0, f)
  | S n =>
      clval ← get_clval12 i f;
      if clval =? 0 then f ← set_clval12 i 0x0fff f; Some (i, f) else alloc_loop n (i + 1) f
  end.

Definition alloc_block12 (fs : fat12_fsdata) : option (Z * fat12_fsdata) :=
  if spc fs =? 0 then None else
  '(blk, f) ← alloc_loop (Z.to_nat (cdiv (total_sect fs) (spc fs) - 2)) 2 (fat fs);
  Some (blk, set_fat f fs).

Definition free_block12 (blk : Z) (fs : fat12_fsdata) : option fat12_fsdata :=
  f ← set_clval12 blk 0 (fat fs); Some (set_fat f fs).

(** [free_cluster_chain]. *)
Fixpoint free_chain (fuel : nat) (clno : Z) (f : list Z) : option (list Z) :=
  match fuel with
  | O => None
  | S fuel =>
      if 0xff8 <=? clno then Some f else
      next_clno ← next_cluster_12 clno f;
      f ← set_clval12 clno 0 f;
      free_chain fuel (u16 next_clno) f
  end.

Definition free_cluster_chain (clno : Z) (fs : fat12_fsdata) : option fat12_fsdata :=
  f ← free_chain 4096 clno (fat fs); Some (set_fat f fs).

(** The [while] of [delete_cluster_from_chain]: the cluster before [cl]. *)
Fixpoint find_prev_cluster (fuel : nat) (cl prev_cl cur_cl : Z) (f : list Z) : option Z :=
  match fuel with
  | O => None
  | S fuel => if cur_cl =? cl then Some prev_cl else nx ← next_cluster_12 cur_cl f; find_prev_cluster fuel cl cur_cl nx f
  end.

(** [start] is the first cluster of the directory. *)
Definition delete_cluster_from_chain (start cl : Z) (fs : fat12_fsdata) : option fat12_fsdata :=
  if cl <? 2 then Some fs else
  let prev_cl := u16 start in
  cur_cl ← next_cluster_12 prev_cl (fat fs);
  prev_cl ← find_prev_cluster 4096 cl prev_cl cur_cl (fat fs);
  nx ← next_cluster_12 cl (fat fs);
  f ← set_clval12 prev_cl nx (fat fs);
  f ← set_clval12 cl 0 f;
  Some (set_fat f fs).

(** The counts of [fat12_vfs_statvfs]: free, bad and used clusters. *)
Fixpoint stat_loop (n : nat) (i : Z) (f : list Z) (free bad used : Z) : option (Z * Z * Z) :=
  match n with
  | O => Some (free, bad, used)
  | S n =>
      clval ← get_clval12 i f;
      if clval =? 0 then stat_loop n (i + 1) f (s32 (free + 1)) bad used
      else if clval =? 0xff7 then stat_loop n (i + 1) f free (s32 (bad + 1)) used
      else stat_loop n (i + 1) f free bad (s32 (used + 1))
  end.

(** [struct vfsinfo] without the fields that are constants. *)
Record vfsinfo := mk_info { fs_totalspace : Z; fs_resspace : Z; fs_badspace : Z; fs_usedspace : Z }.

Definition fat12_vfs_statvfs (fs : fat12_fsdata) : option vfsinfo :=
  '(_, bad, used) ← stat_loop (Z.to_nat (total_sect fs - 33 + 2 - 2)) 2 (fat fs) 0 0 0;
  Some (mk_info (total_sect fs) (s32 (1 + nfat fs * no_sect_fat fs + cdiv (no_rootdir_ent fs) 16)) bad used).

(** * Entries as numbers *)

Definition fat_ok (f : list Z) : Prop := zlen f = FAT_BYTES /\ Forall (fun b => 0 <= b < 256) f.

(** The entry of a cluster. *)
Definition clval (f : list Z) (c : Z) : Z := default 0 (get_clval12 c f).

(** Clusters whose entry is in the table. *)
Definition NCLUSTERS : Z := 3072.

(** Facts about bytes by going through them. *)
Lemma byte_cases (P : Z -> bool) : forallb P (seqZ 0 256) = true -> forall b, 0 <= b < 256 -> P b = true.
Proof. rewrite forallb_forall. intros H b Hb. apply H. apply list_elem_of_In, elem_of_seqZ. lia. Qed.

Lemma land_f0 b : 0 <= b < 256 -> Z.land b 0xf0 = 16 * (b / 16).
Proof. intros Hb. apply Z.eqb_eq. revert b Hb. apply byte_cases. by vm_compute. Qed.

Lemma lor_high a b k : 0 <= k -> 0 <= a < 2 ^ k -> Z.lor a (b * 2 ^ k) = a + b * 2 ^ k.
Proof.
  intros Hk Ha. rewrite <- Z.add_lor_land. assert (Z.land a (b * 2 ^ k) = 0) as ->; [|lia].
  apply Z.bits_inj'. intros n Hn. rewrite Z.land_spec, Z.bits_0. destruct (Z.lt_ge_cases n k).
  - rewrite Z.mul_pow2_bits_low by done. apply andb_false_r.
  - assert (Z.testbit a n = false) as ->; [|done]. destruct (Z.eq_dec a 0) as [->|?]; [apply Z.bits_0|].
    apply Z.bits_above_log2; [lia|]. apply Z.log2_lt_pow2; [lia|]. eapply Z.lt_le_trans; [apply Ha|]. by apply Z.pow_le_mono_r.
Qed.

(** Words of 12 bits and the three bytes that hold two of them. *)
Lemma get_pair b0 b1 : 0 <= b0 < 256 -> 0 <= b1 < 256 ->
  Z.land (u16 (Z.lor b0 (Z.shiftl b1 8))) 0xfff = b0 + 256 * (b1 mod 16) /\
  Z.land (Z.shiftr (u16 (Z.lor b0 (Z.shiftl b1 8))) 4) 0xfff = b0 / 16 + 16 * b1.
Proof.
  intros H0 H1. rewrite Z.shiftl_mul_pow2 by lia. rewrite lor_high by lia. unfold u16. rewrite (Z.mod_small (b0 + _)) by lia.
  rewrite Z.shiftr_div_pow2 by lia. change 0xfff with (Z.ones 12). rewrite !Z.land_ones by lia. Z.div_mod_to_equations. lia.
Qed.

Lemma put_even v b : 0 <= v < 2 ^ 16 -> 0 <= b < 256 ->
  u8 (Z.land v 0xff) = v mod 256 /\ u8 (Z.lor (Z.land b 0xf0) (Z.land (Z.shiftr v 8) 0xf)) = 16 * (b / 16) + v / 256 mod 16.
Proof.
  intros Hv Hb. rewrite land_f0 by done. rewrite Z.shiftr_div_pow2 by lia. change 0xff with (Z.ones 8). change 0xf with (Z.ones 4). rewrite !Z.land_ones by lia.
  rewrite Z.lor_comm. replace (16 * (b / 16)) with (b / 16 * 2 ^ 4) by lia. rewrite lor_high by (Z.div_mod_to_equations; lia).
  unfold u8. Z.div_mod_to_equations. lia.
Qed.

Lemma put_odd v b : 0 <= v < 2 ^ 16 -> 0 <= b < 256 ->
  u8 (Z.lor (Z.land b 0x0f) (Z.land (Z.shiftl v 4) 0xf0)) = b mod 16 + 16 * (v mod 16) /\ u8 (Z.land (Z.shiftr v 4) 0xff) = v / 16 mod 256.
Proof.
  intros Hv Hb. rewrite Z.shiftr_div_pow2, Z.shiftl_mul_pow2 by lia.
  assert (Z.land (v * 2 ^ 4) 0xf0 = v mod 16 * 2 ^ 4) as ->.
  { replace (Z.land (v * 2 ^ 4) 0xf0) with (Z.land (Z.land (v * 2 ^ 4) 0xff) 0xf0) by (by rewrite <- Z.land_assoc).
    change 0xff with (Z.ones 8). rewrite Z.land_ones by lia. rewrite land_f0 by (Z.div_mod_to_equations; lia). Z.div_mod_to_equations. lia. }
  change 0xff with (Z.ones 8). change 0x0f with (Z.ones 4). rewrite !Z.land_ones by lia. rewrite lor_high by (Z.div_mod_to_equations; lia).
  unfold u8. Z.div_mod_to_equations. lia.
Qed.

Definition byte (f : list Z) (i : Z) : Z := default 0 (zget f i).

Lemma byte_zget f i : fat_ok f -> 0 <= i < FAT_BYTES -> zget f i = Some (byte f i) /\ 0 <= byte f i < 256.
Proof.
  intros [Hl Hf] Hi. destruct (zget_is_Some f i) as [b Hb]; [lia|]. unfold byte. rewrite Hb. split; [done|]. simpl.
  unfold zget in Hb. destruct (i <? 0); [done|]. rewrite Forall_lookup in Hf. by eapply Hf.
Qed.

Lemma byte_zset f i b : fat_ok f -> 0 <= i < FAT_BYTES -> 0 <= b < 256 ->
  exists f', zset f i b = Some f' /\ fat_ok f' /\ forall j, byte f' j = if j =? i then b else byte f j.
Proof.
  intros [Hl Hf] Hi Hb. pose proof (zset_Some f i b ltac:(lia)) as Hs. eexists. split; [exact Hs|]. split.
  - split; [by rewrite (zlen_zset _ _ _ _ Hs)|]. apply Forall_insert; [done|done].
  - intros j. unfold byte. destruct (Z.eqb_spec j i) as [->|Hne]; [by rewrite (zget_zset_eq _ _ _ _ Hs)|by rewrite (zget_zset_ne _ _ _ j _ Hs)].
Qed.

(** Where the entry of cluster [c] is, and what it says. *)
Definition idx (c : Z) : Z := 3 * (c / 2) + c mod 2.
Definition entry (f : list Z) (c : Z) : Z :=
  if c mod 2 =? 0 then byte f (idx c) + 256 * (byte f (idx c + 1) mod 16) else byte f (idx c) / 16 + 16 * byte f (idx c + 1).

Lemma idx_eq c : 0 <= c -> cdiv (c * 3) 2 = idx c /\ cmod c 2 = c mod 2.
Proof. intros Hc. unfold cdiv, cmod, idx. rewrite Z.quot_div_nonneg, Z.rem_mod_nonneg by lia. split; [|done]. Z.div_mod_to_equations. lia. Qed.

Lemma idx_range c : 0 <= c < NCLUSTERS -> 0 <= idx c /\ idx c + 1 < FAT_BYTES.
Proof. unfold idx, NCLUSTERS, FAT_BYTES. intros Hc. Z.div_mod_to_equations. lia. Qed.

Lemma get_entry f c : fat_ok f -> 0 <= c < NCLUSTERS -> get_clval12 c f = Some (entry f c) /\ 0 <= entry f c < 4096.
Proof.
  intros Hf Hc. pose proof (idx_range c Hc) as Hi. destruct (idx_eq c ltac:(lia)) as [E1 E2]. unfold get_clval12, entry. rewrite E1, E2.
  destruct (byte_zget f (idx c) Hf) as [-> B0]; [lia|]. destruct (byte_zget f (idx c + 1) Hf) as [-> B1]; [lia|]. cbn [mbind option_bind].
  destruct (get_pair _ _ B0 B1) as [-> ->]. case_ztest; (split; [done|]; Z.div_mod_to_equations; lia).
Qed.

Lemma clval_entry f c : fat_ok f -> 0 <= c < NCLUSTERS -> clval f c = entry f c.
Proof. intros Hf Hc. unfold clval. by destruct (get_entry f c Hf Hc) as [-> _]. Qed.

Lemma get_clval12_some f c : fat_ok f -> 0 <= c < NCLUSTERS -> get_clval12 c f = Some (clval f c) /\ 0 <= clval f c < 4096.
Proof. intros Hf Hc. rewrite clval_entry by done. by apply get_entry. Qed.

Lemma idx_even h : idx (2 * h) = 3 * h /\ (2 * h) mod 2 = 0.
Proof. unfold idx. Z.div_mod_to_equations. lia. Qed.
Lemma idx_odd h : idx (2 * h + 1) = 3 * h + 1 /\ (2 * h + 1) mod 2 = 1.
Proof. unfold idx. Z.div_mod_to_equations. lia. Qed.

Lemma entry_even f h : entry f (2 * h) = byte f (3 * h) + 256 * (byte f (3 * h + 1) mod 16).
Proof. unfold entry. by destruct (idx_even h) as [-> ->]. Qed.
Lemma entry_odd f h : entry f (2 * h + 1) = byte f (3 * h + 1) / 16 + 16 * byte f (3 * h + 2).
Proof. unfold entry. destruct (idx_odd h) as [-> ->]. simpl. by replace (3 * h + 1 + 1) with (3 * h + 2) by lia. Qed.

Lemma even_or_odd c : (exists h, c = 2 * h) \/ (exists h, c = 2 * h + 1).
Proof. assert (c mod 2 = 0 \/ c mod 2 = 1) as [E|E] by (Z.div_mod_to_equations; lia); [left|right]; exists (c / 2); Z.div_mod_to_equations; lia. Qed.

Lemma set_entry f c v : fat_ok f -> 0 <= c < NCLUSTERS -> 0 <= v < 2 ^ 16 ->
  exists f', set_clval12 c v f = Some f' /\ fat_ok f' /\
    forall c', 0 <= c' < NCLUSTERS -> entry f' c' = if c' =? c then v mod 4096 else entry f c'.
Proof.
  intros Hf Hc Hv. pose proof (idx_range c Hc) as Hi. destruct (idx_eq c ltac:(lia)) as [E1 E2]. unfold set_clval12. rewrite E1, E2.
  destruct (byte_zget f (idx c) Hf) as [G0 B0]; [lia|]. destruct (byte_zget f (idx c + 1) Hf) as [G1 B1]; [lia|].
  destruct (put_even v (byte f (idx c + 1)) Hv B1) as [Ee1 Ee2], (put_odd v (byte f (idx c)) Hv B0) as [Eo1 Eo2].
  destruct (even_or_odd c) as [[h ->]|[h ->]].
  - destruct (idx_even h) as [Ei Em]. rewrite Ei, Em in *. simpl (0 =? 0). cbv iota.
    rewrite Ee1. destruct (byte_zset f (3 * h) (v mod 256) Hf) as (f1 & -> & Hf1 & Hb1); [lia|Z.div_mod_to_equations; lia|]. cbn [mbind option_bind].
    destruct (byte_zget f1 (3 * h + 1) Hf1) as [-> _]; [lia|]. cbn [mbind option_bind]. rewrite Hb1. destruct (Z.eqb_spec (3 * h + 1) (3 * h)); [lia|]. rewrite Ee2.
    destruct (byte_zset f1 (3 * h + 1) (16 * (byte f (3 * h + 1) / 16) + v / 256 mod 16) Hf1) as (f2 & -> & Hf2 & Hb2); [lia|Z.div_mod_to_equations; lia|].
    exists f2. split; [done|]. split; [done|]. intros c' Hc'. destruct (even_or_odd c') as [[h' ->]|[h' ->]]; rewrite ?entry_even, ?entry_odd, !Hb2, !Hb1;
    repeat match goal with |- context [?a =? ?b] => destruct (Z.eqb_spec a b); try lia end; try (assert (h' = h) as -> by lia); Z.div_mod_to_equations; lia.
  - destruct (idx_odd h) as [Ei Em]. rewrite Ei, Em in *. simpl (1 =? 0). cbv iota. rewrite G0. cbn [mbind option_bind]. rewrite Eo1.
    destruct (byte_zset f (3 * h + 1) (byte f (3 * h + 1) mod 16 + 16 * (v mod 16)) Hf) as (f1 & -> & Hf1 & Hb1); [lia|Z.div_mod_to_equations; lia|]. cbn [mbind option_bind].
    rewrite Eo2. destruct (byte_zset f1 (3 * h + 1 + 1) (v / 16 mod 256) Hf1) as (f2 & -> & Hf2 & Hb2); [lia|Z.div_mod_to_equations; lia|].
    exists f2. split; [done|]. split; [done|]. intros c' Hc'. destruct (even_or_odd c') as [[h' ->]|[h' ->]]; rewrite ?entry_even, ?entry_odd, !Hb2, !Hb1;
    repeat match goal with |- context [?a =? ?b] => destruct (Z.eqb_spec a b); try lia end; try (assert (h' = h) as -> by lia); Z.div_mod_to_equations; lia.
Qed.

Lemma set_clval12_some f c v : fat_ok f -> 0 <= c < NCLUSTERS -> 0 <= v < 2 ^ 16 ->
  exists f', set_clval12 c v f = Some f' /\ fat_ok f' /\
    forall c', 0 <= c' < NCLUSTERS -> clval f' c' = if c' =? c then v mod 4096 else clval f c'.
Proof.
  intros Hf Hc Hv. destruct (set_entry f c v Hf Hc Hv) as (f' & E & Hf' & He). exists f'. split; [done|]. split; [done|].
  intros c' Hc'. rewrite !clval_entry by done. by apply He.
Qed.

(** Entries of 12 bits share bytes without disturbing each other: writing the
    entry of a cluster and reading any entry of the table gives the low 12 bits
    written for that cluster, and for every other cluster what was there. *)
Theorem clval12_set_get f c v c' :
  fat_ok f -> 0 <= c < NCLUSTERS -> 0 <= c' < NCLUSTERS -> 0 <= v < 2 ^ 16 ->
  exists f', set_clval12 c v f = Some f' /\ fat_ok f' /\ get_clval12 c' f' = if c' =? c then Some (v mod 4096) else get_clval12 c' f.
Proof.
  intros Hf Hc Hc' Hv. destruct (set_entry f c v Hf Hc Hv) as (f' & E & Hf' & He). exists f'. split; [done|]. split; [done|].
  destruct (get_entry f' c' Hf' Hc') as [-> _]. destruct (get_entry f c' Hf Hc') as [-> _]. rewrite He by done. by case_ztest.
Qed.

(** * Free clusters *)

(** Cluster [c] became [v], the rest of the table is the same. *)
Definition changed (f f' : list Z) (c v : Z) : Prop :=
  fat_ok f' /\ forall c', 0 <= c' < NCLUSTERS -> clval f' c' = if c' =? c then v else clval f c'.

Lemma alloc_loop_spec n i f :
  fat_ok f -> 0 < i -> i + Z.of_nat n <= NCLUSTERS ->
  exists r f', alloc_loop n i f = Some (r, f') /\
    ((r = 0 /\ f' = f /\ forall c, i <= c < i + Z.of_nat n -> clval f c <> 0) \/
     (i <= r < i + Z.of_nat n /\ clval f r = 0 /\ (forall c, i <= c < r -> clval f c <> 0) /\ changed f f' r 0xfff)).
Proof.
  revert i. induction n as [|n IH]; intros i Hf Hi Hn.
  - exists 0, f. split; [done|]. left. split; [done|]. split; [done|]. lia.
  - simpl alloc_loop. destruct (get_clval12_some f i Hf) as [-> _]; [lia|]. cbn [mbind option_bind]. destruct (Z.eqb_spec (clval f i) 0) as [E|E].
    + destruct (set_clval12_some f i 0xfff Hf) as (f' & -> & Hf' & Hv); [lia|lia|]. cbn [mbind option_bind]. exists i, f'. split; [done|]. right.
      split; [lia|]. split; [done|]. split; [lia|]. by split.
    + destruct (IH (i + 1)) as (r & f' & -> & Hr); [done|lia|lia|]. exists r, f'. split; [done|]. destruct Hr as [(-> & -> & Hr)|(Hr & Hz & Hlt & Hch)].
      * left. split; [done|]. split; [done|]. intros c Hc. destruct (Z.eq_dec c i) as [->|?]; [done|]. apply Hr. lia.
      * right. split; [lia|]. split; [done|]. split; [|done]. intros c Hc. destruct (Z.eq_dec c i) as [->|?]; [done|]. apply Hlt. lia.
Qed.

(** The geometry: the clusters that [alloc_block12] looks at have entries. *)
Definition geometry_ok (fs : fat12_fsdata) : Prop := 0 < spc fs /\ 0 <= total_sect fs /\ total_sect fs / spc fs <= NCLUSTERS.

Lemma alloc_block12_spec fs :
  fat_ok (fat fs) -> geometry_ok fs ->
  exists r f', alloc_block12 fs = Some (r, set_fat f' fs) /\
    ((r = 0 /\ f' = fat fs /\ forall c, 2 <= c < total_sect fs / spc fs -> clval (fat fs) c <> 0) \/
     (2 <= r < total_sect fs / spc fs /\ clval (fat fs) r = 0 /\ (forall c, 2 <= c < r -> clval (fat fs) c <> 0) /\ changed (fat fs) f' r 0xfff)).
Proof.
  intros Hf (Hs & Ht & Hn). unfold alloc_block12. destruct (Z.eqb_spec (spc fs) 0); [lia|]. unfold cdiv. rewrite Z.quot_div_nonneg by lia.
  pose proof (Z.div_pos (total_sect fs) (spc fs) Ht Hs) as Hd.
  destruct (Z.le_gt_cases (total_sect fs / spc fs) 2) as [Hsmall|Hbig].
  - replace (Z.to_nat (total_sect fs / spc fs - 2)) with 0%nat by lia. simpl. exists 0, (fat fs). split; [done|]. left. split; [done|]. split; [done|]. lia.
  - destruct (alloc_loop_spec (Z.to_nat (total_sect fs / spc fs - 2)) 2 (fat fs) Hf) as (r & f' & -> & Hr); [lia|lia|]. cbn [mbind option_bind].
    exists r, f'. split; [done|]. rewrite Z2Nat.id in Hr by lia. replace (2 + (total_sect fs / spc fs - 2)) with (total_sect fs / spc fs) in Hr by lia. done.
Qed.

(** [alloc_block12] takes the first free cluster: it returns the least cluster
    from 2 on whose entry is zero, marks it as the end of a chain and changes no other
    entry; it returns 0, and changes nothing, exactly when no entry is zero. *)
Theorem alloc_block12_first_free fs :
  fat_ok (fat fs) -> geometry_ok fs ->
  exists r f', alloc_block12 fs = Some (r, set_fat f' fs) /\
    ((r = 0 /\ f' = fat fs /\ forall c, 2 <= c < total_sect fs / spc fs -> clval (fat fs) c <> 0) \/
     (2 <= r < total_sect fs / spc fs /\ clval (fat fs) r = 0 /\ (forall c, 2 <= c < r -> clval (fat fs) c <> 0) /\ changed (fat fs) f' r 0xfff)).
Proof. apply alloc_block12_spec. Qed.

(** * Chains *)

Fixpoint chain (f : list Z) (c : Z) (l : list Z) : Prop :=
  match l with
  | [] => 0xff8 <= c
  | x :: l' => c = x /\ 2 <= x < NCLUSTERS /\ chain f (clval f x) l'
  end.

Lemma chain_frame f f' c l : chain f c l -> (forall x, x ∈ l -> clval f' x = clval f x) -> chain f' c l.
Proof.
  revert c. induction l as [|x l IH]; intros c; simpl; [done|]. intros (-> & Hx & Hc) Hs. split; [done|]. split; [done|].
  rewrite Hs by by left. apply IH; [done|]. intros y Hy. apply Hs. by right.
Qed.

Lemma chain_det f c l1 l2 : chain f c l1 -> chain f c l2 -> l1 = l2.
Proof.
  revert c l2. induction l1 as [|x l1 IH]; intros c [|y l2]; simpl; unfold NCLUSTERS in *; [done|lia|lia|].
  intros (-> & _ & H1) (<- & _ & H2). f_equal. by eapply IH.
Qed.

Lemma chain_app f c l1 x l2 : chain f c (l1 ++ x :: l2) -> chain f x (x :: l2).
Proof. revert c. induction l1 as [|y l1 IH]; intros c; simpl; [intros (-> & ?); done|]. intros (_ & _ & H). by eapply IH. Qed.

Lemma chain_nodup f c l : chain f c l -> NoDup l.
Proof.
  revert c. induction l as [|x l IH]; intros c Hc; [constructor|]. pose proof Hc as (-> & Hx & Hl). constructor; [|by eapply IH].
  intros (l1 & l2 & ->)%list_elem_of_split. pose proof (chain_app _ _ (x :: l1) _ _ Hc) as H2. pose proof (chain_det _ _ _ _ Hc H2) as E.
  apply (f_equal length) in E. simpl in E. rewrite length_app in E. simpl in E. lia.
Qed.

Lemma chain_range f c l x : chain f c l -> x ∈ l -> 2 <= x < NCLUSTERS.
Proof. revert c. induction l as [|y l IH]; intros c; [by intros _ ?%elem_of_nil|]. intros (_ & Hy & Hc) [->|Hx]%elem_of_cons; [done|by eapply IH]. Qed.

Lemma chain_length f c l : chain f c l -> (length l <= 3070)%nat.
Proof.
  intros Hc. replace 3070%nat with (length (seqZ 2 (NCLUSTERS - 2))) by (rewrite length_seqZ; done).
  apply submseteq_length, NoDup_submseteq; [by eapply chain_nodup|]. intros x Hx. apply elem_of_seqZ. pose proof (chain_range _ _ _ _ Hc Hx). lia.
Qed.

Lemma next_cluster_chain f x : fat_ok f -> 2 <= x < NCLUSTERS -> next_cluster_12 x f = Some (clval f x) /\ 0 <= clval f x < 4096.
Proof.
  intros Hf Hx. unfold next_cluster_12. destruct (Z.ltb_spec x 1); [lia|]. destruct (Z.eqb_spec x 1); [lia|]. unfold NCLUSTERS in Hx.
  destruct (Z.leb_spec 2 x); [|lia]. destruct (Z.leb_spec x 0xff6); [|lia]. simpl. apply get_clval12_some; [done|]. unfold NCLUSTERS. lia.
Qed.

Lemma free_chain_spec fuel c f l :
  fat_ok f -> chain f c l -> (length l < fuel)%nat ->
  exists f', free_chain fuel c f = Some f' /\ fat_ok f' /\ forall c', 0 <= c' < NCLUSTERS -> clval f' c' = if decide (c' ∈ l) then 0 else clval f c'.
Proof.
  revert fuel c f. induction l as [|x l IH]; intros fuel c f Hf Hc Hfu; (destruct fuel as [|fuel]; [simpl in Hfu; lia|]).
  - simpl in Hc. cbn [free_chain]. destruct (Z.leb_spec 0xff8 c); [|lia]. exists f. split; [done|]. split; [done|]. intros c' _. by rewrite decide_False by by intros ?%elem_of_nil.
  - pose proof (chain_nodup _ _ _ Hc) as Hnd. apply NoDup_cons in Hnd as [Hxl _]. destruct Hc as (-> & Hx & Hc). cbn [free_chain].
    unfold NCLUSTERS in Hx. destruct (Z.leb_spec 0xff8 x); [lia|]. fold NCLUSTERS in Hx.
    destruct (next_cluster_chain f x Hf Hx) as [-> Hv]. cbn [mbind option_bind]. destruct (set_clval12_some f x 0 Hf) as (f1 & -> & Hf1 & Hv1); [lia|lia|]. cbn [mbind option_bind].
    unfold u16. rewrite Z.mod_small by lia. destruct (IH fuel (clval f x) f1 Hf1) as (f' & -> & Hf' & Hv').
    { apply (chain_frame f); [done|]. intros y Hy. pose proof (chain_range _ _ _ _ Hc Hy). rewrite Hv1 by lia. destruct (Z.eqb_spec y x) as [->|?]; done. }
    { simpl in Hfu. lia. }
    exists f'. split; [done|]. split; [done|]. intros c' Hc'. rewrite Hv', Hv1 by done. destruct (decide (c' ∈ l)) as [Hin|Hin].
    + by rewrite decide_True by by right.
    + destruct (Z.eqb_spec c' x) as [->|Hne]; [by rewrite decide_True by by left|]. rewrite decide_False; [done|]. by intros [?|?]%elem_of_cons.
Qed.

Lemma free_cluster_chain_spec fs c l :
  fat_ok (fat fs) -> chain (fat fs) c l ->
  exists f', free_cluster_chain c fs = Some (set_fat f' fs) /\ fat_ok f' /\
    forall c', 0 <= c' < NCLUSTERS -> clval f' c' = if decide (c' ∈ l) then 0 else clval (fat fs) c'.
Proof.
  intros Hf Hc. pose proof (chain_length _ _ _ Hc). destruct (free_chain_spec 4096 c (fat fs) l Hf Hc) as (f' & E & H'); [lia|].
  exists f'. split; [|done]. unfold free_cluster_chain. by rewrite E.
Qed.

(** Freeing a chain frees that chain: [free_cluster_chain] at the first cluster of
    a chain sets the entry of every cluster of the chain to zero and no other. *)
Theorem free_cluster_chain_frees fs c l :
  fat_ok (fat fs) -> chain (fat fs) c l ->
  exists f', free_cluster_chain c fs = Some (set_fat f' fs) /\ fat_ok f' /\
    forall c', 0 <= c' < NCLUSTERS -> clval f' c' = if decide (c' ∈ l) then 0 else clval (fat fs) c'.
Proof. apply free_cluster_chain_spec. Qed.

(** ** Termination on any table *)

(** Every entry of a data cluster is a cluster of the table or the end of a chain. *)
Definition closed (f : list Z) : Prop := forall c, 2 <= c < NCLUSTERS -> clval f c < NCLUSTERS \/ 0xff8 <= clval f c.

(** Entries that are not zero. *)
Definition live (f : list Z) : nat := length (filter (fun c => clval f c <> 0) (seqZ 0 NCLUSTERS)).

Lemma filter_shrinks {A} (P Q : A -> Prop) `{!forall x, Decision (P x), !forall x, Decision (Q x)} (l : list A) y :
  (forall x, x ∈ l -> Q x -> P x) -> y ∈ l -> P y -> ~ Q y -> (length (filter Q l) < length (filter P l))%nat.
Proof.
  induction l as [|x l IH]; intros Hsub Hy HP HQ; [by apply elem_of_nil in Hy|].
  assert (length (filter Q l) <= length (filter P l))%nat as Hle.
  { clear -Hsub. induction l as [|z l IH]; [done|]. rewrite !filter_cons. assert (Q z -> P z) by (apply Hsub; right; by left).
    assert (length (filter Q l) <= length (filter P l))%nat by (apply IH; intros w [->|Hw]%elem_of_cons; apply Hsub; [by left|right; by right]).
    destruct (decide (Q z)), (decide (P z)); simpl; try lia. tauto. }
  rewrite !filter_cons. apply elem_of_cons in Hy as [<-|Hy].
  - rewrite decide_False, decide_True by done. simpl. lia.
  - assert (Q x -> P x) by (apply Hsub; by left). specialize (IH ltac:(intros; apply Hsub; [by right|done]) Hy HP HQ).
    destruct (decide (Q x)), (decide (P x)); simpl; try lia. tauto.
Qed.

Lemma free_chain_low fuel c f :
  fat_ok f -> 0 <= c < 2 -> (3 <= fuel)%nat ->
  exists f', free_chain fuel c f = Some f' /\ fat_ok f' /\ forall c', 0 <= c' < NCLUSTERS -> clval f' c' = clval f c' \/ clval f' c' = 0.
Proof.
  intros Hf Hc Hfu. assert (forall fuel f, fat_ok f -> (2 <= fuel)%nat -> exists f', free_chain fuel 1 f = Some f' /\ changed f f' 1 0) as H1.
  { clear. intros fuel f Hf Hfu. destruct fuel as [|[|fuel]]; [lia|lia|]. cbn [free_chain]. simpl (0xff8 <=? 1). cbv iota. unfold next_cluster_12. simpl (1 <? 1). simpl (1 =? 1). cbv iota.
    cbn [mbind option_bind]. destruct (set_clval12_some f 1 0 Hf) as (f' & -> & Hf' & Hv); [unfold NCLUSTERS; lia|lia|]. cbn [mbind option_bind].
    exists f'. split; [done|]. by split. }
  assert (c = 0 \/ c = 1) as [-> | ->] by lia.
  - destruct fuel as [|fuel]; [lia|]. cbn [free_chain]. change (0xff8 <=? 0) with false. unfold next_cluster_12. change (0 <? 1) with true. cbv iota. cbn [mbind option_bind].
    destruct (set_clval12_some f 0 0 Hf) as (f1 & -> & Hf1 & Hv1); [unfold NCLUSTERS; lia|lia|]. cbn [mbind option_bind]. match goal with |- context [free_chain fuel ?x f1] => change x with 1 end.
    destruct (H1 fuel f1 Hf1) as (f' & -> & Hf' & Hv'); [lia|]. exists f'. split; [done|]. split; [done|]. intros c' Hc'. rewrite Hv', Hv1 by done. repeat case_ztest; auto.
  - destruct (H1 fuel f Hf) as (f' & -> & Hf' & Hv'); [lia|]. exists f'. split; [done|]. split; [done|]. intros c' Hc'. rewrite Hv' by done. case_ztest; auto.
Qed.

Lemma free_chain_total n fuel c f :
  fat_ok f -> closed f -> 0 <= c < 2 ^ 16 -> c < NCLUSTERS \/ 0xff8 <= c -> (live f <= n)%nat -> (n + 5 <= fuel)%nat ->
  exists f', free_chain fuel c f = Some f' /\ fat_ok f' /\ forall c', 0 <= c' < NCLUSTERS -> clval f' c' = clval f c' \/ clval f' c' = 0.
Proof.
  revert fuel c f. induction n as [|n IH]; intros fuel c f Hf Hcl Hc16 Hc Hn Hfu.
  all: destruct (Z.le_gt_cases 0xff8 c) as [Hend|Hin]; [destruct fuel as [|fuel]; [lia|]; cbn [free_chain]; destruct (Z.leb_spec 0xff8 c); [|lia]; exists f; auto|].
  all: destruct (Z.lt_ge_cases c 2) as [Hlow|Hhigh]; [apply free_chain_low; [done|lia|lia]|].
  all: assert (2 <= c < NCLUSTERS) as Hc' by (unfold NCLUSTERS in *; lia); destruct fuel as [|fuel]; [lia|]; cbn [free_chain]; destruct (Z.leb_spec 0xff8 c); [lia|].
  all: destruct (next_cluster_chain f c Hf Hc') as [-> Hv]; cbn [mbind option_bind].
  all: destruct (set_clval12_some f c 0 Hf) as (f1 & -> & Hf1 & Hv1); [lia|lia|]; cbn [mbind option_bind]; unfold u16; rewrite Z.mod_small by lia.
  all: assert (forall c', 0 <= c' < NCLUSTERS -> clval f1 c' = clval f c' \/ clval f1 c' = 0) as Hsub by (intros c' Hr; rewrite Hv1 by done; case_ztest; auto).
  all: assert (clval f c = 0 -> (4 <= fuel)%nat -> exists f', free_chain fuel (clval f c) f1 = Some f' /\ fat_ok f' /\
         forall c', 0 <= c' < NCLUSTERS -> clval f' c' = clval f c' \/ clval f' c' = 0) as Hzero.
  1, 3: intros Hz Hfu'; rewrite Hz; destruct (free_chain_low fuel 0 f1 Hf1) as (f' & E & Hf' & Hs'); [lia|lia|]; exists f'; split; [done|]; split; [done|];
        intros c' Hr; destruct (Hs' c' Hr) as [-> | ->]; auto.
  - apply Hzero; [|lia]. destruct (Z.eq_dec (clval f c) 0) as [?|Hnz]; [done|]. exfalso. unfold live in Hn.
    assert (c ∈ filter (fun c => clval f c <> 0) (seqZ 0 NCLUSTERS)) as Hin' by (apply list_elem_of_filter; split; [done|apply elem_of_seqZ; lia]).
    destruct (filter _ _); [by apply elem_of_nil in Hin'|simpl in Hn; lia].
  - destruct (Z.eq_dec (clval f c) 0) as [Hz|Hnz]; [apply Hzero; [done|lia]|].
    assert (live f1 < live f)%nat as Hlive.
    { apply (filter_shrinks _ _ _ c); [|apply elem_of_seqZ; lia|done|].
      - intros x Hx%elem_of_seqZ. rewrite Hv1 by lia. case_ztest; [done|auto].
      - rewrite Hv1 by lia. rewrite Z.eqb_refl. auto. }
    destruct (IH fuel (clval f c) f1) as (f' & E & Hf' & Hs'); auto; try lia.
    + intros c' Hr. rewrite Hv1 by lia. destruct (Z.eqb_spec c' c); [by left|by apply Hcl].
    + exists f'. split; [done|]. split; [done|]. intros c' Hr. destruct (Hs' c' Hr) as [-> | ->]; auto.
Qed.

(** C38: [free_cluster_chain] terminates whatever the table says, also on chains that
    run in a circle: as long as every entry is a cluster of the table or an end mark, it
    returns, and an entry is either as before or zero. *)
Theorem free_cluster_chain_terminates fs c :
  fat_ok (fat fs) -> closed (fat fs) -> 0 <= c < NCLUSTERS ->
  exists f', free_cluster_chain c fs = Some (set_fat f' fs) /\ fat_ok f' /\
    forall c', 0 <= c' < NCLUSTERS -> clval f' c' = clval (fat fs) c' \/ clval f' c' = 0.
Proof.
  intros Hf Hcl Hc. assert (live (fat fs) <= 3072)%nat as Hl.
  { unfold live. etrans; [apply length_filter|]. rewrite length_seqZ. done. }
  unfold NCLUSTERS in Hc. destruct (free_chain_total 3072 4096 c (fat fs)) as (f' & E & H'); auto; [lia|left; unfold NCLUSTERS; lia|lia|].
  exists f'. split; [|done]. unfold free_cluster_chain. by rewrite E.
Qed.

(** ** A cluster out of the middle *)

Lemma chain_cons_app f c x l : chain f c (x :: l) <-> c = x /\ 2 <= x < NCLUSTERS /\ chain f (clval f x) l.
Proof. done. Qed.

Lemma chain_prefix f f' c l1 x l2 l2' :
  chain f c (l1 ++ x :: l2) -> (forall y, y ∈ l1 -> clval f' y = clval f y) -> chain f' (clval f' x) l2' -> chain f' c (l1 ++ x :: l2').
Proof.
  revert c. induction l1 as [|y l1 IH]; intros c; simpl.
  - intros (-> & Hx & _) _ H. done.
  - intros (-> & Hy & Hc) Hs H. split; [done|]. split; [done|]. rewrite Hs by by left. apply IH; auto. intros z Hz. apply Hs. by right.
Qed.

(** The clusters of a chain are in use. *)
Lemma chain_used f c l x : chain f c l -> x ∈ l -> clval f x <> 0.
Proof. intros Hc (l1 & l2 & ->)%list_elem_of_split. apply chain_app in Hc as (_ & _ & Hc). destruct l2; simpl in Hc; unfold NCLUSTERS in *; lia. Qed.

(** A free cluster [r], marked as the last of a chain, is linked behind [cur]. *)
Lemma chain_extend f f1 f2 c l1 cur r :
  chain f c (l1 ++ [cur]) -> 2 <= r < NCLUSTERS -> clval f r = 0 -> changed f f1 r 0xfff ->
  (forall c', 0 <= c' < NCLUSTERS -> clval f2 c' = if c' =? cur then r mod 4096 else clval f1 c') -> chain f2 c ((l1 ++ [cur]) ++ [r]).
Proof.
  intros Hch Hr Hz [_ Hv] Hv2. assert (forall y, y ∈ l1 ++ [cur] -> 2 <= y < NCLUSTERS /\ y <> r) as Hin.
  { intros y Hy. split; [by eapply chain_range|]. intros ->. by apply (chain_used _ _ _ _ Hch Hy). }
  destruct (Hin cur) as [Hcur Hrc]; [apply elem_of_app; right; by left|]. rewrite <- app_assoc. simpl. apply (chain_prefix _ f2 _ _ _ _ [r] Hch).
  - intros y Hy. destruct (Hin y) as [Hyr Hne]; [apply elem_of_app; by left|]. pose proof (chain_nodup _ _ _ Hch) as Hnd. apply NoDup_app in Hnd as (_ & Hd & _).
    rewrite Hv2 by lia. destruct (Z.eqb_spec y cur) as [->|_]; [destruct (Hd cur Hy); by left|]. rewrite Hv by lia. by destruct (Z.eqb_spec y r).
  - rewrite Hv2 by lia. rewrite Z.eqb_refl, Z.mod_small by (unfold NCLUSTERS in *; lia). split; [done|]. split; [done|]. rewrite Hv2 by lia.
    destruct (Z.eqb_spec r cur); [done|]. rewrite Hv by lia. by rewrite Z.eqb_refl.
Qed.

Lemma find_prev_cluster_spec fuel cl prev cur f l1 l2 :
  fat_ok f -> chain f cur (l1 ++ cl :: l2) -> (length l1 < fuel)%nat -> find_prev_cluster fuel cl prev cur f = Some (List.last l1 prev).
Proof.
  intros Hf. revert fuel prev cur. induction l1 as [|x l1 IH]; intros fuel prev cur Hc Hfu; (destruct fuel as [|fuel]; [simpl in Hfu; lia|]); cbn [find_prev_cluster].
  - simpl in Hc. destruct Hc as (-> & _). by rewrite Z.eqb_refl.
  - pose proof (chain_nodup _ _ _ Hc) as Hnd. simpl in Hnd. apply NoDup_cons in Hnd as [Hx _]. destruct Hc as (-> & Hxr & Hc).
    destruct (Z.eqb_spec x cl) as [->|?]; [destruct Hx; apply elem_of_app; right; by left|]. destruct (next_cluster_chain f x Hf Hxr) as [-> _]. cbn [mbind option_bind].
    rewrite (IH fuel x (clval f x) Hc) by (simpl in Hfu; lia). f_equal. symmetry. apply last_cons_default.
Qed.

Lemma delete_cluster_spec fs start l1 p cl l2 :
  fat_ok (fat fs) -> chain (fat fs) start (l1 ++ p :: cl :: l2) ->
  exists f', delete_cluster_from_chain start cl fs = Some (set_fat f' fs) /\ fat_ok f' /\ chain f' start (l1 ++ p :: l2) /\ clval f' cl = 0 /\
    forall c', 0 <= c' < NCLUSTERS -> c' <> p -> c' <> cl -> clval f' c' = clval (fat fs) c'.
Proof.
  intros Hf Hc. set (f := fat fs) in *. pose proof (chain_nodup _ _ _ Hc) as Hnd. pose proof (chain_length _ _ _ Hc) as Hlen.
  assert (forall y, y ∈ l1 ++ p :: cl :: l2 -> 2 <= y < NCLUSTERS) as Hr by (intros y Hy; exact (chain_range _ _ _ _ Hc Hy)).
  assert (2 <= p < NCLUSTERS) as Hp by (apply Hr; apply elem_of_app; right; by left).
  assert (2 <= cl < NCLUSTERS) as Hcl by (apply Hr; apply elem_of_app; right; right; by left).
  unfold delete_cluster_from_chain. fold f. destruct (Z.ltb_spec cl 2); [lia|].
  (* the walk from the second cluster *)
  assert (exists cur, next_cluster_12 (u16 start) f = Some cur /\ find_prev_cluster 4096 cl (u16 start) cur f = Some p) as (cur & -> & E2).
  { destruct l1 as [|s l1].
    - simpl in Hc. destruct Hc as (-> & _ & Hc). assert (u16 p = p) as -> by (unfold u16, NCLUSTERS in *; apply Z.mod_small; lia).
      destruct (next_cluster_chain f p Hf Hp) as [E _]. exists (clval f p). split; [done|]. rewrite (find_prev_cluster_spec 4096 cl p _ f [] l2); [done|done|done|simpl; lia].
    - simpl in Hc. destruct Hc as (-> & Hs & Hc). assert (u16 s = s) as -> by (unfold u16, NCLUSTERS in *; apply Z.mod_small; lia).
      destruct (next_cluster_chain f s Hf Hs) as [E _]. exists (clval f s). split; [done|]. rewrite length_app in Hlen. simpl in Hlen.
      rewrite (find_prev_cluster_spec 4096 cl s _ f (l1 ++ [p]) l2); [by rewrite List.last_last|done|by rewrite <- app_assoc|rewrite length_app; simpl; lia]. }
  cbn [mbind option_bind]. rewrite E2. cbn [mbind option_bind]. destruct (next_cluster_chain f cl Hf Hcl) as [-> Hv]. cbn [mbind option_bind].
  destruct (set_clval12_some f p (clval f cl) Hf) as (f1 & -> & Hf1 & Hv1); [lia|lia|]. cbn [mbind option_bind].
  destruct (set_clval12_some f1 cl 0 Hf1) as (f' & -> & Hf' & Hv'); [lia|lia|]. cbn [mbind option_bind].
  apply NoDup_app in Hnd as (_ & Hd & Hnd). apply NoDup_cons in Hnd as [Hpn Hnd]. apply NoDup_cons in Hnd as [Hcln _]. apply not_elem_of_cons in Hpn as [Hpcl Hpn].
  assert (forall c', 0 <= c' < NCLUSTERS -> c' <> p -> c' <> cl -> clval f' c' = clval f c') as Hother.
  { intros c' Hc' Hcp Hcc. rewrite Hv', Hv1 by done. repeat case_ztest; done. }
  exists f'. split; [done|]. split; [done|]. split; [|split; [rewrite Hv' by lia; by rewrite Z.eqb_refl|done]].
  apply (chain_prefix f f' start l1 p (cl :: l2)); [done| |].
  - intros y Hy. assert (2 <= y < NCLUSTERS) as Hyr by (apply Hr; apply elem_of_app; by left). specialize (Hd y Hy). apply not_elem_of_cons in Hd as [? Hd].
    apply not_elem_of_cons in Hd as [? _]. apply Hother; [lia|done|done].
  - apply chain_app in Hc. simpl in Hc. destruct Hc as (_ & _ & Hc). simpl in Hc. destruct Hc as (_ & _ & Hc).
    rewrite Hv', Hv1 by lia. destruct (Z.eqb_spec p cl); [done|]. rewrite Z.eqb_refl, Z.mod_small by lia. apply (chain_frame f); [done|].
    intros y Hy. assert (2 <= y < NCLUSTERS) as Hyr by (apply Hr; apply elem_of_app; right; right; by right). apply Hother; [lia| |]; intros ->; done.
Qed.

(** A cluster taken out of the middle of a directory's chain: the chain closes over
    the gap, the cluster is free, no other entry changes. *)
Theorem delete_cluster_unlinks fs start l1 p cl l2 :
  fat_ok (fat fs) -> chain (fat fs) start (l1 ++ p :: cl :: l2) ->
  exists f', delete_cluster_from_chain start cl fs = Some (set_fat f' fs) /\ fat_ok f' /\ chain f' start (l1 ++ p :: l2) /\ clval f' cl = 0 /\
    forall c', 0 <= c' < NCLUSTERS -> c' <> p -> c' <> cl -> clval f' c' = clval (fat fs) c'.
Proof. apply delete_cluster_spec. Qed.

(** * Counting *)

Definition countif (P : Z -> bool) (l : list Z) : Z := zlen (filter P l).

Ltac triple := match goal with |- Some (?a, ?b, ?c) = Some (?a', ?b', ?c') => replace a' with a by lia; replace b' with b by lia; replace c' with c by lia; reflexivity end.

Lemma stat_loop_spec n i f free bad used :
  fat_ok f -> 0 <= i -> i + Z.of_nat n <= NCLUSTERS -> 0 <= free -> 0 <= bad -> 0 <= used -> free + bad + used + Z.of_nat n < 2 ^ 31 ->
  stat_loop n i f free bad used =
    Some (free + countif (fun c => clval f c =? 0) (seqZ i (Z.of_nat n)), bad + countif (fun c => clval f c =? 0xff7) (seqZ i (Z.of_nat n)),
          used + countif (fun c => negb ((clval f c =? 0) || (clval f c =? 0xff7))) (seqZ i (Z.of_nat n))).
Proof.
  intros Hf. revert i free bad used. induction n as [|n IH]; intros i free bad used Hi Hn H1 H2 H3 H4.
  - unfold countif, zlen. simpl. triple.
  - cbn [stat_loop]. destruct (get_clval12_some f i Hf) as [-> _]; [lia|]. cbn [mbind option_bind].
    rewrite (seqZ_cons i (Z.of_nat (S n))) by lia. replace (Z.pred (Z.of_nat (S n))) with (Z.of_nat n) by lia. replace (Z.succ i) with (i + 1) by lia.
    unfold countif in *. rewrite !filter_cons. cbv beta.
    destruct (Z.eqb_spec (clval f i) 0) as [E0|E0]; [|destruct (Z.eqb_spec (clval f i) 0xff7) as [E7|E7]].
    + rewrite s32_id by lia. rewrite IH by lia. rewrite ?E0. simpl. unfold zlen. simpl length. triple.
    + rewrite s32_id by lia. rewrite IH by lia. rewrite ?E7. simpl. unfold zlen. simpl length. triple.
    + rewrite s32_id by lia. rewrite IH by lia. simpl. unfold zlen. simpl length. triple.
Qed.

(** C39: [fat12_vfs_statvfs] reports how many of the data clusters are bad and how many
    are used. *)
Theorem statvfs_counts fs :
  fat_ok (fat fs) -> 33 <= total_sect fs <= NCLUSTERS ->
  exists inf, fat12_vfs_statvfs fs = Some inf /\ fs_totalspace inf = total_sect fs /\
    fs_badspace inf = countif (fun c => clval (fat fs) c =? 0xff7) (seqZ 2 (total_sect fs - 33)) /\
    fs_usedspace inf = countif (fun c => negb ((clval (fat fs) c =? 0) || (clval (fat fs) c =? 0xff7))) (seqZ 2 (total_sect fs - 33)).
Proof.
  intros Hf Ht. unfold NCLUSTERS in Ht. unfold fat12_vfs_statvfs. rewrite stat_loop_spec by (auto; unfold NCLUSTERS; lia). cbn [mbind option_bind].
  rewrite Z2Nat.id by lia. replace (total_sect fs - 33 + 2 - 2) with (total_sect fs - 33) by lia. eexists. split; [done|]. done.
Qed.

(** * Defects *)

Lemma free_chain_zero fuel f :
  fat_ok f -> exists f', free_chain (S (S (S fuel))) 0 f = Some f' /\ fat_ok f' /\ clval f' 0 = 0 /\ clval f' 1 = 0 /\
    forall c, 2 <= c < NCLUSTERS -> clval f' c = clval f c.
Proof.
  intros Hf. cbn [free_chain]. change (0xff8 <=? 0) with false. cbv iota. change (next_cluster_12 0 f) with (Some 1). cbn [mbind option_bind].
  destruct (set_clval12_some f 0 0 Hf) as (f1 & -> & Hf1 & Hv1); [unfold NCLUSTERS; lia|lia|]. cbn [mbind option_bind].
  change (u16 1) with 1. change (0xff8 <=? 1) with false. cbv iota. change (next_cluster_12 1 f1) with (Some 0xfff). cbn [mbind option_bind].
  destruct (set_clval12_some f1 1 0 Hf1) as (f2 & -> & Hf2 & Hv2); [unfold NCLUSTERS; lia|lia|]. cbn [mbind option_bind].
  change (0xff8 <=? u16 0xfff) with true. cbv iota. exists f2. split; [done|]. split; [done|]. unfold NCLUSTERS in *.
  split; [rewrite Hv2, Hv1 by lia; done|]. split; [rewrite Hv2 by lia; done|]. intros c Hc. rewrite Hv2, Hv1 by lia. repeat case_ztest; done || lia.
Qed.

(** Freeing "the chain" of an empty file, which [fat12_vop_remove] does without looking
    at the size: the first cluster is 0, taken for a block of the root directory, and the
    entries 0 and 1, which hold the media type and the flags of the volume, are zeroed. *)
Theorem free_empty_chain_clears_media fs :
  fat_ok (fat fs) ->
  exists f', free_cluster_chain 0 fs = Some (set_fat f' fs) /\ fat_ok f' /\ clval f' 0 = 0 /\ clval f' 1 = 0 /\
    forall c, 2 <= c < NCLUSTERS -> clval f' c = clval (fat fs) c.
Proof.
  intros Hf. destruct (free_chain_zero 4093 (fat fs) Hf) as (f' & E & H). exists f'. split; [|exact H].
  unfold free_cluster_chain. change 4096%nat with (S (S (S 4093))). by rewrite E.
Qed.

(** [alloc_block12] counts sectors as clusters.  On a volume with one sector per
    cluster whose data clusters, the last of which is [total_sect - 32], are all in use, it
    returns a cluster beyond them if its entry is zero, as it is in a fresh table: the block
    of that cluster, 31 further on, is not on the disk.  [fat12_vfs_statvfs] has the right
    bound. *)
Theorem alloc_block12_past_end fs :
  fat_ok (fat fs) -> spc fs = 1 -> 33 < total_sect fs <= NCLUSTERS ->
  (forall c, 2 <= c <= total_sect fs - 32 -> clval (fat fs) c <> 0) -> clval (fat fs) (total_sect fs - 31) = 0 ->
  exists f', alloc_block12 fs = Some (total_sect fs - 31, set_fat f' fs) /\ total_sect fs - 31 + 31 >= total_sect fs.
Proof.
  intros Hf Hs Ht Hu Hz. destruct (alloc_block12_spec fs Hf) as (r & f' & E & Hr).
  { unfold geometry_ok. rewrite Hs, Z.div_1_r. lia. }
  rewrite Hs, Z.div_1_r in Hr. destruct Hr as [(-> & _ & Hn)|(Hr & Hrz & Hlt & _)].
  - exfalso. apply (Hn (total_sect fs - 31)); [lia|done].
  - assert (r = total_sect fs - 31) as ->.
    { destruct (Z.lt_trichotomy r (total_sect fs - 31)) as [?|[?|?]]; [exfalso; apply (Hu r); [lia|done]|done|exfalso; apply (Hlt (total_sect fs - 31)); [lia|done]]. }
    exists f'. split; [done|lia].
Qed.

(** * A small table *)

(** Clusters 2, 3, 4 in one chain, 5 free, 6 pointing at itself. *)
Definition ex_fat : list Z := [0xf0; 0xff; 0xff; 3; 0x40; 0; 0xff; 0x0f; 0; 6; 0; 0] ++ replicate (Z.to_nat (FAT_BYTES - 12)) 0.
Definition ex_fs : fat12_fsdata := mk_fsdata 1 2 2880 224 9 ex_fat.

Lemma ex_fat_ok : fat_ok ex_fat.
Proof. split; [done|]. apply Forall_app. split; [repeat constructor; lia|]. apply Forall_replicate. lia. Qed.
Lemma ex_geometry : geometry_ok ex_fs.
Proof. split; [done|]. split; done. Qed.
Lemma ex_chain : chain ex_fat 2 [2; 3; 4].
Proof. vm_compute. split_and!; done || discriminate. Qed.

Lemma clval12_set_get_witness :
  exists f', set_clval12 3 0xabc ex_fat = Some f' /\ fat_ok f' /\ get_clval12 2 f' = get_clval12 2 ex_fat.
Proof. apply (clval12_set_get ex_fat 3 0xabc 2); [apply ex_fat_ok|unfold NCLUSTERS; lia..|lia]. Defined.

Lemma alloc_block12_first_free_witness :
  exists r f', alloc_block12 ex_fs = Some (r, set_fat f' ex_fs) /\
    ((r = 0 /\ f' = fat ex_fs /\ forall c, 2 <= c < total_sect ex_fs / spc ex_fs -> clval (fat ex_fs) c <> 0) \/
     (2 <= r < total_sect ex_fs / spc ex_fs /\ clval (fat ex_fs) r = 0 /\ (forall c, 2 <= c < r -> clval (fat ex_fs) c <> 0) /\ changed (fat ex_fs) f' r 0xfff)).
Proof. apply (alloc_block12_first_free ex_fs); [apply ex_fat_ok|apply ex_geometry]. Defined.

Lemma free_cluster_chain_frees_witness :
  exists f', free_cluster_chain 2 ex_fs = Some (set_fat f' ex_fs) /\ fat_ok f' /\
    forall c', 0 <= c' < NCLUSTERS -> clval f' c' = if decide (c' ∈ [2; 3; 4]) then 0 else clval (fat ex_fs) c'.
Proof. apply (free_cluster_chain_frees ex_fs 2 [2; 3; 4]); [apply ex_fat_ok|apply ex_chain]. Defined.

Lemma ex_closed : closed ex_fat.
Proof.
  intros c Hc. assert (forallb (fun c => (clval ex_fat c <? NCLUSTERS) || (0xff8 <=? clval ex_fat c)) (seqZ 2 (NCLUSTERS - 2)) = true) as H by by vm_compute.
  rewrite forallb_forall in H. specialize (H c). rewrite orb_true_iff, Z.ltb_lt, Z.leb_le in H. apply H. apply list_elem_of_In, elem_of_seqZ. lia.
Qed.

Lemma free_cluster_chain_terminates_witness :
  exists f', free_cluster_chain 6 ex_fs = Some (set_fat f' ex_fs) /\ fat_ok f' /\
    forall c', 0 <= c' < NCLUSTERS -> clval f' c' = clval (fat ex_fs) c' \/ clval f' c' = 0.
Proof. apply (free_cluster_chain_terminates ex_fs 6); [apply ex_fat_ok|apply ex_closed|unfold NCLUSTERS; lia]. Defined.

Lemma delete_cluster_unlinks_witness :
  exists f', delete_cluster_from_chain 2 3 ex_fs = Some (set_fat f' ex_fs) /\ fat_ok f' /\ chain f' 2 [2; 4] /\ clval f' 3 = 0 /\
    forall c', 0 <= c' < NCLUSTERS -> c' <> 2 -> c' <> 3 -> clval f' c' = clval (fat ex_fs) c'.
Proof. apply (delete_cluster_unlinks ex_fs 2 [] 2 3 [4]); [apply ex_fat_ok|apply ex_chain]. Defined.

Lemma statvfs_counts_witness : exists inf, fat12_vfs_statvfs ex_fs = Some inf /\ fs_usedspace inf = 4.
Proof.
  destruct (statvfs_counts ex_fs) as (inf & E & _ & _ & Hu); [apply ex_fat_ok|unfold NCLUSTERS; simpl; lia|].
  exists inf. split; [exact E|]. rewrite Hu. vm_compute. reflexivity.
Defined.

(** The data clusters of a volume of 40 sectors are 2 to 8. *)
Definition ex_full_fs : fat12_fsdata := mk_fsdata 1 2 40 224 9 (replicate 13 0xff ++ 0x0f :: replicate (Z.to_nat (FAT_BYTES - 14)) 0).
Lemma ex_full_ok : fat_ok (fat ex_full_fs).
Proof. split; [done|]. apply Forall_app. split; [|constructor; [lia|]]; apply Forall_replicate; lia. Qed.

Lemma alloc_block12_past_end_witness :
  exists f', alloc_block12 ex_full_fs = Some (9, set_fat f' ex_full_fs) /\ 9 + 31 >= 40.
Proof.
  apply (alloc_block12_past_end ex_full_fs); [apply ex_full_ok|done|unfold NCLUSTERS; simpl; lia| |by vm_compute].
  intros c Hc. simpl in Hc. assert (c ∈ [2; 3; 4; 5; 6; 7; 8]) as Hin by (rewrite !elem_of_cons; lia).
  repeat (apply elem_of_cons in Hin as [->|Hin]; [by vm_compute|]). by apply elem_of_nil in Hin.
Defined.

Lemma free_empty_chain_clears_media_witness :
  exists f', free_cluster_chain 0 ex_fs = Some (set_fat f' ex_fs) /\ clval (fat ex_fs) 0 = 0xff0 /\ clval f' 0 = 0.
Proof.
  destruct (free_empty_chain_clears_media ex_fs ex_fat_ok) as (f' & E & _ & H0 & _). exists f'. split; [exact E|]. split; [by vm_compute|exact H0].
Defined.

End FatTable.
