(* ===== verification/FatFile.v ===== *)
(** Files of the FAT12 file system (base/fat12.c): reading, writing, truncating and
    removing, on the blocks of any device that keeps what is written
    ([Blocks.BlockDev]). *)
From S2P Require Import Prelude DateTime FatTable.

(** * Blocks *)

Module Blocks.

(** What the file system relies on.  [bread] gives the contents of a block or fails
    ([io_status] is not 0); [bwrite] is the change of a buffer that is then marked for a
    delayed write and released, or [write_block]: the block has the new contents from
    then on.  [bdiscard] marks a buffer as not valid: what the block holds is no longer
    known. *)
Class BlockDev (D : Type) := {
  bread : Z -> Z -> D -> option (list Z) * D;
  bwrite : Z -> Z -> list Z -> D -> D;
  bdiscard : Z -> Z -> D -> D;
  block : D -> Z -> Z -> list Z;
  block_length d dev b : length (block d dev b) = 512%nat;
  bread_result d dev b : (bread dev b d).1 = None \/ (bread dev b d).1 = Some (block d dev b);
  bread_keeps d dev b dev' b' : block (bread dev b d).2 dev' b' = block d dev' b';
  bwrite_block d dev b data dev' b' : length data = 512%nat ->
    block (bwrite dev b data d) dev' b' = if bool_decide (dev' = dev /\ b' = b) then data else block d dev' b';
  bdiscard_block d dev b dev' b' : dev' <> dev \/ b' <> b -> block (bdiscard dev b d) dev' b' = block d dev' b' }.

(** A disk without errors but for given blocks, all zeros at first. *)
Record disk := mk_disk { sectors : gmap (Z * Z) (list Z); bad : gset Z }.
Definition disk_block (d : disk) (dev b : Z) : list Z :=
  match sectors d !! (dev, b) with Some l => if bool_decide (length l = 512%nat) then l else replicate 512 0 | None => replicate 512 0 end.

#[export] Program Instance disk_dev : BlockDev disk := {|
  bread dev b d := (if bool_decide (b ∈ bad d) then None else Some (disk_block d dev b), d);
  bwrite dev b data d := mk_disk (<[(dev, b) := data]> (sectors d)) (bad d);
  bdiscard dev b d := d;
  block := disk_block |}.
Next Obligation. intros d dev b. unfold disk_block. case_match; [case_bool_decide|]; try done; apply length_replicate. Qed.
Next Obligation. intros d dev b. simpl. case_bool_decide; [by left|by right]. Qed.
Next Obligation. done. Qed.
Next Obligation.
  intros d dev b data dev' b' Hl. unfold disk_block. simpl. case_bool_decide as E.
  - destruct E as [-> ->]. rewrite lookup_insert_eq. by rewrite bool_decide_true.
  - rewrite lookup_insert_ne; [done|]. intros [= -> ->]. by apply E.
Qed.
Next Obligation. done. Qed.

End Blocks.

Module FatFile.
Import DateTime FatTable Blocks.

Definition EDISK_READ : Z := -33.
Definition ENO_DISK_SPACE : Z := -41.
Definition FTFLAGS_CHANGED : Z := 0x40.
Definition FTYPE_READONLY : Z := 0x01.
Definition FTYPE_SYSTEM : Z := 0x04.
Definition FTYPE_VOLUME : Z := 0x08.
Definition FTYPE_DIR : Z := 0x10.
Definition S_IFDIR : Z := 0x4000.

(** [struct fat_dirent]: [char name[11]], [char attrib], [char res[10]], three [short]s and
    an [unsigned int]. *)
Record fat_dirent := mk_dirent { name : list Z; attrib : Z; res : list Z; dtime : Z; ddate : Z; start_cluster : Z; fsize : Z }.

(** The part of [struct vnode] that these operations use. *)
Record vnode := mk_vnode { v_dev : Z; v_flag : Z; v_no : Z; v_data : fat_dirent }.

Definition set_start (c : Z) (e : fat_dirent) : fat_dirent := mk_dirent (name e) (attrib e) (res e) (dtime e) (ddate e) c (fsize e).
Definition set_fsize (n : Z) (e : fat_dirent) : fat_dirent := mk_dirent (name e) (attrib e) (res e) (dtime e) (ddate e) (start_cluster e) n.
Definition set_attrib (a : Z) (e : fat_dirent) : fat_dirent := mk_dirent (name e) a (res e) (dtime e) (ddate e) (start_cluster e) (fsize e).
Definition set_stamp (t d : Z) (e : fat_dirent) : fat_dirent := mk_dirent (name e) (attrib e) (res e) t d (start_cluster e) (fsize e).
Definition set_data (e : fat_dirent) (vn : vnode) : vnode := mk_vnode (v_dev vn) (v_flag vn) (v_no vn) e.
Definition set_vno (n : Z) (vn : vnode) : vnode := mk_vnode (v_dev vn) (v_flag vn) n (v_data vn).
Definition mark_changed (vn : vnode) : vnode := mk_vnode (v_dev vn) (Z.lor (v_flag vn) FTFLAGS_CHANGED) (v_no vn) (v_data vn).

(** ** Time stamps *)

Definition mark_time_date (secs : Z) (e : fat_dirent) : option fat_dirent :=
  dt ← secs_to_date secs;
  Some (set_stamp (s16 (Z.lor (Z.lor (Z.shiftl (hours dt) 11) (Z.shiftl (minutes dt) 5)) (cdiv (seconds dt) 2)))
                  (s16 (Z.lor (Z.lor (Z.shiftl (year dt - 1980) 9) (Z.shiftl (month dt) 5)) (date dt))) e).

(** The date that [fat12_vop_getattr] reads from an entry. *)
Definition stamp_date (e : fat_dirent) : date_time :=
  mk_dt (s16 (Z.land (dtime e) 0x1f * 2)) (s16 (Z.shiftr (Z.land (dtime e) 0x7e0) 5)) (s16 (Z.shiftr (u16 (Z.land (dtime e) 0xf800)) 11))
        (s16 (Z.land (ddate e) 0x1f)) (s16 (Z.shiftr (Z.land (ddate e) 0x1e0) 5)) (s16 (s16 (Z.shiftr (u16 (Z.land (ddate e) 0xfe00)) 9) + 1980)).

(** The fields of [struct stat] that are not constant. *)
Record stat := mk_stat { st_dev : Z; st_ino : Z; st_mode : Z; st_size : Z; st_blocks : Z; st_mtime : Z }.

Definition fat12_vop_getattr (vn : vnode) : option stat :=
  let dent := v_data vn in
  let mode := if negb (Z.land (attrib dent) (Z.lor (Z.lor FTYPE_READONLY FTYPE_SYSTEM) FTYPE_VOLUME) =? 0) then 0x16d else 0x1ff in
  let mode := if negb (Z.land (attrib dent) FTYPE_DIR =? 0) then Z.lor mode S_IFDIR else mode in
  t ← date_to_secs (stamp_date dent);
  Some (mk_stat (v_dev vn) (start_cluster dent) mode (s32 (fsize dent)) (u32 (Z.shiftr (s32 (s32 (fsize dent) + 511)) 9)) t).

Definition fat12_vop_setattr (vn : vnode) (mode : Z) : vnode :=
  let a := attrib (v_data vn) in
  let a := if negb (Z.land mode 0x92 =? 0) then Z.land a (Z.lnot FTYPE_READONLY) else Z.lor a FTYPE_READONLY in
  mark_changed (set_data (set_attrib a (v_data vn)) vn).

Section Files.
Context {D : Type} `{!BlockDev D}.

(** ** Reading *)

(** [while (i > 0)]: [i] steps along the chain. *)
Fixpoint walk (i : nat) (c : Z) (f : list Z) : option Z :=
  match i with O => Some c | S i => c ← step_cluster c f; walk i c f end.

(** The loop of [fat12_vop_read]; [out] is what has been put in the buffer. *)
Fixpoint read_loop (fuel : nat) (vn : vnode) (f : list Z) (offset n : Z) (out : list Z) (d : D) : option (Z * list Z * D) :=
  match fuel with
  | O => None
  | S fuel =>
      if n <=? 0 then Some (offset, out, d) else
      cur_cluster ← walk (Z.to_nat (cdiv offset 512)) (start_cluster (v_data vn)) f;
      match bread (v_dev vn) (cur_cluster + 31) d with
      | (None, d) => Some (EDISK_READ, out, d)
      | (Some buff, d) =>
          let j := 512 - cmod offset 512 in
          let nb_to_copy := if n <? j then n else j in
          read_loop fuel vn f (s32 (offset + nb_to_copy)) (n - nb_to_copy)
            (out ++ take (Z.to_nat nb_to_copy) (drop (Z.to_nat (cmod offset 512)) buff)) d
      end
  end.

Definition fat12_vop_read (vn : vnode) (f : list Z) (offset nb : Z) (d : D) : option (Z * list Z * D) :=
  let size := fsize (v_data vn) in
  let n := if size <? u32 (s32 (offset + nb)) then s32 (u32 (size - offset)) else nb in
  read_loop (S (Z.to_nat n)) vn f offset n [] d.

(** ** Writing *)

(** [bcopy (buf, &buff[r], m)]. *)
Definition overwrite (r : nat) (new old : list Z) : list Z := take r old ++ new ++ drop (r + length new) old.

(** [if (offset > dent->fsize) dent->fsize = offset]. *)
Definition grow (offset : Z) (vn : vnode) : vnode :=
  if fsize (v_data vn) <? u32 offset then set_data (set_fsize (u32 offset) (v_data vn)) vn else vn.

(** At the start of a block: the cluster to write, taken from the chain or new; [cur] is
    the cluster before it; nothing for [ENO_DISK_SPACE].  The vnode moves to another hash list, which
    is not shown, when it gets its first cluster. *)
Definition get_cluster (cur : Z) (vn : vnode) (fs : fat12_fsdata) : option (option Z * vnode * fat12_fsdata) :=
  if fsize (v_data vn) =? 0 then
    '(next_cl, fs) ← alloc_block12 fs;
    if next_cl =? 0 then Some (None, vn, fs)
    else Some (Some next_cl, set_vno next_cl (set_data (set_start (s16 next_cl) (v_data vn)) vn), fs)
  else
    next_cl ← next_cluster_12 cur (fat fs);
    if 0xff8 <=? next_cl then
      '(next_cl, fs) ← alloc_block12 fs;
      if next_cl =? 0 then Some (None, vn, fs)
      else f ← set_clval12 cur next_cl (fat fs); Some (Some next_cl, vn, set_fat f fs)
    else Some (Some next_cl, vn, fs).

(** The loop of [fat12_vop_write]; [buf] is what is left to write. *)
Fixpoint write_loop (fuel : nat) (vn : vnode) (fs : fat12_fsdata) (offset : Z) (buf : list Z) (d : D)
  : option (Z * vnode * fat12_fsdata * D) :=
  match fuel with
  | O => None
  | S fuel =>
      let n := zlen buf in
      if n <=? 0 then Some (offset, vn, fs, d) else
      let r := cmod offset 512 in
      let i := if r =? 0 then cdiv offset 512 - 1 else cdiv offset 512 in
      cur_cluster ← walk (Z.to_nat i) (u16 (start_cluster (v_data vn))) (fat fs);
      if negb (r =? 0) then
        match bread (v_dev vn) (cur_cluster + 31) d with
        | (None, d) => Some (EDISK_READ, vn, fs, d)
        | (Some buff, d) =>
            let j := 512 - r in
            let nb_to_copy := if n <? j then n else j in
            let new := take (Z.to_nat nb_to_copy) buf in
            let offset := s32 (offset + nb_to_copy) in
            write_loop fuel (grow offset vn) fs offset (drop (Z.to_nat nb_to_copy) buf)
              (bwrite (v_dev vn) (cur_cluster + 31) (overwrite (Z.to_nat r) new buff) d)
        end
      else
        '(next, vn, fs) ← get_cluster cur_cluster vn fs;
        match next with
        | None => Some (ENO_DISK_SPACE, vn, fs, d)
        | Some cur_cluster =>
            if 512 <=? n then
              let offset := s32 (offset + 512) in
              write_loop fuel (grow offset vn) fs offset (drop 512 buf) (bwrite (v_dev vn) (cur_cluster + 31) (take 512 buf) d)
            else
              match bread (v_dev vn) (cur_cluster + 31) d with
              | (None, d) => Some (EDISK_READ, vn, fs, d)
              | (Some buff, d) =>
                  let offset := s32 (offset + n) in
                  Some (offset, grow offset vn, fs, bwrite (v_dev vn) (cur_cluster + 31) (overwrite 0 buf buff) d)
              end
        end
  end.

Definition fat12_vop_write (vn : vnode) (fs : fat12_fsdata) (offset : Z) (buf : list Z) (d : D) : option (Z * vnode * fat12_fsdata * D) :=
  write_loop (S (length buf)) (mark_changed vn) fs offset buf d.

(** ** Truncating *)

Definition fat12_vop_trunc (secs : Z) (vn : vnode) (fs : fat12_fsdata) : option (vnode * fat12_fsdata) :=
  let dent := v_data vn in
  fs ← (if negb (fsize dent =? 0) then free_cluster_chain (u16 (start_cluster dent)) fs else Some fs);
  dent ← mark_time_date secs (set_fsize 0 (set_start 0 dent));
  Some (set_data dent vn, fs).

(** * Files as bytes *)

(** Byte [p] of the clusters [l]. *)
Definition fbyte (d : D) (dev : Z) (l : list Z) (p : Z) : option Z :=
  c ← l !! Z.to_nat (p / 512); block d dev (c + 31) !! Z.to_nat (p mod 512).

(** The clusters [l] of a file: as many as its size needs, or more; none when it is empty,
    whatever the entry says. *)
Definition file_ok (f : list Z) (e : fat_dirent) (l : list Z) : Prop :=
  (fsize e = 0 /\ l = []) \/ (0 < fsize e <= 512 * zlen l /\ chain f (start_cluster e) l).

Lemma block_some d dev b (r : Z) : 0 <= r < 512 -> exists x, block d dev b !! Z.to_nat r = Some x.
Proof. intros Hr. apply lookup_lt_is_Some. rewrite block_length. lia. Qed.

Lemma walk_chain i c f l x : fat_ok f -> chain f c l -> l !! i = Some x -> walk i c f = Some x.
Proof.
  intros Hf. revert c l. induction i as [|i IH]; intros c l Hc Hx; (destruct l as [|y l]; [done|]); destruct Hc as (-> & Hy & Hc).
  - by injection Hx as ->.
  - simpl in Hx. cbn [walk]. unfold step_cluster. destruct (Z.ltb_spec y 1); [lia|]. destruct (Z.eqb_spec y 1); [lia|].
    destruct (next_cluster_chain f y Hf Hy) as [-> _]. cbn [mbind option_bind]. by eapply IH.
Qed.

Lemma cdiv512 o : 0 <= o -> cdiv o 512 = o / 512 /\ cmod o 512 = o mod 512 /\ 0 <= o / 512 /\ 0 <= o mod 512 < 512 /\ o = 512 * (o / 512) + o mod 512.
Proof. intros Ho. unfold cdiv, cmod. rewrite Z.quot_div_nonneg, Z.rem_mod_nonneg by lia. Z.div_mod_to_equations. lia. Qed.

(** Within one block. *)
Lemma fbyte_block d dev l o k c :
  0 <= o -> 0 <= k -> o mod 512 + k < 512 -> l !! Z.to_nat (o / 512) = Some c -> fbyte d dev l (o + k) = block d dev (c + 31) !! Z.to_nat (o mod 512 + k).
Proof.
  intros Ho Hk Hr Hc. unfold fbyte. assert ((o + k) / 512 = o / 512 /\ (o + k) mod 512 = o mod 512 + k) as [-> ->] by (Z.div_mod_to_equations; lia).
  by rewrite Hc.
Qed.

Lemma read_loop_spec fuel vn f offset n out d l :
  fat_ok f -> chain f (start_cluster (v_data vn)) l -> 0 <= offset -> 0 <= n -> offset + n <= 512 * zlen l -> offset + n < 2 ^ 31 -> (Z.to_nat n < fuel)%nat ->
  exists ret out' d', read_loop fuel vn f offset n out d = Some (ret, out', d') /\ (forall dev b, block d' dev b = block d dev b) /\
    (ret = EDISK_READ \/ (ret = offset + n /\ exists new, out' = out ++ new /\ zlen new = n /\
                          forall k, 0 <= k < n -> new !! Z.to_nat k = fbyte d (v_dev vn) l (offset + k))).
Proof.
  intros Hf Hc. revert offset n out d. induction fuel as [|fuel IH]; intros offset n out d Ho Hn Hcap Hov Hfu; [lia|]. cbn [read_loop].
  destruct (Z.leb_spec n 0) as [Hz|Hpos].
  { exists offset, out, d. split; [done|]. split; [done|]. right. split; [lia|]. exists []. rewrite app_nil_r. split; [done|]. split; [unfold zlen; simpl; lia|]. lia. }
  destruct (cdiv512 offset Ho) as (-> & -> & Hq & Hr & Eo).
  destruct (lookup_lt_is_Some_2 l (Z.to_nat (offset / 512))) as [c Ec]; [unfold zlen in *; lia|].
  rewrite (walk_chain _ _ f l c Hf Hc Ec). cbn [mbind option_bind].
  pose proof (bread_result d (v_dev vn) (c + 31)) as Hres. pose proof (bread_keeps d (v_dev vn) (c + 31)) as Hkeep.
  destruct (bread (v_dev vn) (c + 31) d) as [rd d1]. simpl in Hres, Hkeep. destruct Hres as [-> | ->].
  { do 3 eexists. split; [done|]. split; [done|]. by left. }
  set (m := if n <? 512 - offset mod 512 then n else 512 - offset mod 512).
  assert (0 < m <= n /\ offset mod 512 + m <= 512) as Hm by (unfold m; case_ztest; lia).
  rewrite s32_id by lia. destruct (IH (offset + m) (n - m) (out ++ take (Z.to_nat m) (drop (Z.to_nat (offset mod 512)) (block d (v_dev vn) (c + 31)))) d1)
    as (ret & out' & d' & -> & Hk & Hret); [lia|lia|lia|lia|lia|].
  exists ret, out', d'. split; [done|]. split; [intros dev b; by rewrite Hk|]. destruct Hret as [?|(-> & new & -> & Hlen & Hnew)]; [by left|]. right.
  split; [lia|]. set (t := take (Z.to_nat m) (drop (Z.to_nat (offset mod 512)) (block d (v_dev vn) (c + 31)))) in *.
  assert (length t = Z.to_nat m) as Ht by (unfold t; rewrite length_take, length_drop, block_length; lia).
  exists (t ++ new). rewrite app_assoc. split; [done|]. split; [unfold zlen in *; rewrite length_app; lia|]. intros k Hk'. destruct (Z.lt_ge_cases k m) as [Hlt|Hge].
  - rewrite lookup_app_l by lia. unfold t. rewrite lookup_take_lt by lia. rewrite lookup_drop, (fbyte_block d (v_dev vn) l offset k c) by (done || lia). f_equal. lia.
  - rewrite lookup_app_r by lia. rewrite Ht. replace (Z.to_nat k - Z.to_nat m)%nat with (Z.to_nat (k - m)) by lia. rewrite Hnew by lia.
    unfold fbyte. replace (offset + m + (k - m)) with (offset + k) by lia. destruct (l !! Z.to_nat ((offset + k) / 512)); [|done]. simpl. by rewrite Hkeep.
Qed.

Lemma fat12_read_spec vn f l offset nb d :
  fat_ok f -> file_ok f (v_data vn) l -> 0 <= offset -> 0 <= nb -> offset + nb < 2 ^ 31 -> fsize (v_data vn) < 2 ^ 31 ->
  let n := Z.max 0 (Z.min nb (fsize (v_data vn) - offset)) in
  exists ret out d', fat12_vop_read vn f offset nb d = Some (ret, out, d') /\ (forall dev b, block d' dev b = block d dev b) /\
    (ret = EDISK_READ \/ (ret = offset + n /\ zlen out = n /\ forall k, 0 <= k < n -> out !! Z.to_nat k = fbyte d (v_dev vn) l (offset + k))).
Proof.
  intros Hf Hfile Ho Hnb Hov Hfs n. unfold fat12_vop_read. set (size := fsize (v_data vn)) in *.
  assert (0 <= size) as Hs0 by (unfold file_ok in Hfile; fold size in Hfile; destruct Hfile as [[-> _]|[? _]]; lia).
  rewrite (s32_id (offset + nb)), (u32_id (offset + nb)) by lia.
  assert ((if size <? offset + nb then s32 (u32 (size - offset)) else nb) = if size <? offset + nb then size - offset else nb) as ->.
  { case_ztest; [|done]. clear -Hs0 Ho Hnb Hov Hfs. u32_lia. }
  set (m := if size <? offset + nb then size - offset else nb).
  assert (m <= 0 /\ n = 0 \/ 0 < m /\ n = m /\ offset + m <= size) as [[Hm En]|(Hm & En & Hle)] by (unfold m, n; case_ztest; lia).
  - cbn [read_loop]. destruct (Z.leb_spec m 0); [|lia]. exists offset, [], d. split; [done|]. split; [done|]. right. rewrite En. split; [lia|]. split; [done|]. lia.
  - destruct Hfile as [[E _]|(Hsz & Hc)]; [fold size in E; lia|]. fold size in Hsz.
    destruct (read_loop_spec (S (Z.to_nat m)) vn f offset m [] d l Hf Hc) as (ret & out & d' & -> & Hk & Hret); [lia|lia|lia|lia|lia|].
    exists ret, out, d'. split; [done|]. split; [done|]. destruct Hret as [?|(-> & new & -> & Hlen & Hnew)]; [by left|right]. simpl. rewrite En. done.
Qed.

(** Reading returns the file's bytes.  [fat12_vop_read] of [nb] bytes at [offset]
    changes no block and either reports a read error or fills the buffer with the bytes
    from [offset] on, as many as were asked for and the file has, and returns the new
    offset; beyond the end of the file there is nothing to read. *)
Theorem fat12_read_bytes vn f l offset nb d :
  fat_ok f -> file_ok f (v_data vn) l -> 0 <= offset -> 0 <= nb -> offset + nb < 2 ^ 31 -> fsize (v_data vn) < 2 ^ 31 ->
  let n := Z.max 0 (Z.min nb (fsize (v_data vn) - offset)) in
  exists ret out d', fat12_vop_read vn f offset nb d = Some (ret, out, d') /\ (forall dev b, block d' dev b = block d dev b) /\
    (ret = EDISK_READ \/ (ret = offset + n /\ zlen out = n /\ forall k, 0 <= k < n -> out !! Z.to_nat k = fbyte d (v_dev vn) l (offset + k))).
Proof. apply fat12_read_spec. Qed.

(** * Writing *)

(** The state of a file: the file system, the device, the vnode, its clusters. *)
Record fstate := mk_fstate { s_fs : fat12_fsdata; s_dev : D; s_vn : vnode; s_cl : list Z }.
Abbreviation size_of s := (fsize (v_data (s_vn s))).
Abbreviation fat_of s := (fat (s_fs s)).

(** The clusters are linked and hold the file; a file of size 0 may have one cluster
    that was just allocated. *)
Definition linked (s : fstate) : Prop :=
  fat_ok (fat_of s) /\ 0 <= size_of s <= 512 * zlen (s_cl s) /\ (s_cl s = [] \/ chain (fat_of s) (start_cluster (v_data (s_vn s))) (s_cl s)).

(** From [s] to [s'] the bytes [new] were written at [o]: the file has them there and its
    other bytes as before, it grew as far as needed; no block but those of the file changed,
    clusters were added to the file only from the free ones, and the table says the same
    of every cluster that was in use by others. *)
Record written (s : fstate) (o : Z) (new : list Z) (s' : fstate) : Prop := {
  w_linked : linked s';
  w_dev : v_dev (s_vn s') = v_dev (s_vn s);
  w_fs : s_fs s' = set_fat (fat_of s') (s_fs s);
  w_size : size_of s' = Z.max (size_of s) (o + zlen new);
  w_prefix : s_cl s `prefix_of` s_cl s';
  w_bytes p : 0 <= p < size_of s' -> fbyte (s_dev s') (v_dev (s_vn s)) (s_cl s') p =
    if bool_decide (o <= p < o + zlen new) then new !! Z.to_nat (p - o) else fbyte (s_dev s) (v_dev (s_vn s)) (s_cl s) p;
  w_blocks dev b : dev <> v_dev (s_vn s) \/ b - 31 ∉ s_cl s' -> block (s_dev s') dev b = block (s_dev s) dev b;
  w_new c : c ∈ s_cl s' -> c ∈ s_cl s \/ 2 <= c < NCLUSTERS /\ clval (fat_of s) c = 0;
  w_others c : 0 <= c < NCLUSTERS -> clval (fat_of s) c <> 0 -> c ∉ s_cl s -> clval (fat_of s') c = clval (fat_of s) c }.

Lemma set_fat_set f g fs : set_fat f (set_fat g fs) = set_fat f fs.
Proof. done. Qed.
Lemma set_fat_id fs : set_fat (fat fs) fs = fs.
Proof. by destruct fs. Qed.

Lemma written_refl s o s' :
  linked s -> 0 <= o <= size_of s -> s_fs s' = s_fs s -> s_vn s' = s_vn s -> s_cl s' = s_cl s ->
  (forall dev b, block (s_dev s') dev b = block (s_dev s) dev b) -> written s o [] s'.
Proof.
  intros Hl Ho Efs Evn Ecl Eb. split; rewrite ?Efs, ?Evn, ?Ecl; auto.
  - unfold linked. by rewrite Efs, Evn, Ecl.
  - by rewrite set_fat_id.
  - unfold zlen. simpl. lia.
  - intros p Hp. rewrite bool_decide_false by (unfold zlen; simpl; lia). unfold fbyte. destruct (s_cl s !! Z.to_nat (p / 512)); [|done]. simpl. by rewrite Eb.
Qed.

Lemma written_trans s o new1 s1 new2 s2 :
  0 <= o <= size_of s -> written s o new1 s1 -> written s1 (o + zlen new1) new2 s2 -> written s o (new1 ++ new2) s2.
Proof.
  intros Ho H1 H2. assert (forall x y : list Z, zlen (x ++ y) = zlen x + zlen y) as Hz by (intros; unfold zlen; rewrite length_app; lia).
  assert (0 <= zlen new1 /\ 0 <= zlen new2) as [? ?] by (unfold zlen; lia).
  pose proof (w_size _ _ _ _ H1) as Hs1. pose proof (w_size _ _ _ _ H2) as Hs2. split.
  - apply H2.
  - by rewrite (w_dev _ _ _ _ H2), (w_dev _ _ _ _ H1).
  - rewrite (w_fs _ _ _ _ H2), (w_fs _ _ _ _ H1) at 1. by rewrite set_fat_set.
  - rewrite Hz. lia.
  - etrans; [apply H1|apply H2].
  - intros p Hp. pose proof (w_bytes _ _ _ _ H2 p Hp) as Hb. rewrite (w_dev _ _ _ _ H1) in Hb. rewrite Hb, Hz. clear Hb.
    case_bool_decide as E2.
    + rewrite bool_decide_true by lia. rewrite lookup_app_r by (unfold zlen in *; lia). f_equal. unfold zlen in *. lia.
    + rewrite (w_bytes _ _ _ _ H1) by lia. case_bool_decide as E1.
      * rewrite bool_decide_true by lia. rewrite lookup_app_l by (unfold zlen in *; lia). done.
      * rewrite bool_decide_false by lia. done.
  - intros dev b Hb. rewrite (w_blocks _ _ _ _ H2) by (rewrite (w_dev _ _ _ _ H1); done). apply (w_blocks _ _ _ _ H1). destruct Hb as [?|Hb]; [by left|right].
    intros Hin. apply Hb. destruct (w_prefix _ _ _ _ H2) as [k ->]. apply elem_of_app. by left.
  - intros c Hc. apply (w_new _ _ _ _ H2) in Hc as [Hc|[Hr Hz2]]; [by apply (w_new _ _ _ _ H1)|].
    destruct (decide (c ∈ s_cl s)) as [?|Hn]; [by left|]. right. split; [done|]. destruct (Z.eq_dec (clval (fat_of s) c) 0) as [?|Hnz]; [done|].
    rewrite <- (w_others _ _ _ _ H1 c) by (done || lia). done.
  - intros c Hr Hnz Hc. rewrite <- (w_others _ _ _ _ H1 c) by done. apply (w_others _ _ _ _ H2); [done| |].
    + by rewrite (w_others _ _ _ _ H1).
    + intros Hc1. apply (w_new _ _ _ _ H1) in Hc1 as [?|[_ ?]]; done.
Qed.

Lemma length_overwrite r new old : (r + length new <= length old)%nat -> length (overwrite r new old) = length old.
Proof. intros H. unfold overwrite. rewrite !length_app, length_take, length_drop. lia. Qed.

Lemma lookup_overwrite r new old k :
  (r <= length old)%nat -> overwrite r new old !! k = if bool_decide (r <= k < r + length new)%nat then new !! (k - r)%nat else old !! k.
Proof.
  intros H. unfold overwrite. case_bool_decide as E.
  - rewrite lookup_app_r by (rewrite length_take; lia). rewrite lookup_app_l by (rewrite length_take; lia). f_equal. rewrite length_take. lia.
  - destruct (decide (k < r)%nat).
    + rewrite lookup_app_l by (rewrite length_take; lia). apply lookup_take_lt. lia.
    + rewrite lookup_app_r by (rewrite length_take; lia). rewrite length_take. rewrite lookup_app_r by lia. rewrite lookup_drop. f_equal. lia.
Qed.

(** [grow] after writing up to [o]. *)
Lemma grow_size o vn : 0 <= o < 2 ^ 31 -> 0 <= fsize (v_data vn) ->
  fsize (v_data (grow o vn)) = Z.max (fsize (v_data vn)) o /\ v_dev (grow o vn) = v_dev vn /\ start_cluster (v_data (grow o vn)) = start_cluster (v_data vn).
Proof. intros Ho Hs. unfold grow. rewrite u32_id by lia. case_ztest; simpl; (split; [lia|done]). Qed.

(** Bytes written inside block number [o / 512] of the file. *)
Lemma write_inside s o new c d1 :
  linked s -> 0 <= o <= size_of s -> o + zlen new < 2 ^ 31 -> o mod 512 + zlen new <= 512 -> 0 < zlen new -> s_cl s !! Z.to_nat (o / 512) = Some c ->
  (forall dev b, block d1 dev b = block (s_dev s) dev b) ->
  written s o new (mk_fstate (s_fs s) (bwrite (v_dev (s_vn s)) (c + 31) (overwrite (Z.to_nat (o mod 512)) new (block (s_dev s) (v_dev (s_vn s)) (c + 31))) d1)
                     (grow (o + zlen new) (s_vn s)) (s_cl s)).
Proof.
  intros Hl Ho Hov Hr Hn Hc Hd1. destruct (cdiv512 o) as (_ & _ & Hq & Hm & Eo); [lia|]. pose proof Hl as (Hf & Hsz & Hch).
  destruct (grow_size (o + zlen new) (s_vn s)) as (Gs & Gd & Gst); [lia|lia|].
  assert (NoDup (s_cl s)) as Hnd by (destruct Hch as [->|Hch]; [constructor|by eapply chain_nodup]).
  assert (length (overwrite (Z.to_nat (o mod 512)) new (block (s_dev s) (v_dev (s_vn s)) (c + 31))) = 512%nat) as Hlen.
  { rewrite length_overwrite; rewrite block_length; unfold zlen in *; lia. }
  assert (Z.to_nat (o / 512) < length (s_cl s))%nat as Hi by by apply lookup_lt_Some in Hc.
  split; simpl; auto.
  - split; [done|]. simpl. rewrite Gs, Gst. unfold zlen in *. split; [lia|done].
  - by rewrite set_fat_id.
  - intros p Hp. unfold fbyte. destruct (s_cl s !! Z.to_nat (p / 512)) as [c'|] eqn:Ec'; simpl.
    + rewrite bwrite_block by done. case_bool_decide as E.
      * destruct E as [_ E]. assert (c' = c) as -> by lia. assert (p / 512 = o / 512) as Ep.
        { apply (NoDup_lookup (s_cl s) _ (Z.to_nat (o / 512)) c) in Ec'; [|done|done]. apply Z2Nat.inj in Ec'; [done| |lia]. apply Z.div_pos; lia. }
        assert (p = 512 * (o / 512) + p mod 512 /\ 0 <= p mod 512 < 512) as [Ep' Hpm] by (rewrite <- Ep; Z.div_mod_to_equations; lia).
        rewrite lookup_overwrite by (rewrite block_length; unfold zlen in *; lia). unfold zlen in *.
        repeat case_bool_decide; try lia; [|done]. f_equal. lia.
      * rewrite Hd1. assert (p / 512 <> o / 512) as Hne.
        { intros Ep. rewrite Ep, Hc in Ec'. injection Ec' as ->. apply E. done. }
        rewrite bool_decide_false; [done|]. intros Hp'. apply Hne. unfold zlen in *. Z.div_mod_to_equations. lia.
    + exfalso. apply lookup_ge_None in Ec'. unfold zlen in *. rewrite Gs in Hp. Z.div_mod_to_equations. lia.
  - intros dev b Hb. rewrite bwrite_block by done. case_bool_decide as E; [|by rewrite Hd1]. destruct E as [-> ->]. destruct Hb as [?|Hb]; [done|]. destruct Hb.
    replace (c + 31 - 31) with c by lia. by eapply list_elem_of_lookup_2.
Qed.

(** ** The cluster for the next block *)

Lemma fbyte_ext d dev l l' p : l `prefix_of` l' -> 0 <= p < 512 * zlen l -> fbyte d dev l' p = fbyte d dev l p.
Proof. intros [k ->] Hp. unfold fbyte. rewrite lookup_app_l; [done|]. unfold zlen in Hp. Z.div_mod_to_equations. lia. Qed.

(** A free cluster [r] becomes the last one of the file. *)
Lemma written_grows s o fs' vn' r :
  linked s -> 0 <= o <= size_of s -> fs' = set_fat (fat fs') (s_fs s) -> v_dev vn' = v_dev (s_vn s) -> fsize (v_data vn') = size_of s -> fat_ok (fat fs') ->
  chain (fat fs') (start_cluster (v_data vn')) (s_cl s ++ [r]) -> 2 <= r < NCLUSTERS -> clval (fat_of s) r = 0 ->
  (forall c, 0 <= c < NCLUSTERS -> c <> r -> c ∉ s_cl s -> clval (fat fs') c = clval (fat_of s) c) ->
  written s o [] (mk_fstate fs' (s_dev s) vn' (s_cl s ++ [r])).
Proof.
  intros (Hf & Hsz & Hch) Ho Efs Ed Es Hf' Hch' Hr Hz Hoth. split; simpl; auto.
  - split; [done|]. simpl. rewrite Es. unfold zlen in *. rewrite length_app. simpl. split; [lia|by right].
  - rewrite Es. unfold zlen. simpl. lia.
  - by exists [r].
  - intros p Hp. rewrite bool_decide_false by (unfold zlen; simpl; lia). apply fbyte_ext; [by exists [r]|lia].
  - intros c [Hc| ->%list_elem_of_singleton]%elem_of_app; [by left|by right].
  - intros c Hc Hnz Hn. apply Hoth; [done| |done]. by intros ->.
Qed.

Lemma s16_cluster c : 2 <= c < NCLUSTERS -> s16 c = c /\ u16 c = c.
Proof. unfold NCLUSTERS, s16, u16. intros Hc. Z.div_mod_to_equations; lia. Qed.

(** The first cluster of an empty file. *)
Lemma get_cluster_first s cur :
  linked s -> geometry_ok (s_fs s) -> size_of s = 0 -> s_cl s = [] ->
  exists r vn' fs', get_cluster cur (s_vn s) (s_fs s) = Some (r, vn', fs') /\
    ((r = None /\ vn' = s_vn s /\ fs' = s_fs s) \/ exists c, r = Some c /\ 2 <= c < NCLUSTERS /\ written s 0 [] (mk_fstate fs' (s_dev s) vn' [c])).
Proof.
  intros Hl Hg Hs El. pose proof Hl as (Hf & _). unfold get_cluster. rewrite Hs. simpl (0 =? 0). cbv iota.
  destruct (alloc_block12_spec (s_fs s) Hf Hg) as (r & f' & -> & Hr). cbn [mbind option_bind]. destruct Hr as [(-> & -> & _)|(Hr & Hz & _ & Hf' & Hv)].
  { simpl (0 =? 0). cbv iota. do 3 eexists. split; [done|]. left. by rewrite set_fat_id. }
  destruct Hg as (_ & _ & Hg). assert (2 <= r < NCLUSTERS) as Hr' by lia. destruct (Z.eqb_spec r 0); [lia|]. do 3 eexists. split; [done|]. right. exists r. split; [done|]. split; [done|].
  pose proof (written_grows s 0 (set_fat f' (s_fs s)) (set_vno r (set_data (set_start (s16 r) (v_data (s_vn s))) (s_vn s))) r) as Hw. rewrite El in Hw. apply Hw; simpl; auto; [lia| |].
  - destruct (s16_cluster r Hr') as [-> _]. split; [done|]. split; [done|]. rewrite Hv by lia. rewrite Z.eqb_refl. done.
  - intros c Hc Hne _. rewrite Hv by done. by destruct (Z.eqb_spec c r).
Qed.

(** The cluster after [cur] in the chain, or a new one. *)
Lemma get_cluster_next s o l1 cur l2 :
  linked s -> geometry_ok (s_fs s) -> 0 < size_of s -> 0 <= o <= size_of s -> s_cl s = l1 ++ cur :: l2 ->
  exists r vn' fs', get_cluster cur (s_vn s) (s_fs s) = Some (r, vn', fs') /\
    ((r = None /\ vn' = s_vn s /\ fs' = s_fs s) \/
     (exists c, r = Some c /\ 2 <= c < NCLUSTERS /\ exists l', written s o [] (mk_fstate fs' (s_dev s) vn' l') /\ l' !! S (length l1) = Some c)).
Proof.
  intros Hl Hg Hs Ho El. pose proof Hl as (Hf & Hsz & Hch). unfold get_cluster. destruct (Z.eqb_spec (size_of s) 0); [lia|].
  rewrite El in Hch. destruct Hch as [Hch|Hch]; [by destruct l1|].
  assert (2 <= cur < NCLUSTERS) as Hcur by (eapply chain_range; [exact Hch|]; apply elem_of_app; right; by left).
  destruct (next_cluster_chain (fat_of s) cur Hf Hcur) as [-> _]. cbn [mbind option_bind]. pose proof (chain_app _ _ _ _ _ Hch) as (_ & _ & Hnx).
  destruct l2 as [|c l2].
  - simpl in Hnx. destruct (Z.leb_spec 0xff8 (clval (fat_of s) cur)); [|lia]. destruct (alloc_block12_spec (s_fs s) Hf Hg) as (r & f' & -> & Hr). cbn [mbind option_bind].
    destruct Hr as [(-> & -> & _)|(Hr & Hz & _ & Hf' & Hv)]; [simpl (0 =? 0); cbv iota; do 3 eexists; split; [done|]; left; by rewrite set_fat_id|].
    destruct Hg as (_ & _ & Hg). assert (2 <= r < NCLUSTERS) as Hr' by lia. destruct (Z.eqb_spec r 0); [lia|].
    assert (r <> cur) as Hrc by (intros ->; lia). simpl (fat (set_fat _ _)).
    destruct (set_clval12_some f' cur r Hf') as (f2 & -> & Hf2 & Hv2); [lia|unfold NCLUSTERS in *; lia|]. cbn [mbind option_bind].
    do 3 eexists. split; [done|]. right. exists r. split; [done|]. split; [done|]. exists (s_cl s ++ [r]). split.
    + apply written_grows; simpl; auto.
      * rewrite El. apply (chain_extend (fat_of s) f' f2); [exact Hch|done|exact Hz|by split|exact Hv2].
      * intros c Hc Hne Hn. rewrite Hv2 by done. destruct (Z.eqb_spec c cur) as [->|_]; [destruct Hn; rewrite El; apply elem_of_app; right; by left|].
        rewrite Hv by done. by destruct (Z.eqb_spec c r).
    + rewrite El, <- app_assoc. rewrite lookup_app_r by lia. by replace (S (length l1) - length l1)%nat with 1%nat by lia.
  - destruct Hnx as (Ec & Hc & _). rewrite Ec. destruct (Z.leb_spec 0xff8 c); [unfold NCLUSTERS in *; lia|]. do 3 eexists. split; [done|]. right. exists c. split; [done|]. split; [done|]. exists (s_cl s). split.
    + by apply written_refl.
    + rewrite El. rewrite lookup_app_r by lia. by replace (S (length l1) - length l1)%nat with 1%nat by lia.
Qed.

Lemma start_u16 s : linked s -> s_cl s <> [] -> u16 (start_cluster (v_data (s_vn s))) = start_cluster (v_data (s_vn s)).
Proof. intros (_ & _ & [?|Hch]) Hne; [done|]. destruct (s_cl s) as [|x l]; [done|]. destruct Hch as (-> & Hx & _). by destruct (s16_cluster x Hx). Qed.

(** At the start of block [o / 512]: the walk and the cluster. *)
Lemma block_start s o :
  linked s -> geometry_ok (s_fs s) -> 0 <= o <= size_of s -> o mod 512 = 0 -> (o = 0 -> size_of s = 0) -> (size_of s = 0 -> s_cl s = []) ->
  exists cur r vn' fs', walk (Z.to_nat (o / 512 - 1)) (u16 (start_cluster (v_data (s_vn s)))) (fat_of s) = Some cur /\
    get_cluster cur (s_vn s) (s_fs s) = Some (r, vn', fs') /\
    ((r = None /\ vn' = s_vn s /\ fs' = s_fs s) \/
     (exists c, r = Some c /\ 2 <= c < NCLUSTERS /\ exists l', written s o [] (mk_fstate fs' (s_dev s) vn' l') /\ l' !! Z.to_nat (o / 512) = Some c)).
Proof.
  intros Hl Hg Ho Hm H0 He. destruct (Z.eq_dec (size_of s) 0) as [Hs|Hs].
  - assert (o = 0) as -> by lia. simpl (0 / 512). simpl (Z.to_nat (0 - 1)). cbn [walk]. eexists.
    destruct (get_cluster_first s (u16 (start_cluster (v_data (s_vn s)))) Hl Hg Hs (He Hs)) as (c & vn' & fs' & E & Hc). exists c, vn', fs'. split; [done|]. split; [exact E|].
    destruct Hc as [?|(c' & -> & Hr & Hw)]; [by left|right]. exists c'. split; [done|]. split; [done|]. by exists [c'].
  - assert (0 < o) as Hpos by (destruct (Z.eq_dec o 0); [tauto|lia]). pose proof Hl as (Hf & Hsz & Hch).
    destruct (lookup_lt_is_Some_2 (s_cl s) (Z.to_nat (o / 512 - 1))) as [cur Ec]; [unfold zlen in *; Z.div_mod_to_equations; lia|].
    pose proof (list_elem_of_split_length _ _ _ Ec) as (l1 & l2 & El & Elen).
    destruct (get_cluster_next s o l1 cur l2 Hl Hg ltac:(lia) Ho El) as (c & vn' & fs' & E & Hc). exists cur, c, vn', fs'. split; [|split; [exact E|]].
    + rewrite start_u16; [|done|by rewrite El; destruct l1]. destruct Hch as [Hch|Hch]; [by rewrite Hch in El; destruct l1|]. by eapply walk_chain.
    + destruct Hc as [?|(c' & -> & Hr & l' & Hw & Hl')]; [by left|right]. exists c'. split; [done|]. split; [done|]. exists l'. split; [done|].
      replace (Z.to_nat (o / 512)) with (S (length l1)); [done|]. rewrite <- Elen. assert (0 < o / 512) by (Z.div_mod_to_equations; lia). lia.
Qed.

(** ** The loop *)

Lemma overwrite_full new old : length new = length old -> overwrite 0 new old = new.
Proof. intros H. unfold overwrite. simpl. rewrite H, drop_all. apply app_nil_r. Qed.

(** A reading that succeeds or fails, with the blocks as they were. *)
Lemma bread_cases d dev b :
  exists d1, (forall dev' b', block d1 dev' b' = block d dev' b') /\ (bread dev b d = (None, d1) \/ bread dev b d = (Some (block d dev b), d1)).
Proof.
  pose proof (bread_result d dev b) as Hres. pose proof (bread_keeps d dev b) as Hkeep. destruct (bread dev b d) as [r d1]. simpl in *.
  exists d1. split; [done|]. destruct Hres as [-> | ->]; auto.
Qed.

(** The part [m] of the buffer goes first, the rest after it. *)
Lemma written_rest s o buf m s1 new2 s2 :
  0 <= o <= size_of s -> (m <= length buf)%nat -> written s o (take m buf) s1 -> written s1 (o + Z.of_nat m) new2 s2 -> written s o (take m buf ++ new2) s2.
Proof. intros Ho Hm H1 H2. eapply written_trans; [done|done|]. unfold zlen. rewrite length_take. by replace (m `min` length buf)%nat with m by lia. Qed.

(** What a write comes to: all of the buffer, or an error after a part of it. *)
Definition write_result (o : Z) (buf : list Z) (ret : Z) (new : list Z) : Prop :=
  (ret = o + zlen buf /\ new = buf) \/ ((ret = EDISK_READ \/ ret = ENO_DISK_SPACE) /\ new `prefix_of` buf).

Lemma write_result_rest o buf m ret new : (m <= length buf)%nat -> write_result (o + Z.of_nat m) (drop m buf) ret new -> write_result o buf ret (take m buf ++ new).
Proof.
  intros Hm [[-> ->]|[He Hp]]; [left|right].
  - rewrite take_drop. split; [|done]. unfold zlen. rewrite length_drop. lia.
  - split; [done|]. destruct Hp as [k Hk]. exists k. by rewrite <- app_assoc, <- Hk, take_drop.
Qed.

(** When the loop may start. *)
Definition writable (s : fstate) (o : Z) : Prop :=
  linked s /\ geometry_ok (s_fs s) /\ 0 <= o <= size_of s /\ (o = 0 -> size_of s = 0) /\ (size_of s = 0 -> s_cl s = []).

Lemma writable_after s o new s1 : writable s o -> written s o new s1 -> 0 < zlen new -> writable s1 (o + zlen new).
Proof.
  intros (Hl & Hg & Ho & _) Hw Hn. pose proof (w_size _ _ _ _ Hw) as Hs. split; [apply Hw|]. split; [rewrite (w_fs _ _ _ _ Hw); apply Hg|].
  split; [lia|]. split; lia.
Qed.

(** One part of the buffer written inside a block, then the rest. *)
Lemma write_step s s1 o buf m d1 c fuel :
  writable s o -> written s o [] s1 -> s_dev s1 = s_dev s -> s_cl s1 !! Z.to_nat (o / 512) = Some c -> (0 < m <= length buf)%nat -> o mod 512 + Z.of_nat m <= 512 ->
  o + zlen buf < 2 ^ 31 -> (forall dev b, block d1 dev b = block (s_dev s) dev b) ->
  (forall s2, writable s2 (o + Z.of_nat m) -> exists ret s' new,
     write_loop fuel (s_vn s2) (s_fs s2) (o + Z.of_nat m) (drop m buf) (s_dev s2) = Some (ret, s_vn s', s_fs s', s_dev s') /\ written s2 (o + Z.of_nat m) new s' /\
     write_result (o + Z.of_nat m) (drop m buf) ret new) ->
  exists ret s' new,
    write_loop fuel (grow (o + Z.of_nat m) (s_vn s1)) (s_fs s1) (o + Z.of_nat m) (drop m buf)
      (bwrite (v_dev (s_vn s1)) (c + 31) (overwrite (Z.to_nat (o mod 512)) (take m buf) (block (s_dev s) (v_dev (s_vn s1)) (c + 31))) d1) = Some (ret, s_vn s', s_fs s', s_dev s') /\
    written s o new s' /\ write_result o buf ret new.
Proof.
  intros Hs Hw1 Ed Hc Hm Hr Hov Hd1 IH. pose proof Hs as (Hl & Hg & Ho & _). pose proof (w_size _ _ _ _ Hw1) as Hs1. change (zlen []) with 0 in Hs1.
  assert (zlen (take m buf) = Z.of_nat m) as Et by (unfold zlen; rewrite length_take; lia).
  pose proof (write_inside s1 o (take m buf) c d1 (w_linked _ _ _ _ Hw1)) as Hw. rewrite Et, Ed in Hw.
  specialize (Hw ltac:(lia) ltac:(unfold zlen in *; lia) Hr ltac:(lia) Hc Hd1).
  assert (written s o (take m buf) (mk_fstate (s_fs s1) (bwrite (v_dev (s_vn s1)) (c + 31)
    (overwrite (Z.to_nat (o mod 512)) (take m buf) (block (s_dev s) (v_dev (s_vn s1)) (c + 31))) d1) (grow (o + Z.of_nat m) (s_vn s1)) (s_cl s1))) as Hw2.
  { apply (written_trans s o [] s1 (take m buf)); [done|done|]. change (zlen []) with 0. by rewrite Z.add_0_r. }
  destruct (IH _ ltac:(rewrite <- Et; eapply writable_after; [exact Hs|exact Hw2|lia])) as (ret & s' & new & E & Hw3 & Hres). simpl in E.
  exists ret, s', (take m buf ++ new). split; [exact E|]. split; [|apply write_result_rest; [lia|done]]. eapply written_rest; [done|lia|exact Hw2|exact Hw3].
Qed.

Lemma write_loop_done fuel s o : writable s o -> exists ret s' new,
  write_loop (S fuel) (s_vn s) (s_fs s) o [] (s_dev s) = Some (ret, s_vn s', s_fs s', s_dev s') /\ written s o new s' /\ write_result o [] ret new.
Proof.
  intros (Hl & _ & Ho & _). exists o, s, []. split; [done|]. split; [by apply written_refl|]. left. split; [unfold zlen; simpl; lia|done].
Qed.

Lemma write_loop_spec fuel s o buf :
  writable s o -> o + zlen buf < 2 ^ 31 -> (length buf < fuel)%nat ->
  exists ret s' new, write_loop fuel (s_vn s) (s_fs s) o buf (s_dev s) = Some (ret, s_vn s', s_fs s', s_dev s') /\ written s o new s' /\ write_result o buf ret new.
Proof.
  revert s o buf. induction fuel as [|fuel IH]; intros s o buf Hs Hov Hfu; [lia|]. pose proof Hs as (Hl & Hg & Ho & H0 & He).
  destruct (decide (buf = [])) as [->|Hne]; [by apply write_loop_done|]. assert (0 < length buf)%nat as Hpos by (destruct buf; [done|simpl; lia]).
  cbn [write_loop]. destruct (Z.leb_spec (zlen buf) 0); [unfold zlen in *; lia|]. destruct (cdiv512 o) as (-> & -> & Hq & Hm & Eo); [lia|].
  assert (forall ret dx, ret = EDISK_READ \/ ret = ENO_DISK_SPACE -> forall s1, written s o [] s1 -> (forall dev b, block dx dev b = block (s_dev s1) dev b) ->
    exists ret' s' new, Some (ret, s_vn s1, s_fs s1, dx) = Some (ret', s_vn s', s_fs s', s_dev s') /\ written s o new s' /\ write_result o buf ret' new) as Herr.
  { intros ret dx Hret s1 Hw Hdx. exists ret, (mk_fstate (s_fs s1) dx (s_vn s1) (s_cl s1)), []. split; [done|]. split; [|right; split; [done|by exists buf]].
    change [] with (@nil Z ++ []). eapply written_trans; [done|exact Hw|]. pose proof (w_size _ _ _ _ Hw). change (zlen []) with 0 in *. apply written_refl; auto; [apply Hw|lia]. }
  destruct (Z.eqb_spec (o mod 512) 0) as [Hr|Hr]; cbn [negb].
  - destruct (block_start s o Hl Hg Ho Hr H0 He) as (cur & r & vn' & fs' & -> & E & Hc). cbn [mbind option_bind]. rewrite E. cbn [mbind option_bind].
    destruct Hc as [(-> & -> & ->)|(c & -> & Hc & l' & Hw & Hl')].
    { apply (Herr ENO_DISK_SPACE (s_dev s)); [by right| |done]. by apply written_refl. }
    destruct (Z.leb_spec 512 (zlen buf)) as [Hbig|Hsmall].
    + rewrite s32_id by lia. pose proof (write_step s _ o buf 512 (s_dev s) c fuel Hs Hw eq_refl Hl') as Hst. rewrite Hr in Hst. simpl s_vn in Hst. simpl s_fs in Hst.
      rewrite overwrite_full in Hst by (rewrite block_length, length_take; unfold zlen in *; lia). apply Hst; [unfold zlen in *; lia|lia|done|done|].
      intros s2 Hs2. apply IH; [done|unfold zlen in *; rewrite length_drop; lia|rewrite length_drop; lia].
    + destruct (bread_cases (s_dev s) (v_dev vn') (c + 31)) as (d1 & Hd1 & [-> | ->]); [by apply (Herr EDISK_READ d1 ltac:(by left) _ Hw)|].
      rewrite s32_id by lia. pose proof (write_step s _ o buf (length buf) d1 c 1 Hs Hw eq_refl Hl') as Hst. rewrite Hr in Hst. simpl s_vn in Hst. simpl s_fs in Hst.
      rewrite drop_all, firstn_all in Hst. cbn [write_loop] in Hst. change (Z.of_nat (length buf)) with (zlen buf) in Hst. apply Hst; [lia|lia|done|done|].
      intros s2 Hs2. by apply (write_loop_done 0).
  - destruct (lookup_lt_is_Some_2 (s_cl s) (Z.to_nat (o / 512))) as [c Ec]; [destruct Hl as (_ & Hl & _); unfold zlen in *; lia|].
    assert (walk (Z.to_nat (o / 512)) (u16 (start_cluster (v_data (s_vn s)))) (fat_of s) = Some c) as ->.
    { pose proof Hl as (Hf & _ & [Hch|Hch]); [by rewrite Hch in Ec|]. rewrite start_u16; [by eapply walk_chain|done|]. intros E. by rewrite E in Ec. }
    cbn [mbind option_bind]. assert (written s o [] s) as Hw by by apply written_refl.
    destruct (bread_cases (s_dev s) (v_dev (s_vn s)) (c + 31)) as (d1 & Hd1 & [-> | ->]); [by apply (Herr EDISK_READ d1 ltac:(by left) _ Hw)|].
    set (m := if zlen buf <? 512 - o mod 512 then zlen buf else 512 - o mod 512).
    assert (0 < m <= zlen buf /\ o mod 512 + m <= 512) as [Hm1 Hm2] by (unfold m; case_ztest; lia). rewrite s32_id by lia.
    pose proof (write_step s s o buf (Z.to_nat m) d1 c fuel Hs Hw eq_refl Ec) as Hst. rewrite Z2Nat.id in Hst by lia. apply Hst; [unfold zlen in *; lia|lia|done|done|].
    intros s2 Hs2. apply IH; [done|unfold zlen in *; rewrite length_drop; lia|rewrite length_drop; unfold zlen in *; lia].
Qed.

(** Writing replaces the bytes at [offset].  For a file whose clusters are linked, and an
    [offset] in the file or at its end, [fat12_vop_write] returns the new offset after
    writing the whole buffer, or reports a read error or a full disk after writing a part
    of it.  What it wrote is in the file at [offset]; the file's other bytes, the blocks and
    the table entries of other files are as they were; clusters were added only from the
    free ones.  The start of a file that has bytes already is excluded. *)
Theorem fat12_write_splices s o buf :
  writable s o -> o + zlen buf < 2 ^ 31 ->
  exists ret s' new, fat12_vop_write (s_vn s) (s_fs s) o buf (s_dev s) = Some (ret, s_vn s', s_fs s', s_dev s') /\
    written (mk_fstate (s_fs s) (s_dev s) (mark_changed (s_vn s)) (s_cl s)) o new s' /\ write_result o buf ret new.
Proof.
  intros Hs Hov. unfold fat12_vop_write. apply (write_loop_spec (S (length buf)) (mk_fstate (s_fs s) (s_dev s) (mark_changed (s_vn s)) (s_cl s)) o buf); [exact Hs|done|lia].
Qed.

(** What was written is read back: after a write that returned the new offset, a read of
    as many bytes at the same offset reports a read error or gives the bytes written. *)
Theorem fat12_write_read s o buf vn' fs' d' :
  writable s o -> o + zlen buf < 2 ^ 31 -> size_of s < 2 ^ 31 ->
  fat12_vop_write (s_vn s) (s_fs s) o buf (s_dev s) = Some (o + zlen buf, vn', fs', d') ->
  exists ret out d2, fat12_vop_read vn' (fat fs') o (zlen buf) d' = Some (ret, out, d2) /\ (ret = EDISK_READ \/ (ret = o + zlen buf /\ out = buf)).
Proof.
  intros Hs Hov Hsz E. pose proof Hs as (_ & _ & Ho & _).
  destruct (write_loop_spec (S (length buf)) (mk_fstate (s_fs s) (s_dev s) (mark_changed (s_vn s)) (s_cl s)) o buf Hs Hov ltac:(lia)) as (ret & s' & new & E' & Hw & Hres).
  unfold fat12_vop_write in E. cbn [s_vn s_fs s_dev] in E'. rewrite E in E'. injection E' as <- -> -> ->. unfold write_result, EDISK_READ, ENO_DISK_SPACE in Hres.
  assert (new = buf) as -> by (destruct Hres as [[_ ?]|[[?|?] _]]; [done|unfold zlen in *; lia|unfold zlen in *; lia]). clear Hres.
  pose proof (w_size _ _ _ _ Hw) as Hs'. simpl in Hs'. destruct (w_linked _ _ _ _ Hw) as (Hf & Hl & Hch).
  assert (0 <= zlen buf) by (unfold zlen; lia).
  assert (file_ok (fat_of s') (v_data (s_vn s')) (s_cl s') \/ zlen buf = 0) as [Hfile|Hz].
  { destruct (Z.eq_dec (zlen buf) 0); [by right|left]. right. split; [lia|]. destruct Hch as [Hch|Hch]; [|done]. rewrite Hch in Hl. unfold zlen in Hl at 1. simpl in Hl. lia. }
  - destruct (fat12_read_spec (s_vn s') (fat_of s') (s_cl s') o (zlen buf) (s_dev s') Hf Hfile) as (ret & out & d2 & -> & _ & Hr); [lia|lia|lia|lia|].
    rewrite Z.min_l, Z.max_r in Hr by lia. exists ret, out, d2. split; [done|]. destruct Hr as [?|(-> & Hlen & Hb)]; [by left|right]. split; [done|].
    apply list_eq_same_length with (length buf); [done|unfold zlen in *; lia|]. intros i x y Hi Hx Hy. specialize (Hb (Z.of_nat i) ltac:(unfold zlen in *; lia)). rewrite Nat2Z.id in Hb.
    rewrite (w_dev _ _ _ _ Hw), (w_bytes _ _ _ _ Hw) in Hb by (unfold zlen in *; lia). rewrite bool_decide_true in Hb by (unfold zlen in *; lia).
    replace (Z.to_nat (o + Z.of_nat i - o)) with i in Hb by lia. congruence.
  - rewrite Hz. unfold fat12_vop_read. rewrite (s32_id (o + 0)), (u32_id (o + 0)) by lia. case_ztest; [lia|]. simpl. exists o, [], (s_dev s'). split; [done|]. right.
    split; [lia|]. destruct buf; [done|unfold zlen in Hz; simpl in Hz; lia].
Qed.

(** * Truncating *)

Lemma secs_to_date_some secs : 0 <= secs < 2 ^ 32 -> ~ new_year_day (secs / 86400) -> is_Some (secs_to_date secs).
Proof.
  intros Hs Hny. destruct (split_secs secs Hs) as (q & r & t & Hq & Hr & Ht & Es & Er). pose proof (secs_to_date_cycle q r t Hq Hr Ht) as E. rewrite <- Es in E.
  rewrite <- (is_new_year_spec _ _ Er), not_true_iff_false in Hny. destruct (not_new_year_month r Hr Hny) as [[mdays mon] Em]. rewrite Em in E. by eexists.
Qed.

Lemma fat12_trunc_spec secs vn fs l :
  fat_ok (fat fs) -> file_ok (fat fs) (v_data vn) l -> 0 <= secs < 2 ^ 32 -> ~ new_year_day (secs / 86400) ->
  exists vn' f', fat12_vop_trunc secs vn fs = Some (vn', set_fat f' fs) /\ fat_ok f' /\ file_ok f' (v_data vn') [] /\ name (v_data vn') = name (v_data vn) /\
    forall c, 0 <= c < NCLUSTERS -> clval f' c = if decide (c ∈ l) then 0 else clval (fat fs) c.
Proof.
  intros Hf Hfile Hs Hny. destruct (secs_to_date_some secs Hs Hny) as [dt Edt].
  assert (exists f', (if negb (fsize (v_data vn) =? 0) then free_cluster_chain (u16 (start_cluster (v_data vn))) fs else Some fs) = Some (set_fat f' fs) /\ fat_ok f' /\
    forall c, 0 <= c < NCLUSTERS -> clval f' c = if decide (c ∈ l) then 0 else clval (fat fs) c) as (f' & E & Hf' & Hv).
  { destruct Hfile as [[-> ->]|[Hsz Hc]].
    - exists (fat fs). rewrite set_fat_id. split; [done|]. split; [done|]. intros c _. by rewrite decide_False by by intros ?%elem_of_nil.
    - destruct (Z.eqb_spec (fsize (v_data vn)) 0); [lia|]. cbn [negb]. assert (u16 (start_cluster (v_data vn)) = start_cluster (v_data vn)) as ->.
      { destruct l as [|x l]; [unfold zlen in Hsz; simpl in Hsz; lia|]. destruct Hc as (-> & Hx & _). by destruct (s16_cluster x Hx). }
      by apply free_cluster_chain_spec. }
  unfold fat12_vop_trunc. rewrite E. cbn [mbind option_bind]. unfold mark_time_date. rewrite Edt. cbn [mbind option_bind]. eexists _, f'. split; [done|]. split; [done|].
  split; [by left|done].
Qed.

(** Truncating gives the file's clusters back and no others, and leaves an empty file. *)
Theorem fat12_trunc_frees secs vn fs l :
  fat_ok (fat fs) -> file_ok (fat fs) (v_data vn) l -> 0 <= secs < 2 ^ 32 -> ~ new_year_day (secs / 86400) ->
  exists vn' f', fat12_vop_trunc secs vn fs = Some (vn', set_fat f' fs) /\ fat_ok f' /\ file_ok f' (v_data vn') [] /\ name (v_data vn') = name (v_data vn) /\
    forall c, 0 <= c < NCLUSTERS -> clval f' c = if decide (c ∈ l) then 0 else clval (fat fs) c.
Proof. apply fat12_trunc_spec. Qed.

(** * A defect *)

(** The file of [s'] has the clusters of [s] and perhaps more, and the bytes of its first block. *)
Record head_kept (s s' : fstate) (n : Z) : Prop := {
  hk_linked : linked s';
  hk_fs : s_fs s' = set_fat (fat_of s') (s_fs s);
  hk_dev : v_dev (s_vn s') = v_dev (s_vn s);
  hk_size : size_of s <= size_of s' <= Z.max (size_of s) n;
  hk_bytes p : 0 <= p < Z.min 512 (size_of s) -> fbyte (s_dev s') (v_dev (s_vn s)) (s_cl s') p = fbyte (s_dev s) (v_dev (s_vn s)) (s_cl s) p }.

(** The first turn of the loop: the second cluster, which is allocated if there is none. *)
Lemma start_cluster_skipped s c0 l2 :
  linked s -> geometry_ok (s_fs s) -> 0 < size_of s -> s_cl s = c0 :: l2 ->
  exists r vn' fs', get_cluster c0 (s_vn s) (s_fs s) = Some (r, vn', fs') /\
    ((r = None /\ vn' = s_vn s /\ fs' = s_fs s) \/
     exists c l3, r = Some c /\ c <> c0 /\ written s 0 [] (mk_fstate fs' (s_dev s) vn' (c0 :: c :: l3))).
Proof.
  intros Hl Hg Hs El. destruct (get_cluster_next s 0 [] c0 l2 Hl Hg Hs ltac:(lia) El) as (r & vn' & fs' & E & Hc). exists r, vn', fs'. split; [exact E|].
  destruct Hc as [?|(c & -> & Hc & l' & Hw & Hl')]; [by left|right]. destruct (w_prefix _ _ _ _ Hw) as [k Hk]. simpl in Hk. rewrite El in Hk. subst l'. simpl in Hl'.
  destruct (l2 ++ k) as [|c' l3] eqn:E2; [done|]. injection Hl' as ->. exists c, l3. split; [done|]. simpl in Hw. rewrite E2 in Hw. split; [|done].
  destruct (w_linked _ _ _ _ Hw) as (_ & _ & [?|Hch]); [done|]. apply chain_nodup in Hch. intros ->. apply NoDup_cons in Hch as [Hch _]. apply Hch. left.
Qed.

Lemma head_kept_written s s1 fs' vn' d' c0 c l3 l2 n :
  linked s -> 0 < size_of s -> s_cl s = c0 :: l2 -> c <> c0 -> written s 0 [] (mk_fstate fs' (s_dev s) vn' (c0 :: c :: l3)) -> 0 <= n < 2 ^ 31 ->
  (forall b, b <> c + 31 -> block d' (v_dev (s_vn s)) b = block (s_dev s) (v_dev (s_vn s)) b) -> n <= 1024 ->
  s1 = mk_fstate fs' d' (grow n vn') (c0 :: c :: l3) -> head_kept s s1 n.
Proof.
  intros Hl Hs El Hne Hw Hn Hb Hn2 ->. pose proof (w_linked _ _ _ _ Hw) as (Hf & Hsz & Hch). pose proof (w_size _ _ _ _ Hw) as Es. simpl in Es, Hf, Hsz, Hch. change (zlen []) with 0 in Es.
  destruct (grow_size n vn') as (Gs & Gd & Gst); [lia|lia|]. split; simpl.
  - split; [done|]. simpl. rewrite Gs, Gst. unfold zlen in *. simpl in *. split; [lia|done].
  - exact (w_fs _ _ _ _ Hw).
  - rewrite Gd. exact (w_dev _ _ _ _ Hw).
  - rewrite Gs. lia.
  - intros p Hp. unfold fbyte. rewrite El. assert (p / 512 = 0) as -> by (Z.div_mod_to_equations; lia). simpl. rewrite Hb; [done|lia].
Qed.
Lemma head_kept_refl s : linked s -> head_kept s s 0.
Proof. intros Hl. split; [done|by rewrite set_fat_id|done|lia|done]. Qed.

(** Writing at the start of a file that has bytes leaves the bytes of its first block as they
    were.  The number of steps to the cluster before the block, [offset / 512 - 1], is -1, so the
    first cluster itself is taken for the one before, and the bytes go to the second
    cluster, which is allocated if there is none. *)
Lemma write_at_start_spec s c0 l2 buf :
  linked s -> geometry_ok (s_fs s) -> 0 < size_of s -> s_cl s = c0 :: l2 -> 0 < zlen buf < 2 ^ 31 ->
  exists ret s', fat12_vop_write (s_vn s) (s_fs s) 0 buf (s_dev s) = Some (ret, s_vn s', s_fs s', s_dev s') /\
    head_kept (mk_fstate (s_fs s) (s_dev s) (mark_changed (s_vn s)) (s_cl s)) s' (zlen buf).
Proof.
  intros Hl0 Hg Hs El Hn. set (s0 := mk_fstate (s_fs s) (s_dev s) (mark_changed (s_vn s)) (s_cl s)). assert (linked s0) as Hl by exact Hl0. unfold fat12_vop_write.
  destruct (start_cluster_skipped s0 c0 l2 Hl Hg Hs El) as (r & vn' & fs' & E & Hc). cbn [s_vn s_fs s0] in E.
  assert (u16 (start_cluster (v_data (mark_changed (s_vn s)))) = c0) as Est by (change (u16 (start_cluster (v_data (s_vn s))) = c0); rewrite start_u16; [|done|by rewrite El]; destruct Hl0 as (_ & _ & [Hx|Hx]); rewrite El in Hx; [done|by destruct Hx]).
  cbn [write_loop]. destruct (Z.leb_spec (zlen buf) 0); [lia|]. change (cmod 0 512 =? 0) with true. cbn [negb]. rewrite Est.
  change (walk (Z.to_nat (cdiv 0 512 - 1)) c0 (fat_of s)) with (Some c0). cbn [mbind option_bind]. rewrite E. cbn [mbind option_bind].
  destruct Hc as [(-> & -> & ->)|(c & l3 & -> & Hne & Hw)].
  { exists ENO_DISK_SPACE, s0. split; [done|]. destruct (head_kept_refl s0 Hl). split; [done..|lia|done]. }
  pose proof (w_dev _ _ _ _ Hw) as Edev. simpl in Edev. pose proof (w_size _ _ _ _ Hw) as Es. simpl in Es. change (zlen []) with 0 in Es.
  destruct (Z.leb_spec 512 (zlen buf)) as [Hbig|Hsmall].
  - rewrite s32_id by lia. simpl (0 + 512). set (s2 := mk_fstate fs' (bwrite (v_dev vn') (c + 31) (take 512 buf) (s_dev s)) (grow 512 vn') (c0 :: c :: l3)).
    assert (head_kept s0 s2 512) as H2.
    { eapply (head_kept_written s0); [done|done|exact El|exact Hne|exact Hw|lia| |lia|reflexivity]. intros b Hb. simpl. rewrite bwrite_block by (rewrite length_take; unfold zlen in *; lia).
      rewrite bool_decide_false; [done|]. intros [_ ?]. lia. }
    destruct (grow_size 512 vn') as (Gs & Gd & _); [lia|lia|].
    assert (writable s2 512) as W2.
    { split; [apply H2|]. split; [rewrite (hk_fs _ _ _ H2); apply Hg|]. simpl. split; [lia|]. split; lia. }
    destruct (write_loop_spec (length buf) s2 512 (drop 512 buf) W2) as (ret & s' & new & E' & Hw' & Hres); [unfold zlen in *; rewrite length_drop; lia|rewrite length_drop; unfold zlen in *; lia|].
    exists ret, s'. split; [exact E'|]. pose proof (w_size _ _ _ _ Hw') as Es'. pose proof (w_dev _ _ _ _ Hw') as Ed'. simpl in Es', Ed'.
    assert (zlen new <= zlen buf - 512) as Hnew.
    { assert (zlen (drop 512 buf) = zlen buf - 512) as Ed by (unfold zlen in *; rewrite length_drop; lia). destruct Hres as [[_ ->]|[_ [k Hk]]]; [lia|]. apply (f_equal length) in Hk. rewrite length_app in Hk. unfold zlen in *. lia. }
    split; simpl.
    + apply Hw'.
    + pose proof (hk_fs _ _ _ H2) as Ef2. simpl in Ef2. rewrite (w_fs _ _ _ _ Hw'). simpl. rewrite Ef2. done.
    + rewrite Ed', Gd. done.
    + lia.
    + intros p Hp. etransitivity; [|exact (hk_bytes _ _ _ H2 p Hp)]. pose proof (w_bytes _ _ _ _ Hw' p) as Hb. simpl in Hb. rewrite Gd, Edev in Hb. rewrite Hb by lia.
      rewrite bool_decide_false by lia. unfold s2. simpl. by rewrite Edev.
  - destruct (bread_cases (s_dev s) (v_dev vn') (c + 31)) as (d1 & Hd1 & [-> | ->]).
    + exists EDISK_READ, (mk_fstate fs' d1 vn' (c0 :: c :: l3)). split; [done|].
      assert (head_kept s0 (mk_fstate fs' d1 (grow 0 vn') (c0 :: c :: l3)) 0) as H2 by (eapply (head_kept_written s0); [done|done|exact El|exact Hne|exact Hw|lia|intros; apply Hd1|lia|reflexivity]).
      assert (grow 0 vn' = vn') as Eg by (unfold grow; rewrite u32_id by lia; case_ztest; [lia|done]). rewrite Eg in H2. destruct H2. split; [done..|simpl in *; lia|done].
    + rewrite s32_id by lia. set (d2 := bwrite (v_dev vn') (c + 31) (overwrite 0 buf (block (s_dev s) (v_dev vn') (c + 31))) d1).
      exists (0 + zlen buf), (mk_fstate fs' d2 (grow (0 + zlen buf) vn') (c0 :: c :: l3)). split; [done|].
      eapply (head_kept_written s0); [done|done|exact El|exact Hne|exact Hw|lia| |lia|reflexivity]. intros b Hb. unfold d2.
      rewrite bwrite_block by (rewrite length_overwrite; rewrite block_length; unfold zlen in *; lia). rewrite bool_decide_false; [apply Hd1|]. intros [_ ?]. lia.
Qed.

End Files.
(** ** Time stamps *)

(** A field of [w] bits at bit [k]. *)
Lemma field_bits x k w : 0 <= k -> 0 <= w -> Z.shiftr (Z.land x (Z.shiftl (Z.ones w) k)) k = (x / 2 ^ k) mod 2 ^ w.
Proof. intros Hk Hw. rewrite Z.shiftr_land, Z.shiftr_shiftl_l by lia. rewrite Z.sub_diag, Z.shiftl_0_r, Z.land_ones by lia. by rewrite Z.shiftr_div_pow2. Qed.

(** Three numbers packed in 16 bits, [a] above [b] above [c]. *)
Lemma lor_pack a b c k j : 0 <= j <= k -> 0 <= a -> 0 <= b < 2 ^ (k - j) -> 0 <= c < 2 ^ j ->
  Z.lor (Z.lor (Z.shiftl a k) (Z.shiftl b j)) c = a * 2 ^ k + b * 2 ^ j + c.
Proof.
  intros Hj Ha Hb Hc. rewrite !Z.shiftl_mul_pow2 by lia. assert (2 ^ k = 2 ^ (k - j) * 2 ^ j) as E by (rewrite <- Z.pow_add_r by lia; f_equal; lia).
  assert (0 < 2 ^ j) by (apply Z.pow_pos_nonneg; lia).
  rewrite (Z.lor_comm (a * 2 ^ k)), (lor_high (b * 2 ^ j) a k) by nia. rewrite Z.lor_comm.
  replace (b * 2 ^ j + a * 2 ^ k) with ((b + a * 2 ^ (k - j)) * 2 ^ j) by (rewrite E; ring). rewrite lor_high by lia. rewrite E. ring.
Qed.

Lemma u16_land x m : 0 <= m < 2 ^ 16 -> u16 (Z.land x m) = Z.land x m.
Proof. intros Hm. unfold u16. rewrite <- Z.land_ones, <- Z.land_assoc by lia. f_equal. rewrite Z.land_ones by lia. by apply Z.mod_small. Qed.

(** What is stamped is what is read, to two seconds. *)
Lemma stamp_date_mark e dt :
  0 <= hours dt < 24 -> 0 <= minutes dt < 60 -> 0 <= seconds dt < 60 -> 1 <= date dt <= 31 -> 1 <= month dt <= 12 -> 1980 <= year dt < 2108 ->
  stamp_date (set_stamp (s16 (Z.lor (Z.lor (Z.shiftl (hours dt) 11) (Z.shiftl (minutes dt) 5)) (cdiv (seconds dt) 2)))
                (s16 (Z.lor (Z.lor (Z.shiftl (year dt - 1980) 9) (Z.shiftl (month dt) 5)) (date dt))) e) =
  mk_dt (seconds dt - seconds dt mod 2) (minutes dt) (hours dt) (date dt) (month dt) (year dt).
Proof.
  intros Hh Hm Hs Hd Hmo Hy. unfold cdiv. rewrite Z.quot_div_nonneg by lia. rewrite !lor_pack by (Z.div_mod_to_equations; lia).
  unfold stamp_date. cbn [dtime ddate set_stamp]. set (t := s16 (hours dt * _ + _ + _)). set (g := s16 ((year dt - 1980) * _ + _ + _)). rewrite !u16_land by lia.
  pose proof (field_bits t 0 5). pose proof (field_bits t 5 6). pose proof (field_bits t 11 5). pose proof (field_bits g 0 5). pose proof (field_bits g 5 4). pose proof (field_bits g 9 7).
  change (Z.shiftl (Z.ones 5) 0) with 0x1f in *. change (Z.shiftl (Z.ones 6) 5) with 0x7e0 in *. change (Z.shiftl (Z.ones 5) 11) with 0xf800 in *.
  change (Z.shiftl (Z.ones 4) 5) with 0x1e0 in *. change (Z.shiftl (Z.ones 7) 9) with 0xfe00 in *. rewrite !Z.shiftr_0_r in *.
  repeat match goal with H : 0 <= _ -> 0 <= _ -> _ = _ |- _ => rewrite H by lia; clear H end.
  assert (t = hours dt * 2048 + minutes dt * 32 + seconds dt / 2 \/ t = hours dt * 2048 + minutes dt * 32 + seconds dt / 2 - 65536) as Ht by (unfold t, s16; Z.div_mod_to_equations; lia).
  assert (g = (year dt - 1980) * 512 + month dt * 32 + date dt \/ g = (year dt - 1980) * 512 + month dt * 32 + date dt - 65536) as Hg by (unfold g, s16; Z.div_mod_to_equations; lia).
  clearbody t g. assert (t mod 32 = seconds dt / 2 /\ t / 32 mod 64 = minutes dt /\ t / 2048 mod 32 = hours dt) as (E1 & E2 & E3) by (clear -Ht Hh Hm Hs; Z.div_mod_to_equations; lia).
  assert (g mod 32 = date dt /\ g / 32 mod 16 = month dt /\ g / 512 mod 128 = year dt - 1980) as (E4 & E5 & E6) by (clear -Hg Hd Hmo Hy; Z.div_mod_to_equations; lia).
  change (2 ^ 0) with 1. rewrite !Z.div_1_r. change (2 ^ 5) with 32. change (2 ^ 6) with 64. change (2 ^ 11) with 2048. change (2 ^ 4) with 16. change (2 ^ 9) with 512. change (2 ^ 7) with 128.
  rewrite E1, E2, E3, E4, E5, E6. rewrite !s16_id by (rewrite ?s16_id; Z.div_mod_to_equations; lia). f_equal; Z.div_mod_to_equations; lia.
Qed.

(** The time stamp of a file: what [mark_time_date] packs in an entry is what
    [fat12_vop_getattr] reports as its time, to the even second, from 1980 on and for the days
    that [secs_to_date] converts. *)
Theorem mark_time_getattr secs vn :
  315532800 <= secs < 2 ^ 32 -> ~ new_year_day (secs / 86400) ->
  exists e st, mark_time_date secs (v_data vn) = Some e /\ fat12_vop_getattr (set_data e vn) = Some st /\ st_mtime st = secs - secs mod 2.
Proof.
  intros Hs Hny. destruct (split_secs secs) as (q & r & t & Hq & Hr & Ht & Es & Er); [lia|].
  pose proof (secs_to_date_cycle q r t Hq Hr Ht) as E. rewrite <- Es in E. rewrite <- (is_new_year_spec _ _ Er), not_true_iff_false in Hny.
  destruct (not_new_year_month r Hr Hny) as [[mdays mon] Em]. rewrite Em in E. destruct (day_facts r mdays mon Hr Em) as (Hmon & Hmd & Hlen & n & En & Hn).
  pose proof (month_length_le (1970 + cycle_year r) mon). pose proof (cycle_year_range r) as Hk. cbn [mbind option_bind] in E. rewrite s16_id in E by lia.
  unfold mark_time_date. rewrite E. cbn [mbind option_bind]. eexists. eexists. split; [done|]. unfold fat12_vop_getattr. cbn [v_data set_data].
  assert (1980 <= 1970 + 4 * q + cycle_year r < 2108) as Hy.
  { assert (r <> 730) as Hne by (intros ->; discriminate Hny). clear -Hs Es Hk Hq Hr Ht Hne. unfold cycle_year in *. repeat case_ztest; lia. }
  rewrite stamp_date_mark by (simpl; clear -Ht Hmd Hmon Hlen Hq Hk Hy H; Z.div_mod_to_equations; lia). cbn [hours minutes seconds date month year].
  erewrite date_to_secs_cycle; [|lia|lia|exact En]. cbn [mbind option_bind]. split; [done|]. cbn [st_mtime]. rewrite u32_id by (clear -Es Hn Ht Hs; Z.div_mod_to_equations; lia).
  clear -Es Hn Ht. Z.div_mod_to_equations. lia.
Qed.

(** * A small disk *)

(** A file of 1000 bytes in the clusters 2 and 3 of the table of FatTable, with
    4 after them. *)
Definition ex_dirent : fat_dirent := mk_dirent (replicate 11 65) 0x20 (replicate 10 0) 0 0 2 1000.
Definition ex_vnode : vnode := mk_vnode 0 0 2 ex_dirent.
Definition ex_disk : disk := mk_disk {[ (0, 33) := replicate 512 7; (0, 34) := replicate 512 8 ]} ∅.
Definition ex_state : fstate := mk_fstate ex_fs ex_disk ex_vnode [2; 3; 4].

Lemma ex_file : file_ok (fat ex_fs) (v_data ex_vnode) [2; 3; 4].
Proof. right. split; [unfold zlen; simpl; lia|]. apply ex_chain. Qed.
Lemma ex_linked : linked ex_state.
Proof. split; [apply ex_fat_ok|]. split; [unfold zlen; simpl; lia|]. right. apply ex_chain. Qed.
Lemma ex_writable o : 0 < o <= 1000 -> writable ex_state o.
Proof. intros Ho. split; [apply ex_linked|]. split; [apply ex_geometry|]. simpl. split; [lia|]. split; lia. Qed.

Lemma fat12_read_bytes_witness :
  exists ret out d', fat12_vop_read ex_vnode ex_fat 510 4 ex_disk = Some (ret, out, d') /\ (forall dev b, block d' dev b = block ex_disk dev b) /\
    (ret = EDISK_READ \/ (ret = 514 /\ zlen out = 4 /\ forall k, 0 <= k < 4 -> out !! Z.to_nat k = fbyte ex_disk 0 [2; 3; 4] (510 + k))).
Proof. apply (fat12_read_bytes ex_vnode ex_fat [2; 3; 4] 510 4 ex_disk); [apply ex_fat_ok|apply ex_file|lia|lia|lia|simpl; lia]. Defined.

(** What the read gives there. *)
Example ex_read : fat12_vop_read ex_vnode ex_fat 510 4 ex_disk = Some (514, [7; 7; 8; 8], ex_disk).
Proof. vm_compute. reflexivity. Qed.

Lemma fat12_write_splices_witness :
  exists ret s' new, fat12_vop_write ex_vnode ex_fs 1000 (replicate 600 9) ex_disk = Some (ret, s_vn s', s_fs s', s_dev s') /\
    written (mk_fstate ex_fs ex_disk (mark_changed ex_vnode) [2; 3; 4]) 1000 new s' /\ write_result 1000 (replicate 600 9) ret new.
Proof. apply (fat12_write_splices ex_state 1000 (replicate 600 9)); [apply ex_writable; lia|unfold zlen; rewrite length_replicate; lia]. Defined.

(** A file of 1600 bytes: 24 of the new ones fill cluster 3, 512 go to cluster 4 and 64 to cluster 5, which was free. *)
Example ex_write : (fun '(ret, vn, fs, _) => (ret, fsize (v_data vn), clval (fat fs) 4, clval (fat fs) 5)) <$>
  fat12_vop_write ex_vnode ex_fs 1000 (replicate 600 9) ex_disk = Some (1600, 1600, 5, 0xfff).
Proof. vm_compute. reflexivity. Qed.

Definition ex_wrote : option (Z * vnode * fat12_fsdata * disk) := fat12_vop_write ex_vnode ex_fs 1000 [1; 2; 3] ex_disk.

Lemma fat12_write_read_witness : exists vn' fs' d', ex_wrote = Some (1003, vn', fs', d') /\
  exists ret out d2, fat12_vop_read vn' (fat fs') 1000 3 d' = Some (ret, out, d2) /\ (ret = EDISK_READ \/ (ret = 1003 /\ out = [1; 2; 3])).
Proof.
  assert (exists vn' fs' d', ex_wrote = Some (1003, vn', fs', d')) as (vn' & fs' & d' & E) by (unfold ex_wrote; vm_compute; do 3 eexists; reflexivity).
  exists vn', fs', d'. split; [exact E|]. apply (fat12_write_read ex_state 1000 [1; 2; 3] vn' fs' d'); [apply ex_writable; lia|unfold zlen; simpl; lia|simpl; lia|exact E].
Defined.

Lemma fat12_trunc_frees_witness :
  exists vn' f', fat12_vop_trunc 951782400 ex_vnode ex_fs = Some (vn', set_fat f' ex_fs) /\ fat_ok f' /\ file_ok f' (v_data vn') [] /\ name (v_data vn') = replicate 11 65 /\
    forall c, 0 <= c < NCLUSTERS -> clval f' c = if decide (c ∈ [2; 3; 4]) then 0 else clval ex_fat c.
Proof.
  apply (fat12_trunc_frees 951782400 ex_vnode ex_fs [2; 3; 4]); [apply ex_fat_ok|apply ex_file|lia|]. unfold new_year_day. vm_compute. intuition discriminate.
Defined.

(** The bytes went to block 34. *)
Example ex_write_start : (fun '(ret, _, _, d) => (ret, take 4 (disk_block d 0 33), take 4 (disk_block d 0 34))) <$>
  fat12_vop_write ex_vnode ex_fs 0 [1; 2; 3] ex_disk = Some (3, [7; 7; 7; 7], [1; 2; 3; 8]).
Proof. vm_compute. reflexivity. Qed.

Lemma mark_time_getattr_witness :
  exists e st, mark_time_date 951782401 ex_dirent = Some e /\ fat12_vop_getattr (set_data e ex_vnode) = Some st /\ st_mtime st = 951782400.
Proof.
  apply (mark_time_getattr 951782401 ex_vnode); [lia|]. unfold new_year_day. vm_compute. intuition discriminate.
Defined.

End FatFile.
