(* ===== verification/FatDir.v ===== *)
(** Names and directories of the FAT12 file system (base/fat12.c): 8.3 names, the slots of a
    directory, finding, adding, changing and deleting entries. *)
From S2P Require Import Prelude DateTime Strings FatTable FatFile.

Module FatDir.
Import DateTime Strings FatTable Blocks FatFile.

Definition EDIR_ENTRY_NOT_FOUND : Z := -37.
Definition EDIR_FULL : Z := -38.
Definition EDIR_NOT_EMPTY : Z := -40.
Definition ENOT_A_DIRECTORY : Z := -42.
Definition EINVALIDNAME : Z := -50.
Definition EINVALIDOFFSET : Z := -112.

(** * Names *)

Fixpoint skip_blanks (s : list Z) : list Z :=
  match s with [] => [] | c :: s' => if c =? 32 then skip_blanks s' else s end.

(** The first loop: up to [n] characters, to a dot or the end; then what is left. *)
Fixpoint copy_name (n : nat) (s : list Z) : list Z * list Z :=
  match n, s with
  | S n, c :: s' => if c =? 46 then ([], s) else let '(d, r) := copy_name n s' in (toupper c :: d, r)
  | _, _ => ([], s)
  end.

Definition pad (n : nat) (l : list Z) : list Z := l ++ replicate (n - length l) 32.

(** [source] without its terminator; the result is [dest], or nothing for -1. *)
Definition convert_name (source : list Z) : option (list Z) :=
  let source := skip_blanks source in
  match source with
  | [] => None
  | _ :: _ =>
      match copy_name 8 source with
      | (d, []) => Some (pad 11 d)
      | (d, c :: ext) =>
          if negb (c =? 46) then None
          else if bool_decide (length ext <= 3)%nat then Some (pad 8 d ++ pad 3 (toupper <$> ext)) else None
      end
  end.

Fixpoint until_blank (l : list Z) : list Z :=
  match l with [] => [] | c :: l => if c =? 32 then [] else c :: until_blank l end.

(** The name that [fat12_vop_readdir] shows. *)
Definition shown_name (nm : list Z) : list Z :=
  until_blank (take 8 nm) ++ match nm !! 8%nat with Some c => if c =? 32 then [] else 46 :: until_blank (drop 8 nm) | None => [] end.

(** [strncmp (a, b, n) == 0] for arrays of [n] characters. *)
Fixpoint names_eq (a b : list Z) : bool :=
  match a, b with
  | x :: a, y :: b => if x =? y then if x =? 0 then true else names_eq a b else false
  | _, _ => true
  end.

(** * Entries as bytes *)

Definition le16 (x : Z) : list Z := [u8 x; u8 (Z.shiftr x 8)].
Definition le32 (x : Z) : list Z := [u8 x; u8 (Z.shiftr x 8); u8 (Z.shiftr x 16); u8 (Z.shiftr x 24)].
Definition dirent_bytes (e : fat_dirent) : list Z :=
  name e ++ [u8 (attrib e)] ++ res e ++ le16 (dtime e) ++ le16 (ddate e) ++ le16 (start_cluster e) ++ le32 (fsize e).

Definition at_ (b : list Z) (i : nat) : Z := default 0 (b !! i).
Definition get16 (b : list Z) (i : nat) : Z := s16 (at_ b i + 2 ^ 8 * at_ b (S i)).
Definition dirent_of (b : list Z) : fat_dirent :=
  mk_dirent (take 11 b) (s8 (at_ b 11)) (take 10 (drop 12 b)) (get16 b 22) (get16 b 24) (get16 b 26)
    (at_ b 28 + 2 ^ 8 * at_ b 29 + 2 ^ 16 * at_ b 30 + 2 ^ 24 * at_ b 31).

(** Unused or deleted. *)
Definition free_slot (e : list Z) : bool := (at_ e 0 =? 0) || (at_ e 0 =? 0xE5).
(** What [fat12_vop_readdir] passes over: also the parts of long names. *)
Definition skipped (e : list Z) : bool := free_slot e || (at_ e 11 =? 0x0f).

(** * The loops over a directory *)

Definition slot (pos : Z) (buff : list Z) : list Z := take 32 (drop (Z.to_nat pos) buff).

(** [while ((pos < 512) && ! P (&buff[pos])) pos += 32]; a slot that does not end in the
    buffer is undefined. *)
Fixpoint slot_search (n : nat) (P : list Z -> bool) (pos : Z) (buff : list Z) : option Z :=
  if 512 <=? pos then Some pos else
  match n with
  | O => None
  | S n => if 512 <? pos + 32 then None else if P (slot pos buff) then Some pos else slot_search n P (pos + 32) buff
  end.

Inductive scan_result :=
  | Found (cl pos : Z) (buff : list Z) (offset : Z)
  | ReadError
  | NotFound (last : Z).

Section Dirs.
Context {D : Type} `{!BlockDev D}.

(** The outer loop that the operations share: block after block until a slot with [P].
    [offset] is counted by [fat12_vop_readdir] only. *)
Fixpoint scan (fuel : nat) (P : list Z -> bool) (dev cur pos offset : Z) (f : list Z) (d : D) : option (scan_result * D) :=
  match fuel with
  | O => None
  | S fuel =>
      match bread dev (cur + 31) d with
      | (None, d) => Some (ReadError, d)
      | (Some buff, d) =>
          pos' ← slot_search 16 P pos buff;
          let offset := s32 (offset + (pos' - pos)) in
          if pos' <? 512 then Some (Found cur pos' buff offset, d) else
          next_cl ← step_cluster cur f;
          if 0xff8 <=? next_cl then Some (NotFound cur, d) else scan fuel P dev next_cl 0 offset f d
      end
  end.

Definition DIR_FUEL : nat := Z.to_nat 4096.

Definition add_dir_entry (secs : Z) (dvn : vnode) (dent : fat_dirent) (fs : fat12_fsdata) (d : D) : option (Z * vnode * fat12_fsdata * D) :=
  '(r, d) ← scan DIR_FUEL free_slot (v_dev dvn) (start_cluster (v_data dvn)) 0 0 (fat fs) d;
  match r with
  | ReadError => Some (EDISK_READ, dvn, fs, d)
  | Found cl pos buff _ =>
      let d := bwrite (v_dev dvn) (cl + 31) (overwrite (Z.to_nat pos) (dirent_bytes dent) buff) d in
      e ← mark_time_date secs (v_data dvn);
      Some (1, mark_changed (set_data e dvn), fs, d)
  | NotFound cl =>
      if 2 <=? cl then
        '(next_cl, fs) ← alloc_block12 fs;
        if next_cl =? 0 then Some (ENO_DISK_SPACE, dvn, fs, d) else
        f ← set_clval12 cl next_cl (fat fs);
        let d := bwrite 0 (next_cl + 31) (overwrite 0 (dirent_bytes dent) (replicate 512 0)) d in
        e ← mark_time_date secs (v_data dvn);
        Some (1, mark_changed (set_data e dvn), set_fat f fs, d)
      else Some (EDIR_FULL, dvn, fs, d)
  end.

(** The slots of a block. *)
Definition slots (b : list Z) : list (list Z) := (fun k => slot (32 * k) b) <$> seqZ 0 16.

Definition delete_dir_entry (secs : Z) (dvn : vnode) (nm : list Z) (fs : fat12_fsdata) (d : D) : option (Z * vnode * fat12_fsdata * D) :=
  '(r, d) ← scan DIR_FUEL (fun e => names_eq (take 11 e) nm) (v_dev dvn) (start_cluster (v_data dvn)) 0 0 (fat fs) d;
  match r with
  | ReadError => Some (EDISK_READ, dvn, fs, d)
  | Found cl pos buff _ =>
      let buff := overwrite (Z.to_nat pos) [0xE5] buff in
      '(fs, d) ← (if (2 <=? cl) && forallb free_slot (slots buff)
                  then fs ← delete_cluster_from_chain (start_cluster (v_data dvn)) cl fs; Some (fs, bdiscard (v_dev dvn) (cl + 31) d)
                  else Some (fs, bwrite (v_dev dvn) (cl + 31) buff d));
      e ← mark_time_date secs (v_data dvn);
      Some (1, mark_changed (set_data e dvn), fs, d)
  | NotFound _ => Some (EDIR_ENTRY_NOT_FOUND, dvn, fs, d)
  end.

Definition update_dir_entry (dvn : vnode) (dent : fat_dirent) (fs : fat12_fsdata) (d : D) : option (Z * D) :=
  '(r, d) ← scan DIR_FUEL (fun e => names_eq (take 11 e) (name dent)) (v_dev dvn) (start_cluster (v_data dvn)) 0 0 (fat fs) d;
  match r with
  | ReadError => Some (EDISK_READ, d)
  | Found cl pos buff _ => Some (1, bwrite (v_dev dvn) (cl + 31) (overwrite (Z.to_nat pos) (dirent_bytes dent) buff) d)
  | NotFound _ => Some (EDIR_ENTRY_NOT_FOUND, d)
  end.

(** [struct dirent]. *)
Record dirent := mk_de { d_ino : Z; d_off : Z; d_reclen : Z; d_name : list Z }.

(** [while (i > 0)] with the [break] at the end of the chain: the cluster and what is left
    of [i]. *)
Fixpoint walk_dir (i : nat) (c : Z) (f : list Z) : option (Z * nat) :=
  match i with
  | O => Some (c, O)
  | S i => c ← step_cluster c f; if 0xff8 <=? c then Some (c, i) else walk_dir i c f
  end.

(** The entry for the caller, and its bytes. *)
Definition fat12_vop_readdir (vn : vnode) (offset : Z) (f : list Z) (d : D) : option ((Z + dirent * list Z) * D) :=
  '(cur_cluster, i) ← walk_dir (Z.to_nat (cdiv offset 512)) (start_cluster (v_data vn)) f;
  if bool_decide (0 < i)%nat then Some (inl EINVALIDOFFSET, d) else
  '(r, d) ← scan DIR_FUEL (fun e => negb (skipped e)) (v_dev vn) cur_cluster (cmod offset 512) offset f d;
  match r with
  | ReadError => Some (inl EDISK_READ, d)
  | NotFound _ => Some (inl EDIR_ENTRY_NOT_FOUND, d)
  | Found _ pos buff offset =>
      let e := slot pos buff in
      let dep := if at_ e 0 =? 0x05 then <[0%nat := 0xE5]> e else e in
      Some (inr (mk_de (start_cluster (dirent_of e)) offset 32 (shown_name (take 11 e)), dep), d)
  end.

(** The search of [fat12_vop_lookup] for a converted name. *)
Fixpoint lookup_loop (fuel : nat) (dvn : vnode) (fname : list Z) (offset : Z) (f : list Z) (d : D) : option (option (dirent * list Z) * D) :=
  match fuel with
  | O => None
  | S fuel =>
      '(r, d) ← fat12_vop_readdir dvn offset f d;
      match r with
      | inl _ => Some (None, d)
      | inr (entry, fsdent) =>
          if names_eq (take 11 fsdent) fname then Some (Some (entry, fsdent), d) else lookup_loop fuel dvn fname (s32 (d_off entry + 32)) f d
      end
  end.

(** More turns than a directory has slots. *)
Definition LOOKUP_FUEL : nat := Z.to_nat 65536.

(** [fat12_vop_lookup] of a name that is not dot or dot-dot; the vnode is made from the result. *)
Definition lookup_entry (dvn : vnode) (nm : list Z) (f : list Z) (d : D) : option (option (dirent * list Z) * D) :=
  match convert_name nm with
  | None => Some (None, d)
  | Some fname => lookup_loop LOOKUP_FUEL dvn fname 0 f d
  end.

(** ** Operations on directories *)

(** [dent.res] is not initialised: [junk]. *)
Definition make_dir (secs : Z) (junk : list Z) (dvn : vnode) (nm : list Z) (fs : fat12_fsdata) (d : D) : option (Z * vnode * fat12_fsdata * D) :=
  '(cl, fs) ← alloc_block12 fs;
  if cl =? 0 then Some (ENO_DISK_SPACE, dvn, fs, d) else
  dent ← mark_time_date secs (mk_dirent nm FTYPE_DIR junk 0 0 (s16 cl) 0);
  '(err, dvn, fs, d) ← add_dir_entry secs dvn dent fs d;
  if err =? 1 then
    let dot := mk_dirent (46 :: replicate 10 32) (attrib dent) (res dent) (dtime dent) (ddate dent) (start_cluster dent) (fsize dent) in
    let par := v_data dvn in
    let dotdot := mk_dirent (46 :: 46 :: replicate 9 32) (attrib par) (res par) (dtime par) (ddate par) (start_cluster par) (fsize par) in
    let data := overwrite 32 (dirent_bytes dotdot) (overwrite 0 (dirent_bytes dot) (replicate 512 0)) in
    Some (err, dvn, fs, bwrite 0 (cl + 31) data d)
  else
    f ← set_clval12 cl 0 (fat fs); Some (err, dvn, set_fat f fs, d).

(** Is the directory [dent] empty?  Not looked at: more than its first block. *)
Definition empty_dir12 (dvn : vnode) (dent : fat_dirent) (f : list Z) (d : D) : option (bool * D) :=
  next_cl ← next_cluster_12 (start_cluster dent) f;
  if next_cl <? 0xff8 then Some (false, d) else
  match bread (v_dev dvn) (start_cluster dent + 31) d with
  | (None, d) => Some (true, d)
  | (Some buff, d) => pos ← slot_search 16 (fun e => negb (free_slot e)) 64 buff; Some (512 <=? pos, d)
  end.

Definition rm_dir (secs : Z) (dvn : vnode) (nm : list Z) (fs : fat12_fsdata) (d : D) : option (Z * vnode * fat12_fsdata * D) :=
  let dent := v_data dvn in
  if Z.land (attrib dent) FTYPE_DIR =? 0 then Some (ENOT_A_DIRECTORY, dvn, fs, d) else
  '(empty, d) ← empty_dir12 dvn dent (fat fs) d;
  if empty : bool then
    fs ← free_block12 (start_cluster dent) fs;
    '(_, dvn, fs, d) ← delete_dir_entry secs dvn nm fs d;
    Some (1, dvn, fs, d)
  else Some (EDIR_NOT_EMPTY, dvn, fs, d).

Definition fat12_vop_mkdir (secs : Z) (junk : list Z) (dvn : vnode) (dirname : list Z) (fs : fat12_fsdata) (d : D) : option (Z * vnode * fat12_fsdata * D) :=
  match convert_name dirname with None => Some (-1, dvn, fs, d) | Some nm => make_dir secs junk dvn nm fs d end.

Definition fat12_vop_rmdir (secs : Z) (dvn : vnode) (dirname : list Z) (fs : fat12_fsdata) (d : D) : option (Z * vnode * fat12_fsdata * D) :=
  match convert_name dirname with None => Some (-1, dvn, fs, d) | Some nm => rm_dir secs dvn nm fs d end.

(** The attribute of a new file. *)
Definition create_attrib (mode : Z) : Z :=
  let mode := Z.land mode 0x3f in
  if mode =? 0 then 0x20 else Z.land mode (Z.lnot (Z.lor FTYPE_DIR FTYPE_VOLUME)).

(** [fat12_vop_create] up to the new vnode: the entry added, if it was. *)
Definition fat12_vop_create (secs : Z) (dvn : vnode) (fname : list Z) (mode : Z) (fs : fat12_fsdata) (d : D) : option (option fat_dirent * vnode * fat12_fsdata * D) :=
  match convert_name fname with
  | None => Some (None, dvn, fs, d)
  | Some nm =>
      dent ← mark_time_date secs (mk_dirent nm (create_attrib mode) (replicate 10 0) 0 0 0 0);
      '(offset, dvn, fs, d) ← add_dir_entry secs dvn dent fs d;
      if offset <? 0 then Some (None, dvn, fs, d) else Some (Some dent, dvn, fs, d)
  end.

(** The file [vn] in the directory [pvn], [vn->v_parent]. *)
Definition fat12_vop_remove (secs : Z) (vn pvn : vnode) (fs : fat12_fsdata) (d : D) : option (Z * vnode * fat12_fsdata * D) :=
  fs ← free_cluster_chain (u16 (start_cluster (v_data vn))) fs;
  '(_, pvn, fs, d) ← delete_dir_entry secs pvn (name (v_data vn)) fs d;
  Some (0, pvn, fs, d).

(** [pvn] is [sdvn->v_parent] when that is not [ddvn] itself. *)
Definition fat12_vop_rename (secs : Z) (sdvn ddvn : vnode) (pvn : option vnode) (nname : list Z) (fs : fat12_fsdata) (d : D)
  : option (Z * vnode * option vnode * fat12_fsdata * D) :=
  let dent := v_data sdvn in
  match convert_name nname with
  | None => Some (EINVALIDNAME, ddvn, pvn, fs, d)
  | Some nm =>
      let ndent := mk_dirent nm (attrib dent) (res dent) (dtime dent) (ddate dent) (start_cluster dent) (fsize dent) in
      '(err, ddvn, fs, d) ← add_dir_entry secs ddvn ndent fs d;
      if err <? 0 then Some (err, ddvn, pvn, fs, d) else
      match pvn with
      | None => '(_, ddvn, fs, d) ← delete_dir_entry secs ddvn (name dent) fs d; Some (0, ddvn, None, fs, d)
      | Some pvn => '(_, pvn, fs, d) ← delete_dir_entry secs pvn (name dent) fs d; Some (0, ddvn, Some pvn, fs, d)
      end
  end.

(** [v_count] is unsigned: it is never below 0, and the vnode is not freed.  [pvn] is
    [vn->v_parent]; the root has none. *)
Definition fat12_vop_destroy (vn : vnode) (pvn : option vnode) (fs : fat12_fsdata) (d : D) : option D :=
  if has_bits (v_flag vn) FTFLAGS_CHANGED then pvn ← pvn; '(_, d) ← update_dir_entry pvn (v_data vn) fs d; Some d
  else Some d.

End Dirs.

(** * Names, properties *)

(** A character of a name or an extension. *)
Definition name_char (c : Z) : Prop := c <> 0 /\ c <> 32 /\ c <> 46.

Lemma toupper_char c : name_char c -> name_char (toupper c).
Proof. unfold name_char, toupper. destruct (Z.leb_spec 97 c), (Z.leb_spec c 122); simpl; lia. Qed.
Lemma toupper_idem c : toupper (toupper c) = toupper c.
Proof. unfold toupper. destruct (Z.leb_spec 97 c), (Z.leb_spec c 122); cbn [andb]; repeat case_match; lia. Qed.

Lemma copy_name_spec n b r :
  Forall name_char b -> (length b <= n)%nat -> (length b = n \/ r = [] \/ exists e, r = 46 :: e) -> copy_name n (b ++ r) = (toupper <$> b, r).
Proof.
  revert n. induction b as [|c b IH]; intros n Hb Hl Hr.
  - destruct n as [|n]; [by destruct r|]. destruct Hr as [?|[->|[e ->]]]; done.
  - apply Forall_cons in Hb as [Hc Hb]. simpl in Hl. destruct n as [|n]; [lia|]. cbn [copy_name app fmap list_fmap]. destruct (Z.eqb_spec c 46); [by destruct Hc as (_ & _ & ?)|].
    rewrite IH; [done|done|lia|]. destruct Hr as [Hr|Hr]; [left; simpl in Hr; lia|by right].
Qed.

Lemma skip_blanks_char b r : b <> [] -> Forall name_char b -> skip_blanks (b ++ r) = b ++ r.
Proof. intros Hne Hb. destruct b as [|c b]; [done|]. apply Forall_cons in Hb as [(_ & H & _) _]. simpl. by destruct (Z.eqb_spec c 32). Qed.

Lemma until_blank_pad b n : Forall name_char b -> until_blank (b ++ replicate n 32) = b.
Proof. induction 1 as [|c b (_ & Hc & _) Hb IH]; simpl; [by destruct n|]. destruct (Z.eqb_spec c 32); [done|]. by rewrite IH. Qed.

Lemma length_pad n b : (length b <= n)%nat -> length (pad n b) = n.
Proof. intros H. unfold pad. rewrite length_app, length_replicate. lia. Qed.

(** A name without a dot, and one with an extension. *)
Definition source_name (b ext : list Z) : list Z := b ++ match ext with [] => [] | _ => 46 :: ext end.
Definition name83 (b ext : list Z) : list Z := pad 8 b ++ pad 3 ext.

Lemma pad_11 b : (length b <= 8)%nat -> pad 11 b = name83 b [].
Proof.
  intros H. unfold name83, pad. rewrite <- app_assoc. f_equal. simpl. change [32; 32; 32] with (replicate 3 32). rewrite <- replicate_add. f_equal. lia.
Qed.

Lemma convert_source b ext :
  b <> [] -> Forall name_char b -> Forall name_char ext -> (length b <= 8)%nat -> (length ext <= 3)%nat ->
  convert_name (source_name b ext) = Some (name83 (toupper <$> b) (toupper <$> ext)).
Proof.
  intros Hne Hb He Hl Hle. unfold convert_name, source_name. rewrite skip_blanks_char by done.
  assert (forall r, match b ++ r with [] => None | _ :: _ => Some tt end = Some tt) as Hcons by (intros r; by destruct b).
  assert (copy_name 8 (b ++ match ext with [] => [] | _ => 46 :: ext end) = (toupper <$> b, match ext with [] => [] | _ => 46 :: ext end)) as E.
  { apply copy_name_spec; [done|done|]. destruct ext; [right; by left|right; right; by eexists]. }
  specialize (Hcons (match ext with [] => [] | _ => 46 :: ext end)). destruct (b ++ _) as [|x xs]; [done|]. rewrite E. destruct ext as [|e ext].
  - rewrite pad_11; [done|]. by rewrite length_fmap.
  - simpl (negb (46 =? 46)). cbv iota. rewrite bool_decide_true by done. done.
Qed.

Lemma shown_name83 b ext : Forall name_char b -> Forall name_char ext -> (length b <= 8)%nat -> (length ext <= 3)%nat -> shown_name (name83 b ext) = source_name b ext.
Proof.
  intros Hb He Hl Hle. unfold shown_name, name83, source_name. rewrite take_app_length' by (by rewrite length_pad). rewrite drop_app_length' by (by rewrite length_pad).
  rewrite lookup_app_r by (rewrite length_pad; lia). rewrite length_pad by done. unfold pad at 1. rewrite until_blank_pad by done. f_equal. simpl (8 - 8)%nat.
  destruct ext as [|e ext]; [done|]. pose proof He as He'. apply Forall_cons in He' as [(_ & Hc & _) _].
  change (pad 3 (e :: ext) !! 0%nat) with (Some e). cbv iota. rewrite (proj2 (Z.eqb_neq e 32) Hc). f_equal. unfold pad. by apply until_blank_pad.
Qed.

(** Names survive the directory: a name of one to eight characters and an extension of up
    to three is converted, shown by [readdir] in upper case, and what is shown converts to
    the same 11 characters. *)
Theorem name_round_trip b ext :
  b <> [] -> Forall name_char b -> Forall name_char ext -> (length b <= 8)%nat -> (length ext <= 3)%nat ->
  exists nm, convert_name (source_name b ext) = Some nm /\ length nm = 11%nat /\
    shown_name nm = toupper <$> source_name b ext /\ convert_name (shown_name nm) = Some nm.
Proof.
  intros Hne Hb He Hl Hle. exists (name83 (toupper <$> b) (toupper <$> ext)). split; [by apply convert_source|].
  assert (Forall name_char (toupper <$> b) /\ Forall name_char (toupper <$> ext)) as [Hb' He'] by (split; apply Forall_fmap; eapply Forall_impl; try done; intros; by apply toupper_char).
  split; [unfold name83; rewrite length_app, !length_pad; rewrite ?length_fmap; done|]. rewrite shown_name83 by (rewrite ?length_fmap; done). split.
  - unfold source_name. rewrite fmap_app. f_equal. by destruct ext.
  - rewrite convert_source by (rewrite ?length_fmap; auto; by destruct b). f_equal. rewrite <- !list_fmap_compose.
    f_equal; apply list_fmap_ext; intros i x _; apply toupper_idem.
Qed.

Lemma names_eq_refl a : names_eq a a = true.
Proof. induction a as [|x a IH]; [done|]. simpl. rewrite Z.eqb_refl. by destruct (x =? 0). Qed.

Lemma names_eq_eq a b : Forall (fun c => c <> 0) b -> length a = length b -> names_eq a b = true <-> a = b.
Proof.
  intros Hb. revert a. induction Hb as [|y b Hy Hb IH]; intros [|x a] Hl; simpl in *; try done. destruct (Z.eqb_spec x y) as [->|Hne]; [|split; [done|congruence]].
  destruct (Z.eqb_spec y 0); [done|]. rewrite IH by lia. split; congruence.
Qed.

(** * Entries as bytes, properties *)

Definition dirent_ok (e : fat_dirent) : Prop :=
  length (name e) = 11%nat /\ length (res e) = 10%nat /\ - 2 ^ 7 <= attrib e < 2 ^ 7 /\ - 2 ^ 15 <= dtime e < 2 ^ 15 /\ - 2 ^ 15 <= ddate e < 2 ^ 15 /\
  - 2 ^ 15 <= start_cluster e < 2 ^ 15 /\ 0 <= fsize e < 2 ^ 32.

Lemma length_dirent_bytes e : dirent_ok e -> length (dirent_bytes e) = 32%nat.
Proof. intros (Hn & Hr & _). unfold dirent_bytes. rewrite !length_app, Hn, Hr. done. Qed.

Lemma get16_le16 x : - 2 ^ 15 <= x < 2 ^ 15 -> s16 (u8 x + 2 ^ 8 * u8 (Z.shiftr x 8)) = x.
Proof. intros Hx. rewrite Z.shiftr_div_pow2 by lia. unfold s16, u8. Z.div_mod_to_equations. lia. Qed.

Lemma get32_le32 x : 0 <= x < 2 ^ 32 -> u8 x + 2 ^ 8 * u8 (Z.shiftr x 8) + 2 ^ 16 * u8 (Z.shiftr x 16) + 2 ^ 24 * u8 (Z.shiftr x 24) = x.
Proof. intros Hx. rewrite !Z.shiftr_div_pow2 by lia. unfold u8. Z.div_mod_to_equations. lia. Qed.

Lemma get8_u8 x : - 2 ^ 7 <= x < 2 ^ 7 -> s8 (u8 x) = x.
Proof. intros Hx. unfold s8, u8. Z.div_mod_to_equations. lia. Qed.

Lemma dirent_of_bytes e : dirent_ok e -> dirent_of (dirent_bytes e) = e.
Proof.
  intros Hok. destruct e as [nm at' rs t dt st sz]. destruct Hok as (Hn & Hr & Ha & Ht & Hd & Hs & Hz). simpl in *.
  do 12 (destruct nm as [|? nm]; try discriminate Hn). do 11 (destruct rs as [|? rs]; try discriminate Hr).
  unfold dirent_of, dirent_bytes, get16, at_, le16, le32. cbn [name attrib res dtime ddate start_cluster fsize app take drop lookup list_lookup default].
  f_equal; [by apply get8_u8|by apply get16_le16..|by apply get32_le32].
Qed.

(** An entry is read from its 32 bytes as it was written. *)
Theorem dirent_round_trip e : dirent_ok e -> dirent_of (dirent_bytes e) = e /\ length (dirent_bytes e) = 32%nat.
Proof. intros Hok. split; [by apply dirent_of_bytes|by apply length_dirent_bytes]. Qed.

(** * A directory as a list of slots *)

(** The first element with [P]. *)
Fixpoint first {A} (P : A -> bool) (l : list A) : option nat :=
  match l with [] => None | e :: l => if P e then Some 0%nat else S <$> first P l end.

Lemma first_Some {A} P (l : list A) n : first P l = Some n -> exists e, l !! n = Some e /\ P e = true /\ forall i x, (i < n)%nat -> l !! i = Some x -> P x = false.
Proof.
  revert n. induction l as [|e l IH]; intros n; simpl; [done|]. destruct (P e) eqn:E.
  - intros [= <-]. exists e. split; [done|]. split; [done|]. lia.
  - destruct (first P l) as [m|]; [|done]. intros [= <-]. destruct (IH m eq_refl) as (x & Hx & HP & Hlt). exists x. split; [done|]. split; [done|].
    intros [|i] y Hi Hy; [simpl in Hy; congruence|]. eapply Hlt; [|exact Hy]. lia.
Qed.

Lemma first_None {A} P (l : list A) : first P l = None -> Forall (fun e => P e = false) l.
Proof. induction l as [|e l IH]; simpl; [constructor|]. destruct (P e) eqn:E; [done|]. destruct (first P l); [done|]. constructor; [done|by apply IH]. Qed.

Lemma first_app {A} P (l1 l2 : list A) : first P (l1 ++ l2) = match first P l1 with Some n => Some n | None => (fun n => length l1 + n)%nat <$> first P l2 end.
Proof.
  induction l1 as [|e l1 IH]; simpl; [by destruct (first P l2)|]. destruct (P e); [done|]. rewrite IH. destruct (first P l1); [done|]. by destruct (first P l2).
Qed.

Lemma first_lt {A} P (l : list A) n : first P l = Some n -> (n < length l)%nat.
Proof. intros (e & He & _)%first_Some. by apply lookup_lt_Some in He. Qed.

(** The first one is found again once it is in place. *)
Lemma first_insert {A} P (l : list A) n x :
  (n < length l)%nat -> P x = true -> (forall i y, (i < n)%nat -> l !! i = Some y -> P y = false) -> first P (<[n := x]> l) = Some n.
Proof.
  revert n. induction l as [|e l IH]; intros n Hn Hx Hlt; simpl in Hn; [lia|]. destruct n as [|n]; simpl; [by rewrite Hx|].
  rewrite (Hlt 0%nat e) by (done || lia). rewrite IH; [done|lia|done|]. intros i y Hi Hy. apply (Hlt (S i)); [lia|done].
Qed.

Lemma lookup_slots b k : slots b !! k = if bool_decide (k < 16)%nat then Some (slot (32 * Z.of_nat k) b) else None.
Proof.
  unfold slots. rewrite list_lookup_fmap. case_bool_decide as E.
  - rewrite lookup_seqZ_lt by lia. done.
  - rewrite lookup_seqZ_ge by lia. done.
Qed.

Lemma length_slots b : length (slots b) = 16%nat.
Proof. unfold slots. by rewrite length_fmap, length_seqZ. Qed.

Lemma slot_search_spec n P k b :
  (k <= 16)%nat -> (16 - k <= n)%nat ->
  slot_search n P (32 * Z.of_nat k) b = Some (32 * Z.of_nat (k + match first P (drop k (slots b)) with Some m => m | None => 16 - k end)).
Proof.
  revert k. induction n as [|n IH]; intros k Hk Hn; cbn [slot_search].
  - assert (k = 16%nat) as -> by lia. rewrite drop_ge by by rewrite length_slots. done.
  - destruct (Z.leb_spec 512 (32 * Z.of_nat k)).
    + assert (k = 16%nat) as -> by lia. rewrite drop_ge by by rewrite length_slots. done.
    + destruct (Z.ltb_spec 512 (32 * Z.of_nat k + 32)); [lia|].
      rewrite (drop_S (slots b) (slot (32 * Z.of_nat k) b) k) by (rewrite lookup_slots, bool_decide_true by lia; done). cbn [first].
      destruct (P (slot (32 * Z.of_nat k) b)); [f_equal; lia|]. replace (32 * Z.of_nat k + 32) with (32 * Z.of_nat (S k)) by lia. rewrite IH by lia.
      destruct (first P (drop (S k) (slots b))); simpl; f_equal; lia.
Qed.

Section DirSpec.
Context {D : Type} `{!BlockDev D}.

(** The blocks of a directory: clusters of a chain, or the blocks of the root directory,
    which have the numbers -12 to 1. *)
Fixpoint dchain (f : list Z) (c : Z) (l : list Z) : Prop :=
  match l with
  | [] => 0xff8 <= c
  | x :: l' => c = x /\ -12 <= x < NCLUSTERS /\ exists c', step_cluster x f = Some c' /\ dchain f c' l'
  end.

Definition dslots (d : D) (dev : Z) (l : list Z) : list (list Z) := l ≫= fun c => slots (block d dev (c + 31)).

Lemma dslots_cons d dev c l : dslots d dev (c :: l) = slots (block d dev (c + 31)) ++ dslots d dev l.
Proof. done. Qed.

Lemma length_dslots d dev l : length (dslots d dev l) = (16 * length l)%nat.
Proof. induction l as [|c l IH]; [done|]. rewrite dslots_cons, length_app, length_slots, IH. simpl. lia. Qed.

Lemma lookup_dslots d dev l n : dslots d dev l !! n = (c ← l !! (n / 16)%nat; slots (block d dev (c + 31)) !! (n mod 16)%nat).
Proof.
  revert n. induction l as [|c l IH]; intros n; [done|]. rewrite dslots_cons. destruct (decide (n < 16)%nat).
  - rewrite lookup_app_l by (rewrite length_slots; lia). by rewrite Nat.div_small, Nat.mod_small by done.
  - rewrite lookup_app_r by (rewrite length_slots; lia). rewrite length_slots, IH.
    assert (n = (n - 16) + 1 * 16)%nat as E by lia. assert (n / 16 = S ((n - 16) / 16))%nat as -> by (rewrite E at 1; rewrite Nat.div_add by lia; lia).
    assert (n mod 16 = (n - 16) mod 16)%nat as -> by (rewrite E at 1; by rewrite Nat.Div0.mod_add). done.
Qed.

Lemma dslots_ext d d' dev l : (forall c, c ∈ l -> block d' dev (c + 31) = block d dev (c + 31)) -> dslots d' dev l = dslots d dev l.
Proof.
  intros H. induction l as [|c l IH]; [done|]. rewrite !dslots_cons. rewrite H by by left. f_equal. apply IH. intros x Hx. apply H. by right.
Qed.

Lemma dchain_det f c l1 l2 : dchain f c l1 -> dchain f c l2 -> l1 = l2.
Proof.
  revert c l2. induction l1 as [|x l1 IH]; intros c [|y l2]; simpl; unfold NCLUSTERS in *; [done|lia|lia|].
  intros (-> & _ & c1 & E1 & H1) (<- & _ & c2 & E2 & H2). rewrite E1 in E2. injection E2 as <-. f_equal. by eapply IH.
Qed.

Lemma dchain_app f c l1 x l2 : dchain f c (l1 ++ x :: l2) -> dchain f x (x :: l2).
Proof. revert c. induction l1 as [|y l1 IH]; intros c; simpl; [intros (-> & ?); done|]. intros (_ & _ & c' & _ & H). by eapply IH. Qed.

Lemma dchain_nodup f c l : dchain f c l -> NoDup l.
Proof.
  revert c. induction l as [|x l IH]; intros c Hc; [constructor|]. pose proof Hc as (-> & Hx & c' & E & Hl). constructor; [|by eapply IH].
  intros (l1 & l2 & ->)%list_elem_of_split. pose proof (dchain_app _ _ (x :: l1) _ _ Hc) as H2. pose proof (dchain_det _ _ _ _ Hc H2) as Eq.
  apply (f_equal length) in Eq. simpl in Eq. rewrite length_app in Eq. simpl in Eq. lia.
Qed.

Lemma dchain_range f c l x : dchain f c l -> x ∈ l -> -12 <= x < NCLUSTERS.
Proof. revert c. induction l as [|y l IH]; intros c; [by intros _ ?%elem_of_nil|]. intros (_ & Hy & c' & _ & Hc) [->|Hx]%elem_of_cons; [done|by eapply IH]. Qed.

Lemma dchain_length f c l : dchain f c l -> (length l <= 3084)%nat.
Proof.
  intros Hc. replace 3084%nat with (length (seqZ (-12) (NCLUSTERS + 12))) by (rewrite length_seqZ; done).
  apply submseteq_length, NoDup_submseteq; [by eapply dchain_nodup|]. intros x Hx. apply elem_of_seqZ. pose proof (dchain_range _ _ _ _ Hc Hx). lia.
Qed.

(** A block of the directory that could not be read. *)
Definition read_error (dev : Z) (cs : list Z) : Prop := exists c d1, c ∈ cs /\ (bread dev (c + 31) d1).1 = None.

(** What [scan] comes to: an error, the first slot with [P], or none.  [k] is the number of
    slots passed over in the first block. *)
Definition scan_outcome (P : list Z -> bool) (dev : Z) (d : D) (cs : list Z) (k : nat) (off : Z) (r : scan_result) : Prop :=
  match first P (drop k (dslots d dev cs)) with
  | Some m => exists c, cs !! ((k + m) / 16)%nat = Some c /\
      r = Found c (32 * Z.of_nat ((k + m) mod 16)) (block d dev (c + 31)) (off + 32 * Z.of_nat m)
  | None => exists c, last cs = Some c /\ r = NotFound c
  end.

Lemma scan_slots_spec fuel P dev f d cs cur k off :
  dchain f cur cs -> cs <> [] -> (k < 16)%nat -> 0 <= off -> off + 512 * zlen cs < 2 ^ 31 -> (length cs <= fuel)%nat ->
  exists r d', scan fuel P dev cur (32 * Z.of_nat k) off f d = Some (r, d') /\ (forall dev b, block d' dev b = block d dev b) /\
    ((r = ReadError /\ read_error dev cs) \/ scan_outcome P dev d cs k off r).
Proof.
  revert cs cur k off d. induction fuel as [|fuel IH]; intros cs cur k off d Hc Hne Hk Hoff Hov Hfu; (destruct cs as [|c cs]; [done|]); [simpl in Hfu; lia|].
  pose proof Hc as (-> & Hr & c' & Est & Hc'). cbn [scan]. destruct (bread_cases d dev (c + 31)) as (d1 & Hd1 & [E|E]); rewrite E.
  { exists ReadError, d1. split; [done|]. split; [done|]. left. split; [done|]. exists c, d. split; [by left|]. by rewrite E. }
  rewrite slot_search_spec by lia. cbn [mbind option_bind]. unfold scan_outcome. rewrite dslots_cons, drop_app_le by (rewrite length_slots; lia). rewrite first_app.
  assert (zlen (c :: cs) = 1 + zlen cs) as Hz by (unfold zlen; simpl; lia). assert (0 <= zlen cs) by (unfold zlen; lia).
  destruct (first P (drop k (slots (block d dev (c + 31))))) as [m|] eqn:Em.
  - apply first_lt in Em. rewrite length_drop, length_slots in Em. rewrite s32_id by lia. destruct (Z.ltb_spec (32 * Z.of_nat (k + m)) 512); [|lia].
    do 2 eexists. split; [done|]. split; [done|]. right. exists c. rewrite Nat.div_small, Nat.mod_small by lia. split; [done|]. f_equal. lia.
  - rewrite s32_id by lia. replace (k + (16 - k))%nat with 16%nat by lia. change (32 * Z.of_nat 16 <? 512) with false. cbv iota. rewrite Est. cbn [mbind option_bind].
    rewrite length_drop, length_slots. destruct cs as [|c2 cs].
    + simpl in Hc'. destruct (Z.leb_spec 0xff8 c'); [|lia]. do 2 eexists. split; [done|]. split; [done|]. right. simpl. by exists c.
    + pose proof Hc' as (-> & Hr2 & _). destruct (Z.leb_spec 0xff8 c2); [unfold NCLUSTERS in *; lia|].
      destruct (IH (c2 :: cs) c2 0%nat (off + (32 * Z.of_nat 16 - 32 * Z.of_nat k)) d1) as (r & d' & Er & Hd' & Hres); [done|done|lia|lia|lia|simpl in *; lia|].
      change (32 * Z.of_nat 0) with 0 in Er. exists r, d'. split; [exact Er|]. split; [intros; by rewrite Hd', Hd1|].
      destruct Hres as [(-> & x & dx & Hx & Hbad)|Hres]; [left; split; [done|]; exists x, dx; split; [by right|done]|right]. unfold scan_outcome in Hres.
      rewrite (dslots_ext d d1) in Hres by (intros; apply Hd1). change (drop 0 ?l) with l in Hres.
      destruct (first P (dslots d dev (c2 :: cs))) as [m|]; cbn [fmap option_fmap option_map].
      * destruct Hres as (x & Hx & ->). exists x. replace (k + (16 - k + m))%nat with (m + 1 * 16)%nat by lia. rewrite Nat.div_add, Nat.Div0.mod_add by lia.
        rewrite Nat.add_1_r. split; [done|]. rewrite Hd1. f_equal. lia.
      * destruct Hres as (x & Hx & ->). by exists x.
Qed.

(** ** Writing a slot *)

Lemma slot_lookup pos b i : (i < 32)%nat -> slot pos b !! i = b !! (Z.to_nat pos + i)%nat.
Proof. intros Hi. unfold slot. rewrite lookup_take_lt by done. apply lookup_drop. Qed.

Lemma length_slot k b : length b = 512%nat -> (k < 16)%nat -> length (slot (32 * Z.of_nat k) b) = 32%nat.
Proof. intros Hb Hk. unfold slot. rewrite length_take, length_drop. lia. Qed.

Lemma slots_overwrite b k new :
  length b = 512%nat -> (k < 16)%nat -> length new = 32%nat -> slots (overwrite (Z.to_nat (32 * Z.of_nat k)) new b) = <[k := new]> (slots b).
Proof.
  intros Hb Hk Hn. assert (length (overwrite (Z.to_nat (32 * Z.of_nat k)) new b) = 512%nat) as Ho by (rewrite length_overwrite; lia).
  apply list_eq. intros j. rewrite list_lookup_insert, length_slots, !lookup_slots. repeat (case_bool_decide || case_decide); try lia; try done.
  - f_equal. apply list_eq_same_length with 32%nat; [done|subst; by apply length_slot|]. intros i x y Hi Hx Hy. rewrite slot_lookup in Hx by lia.
    rewrite lookup_overwrite in Hx by lia. rewrite bool_decide_true in Hx by lia. replace (_ - _)%nat with i in Hx by lia. congruence.
  - f_equal. apply list_eq_same_length with 32%nat; [by apply length_slot|by apply length_slot|]. intros i x y Hi Hx Hy. rewrite slot_lookup in Hx, Hy by lia.
    rewrite lookup_overwrite in Hx by lia. rewrite bool_decide_false in Hx by lia. congruence.
Qed.

Lemma overwrite_head b k x :
  length b = 512%nat -> (k < 16)%nat -> overwrite (Z.to_nat (32 * Z.of_nat k)) [x] b = overwrite (Z.to_nat (32 * Z.of_nat k)) (x :: drop 1 (slot (32 * Z.of_nat k) b)) b.
Proof.
  intros Hb Hk. pose proof (length_slot k b Hb Hk) as Hs. apply list_eq. intros i. rewrite !lookup_overwrite; [|cbn [length]; rewrite ?length_drop; lia|simpl; lia].
  cbn [length]. rewrite length_drop, Hs. case_bool_decide as E1.
  - rewrite bool_decide_true by lia. by replace (i - _)%nat with 0%nat by lia.
  - case_bool_decide as E2; [|done]. destruct (i - Z.to_nat (32 * Z.of_nat k))%nat as [|j] eqn:Ej; [lia|]. change ((x :: ?l) !! S j) with (l !! j).
    rewrite lookup_drop, slot_lookup by lia. f_equal. lia.
Qed.

(** Slot [j] of block [i] gets new contents. *)
Lemma dslots_write d d1 dev l i j c new :
  NoDup l -> l !! i = Some c -> (j < 16)%nat -> length new = 32%nat -> (forall dev b, block d1 dev b = block d dev b) ->
  dslots (bwrite dev (c + 31) (overwrite (Z.to_nat (32 * Z.of_nat j)) new (block d dev (c + 31))) d1) dev l = <[(16 * i + j)%nat := new]> (dslots d dev l).
Proof.
  intros Hnd Hi Hj Hn Hd1. set (b := block d dev (c + 31)) in *. assert (length b = 512%nat) as Hb by apply block_length. apply list_eq. intros n. pose proof (lookup_lt_Some _ _ _ Hi) as Hil.
  rewrite list_lookup_insert, length_dslots, !lookup_dslots. assert (n = 16 * (n / 16) + n mod 16 /\ n mod 16 < 16)%nat as [En Hm] by (split; [apply Nat.div_mod; lia|apply Nat.mod_upper_bound; lia]).
  destruct (l !! (n / 16)%nat) as [c'|] eqn:Ec; cbn [mbind option_bind].
  - rewrite bwrite_block by (rewrite length_overwrite; lia). case_bool_decide as E.
    + destruct E as [_ E]. assert (c' = c) as -> by lia. assert (n / 16 = i)%nat as Ei by (by eapply NoDup_lookup). rewrite slots_overwrite by done. rewrite list_lookup_insert, length_slots.
      repeat case_decide; try lia; done.
    + rewrite Hd1. rewrite decide_False; [done|]. intros [Hx _]. apply E. split; [done|]. assert (n / 16 = i)%nat as Ei by lia. rewrite Ei, Hi in Ec. congruence.
  - rewrite decide_False; [done|]. intros [Hx _]. apply lookup_ge_None in Ec. lia.
Qed.

(** ** Live entries *)

Definition live_slot (e : list Z) : Prop := free_slot e = false.
Definition entries (d : D) (dev : Z) (l : list Z) : list (list Z) := filter live_slot (dslots d dev l).

Lemma filter_insert_new {A} (P : A -> Prop) `{!forall x, Decision (P x)} (l : list A) n old new :
  l !! n = Some old -> ~ P old -> P new -> filter P (<[n := new]> l) ≡ₚ new :: filter P l.
Proof.
  revert n. induction l as [|x l IH]; intros [|n] Hn Hold Hnew; simpl in Hn; try done.
  - injection Hn as ->. simpl. rewrite !filter_cons. by rewrite decide_True, decide_False.
  - simpl. rewrite !filter_cons. destruct (decide (P x)); rewrite (IH n) by done; [apply Permutation_swap|done].
Qed.

Lemma filter_insert_old {A} (P : A -> Prop) `{!forall x, Decision (P x)} (l : list A) n old new :
  l !! n = Some old -> P old -> ~ P new -> filter P l ≡ₚ old :: filter P (<[n := new]> l).
Proof.
  revert n. induction l as [|x l IH]; intros [|n] Hn Hold Hnew; simpl in Hn; try done.
  - injection Hn as ->. simpl. rewrite !filter_cons. by rewrite decide_True, decide_False.
  - simpl. rewrite !filter_cons. destruct (decide (P x)); rewrite (IH n) by done; [apply Permutation_swap|done].
Qed.

(** ** The blocks of a directory *)

Definition root_blocks : list Z := seqZ (-12) 14.
Definition dir_blocks (f : list Z) (c : Z) (l : list Z) : Prop := (c = -12 /\ l = root_blocks) \/ (l <> [] /\ chain f c l).

Lemma chain_dchain f c l : fat_ok f -> chain f c l -> dchain f c l.
Proof.
  intros Hf. revert c. induction l as [|x l IH]; intros c; simpl; [done|]. intros (-> & Hx & Hc). split; [done|]. split; [lia|].
  exists (clval f x). split; [|by apply IH]. unfold step_cluster. destruct (Z.ltb_spec x 1); [lia|]. destruct (Z.eqb_spec x 1); [lia|]. by destruct (next_cluster_chain f x Hf Hx).
Qed.

Lemma root_dchain f : dchain f (-12) root_blocks.
Proof. unfold root_blocks. change (seqZ (-12) 14) with [-12; -11; -10; -9; -8; -7; -6; -5; -4; -3; -2; -1; 0; 1]. unfold dchain, NCLUSTERS. repeat (split; [done|]; split; [lia|]; eexists; split; [reflexivity|]). lia. Qed.

Lemma dir_dchain f c l : fat_ok f -> dir_blocks f c l -> dchain f c l /\ l <> [].
Proof. intros Hf [[-> ->]|[Hne Hc]]; [split; [apply root_dchain|done]|]. split; [by apply chain_dchain|done]. Qed.

(** A scan from the start of a directory. *)
Lemma scan_dir P dev f d c l :
  fat_ok f -> dir_blocks f c l ->
  exists r d', scan DIR_FUEL P dev c 0 0 f d = Some (r, d') /\ (forall dev b, block d' dev b = block d dev b) /\
    ((r = ReadError /\ read_error dev l) \/ scan_outcome P dev d l 0 0 r).
Proof.
  intros Hf Hd. destruct (dir_dchain f c l Hf Hd) as [Hc Hne]. pose proof (dchain_length _ _ _ Hc). change 0 with (32 * Z.of_nat 0) at 1.
  apply scan_slots_spec; [done|done|lia|lia|unfold zlen; lia|unfold DIR_FUEL; lia].
Qed.

(** * Adding an entry *)

(** A directory on the mounted device, whose blocks are [l]. *)
Definition dir_ok (fs : fat12_fsdata) (dvn : vnode) (l : list Z) : Prop :=
  fat_ok (fat fs) /\ geometry_ok fs /\ v_dev dvn = 0 /\ dir_blocks (fat fs) (start_cluster (v_data dvn)) l.

Definition time_ok (secs : Z) : Prop := 0 <= secs < 2 ^ 32 /\ ~ new_year_day (secs / 86400).

Lemma mark_time_some secs e :
  time_ok secs -> exists t g, mark_time_date secs e = Some (set_stamp t g e) /\ - 2 ^ 15 <= t < 2 ^ 15 /\ - 2 ^ 15 <= g < 2 ^ 15.
Proof.
  intros [Hs Hny]. destruct (secs_to_date_some secs Hs Hny) as [dt E]. unfold mark_time_date. rewrite E. cbn [mbind option_bind]. do 2 eexists. split; [done|]. split; apply s16_range.
Qed.

(** Unused slots. *)
Definition zeros (n : nat) : list (list Z) := replicate n (replicate 32 0).

(** From [fs], [d], [l] to [fs'], [d'], [l'] the directory got [e] in its first free slot; it
    was made longer by blocks of unused slots if it had none.  Nothing else changed. *)
Record added (e : list Z) (fs : fat12_fsdata) (d : D) (l : list Z) (fs' : fat12_fsdata) (d' : D) (l' : list Z) : Prop := {
  a_prefix : l `prefix_of` l';
  a_slot : exists n, first free_slot (dslots d 0 l ++ zeros (16 * (length l' - length l))) = Some n /\
    dslots d' 0 l' = <[n := e]> (dslots d 0 l ++ zeros (16 * (length l' - length l)));
  a_blocks dev b : dev <> 0 \/ b - 31 ∉ l' -> block d' dev b = block d dev b;
  a_new c : c ∈ l' -> c ∈ l \/ 2 <= c < NCLUSTERS /\ clval (fat fs) c = 0;
  a_fs : fs' = set_fat (fat fs') fs;
  a_others c : 0 <= c < NCLUSTERS -> clval (fat fs) c <> 0 -> c ∉ l -> clval (fat fs') c = clval (fat fs) c }.

(** Why an entry was not added. *)
Definition add_error (fs : fat12_fsdata) (d : D) (l : list Z) (ret : Z) : Prop :=
  ret = EDISK_READ /\ read_error 0 l \/
  first free_slot (dslots d 0 l) = None /\
    (ret = EDIR_FULL /\ l = root_blocks \/ ret = ENO_DISK_SPACE /\ forall c, 2 <= c < total_sect fs / spc fs -> clval (fat fs) c <> 0).

Lemma added_slot e fs d d1 l n c :
  NoDup l -> first free_slot (dslots d 0 l) = Some n -> l !! (n / 16)%nat = Some c -> length e = 32%nat -> (forall dev b, block d1 dev b = block d dev b) ->
  added e fs d l fs (bwrite 0 (c + 31) (overwrite (Z.to_nat (32 * Z.of_nat (n mod 16))) e (block d 0 (c + 31))) d1) l.
Proof.
  intros Hnd Hfi Hc He Hd1. pose proof (Nat.mod_upper_bound n 16 ltac:(lia)) as Hm. pose proof (block_length d 0 (c + 31)) as Hb. split; auto.
  - exists n. replace (16 * (length l - length l))%nat with 0%nat by lia. change (zeros 0) with (@nil (list Z)). rewrite app_nil_r. split; [done|].
    rewrite (dslots_write d d1 0 l (n / 16) (n mod 16) c e) by done. f_equal. symmetry. apply Nat.div_mod. lia.
  - intros dev b Hdb. rewrite bwrite_block by (rewrite length_overwrite; lia). case_bool_decide as E; [|apply Hd1]. destruct E as [-> ->]. destruct Hdb as [?|Hdb]; [done|].
    destruct Hdb. replace (c + 31 - 31) with c by lia. by eapply list_elem_of_lookup_2.
  - by rewrite set_fat_id.
Qed.

Lemma added_cluster e fs d d1 l1 cl r f' f2 start :
  fat_ok (fat fs) -> chain (fat fs) start (l1 ++ [cl]) -> first free_slot (dslots d 0 (l1 ++ [cl])) = None -> free_slot (replicate 32 0) = true -> length e = 32%nat ->
  (forall dev b, block d1 dev b = block d dev b) ->
  2 <= r < NCLUSTERS -> clval (fat fs) r = 0 -> changed (fat fs) f' r 0xfff ->
  (forall c', 0 <= c' < NCLUSTERS -> clval f2 c' = if c' =? cl then r mod 4096 else clval f' c') ->
  added e fs d (l1 ++ [cl]) (set_fat f2 fs) (bwrite 0 (r + 31) (overwrite 0 e (replicate 512 0)) d1) ((l1 ++ [cl]) ++ [r]) /\ chain f2 start ((l1 ++ [cl]) ++ [r]).
Proof.
  intros Hf Hch Hno Hz He Hd1 Hr Hrz Hchg Hv2. pose proof (chain_extend _ _ _ _ _ _ _ Hch Hr Hrz Hchg Hv2) as Hch2. split; [|done].
  assert (length (overwrite 0 e (replicate 512 0)) = 512%nat) as Hlen by (rewrite length_overwrite; rewrite length_replicate; lia).
  assert (r ∉ l1 ++ [cl]) as Hnin by (intros Hin; by apply (chain_used _ _ _ _ Hch Hin)). split; cbn [fat set_fat]; auto.
  - by exists [r].
  - set (l := l1 ++ [cl]) in *. exists (length (dslots d 0 l)). replace (16 * (length (l ++ [r]) - length l))%nat with 16%nat by (rewrite length_app; simpl; lia).
    split; [rewrite first_app, Hno; change (first free_slot (zeros 16)) with (Some 0%nat); cbn [fmap option_fmap option_map]; by rewrite Nat.add_0_r|]. unfold dslots at 1. rewrite bind_app. fold (dslots (bwrite 0 (r + 31) (overwrite 0 e (replicate 512 0)) d1) 0 l).
    rewrite (dslots_ext d).
    2:{ intros c Hc. rewrite bwrite_block by done. rewrite bool_decide_false; [apply Hd1|]. intros [_ E]. apply Hnin. by replace r with c by lia. }
    rewrite insert_app_r_alt by lia. f_equal. rewrite Nat.sub_diag. change ([r] ≫= ?g) with (g r ++ []). rewrite app_nil_r. rewrite bwrite_block by done. rewrite bool_decide_true by done.
    change 0%nat with (Z.to_nat (32 * Z.of_nat 0)) at 1. rewrite slots_overwrite by (rewrite ?length_replicate; lia || done). f_equal.
  - intros dev b Hdb. rewrite bwrite_block by done. case_bool_decide as E; [|apply Hd1]. destruct E as [-> ->]. destruct Hdb as [?|Hdb]; [done|]. destruct Hdb.
    apply elem_of_app. right. replace (r + 31 - 31) with r by lia. by left.
  - intros c [Hc| ->%list_elem_of_singleton]%elem_of_app; [by left|by right].
  - intros c Hc Hnz Hn. rewrite Hv2 by done. destruct (Z.eqb_spec c cl) as [->|_]; [destruct Hn; apply elem_of_app; right; by left|].
    destruct Hchg as [_ Hv]. rewrite Hv by done. destruct (Z.eqb_spec c r) as [->|_]; done.
Qed.

Lemma add_dir_entry_spec secs dvn dent fs d l :
  dir_ok fs dvn l -> dirent_ok dent -> time_ok secs ->
  exists ret dvn' fs' d', add_dir_entry secs dvn dent fs d = Some (ret, dvn', fs', d') /\
    ((add_error fs d l ret /\ dvn' = dvn /\ fs' = fs /\ forall dev b, block d' dev b = block d dev b) \/
     (ret = 1 /\ exists l', dir_ok fs' dvn' l' /\ (exists t g, v_data dvn' = set_stamp t g (v_data dvn)) /\ added (dirent_bytes dent) fs d l fs' d' l')).
Proof.
  intros (Hf & Hg & Hdev & Hdir) Hde Ht. unfold add_dir_entry. rewrite Hdev. destruct (dir_dchain _ _ _ Hf Hdir) as [Hdc Hne]. pose proof (dchain_nodup _ _ _ Hdc) as Hnd.
  pose proof (length_dirent_bytes _ Hde) as Hlen. destruct (scan_dir free_slot 0 (fat fs) d _ l Hf Hdir) as (r & d1 & -> & Hd1 & Hres). cbn [mbind option_bind].
  destruct (mark_time_some secs (v_data dvn) Ht) as (st & sd & Ee & _). rewrite Ee. cbn [mbind option_bind].
  destruct Hres as [[-> Hbad]|Hres]; [do 4 eexists; split; [done|]; left; split; [by left|done]|]. unfold scan_outcome in Hres. change (drop 0 ?l) with l in Hres.
  destruct (first free_slot (dslots d 0 l)) as [n|] eqn:Efi.
  - destruct Hres as (c & Hc & ->). do 4 eexists. split; [done|]. right. split; [done|]. exists l. split; [|split; [by do 2 eexists|by apply added_slot]].
    split; [done|]. split; [done|]. split; [done|]. exact Hdir.
  - destruct Hres as (c & Hc & ->). destruct Hdir as [[Es ->]|[_ Hch]].
    + simpl in Hc. injection Hc as <-. simpl. do 4 eexists. split; [done|]. left. split; [right; split; [done|by left]|done].
    + apply last_Some in Hc as [l1 ->]. assert (2 <= c < NCLUSTERS) as Hcr by (eapply chain_range; [exact Hch|]; apply elem_of_app; right; by left).
      destruct (Z.leb_spec 2 c); [|lia]. destruct (alloc_block12_spec fs Hf Hg) as (r & f' & -> & Hr). cbn [mbind option_bind].
      destruct Hr as [(-> & -> & Hfull)|(Hr & Hrz & _ & Hf' & Hv)].
      { simpl (0 =? 0). cbv iota. do 4 eexists. split; [done|]. left. split; [right; split; [done|right; done]|]. by rewrite set_fat_id. }
      assert (2 <= r < NCLUSTERS) as Hr' by (destruct Hg as (_ & _ & ?); lia). destruct (Z.eqb_spec r 0); [lia|]. simpl (fat (set_fat _ _)).
      destruct (set_clval12_some f' c r Hf') as (f2 & -> & Hf2 & Hv2); [lia|unfold NCLUSTERS in *; lia|]. cbn [mbind option_bind].
      destruct (added_cluster (dirent_bytes dent) fs d d1 l1 c r f' f2 _ Hf Hch Efi eq_refl Hlen Hd1 Hr' Hrz (conj Hf' Hv) Hv2) as [Ha Hch2].
      do 4 eexists. split; [done|]. right. split; [done|]. exists ((l1 ++ [c]) ++ [r]). split; [|split; [by do 2 eexists|exact Ha]]. split; [exact Hf2|]. split; [exact Hg|]. split; [done|].
      right. split; [by destruct l1|]. exact Hch2.
Qed.

Lemma zeros_free n : filter live_slot (zeros n) = [].
Proof. induction n as [|n IH]; [done|]. unfold zeros in *. simpl. rewrite filter_cons, decide_False by done. exact IH. Qed.

Lemma added_entries e fs d l fs' d' l' : added e fs d l fs' d' l' -> live_slot e -> entries d' 0 l' ≡ₚ e :: entries d 0 l.
Proof.
  intros Ha He. destruct (a_slot _ _ _ _ _ _ _ Ha) as (n & Hfi & Es). apply first_Some in Hfi as (old & Hold & Hfree & _). unfold entries. rewrite Es.
  rewrite (filter_insert_new live_slot _ n old e) by (done || (unfold live_slot; congruence)). rewrite filter_app, zeros_free, app_nil_r. done.
Qed.

(** Adding an entry.  [add_dir_entry] puts the 32 bytes of the entry into the first free
    slot of the directory, or into a new cluster linked to the end of a subdirectory that is
    full; the entries in use are those before and the new one, no block of another file and
    no other cluster's entry of the table changes.  It fails, changing nothing, on a read
    error, when the root directory is full, or when no cluster is free. *)
Theorem add_dir_entry_adds secs dvn dent fs d l :
  dir_ok fs dvn l -> dirent_ok dent -> free_slot (dirent_bytes dent) = false -> time_ok secs ->
  exists ret dvn' fs' d', add_dir_entry secs dvn dent fs d = Some (ret, dvn', fs', d') /\
    ((add_error fs d l ret /\ dvn' = dvn /\ fs' = fs /\ forall dev b, block d' dev b = block d dev b) \/
     (ret = 1 /\ exists l', dir_ok fs' dvn' l' /\ added (dirent_bytes dent) fs d l fs' d' l' /\ entries d' 0 l' ≡ₚ dirent_bytes dent :: entries d 0 l)).
Proof.
  intros Hd He Hlive Ht. destruct (add_dir_entry_spec secs dvn dent fs d l Hd He Ht) as (ret & dvn' & fs' & d' & E & Hres). exists ret, dvn', fs', d'. split; [exact E|].
  destruct Hres as [Herr|(Hret & l' & Hd' & _ & Ha)]; [by left|right]. split; [done|]. exists l'. split; [done|]. split; [done|]. by eapply added_entries.
Qed.

(** * Deleting an entry *)

(** A name of 11 characters that can be looked for. *)
Definition name_ok (nm : list Z) : Prop := length nm = 11%nat /\ Forall (fun c => c <> 0) nm /\ nm !! 0%nat <> Some 0xE5.

Lemma named_live nm e : name_ok nm -> length e = 32%nat -> names_eq (take 11 e) nm = true -> live_slot e.
Proof.
  intros (Hl & Hz & H5) He Hn. apply names_eq_eq in Hn; [|done|rewrite length_take; lia]. unfold live_slot, free_slot, at_. destruct e as [|x e]; [done|]. simpl in *. subst nm.
  apply Forall_cons in Hz as [Hx _]. simpl in H5. destruct (Z.eqb_spec x 0); [done|]. destruct (Z.eqb_spec x 0xE5); [congruence|done].
Qed.

(** From [fs], [d], [l] to [fs'], [d'], [l'] the entry [e] left the directory, with its block
    if it was the last one there. *)
Record removed (e : list Z) (fs : fat12_fsdata) (d : D) (l : list Z) (fs' : fat12_fsdata) (d' : D) (l' : list Z) : Prop := {
  r_entries : entries d 0 l ≡ₚ e :: entries d' 0 l';
  r_sublist : l' `sublist_of` l;
  r_blocks dev b : dev <> 0 \/ b - 31 ∉ l -> block d' dev b = block d dev b;
  r_fs : fs' = set_fat (fat fs') fs;
  r_freed c : 0 <= c < NCLUSTERS -> c ∈ l -> c ∉ l' -> clval (fat fs') c = 0;
  r_others c : 0 <= c < NCLUSTERS -> c ∉ l -> clval (fat fs') c = clval (fat fs) c }.

Lemma length_entry d dev l n e : dslots d dev l !! n = Some e -> length e = 32%nat.
Proof.
  rewrite lookup_dslots. destruct (l !! (n / 16)%nat); [|done]. cbn [mbind option_bind]. rewrite lookup_slots. case_bool_decide; [|done]. intros [= <-]. by apply length_slot; [apply block_length|].
Qed.

Lemma removed_slot e fs d d1 l n c :
  NoDup l -> dslots d 0 l !! n = Some e -> l !! (n / 16)%nat = Some c -> live_slot e -> (forall dev b, block d1 dev b = block d dev b) ->
  removed e fs d l fs (bwrite 0 (c + 31) (overwrite (Z.to_nat (32 * Z.of_nat (n mod 16))) [0xE5] (block d 0 (c + 31))) d1) l.
Proof.
  intros Hnd Hn Hc Hlive Hd1. pose proof (Nat.mod_upper_bound n 16 ltac:(lia)) as Hm. pose proof (block_length d 0 (c + 31)) as Hb.
  assert (slot (32 * Z.of_nat (n mod 16)) (block d 0 (c + 31)) = e) as Ee by (rewrite lookup_dslots, Hc in Hn; cbn [mbind option_bind] in Hn; rewrite lookup_slots, bool_decide_true in Hn by done; congruence).
  rewrite overwrite_head by done. rewrite Ee. pose proof (length_entry _ _ _ _ _ Hn) as Hle.
  assert (length (0xE5 :: drop 1 e) = 32%nat) as Hlen by (cbn [length]; rewrite length_drop; lia). split; auto.
  - unfold entries. rewrite (dslots_write d d1 0 l (n / 16) (n mod 16) c (0xE5 :: drop 1 e)) by done. rewrite <- (Nat.div_mod n 16) by lia.
    by apply filter_insert_old.
  - intros dev b Hdb. rewrite bwrite_block by (rewrite length_overwrite; lia). case_bool_decide as E; [|apply Hd1]. destruct E as [-> ->]. destruct Hdb as [?|Hdb]; [done|].
    destruct Hdb. replace (c + 31 - 31) with c by lia. by eapply list_elem_of_lookup_2.
  - by rewrite set_fat_id.
  - done.
Qed.

(** The block of the entry holds no other one. *)
Lemma entries_block d c n e :
  slots (block d 0 (c + 31)) !! n = Some e -> live_slot e -> forallb free_slot (slots (overwrite (Z.to_nat (32 * Z.of_nat n)) [0xE5] (block d 0 (c + 31)))) = true ->
  filter live_slot (slots (block d 0 (c + 31))) ≡ₚ [e].
Proof.
  intros Hn Hlive Hall. pose proof (block_length d 0 (c + 31)) as Hb. assert (n < 16)%nat as Hlt by (apply lookup_lt_Some in Hn; by rewrite length_slots in Hn).
  rewrite overwrite_head in Hall by done. pose proof Hn as Hn'. rewrite lookup_slots, bool_decide_true in Hn' by done. injection Hn' as Hn'.
  pose proof (length_slot n _ Hb Hlt) as Hle. rewrite slots_overwrite in Hall; [|done|done|cbn [length]; rewrite length_drop; lia]. rewrite Hn' in Hall, Hle.
  rewrite (filter_insert_old live_slot _ n e (0xE5 :: drop 1 e)) by done. rewrite forallb_forall in Hall.
  assert (filter live_slot (<[n := 0xE5 :: drop 1 e]> (slots (block d 0 (c + 31)))) = []) as ->; [|done].
  destruct (filter live_slot _) as [|x r] eqn:E; [done|]. exfalso. assert (x ∈ filter live_slot (<[n := 0xE5 :: drop 1 e]> (slots (block d 0 (c + 31))))) as Hx by (rewrite E; by left).
  apply list_elem_of_filter in Hx as [Hx Hin]. unfold live_slot in Hx. rewrite Hall in Hx; [done|by apply list_elem_of_In].
Qed.

Lemma dslots_app d dev l1 l2 : dslots d dev (l1 ++ l2) = dslots d dev l1 ++ dslots d dev l2.
Proof. apply bind_app. Qed.

Lemma removed_block e fs d d1 l1 p cl l2 k start f' :
  fat_ok (fat fs) -> chain (fat fs) start (l1 ++ p :: cl :: l2) -> slots (block d 0 (cl + 31)) !! k = Some e -> live_slot e ->
  forallb free_slot (slots (overwrite (Z.to_nat (32 * Z.of_nat k)) [0xE5] (block d 0 (cl + 31)))) = true -> (forall dev b, block d1 dev b = block d dev b) ->
  clval f' cl = 0 -> (forall c', 0 <= c' < NCLUSTERS -> c' <> p -> c' <> cl -> clval f' c' = clval (fat fs) c') ->
  removed e fs d (l1 ++ p :: cl :: l2) (set_fat f' fs) (bdiscard 0 (cl + 31) d1) (l1 ++ p :: l2).
Proof.
  intros Hf Hch Hk Hlive Hall Hd1 Hz Hoth. pose proof (chain_nodup _ _ _ Hch) as Hnd.
  assert (cl ∉ l1 ++ p :: l2) as Hnin.
  { apply NoDup_app in Hnd as (_ & Hd & Hnd). apply NoDup_cons in Hnd as [Hp Hnd]. apply NoDup_cons in Hnd as [Hcl _]. intros [Hin|[->|Hin]%elem_of_cons]%elem_of_app; [|by apply Hp; left|done].
    apply (Hd cl Hin). right. by left. }
  split; cbn [fat set_fat].
  - unfold entries. rewrite (dslots_ext d (bdiscard 0 (cl + 31) d1)).
    2:{ intros c Hc. rewrite bdiscard_block; [apply Hd1|]. right. intros E. apply Hnin. by replace cl with c by lia. }
    rewrite !dslots_app, !dslots_cons, !filter_app. rewrite (entries_block d cl k e Hk Hlive Hall). cbn [app]. by rewrite app_assoc, <- Permutation_middle, <- app_assoc.
  - apply sublist_app; [done|]. apply sublist_skip, sublist_cons. done.
  - intros dev b Hdb. rewrite bdiscard_block; [apply Hd1|]. destruct Hdb as [?|Hdb]; [by left|right]. intros ->. apply Hdb. replace (cl + 31 - 31) with cl by lia. apply elem_of_app. right. right. by left.
  - done.
  - intros c Hc Hin Hn. replace c with cl; [done|]. apply elem_of_app in Hin as [Hin|[->|[->|Hin]%elem_of_cons]%elem_of_cons]; [|..|]; try done; destruct Hn; apply elem_of_app; [by left|right; by left|right; by right].
  - intros c Hc Hn. apply Hoth; [done| |]; intros ->; apply Hn; apply elem_of_app; right; [by left|right; by left].
Qed.

(** In a subdirectory the first slot is in use, for an entry that is not to be deleted: dot. *)
Definition keeps_dot (d : D) (l nm : list Z) : Prop :=
  l = root_blocks \/ exists e, dslots d 0 l !! 0%nat = Some e /\ live_slot e /\ names_eq (take 11 e) nm = false.

Lemma first_block_kept d l nm n e c :
  keeps_dot d l nm -> l <> root_blocks -> dslots d 0 l !! n = Some e -> names_eq (take 11 e) nm = true -> l !! 0%nat = Some c -> (n / 16 = 0)%nat ->
  forallb free_slot (slots (overwrite (Z.to_nat (32 * Z.of_nat (n mod 16))) [0xE5] (block d 0 (c + 31)))) = false.
Proof.
  intros [?|(e0 & H0 & Hl0 & Hn0)] Hne Hn HP Hc Hq; [done|]. pose proof (Nat.mod_upper_bound n 16 ltac:(lia)) as Hm. apply not_true_iff_false. rewrite forallb_forall. intros Hall.
  pose proof (block_length d 0 (c + 31)) as Hb. rewrite overwrite_head in Hall by done. rewrite slots_overwrite in Hall; [|done|done|cbn [length]; rewrite length_drop, length_slot by done; lia].
  rewrite lookup_dslots in H0. change (0 / 16)%nat with 0%nat in H0. change (0 mod 16)%nat with 0%nat in H0. rewrite Hc in H0. cbn [mbind option_bind] in H0.
  rewrite lookup_dslots, Hq, Hc in Hn. cbn [mbind option_bind] in Hn. assert (n mod 16 <> 0)%nat as Hnz by (intros E; rewrite E in Hn; congruence).
  unfold live_slot in Hl0. rewrite Hall in Hl0; [done|]. apply list_elem_of_In. apply list_elem_of_lookup_2 with 0%nat. rewrite list_lookup_insert_ne by done. exact H0.
Qed.

Lemma delete_dir_entry_spec secs dvn nm fs d l :
  dir_ok fs dvn l -> name_ok nm -> keeps_dot d l nm -> time_ok secs ->
  exists ret dvn' fs' d', delete_dir_entry secs dvn nm fs d = Some (ret, dvn', fs', d') /\
    (((ret = EDISK_READ /\ read_error 0 l \/ ret = EDIR_ENTRY_NOT_FOUND /\ Forall (fun e => names_eq (take 11 e) nm = false) (dslots d 0 l)) /\
      dvn' = dvn /\ fs' = fs /\ forall dev b, block d' dev b = block d dev b) \/
     (ret = 1 /\ exists l' e, dir_ok fs' dvn' l' /\ e ∈ dslots d 0 l /\ names_eq (take 11 e) nm = true /\ removed e fs d l fs' d' l')).
Proof.
  intros (Hf & Hg & Hdev & Hdir) Hnm Hdot Ht. unfold delete_dir_entry. rewrite Hdev. destruct (dir_dchain _ _ _ Hf Hdir) as [Hdc Hne]. pose proof (dchain_nodup _ _ _ Hdc) as Hnd.
  destruct (scan_dir (fun e => names_eq (take 11 e) nm) 0 (fat fs) d _ l Hf Hdir) as (r & d1 & -> & Hd1 & Hres). cbn [mbind option_bind].
  destruct (mark_time_some secs (v_data dvn) Ht) as (st & sd & Ee & _).
  destruct Hres as [[-> Hbad]|Hres]; [do 4 eexists; split; [done|]; left; split; [by left|done]|]. unfold scan_outcome in Hres. change (drop 0 ?l) with l in Hres.
  destruct (first _ (dslots d 0 l)) as [n|] eqn:Efi.
  2:{ destruct Hres as (c & _ & ->). do 4 eexists. split; [done|]. left. split; [|done]. right. split; [done|]. by apply first_None in Efi. }
  destruct Hres as (c & Hc & ->). cbn [Nat.add] in Hc |- *. apply first_Some in Efi as (e & He & HP & _). pose proof (length_entry _ _ _ _ _ He) as Hle. pose proof (named_live nm e Hnm Hle HP) as Hlive.
  pose proof He as Hk. rewrite lookup_dslots, Hc in Hk. cbn [mbind option_bind] in Hk.
  assert (e ∈ dslots d 0 l) as Hin by by eapply list_elem_of_lookup_2.
  destruct ((2 <=? c) && _) eqn:Eb.
  - apply andb_true_iff in Eb as [E2 Hall]. apply Z.leb_le in E2. destruct Hdir as [[_ ->]|[_ Hch]].
    { exfalso. apply list_elem_of_lookup_2 in Hc. apply elem_of_seqZ in Hc. lia. }
    assert (l <> root_blocks) as Hnr by (intros ->; apply (chain_range _ _ _ (-12)) in Hch; [lia|apply elem_of_seqZ; lia]).
    pose proof (list_elem_of_split_length _ _ _ Hc) as (l0 & l2 & El & Elen). destruct (decide (l0 = [])) as [->|Hl0].
    { exfalso. simpl in Elen. assert (l !! 0%nat = Some c) as Hc0 by (by rewrite El). pose proof (first_block_kept d l nm n e c Hdot Hnr He HP Hc0 Elen) as Hx. congruence. }
    destruct (exists_last Hl0) as (l1 & p & ->). rewrite <- app_assoc in El. simpl in El. subst l.
    destruct (delete_cluster_spec fs _ l1 p c l2 Hf Hch) as (f' & -> & Hf' & Hch' & Hz & Hoth). cbn [mbind option_bind]. rewrite Ee. cbn [mbind option_bind].
    do 4 eexists. split; [done|]. right. split; [done|]. exists (l1 ++ p :: l2), e. split; [|split; [exact Hin|split; [exact HP|by eapply removed_block]]].
    split; [exact Hf'|]. split; [exact Hg|]. split; [done|]. right. split; [by destruct l1|]. exact Hch'.
  - cbn [mbind option_bind]. rewrite Ee. cbn [mbind option_bind]. do 4 eexists. split; [done|]. right. split; [done|]. exists l, e.
    split; [|split; [exact Hin|split; [exact HP|by apply removed_slot]]]. split; [done|]. split; [done|]. split; [done|].
    exact Hdir.
Qed.

(** Deleting an entry.  [delete_dir_entry] takes the first entry with the name out of the
    directory and no other: the entries in use before are those after and that one.  A cluster
    of a subdirectory whose last entry it was is unlinked and free.  Blocks and table
    entries outside the directory are as they were; without such an entry, or on a read
    error, nothing changes. *)
Theorem delete_dir_entry_removes secs dvn nm fs d l :
  dir_ok fs dvn l -> name_ok nm -> keeps_dot d l nm -> time_ok secs ->
  exists ret dvn' fs' d', delete_dir_entry secs dvn nm fs d = Some (ret, dvn', fs', d') /\
    (((ret = EDISK_READ /\ read_error 0 l \/ ret = EDIR_ENTRY_NOT_FOUND /\ Forall (fun e => names_eq (take 11 e) nm = false) (dslots d 0 l)) /\
      dvn' = dvn /\ fs' = fs /\ forall dev b, block d' dev b = block d dev b) \/
     (ret = 1 /\ exists l' e, dir_ok fs' dvn' l' /\ e ∈ dslots d 0 l /\ names_eq (take 11 e) nm = true /\ removed e fs d l fs' d' l')).
Proof. apply delete_dir_entry_spec. Qed.

(** * Reading a directory *)

(** The device reads the blocks of the directory, and none beyond the last number that a cluster
    can have. *)
Definition readable (l : list Z) : Prop := forall (d : D) c, c ∈ l -> (bread 0 (c + 31) d).1 = Some (block d 0 (c + 31)).
Definition ends : Prop := forall (d : D) b, 31 + 0xff8 <= b -> (bread 0 b d).1 = None.

Lemma walk_dir_spec i f c l x : dchain f c l -> l !! i = Some x -> walk_dir i c f = Some (x, 0%nat).
Proof.
  revert c l. induction i as [|i IH]; intros c l Hc Hx; (destruct l as [|y l]; [done|]); destruct Hc as (-> & Hy & c' & E & Hc); cbn [walk_dir].
  - by injection Hx as ->.
  - simpl in Hx. rewrite E. cbn [mbind option_bind]. destruct l as [|z l]; [done|]. pose proof Hc as (-> & Hz & _). destruct (Z.leb_spec 0xff8 z); [unfold NCLUSTERS in *; lia|]. by eapply IH.
Qed.

Lemma walk_dir_end f c l : dchain f c l -> l <> [] -> exists x, walk_dir (length l) c f = Some (x, 0%nat) /\ 0xff8 <= x.
Proof.
  revert c. induction l as [|y l IH]; intros c Hc Hne; [done|]. destruct Hc as (-> & Hy & c' & E & Hc). cbn [walk_dir length]. rewrite E. cbn [mbind option_bind].
  destruct l as [|z l].
  - simpl in Hc. destruct (Z.leb_spec 0xff8 c'); [|lia]. by exists c'.
  - pose proof Hc as (-> & Hz & _). destruct (Z.leb_spec 0xff8 z); [unfold NCLUSTERS in *; lia|]. by apply IH.
Qed.

(** What the caller gets of an entry. *)
Definition shown (e : list Z) : list Z := if at_ e 0 =? 0x05 then <[0%nat := 0xE5]> e else e.
Definition listed (n : nat) (e : list Z) : dirent * list Z :=
  (mk_de (start_cluster (dirent_of e)) (32 * Z.of_nat n) 32 (shown_name (take 11 e)), shown e).
Definition visible (e : list Z) : bool := negb (skipped e).

Lemma slot_offset n : cdiv (32 * Z.of_nat n) 512 = Z.of_nat (n / 16) /\ cmod (32 * Z.of_nat n) 512 = 32 * Z.of_nat (n mod 16).
Proof.
  unfold cdiv, cmod. rewrite Z.quot_div_nonneg, Z.rem_mod_nonneg by lia. rewrite Nat2Z.inj_div, Nat2Z.inj_mod. Z.div_mod_to_equations. lia.
Qed.

Lemma readdir_spec vn f d l n :
  readable l -> fat_ok f -> v_dev vn = 0 -> dir_blocks f (start_cluster (v_data vn)) l -> (n < 16 * length l)%nat ->
  exists r d', fat12_vop_readdir vn (32 * Z.of_nat n) f d = Some (r, d') /\ (forall dev b, block d' dev b = block d dev b) /\
    match first visible (drop n (dslots d 0 l)) with
    | Some m => exists e, dslots d 0 l !! (n + m)%nat = Some e /\ r = inr (listed (n + m) e)
    | None => r = inl EDIR_ENTRY_NOT_FOUND
    end.
Proof.
  intros Hrel Hf Hdev Hdir Hn. destruct (dir_dchain _ _ _ Hf Hdir) as [Hdc Hne]. pose proof (dchain_length _ _ _ Hdc) as Hlen. unfold fat12_vop_readdir.
  destruct (slot_offset n) as [-> ->]. rewrite Nat2Z.id. assert (n = 16 * (n / 16) + n mod 16 /\ n mod 16 < 16)%nat as [En Hm] by (split; [apply Nat.div_mod; lia|apply Nat.mod_upper_bound; lia]).
  destruct (lookup_lt_is_Some_2 l (n / 16)) as [c Hc]; [lia|]. rewrite (walk_dir_spec _ _ _ _ _ Hdc Hc). cbn [mbind option_bind]. rewrite bool_decide_false by lia.
  pose proof (list_elem_of_split_length _ _ _ Hc) as (l1 & l2 & -> & El). pose proof (dchain_app _ _ _ _ _ Hdc) as Hdc2. rewrite length_app in Hlen, Hn. cbn [length] in Hlen, Hn.
  destruct (scan_slots_spec DIR_FUEL visible (v_dev vn) f d (c :: l2) c (n mod 16) (32 * Z.of_nat n) Hdc2) as (r & d1 & E & Hd1 & Hres);
    [done|lia|lia|unfold zlen; simpl; lia|unfold DIR_FUEL; simpl; lia|].
  change (fun e => negb (skipped e)) with visible. rewrite E. cbn [mbind option_bind]. rewrite Hdev in *. clear E.
  assert (drop (n mod 16) (dslots d 0 (c :: l2)) = drop n (dslots d 0 (l1 ++ c :: l2))) as Ed.
  { rewrite dslots_app, drop_app_ge by (rewrite length_dslots; lia). f_equal. rewrite length_dslots. lia. }
  destruct Hres as [(-> & x & dx & Hx & Hbad)|Hres].
  { exfalso. rewrite Hrel in Hbad; [done|]. apply elem_of_app. by right. }
  unfold scan_outcome in Hres. rewrite Ed in Hres. destruct (first visible (drop n (dslots d 0 (l1 ++ c :: l2)))) as [m|].
  - destruct Hres as (x & Hx & ->). do 2 eexists. split; [done|]. split; [done|]. assert ((n + m) / 16 = n / 16 + (n mod 16 + m) / 16 /\ (n + m) mod 16 = (n mod 16 + m) mod 16)%nat as [E1 E2].
    { assert (n + m = (n mod 16 + m) + (n / 16) * 16)%nat as -> by lia. rewrite Nat.div_add, Nat.Div0.mod_add by lia. lia. }
    exists (slot (32 * Z.of_nat ((n mod 16 + m) mod 16)) (block d 0 (x + 31))). split.
    + rewrite lookup_dslots, E1, E2, El, lookup_app_r by lia. replace (length l1 + _ - length l1)%nat with ((n mod 16 + m) / 16)%nat by lia. rewrite Hx. cbn [mbind option_bind].
      rewrite lookup_slots, bool_decide_true; [done|]. apply Nat.mod_upper_bound. lia.
    + unfold listed. do 2 f_equal. f_equal. lia.
  - destruct Hres as (x & _ & ->). do 2 eexists. done.
Qed.

(** At the end of the last block there is a read beyond the device. *)
Lemma readdir_end vn f d l :
  ends -> fat_ok f -> v_dev vn = 0 -> dir_blocks f (start_cluster (v_data vn)) l ->
  exists d', fat12_vop_readdir vn (32 * Z.of_nat (16 * length l)) f d = Some (inl EDISK_READ, d') /\ (forall dev b, block d' dev b = block d dev b).
Proof.
  intros He Hf Hdev Hdir. destruct (dir_dchain _ _ _ Hf Hdir) as [Hdc Hne]. unfold fat12_vop_readdir. destruct (slot_offset (16 * length l)) as [-> ->]. rewrite Nat2Z.id.
  rewrite (Nat.mul_comm 16), Nat.div_mul, Nat.Div0.mod_mul by lia. destruct (walk_dir_end _ _ _ Hdc Hne) as (x & -> & Hx). cbn [mbind option_bind]. rewrite bool_decide_false by lia.
  unfold DIR_FUEL. replace (Z.to_nat 4096) with (S (Z.to_nat 4095)) by lia. cbn [scan]. rewrite Hdev. destruct (bread_cases d 0 (x + 31)) as (d1 & Hd1 & [E|E]); [|specialize (He d (x + 31) ltac:(lia)); rewrite E in He; done].
  rewrite E. cbn [mbind option_bind]. exists d1. done.
Qed.

(** * Looking up a name *)

Lemma first_refine {A} (P Q : A -> bool) (l : list A) :
  (forall x, Q x = true -> P x = true) ->
  first Q l = match first P l with
              | None => None
              | Some m => match l !! m with
                          | Some e => if Q e then Some m else (fun k => S m + k)%nat <$> first Q (drop (S m) l)
                          | None => None
                          end
              end.
Proof.
  intros HQ. induction l as [|e l IH]; [done|]. cbn [first]. destruct (P e) eqn:EP; cbn [lookup list_lookup].
  - destruct (Q e); [done|]. change (drop 1 (e :: l)) with l. by destruct (first Q l).
  - destruct (Q e) eqn:EQ; [apply HQ in EQ; congruence|]. rewrite IH. destruct (first P l) as [m|]; [|done]. cbn [fmap option_fmap option_map lookup list_lookup].
    destruct (l !! m) as [x|]; [|done]. destruct (Q x); [done|]. change (drop (S (S m)) (e :: l)) with (drop (S m) l). by destruct (first Q (drop (S m) l)).
Qed.

(** The entries that a lookup of the converted name [fname] stops at. *)
Definition matches (fname e : list Z) : bool := visible e && names_eq (take 11 (shown e)) fname.

Lemma lookup_loop_spec fuel vn f fname d l n :
  readable l -> ends -> fat_ok f -> v_dev vn = 0 -> dir_blocks f (start_cluster (v_data vn)) l -> (n <= 16 * length l)%nat -> (16 * length l - n < fuel)%nat ->
  exists d', lookup_loop fuel vn fname (32 * Z.of_nat n) f d =
      Some ((m ← first (matches fname) (drop n (dslots d 0 l)); e ← dslots d 0 l !! (n + m)%nat; Some (listed (n + m) e)), d') /\
    (forall dev b, block d' dev b = block d dev b).
Proof.
  intros Hrel He Hf Hdev Hdir. destruct (dir_dchain _ _ _ Hf Hdir) as [Hdc _]. pose proof (dchain_length _ _ _ Hdc) as Hlen. clear Hdc.
  revert n d. induction fuel as [|fuel IH]; intros n d Hn Hfu; [lia|]. cbn [lookup_loop]. destruct (decide (n = 16 * length l)%nat) as [->|Hlt].
  { destruct (readdir_end vn f d l He Hf Hdev Hdir) as (d' & -> & Hd'). cbn [mbind option_bind]. rewrite drop_ge by (rewrite length_dslots; lia). by exists d'. }
  destruct (readdir_spec vn f d l n Hrel Hf Hdev Hdir ltac:(lia)) as (r & d1 & -> & Hd1 & Hr). cbn [mbind option_bind].
  rewrite (first_refine visible (matches fname)) by (intros x Hx; by apply andb_true_iff in Hx as [? _]).
  destruct (first visible (drop n (dslots d 0 l))) as [m|] eqn:Em; [|subst r; cbn [mbind option_bind]; by exists d1].
  destruct Hr as (e & Hnm & ->). unfold listed at 1. rewrite lookup_drop, Hnm. apply first_Some in Em as (e' & He' & Hvis & _). rewrite lookup_drop, Hnm in He'. injection He' as <-.
  unfold matches at 1. rewrite Hvis. cbn [andb]. destruct (names_eq (take 11 (shown e)) fname).
  { cbn [mbind option_bind]. rewrite Hnm. cbn [mbind option_bind]. by exists d1. }
  cbn [d_off]. pose proof (lookup_lt_Some _ _ _ Hnm) as Hb. rewrite length_dslots in Hb. rewrite s32_id by lia. replace (32 * Z.of_nat (n + m) + 32) with (32 * Z.of_nat (n + m + 1)) by lia.
  destruct (IH (n + m + 1)%nat d1) as (d' & -> & Hd'); [lia|lia|]. exists d'. split; [|intros; by rewrite Hd'].
  rewrite (dslots_ext d d1) by (intros; apply Hd1). f_equal. f_equal. rewrite drop_drop. replace (n + S m)%nat with (n + m + 1)%nat by lia.
  destruct (first (matches fname) (drop (n + m + 1) (dslots d 0 l))) as [j|]; [|done]. cbn [mbind option_bind fmap option_fmap option_map].
  by replace (n + (S m + j))%nat with (n + m + 1 + j)%nat by lia.
Qed.

Lemma lookup_entry_spec vn nm fname f d l :
  readable l -> ends -> fat_ok f -> v_dev vn = 0 -> dir_blocks f (start_cluster (v_data vn)) l -> convert_name nm = Some fname ->
  exists d', lookup_entry vn nm f d = Some ((m ← first (matches fname) (dslots d 0 l); e ← dslots d 0 l !! m; Some (listed m e)), d') /\
    (forall dev b, block d' dev b = block d dev b).
Proof.
  intros Hrel He Hf Hdev Hdir Hnm. destruct (dir_dchain _ _ _ Hf Hdir) as [Hdc _]. pose proof (dchain_length _ _ _ Hdc) as Hlen. unfold lookup_entry. rewrite Hnm.
  destruct (lookup_loop_spec LOOKUP_FUEL vn f fname d l 0 Hrel He Hf Hdev Hdir) as (d' & E & Hd'); [lia|unfold LOOKUP_FUEL; lia|]. change (32 * Z.of_nat 0) with 0 in E.
  by exists d'.
Qed.

Lemma lookup_hit vn nm fname f d l n e :
  readable l -> ends -> fat_ok f -> v_dev vn = 0 -> dir_blocks f (start_cluster (v_data vn)) l -> convert_name nm = Some fname ->
  first (matches fname) (dslots d 0 l) = Some n -> dslots d 0 l !! n = Some e -> exists d2, lookup_entry vn nm f d = Some (Some (listed n e), d2).
Proof.
  intros Hrel He Hf Hdev Hdir Hnm Hfi Hn. destruct (lookup_entry_spec vn nm fname f d l Hrel He Hf Hdev Hdir Hnm) as (d2 & E & _). exists d2. rewrite Hfi in E. cbn [mbind option_bind] in E.
  rewrite Hn in E. exact E.
Qed.

Lemma lookup_miss vn nm fname f d l :
  readable l -> ends -> fat_ok f -> v_dev vn = 0 -> dir_blocks f (start_cluster (v_data vn)) l -> convert_name nm = Some fname ->
  Forall (fun x => matches fname x = false) (dslots d 0 l) -> exists d2, lookup_entry vn nm f d = Some (None, d2).
Proof.
  intros Hrel He Hf Hdev Hdir Hnm Hno. destruct (lookup_entry_spec vn nm fname f d l Hrel He Hf Hdev Hdir Hnm) as (d2 & E & _). exists d2.
  destruct (first (matches fname) (dslots d 0 l)) as [m|] eqn:Em; [|exact E]. exfalso. apply first_Some in Em as (x & Hx & HPx & _).
  rewrite Forall_lookup in Hno. specialize (Hno _ _ Hx). cbv beta in Hno. congruence.
Qed.

(** Looking up a name gives the first entry in the directory that is in use, is not part of a
    long name, and has the converted name; there is no result exactly when there is no such
    entry.  The directory is not changed.  The reads of [fat12_vop_readdir] at the end of
    the directory, beyond its last cluster, are taken to fail. *)
Theorem lookup_finds_first vn nm fname f d l :
  readable l -> ends -> fat_ok f -> v_dev vn = 0 -> dir_blocks f (start_cluster (v_data vn)) l -> convert_name nm = Some fname ->
  exists r d', lookup_entry vn nm f d = Some (r, d') /\ (forall dev b, block d' dev b = block d dev b) /\
    match r with
    | Some x => exists m e, dslots d 0 l !! m = Some e /\ matches fname e = true /\ x = listed m e /\
                 forall i y, (i < m)%nat -> dslots d 0 l !! i = Some y -> matches fname y = false
    | None => Forall (fun e => matches fname e = false) (dslots d 0 l)
    end.
Proof.
  intros Hrel He Hf Hdev Hdir Hnm. destruct (lookup_entry_spec vn nm fname f d l Hrel He Hf Hdev Hdir Hnm) as (d' & E & Hd'). rewrite E. do 2 eexists. split; [done|]. split; [done|].
  destruct (first (matches fname) (dslots d 0 l)) as [m|] eqn:Em; cbn [mbind option_bind]; [|by apply first_None].
  apply first_Some in Em as (e & Hm & HP & Hlt). rewrite Hm. cbn [mbind option_bind]. by exists m, e.
Qed.

(** ** A new file is found *)

(** A name as [convert_name] makes it whose first character has no special meaning. *)
Definition plain (nm : list Z) : Prop := name_ok nm /\ nm !! 0%nat <> Some 0x05.

Lemma matches_dirent e : dirent_ok e -> plain (name e) -> attrib e <> 0x0f -> matches (name e) (dirent_bytes e) = true /\ free_slot (dirent_bytes e) = false /\ shown (dirent_bytes e) = dirent_bytes e.
Proof.
  intros He ((Hl & Hz & H5) & H05) Ha. pose proof He as (_ & _ & Hat & _). assert (at_ (dirent_bytes e) 11 = u8 (attrib e)) as E11.
  { unfold at_, dirent_bytes. rewrite lookup_app_r by lia. by rewrite Hl. }
  assert (take 11 (dirent_bytes e) = name e) as Et by (unfold dirent_bytes; by apply take_app_length').
  destruct (name e) as [|x nm] eqn:En; [done|]. assert (at_ (dirent_bytes e) 0 = x) as E0 by (unfold at_, dirent_bytes; by rewrite En).
  apply Forall_cons in Hz as [Hx _]. simpl in H5, H05. assert (free_slot (dirent_bytes e) = false) as Hfr.
  { unfold free_slot. rewrite E0. destruct (Z.eqb_spec x 0); [done|]. destruct (Z.eqb_spec x 0xE5); [congruence|done]. }
  assert (shown (dirent_bytes e) = dirent_bytes e) as Hsh by (unfold shown; rewrite E0; destruct (Z.eqb_spec x 5); [congruence|done]).
  split; [|done]. unfold matches, visible, skipped. rewrite Hfr, E11, Hsh, Et, names_eq_refl. destruct (Z.eqb_spec (u8 (attrib e)) 0x0f) as [E|_]; [|done].
  exfalso. apply Ha. unfold u8 in E. clear -E Hat. Z.div_mod_to_equations. lia.
Qed.

Lemma create_attrib_range mode : 0 <= create_attrib mode < 0x40 /\ create_attrib mode <> 0x0f.
Proof.
  unfold create_attrib. set (m := Z.land mode 0x3f). assert (0 <= m < 64) as Hm by (unfold m; change 0x3f with (Z.ones 6); rewrite Z.land_ones by lia; Z.div_mod_to_equations; lia).
  clearbody m. assert (forallb (fun m => let a := if m =? 0 then 0x20 else Z.land m (Z.lnot (Z.lor FTYPE_DIR FTYPE_VOLUME)) in (0 <=? a) && (a <? 0x40) && negb (a =? 0x0f)) (seqZ 0 64) = true) as H by (vm_compute; reflexivity).
  rewrite forallb_forall in H. specialize (H m ltac:(apply list_elem_of_In, elem_of_seqZ; lia)). cbv zeta in H. rewrite !andb_true_iff, Z.leb_le, Z.ltb_lt, negb_true_iff, Z.eqb_neq in H. lia.
Qed.

Lemma matches_unused fname e : free_slot e = true -> matches fname e = false.
Proof. intros H. unfold matches, visible, skipped. by rewrite H. Qed.

(** The entry of a new file. *)
Lemma new_dirent_ok nm mode t g : length nm = 11%nat -> - 2 ^ 15 <= t < 2 ^ 15 -> - 2 ^ 15 <= g < 2 ^ 15 ->
  dirent_ok (set_stamp t g (mk_dirent nm (create_attrib mode) (replicate 10 0) 0 0 0 0)).
Proof. intros Hn Ht Hg. pose proof (create_attrib_range mode) as [Ha _]. unfold dirent_ok. simpl. split; [done|]. split; [done|]. lia. Qed.

(** An entry added under a name that nothing else matches is what is found. *)
Lemma added_found e fname fs d l fs' d' l' :
  added e fs d l fs' d' l' -> matches fname e = true -> Forall (fun x => matches fname x = false) (dslots d 0 l) ->
  exists n, first (matches fname) (dslots d' 0 l') = Some n /\ dslots d' 0 l' !! n = Some e.
Proof.
  intros Ha He Hno. destruct (a_slot _ _ _ _ _ _ _ Ha) as (n & Hfi & Es). pose proof (first_lt _ _ _ Hfi) as Hlt. exists n. rewrite Es. split.
  - apply first_insert; [done|done|]. intros i y _ Hy. assert (Forall (fun x => matches fname x = false) (dslots d 0 l ++ zeros (16 * (length l' - length l)))) as Hall.
    { apply Forall_app. split; [done|]. apply Forall_replicate. by apply matches_unused. }
    rewrite Forall_lookup in Hall. by eapply Hall.
  - by apply list_lookup_insert_eq.
Qed.

(** C4: A file that is created is found.  In a directory on device 0, the one that is mounted, on a day
    that [secs_to_date] can convert, for a name that [convert_name] accepts, that does not start
    with one of the bytes 0xE5 and 0x05 and that no entry of the directory has:
    [fat12_vop_create] either fails and changes nothing, or adds an empty file with that name.
    The directory then has the blocks it had and perhaps one that was free; if all of them
    can be read, and blocks beyond the largest cluster number cannot, looking the name up gives
    the new entry. *)
Theorem create_then_lookup secs dvn nm fname mode fs d l :
  ends -> dir_ok fs dvn l -> time_ok secs -> convert_name nm = Some fname -> plain fname -> Forall (fun x => matches fname x = false) (dslots d 0 l) ->
  exists r dvn' fs' d', fat12_vop_create secs dvn nm mode fs d = Some (r, dvn', fs', d') /\
    match r with
    | None => dvn' = dvn /\ fs' = fs /\ forall dev b, block d' dev b = block d dev b
    | Some dent => name dent = fname /\ fsize dent = 0 /\ dirent_of (dirent_bytes dent) = dent /\
        exists l', dir_ok fs' dvn' l' /\ (forall c, c ∈ l' -> c ∈ l \/ 2 <= c < NCLUSTERS /\ clval (fat fs) c = 0) /\
          (readable l' -> exists n d2, lookup_entry dvn' nm (fat fs') d' = Some (Some (listed n (dirent_bytes dent)), d2))
    end.
Proof.
  intros He Hd Ht Hnm Hpl Hno. unfold fat12_vop_create. rewrite Hnm.
  destruct (mark_time_some secs (mk_dirent fname (create_attrib mode) (replicate 10 0) 0 0 0 0) Ht) as (t & g & -> & Htr & Hgr). rewrite bind_Some.
  assert (length fname = 11%nat) as Hlen by (by destruct Hpl as ((? & _) & _)). pose proof (new_dirent_ok fname mode t g Hlen Htr Hgr) as Hok.
  set (dent := set_stamp t g (mk_dirent fname (create_attrib mode) (replicate 10 0) 0 0 0 0)) in *.
  destruct (add_dir_entry_spec secs dvn dent fs d l Hd Hok Ht) as (ret & dvn' & fs' & d' & -> & Hres). rewrite bind_Some.
  destruct Hres as [(Herr & -> & -> & Hb)|(-> & l' & Hd' & _ & Ha)].
  - assert (ret < 0) as Hneg by (unfold add_error, EDISK_READ, EDIR_FULL, ENO_DISK_SPACE in Herr; lia). destruct (Z.ltb_spec ret 0); [|lia]. by do 4 eexists.
  - change (1 <? 0) with false. cbv iota. exists (Some dent), dvn', fs', d'. split; [reflexivity|]. split; [reflexivity|]. split; [reflexivity|]. split; [by apply dirent_of_bytes|].
    destruct (matches_dirent dent Hok Hpl) as (Hm & _ & _); [by destruct (create_attrib_range mode)|].
    destruct (added_found _ fname _ _ _ _ _ _ Ha Hm Hno) as (n & Hfi & Hn). exists l'. split; [done|]. split; [apply (a_new _ _ _ _ _ _ _ Ha)|].
    intros Hrel. exists n. destruct Hd' as (Hf' & _ & Hdev' & Hdir'). exact (lookup_hit dvn' nm fname (fat fs') d' l' n _ Hrel He Hf' Hdev' Hdir' Hnm Hfi Hn).
Qed.

(** * Removing a file *)

Lemma no_read_error l : readable l -> ~ read_error 0 l.
Proof. intros Hrel (x & d1 & Hx & Hbad). by rewrite Hrel in Hbad. Qed.
Lemma readable_sublist l l' : l' `sublist_of` l -> readable l -> readable l'.
Proof. intros Hs Hr d c Hc. apply Hr. by eapply elem_of_sublist. Qed.

Lemma shown_head e : length e = 32%nat -> at_ e 0 = 0x05 -> shown e !! 0%nat = Some 0xE5.
Proof. intros Hl H. unfold shown. rewrite H. simpl. apply list_lookup_insert_eq. lia. Qed.

(** With a plain name, what is found is what [delete_dir_entry] compares. *)
Lemma matches_raw fname e : plain fname -> length e = 32%nat -> matches fname e = true -> live_slot e /\ take 11 e = fname.
Proof.
  intros ((Hl & Hz & H5) & H05) He Hm. unfold matches, visible, skipped in Hm. rewrite andb_true_iff, negb_true_iff, orb_false_iff in Hm. destruct Hm as [[Hfr _] Hn].
  split; [done|]. apply names_eq_eq in Hn; [|done|]. 2:{ rewrite length_take. unfold shown. case_ztest; rewrite ?length_insert; lia. }
  unfold shown in Hn. destruct (Z.eqb_spec (at_ e 0) 5) as [E|_]; [|done]. exfalso. apply H5. rewrite <- Hn. rewrite lookup_take_lt by lia. apply list_lookup_insert_eq. lia.
Qed.

Lemma named_eq fname e : plain fname -> length e = 32%nat -> names_eq (take 11 e) fname = true <-> take 11 e = fname.
Proof. intros ((Hl & Hz & _) & _) He. apply names_eq_eq; [done|]. rewrite length_take. lia. Qed.

(** The names in use are all different. *)
Definition distinct_names (d : D) (l : list Z) : Prop := NoDup (take 11 <$> entries d 0 l).

Lemma removed_not_found e fname fs d l fs' d' l' :
  removed e fs d l fs' d' l' -> distinct_names d l -> plain fname -> length e = 32%nat -> names_eq (take 11 e) fname = true ->
  Forall (fun x => matches fname x = false) (dslots d' 0 l').
Proof.
  intros Hr Hnd Hpl He Hn. apply (named_eq _ _ Hpl He) in Hn. apply Forall_lookup. intros i x Hx. apply not_true_iff_false. intros Hm.
  pose proof (length_entry _ _ _ _ _ Hx) as Hlx. destruct (matches_raw fname x Hpl Hlx Hm) as [Hlive Ex]. unfold distinct_names in Hnd. rewrite (r_entries _ _ _ _ _ _ _ Hr) in Hnd.
  rewrite fmap_cons in Hnd. apply NoDup_cons in Hnd as [Hnd _]. apply Hnd. rewrite Hn, <- Ex. apply list_elem_of_fmap_2. apply list_elem_of_filter. split; [done|]. by eapply list_elem_of_lookup_2.
Qed.

(** A removed file is gone.  For a file with bytes, whose clusters [fl] are not those of its
    directory, [fat12_vop_remove] frees exactly its clusters (and perhaps a cluster of
    the directory), takes its entry out of the directory, and the name is not found any more. *)
Theorem remove_then_lookup secs vn pvn nm fs d l fl :
  readable l -> ends -> dir_ok fs pvn l -> time_ok secs -> chain (fat fs) (start_cluster (v_data vn)) fl -> fl <> [] -> (forall c, c ∈ fl -> c ∉ l) ->
  convert_name nm = Some (name (v_data vn)) -> plain (name (v_data vn)) -> keeps_dot d l (name (v_data vn)) -> distinct_names d l ->
  (exists e, e ∈ dslots d 0 l /\ names_eq (take 11 e) (name (v_data vn)) = true) ->
  exists pvn' fs' d' l' d2, fat12_vop_remove secs vn pvn fs d = Some (0, pvn', fs', d') /\ dir_ok fs' pvn' l' /\
    (forall c, 0 <= c < NCLUSTERS -> c ∉ l -> clval (fat fs') c = if decide (c ∈ fl) then 0 else clval (fat fs) c) /\
    lookup_entry pvn' nm (fat fs') d' = Some (None, d2).
Proof.
  intros Hrel He (Hf & Hg & Hdev & Hdir) Ht Hfl Hne Hdis Hnm Hpl Hdot Hnd (e0 & He0 & Hn0). unfold fat12_vop_remove. assert (u16 (start_cluster (v_data vn)) = start_cluster (v_data vn)) as ->.
  { destruct fl as [|x fl]; [done|]. destruct Hfl as (-> & Hx & _). by destruct (s16_cluster x Hx). }
  destruct (free_cluster_chain_spec fs _ fl Hf Hfl) as (f1 & -> & Hf1 & Hv1). rewrite bind_Some.
  assert (dir_ok (set_fat f1 fs) pvn l) as Hd1.
  { split; [done|]. split; [done|]. split; [done|]. destruct Hdir as [?|[Hl Hch]]; [by left|right]. split; [done|]. apply (chain_frame (fat fs)); [done|]. intros c Hc.
    pose proof (chain_range _ _ _ _ Hch Hc). simpl. rewrite Hv1 by lia. rewrite decide_False; [done|]. intros Hin. by apply (Hdis c). }
  destruct (delete_dir_entry_spec secs pvn (name (v_data vn)) (set_fat f1 fs) d l Hd1 ltac:(apply Hpl) Hdot Ht) as (ret & pvn' & fs' & d' & -> & Hres). rewrite bind_Some.
  destruct Hres as [([[_ Hbad]|[_ Hall]] & _)|(_ & l' & e & Hd' & Hin & HP & Hrm)].
  - exfalso. by apply (no_read_error _ Hrel).
  - exfalso. rewrite Forall_forall in Hall. specialize (Hall e0 He0). cbv beta in Hall. congruence.
  - pose proof Hin as Hin'. apply list_elem_of_lookup in Hin' as [i Hi]. pose proof (length_entry _ _ _ _ _ Hi) as Hle.
    pose proof (removed_not_found _ _ _ _ _ _ _ _ Hrm Hnd Hpl Hle HP) as Hno. pose proof Hd' as (Hf' & _ & Hdev' & Hdir').
    destruct (lookup_miss pvn' nm _ (fat fs') d' l' (readable_sublist _ _ (r_sublist _ _ _ _ _ _ _ Hrm) Hrel) He Hf' Hdev' Hdir' Hnm Hno) as (d2 & E). exists pvn', fs', d', l', d2. split; [done|]. split; [done|]. split; [|exact E].
    intros c Hc Hcl. rewrite (r_others _ _ _ _ _ _ _ Hrm) by done. simpl. by apply Hv1.
Qed.

(** * Making a directory *)

Lemma dir_not_free fs dvn l c : dir_ok fs dvn l -> 2 <= c -> clval (fat fs) c = 0 -> c ∉ l.
Proof.
  intros (_ & _ & _ & [[_ ->]|[_ Hch]]) Hc Hz Hin; [apply elem_of_seqZ in Hin; lia|]. by apply (chain_used _ _ _ _ Hch Hin).
Qed.

Lemma dir_ok_changed fs dvn l f' c v : dir_ok fs dvn l -> c ∉ l -> changed (fat fs) f' c v -> dir_ok (set_fat f' fs) dvn l.
Proof.
  intros (Hf & Hg & Hdev & Hdir) Hc [Hf' Hv]. split; [done|]. split; [done|]. split; [done|]. destruct Hdir as [?|[Hne Hch]]; [by left|right]. split; [done|].
  apply (chain_frame (fat fs)); [done|]. intros x Hx. pose proof (chain_range _ _ _ _ Hch Hx). simpl. rewrite Hv by lia. destruct (Z.eqb_spec x c) as [->|_]; done.
Qed.

(** The block of a new directory. *)
Lemma new_dir_slots b1 b2 : length b1 = 32%nat -> length b2 = 32%nat ->
  slots (overwrite 32 b2 (overwrite 0 b1 (replicate 512 0))) = b1 :: b2 :: zeros 14 /\ length (overwrite 32 b2 (overwrite 0 b1 (replicate 512 0))) = 512%nat.
Proof.
  intros H1 H2. assert (length (overwrite 0 b1 (replicate 512 0)) = 512%nat) as Hl by (rewrite length_overwrite; rewrite length_replicate; lia).
  split; [|rewrite length_overwrite; lia]. pose proof (slots_overwrite (overwrite 0 b1 (replicate 512 0)) 1 b2 Hl ltac:(lia) H2) as E2.
  pose proof (slots_overwrite (replicate 512 0) 0 b1 ltac:(by rewrite length_replicate) ltac:(lia) H1) as E1.
  change (Z.to_nat (32 * Z.of_nat 0)) with 0%nat in E1. change (Z.to_nat (32 * Z.of_nat 1)) with 32%nat in E2. by rewrite E2, E1.
Qed.

Lemma stamped_ok e t g : dirent_ok e -> - 2 ^ 15 <= t < 2 ^ 15 -> - 2 ^ 15 <= g < 2 ^ 15 -> dirent_ok (set_stamp t g e).
Proof. unfold dirent_ok. simpl. intuition. Qed.

(** Making a directory.  When [make_dir] succeeds the parent has one entry more, under the new
    name; the new directory is one cluster that was free, and its slots are dot, with that
    cluster, dot-dot, with the parent's, and unused ones.  When it fails, every entry of the
    table is as it was: the cluster allocated for it is given back. *)
Theorem make_dir_makes secs junk dvn nm fs d l :
  dir_ok fs dvn l -> dirent_ok (v_data dvn) -> time_ok secs -> plain nm -> length junk = 10%nat ->
  exists ret dvn' fs' d', make_dir secs junk dvn nm fs d = Some (ret, dvn', fs', d') /\
    ((ret < 0 /\ (forall c, 0 <= c < NCLUSTERS -> clval (fat fs') c = clval (fat fs) c) /\ forall dev b, block d' dev b = block d dev b) \/
     (ret = 1 /\ exists l' dent dotdot, dir_ok fs' dvn' l' /\ name dent = nm /\ attrib dent = FTYPE_DIR /\ clval (fat fs) (start_cluster dent) = 0 /\
        entries d' 0 l' ≡ₚ dirent_bytes dent :: entries d 0 l /\ chain (fat fs') (start_cluster dent) [start_cluster dent] /\
        start_cluster dotdot = start_cluster (v_data dvn) /\
        exists dot, start_cluster dot = start_cluster dent /\ dslots d' 0 [start_cluster dent] = dirent_bytes dot :: dirent_bytes dotdot :: zeros 14)).
Proof.
  intros Hd Hpar Ht Hpl Hj. pose proof Hd as (Hf & Hg & Hdev & _). unfold make_dir. destruct (alloc_block12_spec fs Hf Hg) as (cl & f1 & -> & Hcl). rewrite bind_Some.
  destruct Hcl as [(-> & -> & _)|(Hcl & Hz & _ & Hch1)].
  { exists ENO_DISK_SPACE, dvn, fs, d. rewrite set_fat_id. split; [reflexivity|]. left. split; [done|]. done. }
  assert (2 <= cl < NCLUSTERS) as Hr by (destruct Hg as (_ & _ & ?); lia). destruct (Z.eqb_spec cl 0); [lia|]. destruct (s16_cluster cl Hr) as [-> _].
  pose proof (dir_not_free _ _ _ cl Hd ltac:(lia) Hz) as Hnin. pose proof (dir_ok_changed _ _ _ _ _ _ Hd Hnin Hch1) as Hd1.
  destruct (mark_time_some secs (mk_dirent nm FTYPE_DIR junk 0 0 cl 0) Ht) as (t & g & -> & Htr & Hgr). rewrite bind_Some.
  assert (dirent_ok (set_stamp t g (mk_dirent nm FTYPE_DIR junk 0 0 cl 0))) as Hok.
  { apply stamped_ok; [|done|done]. destruct Hpl as ((Hl & _) & _). unfold NCLUSTERS in Hr. unfold dirent_ok, FTYPE_DIR. simpl. split; [done|]. split; [done|]. lia. }
  set (dent := set_stamp t g (mk_dirent nm FTYPE_DIR junk 0 0 cl 0)) in *.
  destruct (add_dir_entry_spec secs dvn dent (set_fat f1 fs) d l Hd1 Hok Ht) as (ret & dvn' & fs' & d' & Ea & Hres). rewrite Ea, bind_Some.
  destruct Hres as [(Herr & -> & -> & Hb)|(-> & l' & Hd' & (t2 & g2 & Est) & Ha)].
  - assert (ret < 0) as Hneg by (unfold add_error, EDISK_READ, EDIR_FULL, ENO_DISK_SPACE in Herr; lia). destruct (Z.eqb_spec ret 1); [lia|].
    destruct Hch1 as [Hf1 Hv1]. simpl (fat (set_fat _ _)). destruct (set_clval12_some f1 cl 0 Hf1) as (f2 & -> & Hf2 & Hv2); [lia|lia|]. rewrite bind_Some.
    do 4 eexists. split; [reflexivity|]. left. split; [done|]. split; [|done]. intros c Hc. simpl. rewrite Hv2, Hv1 by done. by destruct (Z.eqb_spec c cl) as [->|_].
  - change (1 =? 1) with true. cbv iota zeta. pose proof (length_dirent_bytes _ Hok) as Hl. pose proof (matches_dirent dent Hok Hpl ltac:(done)) as (_ & Hlive & _).
    assert (clval f1 cl = 0xfff) as Hcl1 by (destruct Hch1 as [_ Hv1]; rewrite Hv1, Z.eqb_refl by lia; done).
    assert (cl ∉ l') as Hcl'.
    { intros Hin. apply (a_new _ _ _ _ _ _ _ Ha) in Hin as [?|[_ Hx]]; [done|]. simpl in Hx. lia. }
    do 4 eexists. split; [reflexivity|]. right. split; [reflexivity|].
    match goal with |- context [bwrite 0 (cl + 31) (overwrite 32 (dirent_bytes ?x) (overwrite 0 (dirent_bytes ?y) _)) _] => set (dotdot := x) in *; set (dot := y) in * end.
    assert (length (dirent_bytes dot) = 32%nat) as L1 by (apply (f_equal (fun n => n)) in Hl; unfold dirent_bytes in *; rewrite !length_app in *; destruct Hok as (_ & Hx & _); simpl in *; lia).
    assert (length (res (v_data dvn')) = 10%nat) as Lr by (rewrite Est; by destruct Hpar as (_ & ? & _)).
    assert (length (dirent_bytes dotdot) = 32%nat) as L2 by (unfold dirent_bytes; rewrite !length_app; simpl; rewrite Lr; lia).
    destruct (new_dir_slots _ _ L1 L2) as [Es L3]. exists l', dent, dotdot. split; [exact Hd'|]. split; [done|]. split; [done|]. split; [exact Hz|]. split; [|split; [|split; [simpl; by rewrite Est|]]].
    + rewrite <- (added_entries _ _ _ _ _ _ _ Ha Hlive). unfold entries. rewrite (dslots_ext d'); [done|]. intros c Hc. rewrite bwrite_block by done.
      rewrite bool_decide_false; [done|]. intros [_ E]. apply Hcl'. by replace cl with c by lia.
    + split; [done|]. split; [exact Hr|]. simpl. rewrite (a_others _ _ _ _ _ _ _ Ha) by (simpl; auto; lia). simpl. lia.
    + exists dot. split; [done|]. unfold dslots. change ([start_cluster dent] ≫= ?g) with (g cl ++ []). rewrite app_nil_r, bwrite_block by done. rewrite bool_decide_true by done. exact Es.
Qed.

(** * Writing an entry back *)

(** The entry of a file that was changed reaches the disk when its vnode is released:
    [fat12_vop_destroy] replaces the first slot with the file's name by the vnode's copy of
    the entry, and nothing else. *)
Theorem destroy_writes_back vn pvn fs d l n old :
  readable l -> dir_ok fs pvn l -> dirent_ok (v_data vn) -> has_bits (v_flag vn) FTFLAGS_CHANGED = true ->
  first (fun e => names_eq (take 11 e) (name (v_data vn))) (dslots d 0 l) = Some n -> dslots d 0 l !! n = Some old ->
  exists d', fat12_vop_destroy vn (Some pvn) fs d = Some d' /\ dslots d' 0 l = <[n := dirent_bytes (v_data vn)]> (dslots d 0 l) /\
    forall dev b, dev <> 0 \/ b - 31 ∉ l -> block d' dev b = block d dev b.
Proof.
  intros Hrel (Hf & Hg & Hdev & Hdir) Hok Hch Hfi Hn. unfold fat12_vop_destroy. rewrite Hch, bind_Some. unfold update_dir_entry. rewrite Hdev.
  destruct (dir_dchain _ _ _ Hf Hdir) as [Hdc _]. pose proof (dchain_nodup _ _ _ Hdc) as Hnd. pose proof (length_dirent_bytes _ Hok) as Hlen.
  destruct (scan_dir (fun e => names_eq (take 11 e) (name (v_data vn))) 0 (fat fs) d _ l Hf Hdir) as (r & d1 & E & Hd1 & Hres). rewrite E, bind_Some.
  destruct Hres as [[_ Hbad]|Hres]; [destruct (no_read_error _ Hrel Hbad)|]. unfold scan_outcome in Hres. change (drop 0 ?l) with l in Hres. rewrite Hfi in Hres.
  destruct Hres as (c & Hc & ->). rewrite bind_Some. eexists. split; [reflexivity|]. pose proof (Nat.mod_upper_bound n 16 ltac:(lia)) as Hm. cbn [Nat.add] in *. split.
  - rewrite (dslots_write d d1 0 l (n / 16) (n mod 16) c) by done. by rewrite <- (Nat.div_mod n 16) by lia.
  - intros dev b Hdb. rewrite bwrite_block by (rewrite length_overwrite; rewrite block_length; lia). case_bool_decide as Eb; [|apply Hd1]. destruct Eb as [-> ->]. destruct Hdb as [?|Hdb]; [done|].
    destruct Hdb. replace (c + 31 - 31) with c by lia. by eapply list_elem_of_lookup_2.
Qed.

(** * A defect *)

(** No directory can be removed from a subdirectory.  [syscall_rmdir] calls
    [fat12_vop_rmdir] on the parent, and [rm_dir] tests whether that directory, not the named
    one, is empty: as long as it has any entry besides its first two, the answer is
    [EDIR_NOT_EMPTY]. *)
Theorem rmdir_refused secs dvn dirname nm fs d l n e :
  readable l -> dir_ok fs dvn l -> 2 <= start_cluster (v_data dvn) -> Z.land (attrib (v_data dvn)) FTYPE_DIR <> 0 -> convert_name dirname = Some nm ->
  dslots d 0 l !! n = Some e -> (2 <= n)%nat -> free_slot e = false ->
  exists d', fat12_vop_rmdir secs dvn dirname fs d = Some (EDIR_NOT_EMPTY, dvn, fs, d') /\ forall dev b, block d' dev b = block d dev b.
Proof.
  intros Hrel (Hf & Hg & Hdev & Hdir) Hst Hat Hnm Hn H2 Hlive. unfold fat12_vop_rmdir. rewrite Hnm. unfold rm_dir. destruct (Z.eqb_spec (Z.land (attrib (v_data dvn)) FTYPE_DIR) 0); [done|].
  destruct Hdir as [[? _]|[Hne Hch]]; [lia|]. destruct l as [|c l]; [done|]. pose proof Hch as (Es & Hc & Hnx). unfold empty_dir12. rewrite Es.
  destruct (next_cluster_chain (fat fs) c Hf Hc) as [-> _]. rewrite bind_Some. destruct l as [|c2 l].
  - simpl in Hnx. destruct (Z.ltb_spec (clval (fat fs) c) 0xff8); [lia|]. rewrite Hdev. destruct (bread_cases d 0 (c + 31)) as (d1 & Hd1 & [E|E]).
    { specialize (Hrel d c ltac:(left)). rewrite E in Hrel. done. }
    rewrite E. pose proof (slot_search_spec 16 (fun e => negb (free_slot e)) 2 (block d 0 (c + 31)) ltac:(lia) ltac:(lia)) as Es2. change (32 * Z.of_nat 2) with 64 in Es2. rewrite Es2, bind_Some.
    assert (dslots d 0 [c] = slots (block d 0 (c + 31))) as Esl by (unfold dslots; apply app_nil_r). rewrite Esl in Hn.
    destruct (first (fun e => negb (free_slot e)) (drop 2 (slots (block d 0 (c + 31))))) as [m|] eqn:Em.
    + apply first_lt in Em. rewrite length_drop, length_slots in Em. rewrite bind_Some. destruct (Z.leb_spec 512 (32 * Z.of_nat (2 + m))); [lia|]. by exists d1.
    + exfalso. apply first_None in Em. rewrite Forall_lookup in Em. specialize (Em (n - 2)%nat e). rewrite lookup_drop in Em. replace (2 + (n - 2))%nat with n in Em by lia. specialize (Em Hn). cbv beta in Em. by rewrite Hlive in Em.
  - destruct Hnx as (Ec & Hc2 & _). rewrite Ec. destruct (Z.ltb_spec c2 0xff8); [|unfold NCLUSTERS in *; lia]. rewrite bind_Some. by exists d.
Qed.

End DirSpec.

(** * A floppy disk *)

(** A device with the 2880 blocks of a disk of 1.44 MB; it reads no others. *)
Record floppy := mk_floppy { image : gmap (Z * Z) (list Z) }.
Definition floppy_block (d : floppy) (dev b : Z) : list Z := disk_block (mk_disk (image d) ∅) dev b.

#[export] Program Instance floppy_dev : BlockDev floppy := {|
  bread dev b d := (if 2880 <=? b then None else Some (floppy_block d dev b), d);
  bwrite dev b data d := mk_floppy (<[(dev, b) := data]> (image d));
  bdiscard dev b d := d;
  block := floppy_block |}.
Next Obligation. intros d dev b. exact (@block_length disk disk_dev (mk_disk (image d) ∅) dev b). Qed.
Next Obligation. intros d dev b. simpl. case_ztest; [by left|by right]. Qed.
Next Obligation. done. Qed.
Next Obligation. intros d dev b data dev' b' Hl. exact (@bwrite_block disk disk_dev (mk_disk (image d) ∅) dev b data dev' b' Hl). Qed.
Next Obligation. done. Qed.

Lemma floppy_readable l : Forall (fun c => c < 2849) l -> readable (D := floppy) l.
Proof. intros Hl d c Hc. rewrite Forall_forall in Hl. specialize (Hl c Hc). simpl. destruct (Z.leb_spec 2880 (c + 31)); [lia|done]. Qed.
Lemma root_readable : readable (D := floppy) root_blocks.
Proof. apply floppy_readable. repeat constructor. Qed.
Lemma floppy_ends : ends (D := floppy).
Proof. intros d b Hb. simpl. destruct (Z.leb_spec 2880 b); [done|lia]. Qed.

(** The root directory with one file, the one of FatFile's small disk. *)
Definition ex_root : vnode := mk_vnode 0 0 (-12) (mk_dirent (47 :: replicate 10 0) FTYPE_DIR (replicate 10 0) 0 0 (-12) 0).
Definition ex_floppy : floppy := mk_floppy {[ (0, 19) := overwrite 0 (dirent_bytes ex_dirent) (replicate 512 0) ]}.

Lemma ex_root_ok : dir_ok ex_fs ex_root root_blocks.
Proof. split; [apply ex_fat_ok|]. split; [apply ex_geometry|]. split; [done|]. by left. Qed.
Lemma ex_dirent_ok : dirent_ok ex_dirent.
Proof. split; [done|]. split; [done|]. cbn [ex_dirent attrib dtime ddate start_cluster fsize]. lia. Qed.
Lemma ex_root_dirent_ok : dirent_ok (v_data ex_root).
Proof. split; [done|]. split; [done|]. cbn [ex_root v_data attrib dtime ddate start_cluster fsize]. unfold FTYPE_DIR. lia. Qed.
Lemma ex_time_ok : time_ok 951782400.
Proof. split; [lia|]. unfold new_year_day. vm_compute. intuition discriminate. Qed.

Lemma all_false (P : list Z -> bool) l : forallb (fun e => negb (P e)) l = true -> Forall (fun x => P x = false) l.
Proof. rewrite forallb_forall. intros H. apply Forall_forall. intros x Hx. apply negb_true_iff, H. by apply list_elem_of_In. Qed.

(** "b.c" *)
Definition ex_src : list Z := [98; 46; 99].
Definition ex_fname : list Z := 66 :: replicate 7 32 ++ [67; 32; 32].
Lemma ex_plain : plain ex_fname.
Proof. split; [split; [done|]; split; [repeat constructor; discriminate|discriminate]|discriminate]. Qed.
Lemma ex_plain_a : plain (replicate 11 65).
Proof. split; [split; [done|]; split; [repeat constructor; discriminate|discriminate]|discriminate]. Qed.

Lemma name_round_trip_witness :
  exists nm, convert_name (source_name [98] [99]) = Some nm /\ length nm = 11%nat /\ shown_name nm = toupper <$> source_name [98] [99] /\ convert_name (shown_name nm) = Some nm.
Proof. apply (name_round_trip [98] [99]); [discriminate|repeat constructor; discriminate|repeat constructor; discriminate|simpl; lia|simpl; lia]. Defined.

Lemma dirent_round_trip_witness : dirent_of (dirent_bytes ex_dirent) = ex_dirent /\ length (dirent_bytes ex_dirent) = 32%nat.
Proof. apply (dirent_round_trip ex_dirent). apply ex_dirent_ok. Defined.

Lemma add_dir_entry_adds_witness :
  exists ret dvn' fs' d', add_dir_entry 951782400 ex_root ex_dirent ex_fs ex_floppy = Some (ret, dvn', fs', d') /\
    ((add_error ex_fs ex_floppy root_blocks ret /\ dvn' = ex_root /\ fs' = ex_fs /\ forall dev b, block d' dev b = block ex_floppy dev b) \/
     (ret = 1 /\ exists l', dir_ok fs' dvn' l' /\ added (dirent_bytes ex_dirent) ex_fs ex_floppy root_blocks fs' d' l' /\
        entries d' 0 l' ≡ₚ dirent_bytes ex_dirent :: entries ex_floppy 0 root_blocks)).
Proof. apply (add_dir_entry_adds 951782400 ex_root ex_dirent ex_fs ex_floppy root_blocks); [apply ex_root_ok|apply ex_dirent_ok|reflexivity|apply ex_time_ok]. Defined.

Lemma delete_dir_entry_removes_witness :
  exists ret dvn' fs' d', delete_dir_entry 951782400 ex_root (replicate 11 65) ex_fs ex_floppy = Some (ret, dvn', fs', d') /\
    (((ret = EDISK_READ /\ read_error 0 root_blocks \/ ret = EDIR_ENTRY_NOT_FOUND /\ Forall (fun e => names_eq (take 11 e) (replicate 11 65) = false) (dslots ex_floppy 0 root_blocks)) /\
      dvn' = ex_root /\ fs' = ex_fs /\ forall dev b, block d' dev b = block ex_floppy dev b) \/
     (ret = 1 /\ exists l' e, dir_ok fs' dvn' l' /\ e ∈ dslots ex_floppy 0 root_blocks /\ names_eq (take 11 e) (replicate 11 65) = true /\ removed e ex_fs ex_floppy root_blocks fs' d' l')).
Proof.
  apply (delete_dir_entry_removes 951782400 ex_root (replicate 11 65) ex_fs ex_floppy root_blocks); [apply ex_root_ok|apply ex_plain_a|by left|apply ex_time_ok].
Defined.

Lemma lookup_finds_first_witness :
  exists r d', lookup_entry ex_root ex_src ex_fat ex_floppy = Some (r, d') /\ (forall dev b, block d' dev b = block ex_floppy dev b) /\
    match r with
    | Some x => exists m e, dslots ex_floppy 0 root_blocks !! m = Some e /\ matches ex_fname e = true /\ x = listed m e /\
                 forall i y, (i < m)%nat -> dslots ex_floppy 0 root_blocks !! i = Some y -> matches ex_fname y = false
    | None => Forall (fun e => matches ex_fname e = false) (dslots ex_floppy 0 root_blocks)
    end.
Proof.
  apply (lookup_finds_first ex_root ex_src ex_fname ex_fat ex_floppy root_blocks); [apply root_readable|apply floppy_ends|apply ex_fat_ok|reflexivity|by left|reflexivity].
Defined.

Lemma create_then_lookup_witness :
  exists r dvn' fs' d', fat12_vop_create 951782400 ex_root ex_src 0 ex_fs ex_floppy = Some (r, dvn', fs', d') /\
    match r with
    | None => dvn' = ex_root /\ fs' = ex_fs /\ forall dev b, block d' dev b = block ex_floppy dev b
    | Some dent => name dent = ex_fname /\ fsize dent = 0 /\ dirent_of (dirent_bytes dent) = dent /\
        exists l', dir_ok fs' dvn' l' /\ (forall c, c ∈ l' -> c ∈ root_blocks \/ 2 <= c < NCLUSTERS /\ clval (fat ex_fs) c = 0) /\
          (readable (D := floppy) l' -> exists n d2, lookup_entry dvn' ex_src (fat fs') d' = Some (Some (listed n (dirent_bytes dent)), d2))
    end.
Proof.
  apply (create_then_lookup 951782400 ex_root ex_src ex_fname 0 ex_fs ex_floppy root_blocks);
    [apply floppy_ends|apply ex_root_ok|apply ex_time_ok|reflexivity|apply ex_plain|apply all_false; vm_compute; reflexivity].
Defined.

(** The new entry took the second slot. *)
Example ex_created : match fat12_vop_create 951782400 ex_root ex_src 0 ex_fs ex_floppy with
  | Some (Some dent, _, _, d) => name dent = ex_fname /\ map (take 11) (entries (D := floppy) d 0 root_blocks) = [replicate 11 65; ex_fname]
  | _ => False
  end.
Proof. vm_compute. split; reflexivity. Qed.

Lemma remove_then_lookup_witness :
  exists pvn' fs' d' l' d2, fat12_vop_remove 951782400 ex_vnode ex_root ex_fs ex_floppy = Some (0, pvn', fs', d') /\ dir_ok fs' pvn' l' /\
    (forall c, 0 <= c < NCLUSTERS -> c ∉ root_blocks -> clval (fat fs') c = if decide (c ∈ [2; 3; 4]) then 0 else clval ex_fat c) /\
    lookup_entry pvn' (replicate 8 65 ++ 46 :: replicate 3 65) (fat fs') d' = Some (None, d2).
Proof.
  apply (remove_then_lookup 951782400 ex_vnode ex_root (replicate 8 65 ++ 46 :: replicate 3 65) ex_fs ex_floppy root_blocks [2; 3; 4]);
    [apply root_readable|apply floppy_ends|apply ex_root_ok|apply ex_time_ok|apply ex_chain|discriminate| |reflexivity|apply ex_plain_a|by left| |].
  - intros c Hc Hin. apply elem_of_seqZ in Hin. rewrite !elem_of_cons in Hc. destruct Hc as [?|[?|[?|?%elem_of_nil]]]; lia || done.
  - unfold distinct_names. assert (take 11 <$> entries ex_floppy 0 root_blocks = [replicate 11 65]) as -> by (vm_compute; reflexivity). apply NoDup_singleton.
  - exists (dirent_bytes ex_dirent). split; [|reflexivity]. apply list_elem_of_lookup_2 with 0%nat. vm_compute. reflexivity.
Defined.

Lemma make_dir_makes_witness :
  exists ret dvn' fs' d', make_dir 951782400 (replicate 10 0) ex_root ex_fname ex_fs ex_floppy = Some (ret, dvn', fs', d') /\
    ((ret < 0 /\ (forall c, 0 <= c < NCLUSTERS -> clval (fat fs') c = clval (fat ex_fs) c) /\ forall dev b, block d' dev b = block ex_floppy dev b) \/
     (ret = 1 /\ exists l' dent dotdot, dir_ok fs' dvn' l' /\ name dent = ex_fname /\ attrib dent = FTYPE_DIR /\ clval (fat ex_fs) (start_cluster dent) = 0 /\
        entries d' 0 l' ≡ₚ dirent_bytes dent :: entries ex_floppy 0 root_blocks /\ chain (fat fs') (start_cluster dent) [start_cluster dent] /\
        start_cluster dotdot = start_cluster (v_data ex_root) /\
        exists dot, start_cluster dot = start_cluster dent /\ dslots d' 0 [start_cluster dent] = dirent_bytes dot :: dirent_bytes dotdot :: zeros 14)).
Proof.
  apply (make_dir_makes 951782400 (replicate 10 0) ex_root ex_fname ex_fs ex_floppy root_blocks); [apply ex_root_ok|apply ex_root_dirent_ok|apply ex_time_ok|apply ex_plain|reflexivity].
Defined.

Example ex_made : match make_dir 951782400 (replicate 10 0) ex_root ex_fname ex_fs ex_floppy with
  | Some (ret, _, fs, d) => ret = 1 /\ clval (fat fs) 5 = 0xfff /\ map (take 11) (entries (D := floppy) d 0 [5]) = [46 :: replicate 10 32; 46 :: 46 :: replicate 9 32]
  | _ => False
  end.
Proof. vm_compute. split; [reflexivity|split; reflexivity]. Qed.

Lemma destroy_writes_back_witness :
  exists d', fat12_vop_destroy (mark_changed ex_vnode) (Some ex_root) ex_fs ex_floppy = Some d' /\
    dslots d' 0 root_blocks = <[0%nat := dirent_bytes ex_dirent]> (dslots ex_floppy 0 root_blocks) /\
    forall dev b, dev <> 0 \/ b - 31 ∉ root_blocks -> block d' dev b = block ex_floppy dev b.
Proof.
  apply (destroy_writes_back (mark_changed ex_vnode) ex_root ex_fs ex_floppy root_blocks 0 (dirent_bytes ex_dirent));
    [apply root_readable|apply ex_root_ok|apply ex_dirent_ok|reflexivity|vm_compute; reflexivity|vm_compute; reflexivity].
Defined.

(** A subdirectory in the clusters 2, 3 and 4 with an entry in its third slot. *)
Definition ex_sub : vnode := mk_vnode 0 0 2 (mk_dirent (replicate 11 65) FTYPE_DIR (replicate 10 0) 0 0 2 0).
Definition ex_sub_floppy : floppy := mk_floppy {[ (0, 33) := overwrite 64 (dirent_bytes ex_dirent) (replicate 512 0) ]}.

Lemma rmdir_refused_witness :
  exists d', fat12_vop_rmdir 951782400 ex_sub (replicate 3 65) ex_fs ex_sub_floppy = Some (EDIR_NOT_EMPTY, ex_sub, ex_fs, d') /\ forall dev b, block d' dev b = block ex_sub_floppy dev b.
Proof.
  apply (rmdir_refused 951782400 ex_sub (replicate 3 65) (replicate 3 65 ++ replicate 8 32) ex_fs ex_sub_floppy [2; 3; 4] 2 (dirent_bytes ex_dirent));
    [apply floppy_readable; repeat constructor| |simpl; lia|discriminate|reflexivity|vm_compute; reflexivity|lia|reflexivity].
  split; [apply ex_fat_ok|]. split; [apply ex_geometry|]. split; [done|]. right. split; [discriminate|apply ex_chain].
Defined.

End FatDir.
