(* ===== verification/Fd.v ===== *)
(** Open files (base/fs.c): the file table, the handles of a process, reading, writing and
    seeking through a handle.  A file is anything with the operations of [struct vnodeops]
    ([Vnodes.VnodeOps]); the files of the FAT12 file system are an instance. *)
From S2P Require Import Prelude DateTime FatTable FatFile.

(** * Files behind a vnode *)

Module Vnodes.

(** The operations of [struct vnodeops] that move bytes, and what they promise: a file is a
    list of bytes; a write replaces bytes or adds some at the end.  The start of a file that
    has bytes is left out, see [fat_write_refines]. *)
Class VnodeOps (F : Type) := {
  vop_read : Z -> Z -> F -> option (Z * list Z * F);
  vop_write : Z -> list Z -> F -> option (Z * F);
  vop_trunc : Z -> F -> option F;
  f_ok : F -> Prop;
  f_bytes : F -> list Z;
  vop_read_spec f o n : f_ok f -> 0 <= o -> 0 <= n -> o + n < 2 ^ 31 ->
    exists ret out f', vop_read o n f = Some (ret, out, f') /\ f_ok f' /\ f_bytes f' = f_bytes f /\
      (ret < 0 \/ (ret = o + zlen out /\ out = take (Z.to_nat n) (drop (Z.to_nat o) (f_bytes f))));
  vop_write_spec f o buf : f_ok f -> 0 <= o <= zlen (f_bytes f) -> (o = 0 -> f_bytes f = []) -> o + zlen buf < 2 ^ 31 ->
    exists ret new f', vop_write o buf f = Some (ret, f') /\ f_ok f' /\
      f_bytes f' = take (Z.to_nat o) (f_bytes f) ++ new ++ drop (Z.to_nat o + length new) (f_bytes f) /\
      ((ret < 0 /\ new `prefix_of` buf) \/ (ret = o + zlen buf /\ new = buf));
  vop_trunc_spec f secs : f_ok f -> 0 <= secs < 2 ^ 32 -> ~ DateTime.new_year_day (secs / 86400) ->
    exists f', vop_trunc secs f = Some f' /\ f_ok f' /\ f_bytes f' = [] }.

End Vnodes.

(** * FAT12 files *)

Module FatVnode.
Import FatTable Blocks FatFile Vnodes.

Section FatVnode.
Context {D : Type} `{!BlockDev D}.

(** The mounted file system, the device and the vnode. *)
Record fatfile := mk_fatfile { ff_fs : fat12_fsdata; ff_dev : D; ff_vn : vnode }.

(** The bytes of a file, found by walking along its chain. *)
Definition file_byte (x : fatfile) (p : Z) : Z :=
  match walk (Z.to_nat (p / 512)) (start_cluster (v_data (ff_vn x))) (fat (ff_fs x)) with
  | Some c => default 0 (block (ff_dev x) (v_dev (ff_vn x)) (c + 31) !! Z.to_nat (p mod 512))
  | None => 0
  end.
Definition file_bytes (x : fatfile) : list Z := file_byte x <$> seqZ 0 (fsize (v_data (ff_vn x))).

Definition fat_file_ok (x : fatfile) : Prop :=
  fat_ok (fat (ff_fs x)) /\ geometry_ok (ff_fs x) /\ 0 <= fsize (v_data (ff_vn x)) < 2 ^ 31 /\ exists l, file_ok (fat (ff_fs x)) (v_data (ff_vn x)) l.

Lemma length_file_bytes x : fat_file_ok x -> zlen (file_bytes x) = fsize (v_data (ff_vn x)).
Proof. intros (_ & _ & Hs & _). unfold zlen, file_bytes. rewrite length_fmap, length_seqZ. lia. Qed.

Lemma file_byte_fbyte x l p : fat_ok (fat (ff_fs x)) -> file_ok (fat (ff_fs x)) (v_data (ff_vn x)) l -> 0 <= p < fsize (v_data (ff_vn x)) ->
  fbyte (ff_dev x) (v_dev (ff_vn x)) l p = Some (file_byte x p).
Proof.
  intros Hf [[E _]|[Hs Hc]] Hp; [lia|]. unfold fbyte, file_byte. destruct (lookup_lt_is_Some_2 l (Z.to_nat (p / 512))) as [c Ec]; [unfold zlen in Hs; Z.div_mod_to_equations; lia|].
  rewrite Ec, (walk_chain _ _ _ l c Hf Hc Ec). cbn [mbind option_bind]. destruct (block_some (ff_dev x) (v_dev (ff_vn x)) (c + 31) (p mod 512)) as [b ->]; [Z.div_mod_to_equations; lia|]. done.
Qed.

Lemma lookup_file_bytes x l p : fat_ok (fat (ff_fs x)) -> file_ok (fat (ff_fs x)) (v_data (ff_vn x)) l -> 0 <= p < fsize (v_data (ff_vn x)) ->
  file_bytes x !! Z.to_nat p = fbyte (ff_dev x) (v_dev (ff_vn x)) l p.
Proof.
  intros Hf Hl Hp. rewrite (file_byte_fbyte x l p Hf Hl Hp). unfold file_bytes. rewrite list_lookup_fmap, lookup_seqZ_lt by lia. simpl. f_equal. f_equal. lia.
Qed.

Lemma file_bytes_ext x y : ff_fs x = ff_fs y -> ff_vn x = ff_vn y -> (forall dev b, block (ff_dev x) dev b = block (ff_dev y) dev b) -> file_bytes x = file_bytes y.
Proof.
  intros Ef Ev Hb. unfold file_bytes. rewrite Ev. apply list_fmap_ext. intros i p _. unfold file_byte. rewrite Ef, Ev. destruct (walk _ _ _); [|done]. by rewrite Hb.
Qed.

Definition fat_read (o n : Z) (x : fatfile) : option (Z * list Z * fatfile) :=
  '(ret, out, d) ← fat12_vop_read (ff_vn x) (fat (ff_fs x)) o n (ff_dev x); Some (ret, out, mk_fatfile (ff_fs x) d (ff_vn x)).
Definition fat_write (o : Z) (buf : list Z) (x : fatfile) : option (Z * fatfile) :=
  '(ret, vn, fs, d) ← fat12_vop_write (ff_vn x) (ff_fs x) o buf (ff_dev x); Some (ret, mk_fatfile fs d vn).

Definition fat_trunc (secs : Z) (x : fatfile) : option fatfile :=
  '(vn, fs) ← fat12_vop_trunc secs (ff_vn x) (ff_fs x); Some (mk_fatfile fs (ff_dev x) vn).

Lemma fat_trunc_ok x secs : fat_file_ok x -> 0 <= secs < 2 ^ 32 -> ~ DateTime.new_year_day (secs / 86400) ->
  exists x', fat_trunc secs x = Some x' /\ fat_file_ok x' /\ file_bytes x' = [].
Proof.
  intros (Hf & Hg & Hs & l & Hl) Ht Hny. destruct (fat12_trunc_spec secs (ff_vn x) (ff_fs x) l Hf Hl Ht Hny) as (vn' & f' & E & Hf' & Hl' & _ & _). unfold fat_trunc. rewrite E, bind_Some.
  assert (fsize (v_data vn') = 0) as Ez by (destruct Hl' as [[? _]|[? _]]; [done|unfold zlen in *; simpl in *; lia]).
  eexists. split; [reflexivity|]. split; [split; [done|]; split; [done|]; cbn [ff_vn]; split; [lia|by exists []]|]. unfold file_bytes. cbn [ff_vn]. by rewrite Ez.
Qed.

Lemma fat_read_ok x o n :
  fat_file_ok x -> 0 <= o -> 0 <= n -> o + n < 2 ^ 31 ->
  exists ret out x', fat_read o n x = Some (ret, out, x') /\ fat_file_ok x' /\ file_bytes x' = file_bytes x /\
    (ret < 0 \/ (ret = o + zlen out /\ out = take (Z.to_nat n) (drop (Z.to_nat o) (file_bytes x)))).
Proof.
  intros Hok Ho Hn Hov. pose proof Hok as (Hf & Hg & Hs & l & Hl). pose proof (length_file_bytes x Hok) as Hlen.
  destruct (fat12_read_spec (ff_vn x) (fat (ff_fs x)) l o n (ff_dev x) Hf Hl Ho Hn Hov ltac:(lia)) as (ret & out & d' & E & Hd & Hr). unfold fat_read. rewrite E, bind_Some.
  do 3 eexists. split; [reflexivity|]. split; [exact Hok|]. split; [apply file_bytes_ext; [done|done|apply Hd]|]. destruct Hr as [->|(-> & Hz & Hb)]; [by left|right]. split; [lia|].
  apply list_eq_same_length with (Z.to_nat (zlen out)); [|unfold zlen; lia|].
  - rewrite length_take, length_drop. unfold zlen in Hlen. lia.
  - intros i a b Hi Ha Hb'. rewrite lookup_take_lt, lookup_drop in Hb' by lia. specialize (Hb (Z.of_nat i) ltac:(lia)). rewrite Nat2Z.id in Hb.
    rewrite <- (lookup_file_bytes x l) in Hb by (done || lia). replace (Z.to_nat (o + Z.of_nat i)) with (Z.to_nat o + i)%nat in Hb by lia. congruence.
Qed.

Lemma fat_write_ok x o buf :
  fat_file_ok x -> 0 <= o <= zlen (file_bytes x) -> (o = 0 -> file_bytes x = []) -> o + zlen buf < 2 ^ 31 ->
  exists ret new x', fat_write o buf x = Some (ret, x') /\ fat_file_ok x' /\
    file_bytes x' = take (Z.to_nat o) (file_bytes x) ++ new ++ drop (Z.to_nat o + length new) (file_bytes x) /\
    ((ret < 0 /\ new `prefix_of` buf) \/ (ret = o + zlen buf /\ new = buf)).
Proof.
  intros Hok Ho H0 Hov. pose proof Hok as (Hf & Hg & Hs & l & Hl). pose proof (length_file_bytes x Hok) as Hlen. rewrite Hlen in Ho.
  assert (o = 0 -> fsize (v_data (ff_vn x)) = 0) as H0' by (intros E; rewrite (H0 E) in Hlen; unfold zlen in Hlen; simpl in Hlen; lia).
  set (s := mk_fstate (ff_fs x) (ff_dev x) (mark_changed (ff_vn x)) l).
  assert (writable s o) as Hw.
  { split; [|split; [done|split; [done|split; [done|]]]]; simpl.
    - split; [done|]. simpl. destruct Hl as [[E ->]|[Hz Hc]]; [split; [unfold zlen; simpl; lia|by left]|split; [lia|by right]].
    - intros E. destruct Hl as [[_ ->]|[Hz _]]; [done|lia]. }
  destruct (write_loop_spec (S (length buf)) s o buf Hw Hov ltac:(lia)) as (ret & s' & new & E & Hwr & Hres). unfold fat_write, fat12_vop_write.
  cbn [s s_vn s_fs s_dev] in E. rewrite E, bind_Some. exists ret, new, (mk_fatfile (s_fs s') (s_dev s') (s_vn s')).
  pose proof (w_size _ _ _ _ Hwr) as Hsz. cbn [s s_vn] in Hsz. change (fsize (v_data (mark_changed (ff_vn x)))) with (fsize (v_data (ff_vn x))) in Hsz.
  destruct (w_linked _ _ _ _ Hwr) as (Hf' & Hz' & Hch'). assert (zlen new <= zlen buf) as Hnl.
  { destruct Hres as [[_ ->]|[_ [k ->]]]; [done|]. unfold zlen. rewrite length_app. lia. }
  assert (exists l', file_ok (fat (s_fs s')) (v_data (s_vn s')) l' /\ (l' = s_cl s' \/ fsize (v_data (s_vn s')) = 0)) as (l' & Hl' & El').
  { destruct (Z.eq_dec (fsize (v_data (s_vn s'))) 0) as [Ez|Ez]; [exists []; split; [by left|by right]|]. exists (s_cl s'). split; [|by left]. right. split; [lia|].
    destruct Hch' as [Hch'|?]; [|done]. rewrite Hch' in Hz'. unfold zlen in Hz'. simpl in Hz'. lia. }
  assert (fat_file_ok (mk_fatfile (s_fs s') (s_dev s') (s_vn s'))) as Hok'.
  { split; [done|]. split; [rewrite (w_fs _ _ _ _ Hwr); exact Hg|]. cbn [ff_vn ff_fs]. split; [unfold zlen in *; lia|by exists l']. }
  split; [reflexivity|]. split; [done|]. split.
  - pose proof (length_file_bytes _ Hok') as Hlen'. cbn [ff_vn] in Hlen'. change (take (Z.to_nat o) (file_bytes x) ++ new ++ drop (Z.to_nat o + length new) (file_bytes x)) with (overwrite (Z.to_nat o) new (file_bytes x)).
    apply list_eq_same_length with (Z.to_nat (fsize (v_data (s_vn s')))); [|unfold zlen in *; lia|].
    + unfold overwrite. rewrite !length_app, length_take, length_drop. unfold zlen in *. lia.
    + intros i a b Hi Ha Hb. pose proof (lookup_file_bytes (mk_fatfile (s_fs s') (s_dev s') (s_vn s')) l' (Z.of_nat i) Hf' Hl' ltac:(cbn [ff_vn]; lia)) as Hx.
      rewrite Nat2Z.id in Hx. cbn [ff_vn ff_dev ff_fs] in Hx. destruct El' as [->|?]; [|lia]. rewrite (w_dev _ _ _ _ Hwr), (w_bytes _ _ _ _ Hwr) in Hx by lia. cbn [s s_vn s_cl s_dev] in Hx.
      rewrite Hx in Ha. rewrite lookup_overwrite in Hb by (unfold zlen in *; lia). repeat case_bool_decide; try (unfold zlen in *; lia).
      * replace (i - _)%nat with (Z.to_nat (Z.of_nat i - o)) in Hb by (unfold zlen in *; lia). congruence.
      * pose proof (lookup_file_bytes x l (Z.of_nat i) Hf Hl ltac:(unfold zlen in *; lia)) as Hy. rewrite Nat2Z.id in Hy.
        change (v_dev (mark_changed (ff_vn x))) with (v_dev (ff_vn x)) in Ha. congruence.
  - destruct Hres as [[-> ->]|[[-> | ->] Hp]]; [by right|by left|by left].
Qed.

(** At the start of a file that has bytes. *)
Lemma fat_write_start x buf : fat_file_ok x -> file_bytes x <> [] -> 0 < zlen buf < 2 ^ 31 ->
  exists ret x', fat_write 0 buf x = Some (ret, x') /\ fat_file_ok x' /\ take 512 (file_bytes x) `prefix_of` file_bytes x'.
Proof.
  intros Hok Hne Hn. pose proof Hok as (Hf & Hg & Hs & l & Hl). pose proof (length_file_bytes x Hok) as Hlen.
  assert (0 < fsize (v_data (ff_vn x))) as Hpos by (destruct (file_bytes x); [done|unfold zlen in Hlen; simpl in Hlen; lia]).
  pose proof Hl as [[? _]|[Hz Hc]]; [lia|]. destruct l as [|c0 l2]; [unfold zlen in Hz; simpl in Hz; lia|].
  destruct (write_at_start_spec (mk_fstate (ff_fs x) (ff_dev x) (ff_vn x) (c0 :: l2)) c0 l2 buf) as (ret & s' & E & H); [split; [done|]; simpl; split; [lia|by right]|done|done|done|done|].
  simpl in E. unfold fat_write. rewrite E, bind_Some. exists ret, (mk_fatfile (s_fs s') (s_dev s') (s_vn s')). pose proof (hk_size _ _ _ H) as Hsz. simpl in Hsz.
  destruct (hk_linked _ _ _ H) as (Hf' & Hz' & Hch').
  assert (file_ok (fat (s_fs s')) (v_data (s_vn s')) (s_cl s')) as Hl'.
  { right. split; [lia|]. destruct Hch' as [Hch'|?]; [|done]. rewrite Hch' in Hz'. unfold zlen in Hz'. simpl in Hz'. lia. }
  assert (fat_file_ok (mk_fatfile (s_fs s') (s_dev s') (s_vn s'))) as Hok'.
  { split; [done|]. split; [rewrite (hk_fs _ _ _ H); exact Hg|]. cbn [ff_vn ff_fs]. split; [lia|by exists (s_cl s')]. }
  split; [done|]. split; [done|]. pose proof (length_file_bytes _ Hok') as Hlen'. cbn [ff_vn] in Hlen'.
  exists (drop (length (take 512 (file_bytes x))) (file_bytes (mk_fatfile (s_fs s') (s_dev s') (s_vn s')))). rewrite <- (take_drop (length (take 512 (file_bytes x))) (file_bytes (mk_fatfile _ _ _))) at 1. f_equal.
  rewrite length_take. set (n := Nat.min 512 (length (file_bytes x))). assert (take 512 (file_bytes x) = take n (file_bytes x)) as -> by (unfold n; by rewrite <- take_take, firstn_all).
  apply list_eq_same_length with n; [rewrite length_take; unfold zlen in *; lia|rewrite length_take; unfold zlen in *; lia|].
  intros i a b Hi Ha Hb. rewrite lookup_take_lt in Ha, Hb by lia. unfold zlen in Hlen, Hlen'.
  pose proof (lookup_file_bytes (mk_fatfile (s_fs s') (s_dev s') (s_vn s')) (s_cl s') (Z.of_nat i) Hf' Hl' ltac:(cbn [ff_vn]; lia)) as Hx.
  pose proof (lookup_file_bytes x (c0 :: l2) (Z.of_nat i) Hf Hl ltac:(lia)) as Hy. rewrite Nat2Z.id in Hx, Hy. cbn [ff_vn ff_dev ff_fs] in Hx.
  pose proof (hk_bytes _ _ _ H (Z.of_nat i)) as Hbyte. simpl in Hbyte. rewrite (hk_dev _ _ _ H) in Hx. simpl in Hx. rewrite Hbyte in Hx by lia.
  change (v_dev (mark_changed (ff_vn x))) with (v_dev (ff_vn x)) in Hx. congruence.
Qed.

(** C3: A FAT12 file is a list of bytes.  [fat12_vop_write] on a file whose clusters are linked, at any
    offset from 0 to the size of the file, returns and leaves the clusters linked.  Unless the
    offset is 0 and the file has bytes, it refines the replacement of bytes in a list: the bytes of the
    file are those before with the part written, which is the whole buffer unless the result is an
    error, put in their place.  At offset 0 of a file that has bytes it does not: the first block
    keeps the bytes it had, because the code goes to the second cluster. *)
Theorem fat_write_refines x o buf :
  fat_file_ok x -> 0 <= o <= zlen (file_bytes x) -> o + zlen buf < 2 ^ 31 ->
  exists ret x', fat_write o buf x = Some (ret, x') /\ fat_file_ok x' /\
    if bool_decide (o = 0 /\ file_bytes x <> [] /\ buf <> []) then take 512 (file_bytes x) `prefix_of` file_bytes x'
    else exists new, file_bytes x' = take (Z.to_nat o) (file_bytes x) ++ new ++ drop (Z.to_nat o + length new) (file_bytes x) /\
      ((ret < 0 /\ new `prefix_of` buf) \/ (ret = o + zlen buf /\ new = buf)).
Proof.
  intros Hok Ho Hov. case_bool_decide as Hst.
  - destruct Hst as (-> & Hne & Hb). apply fat_write_start; [done..|]. destruct buf; [done|]. unfold zlen in *. simpl in *. lia.
  - destruct (decide (o = 0 -> file_bytes x = [])) as [H0|H0].
    + destruct (fat_write_ok x o buf Hok Ho H0 Hov) as (ret & new & x' & ? & ? & ? & ?). exists ret, x'. split; [done|]. split; [done|]. by exists new.
    + assert (o = 0) as -> by (destruct (decide (o = 0)); [done|by destruct H0]). assert (buf = []) as -> by (destruct buf; [done|]; destruct Hst; split; [done|]; split; [|done]; intros E; apply H0; done).
      exists 0, (mk_fatfile (ff_fs x) (ff_dev x) (mark_changed (ff_vn x))). split; [done|]. split; [exact Hok|]. exists []. split; [|by right]. simpl. by rewrite drop_0.
Qed.

(** The FAT12 file system implements files of bytes. *)
#[export] Instance fat_vnode_ops : VnodeOps fatfile := {|
  vop_read := fat_read; vop_write := fat_write; vop_trunc := fat_trunc; f_ok := fat_file_ok; f_bytes := file_bytes;
  vop_read_spec := fat_read_ok; vop_write_spec := fat_write_ok; vop_trunc_spec := fat_trunc_ok |}.

End FatVnode.

Definition ex_fatfile : fatfile := mk_fatfile ex_fs ex_disk ex_vnode.
Lemma ex_fatfile_ok : fat_file_ok ex_fatfile.
Proof. split; [apply ex_fat_ok|]. split; [apply ex_geometry|]. cbn [ff_vn ex_fatfile ex_vnode v_data ex_dirent fsize]. split; [lia|]. exists [2; 3; 4]. apply ex_file. Qed.

Lemma fat_write_refines_witness :
  exists ret x', fat_write 1000 [1; 2; 3] ex_fatfile = Some (ret, x') /\ fat_file_ok x' /\
    if bool_decide (1000 = 0 /\ file_bytes ex_fatfile <> [] /\ [1; 2; 3] <> []) then take 512 (file_bytes ex_fatfile) `prefix_of` file_bytes x'
    else exists new, file_bytes x' = take (Z.to_nat 1000) (file_bytes ex_fatfile) ++ new ++ drop (Z.to_nat 1000 + length new) (file_bytes ex_fatfile) /\
      ((ret < 0 /\ new `prefix_of` [1; 2; 3]) \/ (ret = 1003 /\ new = [1; 2; 3])).
Proof.
  assert (zlen (file_bytes ex_fatfile) = 1000) as Hl by exact (length_file_bytes _ ex_fatfile_ok).
  apply (fat_write_refines ex_fatfile 1000 [1; 2; 3]); [apply ex_fatfile_ok|rewrite Hl; split; intros H; discriminate H|reflexivity].
Defined.

End FatVnode.

(** * The file table and the handles of a process *)

Module Fd.
Import Vnodes.

Definition FTABLE_SIZE : Z := 100.
Definition MAXPROCFILES : Z := 20.
Definition SOCKHANDLEBEGIN : Z := FTABLE_SIZE.
Definition SOCKHANDLEEND : Z := SOCKHANDLEBEGIN + 50.
Definition FTE_UNUSED : Z := 0x00.
Definition FTE_USED : Z := 0x01.
Definition FTFLAGS_FILE : Z := 0x04.
Definition FTFLAGS_READ : Z := 0x08.
Definition FTFLAGS_WRITE : Z := 0x10.
Definition FTFLAGS_APPEND : Z := 0x20.
Definition FTFLAGS_CHANGED : Z := 0x40.
Definition O_RDONLY : Z := 0x01.
Definition O_WRONLY : Z := 0x02.
Definition O_RDWR : Z := 0x04.
Definition O_APPEND : Z := 0x08.
Definition O_TRUNC : Z := 0x10.
Definition S_IFDIR : Z := 0x4000.
Definition SEEK_SET : Z := 0.
Definition SEEK_CUR : Z := 1.
Definition SEEK_END : Z := 2.
Definition ENO_FREE_FILE_TABLE_SLOT : Z := -35.
Definition EDIR_OPEN_AS_A_FILE : Z := -44.
Definition EACCESS : Z := -49.
Definition EINVALID_HANDLE : Z := -51.
Definition EINVALID_SEEK : Z := -55.
Definition EMAXFILES : Z := -110.

(** [struct FileTableEntry]. *)
Record fte := mk_fte { fte_refcount : Z; fte_flags : Z; fte_mode : Z; fte_opmode : Z; fte_size : Z; fte_curposition : Z; fte_vn : ptr }.

Section Fd.
Set Default Proof Using "Type".
Context {F : Type} `{!VnodeOps F}.

(** What the handles reach besides files: the socket layer, the keyboard and the screen. *)
Context {W : Type}.
Context (increment_sockref_count decrement_sockref_count : Z -> W -> W).
Context (other_read : Z -> Z -> W -> Z * list Z * W) (other_write : Z -> list Z -> W -> Z * W).

(** The reference count of a vnode, its parent, and the file it stands for. *)
Record vn := mk_vn { v_count : Z; v_parent : ptr; v_file : F }.

(** [destroyed] are the calls of [vop_destroy], the latest first. *)
Record state := mk_state { openFileTable : list fte; fhandles : list Z; vnodes : gmap loc vn; destroyed : list loc; world : W }.

Definition set_ftab (t : list fte) (s : state) : state := mk_state t (fhandles s) (vnodes s) (destroyed s) (world s).
Definition set_fhandles (h : list Z) (s : state) : state := mk_state (openFileTable s) h (vnodes s) (destroyed s) (world s).
Definition set_vnodes (v : gmap loc vn) (s : state) : state := mk_state (openFileTable s) (fhandles s) v (destroyed s) (world s).
Definition set_destroyed (l : list loc) (s : state) : state := mk_state (openFileTable s) (fhandles s) (vnodes s) l (world s).
Definition set_world (w : W) (s : state) : state := mk_state (openFileTable s) (fhandles s) (vnodes s) (destroyed s) w.

Definition set_refcount (n : Z) (e : fte) : fte := mk_fte n (fte_flags e) (fte_mode e) (fte_opmode e) (fte_size e) (fte_curposition e) (fte_vn e).
Definition set_flags (n : Z) (e : fte) : fte := mk_fte (fte_refcount e) n (fte_mode e) (fte_opmode e) (fte_size e) (fte_curposition e) (fte_vn e).
Definition set_position (n : Z) (e : fte) : fte := mk_fte (fte_refcount e) (fte_flags e) (fte_mode e) (fte_opmode e) (fte_size e) n (fte_vn e).
Definition set_size (n : Z) (e : fte) : fte := mk_fte (fte_refcount e) (fte_flags e) (fte_mode e) (fte_opmode e) n (fte_curposition e) (fte_vn e).

(** ** Reference counts of vnodes *)

(** [vn->v_count += n], an [unsigned short]. *)
Definition add_count (n : Z) (v : loc) (s : state) : option state :=
  x ← vnodes s !! v; Some (set_vnodes (<[v := mk_vn (u16 (v_count x + n)) (v_parent x) (v_file x)]> (vnodes s)) s).

Definition get_vnode (v : loc) (s : state) : option state := add_count 1 v s.

Fixpoint release_vnode (fuel : nat) (v : loc) (s : state) : option state :=
  match fuel with
  | O => None
  | S fuel =>
      s ← add_count (-1) v s;
      x ← vnodes s !! v;
      if v_count x <=? 0 then
        let s := set_destroyed (v :: destroyed s) s in
        match v_parent x with
        | None => Some s
        | Some vnp => s ← get_vnode vnp s; s ← add_count (-1) vnp s; release_vnode fuel vnp s
        end
      else Some s
  end.

(** As many turns as there are vnodes on the way to the root. *)
Definition release (v : loc) (s : state) : option state := release_vnode (S (size (vnodes s))) v s.

(** ** Slots and handles *)

Fixpoint find_unused (i : Z) (t : list fte) : option Z :=
  match t with [] => None | e :: t => if fte_flags e =? FTE_UNUSED then Some i else find_unused (i + 1) t end.

Definition alloc_ftab_slot (s : state) : option (Z * state) :=
  match find_unused 0 (openFileTable s) with
  | None => Some (ENO_FREE_FILE_TABLE_SLOT, s)
  | Some i => e ← zget (openFileTable s) i; t ← zset (openFileTable s) i (set_flags FTE_USED e); Some (i, set_ftab t s)
  end.

Fixpoint find_handle (i : Z) (h : list Z) : option Z :=
  match h with [] => None | x :: h => if x =? -4 then Some i else find_handle (i + 1) h end.

Definition alloc_process_file_handle (ft_handle : Z) (s : state) : option (Z * state) :=
  match find_handle 0 (fhandles s) with
  | None => Some (ENO_FREE_FILE_TABLE_SLOT, s)
  | Some i => h ← zset (fhandles s) i ft_handle; Some (i, set_fhandles h s)
  end.

Definition is_file (h : Z) : bool := (0 <=? h) && (h <? FTABLE_SIZE).
Definition is_socket (h : Z) : bool := (SOCKHANDLEBEGIN <=? h) && (h <? SOCKHANDLEEND).

Definition increment_ref_count (h : Z) (s : state) : option state :=
  if is_file h then
    e ← zget (openFileTable s) h;
    v ← fte_vn e;
    s ← get_vnode v s;
    s ← add_count 1 v s;
    t ← zset (openFileTable s) h (set_refcount (s16 (fte_refcount e + 1)) e);
    release v (set_ftab t s)
  else Some (set_world (increment_sockref_count h (world s)) s).

Definition decrement_ref_count (h : Z) (s : state) : option state :=
  if is_file h then
    e ← zget (openFileTable s) h;
    v ← fte_vn e;
    s ← get_vnode v s;
    s ← add_count (-1) v s;
    let e := set_refcount (s16 (fte_refcount e - 1)) e in
    t ← zset (openFileTable s) h e;
    s ← release v (set_ftab t s);
    if fte_refcount e =? 0 then t ← zset (openFileTable s) h (set_flags FTE_UNUSED e); Some (set_ftab t s) else Some s
  else Some (set_world (decrement_sockref_count h (world s)) s).

Definition valid_handle (h flags : Z) (s : state) : option Z :=
  if is_file h then e ← zget (openFileTable s) h; Some (Z.land (fte_flags e) flags)
  else if ((h =? -1) && has_bits flags FTFLAGS_READ) || (((h =? -2) || (h =? -3)) && has_bits flags FTFLAGS_WRITE) || is_socket h then Some 1
  else Some EINVALID_HANDLE.

Definition in_handles (h : Z) : bool := (0 <=? h) && (h <? MAXPROCFILES).

(** ** System calls *)

(** The entry that [syscall_open] fills in. *)
Definition open_entry (type mode st_mode st_size : Z) (fvn : loc) (e : fte) : fte :=
  let e := mk_fte (fte_refcount e) (fte_flags e) (s16 st_mode) (s16 mode) (u32 st_size) (fte_curposition e) (Some fvn) in
  let e := if has_bits type O_TRUNC || has_bits type O_WRONLY
           then set_flags (Z.lor (fte_flags e) (Z.lor FTFLAGS_CHANGED FTFLAGS_WRITE)) (set_size 0 (set_position 0 e))
           else if type =? O_APPEND then set_flags (Z.lor (fte_flags e) FTFLAGS_APPEND) (set_position (u32 st_size) e)
           else set_position 0 e in
  let e := if has_bits type O_RDONLY || has_bits type O_RDWR then set_flags (Z.lor (fte_flags e) FTFLAGS_READ) e else e in
  let e := if has_bits type O_WRONLY || has_bits type O_RDWR then set_flags (Z.lor (fte_flags e) FTFLAGS_WRITE) e else e in
  set_flags (Z.lor (fte_flags e) FTFLAGS_FILE) e.

(** [syscall_open] once the directory [dvn] and the file [fvn] are found, both with a
    reference held; [st_mode] and [st_size] are from [vop_getattr]. *)
Definition open_vnode (secs : Z) (dvn fvn : loc) (st_mode st_size type mode : Z) (s : state) : option (Z * state) :=
  if has_bits st_mode S_IFDIR then s ← release dvn s; s ← release fvn s; Some (EDIR_OPEN_AS_A_FILE, s) else
  let type := if type =? 0 then O_RDONLY else Z.land type 0x3f in
  if (has_bits type O_WRONLY || has_bits type O_RDWR || has_bits type O_APPEND) && (Z.land st_mode 0x92 =? 0) then
    s ← release dvn s; s ← release fvn s; Some (EACCESS, s) else
  '(handle, s) ← alloc_ftab_slot s;
  s ← (if 0 <=? handle then
         e ← zget (openFileTable s) handle;
         s ← add_count 1 fvn s;
         s ← (if (has_bits type O_TRUNC || has_bits type O_WRONLY) && negb (st_size =? 0)
              then x ← vnodes s !! fvn; f ← vop_trunc secs (v_file x); Some (set_vnodes (<[fvn := mk_vn (v_count x) (v_parent x) f]> (vnodes s)) s)
              else Some s);
         t ← zset (openFileTable s) handle (open_entry type mode st_mode st_size fvn e);
         Some (set_ftab t s)
       else Some s);
  s ← release dvn s;
  s ← release fvn s;
  if 0 <=? handle then
    '(fhandle, s) ← alloc_process_file_handle handle s;
    s ← (if fhandle <? 0 then decrement_ref_count handle s else Some s);
    Some (fhandle, s)
  else Some (EMAXFILES, s).

Definition syscall_close (fhandle : Z) (s : state) : option (Z * state) :=
  if negb (in_handles fhandle) then Some (EINVALID_HANDLE, s) else
  h ← zget (fhandles s) fhandle;
  if is_file h then
    s ← decrement_ref_count h s;
    hs ← zset (fhandles s) fhandle (-4);
    Some (0, set_fhandles hs s)
  else if is_socket h then Some (0, set_world (decrement_sockref_count h (world s)) s)
  else Some (EINVALID_HANDLE, s).

(** A read or a write at the position of the entry [h], which moves it. *)
Definition file_io {A} (h : Z) (io : Z -> F -> option (Z * A * F)) (s : state) : option (Z * A * state) :=
  e ← zget (openFileTable s) h;
  v ← fte_vn e;
  s ← get_vnode v s;
  x ← vnodes s !! v;
  '(retval, a, f) ← io (s32 (fte_curposition e)) (v_file x);
  let s := set_vnodes (<[v := mk_vn (v_count x) (v_parent x) f]> (vnodes s)) s in
  '(retval, s) ← (if 0 <? retval then
                    t ← zset (openFileTable s) h (set_position (u32 retval) e);
                    Some (s32 (retval - s32 (fte_curposition e)), set_ftab t s)
                  else Some (retval, s));
  s ← release v s;
  Some (retval, a, s).

Definition syscall_read (handle nbytes : Z) (s : state) : option (Z * list Z * state) :=
  if negb (in_handles handle) then Some (EINVALID_HANDLE, [], s) else
  h ← zget (fhandles s) handle;
  ok ← valid_handle h FTFLAGS_READ s;
  if ok =? 0 then Some (EINVALID_HANDLE, [], s)
  else if is_file h then file_io h (fun o f => vop_read o nbytes f) s
  else if (h =? -1) || is_socket h then let '(r, out, w) := other_read h nbytes (world s) in Some (r, out, set_world w s)
  else Some (EINVALID_HANDLE, [], s).

Definition syscall_write (handle : Z) (buf : list Z) (s : state) : option (Z * state) :=
  if negb (in_handles handle) then Some (EINVALID_HANDLE, s) else
  h ← zget (fhandles s) handle;
  ok ← valid_handle h FTFLAGS_WRITE s;
  if ok =? 0 then Some (EINVALID_HANDLE, s)
  else if is_file h then '(r, _, s) ← file_io h (fun o f => '(r, f) ← vop_write o buf f; Some (r, tt, f)) s; Some (r, s)
  else if (h =? -2) || is_socket h then let '(r, w) := other_write h buf (world s) in Some (r, set_world w s)
  else Some (EINVALID_HANDLE, s).

(** The position that [syscall_lseek] sets; [u32] is the wrap-around of [unsigned int]. *)
Definition seek_position (offset whence : Z) (e : fte) : Z :=
  if whence =? SEEK_SET then if (0 <=? offset) && (u32 offset <=? fte_size e) then u32 offset else fte_curposition e
  else if whence =? SEEK_CUR then
    if (0 <=? u32 (fte_curposition e + offset)) && (u32 (fte_curposition e + offset) <=? fte_size e) then u32 (fte_curposition e + offset) else fte_curposition e
  else if (offset <? 0) && (0 <=? u32 (fte_size e + offset)) then u32 (fte_size e + offset) else fte_curposition e.

(** The result is that of [fat12_vop_seek], always 0. *)
Definition syscall_lseek (fildes offset whence : Z) (s : state) : option (Z * state) :=
  if negb (in_handles fildes) then Some (EINVALID_SEEK, s) else
  h ← zget (fhandles s) fildes;
  if (h <? 0) || negb ((whence =? SEEK_SET) || (whence =? SEEK_CUR) || (whence =? SEEK_END)) then Some (EINVALID_SEEK, s) else
  e ← zget (openFileTable s) h;
  v ← fte_vn e;
  s ← get_vnode v s;
  t ← zset (openFileTable s) h (set_position (seek_position offset whence e) e);
  s ← release v (set_ftab t s);
  Some (0, s).

Definition syscall_dup (oldfd : Z) (s : state) : option (Z * state) :=
  if negb (in_handles oldfd) then Some (EINVALID_HANDLE, s) else
  h ← zget (fhandles s) oldfd;
  if h <=? -4 then Some (EINVALID_HANDLE, s) else
  match find_handle 0 (fhandles s) with
  | None => Some (ENO_FREE_FILE_TABLE_SLOT, s)
  | Some i => hs ← zset (fhandles s) i h; s ← increment_ref_count h (set_fhandles hs s); Some (i, s)
  end.

Definition syscall_dup2 (oldfd newfd : Z) (s : state) : option (Z * state) :=
  if negb (in_handles oldfd) then Some (EINVALID_HANDLE, s) else
  if negb (in_handles newfd) then Some (EINVALID_HANDLE, s) else
  h ← zget (fhandles s) oldfd;
  if h <=? -4 then Some (EINVALID_HANDLE, s) else
  g ← zget (fhandles s) newfd;
  s ← (if 0 <=? g then '(_, s) ← syscall_close newfd s; Some s else Some s);
  h ← zget (fhandles s) oldfd;
  hs ← zset (fhandles s) newfd h;
  h ← zget hs oldfd;
  s ← increment_ref_count h (set_fhandles hs s);
  Some (newfd, s).

(** * Reference counts *)

Lemma set_vnodes_id s : set_vnodes (vnodes s) s = s.
Proof. by destruct s. Qed.

Definition with_count (n : Z) (x : vn) : vn := mk_vn n (v_parent x) (v_file x).

Lemma add_count_some n v s x : vnodes s !! v = Some x -> 0 <= v_count x + n < 2 ^ 16 ->
  add_count n v s = Some (set_vnodes (<[v := with_count (v_count x + n) x]> (vnodes s)) s).
Proof. intros Hx Hc. unfold add_count. rewrite Hx. cbn [mbind option_bind]. by rewrite u16_id by lia. Qed.

(** Giving a reference back while others are held. *)
Lemma release_live v s x : vnodes s !! v = Some x -> 1 < v_count x < 2 ^ 16 -> release v s = Some (set_vnodes (<[v := with_count (v_count x - 1) x]> (vnodes s)) s).
Proof.
  intros Hx Hc. unfold release. cbn [release_vnode]. rewrite (add_count_some _ _ _ _ Hx) by lia. rewrite bind_Some. cbn [vnodes set_vnodes]. rewrite lookup_insert_eq, bind_Some.
  cbn [v_count with_count]. destruct (Z.leb_spec (v_count x + -1) 0); [lia|done].
Qed.

(** * Reading and writing at the position *)

(** Handle [fd] stands for the open file [h]: its entry, its vnode and the file. *)
Record opened (s : state) (fd h : Z) (e : fte) (v : loc) (x : vn) : Prop := {
  o_fd : in_handles fd = true;
  o_handle : zget (fhandles s) fd = Some h;
  o_file : is_file h = true;
  o_entry : zget (openFileTable s) h = Some e;
  o_vn : fte_vn e = Some v;
  o_vnode : vnodes s !! v = Some x;
  o_count : 0 < v_count x < 2 ^ 16 - 1 }.

(** The state after the entry and the file behind it changed. *)
Definition moved (s : state) (h : Z) (e' : fte) (v : loc) (x' : vn) (s' : state) : Prop :=
  exists t, zset (openFileTable s) h e' = Some t /\ s' = set_ftab t (set_vnodes (<[v := x']> (vnodes s)) s).

Lemma zset_same {A} (l : list A) i x : zget l i = Some x -> zset l i x = Some l.
Proof.
  intros H. pose proof (zget_Some_range _ _ _ H) as Hr. rewrite zset_Some by done. unfold zget in H. destruct (i <? 0); [done|]. by rewrite list_insert_id.
Qed.

Lemma file_io_spec {A} s fd h e v x (io : Z -> F -> option (Z * A * F)) ret a f :
  opened s fd h e v x -> io (s32 (fte_curposition e)) (v_file x) = Some (ret, a, f) ->
  exists s', file_io h io s = Some ((if 0 <? ret then s32 (ret - s32 (fte_curposition e)) else ret), a, s') /\
    moved s h (if 0 <? ret then set_position (u32 ret) e else e) v (mk_vn (v_count x) (v_parent x) f) s'.
Proof.
  intros [_ _ _ He Hv Hx Hc] Hio. unfold file_io. rewrite He, bind_Some, Hv, bind_Some. unfold get_vnode. rewrite (add_count_some _ _ _ _ Hx) by lia. rewrite bind_Some.
  cbn [vnodes set_vnodes openFileTable]. rewrite lookup_insert_eq, bind_Some. cbn [v_file with_count v_count v_parent]. rewrite Hio, bind_Some. cbv beta iota zeta.
  pose proof (zget_Some_range _ _ _ He) as Hr.
  assert (forall e', exists t, zset (openFileTable s) h e' = Some t) as Hset by (intros e'; eexists; by apply zset_Some).
  destruct (Hset (set_position (u32 ret) e)) as [t Ht]. destruct (0 <? ret).
  - rewrite Ht, bind_Some, bind_Some. erewrite release_live; [|cbn [vnodes set_ftab set_vnodes]; apply lookup_insert_eq|cbn [v_count]; lia]. rewrite bind_Some. eexists. split; [reflexivity|].
    exists t. split; [done|]. unfold set_ftab, set_vnodes, with_count. cbn. rewrite !insert_insert_eq. by rewrite Z.add_simpl_r.
  - rewrite bind_Some. erewrite release_live; [|cbn [vnodes set_vnodes]; apply lookup_insert_eq|cbn [v_count]; lia]. rewrite bind_Some. eexists. split; [reflexivity|].
    exists (openFileTable s). split; [by apply zset_same|]. unfold set_ftab, set_vnodes, with_count. cbn. rewrite !insert_insert_eq. by rewrite Z.add_simpl_r.
Qed.

Lemma opened_moved s fd h e v x e' f s' :
  opened s fd h e v x -> fte_vn e' = fte_vn e -> moved s h e' v (mk_vn (v_count x) (v_parent x) f) s' -> opened s' fd h e' v (mk_vn (v_count x) (v_parent x) f).
Proof.
  intros [H1 H2 H3 H4 H5 H6 H7] Ev (t & Ht & ->). split; auto; [|congruence|].
  - cbn [openFileTable set_ftab]. by apply zget_zset_eq in Ht.
  - cbn [vnodes set_ftab set_vnodes]. apply lookup_insert_eq.
Qed.

Lemma valid_file s fd h e v x flag : opened s fd h e v x -> valid_handle h flag s = Some (Z.land (fte_flags e) flag).
Proof. intros [_ _ Hf He _ _ _]. unfold valid_handle. by rewrite Hf, He. Qed.

(** What a read comes to. *)
Lemma syscall_read_spec s fd h e v x n :
  opened s fd h e v x -> has_bits (fte_flags e) FTFLAGS_READ = true -> f_ok (v_file x) -> 0 <= fte_curposition e -> 0 <= n -> fte_curposition e + n < 2 ^ 31 ->
  exists ret out f s', syscall_read fd n s = Some (ret, out, s') /\ f_ok f /\ f_bytes f = f_bytes (v_file x) /\
    ((ret < 0 /\ moved s h e v (mk_vn (v_count x) (v_parent x) f) s') \/
     (ret = zlen out /\ out = take (Z.to_nat n) (drop (Z.to_nat (fte_curposition e)) (f_bytes (v_file x))) /\
      moved s h (set_position (fte_curposition e + zlen out) e) v (mk_vn (v_count x) (v_parent x) f) s')).
Proof.
  intros Ho Hr Hf Hp Hn Hov. pose proof Ho as [H1 H2 H3 _ _ _ _]. unfold syscall_read. rewrite H1. cbn [negb]. rewrite H2, bind_Some, (valid_file _ _ _ _ _ _ _ Ho), bind_Some.
  unfold has_bits in Hr. apply negb_true_iff in Hr. rewrite Hr, H3.
  destruct (vop_read_spec (v_file x) (fte_curposition e) n Hf Hp Hn Hov) as (ret & out & f & E & Hf' & Hb & Hres).
  destruct (file_io_spec s fd h e v x (fun o f => vop_read o n f) ret out f Ho) as (s' & E' & Hm); [by rewrite s32_id by lia|]. rewrite E'. do 4 eexists. split; [reflexivity|].
  split; [done|]. split; [done|]. destruct Hres as [Hneg|[Er Eo]].
  - left. destruct (Z.ltb_spec 0 ret); [lia|]. done.
  - right. assert (zlen out <= n) as Hle by (rewrite Eo; unfold zlen; rewrite length_take; lia). assert (0 <= zlen out) by (unfold zlen; lia).
    rewrite (s32_id (fte_curposition e)) by lia. destruct (Z.ltb_spec 0 ret).
    + rewrite s32_id by lia. rewrite u32_id in Hm by lia. split; [lia|]. split; [done|]. by rewrite <- Er.
    + split; [lia|]. split; [done|]. replace (set_position (fte_curposition e + zlen out) e) with e; [done|]. replace (fte_curposition e + zlen out) with (fte_curposition e) by lia. by destruct e.
Qed.

(** Reading through a handle.  [syscall_read] returns the bytes of the file at the
    handle's position, as many as were asked for and there are, and moves the position
    behind them; the file's bytes, the other open files and the handles stay as they are.  On
    an error the position stays. *)
Theorem read_advances s fd h e v x n :
  opened s fd h e v x -> has_bits (fte_flags e) FTFLAGS_READ = true -> f_ok (v_file x) -> 0 <= fte_curposition e -> 0 <= n -> fte_curposition e + n < 2 ^ 31 ->
  exists ret out f s', syscall_read fd n s = Some (ret, out, s') /\ f_ok f /\ f_bytes f = f_bytes (v_file x) /\
    ((ret < 0 /\ moved s h e v (mk_vn (v_count x) (v_parent x) f) s') \/
     (ret = zlen out /\ out = take (Z.to_nat n) (drop (Z.to_nat (fte_curposition e)) (f_bytes (v_file x))) /\
      moved s h (set_position (fte_curposition e + zlen out) e) v (mk_vn (v_count x) (v_parent x) f) s')).
Proof. apply syscall_read_spec. Qed.

Lemma syscall_write_spec s fd h e v x buf :
  opened s fd h e v x -> has_bits (fte_flags e) FTFLAGS_WRITE = true -> f_ok (v_file x) ->
  0 <= fte_curposition e <= zlen (f_bytes (v_file x)) -> (fte_curposition e = 0 -> f_bytes (v_file x) = []) -> fte_curposition e + zlen buf < 2 ^ 31 ->
  exists ret new f s', syscall_write fd buf s = Some (ret, s') /\ f_ok f /\
    f_bytes f = take (Z.to_nat (fte_curposition e)) (f_bytes (v_file x)) ++ new ++ drop (Z.to_nat (fte_curposition e) + length new) (f_bytes (v_file x)) /\
    ((ret < 0 /\ new `prefix_of` buf /\ moved s h e v (mk_vn (v_count x) (v_parent x) f) s') \/
     (ret = zlen buf /\ new = buf /\ moved s h (set_position (fte_curposition e + zlen buf) e) v (mk_vn (v_count x) (v_parent x) f) s')).
Proof.
  intros Ho Hr Hf Hp H0 Hov. pose proof Ho as [H1 H2 H3 _ _ _ _]. unfold syscall_write. rewrite H1. cbn [negb]. rewrite H2, bind_Some, (valid_file _ _ _ _ _ _ _ Ho), bind_Some.
  unfold has_bits in Hr. apply negb_true_iff in Hr. rewrite Hr, H3. assert (0 <= zlen buf) by (unfold zlen; lia).
  destruct (vop_write_spec (v_file x) (fte_curposition e) buf Hf Hp H0 Hov) as (ret & new & f & E & Hf' & Hb & Hres).
  destruct (file_io_spec s fd h e v x (fun o f => '(r, f) ← vop_write o buf f; Some (r, tt, f)) ret tt f Ho) as (s' & E' & Hm); [rewrite s32_id by lia; by rewrite E|].
  rewrite E', bind_Some. do 4 eexists. split; [reflexivity|]. split; [done|]. split; [done|]. destruct Hres as [[Hneg Hpre]|[Er Eo]].
  - left. destruct (Z.ltb_spec 0 ret); [lia|]. done.
  - right. rewrite (s32_id (fte_curposition e)) by lia. destruct (Z.ltb_spec 0 ret).
    + rewrite s32_id by lia. rewrite u32_id in Hm by lia. split; [lia|]. split; [done|]. by rewrite <- Er.
    + split; [lia|]. split; [done|]. replace (set_position (fte_curposition e + zlen buf) e) with e; [done|]. replace (fte_curposition e + zlen buf) with (fte_curposition e) by lia. by destruct e.
Qed.

(** Writing at the end.  Two writes through a handle whose position is the end of the file,
    if both succeed, add their bytes to the file one after the other. *)
Theorem writes_append s fd h e v x b1 b2 s1 s2 :
  opened s fd h e v x -> has_bits (fte_flags e) FTFLAGS_WRITE = true -> f_ok (v_file x) -> fte_curposition e = zlen (f_bytes (v_file x)) ->
  fte_curposition e + zlen b1 + zlen b2 < 2 ^ 31 ->
  syscall_write fd b1 s = Some (zlen b1, s1) -> syscall_write fd b2 s1 = Some (zlen b2, s2) ->
  exists f, vnodes s2 !! v = Some (mk_vn (v_count x) (v_parent x) f) /\ f_ok f /\ f_bytes f = f_bytes (v_file x) ++ b1 ++ b2 /\
    forall h', h' <> h -> zget (openFileTable s2) h' = zget (openFileTable s) h'.
Proof.
  intros Ho Hr Hf Hp Hov E1 E2. assert (0 <= zlen b1 /\ 0 <= zlen b2 /\ 0 <= zlen (f_bytes (v_file x))) as (? & ? & ?) by (unfold zlen; lia).
  assert (forall l : list Z, zlen l = 0 -> l = []) as Hnil by (intros [|y l]; [done|unfold zlen; simpl; lia]).
  assert (forall (l new : list Z), take (Z.to_nat (zlen l)) l ++ new ++ drop (Z.to_nat (zlen l) + length new) l = l ++ new) as Hend.
  { intros l new. unfold zlen. rewrite Nat2Z.id, firstn_all, drop_ge by lia. by rewrite app_nil_r. }
  destruct (syscall_write_spec s fd h e v x b1 Ho Hr Hf ltac:(lia) ltac:(intros E; apply Hnil; lia) ltac:(lia)) as (r1 & n1 & f1 & s1' & F1 & Hf1 & Hb1 & Hres1).
  rewrite F1 in E1. injection E1 as -> ->. destruct Hres1 as [(? & _)|(_ & -> & Hm1)]; [lia|]. rewrite Hp, Hend in Hb1.
  pose proof (opened_moved s fd h e v x (set_position (fte_curposition e + zlen b1) e) f1 s1 Ho eq_refl Hm1) as Ho1. assert (fte_curposition e + zlen b1 = zlen (f_bytes f1)) as Hp1 by (rewrite Hb1; unfold zlen in *; rewrite length_app; lia).
  destruct (syscall_write_spec s1 fd h _ v _ b2 Ho1 Hr Hf1) as (r2 & n2 & f2 & s2' & F2 & Hf2 & Hb2 & Hres2); [cbn [fte_curposition set_position v_file]; lia|cbn [fte_curposition set_position v_file]; intros E; apply Hnil; lia|cbn [fte_curposition set_position]; lia|].
  rewrite F2 in E2. injection E2 as -> ->. destruct Hres2 as [(? & _)|(_ & -> & Hm2)]; [lia|]. cbn [fte_curposition set_position v_file] in Hb2. rewrite Hp1, Hend, Hb1 in Hb2.
  destruct Hm1 as (t1 & Ht1 & ->). destruct Hm2 as (t2 & Ht2 & ->). exists f2. split; [cbn [vnodes set_ftab set_vnodes]; apply lookup_insert_eq|]. split; [done|].
  split; [by rewrite Hb2, <- app_assoc|]. intros h' Hne. cbn [openFileTable set_ftab set_vnodes] in *. rewrite (zget_zset_ne _ _ _ h' _ Ht2) by congruence. by rewrite (zget_zset_ne _ _ _ h' _ Ht1) by congruence.
Qed.

(** Reading in two steps is reading at once: what two reads through a handle give, if both
    succeed, is what the file has from the position on. *)
Theorem reads_continue s fd h e v x n m r1 r2 o1 o2 s1 s2 :
  opened s fd h e v x -> has_bits (fte_flags e) FTFLAGS_READ = true -> f_ok (v_file x) -> 0 <= fte_curposition e -> 0 <= n -> 0 <= m -> fte_curposition e + n + m < 2 ^ 31 ->
  syscall_read fd n s = Some (r1, o1, s1) -> syscall_read fd m s1 = Some (r2, o2, s2) -> 0 <= r1 -> 0 <= r2 ->
  o1 ++ o2 = take (Z.to_nat (n + m)) (drop (Z.to_nat (fte_curposition e)) (f_bytes (v_file x))).
Proof.
  intros Ho Hr Hf Hp Hn Hm Hov E1 E2 Hr1 Hr2. destruct (syscall_read_spec s fd h e v x n Ho Hr Hf Hp Hn ltac:(lia)) as (q1 & p1 & f1 & t1 & F1 & Hf1 & Hb1 & Hres1).
  rewrite F1 in E1. injection E1 as -> -> ->. destruct Hres1 as [[? _]|(_ & Eo1 & Hm1)]; [lia|]. pose proof (opened_moved s fd h e v x (set_position (fte_curposition e + zlen o1) e) f1 s1 Ho eq_refl Hm1) as Ho1.
  assert (0 <= zlen o1 <= n) as Hz by (rewrite Eo1; unfold zlen; rewrite length_take; lia).
  destruct (syscall_read_spec s1 fd h _ v _ m Ho1 Hr Hf1 ltac:(cbn [fte_curposition set_position]; lia) Hm ltac:(cbn [fte_curposition set_position]; lia)) as (q2 & p2 & f2 & t2 & F2 & _ & _ & Hres2).
  rewrite F2 in E2. injection E2 as -> -> ->. destruct Hres2 as [[? _]|(_ & Eo2 & _)]; [lia|]. cbn [fte_curposition set_position v_file] in Eo2. rewrite Hb1 in Eo2.
  set (l := drop (Z.to_nat (fte_curposition e)) (f_bytes (v_file x))) in *. assert (drop (Z.to_nat (fte_curposition e + zlen o1)) (f_bytes (v_file x)) = drop (length o1) l) as Ed.
  { unfold l. rewrite drop_drop. f_equal. unfold zlen. lia. }
  rewrite Ed in Eo2. assert (length o1 = min (Z.to_nat n) (length l)) as Hl1 by (rewrite Eo1; apply length_take). rewrite Z2Nat.inj_add by done.
  destruct (decide (Z.to_nat n <= length l)%nat) as [Hle|Hgt].
  - rewrite Nat.min_l in Hl1 by done. rewrite Hl1 in Eo2. rewrite Eo1, Eo2. rewrite <- (take_drop (Z.to_nat n) l) at 3. rewrite take_app_ge by (rewrite length_take; lia). f_equal.
    f_equal. rewrite length_take. lia.
  - rewrite Nat.min_r in Hl1 by lia. rewrite Eo2, Hl1, drop_all. rewrite Eo1. rewrite take_ge by lia. rewrite (take_ge l) by lia. by destruct (Z.to_nat m); rewrite app_nil_r.
Qed.

(** * Seeking *)

(** The position set, whatever [whence]. *)
Lemma lseek_spec s fd h e v x offset whence :
  opened s fd h e v x -> whence = SEEK_SET \/ whence = SEEK_CUR \/ whence = SEEK_END ->
  exists s', syscall_lseek fd offset whence s = Some (0, s') /\ moved s h (set_position (seek_position offset whence e) e) v x s'.
Proof.
  intros Ho Hw. pose proof Ho as [H1 H2 H3 He Hv Hx Hc]. unfold syscall_lseek. rewrite H1. cbn [negb]. rewrite H2, bind_Some. unfold is_file in H3. apply andb_true_iff in H3 as [H3 _]. apply Z.leb_le in H3.
  destruct (Z.ltb_spec h 0); [lia|]. assert (negb ((whence =? SEEK_SET) || (whence =? SEEK_CUR) || (whence =? SEEK_END)) = false) as -> by (destruct Hw as [->|[-> | ->]]; done). cbn [orb].
  rewrite He, bind_Some, Hv, bind_Some. unfold get_vnode. rewrite (add_count_some _ _ _ _ Hx) by lia. rewrite bind_Some. cbn [openFileTable set_vnodes].
  pose proof (zget_Some_range _ _ _ He) as Hr. assert (exists t, zset (openFileTable s) h (set_position (seek_position offset whence e) e) = Some t) as [t Ht] by (eexists; by apply zset_Some). rewrite Ht, bind_Some.
  erewrite release_live; [|cbn [vnodes set_ftab set_vnodes]; apply lookup_insert_eq|cbn [v_count with_count]; lia]. rewrite bind_Some. eexists. split; [reflexivity|]. exists t. split; [done|].
  unfold set_ftab, set_vnodes, with_count. cbn. rewrite insert_insert_eq. rewrite Z.add_simpl_r. by destruct x.
Qed.

Lemma set_position_id q e : q = fte_curposition e -> set_position q e = e.
Proof. intros ->. by destruct e. Qed.

(** Seeking.  [syscall_lseek] with [SEEK_SET] or [SEEK_CUR] moves to the place asked for if that
    is within the size the file had when it was opened, and stays otherwise; the result is 0 in
    every case, not the position. *)
Theorem lseek_moves s fd h e v x offset whence :
  opened s fd h e v x -> 0 <= fte_curposition e < 2 ^ 31 -> 0 <= fte_size e < 2 ^ 31 -> - 2 ^ 31 <= offset < 2 ^ 31 -> whence = SEEK_SET \/ whence = SEEK_CUR ->
  let p := if whence =? SEEK_SET then offset else fte_curposition e + offset in
  exists s', syscall_lseek fd offset whence s = Some (0, s') /\ moved s h (if bool_decide (0 <= p <= fte_size e) then set_position p e else e) v x s'.
Proof.
  intros Ho Hp Hs Hoff Hw p. destruct (lseek_spec s fd h e v x offset whence Ho ltac:(destruct Hw; [by left|right; by left])) as (s' & E & Hm). exists s'. split; [exact E|].
  replace (if bool_decide (0 <= p <= fte_size e) then set_position p e else e) with (set_position (seek_position offset whence e) e); [exact Hm|]. clear E Hm. unfold seek_position, p.
  destruct Hw as [-> | ->].
  - change (SEEK_SET =? SEEK_SET) with true. cbv iota. destruct (Z.leb_spec 0 offset); cbn [andb].
    + rewrite u32_id by lia. destruct (Z.leb_spec offset (fte_size e)); [by rewrite bool_decide_true by lia|rewrite bool_decide_false by lia]. by apply set_position_id.
    + rewrite bool_decide_false by lia. by apply set_position_id.
  - change (SEEK_CUR =? SEEK_SET) with false. change (SEEK_CUR =? SEEK_CUR) with true. cbv iota. pose proof (u32_range (fte_curposition e + offset)) as Hu.
    destruct (Z.leb_spec 0 (u32 (fte_curposition e + offset))); [|lia]. cbn [andb]. destruct (Z.le_gt_cases 0 (fte_curposition e + offset)) as [Hge|Hlt].
    + rewrite u32_id by lia. destruct (Z.leb_spec (fte_curposition e + offset) (fte_size e)); [by rewrite bool_decide_true by lia|rewrite bool_decide_false by lia]. by apply set_position_id.
    + rewrite bool_decide_false by lia. destruct (Z.leb_spec (u32 (fte_curposition e + offset)) (fte_size e)) as [Hle|_]; [|by apply set_position_id]. exfalso. clear -Hle Hlt Hp Hs Hoff. u32_lia.
Qed.

(** [SEEK_END] wraps around.  The size is unsigned, so the test [fte_size + offset >= 0] always
    holds: an offset that goes back beyond the start of the file sets a position near 2^32. *)
Theorem lseek_end_wraps s fd h e v x offset :
  opened s fd h e v x -> 0 <= fte_size e < 2 ^ 31 -> - 2 ^ 31 <= offset < - fte_size e ->
  exists s', syscall_lseek fd offset SEEK_END s = Some (0, s') /\ moved s h (set_position (2 ^ 32 + fte_size e + offset) e) v x s'.
Proof.
  intros Ho Hs Hoff. destruct (lseek_spec s fd h e v x offset SEEK_END Ho ltac:(by right; right)) as (s' & E & Hm). exists s'. split; [exact E|].
  unfold seek_position in Hm. change (SEEK_END =? SEEK_SET) with false in Hm. change (SEEK_END =? SEEK_CUR) with false in Hm. cbv iota in Hm.
  destruct (Z.ltb_spec offset 0); [|lia]. pose proof (u32_range (fte_size e + offset)). destruct (Z.leb_spec 0 (u32 (fte_size e + offset))); [|lia]. cbn [andb] in Hm.
  replace (2 ^ 32 + fte_size e + offset) with (u32 (fte_size e + offset)); [exact Hm|]. clear -Hs Hoff. u32_lia.
Qed.

(** * Opening *)

Lemma find_unused_spec i t : match find_unused i t with
  | Some j => i <= j /\ (exists e, zget t (j - i) = Some e /\ fte_flags e = FTE_UNUSED) /\ forall k e, 0 <= k < j - i -> zget t k = Some e -> fte_flags e <> FTE_UNUSED
  | None => Forall (fun e => fte_flags e <> FTE_UNUSED) t
  end.
Proof.
  revert i. induction t as [|e t IH]; intros i; cbn [find_unused]; [constructor|]. destruct (Z.eqb_spec (fte_flags e) FTE_UNUSED) as [E|E].
  - split; [lia|]. split; [exists e; rewrite Z.sub_diag; done|]. lia.
  - specialize (IH (i + 1)). destruct (find_unused (i + 1) t) as [j|]; [|by constructor]. destruct IH as (Hle & (e' & He' & Hf) & Hlt). split; [lia|]. split.
    + exists e'. split; [|done]. unfold zget in *. destruct (Z.ltb_spec (j - (i + 1)) 0); [done|]. destruct (Z.ltb_spec (j - i) 0); [lia|]. replace (Z.to_nat (j - i)) with (S (Z.to_nat (j - (i + 1)))) by lia. exact He'.
    + intros k e0 Hk Hg. destruct (Z.eq_dec k 0) as [->|Hk0]; [unfold zget in Hg; simpl in Hg; congruence|]. apply (Hlt (k - 1) e0); [lia|]. unfold zget in *.
      destruct (Z.ltb_spec k 0); [lia|]. destruct (Z.ltb_spec (k - 1) 0); [lia|]. replace (Z.to_nat k) with (S (Z.to_nat (k - 1))) in Hg by lia. exact Hg.
Qed.

Lemma find_handle_spec i t : match find_handle i t with
  | Some j => i <= j /\ zget t (j - i) = Some (-4)
  | None => Forall (fun x => x <> -4) t
  end.
Proof.
  revert i. induction t as [|e t IH]; intros i; cbn [find_handle]; [constructor|]. destruct (Z.eqb_spec e (-4)) as [->|E].
  - split; [lia|]. by rewrite Z.sub_diag.
  - specialize (IH (i + 1)). destruct (find_handle (i + 1) t) as [j|]; [|by constructor]. destruct IH as (Hle & Hg). split; [lia|].
    unfold zget in *. destruct (Z.ltb_spec (j - (i + 1)) 0); [done|]. destruct (Z.ltb_spec (j - i) 0); [lia|]. replace (Z.to_nat (j - i)) with (S (Z.to_nat (j - (i + 1)))) by lia. exact Hg.
Qed.

(** The access that [syscall_open] is asked for, and whether it truncates. *)
Definition open_type (type : Z) : Z := if type =? 0 then O_RDONLY else Z.land type 0x3f.
Definition truncates (type : Z) : bool := has_bits (open_type type) O_TRUNC || has_bits (open_type type) O_WRONLY.
Definition writes (type : Z) : bool := has_bits (open_type type) O_WRONLY || has_bits (open_type type) O_RDWR || has_bits (open_type type) O_APPEND.

Definition tables_ok (s : state) : Prop := zlen (openFileTable s) = FTABLE_SIZE /\ zlen (fhandles s) = MAXPROCFILES.

(** Opening a file.  With a free slot and a free handle, an open that is allowed gives a
    new handle: it refers to the first unused slot, whose entry is set up for the file; the file
    is truncated if [O_TRUNC] or [O_WRONLY] was given and unchanged otherwise; it has one reference
    for the new handle in place of the one held during the call. *)
Theorem open_opens secs dvn fvn st_mode type mode s i j x y :
  tables_ok s -> 0 <= secs < 2 ^ 32 -> ~ DateTime.new_year_day (secs / 86400) -> dvn <> fvn ->
  vnodes s !! dvn = Some y -> 1 < v_count y < 2 ^ 16 -> vnodes s !! fvn = Some x -> 0 < v_count x < 2 ^ 16 - 1 -> f_ok (v_file x) ->
  has_bits st_mode S_IFDIR = false -> (writes type = true -> has_bits st_mode 0x92 = true) ->
  find_unused 0 (openFileTable s) = Some i -> find_handle 0 (fhandles s) = Some j ->
  exists s' e f, open_vnode secs dvn fvn st_mode (zlen (f_bytes (v_file x))) type mode s = Some (j, s') /\ zget (openFileTable s) i = Some e /\
    opened s' j i (open_entry (open_type type) mode st_mode (zlen (f_bytes (v_file x))) fvn (set_flags FTE_USED e)) fvn (mk_vn (v_count x) (v_parent x) f) /\
    f_ok f /\ f_bytes f = if truncates type then [] else f_bytes (v_file x).
Proof.
  intros [Ht Hh] Hs Hny Hne Hy Hcy Hx Hcx Hf Hdir Hwr Hi Hj. unfold open_vnode. rewrite Hdir. fold (open_type type). fold (writes type).
  assert (writes type && (Z.land st_mode 0x92 =? 0) = false) as -> by (destruct (writes type); [|done]; specialize (Hwr eq_refl); unfold has_bits in Hwr; by apply negb_true_iff in Hwr). unfold alloc_ftab_slot. rewrite Hi.
  pose proof (find_unused_spec 0 (openFileTable s)) as Hfi. rewrite Hi, Z.sub_0_r in Hfi. destruct Hfi as (Hi0 & (e & He & _) & _). pose proof (zget_Some_range _ _ _ He) as Hir.
  pose proof (find_handle_spec 0 (fhandles s)) as Hfj. rewrite Hj, Z.sub_0_r in Hfj. destruct Hfj as (Hj0 & Hjg). pose proof (zget_Some_range _ _ _ Hjg) as Hjr.
  rewrite He, bind_Some. assert (exists t, zset (openFileTable s) i (set_flags FTE_USED e) = Some t) as [t Et] by (eexists; by apply zset_Some). rewrite Et, bind_Some, bind_Some. cbv beta iota.
  destruct (Z.leb_spec 0 i); [|lia]. cbn [openFileTable set_ftab]. rewrite (zget_zset_eq _ _ _ _ Et), bind_Some. rewrite (add_count_some _ _ (set_ftab t s) x) by (done || lia). rewrite bind_Some.
  set (e' := open_entry (open_type type) mode st_mode (zlen (f_bytes (v_file x))) fvn (set_flags FTE_USED e)).
  assert (exists t', zset t i e' = Some t') as [t' Et'] by (eexists; apply zset_Some; by rewrite (zlen_zset _ _ _ _ Et)).
  set (s1 := set_vnodes (<[fvn := with_count (v_count x + 1) x]> (vnodes (set_ftab t s))) (set_ftab t s)).
  assert (exists f, (if truncates type && negb (zlen (f_bytes (v_file x)) =? 0)
     then x ← vnodes s1 !! fvn; f ← vop_trunc secs (v_file x); Some (set_vnodes (<[fvn := mk_vn (v_count x) (v_parent x) f]> (vnodes s1)) s1) else Some s1) =
     Some (set_ftab t (set_vnodes (<[fvn := mk_vn (v_count x + 1) (v_parent x) f]> (vnodes s)) s)) /\ f_ok f /\ f_bytes f = if truncates type then [] else f_bytes (v_file x)) as (f & Etr & Hf' & Hb).
  { destruct (truncates type) eqn:Etr; cbn [andb]; [|exists (v_file x); by split].
    destruct (Z.eqb_spec (zlen (f_bytes (v_file x))) 0) as [Ez|Ez]; cbn [negb].
    - exists (v_file x). split; [done|]. split; [done|]. destruct (f_bytes (v_file x)); [done|unfold zlen in Ez; simpl in Ez; lia].
    - destruct (vop_trunc_spec (v_file x) secs Hf Hs Hny) as (f & Ef & Hf' & Hb). exists f. unfold s1. cbn [vnodes set_vnodes set_ftab]. rewrite lookup_insert_eq, bind_Some. cbn [v_file with_count v_count v_parent].
      rewrite Ef, bind_Some. split; [|done]. unfold set_ftab, set_vnodes. cbn. by rewrite insert_insert_eq. }
  fold (truncates type). rewrite Etr, bind_Some. cbn [openFileTable set_ftab]. rewrite Et', bind_Some, bind_Some.
  erewrite (release_live dvn); [|cbn [vnodes set_ftab set_vnodes]; rewrite lookup_insert_ne by congruence; exact Hy|lia]. rewrite bind_Some.
  erewrite (release_live fvn); [|cbn [vnodes set_ftab set_vnodes]; rewrite lookup_insert_ne by done; apply lookup_insert_eq|cbn [v_count]; lia]. rewrite bind_Some.
  unfold alloc_process_file_handle. cbn [fhandles set_vnodes set_ftab]. rewrite Hj. assert (exists hs, zset (fhandles s) j i = Some hs) as [hs Ehs] by (eexists; by apply zset_Some). rewrite Ehs, bind_Some, bind_Some.
  cbv beta iota. destruct (Z.ltb_spec j 0); [lia|]. rewrite bind_Some. do 3 eexists. split; [reflexivity|]. split; [done|]. split; [|done]. unfold tables_ok, FTABLE_SIZE, MAXPROCFILES in *. split.
  - unfold in_handles, MAXPROCFILES. rewrite andb_true_iff, Z.leb_le, Z.ltb_lt. lia.
  - cbn [fhandles set_fhandles]. by apply zget_zset_eq in Ehs.
  - unfold is_file, FTABLE_SIZE. rewrite andb_true_iff, Z.leb_le, Z.ltb_lt. lia.
  - cbn [openFileTable set_fhandles set_vnodes set_ftab]. by apply zget_zset_eq in Et'.
  - unfold e', open_entry. repeat case_match; done.
  - cbn [vnodes set_fhandles set_vnodes]. rewrite lookup_insert_eq. unfold with_count. cbn [v_count v_parent v_file]. by rewrite Z.add_simpl_r.
  - done.
Qed.

(** No way to append.  Opening with [O_WRONLY] and [O_APPEND] truncates the file; with [O_RDWR] and
    [O_APPEND] the position is the start; with [O_APPEND] alone it is the end, but the handle is
    not one that [syscall_write] accepts. *)
Theorem open_never_appends mode st_mode st_size fvn e :
  truncates (Z.lor O_WRONLY O_APPEND) = true /\
  fte_curposition (open_entry (open_type (Z.lor O_RDWR O_APPEND)) mode st_mode st_size fvn (set_flags FTE_USED e)) = 0 /\
  (fte_curposition (open_entry (open_type O_APPEND) mode st_mode st_size fvn (set_flags FTE_USED e)) = u32 st_size /\
   has_bits (fte_flags (open_entry (open_type O_APPEND) mode st_mode st_size fvn (set_flags FTE_USED e))) FTFLAGS_WRITE = false).
Proof. split; [reflexivity|]. split; [reflexivity|]. split; reflexivity. Qed.

(** * Closing *)

(** Counting references and releasing vnodes does not touch the tables. *)
Lemma add_count_tables n v s s' : add_count n v s = Some s' -> openFileTable s' = openFileTable s /\ fhandles s' = fhandles s.
Proof. intros H. unfold add_count in H. bind_inv H. by injection H as <-. Qed.

Lemma release_tables fuel v s s' : release_vnode fuel v s = Some s' -> openFileTable s' = openFileTable s /\ fhandles s' = fhandles s.
Proof.
  pose proof add_count_tables as Hadd. revert v s. induction fuel as [|fuel IH]; intros v s H; [done|]. cbn [release_vnode] in H. step H as s1 from E1. step H as x from E2. apply Hadd in E1 as [Et Eh].
  destruct (v_count x <=? 0); [|injection H as <-; done]. destruct (v_parent x) as [p|]; [|injection H as <-; done].
  step H as s2 from E3. step H as s3 from E4. apply Hadd in E3 as [Et2 Eh2]. apply Hadd in E4 as [Et3 Eh3]. apply IH in H as [Et4 Eh4]. cbn [openFileTable fhandles set_destroyed] in *. split; congruence.
Qed.

Lemma decrement_tables h s s' e :
  is_file h = true -> zget (openFileTable s) h = Some e -> decrement_ref_count h s = Some s' ->
  fhandles s' = fhandles s /\
  zset (openFileTable s) h (if s16 (fte_refcount e - 1) =? 0 then set_flags FTE_UNUSED (set_refcount (s16 (fte_refcount e - 1)) e) else set_refcount (s16 (fte_refcount e - 1)) e) = Some (openFileTable s').
Proof.
  intros Hf He H. unfold decrement_ref_count in H. rewrite Hf, He, bind_Some in H. step H as v from Ev. step H as s1 from E1. step H as s2 from E2.
  apply add_count_tables in E1 as [Et1 Eh1]. apply add_count_tables in E2 as [Et2 Eh2]. cbv zeta in H. step H as t from Et. rewrite Et2, Et1 in Et.
  step H as s3 from E3. apply release_tables in E3 as [Et3 Eh3]. cbn [openFileTable fhandles set_ftab] in Et3, Eh3. cbn [fte_refcount set_refcount] in H. pose proof (zset_inv _ _ _ _ Et) as [Hr Et'].
  destruct (s16 (fte_refcount e - 1) =? 0).
  - step H as t2 from Et2'. injection H as <-. cbn [openFileTable fhandles set_ftab]. split; [congruence|]. rewrite Et3 in Et2'. apply zset_inv in Et2' as [_ ->]. rewrite Et'. rewrite list_insert_insert_eq. by apply zset_Some.
  - injection H as <-. split; [congruence|]. by rewrite Et3.
Qed.

(** A slot is not given back.  [syscall_open] leaves [fte_refcount] at 0, so that closing the only
    handle of an open file makes it -1, and the slot stays in use. *)
Theorem close_keeps_slot s fd h e v x r s' :
  opened s fd h e v x -> fte_refcount e = 0 -> syscall_close fd s = Some (r, s') ->
  r = 0 /\ zget (fhandles s') fd = Some (-4) /\ zget (openFileTable s') h = Some (set_refcount (-1) e).
Proof.
  intros [H1 H2 H3 He _ _ _] Hrc H. unfold syscall_close in H. rewrite H1 in H. cbn [negb] in H. rewrite H2, bind_Some, H3 in H. step H as s1 from E1. step H as hs from E2. injection H as <- <-.
  apply (decrement_tables _ _ _ _ H3 He) in E1 as [_ Et]. rewrite Hrc in Et. change (s16 (0 - 1) =? 0) with false in Et. cbv iota in Et. split; [done|].
  split; [cbn [fhandles set_fhandles]; by apply zget_zset_eq in E2|]. cbn [openFileTable set_fhandles]. by apply zget_zset_eq in Et.
Qed.

(** ** Opening and closing for ever *)

Definition used (s : state) : nat := length (filter (fun e => fte_flags e <> FTE_UNUSED) (openFileTable s)).

(** One call of open or close; [n] is 1 for an open that returned a handle. *)
Inductive call : nat -> state -> state -> Prop :=
  | call_open secs dvn fvn st_mode st_size type mode s r s' :
      open_vnode secs dvn fvn st_mode st_size type mode s = Some (r, s') -> call (if 0 <=? r then 1%nat else 0%nat) s s'
  | call_close fd s r s' : syscall_close fd s = Some (r, s') -> call 0%nat s s'.

(** [k] calls, of which [n] opened a file. *)
Inductive calls : nat -> nat -> state -> state -> Prop :=
  | calls_nil s : calls 0 0 s s
  | calls_cons k n m s s1 s2 : calls k n s s1 -> call m s1 s2 -> calls (S k) (n + m) s s2.

(** No slot has been given back, and the counts went down by at most [k]. *)
Definition counts_low (k : nat) (s : state) : Prop := Forall (fun e => - Z.of_nat k <= fte_refcount e <= 0) (openFileTable s).

Lemma count_insert {A} (P : A -> Prop) `{!forall x, Decision (P x)} (l : list A) i old new :
  l !! i = Some old -> (length (filter P (<[i := new]> l)) + (if decide (P old) then 1 else 0) = length (filter P l) + (if decide (P new) then 1 else 0))%nat.
Proof.
  revert i. induction l as [|a l IH]; intros [|i] Hi; simpl in Hi; try done.
  - injection Hi as ->. simpl. rewrite !filter_cons. repeat case_decide; simpl; lia.
  - simpl. rewrite !filter_cons. specialize (IH i Hi). repeat case_decide; simpl; lia.
Qed.

Lemma zget_lookup {A} (l : list A) i x : zget l i = Some x -> l !! Z.to_nat i = Some x.
Proof. unfold zget. by destruct (i <? 0). Qed.

Lemma open_entry_used type mode st_mode st_size fvn e : fte_flags (open_entry type mode st_mode st_size fvn e) <> FTE_UNUSED /\
  fte_refcount (open_entry type mode st_mode st_size fvn e) = fte_refcount e.
Proof.
  split; [|unfold open_entry; repeat case_match; done]. unfold open_entry. cbn [fte_flags set_flags]. intros H. apply Z.lor_eq_0_iff in H as [_ H]. discriminate H.
Qed.

Lemma decrement_step h s s' k :
  Z.of_nat k < 32767 -> counts_low k s -> decrement_ref_count h s = Some s' -> (is_file h = false -> openFileTable s' = openFileTable s) /\
  (is_file h = true -> counts_low (S k) s' /\ used s' = used s).
Proof.
  intros Hk Hc H. split; intros Hf; [unfold decrement_ref_count in H; rewrite Hf in H; by injection H as <-|].
  destruct (zget (openFileTable s) h) as [e|] eqn:He; [|unfold decrement_ref_count in H; rewrite Hf, He in H; done]. pose proof (zget_lookup _ _ _ He) as He'.
  apply (decrement_tables _ _ _ _ Hf He) in H as [_ Ht]. pose proof (proj1 (Forall_lookup _ _) Hc _ _ He') as Hr. cbv beta in Hr. rewrite s16_id in Ht by lia.
  destruct (Z.eqb_spec (fte_refcount e - 1) 0); [lia|]. apply zset_inv in Ht as [_ Ht]. unfold counts_low, used. rewrite Ht. split.
  - apply Forall_insert; [|cbn [fte_refcount set_refcount]; lia]. eapply Forall_impl; [exact Hc|]. intros y Hy. cbv beta in *. lia.
  - pose proof (count_insert (fun e => fte_flags e <> FTE_UNUSED) (openFileTable s) (Z.to_nat h) e (set_refcount (fte_refcount e - 1) e) He') as Hcnt. cbn [fte_flags set_refcount] in Hcnt.
    repeat case_decide; lia.
Qed.

Lemma counts_low_mono k s : counts_low k s -> counts_low (S k) s.
Proof. intros H. eapply Forall_impl; [exact H|]. intros e He. cbv beta in *. lia. Qed.

Lemma counts_tables k s s' : openFileTable s' = openFileTable s -> counts_low k s -> counts_low k s' /\ used s' = used s.
Proof. intros E H. unfold counts_low, used. by rewrite E. Qed.

(** The slot that an open takes. *)
Lemma open_slot s i e e' t t' k :
  counts_low k s -> zget (openFileTable s) i = Some e -> fte_flags e = FTE_UNUSED -> fte_flags e' <> FTE_UNUSED -> fte_refcount e' = fte_refcount e ->
  zset (openFileTable s) i (set_flags FTE_USED e) = Some t -> zset t i e' = Some t' -> counts_low k (set_ftab t' s) /\ used (set_ftab t' s) = S (used s).
Proof.
  intros Hc He Hfl Hfl' Hrc Et Et'. apply zset_inv in Et as [_ ->]. apply zset_inv in Et' as [_ ->]. rewrite list_insert_insert_eq. pose proof (zget_lookup _ _ _ He) as He'. split.
  - apply Forall_insert; [exact Hc|]. pose proof (proj1 (Forall_lookup _ _) Hc _ _ He') as Hr. cbv beta in Hr. by rewrite Hrc.
  - unfold used. cbn [openFileTable set_ftab]. pose proof (count_insert (fun e => fte_flags e <> FTE_UNUSED) (openFileTable s) (Z.to_nat i) e e' He') as Hcnt. repeat case_decide; try done; lia.
Qed.

Lemma open_step secs dvn fvn st_mode st_size type mode s r s' k :
  Z.of_nat k < 32767 -> counts_low k s -> open_vnode secs dvn fvn st_mode st_size type mode s = Some (r, s') ->
  counts_low (S k) s' /\ (used s + (if (0 <=? r)%Z then 1 else 0) <= used s')%nat.
Proof.
  intros Hk Hc H. unfold open_vnode in H. pose proof (counts_low_mono _ _ Hc) as HcS.
  assert (forall r s', r < 0 -> (s1 ← release dvn s; s2 ← release fvn s1; Some (r, s2)) = Some (r, s') -> counts_low (S k) s' /\ (used s + (if (0 <=? r)%Z then 1 else 0) <= used s')%nat) as Herr.
  { clear H. intros r0 s0 Hr0 H. step H as s1 from E1. step H as s2 from E2. injection H as <-. apply release_tables in E1 as [E1 _]. apply release_tables in E2 as [E2 _].
    destruct (Z.leb_spec 0 r0); [lia|]. destruct (counts_tables (S k) s s2 ltac:(congruence) HcS) as [? ->]. split; [done|lia]. }
  destruct (has_bits st_mode S_IFDIR). { assert (r = EDIR_OPEN_AS_A_FILE) as -> by (step H as a from Ea; step H as b from Eb; congruence). by apply Herr. }
  cbv zeta in H. destruct (_ && (Z.land st_mode 0x92 =? 0)). { assert (r = EACCESS) as -> by (step H as a from Ea; step H as b from Eb; congruence). by apply Herr. }
  clear Herr. step H as [handle s1] from E1. step H as s2 from E2. step H as s3 from E3. step H as s4 from E4. apply release_tables in E3 as [E3 _]. apply release_tables in E4 as [E4 _].
  assert (handle < 0 /\ openFileTable s2 = openFileTable s \/ counts_low k s2 /\ used s2 = S (used s)) as Hs2.
  { unfold alloc_ftab_slot in E1. pose proof (find_unused_spec 0 (openFileTable s)) as Hfi. destruct (find_unused 0 (openFileTable s)) as [i|]; [|injection E1 as <- <-; left; split; [done|by injection E2 as <-]].
    rewrite Z.sub_0_r in Hfi. destruct Hfi as (Hi0 & (e & He & Hfl) & _). rewrite He, bind_Some in E1. step E1 as t from Et. injection E1 as <- <-. right.
    destruct (Z.leb_spec 0 i); [|lia]. cbn [openFileTable set_ftab] in E2. rewrite (zget_zset_eq _ _ _ _ Et), bind_Some in E2. step E2 as sa from Ea. apply add_count_tables in Ea as [Ea _]. step E2 as sb from Eb.
    assert (openFileTable sb = t) as Esb.
    { cbn [openFileTable set_ftab] in Ea. destruct (_ && negb (st_size =? 0)) in Eb; [|by injection Eb as <-]. step Eb as xx from Ex. step Eb as ff from Ef. by injection Eb as <-. }
    step E2 as t' from Et'. injection E2 as <-. rewrite Esb in Et'. destruct (open_entry_used (if type =? 0 then O_RDONLY else Z.land type 0x3f) mode st_mode st_size fvn (set_flags FTE_USED e)) as [Hu Hrc].
    destruct (open_slot s i e _ t t' k Hc He Hfl Hu Hrc Et Et') as [H1 H2]. split; [exact H1|exact H2]. }
  destruct (Z.leb_spec 0 handle) as [Hge|Hlt].
  - destruct Hs2 as [[? _]|[Hc2 Hu2]]; [lia|]. destruct (counts_tables k s2 s4 ltac:(congruence) Hc2) as [Hc4 Hu4]. step H as [fh s5] from E5. step H as s6 from E6. injection H as <- <-.
    assert (openFileTable s5 = openFileTable s4) as Et5 by (unfold alloc_process_file_handle in E5; destruct (find_handle 0 (fhandles s4)); [step E5 as hh from Eh; by injection E5 as <- <-|by injection E5 as <- <-]).
    destruct (counts_tables k s4 s5 Et5 Hc4) as [Hc5 Hu5]. destruct (Z.ltb_spec fh 0); [|injection E6 as <-; split; [by apply counts_low_mono|]; destruct (0 <=? fh); lia].
    destruct (decrement_step handle s5 s6 k Hk Hc5 E6) as [Hd1 Hd2]. destruct (Z.leb_spec 0 fh); [lia|]. destruct (is_file handle).
    + destruct (Hd2 eq_refl) as [? Hd]. split; [done|]. lia.
    + destruct (counts_tables k s5 s6 (Hd1 eq_refl) Hc5) as [Hc6 Hu6]. split; [by apply counts_low_mono|]. lia.
  - injection H as <- <-. destruct Hs2 as [[_ E]|[Hc2 Hu2]].
    + destruct (counts_tables (S k) s s4 ltac:(congruence) HcS) as [? ->]. split; [done|]. change (0 <=? EMAXFILES) with false. cbv iota. lia.
    + destruct (counts_tables k s2 s4 ltac:(congruence) Hc2) as [Hc4 Hu4]. split; [by apply counts_low_mono|]. change (0 <=? EMAXFILES) with false. cbv iota. lia.
Qed.

Lemma close_step fd s r s' k : Z.of_nat k < 32767 -> counts_low k s -> syscall_close fd s = Some (r, s') -> counts_low (S k) s' /\ (used s <= used s')%nat.
Proof.
  intros Hk Hc H. unfold syscall_close in H. pose proof (counts_low_mono _ _ Hc) as HcS. destruct (negb (in_handles fd)); [injection H as <- <-; done|]. step H as h from Eh. destruct (is_file h) eqn:Ef.
  - step H as s1 from E1. step H as hs from E2. injection H as <- <-. destruct (decrement_step h s s1 k Hk Hc E1) as [_ Hd]. destruct (Hd Ef) as [Hc1 Hu1].
    destruct (counts_tables (S k) s1 (set_fhandles hs s1) eq_refl Hc1) as [? ->]. split; [done|lia].
  - destruct (is_socket h); injection H as <- <-; done.
Qed.

(** At most 100 files are ever opened.  Since no slot is given back by closing, in any sequence
    of opens and closes (fewer than 32768, and without [dup]) that starts with reference counts of 0, the opens
    that return a handle are at most as many as there were unused slots at the start. *)
Theorem opens_bounded k n s s' :
  calls k n s s' -> Z.of_nat k <= 32767 -> Forall (fun e => fte_refcount e = 0) (openFileTable s) -> (n + used s <= length (openFileTable s'))%nat.
Proof.
  intros Hr Hk H0. assert (counts_low k s' /\ (used s + n <= used s')%nat) as [_ Hu].
  { assert (counts_low 0 s) as Hc0 by (eapply Forall_impl; [exact H0|]; intros e He; cbv beta in *; lia). clear H0. induction Hr as [s|k n m s s1 s2 Hr IH Hcall]; [split; [done|lia]|].
    destruct IH as [Hc1 Hu1]; [lia|done|]. destruct Hcall as [secs dvn fvn st_mode st_size type mode s1 r s2 Ho|fd s1 r s2 Hcl].
    - apply (open_step _ _ _ _ _ _ _ _ _ _ k) in Ho as [Hc2 Hu2]; [|lia|done]. split; [done|lia].
    - apply (close_step _ _ _ _ k) in Hcl as [Hc2 Hu2]; [|lia|done]. split; [done|lia]. }
  etrans; [|apply (length_filter (fun e => fte_flags e <> FTE_UNUSED))]. unfold used in *. lia.
Qed.

(** * Duplicating *)

Lemma zset_some {A} (l : list A) i x y : zget l i = Some x -> exists l', zset l i y = Some l'.
Proof. intros H. eexists. apply zset_Some. by apply zget_Some_range in H. Qed.

Lemma increment_spec s h e v x :
  is_file h = true -> zget (openFileTable s) h = Some e -> fte_vn e = Some v -> vnodes s !! v = Some x -> 0 < v_count x < 2 ^ 16 - 2 ->
  exists t, zset (openFileTable s) h (set_refcount (s16 (fte_refcount e + 1)) e) = Some t /\
    increment_ref_count h s = Some (set_ftab t (set_vnodes (<[v := with_count (v_count x + 1) x]> (vnodes s)) s)).
Proof.
  intros Hf He Hv Hx Hc. destruct (zset_some _ _ _ (set_refcount (s16 (fte_refcount e + 1)) e) He) as [t Ht]. exists t. split; [done|].
  unfold increment_ref_count. rewrite Hf, He, bind_Some, Hv, bind_Some. unfold get_vnode. rewrite (add_count_some _ _ _ _ Hx) by lia. rewrite bind_Some.
  erewrite add_count_some; [|cbn [vnodes set_vnodes]; apply lookup_insert_eq|cbn [v_count with_count]; lia]. rewrite bind_Some. cbn [openFileTable set_vnodes]. rewrite Ht, bind_Some.
  erewrite release_live; [|cbn [vnodes set_vnodes set_ftab]; apply lookup_insert_eq|cbn [v_count with_count]; lia]. f_equal. unfold set_ftab, set_vnodes, with_count. cbn. rewrite !insert_insert_eq.
  do 4 f_equal. lia.
Qed.

Lemma decrement_spec s h e v x :
  is_file h = true -> zget (openFileTable s) h = Some e -> fte_vn e = Some v -> vnodes s !! v = Some x -> 1 < v_count x < 2 ^ 16 - 1 -> s16 (fte_refcount e - 1) = 0 ->
  exists t, zset (openFileTable s) h (set_flags FTE_UNUSED (set_refcount 0 e)) = Some t /\
    decrement_ref_count h s = Some (set_ftab t (set_vnodes (<[v := with_count (v_count x - 1) x]> (vnodes s)) s)).
Proof.
  intros Hf He Hv Hx Hc Hr. destruct (zset_some _ _ _ (set_refcount 0 e) He) as [t1 Ht1].
  destruct (zset_some t1 h _ (set_flags FTE_UNUSED (set_refcount 0 e)) (zget_zset_eq _ _ _ _ Ht1)) as [t Ht]. exists t.
  assert (zset (openFileTable s) h (set_flags FTE_UNUSED (set_refcount 0 e)) = Some t) as Ht'.
  { apply zset_inv in Ht as [Hr1 ->]. rewrite (zlen_zset _ _ _ _ Ht1) in Hr1. apply zset_inv in Ht1 as [_ ->]. rewrite list_insert_insert_eq. by apply zset_Some. }
  split; [done|]. unfold decrement_ref_count. rewrite Hf, He, bind_Some, Hv, bind_Some. unfold get_vnode. rewrite (add_count_some _ _ _ _ Hx) by lia. rewrite bind_Some.
  erewrite add_count_some; [|cbn [vnodes set_vnodes]; apply lookup_insert_eq|cbn [v_count with_count]; lia]. rewrite bind_Some. cbv zeta. rewrite Hr. cbn [openFileTable set_vnodes]. rewrite Ht1, bind_Some.
  erewrite release_live; [|cbn [vnodes set_vnodes set_ftab]; apply lookup_insert_eq|cbn [v_count with_count]; lia]. rewrite bind_Some. cbn [fte_refcount set_refcount]. change (0 =? 0) with true. cbv iota.
  cbn [openFileTable set_vnodes set_ftab]. rewrite Ht, bind_Some. f_equal. unfold set_ftab, set_vnodes, with_count. cbn. rewrite !insert_insert_eq. do 4 f_equal. lia.
Qed.

(** A slot in use is given back.  After an open, a [dup] and a close of the duplicate, the entry
    is marked unused although the first handle still refers to it: the next open takes that slot,
    and the first handle reads and writes the other file. *)
Theorem dup_close_frees_slot s fd h e v x j :
  tables_ok s -> opened s fd h e v x -> v_count x < 2 ^ 16 - 2 -> fte_refcount e = 0 -> find_handle 0 (fhandles s) = Some j ->
  exists s1 s2 e2, syscall_dup fd s = Some (j, s1) /\ syscall_close j s1 = Some (0, s2) /\ zget (fhandles s2) fd = Some h /\
    zget (openFileTable s2) h = Some e2 /\ fte_flags e2 = FTE_UNUSED /\ fte_vn e2 = Some v.
Proof.
  intros [_ Hlen] [H1 H2 H3 He Hv Hx Hc] Hc2 Hr Hj. pose proof (find_handle_spec 0 (fhandles s)) as Hfj. rewrite Hj, Z.sub_0_r in Hfj. destruct Hfj as (Hj0 & Hjg). pose proof (zget_Some_range _ _ _ Hjg) as Hjr.
  pose proof H3 as Hh. unfold is_file in Hh. apply andb_true_iff in Hh as [Hh0 _]. apply Z.leb_le in Hh0. assert (j <> fd) as Hne by (intros ->; rewrite H2 in Hjg; injection Hjg as ->; lia).
  assert (in_handles j = true) as Hij by (unfold in_handles; rewrite andb_true_iff, Z.leb_le, Z.ltb_lt; unfold MAXPROCFILES in *; lia).
  unfold syscall_dup. rewrite H1. cbn [negb]. rewrite H2, bind_Some. destruct (Z.leb_spec h (-4)); [lia|]. rewrite Hj. destruct (zset_some _ _ _ h Hjg) as [hs Ehs]. rewrite Ehs, bind_Some.
  destruct (increment_spec (set_fhandles hs s) h e v x H3 He Hv Hx ltac:(lia)) as (t1 & Et1 & ->). rewrite bind_Some. rewrite Hr in Et1. change (s16 (0 + 1)) with 1 in Et1. cbn [openFileTable set_fhandles] in Et1.
  set (s1 := set_ftab t1 _). destruct (decrement_spec s1 h (set_refcount 1 e) v (with_count (v_count x + 1) x) H3) as (t2 & Et2 & Ed);
    [cbn; by apply zget_zset_eq in Et1|done|cbn; apply lookup_insert_eq|cbn [v_count with_count]; lia|done|].
  assert (fhandles s1 = hs) as Eh1 by done. assert (openFileTable s1 = t1) as Et by done. clearbody s1. rewrite Et in Et2.
  assert (zget hs j = Some h) as Ej by (by apply zget_zset_eq in Ehs). assert (zget hs fd = Some h) as Efd by (by rewrite (zget_zset_ne _ _ _ fd _ Ehs)). destruct (zset_some hs j h (-4) Ej) as [hs2 Ehs2].
  do 3 eexists. split; [reflexivity|]. split.
  - unfold syscall_close. rewrite Hij. cbn [negb]. rewrite Eh1, Ej, bind_Some, H3, Ed, bind_Some. cbn [fhandles set_ftab set_vnodes]. rewrite Eh1, Ehs2, bind_Some. reflexivity.
  - cbn [fhandles openFileTable set_fhandles set_ftab set_vnodes]. split; [by rewrite (zget_zset_ne _ _ _ fd _ Ehs2)|]. split; [by apply zget_zset_eq in Et2|]. done.
Qed.

(** [dup2] of a handle to itself closes it: the result is the handle, which is now free. *)
Theorem dup2_same_closes s fd h e v x r s' :
  opened s fd h e v x -> syscall_dup2 fd fd s = Some (r, s') -> r = fd /\ zget (fhandles s') fd = Some (-4).
Proof.
  intros [H1 H2 H3 He _ _ _] H. pose proof H3 as Hh. unfold is_file in Hh. apply andb_true_iff in Hh as [Hh0 _]. apply Z.leb_le in Hh0. unfold syscall_dup2 in H. rewrite H1 in H. cbn [negb] in H. rewrite H2, bind_Some in H.
  destruct (Z.leb_spec h (-4)); [lia|]. rewrite bind_Some in H. destruct (Z.leb_spec 0 h); [|lia]. step H as s1 from E1. step E1 as [r1 s1'] from Ec. injection E1 as <-.
  unfold syscall_close in Ec. rewrite H1 in Ec. cbn [negb] in Ec. rewrite H2, bind_Some, H3 in Ec. step Ec as s2 from Ed. step Ec as hs from Eh. injection Ec as <- <-.
  cbn [fhandles set_fhandles] in H. pose proof (zget_zset_eq _ _ _ _ Eh) as Eg. rewrite Eg, bind_Some in H. rewrite (zset_same _ _ _ Eg), bind_Some, Eg, bind_Some in H.
  change (increment_ref_count (-4) ?s) with (Some (set_world (increment_sockref_count (-4) (world s)) s)) in H. rewrite bind_Some in H. injection H as <- <-. split; [done|exact Eg].
Qed.

End Fd.

(** * A small state *)

(** Two files of fixed bytes that can be read and truncated; a write adds its bytes. *)
#[export] Program Instance list_vnode_ops : VnodeOps (list Z) := {|
  vop_read o n f := let out := take (Z.to_nat n) (drop (Z.to_nat o) f) in Some (o + zlen out, out, f);
  vop_write o buf f := Some (o + zlen buf, take (Z.to_nat o) f ++ buf ++ drop (Z.to_nat o + length buf) f);
  vop_trunc _ _ := Some [];
  f_ok _ := True;
  f_bytes f := f |}.
Next Obligation. intros f o n _ Ho Hn Hov. do 3 eexists. split; [reflexivity|]. split; [done|]. split; [done|]. by right. Qed.
Next Obligation. intros f o buf _ Ho H0 Hov. do 3 eexists. split; [reflexivity|]. split; [done|]. split; [done|]. by right. Qed.
Next Obligation. intros f secs _ _ _. by exists []. Qed.

Definition ex_unused : fte := mk_fte 0 0 0 0 0 0 NULL.
Definition ex_entry : fte := mk_fte 0 (Z.lor FTE_USED (Z.lor FTFLAGS_READ (Z.lor FTFLAGS_WRITE FTFLAGS_FILE))) 0x1ff 0 5 5 (Some 2%positive).
(** Handle 3 is open for the file of vnode 2, at its end; vnode 1 is the root directory. *)
Definition ex_st : state (F := list Z) (W := unit) :=
  mk_state (ex_entry :: replicate 99 ex_unused) ([-1; -2; -3; 0] ++ replicate 16 (-4))
    {[ 1%positive := mk_vn 3 NULL []; 2%positive := mk_vn 1 (Some 1%positive) [10; 11; 12; 13; 14] ]} [] tt.
Definition no_sock (h : Z) (w : unit) : unit := w.
Definition no_read (h n : Z) (w : unit) : Z * list Z * unit := (EINVALID_HANDLE, [], w).
Definition no_write (h : Z) (buf : list Z) (w : unit) : Z * unit := (EINVALID_HANDLE, w).

Lemma ex_tables : tables_ok ex_st.
Proof. split; reflexivity. Qed.
Lemma ex_opened : opened ex_st 3 0 ex_entry 2%positive (mk_vn 1 (Some 1%positive) [10; 11; 12; 13; 14]).
Proof. split; try reflexivity. simpl. lia. Qed.
(** The same, at position 1. *)
Definition ex_st1 : state := set_ftab (set_position 1 ex_entry :: replicate 99 ex_unused) ex_st.
Lemma ex_opened1 : opened ex_st1 3 0 (set_position 1 ex_entry) 2%positive (mk_vn 1 (Some 1%positive) [10; 11; 12; 13; 14]).
Proof. split; try reflexivity. simpl. lia. Qed.

Lemma read_advances_witness :
  exists ret out f s', syscall_read no_read 3 2 ex_st1 = Some (ret, out, s') /\ f_ok f /\ f_bytes f = [10; 11; 12; 13; 14] /\
    ((ret < 0 /\ moved ex_st1 0 (set_position 1 ex_entry) 2%positive (mk_vn 1 (Some 1%positive) f) s') \/
     (ret = zlen out /\ out = take (Z.to_nat 2) (drop (Z.to_nat 1) [10; 11; 12; 13; 14]) /\ moved ex_st1 0 (set_position (1 + zlen out) (set_position 1 ex_entry)) 2%positive (mk_vn 1 (Some 1%positive) f) s')).
Proof. refine (read_advances no_read ex_st1 3 0 (set_position 1 ex_entry) 2%positive (mk_vn 1 (Some 1%positive) [10; 11; 12; 13; 14]) 2 _ _ _ _ _ _); [apply ex_opened1|reflexivity|exact I|simpl; lia|lia|simpl; lia]. Defined.

Lemma reads_continue_witness : exists s1 s2, syscall_read no_read 3 2 ex_st1 = Some (2, [11; 12], s1) /\ syscall_read no_read 3 9 s1 = Some (2, [13; 14], s2) /\
  [11; 12] ++ [13; 14] = take (Z.to_nat 11) (drop 1 [10; 11; 12; 13; 14]).
Proof.
  do 2 eexists. split; [vm_compute; reflexivity|]. split; [vm_compute; reflexivity|].
  refine (reads_continue no_read ex_st1 3 0 (set_position 1 ex_entry) 2%positive (mk_vn 1 (Some 1%positive) [10; 11; 12; 13; 14]) 2 9 2 2 [11; 12] [13; 14] _ _ _ _ _ _ _ _ _ _ _ _ _);
    [apply ex_opened1|reflexivity|exact I|simpl; lia|lia|lia|simpl; lia|vm_compute; reflexivity|vm_compute; reflexivity|lia|lia].
Defined.

Lemma writes_append_witness : exists s1 s2, syscall_write no_write 3 [1] ex_st = Some (1, s1) /\ syscall_write no_write 3 [2; 3] s1 = Some (2, s2) /\
  exists f, vnodes s2 !! 2%positive = Some (mk_vn 1 (Some 1%positive) f) /\ f_ok f /\ f_bytes f = [10; 11; 12; 13; 14] ++ [1] ++ [2; 3] /\
    forall h', h' <> 0 -> zget (openFileTable s2) h' = zget (openFileTable ex_st) h'.
Proof.
  do 2 eexists. split; [vm_compute; reflexivity|]. split; [vm_compute; reflexivity|].
  refine (writes_append no_write ex_st 3 0 ex_entry 2%positive (mk_vn 1 (Some 1%positive) [10; 11; 12; 13; 14]) [1] [2; 3] _ _ _ _ _ _ _ _ _);
    [apply ex_opened|reflexivity|exact I|reflexivity|unfold zlen; simpl; lia|vm_compute; reflexivity|vm_compute; reflexivity].
Defined.

Lemma lseek_moves_witness :
  exists s', syscall_lseek 3 (-2) SEEK_CUR ex_st = Some (0, s') /\ moved ex_st 0 (set_position 3 ex_entry) 2%positive (mk_vn 1 (Some 1%positive) [10; 11; 12; 13; 14]) s'.
Proof. refine (lseek_moves ex_st 3 0 ex_entry 2%positive (mk_vn 1 (Some 1%positive) [10; 11; 12; 13; 14]) (-2) SEEK_CUR _ _ _ _ _); [apply ex_opened|simpl; lia|simpl; lia|lia|by right]. Defined.

Lemma lseek_end_wraps_witness :
  exists s', syscall_lseek 3 (-10) SEEK_END ex_st = Some (0, s') /\ moved ex_st 0 (set_position 4294967291 ex_entry) 2%positive (mk_vn 1 (Some 1%positive) [10; 11; 12; 13; 14]) s'.
Proof. apply (lseek_end_wraps ex_st 3 0 ex_entry 2%positive (mk_vn 1 (Some 1%positive) [10; 11; 12; 13; 14]) (-10)); [apply ex_opened|simpl; lia|simpl; lia]. Defined.

Lemma open_opens_witness :
  exists s' e f, open_vnode no_sock 951782400 1%positive 2%positive 0x1ff 5 O_RDWR 0 ex_st = Some (4, s') /\ zget (openFileTable ex_st) 1 = Some e /\
    opened s' 4 1 (open_entry O_RDWR 0 0x1ff 5 2%positive (set_flags FTE_USED e)) 2%positive (mk_vn 1 (Some 1%positive) f) /\ f_ok f /\ f_bytes f = [10; 11; 12; 13; 14].
Proof.
  refine (open_opens no_sock 951782400 1%positive 2%positive 0x1ff O_RDWR 0 ex_st 1 4 (mk_vn 1 (Some 1%positive) [10; 11; 12; 13; 14]) (mk_vn 3 NULL []) _ _ _ _ _ _ _ _ _ _ _ _ _);
    [apply ex_tables|lia|unfold DateTime.new_year_day; vm_compute; intuition discriminate|discriminate|reflexivity|simpl; lia|reflexivity|simpl; lia|exact I|reflexivity|reflexivity|reflexivity|reflexivity].
Defined.

Lemma close_keeps_slot_witness : exists s', syscall_close no_sock 3 ex_st = Some (0, s') /\
  0 = 0 /\ zget (fhandles s') 3 = Some (-4) /\ zget (openFileTable s') 0 = Some (set_refcount (-1) ex_entry).
Proof.
  eexists. split; [vm_compute; reflexivity|]. eapply (close_keeps_slot no_sock ex_st 3 0 ex_entry 2%positive (mk_vn 1 (Some 1%positive) [10; 11; 12; 13; 14]) 0);
    [apply ex_opened|reflexivity|vm_compute; reflexivity].
Defined.

(** One open and one close: the second slot is used up. *)
Lemma opens_bounded_witness : exists s', calls no_sock 2 1 ex_st s' /\ (1 + used ex_st <= length (openFileTable s'))%nat.
Proof.
  eexists. split.
  - change 1%nat with (0 + 1 + 0)%nat at 2. eapply calls_cons; [eapply (calls_cons _ 0 0 1); [apply calls_nil|]|].
    + apply (call_open no_sock 951782400 1%positive 2%positive 0x1ff 5 O_RDWR 0 ex_st 4). vm_compute. reflexivity.
    + apply (call_close no_sock 4 _ 0). vm_compute. reflexivity.
  - eapply (opens_bounded no_sock 2 1 ex_st); [|lia|].
    + change 1%nat with (0 + 1 + 0)%nat at 2. eapply calls_cons; [eapply (calls_cons _ 0 0 1); [apply calls_nil|]|].
      * apply (call_open no_sock 951782400 1%positive 2%positive 0x1ff 5 O_RDWR 0 ex_st 4). vm_compute. reflexivity.
      * apply (call_close no_sock 4 _ 0). vm_compute. reflexivity.
    + apply Forall_cons. split; [reflexivity|]. by apply Forall_replicate.
Defined.

Lemma dup_close_frees_slot_witness :
  exists s1 s2 e2, syscall_dup no_sock 3 ex_st = Some (4, s1) /\ syscall_close no_sock 4 s1 = Some (0, s2) /\ zget (fhandles s2) 3 = Some 0 /\
    zget (openFileTable s2) 0 = Some e2 /\ fte_flags e2 = FTE_UNUSED /\ fte_vn e2 = Some 2%positive.
Proof.
  apply (dup_close_frees_slot no_sock no_sock ex_st 3 0 ex_entry 2%positive (mk_vn 1 (Some 1%positive) [10; 11; 12; 13; 14]) 4);
    [apply ex_tables|apply ex_opened|simpl; lia|reflexivity|reflexivity].
Defined.

Lemma dup2_same_closes_witness : exists s', syscall_dup2 no_sock no_sock 3 3 ex_st = Some (3, s') /\ 3 = 3 /\ zget (fhandles s') 3 = Some (-4).
Proof.
  eexists. split; [vm_compute; reflexivity|]. eapply (dup2_same_closes no_sock no_sock ex_st 3 0 ex_entry 2%positive (mk_vn 1 (Some 1%positive) [10; 11; 12; 13; 14]) 3);
    [apply ex_opened|vm_compute; reflexivity].
Defined.

End Fd.
