(* ===== verification/Path.v ===== *)
(** Path names and vnodes ([src/base/fs.c], [fat12_vop_lookup] of [src/base/fat12.c]): the
    vnodes in memory with their hash lists, counts and locks, and the calls that follow a
    path from directory to directory.  What a directory on disk holds is a type class. *)
From S2P Require Import Prelude FatTable FatFile FatDir.

Module Path.

Definition NAME_MAX : nat := 255.
Definition PATH_MAX : Z := 500.
Definition VNODEHASHMAX : Z := 19.
Definition S_IFDIR : Z := 0x4000.
Definition S_IFREG : Z := 0x8000.
Definition FTYPE_DIR : Z := 0x10.
Definition ELONGPATH : Z := -53.
Definition EPATH_NOT_EXISTS : Z := -58.
Definition SLASH : Z := 47.
Definition BACKSLASH : Z := 92.
Definition DOT : list Z := [46].
Definition DOTDOT : list Z := [46; 46].

(** What [fat12_vop_readdir] and [convert_name] find for a name in the directory that starts
    at a cluster: number, offset and attributes of the entry. *)
Class Directory (D : Type) := { find_entry : Z -> Z -> list Z -> D -> option (Z * Z * Z) }.

(** Of [v_data] the start cluster. *)
Record vnode := mk_vnode { v_type : Z; v_count : Z; v_dev : Z; v_offset : Z; v_no : Z; v_start : Z; v_lock : nat; v_parent : option loc }.
Definition set_vcount (c : Z) (v : vnode) : vnode := mk_vnode (v_type v) c (v_dev v) (v_offset v) (v_no v) (v_start v) (v_lock v) (v_parent v).
Definition set_vlock (n : nat) (v : vnode) : vnode := mk_vnode (v_type v) (v_count v) (v_dev v) (v_offset v) (v_no v) (v_start v) n (v_parent v).
Definition set_data (t c : Z) (v : vnode) : vnode := mk_vnode t (v_count v) (v_dev v) (v_offset v) (v_no v) c (v_lock v) (v_parent v).

Section fs.
Context {D : Type} `{!Directory D}.

(** [v_lock] is how often the current thread holds the lock of a vnode; [destroyed] are the
    calls of [vop_destroy].  [v_count] is an [unsigned short], so that [vop_destroy] never
    finds it below 0 and no vnode is freed.  [mem] are the answers of the calls of [kmalloc] to come,
    whether they give memory; after the last one they all do. *)
Record state := mk_state { vnodes : gmap loc vnode; vnlist_hdr : list (list loc); root_dir : loc; current_dir : loc; destroyed : list loc; mem : list bool; disk : D }.
Definition set_vnodes m s := mk_state m (vnlist_hdr s) (root_dir s) (current_dir s) (destroyed s) (mem s) (disk s).
Definition set_chains c s := mk_state (vnodes s) c (root_dir s) (current_dir s) (destroyed s) (mem s) (disk s).
Definition set_curdir c s := mk_state (vnodes s) (vnlist_hdr s) (root_dir s) c (destroyed s) (mem s) (disk s).
Definition set_destroyed x s := mk_state (vnodes s) (vnlist_hdr s) (root_dir s) (current_dir s) x (mem s) (disk s).
Definition set_mem x s := mk_state (vnodes s) (vnlist_hdr s) (root_dir s) (current_dir s) (destroyed s) x (disk s).

Definition upd_vnode (l : loc) (f : vnode -> vnode) (s : state) : option state := v ← vnodes s !! l; Some (set_vnodes (<[l := f v]> (vnodes s)) s).
Definition add_vcount (n : Z) (l : loc) (s : state) : option state := upd_vnode l (fun v => set_vcount (u16 (v_count v + n)) v) s.
Definition vn_rlock (l : loc) (s : state) : option state := upd_vnode l (fun v => set_vlock (S (v_lock v)) v) s.
Definition vn_runlock (l : loc) (s : state) : option state :=
  v ← vnodes s !! l; match v_lock v with O => None | S n => upd_vnode l (set_vlock n) s end.

Definition get_vnode (l : loc) (s : state) : option state := s ← vn_rlock l s; add_vcount 1 l s.
Fixpoint release_vnode (fuel : nat) (l : loc) (s : state) : option state :=
  match fuel with
  | O => None
  | S fuel =>
      s ← add_vcount (-1) l s;
      v ← vnodes s !! l;
      if v_count v <=? 0 then
        s ← vn_runlock l s;
        let s := set_destroyed (destroyed s ++ [l]) s in
        match v_parent v with
        | None => Some s
        | Some vnp => s ← get_vnode vnp s; s ← add_vcount (-1) vnp s; release_vnode fuel vnp s
        end
      else vn_runlock l s
  end.
Definition release (l : loc) (s : state) : option state := release_vnode (S (size (vnodes s))) l s.

Definition hash_no (vno : Z) : Z := if 0 <=? vno then vno mod VNODEHASHMAX else (- vno) mod VNODEHASHMAX.
Definition vnode_add_hashlist (l : loc) (vno : Z) (s : state) : option state :=
  c ← zget (vnlist_hdr s) (hash_no vno); h ← zset (vnlist_hdr s) (hash_no vno) (l :: c); Some (set_chains h s).
Definition vnode_del_hashlist (l : loc) (vno : Z) (s : state) : option state :=
  c ← zget (vnlist_hdr s) (hash_no vno); h ← zset (vnlist_hdr s) (hash_no vno) (filter (fun x => x <> l) c); Some (set_chains h s).
Definition is_vnode (dev vno : Z) (pvn : option loc) (offset : Z) (v : vnode) : bool :=
  (v_dev v =? dev) && (v_no v =? vno) && bool_decide (v_parent v = pvn) && (v_offset v =? offset).
Fixpoint search_hash (dev vno : Z) (pvn : option loc) (offset : Z) (m : gmap loc vnode) (c : list loc) : option (option loc) :=
  match c with
  | [] => Some None
  | l :: c => v ← m !! l; if is_vnode dev vno pvn offset v then Some (Some l) else search_hash dev vno pvn offset m c
  end.
(** The memory that [kmalloc] gives is an address that is not used. *)
Definition fresh_loc (s : state) : loc := fresh (dom (vnodes s)).
Definition kmalloc_vnode (s : state) : option loc * state := (if hd true (mem s) then Some (fresh_loc s) else None, set_mem (tl (mem s)) s).
Definition alloc_vnode (dev vno : Z) (pvn : loc) (offset : Z) (s : state) : option (option loc * state) :=
  c ← zget (vnlist_hdr s) (hash_no vno);
  o ← search_hash dev vno (Some pvn) offset (vnodes s) c;
  match o with
  | Some l => s ← get_vnode l s; Some (Some l, s)
  | None =>
      let '(new, s) := kmalloc_vnode s in
      match new with
      | None => Some (None, s)
      | Some l =>
          let s := set_vnodes (<[l := mk_vnode 0 0 dev offset vno 0 0 (Some pvn)]> (vnodes s)) s in
          s ← vnode_add_hashlist l vno s;
          s ← get_vnode l s; Some (Some l, s)
      end
  end.

Definition get_rootdir (s : state) : option (loc * state) := s' ← get_vnode (root_dir s) s; Some (root_dir s, s').
Definition get_curdir (s : state) : option (loc * state) := s' ← get_vnode (current_dir s) s; Some (current_dir s, s').
Definition get_pdir (l : loc) (s : state) : option (loc * state) := v ← vnodes s !! l; p ← v_parent v; s ← get_vnode p s; Some (p, s).

Definition fat12_vop_lookup (dvn : loc) (name : list Z) (s : state) : option (option loc * state) :=
  if bool_decide (name = DOT) then s ← get_vnode dvn s; s ← add_vcount 1 dvn s; Some (Some dvn, s) else
  if bool_decide (name = DOTDOT) then '(p, s) ← get_pdir dvn s; Some (Some p, s) else
  dv ← vnodes s !! dvn;
  match find_entry (v_dev dv) (v_start dv) name (disk s) with
  | None => Some (None, s)
  | Some (ino, off, attrib) =>
      '(o, s) ← alloc_vnode (v_dev dv) ino dvn off s;
      match o with
      | None => Some (None, s)
      | Some l =>
          v ← vnodes s !! l;
          s ← (if v_count v =? 1 then upd_vnode l (set_data (if Z.land attrib FTYPE_DIR =? 0 then S_IFREG else S_IFDIR) ino) s else Some s);
          Some (Some l, s)
      end
  end.

(** * Paths: lists of characters without the 0 at their end *)

Definition is_slash (c : Z) : bool := (c =? SLASH) || (c =? BACKSLASH).
(** The characters up to a slash, at most [n]; what follows, without that slash. *)
Fixpoint component (n : nat) (path : list Z) : list Z * list Z :=
  match n, path with
  | _, [] => ([], [])
  | O, _ :: path => ([], path)
  | S n, c :: path => if is_slash c then ([], path) else let '(a, b) := component n path in (c :: a, b)
  end.
(** [name_comp] has room for 255 characters, the 0 at the end included. *)
Fixpoint lookup_components (fuel : nat) (path : list Z) (cur : loc) (s : state) : option (option loc * state) :=
  match path with
  | [] => s ← add_vcount (-1) cur s; Some (Some cur, s)
  | _ =>
      match fuel with
      | O => None
      | S fuel =>
          let '(name, rest) := component NAME_MAX path in
          if (NAME_MAX <=? length name)%nat then None else
          if bool_decide (name = DOT) then lookup_components fuel rest cur s else
          '(o, s) ← (if bool_decide (name = DOTDOT) then '(p, s) ← get_pdir cur s; Some (Some p, s) else fat12_vop_lookup cur name s);
          s ← release cur s;
          match o with
          | None => Some (None, s)
          | Some l => s ← add_vcount 1 l s; lookup_components fuel rest l s
          end
      end
  end.
Definition lookup_path (path : list Z) (s : state) : option (option loc * state) :=
  '(cur, path, s) ← (match path with
                     | c :: rest => if is_slash c then '(r, s) ← get_rootdir s; Some (r, rest, s) else '(r, s) ← get_curdir s; Some (r, path, s)
                     | [] => '(r, s) ← get_curdir s; Some (r, path, s)
                     end);
  s ← add_vcount 1 cur s;
  lookup_components (length path) path cur s.

(** [parse_path]: the part up to the last slash, and the name after it. *)
Fixpoint last_slash (path : list Z) : option (list Z * list Z) :=
  match path with
  | [] => None
  | c :: path =>
      match last_slash path with
      | Some (a, b) => Some (c :: a, b)
      | None => if is_slash c then Some ([c], path) else None
      end
  end.
Definition parse_path (path : list Z) : list Z * list Z := match last_slash path with Some (a, b) => (a, take NAME_MAX b) | None => ([], take NAME_MAX path) end.

(** The directory and the last name of a path, as [syscall_stat] and the others find them; a
    name of 255 characters has no 0 at its end in [name_comp]. *)
Definition open_parent (path : list Z) (s : state) : option ((Z + loc * list Z) * state) :=
  if PATH_MAX <? zlen path then Some (inl ELONGPATH, s) else
  let '(dir_path, name_comp) := parse_path path in
  if (NAME_MAX <=? length name_comp)%nat then None else
  match dir_path with
  | [] => '(vn, s) ← get_curdir s; Some (inr (vn, name_comp), s)
  | _ =>
      '(o, s) ← lookup_path dir_path s;
      match o with None => Some (inl EPATH_NOT_EXISTS, s) | Some vn => Some (inr (vn, name_comp), s) end
  end.
(** [syscall_stat] with the attributes as the vnode that [vop_getattr] is called for. *)
Definition syscall_stat (path : list Z) (s : state) : option ((Z + loc) * state) :=
  '(r, s) ← open_parent path s;
  match r with
  | inl e => Some (inl e, s)
  | inr (vn, name) =>
      '(o, s) ← fat12_vop_lookup vn name s;
      match o with
      | None => s ← release vn s; Some (inl EPATH_NOT_EXISTS, s)
      | Some fvn => s ← release fvn s; s ← release vn s; Some (inr fvn, s)
      end
  end.
Definition syscall_chdir (path : list Z) (s : state) : option (Z * state) :=
  if PATH_MAX <? zlen path then Some (ELONGPATH, s) else
  '(o, s) ← lookup_path path s;
  match o with
  | None => Some (EPATH_NOT_EXISTS, s)
  | Some vn =>
      s ← add_vcount 1 vn s; s ← release vn s;
      let cur := current_dir s in
      s ← get_vnode cur s; s ← add_vcount (-1) cur s; s ← release cur s;
      Some (0, set_curdir vn s)
  end.

(** * What is where: names of vnodes, counts and locks *)

(** The entries from the root directory down to a vnode, the last first: number and offset. *)
Inductive ident (s : state) : loc -> list (Z * Z) -> Prop :=
| ident_root v : vnodes s !! root_dir s = Some v -> v_parent v = None -> ident s (root_dir s) []
| ident_child l v p ids : vnodes s !! l = Some v -> v_parent v = Some p -> ident s p ids -> ident s l ((v_no v, v_offset v) :: ids).

Definition in_memory (s : state) (l : loc) : Prop := is_Some (vnodes s !! l).
Definition cnt (s : state) (l : loc) : Z := from_option v_count 0 (vnodes s !! l).
Definition lk (s : state) (l : loc) : Z := from_option (fun v => Z.of_nat (v_lock v)) 0 (vnodes s !! l).
Definition one (l m : loc) : Z := if decide (m = l) then 1 else 0.
Definition key (v : vnode) : Z * Z * Z * Z * option loc := (v_dev v, v_offset v, v_no v, v_start v, v_parent v).

(** One file system, mounted from device 0; a vnode for each entry at most, on its hash list. *)
Record wf (s : state) : Prop := {
  wf_root : exists v, vnodes s !! root_dir s = Some v /\ v_parent v = None;
  wf_current : in_memory s (current_dir s);
  wf_ident : forall l, in_memory s l -> exists ids, ident s l ids;
  wf_data : forall l v, vnodes s !! l = Some v -> v_dev v = 0 /\ v_start v = v_no v /\ 0 <= v_count v < 2 ^ 16;
  wf_chains : zlen (vnlist_hdr s) = VNODEHASHMAX;
  wf_listed : forall l v p, vnodes s !! l = Some v -> v_parent v = Some p -> exists c, zget (vnlist_hdr s) (hash_no (v_no v)) = Some c /\ l ∈ c;
  wf_alive : forall i c l, zget (vnlist_hdr s) i = Some c -> l ∈ c -> in_memory s l;
  wf_unique : forall l1 v1 l2 v2, vnodes s !! l1 = Some v1 -> vnodes s !! l2 = Some v2 -> v_parent v1 <> None -> key v1 = key v2 -> l1 = l2 }.

Record extends (s s' : state) : Prop := {
  ext_root : root_dir s' = root_dir s;
  ext_current : current_dir s' = current_dir s;
  ext_disk : disk s' = disk s;
  ext_key : forall l v, vnodes s !! l = Some v -> exists v', vnodes s' !! l = Some v' /\ key v' = key v }.

(** [s'] is a state with the vnodes of [s], more or less often locked and counted. *)
Record moved (s s' : state) (dl dc : loc -> Z) : Prop := {
  mv_wf : wf s';
  mv_ext : extends s s';
  mv_lk : forall m, lk s' m = lk s m + dl m;
  mv_cnt : forall m, cnt s' m = cnt s m + dc m;
  mv_mem : mem s' `suffix_of` mem s }.

Lemma extends_refl s : extends s s.
Proof. split; eauto. Qed.
Lemma extends_trans s1 s2 s3 : extends s1 s2 -> extends s2 s3 -> extends s1 s3.
Proof.
  intros [r1 c1 d1 k1] [r2 c2 d2 k2]. split; try congruence.
  intros l v (v2 & H2 & E2)%k1. apply k2 in H2 as (v3 & H3 & E3). exists v3. split; congruence.
Qed.
Lemma extends_live s s' l : extends s s' -> in_memory s l -> in_memory s' l.
Proof. intros He [v Hv]. apply (ext_key _ _ He) in Hv as (v' & ? & _). by exists v'. Qed.
Lemma extends_ident s s' l ids : extends s s' -> ident s l ids -> ident s' l ids.
Proof.
  intros He. induction 1 as [v Hv Hp|l v p ids Hv Hp _ IH]; apply (ext_key _ _ He) in Hv as (v' & Hv' & Hk); injection Hk as ?? En ? Ep.
  - rewrite <- (ext_root _ _ He) in Hv' |- *. econstructor; [done|congruence].
  - replace (v_no v, v_offset v) with (v_no v', v_offset v') by congruence. apply (ident_child _ _ _ p); [done|congruence|done].
Qed.
Lemma ident_det s l i1 i2 : ident s l i1 -> ident s l i2 -> i1 = i2.
Proof.
  intros H. revert i2. induction H as [v Hv Hp|l v p ids Hv Hp _ IH]; intros i2 H2.
  - inversion H2 as [|l' v' p' ids' Hv' Hp']; [done|]. congruence.
  - inversion H2 as [v' Hv' Hp'|l' v' p' ids' Hv' Hp' Hi']; subst; [congruence|].
    assert (v' = v) as -> by congruence. f_equal. apply IH. congruence.
Qed.
Lemma moved_refl s : wf s -> moved s s (fun _ => 0) (fun _ => 0).
Proof. split; [done|apply extends_refl|intros; lia..|done]. Qed.
Lemma moved_trans s1 s2 s3 a b c d e f : moved s1 s2 a b -> moved s2 s3 c d -> (forall m, e m = a m + c m) -> (forall m, f m = b m + d m) -> moved s1 s3 e f.
Proof.
  intros [w1 x1 l1 c1 m1] [w2 x2 l2 c2 m2] He Hf. split; [done|by eapply extends_trans|..|by etransitivity]; intros m.
  - rewrite l2, l1, He. lia.
  - rewrite c2, c1, Hf. lia.
Qed.

Lemma live_lookup s l : in_memory s l -> exists v, vnodes s !! l = Some v /\ cnt s l = v_count v /\ lk s l = Z.of_nat (v_lock v).
Proof. intros [v Hv]. exists v. unfold cnt, lk. by rewrite Hv. Qed.
Lemma cnt_range s l : wf s -> 0 <= cnt s l < 2 ^ 16.
Proof. intros Hw. unfold cnt. destruct (vnodes s !! l) eqn:E; simpl; [by apply (wf_data _ Hw) in E as (? & ? & ?)|lia]. Qed.
Lemma lk_nonneg s l : 0 <= lk s l.
Proof. unfold lk. destruct (vnodes s !! l); simpl; lia. Qed.
Lemma one_eq l : one l l = 1.
Proof. unfold one. by rewrite decide_True. Qed.
Lemma one_ne l m : m <> l -> one l m = 0.
Proof. intros. unfold one. by rewrite decide_False. Qed.

Lemma wf_insert s l v x : wf s -> vnodes s !! l = Some v -> key x = key v -> 0 <= v_count x < 2 ^ 16 -> forall ch ds, vnlist_hdr s = ch ->
  wf (mk_state (<[l := x]> (vnodes s)) ch (root_dir s) (current_dir s) ds (mem s) (disk s)) /\ extends s (mk_state (<[l := x]> (vnodes s)) ch (root_dir s) (current_dir s) ds (mem s) (disk s)).
Proof.
  intros Hw Hv Hk Hc ch ds <-.
  assert (extends s (mk_state (<[l := x]> (vnodes s)) (vnlist_hdr s) (root_dir s) (current_dir s) ds (mem s) (disk s))) as He.
  { split; [done..|]. intros m w Hm. simpl. destruct (decide (m = l)) as [->|]; [rewrite lookup_insert_eq; eexists; split; [done|congruence]|].
    rewrite lookup_insert_ne by done. eauto. }
  split; [|done].
  assert (forall m w', <[l := x]> (vnodes s) !! m = Some w' -> exists w, vnodes s !! m = Some w /\ key w' = key w) as Hback.
  { intros m w'. destruct (decide (m = l)) as [->|]; [rewrite lookup_insert_eq; intros [= <-]; eauto|rewrite lookup_insert_ne by done; eauto]. }
  split; simpl.
  - destruct (wf_root _ Hw) as (r & Hr & Hp). apply (ext_key _ _ He) in Hr as (r' & ? & Hk'). exists r'. injection Hk' as ? ? ? ? ?. split; [done|congruence].
  - apply (extends_live _ _ _ He), (wf_current _ Hw).
  - intros m [w' (w & Hm & _)%Hback]. destruct (wf_ident _ Hw m) as [ids Hi]; [by exists w|]. exists ids. by apply (extends_ident _ _ _ _ He).
  - intros m w' Hm. destruct (decide (m = l)) as [->|].
    + rewrite lookup_insert_eq in Hm. injection Hm as <-. apply (wf_data _ Hw) in Hv as (? & ? & ?). injection Hk as ? ? ? ? ?. split_and!; congruence || lia.
    + rewrite lookup_insert_ne in Hm by done. by apply (wf_data _ Hw) in Hm.
  - apply (wf_chains _ Hw).
  - intros m w' p (w & Hm & Hk')%Hback Hp. injection Hk' as ? ? En ? ?. rewrite En. apply (wf_listed _ Hw m w p); [done|congruence].
  - intros i c m Hi Hm. apply (extends_live _ _ _ He). eapply (wf_alive _ Hw); eauto.
  - intros m1 w1 m2 w2 (u1 & H1 & K1)%Hback (u2 & H2 & K2)%Hback Hp Hkk. apply (wf_unique _ Hw m1 u1 m2 u2); [done..| |congruence].
    injection K1 as ? ? ? ? ?. congruence.
Qed.
Lemma insert_moved s l v x ds dl dc : wf s -> vnodes s !! l = Some v -> key x = key v -> 0 <= v_count x < 2 ^ 16 ->
  (forall m, dl m = (Z.of_nat (v_lock x) - Z.of_nat (v_lock v)) * one l m) -> (forall m, dc m = (v_count x - v_count v) * one l m) ->
  moved s (mk_state (<[l := x]> (vnodes s)) (vnlist_hdr s) (root_dir s) (current_dir s) ds (mem s) (disk s)) dl dc.
Proof.
  intros Hw Hv Hk Hc Hl Hn. destruct (wf_insert s l v x Hw Hv Hk Hc _ ds eq_refl) as [Hw' He]. split; [done..| | |done]; intros m; unfold lk, cnt; simpl; rewrite ?Hl, ?Hn.
  all: destruct (decide (m = l)) as [->|]; [rewrite lookup_insert_eq, one_eq, Hv|rewrite lookup_insert_ne, one_ne by done]; simpl; lia.
Qed.

(** A call succeeds, moves locks and counts and destroys nothing. *)
Definition runs (o : option state) (s : state) (dl dc : loc -> Z) : Prop := exists s', o = Some s' /\ moved s s' dl dc /\ destroyed s' = destroyed s.

Lemma add_count_runs n l s : wf s -> in_memory s l -> 0 <= cnt s l + n < 2 ^ 16 -> runs (add_vcount n l s) s (fun _ => 0) (fun m => n * one l m).
Proof.
  intros Hw (v & Hv & Hc & _)%live_lookup Hn. rewrite Hc in Hn. unfold add_vcount, upd_vnode. rewrite Hv. eexists. split; [done|]. split; [|done].
  rewrite u16_id by lia. apply (insert_moved _ _ v); simpl; [done..| |]; intros; lia.
Qed.
Lemma rlock_runs l s : wf s -> in_memory s l -> runs (vn_rlock l s) s (one l) (fun _ => 0).
Proof.
  intros Hw (v & Hv & Hc & _)%live_lookup. unfold vn_rlock, upd_vnode. rewrite Hv. eexists. split; [done|]. split; [|done].
  apply (insert_moved _ _ v); simpl; [done..|by apply (wf_data _ Hw) in Hv as (? & ? & ?)|intros; lia|intros; lia].
Qed.
Lemma vn_runlock_runs l s : wf s -> in_memory s l -> 1 <= lk s l -> runs (vn_runlock l s) s (fun m => - one l m) (fun _ => 0).
Proof.
  intros Hw (v & Hv & Hc & Hl)%live_lookup Hk. rewrite Hl in Hk. unfold vn_runlock, upd_vnode. rewrite Hv. cbn [mbind option_bind]. destruct (v_lock v) as [|n] eqn:En; [lia|].
  rewrite ?Hv. cbn [mbind option_bind]. eexists. split; [done|]. split; [|done].
  apply (insert_moved _ _ v); simpl; [done..|by apply (wf_data _ Hw) in Hv as (? & ? & ?)|intros; rewrite En; lia|intros; lia].
Qed.
Lemma runs_bind o k s a b c d e f : runs o s a b -> (forall s1, moved s s1 a b -> destroyed s1 = destroyed s -> runs (k s1) s1 c d) ->
  (forall m, e m = a m + c m) -> (forall m, f m = b m + d m) -> runs (o ≫= k) s e f.
Proof.
  intros (s1 & -> & M1 & D1) Hk He Hf. destruct (Hk s1 M1 D1) as (s2 & E2 & M2 & D2). exists s2. split; [exact E2|]. split; [by eapply moved_trans|congruence].
Qed.
Lemma moved_live s s' a b l : moved s s' a b -> in_memory s l -> in_memory s' l.
Proof. intros M. apply extends_live, (mv_ext _ _ _ _ M). Qed.
Lemma moved_data s s' a b l v : moved s s' a b -> vnodes s !! l = Some v -> exists v', vnodes s' !! l = Some v' /\ key v' = key v.
Proof. intros M. apply ext_key, (mv_ext _ _ _ _ M). Qed.

Lemma get_vnode_runs l s : wf s -> in_memory s l -> cnt s l < 65535 -> runs (get_vnode l s) s (one l) (one l).
Proof.
  intros Hw Hl Hc. unfold get_vnode. apply (runs_bind _ _ _ (one l) (fun _ => 0) (fun _ => 0) (fun m => 1 * one l m)); [by apply rlock_runs| |intros m; lia|intros m; lia].
  intros s1 M1 _. apply (add_count_runs 1); [apply (mv_wf _ _ _ _ M1)|by eapply moved_live|rewrite (mv_cnt _ _ _ _ M1)]. pose proof (cnt_range s l Hw). lia.
Qed.
Lemma get_vnode_mem l s s' : get_vnode l s = Some s' -> mem s' = mem s.
Proof.
  unfold get_vnode, vn_rlock, add_vcount, upd_vnode. destruct (vnodes s !! l); [|done]. cbn [mbind option_bind vnodes set_vnodes]. rewrite lookup_insert_eq. by intros [= <-].
Qed.
Lemma release_vnode_runs fuel l s : wf s -> in_memory s l -> 1 <= lk s l -> 2 <= cnt s l -> runs (release_vnode (S fuel) l s) s (fun m => - one l m) (fun m => - one l m).
Proof.
  intros Hw Hl Hk Hc. pose proof (cnt_range s l Hw) as Hr. cbn [release_vnode].
  apply (runs_bind _ _ _ (fun _ => 0) (fun m => -1 * one l m) (fun m => - one l m) (fun _ => 0)); [apply add_count_runs; [done..|lia]| |intros m; lia|intros m; lia].
  intros s1 M1 _. pose proof (mv_cnt _ _ _ _ M1 l) as E1. pose proof (mv_lk _ _ _ _ M1 l) as E2. cbn beta in E1, E2. rewrite one_eq in E1.
  destruct (live_lookup s1 l) as (v & Hv & Ev & _); [by eapply moved_live|]. rewrite Hv. cbn [mbind option_bind].
  destruct (Z.leb_spec (v_count v) 0); [lia|]. apply vn_runlock_runs; [apply (mv_wf _ _ _ _ M1)|by exists v|lia].
Qed.
Lemma release_runs l s : wf s -> in_memory s l -> 1 <= lk s l -> 2 <= cnt s l -> runs (release l s) s (fun m => - one l m) (fun m => - one l m).
Proof. apply release_vnode_runs. Qed.
(** One count less, under the lock. *)
Lemma drop_count_runs (fuel : state -> nat) p s : wf s -> in_memory s p -> 2 <= cnt s p < 65535 ->
  runs (s1 ← get_vnode p s; s2 ← add_vcount (-1) p s1; release_vnode (S (fuel s2)) p s2) s (fun _ => 0) (fun m => - one p m).
Proof.
  intros Hw Hl Hc. apply (runs_bind _ _ _ (one p) (one p) (fun m => - one p m) (fun m => - 2 * one p m)); [apply get_vnode_runs; [done..|lia]| |intros; lia|intros; lia].
  intros s1 M1 _. pose proof (mv_cnt _ _ _ _ M1 p) as C1. pose proof (mv_lk _ _ _ _ M1 p) as L1. rewrite one_eq in C1, L1. pose proof (lk_nonneg s p).
  apply (runs_bind _ _ _ (fun _ => 0) (fun m => -1 * one p m) (fun m => - one p m) (fun m => - one p m)); [|..|intros; lia|intros; lia].
  - apply add_count_runs; [apply (mv_wf _ _ _ _ M1)|by eapply moved_live|lia].
  - intros s2 M2 _. pose proof (mv_cnt _ _ _ _ M2 p) as C2. pose proof (mv_lk _ _ _ _ M2 p) as L2. cbn beta in C2, L2. rewrite one_eq in C2.
    apply release_vnode_runs; [apply (mv_wf _ _ _ _ M2)|eapply moved_live; [exact M2|by eapply moved_live]|lia|lia].
Qed.
Lemma destroyed_moved s s2 ds a b : moved s s2 a b -> moved s (set_destroyed ds s2) a b.
Proof.
  intros [[w1 w2 w3 w4 w5 w6 w7 w8] [x1 x2 x3 x4] Hlk Hcnt]. split; [split; try done|by split|done..].
  intros m Hm. destruct (w3 m Hm) as [i Hi]. exists i. apply (extends_ident s2); [split; eauto|done].
Qed.
(** The last release of a vnode takes one from the count of its directory. *)
Lemma release_last l p v s : wf s -> vnodes s !! l = Some v -> v_parent v = Some p -> p <> l -> in_memory s p -> 1 <= lk s l -> cnt s l = 1 -> 2 <= cnt s p < 65535 ->
  exists s', release l s = Some s' /\ moved s s' (fun m => - one l m) (fun m => - one l m - one p m) /\ destroyed s' = destroyed s ++ [l].
Proof.
  intros Hw Hv Hp Hne Hlp Hk Hc Hcp. assert (in_memory s l) as Hl by by exists v.
  assert (exists n, size (vnodes s) = S n) as [n Esz]. { destruct (size (vnodes s)) eqn:E; [|eauto]. apply map_size_empty_inv in E. rewrite E in Hv. by rewrite lookup_empty in Hv. }
  unfold release. rewrite Esz. cbn [release_vnode].
  destruct (add_count_runs (-1) l s) as (s1 & -> & M1 & D1); [done..|lia|]. cbn [mbind option_bind].
  destruct (moved_data _ _ _ _ _ _ M1 Hv) as (v1 & Hv1 & Kv1). assert (v_parent v1 = Some p) as Hp1 by (injection Kv1 as ? ? ? ? ?; congruence).
  pose proof (mv_cnt _ _ _ _ M1 l) as C1. cbn beta in C1. rewrite one_eq in C1. unfold cnt in C1 at 1. rewrite Hv1 in C1. simpl in C1. rewrite Hv1. cbn [mbind option_bind].
  destruct (Z.leb_spec (v_count v1) 0); [|lia]. pose proof (mv_lk _ _ _ _ M1 l) as L1. cbn beta in L1.
  destruct (vn_runlock_runs l s1) as (s2 & -> & M2 & D2); [apply (mv_wf _ _ _ _ M1)|by exists v1|lia|]. cbn [mbind option_bind]. rewrite Hp1.
  assert (moved s s2 (fun m => - one l m) (fun m => - one l m)) as M02 by (eapply moved_trans; [exact M1|exact M2|intros; simpl; lia|intros; simpl; lia]).
  apply (destroyed_moved s s2 (destroyed s2 ++ [l])) in M02. pose proof (mv_cnt _ _ _ _ M02 p) as C3. cbn beta in C3. rewrite one_ne in C3 by done.
  destruct (drop_count_runs (fun _ => n) p _ (mv_wf _ _ _ _ M02)) as (s' & E & M3 & D3); [by eapply moved_live|lia|]. exists s'. split; [exact E|]. split.
  - eapply moved_trans; [exact M02|exact M3|intros; simpl; lia|intros; simpl; lia].
  - rewrite D3. simpl. congruence.
Qed.

Lemma release_child l p v s : wf s -> vnodes s !! l = Some v -> v_parent v = Some p -> p <> l -> in_memory s p -> 1 <= lk s l -> 1 <= cnt s l -> 2 <= cnt s p < 65535 ->
  exists s', release l s = Some s' /\ moved s s' (fun m => - one l m) (fun m => - one l m - (if cnt s l =? 1 then one p m else 0)).
Proof.
  intros Hw Hv Hp Hne Hlp Hk Hc Hcp. destruct (Z.eqb_spec (cnt s l) 1).
  - destruct (release_last l p v s) as (s' & E & M & _); [done..|eauto].
  - destruct (release_runs l s) as (s' & E & M & _); [done|by exists v|done|lia|]. exists s'. split; [done|].
    eapply moved_trans; [exact M|apply moved_refl, (mv_wf _ _ _ _ M)|intros; simpl; lia|intros; simpl; lia].
Qed.

Lemma hash_range vno : 0 <= hash_no vno < VNODEHASHMAX.
Proof. unfold hash_no, VNODEHASHMAX. case_ztest; apply Z.mod_pos_bound; lia. Qed.
Lemma chain_some s vno : wf s -> exists c, zget (vnlist_hdr s) (hash_no vno) = Some c.
Proof. intros Hw. apply zget_is_Some. rewrite (wf_chains _ Hw). apply hash_range. Qed.
Lemma search_hash_spec dev vno pvn offset s c : (forall l, l ∈ c -> in_memory s l) -> exists o, search_hash dev vno pvn offset (vnodes s) c = Some o /\
  match o with
  | Some l => exists v, vnodes s !! l = Some v /\ is_vnode dev vno pvn offset v = true
  | None => forall l v, l ∈ c -> vnodes s !! l = Some v -> is_vnode dev vno pvn offset v = false
  end.
Proof.
  induction c as [|l c IH]; intros Hc; simpl.
  - exists None. split; [done|]. intros l v Hl. by apply not_elem_of_nil in Hl.
  - destruct (Hc l) as [v Hv]; [left|]. rewrite Hv. cbn [mbind option_bind]. destruct (is_vnode dev vno pvn offset v) eqn:Ev; [exists (Some l); eauto|].
    destruct IH as (o & Eo & Ho); [intros; apply Hc; by right|]. exists o. split; [exact Eo|]. destruct o; [done|].
    intros m w [->|Hm]%elem_of_cons Hw; [congruence|eauto].
Qed.
Lemma is_vnode_true dev vno pvn offset v : is_vnode dev vno pvn offset v = true <-> v_dev v = dev /\ v_no v = vno /\ v_parent v = pvn /\ v_offset v = offset.
Proof. unfold is_vnode. rewrite !andb_true_iff, !Z.eqb_eq, bool_decide_eq_true. tauto. Qed.

(** A vnode for an entry that had none. *)
Lemma new_moved s l x h vno p c mm : wf s -> mm `suffix_of` mem s -> vnodes s !! l = None -> in_memory s p -> v_parent x = Some p -> v_dev x = 0 -> v_start x = v_no x -> v_no x = vno -> v_count x = 1 -> v_lock x = 1%nat ->
  (forall m v, vnodes s !! m = Some v -> key v <> key x) -> zget (vnlist_hdr s) (hash_no vno) = Some c -> zset (vnlist_hdr s) (hash_no vno) (l :: c) = Some h ->
  moved s (mk_state (<[l := x]> (vnodes s)) h (root_dir s) (current_dir s) (destroyed s) mm (disk s)) (one l) (one l).
Proof.
  intros Hw Hmm Hl Hlp Hp Hd Hs Hn Hc Hk Hu Hg Hz.
  assert (forall m, in_memory s m -> m <> l) as Hne by (intros m [v Hv] ->; congruence).
  set (s' := mk_state _ _ _ _ _ _ _).
  assert (extends s s') as He.
  { split; [done..|]. intros m v Hm. simpl. rewrite lookup_insert_ne by (intros ->; congruence). eauto. }
  assert (forall m v, vnodes s' !! m = Some v -> m = l /\ v = x \/ vnodes s !! m = Some v) as Hcase.
  { intros m v. subst s'. simpl. destruct (decide (m = l)) as [->|]; [rewrite lookup_insert_eq; intros [= <-]; by left|rewrite lookup_insert_ne by done; by right]. }
  assert (vnodes s' !! l = Some x) as Hx by (subst s'; simpl; by rewrite lookup_insert_eq).
  assert (forall i c', zget (vnlist_hdr s) i = Some c' -> exists c2, zget h i = Some c2 /\ forall m, m ∈ c' -> m ∈ c2) as Hsub.
  { intros i c' Hi. destruct (decide (i = hash_no vno)) as [->|].
    - exists (l :: c). split; [by eapply zget_zset_eq|]. intros m Hm. right. congruence.
    - exists c'. rewrite (zget_zset_ne _ _ _ _ _ Hz) by done. eauto. }
  split; [|done|..|done].
  - split.
    + destruct (wf_root _ Hw) as (r & Hr & Hpr). exists r. subst s'. simpl. rewrite lookup_insert_ne by (intros ->; congruence). done.
    + apply (extends_live _ _ _ He), (wf_current _ Hw).
    + intros m [v [[-> ->]|Hm]%Hcase].
      * destruct (wf_ident _ Hw p Hlp) as [ids Hi]. eexists. eapply ident_child; [done..|by apply (extends_ident s)].
      * destruct (wf_ident _ Hw m) as [ids Hi]; [by exists v|]. exists ids. by apply (extends_ident s).
    + intros m v [[-> ->]|Hm]%Hcase; [split_and!; lia || done|by apply (wf_data _ Hw) in Hm].
    + subst s'. simpl. rewrite (zlen_zset _ _ _ _ Hz). apply (wf_chains _ Hw).
    + intros m v q [[-> ->]|Hm]%Hcase Hq.
      * rewrite Hn. exists (l :: c). split; [by eapply zget_zset_eq|left].
      * destruct (wf_listed _ Hw m v q Hm Hq) as (c' & Hc' & Hi). destruct (Hsub _ _ Hc') as (c2 & ? & ?). eauto.
    + intros i c' m Hi Hm. subst s'. simpl in Hi. destruct (decide (i = hash_no vno)) as [->|].
      * rewrite (zget_zset_eq _ _ _ _ Hz) in Hi. injection Hi as <-. apply elem_of_cons in Hm as [->|Hm]; [by exists x|]. apply (extends_live s); [done|]. eapply (wf_alive _ Hw); eauto.
      * rewrite (zget_zset_ne _ _ _ _ _ Hz) in Hi by done. apply (extends_live s); [done|]. eapply (wf_alive _ Hw); eauto.
    + intros m1 v1 m2 v2 [[-> ->]|H1]%Hcase [[-> ->]|H2]%Hcase Hp1 Hkk; [done|..].
      * by apply Hu in H2.
      * by apply Hu in H1.
      * by apply (wf_unique _ Hw m1 v1 m2 v2).
  - intros m. unfold lk. subst s'. simpl. destruct (decide (m = l)) as [->|]; [rewrite lookup_insert_eq, Hl, one_eq|rewrite lookup_insert_ne, one_ne by done]; simpl; lia.
  - intros m. unfold cnt. subst s'. simpl. destruct (decide (m = l)) as [->|]; [rewrite lookup_insert_eq, Hl, one_eq|rewrite lookup_insert_ne, one_ne by done]; simpl; lia.
Qed.

Lemma vnode_key_eq s m v p ino off : wf s -> vnodes s !! m = Some v -> key v = (0, off, ino, ino, Some p) <-> is_vnode 0 ino (Some p) off v = true.
Proof.
  intros Hw Hm. apply (wf_data _ Hw) in Hm as (Hd & Hs & _). rewrite is_vnode_true. unfold key. split.
  - intros [= ? ? ? ? ?]. split_and!; congruence.
  - intros (? & ? & ? & ?). congruence.
Qed.
Lemma fresh_loc_free s : vnodes s !! fresh_loc s = None.
Proof. apply not_elem_of_dom. unfold fresh_loc. exact (is_fresh (dom (vnodes s))). Qed.

Definition is_dots (name : list Z) : bool := bool_decide (name = DOT) || bool_decide (name = DOTDOT).

Lemma lookup_absent dvn name s dv : wf s -> vnodes s !! dvn = Some dv -> is_dots name = false ->
  find_entry 0 (v_no dv) name (disk s) = None -> fat12_vop_lookup dvn name s = Some (None, s).
Proof.
  intros Hw Hv Hn Hf. apply orb_false_iff in Hn as [H1 H2]. unfold fat12_vop_lookup. rewrite H1, H2, Hv. cbn [mbind option_bind].
  destruct (wf_data _ Hw _ _ Hv) as (-> & -> & _). by rewrite Hf.
Qed.
(** [kmalloc] refuses the memory of a vnode. *)
Definition refused (o : option (option loc * state)) (s : state) : Prop := head (mem s) = Some false /\ o = Some (None, set_mem (tl (mem s)) s).
Lemma tl_suffix {A} (l : list A) : tl l `suffix_of` l.
Proof. destruct l as [|x l]; [done|by exists [x]]. Qed.
Lemma mem_moved s : wf s -> moved s (set_mem (tl (mem s)) s) (fun _ => 0) (fun _ => 0).
Proof.
  intros [w1 w2 w3 w4 w5 w6 w7 w8]. assert (extends s (set_mem (tl (mem s)) s)) as He by (split; eauto).
  split; [split; try done|done|intros; simpl; unfold lk; simpl; lia|intros; unfold cnt; simpl; lia|apply tl_suffix].
  intros m Hm. destruct (w3 m Hm) as [i Hi]. exists i. by apply (extends_ident s).
Qed.
(** The vnode of an entry that is there: in memory once, locked and counted once more. *)
Lemma lookup_present dvn name s dv ino off att ids : wf s -> vnodes s !! dvn = Some dv -> is_dots name = false -> ident s dvn ids -> (forall m, cnt s m < 65535) ->
  find_entry 0 (v_no dv) name (disk s) = Some (ino, off, att) ->
  (exists l s' v, fat12_vop_lookup dvn name s = Some (Some l, s') /\ moved s s' (one l) (one l) /\ destroyed s' = destroyed s /\
    vnodes s' !! l = Some v /\ key v = (0, off, ino, ino, Some dvn) /\ ident s' l ((ino, off) :: ids)) \/ refused (fat12_vop_lookup dvn name s) s.
Proof.
  intros Hw Hv Hn Hi Hc Hf. apply orb_false_iff in Hn as [H1 H2]. unfold fat12_vop_lookup. rewrite H1, H2, Hv. cbn [mbind option_bind].
  destruct (wf_data _ Hw _ _ Hv) as (-> & -> & _). rewrite Hf. unfold alloc_vnode.
  destruct (chain_some s ino Hw) as [c Hg]. rewrite Hg. cbn [mbind option_bind].
  destruct (search_hash_spec 0 ino (Some dvn) off s c) as (o & -> & Ho); [intros m; by apply (wf_alive _ Hw _ _ _ Hg)|]. cbn [mbind option_bind].
  assert (forall s' l v, moved s s' (one l) (one l) -> vnodes s' !! l = Some v -> key v = (0, off, ino, ino, Some dvn) -> ident s' l ((ino, off) :: ids)) as Hid.
  { intros s' l v M Hl [= _ <- <- _ Hp]. apply (ident_child _ _ _ dvn); [done..|]. eapply extends_ident; [apply (mv_ext _ _ _ _ M)|done]. }
  destruct o as [l|].
  - left. destruct Ho as (v & Hl & Hk). apply (vnode_key_eq s l) in Hk; [|done..]. destruct (get_vnode_runs l s) as (s1 & -> & M1 & D1); [done|by exists v|apply Hc|]. cbn [mbind option_bind].
    destruct (moved_data _ _ _ _ _ _ M1 Hl) as (v1 & Hv1 & Hk1). rewrite Hk in Hk1. rewrite Hv1. cbn [mbind option_bind].
    destruct (Z.eqb_spec (v_count v1) 1); [|exists l, s1, v1; eauto 10].
    unfold upd_vnode. rewrite Hv1. cbn [mbind option_bind]. set (x := set_data _ _ _).
    assert (key x = key v1) as Hx by (rewrite Hk1; injection Hk1 as ? ? ? ? ?; unfold x, key; simpl; congruence).
    set (s2 := set_vnodes _ _). assert (moved s s2 (one l) (one l)) as M2.
    { apply (moved_trans s s1 s2 (one l) (one l) (fun _ => 0) (fun _ => 0)); [exact M1| |intros; lia|intros; lia]. pose proof (mv_wf _ _ _ _ M1) as Hw1.
      apply (insert_moved s1 l v1 x); [done..|by apply (wf_data _ Hw1) in Hv1 as (? & ? & ?)|intros m; simpl; lia|intros m; simpl; lia]. }
    exists l, s2, x. assert (vnodes s2 !! l = Some x) by (unfold s2; simpl; by rewrite lookup_insert_eq). rewrite Hk1 in Hx. split_and!; eauto.
  - unfold kmalloc_vnode. destruct (hd true (mem s)) eqn:Em; [left|right; split; [by destruct (mem s) as [|[] ?]|done]].
    unfold vnode_add_hashlist. cbn [vnlist_hdr set_vnodes set_mem]. rewrite Hg. cbn [mbind option_bind].
    pose proof (hash_range ino) as Hr. rewrite <- (wf_chains _ Hw) in Hr. rewrite (zset_Some _ _ _ Hr). cbn [mbind option_bind].
    set (l := fresh_loc s). unfold get_vnode, vn_rlock, add_vcount, upd_vnode. repeat (simpl; rewrite ?lookup_insert_eq). rewrite !insert_insert_eq. pose (x := mk_vnode (if Z.land att FTYPE_DIR =? 0 then S_IFREG else S_IFDIR) 1 0 off ino ino 1 (Some dvn)).
    pose (s' := mk_state (<[l := x]> (vnodes s)) (<[Z.to_nat (hash_no ino) := l :: c]> (vnlist_hdr s)) (root_dir s) (current_dir s) (destroyed s) (tl (mem s)) (disk s)).
    exists l, s', x. split; [done|]. assert (moved s s' (one l) (one l)) as M.
    { apply (new_moved s l x _ ino dvn c); [done|apply tl_suffix|apply fresh_loc_free|by exists dv|done..| |done|by apply zset_Some].
      intros m w Hm Hk. change (key x) with (0, off, ino, ino, Some dvn) in Hk. assert (v_no w = ino /\ v_parent w = Some dvn) as [En Ep] by (by injection Hk).
      destruct (wf_listed _ Hw m w dvn Hm Ep) as (c' & Hc' & Hin). rewrite En, Hg in Hc'. injection Hc' as <-. apply (Ho m) in Hm as Hf'; [|done].
      apply (vnode_key_eq s m) in Hk; [congruence|done..]. }
    split; [done|]. split; [done|]. split; [simpl; apply lookup_insert_eq|]. split; [done|]. apply (Hid _ _ x); [done|simpl; apply lookup_insert_eq|done].
Qed.

(** * The walk that a path describes *)

(** The names between the slashes; nothing follows a slash at the end. *)
Fixpoint components (path : list Z) : list (list Z) :=
  match path with
  | [] => []
  | c :: path => if is_slash c then [] :: components path else match components path with n :: cs => (c :: n) :: cs | [] => [[c]] end
  end.
Definition dir_no (top : Z) (ids : list (Z * Z)) : Z := match ids with [] => top | (n, _) :: _ => n end.
(** Nothing is a walk above the root; an entry that is not there ends the walk. *)
Fixpoint walk (top : Z) (d : D) (names : list (list Z)) (ids : list (Z * Z)) : option (option (list (Z * Z))) :=
  match names with
  | [] => Some (Some ids)
  | n :: names =>
      if bool_decide (n = DOT) then walk top d names ids else
      if bool_decide (n = DOTDOT) then match ids with [] => None | _ :: up => walk top d names up end else
      match find_entry 0 (dir_no top ids) n d with None => Some None | Some (ino, off, _) => walk top d names ((ino, off) :: ids) end
  end.
Definition steps (names : list (list Z)) : nat := length (filter (fun n => n <> DOT) names).
Definition visits (ps : list loc) (m : loc) : Z := Z.of_nat (length (filter (fun p => p = m) ps)).
Definition root_no (s : state) : Z := from_option v_no 0 (vnodes s !! root_dir s).
Definition short (names : list (list Z)) : Prop := Forall (fun n => (length n < NAME_MAX)%nat) names.

Lemma visits_cons p ps m : visits (p :: ps) m = one p m + visits ps m.
Proof. unfold visits, one. rewrite filter_cons. destruct (decide (p = m)), (decide (m = p)); simplify_eq; simpl; lia. Qed.
Lemma visits_nonneg ps m : 0 <= visits ps m.
Proof. unfold visits. lia. Qed.

Lemma components_nil path : components path = [] -> path = [].
Proof. destruct path as [|c path]; simpl; [done|]. destruct (is_slash c); [done|]. by destruct (components path). Qed.
Lemma component_spec n path nm cs : components path = nm :: cs -> (length nm < n)%nat ->
  exists rest, component n path = (nm, rest) /\ components rest = cs /\ (length rest < length path)%nat.
Proof.
  revert n nm. induction path as [|c path IH]; intros n nm; simpl; [done|]. destruct n as [|n]; [lia|]. simpl. destruct (is_slash c).
  - intros [= <- <-] _. exists path. split; [done|]. split; [done|lia].
  - destruct (components path) as [|n' cs'] eqn:E; intros [= <- <-]; simpl; intros Hn.
    + apply components_nil in E as ->. exists []. split; [by destruct n|]. split; [done|simpl; lia].
    + destruct (IH n n' eq_refl) as (rest & -> & ? & ?); [lia|]. exists rest. split; [done|]. split; [done|lia].
Qed.

Lemma ident_live s l ids : ident s l ids -> in_memory s l.
Proof. destruct 1; eexists; eauto. Qed.
Lemma ident_no s l ids v : ident s l ids -> vnodes s !! l = Some v -> v_no v = dir_no (root_no s) ids.
Proof. destruct 1 as [w Hw Hp|l w p ids Hw Hp Hi]; intros Hv; simpl; [unfold root_no; by rewrite Hv|congruence]. Qed.
Lemma root_no_extends s s' : wf s -> extends s s' -> root_no s' = root_no s.
Proof.
  intros Hw He. destruct (wf_root _ Hw) as (r & Hr & _). unfold root_no. rewrite (ext_root _ _ He), Hr. apply (ext_key _ _ He) in Hr as (r' & -> & Hk). by injection Hk.
Qed.
Lemma ident_child_ne s l x ids p : ident s l (x :: ids) -> ident s p ids -> l <> p.
Proof. intros H1 H2 ->. assert (x :: ids = ids) as E by by eapply ident_det. apply (f_equal length) in E. simpl in E. lia. Qed.

(** One step of the walk, down or up. *)
Definition next (s : state) (cur : loc) (n : list Z) : option (option loc * state) :=
  if bool_decide (n = DOTDOT) then '(p, s) ← get_pdir cur s; Some (Some p, s) else fat12_vop_lookup cur n s.
Definition walk1 (top : Z) (d : D) (n : list Z) (ids : list (Z * Z)) : option (option (list (Z * Z))) := walk top d [n] ids.

Lemma next_spec s cur n ids : wf s -> ident s cur ids -> n <> DOT -> (forall m, cnt s m < 65535) ->
  match walk1 (root_no s) (disk s) n ids with
  | None => next s cur n = None
  | Some None => next s cur n = Some (None, s)
  | Some (Some i) => (exists l s', next s cur n = Some (Some l, s') /\ moved s s' (one l) (one l) /\ destroyed s' = destroyed s /\ ident s' l i /\ l <> cur) \/ refused (next s cur n) s
  end.
Proof.
  intros Hw Hi Hn Hc. destruct (live_lookup s cur) as (v & Hv & _); [by eapply ident_live|]. pose proof (ident_no _ _ _ _ Hi Hv) as Hno.
  unfold walk1, next. simpl. rewrite (bool_decide_false (n = DOT)) by done. case_bool_decide as Hdd.
  - unfold get_pdir. rewrite Hv. cbn [mbind option_bind]. destruct Hi as [r Hr Hp|l r p ids Hr Hp Hi]; assert (r = v) as -> by congruence; rewrite Hp; [done|]. cbn [mbind option_bind].
    destruct (get_vnode_runs p s) as (s1 & -> & M1 & D1); [done|by eapply ident_live|apply Hc|]. left. exists p, s1. split; [done|]. split; [done|]. split; [done|].
    split; [by eapply extends_ident; [apply (mv_ext _ _ _ _ M1)|]|]. intros ->. eapply (ident_child_ne s l _ ids l); [by econstructor|done|done].
  - assert (is_dots n = false) as Hds by (unfold is_dots; by rewrite !bool_decide_false). rewrite <- Hno. destruct (find_entry 0 (v_no v) n (disk s)) as [[[ino off] att]|] eqn:Ef.
    + destruct (lookup_present cur n s v ino off att ids) as [(l & s' & w & E & M & Hd & Hl & Hk & Hid)|?]; [done..| |by right]. left. exists l, s'. split_and!; try done.
      apply (ident_child_ne s' _ (ino, off) ids); [done|]. by eapply extends_ident; [apply (mv_ext _ _ _ _ M)|].
    + by apply (lookup_absent cur n s v).
Qed.

Lemma walk_cons top d n names ids : n <> DOT ->
  walk top d (n :: names) ids = match walk1 top d n ids with None => None | Some None => Some None | Some (Some i) => walk top d names i end.
Proof.
  intros Hn. unfold walk1. simpl. rewrite (bool_decide_false (n = DOT)) by done. case_bool_decide; [by destruct ids|].
  by destruct (find_entry 0 (dir_no top ids) n d) as [[[ino off] att]|].
Qed.

(** What a walk from [cur] leaves behind: the directories it has passed are counted once more
    each, the one it found is locked; without a result nothing is. *)
Definition walked_null (s : state) (cur : loc) (names : list (list Z)) (o : option (option loc * state)) : Prop :=
  exists s' ps, o = Some (None, s') /\ moved s s' (fun m => - one cur m) (fun m => visits ps m - 2 * one cur m) /\ destroyed s' = destroyed s /\ (length ps <= steps names)%nat.
(** Memory can be refused on the way. *)
Definition short_of_memory (s : state) : Prop := false ∈ mem s.
Definition walked (s : state) (cur : loc) (names : list (list Z)) (w : option (option (list (Z * Z)))) (o : option (option loc * state)) : Prop :=
  match w with
  | None => o = None \/ short_of_memory s /\ walked_null s cur names o
  | Some None => walked_null s cur names o
  | Some (Some i) => (exists l s' ps, o = Some (Some l, s') /\ moved s s' (fun m => one l m - one cur m) (fun m => visits ps m + one l m - 2 * one cur m) /\
      destroyed s' = destroyed s /\ length ps = steps names /\ ident s' l i) \/ short_of_memory s /\ walked_null s cur names o
  end.
Lemma short_of_memory_before s s' a b : moved s s' a b -> short_of_memory s' -> short_of_memory s.
Proof. intros M H. destruct (mv_mem _ _ _ _ M) as [k Hk]. unfold short_of_memory. rewrite Hk. apply elem_of_app. by right. Qed.

Lemma walked_step s s2 cur l n names i o : n <> DOT -> moved s s2 (fun m => one l m - one cur m) (fun m => 2 * one l m - one cur m) -> destroyed s2 = destroyed s ->
  walked s2 l names i o -> walked s cur (n :: names) i o.
Proof.
  intros Hn M2 D2. assert (steps (n :: names) = S (steps names)) as Es by (unfold steps; rewrite filter_cons, decide_True; done).
  assert (walked_null s2 l names o -> walked_null s cur (n :: names) o) as Hnull.
  { intros (s' & ps & -> & M & Hd & Hp). exists s', (cur :: ps). split; [done|]. split; [|split; [congruence|rewrite Es; simpl; lia]].
    eapply moved_trans; [exact M2|exact M|intros m; simpl; lia|intros m; rewrite visits_cons; simpl; lia]. }
  pose proof (short_of_memory_before _ _ _ _ M2) as Hmem. unfold walked. destruct i as [[i|]|].
  - intros [(l' & s' & ps & -> & M & Hd & Hp & Hi)|[? ?]]; [left|by right; auto]. exists l', s', (cur :: ps). split; [done|]. split; [|split; [congruence|split; [rewrite Es; simpl; congruence|done]]].
    eapply moved_trans; [exact M2|exact M|intros m; simpl; lia|intros m; rewrite visits_cons; simpl; lia].
  - done.
  - intros [?|[? ?]]; [by left|right; auto].
Qed.
(** A step that leads nowhere. *)
Lemma walked_last s s1 cur n names : n <> DOT -> wf s -> in_memory s cur -> 1 <= lk s cur -> 2 <= cnt s cur -> moved s s1 (fun _ => 0) (fun _ => 0) -> destroyed s1 = destroyed s ->
  walked_null s cur (n :: names) (s2 ← release cur s1; Some (None, s2)).
Proof.
  intros Hn Hw Hi Hk Hc M1 D1. pose proof (mv_lk _ _ _ _ M1 cur) as L1. pose proof (mv_cnt _ _ _ _ M1 cur) as C1. cbn beta in L1, C1.
  destruct (release_runs cur s1) as (s2 & -> & M2 & D2); [apply (mv_wf _ _ _ _ M1)|by eapply moved_live|lia|lia|]. exists s2, [cur]. split; [done|]. split; [|split; [congruence|]].
  - eapply moved_trans; [exact M1|exact M2|intros; simpl; lia|intros; rewrite visits_cons; unfold visits; simpl; lia].
  - unfold steps. rewrite filter_cons, decide_True by done. simpl. lia.
Qed.

Lemma lookup_components_walk fuel path cur ids s : wf s -> (length path <= fuel)%nat -> short (components path) -> ident s cur ids -> 2 <= cnt s cur -> 1 <= lk s cur ->
  (forall m, cnt s m + 2 * zlen path < 65535) ->
  walked s cur (components path) (walk (root_no s) (disk s) (components path) ids) (lookup_components fuel path cur s).
Proof.
  revert path cur ids s. induction fuel as [|fuel IH]; intros path cur ids s Hw Hf Hsh Hi Hc Hk Hb; (destruct path as [|ch path0]; [|try (simpl in Hf; lia)]).
  1,2: simpl; destruct (add_count_runs (-1) cur s) as (s' & -> & M & Hd); [done|by eapply ident_live|pose proof (cnt_range s cur Hw); lia|];
    left; exists cur, s', []; split; [done|]; (split; [|split; [done|split; [done|by eapply extends_ident; [apply (mv_ext _ _ _ _ M)|]]]]);
    eapply moved_trans; [exact M|apply moved_refl, (mv_wf _ _ _ _ M)|intros m; simpl; lia|intros m; unfold visits; simpl; lia].
  set (path := ch :: path0) in *. destruct (components path) as [|n cs] eqn:Ep; [by apply components_nil in Ep|].
  apply Forall_cons in Hsh as [Hn Hsh]. destruct (component_spec NAME_MAX path n cs Ep Hn) as (rest & Ec & Er & Hl).
  assert (lookup_components (S fuel) path cur s = (if bool_decide (n = DOT) then lookup_components fuel rest cur s else
    '(o, s) ← next s cur n; s ← release cur s; match o with None => Some (None, s) | Some l => s ← add_vcount 1 l s; lookup_components fuel rest l s end)) as ->.
  { change path with (ch :: path0) at 1. cbn [lookup_components]. fold path. rewrite Ec. destruct (Nat.leb_spec NAME_MAX (length n)); [lia|done]. }
  assert (zlen rest + 1 <= zlen path) as Hz by (unfold zlen; lia). rewrite <- Er in Hsh |- *. case_bool_decide as Hd.
  { subst n. cbn [walk]. rewrite bool_decide_true by done.
    change (walked s cur (components rest) (walk (root_no s) (disk s) (components rest) ids) (lookup_components fuel rest cur s)).
    apply IH; [done|lia|done..|]. intros m. specialize (Hb m). lia. }
  rewrite walk_cons by done. pose proof (next_spec s cur n ids Hw Hi Hd) as Hx. destruct (walk1 (root_no s) (disk s) n ids) as [[i|]|].
  - destruct Hx as [(l & s1 & -> & M1 & D1 & Hi1 & Hne)|[Hm ->]]; [intros m; specialize (Hb m); unfold zlen in Hb; lia|..]; cbn [mbind option_bind]; cycle 1.
    { assert (short_of_memory s) as Hsh' by (unfold short_of_memory; destruct (mem s) as [|x m]; [done|]; injection Hm as ->; left).
      assert (walked_null s cur (n :: components rest) (s2 ← release cur (set_mem (tl (mem s)) s); Some (None, s2))) as Hnull by (apply walked_last; [done|done|by eapply ident_live|done..|by apply mem_moved|done]).
      unfold walked. destruct (walk (root_no s) (disk s) (components rest) i) as [[?|]|]; [by right|done|by right]. }
    pose proof (mv_cnt _ _ _ _ M1) as C1. pose proof (mv_lk _ _ _ _ M1) as L1.
    destruct (release_runs cur s1) as (s2 & -> & M2 & D2); [apply (mv_wf _ _ _ _ M1)|eapply moved_live; [done|by eapply ident_live]|rewrite L1, one_ne by done; lia|rewrite C1, one_ne by done; lia|].
    cbn [mbind option_bind]. assert (moved s s2 (fun m => one l m - one cur m) (fun m => one l m - one cur m)) as M02 by (eapply moved_trans; [exact M1|exact M2|intros; simpl; lia|intros; simpl; lia]).
    pose proof (mv_cnt _ _ _ _ M02) as C2.
    assert (ident s2 l i) as Hi2 by (by eapply extends_ident; [apply (mv_ext _ _ _ _ M2)|]).
    destruct (add_count_runs 1 l s2) as (s3 & -> & M3 & D3); [apply (mv_wf _ _ _ _ M2)|by eapply ident_live| |].
    { rewrite C2, one_eq, one_ne by done. pose proof (cnt_range s l Hw). specialize (Hb l). unfold zlen in *. lia. }
    cbn [mbind option_bind]. assert (moved s s3 (fun m => one l m - one cur m) (fun m => 2 * one l m - one cur m)) as M03 by (eapply moved_trans; [exact M02|exact M3|intros; simpl; lia|intros; simpl; lia]).
    apply (walked_step s s3 cur l n); [done..|congruence|]. pose proof (mv_ext _ _ _ _ M03) as E3. rewrite <- (root_no_extends s s3) by done. rewrite <- (ext_disk _ _ E3).
    pose proof (mv_cnt _ _ _ _ M03) as C3. pose proof (mv_lk _ _ _ _ M03) as L3. pose proof (cnt_range s l Hw). pose proof (lk_nonneg s l).
    apply IH; [apply (mv_wf _ _ _ _ M03)|lia|done|by eapply extends_ident; [apply (mv_ext _ _ _ _ M3)|]|rewrite C3, one_eq, one_ne by done; lia|rewrite L3, one_eq, one_ne by done; lia|].
    intros m. rewrite C3. specialize (Hb m). unfold one. repeat case_decide; lia.
  - rewrite Hx; [|intros m; specialize (Hb m); unfold zlen in Hb; lia]. cbn [mbind option_bind].
    apply walked_last; [done|done|by eapply ident_live|done..|by apply moved_refl|done].
  - left. by rewrite Hx; [|intros m; specialize (Hb m); unfold zlen in Hb; lia].
Qed.

Lemma visits_le ps m : visits ps m <= Z.of_nat (length ps).
Proof. unfold visits. pose proof (length_filter (fun p => p = m) ps). lia. Qed.
Lemma components_le path : (length (components path) <= length path)%nat.
Proof. induction path as [|c path IH]; simpl; [lia|]. destruct (is_slash c); [simpl; lia|]. destruct (components path); simpl in *; lia. Qed.

(** Where a path starts, in a process whose current directory is [ids], and the names it follows. *)
Definition path_names (path : list Z) : list (list Z) := components (match path with c :: rest => if is_slash c then rest else path | [] => path end).
Definition path_start (ids : list (Z * Z)) (path : list Z) : list (Z * Z) := match path with c :: _ => if is_slash c then [] else ids | [] => ids end.
Definition path_walk (s : state) (ids : list (Z * Z)) (path : list Z) : option (option (list (Z * Z))) :=
  walk (root_no s) (disk s) (path_names path) (path_start ids path).

Lemma steps_le path : (steps (path_names path) <= length path)%nat.
Proof.
  unfold steps. pose proof (length_filter (fun n => n <> DOT) (path_names path)) as H. unfold path_names in *. destruct path as [|c path]; [done|]. destruct (is_slash c).
  - pose proof (components_le path). simpl. lia.
  - pose proof (components_le (c :: path)). lia.
Qed.

Lemma start_spec s ids path : wf s -> ident s (current_dir s) ids -> (forall m, cnt s m < 65534) ->
  exists cur rest s1, lookup_path path s = lookup_components (length rest) rest cur s1 /\ components rest = path_names path /\ (length rest <= length path)%nat /\
    ident s1 cur (path_start ids path) /\ moved s s1 (one cur) (fun m => 2 * one cur m) /\ destroyed s1 = destroyed s.
Proof.
  intros Hw Hi Hc. assert (forall cur i rest, ident s cur i -> exists s1, (s0 ← get_vnode cur s; s0 ← add_vcount 1 cur s0; lookup_components (length rest) rest cur s0) =
      lookup_components (length rest) rest cur s1 /\ ident s1 cur i /\ moved s s1 (one cur) (fun m => 2 * one cur m) /\ destroyed s1 = destroyed s) as H.
  { intros cur i rest Hcur. destruct (get_vnode_runs cur s) as (s1 & -> & M1 & D1); [done|by eapply ident_live|specialize (Hc cur); lia|]. cbn [mbind option_bind].
    destruct (add_count_runs 1 cur s1) as (s2 & -> & M2 & D2); [apply (mv_wf _ _ _ _ M1)|eapply moved_live; [done|by eapply ident_live]| |].
    { rewrite (mv_cnt _ _ _ _ M1), one_eq. specialize (Hc cur). pose proof (cnt_range s cur Hw). lia. }
    assert (moved s s2 (one cur) (fun m => 2 * one cur m)) as M by (eapply moved_trans; [exact M1|exact M2|intros; simpl; lia|intros; simpl; lia]).
    exists s2. split; [done|]. split; [by eapply extends_ident; [apply (mv_ext _ _ _ _ M)|]|]. split; [done|congruence]. }
  unfold lookup_path, path_names, path_start, get_rootdir, get_curdir. destruct (wf_root _ Hw) as (r & Hr & Hp).
  destruct path as [|c path]; [|destruct (is_slash c)].
  - destruct (H (current_dir s) ids [] Hi) as (s1 & E & ? & ? & ?). exists (current_dir s), [], s1. split; [|done]. rewrite <- E. by destruct (get_vnode (current_dir s) s).
  - destruct (H (root_dir s) [] path) as (s1 & E & ? & ? & ?); [by econstructor|]. exists (root_dir s), path, s1. split; [|split_and!; [done|simpl; lia|done..]]. rewrite <- E. by destruct (get_vnode (root_dir s) s).
  - destruct (H (current_dir s) ids (c :: path) Hi) as (s1 & E & ? & ? & ?). exists (current_dir s), (c :: path), s1. split; [|done]. rewrite <- E. by destruct (get_vnode (current_dir s) s).
Qed.

(** [lookup_path] gives NULL: nothing is left locked, the directories that were passed keep a count. *)
Definition gives_null (s : state) (path : list Z) : Prop :=
  exists s' ps, lookup_path path s = Some (None, s') /\ moved s s' (fun _ => 0) (visits ps) /\ destroyed s' = destroyed s /\ (length ps <= steps (path_names path))%nat.

Lemma lookup_path_spec s ids path : wf s -> ident s (current_dir s) ids -> (forall m, cnt s m + 2 * zlen path < 65533) -> short (path_names path) ->
  match path_walk s ids path with
  | None => lookup_path path s = None \/ short_of_memory s /\ gives_null s path
  | Some None => gives_null s path
  | Some (Some i) => (exists l s' ps, lookup_path path s = Some (Some l, s') /\ moved s s' (one l) (fun m => visits ps m + one l m) /\ destroyed s' = destroyed s /\
      length ps = steps (path_names path) /\ ident s' l i) \/ short_of_memory s /\ gives_null s path
  end.
Proof.
  intros Hw Hi Hb Hs. unfold gives_null. destruct (start_spec s ids path) as (cur & rest & s1 & -> & En & Hl & Hi1 & M1 & D1); [done..|intros m; specialize (Hb m); unfold zlen in Hb; lia|].
  pose proof (mv_cnt _ _ _ _ M1) as C1. pose proof (mv_lk _ _ _ _ M1) as L1. pose proof (mv_ext _ _ _ _ M1) as X1.
  unfold path_walk. rewrite <- (root_no_extends s s1), <- (ext_disk s s1), <- En in * by done.
  assert (walked s1 cur (components rest) (walk (root_no s1) (disk s1) (components rest) (path_start ids path)) (lookup_components (length rest) rest cur s1)) as W.
  { apply lookup_components_walk; [apply (mv_wf _ _ _ _ M1)|done..| | |].
    - rewrite C1, one_eq. pose proof (cnt_range s cur Hw). lia.
    - rewrite L1, one_eq. pose proof (lk_nonneg s cur). lia.
    - intros m. rewrite C1. specialize (Hb m). unfold one, zlen in *. case_decide; lia. }
  assert (walked_null s1 cur (components rest) (lookup_components (length rest) rest cur s1) -> exists s' ps, lookup_components (length rest) rest cur s1 = Some (None, s') /\
    moved s s' (fun _ => 0) (visits ps) /\ destroyed s' = destroyed s /\ (length ps <= steps (components rest))%nat) as Hnull.
  { intros (s' & ps & E & M & Hd & Hp). exists s', ps. split; [done|]. split; [|split; [congruence|done]]. eapply moved_trans; [exact M1|exact M|intros; simpl; lia|intros; simpl; lia]. }
  pose proof (short_of_memory_before _ _ _ _ M1) as Hmem. destruct (walk _ _ _ _) as [[i|]|]; simpl in W.
  - destruct W as [(l & s' & ps & E & M & Hd & Hp & Hid)|[? ?]]; [left|right; auto]. exists l, s', ps. split; [done|]. split; [|split; [congruence|done]].
    eapply moved_trans; [exact M1|exact M|intros; simpl; lia|intros; simpl; lia].
  - auto.
  - destruct W as [?|[? ?]]; [by left|right; auto].
Qed.

Lemma last_slash_spec path : match last_slash path with
  | Some (a, b) => path = a ++ b /\ (exists a' c, a = a' ++ [c] /\ is_slash c = true) /\ Forall (fun c => is_slash c = false) b
  | None => Forall (fun c => is_slash c = false) path
  end.
Proof.
  induction path as [|c path IH]; simpl; [constructor|]. destruct (last_slash path) as [[a b]|].
  - destruct IH as (-> & (a' & d & -> & Hd) & Hb). split; [done|]. split; [exists (c :: a'), d; eauto|done].
  - destruct (is_slash c) eqn:Ec; [|by constructor]. split; [done|]. split; [exists [], c; eauto|done].
Qed.
Lemma parse_path_name path : Forall (fun c => is_slash c = false) path -> (length path < NAME_MAX)%nat -> parse_path path = ([], path).
Proof.
  intros Hp Hl. unfold parse_path. pose proof (last_slash_spec path) as H. destruct (last_slash path) as [[a b]|]; [|by rewrite take_ge by lia].
  destruct H as (-> & (a' & c & -> & Hc) & _). apply Forall_app in Hp as [Hp _]. apply Forall_app in Hp as [_ Hp]. apply Forall_cons in Hp as [? _]. congruence.
Qed.

(** [parse_path] cuts a path after its last slash. *)
Theorem parse_path_cuts path dir_path name : parse_path path = (dir_path, name) -> (length name < NAME_MAX)%nat ->
  path = dir_path ++ name /\ Forall (fun c => is_slash c = false) name /\ (dir_path = [] \/ exists d c, dir_path = d ++ [c] /\ is_slash c = true).
Proof.
  unfold parse_path. pose proof (last_slash_spec path) as H. destruct (last_slash path) as [[a b]|]; intros [= <- <-]; rewrite length_take; intros Hl.
  - destruct H as (-> & H & Hb). rewrite take_ge by lia. eauto.
  - rewrite take_ge by lia. eauto.
Qed.

(** C5: Following a path.  For a path of at most 500 characters whose names have fewer than 255, and
    while no count is above 64000: from the root directory for a path that starts with a slash, and
    from the current directory otherwise, [lookup_path] arrives at the vnode whose entries are
    those that a walk by the names of the path finds on disk, with dot staying and dot-dot going
    up; it gives NULL when a name is not there, and follows a null pointer when dot-dot leaves
    the root; the only other result is NULL when [kmalloc] refuses the memory of a vnode on the
    way.  Nothing is destroyed; no vnode is left locked but the one found, once; and each directory
    that was passed keeps one count more, which nobody gives back on the way. *)
Theorem lookup_path_walks s ids path : wf s -> ident s (current_dir s) ids -> zlen path <= PATH_MAX -> (forall m, cnt s m <= 64000) -> short (path_names path) ->
  match path_walk s ids path with
  | None => lookup_path path s = None \/ short_of_memory s /\ gives_null s path
  | Some None => gives_null s path
  | Some (Some i) => (exists l s' passed, lookup_path path s = Some (Some l, s') /\ ident s' l i /\ moved s s' (one l) (fun m => visits passed m + one l m) /\
      destroyed s' = destroyed s /\ length passed = steps (path_names path)) \/ short_of_memory s /\ gives_null s path
  end.
Proof.
  intros Hw Hi Hp Hc Hs. pose proof (lookup_path_spec s ids path Hw Hi) as H. assert (forall m, cnt s m + 2 * zlen path < 65533) as Hb by (intros m; specialize (Hc m); unfold PATH_MAX in Hp; lia).
  specialize (H Hb Hs). destruct (path_walk s ids path) as [[i|]|]; [|done|done]. destruct H as [(l & s' & ps & ? & ? & ? & ? & ?)|?]; [left; eauto 10|by right].
Qed.

(** C24: The status of a file that is not open costs its directory a count.  [syscall_stat] of a name
    in the current directory finds the entry and leaves every lock as it was; but the last
    release of a vnode takes a count from its directory that no lookup has added.  If the vnode of
    the file was not in use, the directory has one count less than before; if it was, all counts
    are as before.  ([kmalloc] gives memory for a vnode, and no count is above 64000.) *)
Theorem stat_lowers_directory s ids name dv ino off att : wf s -> ident s (current_dir s) ids -> (forall m, cnt s m <= 64000) -> head (mem s) <> Some false ->
  vnodes s !! current_dir s = Some dv -> 2 <= v_count dv ->
  Forall (fun c => is_slash c = false) name -> (length name < NAME_MAX)%nat -> is_dots name = false -> find_entry 0 (v_no dv) name (disk s) = Some (ino, off, att) ->
  exists l s', syscall_stat name s = Some (inr l, s') /\ ident s' l ((ino, off) :: ids) /\
    moved s s' (fun _ => 0) (fun m => if cnt s l =? 0 then - one (current_dir s) m else 0).
Proof.
  intros Hw Hi Hc Hmem Hd Hd2 Hns Hlen Hdots Hf. set (cur := current_dir s) in *. assert (cnt s cur = v_count dv) as Ec by (unfold cnt; by rewrite Hd).
  unfold syscall_stat, open_parent. assert (zlen name <= PATH_MAX) by (unfold zlen, PATH_MAX, NAME_MAX in *; lia).
  destruct (Z.ltb_spec PATH_MAX (zlen name)); [lia|]. rewrite parse_path_name by done. destruct (Nat.leb_spec NAME_MAX (length name)); [lia|]. unfold get_curdir.
  destruct (get_vnode_runs cur s) as (s1 & Eg & M1 & D1); [done|by exists dv|specialize (Hc cur); lia|]. pose proof (get_vnode_mem _ _ _ Eg) as Emem. unfold cur in Eg at 1. rewrite Eg. cbn [mbind option_bind]. fold cur.
  destruct (moved_data _ _ _ _ _ _ M1 Hd) as (dv1 & Hd1 & K1). assert (v_no dv1 = v_no dv) as En by (by injection K1).
  pose proof (mv_cnt _ _ _ _ M1) as C1. pose proof (mv_lk _ _ _ _ M1) as L1.
  destruct (lookup_present cur name s1 dv1 ino off att ids) as [(l & s2 & v & -> & M2 & D2 & Hv & Kv & Hid)|[Hr _]]; [apply (mv_wf _ _ _ _ M1)|exact Hd1|exact Hdots| | | | |].
  { by eapply extends_ident; [apply (mv_ext _ _ _ _ M1)|]. }
  { intros m. rewrite C1. specialize (Hc m). unfold one. case_decide; lia. }
  { by rewrite En, (ext_disk _ _ (mv_ext _ _ _ _ M1)). }
  2: { exfalso. apply Hmem. by rewrite <- Emem. }
  cbn [mbind option_bind]. pose proof (mv_cnt _ _ _ _ M2) as C2. pose proof (mv_lk _ _ _ _ M2) as L2. pose proof (mv_wf _ _ _ _ M2) as Hw2.
  assert (in_memory s2 cur) as Hl2 by (eapply moved_live; [done|by exists dv1]).
  assert (l <> cur) as Hne. { apply (ident_child_ne s2 l (ino, off) ids cur Hid). eapply extends_ident; [apply (mv_ext _ _ _ _ M2)|]. by eapply extends_ident; [apply (mv_ext _ _ _ _ M1)|]. }
  pose proof (cnt_range s l Hw). pose proof (lk_nonneg s l). pose proof (lk_nonneg s cur).
  assert (cnt s2 l = cnt s l + 1) as Ecl by (rewrite C2, one_eq, C1, one_ne by done; lia).
  destruct (release_child l cur v s2) as (s3 & -> & M3); [done..|by injection Kv|congruence|done|rewrite L2, one_eq, L1, one_ne by done; lia|lia| |].
  { rewrite C2, one_ne, C1, one_eq by done. specialize (Hc cur). lia. }
  rewrite Ecl in M3. replace (cnt s l + 1 =? 1) with (cnt s l =? 0) in M3 by (apply eq_true_iff_eq; rewrite !Z.eqb_eq; lia).
  cbn [mbind option_bind]. pose proof (mv_cnt _ _ _ _ M3 cur) as C3. pose proof (mv_lk _ _ _ _ M3 cur) as L3. cbn beta in C3, L3. rewrite one_ne in C3, L3 by done. rewrite one_eq in C3.
  destruct (release_runs cur s3) as (s4 & -> & M4 & _); [apply (mv_wf _ _ _ _ M3)|by eapply moved_live| | |].
  { rewrite L3, L2, L1, one_eq, one_ne by done. lia. }
  { rewrite C3, C2, C1, one_eq, one_ne by done. destruct (cnt s l =? 0); lia. }
  cbn [mbind option_bind]. exists l, s4. split; [done|]. split.
  - eapply extends_ident; [apply (mv_ext _ _ _ _ M4)|]. by eapply extends_ident; [apply (mv_ext _ _ _ _ M3)|].
  - assert (moved s s2 (fun m => one cur m + one l m) (fun m => one cur m + one l m)) as M02 by by eapply moved_trans.
    assert (moved s s3 (one cur) (fun m => one cur m - (if cnt s l =? 0 then one cur m else 0))) as M03 by (eapply moved_trans; [exact M02|exact M3|intros; simpl; lia|intros; simpl; lia]).
    eapply moved_trans; [exact M03|exact M4|intros; simpl; lia|intros m; simpl; destruct (cnt s l =? 0); lia].
Qed.

(** [chdir] moves the process to the vnode that a walk along the path finds, and stays where it
    was when there is none; the new directory gets a count and the old one gives one back. *)
Theorem chdir_moves s ids path : wf s -> ident s (current_dir s) ids -> zlen path <= PATH_MAX -> (forall m, cnt s m <= 64000) -> short (path_names path) -> 2 <= cnt s (current_dir s) ->
  let not_found := exists s' passed, syscall_chdir path s = Some (EPATH_NOT_EXISTS, s') /\ moved s s' (fun _ => 0) (visits passed) in
  match path_walk s ids path with
  | None => syscall_chdir path s = None \/ short_of_memory s /\ not_found
  | Some None => not_found
  | Some (Some i) => (exists l s1 passed, syscall_chdir path s = Some (0, set_curdir l s1) /\ ident s1 l i /\
      moved s s1 (fun _ => 0) (fun m => visits passed m + one l m - one (current_dir s) m)) \/ short_of_memory s /\ not_found
  end.
Proof.
  intros Hw Hi Hp Hc Hs H2. assert (forall m, cnt s m + 2 * zlen path < 65533) as Hb by (intros m; specialize (Hc m); unfold PATH_MAX in Hp; lia).
  unfold syscall_chdir. destruct (Z.ltb_spec PATH_MAX (zlen path)); [lia|]. pose proof (lookup_path_spec s ids path Hw Hi Hb Hs) as HL.
  assert (gives_null s path -> exists s' passed, ('(o, s) ← lookup_path path s; match o with None => Some (EPATH_NOT_EXISTS, s) | Some vn => s ← add_vcount 1 vn s; s ← release vn s;
    let cur := current_dir s in s ← get_vnode cur s; s ← add_vcount (-1) cur s; s ← release cur s; Some (0, set_curdir vn s) end) = Some (EPATH_NOT_EXISTS, s') /\ moved s s' (fun _ => 0) (visits passed)) as Hnull.
  { intros (s' & ps & -> & M & _). by exists s', ps. }
  destruct (path_walk s ids path) as [[i|]|].
  - destruct HL as [(l & s1 & ps & -> & M1 & D1 & Hps & Hid)|[? ?]]; [left; clear Hnull|right; auto]. cbn [mbind option_bind]. pose proof (mv_cnt _ _ _ _ M1) as C1. pose proof (mv_lk _ _ _ _ M1) as L1. cbn beta in C1.
    assert (forall m, 0 <= visits ps m <= zlen path) as Hv. { intros m. pose proof (visits_le ps m). pose proof (steps_le path). unfold zlen. unfold visits in *. lia. }
    pose proof (Hb l) as Hbl. pose proof (Hv l) as Hvl. pose proof (cnt_range s l Hw) as Hrl. pose proof (lk_nonneg s l) as Hkl.
    destruct (add_count_runs 1 l s1) as (s2 & -> & M2 & D2); [apply (mv_wf _ _ _ _ M1)|by eapply ident_live|rewrite C1, one_eq; lia|]. cbn [mbind option_bind].
    pose proof (mv_cnt _ _ _ _ M2) as C2. pose proof (mv_lk _ _ _ _ M2) as L2. cbn beta in C2, L2.
    destruct (release_runs l s2) as (s3 & -> & M3 & D3); [apply (mv_wf _ _ _ _ M2)|eapply moved_live; [done|by eapply ident_live]|rewrite L2, L1, one_eq; lia|rewrite C2, C1, one_eq; lia|]. cbn [mbind option_bind].
    assert (moved s s3 (fun _ => 0) (fun m => visits ps m + one l m)) as M03.
    { eapply (moved_trans s s1 s3); [exact M1|eapply moved_trans; [exact M2|exact M3|intros; reflexivity|intros; reflexivity]|intros; simpl; lia|intros; simpl; lia]. }
    pose proof (mv_ext _ _ _ _ M03) as X3. rewrite (ext_current _ _ X3). set (cur := current_dir s) in *. pose proof (mv_cnt _ _ _ _ M03 cur) as C3. cbn beta in C3.
    destruct (drop_count_runs (fun s => size (vnodes s)) cur s3) as (s4 & E4 & M4 & D4); [apply (mv_wf _ _ _ _ M03)|eapply moved_live; [exact M03|by apply (wf_current _ Hw)]|rewrite C3; pose proof (Hv cur); pose proof (Hb cur); unfold one; case_decide; lia|].
    exists l, s4, ps. split; [|split].
    + destruct (get_vnode cur s3) as [s5|]; [|done]. cbn [mbind option_bind] in E4 |- *. destruct (add_vcount (-1) cur s5) as [s6|]; [|done]. cbn [mbind option_bind] in E4 |- *.
      unfold release. by rewrite E4.
    + eapply extends_ident; [apply (mv_ext _ _ _ _ M4)|]. eapply extends_ident; [apply (mv_ext _ _ _ _ M3)|]. by eapply extends_ident; [apply (mv_ext _ _ _ _ M2)|].
    + eapply moved_trans; [exact M03|exact M4|intros; simpl; lia|intros; simpl; lia].
  - auto.
  - destruct HL as [->|[? ?]]; [by left|right; auto].
Qed.
End fs.
End Path.

(** * Directories of a FAT12 floppy *)

Module FatPath.
Import FatTable FatDir Path.

Record fatdisk := mk_fatdisk { fd_fat : list Z; fd_image : FatDir.floppy }.
Definition dir_vnode (dev c : Z) : FatFile.vnode := FatFile.mk_vnode dev 0 c (FatFile.mk_dirent [] FTYPE_DIR [] 0 0 c 0).
#[export] Instance fat_directory : Directory fatdisk := {|
  find_entry dev c name x :=
    match FatDir.lookup_entry (dir_vnode dev c) name (fd_fat x) (fd_image x) with
    | Some (Some (e, b), _) => Some (FatDir.d_ino e, FatDir.d_off e, FatDir.at_ b 11)
    | _ => None
    end |}.

(** The directory SUB with the file B.C in it, and a file A. *)
Definition ex_entry (nm : list Z) (a c : Z) : list Z := FatDir.dirent_bytes (FatFile.mk_dirent nm a (replicate 10 0) 0 0 c 0).
Definition ex_image : FatDir.floppy := FatDir.mk_floppy {[
  (0, 19) := ex_entry ([83; 85; 66] ++ replicate 8 32) FTYPE_DIR 2 ++ ex_entry (65 :: replicate 10 32) 0x20 5 ++ replicate 448 0;
  (0, 33) := ex_entry FatDir.ex_fname 0x20 6 ++ replicate 480 0 ]}.
Definition ex_s (c : Z) : state (D := fatdisk) :=
  mk_state {[ 1%positive := mk_vnode S_IFDIR c 0 0 (-12) (-12) 0 None ]} (replicate 12 [] ++ [1%positive] :: replicate 6 []) 1%positive 1%positive [] [] (mk_fatdisk (fat ex_fs) ex_image).
(** "/sub/../sub/b.c" and "a" *)
Definition ex_path : list Z := [47; 115; 117; 98; 47; 46; 46; 47; 115; 117; 98; 47; 98; 46; 99].

Lemma ex_ident c : ident (ex_s c) 1%positive [].
Proof. by eapply (ident_root (ex_s c)). Qed.
Lemma ex_only c l v : vnodes (ex_s c) !! l = Some v -> l = 1%positive /\ v = mk_vnode S_IFDIR c 0 0 (-12) (-12) 0 None.
Proof. intros H. unfold ex_s in H. cbn [vnodes] in H. apply lookup_singleton_Some in H as [<- <-]. done. Qed.
Lemma ex_wf c : 0 <= c < 2 ^ 16 -> wf (ex_s c).
Proof.
  intros Hc. split.
  - by eexists.
  - by eexists.
  - intros l [v [-> _]%ex_only]. exists []. apply ex_ident.
  - intros l v [-> ->]%ex_only. done.
  - done.
  - intros l v p [-> ->]%ex_only. done.
  - intros i ch l Hg Hl. assert (ch = [] \/ ch = [1%positive]) as [->| ->]; [|by apply not_elem_of_nil in Hl|apply list_elem_of_singleton in Hl as ->; by eexists].
    unfold zget in Hg. destruct (i <? 0); [done|]. apply list_elem_of_lookup_2 in Hg. cbn in Hg. set_solver.
  - intros l1 v1 l2 v2 [-> ->]%ex_only [-> ->]%ex_only. done.
Qed.
Lemma ex_cnt c m : 0 <= c <= 64000 -> cnt (ex_s c) m <= 64000.
Proof. intros Hc. unfold cnt. destruct (vnodes (ex_s c) !! m) eqn:E; simpl; [apply ex_only in E as [_ ->]; simpl; lia|lia]. Qed.

Lemma lookup_path_walks_witness : exists l s' passed, lookup_path ex_path (ex_s 1) = Some (Some l, s') /\ ident s' l [(6, 0); (2, 0)] /\
  moved (ex_s 1) s' (one l) (fun m => visits passed m + one l m) /\ destroyed s' = [] /\ length passed = 4%nat.
Proof.
  assert (path_walk (ex_s 1) [] ex_path = Some (Some [(6, 0); (2, 0)])) as E by (vm_compute; reflexivity).
  pose proof (lookup_path_walks (ex_s 1) [] ex_path) as H. rewrite E in H.
  destruct H as [?|[Hm _]]; [by apply ex_wf|apply ex_ident|vm_compute; discriminate|intros m; apply ex_cnt; lia|repeat constructor|done|by apply not_elem_of_nil in Hm].
Defined.
Lemma stat_lowers_directory_witness : exists l s', syscall_stat [97] (ex_s 2) = Some (inr l, s') /\ ident s' l [(5, 32)] /\
  moved (ex_s 2) s' (fun _ => 0) (fun m => if cnt (ex_s 2) l =? 0 then - one 1%positive m else 0).
Proof.
  apply (stat_lowers_directory (ex_s 2) [] [97] (mk_vnode S_IFDIR 2 0 0 (-12) (-12) 0 None) 5 32 0x20); [by apply ex_wf|apply ex_ident|intros m; apply ex_cnt; lia|done..|repeat constructor| |done|vm_compute; reflexivity].
  apply Nat.ltb_lt. reflexivity.
Defined.
Lemma chdir_moves_witness : exists l s1 passed, syscall_chdir [115; 117; 98] (ex_s 2) = Some (0, set_curdir l s1) /\ ident s1 l [(2, 0)] /\
  moved (ex_s 2) s1 (fun _ => 0) (fun m => visits passed m + one l m - one 1%positive m).
Proof.
  assert (path_walk (ex_s 2) [] [115; 117; 98] = Some (Some [(2, 0)])) as E by (vm_compute; reflexivity).
  pose proof (chdir_moves (ex_s 2) [] [115; 117; 98]) as H. rewrite E in H.
  destruct H as [?|[Hm _]]; [by apply ex_wf|apply ex_ident|vm_compute; discriminate|intros m; apply ex_cnt; lia|repeat constructor|vm_compute; discriminate|done|by apply not_elem_of_nil in Hm].
Defined.

(** The status of "/sub/b.c", with neither in memory before, ends with the count of the
    directory below 0, which is 65535 in its 16 bits. *)
Example stat_wraps_count : exists s', syscall_stat [47; 115; 117; 98; 47; 98; 46; 99] (ex_s 1) = Some (inr 3%positive, s') /\
  cnt s' 2%positive = 65535 /\ destroyed s' = [3%positive; 2%positive].
Proof. eexists. split; [vm_compute; reflexivity|]. split; reflexivity. Qed.
(** The status of a file in the directory of a process that is alone there destroys the directory. *)
Example stat_destroys_directory : exists s', syscall_stat [97] (ex_s 1) = Some (inr 2%positive, s') /\ destroyed s' = [2%positive; current_dir s'].
Proof. eexists. split; [vm_compute; reflexivity|]. reflexivity. Qed.
(** Without memory the directory that is there is not found. *)
Example lookup_without_memory : exists s', lookup_path [47; 115; 117; 98] (set_mem [false] (ex_s 1)) = Some (None, s') /\ cnt s' 1%positive = 2.
Proof. eexists. split; [vm_compute; reflexivity|]. reflexivity. Qed.
(** The parent of the root directory is no directory. *)
Example dotdot_of_root : lookup_path [47; 46; 46] (ex_s 1) = None.
Proof. vm_compute. reflexivity. Qed.
End FatPath.
