(* ===== verification/DirStream.v ===== *)
(** Directory streams (src/base/fs.c): opening a directory and reading it entry by entry
    through a handle, for any directory with the promise of [DirOps]; the directories of the
    FAT12 file system are an instance. *)
From S2P Require Import Prelude FatTable FatFile FatDir Fd.

Module DirStream.
Import FatDir Fd.

Definition FTFLAGS_DIR : Z := 0x02.
Definition EARG : Z := -14.
Definition EINVALID_ARGUMENT : Z := -52.

(** What [vop_readdir] promises: the entries of a directory in the order of their offsets,
    each call giving the first one from a position on.  A position is the start, or the end of
    an entry. *)
Class DirOps (F : Type) := {
  vop_readdir : Z -> F -> option (option dirent * F);
  dir_ok : F -> Prop;
  dir_list : F -> list dirent;
  dir_list_ok f : dir_ok f -> Forall (fun e => 0 <= d_off e < 2 ^ 30 /\ 0 < d_reclen e < 2 ^ 16) (dir_list f);
  vop_readdir_start f : dir_ok f -> exists f', vop_readdir 0 f = Some (head (dir_list f), f') /\ dir_ok f' /\ dir_list f' = dir_list f;
  vop_readdir_next f l1 e l2 : dir_ok f -> dir_list f = l1 ++ e :: l2 ->
    exists f', vop_readdir (d_off e + d_reclen e) f = Some (head l2, f') /\ dir_ok f' /\ dir_list f' = dir_list f }.

Section stream.
Context {F : Type} `{!DirOps F} {W : Type}.
Abbreviation state := (state (F := F) (W := W)).

(** A [DIR] is its handle; the entry is returned in [dir_dent]. *)
Definition dir_handle_ok (handle : Z) (s : state) : option bool :=
  if negb (in_handles handle) then Some false else h ← zget (fhandles s) handle; Some (0 <=? h).
Definition syscall_readdir (dir : option Z) (s : state) : option (option dirent * state) :=
  match dir with
  | None => Some (None, s)
  | Some handle =>
      ok ← dir_handle_ok handle s;
      if negb ok then Some (None, s) else
      h ← zget (fhandles s) handle;
      dirf ← zget (openFileTable s) h;
      if Z.land (fte_flags dirf) FTFLAGS_DIR =? 0 then Some (None, s) else
      v ← fte_vn dirf;
      s ← get_vnode v s;
      x ← vnodes s !! v;
      '(r, f) ← vop_readdir (s32 (fte_curposition dirf)) (v_file x);
      let s := set_vnodes (<[v := mk_vn (v_count x) (v_parent x) f]> (vnodes s)) s in
      s ← (match r with
           | Some de => t ← zset (openFileTable s) h (set_position (u32 (d_off de + d_reclen de)) dirf); Some (set_ftab t s)
           | None => Some s
           end);
      s ← release v s;
      Some (r, s)
  end.
(** These three take the entry of the table that has the number of the handle. *)
Definition syscall_seekdir (dir : option Z) (offset : Z) (s : state) : option state :=
  match dir with
  | None => Some s
  | Some handle =>
      ok ← dir_handle_ok handle s;
      if negb ok then Some s else
      dirf ← zget (openFileTable s) handle;
      if Z.land (fte_flags dirf) FTFLAGS_DIR =? 0 then Some s else
      if 0 <=? offset then t ← zset (openFileTable s) handle (set_position (u32 offset) dirf); Some (set_ftab t s) else Some s
  end.
Definition syscall_telldir (dir : option Z) (s : state) : option Z :=
  match dir with
  | None => Some EARG
  | Some handle =>
      ok ← dir_handle_ok handle s;
      if negb ok then Some EINVALID_ARGUMENT else
      dirf ← zget (openFileTable s) handle;
      if Z.land (fte_flags dirf) FTFLAGS_DIR =? 0 then Some EINVALID_HANDLE else Some (s32 (fte_curposition dirf))
  end.
Definition syscall_rewinddir (dir : option Z) (s : state) : option state :=
  match dir with
  | None => Some s
  | Some handle =>
      ok ← dir_handle_ok handle s;
      if negb ok then Some s else
      dirf ← zget (openFileTable s) handle;
      if Z.land (fte_flags dirf) FTFLAGS_DIR =? 0 then Some s else
      t ← zset (openFileTable s) handle (set_position 0 dirf); Some (set_ftab t s)
  end.
Definition syscall_closedir (decrement_sockref_count : Z -> W -> W) (dir : option Z) (s : state) : option (Z * state) :=
  match dir with None => Some (ENOT_A_DIRECTORY, s) | Some handle => syscall_close decrement_sockref_count handle s end.

(** [syscall_opendir] once the directory [dvn] and the directory [fvn] in it are found, both
    with a reference held: the handle that it stores in the [DIR], or nothing for NULL. *)
Definition opendir_entry (st_mode st_size : Z) (fvn : loc) (e : fte) : fte :=
  set_flags (Z.lor (fte_flags e) FTFLAGS_DIR) (mk_fte (fte_refcount e) (fte_flags e) (s16 st_mode) O_RDONLY (u32 st_size) 0 (Some fvn)).
Definition opendir_vnode (decrement_sockref_count : Z -> W -> W) (dvn fvn : loc) (st_mode st_size : Z) (s : state) : option (option Z * state) :=
  if (Z.land st_mode S_IFDIR =? 0) || (Z.land st_mode 0x49 =? 0) then s ← release fvn s; s ← release dvn s; Some (None, s) else
  '(handle, s) ← alloc_ftab_slot s;
  s ← (if 0 <=? handle then
         e ← zget (openFileTable s) handle;
         s ← add_count 1 fvn s;
         t ← zset (openFileTable s) handle (opendir_entry st_mode st_size fvn e);
         Some (set_ftab t s)
       else Some s);
  s ← release fvn s;
  s ← release dvn s;
  if 0 <=? handle then
    '(fhandle, s) ← alloc_process_file_handle handle s;
    s ← (if fhandle <? 0 then decrement_ref_count decrement_sockref_count handle s else Some s);
    Some (Some fhandle, s)
  else Some (Some EMAXFILES, s).

(** [n] calls of [readdir] and what they return. *)
Fixpoint readdirs (n : nat) (handle : Z) (s : state) : option (list (option dirent) * state) :=
  match n with
  | O => Some ([], s)
  | S n => '(r, s) ← syscall_readdir (Some handle) s; '(rs, s) ← readdirs n handle s; Some (r :: rs, s)
  end.

(** * Reading a directory to its end *)

(** What a stream at position [p] has not returned yet. *)
Definition rest_at (f : F) (p : Z) (rest : list dirent) : Prop :=
  (p = 0 /\ rest = dir_list f) \/ exists l1 e, dir_list f = l1 ++ e :: rest /\ p = d_off e + d_reclen e.
(** Handle [fd] is a stream of a directory with the entries [rest] to come. *)
Record stream (s : state) (fd h : Z) (e : fte) (v : loc) (x : vn) (rest : list dirent) : Prop := {
  st_opened : opened s fd h e v x;
  st_flag : Z.land (fte_flags e) FTFLAGS_DIR <> 0;
  st_ok : dir_ok (v_file x);
  st_rest : rest_at (v_file x) (fte_curposition e) rest }.

Lemma readdir_rest f p rest : dir_ok f -> rest_at f p rest ->
  0 <= p < 2 ^ 31 /\ exists f', vop_readdir p f = Some (head rest, f') /\ dir_ok f' /\ dir_list f' = dir_list f.
Proof.
  intros Hf [[-> ->]|(l1 & e & El & ->)].
  - split; [lia|]. by apply vop_readdir_start.
  - split; [|by eapply vop_readdir_next]. pose proof (dir_list_ok f Hf) as Ho. rewrite El in Ho. apply Forall_app in Ho as [_ Ho]. apply Forall_cons in Ho as [Ho _]. lia.
Qed.
Lemma rest_next f f' p e rest : rest_at f p (e :: rest) -> dir_list f' = dir_list f -> rest_at f' (d_off e + d_reclen e) rest.
Proof.
  intros H E. right. destruct H as [[_ H]|(l1 & e' & El & _)].
  - exists [], e. rewrite E, <- H. done.
  - exists (l1 ++ [e']), e. rewrite E, El, <- app_assoc. done.
Qed.
Lemma dir_handle_opened s fd h e v x : opened s fd h e v x -> dir_handle_ok fd s = Some true /\ zget (fhandles s) fd = Some h.
Proof.
  intros [H1 H2 H3 _ _ _ _]. unfold dir_handle_ok. rewrite H1, H2. cbn [negb mbind option_bind]. apply andb_true_iff in H3 as [-> _]. done.
Qed.

(** One call: the next entry, and the position behind it. *)
Lemma readdir_step s fd h e v x rest : stream s fd h e v x rest ->
  exists e' x' s', syscall_readdir (Some fd) s = Some (head rest, s') /\ stream s' fd h e' v x' (tail rest).
Proof.
  intros [Ho Hfl Hok Hr]. pose proof Ho as [H1 H2 H3 He Hv Hx Hc]. destruct (readdir_rest _ _ _ Hok Hr) as [Hp (f' & Ef & Hf' & El)].
  destruct (dir_handle_opened _ _ _ _ _ _ Ho) as [E1 E2]. unfold syscall_readdir. rewrite E1. cbn [mbind option_bind negb]. rewrite E2. cbn [mbind option_bind]. rewrite He. cbn [mbind option_bind].
  destruct (Z.eqb_spec (Z.land (fte_flags e) FTFLAGS_DIR) 0); [done|]. rewrite Hv. cbn [mbind option_bind]. unfold get_vnode. rewrite (add_count_some _ _ _ _ Hx) by lia. cbn [mbind option_bind vnodes set_vnodes].
  rewrite lookup_insert_eq. cbn [mbind option_bind v_file with_count v_count v_parent]. rewrite s32_id by lia. rewrite Ef. cbn [mbind option_bind openFileTable set_vnodes].
  set (e' := match head rest with Some de => set_position (u32 (d_off de + d_reclen de)) e | None => e end).
  pose proof (zget_Some_range _ _ _ He) as Hrg. assert (exists t, zset (openFileTable s) h e' = Some t) as [t Et] by (eexists; by apply zset_Some).
  set (s' := set_ftab t (set_vnodes (<[v := mk_vn (v_count x) (v_parent x) f']> (vnodes s)) s)).
  assert (Fd.moved s h e' v (mk_vn (v_count x) (v_parent x) f') s') as Hm by (exists t; done).
  exists e', (mk_vn (v_count x) (v_parent x) f'), s'. split; [|split; [apply (opened_moved s fd h e v x); [done|by unfold e'; destruct (head rest)|done]|by unfold e'; destruct (head rest)|done|]].
  - assert (forall o : option state, o = Some (set_ftab t (set_vnodes (<[v := mk_vn (v_count x + 1) (v_parent x) f']> (vnodes s)) s)) -> (s1 ← o; s2 ← release v s1; Some (head rest, s2)) = Some (head rest, s')) as Hrel.
    { intros o ->. cbn [mbind option_bind]. erewrite release_live; [|cbn [vnodes set_ftab set_vnodes]; apply lookup_insert_eq|cbn [v_count]; lia]. cbn [mbind option_bind].
      do 2 f_equal. unfold s', set_ftab, set_vnodes, with_count. cbn. by rewrite insert_insert_eq, Z.add_simpl_r. }
    rewrite insert_insert_eq. apply Hrel. unfold e' in Et. destruct (head rest) as [de|].
    + rewrite Et. done.
    + rewrite (zset_same _ _ _ He) in Et. injection Et as <-. done.
  - unfold e'. destruct rest as [|de rest]; simpl.
    + cbn [v_file]. destruct Hr as [[Hp0 Hr]|(l1 & e0 & Hl & Hp0)]; [left|right]; rewrite El; eauto.
    + pose proof (rest_next _ f' _ _ _ Hr El) as Hn. cbn [fte_curposition set_position v_file]. rewrite u32_id; [done|].
      destruct (readdir_rest f' (d_off de + d_reclen de) rest Hf' Hn) as [? _]. lia.
Qed.

(** The calls return what is to come, one by one, then nothing. *)
Lemma readdir_lists s fd h e v x rest n : stream s fd h e v x rest ->
  exists s' e' x', readdirs n fd s = Some ((Some <$> take n rest) ++ replicate (n - length rest) None, s') /\ stream s' fd h e' v x' (drop n rest).
Proof.
  revert s e x rest. induction n as [|n IH]; intros s e x rest Hs; [exists s, e, x; by rewrite drop_0|].
  destruct (readdir_step _ _ _ _ _ _ _ Hs) as (e1 & x1 & s1 & E1 & Hs1). cbn [readdirs]. rewrite E1. cbn [mbind option_bind].
  destruct (IH _ _ _ _ Hs1) as (s' & e' & x' & -> & Hs'). cbn [mbind option_bind]. exists s', e', x'. destruct rest as [|de rest]; simpl in *.
  - rewrite take_nil, drop_nil in *. rewrite Nat.sub_0_r. done.
  - done.
Qed.

Lemma opendir_opens dec dvn fvn st_mode st_size s i j x y :
  tables_ok s -> dvn <> fvn -> vnodes s !! dvn = Some y -> 1 < v_count y < 2 ^ 16 -> vnodes s !! fvn = Some x -> 0 < v_count x < 2 ^ 16 - 1 -> dir_ok (v_file x) ->
  Z.land st_mode S_IFDIR <> 0 -> Z.land st_mode 0x49 <> 0 -> find_unused 0 (openFileTable s) = Some i -> find_handle 0 (fhandles s) = Some j ->
  exists s' e, opendir_vnode dec dvn fvn st_mode st_size s = Some (Some j, s') /\ stream s' j i e fvn x (dir_list (v_file x)).
Proof.
  intros [Ht Hh] Hne Hy Hcy Hx Hcx Hf Hd1 Hd2 Hi Hj. unfold opendir_vnode. destruct (Z.eqb_spec (Z.land st_mode S_IFDIR) 0), (Z.eqb_spec (Z.land st_mode 0x49) 0); [done..|]. cbn [orb].
  pose proof (find_unused_spec 0 (openFileTable s)) as Hfi. rewrite Hi, Z.sub_0_r in Hfi. destruct Hfi as (Hi0 & (e & He & _) & _). pose proof (zget_Some_range _ _ _ He) as Hir.
  pose proof (find_handle_spec 0 (fhandles s)) as Hfj. rewrite Hj, Z.sub_0_r in Hfj. destruct Hfj as (Hj0 & Hjg). pose proof (zget_Some_range _ _ _ Hjg) as Hjr.
  unfold alloc_ftab_slot. rewrite Hi, He, bind_Some. assert (exists t, zset (openFileTable s) i (set_flags FTE_USED e) = Some t) as [t Et] by (eexists; by apply zset_Some). rewrite Et, bind_Some, bind_Some. cbv beta iota.
  destruct (Z.leb_spec 0 i); [|lia]. cbn [openFileTable set_ftab]. rewrite (zget_zset_eq _ _ _ _ Et), bind_Some. rewrite (add_count_some _ _ (set_ftab t s) x) by (done || lia). rewrite bind_Some.
  set (e' := opendir_entry st_mode st_size fvn (set_flags FTE_USED e)). cbn [openFileTable set_ftab set_vnodes].
  assert (exists t', zset t i e' = Some t') as [t' Et'] by (eexists; apply zset_Some; by rewrite (zlen_zset _ _ _ _ Et)). rewrite Et', bind_Some, bind_Some.
  erewrite (release_live fvn); [|cbn [vnodes set_ftab set_vnodes]; apply lookup_insert_eq|cbn [v_count with_count]; lia]. rewrite bind_Some.
  erewrite (release_live dvn); [|cbn [vnodes set_ftab set_vnodes]; rewrite !lookup_insert_ne by congruence; exact Hy|lia]. rewrite bind_Some.
  unfold alloc_process_file_handle. cbn [fhandles set_vnodes set_ftab]. rewrite Hj. assert (exists hs, zset (fhandles s) j i = Some hs) as [hs Ehs] by (eexists; by apply zset_Some). rewrite Ehs, bind_Some, bind_Some.
  cbv beta iota. destruct (Z.ltb_spec j 0); [lia|]. rewrite bind_Some. eexists _, e'. split; [reflexivity|]. unfold tables_ok, FTABLE_SIZE, MAXPROCFILES in *.
  split; [split|vm_compute; discriminate|done|by left].
  - unfold in_handles, MAXPROCFILES. rewrite andb_true_iff, Z.leb_le, Z.ltb_lt. lia.
  - cbn [fhandles set_fhandles]. by apply zget_zset_eq in Ehs.
  - unfold is_file, FTABLE_SIZE. rewrite andb_true_iff, Z.leb_le, Z.ltb_lt. lia.
  - cbn [openFileTable set_fhandles set_vnodes set_ftab]. by apply zget_zset_eq in Et'.
  - done.
  - cbn [vnodes set_fhandles set_vnodes set_ftab]. rewrite lookup_insert_ne by done. rewrite lookup_insert_eq. unfold with_count. cbn [v_count v_parent v_file]. f_equal. rewrite Z.add_simpl_r. by destruct x.
  - done.
Qed.

(** C6: A directory is read entry by entry.  After [opendir] with a free slot and a free handle, [n]
    calls of [readdir] return the first [n] entries of the directory in order, each once, and
    NULL when there are no more. *)
Theorem opendir_lists dec dvn fvn st_mode st_size s i j x y n :
  tables_ok s -> dvn <> fvn -> vnodes s !! dvn = Some y -> 1 < v_count y < 2 ^ 16 -> vnodes s !! fvn = Some x -> 0 < v_count x < 2 ^ 16 - 1 -> dir_ok (v_file x) ->
  Z.land st_mode S_IFDIR <> 0 -> Z.land st_mode 0x49 <> 0 -> find_unused 0 (openFileTable s) = Some i -> find_handle 0 (fhandles s) = Some j ->
  let L := dir_list (v_file x) in
  exists s1 s2, opendir_vnode dec dvn fvn st_mode st_size s = Some (Some j, s1) /\ readdirs n j s1 = Some ((Some <$> take n L) ++ replicate (n - length L) None, s2).
Proof.
  intros Ht Hne Hy Hcy Hx Hcx Hf Hd1 Hd2 Hi Hj L. destruct (opendir_opens dec dvn fvn st_mode st_size s i j x y) as (s1 & e & E1 & Hs); [done..|].
  destruct (readdir_lists s1 j i e fvn x L n Hs) as (s2 & e2 & x2 & E2 & _). exists s1, s2. done.
Qed.

(** Seeking in a stream moves another.  [syscall_seekdir] and [syscall_telldir] take the handle
    for the number of the slot: the stream itself stays where it is, and the directory that
    happens to be open in the slot of that number is moved. *)
Theorem seekdir_moves_other s fd h e v x e2 offset rest : stream s fd h e v x rest -> fd <> h -> zget (openFileTable s) fd = Some e2 -> Z.land (fte_flags e2) FTFLAGS_DIR <> 0 -> 0 <= offset < 2 ^ 31 ->
  exists s', syscall_seekdir (Some fd) offset s = Some s' /\ stream s' fd h e v x rest /\ zget (openFileTable s') fd = Some (set_position offset e2) /\
    syscall_telldir (Some fd) s' = Some offset.
Proof.
  intros [Ho Hfl Hok Hr] Hne He2 Hf2 Hoff. pose proof Ho as [H1 H2 H3 He Hv Hx Hc]. destruct (dir_handle_opened _ _ _ _ _ _ Ho) as [E1 E2].
  pose proof (zget_Some_range _ _ _ He2) as Hrg. assert (exists t, zset (openFileTable s) fd (set_position offset e2) = Some t) as [t Et] by (eexists; by apply zset_Some).
  unfold syscall_seekdir. rewrite E1. cbn [mbind option_bind negb]. rewrite He2. cbn [mbind option_bind]. destruct (Z.eqb_spec (Z.land (fte_flags e2) FTFLAGS_DIR) 0); [done|].
  destruct (Z.leb_spec 0 offset); [|lia]. rewrite u32_id by lia. rewrite Et. cbn [mbind option_bind]. exists (set_ftab t s). split; [done|].
  assert (opened (set_ftab t s) fd h e v x) as Ho' by (split; auto; cbn [openFileTable set_ftab]; by rewrite (zget_zset_ne _ _ _ _ _ Et)).
  split; [by split|]. cbn [openFileTable set_ftab]. split; [by eapply zget_zset_eq|]. unfold syscall_telldir. destruct (dir_handle_opened _ _ _ _ _ _ Ho') as [-> _]. cbn [mbind option_bind negb].
  cbn [openFileTable set_ftab]. rewrite (zget_zset_eq _ _ _ _ Et). cbn [mbind option_bind]. change (fte_flags (set_position offset e2)) with (fte_flags e2).
  destruct (Z.eqb_spec (Z.land (fte_flags e2) FTFLAGS_DIR) 0); [done|]. cbn [fte_curposition set_position]. by rewrite s32_id by lia.
Qed.
End stream.
End DirStream.

(** * Directories of a FAT12 floppy *)

Module FatStream.
Import FatTable Blocks FatFile FatDir DirStream.

(** The table, the disk, the vnode and the blocks of the directory. *)
Record fatdir := mk_fatdir { fd_fat : list Z; fd_image : floppy; fd_vn : vnode; fd_blocks : list Z }.
Definition set_image (d : floppy) (x : fatdir) : fatdir := mk_fatdir (fd_fat x) d (fd_vn x) (fd_blocks x).
Definition fat_dir_ok (x : fatdir) : Prop := readable (D := floppy) (fd_blocks x) /\ fat_ok (fd_fat x) /\ v_dev (fd_vn x) = 0 /\ dir_blocks (fd_fat x) (start_cluster (v_data (fd_vn x))) (fd_blocks x).

(** The entries of the slots that are shown, [k] the number of the first slot. *)
Fixpoint listing (k : nat) (sl : list (list Z)) : list dirent :=
  match sl with [] => [] | e :: sl => if visible e then (listed k e).1 :: listing (S k) sl else listing (S k) sl end.
Definition fat_list (x : fatdir) : list dirent := listing 0 (dslots (fd_image x) 0 (fd_blocks x)).
Definition fat_readdir (offset : Z) (x : fatdir) : option (option dirent * fatdir) :=
  '(r, d) ← fat12_vop_readdir (fd_vn x) offset (fd_fat x) (fd_image x);
  Some (match r with inr (e, _) => Some e | inl _ => None end, set_image d x).

Lemma head_listing k sl : head (listing k sl) = match first visible sl with Some m => (fun e => (listed (k + m) e).1) <$> sl !! m | None => None end.
Proof.
  revert k. induction sl as [|e sl IH]; intros k; [done|]. cbn [listing first]. destruct (visible e); [simpl; by rewrite Nat.add_0_r|].
  rewrite IH. destruct (first visible sl) as [m|]; [|done]. simpl. by rewrite Nat.add_succ_r.
Qed.
Lemma listing_split k sl l1 e l2 : listing k sl = l1 ++ e :: l2 ->
  exists n, (n < length sl)%nat /\ d_off e = 32 * Z.of_nat (k + n) /\ d_reclen e = 32 /\ l2 = listing (k + S n) (drop (S n) sl).
Proof.
  revert k l1. induction sl as [|x sl IH]; intros k l1; cbn [listing]; [by destruct l1|]. destruct (visible x).
  - destruct l1 as [|y l1]; intros [= <- Hl].
    + exists 0%nat. simpl. rewrite Nat.add_0_r, Nat.add_1_r, drop_0. split_and!; [lia|done..|by rewrite Hl].
    + destruct (IH _ _ Hl) as (n & ? & ? & ? & ->). exists (S n). split_and!; [simpl; lia|rewrite Nat.add_succ_r; done|done|simpl; f_equal; lia].
  - intros Hl. destruct (IH _ _ Hl) as (n & ? & ? & ? & ->). exists (S n). split_and!; [simpl; lia|rewrite Nat.add_succ_r; done|done|simpl; f_equal; lia].
Qed.

Lemma fat_readdir_spec x n : fat_dir_ok x -> (n <= 16 * length (fd_blocks x))%nat ->
  exists x', fat_readdir (32 * Z.of_nat n) x = Some (head (listing n (drop n (dslots (fd_image x) 0 (fd_blocks x)))), x') /\ fat_dir_ok x' /\ fat_list x' = fat_list x.
Proof.
  intros (Hrd & Hf & Hd & Hb) Hn. set (l := fd_blocks x) in *. set (sl := dslots (fd_image x) 0 l). unfold fat_readdir.
  assert (forall d', (forall dev b, block d' dev b = block (fd_image x) dev b) -> fat_dir_ok (set_image d' x) /\ fat_list (set_image d' x) = fat_list x) as Hkeep.
  { intros d' Hd'. split; [done|]. unfold fat_list. cbn [fd_image fd_blocks set_image]. fold l. f_equal. by apply dslots_ext. }
  destruct (decide (n = 16 * length l)%nat) as [->|].
  - destruct (readdir_end (fd_vn x) (fd_fat x) (fd_image x) l floppy_ends Hf Hd Hb) as (d' & -> & Hd'). cbn [mbind option_bind]. exists (set_image d' x). split; [|by apply Hkeep].
    by rewrite drop_ge by (unfold sl; rewrite length_dslots; lia).
  - destruct (readdir_spec (fd_vn x) (fd_fat x) (fd_image x) l n Hrd Hf Hd Hb) as (r & d' & -> & Hd' & Hr); [lia|]. cbn [mbind option_bind]. exists (set_image d' x). split; [|by apply Hkeep].
    fold sl in Hr. rewrite head_listing. destruct (first visible (drop n sl)) as [m|].
    + destruct Hr as (e & He & ->). rewrite lookup_drop, He. done.
    + by rewrite Hr.
Qed.

#[export] Program Instance fat_dir_ops : DirOps fatdir := {|
  vop_readdir := fat_readdir; dir_ok := fat_dir_ok; dir_list := fat_list |}.
Next Obligation.
  intros x (_ & Hf & Hd & Hb). destruct (dir_dchain _ _ _ Hf Hb) as [Hdc _]. pose proof (dchain_length _ _ _ Hdc) as Hlen.
  apply Forall_forall. intros e (l1 & l2 & He)%list_elem_of_split. apply listing_split in He as (n & Hn & -> & -> & _). rewrite length_dslots in Hn. lia.
Qed.
Next Obligation. intros x Hx. destruct (fat_readdir_spec x 0 Hx) as (x' & E & H); [lia|]. exists x'. split; [exact E|exact H]. Qed.
Next Obligation.
  intros x l1 e l2 Hx He. apply listing_split in He as (n & Hn & -> & -> & ->). rewrite length_dslots in Hn. destruct (fat_readdir_spec x (S n) Hx) as (x' & E & H); [lia|].
  exists x'. split; [|exact H]. replace (32 * Z.of_nat (0 + n) + 32) with (32 * Z.of_nat (S n)) by lia. exact E.
Qed.

(** Handle 4 is a stream of the root directory of FatDir's small disk, in slot 1 of the table. *)
Definition ex_dir : fatdir := mk_fatdir (fat ex_fs) ex_floppy ex_root root_blocks.
Definition ex_dirf : Fd.fte := Fd.mk_fte 0 (Z.lor Fd.FTE_USED FTFLAGS_DIR) 0x1ff 1 0 0 (Some 1%positive).
Definition ex_stream (t : list Fd.fte) : Fd.state (F := fatdir) (W := unit) :=
  Fd.mk_state t ([-1; -2; -3; -4; 1] ++ replicate 15 (-4)) {[ 1%positive := Fd.mk_vn 3 NULL ex_dir ]} [] tt.
(** The name AAAAAAAA.AAA, as it is shown. *)
Definition ex_shown : dirent := mk_de 2 0 32 (replicate 8 65 ++ 46 :: replicate 3 65).

Lemma ex_list : fat_list ex_dir = [ex_shown].
Proof. vm_compute. reflexivity. Qed.
Lemma ex_dir_ok : dir_ok (Fd.v_file (Fd.mk_vn 3 NULL ex_dir)).
Proof. destruct ex_root_ok as (? & ? & ? & ?). split; [apply root_readable|done]. Qed.
Lemma ex_dir_list : dir_list (Fd.v_file (Fd.mk_vn 3 NULL ex_dir)) = [ex_shown].
Proof. exact ex_list. Qed.
Lemma ex_stream_ok t : zget t 1 = Some ex_dirf -> stream (ex_stream t) 4 1 ex_dirf 1%positive (Fd.mk_vn 3 NULL ex_dir) [ex_shown].
Proof.
  intros Ht. split; [split; [done|done|done|exact Ht|done|done|simpl; lia]|done|exact ex_dir_ok|].
  left. split; [done|]. by rewrite ex_dir_list.
Qed.

Definition ex_closed : Fd.state (F := fatdir) (W := unit) :=
  Fd.mk_state (replicate 100 Fd.ex_unused) ([-1; -2; -3] ++ replicate 17 (-4)) {[ 1%positive := Fd.mk_vn 3 NULL ex_dir; 2%positive := Fd.mk_vn 2 NULL ex_dir ]} [] tt.
Lemma opendir_lists_witness : exists s1 s2, opendir_vnode Fd.no_sock 2%positive 1%positive 0x41ff 0 ex_closed = Some (Some 3, s1) /\
  readdirs 3 3 s1 = Some ([Some ex_shown; None; None], s2).
Proof.
  pose proof (opendir_lists (F := fatdir) Fd.no_sock 2%positive 1%positive 0x41ff 0 ex_closed 0 3 (Fd.mk_vn 3 NULL ex_dir) (Fd.mk_vn 2 NULL ex_dir) 3) as H. cbv zeta in H.
  rewrite ex_dir_list in H. apply H; [done|done|done|simpl; lia|done|simpl; lia|exact ex_dir_ok|done|done|reflexivity|reflexivity].
Defined.
Lemma seekdir_moves_other_witness : let s := ex_stream (replicate 5 ex_dirf ++ replicate 95 Fd.ex_unused) in
  exists s', syscall_seekdir (Some 4) 64 s = Some s' /\ stream s' 4 1 ex_dirf 1%positive (Fd.mk_vn 3 NULL ex_dir) [ex_shown] /\
    zget (Fd.openFileTable s') 4 = Some (Fd.set_position 64 ex_dirf) /\ syscall_telldir (Some 4) s' = Some 64.
Proof. apply seekdir_moves_other; [by apply ex_stream_ok|done|done|done|lia]. Defined.
End FatStream.
