(* ===== verification/Monitor.v ===== *)
(** What the drivers need of locks and events: an interface, and the proof that
    base/lock.c provides it.  A buffer shared by threads is used between [_lock]
    and [unlock]; a thread that finds nothing in it waits with [event_sleep] for
    an [event_wakeup]. *)
From S2P Require Import Prelude Timer Queue Sched Lock.

Module Monitor.
Import Sched Lock.

(** The kernel state [K] as its users see it: what the calls are, which states
    are consistent, and who may call what. *)
Class Monitor (K : Type) := {
  lock : loc -> K -> option (outcome * K);
  unlock : loc -> K -> option (Z * K);
  wake : loc -> K -> option (Z * K);
  sleep : loc -> loc -> K -> option (outcome * K);
  consistent : K -> Prop;
  may_block : K -> Prop;
  is_event : K -> loc -> Prop;
  lock_free : K -> loc -> Prop;
  lock_mine : K -> loc -> Prop;
  lock_ok k l : consistent k -> lock_free k l ->
    exists k', lock l k = Some (Returned ELOCK_SUCCESS, k') /\ consistent k' /\ lock_mine k' l /\
      (may_block k -> may_block k') /\ forall e, is_event k e -> is_event k' e;
  unlock_ok k l : consistent k -> lock_mine k l ->
    exists k', unlock l k = Some (ELOCK_SUCCESS, k') /\ consistent k' /\ lock_free k' l;
  wake_ok k e : consistent k -> is_event k e ->
    exists n k', wake e k = Some (n, k') /\ consistent k' /\ forall l, lock_mine k l -> lock_mine k' l;
  sleep_ok k e l : consistent k -> may_block k -> is_event k e -> lock_mine k l ->
    exists k', sleep e l k = Some (Blocked, k') /\ consistent k' /\ lock_free k' l /\ is_event k' e }.

(** * base/lock.c *)

Definition free_at (k : kstate) (l : loc) : Prop :=
  exists ob, objs k !! l = Some ob /\ sl_type ob = SYNCH_TYPE_LOCK /\ o_val ob = 0.
Definition mine_at (k : kstate) (l : loc) : Prop := lowned (objs k) (current_thread k) l.
Definition not_idle (k : kstate) : Prop := ~ is_idle k (current_thread k).

Lemma kernel_lock k l :
  lock_inv k -> free_at k l ->
  exists k', lock_1 l k = Some (Returned ELOCK_SUCCESS, k') /\ lock_inv k' /\ mine_at k' l /\
    (not_idle k -> not_idle k') /\ forall e, has_type k e SYNCH_TYPE_EVENT -> has_type k' e SYNCH_TYPE_EVENT.
Proof.
  intros Hk (ob & Ho & Ht & Hv). destruct (lock_1_free k l ob Hk Ho Ht Hv) as (k' & Hl & Hk' & Hown & Ec & _). exists k'.
  pose proof (lock_1_stable _ _ _ _ Hl) as Hst. split; [done|]. split; [done|]. split; [|split].
  - destruct Hown as (ob' & Ho' & _ & Hob'). exists ob'. rewrite Ec. split; [done|]. split; [|done].
    destruct Hst as [Hst _]. specialize (Hst l). rewrite Ho, Ho' in Hst. simpl in Hst. congruence.
  - unfold not_idle. rewrite Ec. intros Hn Hi. apply Hn. by apply (stable_idle _ _ _ Hst).
  - intros e. by apply stable_has_type.
Qed.

Lemma kernel_unlock k l :
  lock_inv k -> mine_at k l -> exists k', Lock.unlock l k = Some (ELOCK_SUCCESS, k') /\ lock_inv k' /\ free_at k' l.
Proof.
  intros Hk (ob & Ho & Ht & Hown). assert (is_lock ob) as Hlk by by left.
  destruct (sys_unlock_spec k l ob) as (k' & Hu & Hk' & _ & Hc & _); auto; [by rewrite Ht|].
  exists k'. split; [by apply (unlock_sys_unlock k l ob (zlen (sl_waiters ob)))|]. split; [done|].
  specialize (Hc l). rewrite lookup_insert_eq in Hc. destruct (objs k' !! l) as [ob'|] eqn:Ho'; [|done].
  apply (inj Some) in Hc. injection Hc as H1 _ _ H2 _. exists ob'. by rewrite H1, H2.
Qed.

Lemma kernel_wake k e :
  lock_inv k -> has_type k e SYNCH_TYPE_EVENT ->
  exists n k', event_wakeup e k = Some (n, k') /\ lock_inv k' /\ forall l, mine_at k l -> mine_at k' l.
Proof.
  intros Hk (ob & Ho & Ht). destruct (event_wakeup_ok k e ob Hk Ho Ht) as (k' & ob' & Hw & Hk' & (_ & Ec & _) & Eo & _).
  exists (zlen (sl_waiters ob)), k'. split; [done|]. split; [done|]. intros l (obl & Hol & Htl & Hown). exists obl. rewrite Ec, Eo.
  rewrite lookup_insert_ne; [done|]. intros ->. rewrite Ho in Hol. injection Hol as ->. by rewrite Ht in Htl.
Qed.

Lemma kernel_sleep k e l :
  lock_inv k -> not_idle k -> has_type k e SYNCH_TYPE_EVENT -> mine_at k l ->
  exists k', event_sleep_1 e (Some l) k = Some (Blocked, k') /\ lock_inv k' /\ free_at k' l /\ has_type k' e SYNCH_TYPE_EVENT.
Proof.
  intros Hk Hid (ob & Ho & Ht) (obl & Hol & Htl & Hown).
  destruct (event_sleep_ok k e ob l obl) as (k' & m1 & ob' & obl' & Hs & Hk' & Hc & Eo & Ht' & _ & Hl' & Hf & _); auto.
  exists k'. split; [done|]. split; [done|]. pose proof (event_sleep_stable _ _ _ _ _ Hs) as Hst. split.
  - exists obl'. split; [done|]. split; [|apply Hf]. destruct Hst as [Hst _]. specialize (Hst l). rewrite Hol, Hl' in Hst. simpl in Hst. congruence.
  - apply (stable_has_type k); [done|]. by exists ob.
Qed.

#[export] Instance kernel_monitor : Monitor kstate := {|
  lock := lock_1; unlock := Lock.unlock; wake := event_wakeup; sleep e l := event_sleep_1 e (Some l);
  consistent := lock_inv; may_block := not_idle; is_event k e := has_type k e SYNCH_TYPE_EVENT;
  lock_free := free_at; lock_mine := mine_at;
  lock_ok := kernel_lock; unlock_ok := kernel_unlock; wake_ok := kernel_wake; sleep_ok := kernel_sleep |}.

End Monitor.
