(* ===== verification/Vdisplay.v ===== *)
(** The console: base/vdisplay.c.  Screen memory (the adapter's and each
    process's backup), the cursor, [output_proc], scrolling and the change of
    the process on display; and the proof that the loops over bytes implement a
    terminal of 25 lines of 80 cells. *)
From S2P Require Import Prelude.

Module Vdisplay.

(** * Data *)

(** [video_mem_base] points to the adapter's memory at 0xb8000 or to the
    process's own [video_mem_backup]. *)
Inductive vbase := Adapter | Own.

(** [struct output_info]; the bytes of the screen are [char]s, a cell is a
    character and its attribute. *)
Record output_info := mk_oi {
  output_lock : loc; video_mem_backup : list Z; video_mem_base : vbase;
  cursor_x : Z; cursor_y : Z; attrib : Z }.

(** The display: the adapter's memory, the output record of every process, the
    globals of the file and the bytes sent to the ports, newest first. *)
Record display := mk_d {
  vga : list Z; outs : gmap loc output_info; current_process : ptr; kbd_focus : ptr;
  gX : Z; gY : Z; ports : list (Z * Z) }.

Definition with_backup (m : list Z) (o : output_info) : output_info :=
  mk_oi (output_lock o) m (video_mem_base o) (cursor_x o) (cursor_y o) (attrib o).
Definition with_base (b : vbase) (o : output_info) : output_info :=
  mk_oi (output_lock o) (video_mem_backup o) b (cursor_x o) (cursor_y o) (attrib o).
Definition with_cursor (x y : Z) (o : output_info) : output_info :=
  mk_oi (output_lock o) (video_mem_backup o) (video_mem_base o) (u32 x) (u32 y) (attrib o).

Definition set_vga (m : list Z) (d : display) : display :=
  mk_d m (outs d) (current_process d) (kbd_focus d) (gX d) (gY d) (ports d).
Definition set_outs (o : gmap loc output_info) (d : display) : display :=
  mk_d (vga d) o (current_process d) (kbd_focus d) (gX d) (gY d) (ports d).
Definition set_focus (p : ptr) (d : display) : display :=
  mk_d (vga d) (outs d) (current_process d) p (gX d) (gY d) (ports d).
Definition set_xy (x y : Z) (d : display) : display :=
  mk_d (vga d) (outs d) (current_process d) (kbd_focus d) x y (ports d).
Definition out_byte (port v : Z) (d : display) : display :=
  mk_d (vga d) (outs d) (current_process d) (kbd_focus d) (gX d) (gY d) ((port, u8 v) :: ports d).

Definition upd_out (p : loc) (f : output_info -> output_info) (d : display) : option display :=
  o ← outs d !! p; Some (set_outs (<[p := f o]> (outs d)) d).

(** The bytes [video_mem_base] of a process points to, and stores there. *)
Definition mem_of (p : loc) (d : display) : option (list Z) :=
  o ← outs d !! p;
  Some (match video_mem_base o with Adapter => vga d | Own => video_mem_backup o end).
Definition set_mem_of (p : loc) (m : list Z) (d : display) : option display :=
  o ← outs d !! p;
  match video_mem_base o with Adapter => Some (set_vga m d) | Own => upd_out p (with_backup m) d end.

(** The buffer the running code writes to: that of [current_process], or the
    adapter's memory while there is no process yet. *)
Definition screen (d : display) : option (list Z) :=
  match current_process d with Some p => mem_of p d | None => Some (vga d) end.
Definition set_screen (m : list Z) (d : display) : option display :=
  match current_process d with Some p => set_mem_of p m d | None => Some (set_vga m d) end.
Definition cur_attrib (d : display) : option Z :=
  match current_process d with Some p => o ← outs d !! p; Some (attrib o) | None => Some 0x07 end.

(** * The cursor *)

Definition set_cursor (x y : Z) (d : display) : display :=
  let t := y * 80 + x in
  out_byte 0x3d5 t (out_byte 0x3d4 15 (out_byte 0x3d5 (Z.shiftr t 8) (out_byte 0x3d4 14 d))).

Definition syscall_setcursor (x y : Z) (d : display) : option display :=
  if (((0 <=? x) && (x <? 80)) || (x =? -1)) && (((0 <=? y) && (y <? 25)) || (y =? -1)) then
    d ← (match current_process d with
         | Some p =>
             d ← (if negb (x =? -1) then upd_out p (fun o => with_cursor x (cursor_y o) o) d else Some d);
             (if negb (y =? -1) then upd_out p (fun o => with_cursor (cursor_x o) y o) d else Some d)
         | None => Some d
         end);
    if bool_decide (current_process d = kbd_focus d) then
      f ← kbd_focus d; o ← outs d !! f; Some (set_cursor (cursor_x o) (cursor_y o) d)
    else Some d
  else Some d.

(** * Scrolling *)

(** The loop that moves cells up: [m[i++] = m[j++]] twice per cell. *)
Fixpoint copy_up (n : nat) (m : list Z) (i j : Z) : option (list Z) :=
  match n with
  | O => Some m
  | S n =>
      c ← zget m j; m ← zset m i c;
      a ← zget m (j + 1); m ← zset m (i + 1) a;
      copy_up n m (i + 2) (j + 2)
  end.

Fixpoint clear_up (n : nat) (m : list Z) (i attr : Z) : option (list Z) :=
  match n with
  | O => Some m
  | S n => m ← zset m i 32; m ← zset m (i + 1) attr; clear_up n m (i + 2) attr
  end.

Definition scroll_lines (lines attr : Z) (m : list Z) : option (list Z) :=
  if lines <=? 0 then Some m else
  let lines := if 25 <? lines then 25 else lines in
  m ← copy_up (Z.to_nat ((25 - lines) * 80)) m 0 (80 * lines * 2);
  clear_up (Z.to_nat (lines * 80)) m ((25 - lines) * 160) attr.

Definition scroll_up (lines : Z) (d : display) : option display :=
  m ← screen d; a ← cur_attrib d; m ← scroll_lines lines a m; set_screen m d.

(** Downwards: [m[--i] = m[--j]] twice per cell. *)
Fixpoint copy_down (n : nat) (m : list Z) (i j : Z) : option (list Z) :=
  match n with
  | O => Some m
  | S n =>
      a ← zget m (j - 1); m ← zset m (i - 1) a;
      c ← zget m (j - 2); m ← zset m (i - 2) c;
      copy_down n m (i - 2) (j - 2)
  end.

(** The store order makes the blank the second byte of a cell here. *)
Fixpoint clear_down (n : nat) (m : list Z) (i attr : Z) : option (list Z) :=
  match n with
  | O => Some m
  | S n => m ← zset m (i - 1) 32; m ← zset m (i - 2) attr; clear_down n m (i - 2) attr
  end.

Definition scroll_lines_down (lines attr : Z) (m : list Z) : option (list Z) :=
  if lines <=? 0 then Some m else
  let lines := if 25 <? lines then 25 else lines in
  m ← copy_down (Z.to_nat ((25 - lines) * 80)) m 4000 (80 * (25 - lines) * 2);
  clear_down (Z.to_nat (lines * 80)) m (lines * 160) attr.

Definition scroll_down (lines : Z) (d : display) : option display :=
  m ← screen d; a ← cur_attrib d; m ← scroll_lines_down lines a m; set_screen m d.

(** * Output *)

(** [video_mem_base[(y * 80 + x) * 2] = c] and the attribute after it. *)
Definition put_cell (m : list Z) (y x c a : Z) : option (list Z) :=
  m ← zset m ((y * 80 + x) * 2) c; zset m ((y * 80 + x) * 2 + 1) a.

(** [for ( ; cursor_x < 80; cursor_x++)], [n] the number of turns left. *)
Fixpoint fill_line (n : nat) (m : list Z) (y x a : Z) : option (list Z * Z) :=
  match n with
  | O => Some (m, x)
  | S n => if x <? 80 then m ← put_cell m y x 32 a; fill_line n m y (x + 1) a else Some (m, x)
  end.

Fixpoint fill_tab (n : nat) (m : list Z) (y x a : Z) : option (list Z * Z) :=
  match n with
  | O => Some (m, x)
  | S n =>
      if (x <? 80) && negb (cmod x 8 =? 0) then m ← put_cell m y x 32 a; fill_tab n m y (x + 1) a
      else Some (m, x)
  end.

(** The body of the loop of [output_proc]. *)
Definition put_char (a : Z) (c : Z) (st : list Z * Z * Z) : option (list Z * Z * Z) :=
  let '(m, x, y) := st in
  '(m, x) ← (if (c =? 10) || (c =? 13) then fill_line (Z.to_nat (80 - x)) m y x a
             else if c =? 9 then fill_tab (Z.to_nat (80 - (x + 1))) m y (x + 1) a
             else if c =? 8 then m ← put_cell m y (x - 1) 32 a; Some (m, x - 1)
             else m ← put_cell m y x c a; Some (m, x + 1));
  let '(x, y) := if 80 <=? x then (0, y + 1) else (x, y) in
  if 25 <=? y then m ← scroll_lines 1 a m; Some (m, x, 24) else Some (m, x, y).

Fixpoint put_chars (a : Z) (text : list Z) (st : list Z * Z * Z) : option (list Z * Z * Z) :=
  match text with
  | [] => Some st
  | c :: text => st ← put_char a c st; put_chars a text st
  end.

Definition output_proc (text : list Z) (len : Z) (d : display) : option display :=
  if zlen text <? len then None else
  '(x, y) ← (match current_process d with
             | Some p => o ← outs d !! p; Some (s32 (cursor_x o), s32 (cursor_y o))
             | None => Some (gX d, gY d)
             end);
  m ← screen d;
  a ← cur_attrib d;
  '(m, x, y) ← put_chars a (take (Z.to_nat len) text) (m, x, y);
  d ← set_screen m d;
  d ← (match current_process d with
       | Some p => upd_out p (with_cursor x y) d
       | None => Some (set_xy x y d)
       end);
  Some (if bool_decide (current_process d = kbd_focus d) then set_cursor x y d else d).

Definition syscall_putchar (c : Z) (d : display) : option (Z * display) :=
  d ← output_proc [c] 1 d; Some (0, d).

(** * Changing the process on display *)

(** [clear_paging] and [restore_paging] around the copies only make the
    addresses physical. *)
Definition change_screen (newprocess : loc) (d : display) : option display :=
  f ← kbd_focus d;
  d ← upd_out f (with_backup (vga d)) d;
  d ← upd_out f (with_base Own) d;
  d ← upd_out newprocess (with_base Adapter) d;
  o ← outs d !! newprocess;
  let d := set_vga (video_mem_backup o) d in
  Some (set_cursor (cursor_x o) (cursor_y o) d).

(** * The terminal: 2000 cells *)

(** The bytes of a list of cells. *)
Fixpoint flat (cs : list (Z * Z)) : list Z :=
  match cs with [] => [] | (c, a) :: cs => c :: a :: flat cs end.

(** What a terminal does, with no loops and no byte addresses: [list_inserts i k]
    overwrites the cells from position [i] on with [k]. *)
Record term := mk_t { cells : list (Z * Z); tx : Z; ty : Z }.
Definition blanks (n a : Z) : list (Z * Z) := replicate (Z.to_nat n) (32, a).
Definition pos (x y : Z) : nat := Z.to_nat (y * 80 + x).
Definition scrolled (lines a : Z) (cs : list (Z * Z)) : list (Z * Z) :=
  drop (Z.to_nat (80 * lines)) cs ++ blanks (80 * lines) a.
(** Wrap at the end of a line, scroll at the end of the screen. *)
Definition advance (a : Z) (t : term) : term :=
  let '(x, y) := if tx t =? 80 then (0, ty t + 1) else (tx t, ty t) in
  if y =? 25 then mk_t (scrolled 1 a (cells t)) x 24 else mk_t (cells t) x y.
(** One character.  There is no test for the first column: a backspace there blanks the
    last cell of the line above and the column becomes negative.  A backspace on the
    first cell of the screen ([None]) stores in front of the buffer. *)
Definition tput (a c : Z) (t : term) : option term :=
  let over x k := list_inserts (pos x (ty t)) k (cells t) in
  if (c =? 10) || (c =? 13) then Some (advance a (mk_t (over (tx t) (blanks (80 - tx t) a)) 80 (ty t)))
  else if c =? 9 then
    let x' := 8 * (tx t / 8 + 1) in
    Some (advance a (mk_t (over (tx t + 1) (blanks (x' - (tx t + 1)) a)) x' (ty t)))
  else if c =? 8 then
    if ty t * 80 + tx t =? 0 then None else Some (advance a (mk_t (over (tx t - 1) [(32, a)]) (tx t - 1) (ty t)))
  else Some (advance a (mk_t (over (tx t) [(c, a)]) (tx t + 1) (ty t))).
Fixpoint tputs (a : Z) (text : list Z) (t : term) : option term :=
  match text with [] => Some t | c :: text => t ← tput a c t; tputs a text t end.

(** The cursor is on a cell of the screen, in a column before the 80th. *)
Definition term_ok (t : term) : Prop := length (cells t) = 2000%nat /\ 0 <= ty t * 80 + tx t /\ tx t < 80 /\ 0 <= ty t < 25.

(** * The loops on bytes as operations on cells *)

Lemma length_flat cs : length (flat cs) = (2 * length cs)%nat.
Proof. induction cs as [|[c a] cs IH]; simpl; lia. Qed.

Lemma flat_lookup cs i c a :
  cs !! i = Some (c, a) -> flat cs !! (2 * i)%nat = Some c /\ flat cs !! (2 * i + 1)%nat = Some a.
Proof.
  revert i. induction cs as [|[c' a'] cs IH]; intros [|i] H; simplify_eq/=; [done|].
  replace (i + S (i + 0))%nat with (S (2 * i)) by lia. replace (S (2 * i) + 1)%nat with (S (S (2 * i))) by lia.
  simpl. destruct (IH i H) as [H1 H2]. split; [done|]. by replace (S (i + (i + 0))) with (2 * i + 1)%nat by lia.
Qed.

Lemma flat_insert cs i c a :
  (i < length cs)%nat -> <[(2 * i + 1)%nat := a]> (<[(2 * i)%nat := c]> (flat cs)) = flat (<[i := (c, a)]> cs).
Proof.
  revert i. induction cs as [|[c' a'] cs IH]; intros [|i] H; simpl in *; try lia; [done|].
  replace (i + S (i + 0))%nat with (S (2 * i)) by lia. replace (S (2 * i) + 1)%nat with (S (S (2 * i))) by lia.
  simpl. do 2 f_equal. rewrite <- IH by lia. by replace (S (i + (i + 0))) with (2 * i + 1)%nat by lia.
Qed.

Lemma zget_flat cs i c a :
  0 <= i -> cs !! Z.to_nat i = Some (c, a) -> zget (flat cs) (2 * i) = Some c /\ zget (flat cs) (2 * i + 1) = Some a.
Proof.
  intros Hi [H1 H2]%flat_lookup. unfold zget. destruct (Z.ltb_spec (2 * i) 0); [lia|]. destruct (Z.ltb_spec (2 * i + 1) 0); [lia|].
  replace (Z.to_nat (2 * i)) with (2 * Z.to_nat i)%nat by lia. by replace (Z.to_nat (2 * i + 1)) with (2 * Z.to_nat i + 1)%nat by lia.
Qed.

(** Two stores into the bytes of one cell. *)
Lemma zset_flat cs i c a :
  0 <= i < zlen cs ->
  exists m, zset (flat cs) (2 * i) c = Some m /\ zset m (2 * i + 1) a = Some (flat (<[Z.to_nat i := (c, a)]> cs)).
Proof.
  unfold zlen. intros Hi. eexists. split; [apply zset_Some; unfold zlen; rewrite length_flat; lia|].
  rewrite zset_Some by (unfold zlen; rewrite length_insert, length_flat; lia).
  rewrite <- flat_insert by lia. replace (Z.to_nat (2 * i + 1)) with (2 * Z.to_nat i + 1)%nat by lia.
  by replace (Z.to_nat (2 * i)) with (2 * Z.to_nat i)%nat by lia.
Qed.

Lemma put_cell_flat cs y x c a :
  0 <= y * 80 + x < zlen cs -> put_cell (flat cs) y x c a = Some (flat (<[pos x y := (c, a)]> cs)).
Proof.
  intros Hi. unfold put_cell. rewrite (Z.mul_comm (y * 80 + x) 2).
  destruct (zset_flat cs (y * 80 + x) c a Hi) as (m & -> & H). simpl. by rewrite H.
Qed.

Lemma zlen_insert {A} (l : list A) i x : zlen (<[i := x]> l) = zlen l.
Proof. unfold zlen. by rewrite length_insert. Qed.
Lemma zlen_inserts {A} (l : list A) i k : zlen (list_inserts i k l) = zlen l.
Proof. unfold zlen. by rewrite length_inserts. Qed.

Lemma list_inserts_snd {A} (l k : list A) i x : list_inserts (S i) k (<[i := x]> l) = list_inserts i (x :: k) l.
Proof. simpl. by rewrite list_insert_inserts_lt by lia. Qed.

Lemma list_inserts_spec {A} (l k : list A) i :
  (i + length k <= length l)%nat -> list_inserts i k l = take i l ++ k ++ drop (i + length k) l.
Proof.
  revert i. induction k as [|x k IH]; intros i Hl; simpl in *.
  - by rewrite Nat.add_0_r, take_drop.
  - rewrite IH by lia. assert (i < length (take (S i) l))%nat by (rewrite length_take; lia).
    rewrite insert_app_l by done. rewrite (insert_take_drop (take (S i) l)) by done. rewrite take_take, Nat.min_l by lia.
    rewrite (drop_ge (take (S i) l)) by (rewrite length_take; lia). simpl. rewrite <- app_assoc. simpl.
    by replace (i + S (length k))%nat with (S (i + length k)) by lia.
Qed.

Lemma blanks_S n a : 0 < n -> blanks n a = (32, a) :: blanks (n - 1) a.
Proof. intros. unfold blanks. replace (Z.to_nat n) with (S (Z.to_nat (n - 1))) by lia. done. Qed.

Lemma copy_up_flat n cs i j :
  0 <= i < j -> j + Z.of_nat n <= zlen cs ->
  copy_up n (flat cs) (2 * i) (2 * j) = Some (flat (list_inserts (Z.to_nat i) (take n (drop (Z.to_nat j) cs)) cs)).
Proof.
  revert cs i j. induction n as [|n IH]; intros cs i j Hij Hl; [done|]. cbn [copy_up].
  destruct (lookup_lt_is_Some_2 cs (Z.to_nat j)) as [[c a] Hc]; [unfold zlen in Hl; lia|].
  destruct (zget_flat cs j c a) as [-> H2]; [lia|done|]. cbn [mbind option_bind].
  destruct (zset_flat cs i c a) as (m & Hm & Hs); [lia|]. rewrite Hm. cbn [mbind option_bind].
  rewrite (zget_zset_ne _ _ _ (2 * j + 1) _ Hm) by lia. rewrite H2. cbn [mbind option_bind]. rewrite Hs. cbn [mbind option_bind].
  replace (2 * i + 2) with (2 * (i + 1)) by lia. replace (2 * j + 2) with (2 * (j + 1)) by lia.
  rewrite IH by (rewrite ?zlen_insert; lia). do 2 f_equal. replace (Z.to_nat (i + 1)) with (S (Z.to_nat i)) by lia.
  rewrite list_inserts_snd. rewrite drop_insert_lt by lia. replace (Z.to_nat (j + 1)) with (S (Z.to_nat j)) by lia.
  by rewrite (drop_S _ _ _ Hc).
Qed.

Lemma clear_up_flat n cs i a :
  0 <= i -> i + Z.of_nat n <= zlen cs ->
  clear_up n (flat cs) (2 * i) a = Some (flat (list_inserts (Z.to_nat i) (replicate n (32, a)) cs)).
Proof.
  revert cs i. induction n as [|n IH]; intros cs i Hi Hl; [done|]. cbn [clear_up].
  destruct (zset_flat cs i 32 a) as (m & -> & Hs); [lia|]. cbn [mbind option_bind]. rewrite Hs. cbn [mbind option_bind].
  replace (2 * i + 2) with (2 * (i + 1)) by lia. rewrite IH by (rewrite ?zlen_insert; lia).
  replace (Z.to_nat (i + 1)) with (S (Z.to_nat i)) by lia. by rewrite list_inserts_snd.
Qed.

Lemma scroll_lines_flat lines a cs :
  length cs = 2000%nat -> 0 < lines -> scroll_lines lines a (flat cs) = Some (flat (scrolled (Z.min lines 25) a cs)).
Proof.
  intros Hc Hl. unfold scroll_lines. destruct (Z.leb_spec lines 0); [lia|].
  assert (forall n, 0 < n <= 25 -> (m ← copy_up (Z.to_nat ((25 - n) * 80)) (flat cs) 0 (80 * n * 2);
    clear_up (Z.to_nat (n * 80)) m ((25 - n) * 160) a) = Some (flat (scrolled n a cs))) as Hgo.
  { intros n Hn. replace (80 * n * 2) with (2 * (80 * n)) by lia. change 0 with (2 * 0) at 1.
    rewrite copy_up_flat by (unfold zlen; lia). cbn [mbind option_bind]. replace ((25 - n) * 160) with (2 * ((25 - n) * 80)) by lia.
    rewrite clear_up_flat by (rewrite ?zlen_inserts; unfold zlen; lia). do 2 f_equal.
    rewrite list_inserts_spec by (rewrite length_inserts, length_replicate; lia).
    rewrite (list_inserts_spec cs) by (rewrite length_take, length_drop; lia). unfold scrolled, blanks.
    rewrite (take_ge (drop _ cs)) by (rewrite length_drop; lia). change (Z.to_nat 0) with 0%nat. rewrite take_0. cbn [app].
    rewrite (drop_ge (_ ++ _)) by (rewrite length_app, !length_drop, length_replicate; lia).
    rewrite app_nil_r, take_app_le by (rewrite length_drop; lia).
    rewrite take_ge by (rewrite length_drop; lia). do 2 f_equal. lia. }
  destruct (Z.ltb_spec 25 lines); [rewrite Z.min_r by lia|rewrite Z.min_l by lia]; apply Hgo; lia.
Qed.

Lemma fill_line_flat n cs y x a :
  0 <= y * 80 + x -> 0 <= y -> n = Z.to_nat (80 - x) -> x <= 80 -> y * 80 + 80 <= zlen cs ->
  fill_line n (flat cs) y x a = Some (flat (list_inserts (pos x y) (blanks (80 - x) a) cs), 80).
Proof.
  revert cs x. induction n as [|n IH]; intros cs x Hx Hy Hn Hx' Hl; cbn [fill_line].
  - replace x with 80 by lia. done.
  - destruct (Z.ltb_spec x 80); [|lia]. rewrite put_cell_flat by lia. cbn [mbind option_bind].
    rewrite IH by (rewrite ?zlen_insert; lia). rewrite (blanks_S (80 - x)) by lia.
    replace (80 - x - 1) with (80 - (x + 1)) by lia. rewrite <- list_inserts_snd.
    unfold pos. by replace (Z.to_nat (y * 80 + (x + 1))) with (S (Z.to_nat (y * 80 + x))) by lia.
Qed.

Lemma cmod_zero x n : 0 < n -> (cmod x n =? 0) = (x mod n =? 0).
Proof. intros Hn. unfold cmod. apply Bool.eq_iff_eq_true. rewrite !Z.eqb_eq. apply Z.rem_mod_eq_0. lia. Qed.

Lemma fill_tab_flat n cs y x e a :
  0 <= y -> 0 <= y * 80 + x -> e mod 8 = 0 -> e - 8 < x <= e -> e <= 80 -> (n = Z.to_nat (80 - x))%nat -> y * 80 + 80 <= zlen cs ->
  fill_tab n (flat cs) y x a = Some (flat (list_inserts (pos x y) (blanks (e - x) a) cs), e).
Proof.
  intros Hy. revert cs x. induction n as [|n IH]; intros cs x Hx He Hxe H80 Hn Hl; cbn [fill_tab].
  - replace e with x by lia. replace (x - x) with 0 by lia. done.
  - destruct (Z.ltb_spec x 80); [|lia]. simpl (true && _). rewrite cmod_zero by lia. destruct (Z.eqb_spec (x mod 8) 0) as [E|E]; simpl negb; cbv iota.
    + assert (x = e) as -> by (pose proof (Z.div_mod x 8); pose proof (Z.div_mod e 8); lia).
      replace (e - e) with 0 by lia. done.
    + assert (x <> e) by (intros ->; lia). rewrite put_cell_flat by lia. cbn [mbind option_bind].
      rewrite IH by (rewrite ?zlen_insert; lia). rewrite (blanks_S (e - x)) by lia.
      replace (e - x - 1) with (e - (x + 1)) by lia. rewrite <- list_inserts_snd.
      unfold pos. by replace (Z.to_nat (y * 80 + (x + 1))) with (S (Z.to_nat (y * 80 + x))) by lia.
Qed.

(** The end of the loop body: wrap and scroll. *)
Lemma advance_flat a cs x y :
  length cs = 2000%nat -> 0 <= y * 80 + x -> x <= 80 -> 0 <= y < 25 ->
  (let '(x, y) := if 80 <=? x then (0, y + 1) else (x, y) in
   if 25 <=? y then m ← scroll_lines 1 a (flat cs); Some (m, x, 24) else Some (flat cs, x, y))
  = Some (flat (cells (advance a (mk_t cs x y))), tx (advance a (mk_t cs x y)), ty (advance a (mk_t cs x y)))
  /\ term_ok (advance a (mk_t cs x y)).
Proof.
  intros Hc Hx0 Hx Hy. unfold advance. cbn [tx ty cells].
  assert (length (scrolled 1 a cs) = 2000%nat) as Hs
    by (unfold scrolled, blanks; rewrite length_app, length_drop, length_replicate; lia).
  destruct (Z.leb_spec 80 x), (Z.eqb_spec x 80); try lia.
  - destruct (Z.leb_spec 25 (y + 1)), (Z.eqb_spec (y + 1) 25); try lia.
    + rewrite scroll_lines_flat by (done || lia). by repeat split.
    + repeat split; simpl; lia || done.
  - destruct (Z.leb_spec 25 y), (Z.eqb_spec y 25); try lia. repeat split; simpl; lia || done.
Qed.

(** The body of the loop does to the bytes what the terminal does to the cells. *)
Lemma put_char_flat a c t :
  term_ok t -> put_char a c (flat (cells t), tx t, ty t) = (t' ← tput a c t; Some (flat (cells t'), tx t', ty t')) /\ forall t', tput a c t = Some t' -> term_ok t'.
Proof.
  destruct t as [cs x y]. intros (Hc & Hp & Hx & Hy). cbn [cells tx ty] in *. unfold tput, put_char. cbn [cells tx ty].
  assert (zlen cs = 2000) as Hz by (unfold zlen; lia). pose proof (Z.div_mod x 8). pose proof (Z.mod_pos_bound x 8).
  assert (forall cs' x', length cs' = 2000%nat -> 0 <= y * 80 + x' -> x' <= 80 -> let t1 := advance a (mk_t cs' x' y) in
    (let '(x, y) := if 80 <=? x' then (0, y + 1) else (x', y) in
     if 25 <=? y then m ← scroll_lines 1 a (flat cs'); Some (m, x, 24) else Some (flat cs', x, y)) = Some (flat (cells t1), tx t1, ty t1) /\ forall t', Some t1 = Some t' -> term_ok t') as Hadv.
  { intros cs' x' H1 H2 H3 t1. destruct (advance_flat a cs' x' y H1 H2 H3 Hy) as [E Ht]. split; [exact E|]. by intros t' [= <-]. }
  destruct ((c =? 10) || (c =? 13)); [|destruct (c =? 9); [|destruct (c =? 8)]].
  - rewrite fill_line_flat by lia. rewrite !bind_Some. apply Hadv; [by rewrite length_inserts|lia|lia].
  - rewrite (fill_tab_flat _ _ _ _ (8 * (x / 8 + 1))); [|lia|lia|rewrite Z.mul_comm; apply Z.mod_mul; lia|lia..].
    rewrite !bind_Some. apply Hadv; [by rewrite length_inserts|lia|lia].
  - destruct (Z.eqb_spec (y * 80 + x) 0) as [E|E].
    + unfold put_cell, zset. destruct (Z.ltb_spec ((y * 80 + (x - 1)) * 2) 0); [done|lia].
    + rewrite put_cell_flat by lia. rewrite !bind_Some. apply Hadv; [by rewrite length_inserts|lia|lia].
  - rewrite put_cell_flat by lia. rewrite !bind_Some. apply Hadv; [by rewrite length_inserts|lia|lia].
Qed.

Lemma put_chars_flat a text : forall t,
  term_ok t -> put_chars a text (flat (cells t), tx t, ty t) = (t' ← tputs a text t; Some (flat (cells t'), tx t', ty t')) /\ forall t', tputs a text t = Some t' -> term_ok t'.
Proof.
  induction text as [|c text IH]; intros t Ht; cbn [tputs put_chars]; [split; [done|by intros t' [= <-]]|].
  destruct (put_char_flat a c t Ht) as [-> H1]. destruct (tput a c t) as [t1|]; [|done]. rewrite !bind_Some. by apply IH, H1.
Qed.

(** * Screens and processes *)

(** The process whose screen is on the adapter is the one with the keyboard;
    the buffers have the size of the screen. *)
Definition disp_ok (d : display) : Prop :=
  zlen (vga d) = 4000 /\
  forall p o, outs d !! p = Some o ->
    zlen (video_mem_backup o) = 4000 /\ (video_mem_base o = Adapter <-> kbd_focus d = Some p).

Definition cursor_of (p : loc) (d : display) : option (Z * Z) := o ← outs d !! p; Some (cursor_x o, cursor_y o).

(** The screen of the process [p] is the terminal [t]. *)
Definition shows (d : display) (p : loc) (t : term) : Prop :=
  mem_of p d = Some (flat (cells t)) /\ cursor_of p d = Some (u32 (tx t), u32 (ty t)) /\ term_ok t.

(** [q]'s screen, cursor and attribute are the same in both states. *)
Definition same_view (d d' : display) (q : loc) : Prop :=
  mem_of q d' = mem_of q d /\ cursor_of q d' = cursor_of q d /\ attrib <$> outs d' !! q = attrib <$> outs d !! q.

Lemma set_mem_of_spec p m d :
  disp_ok d -> is_Some (outs d !! p) -> zlen m = 4000 ->
  exists d', set_mem_of p m d = Some d' /\ disp_ok d' /\ mem_of p d' = Some m /\ cursor_of p d' = cursor_of p d /\
    attrib <$> outs d' !! p = attrib <$> outs d !! p /\ current_process d' = current_process d /\ kbd_focus d' = kbd_focus d /\
    ports d' = ports d /\ is_Some (outs d' !! p) /\ forall q, q <> p -> same_view d d' q.
Proof.
  intros [Hv Hp] [o Ho] Hm. unfold set_mem_of. rewrite Ho. cbn [mbind option_bind]. destruct (video_mem_base o) eqn:Eb.
  - eexists. split; [done|]. split; [by split|]. unfold mem_of, cursor_of. cbn [outs set_vga vga]. rewrite Ho. simpl. rewrite Eb.
    do 6 (split; [done|]). split; [by eexists|]. intros q Hq. unfold same_view, mem_of, cursor_of. cbn [outs set_vga vga].
    split; [|done]. destruct (outs d !! q) as [oq|] eqn:Eq; simpl; [|done]. destruct (video_mem_base oq) eqn:Ebq; [|done].
    destruct (Hp p o Ho) as [_ [Hf _]]. destruct (Hp q oq Eq) as [_ [Hf' _]].
    specialize (Hf Eb). specialize (Hf' Ebq). congruence.
  - unfold upd_out. rewrite Ho. cbn [mbind option_bind]. eexists. split; [done|]. split.
    { split; [done|]. cbn [outs set_outs kbd_focus]. intros q oq. destruct (decide (q = p)) as [->|Hne].
      - rewrite lookup_insert_eq. intros [= <-]. destruct (Hp p o Ho). done.
      - rewrite lookup_insert_ne by done. apply Hp. }
    unfold mem_of, cursor_of. cbn [outs set_outs vga]. rewrite lookup_insert_eq, Ho. simpl. rewrite Eb.
    do 6 (split; [done|]). split; [by eexists|]. intros q Hq. unfold same_view, mem_of, cursor_of. cbn [outs set_outs vga].
    by rewrite lookup_insert_ne by done.
Qed.

Lemma upd_cursor_spec p x y d :
  disp_ok d -> is_Some (outs d !! p) ->
  exists d', upd_out p (with_cursor x y) d = Some d' /\ disp_ok d' /\ mem_of p d' = mem_of p d /\
    cursor_of p d' = Some (u32 x, u32 y) /\ attrib <$> outs d' !! p = attrib <$> outs d !! p /\
    current_process d' = current_process d /\ kbd_focus d' = kbd_focus d /\ ports d' = ports d /\
    forall q, q <> p -> same_view d d' q.
Proof.
  intros [Hv Hp] [o Ho]. unfold upd_out. rewrite Ho. cbn [mbind option_bind]. eexists. split; [done|]. split.
  { split; [done|]. cbn [outs set_outs kbd_focus]. intros q oq. destruct (decide (q = p)) as [->|Hne].
    - rewrite lookup_insert_eq. intros [= <-]. destruct (Hp p o Ho). done.
    - rewrite lookup_insert_ne by done. apply Hp. }
  unfold mem_of, cursor_of. cbn [outs set_outs vga]. rewrite lookup_insert_eq, Ho. simpl.
  do 6 (split; [done|]). intros q Hq. unfold same_view, mem_of, cursor_of. cbn [outs set_outs vga].
  by rewrite lookup_insert_ne by done.
Qed.

Lemma same_view_trans d1 d2 d3 q : same_view d1 d2 q -> same_view d2 d3 q -> same_view d1 d3 q.
Proof. intros (? & ? & ?) (? & ? & ?). repeat split; congruence. Qed.

(** The four bytes that move the hardware cursor, newest first. *)
Definition cursor_bytes (x y : Z) : list (Z * Z) :=
  [(0x3d5, u8 (y * 80 + x)); (0x3d4, 15); (0x3d5, u8 (Z.shiftr (y * 80 + x) 8)); (0x3d4, 14)].

(** C36: Output is a terminal.  Writing text on the screen of the running process
    puts on it what an 80 by 25 terminal would show (line ends, tabs, backspaces,
    wrapping and scrolling), leaves the cursor on a cell of the screen and every other
    process's screen as it was, and moves the hardware cursor exactly when the
    process has the keyboard.  A backspace at the first column blanks the last cell of
    the line above, with a negative column from there on; only a backspace on the first
    cell of the screen goes wrong: the store is in front of the screen buffer. *)
Theorem output_proc_terminal d p a t text :
  disp_ok d -> current_process d = Some p -> shows d p t -> attrib <$> outs d !! p = Some a ->
  match tputs a text t with
  | Some t' =>
      exists d', output_proc text (zlen text) d = Some d' /\ disp_ok d' /\ shows d' p t' /\
        (forall q, q <> p -> same_view d d' q) /\
        ports d' = (if bool_decide (kbd_focus d = Some p) then cursor_bytes (tx t') (ty t') else []) ++ ports d
  | None => output_proc text (zlen text) d = None
  end.
Proof.
  intros Hok Hcp (Hm & Hc & Ht) Ha. destruct (put_chars_flat a text t Ht) as [Hput Ht'].
  unfold output_proc. rewrite Z.ltb_irrefl. unfold screen, cur_attrib, set_screen. rewrite Hcp, Hm.
  unfold cursor_of in Hc. destruct (outs d !! p) as [o|] eqn:Ho; [|done]. simpl in Ha. injection Ha as Ha. injection Hc as Hx Hy.
  cbn [mbind option_bind]. rewrite Hx, Hy, Ha. assert (term_ok t) as (_ & ? & ? & ?) by done. rewrite !s32_u32, !s32_id by lia.
  unfold zlen. rewrite Nat2Z.id, take_ge by lia. rewrite Hput. destruct (tputs a text t) as [t'|]; [|done]. rewrite !bind_Some. destruct (Ht' t' eq_refl) as (Hl' & Hx').
  destruct (set_mem_of_spec p (flat (cells t')) d Hok) as (d1 & -> & Hok1 & Hm1 & Hc1 & Ha1 & Hcp1 & Hf1 & Hp1 & Hs1 & Hv1).
  { by eexists. } { unfold zlen. rewrite length_flat. lia. }
  cbn [mbind option_bind]. rewrite Hcp1, Hcp.
  destruct (upd_cursor_spec p (tx t') (ty t') d1 Hok1 Hs1) as (d2 & -> & Hok2 & Hm2 & Hc2 & Ha2 & Hcp2 & Hf2 & Hp2 & Hv2).
  cbn [mbind option_bind]. rewrite Hcp2, Hcp1, Hcp, Hf2, Hf1. eexists. split; [done|].
  rewrite (bool_decide_ext (Some p = _) _ (conj (@eq_sym _ _ _) (@eq_sym _ _ _))).
  case_bool_decide; (split; [exact Hok2|]; split; [split; [by rewrite <- Hm1, <- Hm2|by split]|]; split;
    [intros q Hq; apply (same_view_trans d d1); [by apply Hv1|exact (Hv2 q Hq)]|cbn; by rewrite Hp2, Hp1]).
Qed.

(** Changing the screen.  When the keyboard moves to another process, its
    screen comes onto the adapter and the old one is saved: no process, on
    display or not, loses a character, and the hardware cursor is where the new
    process left it. *)
Theorem change_screen_keeps_views d f p o :
  disp_ok d -> kbd_focus d = Some f -> is_Some (outs d !! f) -> outs d !! p = Some o ->
  exists d', change_screen p d = Some d' /\ disp_ok (set_focus (Some p) d') /\ (forall q, same_view d d' q) /\
    vga d' = (if bool_decide (p = f) then vga d else video_mem_backup o) /\
    ports d' = cursor_bytes (cursor_x o) (cursor_y o) ++ ports d.
Proof.
  intros [Hv Hp] Hf [ofo Hof] Ho. destruct (Hp f ofo Hof) as [Hbl Hbf]. unfold change_screen, upd_out. rewrite Hf. cbn [mbind option_bind]. rewrite Hof.
  cbn [mbind option_bind set_outs outs]. rewrite lookup_insert_eq. cbn [mbind option_bind set_outs outs]. rewrite insert_insert_eq.
  case_bool_decide as Hpf.
  - subst p. rewrite Hof in Ho. injection Ho as <-. rewrite lookup_insert_eq. cbn [mbind option_bind set_outs outs].
    rewrite lookup_insert_eq, insert_insert_eq. cbn [mbind option_bind]. eexists. split; [done|]. cbn. split; [|split; [|by split]].
    { split; [done|]. cbn. intros q oq. destruct (decide (q = f)) as [->|Hne]; [rewrite lookup_insert_eq; by intros [= <-]|].
      rewrite lookup_insert_ne by done. intros Hq. destruct (Hp q oq Hq). split; [done|]. by rewrite <- Hf. }
    intros q. unfold same_view, mem_of, cursor_of. cbn. destruct (decide (q = f)) as [->|Hne]; [|by rewrite lookup_insert_ne by done].
    rewrite lookup_insert_eq, Hof. simpl. assert (video_mem_base ofo = Adapter) as -> by by apply Hbf. done.
  - rewrite lookup_insert_ne by done. rewrite Ho. cbn [mbind option_bind set_outs outs]. rewrite lookup_insert_eq.
    cbn [mbind option_bind]. eexists. split; [done|]. cbn. destruct (Hp p o Ho) as [Hol Hob]. split; [|split; [|by split]].
    { split; [done|]. cbn. intros q oq. destruct (decide (q = p)) as [->|Hne]; [rewrite lookup_insert_eq; by intros [= <-]|].
      rewrite lookup_insert_ne by done. destruct (decide (q = f)) as [->|Hne'].
      - rewrite lookup_insert_eq. intros [= <-]. split; [done|]. simpl. split; [done|congruence].
      - rewrite lookup_insert_ne by done. intros Hq. destruct (Hp q oq Hq) as [? Hqb]. split; [done|]. rewrite Hqb, Hf. split; congruence. }
    intros q. unfold same_view, mem_of, cursor_of. cbn. destruct (decide (q = p)) as [->|Hne].
    + rewrite lookup_insert_eq, Ho. simpl. destruct (video_mem_base o); [|done]. destruct Hob as [Hob _]. specialize (Hob eq_refl). congruence.
    + rewrite lookup_insert_ne by done. destruct (decide (q = f)) as [->|Hne'].
      * rewrite lookup_insert_eq, Hof. simpl. assert (video_mem_base ofo = Adapter) as -> by by apply Hbf. done.
      * rewrite lookup_insert_ne by done. destruct (outs d !! q) as [oq|] eqn:Hq; [|done]. simpl.
        destruct (video_mem_base oq) eqn:Eb; [|done]. destruct (Hp q oq Hq) as [_ [Hqb _]]. specialize (Hqb Eb). congruence.
Qed.

(** * Defects *)

(** Backspace at the top left corner.  With the cursor on the first cell, a
    backspace stores a blank before the start of the screen buffer: there is no
    test for the first column. *)
Theorem backspace_underflow d p t text :
  current_process d = Some p -> shows d p t -> is_Some (outs d !! p) -> tx t = 0 -> ty t = 0 ->
  output_proc (8 :: text) (zlen (8 :: text)) d = None.
Proof.
  intros Hcp (Hm & Hc & Ht) [o Ho] Hx Hy. unfold output_proc. rewrite Z.ltb_irrefl. unfold screen, cur_attrib. rewrite Hcp, Hm.
  unfold cursor_of in Hc. rewrite Ho in *. injection Hc as Hx' Hy'. cbn [mbind option_bind]. rewrite Hx', Hy', Hx, Hy. unfold zlen. by rewrite Nat2Z.id.
Qed.

Lemma list_inserts_insert_after {A} (l k : list A) i j x :
  (i + length k <= j)%nat -> list_inserts i k (<[j := x]> l) = <[j := x]> (list_inserts i k l).
Proof.
  revert i. induction k as [|y k IH]; intros i Hj; simpl in *; [done|].
  rewrite IH by lia. by rewrite list_insert_insert_ne by lia.
Qed.

(** Clearing downwards: the bytes of each cell are exchanged. *)
Lemma clear_down_flat n cs i a :
  Z.of_nat n <= i -> i <= zlen cs ->
  clear_down n (flat cs) (2 * i) a = Some (flat (list_inserts (Z.to_nat (i - Z.of_nat n)) (replicate n (a, 32)) cs)).
Proof.
  revert cs i. induction n as [|n IH]; intros cs i Hi Hl; [by replace (i - Z.of_nat 0) with i by lia|]. cbn [clear_down].
  assert (exists m, zset (flat cs) (2 * i - 1) 32 = Some m /\ zset m (2 * i - 2) a = Some (flat (<[Z.to_nat (i - 1) := (a, 32)]> cs))) as (m & -> & Hs).
  { unfold zlen in Hl. eexists. split; [apply zset_Some; unfold zlen; rewrite length_flat; lia|].
    rewrite zset_Some by (unfold zlen; rewrite length_insert, length_flat; lia). rewrite <- flat_insert by lia.
    rewrite list_insert_insert_ne by lia. replace (Z.to_nat (2 * i - 1)) with (2 * Z.to_nat (i - 1) + 1)%nat by lia.
    by replace (Z.to_nat (2 * i - 2)) with (2 * Z.to_nat (i - 1))%nat by lia. }
  cbn [mbind option_bind]. rewrite Hs. cbn [mbind option_bind]. replace (2 * i - 2) with (2 * (i - 1)) by lia.
  rewrite IH by (rewrite ?zlen_insert; lia). do 2 f_equal. rewrite replicate_S_end.
  replace (i - Z.of_nat (S n)) with (i - 1 - Z.of_nat n) by lia. rewrite list_inserts_app_l, length_replicate. simpl.
  rewrite list_inserts_insert_after by (rewrite length_replicate; lia).
  by replace (n + Z.to_nat (i - 1 - Z.of_nat n))%nat with (Z.to_nat (i - 1)) by lia.
Qed.

(** Scrolling down clears with the bytes of a cell exchanged.  Scrolling the
    whole screen down leaves every cell with the attribute as its character and
    the code of a space as its attribute. *)
Theorem scroll_down_swaps_bytes lines a cs :
  25 <= lines -> length cs = 2000%nat -> scroll_lines_down lines a (flat cs) = Some (flat (replicate 2000 (a, 32))).
Proof.
  intros Hl Hc. unfold scroll_lines_down. destruct (Z.leb_spec lines 0); [lia|].
  assert ((if 25 <? lines then 25 else lines) = 25) as -> by (destruct (Z.ltb_spec 25 lines); lia). cbn [copy_down Z.to_nat].
  change (Z.to_nat ((25 - 25) * 80)) with 0%nat. cbn [copy_down mbind option_bind]. change (25 * 160) with (2 * 2000).
  rewrite clear_down_flat by (unfold zlen; lia). do 2 f_equal.
  change (Z.to_nat (25 * 80)) with 2000%nat. change (Z.to_nat (2000 - Z.of_nat 2000)) with 0%nat.
  rewrite list_inserts_spec by (rewrite length_replicate; lia). rewrite length_replicate, drop_ge by lia. by rewrite app_nil_r.
Qed.

(** * Two processes; the first has the keyboard *)

Definition ex_out (b : vbase) (x y : Z) : output_info := mk_oi 10 (flat (replicate 2000 (32, 7))) b x y 7.
Definition ex_disp : display :=
  mk_d (flat (replicate 2000 (32, 7))) (list_to_map [(1%positive, ex_out Adapter 78 24); (2%positive, ex_out Own 0 0)])
    (Some 1%positive) (Some 1%positive) 0 0 [].
Definition ex_term : term := mk_t (replicate 2000 (32, 7)) 78 24.
Definition ex_text : list Z := [72; 105; 33; 10; 8; 66].

Lemma ex_disp_ok : disp_ok ex_disp.
Proof.
  split; [by vm_compute|]. intros p o. unfold ex_disp. simpl.
  destruct (decide (p = 1%positive)) as [->|H1]; [rewrite lookup_insert_eq; by intros [= <-]|].
  rewrite lookup_insert_ne by done. destruct (decide (p = 2%positive)) as [->|H2].
  - rewrite lookup_insert_eq. intros [= <-]. by split.
  - rewrite lookup_insert_ne by done. by rewrite lookup_empty.
Qed.

Lemma ex_shows : shows ex_disp 1%positive ex_term.
Proof. split; [done|]. split; [done|]. split; [apply length_replicate|]. simpl. lia. Qed.

Lemma output_proc_terminal_witness :
  match tputs 7 ex_text ex_term with
  | Some t' =>
      exists d', output_proc ex_text 6 ex_disp = Some d' /\ disp_ok d' /\ shows d' 1%positive t' /\
        (forall q, q <> 1%positive -> same_view ex_disp d' q) /\
        ports d' = (if bool_decide (kbd_focus ex_disp = Some 1%positive) then cursor_bytes (tx t') (ty t') else []) ++ ports ex_disp
  | None => output_proc ex_text 6 ex_disp = None
  end.
Proof. apply (output_proc_terminal ex_disp 1%positive 7 ex_term ex_text ex_disp_ok); [done|exact ex_shows|done]. Defined.

Lemma change_screen_keeps_views_witness :
  exists d', change_screen 2%positive ex_disp = Some d' /\ disp_ok (set_focus (Some 2%positive) d') /\ (forall q, same_view ex_disp d' q) /\
    vga d' = (if bool_decide (2%positive = 1%positive) then vga ex_disp else video_mem_backup (ex_out Own 0 0)) /\
    ports d' = cursor_bytes 0 0 ++ ports ex_disp.
Proof.
  apply (change_screen_keeps_views ex_disp 1%positive 2%positive (ex_out Own 0 0) ex_disp_ok); [done|by eexists|done].
Defined.

Definition ex_corner : display :=
  mk_d (flat (replicate 2000 (32, 7))) {[1%positive := ex_out Adapter 0 0]} (Some 1%positive) (Some 1%positive) 0 0 [].

Lemma backspace_underflow_witness : output_proc [8; 65] 2 ex_corner = None.
Proof.
  apply (backspace_underflow ex_corner 1%positive (mk_t (replicate 2000 (32, 7)) 0 0) [65]); [done| |by eexists|done|done].
  split; [done|]. split; [done|]. split; [apply length_replicate|]. simpl. lia.
Defined.

Lemma scroll_down_swaps_bytes_witness :
  scroll_lines_down 30 7 (flat (replicate 2000 (32, 7))) = Some (flat (replicate 2000 (7, 32))).
Proof. apply (scroll_down_swaps_bytes 30 7); [lia|apply length_replicate]. Defined.

End Vdisplay.
