(* ===== verification/Printf.v ===== *)
(** Formatted output: [number], [vsprintf] and [printk] of base/vdisplay.c.
    The buffer is only written at its end, so a function returns the characters
    it adds. *)
From S2P Require Import Prelude Strings Vdisplay.

Module Printf.
Import Strings.

(** * Flags *)

Definition ZEROPAD : Z := 1.
Definition SIGN : Z := 2.
Definition PLUS : Z := 4.
Definition SPACE : Z := 8.
Definition LEFT : Z := 16.
Definition SPECIAL : Z := 32.
Definition LARGE : Z := 64.

(** * Numbers *)

(** [digits[t]]: 0 to 9, then letters. *)
Definition digit (large : bool) (t : Z) : Z := if t <? 10 then 48 + t else (if large then 55 else 87) + t.

(** The digits of [num1], last first; 32 are enough for every base. *)
Fixpoint digits_loop (fuel : nat) (large : bool) (num1 base : Z) : option (list Z) :=
  match fuel with
  | O => None
  | S fuel =>
      if num1 =? 0 then Some [] else
      ds ← digits_loop fuel large (num1 / base) base; Some (digit large (num1 mod base) :: ds)
  end.

(** [while (n-- > 0) *str++ = c] writes this; [after n] is what [n] is then. *)
Definition pad (n c : Z) : list Z := replicate (Z.to_nat n) c.
Definition after (n : Z) : Z := Z.min n 0 - 1.

(** The sign character, if any, and the number and field size left. *)
Definition number_sign (num size type : Z) : list Z * Z * Z :=
  if has_bits type SIGN then
    if num <? 0 then ([45], s32 (- num), size - 1)
    else if has_bits type PLUS then ([43], num, size - 1)
    else if has_bits type SPACE then ([32], num, size - 1)
    else ([], num, size)
  else ([], num, size).

Definition number (num base size precision type : Z) : option (list Z) :=
  let large := has_bits type LARGE in
  let type := if has_bits type LEFT then Z.land type (Z.lnot ZEROPAD) else type in
  if (base <? 2) || (36 <? base) then None else
  let c := if has_bits type ZEROPAD then 48 else 32 in
  let '(sign, num, size) := number_sign num size type in
  let size := if has_bits type SPECIAL then
                if base =? 16 then size - 2 else if base =? 8 then size - 1 else size
              else size in
  let num1 := u32 num in
  tmp ← (if num1 =? 0 then Some [48] else digits_loop 33 large num1 base);
  let i := zlen tmp in
  let precision := if precision <? i then i else precision in
  let size := size - precision in
  let '(lead, size) := if negb (has_bits type (ZEROPAD + LEFT)) then (pad size 32, after size) else ([], size) in
  let special := if has_bits type SPECIAL then
                   if base =? 8 then [48] else if base =? 16 then [48; digit large 33] else []
                 else [] in
  let '(fill, size) := if negb (has_bits type LEFT) then (pad size c, after size) else ([], size) in
  Some (lead ++ sign ++ special ++ fill ++ pad (precision - i) 48 ++ rev tmp ++ pad size 32).

(** * Format strings *)

(** The argument list: machine words (an [int], a [long] or a pointer), the
    strings for [%s] ([None] for [NULL]) and the 64-bit words of [%Ld]. *)
Inductive arg := Word (w : Z) | Str (s : option (list Z)) | Quad (q : Z).

(** [*fmt] (0 at the end of the format) and [++fmt]. *)
Definition peek (fmt : list Z) : Z := hd 0 fmt.

(** [va_arg(args, int)], as the unsigned word. *)
Definition next_word (args : list arg) : option (Z * list arg) :=
  match args with Word w :: args => Some (u32 w, args) | _ => None end.

Fixpoint skip_atoi_loop (fmt : list Z) (i : Z) : Z * list Z :=
  match fmt with
  | c :: fmt' => if isdigit c =? 1 then skip_atoi_loop fmt' (s32 (i * 10 + c - 48)) else (i, fmt)
  | [] => (i, [])
  end.
Definition skip_atoi (fmt : list Z) : Z * list Z := skip_atoi_loop fmt 0.

(** The label [repeat]: [fmt] is behind the per cent sign or the last flag. *)
Fixpoint parse_flags (fmt : list Z) (flags : Z) : Z * list Z :=
  match fmt with
  | c :: fmt' =>
      if c =? 45 then parse_flags fmt' (Z.lor flags LEFT)
      else if c =? 43 then parse_flags fmt' (Z.lor flags PLUS)
      else if c =? 32 then parse_flags fmt' (Z.lor flags SPACE)
      else if c =? 35 then parse_flags fmt' (Z.lor flags SPECIAL)
      else if c =? 48 then parse_flags fmt' (Z.lor flags ZEROPAD)
      else (flags, fmt)
  | [] => (flags, [])
  end.

Definition parse_width (fmt : list Z) (args : list arg) (flags : Z) : option (Z * Z * list Z * list arg) :=
  if isdigit (peek fmt) =? 1 then let '(w, fmt) := skip_atoi fmt in Some (w, flags, fmt, args)
  else if peek fmt =? 42 then
    '(w, args) ← next_word args;
    let w := s32 w in
    Some (if w <? 0 then (s32 (- w), Z.lor flags LEFT, tail fmt, args) else (w, flags, tail fmt, args))
  else Some (-1, flags, fmt, args).

Definition parse_precision (fmt : list Z) (args : list arg) : option (Z * list Z * list arg) :=
  if peek fmt =? 46 then
    let fmt := tail fmt in
    '(p, fmt, args) ← (if isdigit (peek fmt) =? 1 then let '(p, fmt) := skip_atoi fmt in Some (p, fmt, args)
                       else if peek fmt =? 42 then '(p, args) ← next_word args; Some (s32 p, tail fmt, args)
                       else Some (-1, fmt, args));
    Some (if p <? 0 then 0 else p, fmt, args)
  else Some (-1, fmt, args).

(** 'h', 'l', 'L' and 'Z'. *)
Definition parse_qualifier (fmt : list Z) : Z * list Z :=
  let c := peek fmt in
  if (c =? 104) || (c =? 108) || (c =? 76) || (c =? 90) then (c, tail fmt) else (-1, fmt).

Definition fmt_char (field_width flags : Z) (args : list arg) : option (list Z * list arg) :=
  '(w, args) ← next_word args;
  let '(lead, width) := if negb (has_bits flags LEFT) then (pad (field_width - 1) 32, after (field_width - 1)) else ([], field_width - 1) in
  Some (lead ++ [s8 w] ++ pad width 32, args).

(** A string is cut at the field width, or at 1000 characters; the precision
    plays no part. *)
Definition fmt_string (field_width flags : Z) (args : list arg) : option (list Z * list arg) :=
  match args with
  | Str s :: args =>
      let s := default [60; 78; 85; 76; 76; 62] s in
      let s := take (Z.to_nat (if 0 <? field_width then field_width else 1000)) s in
      let room := field_width - zlen s in
      let '(lead, room) := if negb (has_bits flags LEFT) then (pad room 32, after room) else ([], room) in
      Some (lead ++ s ++ pad room 32, args)
  | _ => None
  end.

(** The integer conversions fetch their argument by the qualifier. *)
Definition fetch (qualifier flags : Z) (args : list arg) : option (Z * list arg) :=
  if qualifier =? 76 then match args with Quad q :: args => Some (q, args) | _ => None end
  else '(w, args) ← next_word args;
  if qualifier =? 108 then Some (if has_bits flags SIGN then s32 w else w, args)
  else if qualifier =? 90 then Some (w, args)
  else if qualifier =? 104 then Some (if has_bits flags SIGN then s16 (u16 w) else u16 w, args)
  else Some (if has_bits flags SIGN then s32 w else w, args).

(** What one conversion does: the characters it adds, the stores of [%n] as
    (address, value), the rest of the format and of the arguments; [n] is the
    number of characters written before it. *)
Record converted := mk_conv { text : list Z; stores : list (Z * Z); fmt_rest : list Z; args_rest : list arg }.

Definition fmt_integer (flags field_width precision qualifier base : Z) (fmt : list Z) (args : list arg) : option converted :=
  '(num, args) ← fetch qualifier flags args;
  t ← number (s32 num) base field_width precision flags;
  Some (mk_conv t [] (tail fmt) args).

Definition conversion (flags field_width precision qualifier n : Z) (fmt : list Z) (args : list arg) : option converted :=
  let c := peek fmt in
  if c =? 99 then '(t, args) ← fmt_char field_width flags args; Some (mk_conv t [] (tail fmt) args)
  else if c =? 115 then '(t, args) ← fmt_string field_width flags args; Some (mk_conv t [] (tail fmt) args)
  else if c =? 112 then
    '(w, args) ← next_word args;
    let '(width, flags) := if field_width =? -1 then (8, Z.lor flags ZEROPAD) else (field_width, flags) in
    t ← number (s32 w) 16 width precision flags;
    Some (mk_conv t [] (tail fmt) args)
  else if c =? 110 then '(w, args) ← next_word args; Some (mk_conv [] [(w, n)] (tail fmt) args)
  else if c =? 37 then Some (mk_conv [37] [] (tail fmt) args)
  else if c =? 111 then fmt_integer flags field_width precision qualifier 8 fmt args
  else if c =? 88 then fmt_integer (Z.lor flags LARGE) field_width precision qualifier 16 fmt args
  else if c =? 120 then fmt_integer flags field_width precision qualifier 16 fmt args
  else if (c =? 100) || (c =? 105) then fmt_integer (Z.lor flags SIGN) field_width precision qualifier 10 fmt args
  else if c =? 117 then fmt_integer flags field_width precision qualifier 10 fmt args
  else Some (mk_conv (37 :: (if c =? 0 then [] else [c])) [] (tail fmt) args).

(** From the per cent sign to the end of its conversion. *)
Definition directive (n : Z) (fmt : list Z) (args : list arg) : option converted :=
  let '(flags, fmt) := parse_flags fmt 0 in
  '(field_width, flags, fmt, args) ← parse_width fmt args flags;
  '(precision, fmt, args) ← parse_precision fmt args;
  let '(qualifier, fmt) := parse_qualifier fmt in
  conversion flags field_width precision qualifier n fmt args.

(** The loop over the format; every turn takes at least one character of it. *)
Fixpoint vsprintf_loop (fuel : nat) (fmt : list Z) (args : list arg) (out : list Z) (st : list (Z * Z))
  : option (list Z * list (Z * Z)) :=
  match fuel with
  | O => None
  | S fuel =>
      match fmt with
      | [] => Some (out, st)
      | c :: fmt =>
          if c =? 37 then
            r ← directive (zlen out) fmt args;
            vsprintf_loop fuel (fmt_rest r) (args_rest r) (out ++ text r) (st ++ stores r)
          else vsprintf_loop fuel fmt args (out ++ [c]) st
      end
  end.

(** The result, the characters before the terminator and the stores of [%n]. *)
Definition vsprintf (fmt : list Z) (args : list arg) : option (Z * list Z * list (Z * Z)) :=
  '(out, st) ← vsprintf_loop (S (length fmt)) fmt args [] [];
  Some (zlen out, out, st).

(** [printk] has a buffer of 2049 characters. *)
Definition printk (fmt : list Z) (args : list arg) (d : Vdisplay.display) : option (Z * Vdisplay.display) :=
  '(i, out, _) ← vsprintf fmt args;
  if 2048 <? zlen out then None else
  n ← strnlen (out ++ [0]) 0 0xffff;
  d ← Vdisplay.output_proc (out ++ [0]) n d;
  Some (i, d).

(** * Numbers are written as they are read *)

(** The number that the digits [vs] stand for, after a number [v]. *)
Definition value (b v : Z) (vs : list Z) : Z := foldl (fun v d => v * b + d) v vs.

Lemma value_snoc b v vs d : value b v (vs ++ [d]) = value b v vs * b + d.
Proof. unfold value. by rewrite foldl_app. Qed.

(** 33 turns are enough for 32 bits: each divides by 2 at least. *)
Lemma digits_loop_spec k large n b :
  2 <= b -> 0 <= n < 2 ^ Z.of_nat k ->
  exists vs, digits_loop (S k) large n b = Some (digit large <$> vs) /\ Forall (fun d => 0 <= d < b) vs /\
    value b 0 (rev vs) = n /\ (vs = [] <-> n = 0) /\ last vs <> Some 0.
Proof.
  intros Hb. revert n. induction k as [|k IH]; intros n Hn.
  - exists []. change (2 ^ Z.of_nat 0) with 1 in Hn. assert (n = 0) as -> by lia. done.
  - cbn [digits_loop]. destruct (Z.eqb_spec n 0) as [->|Hn0]; [exists []; done|].
    assert (0 <= n / b < 2 ^ Z.of_nat k) as Hq.
    { rewrite Nat2Z.inj_succ, Z.pow_succ_r in Hn by lia. split; [apply Z.div_pos; lia|]. apply Z.div_lt_upper_bound; nia. }
    destruct (IH (n / b) Hq) as (vs & E & Hf & Hv & Hnil & Hlast). cbn [digits_loop] in E. rewrite E. cbn [mbind option_bind].
    pose proof (Z.mod_pos_bound n b ltac:(lia)). exists (n mod b :: vs). split; [done|]. split; [by constructor|].
    pose proof (Z.div_mod n b ltac:(lia)). split; [simpl rev; rewrite value_snoc, Hv; lia|]. split; [done|]. destruct vs as [|d vs]; [|done].
    assert (n / b = 0) by by apply Hnil. simpl. intros [= E0]. nia.
Qed.

Lemma fmap_rev {A B} (f : A -> B) l : f <$> rev l = rev (f <$> l).
Proof. induction l as [|x l IH]; [done|]. simpl. by rewrite fmap_app, IH. Qed.

Lemma head_rev {A} (l : list A) : head (rev l) = last l.
Proof. destruct l as [|x l _] using rev_ind; [done|]. by rewrite rev_app_distr, last_snoc. Qed.

(** The digits of a 32-bit number: at least one, and no leading zeros. *)
Lemma digits_spec large n b :
  2 <= b -> 0 <= n < 2 ^ 32 ->
  exists vs, (if n =? 0 then Some [48] else digits_loop 33 large n b) = Some (rev (digit large <$> vs)) /\
    Forall (fun d => 0 <= d < b) vs /\ value b 0 vs = n /\ vs <> [] /\ (n <> 0 -> head vs <> Some 0).
Proof.
  intros Hb Hn. destruct (Z.eqb_spec n 0) as [->|Hn0].
  - exists [0]. split; [by destruct large|]. split; [constructor; [lia|done]|]. done.
  - destruct (digits_loop_spec 32 large n b Hb Hn) as (vs & -> & Hf & Hv & Hnil & Hlast). exists (rev vs).
    rewrite fmap_rev, rev_involutive. split; [done|]. split; [by apply Forall_rev|]. split; [done|].
    split; [intros E; apply Hn0, Hnil; by rewrite <- (rev_involutive vs), E|]. by rewrite head_rev.
Qed.

Lemma has_bits_or x a b : has_bits x (Z.lor a b) = has_bits x a || has_bits x b.
Proof.
  unfold has_bits. rewrite Z.land_lor_distr_r.
  destruct (Z.eqb_spec (Z.lor (Z.land x a) (Z.land x b)) 0) as [E|E].
  - apply Z.lor_eq_0_iff in E as [-> ->]. done.
  - destruct (Z.eqb_spec (Z.land x a) 0) as [E1|E1]; [|done]. destruct (Z.eqb_spec (Z.land x b) 0) as [E2|E2]; [|done].
    destruct E. by rewrite E1, E2.
Qed.

(** Clearing [ZEROPAD] leaves the other flags. *)
Lemma has_bits_clear x k : Z.land (Z.lnot ZEROPAD) k = k -> has_bits (Z.land x (Z.lnot ZEROPAD)) k = has_bits x k.
Proof. intros H. unfold has_bits. by rewrite <- Z.land_assoc, H. Qed.

Definition prefix_of_base (type base : Z) (large : bool) : list Z :=
  if has_bits type SPECIAL then if base =? 8 then [48] else if base =? 16 then [48; digit large 33] else [] else [].

Definition sign_of (num type : Z) : list Z :=
  if has_bits type SIGN then
    if num <? 0 then [45] else if has_bits type PLUS then [43] else if has_bits type SPACE then [32] else []
  else [].

Definition magnitude (num type : Z) : Z := if has_bits type SIGN then Z.abs num else u32 num.

Lemma zlen_pad n c : zlen (pad n c) = Z.max n 0.
Proof. unfold zlen, pad. rewrite length_replicate. lia. Qed.

Lemma zlen_rev {A} (l : list A) : zlen (rev l) = zlen l.
Proof. unfold zlen. by rewrite length_rev. Qed.

Lemma number_sign_spec num size type :
  - 2 ^ 31 <= num < 2 ^ 31 ->
  exists n, number_sign num size type = (sign_of num type, n, size - zlen (sign_of num type)) /\ u32 n = magnitude num type.
Proof.
  intros Hn. unfold number_sign, sign_of, magnitude. destruct (has_bits type SIGN).
  - destruct (Z.ltb_spec num 0).
    + eexists. split; [done|]. rewrite u32_s32, u32_id by lia. lia.
    + assert (u32 num = Z.abs num) as E by (rewrite u32_id; lia).
      destruct (has_bits type PLUS); [by eexists|]. destruct (has_bits type SPACE); [by eexists|]. exists num. split; [|done].
      change (zlen []) with 0. by rewrite Z.sub_0_r.
  - exists num. split; [|done]. change (zlen []) with 0. by rewrite Z.sub_0_r.
Qed.

(** The shape of what [number] writes: padding, the sign, the prefix of the
    base, the digits, more padding. *)
Lemma number_layout num base size precision type :
  - 2 ^ 31 <= num < 2 ^ 31 -> 2 <= base <= 36 ->
  let large := has_bits type LARGE in
  exists lead fill trail vs,
    number num base size precision type =
      Some (lead ++ sign_of num type ++ prefix_of_base type base large ++ fill ++ (digit large <$> vs) ++ trail) /\
    Forall (fun d => 0 <= d < base) vs /\ value base 0 vs = magnitude num type /\ vs <> [] /\ (magnitude num type <> 0 -> head vs <> Some 0) /\
    zlen lead + zlen fill + zlen vs + zlen trail =
      Z.max (size - zlen (sign_of num type) - zlen (prefix_of_base type base large)) (Z.max precision (zlen vs)) /\
    (size <= 0 -> precision <= 1 -> lead = [] /\ fill = [] /\ trail = []) /\
    (has_bits type LEFT = true -> lead = []) /\ (has_bits type LEFT = false -> trail = []).
Proof.
  intros Hn Hb large. unfold number. destruct (Z.ltb_spec base 2); [lia|]. destruct (Z.ltb_spec 36 base); [lia|]. cbn [orb].
  set (ty := if has_bits type LEFT then Z.land type (Z.lnot ZEROPAD) else type).
  assert (forall k, Z.land (Z.lnot ZEROPAD) k = k -> has_bits ty k = has_bits type k) as Hty
    by (intros k Hk; unfold ty; destruct (has_bits type LEFT); [by apply has_bits_clear|done]).
  assert (sign_of num ty = sign_of num type /\ magnitude num ty = magnitude num type) as [Es Em]
    by (unfold sign_of, magnitude; by rewrite !Hty).
  destruct (number_sign_spec num size ty Hn) as (n1 & -> & Hmag). rewrite Es. rewrite Em in Hmag.
  destruct (digits_spec large (u32 n1) base ltac:(lia) (u32_range n1)) as (vs & Hd & Hf & Hv & Hne & Hhd).
  fold large. rewrite Hd. cbn [mbind option_bind]. rewrite (Hty SPECIAL), (Hty LEFT) by done.
  change (ZEROPAD + LEFT) with (Z.lor ZEROPAD LEFT). rewrite has_bits_or, (Hty LEFT) by done.
  set (sz1 := if has_bits type SPECIAL then _ else _). fold (prefix_of_base type base large).
  assert (sz1 = size - zlen (sign_of num type) - zlen (prefix_of_base type base large)) as Esz.
  { unfold sz1, prefix_of_base. destruct (has_bits type SPECIAL); [|change (zlen []) with 0; lia].
    destruct (Z.eqb_spec base 16) as [->|]; [done|]. destruct (Z.eqb_spec base 8); [done|change (zlen []) with 0; lia]. }
  rewrite zlen_rev, rev_involutive. assert (zlen (digit large <$> vs) = zlen vs) as -> by (unfold zlen; by rewrite length_fmap).
  pose proof (zlen_nonneg (sign_of num type)). pose proof (zlen_nonneg (prefix_of_base type base large)).
  assert (1 <= zlen vs) by (destruct vs; [done|rewrite zlen_cons; pose proof (zlen_nonneg vs); lia]).
  set (prec := if precision <? zlen vs then zlen vs else precision).
  assert (prec = Z.max precision (zlen vs)) as Ep by (unfold prec; destruct (Z.ltb_spec precision (zlen vs)); lia).
  rewrite Hmag in Hv, Hhd. clearbody sz1 prec.
  set (zeros := pad (prec - zlen vs) 48). assert (zlen zeros = prec - zlen vs) as Ez by (unfold zeros; rewrite zlen_pad; lia).
  assert (forall k c, k <= 0 -> pad k c = []) as Hpad by (intros k c Hk; unfold pad; by replace (Z.to_nat k) with 0%nat by lia).
  assert (forall k c, pad (after k) c = []) as Hafter by (intros k c; apply Hpad; unfold after; lia).
  assert (precision <= 1 -> zeros = []) as Hz0 by (intros; apply Hpad; lia).
  destruct (has_bits type LEFT) eqn:EL; rewrite ?orb_true_r, ?orb_false_r; cbn [negb].
  - exists [], zeros, (pad (sz1 - prec) 32), vs. split; [done|]. split; [done|]. split; [done|]. split; [done|]. split; [done|].
    rewrite zlen_pad. change (zlen []) with 0. split; [lia|]. split; [intros; rewrite Hz0 by lia; by rewrite Hpad by lia|done].
  - destruct (has_bits ty ZEROPAD); cbn [negb].
    + exists [], (pad (sz1 - prec) 48 ++ zeros), [], vs. rewrite Hafter.
      split; [by rewrite <- !app_assoc|]. split; [done|]. split; [done|]. split; [done|]. split; [done|].
      rewrite zlen_app, zlen_pad. change (zlen []) with 0. split; [lia|]. split; [intros; rewrite Hz0 by lia; by rewrite Hpad by lia|done].
    + exists (pad (sz1 - prec) 32), zeros, [], vs. rewrite !Hafter.
      split; [done|]. split; [done|]. split; [done|]. split; [done|]. split; [done|].
      rewrite zlen_pad. change (zlen []) with 0. split; [lia|]. split; [intros; rewrite Hz0 by lia; by rewrite Hpad by lia|done].
Qed.

(** A number fills its field.  [number] writes the sign, the prefix of the
    base and the digits of the number in that base without leading zeros, padded
    on the side the flags say so that the text is as long as the field or as the
    number needs, whichever is more. *)
Theorem number_fills_field num base size precision type :
  - 2 ^ 31 <= num < 2 ^ 31 -> 2 <= base <= 36 ->
  exists t pre post vs, number num base size precision type = Some t /\
    t = pre ++ (digit (has_bits type LARGE) <$> vs) ++ post /\
    value base 0 vs = magnitude num type /\ (magnitude num type <> 0 -> head vs <> Some 0) /\
    zlen t = Z.max size (zlen (sign_of num type) + zlen (prefix_of_base type base (has_bits type LARGE)) + Z.max precision (zlen vs)).
Proof.
  intros Hn Hb. destruct (number_layout num base size precision type Hn Hb) as (lead & fill & trail & vs & -> & _ & Hv & _ & Hh & Hl & _).
  eexists _, (lead ++ sign_of num type ++ prefix_of_base type base _ ++ fill), trail, vs. split; [done|].
  split; [by rewrite <- !app_assoc|]. split; [done|]. split; [done|]. rewrite !zlen_app.
  assert (zlen (digit (has_bits type LARGE) <$> vs) = zlen vs) as -> by (unfold zlen; by rewrite length_fmap). lia.
Qed.

(** * Formats *)

(** The format only gets shorter, so the fuel of [vsprintf] is never what stops
    it: any larger amount gives the same. *)
Lemma skip_atoi_shorter fmt i : (length (skip_atoi_loop fmt i).2 <= length fmt)%nat.
Proof. revert i. induction fmt as [|c fmt IH]; intros i; simpl; [done|]. case_match; [|done]. etrans; [apply IH|lia]. Qed.

Lemma parse_flags_shorter fmt fl : (length (parse_flags fmt fl).2 <= length fmt)%nat.
Proof. revert fl. induction fmt as [|c fmt IH]; intros fl; simpl; [done|]. repeat case_match; try done; (etrans; [apply IH|lia]). Qed.

Lemma tail_shorter {A} (l : list A) : (length (tail l) <= length l)%nat.
Proof. destruct l; simpl; lia. Qed.

Lemma conversion_rest fl fw pr q n fmt args r : conversion fl fw pr q n fmt args = Some r -> fmt_rest r = tail fmt.
Proof.
  assert (forall fl fw pr q b r, fmt_integer fl fw pr q b fmt args = Some r -> fmt_rest r = tail fmt) as Hint.
  { intros ?????? H. unfold fmt_integer in H. step H as [num a] from E1. step H as t from E2. by injection H as <-. }
  unfold conversion. intros H.
  repeat match type of H with (if ?c then _ else _) = Some _ => destruct c; [try by apply Hint in H|try by apply Hint in H] end;
    try (by injection H as <-); step H as [t a] from E1; try (by injection H as <-).
  destruct (if fw =? -1 then _ else _) as [w f]. step H as t' from E2. by injection H as <-.
Qed.

Lemma directive_shorter n fmt args r : directive n fmt args = Some r -> (length (fmt_rest r) <= length fmt)%nat.
Proof.
  unfold directive. pose proof (parse_flags_shorter fmt 0) as H1. destruct (parse_flags fmt 0) as [fl fmt1]. simpl in H1. intros H.
  step H as [[[fw fl2] fmt2] args2] from E2. assert (length fmt2 <= length fmt1)%nat as H2.
  { unfold parse_width in E2. pose proof (skip_atoi_shorter fmt1 0). pose proof (tail_shorter fmt1). unfold skip_atoi in E2.
    destruct (skip_atoi_loop fmt1 0). simpl in *. repeat case_match; simplify_eq; try done. bind_inv E2. repeat case_match; by simplify_eq. }
  step H as [[pr fmt3] args3] from E3. assert (length fmt3 <= length fmt2)%nat as H3.
  { unfold parse_precision in E3. destruct (peek fmt2 =? 46); [|by simplify_eq]. pose proof (tail_shorter fmt2).
    pose proof (skip_atoi_shorter (tail fmt2) 0). pose proof (tail_shorter (tail fmt2)). unfold skip_atoi in E3.
    destruct (skip_atoi_loop (tail fmt2) 0). simpl in *. step E3 as [[p' f'] a'] from E4. injection E3 as _ -> _.
    repeat case_match; simplify_eq; try lia. bind_inv E4. case_match. simplify_eq. lia. }
  unfold parse_qualifier in H. pose proof (tail_shorter fmt3). destruct (_ || _ || _ || _); apply conversion_rest in H as ->.
  - pose proof (tail_shorter (tail fmt3)). lia.
  - lia.
Qed.

Lemma vsprintf_loop_fuel fuel fuel' fmt args out st :
  (length fmt < fuel)%nat -> (length fmt < fuel')%nat -> vsprintf_loop fuel fmt args out st = vsprintf_loop fuel' fmt args out st.
Proof.
  revert fuel' fmt args out st. induction fuel as [|fuel IH]; intros [|fuel'] fmt args out st H1 H2; try lia. cbn [vsprintf_loop].
  destruct fmt as [|c fmt]; [done|]. simpl in *. destruct (c =? 37); [|apply IH; lia].
  destruct (directive (zlen out) fmt args) as [r|] eqn:E; [|done]. cbn [mbind option_bind]. apply directive_shorter in E. apply IH; lia.
Qed.

(** Characters other than the per cent sign are copied. *)
Lemma vsprintf_loop_literal pre fuel fmt args out st :
  Forall (fun c => c <> 37) pre ->
  vsprintf_loop (length pre + fuel) (pre ++ fmt) args out st = vsprintf_loop fuel fmt args (out ++ pre) st.
Proof.
  intros Hf. revert out. induction Hf as [|c pre Hc Hf IH]; intros out; [by rewrite app_nil_r|]. cbn [length Nat.add app vsprintf_loop].
  destruct (Z.eqb_spec c 37); [done|]. rewrite IH, <- app_assoc. done.
Qed.

(** [%d] prints in decimal.  In a format with one [%d] the text around it is
    copied and the argument is written with its sign and its decimal digits,
    without leading zeros; the result is the number of characters. *)
Theorem vsprintf_decimal pre post w args :
  Forall (fun c => c <> 37) pre -> Forall (fun c => c <> 37) post -> - 2 ^ 31 <= w < 2 ^ 31 ->
  exists vs out, vsprintf (pre ++ [37; 100] ++ post) (Word w :: args) = Some (zlen out, out, []) /\
    out = pre ++ (if w <? 0 then [45] else []) ++ (digit false <$> vs) ++ post /\
    Forall (fun d => 0 <= d < 10) vs /\ value 10 0 vs = Z.abs w /\ vs <> [] /\ (w <> 0 -> head vs <> Some 0).
Proof.
  intros Hpre Hpost Hw. destruct (number_layout w 10 (-1) (-1) SIGN Hw ltac:(lia)) as (lead & fill & trail & vs & Hnum & Hf & Hv & Hne & Hh & _ & Hpad & _).
  destruct Hpad as (-> & -> & ->); [lia..|]. change (prefix_of_base SIGN 10 _) with (@nil Z) in Hnum. change (has_bits SIGN LARGE) with false in Hnum.
  rewrite app_nil_r in Hnum. cbn [app] in Hnum. unfold sign_of in Hnum. change (has_bits SIGN SIGN) with true in Hnum.
  change (has_bits SIGN PLUS) with false in Hnum. change (has_bits SIGN SPACE) with false in Hnum. cbv iota in Hnum.
  unfold magnitude in Hv, Hh. change (has_bits SIGN SIGN) with true in Hv, Hh. cbv iota in Hv, Hh.
  exists vs. eexists. split; [|split; [reflexivity|]]; [|split; [done|]; split; [done|]; split; [done|]; intros; apply Hh; lia].
  unfold vsprintf. replace (S (length (pre ++ [37; 100] ++ post))) with (length pre + S (length post + 2))%nat by (rewrite !length_app; simpl; lia).
  rewrite vsprintf_loop_literal by done. cbn [app vsprintf_loop]. simpl (37 =? 37). cbv iota.
  assert (directive (zlen pre) (100 :: post) (Word w :: args)
    = Some (mk_conv ((if w <? 0 then [45] else []) ++ (digit false <$> vs)) [] post args)) as ->.
  { change (directive (zlen pre) (100 :: post) (Word w :: args)) with (fmt_integer SIGN (-1) (-1) (-1) 10 (100 :: post) (Word w :: args)).
    unfold fmt_integer. change (fetch (-1) SIGN (Word w :: args)) with (Some (s32 (u32 w), args)). cbn [mbind option_bind].
    rewrite (s32_id (s32 _)) by apply s32_range.
    assert (s32 (u32 w) = w) as ->.
    { unfold s32, u32. rewrite Zplus_mod_idemp_l, Z.mod_small; lia. }
    rewrite Hnum. done. }
  cbn [mbind option_bind text stores fmt_rest args_rest]. rewrite <- (app_nil_r post) at 2.
  rewrite vsprintf_loop_literal by done. simpl.
  by rewrite <- !app_assoc.
Qed.

Lemma number_fills_field_witness :
  exists t pre post vs, number (-42) 10 6 (-1) (Z.lor SIGN ZEROPAD) = Some t /\
    t = pre ++ (digit false <$> vs) ++ post /\ value 10 0 vs = 42 /\ (42 <> 0 -> head vs <> Some 0) /\
    zlen t = Z.max 6 (1 + 0 + Z.max (-1) (zlen vs)).
Proof. apply (number_fills_field (-42) 10 6 (-1) (Z.lor SIGN ZEROPAD)); lia. Defined.

Lemma vsprintf_decimal_witness :
  exists vs out, vsprintf ([110; 61] ++ [37; 100] ++ [10]) [Word (-7)] = Some (zlen out, out, []) /\
    out = [110; 61] ++ (if -7 <? 0 then [45] else []) ++ (digit false <$> vs) ++ [10] /\
    Forall (fun d => 0 <= d < 10) vs /\ value 10 0 vs = Z.abs (-7) /\ vs <> [] /\ (-7 <> 0 -> head vs <> Some 0).
Proof. apply (vsprintf_decimal [110; 61] [10] (-7) []); [repeat constructor; lia..|lia]. Defined.

End Printf.
