(* ===== verification/Strtol.v ===== *)
(** Numbers from text: lib/strtol.c. *)
From S2P Require Import Prelude Strings Vdisplay Printf.

Module Strtol.
Import Strings.
Abbreviation value := Printf.value.

Definition FL_UNSIGNED : Z := 1.
Definition FL_NEG : Z := 2.
Definition FL_OVERFLOW : Z := 4.
Definition FL_READDIGIT : Z := 8.
Definition LONG_MAX : Z := 2147483647.
Definition LONG_MIN : Z := - LONG_MAX - 1.
Definition ULONG_MAX : Z := 4294967295.

(** * Conversion *)

(** [while (isspace((unsigned char) c)) c = *p++]: [p] is behind [c]. *)
Fixpoint skip_spaces (fuel : nat) (m : mem) (c p : Z) : option (Z * Z) :=
  match fuel with
  | O => None
  | S fuel => if isspace (u8 c) =? 1 then c ← zget m p; skip_spaces fuel m c (p + 1) else Some (c, p)
  end.

(** The value of a digit character; [None] leaves the loop. *)
Definition digval (c ibase : Z) : option Z :=
  d ← (if isdigit (u8 c) =? 1 then Some (c - 48)
       else if isalpha (u8 c) =? 1 then Some (toupper c - 65 + 10) else None);
  if ibase <=? u32 d then None else Some (u32 d).

(** The [for (;;)] loop: number and flags so far, [p] behind [c]. *)
Fixpoint digits_loop (fuel : nat) (m : mem) (ibase number flags c p : Z) : option (Z * Z * Z) :=
  match fuel with
  | O => None
  | S fuel =>
      match digval c ibase with
      | None => Some (number, flags, p)
      | Some d =>
          let flags := Z.lor flags FL_READDIGIT in
          let maxval := ULONG_MAX / ibase in
          let '(number, flags) :=
            if (number <? maxval) || ((number =? maxval) && (d <=? ULONG_MAX mod ibase))
            then (u32 (number * ibase + d), flags) else (number, Z.lor flags FL_OVERFLOW) in
          c ← zget m p;
          digits_loop fuel m ibase number flags c (p + 1)
      end
  end.

(** [ibase] 0 means by prefix; base 16 has an optional prefix. *)
Definition choose_base (m : mem) (ibase c p : Z) : option (Z * Z * Z) :=
  x ← (if (ibase =? 0) || (ibase =? 16) then if c =? 48 then zget m p else Some 0 else Some 0);
  let isx := (x =? 120) || (x =? 88) in
  let ibase := if ibase =? 0 then if negb (c =? 48) then 10 else if isx then 16 else 8 else ibase in
  if (ibase =? 16) && (c =? 48) && isx then c ← zget m (p + 1); Some (ibase, c, p + 2) else Some (ibase, c, p).

(** The clamping at the end: the number and whether [errno] is set. *)
Definition finish (number flags : Z) : Z * bool :=
  let neg := has_bits flags FL_NEG in
  let uns := has_bits flags FL_UNSIGNED in
  if has_bits flags FL_OVERFLOW
     || (negb uns && ((neg && (u32 (- LONG_MAX) <? number)) || (negb neg && (LONG_MAX <? number))))
  then (if uns then ULONG_MAX else if neg then u32 LONG_MIN else LONG_MAX, true)
  else (number, false).

(** The unsigned result, what is stored through [endptr] (when it is not
    [NULL]) and whether [errno] becomes [ERANGE]. *)
Definition strtoxl (m : mem) (nptr : Z) (endptr : bool) (ibase flags : Z) : option (Z * option Z * bool) :=
  c ← zget m nptr;
  '(c, p) ← skip_spaces (turns m) m c (nptr + 1);
  '(flags, c, p) ← (if c =? 45 then c ← zget m p; Some (Z.lor flags FL_NEG, c, p + 1)
                    else if c =? 43 then c ← zget m p; Some (flags, c, p + 1) else Some (flags, c, p));
  if (ibase <? 0) || (ibase =? 1) || (36 <? ibase) then Some (0, if endptr then Some nptr else None, false) else
  '(ibase, c, p) ← choose_base m ibase c p;
  '(number, flags, p) ← digits_loop (turns m) m ibase 0 flags c p;
  let p := p - 1 in
  let '(number, p, range) :=
    if negb (has_bits flags FL_READDIGIT) then (0, if endptr then nptr else p, false)
    else let '(number, range) := finish number flags in (number, p, range) in
  let number := if has_bits flags FL_NEG then u32 (- s32 number) else number in
  Some (number, if endptr then Some p else None, range).

Definition strtol (m : mem) (nptr : Z) (endptr : bool) (ibase : Z) : option (Z * option Z * bool) :=
  '(n, e, r) ← strtoxl m nptr endptr ibase 0; Some (s32 n, e, r).
Definition strtoul (m : mem) (nptr : Z) (endptr : bool) (ibase : Z) : option (Z * option Z * bool) :=
  strtoxl m nptr endptr ibase FL_UNSIGNED.

(** [atol] reads the digits without a check for overflow. *)
Fixpoint atol_spaces (fuel : nat) (m : mem) (p : Z) : option Z :=
  match fuel with
  | O => None
  | S fuel => c ← zget m p; if isspace (u8 c) =? 1 then atol_spaces fuel m (p + 1) else Some p
  end.
Fixpoint atol_digits (fuel : nat) (m : mem) (total c p : Z) : option Z :=
  match fuel with
  | O => None
  | S fuel =>
      if isdigit c =? 1 then c' ← zget m p; atol_digits fuel m (s32 (10 * total + (c - 48))) (u8 c') (p + 1)
      else Some total
  end.
Definition atol (m : mem) (nptr : Z) : option Z :=
  p ← atol_spaces (turns m) m nptr;
  c ← zget m p;
  let c := u8 c in
  let sign := c in
  '(c, p) ← (if (c =? 45) || (c =? 43) then c ← zget m (p + 1); Some (u8 c, p + 2) else Some (c, p + 1));
  total ← atol_digits (turns m) m 0 c p;
  Some (if sign =? 45 then s32 (- total) else total).
Definition atoi (m : mem) (nptr : Z) : option Z := n ← atol m nptr; Some (s32 n).

(** * What the loops compute *)

Lemma has_bits_lor f g k : has_bits (Z.lor f g) k = has_bits f k || has_bits g k.
Proof.
  unfold has_bits. rewrite Z.land_lor_distr_l.
  destruct (Z.eqb_spec (Z.lor (Z.land f k) (Z.land g k)) 0) as [E|E].
  - apply Z.lor_eq_0_iff in E as [-> ->]. done.
  - destruct (Z.eqb_spec (Z.land f k) 0) as [E1|E1]; [|done]. destruct (Z.eqb_spec (Z.land g k) 0) as [E2|E2]; [|done].
    destruct E. by rewrite E1, E2.
Qed.

(** What the number and the overflow flag say of the value read so far. *)
Definition read_so_far (v number flags : Z) : Prop :=
  if has_bits flags FL_OVERFLOW then ULONG_MAX < v else number = v /\ 0 <= v <= ULONG_MAX.

Lemma digval_range c b d : digval c b = Some d -> 0 <= d < b.
Proof.
  unfold digval. intros H. step H as d0 from E. destruct (Z.leb_spec b (u32 d0)); [done|]. injection H as <-.
  pose proof (u32_range d0). lia.
Qed.

(** The overflow test is exact. *)
Lemma overflow_test b n d :
  2 <= b -> 0 <= d < b -> 0 <= n ->
  (n <? ULONG_MAX / b) || ((n =? ULONG_MAX / b) && (d <=? ULONG_MAX mod b)) = (n * b + d <=? ULONG_MAX).
Proof.
  intros Hb Hd Hn. pose proof (Z.div_mod ULONG_MAX b ltac:(lia)) as E. pose proof (Z.mod_pos_bound ULONG_MAX b ltac:(lia)).
  set (q := ULONG_MAX / b) in *. set (r := ULONG_MAX mod b) in *.
  destruct (Z.ltb_spec n q); [|destruct (Z.eqb_spec n q) as [->|Hne]]; simpl.
  - symmetry. apply Z.leb_le. nia.
  - destruct (Z.leb_spec d r), (Z.leb_spec (q * b + d) ULONG_MAX); nia.
  - symmetry. apply Z.leb_gt. nia.
Qed.

Lemma strtoxl_digits fuel m b cs vs stop v number flags c q :
  2 <= b -> Forall2 (fun c d => digval c b = Some d) cs vs -> digval stop b = None ->
  spells m q (cs ++ [stop]) -> zget m q = Some c -> (length cs < fuel)%nat ->
  0 <= v -> 0 <= number -> read_so_far v number flags ->
  exists number' flags', digits_loop fuel m b number flags c (q + 1) = Some (number', flags', q + zlen cs + 1) /\
    read_so_far (value b v vs) number' flags' /\
    has_bits flags' FL_NEG = has_bits flags FL_NEG /\ has_bits flags' FL_UNSIGNED = has_bits flags FL_UNSIGNED /\
    has_bits flags' FL_READDIGIT = has_bits flags FL_READDIGIT || negb (bool_decide (cs = [])).
Proof.
  intros Hb Hf. revert fuel v number flags c q.
  induction Hf as [|c0 d cs vs Hd Hf IH]; intros fuel v number flags c q Hstop Hsp Hc Hfu Hv Hn Hr.
  - destruct fuel as [|fuel]; [simpl in Hfu; lia|]. destruct Hsp as [H1 _]. rewrite H1 in Hc. injection Hc as <-. cbn [digits_loop].
    rewrite Hstop. exists number, flags. change (zlen []) with 0. rewrite Z.add_0_r. split; [done|]. split; [done|].
    by rewrite orb_false_r.
  - destruct fuel as [|fuel]; [simpl in Hfu; lia|]. destruct Hsp as [H1 Hsp]. rewrite H1 in Hc. injection Hc as <-. cbn [digits_loop].
    rewrite Hd. pose proof (digval_range _ _ _ Hd) as Hdr. rewrite (overflow_test b number d Hb Hdr Hn).
    assert (exists c1, zget m (q + 1) = Some c1) as [c1 Hc1]
      by (destruct cs; simpl in Hsp; destruct Hsp; eauto).
    set (fl1 := Z.lor flags FL_READDIGIT).
    set (ok := number * b + d <=? ULONG_MAX).
    assert (read_so_far (v * b + d) (if ok then u32 (number * b + d) else number) (if ok then fl1 else Z.lor fl1 FL_OVERFLOW)) as Hr1.
    { unfold read_so_far, ok, fl1 in *. destruct (Z.leb_spec (number * b + d) ULONG_MAX) as [Hle|Hgt].
      - rewrite has_bits_lor. change (has_bits FL_READDIGIT FL_OVERFLOW) with false. rewrite orb_false_r.
        destruct (has_bits flags FL_OVERFLOW); [nia|]. destruct Hr as [-> Hr]. unfold ULONG_MAX in *. rewrite u32_id; nia.
      - rewrite has_bits_lor. change (has_bits FL_OVERFLOW FL_OVERFLOW) with true. rewrite orb_true_r.
        destruct (has_bits flags FL_OVERFLOW); [nia|]. destruct Hr as [-> Hr]. nia. }
    assert (0 <= (if ok then u32 (number * b + d) else number)) as Hn1 by (destruct ok; [apply u32_range|done]).
    destruct (IH fuel (v * b + d) _ _ c1 (q + 1) Hstop Hsp Hc1 ltac:(simpl in Hfu; lia) ltac:(nia) Hn1 Hr1) as (n' & f' & Hl & Hv' & Hneg & Huns & Hrd).
    exists n', f'. split.
    { rewrite zlen_cons. replace (q + (zlen cs + 1) + 1) with (q + 1 + zlen cs + 1) by lia.
      destruct ok; rewrite Hc1; cbn [mbind option_bind]; exact Hl. }
    split; [done|]. rewrite Hneg, Huns, Hrd. unfold fl1.
    destruct ok; rewrite !has_bits_lor; change (has_bits FL_READDIGIT FL_NEG) with false; change (has_bits FL_OVERFLOW FL_NEG) with false;
      change (has_bits FL_READDIGIT FL_UNSIGNED) with false; change (has_bits FL_OVERFLOW FL_UNSIGNED) with false;
      change (has_bits FL_READDIGIT FL_READDIGIT) with true; change (has_bits FL_OVERFLOW FL_READDIGIT) with false;
      rewrite ?orb_false_r, ?orb_true_r; done.
Qed.

Lemma skip_spaces_spec fuel m c q ws c0 :
  Forall (fun c => isspace (u8 c) = 1) ws -> isspace (u8 c0) = 0 -> spells m q (ws ++ [c0]) -> zget m q = Some c -> (length ws < fuel)%nat ->
  skip_spaces fuel m c (q + 1) = Some (c0, q + zlen ws + 1).
Proof.
  intros Hws Hc0. revert fuel c q. induction Hws as [|w ws Hw Hws IH]; intros fuel c q Hsp Hc Hf;
    (destruct fuel as [|fuel]; [simpl in Hf; lia|]); destruct Hsp as [H1 Hsp]; rewrite H1 in Hc; injection Hc as <-; cbn [skip_spaces].
  - rewrite Hc0. simpl. by rewrite Z.add_0_r.
  - rewrite Hw. simpl (1 =? 1). cbv iota. assert (exists c1, zget m (q + 1) = Some c1) as [c1 Hc1]
      by (destruct ws; simpl in Hsp; destruct Hsp; eauto).
    rewrite Hc1. cbn [mbind option_bind]. rewrite (IH fuel c1 (q + 1) Hsp Hc1) by (simpl in Hf; lia). rewrite zlen_cons. do 2 f_equal. lia.
Qed.

Lemma digval_not_sign c b d : digval c b = Some d -> isspace (u8 c) = 0 /\ c <> 45 /\ c <> 43.
Proof.
  unfold digval. intros H. step H as d0 from E. assert (isdigit (u8 c) = 1 \/ isalpha (u8 c) = 1) as Hc.
  { destruct (Z.eqb_spec (isdigit (u8 c)) 1); [by left|]. destruct (Z.eqb_spec (isalpha (u8 c)) 1); [by right|done]. }
  clear -Hc. split; [|split; intros ->; by destruct Hc].
  unfold isspace. destruct (Z.eqb_spec (u8 c) 32) as [E|_]; [rewrite E in Hc; by destruct Hc|].
  destruct (Z.eqb_spec (u8 c) 9) as [E|_]; [rewrite E in Hc; by destruct Hc|].
  destruct (Z.eqb_spec (u8 c) 10) as [E|_]; [rewrite E in Hc; by destruct Hc|done].
Qed.

(** A numeral in base [b] at [p]: spaces, a sign, digits of the values [vs] and
    a character that is no digit of the base (nor the [x] of a prefix). *)
Record numeral (m : mem) (p b : Z) (ws sgn cs vs : list Z) (stop : Z) : Prop := {
  nu_base : 2 <= b <= 36;
  nu_ws : Forall (fun c => isspace (u8 c) = 1) ws;
  nu_sgn : sgn = [] \/ sgn = [45] \/ sgn = [43];
  nu_some : cs <> [];
  nu_digits : Forall2 (fun c d => digval c b = Some d) cs vs;
  nu_stop : digval stop b = None /\ (b = 16 -> stop <> 120 /\ stop <> 88);
  nu_spells : spells m p (ws ++ sgn ++ cs ++ [stop]) }.

Definition negative (sgn : list Z) : bool := bool_decide (sgn = [45]).

Lemma spells_head m q s stop : spells m q (s ++ [stop]) -> exists c, zget m q = Some c /\ c = hd stop s.
Proof. destruct s; simpl; intros [H _]; eauto. Qed.

(** Without an [x] behind a leading 0, a base given by the caller is kept. *)
Lemma choose_base_id m b q cs vs stop c :
  2 <= b -> Forall2 (fun c d => digval c b = Some d) cs vs -> cs <> [] -> (b = 16 -> stop <> 120 /\ stop <> 88) ->
  spells m q (cs ++ [stop]) -> c = hd stop cs -> choose_base m b c (q + 1) = Some (b, c, q + 1).
Proof.
  intros Hb Hf Hne Hstop Hsp Hc. unfold choose_base. destruct (Z.eqb_spec b 0); [lia|]. cbn [orb].
  destruct (Z.eqb_spec b 16) as [->|Hb16]; [|by cbn [andb mbind option_bind]]. destruct (Hstop eq_refl) as [Hs1 Hs2].
  destruct cs as [|c0 cs]; [done|]. simpl in Hc. subst c0. inversion Hf as [|? d ? vs' Hd Hf' E1 E2]; subst. destruct Hsp as [_ Hsp].
  destruct (spells_head _ _ _ _ Hsp) as (x & Hx & Ex).
  assert (x <> 120 /\ x <> 88) as [Hx1 Hx2].
  { destruct cs as [|c1 cs]; [simpl in Ex; by subst x|]. simpl in Ex. subst x. inversion Hf' as [|? ? ? ? Hd1]; subst.
    split; intros ->; by vm_compute in Hd1. }
  destruct (Z.eqb_spec c 48); cbn [andb]; [|done]. rewrite Hx. cbn [mbind option_bind].
  destruct (Z.eqb_spec x 120); [done|]. destruct (Z.eqb_spec x 88); [done|]. done.
Qed.

Lemma strtoxl_numeral m p b ws sgn cs vs stop flags :
  numeral m p b ws sgn cs vs stop -> flags = 0 \/ flags = FL_UNSIGNED ->
  exists number' flags', read_so_far (value b 0 vs) number' flags' /\
    has_bits flags' FL_NEG = negative sgn /\ has_bits flags' FL_UNSIGNED = has_bits flags FL_UNSIGNED /\
    strtoxl m p true b flags =
      (let '(n, r) := finish number' flags' in
       Some (if negative sgn then u32 (- s32 n) else n, Some (p + zlen ws + zlen sgn + zlen cs), r)).
Proof.
  intros [Hb Hws Hsgn Hne Hf [Hstop Hx] Hsp] Hfl. assert (exists c0, c0 = hd stop (sgn ++ cs) /\ isspace (u8 c0) = 0) as (c0 & Ec0 & Hc0).
  { eexists. split; [done|]. destruct Hsgn as [->|[-> | ->]]; [|done..]. destruct cs as [|c1 cs]; [done|]. simpl.
    inversion Hf as [|? d ? ? Hd]; subst. by apply digval_not_sign in Hd as []. }
  pose proof Hsp as Hb'. apply spells_bound in Hb' as [Hp Hlen]; [|by destruct ws, sgn, cs]. rewrite !zlen_app in Hlen. change (zlen [stop]) with 1 in Hlen.
  assert (zlen sgn <= 1 /\ 0 <= zlen sgn) as [Hsl Hsl'] by by destruct Hsgn as [->|[-> | ->]].
  pose proof (zlen_nonneg ws). pose proof (zlen_nonneg cs).
  assert (spells m p (ws ++ [c0])) as Hsp0.
  { apply spells_app in Hsp as [H1 H2]. apply spells_app. split; [done|].
    rewrite app_assoc in H2. destruct (spells_head _ _ _ _ H2) as (c & Hc & Ec). split; [congruence|done]. }
  unfold strtoxl. assert (exists c, zget m p = Some c) as [c Hc] by (destruct (spells_head _ _ _ _ Hsp0) as (c & Hc & _); eauto).
  rewrite Hc. cbn [mbind option_bind].
  rewrite (skip_spaces_spec (turns m) m c p ws c0 Hws Hc0 Hsp0 Hc) by (unfold turns, zlen in *; lia). cbn [mbind option_bind].
  apply spells_app in Hsp as [_ Hsp]. apply spells_app in Hsp as [Hss Hsp]. set (q := p + zlen ws) in *.
  destruct (spells_head _ _ _ _ Hsp) as (c1 & Hc1 & Ec1).
  assert ((if c0 =? 45 then c ← zget m (q + 1); Some (Z.lor flags FL_NEG, c, q + 1 + 1)
           else if c0 =? 43 then c ← zget m (q + 1); Some (flags, c, q + 1 + 1) else Some (flags, c0, q + 1))
          = Some (if negative sgn then Z.lor flags FL_NEG else flags, c1, q + zlen sgn + 1)) as ->.
  { unfold negative. destruct Hsgn as [->|[-> | ->]]; simpl in Ec0; change (zlen [45]) with 1 in *; change (zlen [43]) with 1 in *; change (zlen (@nil Z)) with 0 in *.
    - destruct cs as [|c2 cs]; [done|]. simpl in *. inversion Hf as [|? d ? ? Hd]; subst. apply digval_not_sign in Hd as (_ & H45 & H43).
      destruct (Z.eqb_spec c2 45); [done|]. destruct (Z.eqb_spec c2 43); [done|]. by rewrite Z.add_0_r.
    - subst c0. simpl (45 =? 45). cbv iota. rewrite Hc1. cbn [mbind option_bind]. done.
    - subst c0. simpl (43 =? 45). simpl (43 =? 43). cbv iota. rewrite Hc1. cbn [mbind option_bind]. done. }
  cbn [mbind option_bind]. destruct (Z.ltb_spec b 0); [lia|]. destruct (Z.eqb_spec b 1); [lia|]. destruct (Z.ltb_spec 36 b); [lia|]. cbn [orb].
  rewrite (choose_base_id m b (q + zlen sgn) cs vs stop c1) by (done || lia). cbn [mbind option_bind].
  set (fl := if negative sgn then Z.lor flags FL_NEG else flags).
  destruct (strtoxl_digits (turns m) m b cs vs stop 0 0 fl c1 (q + zlen sgn)) as (n' & f' & -> & Hr & Hneg & Huns & Hrd); auto; try lia.
  { unfold turns, zlen in *. lia. }
  { unfold read_so_far, fl, ULONG_MAX. destruct Hfl as [-> | ->], (negative sgn); split; lia || done. }
  exists n', f'. split; [done|]. rewrite Hneg, Huns. unfold fl.
  assert (has_bits (if negative sgn then Z.lor flags FL_NEG else flags) FL_NEG = negative sgn) as En by (destruct Hfl as [-> | ->], (negative sgn); done).
  split; [done|]. split; [destruct Hfl as [-> | ->], (negative sgn); done|]. cbn [mbind option_bind]. rewrite Hrd.
  rewrite (bool_decide_eq_false_2 (cs = [])) by done. rewrite orb_true_r. cbn [negb]. rewrite Hneg. unfold fl. rewrite En.
  destruct (finish n' f') as [n1 r]. do 4 f_equal. lia.
Qed.

(** [strtol] reads a number and clamps it.  For a numeral of value [v] it
    returns [v] with its sign, or the nearest end of the range of [long] with
    [errno] set, and stores where the numeral stops; the one exception is the
    number one below the least [long], see [strtol_below_least]. *)
Theorem strtol_reads m p b ws sgn cs vs stop :
  numeral m p b ws sgn cs vs stop -> (negative sgn = true -> value b 0 vs <> 2 ^ 31 + 1) ->
  let v := if negative sgn then - value b 0 vs else value b 0 vs in
  strtol m p true b =
    Some (if v <? LONG_MIN then LONG_MIN else if LONG_MAX <? v then LONG_MAX else v,
          Some (p + zlen ws + zlen sgn + zlen cs), (v <? LONG_MIN) || (LONG_MAX <? v)).
Proof.
  intros Hnu Hex. destruct (strtoxl_numeral m p b ws sgn cs vs stop 0 Hnu (or_introl eq_refl)) as (n & f & Hr & Hneg & Huns & E).
  unfold strtol. rewrite E. unfold finish. rewrite Hneg, Huns. change (has_bits 0 FL_UNSIGNED) with false. cbn [negb andb].
  set (v := value b 0 vs) in *. unfold read_so_far, LONG_MIN, LONG_MAX, ULONG_MAX in *. change (u32 (- (2147483647))) with 2147483649.
  change (- (2147483647) - 1) with (-2147483648) in *. change (2 ^ 31 + 1) with 2147483649 in Hex.
  destruct (negative sgn); cbn [negb andb orb]; rewrite ?orb_false_r.
  - specialize (Hex eq_refl). destruct (has_bits f FL_OVERFLOW); cbn [orb].
    + destruct (Z.ltb_spec (- v) (-2147483648)); [|lia]. done.
    + destruct Hr as [-> Hr]. destruct (Z.ltb_spec 2147483649 v).
      * destruct (Z.ltb_spec (- v) (-2147483648)); [|lia]. done.
      * destruct (Z.ltb_spec (- v) (-2147483648)); [lia|]. destruct (Z.ltb_spec 2147483647 (- v)); [lia|].
        cbn [mbind option_bind orb]. do 3 f_equal. unfold s32, u32. destruct (decide (v = 2147483648)) as [->|]; [done|].
        rewrite (Z.mod_small (v + _)) by lia. replace (- (v + 2 ^ 31 - 2 ^ 31)) with (- v) by lia.
        rewrite Zplus_mod_idemp_l, Z.mod_small by lia. lia.
  - destruct (Z.ltb_spec v (-2147483648)); [destruct (has_bits f FL_OVERFLOW); lia|]. destruct (has_bits f FL_OVERFLOW); cbn [orb].
    + destruct (Z.ltb_spec 2147483647 v); [|lia]. done.
    + destruct Hr as [-> Hr]. destruct (Z.ltb_spec 2147483647 v); [done|]. cbn [mbind option_bind]. by rewrite s32_id by lia.
Qed.

(** The number one below the least [long] is read as the greatest.  The test
    for negative numbers compares with [-LONG_MAX] converted to unsigned,
    2147483649, so -2147483649 is let through and its negation wraps around:
    [strtol] returns 2147483647 and sets no error. *)
Theorem strtol_below_least m p b ws cs vs stop :
  numeral m p b ws [45] cs vs stop -> value b 0 vs = 2 ^ 31 + 1 ->
  strtol m p true b = Some (LONG_MAX, Some (p + zlen ws + 1 + zlen cs), false).
Proof.
  intros Hnu Hv. destruct (strtoxl_numeral m p b ws [45] cs vs stop 0 Hnu (or_introl eq_refl)) as (n & f & Hr & Hneg & Huns & E).
  unfold strtol. rewrite E. unfold finish. rewrite Hneg, Huns. rewrite Hv in Hr. unfold read_so_far, ULONG_MAX in Hr.
  destruct (has_bits f FL_OVERFLOW); [lia|]. destruct Hr as [-> _]. done.
Qed.

(** * What [number] prints, [strtol] reads *)

Lemma digval_digit large d b : 0 <= d < b -> b <= 36 -> digval (Printf.digit large d) b = Some d.
Proof.
  intros Hd Hb. assert (digval (Printf.digit large d) 36 = Some d) as H36.
  { assert (forallb (fun d => bool_decide (digval (Printf.digit large d) 36 = Some d)) (seqZ 0 36) = true) as H
      by (destruct large; by vm_compute).
    rewrite forallb_forall in H. specialize (H d). rewrite bool_decide_eq_true in H. apply H. apply list_elem_of_In, elem_of_seqZ. lia. }
  unfold digval in *. step H36 as d0 from E. cbn [mbind option_bind]. destruct (Z.leb_spec 36 (u32 d0)); [done|].
  injection H36 as ->. destruct (Z.leb_spec b d); [lia|done].
Qed.

(** Printing and reading a number.  Whatever [long] the kernel's [number]
    prints in a base from 2 to 36, upper or lower case, [strtol] of the C library
    reads back in that base, without an error and to the end of the text. *)
Theorem print_then_strtol n base (large : bool) :
  - 2 ^ 31 <= n < 2 ^ 31 -> 2 <= base <= 36 ->
  exists t, Printf.number n base (-1) (-1) (if large then Z.lor Printf.SIGN Printf.LARGE else Printf.SIGN) = Some t /\
    forall m p, spells m p (t ++ [0]) -> strtol m p true base = Some (n, Some (p + zlen t), false).
Proof.
  intros Hn Hb. set (ty := if large then Z.lor Printf.SIGN Printf.LARGE else Printf.SIGN).
  destruct (Printf.number_layout n base (-1) (-1) ty Hn Hb) as (lead & fill & trail & vs & Hnum & Hf & Hv & Hne & _ & _ & Hpad & _).
  destruct Hpad as (-> & -> & ->); [lia..|].
  assert (Printf.prefix_of_base ty base (has_bits ty Printf.LARGE) = []) as Epre by (unfold ty; by destruct large).
  rewrite Epre, app_nil_r in Hnum. cbn [app] in Hnum.
  assert (Printf.sign_of n ty = if n <? 0 then [45] else []) as Es by (unfold Printf.sign_of, ty; by destruct large).
  assert (Printf.magnitude n ty = Z.abs n) as Em by (unfold Printf.magnitude, ty; by destruct large). rewrite Em in Hv. rewrite Es in Hnum.
  eexists. split; [exact Hnum|]. intros m p Hsp. set (cs := Printf.digit (has_bits ty Printf.LARGE) <$> vs) in *.
  assert (numeral m p base [] (if n <? 0 then [45] else []) cs vs 0) as Hnu.
  { split; [done|done|destruct (n <? 0); auto| | |by split|by rewrite <- app_assoc in Hsp].
    - unfold cs. by destruct vs.
    - unfold cs. clear -Hf Hb. induction Hf as [|d vs Hd Hf IH]; constructor; [|done]. apply digval_digit; lia. }
  rewrite (strtol_reads m p base [] _ cs vs 0 Hnu).
  - rewrite Hv. change (zlen []) with 0. unfold negative, LONG_MIN, LONG_MAX. rewrite zlen_app, Z.add_0_r, <- Z.add_assoc.
    destruct (Z.ltb_spec n 0); [rewrite bool_decide_eq_true_2 by done|rewrite bool_decide_eq_false_2 by done].
    + rewrite Z.abs_neq, Z.opp_involutive by lia. destruct (Z.ltb_spec n (- (2147483647) - 1)); [lia|]. by destruct (Z.ltb_spec 2147483647 n); [lia|].
    + rewrite Z.abs_eq by lia. destruct (Z.ltb_spec n (- (2147483647) - 1)); [lia|]. by destruct (Z.ltb_spec 2147483647 n); [lia|].
  - unfold negative. rewrite Hv. destruct (Z.ltb_spec n 0); [lia|]. by rewrite bool_decide_eq_false_2 by done.
Qed.

(** * " -42," and "-2147483649" *)

Definition ex_text : mem := [0; 32; 45; 52; 50; 44; 0].
Definition ex_below : mem := [0; 45; 50; 49; 52; 55; 52; 56; 51; 54; 52; 57; 0].

Lemma ex_numeral : numeral ex_text 1 10 [32] [45] [52; 50] [4; 2] 44.
Proof. split; [lia|by repeat constructor|auto|done|by repeat constructor|by split|by vm_compute]. Qed.

Lemma strtol_reads_witness : strtol ex_text 1 true 10 = Some (-42, Some 5, false).
Proof. apply (strtol_reads ex_text 1 10 [32] [45] [52; 50] [4; 2] 44 ex_numeral). by vm_compute. Defined.

Lemma ex_numeral_below : numeral ex_below 1 10 [] [45] [50; 49; 52; 55; 52; 56; 51; 54; 52; 57] [2; 1; 4; 7; 4; 8; 3; 6; 4; 9] 0.
Proof. split; [lia|by repeat constructor|auto|done|by repeat constructor|by split|by vm_compute]. Qed.

Lemma strtol_below_least_witness : strtol ex_below 1 true 10 = Some (2147483647, Some 12, false).
Proof. apply (strtol_below_least ex_below 1 10 [] _ _ 0 ex_numeral_below). by vm_compute. Defined.

Lemma print_then_strtol_witness :
  exists t, Printf.number (-255) 16 (-1) (-1) (Z.lor Printf.SIGN Printf.LARGE) = Some t /\
    forall m p, spells m p (t ++ [0]) -> strtol m p true 16 = Some (-255, Some (p + zlen t), false).
Proof. apply (print_then_strtol (-255) 16 true); lia. Defined.

End Strtol.
