(* ===== verification/Kbd.v ===== *)
(** The keyboard: base/kbd.c.  The decoder of scan codes, the input buffer of
    each process, the interrupt handler and the calls that read characters. *)
From S2P Require Import Prelude Timer Queue Sched Lock Monitor Strings Vdisplay Printf.

Module Kbd.
Import Monitor Vdisplay.

Definition SCROLLOCK : Z := 0x0001.
Definition NUMLOCK : Z := 0x0002.
Definition CAPSLOCK : Z := 0x0004.
Definition LSHIFT : Z := 0x0008.
Definition RSHIFT : Z := 0x0010.
Definition LCTRL : Z := 0x0020.
Definition RCTRL : Z := 0x0040.
Definition LALT : Z := 0x0080.
Definition RALT : Z := 0x0100.
Definition KB_BUF_SIZE : Z := 256.

(** Scan code and character by key: alone, with shift, with control, with alt. *)
Definition key_table : list (list Z) := [
  [0x011b; 0x011b; 0x011b; 0x0100]; [0x0231; 0x0221; 0x0000; 0x7800]; [0x0332; 0x0340; 0x0300; 0x7900];
  [0x0433; 0x0423; 0x0000; 0x7a00]; [0x0534; 0x0524; 0x0000; 0x7b00]; [0x0635; 0x0625; 0x0000; 0x7c00];
  [0x0736; 0x075e; 0x071e; 0x7d00]; [0x0837; 0x0826; 0x0000; 0x7e00]; [0x0938; 0x092a; 0x0000; 0x7f00];
  [0x0a39; 0x0a28; 0x0000; 0x8000]; [0x0b30; 0x0b29; 0x0000; 0x8100]; [0x0c2d; 0x0c5f; 0x0c1f; 0x8200];
  [0x0d3d; 0x0d2b; 0x0000; 0x8300]; [0x0e08; 0x0e08; 0x0e7f; 0x0e00]; [0x0f09; 0x0f00; 0x9400; 0xa500];
  [0x1071; 0x1051; 0x1011; 0x1000]; [0x1177; 0x1157; 0x1117; 0x1100]; [0x1265; 0x1245; 0x1205; 0x1200];
  [0x1372; 0x1352; 0x1312; 0x1300]; [0x1474; 0x1454; 0x1414; 0x1400]; [0x1579; 0x1559; 0x1519; 0x1500];
  [0x1675; 0x1655; 0x1615; 0x1600]; [0x1769; 0x1749; 0x1709; 0x1700]; [0x186f; 0x184f; 0x180f; 0x1800];
  [0x1970; 0x1950; 0x1910; 0x1900]; [0x1a5b; 0x1a7b; 0x1a1b; 0x1a00]; [0x1b5d; 0x1b7d; 0x1b1d; 0x1b00];
  [0x1c0d; 0x1c0d; 0x1c0a; 0xa600]; [0x0000; 0x0000; 0x0000; 0x0000]; [0x1e61; 0x1e41; 0x1e01; 0x1e00];
  [0x1f73; 0x1f53; 0x1f13; 0x1f00]; [0x2064; 0x2044; 0x2004; 0x2000]; [0x2166; 0x2146; 0x2106; 0x2100];
  [0x2267; 0x2247; 0x2207; 0x2200]; [0x2368; 0x2348; 0x2308; 0x2300]; [0x246a; 0x244a; 0x240a; 0x2400];
  [0x256b; 0x254b; 0x250b; 0x2500]; [0x266c; 0x264c; 0x260c; 0x2600]; [0x273b; 0x273a; 0x0000; 0x2700];
  [0x2827; 0x2822; 0x0000; 0x0000]; [0x2960; 0x297e; 0x0000; 0x0000]; [0x0000; 0x0000; 0x0000; 0x0000];
  [0x2b5c; 0x2b7c; 0x2b1c; 0x2600]; [0x2c7a; 0x2c5a; 0x2c1a; 0x2c00]; [0x2d78; 0x2d58; 0x2d18; 0x2d00];
  [0x2e63; 0x2e42; 0x2e03; 0x2e00]; [0x2f76; 0x2f56; 0x2f16; 0x2f00]; [0x3062; 0x3042; 0x3002; 0x3000];
  [0x316e; 0x314e; 0x310e; 0x3100]; [0x326d; 0x324d; 0x320d; 0x3200]; [0x332c; 0x333c; 0x0000; 0x0000];
  [0x342e; 0x343e; 0x0000; 0x0000]; [0x352f; 0x353f; 0x0000; 0x0000]; [0x0000; 0x0000; 0x0000; 0x0000];
  [0x372a; 0x0000; 0x9600; 0x3700]; [0x0000; 0x0000; 0x0000; 0x0000]; [0x3920; 0x3920; 0x3920; 0x3920];
  [0x0000; 0x0000; 0x0000; 0x0000]; [0x3b00; 0x5400; 0x5e00; 0x6800]; [0x3c00; 0x5500; 0x5f00; 0x6900];
  [0x3d00; 0x5600; 0x6000; 0x6a00]; [0x3e00; 0x5700; 0x6100; 0x6b00]; [0x3f00; 0x5800; 0x6200; 0x6c00];
  [0x4000; 0x5900; 0x6300; 0x6d00]; [0x4100; 0x5a00; 0x6400; 0x6e00]; [0x4200; 0x5b00; 0x6500; 0x6f00];
  [0x4300; 0x5c00; 0x6600; 0x7000]; [0x4400; 0x5d00; 0x6700; 0x7100]; [0x0000; 0x0000; 0x0000; 0x0000];
  [0x0000; 0x0000; 0x0000; 0x0000]; [0x4700; 0x4737; 0x7700; 0x9700]; [0x4800; 0x4838; 0x8d00; 0x9800];
  [0x4900; 0x4939; 0x8400; 0x9900]; [0x4a2d; 0x4a2d; 0x8e00; 0x4a00]; [0x4b00; 0x4b34; 0x7300; 0x9b00];
  [0x0000; 0x4c35; 0x8f00; 0x0000]; [0x4d00; 0x4d36; 0x7400; 0x9d00]; [0x4e2b; 0x4e2b; 0x0000; 0x4e00];
  [0x4f00; 0x4f31; 0x7500; 0x9f00]; [0x5000; 0x5032; 0x9100; 0xa000]; [0x5100; 0x5133; 0x7600; 0xa100];
  [0x5200; 0x5230; 0x9200; 0xa200]; [0x5300; 0x532e; 0x9300; 0xa300]].

(** * The decoder *)

(** [kb_flags] and the static variables of [kbd_intr_handler].  No other code
    reads or writes them. *)
Record decoder := mk_dec { kb_flags : Z; modebyte : Z; mode_set : Z; prev_ext : Z; pause_code_count : Z }.

Definition set_flags (f : Z) (d : decoder) : decoder := mk_dec (u16 f) (modebyte d) (mode_set d) (prev_ext d) (pause_code_count d).
Definition set_led (m s : Z) (d : decoder) : decoder := mk_dec (kb_flags d) m s (prev_ext d) (pause_code_count d).
Definition set_ext (e : Z) (d : decoder) : decoder := mk_dec (kb_flags d) (modebyte d) (mode_set d) e (pause_code_count d).
Definition set_pause (n : Z) (d : decoder) : decoder := mk_dec (kb_flags d) (modebyte d) (mode_set d) (prev_ext d) n.

(** What the handler does besides updating the decoder, in order. *)
Inductive action :=
  | AInsert (scan_ascii : Z)   (* [input_insert] *)
  | AScrollOff | AScrollOn
  | AOut (v : Z)               (* [out_byte(0x60, v)] *)
  | AUnhandled (code : Z).     (* the message of [printk] *)

Definition key_col (flags : Z) : Z :=
  if has_bits flags LSHIFT || has_bits flags RSHIFT then 1
  else if has_bits flags LCTRL || has_bits flags RCTRL then 2
  else if has_bits flags LALT || has_bits flags RALT then 3
  else 0.

(** [key_table[cur_code - 1][col]]. *)
Definition key_entry (code col : Z) : option Z := row ← zget key_table (code - 1); v ← zget row col; Some (u16 v).

Definition check_caps_lock (flags scan_ascii code : Z) : option Z :=
  let asc := Z.land scan_ascii 0x00ff in
  if has_bits flags CAPSLOCK && (0x61 <=? asc) && (asc <=? 0x7a) then key_entry code 1
  else if has_bits flags CAPSLOCK && (0x41 <=? asc) && (asc <=? 0x5a) then key_entry code 0
  else Some scan_ascii.

(** Toggle a lock and its light: the flags first, then the mode byte, then the
    command that sets the lights. *)
Definition toggle (bit : Z) (d : decoder) : decoder :=
  let d := set_flags (Z.lxor (kb_flags d) bit) d in set_led (Z.lxor (modebyte d) bit) 1 d.

(** A make code that has to be translated. *)
Definition decode_make (code : Z) (d : decoder) : option (decoder * list action) :=
  scan_ascii ← key_entry code (key_col (kb_flags d));
  let flag b := Some (set_flags (Z.lor (kb_flags d) b) d, []) in
  if scan_ascii =? 0x0000 then
    if code =? 0x1d then flag LCTRL
    else if code =? 0x2a then flag LSHIFT
    else if code =? 0x36 then flag RSHIFT
    else if code =? 0x38 then flag LALT
    else if code =? 0x3a then Some (toggle CAPSLOCK d, [AOut 0xed])
    else if code =? 0x45 then Some (toggle NUMLOCK d, [AOut 0xed])
    else if code =? 0x46 then
      let d := toggle SCROLLOCK d in
      Some (d, [if has_bits (kb_flags d) SCROLLOCK then AScrollOff else AScrollOn; AOut 0xed])
    else Some (d, [])
  else scan_ascii ← check_caps_lock (kb_flags d) scan_ascii code; Some (d, [AInsert scan_ascii]).

(** The byte after 0xe0.  [send_ctrl_break] does nothing. *)
Definition decode_extended (code : Z) (d : decoder) : option (decoder * list action) :=
  '(d, acts) ← (if code =? 0x38 then Some (set_flags (Z.lor (kb_flags d) RALT) d, [])
                else if code =? 0x1d then Some (set_flags (Z.lor (kb_flags d) RCTRL) d, [])
                else if code =? 0x46 then Some (d, [])
                else if code <=? 0x53 then
                  scan_ascii ← key_entry code (key_col (kb_flags d));
                  if negb (scan_ascii =? 0x0000) then
                    scan_ascii ← check_caps_lock (kb_flags d) scan_ascii code; Some (d, [AInsert scan_ascii])
                  else Some (d, [])
                else Some (d, []));
  Some (set_ext 0 d, acts).

(** Acknowledgements, prefixes and break codes. *)
Definition decode_other (code : Z) (d : decoder) : decoder * list action :=
  let '(d, acts) := if (code =? 0xfa) && (mode_set d =? 1) then (set_led (modebyte d) 0 d, [AOut (modebyte d)]) else (d, []) in
  let '(d, acts) := if code =? 0xe0 then (set_ext 1 d, acts)
                    else if code =? 0xe1 then (set_pause 5 d, acts)
                    else if (0x53 <? code) && (code <? 0x81) then (d, acts ++ [AUnhandled code])
                    else (d, acts) in
  let clear b := set_flags (Z.land (kb_flags d) (Z.lnot b)) d in
  (if code =? 0x9d then clear LCTRL
   else if code =? 0xaa then clear LSHIFT
   else if code =? 0xb6 then clear RSHIFT
   else if code =? 0xb8 then clear LALT
   else d, acts).

(** One byte from port 0x60. *)
Definition decode (code : Z) (d : decoder) : option (decoder * list action) :=
  if (prev_ext d =? 0) && (pause_code_count d =? 0) && (code <=? 0x53) then decode_make code d
  else if negb (prev_ext d =? 0) then decode_extended code d
  else if 0 <? pause_code_count d then Some (set_pause (pause_code_count d - 1) d, [])
  else Some (decode_other code d).

(** * Input buffers *)

Record input_info := mk_in { input_buf_lock : loc; input_available : loc; input_buf : list Z; kbhead : Z; kbtail : Z }.

Definition with_buf (b : list Z) (i : input_info) : input_info := mk_in (input_buf_lock i) (input_available i) b (kbhead i) (kbtail i).
Definition with_head (h : Z) (i : input_info) : input_info := mk_in (input_buf_lock i) (input_available i) (input_buf i) h (kbtail i).
Definition with_tail (t : Z) (i : input_info) : input_info := mk_in (input_buf_lock i) (input_available i) (input_buf i) (kbhead i) t.

(** Store a code at the tail unless the buffer is full. *)
Definition buf_put (scan_ascii : Z) (i : input_info) : option input_info :=
  if negb (cmod (kbtail i + 1) KB_BUF_SIZE =? kbhead i) then
    b ← zset (input_buf i) (kbtail i) (s16 scan_ascii);
    Some (with_tail (cmod (kbtail i + 1) KB_BUF_SIZE) (with_buf b i))
  else Some i.

(** [insertkb_char]'s store, at the head. *)
Definition buf_unget (c : Z) (i : input_info) : option (Z * input_info) :=
  let scan_ascii := u16 (if c <? 32 then Z.shiftl c 8 else Z.lor c (Z.shiftl c 8)) in
  let h := kbhead i - 1 in
  let h := if h <? 0 then KB_BUF_SIZE - 1 else h in
  if negb (kbtail i =? h) then
    b ← zset (input_buf i) (kbhead i) (s16 scan_ascii);
    Some (c, with_head h (with_buf b i))
  else Some (-1, i).

(** Take one code: the head moves on, but the code is read at the index [h],
    which the source takes from the process that has the keyboard. *)
Definition buf_take (h : Z) (i : input_info) : option (Z * input_info) :=
  c ← zget (input_buf i) h; Some (c, with_head (cmod (kbhead i + 1) KB_BUF_SIZE) i).

Section Driver.
Context {K : Type} `{!Monitor K}.

(** The keyboard's state: the decoder, the input record of every process, the
    list of processes, the screens and the rest of the kernel. *)
Record kbd := mk_kbd {
  dec : decoder; inputs : gmap loc input_info; proc_next : gmap loc ptr; used_processes : ptr;
  kbd_wait_lock : loc; disp : display; kern : K }.

Definition set_dec (d : decoder) (s : kbd) : kbd := mk_kbd d (inputs s) (proc_next s) (used_processes s) (kbd_wait_lock s) (disp s) (kern s).
Definition set_inputs (m : gmap loc input_info) (s : kbd) : kbd := mk_kbd (dec s) m (proc_next s) (used_processes s) (kbd_wait_lock s) (disp s) (kern s).
Definition set_disp (d : display) (s : kbd) : kbd := mk_kbd (dec s) (inputs s) (proc_next s) (used_processes s) (kbd_wait_lock s) d (kern s).
Definition set_kern (k : K) (s : kbd) : kbd := mk_kbd (dec s) (inputs s) (proc_next s) (used_processes s) (kbd_wait_lock s) (disp s) k.

(** [kbd_focus]'s input record. *)
Definition focus_input (s : kbd) : option (loc * input_info) := f ← kbd_focus (disp s); i ← inputs s !! f; Some (f, i).

Definition do_lock (l : loc) (s : kbd) : option (Lock.outcome * kbd) := '(o, k) ← lock l (kern s); Some (o, set_kern k s).
Definition do_unlock (l : loc) (s : kbd) : option kbd := '(_, k) ← unlock l (kern s); Some (set_kern k s).
Definition do_wake (e : loc) (s : kbd) : option kbd := '(_, k) ← wake e (kern s); Some (set_kern k s).

(** The critical section of [input_insert], with the lock held. *)
Definition input_insert_2 (scan_ascii : Z) (s : kbd) : option kbd :=
  '(f, i) ← focus_input s;
  i' ← buf_put scan_ascii i;
  let s := set_inputs (<[f := i']> (inputs s)) s in
  s ← do_wake (input_available i) s;
  do_unlock (input_buf_lock i) s.

(** That of [change_kbd_focus]. *)
Definition change_kbd_focus_2 (s : kbd) : option kbd :=
  f ← kbd_focus (disp s);
  nx ← proc_next s !! f;
  p1 ← (match nx with Some p => Some p | None => used_processes s end);
  d ← change_screen p1 (disp s);
  let s := set_disp (set_focus (Some p1) d) s in
  do_unlock (kbd_wait_lock s) s.

(** Where a handler that sleeps in [_lock] goes on. *)
Inductive cont := CInsert (scan_ascii : Z) | CFocus | CScroll.
Inductive handled := Done | Waiting (l : loc) (c : cont).

Definition continue (c : cont) (s : kbd) : option kbd :=
  match c with
  | CInsert a => input_insert_2 a s
  | CFocus => change_kbd_focus_2 s
  | CScroll => Some s
  end.

Definition lock_then (l : loc) (c : cont) (s : kbd) : option (handled * kbd) :=
  '(o, s) ← do_lock l s;
  match o with
  | Lock.Returned _ => s ← continue c s; Some (Done, s)
  | Lock.Blocked => Some (Waiting l c, s)
  end.

(** [input_insert]: alt-a changes the focus, control-a is for debugging. *)
Definition input_insert (scan_ascii : Z) (s : kbd) : option (handled * kbd) :=
  if scan_ascii =? 0x1E00 then lock_then (kbd_wait_lock s) CFocus s
  else if scan_ascii =? 0x1E01 then Some (Done, s)
  else '(_, i) ← focus_input s; lock_then (input_buf_lock i) (CInsert scan_ascii) s.

Definition focus_output_lock (s : kbd) : option loc := f ← kbd_focus (disp s); o ← outs (disp s) !! f; Some (output_lock o).
Definition scroll_off (s : kbd) : option (handled * kbd) := l ← focus_output_lock s; lock_then l CScroll s.
Definition scroll_on (s : kbd) : option kbd := l ← focus_output_lock s; do_unlock l s.

(** "Un handled key code : %x\n" *)
Definition unhandled_fmt : list Z :=
  [85; 110; 32; 104; 97; 110; 100; 108; 101; 100; 32; 107; 101; 121; 32; 99; 111; 100; 101; 32; 58; 32; 37; 120; 10].

Definition perform (a : action) (s : kbd) : option (handled * kbd) :=
  match a with
  | AInsert c => input_insert c s
  | AScrollOff => scroll_off s
  | AScrollOn => s ← scroll_on s; Some (Done, s)
  | AOut v => Some (Done, set_disp (out_byte 0x60 v (disp s)) s)
  | AUnhandled code => '(_, d) ← Printf.printk unhandled_fmt [Printf.Word code] (disp s); Some (Done, set_disp d s)
  end.

(** The actions in order; on a wait, what is left to do. *)
Fixpoint perform_all (acts : list action) (s : kbd) : option (handled * list action * kbd) :=
  match acts with
  | [] => Some (Done, [], s)
  | a :: acts =>
      '(h, s) ← perform a s;
      match h with Done => perform_all acts s | Waiting l c => Some (Waiting l c, acts, s) end
  end.

(** * Reading *)

(** [kbd_getchar] and [kbd_read] of the process [p] at their labels, with the
    lock held: wait if there is nothing, else take.  A thread that wakes up
    takes the lock again and comes back here. *)
Definition kbd_getchar_2 (p : loc) (s : kbd) : option (option Z * kbd) :=
  i ← inputs s !! p;
  if kbtail i =? kbhead i then
    '(_, k) ← sleep (input_available i) (input_buf_lock i) (kern s); Some (None, set_kern k s)
  else
    '(_, fi) ← focus_input s;
    '(c, i') ← buf_take (kbhead fi) i;
    let s := set_inputs (<[p := i']> (inputs s)) s in
    s ← do_unlock (input_buf_lock i) s;
    Some (Some (u16 c), s).

Fixpoint kbd_read_loop (nbytes : nat) (p : loc) (s : kbd) (buf : list Z) : option (list Z * kbd) :=
  match nbytes with
  | O => Some (buf, s)
  | S nbytes =>
      i ← inputs s !! p;
      if kbtail i =? kbhead i then Some (buf, s) else
      '(_, fi) ← focus_input s;
      '(c, i') ← buf_take (kbhead fi) i;
      kbd_read_loop nbytes p (set_inputs (<[p := i']> (inputs s)) s) (buf ++ [s8 (Z.land c 0xFF)])
  end.

(** The characters read; their number is what [kbd_read] returns. *)
Definition kbd_read_2 (p : loc) (nbytes : Z) (s : kbd) : option (option (list Z) * kbd) :=
  i ← inputs s !! p;
  if kbtail i =? kbhead i then
    '(_, k) ← sleep (input_available i) (input_buf_lock i) (kern s); Some (None, set_kern k s)
  else
    '(buf, s) ← kbd_read_loop (Z.to_nat nbytes) p s [];
    s ← do_unlock (input_buf_lock i) s;
    Some (Some buf, s).

(** [syscall_getchar] echoes the character it got. *)
Definition syscall_getchar_2 (p : loc) (s : kbd) : option (option Z * kbd) :=
  '(r, s) ← kbd_getchar_2 p s;
  match r with
  | Some code =>
      if negb (Z.land code 0xff =? 0) then
        d ← output_proc [s8 (Z.land code 0xff)] 1 (disp s); Some (Some code, set_disp d s)
      else Some (Some code, s)
  | None => Some (None, s)
  end.
Definition syscall_getchare_2 (p : loc) (s : kbd) : option (option Z * kbd) :=
  '(r, s) ← kbd_getchar_2 p s;
  Some (match r with Some code => Some (Z.land code 0xff) | None => None end, s).

(** [insertkb_char] with the lock held. *)
Definition insertkb_char_2 (c : Z) (s : kbd) : option (Z * kbd) :=
  '(f, i) ← focus_input s;
  '(r, i') ← buf_unget c i;
  let s := set_inputs (<[f := i']> (inputs s)) s in
  s ← do_wake (input_available i) s;
  s ← do_unlock (input_buf_lock i) s;
  Some (r, s).

End Driver.
Arguments kbd : clear implicits.

(** * The interrupt handler *)

(** The interrupted thread becomes ready and the keyboard's thread runs; the
    FPU and task-state registers are not modelled. *)
Definition kbd_enter (kbd_thread system_process : loc) (s : kbd Sched.kstate) : option (kbd Sched.kstate) :=
  let k := kern s in
  let ithr := Sched.current_thread k in
  let d := disp s in
  let d := mk_d (vga d) (outs d) (Some system_process) (kbd_focus d) (gX d) (gY d) (ports d) in
  let k := Sched.set_current kbd_thread k in
  k ← Sched.upd_thr kbd_thread (Sched.with_state Sched.THREAD_STATE_RUNNING) k;
  k ← Sched.upd_thr kbd_thread (fun x => Sched.with_quantum Sched.TIME_QUANTUM (Sched.sc_thrreadystart x) x) k;
  k ← Sched.upd_thr ithr (Sched.with_state Sched.THREAD_STATE_READY) k;
  k ← Sched.add_readyq ithr k;
  Some (set_disp d (set_kern k s)).

Definition kbd_leave (s : kbd Sched.kstate) : option (kbd Sched.kstate) :=
  k ← Sched.upd_thr (Sched.current_thread (kern s)) (Sched.with_state Sched.THREAD_STATE_SLEEP) (kern s);
  k ← Sched.scheduler k;
  Some (set_kern k s).

Definition after_actions (r : handled * list action * kbd Sched.kstate) : option (handled * list action * kbd Sched.kstate) :=
  let '(h, acts, s) := r in
  match h with Done => s ← kbd_leave s; Some (Done, [], s) | Waiting l c => Some (Waiting l c, acts, s) end.

(** The whole handler for the byte [cur_code] read from port 0x60; it ends, or
    waits for a lock with actions left. *)
Definition kbd_intr_handler (kbd_thread system_process : loc) (cur_code : Z) (s : kbd Sched.kstate)
  : option (handled * list action * kbd Sched.kstate) :=
  s ← kbd_enter kbd_thread system_process s;
  '(d, acts) ← decode cur_code (dec s);
  r ← perform_all acts (set_dec d s);
  after_actions r.

(** A handler that waited runs again: it tries the lock once more. *)
Definition kbd_intr_resume (l : loc) (c : cont) (acts : list action) (s : kbd Sched.kstate)
  : option (handled * list action * kbd Sched.kstate) :=
  '(h, s) ← lock_then l c s;
  match h with
  | Done => r ← perform_all acts s; after_actions r
  | Waiting l c => Some (Waiting l c, acts, s)
  end.

(** * Modifier keys *)

(** What happens at the keyboard: a key goes down or up (an extended one sends
    0xe0 first), the pause key is hit, the controller acknowledges a command. *)
Inductive key_event := Press (k : Z) | Release (k : Z) | XPress (k : Z) | XRelease (k : Z) | PauseKey | Ack.

Definition bytes (ev : key_event) : list Z :=
  match ev with
  | Press k => [k]
  | Release k => [k + 0x80]
  | XPress k => [0xe0; k]
  | XRelease k => [0xe0; k + 0x80]
  | PauseKey => [0xe1; 0x1d; 0x45; 0xe1; 0x9d; 0xc5]
  | Ack => [0xfa]
  end.

(** The keys are numbered from 1 to 0x53. *)
Definition event_ok (ev : key_event) : Prop :=
  match ev with Press k | Release k | XPress k | XRelease k => 1 <= k <= 0x53 | PauseKey | Ack => True end.

Fixpoint decode_all (codes : list Z) (d : decoder) : option (decoder * list action) :=
  match codes with
  | [] => Some (d, [])
  | c :: codes => '(d, a1) ← decode c d; '(d, a2) ← decode_all codes d; Some (d, a1 ++ a2)
  end.

(** Is the key [k] down after the events, newest first? *)
Fixpoint held (k : Z) (evs : list key_event) : bool :=
  match evs with
  | Press k' :: evs => (k' =? k) || held k evs
  | Release k' :: evs => negb (k' =? k) && held k evs
  | _ :: evs => held k evs
  | [] => false
  end.
(** Has [k] been pressed an odd number of times? *)
Fixpoint toggled (k : Z) (evs : list key_event) : bool :=
  match evs with
  | Press k' :: evs => xorb (k' =? k) (toggled k evs)
  | _ :: evs => toggled k evs
  | [] => false
  end.
(** Has the extended key [k] ever been pressed? *)
Fixpoint ever_xpressed (k : Z) (evs : list key_event) : bool :=
  match evs with
  | XPress k' :: evs => (k' =? k) || ever_xpressed k evs
  | _ :: evs => ever_xpressed k evs
  | [] => false
  end.

(** The flags say what the history says. *)
Record tracks (evs : list key_event) (f : Z) : Prop := {
  tr_lshift : Z.testbit f 3 = held 0x2a evs;
  tr_rshift : Z.testbit f 4 = held 0x36 evs;
  tr_lctrl : Z.testbit f 5 = held 0x1d evs;
  tr_lalt : Z.testbit f 7 = held 0x38 evs;
  tr_scroll : Z.testbit f 0 = toggled 0x46 evs;
  tr_num : Z.testbit f 1 = toggled 0x45 evs;
  tr_caps : Z.testbit f 2 = toggled 0x3a evs;
  tr_rctrl : Z.testbit f 6 = ever_xpressed 0x1d evs;
  tr_ralt : Z.testbit f 8 = ever_xpressed 0x38 evs }.

(** Between keys. *)
Definition idle (d : decoder) : Prop := prev_ext d = 0 /\ pause_code_count d = 0.

Lemma testbit_u16 x i : 0 <= i < 16 -> Z.testbit (u16 x) i = Z.testbit x i.
Proof. intros. unfold u16. apply Z.mod_pow2_bits_low. lia. Qed.

Lemma key_col_range f : 0 <= key_col f < 4.
Proof. unfold key_col. repeat case_match; lia. Qed.

(** The table has an entry for every key and column, and the modifier keys have
    no code of their own. *)
Lemma key_entry_total code col : 1 <= code <= 0x53 -> 0 <= col < 4 -> is_Some (key_entry code col).
Proof.
  intros Hc Hl. assert (forallb (fun c => forallb (fun l => bool_decide (is_Some (key_entry c l))) (seqZ 0 4)) (seqZ 1 83) = true) as H by by vm_compute.
  rewrite forallb_forall in H. specialize (H code). rewrite forallb_forall in H. specialize (H ltac:(apply list_elem_of_In, elem_of_seqZ; lia) col).
  rewrite bool_decide_eq_true in H. apply H. apply list_elem_of_In, elem_of_seqZ. lia.
Qed.

Definition special_keys : list Z := [0x1d; 0x2a; 0x36; 0x38; 0x3a; 0x45; 0x46].

Lemma key_entry_special code col : code ∈ special_keys -> 0 <= col < 4 -> key_entry code col = Some 0.
Proof.
  intros Hc Hl. assert (forallb (fun c => forallb (fun l => bool_decide (key_entry c l = Some 0)) (seqZ 0 4)) special_keys = true) as H by by vm_compute.
  rewrite forallb_forall in H. specialize (H code). rewrite forallb_forall in H. specialize (H ltac:(by apply list_elem_of_In) col).
  rewrite bool_decide_eq_true in H. apply H. apply list_elem_of_In, elem_of_seqZ. lia.
Qed.

Lemma check_caps_total f a code : 1 <= code <= 0x53 -> is_Some (check_caps_lock f a code).
Proof. intros. unfold check_caps_lock. repeat case_match; try (apply key_entry_total; lia). by eexists. Qed.

(** ** One event *)

(** What an event does to the flags. *)
Definition flags_after (ev : key_event) (f : Z) : Z :=
  match ev with
  | Press k =>
      if k =? 0x1d then u16 (Z.lor f LCTRL) else if k =? 0x2a then u16 (Z.lor f LSHIFT)
      else if k =? 0x36 then u16 (Z.lor f RSHIFT) else if k =? 0x38 then u16 (Z.lor f LALT)
      else if k =? 0x3a then u16 (Z.lxor f CAPSLOCK) else if k =? 0x45 then u16 (Z.lxor f NUMLOCK)
      else if k =? 0x46 then u16 (Z.lxor f SCROLLOCK) else f
  | Release k =>
      if k =? 0x1d then u16 (Z.land f (Z.lnot LCTRL)) else if k =? 0x2a then u16 (Z.land f (Z.lnot LSHIFT))
      else if k =? 0x36 then u16 (Z.land f (Z.lnot RSHIFT)) else if k =? 0x38 then u16 (Z.land f (Z.lnot LALT)) else f
  | XPress k => if k =? 0x38 then u16 (Z.lor f RALT) else if k =? 0x1d then u16 (Z.lor f RCTRL) else f
  | XRelease _ | PauseKey | Ack => f
  end.

Lemma decode_press k d :
  idle d -> 1 <= k <= 0x53 ->
  exists d' acts, decode k d = Some (d', acts) /\ idle d' /\ kb_flags d' = flags_after (Press k) (kb_flags d).
Proof.
  intros Hi Hk. pose proof Hi as [He Hp]. unfold decode. rewrite He, Hp. destruct (Z.leb_spec k 0x53); [|lia]. cbn [Z.eqb andb]. unfold decode_make.
  pose proof (key_col_range (kb_flags d)) as Hcol. destruct (decide (k ∈ special_keys)) as [Hsp|Hns].
  - rewrite (key_entry_special k _ Hsp Hcol). cbn [mbind option_bind]. rewrite Z.eqb_refl.
    repeat (apply elem_of_cons in Hsp as [->|Hsp]; [do 2 eexists; split; [reflexivity|by split]|]). by apply elem_of_nil in Hsp.
  - destruct (key_entry_total k _ Hk Hcol) as [a ->]. cbn [mbind option_bind]. unfold special_keys in Hns.
    repeat (apply not_elem_of_cons in Hns as [?%Z.eqb_neq Hns]). unfold flags_after.
    repeat match goal with E : (k =? _) = false |- _ => rewrite E; clear E end.
    destruct (a =? 0); [by do 2 eexists|]. destruct (check_caps_total (kb_flags d) a k Hk) as [c ->]. by do 2 eexists.
Qed.

Lemma decode_extended_spec code d :
  1 <= code <= 0xff -> prev_ext d = 1 -> pause_code_count d = 0 ->
  exists d' acts, decode code d = Some (d', acts) /\ idle d' /\ kb_flags d' = flags_after (XPress code) (kb_flags d).
Proof.
  intros Hc He Hp. unfold decode. rewrite He. cbn [Z.eqb andb negb]. unfold decode_extended, flags_after.
  destruct (Z.eqb_spec code 0x38) as [->|H1]; [by do 2 eexists|]. destruct (Z.eqb_spec code 0x1d) as [->|H2]; [by do 2 eexists|].
  destruct (Z.eqb_spec code 0x46) as [->|H3]; [by do 2 eexists|]. destruct (Z.leb_spec code 0x53); [|by do 2 eexists].
  destruct (key_entry_total code (key_col (kb_flags d))) as [a ->]; [lia|apply key_col_range|]. cbn [mbind option_bind].
  destruct (a =? 0); cbn [negb]; [by do 2 eexists|]. destruct (check_caps_total (kb_flags d) a code) as [c ->]; [lia|]. by do 2 eexists.
Qed.

Lemma decode_prefix d : idle d -> decode 0xe0 d = Some (set_ext 1 d, []).
Proof. intros [He Hp]. unfold decode. by rewrite He, Hp. Qed.

(** Every event leaves the decoder idle again. *)
Lemma decode_event ev d :
  idle d -> event_ok ev ->
  exists d' acts, decode_all (bytes ev) d = Some (d', acts) /\ idle d' /\ kb_flags d' = flags_after ev (kb_flags d).
Proof.
  intros Hi Hev. pose proof Hi as [He Hp]. destruct ev as [k|k|k|k| |]; cbn [bytes decode_all event_ok] in *.
  - destruct (decode_press k d Hi Hev) as (d' & acts & -> & Hd' & Hf). cbn [mbind option_bind]. by do 2 eexists.
  - unfold decode. rewrite He, Hp. destruct (Z.leb_spec (k + 128) 0x53); [lia|]. cbn [Z.eqb andb negb Z.ltb Z.compare]. unfold decode_other.
    destruct (Z.eqb_spec (k + 128) 0xfa); [lia|]. destruct (Z.eqb_spec (k + 128) 0xe0); [lia|]. destruct (Z.eqb_spec (k + 128) 0xe1); [lia|].
    destruct (Z.ltb_spec (k + 128) 0x81); [lia|]. rewrite andb_false_r. cbn [andb mbind option_bind]. unfold flags_after.
    assert (forall c, (k + 128 =? c + 128) = (k =? c)) as Hadd by (intros c; destruct (Z.eqb_spec k c), (Z.eqb_spec (k + 128) (c + 128)); lia || done).
    change 0x9d with (0x1d + 128). change 0xaa with (0x2a + 128). change 0xb6 with (0x36 + 128). change 0xb8 with (0x38 + 128). rewrite !Hadd.
    do 2 eexists. split; [reflexivity|]. repeat case_match; by split.
  - rewrite decode_prefix by done. cbn [mbind option_bind].
    destruct (decode_extended_spec k (set_ext 1 d)) as (d' & acts & -> & Hi' & Hf); [lia|done|done|]. cbn [mbind option_bind]. by do 2 eexists.
  - rewrite decode_prefix by done. cbn [mbind option_bind].
    destruct (decode_extended_spec (k + 0x80) (set_ext 1 d)) as (d' & acts & -> & Hi' & Hf); [lia|done|done|]. cbn [mbind option_bind].
    do 2 eexists. split; [done|]. split; [done|]. rewrite Hf. unfold flags_after.
    destruct (Z.eqb_spec (k + 128) 0x38); [lia|]. destruct (Z.eqb_spec (k + 128) 0x1d); [lia|done].
  - destruct d as [f mb ms pe pc]. simpl in He, Hp. subst pe pc. by do 2 eexists.
  - unfold decode. rewrite He, Hp. cbn [Z.eqb andb negb Z.ltb Z.compare Z.leb]. unfold decode_other.
    change (250 =? 250) with true. cbn [andb]. destruct (mode_set d =? 1); (do 2 eexists; split; [reflexivity|by split]).
Qed.

(** Bits of flag expressions; the bits of the constants are computed. *)
Ltac flag_bits :=
  rewrite ?testbit_u16 by lia; rewrite ?Z.lor_spec, ?Z.lxor_spec, ?Z.land_spec, ?Z.lnot_spec by lia;
  repeat match goal with
  | |- context [Z.testbit ?c ?i] =>
      let v := eval vm_compute in (Z.testbit c i) in
      match v with true => change (Z.testbit c i) with true | false => change (Z.testbit c i) with false end
  end;
  cbn [negb]; rewrite ?orb_false_r, ?orb_true_r, ?xorb_false_r, ?andb_true_r, ?andb_false_r.

(** Case analysis on which of the keys the code knows this one is. *)
Ltac which_key k :=
  repeat match goal with |- context [k =? ?c] => destruct (Z.eqb_spec k c) as [->|?]; [try discriminate; try lia|] end.

Lemma tracks_event ev evs f : tracks evs f -> tracks (ev :: evs) (flags_after ev f).
Proof.
  intros [H1 H2 H3 H4 H5 H6 H7 H8 H9].
  destruct ev as [k|k|k|k| |]; [| | |done..]; split; cbn [held toggled ever_xpressed flags_after]; which_key k;
    cbn [orb andb negb xorb Z.eqb Pos.eqb]; flag_bits; rewrite ?xorb_true_r; try done; try congruence.
  - by rewrite H5.
  - by rewrite H6.
  - by rewrite H7.
Qed.

Lemma tracks_start : tracks [] 0.
Proof. by split. Qed.

Lemma decode_all_app c1 c2 d :
  decode_all (c1 ++ c2) d = ('(d, a1) ← decode_all c1 d; '(d, a2) ← decode_all c2 d; Some (d, a1 ++ a2)).
Proof.
  revert d. induction c1 as [|c c1 IH]; intros d; cbn [app decode_all mbind option_bind].
  - by destruct (decode_all c2 d) as [[d' a]|].
  - destruct (decode c d) as [[d1 a1]|]; [|done]. cbn [mbind option_bind]. rewrite IH.
    destruct (decode_all c1 d1) as [[d2 a2]|]; [|done]. cbn [mbind option_bind].
    destruct (decode_all c2 d2) as [[d3 a3]|]; [|done]. cbn [mbind option_bind]. by rewrite app_assoc.
Qed.

(** From the state at start-up, after any events (newest first). *)
Definition power_on : decoder := mk_dec 0 0 0 0 0.
Definition history (evs : list key_event) : list Z := concat (bytes <$> rev evs).

Lemma history_cons ev evs : history (ev :: evs) = history evs ++ bytes ev.
Proof. unfold history. simpl. rewrite fmap_app, concat_app. simpl. by rewrite app_nil_r. Qed.

Lemma decode_history evs :
  Forall event_ok evs ->
  exists d acts, decode_all (history evs) power_on = Some (d, acts) /\ idle d /\ tracks evs (kb_flags d).
Proof.
  induction 1 as [|ev evs Hev Hevs (d & acts & IH & Hi & Ht)]; [by do 2 eexists|].
  destruct (decode_event ev d Hi Hev) as (d' & acts' & Hd & Hi' & Hf). exists d', (acts ++ acts').
  rewrite history_cons, decode_all_app, IH. cbn [mbind option_bind]. rewrite Hd. cbn [mbind option_bind]. split; [done|].
  split; [done|]. rewrite Hf. by apply tracks_event.
Qed.

(** C37: The modifier flags tell the truth about the left-hand keys.  After any
    sequence of key presses and releases, extended keys, pause keys and
    acknowledgements, decoded from the bytes they send, the shift, left control
    and left alt flags are set exactly when the key is down, the lock flags
    exactly when the lock key was pressed an odd number of times, and the decoder
    is ready for the next key. *)
Theorem kbd_tracks_modifiers evs :
  Forall event_ok evs ->
  exists d acts, decode_all (history evs) power_on = Some (d, acts) /\ idle d /\
    Z.testbit (kb_flags d) 3 = held 0x2a evs /\ Z.testbit (kb_flags d) 4 = held 0x36 evs /\
    Z.testbit (kb_flags d) 5 = held 0x1d evs /\ Z.testbit (kb_flags d) 7 = held 0x38 evs /\
    Z.testbit (kb_flags d) 0 = toggled 0x46 evs /\ Z.testbit (kb_flags d) 1 = toggled 0x45 evs /\
    Z.testbit (kb_flags d) 2 = toggled 0x3a evs.
Proof.
  intros Hevs. destruct (decode_history evs Hevs) as (d & acts & Hd & Hi & []). exists d, acts.
  split; [done|]. split; [done|]. by repeat split.
Qed.

(** The right control and alt keys stick.  Their flags are set by the first
    press and never cleared: the break code after 0xe0 is ignored, so from then
    on every key is read as if control (or alt) were held. *)
Theorem right_modifiers_stick evs :
  Forall event_ok evs ->
  exists d acts, decode_all (history evs) power_on = Some (d, acts) /\
    Z.testbit (kb_flags d) 6 = ever_xpressed 0x1d evs /\ Z.testbit (kb_flags d) 8 = ever_xpressed 0x38 evs /\
    (ever_xpressed 0x1d evs = true -> key_col (kb_flags d) = 1 \/ key_col (kb_flags d) = 2).
Proof.
  intros Hevs. destruct (decode_history evs Hevs) as (d & acts & Hd & Hi & []). exists d, acts. split; [done|]. split; [done|]. split; [done|].
  intros Hx. rewrite Hx in *. unfold key_col. destruct (has_bits (kb_flags d) LSHIFT || has_bits (kb_flags d) RSHIFT); [by left|].
  right. assert (has_bits (kb_flags d) RCTRL = true) as ->; [|by rewrite orb_true_r].
  unfold has_bits. destruct (Z.eqb_spec (Z.land (kb_flags d) RCTRL) 0) as [E|]; [|done]. exfalso.
  apply (f_equal (fun z => Z.testbit z 6)) in E. rewrite Z.land_spec, tr_rctrl0 in E. done.
Qed.

(** * The ring buffer is a queue *)

Definition buf_ok (i : input_info) : Prop :=
  zlen (input_buf i) = KB_BUF_SIZE /\ 0 <= kbhead i < KB_BUF_SIZE /\ 0 <= kbtail i < KB_BUF_SIZE.

(** The codes not read yet, oldest first. *)
Definition slot (i : input_info) (k : Z) : Z := default 0 (zget (input_buf i) ((kbhead i + k) mod KB_BUF_SIZE)).
Definition count (i : input_info) : Z := (kbtail i - kbhead i) mod KB_BUF_SIZE.
Definition contents (i : input_info) : list Z := slot i <$> seqZ 0 (count i).

Ltac mod_lia := unfold KB_BUF_SIZE in *; Z.div_mod_to_equations; lia.

Lemma count_range i : 0 <= count i < KB_BUF_SIZE.
Proof. unfold count. apply Z.mod_pos_bound. unfold KB_BUF_SIZE. lia. Qed.

Lemma zlen_contents i : zlen (contents i) = count i.
Proof. pose proof (count_range i). unfold contents, zlen. rewrite length_fmap, length_seqZ. lia. Qed.

Lemma cmod_256 x : 0 <= x -> cmod x KB_BUF_SIZE = x mod KB_BUF_SIZE.
Proof. intros. unfold cmod, KB_BUF_SIZE. apply Z.rem_mod_nonneg; lia. Qed.

Lemma fmap_seqZ_ext (f g : Z -> Z) n : (forall k, 0 <= k < n -> f k = g k) -> f <$> seqZ 0 n = g <$> seqZ 0 n.
Proof. intros H. apply list_fmap_ext. intros j x Hj. apply lookup_seqZ in Hj as [-> Hj]. apply H. lia. Qed.

Lemma fmap_seqZ_shift (f : Z -> Z) m n : f <$> seqZ m n = (fun k => f (m + k)) <$> seqZ 0 n.
Proof. rewrite <- (Z.add_0_r m) at 1. rewrite <- fmap_add_seqZ, <- list_fmap_compose. done. Qed.

(** Putting appends, unless 255 codes are waiting. *)
Lemma buf_put_contents c i :
  buf_ok i ->
  exists i', buf_put c i = Some i' /\ buf_ok i' /\ input_buf_lock i' = input_buf_lock i /\ input_available i' = input_available i /\
    contents i' = if zlen (contents i) <? 255 then contents i ++ [s16 c] else contents i.
Proof.
  intros (Hl & Hh & Ht). rewrite zlen_contents. pose proof (count_range i). unfold buf_put. rewrite cmod_256 by lia.
  destruct (Z.eqb_spec ((kbtail i + 1) mod KB_BUF_SIZE) (kbhead i)) as [E|E]; cbn [negb].
  - exists i. split; [done|]. split; [done|]. split; [done|]. split; [done|].
    destruct (Z.ltb_spec (count i) 255); [|done]. exfalso. unfold count in *. mod_lia.
  - destruct (Z.ltb_spec (count i) 255); [|exfalso; unfold count in *; mod_lia].
    assert (0 <= kbtail i < zlen (input_buf i)) as Hr by (rewrite Hl; lia).
    pose proof (zset_Some (input_buf i) (kbtail i) (s16 c) Hr) as Hz. rewrite Hz. cbn [mbind option_bind]. eexists. split; [done|].
    split; [split; [by rewrite <- Hl; apply (zlen_zset _ _ _ _ Hz)|split; [done|]]; simpl; mod_lia|]. split; [done|]. split; [done|].
    unfold contents at 1. assert (count (with_tail ((kbtail i + 1) mod KB_BUF_SIZE) (with_buf (<[Z.to_nat (kbtail i) := s16 c]> (input_buf i)) i)) = count i + 1) as ->
      by (unfold count in *; simpl; mod_lia).
    rewrite seqZ_app by lia. rewrite fmap_app. f_equal.
    + apply fmap_seqZ_ext. intros k Hk. unfold slot. simpl. rewrite (zget_zset_ne _ _ _ _ _ Hz); [done|]. unfold count in Hk. mod_lia.
    + rewrite seqZ_cons by lia. simpl. unfold slot. simpl.
      assert ((kbhead i + (0 + count i)) mod KB_BUF_SIZE = kbtail i) as -> by (unfold count; mod_lia).
      by rewrite (zget_zset_eq _ _ _ _ Hz).
Qed.

(** Taking at the buffer's own head removes the oldest code. *)
Lemma buf_take_contents i :
  buf_ok i -> kbtail i <> kbhead i ->
  exists c i', buf_take (kbhead i) i = Some (c, i') /\ buf_ok i' /\ input_buf_lock i' = input_buf_lock i /\
    input_available i' = input_available i /\ contents i = c :: contents i'.
Proof.
  intros (Hl & Hh & Ht) Hne. destruct (zget_is_Some (input_buf i) (kbhead i)) as [c Hc]; [lia|]. unfold buf_take. rewrite Hc, cmod_256 by lia.
  cbn [mbind option_bind]. do 2 eexists. split; [done|]. split; [split; [done|]; simpl; mod_lia|]. split; [done|]. split; [done|].
  assert (0 < count i) by (unfold count; mod_lia). unfold contents. rewrite (seqZ_cons 0 (count i)) by lia. simpl. f_equal.
  - unfold slot. rewrite Z.add_0_r, Z.mod_small by lia. by rewrite Hc.
  - assert (count (with_head ((kbhead i + 1) mod KB_BUF_SIZE) i) = Z.pred (count i)) as -> by (unfold count in *; simpl; mod_lia).
    rewrite (fmap_seqZ_shift _ (Z.succ 0)). apply fmap_seqZ_ext. intros k Hk. unfold slot. simpl.
    do 2 f_equal. mod_lia.
Qed.

Lemma contents_nil i : buf_ok i -> kbtail i = kbhead i -> contents i = [].
Proof. intros _ E. unfold contents, count. rewrite E, Z.sub_diag. done. Qed.

Section DriverSpecs.
Context {K : Type} `{!Monitor K}.
Implicit Types s : kbd K.

(** The process [f] has the keyboard and its input record is in order. *)
Definition has_focus (s : kbd K) (f : loc) (i : input_info) : Prop :=
  kbd_focus (disp s) = Some f /\ inputs s !! f = Some i /\ buf_ok i /\
  consistent (kern s) /\ is_event (kern s) (input_available i).

Lemma focus_input_Some s f i : has_focus s f i -> focus_input s = Some (f, i).
Proof. intros (H1 & H2 & _). unfold focus_input. rewrite H1. cbn [mbind option_bind]. by rewrite H2. Qed.

(** A key that is struck reaches the process on display.  When the buffer's
    lock is free, [input_insert] appends the code to the queue of the process
    that has the keyboard (or drops it when 255 codes are waiting), wakes the
    readers, gives the lock back and touches no other process's buffer. *)
Theorem input_insert_appends s f i c :
  has_focus s f i -> lock_free (kern s) (input_buf_lock i) -> c <> 0x1E00 -> c <> 0x1E01 ->
  exists s' i', input_insert c s = Some (Done, s') /\ inputs s' = <[f := i']> (inputs s) /\ buf_ok i' /\
    contents i' = (if zlen (contents i) <? 255 then contents i ++ [s16 c] else contents i) /\
    consistent (kern s') /\ lock_free (kern s') (input_buf_lock i) /\ disp s' = disp s.
Proof.
  intros Hf Hl H1 H2. pose proof Hf as (Hkf & Hi & Hb & Hk & He). unfold input_insert.
  destruct (Z.eqb_spec c 0x1E00); [done|]. destruct (Z.eqb_spec c 0x1E01); [done|]. rewrite (focus_input_Some s f i Hf). cbn [mbind option_bind].
  unfold lock_then, do_lock. destruct (lock_ok (kern s) (input_buf_lock i) Hk Hl) as (k1 & -> & Hk1 & Hm & _ & Hev). cbn [mbind option_bind continue].
  unfold input_insert_2. change (focus_input (set_kern k1 s)) with (focus_input s). rewrite (focus_input_Some s f i Hf). cbn [mbind option_bind].
  destruct (buf_put_contents c i Hb) as (i' & -> & Hb' & _ & _ & Hc). cbn [mbind option_bind]. unfold do_wake. cbn [kern set_inputs set_kern].
  destruct (wake_ok k1 (input_available i) Hk1 (Hev _ He)) as (n2 & k2 & -> & Hk2 & Hm2). cbn [mbind option_bind]. unfold do_unlock. cbn [kern set_kern].
  destruct (unlock_ok k2 (input_buf_lock i) Hk2 (Hm2 _ Hm)) as (k3 & -> & Hk3 & Hfree). cbn [mbind option_bind].
  eexists _, i'. split; [done|]. done.
Qed.

(** The loop of [kbd_read] for the process that has the keyboard. *)
Lemma kbd_read_loop_spec n s f i buf :
  has_focus s f i ->
  exists s' i', kbd_read_loop n f s buf = Some (buf ++ ((fun c => s8 (Z.land c 0xFF)) <$> take n (contents i)), s') /\
    inputs s' = <[f := i']> (inputs s) /\ buf_ok i' /\ contents i' = drop n (contents i) /\
    kern s' = kern s /\ disp s' = disp s.
Proof.
  revert s i buf. induction n as [|n IH]; intros s i buf Hf; pose proof Hf as (Hkf & Hi & Hb & Hk & He); cbn [kbd_read_loop].
  - exists s, i. rewrite take_0. simpl. rewrite app_nil_r, drop_0, insert_id by done. done.
  - rewrite Hi. cbn [mbind option_bind]. destruct (Z.eqb_spec (kbtail i) (kbhead i)) as [E|E].
    + exists s, i. rewrite (contents_nil i Hb E). simpl. rewrite app_nil_r, insert_id by done. done.
    + rewrite (focus_input_Some s f i Hf). cbn [mbind option_bind].
      destruct (buf_take_contents i Hb E) as (c & i1 & -> & Hb1 & Hl1 & He1 & Hc). cbn [mbind option_bind].
      destruct (IH (set_inputs (<[f := i1]> (inputs s)) s) i1 (buf ++ [s8 (Z.land c 0xFF)])) as (s' & i' & -> & Hin & Hb' & Hc' & Hk' & Hd').
      { split; [done|]. split; [simpl; apply lookup_insert_eq|]. split; [done|]. split; [done|]. simpl. by rewrite He1. }
      exists s', i'. rewrite Hc. simpl. rewrite <- app_assoc. split; [done|]. split; [rewrite Hin; simpl; apply insert_insert_eq|]. done.
Qed.

(** Reading returns what was typed, in order.  [kbd_read] of the process on
    display, with its lock held and codes waiting, returns the characters of the
    oldest [nbytes] of them and leaves the rest; with nothing waiting it gives up
    the lock and sleeps until a key is struck. *)
Theorem kbd_read_returns_oldest s f i nbytes :
  has_focus s f i -> lock_mine (kern s) (input_buf_lock i) -> may_block (kern s) -> 0 <= nbytes ->
  exists s', consistent (kern s') /\ lock_free (kern s') (input_buf_lock i) /\
    if bool_decide (contents i = []) then
      kbd_read_2 f nbytes s = Some (None, s') /\ inputs s' = inputs s
    else
      kbd_read_2 f nbytes s = Some (Some ((fun c => s8 (Z.land c 0xFF)) <$> take (Z.to_nat nbytes) (contents i)), s') /\
      exists i', inputs s' = <[f := i']> (inputs s) /\ buf_ok i' /\ contents i' = drop (Z.to_nat nbytes) (contents i).
Proof.
  intros Hf Hm Hmb Hn. pose proof Hf as (Hkf & Hi & Hb & Hk & He). unfold kbd_read_2. rewrite Hi. cbn [mbind option_bind].
  destruct (Z.eqb_spec (kbtail i) (kbhead i)) as [E|E].
  - rewrite (contents_nil i Hb E). destruct (sleep_ok (kern s) _ _ Hk Hmb He Hm) as (k' & -> & Hk' & Hl' & _). cbn [mbind option_bind].
    exists (set_kern k' s). split; [done|]. split; [done|]. by rewrite bool_decide_eq_true_2.
  - destruct (buf_take_contents i Hb E) as (c & i1 & _ & _ & _ & _ & Hc). rewrite bool_decide_eq_false_2 by (by rewrite Hc).
    destruct (kbd_read_loop_spec (Z.to_nat nbytes) s f i [] Hf) as (s1 & i' & -> & Hin & Hb' & Hc' & Hk' & _). cbn [mbind option_bind app].
    unfold do_unlock. rewrite Hk'. destruct (unlock_ok (kern s) _ Hk Hm) as (k2 & -> & Hk2 & Hl2). cbn [mbind option_bind].
    exists (set_kern k2 s1). split; [done|]. split; [done|]. split; [done|]. exists i'. done.
Qed.

(** A process in the background reads at the wrong place.  [kbd_getchar] takes
    the code at the head index of the process on display, not at its own: it
    returns whatever its buffer holds there and drops its own oldest code. *)
Theorem background_read_wrong_slot s f fi p i c :
  has_focus s f fi -> inputs s !! p = Some i -> buf_ok i -> kbtail i <> kbhead i -> lock_mine (kern s) (input_buf_lock i) ->
  zget (input_buf i) (kbhead fi) = Some c ->
  exists s' i' c0, kbd_getchar_2 p s = Some (Some (u16 c), s') /\ inputs s' = <[p := i']> (inputs s) /\ contents i = c0 :: contents i'.
Proof.
  intros Hf Hi Hb Hne Hm Hz. pose proof Hf as (Hkf & _ & _ & Hk & _). unfold kbd_getchar_2. rewrite Hi. cbn [mbind option_bind].
  destruct (Z.eqb_spec (kbtail i) (kbhead i)); [done|]. rewrite (focus_input_Some s f fi Hf). cbn [mbind option_bind].
  destruct (buf_take_contents i Hb Hne) as (c0 & i1 & Ht & _ & _ & _ & Hc). unfold buf_take in *. rewrite Hz. cbn [mbind option_bind].
  destruct (zget (input_buf i) (kbhead i)); [|done]. cbn [mbind option_bind] in Ht. injection Ht as -> Ht.
  unfold do_unlock. cbn [kern set_inputs]. destruct (unlock_ok (kern s) _ Hk Hm) as (k2 & -> & Hk2 & Hl2). cbn [mbind option_bind].
  do 3 eexists. split; [done|]. rewrite Ht. split; [done|exact Hc].
Qed.

End DriverSpecs.

(** Putting a character back overwrites the next one.  [insertkb_char] stores
    at the old head and then moves the head down: the oldest unread code is lost
    and what is read first is whatever the slot below held. *)
Theorem unget_overwrites i c c0 cs :
  buf_ok i -> contents i = c0 :: cs -> zlen (contents i) < 255 -> 32 <= c < 128 ->
  exists i' stale, buf_unget c i = Some (c, i') /\ zget (input_buf i) ((kbhead i - 1) mod KB_BUF_SIZE) = Some stale /\
    contents i' = stale :: s16 (Z.lor c (Z.shiftl c 8)) :: cs.
Proof.
  intros (Hl & Hh & Ht) Hc Hn Hr. rewrite zlen_contents in Hn. pose proof (count_range i).
  assert (0 < count i) as Hpos by (rewrite <- zlen_contents, Hc; unfold zlen; simpl; lia).
  destruct (zget_is_Some (input_buf i) ((kbhead i - 1) mod KB_BUF_SIZE)) as [stale Hs]; [rewrite Hl; mod_lia|].
  unfold buf_unget. destruct (Z.ltb_spec c 32); [lia|].
  assert ((if kbhead i - 1 <? 0 then KB_BUF_SIZE - 1 else kbhead i - 1) = (kbhead i - 1) mod KB_BUF_SIZE) as ->
    by (destruct (Z.ltb_spec (kbhead i - 1) 0); mod_lia).
  destruct (Z.eqb_spec (kbtail i) ((kbhead i - 1) mod KB_BUF_SIZE)) as [E|E]; [exfalso; unfold count in *; mod_lia|]. cbn [negb].
  assert (0 <= kbhead i < zlen (input_buf i)) as Hr' by (rewrite Hl; lia). set (v := u16 _).
  pose proof (zset_Some (input_buf i) (kbhead i) (s16 v) Hr') as Hz. rewrite Hz. cbn [mbind option_bind].
  eexists _, stale. split; [done|]. split; [done|]. unfold contents at 1.
  set (i' := with_head _ _). assert (count i' = 1 + (1 + Z.pred (count i))) as -> by (unfold i', count in *; simpl; mod_lia).
  rewrite (seqZ_app 0 1), (seqZ_app (0 + 1) 1) by lia. rewrite !fmap_app. simpl. f_equal; [|f_equal].
  - unfold slot, i'. simpl. rewrite Z.add_0_r, Zmod_mod. rewrite (zget_zset_ne _ _ _ _ _ Hz) by mod_lia. by rewrite Hs.
  - unfold slot, i'. simpl. change (Z.of_nat 0 + (0 + 1)) with 1. assert (((kbhead i - 1) mod KB_BUF_SIZE + 1) mod KB_BUF_SIZE = kbhead i) as -> by mod_lia.
    rewrite (zget_zset_eq _ _ _ _ Hz). simpl. unfold v, s16, u16. rewrite <- Zplus_mod_idemp_l, Zmod_mod, Zplus_mod_idemp_l. done.
  - unfold contents in Hc. rewrite (seqZ_cons 0 (count i)) in Hc by lia. simpl in Hc. injection Hc as _ <-.
    rewrite (fmap_seqZ_shift _ (0 + 1 + 1)), (fmap_seqZ_shift _ (Z.succ 0)). apply fmap_seqZ_ext. intros k Hk. unfold slot, i'. simpl.
    assert (((kbhead i - 1) mod KB_BUF_SIZE + (0 + 1 + 1 + k)) mod KB_BUF_SIZE = (kbhead i + (Z.succ 0 + k)) mod KB_BUF_SIZE) as -> by mod_lia.
    rewrite (zget_zset_ne _ _ _ _ _ Hz); [done|]. unfold count in Hk. mod_lia.
Qed.

(** * Two processes, the first on display, with lock 10 and event 11 *)

Definition ex_input (h t : Z) : input_info := mk_in 10 11 (seqZ 0x1e61 256) h t.
Definition ex_kbd (k : Sched.kstate) : kbd Sched.kstate :=
  mk_kbd power_on (list_to_map [(1%positive, ex_input 0 3); (2%positive, ex_input 5 7)])
    (list_to_map [(1%positive, Some 2%positive); (2%positive, NULL)]) (Some 1%positive) 10 ex_disp k.

Lemma ex_has_focus k : Lock.lock_inv k -> Lock.has_type k 11 Lock.SYNCH_TYPE_EVENT -> has_focus (ex_kbd k) 1 (ex_input 0 3).
Proof. intros H1 H2. split; [done|]. split; [done|]. split; [split; [by vm_compute|by split]|]. by split. Qed.

Lemma ex_event_l : Lock.has_type Lock.ex_l 11 Lock.SYNCH_TYPE_EVENT.
Proof. eexists. split; [vm_compute; reflexivity|done]. Qed.
Lemma ex_event_h1 : Lock.has_type Lock.ex_h1 11 Lock.SYNCH_TYPE_EVENT.
Proof. eexists. split; [vm_compute; reflexivity|done]. Qed.
Lemma ex_mine : mine_at Lock.ex_h1 10.
Proof. eexists. split; [vm_compute; reflexivity|done]. Qed.

(** Left shift down, right control down and up, caps lock. *)
Definition ex_events : list key_event := [Press 0x3a; XRelease 0x1d; XPress 0x1d; Press 0x2a].
Lemma ex_events_ok : Forall event_ok ex_events.
Proof. repeat constructor; simpl; lia. Qed.

Lemma kbd_tracks_modifiers_witness :
  exists d acts, decode_all (history ex_events) power_on = Some (d, acts) /\ idle d /\
    Z.testbit (kb_flags d) 3 = true /\ Z.testbit (kb_flags d) 4 = false /\
    Z.testbit (kb_flags d) 5 = false /\ Z.testbit (kb_flags d) 7 = false /\
    Z.testbit (kb_flags d) 0 = false /\ Z.testbit (kb_flags d) 1 = false /\ Z.testbit (kb_flags d) 2 = true.
Proof. apply (kbd_tracks_modifiers ex_events ex_events_ok). Defined.

Lemma right_modifiers_stick_witness :
  exists d acts, decode_all (history ex_events) power_on = Some (d, acts) /\
    Z.testbit (kb_flags d) 6 = true /\ Z.testbit (kb_flags d) 8 = false /\
    (true = true -> key_col (kb_flags d) = 1 \/ key_col (kb_flags d) = 2).
Proof. apply (right_modifiers_stick ex_events ex_events_ok). Defined.

Lemma input_insert_appends_witness :
  exists s' i', input_insert 0x1e61 (ex_kbd Lock.ex_l) = Some (Done, s') /\ inputs s' = <[1%positive := i']> (inputs (ex_kbd Lock.ex_l)) /\ buf_ok i' /\
    contents i' = (if zlen (contents (ex_input 0 3)) <? 255 then contents (ex_input 0 3) ++ [s16 0x1e61] else contents (ex_input 0 3)) /\
    consistent (kern s') /\ lock_free (kern s') 10 /\ disp s' = disp (ex_kbd Lock.ex_l).
Proof.
  apply (input_insert_appends (ex_kbd Lock.ex_l) 1 (ex_input 0 3) 0x1e61); [apply ex_has_focus; [exact Lock.ex_l_inv|exact ex_event_l]| |done|done].
  exists Lock.lockobj_init. done.
Defined.

Lemma kbd_read_returns_oldest_witness :
  exists s', consistent (kern s') /\ lock_free (kern s') 10 /\
    (kbd_read_2 1 2 (ex_kbd Lock.ex_h1) = Some (Some ((fun c => s8 (Z.land c 0xFF)) <$> take 2 (contents (ex_input 0 3))), s') /\
     exists i', inputs s' = <[1%positive := i']> (inputs (ex_kbd Lock.ex_h1)) /\ buf_ok i' /\ contents i' = drop 2 (contents (ex_input 0 3))).
Proof.
  apply (kbd_read_returns_oldest (ex_kbd Lock.ex_h1) 1 (ex_input 0 3) 2); [apply ex_has_focus; [exact Lock.ex_h1_inv|exact ex_event_h1]|exact ex_mine| |lia].
  eapply Lock.ex_not_idle; [vm_compute; reflexivity|reflexivity].
Defined.

Lemma background_read_wrong_slot_witness :
  exists s' i' c0, kbd_getchar_2 2 (ex_kbd Lock.ex_h1) = Some (Some 0x1e61, s') /\
    inputs s' = <[2%positive := i']> (inputs (ex_kbd Lock.ex_h1)) /\ contents (ex_input 5 7) = c0 :: contents i'.
Proof.
  apply (background_read_wrong_slot (ex_kbd Lock.ex_h1) 1 (ex_input 0 3) 2 (ex_input 5 7) 0x1e61);
    [apply ex_has_focus; [exact Lock.ex_h1_inv|exact ex_event_h1]|done|split; [by vm_compute|by split]|done|exact ex_mine|done].
Defined.

Lemma unget_overwrites_witness :
  exists i' stale, buf_unget 65 (ex_input 5 7) = Some (65, i') /\ zget (input_buf (ex_input 5 7)) ((5 - 1) mod KB_BUF_SIZE) = Some stale /\
    contents i' = stale :: s16 (Z.lor 65 (Z.shiftl 65 8)) :: [0x1e67].
Proof. apply (unget_overwrites (ex_input 5 7) 65 0x1e66 [0x1e67]); [split; [by vm_compute|by split]|by vm_compute|by vm_compute|lia]. Defined.

End Kbd.
